(* ===== verification/_CoqProject ===== *)
-Q . S2P
Prelude.v
Types.v
Name.v
Identifier.v
Frame.v
Chunk.v
Session.v
FastPacket.v
FastPacketProofs.v
Tp.v
TpInv.v
TpSafety.v
TpTransfer.v
TpOutcome.v
Etp.v
EtpInv.v
EtpSafety.v
EtpTransfer.v
EtpProps.v
AddressClaim.v
AddressClaimProofs.v
BusLoad.v
Requests.v
Transport.v
Network.v
NetworkInv.v
NetworkSteps.v
NetworkSafety.v
NetworkProps.v
NiuWire.v
NiuWireProofs.v
Niu.v
NiuProofs.v
NiuRouterProofs.v
Fixed.v
FixedProofs.v
TpFixed.v
TpFixedProofs.v
DataSpan.v
ScTypes.v
ScMaster.v
ScMasterProofs.v
ScClient.v
ScProofs.v
Clock.v
DdiDatabase.v
DdopObjects.v
Ddop.v
DdopProofs.v
DdopProps.v
DdopHelpers.v
TcTypes.v
TcServer.v
TcServerProofs.v
TcClient.v
TcSystem.v
FsTypes.v
FsPath.v
FsPathProofs.v
FsServer.v
FsProofs.v
FsProps.v
FsStorage.v
FsClient.v
FsClientProofs.v
FsSystem.v
TimTypes.v
TimAssignment.v
TimAuthority.v
TimPlugin.v
TimAuth.v
Heartbeat.v
MaintainPower.v
Guidance.v
SessionEvents.v
AutoDrive.v
AutoDriveProofs.v
SessionCore.v
SessionPlugins.v
SessionDriver.v
