(* ===== verification/Prelude.v ===== *)
(** * Verification of machbus

    machbus is an ISOBUS (ISO 11783), J1939 and NMEA 2000 stack.  This library models
    the network layer of [src/net]: the wire formats, the three multi-frame transports,
    address claiming, the network manager that ties them together, and the interconnection
    unit that bridges two bus segments; and, above it, the protocols of [src/isobus]:
    sequence control, device descriptions, the task controller with its clients, the file
    server, and tractor implement management; and proves them correct.

    ** The program and its parts

    A CAN frame carries a 29-bit identifier (priority, PGN, source, destination) and at
    most eight bytes.  Longer messages are cut into frames by one of three engines, each
    a table of sessions driven by three calls: a send, a frame from the bus, and the
    passage of time.
    - Fast Packet (9 to 223 bytes, no flow control; [src/net/fast_packet.rs]);
    - Transport Protocol (9 to 1785 bytes; broadcast BAM, or RTS/CTS/EOMA connections;
      [src/net/tp/]);
    - Extended Transport Protocol (1786 bytes to 117 MB; RTS/CTS/DPO/EOMA connections;
      [src/net/etp/]).
    A node owns its source address by address claiming ([src/net/address_claimer.rs]):
    it listens, claims, and resolves contests by the numeric order of 64-bit NAMEs.
    The network manager ([src/net/network_manager/iso_network_manager.rs]) owns the control
    functions, their claimers and the engines: it dispatches frames, queues transfers
    behind a busy path, answers requests, obeys commanded addresses, and tears down the
    transfers of an address a control function stops holding.  The interconnection unit
    ([src/net/niu/niu_router_policy.rs]) forwards frames between two segments through
    filters, a rate limiter and a loop guard; its router also translates addresses.  All
    of them build and read frames through [src/net/frame.rs] and [src/net/identifier.rs].

    The application protocols exchange whole messages.  In sequence control
    ([src/isobus/sc]) a master steps its clients through a recorded sequence and both sides
    watch each other's status.  A task controller ([src/isobus/tc]) learns what an implement
    can do from the device descriptor object pool its client uploads, then exchanges process
    data with it while each side proves to the other that it is alive.  A file server
    ([src/isobus/fs]) keeps a volume of files and directories for its clients: requests name
    canonical paths or handles, carry a transaction number under which the answer is kept for
    retransmissions, and stop when the volume is removed or the client falls silent.  In tractor
    implement management ([src/isobus/tim]) an implement authenticates itself, is assigned
    functions of the tractor, and commands them while the local authority and its interlocks
    let it.

    ** The files

    - [Prelude]: [Result], machine integers ([in_u], [wrap], [checked_add],
      [sat_add], ...), bit-level tactics, [Iterator::position] and [Vec::swap_remove],
      the hint database [bus].
    - [Types]: [types.rs], [constants.rs], [error.rs], [pgn.rs], the record of
      [message.rs].
    - [Name], [Identifier], [Frame]: the modules of the same names; [Frame] includes the
      in-tree [CanFrame].
    - [Chunk]: the two byte-copying loops the engines share, and their equivalence with
      list slices.
    - [Session]: [session.rs].
    - [FastPacket], [FastPacketProofs]: the Fast Packet engine and its theorems.
    - [Tp]: the Transport Protocol engine; [TpInv]: its invariant; [TpSafety]:
      preservation by every call; [TpTransfer]: end-to-end delivery; [TpOutcome]: what
      single frames do.
    - [Etp], [EtpInv], [EtpSafety], [EtpTransfer], [EtpProps]: the same for the Extended
      Transport Protocol.
    - [AddressClaim], [AddressClaimProofs]: [address_claimer.rs], [internal_cf.rs],
      [control_function.rs], [state_machine.rs] and [partner_cf.rs], and their theorems.
    - [BusLoad]: [bus_load.rs]; [Requests]: [j1939/pgn_request.rs] and
      [j1939/acknowledgment.rs].
    - [Transport]: the class [TransportEngine] of what the manager calls on an engine,
      the laws [TransportLaws] it relies on, and the TP and ETP instances.
    - [Network]: [IsoNet] and all its methods, as computations of a state and error
      monad; [NetworkInv]: what the claimers promise the manager, the
      manager's invariant and a weakest-precondition calculus for the monad; [NetworkSteps]: the
      loops over control functions and the teardown of an address; [NetworkSafety]: every
      method keeps the invariant; [NetworkProps]: the theorems, over the runs of public
      calls.
    - [NiuWire], [NiuWireProofs]: the wire and storage formats of the interconnection
      unit; [Niu], [NiuProofs]: its forwarding engine, address translation and the
      router; [NiuRouterProofs]: the theorems of the last two.
    - [Fixed], [FixedProofs]: the containers of [fixed.rs]; [TpFixed], [TpFixedProofs]:
      [TpCmdtTx] and [TpRxFixed] of [tp_protocol_types.rs].
    - [DataSpan]: [bitfield.rs], [data_span.rs] and the field readers and writers of
      [message.rs].
    - [ScTypes], [ScMaster], [ScMasterProofs], [ScClient], [ScProofs]: sequence control,
      [isobus/sc]: the master, its clients and the system they make.
    - [Clock]: the ordered maps of the standard library ([BTreeMap], over the class [Ord] and
      its laws [OrdLaws]); [time.rs] and [safety.rs].
    - [DdiDatabase]: the data dictionary of [isobus/tc/ddi_database]; [DdopObjects], [Ddop]:
      the device descriptor object pool of [isobus/tc/objects.rs] and [ddop.rs];
      [DdopProofs]: its parsers and the round trip; [DdopProps]: validation and identifiers;
      [DdopHelpers]: [ddop_helpers.rs].
    - [TcTypes], [TcServer], [TcServerProofs], [TcClient], [TcSystem]: the task controller
      server and client of [isobus/tc] and the pair on one bus.
    - [FsTypes]: [types.rs], [error_codes.rs] of [isobus/fs]; [FsPath], [FsPathProofs]: its
      path rules and the pattern matcher; [FsServer]: the server, every handler; [FsProofs]:
      its invariant and that every handler keeps it; [FsProps]: sharing and retransmissions;
      [FsStorage]: [operations.rs], what requests store, reading back what was written;
      [FsClient], [FsClientProofs]: the client of [isobus/fs/client] and its invariant;
      [FsSystem]: the client and the server on one bus, exchange by exchange.
    - [TimTypes], [TimAssignment], [TimAuth]: [functions.rs], [automation.rs], [messages.rs],
      [facilities.rs], the assignment table and the authentication handshake of
      [isobus/tim], the latter over the class [Crypto] of the packages it calls and their laws
      [CryptoLaws]; [TimAuthority]: [isobus/tim.rs] and the safe mode of [safety.rs];
      [TimPlugin]: the session plugin [session/plugins/tim.rs] and [tractor_commands.rs].
    - [Heartbeat]: [j1939/heartbeat.rs] and its session plugin; [MaintainPower]:
      [j1939/maintain_power.rs] and its session plugin, both with their theorems.
    - [Guidance]: IEEE doubles as the standard library specifies them, the guidance and
      machine-speed codecs of [isobus/implement] over them and the facilities messages.
    - [SessionEvents]: the session's events and [SafeStopTrigger::from_event];
      [AutoDrive], [AutoDriveProofs]: the driving controller
      [session/plugins/autodrive.rs], the GNSS hazards and the shortcut-button guard.
    - [SessionCore]: [session/mod.rs] over the class [Plugin] and its laws [PluginLaws];
      [SessionPlugins]: the plugins it holds, each an instance that fulfils the laws, and the
      stop that reaches all of them; [SessionDriver]: [session/driver.rs] over the class
      [Transport], the fault confinement states and the loss of the bus.

    ** How the model corresponds to the code

    - A struct is a record with the source's fields, an enum an inductive type; a method
      taking [&mut self] takes the record and returns the new one.
    - Integers are [Z] with their width explicit: [+], [-] and [*] that panic on overflow
      in the source are [checked_add], [checked_sub], [checked_mul]; [saturating_add] is
      [sat_add]; an [as] cast is [wrap].
    - A computation that can panic returns [option]; [None] is the panic (overflow, index
      out of range, failed [expect]).  [Result] errors are values of [Result].
    - An [Event] member is the list of the values emitted, in order, returned beside the
      new state (the manager appends them to [net_trace]).  Log output is not modelled.
    - [Vec] session tables are lists in the order of the source: [push] appends,
      [swap_remove] moves the last element into the hole.  A map is a [gmap].
    - [Vec::try_reserve_exact] is the method of class [Allocator], a parameter of the
      model that may refuse any request; the driver's [CanEndpoint] is a class too, whose
      laws say that reading a frame removes it from the receive queue and that the frame
      has eight data bytes.
    - The engines and the network manager are those of the hosted build ([default] or
      [cli]); of the [embedded] build, the containers of [fixed.rs] and the
      allocation-free TP sender and receiver are modelled.

    ** What the theorems show

    - Safety: from every state reachable by any sequence of public calls with arguments
      in their Rust types, the next call of the TP and ETP engines returns without a panic,
      preserves the session invariant and emits well-formed frames
      ([tp_reachable_safe], [tp_process_frame_safe], [etp_reachable_safe]); sessions stay
      addressable by data frames ([tp_paths_unambiguous], [etp_paths_unambiguous]).
    - Delivery: a payload sent by one engine is delivered byte for byte, exactly once,
      by another, whatever else the receiver is doing ([tp_bam_transfer],
      [tp_cmdt_transfer], [etp_transfer], [fp_transfer_interleaved]); the Fast
      Packet engine refines a finite map of sessions ([fp_run_refines]).
    - Single steps: what a data packet, a CTS, a DPO, a timer sweep, a send and the loss of
      an address do on every branch ([tp_dt_sequence], [tp_cts_drain],
      [tp_frame_isolation], [tp_update_sweep], [tp_send_outcome], [tp_abort_for_address]
      and their ETP and Fast Packet counterparts).
    - Address claiming: the invariant tying the claim state, the operational state
      and the address together ([claim_state_invariant]); frames carry only the node's own
      NAME ([claim_frames_own]); in a contest exactly the lower NAME keeps the address
      ([claim_arbitration]); an uncontested node is online within the two windows
      ([claim_uncontested]); the address search, answers to requests and the bound
      on the random delay.
    - The network manager: no public call panics from a reachable state but for a 64-bit
      frame counter running out ([net_no_panic]); every transfer that transmits, queued ones
      included, runs on an address a local control function holds online on that port
      ([net_sessions_owned]); transport frames between other nodes change nothing
      ([net_third_party_frames]); what a send does on every branch ([net_send_transfer]);
      the receive loop ends and loses no frame ([net_drain_complete]); the time a partner
      has to answer ([partner_validation_window]); the load window
      ([bus_load_update_refines]).
    - The interconnection unit: the exact condition under which a frame is forwarded
      ([niu_forward_decision]), no echo within the loop-guard window ([niu_no_echo]),
      counters and spacing ([niu_accounting], [niu_rate_limit]); the translation database is
      a pair of inverse maps ([translation_inverse]) and the router applies it
      ([router_translates]).
    - Wire formats: identifier, NAME, request, acknowledgment and interconnection-unit
      encodings are inverse to their decodings; frame construction and the conversion to and
      from [CanFrame].
    - Field access: bit fields and message fields read back as written
      ([bitfield_laws], [message_field_roundtrip], [message_get_bits_spec]).
    - The embedded build: the fixed-capacity containers refine lists up to their capacity
      ([fixed_queue_refines], [fixed_slots_refines], [fixed_message_roundtrip],
      [buffer_pool_ownership]); the fixed TP receiver refines the hosted engine with one
      session ([tp_rx_fixed_refines]) and receives what the fixed sender sends
      ([tp_fixed_transfer]).
    - Sequence control: whatever calls are made in whatever order, the master never panics and
      keeps its bookkeeping ([sc_master_run]), a client only executes what the master asked for
      last ([sc_client_run]), each side reads the other's statuses as what it sent
      ([sc_status_accepted]) and silence of either side stops the other
      ([sc_silence_stops]).
    - The millisecond clock never loses time ([advance_millis_no_drift]) and the stop latch
      keeps the first failure ([stop_latch_first]).
    - Device descriptions: a pool that serialises is read back as it was ([ddop_roundtrip]),
      any bytes are read without a panic into a well-typed pool or refused
      ([ddop_deserialize_total]), validation accepts exactly the pools of Annex A
      ([ddop_validate_spec]), identifiers are fresh ([ddop_allocate_fresh],
      [ddop_build_distinct]); rate collection ends on acyclic pools and returns what is
      reachable ([rates_tree_spec]), widths follow their precedence ([section_width_spec]);
      the dictionary is the published one ([ddi_table_published], [ddi_lookup_spec],
      [ddi_categories]).
    - Task controller: the handshake ends with the client's pool active at the server
      ([tc_handshake]) and the connection lasts while both sides are serviced
      ([tc_connection_lasts]); no traffic makes the server panic or keep an invalid pool
      ([tc_server_run]); silence is noticed exactly at the timeout on both sides
      ([tc_client_silence], [tc_client_never_waits_forever]); triggers ask for values at
      their cadence ([tc_time_trigger_cadence]) and without feedback
      ([tc_no_request_storm]); peer control survives the wire
      ([tc_peer_control_roundtrip]).
    - File server: no sequence of messages and host calls makes it panic or lose track of a
      handle, and names stay inside the volume ([fs_server_run], [fs_path_confined]); a file
      has one writer or readers only ([fs_no_two_writers]); a retransmission is answered
      without being executed again ([fs_retransmission_once]); reads return what was written
      and nothing else changes ([fs_write_read_back]); which requests store anything
      ([fs_storage_classified]); patterns match as the star and question mark say
      ([fs_wildcard_spec]); what the server announces is read back
      ([fs_codecs_roundtrip]).  Its client never panics either and keeps its tables
      ([fs_client_run]); between the two, a write, a seek and a read transfer exactly the bytes
      and leave both at the same position ([fs_transfer]), both have the same current directory
      ([fs_directory_agrees]), and a client that starts with requests is forgotten
      ([fs_first_requests_forgotten]).
    - Tractor implement management: a side counts its peer as authenticated only over a verified
      chain, an agreed key and the right answer ([tim_auth_sound]), and two honest sides do
      authenticate each other ([tim_auth_mutual]); a function has one owner, assigned only to an
      authenticated client that asked ([tim_assignment_exclusive]) and freed by silence
      ([tim_assignment_silence]); commands pass only while the authority is granted, the
      interlocks are clear, the operator consents and the peer is heard
      ([tim_authority_gate]), and the plugin sends exactly those
      ([tim_plugin_commands]); messages and payloads survive the wire
      ([tim_codecs_roundtrip], [tim_payloads_roundtrip]).
    - Heartbeat: a peer that was heard is reported lost after 301 ms of silence, whatever
      the others send ([heartbeat_watchdog]); a sender heard in time is never suspected, and
      a suspected one is trusted with the eighth good heartbeat in a row
      ([heartbeat_supervision]).
    - Maintain power: after key-off the tractor's power follows its specification of two
      seconds, renewals and three minutes ([power_tecu_refines]), and stays on for an
      implement that asks ([power_kept]).
    - Driving: whatever frames, ticks, events and calls arrive, a hazard latches a
      halt that only an explicit clearing and a new engagement end ([autodrive_stop_latches]);
      a command that intends to steer is only sent while everything that permits it holds
      ([autodrive_steers_only_ready]); commands keep the cadence ([autodrive_cadence]).
    - The session: no call panics, and a stop that any plugin, the network or the application
      reports reaches every plugin within the call ([session_stop_reaches_all]); a bus that goes off
      stops the machine in the poll that reads it ([driver_bus_off_stops]).
    - Some theorems state behaviours the code most likely does not intend:
      [tp_bam_second_pgn_misdelivered], [duplicate_name_while_listening_reclaims],
      [yielded_address_still_defended], [transfer_data_on_wrong_port],
      [restart_keeps_sessions], [refreshed_echo_forwarded], [rate_limit_blackout],
      [router_drop_counted_forwarded],
      [directed_data_accepted], [abort_deadlock], [disabled_client_confirms_abort], [ddop_device_not_first],
      [ddop_cycle_diverges], [ddop_reserved_ddi_unreadable], [tim_queued_command_sent],
      [tim_stop_refused], [auth_stale_key], [auth_survives_refused_chain],
      [hb_fault_laundered], [hb_silent_peer_unnoticed], [hb_early_error_lost],
      [power_early_client], [autodrive_armed_keeps_driving], [autodrive_engages_under_fault],
      [machine_info_reserved_limit], [autodrive_second_button].

    ** Bounds and fuel

    The loops of [update] run with one unit of fuel per session, proved enough because
    every iteration removes a session or advances the index; the address search runs
    its 120 iterations as the source does.  The bus-load loop has one unit per elapsed
    sample period and the receive loop one per frame waiting in the driver, both proved
    enough.  [cmdt_exchange] and [etp_exchange], which let
    two engines talk, take fuel as the number of rounds; the transfer theorems give
    the number that suffices.  Every payload length is the protocol's own range, no
    smaller bound is assumed; the safety theorems take a payload shorter than 4 GiB,
    beyond which [data.len() as u32] truncates.  The manager's theorems take a restart of
    address claiming only where every control function it touches survives it
    ([restartable]); [restart_keeps_sessions] shows why.

    ** Not modelled, and the plan

    What is left out of the session: callbacks only observe (what they capture is not state of
    the model), the host clock is an argument, the payloads of events of subsystems that are not
    modelled are dropped, and the bus states are those the source names of its driver
    crate.  Next: the fixed-capacity ETP and Fast Packet variants; NAME management
    ([name_manager.rs], [management.rs], [working_set.rs]); the other session plugins.  Left
    out: drivers and adapters (I/O), log output, the floating-point statistics ([progress],
    [load_percent]), the diagnostic snapshots and the persistence text of the interconnection
    unit, the C, Python and command-line interfaces.  Not yet modelled: virtual terminal, task
    scheduling and geometry, the sequence recorder, the value slots of TIM, the other J1939 and
    the NMEA codecs. *)
From stdpp Require Export prelude strings pretty list.
From Stdlib Require Export ZArith Lia.

(** ** Scope of the development *)

Declare Scope bus_scope.
Delimit Scope bus_scope with bus.
#[global] Open Scope Z_scope.
#[global] Open Scope bus_scope.

(** Rust's [Result<T, E>]. *)
Inductive Result (A E : Type) : Type :=
| Ok (a : A)
| Err (e : E).
Arguments Ok {A E} a.
Arguments Err {A E} e.

(** ** Machine integers

    A [w]-bit unsigned integer is a [Z] in [0, 2^w).  [checked_add] and
    [checked_sub] are Rust's [+] and [-], which panic on overflow: [None] is the
    panic.  [sat_add] and [sat_sub] are [saturating_add] and [saturating_sub],
    [wrap] is the truncating [as] cast and [not_u] is the bitwise [!]. *)

Definition in_u (w x : Z) : Prop := 0 <= x < 2 ^ w.
Abbreviation u8 := (in_u 8) (only parsing).
Abbreviation u16 := (in_u 16) (only parsing).
Abbreviation u32 := (in_u 32) (only parsing).
Abbreviation u64 := (in_u 64) (only parsing).

Definition wrap (w x : Z) : Z := x mod 2 ^ w.
Definition not_u (w x : Z) : Z := Z.ldiff (Z.ones w) x.

Definition checked_add (w a b : Z) : option Z :=
  if a + b <? 2 ^ w then Some (a + b) else None.
Definition checked_sub (a b : Z) : option Z :=
  if b <=? a then Some (a - b) else None.
Definition checked_mul (w a b : Z) : option Z :=
  if a * b <? 2 ^ w then Some (a * b) else None.
Definition sat_add (w a b : Z) : Z := Z.min (a + b) (2 ^ w - 1).
Definition sat_sub (a b : Z) : Z := Z.max (a - b) 0.

(** Rust's [a.div_ceil(b)] on unsigned integers. *)
Definition div_ceil (a b : Z) : Z :=
  if a mod b =? 0 then a / b else a / b + 1.

#[global] Instance in_u_dec w x : Decision (in_u w x).
Proof. unfold in_u. apply _. Defined.

Lemma checked_add_Some w a b :
  a + b < 2 ^ w -> checked_add w a b = Some (a + b).
Proof. unfold checked_add. intros. by rewrite (proj2 (Z.ltb_lt _ _)). Qed.

Lemma checked_sub_Some a b : b <= a -> checked_sub a b = Some (a - b).
Proof. unfold checked_sub. intros. by rewrite (proj2 (Z.leb_le _ _)). Qed.

Lemma checked_mul_Some w a b :
  a * b < 2 ^ w -> checked_mul w a b = Some (a * b).
Proof. unfold checked_mul. intros. by rewrite (proj2 (Z.ltb_lt _ _)). Qed.

Lemma in_u_sat_add w a b : 0 <= w -> 0 <= a -> 0 <= b -> in_u w (sat_add w a b).
Proof.
  unfold in_u, sat_add. intros.
  assert (0 < 2 ^ w) by (apply Z.pow_pos_nonneg; lia). lia.
Qed.

Lemma in_u_wrap w x : 0 <= w -> in_u w (wrap w x).
Proof. intros. apply Z.mod_pos_bound, Z.pow_pos_nonneg; lia. Qed.

Lemma wrap_small w x : in_u w x -> wrap w x = x.
Proof. apply Z.mod_small. Qed.

Lemma div_ceil_7 a : 0 <= a -> 7 * div_ceil a 7 - 7 < a <= 7 * div_ceil a 7.
Proof.
  intros. unfold div_ceil.
  pose proof (Z.div_mod a 7). pose proof (Z.mod_pos_bound a 7).
  destruct (Z.eqb_spec (a mod 7) 0); lia.
Qed.

(** The number of packets is the least number whose 7-byte chunks cover the
    payload: the characterisation every transport proof uses. *)
Lemma div_ceil_7_le a k : 0 <= a -> div_ceil a 7 <= k <-> a <= 7 * k.
Proof. intros. pose proof (div_ceil_7 a). lia. Qed.

Lemma div_ceil_7_lt a k : 0 <= a -> k < div_ceil a 7 <-> 7 * k < a.
Proof. intros. pose proof (div_ceil_7 a). lia. Qed.

#[global] Opaque div_ceil.

(** ** Tactics *)

(** Destruct the boolean tests the goal branches on, with the matching
    arithmetic fact in the context. *)
Ltac case_bool :=
  match goal with
  | |- context [Z.eqb ?a ?b] => destruct (Z.eqb_spec a b)
  | |- context [Z.ltb ?a ?b] => destruct (Z.ltb_spec a b)
  | |- context [Z.leb ?a ?b] => destruct (Z.leb_spec a b)
  | |- context [Nat.eqb ?a ?b] => destruct (Nat.eqb_spec a b)
  | |- context [Nat.ltb ?a ?b] => destruct (Nat.ltb_spec a b)
  | |- context [Nat.leb ?a ?b] => destruct (Nat.leb_spec a b)
  end.

(** Reflect boolean hypotheses to arithmetic ones. *)
Ltac reflect_bools :=
  repeat match goal with
  | H : _ && _ = true |- _ => apply andb_true_iff in H as [? ?]
  | H : _ || _ = false |- _ => apply orb_false_iff in H as [? ?]
  | H : negb _ = true |- _ => apply negb_true_iff in H
  | H : negb _ = false |- _ => apply negb_false_iff in H
  | H : Z.eqb _ _ = true |- _ => apply Z.eqb_eq in H
  | H : Z.eqb _ _ = false |- _ => apply Z.eqb_neq in H
  | H : Z.ltb _ _ = true |- _ => apply Z.ltb_lt in H
  | H : Z.ltb _ _ = false |- _ => apply Z.ltb_ge in H
  | H : Z.leb _ _ = true |- _ => apply Z.leb_le in H
  | H : Z.leb _ _ = false |- _ => apply Z.leb_gt in H
  | H : Nat.ltb _ _ = true |- _ => apply Nat.ltb_lt in H
  | H : Nat.ltb _ _ = false |- _ => apply Nat.ltb_ge in H
  | H : Nat.leb _ _ = true |- _ => apply Nat.leb_le in H
  | H : Nat.leb _ _ = false |- _ => apply Nat.leb_gt in H
  | H : bool_decide _ = true |- _ => apply bool_decide_eq_true in H
  | H : bool_decide _ = false |- _ => apply bool_decide_eq_false in H
  end.

(** Invert [Some]-valued monadic computations in the context. *)
Ltac inv_option :=
  repeat match goal with
  | H : Some _ = Some _ |- _ => injection H as H; simplify_eq
  | H : None = Some _ |- _ => discriminate H
  | H : Some _ = None |- _ => discriminate H
  | H : (_ ≫= _) = Some _ |- _ => apply bind_Some in H as (? & ? & H)
  | H : (_ <$> _) = Some _ |- _ => apply fmap_Some in H as (? & ? & H)
  end.

(** ** Bit reasoning

    [bits] proves equalities between bit expressions whose shifts and masks are
    literals or [Z.ones] of a literal. *)

Lemma testbit_high w x n : in_u w x -> 0 <= w <= n -> Z.testbit x n = false.
Proof.
  intros Hx Hn. rewrite <- (Z.mod_small x (2 ^ w)) by exact Hx.
  apply Z.mod_pow2_bits_high. lia.
Qed.

Lemma testbit_ones w n :
  0 <= w -> Z.testbit (Z.ones w) n = (0 <=? n) && (n <? w).
Proof. intros. apply Z.testbit_ones. done. Qed.

Lemma shiftl_testbit a k n :
  0 <= n -> Z.testbit (Z.shiftl a k) n = Z.testbit a (n - k).
Proof. intros. by apply Z.shiftl_spec. Qed.

Lemma land_ones_small w x : 0 <= w -> in_u w x -> Z.land x (Z.ones w) = x.
Proof. intros. rewrite Z.land_ones by lia. by apply Z.mod_small. Qed.

Lemma in_u_land_ones w x : 0 <= w -> in_u w (Z.land x (Z.ones w)).
Proof. intros. rewrite Z.land_ones by lia. by apply in_u_wrap. Qed.

Lemma in_u_bits w x :
  0 <= w -> 0 <= x -> (forall n, w <= n -> Z.testbit x n = false) -> in_u w x.
Proof.
  intros Hw Hx Hb. replace x with (Z.land x (Z.ones w)).
  - by apply in_u_land_ones.
  - apply Z.bits_inj'. intros n Hn. rewrite Z.land_spec, testbit_ones by lia.
    destruct (Z.ltb_spec n w).
    + rewrite (proj2 (Z.leb_le 0 n)) by lia. by rewrite andb_true_r.
    + rewrite andb_false_r, andb_false_r. symmetry. apply Hb. lia.
Qed.

Lemma in_u_lor w a b : 0 <= w -> in_u w a -> in_u w b -> in_u w (Z.lor a b).
Proof.
  intros Hw Ha Hb. apply in_u_bits; [done| |].
  - apply Z.lor_nonneg. split; [apply Ha|apply Hb].
  - intros n Hn. by rewrite Z.lor_spec, (testbit_high w), (testbit_high w).
Qed.

Lemma in_u_shiftl w k a :
  0 <= k -> 0 <= w -> in_u w a -> in_u (w + k) (Z.shiftl a k).
Proof.
  unfold in_u. intros Hk Hw [Ha1 Ha2]. rewrite Z.shiftl_mul_pow2 by lia.
  assert (0 < 2 ^ k) by (apply Z.pow_pos_nonneg; lia).
  rewrite Z.pow_add_r by lia. nia.
Qed.

Lemma in_u_mono w w' a : 0 <= w <= w' -> in_u w a -> in_u w' a.
Proof.
  unfold in_u. intros ? [? ?].
  pose proof (Z.pow_le_mono_r 2 w w'). lia.
Qed.

(** One normalisation step of a [Z.testbit] goal; every side condition is decided
    by [lia], so the caller splits the bit index into ranges first. *)
Ltac bit_step :=
  match goal with
  | |- context [Z.testbit (Z.lor ?a ?b) ?n] => rewrite (Z.lor_spec a b n)
  | |- context [Z.testbit (Z.land ?a ?b) ?n] => rewrite (Z.land_spec a b n)
  | |- context [Z.testbit (Z.lxor ?a ?b) ?n] => rewrite (Z.lxor_spec a b n)
  | |- context [Z.testbit (Z.ldiff ?a ?b) ?n] => rewrite (Z.ldiff_spec a b n)
  | |- context [Z.testbit (Z.shiftr ?a ?k) ?n] => rewrite (Z.shiftr_spec a k n) by lia
  | |- context [Z.testbit (Z.shiftl ?a ?k) ?n] => rewrite (Z.shiftl_spec a k n) by lia
  | |- context [Z.testbit (Z.ones ?w) ?n] => rewrite (testbit_ones w n) by lia
  | |- context [Z.testbit 0 ?n] => rewrite (Z.testbit_0_l n)
  | |- context [Z.testbit ?a ?n] => rewrite (Z.testbit_neg_r a n) by lia
  | H : in_u ?w ?x |- context [Z.testbit ?x ?n] => rewrite (testbit_high w x n H) by lia
  | |- context [?a <? ?b] => rewrite (proj2 (Z.ltb_lt a b)) by lia
  | |- context [?a <? ?b] => rewrite (proj2 (Z.ltb_ge a b)) by lia
  | |- context [?a <=? ?b] => rewrite (proj2 (Z.leb_le a b)) by lia
  | |- context [?a <=? ?b] => rewrite (proj2 (Z.leb_gt a b)) by lia
  end.

Ltac bits_norm :=
  repeat bit_step;
  rewrite ?andb_true_r, ?andb_false_r, ?orb_false_r, ?orb_true_r,
    ?andb_true_l, ?andb_false_l, ?orb_false_l, ?orb_true_l.

(** Close a normalised bit goal. *)
Ltac bits_done := simpl; try done; try (f_equal; lia); try lia.

(** ** Lists *)

(** [Iterator::position]: index of the first element satisfying [p]. *)
Fixpoint position {A} (p : A -> bool) (l : list A) : option nat :=
  match l with
  | [] => None
  | x :: l => if p x then Some 0%nat else S <$> position p l
  end.

(** [Vec::swap_remove]: the removed element and the remaining vector, whose last
    element takes the vacated index; [None] is the out-of-range panic. *)
Definition swap_remove {A} (i : nat) (l : list A) : option (A * list A) :=
  x ← l !! i;
  y ← last l;
  Some (x, take (length l - 1) (<[i:=y]> l)).

Section position.
Context {A : Type} (p : A -> bool).

Lemma position_Some l i :
  position p l = Some i ->
  exists x, l !! i = Some x /\ p x = true /\
    forall j y, (j < i)%nat -> l !! j = Some y -> p y = false.
Proof.
  revert i. induction l as [|x l IH]; simpl; intros i Hi; [done|].
  destruct (p x) eqn:Hp; [simplify_eq|apply fmap_Some in Hi as (k & Hk & ->)].
  - exists x. repeat split; try done. intros; lia.
  - destruct (IH _ Hk) as (y & Hy & Hpy & Hlt). exists y.
    repeat split; try done. intros [|j] z Hj Hz; simpl in *; [congruence|].
    eapply Hlt; [|done]. lia.
Qed.

Lemma position_None l : position p l = None <-> Forall (fun x => p x = false) l.
Proof.
  induction l as [|x l IH]; simpl; [done|].
  rewrite Forall_cons, <- IH. destruct (p x) eqn:Hp.
  - split; [done|]. by intros [? _].
  - destruct (position p l); simpl; split; try done. by intros [_ ?].
Qed.

Lemma position_lt l i : position p l = Some i -> (i < length l)%nat.
Proof. intros (x & Hx & _)%position_Some. by eapply lookup_lt_Some. Qed.
End position.

Lemma list_focus {A} (l : list A) i x :
  l !! i = Some x ->
  exists r, l ≡ₚ x :: r /\ forall y, <[i:=y]> l ≡ₚ y :: r.
Proof.
  intros Hi. exists (take i l ++ drop (S i) l). split.
  - rewrite <- (take_drop_middle l i x) at 1 by done.
    by rewrite Permutation_middle.
  - intros y. rewrite insert_take_drop by (by eapply lookup_lt_Some).
    by rewrite Permutation_middle.
Qed.

Lemma swap_remove_Some {A} (l : list A) i x :
  l !! i = Some x ->
  exists l', swap_remove i l = Some (x, l') /\ l ≡ₚ x :: l'.
Proof.
  intros Hi. unfold swap_remove. rewrite Hi. simpl.
  destruct (last l) as [y|] eqn:Hy; simpl.
  2: { apply last_None in Hy. by subst. }
  eexists. split; [done|].
  apply last_Some in Hy as [l0 ->].
  rewrite length_app, Nat.add_sub. simpl.
  destruct (decide (i = length l0)) as [->|Hne].
  - rewrite lookup_app_r, Nat.sub_diag in Hi by lia. simpl in Hi. simplify_eq.
    rewrite take_insert_ge, take_app_length by lia.
    by rewrite Permutation_app_comm.
  - apply lookup_lt_Some in Hi as Hlt. rewrite length_app in Hlt. simpl in Hlt.
    rewrite lookup_app_l in Hi by lia.
    rewrite insert_app_l, take_app_length' by (try rewrite length_insert; lia).
    destruct (list_focus l0 i x Hi) as (r & Hr & Hins).
    rewrite Hins, Hr. simpl. constructor. by rewrite <- Permutation_cons_append.
Qed.

Lemma swap_remove_inv {A} (l : list A) i x l' :
  swap_remove i l = Some (x, l') -> l !! i = Some x /\ l ≡ₚ x :: l'.
Proof.
  intros H. destruct (l !! i) as [x'|] eqn:Hi.
  - destruct (swap_remove_Some l i x' Hi) as (l2 & Hl & ?). by simplify_eq.
  - unfold swap_remove in H. by rewrite Hi in H.
Qed.

(** Where [swap_remove] leaves the elements: the prefix is untouched, the suffix is
    rotated. *)
Definition rotate {A} (l : list A) : list A :=
  match last l with
  | None => []
  | Some y => y :: take (length l - 1) l
  end.

Lemma rotate_perm {A} (l : list A) : rotate l ≡ₚ l.
Proof.
  unfold rotate. destruct (last l) as [y|] eqn:E.
  - apply last_Some in E as [l0 ->]. rewrite length_app, Nat.add_sub, take_app_length.
    by rewrite Permutation_cons_append.
  - apply last_None in E. by subst.
Qed.

Lemma swap_remove_split {A} (a b : list A) x :
  swap_remove (length a) (a ++ x :: b) = Some (x, a ++ rotate b).
Proof.
  unfold swap_remove, rotate. rewrite list_lookup_middle by done. simpl.
  rewrite last_app, last_cons. destruct (last b) as [y|] eqn:E; simpl.
  - do 2 f_equal. apply last_Some in E as [c ->].
    rewrite insert_app_r_alt, Nat.sub_diag by lia. simpl.
    rewrite !length_app. simpl. rewrite length_app. simpl.
    rewrite Nat.add_sub, take_app_length.
    replace (length a + S (length c + 1) - 1)%nat with (length a + (1 + length c))%nat by lia.
    rewrite take_app_add. simpl. by rewrite take_app_length.
  - apply last_None in E as ->. rewrite insert_app_r_alt, Nat.sub_diag by lia. simpl.
    rewrite length_app. simpl. rewrite Nat.add_sub, take_app_length, app_nil_r. done.
Qed.

Lemma swap_remove_length {A} (l : list A) i x l' :
  swap_remove i l = Some (x, l') -> length l = S (length l').
Proof. intros [_ ->%Permutation_length]%swap_remove_inv. done. Qed.

Lemma Forall_swap_remove {A} (P : A -> Prop) l i x l' :
  swap_remove i l = Some (x, l') -> Forall P l -> P x /\ Forall P l'.
Proof. intros [_ ->]%swap_remove_inv. by rewrite Forall_cons. Qed.

Lemma Forall_insert_P {A} (P : A -> Prop) (l : list A) i x :
  Forall P l -> P x -> Forall P (<[i:=x]> l).
Proof. intros. by apply Forall_insert. Qed.

Lemma NoDup_fmap_filter {A B} (f : A -> B) (P : A -> Prop) `{forall x, Decision (P x)}
    (l : list A) :
  NoDup (f <$> l) -> NoDup (f <$> filter P l).
Proof.
  intros Hn. eapply sublist_NoDup; [exact Hn|]. clear Hn.
  induction l as [|x l IH]; [constructor|]. rewrite filter_cons.
  case_decide; simpl; by constructor.
Qed.

Lemma Forall_filter_P {A} (Q P : A -> Prop) `{forall x, Decision (P x)} (l : list A) :
  Forall Q l -> Forall Q (filter P l).
Proof. induction 1; rewrite ?filter_cons; [constructor|]. case_decide; auto. Qed.

Lemma Forall_filter_self {A} (P : A -> Prop) `{forall x, Decision (P x)} (l : list A) :
  Forall P (filter P l).
Proof. apply Forall_forall. by intros x [? _]%list_elem_of_filter. Qed.

(** ** Automation of the common cases *)

Create HintDb bus.
#[export] Hint Resolve in_u_sat_add in_u_wrap in_u_lor in_u_land_ones : bus.
#[export] Hint Resolve Forall_insert_P Forall_nil_2 Forall_cons_2 : bus.
#[export] Hint Extern 4 (_ <= _)%Z => lia : bus.
#[export] Hint Extern 4 (_ < _)%Z => lia : bus.
