(* ===== verification/Types.v ===== *)
(** Domain scalars, protocol constants, errors and PGN helpers: the model of
    [src/net/types.rs], [src/net/constants.rs], [src/net/error.rs],
    [src/net/pgn.rs] (the helper functions) and the [Message] record of
    [src/net/message.rs].  Addresses, ports and bytes are [Z] in [0, 256),
    PGNs are [Z] in [0, 2^32). *)
From S2P Require Export Prelude.

(** ** [types.rs] *)

Abbreviation Address := Z (only parsing).
Abbreviation Pgn := Z (only parsing).

Module Priority.
Inductive t : Type :=
| Highest | High | AboveNormal | Normal | BelowNormal | Low | Default | Lowest.

Definition from_u8 (value : Z) : t :=
  match value with
  | 0 => Highest | 1 => High | 2 => AboveNormal | 3 => Normal
  | 4 => BelowNormal | 5 => Low | 6 => Default | _ => Lowest
  end.

Definition try_from_u8 (value : Z) : option t :=
  match value with
  | 0 => Some Highest | 1 => Some High | 2 => Some AboveNormal | 3 => Some Normal
  | 4 => Some BelowNormal | 5 => Some Low | 6 => Some Default | 7 => Some Lowest
  | _ => None
  end.

Definition as_u8 (p : t) : Z :=
  match p with
  | Highest => 0 | High => 1 | AboveNormal => 2 | Normal => 3
  | BelowNormal => 4 | Low => 5 | Default => 6 | Lowest => 7
  end.

#[global] Instance eq_dec : EqDecision t.
Proof. solve_decision. Defined.

Lemma from_as p : from_u8 (as_u8 p) = p.
Proof. by destruct p. Qed.

Lemma try_from_as p : try_from_u8 (as_u8 p) = Some p.
Proof. by destruct p. Qed.

Lemma as_u8_range p : in_u 3 (as_u8 p).
Proof. destruct p; unfold in_u; simpl; lia. Qed.

Lemma as_from v : in_u 3 v -> as_u8 (from_u8 v) = v.
Proof.
  unfold in_u. intros. simpl in *.
  assert (v = 0 \/ v = 1 \/ v = 2 \/ v = 3 \/ v = 4 \/ v = 5 \/ v = 6 \/ v = 7)
    by lia.
  by destruct_or!; subst.
Qed.
End Priority.

(** ** [constants.rs] *)

Definition NULL_ADDRESS : Address := 0xFE.
Definition BROADCAST_ADDRESS : Address := 0xFF.
Definition MAX_ADDRESS : Address := 0xFD.

Definition ADDRESS_CLAIM_TIMEOUT_MS : Z := 250.
Definition ADDRESS_CLAIM_RTXD_MAX_MS : Z := 153.
Definition TP_TIMEOUT_T1_MS : Z := 750.
Definition TP_TIMEOUT_T2_MS : Z := 1250.
Definition TP_TIMEOUT_T3_MS : Z := 1250.
Definition TP_TIMEOUT_T4_MS : Z := 1050.
Definition TP_BAM_INTER_PACKET_MS : Z := 50.
Definition CAN_DATA_LENGTH : Z := 8.
Definition TP_MAX_DATA_LENGTH : Z := 1785.
Definition ETP_MAX_DATA_LENGTH : Z := 117440505.
Definition TP_BYTES_PER_FRAME : Z := 7.
Definition TP_MAX_PACKETS_PER_CTS : Z := 16.
Definition FAST_PACKET_MAX_DATA : Z := 223.

(** The PGNs of [pgn_defs.rs] the transport and claim engines dispatch on. *)
Definition PGN_REQUEST : Pgn := 0xEA00.
Definition PGN_ADDRESS_CLAIMED : Pgn := 0xEE00.
Definition PGN_TP_CM : Pgn := 0xEC00.
Definition PGN_TP_DT : Pgn := 0xEB00.
Definition PGN_ETP_CM : Pgn := 0xC800.
Definition PGN_ETP_DT : Pgn := 0xC700.

(** ** [error.rs] *)

Module ErrorCode.
Inductive t : Type :=
| Ok | Timeout | AddressClaimFailed | AddressConflict | TransportAborted
| TransportTimeout | InvalidPgn | InvalidAddress | InvalidData | BufferOverflow
| NotConnected | InvalidState | PoolError | PoolValidation | SessionExists
| NoResources | DriverError | SocketError | InterfaceDown.

Definition as_str (c : t) : string :=
  match c with
  | Ok => "ok"
  | Timeout => "timeout"
  | AddressClaimFailed => "address claim failed"
  | AddressConflict => "address conflict"
  | TransportAborted => "transport aborted"
  | TransportTimeout => "transport timeout"
  | InvalidPgn => "invalid PGN"
  | InvalidAddress => "invalid address"
  | InvalidData => "invalid data"
  | BufferOverflow => "buffer overflow"
  | NotConnected => "not connected"
  | InvalidState => "invalid state"
  | PoolError => "object pool error"
  | PoolValidation => "object pool validation"
  | SessionExists => "session already exists"
  | NoResources => "no resources"
  | DriverError => "driver error"
  | SocketError => "socket error"
  | InterfaceDown => "interface down"
  end.

#[global] Instance eq_dec : EqDecision t.
Proof. solve_decision. Defined.
End ErrorCode.

(** Rust's [{:0wX}] and [{}] formatting of unsigned integers. *)
Definition hex_digit (d : Z) : string :=
  default "0" ([ "0"; "1"; "2"; "3"; "4"; "5"; "6"; "7"; "8"; "9";
                 "A"; "B"; "C"; "D"; "E"; "F" ] !! Z.to_nat d).

Fixpoint hex_digits (fuel : nat) (n : Z) (acc : string) : string :=
  match fuel with
  | O => acc
  | S f => let acc := hex_digit (n mod 16) +:+ acc in
           if n / 16 =? 0 then acc else hex_digits f (n / 16) acc
  end.

Definition format_hex (width : nat) (n : Z) : string :=
  let s := hex_digits 16 n "" in
  String.concat "" (replicate (width - String.length s) "0") +:+ s.

Module Error.
Record t : Type := make { code : ErrorCode.t; message : string }.

Definition new (c : ErrorCode.t) : t := make c "".
Definition with_message (c : ErrorCode.t) (m : string) : t := make c m.
Definition timeout : t := new ErrorCode.Timeout.
Definition invalid_pgn (pgn : Pgn) : t :=
  with_message ErrorCode.InvalidPgn
    ("0x" +:+ format_hex 4 pgn +:+ " (" +:+ pretty pgn +:+ ")").
Definition invalid_address (addr : Address) : t :=
  with_message ErrorCode.InvalidAddress ("0x" +:+ format_hex 2 addr).
Definition not_connected : t := new ErrorCode.NotConnected.
Definition invalid_state (m : string) : t := with_message ErrorCode.InvalidState m.
Definition invalid_data (m : string) : t := with_message ErrorCode.InvalidData m.
Definition buffer_overflow : t := new ErrorCode.BufferOverflow.

(** [impl Display for Error]. *)
Definition to_string (e : t) : string :=
  if String.eqb (message e) "" then ErrorCode.as_str (code e)
  else ErrorCode.as_str (code e) +:+ ": " +:+ message e.
End Error.

Abbreviation Result' A := (Result A Error.t) (only parsing).

Example invalid_pgn_display :
  Error.to_string (Error.invalid_pgn 0xEA00) = "invalid PGN: 0xEA00 (59904)".
Proof. reflexivity. Qed.

(** ** [pgn.rs] *)

Definition pgn_pdu_format (pgn : Pgn) : Z := Z.land (Z.shiftr pgn 8) 0xFF.
Definition pgn_is_pdu2 (pgn : Pgn) : bool := 240 <=? pgn_pdu_format pgn.
Definition pgn_is_valid (pgn : Pgn) : bool := pgn <=? 0x3FFFF.
Definition pgn_normalize (pgn : Pgn) : Pgn :=
  if pgn_pdu_format pgn <? 240 then Z.land pgn (not_u 32 0xFF) else pgn.

(** ** [message.rs] *)

Record Message : Type := mkMessage {
  m_pgn : Pgn;
  m_data : list Z;
  m_source : Address;
  m_destination : Address;
  m_priority : Priority.t;
  m_timestamp_us : Z
}.

Definition Message_default : Message :=
  mkMessage 0 [] NULL_ADDRESS BROADCAST_ADDRESS Priority.Default 0.

Definition has_usable_source (m : Message) : bool :=
  negb (m_source m =? NULL_ADDRESS) && negb (m_source m =? BROADCAST_ADDRESS).

Definition has_valid_destination_for_pgn (m : Message) : bool :=
  negb (m_destination m =? NULL_ADDRESS) &&
  (negb (pgn_is_pdu2 (m_pgn m)) || (m_destination m =? BROADCAST_ADDRESS)).

Definition has_usable_envelope_for_pgn (m : Message) (expected : Pgn) : bool :=
  (m_pgn m =? expected) && has_usable_source m && has_valid_destination_for_pgn m.

(** Every byte of a buffer fits in eight bits. *)
Abbreviation bytes l := (Forall (in_u 8) l).
