(* ===== verification/Name.v ===== *)
(** The 64-bit ISO 11783-5 NAME: the model of [src/net/name.rs].

    A NAME is its raw 64-bit value; the accessors and the consuming setters are
    the shift-and-mask expressions of the source.  The theorems show that each
    setter writes exactly its own bit field (masking an oversized value) and that
    the wire encoding is a bijection between NAMEs and 8-byte payloads. *)
From S2P Require Export Types.

Module Name.
Record t : Type := from_raw { raw : Z }.

Definition identity_number (n : t) : Z := Z.land (raw n) 0x1FFFFF.
Definition manufacturer_code (n : t) : Z := Z.land (Z.shiftr (raw n) 21) 0x7FF.
Definition ecu_instance (n : t) : Z := Z.land (Z.shiftr (raw n) 32) 0x07.
Definition function_instance (n : t) : Z := Z.land (Z.shiftr (raw n) 35) 0x1F.
Definition function_code (n : t) : Z := Z.land (Z.shiftr (raw n) 40) 0xFF.
Definition device_class (n : t) : Z := Z.land (Z.shiftr (raw n) 49) 0x7F.
Definition device_class_instance (n : t) : Z := Z.land (Z.shiftr (raw n) 56) 0x0F.
Definition industry_group (n : t) : Z := Z.land (Z.shiftr (raw n) 60) 0x07.
Definition self_configurable (n : t) : bool :=
  negb (Z.land (Z.shiftr (raw n) 63) 0x01 =? 0).

Definition with_identity_number (n : t) (val : Z) : t :=
  from_raw (Z.lor (Z.land (raw n) (not_u 64 0x1FFFFF)) (Z.land val 0x1FFFFF)).
Definition with_manufacturer_code (n : t) (val : Z) : t :=
  from_raw (Z.lor (Z.land (raw n) (not_u 64 (Z.shiftl 0x7FF 21)))
                  (Z.shiftl (Z.land val 0x7FF) 21)).
Definition with_ecu_instance (n : t) (val : Z) : t :=
  from_raw (Z.lor (Z.land (raw n) (not_u 64 (Z.shiftl 0x07 32)))
                  (Z.shiftl (Z.land val 0x07) 32)).
Definition with_function_instance (n : t) (val : Z) : t :=
  from_raw (Z.lor (Z.land (raw n) (not_u 64 (Z.shiftl 0x1F 35)))
                  (Z.shiftl (Z.land val 0x1F) 35)).
Definition with_function_code (n : t) (val : Z) : t :=
  from_raw (Z.lor (Z.land (raw n) (not_u 64 (Z.shiftl 0xFF 40)))
                  (Z.shiftl (Z.land val 0xFF) 40)).
Definition with_device_class (n : t) (val : Z) : t :=
  from_raw (Z.lor (Z.land (raw n) (not_u 64 (Z.shiftl 0x7F 49)))
                  (Z.shiftl (Z.land val 0x7F) 49)).
Definition with_device_class_instance (n : t) (val : Z) : t :=
  from_raw (Z.lor (Z.land (raw n) (not_u 64 (Z.shiftl 0x0F 56)))
                  (Z.shiftl (Z.land val 0x0F) 56)).
Definition with_industry_group (n : t) (val : Z) : t :=
  from_raw (Z.lor (Z.land (raw n) (not_u 64 (Z.shiftl 0x07 60)))
                  (Z.shiftl (Z.land val 0x07) 60)).
Definition with_self_configurable (n : t) (val : bool) : t :=
  from_raw (Z.lor (Z.land (raw n) (not_u 64 (Z.shiftl 0x01 63)))
                  (Z.shiftl (Z.b2z val) 63)).

(** [u64::to_le_bytes] / [u64::from_le_bytes]. *)
Fixpoint to_le_bytes (n : nat) (x : Z) : list Z :=
  match n with
  | O => []
  | S k => Z.land x 0xFF :: to_le_bytes k (Z.shiftr x 8)
  end.

Fixpoint from_le_bytes (l : list Z) : Z :=
  match l with
  | [] => 0
  | b :: l => Z.lor b (Z.shiftl (from_le_bytes l) 8)
  end.

Definition to_bytes (n : t) : list Z := to_le_bytes 8 (raw n).

Definition from_bytes (d : list Z) : option t :=
  if (length d =? 8)%nat then Some (from_raw (from_le_bytes d)) else None.

(** [impl Ord for Name]: address-claim arbitration, the lower NAME wins. *)
Definition ltb (a b : t) : bool := raw a <? raw b.
Definition eqb (a b : t) : bool := raw a =? raw b.

Definition wf (n : t) : Prop := in_u 64 (raw n).

#[global] Instance eq_dec : EqDecision t.
Proof. solve_decision. Defined.
End Name.

(** ** Bit fields

    [get_field] and [set_field] are the common shape of the accessors: every
    accessor and setter above is an instance, by computation of its mask. *)
Definition get_field (sh w x : Z) : Z := Z.land (Z.shiftr x sh) (Z.ones w).
Definition set_field (sh w x v : Z) : Z :=
  Z.lor (Z.land x (not_u 64 (Z.shiftl (Z.ones w) sh)))
        (Z.shiftl (Z.land v (Z.ones w)) sh).

Ltac testbits :=
  repeat first
    [ rewrite Z.lor_spec | rewrite Z.land_spec | rewrite Z.ldiff_spec
    | rewrite Z.shiftr_spec by lia | rewrite Z.shiftl_spec by lia
    | rewrite testbit_ones by lia ].

Lemma get_set_same sh w x v :
  0 <= sh -> 0 <= w -> sh + w <= 64 ->
  get_field sh w (set_field sh w x v) = Z.land v (Z.ones w).
Proof.
  intros. apply Z.bits_inj'. intros n Hn. unfold get_field, set_field, not_u.
  testbits. replace (n + sh - sh) with n by lia.
  repeat case_bool; simpl; rewrite ?andb_true_r, ?andb_false_r, ?orb_false_r;
    try done; lia.
Qed.

Lemma get_set_other sh w sh' w' x v :
  0 <= sh -> 0 <= w -> 0 <= sh' -> 0 <= w' -> sh + w <= 64 -> sh' + w' <= 64 ->
  sh + w <= sh' \/ sh' + w' <= sh ->
  get_field sh' w' (set_field sh w x v) = get_field sh' w' x.
Proof.
  intros. apply Z.bits_inj'. intros n Hn. unfold get_field, set_field, not_u.
  testbits.
  repeat case_bool; simpl; rewrite ?andb_true_r, ?andb_false_r, ?orb_false_r;
    try done; lia.
Qed.

Lemma in_u_set_field sh w x v :
  0 <= sh -> 0 <= w -> sh + w <= 64 -> in_u 64 x -> in_u 64 (set_field sh w x v).
Proof.
  intros ??? Hx. apply in_u_bits; [lia| |].
  - apply Z.lor_nonneg. split.
    + apply Z.land_nonneg. left. apply Hx.
    + apply Z.shiftl_nonneg. apply (in_u_land_ones w v). lia.
  - intros n Hn. unfold set_field, not_u. testbits.
    rewrite (testbit_high 64 x) by (done || lia).
    repeat case_bool; simpl; rewrite ?andb_true_r, ?andb_false_r; try done; lia.
Qed.

(** A 64-bit value is determined by the fields of any partition of its bits; the
    case used here: two fields that agree below [k], and agree above. *)
Lemma get_field_split k w x :
  0 <= k -> 0 <= w ->
  get_field 0 (k + w) x = Z.lor (get_field 0 k x) (Z.shiftl (get_field k w x) k).
Proof.
  intros. apply Z.bits_inj'. intros n Hn. unfold get_field.
  testbits. rewrite Z.add_0_r. destruct (Z.leb_spec 0 (n - k)).
  - testbits. replace (n - k + k) with n by lia.
    repeat case_bool; simpl; rewrite ?andb_true_r, ?andb_false_r, ?orb_false_r;
      try done; lia.
  - rewrite (Z.testbit_neg_r _ (n - k)) by lia.
    repeat case_bool; simpl; rewrite ?andb_true_r, ?andb_false_r, ?orb_false_r;
      try done; lia.
Qed.

(** ** The named fields *)

Inductive name_field : Type :=
| IdentityNumber | ManufacturerCode | EcuInstance | FunctionInstance | FunctionCode
| DeviceClass | DeviceClassInstance | IndustryGroup | SelfConfigurable.

#[global] Instance name_field_eq_dec : EqDecision name_field.
Proof. solve_decision. Defined.

Definition field_get (f : name_field) (n : Name.t) : Z :=
  match f with
  | IdentityNumber => Name.identity_number n
  | ManufacturerCode => Name.manufacturer_code n
  | EcuInstance => Name.ecu_instance n
  | FunctionInstance => Name.function_instance n
  | FunctionCode => Name.function_code n
  | DeviceClass => Name.device_class n
  | DeviceClassInstance => Name.device_class_instance n
  | IndustryGroup => Name.industry_group n
  | SelfConfigurable => Z.b2z (Name.self_configurable n)
  end.

Definition field_set (f : name_field) (n : Name.t) (v : Z) : Name.t :=
  match f with
  | IdentityNumber => Name.with_identity_number n v
  | ManufacturerCode => Name.with_manufacturer_code n v
  | EcuInstance => Name.with_ecu_instance n v
  | FunctionInstance => Name.with_function_instance n v
  | FunctionCode => Name.with_function_code n v
  | DeviceClass => Name.with_device_class n v
  | DeviceClassInstance => Name.with_device_class_instance n v
  | IndustryGroup => Name.with_industry_group n v
  | SelfConfigurable => Name.with_self_configurable n (Z.odd v)
  end.

(** Offset and width of each field, from the layout table of the file header. *)
Definition field_layout (f : name_field) : Z * Z :=
  match f with
  | IdentityNumber => (0, 21) | ManufacturerCode => (21, 11)
  | EcuInstance => (32, 3) | FunctionInstance => (35, 5) | FunctionCode => (40, 8)
  | DeviceClass => (49, 7) | DeviceClassInstance => (56, 4)
  | IndustryGroup => (60, 3) | SelfConfigurable => (63, 1)
  end.

Lemma b2z_bit x : Z.b2z (negb (Z.land x 1 =? 0)) = Z.land x 1.
Proof.
  change 1 with (Z.ones 1) at 1 2. pose proof (in_u_land_ones 1 x).
  unfold in_u in *. destruct (Z.eqb_spec (Z.land x (Z.ones 1)) 0); simpl; lia.
Qed.

Lemma land_1_odd v : Z.b2z (Z.odd v) = Z.land v 1.
Proof.
  change 1 with (Z.ones 1). rewrite Z.land_ones by lia.
  rewrite Zmod_odd. by destruct (Z.odd v).
Qed.

Lemma field_get_eq f n :
  field_get f n = get_field (field_layout f).1 (field_layout f).2 (Name.raw n).
Proof.
  destruct f; unfold get_field; cbn [field_layout fst snd field_get];
    [ rewrite Z.shiftr_0_r; reflexivity | reflexivity .. | apply b2z_bit ].
Qed.

Lemma field_set_eq f n v :
  Name.raw (field_set f n v)
  = set_field (field_layout f).1 (field_layout f).2 (Name.raw n) v.
Proof.
  destruct f; unfold set_field; cbn [field_layout fst snd field_set];
    [ rewrite !Z.shiftl_0_r; reflexivity | reflexivity .. | ].
  change (Z.ones 1) with 1. by rewrite <- land_1_odd.
Qed.

Lemma field_layout_disjoint f g :
  f <> g ->
  let '(sh, w) := field_layout f in
  let '(sh', w') := field_layout g in sh + w <= sh' \/ sh' + w' <= sh.
Proof. destruct f, g; simpl; try done; lia. Qed.

Lemma field_layout_range f :
  0 <= (field_layout f).1 /\ 0 <= (field_layout f).2 /\
  (field_layout f).1 + (field_layout f).2 <= 64.
Proof. destruct f; simpl; lia. Qed.

Lemma get_field_all x : in_u 64 x -> get_field 0 64 x = x.
Proof. intros. unfold get_field. rewrite Z.shiftr_0_r. by apply land_ones_small. Qed.

Lemma from_to_le_bytes k x :
  Name.from_le_bytes (Name.to_le_bytes k x) = get_field 0 (8 * Z.of_nat k) x.
Proof.
  revert x. induction k as [|k IH]; intros x.
  - unfold get_field. simpl. by rewrite Z.land_0_r.
  - cbn [Name.to_le_bytes Name.from_le_bytes]. rewrite IH.
    replace (8 * Z.of_nat (S k)) with (8 + 8 * Z.of_nat k) by lia.
    rewrite get_field_split by lia. unfold get_field. by rewrite !Z.shiftr_0_r.
Qed.

Lemma length_to_le_bytes k x : length (Name.to_le_bytes k x) = k.
Proof. revert x. induction k; intros; simpl; f_equal; auto. Qed.

Lemma bytes_to_le_bytes k x : bytes (Name.to_le_bytes k x).
Proof.
  revert x. induction k; intros; simpl; constructor; auto.
  change 255 with (Z.ones 8). by apply in_u_land_ones.
Qed.

Lemma le_cons_low b y : in_u 8 b -> Z.land (Z.lor b (Z.shiftl y 8)) 0xFF = b.
Proof.
  intros Hb. change 0xFF with (Z.ones 8). apply Z.bits_inj'. intros n Hn.
  testbits. destruct (Z.ltb_spec n 8).
  - rewrite (Z.testbit_neg_r _ (n - 8)) by lia.
    rewrite (proj2 (Z.leb_le 0 n)), orb_false_r, andb_true_r by lia. done.
  - rewrite (testbit_high 8 b) by (done || lia). by rewrite !andb_false_r.
Qed.

Lemma le_cons_high b y :
  in_u 8 b -> 0 <= y -> Z.shiftr (Z.lor b (Z.shiftl y 8)) 8 = y.
Proof.
  intros Hb Hy. apply Z.bits_inj'. intros n Hn. testbits.
  rewrite (testbit_high 8 b) by (done || lia). simpl. f_equal. lia.
Qed.

Lemma from_le_bytes_range l :
  bytes l -> in_u (8 * Z.of_nat (length l)) (Name.from_le_bytes l).
Proof.
  induction 1 as [|b l Hb Hl IH]; simpl; [by unfold in_u|].
  replace (8 * Z.of_nat (S (length l))) with (8 * Z.of_nat (length l) + 8) by lia.
  apply in_u_lor; [lia| |].
  - eapply in_u_mono; [|done]. lia.
  - apply in_u_shiftl; (lia || done).
Qed.

Lemma to_from_le_bytes l :
  bytes l -> Name.to_le_bytes (length l) (Name.from_le_bytes l) = l.
Proof.
  induction 1 as [|b l Hb Hl IH]; simpl; [done|].
  pose proof (from_le_bytes_range l Hl) as [Hp _].
  by rewrite le_cons_low, le_cons_high, IH.
Qed.

(** ** Properties *)

(** Every NAME setter writes its own bit field, masked to the field's width,
    leaves every other field unchanged and keeps the value in 64 bits. *)
Theorem name_field_laws f g n v :
  Name.wf n ->
  field_get g (field_set f n v) =
    (if decide (f = g) then Z.land v (Z.ones (field_layout f).2) else field_get g n)
  /\ Name.wf (field_set f n v).
Proof.
  intros Hn. rewrite !field_get_eq. unfold Name.wf. rewrite field_set_eq.
  pose proof (field_layout_range f) as (? & ? & ?).
  pose proof (field_layout_range g) as (? & ? & ?).
  split; [|by apply in_u_set_field].
  case_decide as Hfg; [subst; by apply get_set_same|].
  apply get_set_other; try done.
  pose proof (field_layout_disjoint f g Hfg).
  by destruct (field_layout f), (field_layout g).
Qed.

Lemma name_field_laws_witness :
  field_get ManufacturerCode
    (field_set ManufacturerCode (Name.from_raw 0xA00C840200123456) 0xFFFF) = 0x7FF.
Proof.
  refine (proj1 (name_field_laws ManufacturerCode ManufacturerCode
    (Name.from_raw 0xA00C840200123456) 0xFFFF _)).
  unfold Name.wf, in_u. simpl. lia.
Defined.

(** A NAME is determined by its nine named fields and the reserved bit 48. *)
Theorem name_fields_determine n n' :
  Name.wf n -> Name.wf n' ->
  (forall f, field_get f n = field_get f n') ->
  get_field 48 1 (Name.raw n) = get_field 48 1 (Name.raw n') ->
  n = n'.
Proof.
  intros Hn Hn' Hf Hres. destruct n as [x], n' as [y].
  unfold Name.wf in *. simpl in *. f_equal.
  rewrite <- (get_field_all x Hn), <- (get_field_all y Hn').
  pose proof (fun f => eq_trans (eq_sym (field_get_eq f _)) (Hf f)) as E.
  setoid_rewrite field_get_eq in E.
  change 64 with (21 + 11 + 3 + 5 + 8 + 1 + 7 + 4 + 3 + 1).
  rewrite !get_field_split by lia.
  change (21 + 11 + 3 + 5 + 8 + 1 + 7 + 4 + 3) with 63.
  change (21 + 11 + 3 + 5 + 8 + 1 + 7 + 4) with 60.
  change (21 + 11 + 3 + 5 + 8 + 1 + 7) with 56.
  change (21 + 11 + 3 + 5 + 8 + 1) with 49.
  change (21 + 11 + 3 + 5 + 8) with 48. change (21 + 11 + 3 + 5) with 40.
  change (21 + 11 + 3) with 35. change (21 + 11) with 32. 
  pose proof (E IdentityNumber) as E1. pose proof (E ManufacturerCode) as E2.
  pose proof (E EcuInstance) as E3. pose proof (E FunctionInstance) as E4.
  pose proof (E FunctionCode) as E5. pose proof (E DeviceClass) as E6.
  pose proof (E DeviceClassInstance) as E7. pose proof (E IndustryGroup) as E8.
  pose proof (E SelfConfigurable) as E9. simpl in E1, E2, E3, E4, E5, E6, E7, E8, E9.
  by rewrite E1, E2, E3, E4, E5, E6, E7, E8, E9, Hres.
Qed.

Lemma name_fields_determine_witness : Name.from_raw 0x1234 = Name.from_raw 0x1234.
Proof.
  apply name_fields_determine; try done; unfold Name.wf, in_u; simpl; lia.
Defined.

(** the wire form of a NAME is a bijection: encoding a 64-bit NAME and decoding
    it returns it, decoding eight bytes and encoding returns them, and any other
    payload length is rejected. *)
Theorem name_wire_bijection n d :
  Name.wf n -> bytes d ->
  Name.from_bytes (Name.to_bytes n) = Some n /\
  length (Name.to_bytes n) = 8%nat /\
  match Name.from_bytes d with
  | Some m => length d = 8%nat /\ Name.wf m /\ Name.to_bytes m = d
  | None => length d <> 8%nat
  end.
Proof.
  intros Hn Hd. unfold Name.from_bytes, Name.to_bytes.
  rewrite length_to_le_bytes. split; [|split; [done|]].
  - change ((8 =? 8)%nat) with true. cbv iota.
    rewrite from_to_le_bytes, get_field_all by done. by destruct n.
  - destruct (Nat.eqb_spec (length d) 8) as [E|]; [|done].
    split; [done|]. split.
    + pose proof (from_le_bytes_range d Hd) as H. by rewrite E in H.
    + cbn [Name.raw]. rewrite <- E. by apply to_from_le_bytes.
Qed.

Lemma name_wire_bijection_witness :
  Name.from_bytes (Name.to_bytes (Name.from_raw 0xA00C840200123456))
  = Some (Name.from_raw 0xA00C840200123456).
Proof.
  refine (proj1 (name_wire_bijection (Name.from_raw 0xA00C840200123456) [] _ _)).
  - unfold Name.wf, in_u. simpl. lia.
  - constructor.
Defined.
