(* ===== verification/Identifier.v ===== *)
(** The 29-bit CAN identifier: the model of [src/net/identifier.rs].

    Encoding and the accessors are the source's shift-and-mask expressions.  The
    theorems show that they are inverse to each other, for PDU1 and PDU2 PGNs. *)
From S2P Require Export Types.

Module Identifier.
Record t : Type := mk { raw : Z }.

Definition from_raw (id : Z) : t := mk (Z.land id 0x1FFFFFFF).

Definition encode (prio : Priority.t) (pgn : Pgn) (src dst : Address) : t :=
  let pgn := pgn_normalize pgn in
  let id := Z.lor 0 (Z.shiftl (Z.land (Priority.as_u8 prio) 0x07) 26) in
  let edp := Z.land (Z.shiftr pgn 17) 0x01 in
  let dp := Z.land (Z.shiftr pgn 16) 0x01 in
  let pf := Z.land (Z.shiftr pgn 8) 0xFF in
  let ps := Z.land pgn 0xFF in
  let id := Z.lor id (Z.shiftl edp 25) in
  let id := Z.lor id (Z.shiftl dp 24) in
  let id := Z.lor id (Z.shiftl pf 16) in
  let id := if pf <? 240 then Z.lor id (Z.shiftl dst 8)
            else Z.lor id (Z.shiftl ps 8) in
  let id := Z.lor id src in
  from_raw id.

Definition try_encode (prio : Priority.t) (pgn : Pgn) (src dst : Address)
    : Result t Error.t :=
  if negb (pgn_is_valid pgn) then
    Err (Error.invalid_data ("identifier PGN 0x" +:+ format_hex 1 pgn +:+
           " exceeds the 18-bit J1939/ISOBUS PGN range"))
  else Ok (encode prio pgn src dst).

Definition encode_default (pgn : Pgn) (src : Address) : t :=
  encode Priority.Default pgn src BROADCAST_ADDRESS.

Definition priority (i : t) : Priority.t :=
  Priority.from_u8 (Z.land (Z.shiftr (raw i) 26) 0x07).
Definition pdu_format (i : t) : Z := Z.land (Z.shiftr (raw i) 16) 0xFF.
Definition pdu_specific (i : t) : Z := Z.land (Z.shiftr (raw i) 8) 0xFF.
Definition source (i : t) : Address := Z.land (raw i) 0xFF.
Definition data_page (i : t) : bool := negb (Z.land (Z.shiftr (raw i) 24) 0x01 =? 0).
Definition extended_data_page (i : t) : bool :=
  negb (Z.land (Z.shiftr (raw i) 25) 0x01 =? 0).
Definition is_pdu2 (i : t) : bool := 240 <=? pdu_format i.

Definition pgn (i : t) : Pgn :=
  let dp := Z.land (Z.shiftr (raw i) 24) 0x01 in
  let edp := Z.land (Z.shiftr (raw i) 25) 0x01 in
  let pf := pdu_format i in
  if pf <? 240 then
    Z.lor (Z.lor (Z.shiftl edp 17) (Z.shiftl dp 16)) (Z.shiftl pf 8)
  else
    Z.lor (Z.lor (Z.lor (Z.shiftl edp 17) (Z.shiftl dp 16)) (Z.shiftl pf 8))
          (pdu_specific i).

Definition destination (i : t) : Address :=
  if is_pdu2 i then BROADCAST_ADDRESS else pdu_specific i.

Definition is_broadcast (i : t) : bool :=
  is_pdu2 i || (destination i =? BROADCAST_ADDRESS).

Definition wf (i : t) : Prop := in_u 29 (raw i).
End Identifier.

(** ** Lemmas *)

(** Bit fields of a raw identifier, all masks being [Z.ones]. *)
Ltac ones_masks :=
  change 0x1FFFFFFF with (Z.ones 29) in *; change 0xFF with (Z.ones 8) in *;
  change 0x07 with (Z.ones 3) in *; change 0x01 with (Z.ones 1) in *.

Lemma in_u_pdu_format x : in_u 8 (Z.land (Z.shiftr x 8) 0xFF).
Proof. apply (in_u_land_ones 8). lia. Qed.

(** The raw value produced by [encode], for a PGN already normalised. *)
Definition encode_raw (prio pgn src dst : Z) : Z :=
  Z.lor (Z.lor (Z.lor (Z.lor (Z.lor (Z.shiftl prio 26)
    (Z.shiftl (Z.land (Z.shiftr pgn 17) 1) 25))
    (Z.shiftl (Z.land (Z.shiftr pgn 16) 1) 24))
    (Z.shiftl (Z.land (Z.shiftr pgn 8) 0xFF) 16))
    (Z.shiftl (if pgn_pdu_format pgn <? 240 then dst else Z.land pgn 0xFF) 8)) src.

Lemma pdu_format_normalize p : pgn_pdu_format (pgn_normalize p) = pgn_pdu_format p.
Proof.
  unfold pgn_normalize. destruct (Z.ltb_spec (pgn_pdu_format p) 240); [|done].
  unfold pgn_pdu_format, not_u. ones_masks. apply Z.bits_inj'. intros n Hn.
  destruct (Z.ltb_spec n 8); bits_norm; bits_done.
Qed.

Section encoded.
Context (prio pgn src dst : Z).
Context (Hprio : in_u 3 prio) (Hpgn : in_u 32 pgn) (Hsrc : in_u 8 src) (Hdst : in_u 8 dst).

Lemma encode_ps_range :
  in_u 8 (if pgn_pdu_format pgn <? 240 then dst else Z.land pgn 0xFF).
Proof. destruct (_ <? _); [done|]. apply (in_u_land_ones 8). lia. Qed.

Lemma encode_raw_bits n :
  0 <= n ->
  Z.testbit (encode_raw prio pgn src dst) n =
  if n <? 8 then Z.testbit src n
  else if n <? 16 then
    Z.testbit (if pgn_pdu_format pgn <? 240 then dst else Z.land pgn 0xFF) (n - 8)
  else if n <? 26 then Z.testbit pgn (n - 8)
  else Z.testbit prio (n - 26).
Proof.
  intros Hn. unfold encode_raw. pose proof encode_ps_range as Hps.
  remember (if pgn_pdu_format pgn <? 240 then dst else Z.land pgn 0xFF) as ps.
  ones_masks.
  destruct (Z.ltb_spec n 8); [by bits_norm|].
  destruct (Z.ltb_spec n 16); [by bits_norm|].
  destruct (Z.ltb_spec n 24).
  { rewrite (proj2 (Z.ltb_lt n 26)) by lia. bits_norm. f_equal; lia. }
  destruct (Z.ltb_spec n 25).
  { rewrite (proj2 (Z.ltb_lt n 26)) by lia. bits_norm. f_equal; lia. }
  destruct (Z.ltb_spec n 26); bits_norm; [f_equal; lia|done].
Qed.

Lemma encode_raw_range : in_u 29 (encode_raw prio pgn src dst).
Proof.
  pose proof encode_ps_range as Hps. unfold encode_raw.
  assert (forall w x, 0 <= w <= 29 -> in_u w x -> in_u 29 x) as Hm
    by (intros; by eapply in_u_mono).
  assert (forall x, in_u 1 (Z.land x 1)) by (intros; apply (in_u_land_ones 1); lia).
  repeat apply in_u_lor; try lia;
    [ apply (in_u_shiftl 3 26) | apply (Hm (1 + 25)) | apply (Hm (1 + 24))
    | apply (Hm (8 + 16)) | apply (Hm (8 + 8)) | apply (Hm 8) ];
    try apply in_u_shiftl; try lia; auto using in_u_pdu_format.
Qed.
End encoded.

Lemma in_u_normalize w p : 0 <= w -> in_u w p -> in_u w (pgn_normalize p).
Proof.
  intros Hw Hp. unfold pgn_normalize. destruct (_ <? _); [|done].
  apply in_u_bits; [lia|apply Z.land_nonneg; left; apply Hp|].
  intros n Hn. by bits_norm.
Qed.

Lemma encode_eq p pg s d :
  in_u 32 pg -> in_u 8 s -> in_u 8 d ->
  Identifier.raw (Identifier.encode p pg s d)
  = encode_raw (Priority.as_u8 p) (pgn_normalize pg) s d.
Proof.
  intros. unfold Identifier.encode, Identifier.from_raw. cbn [Identifier.raw].
  pose proof (encode_raw_range (Priority.as_u8 p) (pgn_normalize pg) s d
    (Priority.as_u8_range p) H0 H1) as Hr.
  rewrite <- (land_ones_small 29 (encode_raw _ _ _ _)) by (lia || done).
  unfold encode_raw, pgn_pdu_format.
  assert (Z.land (Priority.as_u8 p) 7 = Priority.as_u8 p) as -> by (by destruct p).
  rewrite Z.lor_0_l. by destruct (_ <? 240).
Qed.

Lemma land_field_bits w x y :
  0 <= w ->
  (forall n, 0 <= n < w -> Z.testbit x n = Z.testbit y n) ->
  Z.land x (Z.ones w) = Z.land y (Z.ones w).
Proof.
  intros Hw E. apply Z.bits_inj'. intros n Hn.
  destruct (Z.ltb_spec n w); bits_norm; [by apply E|done].
Qed.

(** The fields read back from an encoded identifier, one lemma per field. *)
Section decoded.
Context (p : Priority.t) (pg s d : Z).
Context (Hpg : in_u 32 pg) (Hs : in_u 8 s) (Hd : in_u 8 d).
Let i := Identifier.encode p pg s d.
Let q := pgn_normalize pg.
Let ps := if pgn_pdu_format pg <? 240 then d else Z.land q 0xFF.

Lemma encoded_bits n :
  0 <= n ->
  Z.testbit (Identifier.raw i) n =
  if n <? 8 then Z.testbit s n
  else if n <? 16 then Z.testbit ps (n - 8)
  else if n <? 26 then Z.testbit q (n - 8)
  else Z.testbit (Priority.as_u8 p) (n - 26).
Proof.
  intros. unfold i, ps, q. rewrite encode_eq by done.
  rewrite encode_raw_bits by auto using Priority.as_u8_range, in_u_normalize.
  by rewrite pdu_format_normalize.
Qed.

Lemma encoded_ps_range : in_u 8 ps.
Proof.
  unfold ps, q. rewrite <- pdu_format_normalize. by apply encode_ps_range.
Qed.

Ltac field_bits w :=
  apply (land_field_bits w); [lia|]; intros n Hn; bits_norm;
  rewrite encoded_bits by lia; bits_norm; f_equal; lia.

Lemma encoded_pdu_format : Identifier.pdu_format i = pgn_pdu_format pg.
Proof.
  rewrite <- pdu_format_normalize. unfold Identifier.pdu_format, pgn_pdu_format.
  fold q. field_bits 8.
Qed.

Lemma encoded_pdu_specific : Identifier.pdu_specific i = ps.
Proof.
  rewrite <- (land_ones_small 8 ps); [|lia|apply encoded_ps_range].
  unfold Identifier.pdu_specific. field_bits 8.
Qed.

Lemma encoded_priority : Identifier.priority i = p.
Proof.
  unfold Identifier.priority. rewrite <- (Priority.from_as p). f_equal.
  rewrite <- (land_ones_small 3 (Priority.as_u8 p)) by (lia || apply Priority.as_u8_range).
  field_bits 3.
Qed.

Lemma encoded_source : Identifier.source i = s.
Proof.
  unfold Identifier.source. rewrite <- (land_ones_small 8 s) by (lia || done).
  field_bits 8.
Qed.

(** Bits of the canonical PGN, in terms of its PF byte. *)
Lemma normalized_low n :
  pgn_pdu_format pg < 240 -> 0 <= n < 8 -> Z.testbit q n = false.
Proof.
  intros. unfold q, pgn_normalize. rewrite (proj2 (Z.ltb_lt _ _)) by lia.
  unfold not_u. ones_masks. by bits_norm.
Qed.

Lemma normalized_mid n :
  8 <= n < 16 -> Z.testbit q n = Z.testbit (pgn_pdu_format pg) (n - 8).
Proof.
  intros. rewrite <- pdu_format_normalize. unfold pgn_pdu_format. ones_masks.
  bits_norm. f_equal; lia.
Qed.

Lemma encoded_pgn : Identifier.pgn i = Z.land q 0x3FFFF.
Proof.
  unfold Identifier.pgn. rewrite encoded_pdu_format, encoded_pdu_specific.
  pose proof (in_u_pdu_format pg) as Hpf. fold (pgn_pdu_format pg) in Hpf.
  unfold ps. change 0x3FFFF with (Z.ones 18). ones_masks.
  apply Z.bits_inj'. intros n Hn.
  destruct (Z.lt_ge_cases (pgn_pdu_format pg) 240) as [Hc|Hc];
  [rewrite (proj2 (Z.ltb_lt _ _) Hc)|rewrite (proj2 (Z.ltb_ge _ _) Hc)];
  (destruct (Z.ltb_spec n 8); [bits_norm; rewrite ?normalized_low by lia; done|]);
  (destruct (Z.ltb_spec n 16); [bits_norm; by rewrite normalized_mid by lia|]);
  (destruct (Z.ltb_spec n 17);
    [bits_norm; rewrite encoded_bits by lia; bits_norm; f_equal; lia|]);
  (destruct (Z.ltb_spec n 18);
    [bits_norm; rewrite encoded_bits by lia; bits_norm; f_equal; lia|by bits_norm]).
Qed.
End decoded.

(** All fields of an encoded identifier at once. *)
Lemma encoded_is_pdu2 p pg s d :
  in_u 32 pg -> in_u 8 s -> in_u 8 d ->
  Identifier.is_pdu2 (Identifier.encode p pg s d) = pgn_is_pdu2 pg.
Proof. intros. unfold Identifier.is_pdu2. by rewrite encoded_pdu_format. Qed.

Lemma identifier_fields p pg s d :
  in_u 32 pg -> in_u 8 s -> in_u 8 d ->
  let i := Identifier.encode p pg s d in
  Identifier.wf i /\ Identifier.priority i = p /\ Identifier.source i = s /\
  Identifier.pgn i = Z.land (pgn_normalize pg) 0x3FFFF /\
  Identifier.destination i = (if pgn_is_pdu2 pg then BROADCAST_ADDRESS else d).
Proof.
  intros Hpg Hs Hd i. unfold i, Identifier.wf.
  rewrite encoded_priority, encoded_source, encoded_pgn by done.
  unfold Identifier.destination, Identifier.is_pdu2, pgn_is_pdu2.
  rewrite encoded_pdu_format, encoded_pdu_specific, encode_eq by done.
  split; [by apply encode_raw_range; try apply Priority.as_u8_range|].
  repeat split. repeat case_bool; done || lia.
Qed.

(** The fields of an arbitrary 29-bit identifier. *)
Lemma pgn_bits i n :
  0 <= n ->
  Z.testbit (Identifier.pgn i) n =
  if n <? 8 then
    if Identifier.pdu_format i <? 240 then false
    else Z.testbit (Identifier.raw i) (n + 8)
  else if n <? 18 then Z.testbit (Identifier.raw i) (n + 8) else false.
Proof.
  intros Hn. unfold Identifier.pgn.
  assert (in_u 8 (Identifier.pdu_format i)) as Hpf by (apply (in_u_land_ones 8); lia).
  assert (forall m, 0 <= m < 8 -> Z.testbit (Identifier.pdu_format i) m
            = Z.testbit (Identifier.raw i) (m + 16)) as Hpfb.
  { intros m Hm. unfold Identifier.pdu_format. ones_masks. by bits_norm. }
  unfold Identifier.pdu_specific. ones_masks.
  destruct (Identifier.pdu_format i <? 240);
  (destruct (Z.ltb_spec n 8); [by bits_norm|]);
  (destruct (Z.ltb_spec n 16);
    [bits_norm; rewrite Hpfb by lia; f_equal; lia|]);
  (destruct (Z.ltb_spec n 17); [bits_norm; f_equal; lia|]);
  (destruct (Z.ltb_spec n 18); [bits_norm; f_equal; lia|by bits_norm]).
Qed.

Lemma pgn_range i : in_u 18 (Identifier.pgn i).
Proof.
  apply in_u_bits; [lia| |].
  - unfold Identifier.pgn, Identifier.pdu_specific, Identifier.pdu_format.
    ones_masks. destruct (_ <? _); repeat (apply Z.lor_nonneg; split);
      try apply Z.shiftl_nonneg; apply in_u_land_ones; lia.
  - intros n Hn. rewrite pgn_bits by lia. by bits_norm.
Qed.

Lemma pdu_format_pgn i : pgn_pdu_format (Identifier.pgn i) = Identifier.pdu_format i.
Proof.
  apply (land_field_bits 8); [lia|]. intros n Hn. bits_norm.
  rewrite pgn_bits by lia. bits_norm. f_equal; lia.
Qed.

Lemma normalize_pgn i : pgn_normalize (Identifier.pgn i) = Identifier.pgn i.
Proof.
  unfold pgn_normalize. rewrite pdu_format_pgn.
  destruct (Z.ltb_spec (Identifier.pdu_format i) 240); [|done].
  pose proof (pgn_range i). unfold not_u. ones_masks.
  apply Z.bits_inj'. intros n Hn.
  destruct (Z.ltb_spec n 8); [|destruct (Z.ltb_spec n 18); by bits_norm].
  bits_norm. rewrite pgn_bits by lia. by bits_norm.
Qed.

Lemma destination_range i : in_u 8 (Identifier.destination i).
Proof.
  unfold Identifier.destination. destruct (Identifier.is_pdu2 i).
  - by unfold in_u, BROADCAST_ADDRESS.
  - apply (in_u_land_ones 8). lia.
Qed.

Lemma source_range i : in_u 8 (Identifier.source i).
Proof. apply (in_u_land_ones 8). lia. Qed.

#[export] Hint Resolve pgn_range destination_range source_range : bus.

(** ** Properties *)

(** encoding an identifier and reading its fields back returns the priority, the
    source address, the canonical PGN (low byte dropped for PDU1, bits above the
    18-bit field dropped) and, for PDU1 PGNs, the destination; PDU2 PGNs read back as
    broadcast; the raw value always fits in 29 bits. *)
Theorem identifier_encode_decode p pg s d :
  in_u 32 pg -> in_u 8 s -> in_u 8 d ->
  let i := Identifier.encode p pg s d in
  Identifier.wf i /\
  Identifier.priority i = p /\
  Identifier.source i = s /\
  Identifier.pgn i = Z.land (pgn_normalize pg) 0x3FFFF /\
  Identifier.destination i = (if pgn_is_pdu2 pg then BROADCAST_ADDRESS else d) /\
  Identifier.is_pdu2 i = pgn_is_pdu2 pg.
Proof.
  intros Hpg Hs Hd i.
  destruct (identifier_fields p pg s d Hpg Hs Hd) as (? & ? & ? & ? & ?).
  do 5 (split; [done|]). by apply encoded_is_pdu2.
Qed.

Lemma identifier_encode_decode_witness :
  Identifier.destination (Identifier.encode Priority.Default 0xEA00 0x80 0x42) = 0x42.
Proof.
  refine (proj1 (proj2 (proj2 (proj2 (proj2
    (identifier_encode_decode Priority.Default 0xEA00 0x80 0x42 _ _ _))))));
    unfold in_u; simpl; lia.
Defined.

Lemma encode_accessors i :
  Identifier.wf i ->
  Identifier.encode (Identifier.priority i) (Identifier.pgn i)
    (Identifier.source i) (Identifier.destination i) = i.
Proof.
  intros Hi. pose proof (pgn_range i) as Hpg.
  assert (in_u 32 (Identifier.pgn i)) by (eapply in_u_mono; [|done]; lia).
  enough (Identifier.raw (Identifier.encode (Identifier.priority i)
    (Identifier.pgn i) (Identifier.source i) (Identifier.destination i))
    = Identifier.raw i) as E.
  { destruct (Identifier.encode _ _ _ _), i. simpl in *. by subst. }
  unfold Identifier.wf in Hi. apply Z.bits_inj'. intros n Hn.
  rewrite encoded_bits by auto with bus. rewrite pdu_format_pgn, normalize_pgn.
  unfold Identifier.source, Identifier.destination, Identifier.is_pdu2,
    Identifier.pdu_specific, Identifier.priority. ones_masks.
  destruct (Z.ltb_spec n 8); [by bits_norm|].
  destruct (Z.ltb_spec n 16).
  { destruct (Z.leb_spec 240 (Identifier.pdu_format i)); bits_norm;
      rewrite ?pgn_bits by lia; bits_norm; f_equal; lia. }
  destruct (Z.ltb_spec n 26).
  { rewrite pgn_bits by lia. bits_norm. f_equal; lia. }
  rewrite Priority.as_from by (apply in_u_land_ones; lia).
  destruct (Z.ltb_spec n 29); bits_norm; [f_equal; lia|done].
Qed.

(** Every 29-bit identifier is the encoding of the fields read from it, so no
    two frames with the same priority, PGN, source and destination differ. *)
Theorem identifier_decode_encode i :
  Identifier.wf i ->
  Identifier.encode (Identifier.priority i) (Identifier.pgn i)
    (Identifier.source i) (Identifier.destination i) = i.
Proof. apply encode_accessors. Qed.

Lemma identifier_decode_encode_witness :
  Identifier.encode (Identifier.priority (Identifier.mk 0x18EF2280))
    (Identifier.pgn (Identifier.mk 0x18EF2280))
    (Identifier.source (Identifier.mk 0x18EF2280))
    (Identifier.destination (Identifier.mk 0x18EF2280)) = Identifier.mk 0x18EF2280.
Proof. apply identifier_decode_encode. unfold Identifier.wf, in_u. simpl. lia. Defined.
