(* ===== verification/Frame.v ===== *)
(** The protocol-layer CAN frame: the model of [src/net/frame.rs] and of the
    in-tree [CanFrame] of [src/net/can_adapter.rs] it converts to and from.

    A frame's [data] is the 8-byte array, a list of length 8 in a well-formed
    frame; [None] stands for a failed assertion or [expect]. *)
From S2P Require Export Identifier.

Record Frame : Type := mkFrame {
  f_id : Identifier.t;
  f_data : list Z;
  f_length : Z;
  f_timestamp_us : Z
}.

Module CanFrame.
Record t : Type := mk {
  raw_id : Z;
  data : list Z;
  can_dlc : Z;
  extended : bool;
  rtr : bool;
  err : bool
}.

Definition make_ext (id : Z) (payload : list Z) : t :=
  let len := Nat.min (length payload) 8 in
  mk id (take len payload ++ drop len (replicate 8 0)) (Z.of_nat len) true false false.
End CanFrame.

Module FrameOps.
(** [assert!(length <= 8)]. *)
Definition new (id : Identifier.t) (data : list Z) (len : Z) : option Frame :=
  if len <=? 8 then Some (mkFrame id data len 0) else None.

(** [Frame::new(id, data, 8)], where the assertion holds by computation. *)
Definition new8 (id : Identifier.t) (data : list Z) : Frame := mkFrame id data 8 0.

Definition try_new (id : Identifier.t) (data : list Z) (len : Z) : Result Frame Error.t :=
  if 8 <? len then
    Err (Error.invalid_data ("CAN frame length " +:+ pretty len +:+ " exceeds 8 bytes"))
  else Ok (mkFrame id data len 0).

Definition try_from_message (prio : Priority.t) (pgn : Pgn) (src dst : Address)
    (payload : list Z) : Result Frame Error.t :=
  if negb (pgn_is_valid pgn) then Err (Error.invalid_pgn pgn)
  else if (8 <? length payload)%nat then
    Err (Error.invalid_data ("single CAN frame payload length " +:+
           pretty (length payload) +:+ " exceeds 8 bytes"))
  else
    let id := Identifier.encode prio pgn src dst in
    let n := length payload in
    Ok (mkFrame id (take n payload ++ drop n (replicate 8 0xFF)) (Z.of_nat n) 0).

Definition from_message (prio : Priority.t) (pgn : Pgn) (src dst : Address)
    (payload : list Z) : option Frame :=
  match try_from_message prio pgn src dst payload with
  | Ok f => Some f
  | Err _ => None
  end.

Definition try_from_message_at (prio : Priority.t) (pgn : Pgn) (src dst : Address)
    (payload : list Z) (timestamp_us : Z) : Result Frame Error.t :=
  match try_from_message prio pgn src dst payload with
  | Ok f => Ok (mkFrame (f_id f) (f_data f) (f_length f) timestamp_us)
  | Err e => Err e
  end.

Definition pgn (f : Frame) : Pgn := Identifier.pgn (f_id f).
Definition source (f : Frame) : Address := Identifier.source (f_id f).
Definition destination (f : Frame) : Address := Identifier.destination (f_id f).
Definition priority (f : Frame) : Priority.t := Identifier.priority (f_id f).
Definition is_broadcast (f : Frame) : bool := Identifier.is_broadcast (f_id f).

(** [&self.data[..(self.length as usize).min(8)]]. *)
Definition payload (f : Frame) : list Z := take (Nat.min (Z.to_nat (f_length f)) 8) (f_data f).

(** [frame.data[i]] for a literal [i < 8]. *)
Definition byte (f : Frame) (i : nat) : Z := f_data f !!! i.

Definition to_can_frame (f : Frame) : CanFrame.t :=
  CanFrame.make_ext (Identifier.raw (f_id f)) (payload f).

Definition from_can_frame (cf : CanFrame.t) : option Frame :=
  if negb (CanFrame.extended cf) || CanFrame.rtr cf || CanFrame.err cf then None
  else if 8 <? CanFrame.can_dlc cf then None
  else Some (mkFrame (Identifier.from_raw (CanFrame.raw_id cf)) (CanFrame.data cf)
               (CanFrame.can_dlc cf) 0).

Definition wf (f : Frame) : Prop :=
  Identifier.wf (f_id f) /\ length (f_data f) = 8%nat /\ bytes (f_data f) /\
  0 <= f_length f <= 8.
End FrameOps.

(** The value a frame carries beyond its payload: everything but the padding bytes
    past [length] and the driver's timestamp. *)
Definition same_frame (f g : Frame) : Prop :=
  f_id f = f_id g /\ f_length f = f_length g /\ FrameOps.payload f = FrameOps.payload g.

#[global] Instance same_frame_equiv : Equivalence same_frame.
Proof.
  split.
  - by intros f.
  - by intros f g (? & ? & ?).
  - intros f g h (? & ? & ?) (? & ? & ?). repeat split; congruence.
Qed.

(** ** Lemmas *)

Lemma byte_range f i : FrameOps.wf f -> in_u 8 (FrameOps.byte f i).
Proof.
  intros (_ & _ & Hb & _). unfold FrameOps.byte.
  destruct (f_data f !! i) as [b|] eqn:E.
  - rewrite (list_lookup_total_correct _ _ _ E). by eapply Forall_lookup_1.
  - rewrite list_lookup_total_alt, E. by unfold in_u.
Qed.

Lemma frame_source_range f : in_u 8 (FrameOps.source f).
Proof. apply source_range. Qed.
Lemma frame_destination_range f : in_u 8 (FrameOps.destination f).
Proof. apply destination_range. Qed.
#[export] Hint Resolve byte_range frame_source_range frame_destination_range : bus.

Lemma take_pad_length n (l : list Z) x :
  (length l <= n)%nat -> length (l ++ drop (length l) (replicate n x)) = n.
Proof. intros. rewrite length_app, length_drop, length_replicate. lia. Qed.

Lemma wf_encode p pg s d :
  in_u 8 s -> in_u 8 d -> in_u 32 pg -> Identifier.wf (Identifier.encode p pg s d).
Proof.
  intros. unfold Identifier.wf. rewrite encode_eq by done.
  apply encode_raw_range; auto using Priority.as_u8_range.
Qed.

Lemma wf_new8 p pg s d data :
  in_u 32 pg -> in_u 8 s -> in_u 8 d -> length data = 8%nat -> bytes data ->
  FrameOps.wf (FrameOps.new8 (Identifier.encode p pg s d) data).
Proof. intros. repeat split; auto; try (by apply wf_encode); simpl; lia. Qed.

Lemma broadcast_destination f :
  FrameOps.is_broadcast f = true -> FrameOps.destination f = BROADCAST_ADDRESS.
Proof.
  unfold FrameOps.is_broadcast, FrameOps.destination, Identifier.is_broadcast.
  destruct (Identifier.is_pdu2 (f_id f)) eqn:E; simpl.
  - intros _. unfold Identifier.destination. by rewrite E.
  - by intros ?%Z.eqb_eq.
Qed.

(** Fields of a frame built for a canonical PDU1 PGN (low byte zero), the shape of
    every transport and address-claim frame. *)
Lemma pdu1_fields p pg s d :
  in_u 18 pg -> pgn_pdu_format pg < 240 -> Z.land pg 0xFF = 0 ->
  in_u 8 s -> in_u 8 d ->
  let i := Identifier.encode p pg s d in
  Identifier.pgn i = pg /\ Identifier.source i = s /\ Identifier.destination i = d /\
  Identifier.priority i = p.
Proof.
  intros Hpg Hpf Hlow Hs Hd i.
  assert (in_u 32 pg) as H32 by (eapply in_u_mono; [|done]; lia).
  unfold i. rewrite encoded_pgn, encoded_source, encoded_priority by done.
  unfold Identifier.destination, Identifier.is_pdu2.
  rewrite encoded_pdu_format, encoded_pdu_specific by done.
  rewrite (proj2 (Z.leb_gt _ _)), (proj2 (Z.ltb_lt _ _)) by lia.
  repeat split. unfold pgn_normalize. rewrite (proj2 (Z.ltb_lt _ _)) by lia.
  apply Z.bits_inj'. intros n Hn. unfold not_u.
  assert (Z.testbit (Z.land pg 0xFF) n = false) as Hb by (by rewrite Hlow, Z.testbit_0_l).
  revert Hb. change 0x3FFFF with (Z.ones 18). ones_masks.
  destruct (Z.ltb_spec n 8); [bits_norm; done|].
  destruct (Z.ltb_spec n 18); by bits_norm.
Qed.

(** ** Properties *)

(** Building a frame from a message and reading it back: [try_from_message]
    accepts exactly 18-bit PGNs with at most 8 payload bytes, reports the PGN error
    first, and on acceptance the frame carries the payload, the addressing and the
    padding length. *)
Theorem try_from_message_spec prio pg s d pl :
  in_u 32 pg -> in_u 8 s -> in_u 8 d -> bytes pl ->
  match FrameOps.try_from_message prio pg s d pl with
  | Ok f =>
      pg <= 0x3FFFF /\ (length pl <= 8)%nat /\ FrameOps.wf f /\
      FrameOps.payload f = pl /\ FrameOps.pgn f = pgn_normalize pg /\
      FrameOps.source f = s /\ FrameOps.priority f = prio /\
      FrameOps.destination f = (if pgn_is_pdu2 pg then BROADCAST_ADDRESS else d)
  | Err e =>
      (Error.code e = ErrorCode.InvalidPgn /\ 0x3FFFF < pg) \/
      (Error.code e = ErrorCode.InvalidData /\ pg <= 0x3FFFF /\ (8 < length pl)%nat)
  end.
Proof.
  intros Hpg Hs Hd Hpl. unfold FrameOps.try_from_message, pgn_is_valid.
  destruct (Z.leb_spec pg 0x3FFFF) as [Hv|Hv]; cbn [negb]; [|by left].
  destruct (Nat.ltb_spec 8 (length pl)); [by right|].
  rewrite firstn_all. do 2 (split; [done|]).
  unfold FrameOps.pgn, FrameOps.source, FrameOps.priority, FrameOps.destination,
    Identifier.destination, Identifier.is_pdu2, FrameOps.payload.
  cbn [f_id f_data f_length].
  rewrite encoded_pgn, encoded_source, encoded_priority by done.
  rewrite encoded_pdu_format, encoded_pdu_specific by done.
  split; [|split; [|split]].
  - split; [by apply wf_encode|]. cbn [f_data f_length]. split; [by apply take_pad_length|].
    split; [|lia]. apply Forall_app. split; [done|].
    apply Forall_drop, Forall_replicate. by unfold in_u.
  - rewrite Nat2Z.id, Nat.min_l by lia. by rewrite take_app_length.
  - apply (land_ones_small 18); [lia|]. apply in_u_normalize; [lia|]. unfold in_u in *.
    simpl. lia.
  - repeat split. unfold pgn_is_pdu2. repeat case_bool; done || lia.
Qed.

Lemma try_from_message_spec_witness :
  match FrameOps.try_from_message Priority.Default 0xEA00 0x80 0x42 [0; 0xEE; 0] with
  | Ok f => FrameOps.payload f = [0; 0xEE; 0]
  | Err _ => False
  end.
Proof.
  pose proof (try_from_message_spec Priority.Default 0xEA00 0x80 0x42 [0; 0xEE; 0]) as H.
  destruct (FrameOps.try_from_message _ _ _ _ _) as [f|e] eqn:E.
  - apply H; try (by unfold in_u); repeat constructor; done.
  - vm_compute in E. discriminate.
Defined.

(** A frame survives the conversion to the driver's frame and back: identifier,
    length and payload are preserved, and standard, RTR, error and over-long driver
    frames are refused. *)
Theorem can_frame_roundtrip f cf :
  FrameOps.wf f ->
  (exists g, FrameOps.from_can_frame (FrameOps.to_can_frame f) = Some g
             /\ same_frame f g /\ FrameOps.wf g) /\
  (FrameOps.from_can_frame cf = None <->
   CanFrame.extended cf = false \/ CanFrame.rtr cf = true \/ CanFrame.err cf = true
   \/ 8 < CanFrame.can_dlc cf).
Proof.
  intros (Hid & Hlen & Hby & Hl). split.
  - unfold FrameOps.to_can_frame, FrameOps.from_can_frame, CanFrame.make_ext.
    set (pl := FrameOps.payload f).
    assert (length pl = Z.to_nat (f_length f)) as Hpl.
    { unfold pl, FrameOps.payload. rewrite length_take. lia. }
    cbn [CanFrame.extended CanFrame.rtr CanFrame.err CanFrame.can_dlc CanFrame.raw_id
         CanFrame.data negb orb].
    rewrite (proj2 (Z.ltb_ge _ _)) by lia. eexists. split; [done|].
    rewrite Nat.min_l by lia. rewrite firstn_all.
    assert (Identifier.from_raw (Identifier.raw (f_id f)) = f_id f) as ->.
    { unfold Identifier.from_raw. destruct (f_id f) as [x]. f_equal.
      by apply (land_ones_small 29). }
    split.
    + split; [done|]. split; [simpl; lia|]. fold pl. unfold FrameOps.payload.
      cbn [f_length f_data]. rewrite Nat2Z.id, Nat.min_l by lia.
      by rewrite take_app_length.
    + split; [done|]. cbn [f_length f_data]. split; [apply take_pad_length; lia|].
      split; [|lia]. apply Forall_app. split; [by apply Forall_take|].
      apply Forall_drop, Forall_replicate. by unfold in_u.
  - unfold FrameOps.from_can_frame.
    destruct (CanFrame.extended cf), (CanFrame.rtr cf), (CanFrame.err cf); simpl;
      try (split; [by auto|done]).
    destruct (Z.ltb_spec 8 (CanFrame.can_dlc cf)).
    + split; auto.
    + split; [done|]. intros [?|[?|[?|?]]]; (done || lia).
Qed.

Lemma can_frame_roundtrip_witness :
  exists g, FrameOps.from_can_frame (FrameOps.to_can_frame
    (mkFrame (Identifier.mk 0x18EA4280) [1; 2; 3; 255; 255; 255; 255; 255] 3 77)) = Some g.
Proof.
  destruct (proj1 (can_frame_roundtrip
    (mkFrame (Identifier.mk 0x18EA4280) [1; 2; 3; 255; 255; 255; 255; 255] 3 77)
    (CanFrame.make_ext 0 []) ltac:(repeat split; try done; repeat constructor; done)))
    as (g & Hg & _).
  by exists g.
Defined.
