(* ===== verification/Chunk.v ===== *)
(** The two byte-copying loops the transport engines share: filling the seven data
    bytes of a DT frame from a payload, and scattering the seven data bytes of a
    received frame into the reassembly buffer (the [for] loops of
    [generate_data_frames] and [handle_dt] in [src/net/tp/tp_protocol_engine.rs] and
    their twins in the ETP and Fast Packet engines).  [w] is the width of the index
    arithmetic; an out-of-range index or an index overflow is [None]. *)
From S2P Require Export Types.

Fixpoint copy_out_loop (w : Z) (n : nat) (j : Z) (src : list Z) (off total : Z)
    (buf : list Z) : option (list Z) :=
  match n with
  | O => Some buf
  | S n =>
      idx ← checked_add w off j;
      buf ← (if idx <? total then
               x ← src !! Z.to_nat idx; Some (<[Z.to_nat (j + 1):=x]> buf)
             else Some buf);
      copy_out_loop w n (j + 1) src off total buf
  end.

Fixpoint copy_in_loop (w : Z) (n : nat) (i : Z) (dst : list Z) (off total : Z)
    (fdata : list Z) : option (list Z) :=
  match n with
  | O => Some dst
  | S n =>
      abs ← checked_add w off i;
      dst ← (if abs <? total then
               _ ← dst !! Z.to_nat abs;
               Some (<[Z.to_nat abs:=fdata !!! Z.to_nat (i + 1)]> dst)
             else Some dst);
      copy_in_loop w n (i + 1) dst off total fdata
  end.

(** The chunk of a payload starting at [off] and its padding to seven bytes. *)
Definition chunk7 (off : Z) (src : list Z) : list Z := take 7 (drop (Z.to_nat off) src).
Definition pad7 (l : list Z) : list Z := l ++ replicate (7 - length l) 0xFF.

(** The buffer after writing the seven data bytes of [fdata] at [off], truncated to
    the buffer's length: what the receive loop computes, without the loop. *)
Definition scatter7 (off : Z) (dst fdata : list Z) : list Z :=
  take (Z.to_nat off) dst
  ++ take (length dst - Z.to_nat off) (take 7 (drop 1 fdata))
  ++ drop (Z.to_nat off + 7) dst.

(** [agrees k a b]: the first [k] bytes of the buffers coincide. *)
Definition agrees (k : Z) (a b : list Z) : Prop :=
  forall i : nat, Z.of_nat i < k -> a !! i = b !! i.

(** ** Lemmas *)

Lemma copy_out_loop_spec w n j src off total buf :
  0 <= j -> 0 <= off -> off + j + Z.of_nat n <= 2 ^ w ->
  total = Z.of_nat (length src) -> length buf = 8%nat -> j + Z.of_nat n <= 7 ->
  exists buf', copy_out_loop w n j src off total buf = Some buf' /\
    length buf' = 8%nat /\
    forall i : nat, buf' !! i =
      if bool_decide (j < Z.of_nat i <= j + Z.of_nat n /\ off + Z.of_nat i - 1 < total)
      then src !! Z.to_nat (off + Z.of_nat i - 1) else buf !! i.
Proof.
  revert j buf. induction n as [|n IH]; intros j buf Hj Hoff Hw Ht Hb Hn; simpl.
  { exists buf. repeat split; [done|]. intros i. by rewrite bool_decide_eq_false_2 by lia. }
  rewrite checked_add_Some by lia. simpl.
  destruct (Z.ltb_spec (off + j) total) as [Hlt|Hge].
  - destruct (lookup_lt_is_Some_2 src (Z.to_nat (off + j))) as [x Hx]; [lia|].
    rewrite Hx. simpl.
    destruct (IH (j + 1) (<[Z.to_nat (j + 1):=x]> buf)) as (b & -> & Hl & Hi); try lia.
    { by rewrite length_insert. }
    exists b. repeat split; [done|]. intros i. rewrite Hi.
    destruct (decide (Z.of_nat i = j + 1)) as [E|].
    + rewrite bool_decide_eq_false_2, bool_decide_eq_true_2 by lia.
      replace i with (Z.to_nat (j + 1)) by lia.
      rewrite list_lookup_insert_eq by lia.
      replace (Z.to_nat (off + Z.of_nat (Z.to_nat (j + 1)) - 1)) with (Z.to_nat (off + j))
        by lia.
      by rewrite Hx.
    + rewrite list_lookup_insert_ne by lia. repeat case_bool_decide; done || lia.
  - simpl. destruct (IH (j + 1) buf) as (b & -> & Hl & Hi); try (done || lia).
    exists b. repeat split; [done|]. intros i. rewrite Hi.
    repeat case_bool_decide; done || lia.
Qed.

Lemma lookup_chunk7 off src i :
  0 <= off ->
  chunk7 off src !! i =
  if bool_decide (i < 7)%nat then src !! Z.to_nat (off + Z.of_nat i) else None.
Proof.
  intros. unfold chunk7. case_bool_decide.
  - rewrite lookup_take_lt, lookup_drop by lia. f_equal. lia.
  - by rewrite lookup_take_ge by lia.
Qed.

Lemma length_chunk7 off src :
  0 <= off -> length (chunk7 off src) = Nat.min 7 (length src - Z.to_nat off).
Proof. intros. unfold chunk7. by rewrite length_take, length_drop. Qed.

Lemma length_pad7 l : (length l <= 7)%nat -> length (pad7 l) = 7%nat.
Proof. intros. unfold pad7. rewrite length_app, length_replicate. lia. Qed.

Lemma bytes_pad7 l : bytes l -> bytes (pad7 l).
Proof. intros. apply Forall_app. split; [done|]. apply Forall_replicate. by unfold in_u. Qed.

Lemma bytes_chunk7 off l : bytes l -> bytes (chunk7 off l).
Proof. intros. by apply Forall_take, Forall_drop. Qed.

(** The frame-filling loop writes exactly the padded chunk. *)
Lemma copy_out_chunk w src off hd :
  0 <= off -> off + 7 <= 2 ^ w ->
  copy_out_loop w 7 0 src off (Z.of_nat (length src)) (hd :: replicate 7 0xFF)
  = Some (hd :: pad7 (chunk7 off src)).
Proof.
  intros Hoff Hw.
  destruct (copy_out_loop_spec w 7 0 src off (Z.of_nat (length src))
    (hd :: replicate 7 0xFF)) as (b & -> & Hl & Hb); try (done || lia).
  f_equal. apply list_eq. intros i. rewrite Hb.
  destruct i as [|i]; [by rewrite bool_decide_eq_false_2 by lia|].
  simpl.
  pose proof (length_chunk7 off src Hoff) as Hc.
  unfold pad7. case_bool_decide as Hd.
  - rewrite lookup_app_l by lia. rewrite lookup_chunk7 by lia.
    rewrite bool_decide_eq_true_2 by lia. f_equal. lia.
  - rewrite lookup_app_r by lia.
    destruct (decide (i < 7)%nat).
    + change [255; 255; 255; 255; 255; 255; 255] with (replicate 7 255).
      rewrite !lookup_replicate_2 by lia. done.
    + rewrite (proj2 (lookup_ge_None _ _)) by (simpl; lia).
      symmetry. apply lookup_ge_None. rewrite length_replicate. lia.
Qed.

Lemma copy_in_loop_spec w n i dst off total fdata :
  0 <= i -> 0 <= off -> off + i + Z.of_nat n <= 2 ^ w ->
  total = Z.of_nat (length dst) ->
  exists dst', copy_in_loop w n i dst off total fdata = Some dst' /\
    length dst' = length dst /\
    forall k : nat, dst' !! k =
      if bool_decide (off + i <= Z.of_nat k < off + i + Z.of_nat n /\ Z.of_nat k < total)
      then Some (fdata !!! Z.to_nat (Z.of_nat k - off + 1)) else dst !! k.
Proof.
  revert i dst. induction n as [|n IH]; intros i dst Hi Hoff Hw Ht; simpl.
  { exists dst. repeat split. intros k. by rewrite bool_decide_eq_false_2 by lia. }
  rewrite checked_add_Some by lia. simpl.
  destruct (Z.ltb_spec (off + i) total) as [Hlt|Hge].
  - destruct (lookup_lt_is_Some_2 dst (Z.to_nat (off + i))) as [x Hx]; [lia|].
    rewrite Hx. simpl.
    destruct (IH (i + 1) (<[Z.to_nat (off + i):=fdata !!! Z.to_nat (i + 1)]> dst))
      as (d & -> & Hl & Hd); try lia; [by rewrite length_insert|].
    exists d. split; [done|]. split; [by rewrite Hl, length_insert|].
    intros k. rewrite Hd. destruct (decide (Z.of_nat k = off + i)) as [E|].
    + rewrite bool_decide_eq_false_2, bool_decide_eq_true_2 by lia.
      replace k with (Z.to_nat (off + i)) by lia.
      rewrite list_lookup_insert_eq by lia. do 2 f_equal. lia.
    + rewrite list_lookup_insert_ne by lia. repeat case_bool_decide; done || lia.
  - simpl. destruct (IH (i + 1) dst) as (d & -> & Hl & Hd); try lia.
    exists d. repeat split; [done|]. intros k. rewrite Hd.
    repeat case_bool_decide; done || lia.
Qed.

(** Scattering a frame filled from [src] extends the agreement with [src] by the
    frame's chunk. *)
Lemma copy_in_agrees w src dst off hd :
  0 <= off -> off + 7 <= 2 ^ w -> length dst = length src -> agrees off dst src ->
  exists dst',
    copy_in_loop w 7 0 dst off (Z.of_nat (length dst)) (hd :: pad7 (chunk7 off src))
    = Some dst' /\ length dst' = length src /\ agrees (off + 7) dst' src.
Proof.
  intros Hoff Hw Hlen Hag.
  destruct (copy_in_loop_spec w 7 0 dst off (Z.of_nat (length dst))
    (hd :: pad7 (chunk7 off src))) as (d & -> & Hl & Hd); try (done || lia).
  exists d. split; [done|]. split; [congruence|].
  intros k Hk. rewrite Hd. case_bool_decide as Hc.
  - replace (Z.to_nat (Z.of_nat k - off + 1)) with (S (k - Z.to_nat off)) by lia.
    change ((hd :: pad7 (chunk7 off src)) !!! S (k - Z.to_nat off))
      with (pad7 (chunk7 off src) !!! (k - Z.to_nat off)%nat).
    destruct (lookup_lt_is_Some_2 src k) as [x Hx]; [lia|]. rewrite Hx. f_equal.
    apply list_lookup_total_correct. unfold pad7.
    rewrite lookup_app_l by (rewrite length_chunk7 by lia; lia).
    rewrite lookup_chunk7, bool_decide_eq_true_2 by lia. rewrite <- Hx. f_equal. lia.
  - destruct (decide (Z.of_nat k < off)); [by apply Hag|].
    by rewrite !(proj2 (lookup_ge_None _ _)) by lia.
Qed.

Lemma copy_in_scatter w dst off fdata :
  0 <= off <= Z.of_nat (length dst) -> off + 7 <= 2 ^ w -> length fdata = 8%nat ->
  copy_in_loop w 7 0 dst off (Z.of_nat (length dst)) fdata = Some (scatter7 off dst fdata).
Proof.
  intros Hoff Hw Hf.
  destruct (copy_in_loop_spec w 7 0 dst off (Z.of_nat (length dst)) fdata)
    as (d & -> & Hl & Hd); try lia.
  f_equal. apply list_eq. intros k. rewrite Hd. unfold scatter7.
  assert (length (take (Z.to_nat off) dst) = Z.to_nat off) as H1
    by (rewrite length_take; lia).
  assert (length (take (length dst - Z.to_nat off) (take 7 (drop 1 fdata)))
          = Nat.min (length dst - Z.to_nat off) 7) as H2
    by (rewrite !length_take, length_drop; lia).
  destruct (decide (k < Z.to_nat off)%nat).
  { rewrite bool_decide_eq_false_2 by lia. rewrite lookup_app_l by lia.
    by rewrite lookup_take_lt by lia. }
  rewrite lookup_app_r by lia. rewrite H1. case_bool_decide as Hc.
  - rewrite lookup_app_l by lia. rewrite !lookup_take_lt, lookup_drop by lia.
    replace (Z.to_nat (Z.of_nat k - off + 1)) with (1 + (k - Z.to_nat off))%nat by lia.
    symmetry. apply list_lookup_lookup_total_lt. lia.
  - rewrite lookup_app_r by lia. rewrite H2, lookup_drop.
    destruct (decide (k < length dst)%nat).
    + f_equal. lia.
    + by rewrite !(proj2 (lookup_ge_None _ _)) by lia.
Qed.

Lemma length_scatter7 off dst fdata :
  0 <= off <= Z.of_nat (length dst) -> length fdata = 8%nat ->
  length (scatter7 off dst fdata) = length dst.
Proof.
  intros. unfold scatter7. rewrite !length_app, !length_take, !length_drop. lia.
Qed.

Lemma bytes_scatter7 off dst fdata :
  bytes dst -> bytes fdata -> bytes (scatter7 off dst fdata).
Proof.
  intros. unfold scatter7.
  repeat (apply Forall_app; split); auto using Forall_take, Forall_drop.
Qed.

Lemma scatter7_agrees src dst off hd :
  0 <= off <= Z.of_nat (length dst) -> length dst = length src -> agrees off dst src ->
  agrees (off + 7) (scatter7 off dst (hd :: pad7 (chunk7 off src))) src.
Proof.
  intros Hoff Hlen Hag.
  assert (off + 7 <= 2 ^ (off + 7)) by (pose proof (Z.pow_gt_lin_r 2 (off + 7)); lia).
  destruct (copy_in_agrees (off + 7) src dst off hd) as (d & Hd & _ & Hda);
    try (done || lia).
  rewrite copy_in_scatter in Hd; [by simplify_eq|done|done|].
  simpl. rewrite length_pad7; [done|]. rewrite length_chunk7 by lia. lia.
Qed.

Lemma agrees_0 a b : agrees 0 a b.
Proof. intros i Hi. lia. Qed.

Lemma agrees_full k a b :
  length a = length b -> Z.of_nat (length b) <= k -> agrees k a b -> a = b.
Proof.
  intros Hl Hk Hag. apply list_eq. intros i.
  destruct (decide (i < length b)%nat); [apply Hag; lia|].
  by rewrite !(proj2 (lookup_ge_None _ _)) by lia.
Qed.

#[export] Hint Resolve agrees_0 bytes_pad7 bytes_chunk7 bytes_scatter7 : bus.

#[global] Arguments copy_in_loop : simpl never.
#[global] Arguments copy_out_loop : simpl never.
#[global] Arguments scatter7 : simpl never.
#[global] Arguments pad7 : simpl never.
#[global] Arguments chunk7 : simpl never.
