(* ===== verification/Session.v ===== *)
(** Types shared by the transport engines: the model of [src/net/session.rs].

    [TransportSession] has every field of the source record; [with_*] are the field
    updates the engines perform in place. *)
From S2P Require Export Types.

Inductive TransportDirection : Type := Transmit | Receive.

Module AbortReason.
Inductive t : Type :=
| None_ | AlreadyInSession | ResourcesUnavailable | Timeout | ConnectionModeError
| MaxRetransmitsExceeded | UnexpectedPgn | BadSequence | DuplicateSequence
| UnexpectedDataSize | Other.

Definition try_from_u8 (value : Z) : option t :=
  match value with
  | 0 => Some None_ | 1 => Some AlreadyInSession | 2 => Some ResourcesUnavailable
  | 3 => Some Timeout | 4 => Some ConnectionModeError | 5 => Some MaxRetransmitsExceeded
  | 6 => Some UnexpectedPgn | 7 => Some BadSequence | 8 => Some DuplicateSequence
  | 9 => Some UnexpectedDataSize | 250 => Some Other
  | _ => None
  end.

Definition from_u8 (value : Z) : t :=
  match try_from_u8 value with Some r => r | None => None_ end.

Definition as_u8 (r : t) : Z :=
  match r with
  | None_ => 0 | AlreadyInSession => 1 | ResourcesUnavailable => 2 | Timeout => 3
  | ConnectionModeError => 4 | MaxRetransmitsExceeded => 5 | UnexpectedPgn => 6
  | BadSequence => 7 | DuplicateSequence => 8 | UnexpectedDataSize => 9 | Other => 250
  end.

#[global] Instance eq_dec : EqDecision t.
Proof. solve_decision. Defined.

Lemma try_from_as_reason r : try_from_u8 (as_u8 r) = Some r.
Proof. by destruct r. Qed.

Lemma as_u8_reason_range r : in_u 8 (as_u8 r).
Proof. destruct r; unfold in_u; simpl; lia. Qed.
End AbortReason.

Record TransportStats : Type := mkStats {
  dropped_frames : Z;
  dropped_sessions : Z;
  aborts_sent : Z;
  aborts_received : Z;
  timeouts : Z;
  resource_rejections : Z
}.

Definition TransportStats_default : TransportStats := mkStats 0 0 0 0 0 0.

(** [self.stats.x = self.stats.x.saturating_add(n)], a [u64] counter each. *)
Definition add_dropped_frames (n : Z) (s : TransportStats) : TransportStats :=
  mkStats (sat_add 64 (dropped_frames s) n) (dropped_sessions s) (aborts_sent s)
    (aborts_received s) (timeouts s) (resource_rejections s).
Definition add_dropped_sessions (n : Z) (s : TransportStats) : TransportStats :=
  mkStats (dropped_frames s) (sat_add 64 (dropped_sessions s) n) (aborts_sent s)
    (aborts_received s) (timeouts s) (resource_rejections s).
Definition add_aborts_sent (n : Z) (s : TransportStats) : TransportStats :=
  mkStats (dropped_frames s) (dropped_sessions s) (sat_add 64 (aborts_sent s) n)
    (aborts_received s) (timeouts s) (resource_rejections s).
Definition add_aborts_received (n : Z) (s : TransportStats) : TransportStats :=
  mkStats (dropped_frames s) (dropped_sessions s) (aborts_sent s)
    (sat_add 64 (aborts_received s) n) (timeouts s) (resource_rejections s).
Definition add_timeouts (n : Z) (s : TransportStats) : TransportStats :=
  mkStats (dropped_frames s) (dropped_sessions s) (aborts_sent s)
    (aborts_received s) (sat_add 64 (timeouts s) n) (resource_rejections s).
Definition add_resource_rejections (n : Z) (s : TransportStats) : TransportStats :=
  mkStats (dropped_frames s) (dropped_sessions s) (aborts_sent s)
    (aborts_received s) (timeouts s) (sat_add 64 (resource_rejections s) n).

Module SessionState.
Inductive t : Type :=
| None_ | WaitingForCTS | SendingData | WaitingForEndOfMsg | ReceivingData
| WaitingForData | Complete | Aborted.
#[global] Instance eq_dec : EqDecision t.
Proof. solve_decision. Defined.
End SessionState.

#[global] Instance TransportDirection_eq_dec : EqDecision TransportDirection.
Proof. solve_decision. Defined.

Record TransportSession : Type := mkSession {
  s_direction : TransportDirection;
  s_state : SessionState.t;
  s_pgn : Pgn;
  s_data : list Z;
  s_total_bytes : Z;
  s_bytes_transferred : Z;
  s_source_address : Address;
  s_destination_address : Address;
  s_can_port : Z;
  s_priority : Priority.t;
  s_last_sequence : Z;
  s_packets_to_send : Z;
  s_next_packet_to_send : Z;
  s_advertised_packets_per_cts : Z;
  s_max_packets_per_cts : Z;
  s_cts_window_start : Z;
  s_cts_window_size : Z;
  s_retransmit_count : Z;
  s_dpo_packet_offset : Z;
  s_timer_ms : Z
}.

Definition TransportSession_default : TransportSession :=
  mkSession Receive SessionState.None_ 0 [] 0 0 NULL_ADDRESS BROADCAST_ADDRESS 0
    Priority.Default 0 0 0 TP_MAX_PACKETS_PER_CTS TP_MAX_PACKETS_PER_CTS 1 0 0 0 0.

Definition total_packets (s : TransportSession) : Z :=
  div_ceil (s_total_bytes s) TP_BYTES_PER_FRAME.

Definition is_broadcast_session (s : TransportSession) : bool :=
  s_destination_address s =? BROADCAST_ADDRESS.

(** Field updates. *)
Definition with_state (v : SessionState.t) (s : TransportSession) : TransportSession :=
  mkSession (s_direction s) v (s_pgn s) (s_data s) (s_total_bytes s) (s_bytes_transferred s)
    (s_source_address s) (s_destination_address s) (s_can_port s) (s_priority s)
    (s_last_sequence s) (s_packets_to_send s) (s_next_packet_to_send s)
    (s_advertised_packets_per_cts s) (s_max_packets_per_cts s) (s_cts_window_start s)
    (s_cts_window_size s) (s_retransmit_count s) (s_dpo_packet_offset s) (s_timer_ms s).
Definition with_data (v : list Z) (s : TransportSession) : TransportSession :=
  mkSession (s_direction s) (s_state s) (s_pgn s) v (s_total_bytes s)
    (s_bytes_transferred s) (s_source_address s) (s_destination_address s) (s_can_port s)
    (s_priority s) (s_last_sequence s) (s_packets_to_send s) (s_next_packet_to_send s)
    (s_advertised_packets_per_cts s) (s_max_packets_per_cts s) (s_cts_window_start s)
    (s_cts_window_size s) (s_retransmit_count s) (s_dpo_packet_offset s) (s_timer_ms s).
Definition with_bytes_transferred (v : Z) (s : TransportSession) : TransportSession :=
  mkSession (s_direction s) (s_state s) (s_pgn s) (s_data s) (s_total_bytes s) v
    (s_source_address s) (s_destination_address s) (s_can_port s) (s_priority s)
    (s_last_sequence s) (s_packets_to_send s) (s_next_packet_to_send s)
    (s_advertised_packets_per_cts s) (s_max_packets_per_cts s) (s_cts_window_start s)
    (s_cts_window_size s) (s_retransmit_count s) (s_dpo_packet_offset s) (s_timer_ms s).
Definition with_last_sequence (v : Z) (s : TransportSession) : TransportSession :=
  mkSession (s_direction s) (s_state s) (s_pgn s) (s_data s) (s_total_bytes s)
    (s_bytes_transferred s) (s_source_address s) (s_destination_address s) (s_can_port s)
    (s_priority s) v (s_packets_to_send s) (s_next_packet_to_send s)
    (s_advertised_packets_per_cts s) (s_max_packets_per_cts s) (s_cts_window_start s)
    (s_cts_window_size s) (s_retransmit_count s) (s_dpo_packet_offset s) (s_timer_ms s).
Definition with_packets_to_send (v : Z) (s : TransportSession) : TransportSession :=
  mkSession (s_direction s) (s_state s) (s_pgn s) (s_data s) (s_total_bytes s)
    (s_bytes_transferred s) (s_source_address s) (s_destination_address s) (s_can_port s)
    (s_priority s) (s_last_sequence s) v (s_next_packet_to_send s)
    (s_advertised_packets_per_cts s) (s_max_packets_per_cts s) (s_cts_window_start s)
    (s_cts_window_size s) (s_retransmit_count s) (s_dpo_packet_offset s) (s_timer_ms s).
Definition with_cts_window (start size : Z) (s : TransportSession) : TransportSession :=
  mkSession (s_direction s) (s_state s) (s_pgn s) (s_data s) (s_total_bytes s)
    (s_bytes_transferred s) (s_source_address s) (s_destination_address s) (s_can_port s)
    (s_priority s) (s_last_sequence s) (s_packets_to_send s) (s_next_packet_to_send s)
    (s_advertised_packets_per_cts s) (s_max_packets_per_cts s) start size
    (s_retransmit_count s) (s_dpo_packet_offset s) (s_timer_ms s).
Definition with_retransmit_count (v : Z) (s : TransportSession) : TransportSession :=
  mkSession (s_direction s) (s_state s) (s_pgn s) (s_data s) (s_total_bytes s)
    (s_bytes_transferred s) (s_source_address s) (s_destination_address s) (s_can_port s)
    (s_priority s) (s_last_sequence s) (s_packets_to_send s) (s_next_packet_to_send s)
    (s_advertised_packets_per_cts s) (s_max_packets_per_cts s) (s_cts_window_start s)
    (s_cts_window_size s) v (s_dpo_packet_offset s) (s_timer_ms s).
Definition with_dpo_packet_offset (v : Z) (s : TransportSession) : TransportSession :=
  mkSession (s_direction s) (s_state s) (s_pgn s) (s_data s) (s_total_bytes s)
    (s_bytes_transferred s) (s_source_address s) (s_destination_address s) (s_can_port s)
    (s_priority s) (s_last_sequence s) (s_packets_to_send s) (s_next_packet_to_send s)
    (s_advertised_packets_per_cts s) (s_max_packets_per_cts s) (s_cts_window_start s)
    (s_cts_window_size s) (s_retransmit_count s) v (s_timer_ms s).
Definition with_timer_ms (v : Z) (s : TransportSession) : TransportSession :=
  mkSession (s_direction s) (s_state s) (s_pgn s) (s_data s) (s_total_bytes s)
    (s_bytes_transferred s) (s_source_address s) (s_destination_address s) (s_can_port s)
    (s_priority s) (s_last_sequence s) (s_packets_to_send s) (s_next_packet_to_send s)
    (s_advertised_packets_per_cts s) (s_max_packets_per_cts s) (s_cts_window_start s)
    (s_cts_window_size s) (s_retransmit_count s) (s_dpo_packet_offset s) v.

Record TransportAbortEvent : Type := mkAbortEvent {
  ae_pgn : Pgn;
  ae_source : Address;
  ae_destination : Address;
  ae_can_port : Z;
  ae_direction : TransportDirection;
  ae_reason : AbortReason.t
}.

Definition from_session (s : TransportSession) (reason : AbortReason.t)
    : TransportAbortEvent :=
  mkAbortEvent (s_pgn s) (s_source_address s) (s_destination_address s) (s_can_port s)
    (s_direction s) reason.
