(* ===== verification/FastPacket.v ===== *)
(** NMEA 2000 Fast Packet: the model of [src/net/fast_packet.rs] (hosted build, where
    payloads and the session table are [Vec]s).

    The protocol object is [FastPacketProtocol]; each method is one definition taking
    and returning it.  [None] in an [option] result that carries the next state is a
    panic (index out of range or arithmetic overflow); [rx_message] results use
    [Some]/[None] for "message completed" as in the source. *)
From S2P Require Export Frame Chunk Session.

Definition FIRST_FRAME_DATA : nat := 6.
Definition SUBSEQUENT_FRAME_DATA : nat := 7.
Definition FAST_PACKET_DEFAULT_MAX_RX_SESSIONS : nat := 32.

Record FastPacketSession : Type := mkFp {
  fp_pgn : Pgn;
  fp_data : list Z;
  fp_total_bytes : Z;
  fp_bytes_received : Z;
  fp_source_address : Address;
  fp_destination_address : Address;
  fp_priority : Priority.t;
  fp_sequence_counter : Z;
  fp_expected_frame : Z;
  fp_timer_ms : Z;
  fp_last_timestamp_us : Z
}.

Record FastPacketProtocol : Type := mkFpp {
  rx_sessions : list FastPacketSession;
  tx_sequence_counter : Z;
  max_rx_sessions : nat;
  fp_stats : TransportStats
}.

Definition fp_new : FastPacketProtocol :=
  mkFpp [] 0 FAST_PACKET_DEFAULT_MAX_RX_SESSIONS TransportStats_default.
Definition set_max_rx_sessions (n : nat) (p : FastPacketProtocol) : FastPacketProtocol :=
  mkFpp (rx_sessions p) (tx_sequence_counter p) n (fp_stats p).
Definition fp_clear_stats (p : FastPacketProtocol) : FastPacketProtocol :=
  mkFpp (rx_sessions p) (tx_sequence_counter p) (max_rx_sessions p) TransportStats_default.

Definition fp_with_stats (f : TransportStats -> TransportStats) (p : FastPacketProtocol)
    : FastPacketProtocol :=
  mkFpp (rx_sessions p) (tx_sequence_counter p) (max_rx_sessions p) (f (fp_stats p)).
Definition with_rx_sessions (l : list FastPacketSession) (p : FastPacketProtocol)
    : FastPacketProtocol :=
  mkFpp l (tx_sequence_counter p) (max_rx_sessions p) (fp_stats p).

Definition valid_fast_packet_source (source : Address) : bool :=
  negb (source =? NULL_ADDRESS) && negb (source =? BROADCAST_ADDRESS).

(** The [for frame_num in 1..total_frames] loop of [send_to]: [n] iterations left,
    the next frame number and the payload offset. *)
Fixpoint subsequent_frames (n : nat) (id : Identifier.t) (seq frame_num offset : Z)
    (data : list Z) : option (list Frame) :=
  match n with
  | O => Some []
  | S n =>
      buf ← copy_out_loop 64 SUBSEQUENT_FRAME_DATA 0 data offset (Z.of_nat (length data))
              (Z.lor seq frame_num :: replicate 7 0xFF);
      rest ← subsequent_frames n id seq (frame_num + 1) (offset + 7) data;
      Some (FrameOps.new8 id buf :: rest)
  end.

(** [FastPacketProtocol::send_to]. *)
Definition send_to (p : FastPacketProtocol) (pgn : Pgn) (data : list Z)
    (source destination : Address) (priority : Priority.t)
    : option (FastPacketProtocol * Result (list Frame) Error.t) :=
  let len := Z.of_nat (length data) in
  if negb (pgn_is_valid pgn) then Some (p, Err (Error.invalid_pgn pgn))
  else if negb (valid_fast_packet_source source) then
    Some (p, Err (Error.invalid_address source))
  else if FAST_PACKET_MAX_DATA <? len then
    Some (fp_with_stats (add_resource_rejections 1) p, Err Error.buffer_overflow)
  else if len <=? CAN_DATA_LENGTH then
    Some (p, Err (Error.invalid_state "use single frame for <= 8 bytes"))
  else
    let seq := Z.shiftl (Z.land (tx_sequence_counter p) 0x07) 5 in
    next ← checked_add 8 (tx_sequence_counter p) 1;
    let p := mkFpp (rx_sessions p) (Z.land next 0x07) (max_rx_sessions p) (fp_stats p) in
    let total_frames := 1 + div_ceil (len - 6) 7 in
    let id := Identifier.encode priority pgn source destination in
    let n_first := Nat.min FIRST_FRAME_DATA (length data) in
    let first := seq :: len :: take n_first data ++ replicate (6 - n_first) 0xFF in
    rest ← subsequent_frames (Z.to_nat (total_frames - 1)) id seq 1 6 data;
    Some (p, Ok (FrameOps.new8 id first :: rest)).

(** [FastPacketProtocol::send]. *)
Definition send (p : FastPacketProtocol) (pgn : Pgn) (data : list Z) (source : Address)
    : option (FastPacketProtocol * Result (list Frame) Error.t) :=
  send_to p pgn data source BROADCAST_ADDRESS Priority.Default.

Definition fp_matches (src : Address) (pgn : Pgn) (seq : Z) (s : FastPacketSession) : bool :=
  (fp_source_address s =? src) && (fp_pgn s =? pgn) && (fp_sequence_counter s =? seq).

Definition new_rx_payload (total_bytes : Z) (first : list Z) : list Z :=
  first ++ drop (length first) (replicate (Z.to_nat total_bytes) 0xFF).

(** [FastPacketProtocol::start_new_session].  [copy_len < total_bytes] always holds
    after the length guard, so the source's one-frame completion branch is the
    [then] branch that returns the session. *)
Definition start_new_session (p : FastPacketProtocol) (frame : Frame) (pgn : Pgn)
    (src : Address) (seq_counter : Z)
    : option (FastPacketProtocol * option FastPacketSession) :=
  let total_bytes := FrameOps.byte frame 1 in
  if (total_bytes <=? CAN_DATA_LENGTH) || (FAST_PACKET_MAX_DATA <? total_bytes) then
    let p := fp_with_stats (add_dropped_frames 1) p in
    Some (if FAST_PACKET_MAX_DATA <? total_bytes
          then fp_with_stats (add_resource_rejections 1) p else p, None)
  else
    let copy_len := Nat.min (Z.to_nat total_bytes) FIRST_FRAME_DATA in
    let data := new_rx_payload total_bytes (take copy_len (drop 2 (f_data frame))) in
    let session := mkFp pgn data total_bytes (Z.of_nat copy_len) src
      (FrameOps.destination frame) (FrameOps.priority frame) seq_counter 1 0
      (f_timestamp_us frame) in
    if total_bytes <=? Z.of_nat copy_len then Some (p, Some session)
    else
      p ← match position (fp_matches src pgn seq_counter) (rx_sessions p) with
          | Some idx =>
              '(_, l) ← swap_remove idx (rx_sessions p);
              Some (with_rx_sessions l (fp_with_stats (add_dropped_sessions 1) p))
          | None => Some p
          end;
      if (max_rx_sessions p <=? length (rx_sessions p))%nat then
        Some (fp_with_stats (add_resource_rejections 1)
                (fp_with_stats (add_dropped_frames 1) p), None)
      else Some (with_rx_sessions (rx_sessions p ++ [session]) p, None).

(** [FastPacketProtocol::process_frame_session]. *)
Definition process_frame_session (p : FastPacketProtocol) (frame : Frame)
    : option (FastPacketProtocol * option FastPacketSession) :=
  if negb (f_length frame =? CAN_DATA_LENGTH) then
    Some (fp_with_stats (add_dropped_frames 1) p, None)
  else
    let frame_counter := Z.land (FrameOps.byte frame 0) 0x1F in
    let seq_counter := Z.land (Z.shiftr (FrameOps.byte frame 0) 5) 0x07 in
    let src := FrameOps.source frame in
    let pgn := FrameOps.pgn frame in
    if negb (valid_fast_packet_source src) then
      Some (fp_with_stats (add_dropped_frames 1) p, None)
    else if frame_counter =? 0 then start_new_session p frame pgn src seq_counter
    else
      match position (fp_matches src pgn seq_counter) (rx_sessions p) with
      | None => Some (fp_with_stats (add_dropped_frames 1) p, None)
      | Some idx =>
          s ← rx_sessions p !! idx;
          if negb (frame_counter =? fp_expected_frame s) then
            '(_, l) ← swap_remove idx (rx_sessions p);
            Some (with_rx_sessions l (fp_with_stats (add_dropped_sessions 1)
                    (fp_with_stats (add_dropped_frames 1) p)), None)
          else
            let offset := 6 + (frame_counter - 1) * 7 in
            data ← copy_in_loop 64 SUBSEQUENT_FRAME_DATA 0 (fp_data s) offset
                     (fp_total_bytes s) (f_data frame);
            let s := mkFp (fp_pgn s) data (fp_total_bytes s)
              (Z.min (offset + 7) (fp_total_bytes s)) (fp_source_address s)
              (fp_destination_address s) (fp_priority s) (fp_sequence_counter s)
              (wrap 8 (fp_expected_frame s + 1)) 0 (f_timestamp_us frame) in
            let p := with_rx_sessions (<[idx:=s]> (rx_sessions p)) p in
            if fp_total_bytes s <=? fp_bytes_received s then
              '(s, l) ← swap_remove idx (rx_sessions p);
              Some (with_rx_sessions l p, Some s)
            else Some (p, None)
      end.

Definition make_message (s : FastPacketSession) : Message :=
  mkMessage (fp_pgn s) (fp_data s) (fp_source_address s) (fp_destination_address s)
    (fp_priority s) (fp_last_timestamp_us s).

(** [FastPacketProtocol::process_frame]. *)
Definition process_frame (p : FastPacketProtocol) (frame : Frame)
    : option (FastPacketProtocol * option Message) :=
  match process_frame_session p frame with
  | Some (p, Some s) => Some (p, Some (make_message s))
  | Some (p, None) => Some (p, None)
  | None => None
  end.

Definition fp_with_timer (t : Z) (s : FastPacketSession) : FastPacketSession :=
  mkFp (fp_pgn s) (fp_data s) (fp_total_bytes s) (fp_bytes_received s)
    (fp_source_address s) (fp_destination_address s) (fp_priority s)
    (fp_sequence_counter s) (fp_expected_frame s) t (fp_last_timestamp_us s).

(** The [while i < self.rx_sessions.len()] loop of [update]; [None] is fuel
    exhaustion, excluded by [fp_update_total]. *)
Fixpoint fp_update_loop (fuel : nat) (i : nat) (elapsed : Z) (p : FastPacketProtocol)
    : option FastPacketProtocol :=
  match rx_sessions p !! i with
  | None => Some p
  | Some s =>
      match fuel with
      | O => None
      | S fuel =>
          let s := fp_with_timer (sat_add 32 (fp_timer_ms s) elapsed) s in
          let p := with_rx_sessions (<[i:=s]> (rx_sessions p)) p in
          if TP_TIMEOUT_T1_MS <=? fp_timer_ms s then
            '(_, l) ← swap_remove i (rx_sessions p);
            fp_update_loop fuel i elapsed
              (with_rx_sessions l (fp_with_stats (add_dropped_sessions 1)
                 (fp_with_stats (add_timeouts 1) p)))
          else fp_update_loop fuel (S i) elapsed p
      end
  end.

(** [FastPacketProtocol::update]. *)
Definition fp_update (p : FastPacketProtocol) (elapsed : Z) : option FastPacketProtocol :=
  fp_update_loop (length (rx_sessions p)) 0 elapsed p.
