(* ===== verification/FastPacketProofs.v ===== *)
(** Correctness of the Fast Packet engine of [FastPacket]: the session table refines a
    finite map keyed by (source, PGN, sequence counter), frames of one transfer do not
    disturb another, and a transfer sent by [send_to] is reassembled byte for byte. *)
From stdpp Require Import gmap.
From S2P Require Export FastPacket.

(** ** Abstract specification: a finite map of sessions *)

Abbreviation fp_key := (Z * Z * Z)%type.

Definition session_key (s : FastPacketSession) : fp_key :=
  (fp_source_address s, fp_pgn s, fp_sequence_counter s).

Definition fp_table (l : list FastPacketSession) : gmap fp_key FastPacketSession :=
  list_to_map ((fun s => (session_key s, s)) <$> l).

Definition frame_counter (f : Frame) : Z := Z.land (FrameOps.byte f 0) 0x1F.
Definition frame_key (f : Frame) : fp_key :=
  (FrameOps.source f, FrameOps.pgn f, Z.land (Z.shiftr (FrameOps.byte f 0) 5) 0x07).

Definition first_session (f : Frame) : FastPacketSession :=
  let total := FrameOps.byte f 1 in
  mkFp (FrameOps.pgn f) (new_rx_payload total (take 6 (drop 2 (f_data f)))) total 6
    (FrameOps.source f) (FrameOps.destination f) (FrameOps.priority f)
    (frame_key f).2 1 0 (f_timestamp_us f).

Definition continue_session (s : FastPacketSession) (f : Frame) : FastPacketSession :=
  let off := 6 + (frame_counter f - 1) * 7 in
  mkFp (fp_pgn s) (scatter7 off (fp_data s) (f_data f)) (fp_total_bytes s)
    (Z.min (off + 7) (fp_total_bytes s)) (fp_source_address s) (fp_destination_address s)
    (fp_priority s) (fp_sequence_counter s) (fp_expected_frame s + 1) 0 (f_timestamp_us f).

(** One frame, on the abstract table. *)
Definition fp_spec_step (max : nat) (M : gmap fp_key FastPacketSession) (f : Frame)
    : gmap fp_key FastPacketSession * option FastPacketSession :=
  if negb (f_length f =? 8) || negb (valid_fast_packet_source (FrameOps.source f)) then (M, None)
  else if frame_counter f =? 0 then
    if (FrameOps.byte f 1 <=? 8) || (223 <? FrameOps.byte f 1) then (M, None)
    else let M := delete (frame_key f) M in
         if (max <=? size M)%nat then (M, None)
         else (<[frame_key f := first_session f]> M, None)
  else match M !! frame_key f with
       | None => (M, None)
       | Some s =>
           if negb (frame_counter f =? fp_expected_frame s) then (delete (frame_key f) M, None)
           else let s := continue_session s f in
                if fp_total_bytes s <=? fp_bytes_received s
                then (delete (frame_key f) M, Some s)
                else (<[frame_key f := s]> M, None)
       end.

(** ** Invariant *)

Record fp_session_wf (s : FastPacketSession) : Prop := {
  fpw_total : 9 <= fp_total_bytes s <= 223;
  fpw_len : Z.of_nat (length (fp_data s)) = fp_total_bytes s;
  fpw_bytes : bytes (fp_data s);
  fpw_expected : 1 <= fp_expected_frame s;
  fpw_received : fp_bytes_received s = 6 + 7 * (fp_expected_frame s - 1);
  fpw_incomplete : fp_bytes_received s < fp_total_bytes s
}.

Record fp_wf (p : FastPacketProtocol) : Prop := {
  fpp_keys : NoDup (session_key <$> rx_sessions p);
  fpp_sessions : Forall fp_session_wf (rx_sessions p);
  fpp_tx : in_u 3 (tx_sequence_counter p)
}.

(** ** The table as a map *)

Section table.
Implicit Types (l : list FastPacketSession) (k : fp_key).

Lemma fp_table_fst l : ((fun s => (session_key s, s)) <$> l).*1 = session_key <$> l.
Proof. rewrite <- list_fmap_compose. by apply list_fmap_ext. Qed.

Lemma fp_table_perm l l' :
  NoDup (session_key <$> l) -> l ≡ₚ l' -> fp_table l = fp_table l'.
Proof.
  intros Hn Hp. apply list_to_map_proper; [by rewrite fp_table_fst|]. by rewrite Hp.
Qed.

Lemma fp_table_None l k : k ∉ session_key <$> l -> fp_table l !! k = None.
Proof. intros. apply not_elem_of_list_to_map_1. by rewrite fp_table_fst. Qed.

Lemma fp_table_cons s l : fp_table (s :: l) = <[session_key s := s]> (fp_table l).
Proof. done. Qed.

Lemma fp_table_focus l i s :
  NoDup (session_key <$> l) -> l !! i = Some s ->
  fp_table l !! session_key s = Some s /\
  (forall s', session_key s' = session_key s ->
     NoDup (session_key <$> <[i:=s']> l) /\
     fp_table (<[i:=s']> l) = <[session_key s := s']> (fp_table l)).
Proof.
  intros Hn Hi. destruct (list_focus l i s Hi) as (r & Hr & Hins).
  rewrite (fp_table_perm l _ Hn Hr), fp_table_cons. rewrite Hr in Hn.
  split; [by rewrite lookup_insert_eq|]. intros s' Hk.
  assert (NoDup (session_key <$> <[i:=s']> l)) as Hn'.
  { rewrite Hins. simpl. by rewrite Hk. }
  split; [done|]. rewrite (fp_table_perm _ _ Hn' (Hins s')), fp_table_cons, Hk.
  by rewrite insert_insert_eq.
Qed.

Lemma fp_table_swap_remove l i s l' :
  NoDup (session_key <$> l) -> swap_remove i l = Some (s, l') ->
  NoDup (session_key <$> l') /\ fp_table l' = delete (session_key s) (fp_table l) /\
  length l = S (length l').
Proof.
  intros Hn Hs. pose proof (swap_remove_length _ _ _ _ Hs) as Hl.
  apply swap_remove_inv in Hs as [_ Hp].
  rewrite (fp_table_perm l _ Hn Hp), fp_table_cons. rewrite Hp in Hn.
  simpl in Hn. apply NoDup_cons in Hn as [Hnotin Hn]. split; [done|]. split; [|done].
  rewrite delete_insert_eq. symmetry. apply delete_id. by apply fp_table_None.
Qed.

Lemma fp_table_snoc l s :
  NoDup (session_key <$> l) -> fp_table l !! session_key s = None ->
  NoDup (session_key <$> (l ++ [s])) /\
  fp_table (l ++ [s]) = <[session_key s := s]> (fp_table l).
Proof.
  intros Hn Hk. assert (NoDup (session_key <$> (s :: l))) as Hn'.
  { simpl. apply NoDup_cons. split; [|done]. intros Hin.
    apply not_elem_of_list_to_map in Hk. by rewrite fp_table_fst in Hk. }
  rewrite Permutation_cons_append in Hn'. split; [done|].
  rewrite <- fp_table_cons. apply fp_table_perm; [done|].
  by rewrite <- Permutation_cons_append.
Qed.

Lemma fp_table_size l : NoDup (session_key <$> l) -> size (fp_table l) = length l.
Proof.
  intros. unfold fp_table. rewrite map_size_list_to_map; [by rewrite length_fmap|].
  by rewrite fp_table_fst.
Qed.

Lemma fp_matches_key src pgn seq s :
  fp_matches src pgn seq s = true <-> session_key s = (src, pgn, seq).
Proof.
  unfold fp_matches, session_key. rewrite !andb_true_iff, !Z.eqb_eq.
  split; [by intros [[-> ->] ->]|by intros [= -> -> ->]].
Qed.

(** Looking a session up by its first match is looking it up in the map. *)
Lemma fp_position l src pgn seq :
  NoDup (session_key <$> l) ->
  match position (fp_matches src pgn seq) l with
  | Some i => exists s, l !! i = Some s /\ session_key s = (src, pgn, seq) /\
                fp_table l !! (src, pgn, seq) = Some s
  | None => fp_table l !! (src, pgn, seq) = None
  end.
Proof.
  intros Hn. destruct (position _ l) as [i|] eqn:E.
  - apply position_Some in E as (s & Hi & Hm & _). exists s.
    apply fp_matches_key in Hm. split; [done|]. split; [done|].
    rewrite <- Hm. by eapply fp_table_focus.
  - apply position_None in E. apply fp_table_None. rewrite list_elem_of_fmap.
    intros (s & Hk & Hs). rewrite Forall_forall in E. specialize (E s Hs).
    symmetry in Hk. apply fp_matches_key in Hk. congruence.
Qed.
End table.

(** ** Refinement lemmas *)

Lemma fp_session_bounds s :
  fp_session_wf s -> fp_expected_frame s <= 31.
Proof. intros [? ? ? ? ? ?]. lia. Qed.

Lemma length_new_rx_payload total first :
  (length first <= Z.to_nat total)%nat ->
  length (new_rx_payload total first) = Z.to_nat total.
Proof.
  intros. unfold new_rx_payload. rewrite length_app, length_drop, length_replicate. lia.
Qed.

Lemma first_session_wf f :
  FrameOps.wf f -> 9 <= FrameOps.byte f 1 <= 223 -> fp_session_wf (first_session f).
Proof.
  intros (_ & Hl & Hb & _) Ht.
  assert (length (take 6 (drop 2 (f_data f))) = 6%nat) as H6
    by (rewrite length_take, length_drop; lia).
  split; cbn -[take drop replicate]; try lia.
  - rewrite length_new_rx_payload; rewrite ?H6; lia.
  - unfold new_rx_payload. apply Forall_app. split; [by apply Forall_take, Forall_drop|].
    apply Forall_drop, Forall_replicate. by unfold in_u.
Qed.

Lemma session_key_first f : session_key (first_session f) = frame_key f.
Proof. done. Qed.

(** Counters never touch the sessions. *)
Lemma rx_sessions_stats g p : rx_sessions (fp_with_stats g p) = rx_sessions p.
Proof. done. Qed.
Lemma fp_wf_stats g p : fp_wf p -> fp_wf (fp_with_stats g p).
Proof. by intros [? ? ?]. Qed.
#[local] Hint Resolve fp_wf_stats : bus.

Lemma start_new_session_refines p f :
  fp_wf p -> FrameOps.wf f ->
  let '(M, r) :=
    if (FrameOps.byte f 1 <=? 8) || (223 <? FrameOps.byte f 1)
    then (fp_table (rx_sessions p), None)
    else let M := delete (frame_key f) (fp_table (rx_sessions p)) in
         if (max_rx_sessions p <=? size M)%nat then (M, None)
         else (<[frame_key f := first_session f]> M, None) in
  exists p',
    start_new_session p f (FrameOps.pgn f) (FrameOps.source f) (frame_key f).2
      = Some (p', r) /\
    fp_wf p' /\ fp_table (rx_sessions p') = M /\ max_rx_sessions p' = max_rx_sessions p.
Proof.
  intros Hp Hf. unfold start_new_session, FAST_PACKET_MAX_DATA, CAN_DATA_LENGTH.
  destruct (_ || _) eqn:Hg.
  { eexists. split; [done|]. destruct (_ <? _); auto with bus. }
  reflect_bools. destruct Hp as [Hn Hs Htx].
  assert (Nat.min (Z.to_nat (FrameOps.byte f 1)) FIRST_FRAME_DATA = 6%nat) as ->
    by (unfold FIRST_FRAME_DATA; lia).
  change (Z.of_nat 6) with 6. rewrite (proj2 (Z.leb_gt _ _)) by lia.
  change (mkFp _ _ _ _ _ _ _ _ _ _ _) with (first_session f).
  assert (fp_session_wf (first_session f)) as Hfs by (apply first_session_wf; [done|lia]).
  pose proof (fp_position (rx_sessions p) (FrameOps.source f) (FrameOps.pgn f)
    (frame_key f).2 Hn) as Hpos.
  change (FrameOps.source f, FrameOps.pgn f, (frame_key f).2) with (frame_key f) in Hpos.
  assert (exists l p1,
    match position (fp_matches (FrameOps.source f) (FrameOps.pgn f) (frame_key f).2)
            (rx_sessions p) with
    | Some idx => '(_, l) ← swap_remove idx (rx_sessions p);
                  Some (with_rx_sessions l (fp_with_stats (add_dropped_sessions 1) p))
    | None => Some p
    end = Some p1 /\ rx_sessions p1 = l /\ max_rx_sessions p1 = max_rx_sessions p /\
    tx_sequence_counter p1 = tx_sequence_counter p /\
    NoDup (session_key <$> l) /\ Forall fp_session_wf l /\
    fp_table l = delete (frame_key f) (fp_table (rx_sessions p)))
    as (l & p1 & -> & Hl & Hmax & Htx1 & Hn1 & Hs1 & Htab).
  { destruct (position _ _) as [i|].
    - destruct Hpos as (s & Hi & Hk & _).
      destruct (swap_remove_Some _ _ _ Hi) as (l & Hsw & _). rewrite Hsw. simpl.
      destruct (fp_table_swap_remove _ _ _ _ Hn Hsw) as (? & ? & _).
      destruct (Forall_swap_remove _ _ _ _ _ Hsw Hs) as [_ ?].
      exists l. eexists. rewrite <- Hk. auto 10.
    - exists (rx_sessions p), p. repeat split; try done.
      symmetry. by apply delete_id. }
  simpl. rewrite <- Htab, Hl, Hmax, fp_table_size by done.
  destruct (_ <=? _)%nat.
  - eexists. split; [done|]. split; [|by rewrite !rx_sessions_stats, Hl].
    do 2 apply fp_wf_stats. split; by rewrite ?Hl, ?Htx1.
  - eexists. split; [done|]. cbn [rx_sessions with_rx_sessions max_rx_sessions].
    destruct (fp_table_snoc l (first_session f)) as [? ?]; [done| |].
    { rewrite session_key_first, Htab. apply lookup_delete_eq. }
    split; [split; cbn; [done| |by rewrite Htx1]|by rewrite Hmax].
    apply Forall_app. auto with bus.
Qed.

Lemma continue_session_wf s f :
  fp_session_wf s -> FrameOps.wf f -> frame_counter f = fp_expected_frame s ->
  fp_bytes_received (continue_session s f) < fp_total_bytes s ->
  fp_session_wf (continue_session s f).
Proof.
  intros [? ? ? ? Hr Hi] (_ & Hl & Hb & _) Hc Hlt. cbn in Hlt. rewrite Hc in Hlt.
  split; cbn; rewrite ?Hc; try lia.
  - rewrite length_scatter7 by (done || lia). done.
  - by apply bytes_scatter7.
Qed.

Lemma session_key_continue s f : session_key (continue_session s f) = session_key s.
Proof. done. Qed.

Lemma process_frame_session_refines p f :
  fp_wf p -> FrameOps.wf f ->
  exists p' r,
    process_frame_session p f = Some (p', r) /\ fp_wf p' /\
    max_rx_sessions p' = max_rx_sessions p /\
    fp_spec_step (max_rx_sessions p) (fp_table (rx_sessions p)) f
    = (fp_table (rx_sessions p'), r).
Proof.
  intros Hp Hf. unfold process_frame_session, fp_spec_step, CAN_DATA_LENGTH.
  destruct (f_length f =? 8); cbn [negb orb]; [|by eauto 10 with bus].
  destruct (valid_fast_packet_source _); cbn [negb]; [|by eauto 10 with bus].
  fold (frame_counter f). destruct (Z.eqb_spec (frame_counter f) 0) as [E0|E0].
  { pose proof (start_new_session_refines p f Hp Hf) as H.
    destruct (if _ || _ then _ else _) as [M r].
    destruct H as (p' & H & ? & ? & ?). exists p', r. subst. auto. }
  pose proof Hp as [Hn Hs Htx].
  pose proof (fp_position (rx_sessions p) (FrameOps.source f) (FrameOps.pgn f)
    (frame_key f).2 Hn) as Hpos.
  change (FrameOps.source f, FrameOps.pgn f, (frame_key f).2) with (frame_key f) in Hpos.
  change (Z.land (Z.shiftr (FrameOps.byte f 0) 5) 7) with (frame_key f).2.
  destruct (position _ _) as [i|]; [|rewrite Hpos; by eauto 10 with bus].
  destruct Hpos as (s & Hi & Hk & ->). rewrite Hi. simpl.
  assert (fp_session_wf s) as Hsw by (by eapply Forall_lookup_1).
  destruct (swap_remove_Some _ _ _ Hi) as (l & Hrm & _).
  destruct (fp_table_swap_remove _ _ _ _ Hn Hrm) as (Hnl & Htl & _).
  destruct (Forall_swap_remove _ _ _ _ _ Hrm Hs) as [_ Hsl]. rewrite Hk in Htl.
  destruct (Z.eqb_spec (frame_counter f) (fp_expected_frame s)) as [Ec|Ec]; cbn [negb].
  2: { rewrite Hrm. simpl. eexists _, None. split; [done|]. rewrite <- Htl. by split. }
  pose proof Hsw as [Ht Hlen Hby He Hr Hinc].
  assert (copy_in_loop 64 SUBSEQUENT_FRAME_DATA 0 (fp_data s)
    (6 + (frame_counter f - 1) * 7) (fp_total_bytes s) (f_data f)
    = Some (scatter7 (6 + (frame_counter f - 1) * 7) (fp_data s) (f_data f))) as ->.
  { rewrite <- Hlen. apply copy_in_scatter; [lia| |apply Hf].
    change (2 ^ 64) with 18446744073709551616. lia. }
  simpl. rewrite (wrap_small 8) by (unfold in_u; simpl; lia).
  change (mkFp _ _ _ _ _ _ _ _ _ _ _) with (continue_session s f).
  cbn [fp_total_bytes fp_bytes_received continue_session].
  destruct (fp_table_focus _ _ _ Hn Hi) as [_ Hfoc].
  destruct (Hfoc (continue_session s f)) as [Hn' Ht']; [done|].
  rewrite Hk in Ht'.
  destruct (Z.leb_spec (fp_total_bytes s)
    (Z.min (6 + (frame_counter f - 1) * 7 + 7) (fp_total_bytes s))) as [Hd|Hd].
  - assert (<[i:=continue_session s f]> (rx_sessions p) !! i
      = Some (continue_session s f)) as Hi'.
    { apply list_lookup_insert_eq. by eapply lookup_lt_Some. }
    destruct (swap_remove_Some _ _ _ Hi') as (l' & Hrm' & Hperm).
    rewrite Hrm'. simpl. eexists _, _. split; [done|].
    destruct (fp_table_swap_remove _ _ _ _ Hn' Hrm') as (Hnl' & Htl' & _).
    rewrite session_key_continue, Hk, Ht', delete_insert_eq in Htl'.
    split; [|split; [done|by rewrite <- Htl']].
    split; cbn; [done| |done].
    destruct (list_focus _ _ _ Hi) as (r & Hr1 & Hr2).
    rewrite Hr2 in Hperm. apply Permutation_cons_inv in Hperm.
    rewrite <- Hperm. rewrite Hr1 in Hs. by apply Forall_cons in Hs as [_ ?].
  - eexists _, None. split; [done|]. split; [|split; [done|by rewrite <- Ht']].
    split; cbn; [done| |done]. apply Forall_insert; [done|].
    apply continue_session_wf; try done.
Qed.

(** ** Runs *)

(** Feeding a sequence of frames; each frame is paired with what it delivered. *)
Fixpoint fp_run (p : FastPacketProtocol) (fs : list Frame)
    : option (FastPacketProtocol * list (Frame * option Message)) :=
  match fs with
  | [] => Some (p, [])
  | f :: fs =>
      '(p, m) ← process_frame p f;
      '(p, out) ← fp_run p fs;
      Some (p, (f, m) :: out)
  end.

Fixpoint fp_spec_run (max : nat) (M : gmap fp_key FastPacketSession) (fs : list Frame)
    : gmap fp_key FastPacketSession * list (Frame * option Message) :=
  match fs with
  | [] => (M, [])
  | f :: fs =>
      let '(M, r) := fp_spec_step max M f in
      let '(M, out) := fp_spec_run max M fs in
      (M, (f, make_message <$> r) :: out)
  end.

(** The messages delivered by frames of transfer [k]. *)
Definition delivered (k : fp_key) (out : list (Frame * option Message)) : list Message :=
  omap (fun fm => if decide (frame_key fm.1 = k) then fm.2 else None) out.

Lemma delivered_skip k f out : delivered k ((f, None) :: out) = delivered k out.
Proof. unfold delivered. simpl. by destruct (decide _). Qed.

Lemma process_frame_refines p f :
  fp_wf p -> FrameOps.wf f ->
  exists p' r,
    process_frame p f = Some (p', make_message <$> r) /\ fp_wf p' /\
    max_rx_sessions p' = max_rx_sessions p /\
    fp_spec_step (max_rx_sessions p) (fp_table (rx_sessions p)) f
    = (fp_table (rx_sessions p'), r).
Proof.
  intros Hp Hf. destruct (process_frame_session_refines p f Hp Hf)
    as (p' & r & Hr & ? & ? & ?).
  exists p', r. unfold process_frame. rewrite Hr. by destruct r.
Qed.

Lemma fp_run_refines_spec fs p :
  fp_wf p -> Forall FrameOps.wf fs ->
  exists p' out,
    fp_run p fs = Some (p', out) /\ fp_wf p' /\
    max_rx_sessions p' = max_rx_sessions p /\
    fp_spec_run (max_rx_sessions p) (fp_table (rx_sessions p)) fs
    = (fp_table (rx_sessions p'), out).
Proof.
  revert p. induction fs as [|f fs IH]; intros p Hp Hfs; [by eexists _, _|].
  apply Forall_cons in Hfs as [Hf Hfs].
  destruct (process_frame_refines p f Hp Hf) as (p1 & r & E1 & Hp1 & Hm1 & S1).
  destruct (IH p1 Hp1 Hfs) as (p2 & out & E2 & Hp2 & Hm2 & S2).
  simpl. rewrite E1. simpl. rewrite E2. simpl. rewrite S1, <- Hm1, S2.
  eexists _, _. split; [done|]. split; [done|]. by rewrite Hm2.
Qed.

(** A frame of another transfer leaves transfer [k]'s session untouched. *)
Lemma fp_spec_step_other max M f k :
  frame_key f <> k -> (fp_spec_step max M f).1 !! k = M !! k.
Proof.
  intros Hk. unfold fp_spec_step.
  destruct (_ || _); [done|]. destruct (_ =? 0).
  - destruct (_ || _); [done|]. destruct (_ <=? _)%nat; simpl;
      by rewrite ?lookup_insert_ne, lookup_delete_ne.
  - destruct (M !! frame_key f); [|done]. destruct (negb _); simpl;
      [by rewrite lookup_delete_ne|].
    destruct (_ <=? _); simpl; by rewrite ?lookup_insert_ne, ?lookup_delete_ne.
Qed.

(** ** The frames of a transfer *)

Section transfer.
Context (id : Identifier.t) (t : Z) (data : list Z).
Context (Ht : in_u 3 t) (Hid : Identifier.wf id) (Hdata : bytes data).
Context (Hlen : (9 <= length data <= 223)%nat).

Definition cont_frame (j : Z) : Frame :=
  FrameOps.new8 id (Z.lor (Z.shiftl t 5) j :: pad7 (chunk7 (6 + 7 * (j - 1)) data)).

Definition first_frame : Frame :=
  FrameOps.new8 id (Z.shiftl t 5 :: Z.of_nat (length data) :: take 6 data).

Lemma subsequent_frames_eq n j :
  1 <= j -> j + Z.of_nat n <= 40 ->
  subsequent_frames n id (Z.shiftl t 5) j (6 + 7 * (j - 1)) data
  = Some (cont_frame <$> seqZ j (Z.of_nat n)).
Proof.
  revert j. induction n as [|n IH]; intros j Hj Hn; [done|].
  cbn [subsequent_frames]. unfold SUBSEQUENT_FRAME_DATA. rewrite copy_out_chunk;
    [|lia|change (2 ^ 64) with 18446744073709551616; lia].
  cbn [mbind option_bind]. replace (6 + 7 * (j - 1) + 7) with (6 + 7 * (j + 1 - 1)) by lia.
  rewrite IH by lia. cbn [mbind option_bind].
  rewrite (seqZ_cons j) by lia. rewrite fmap_cons. do 4 f_equal; lia.
Qed.

Lemma header_bits j :
  in_u 5 j ->
  Z.land (Z.lor (Z.shiftl t 5) j) 0x1F = j /\
  Z.land (Z.shiftr (Z.lor (Z.shiftl t 5) j) 5) 0x07 = t /\
  in_u 8 (Z.lor (Z.shiftl t 5) j).
Proof.
  intros Hj. split; [|split].
  - rewrite <- (land_ones_small 5 j) at 2 by (lia || done).
    apply (land_field_bits 5); [lia|]. intros n Hn. by bits_norm.
  - rewrite <- (land_ones_small 3 t) at 2 by (lia || done).
    apply (land_field_bits 3); [lia|]. intros n Hn. bits_norm. f_equal. lia.
  - apply in_u_lor; [lia| |eapply in_u_mono; [|done]; lia].
    by apply (in_u_shiftl 3 5).
Qed.

Lemma cont_frame_spec j :
  1 <= j <= 31 ->
  FrameOps.wf (cont_frame j) /\ frame_counter (cont_frame j) = j /\
  frame_key (cont_frame j) = (Identifier.source id, Identifier.pgn id, t).
Proof.
  intros Hj. destruct (header_bits j) as (Hc & Hs & Hr); [unfold in_u; simpl; lia|].
  assert (length (chunk7 (6 + 7 * (j - 1)) data) <= 7)%nat
    by (rewrite length_chunk7 by lia; lia).
  split; [|split; [done|]].
  - split; [done|]. cbn [f_data cont_frame FrameOps.new8 f_length].
    split; [by simpl; rewrite length_pad7|]. split; [|lia].
    constructor; [done|]. auto with bus.
  - unfold frame_key, FrameOps.byte, cont_frame. simpl. by rewrite Hs.
Qed.

Lemma first_frame_spec :
  FrameOps.wf first_frame /\ frame_counter first_frame = 0 /\
  FrameOps.byte first_frame 1 = Z.of_nat (length data) /\
  frame_key first_frame = (Identifier.source id, Identifier.pgn id, t).
Proof.
  destruct (header_bits 0) as (Hc & Hs & Hr); [by unfold in_u|].
  rewrite Z.lor_0_r in *. split; [|split; [done|split; [done|]]].
  - split; [done|]. cbn [f_data first_frame FrameOps.new8 f_length].
    split; [simpl; rewrite length_take; lia|]. split; [|lia].
    constructor; [done|]. constructor; [unfold in_u; simpl; lia|]. by apply Forall_take.
  - unfold frame_key, FrameOps.byte, first_frame. simpl. by rewrite Hs.
Qed.
End transfer.

Section reassembly.
Context (id : Identifier.t) (t : Z) (data : list Z) (max : nat).
Context (Ht : in_u 3 t) (Hid : Identifier.wf id) (Hdata : bytes data).
Context (Hlen : (9 <= length data <= 223)%nat).
Context (Hsrc : valid_fast_packet_source (Identifier.source id) = true).

Let k : fp_key := (Identifier.source id, Identifier.pgn id, t).
Let N : Z := div_ceil (Z.of_nat (length data) - 6) 7.

Definition transfer_message : Message :=
  mkMessage (Identifier.pgn id) data (Identifier.source id) (Identifier.destination id)
    (Identifier.priority id) 0.

(** The session of the transfer once continuation frames below [j] have arrived. *)
Record fp_progress (j : Z) (s : FastPacketSession) : Prop := {
  pr_total : fp_total_bytes s = Z.of_nat (length data);
  pr_len : length (fp_data s) = length data;
  pr_expected : fp_expected_frame s = j;
  pr_agrees : agrees (6 + 7 * (j - 1)) (fp_data s) data;
  pr_pgn : fp_pgn s = Identifier.pgn id;
  pr_source : fp_source_address s = Identifier.source id;
  pr_destination : fp_destination_address s = Identifier.destination id;
  pr_priority : fp_priority s = Identifier.priority id
}.

Lemma frames_bound : 7 * N - 7 < Z.of_nat (length data) - 6 <= 7 * N /\ 1 <= N <= 31.
Proof. pose proof (div_ceil_7 (Z.of_nat (length data) - 6)). unfold N. lia. Qed.

Lemma cont_progress j s :
  1 <= j <= N -> fp_progress j s ->
  fp_progress (j + 1) (continue_session s (cont_frame id t data j)).
Proof.
  intros Hj []. pose proof frames_bound.
  assert (1 <= j <= 31) as Hj31 by lia.
  destruct (cont_frame_spec id t data Ht Hid Hdata Hlen j Hj31) as (Hw & Hc & _).
  split; cbn -[cont_frame]; rewrite ?Hc; try done; try lia.
  - rewrite length_scatter7; [done|lia|apply Hw].
  - replace (6 + 7 * (j + 1 - 1)) with (6 + (j - 1) * 7 + 7) by lia.
    replace (6 + 7 * (j - 1)) with (6 + (j - 1) * 7) in * by lia.
    cbn [cont_frame f_data FrameOps.new8].
    replace (6 + 7 * (j - 1)) with (6 + (j - 1) * 7) by lia.
    by apply scatter7_agrees; try lia.
Qed.

Lemma cont_step M s j :
  1 <= j <= N -> M !! k = Some s -> fp_progress j s ->
  exists M' r, fp_spec_step max M (cont_frame id t data j) = (M', r) /\
    if decide (j = N) then make_message <$> r = Some transfer_message
    else r = None /\ exists s', M' !! k = Some s' /\ fp_progress (j + 1) s'.
Proof.
  intros Hj Hs Hpr. pose proof frames_bound.
  assert (1 <= j <= 31) as Hj31 by lia.
  destruct (cont_frame_spec id t data Ht Hid Hdata Hlen j Hj31) as (Hw & Hc & Hk).
  pose proof (cont_progress j s Hj Hpr) as Hpr'.
  unfold fp_spec_step. rewrite Hk. cbn [f_length cont_frame FrameOps.new8].
  change (FrameOps.source _) with (Identifier.source id). rewrite Hsrc.
  change (FrameOps.new8 id _) with (cont_frame id t data j).
  rewrite Hc, (proj2 (Z.eqb_neq j 0)) by lia. fold k. cbn [negb orb Z.eqb Pos.eqb].
  rewrite Hs, (pr_expected _ _ Hpr), Z.eqb_refl. cbn [negb].
  set (s' := continue_session s (cont_frame id t data j)) in *.
  assert (fp_bytes_received s' = Z.min (6 + (j - 1) * 7 + 7) (fp_total_bytes s')) as ->.
  { unfold s'. cbn -[cont_frame]. by rewrite Hc. }
  rewrite (pr_total _ _ Hpr'). destruct (Z.leb_spec (Z.of_nat (length data))
    (Z.min (6 + (j - 1) * 7 + 7) (Z.of_nat (length data)))) as [Hd|Hd].
  - eexists _, _. split; [done|]. rewrite decide_True by lia. simpl. f_equal.
    destruct Hpr'. unfold make_message, transfer_message.
    f_equal; try done. eapply agrees_full; [done| |done]. lia.
  - eexists _, _. split; [done|]. rewrite decide_False by lia.
    split; [done|]. exists s'. by rewrite lookup_insert_eq.
Qed.

Lemma delivered_other M trace :
  filter (fun f => frame_key f = k) trace = [] ->
  delivered k (fp_spec_run max M trace).2 = [].
Proof.
  revert M. induction trace as [|f trace IH]; intros M Hf; [done|].
  rewrite filter_cons in Hf. case_decide as Hd; [done|]. simpl.
  destruct (fp_spec_step max M f) as [M1 r]. specialize (IH M1 Hf).
  destruct (fp_spec_run max M1 trace) as [M2 out]. simpl in *.
  unfold delivered. simpl. by rewrite decide_False.
Qed.

Lemma reassembly_run trace M j s :
  1 <= j <= N -> M !! k = Some s -> fp_progress j s ->
  filter (fun f => frame_key f = k) trace = cont_frame id t data <$> seqZ j (N - j + 1) ->
  delivered k (fp_spec_run max M trace).2 = [transfer_message].
Proof.
  revert M j s. induction trace as [|f trace IH]; intros M j s Hj Hs Hpr Hf.
  { rewrite (seqZ_cons j) in Hf by lia. done. }
  rewrite filter_cons in Hf. simpl. case_decide as Hd.
  - rewrite (seqZ_cons j) in Hf by lia. rewrite fmap_cons in Hf.
    injection Hf as -> Hf.
    destruct (cont_step M s j Hj Hs Hpr) as (M1 & r & -> & Hcase).
    destruct (fp_spec_run max M1 trace) as [M2 out] eqn:Eo. simpl.
    unfold delivered. simpl. rewrite decide_True by done. fold (delivered k out).
    replace out with (fp_spec_run max M1 trace).2 by (by rewrite Eo).
    case_decide as Hlast.
    + rewrite Hcase. simpl. f_equal. apply delivered_other. rewrite Hf.
      replace (Z.pred (N - j + 1)) with 0 by lia. done.
    + destruct Hcase as (-> & s' & Hs' & Hpr'). simpl.
      apply (IH M1 (j + 1) s'); try done; [lia|].
      rewrite Hf. do 2 f_equal; lia.
  - pose proof (fp_spec_step_other max M f k Hd) as Ho.
    destruct (fp_spec_step max M f) as [M1 r]. simpl in Ho.
    destruct (fp_spec_run max M1 trace) as [M2 out] eqn:Eo. simpl.
    unfold delivered. simpl. rewrite decide_False by done. fold (delivered k out).
    replace out with (fp_spec_run max M1 trace).2 by (by rewrite Eo).
    apply (IH M1 j s); try done. by rewrite Ho.
Qed.

Lemma first_step M :
  (size (delete k M) < max)%nat ->
  exists M' s, fp_spec_step max M (first_frame id t data) = (M', None) /\
    M' !! k = Some s /\ fp_progress 1 s.
Proof.
  intros Hsz.
  destruct (first_frame_spec id t data Ht Hid Hdata Hlen) as (Hw & Hc & Hb & Hk).
  unfold fp_spec_step. rewrite Hk, Hc, Hb. fold k.
  change (FrameOps.source _) with (Identifier.source id). rewrite Hsrc.
  cbn [f_length first_frame FrameOps.new8 negb orb Z.eqb Pos.eqb].
  rewrite (proj2 (Z.leb_gt _ _)), (proj2 (Z.ltb_ge _ _)) by lia. cbn [orb].
  rewrite (proj2 (Nat.leb_gt _ _)) by done. eexists _, _. split; [done|].
  rewrite lookup_insert_eq. split; [done|].
  assert (fp_data (first_session (first_frame id t data))
    = new_rx_payload (Z.of_nat (length data)) (take 6 data)) as Hfd.
  { unfold first_session. rewrite Hb. cbn [fp_data first_frame f_data FrameOps.new8 drop].
    by rewrite drop_0, take_take. }
  split; rewrite ?Hfd; try done.
  - rewrite length_new_rx_payload; rewrite ?Nat2Z.id, ?length_take; lia.
  - intros i Hi. unfold new_rx_payload. rewrite lookup_app_l by (rewrite length_take; lia).
    by rewrite lookup_take_lt by lia.
Qed.
End reassembly.

Lemma send_to_frames tx pgn data src dst prio :
  in_u 3 (tx_sequence_counter tx) -> pgn <= 0x3FFFF ->
  valid_fast_packet_source src = true -> (9 <= length data <= 223)%nat ->
  let id := Identifier.encode prio pgn src dst in
  let t := tx_sequence_counter tx in
  send_to tx pgn data src dst prio
  = Some (mkFpp (rx_sessions tx) (Z.land (t + 1) 7) (max_rx_sessions tx) (fp_stats tx),
          Ok (first_frame id t data ::
              (cont_frame id t data <$>
                 seqZ 1 (div_ceil (Z.of_nat (length data) - 6) 7)))).
Proof.
  intros Htx Hpgn Hsrc Hlen id t. unfold send_to, pgn_is_valid.
  pose proof (frames_bound data Hlen) as Hn.
  rewrite (proj2 (Z.leb_le _ _)) by done. rewrite Hsrc. cbn [negb].
  unfold FAST_PACKET_MAX_DATA, CAN_DATA_LENGTH.
  rewrite (proj2 (Z.ltb_ge _ _)), (proj2 (Z.leb_gt _ _)) by lia.
  unfold in_u in Htx. rewrite checked_add_Some by (simpl in *; lia).
  cbn [mbind option_bind]. fold t id.
  assert (Z.land t 7 = t) as -> by (apply (land_ones_small 3); [lia|exact Htx]).
  replace (1 + div_ceil (Z.of_nat (length data) - 6) 7 - 1)
    with (div_ceil (Z.of_nat (length data) - 6) 7) by lia.
  change 6 with (6 + 7 * (1 - 1)) at 2.
  rewrite subsequent_frames_eq by (rewrite ?Z2Nat.id; lia). cbn [mbind option_bind].
  unfold FIRST_FRAME_DATA. rewrite Nat.min_l by lia. simpl (replicate _ _).
  rewrite app_nil_r, Z2Nat.id by lia. done.
Qed.

(** ** The timeout loop *)

Definition fp_bump (elapsed : Z) (s : FastPacketSession) : FastPacketSession :=
  fp_with_timer (sat_add 32 (fp_timer_ms s) elapsed) s.

Definition fp_fresh (s : FastPacketSession) : Prop := fp_timer_ms s < TP_TIMEOUT_T1_MS.
#[global] Instance fp_fresh_dec s : Decision (fp_fresh s).
Proof. unfold fp_fresh. apply _. Defined.

Lemma fp_update_loop_spec elapsed rest done p fuel :
  rx_sessions p = done ++ rest -> (length rest <= fuel)%nat ->
  exists p', fp_update_loop fuel (length done) elapsed p = Some p' /\
    rx_sessions p' ≡ₚ done ++ filter fp_fresh (fp_bump elapsed <$> rest) /\
    max_rx_sessions p' = max_rx_sessions p /\
    tx_sequence_counter p' = tx_sequence_counter p.
Proof.
  revert rest done p. induction fuel as [|fuel IH]; intros rest done p Hl Hf.
  { destruct rest; [|simpl in Hf; lia]. exists p. rewrite app_nil_r in Hl.
    simpl. rewrite lookup_ge_None_2 by (by rewrite Hl). by rewrite Hl, app_nil_r. }
  destruct rest as [|s rest].
  { exists p. rewrite app_nil_r in Hl. simpl.
    rewrite lookup_ge_None_2 by (by rewrite Hl). by rewrite Hl, app_nil_r. }
  cbn [fp_update_loop]. rewrite Hl, list_lookup_middle by done.
  fold (fp_bump elapsed s). cbn [rx_sessions with_rx_sessions].
  rewrite insert_app_r_alt, Nat.sub_diag by lia. cbn [insert list_insert].
  rewrite fmap_cons, filter_cons.
  change (fp_timer_ms (fp_bump elapsed s)) with (sat_add 32 (fp_timer_ms s) elapsed).
  destruct (Z.leb_spec TP_TIMEOUT_T1_MS (sat_add 32 (fp_timer_ms s) elapsed)).
  - rewrite decide_False by (unfold fp_fresh; simpl; lia).
    rewrite swap_remove_split. cbn [mbind option_bind].
    edestruct (IH (rotate rest) done) as (p' & -> & Hp & ? & ?);
      [done|rewrite rotate_perm; simpl in Hf; lia|].
    exists p'. split; [done|]. split; [|done].
    by rewrite Hp, (rotate_perm rest).
  - rewrite decide_True by (unfold fp_fresh; simpl; lia).
    edestruct (IH rest (done ++ [fp_bump elapsed s])
      (with_rx_sessions (done ++ fp_bump elapsed s :: rest) p)) as (p' & E & Hp & ? & ?);
      [by rewrite <- app_assoc|simpl in Hf; lia|].
    rewrite length_app, Nat.add_comm in E. exists p'. split; [done|].
    split; [by rewrite Hp, <- app_assoc|done].
Qed.

Lemma fp_wf_update elapsed s : fp_session_wf s -> fp_session_wf (fp_bump elapsed s).
Proof. by intros []. Qed.

(** ** Properties *)

(** Fast Packet reassembly refines a finite map: on any sequence of well-formed
    frames the engine never panics, keeps its invariant (at most one session per
    source, PGN and sequence counter, each with a consistent partial buffer), and its
    table and deliveries are those of the abstract map machine [fp_spec_run]. *)
Theorem fp_run_refines p fs :
  fp_wf p -> Forall FrameOps.wf fs ->
  exists p' out,
    fp_run p fs = Some (p', out) /\ fp_wf p' /\
    fp_spec_run (max_rx_sessions p) (fp_table (rx_sessions p)) fs
    = (fp_table (rx_sessions p'), out).
Proof.
  intros Hp Hf. destruct (fp_run_refines_spec fs p Hp Hf) as (p' & out & ? & ? & _ & ?).
  by exists p', out.
Qed.

Lemma fp_run_refines_witness :
  exists p' out, fp_run fp_new
    [FrameOps.new8 (Identifier.encode Priority.Default 0x1F805 0x10 0xFF)
       [0; 9; 1; 2; 3; 4; 5; 6]] = Some (p', out) /\ fp_wf p'.
Proof.
  destruct (fp_run_refines fp_new
    [FrameOps.new8 (Identifier.encode Priority.Default 0x1F805 0x10 0xFF)
       [0; 9; 1; 2; 3; 4; 5; 6]]) as (p' & out & H & Hw & _).
  - split; [constructor|constructor|by unfold in_u].
  - repeat constructor; done.
  - by exists p', out.
Defined.

(** C33: a Fast Packet transfer survives interleaving: the frames [send_to] produces
    for a 9- to 223-byte payload, fed in order to any receiver with a free slot and
    interleaved with arbitrary well-formed frames of other transfers, deliver exactly
    one message for that transfer, with the payload, PGN, addresses and priority sent. *)
Theorem fp_transfer_interleaved tx rx pgn data src dst prio trace :
  in_u 3 (tx_sequence_counter tx) -> in_u 18 pgn -> in_u 8 src -> in_u 8 dst ->
  valid_fast_packet_source src = true -> bytes data -> (9 <= length data <= 223)%nat ->
  fp_wf rx -> (length (rx_sessions rx) < max_rx_sessions rx)%nat ->
  Forall FrameOps.wf trace ->
  exists tx' f0 fs,
    send_to tx pgn data src dst prio = Some (tx', Ok (f0 :: fs)) /\
    (filter (fun f => frame_key f = frame_key f0) trace = fs ->
     exists rx' out, fp_run rx (f0 :: trace) = Some (rx', out) /\
       delivered (frame_key f0) out =
         [mkMessage (pgn_normalize pgn) data src
            (if pgn_is_pdu2 pgn then BROADCAST_ADDRESS else dst) prio 0]).
Proof.
  intros Htx Hpgn Hs Hd Hvs Hdata Hlen Hrx Hcap Htr.
  assert (in_u 32 pgn) as H32 by (eapply in_u_mono; [|done]; lia).
  destruct (identifier_fields prio pgn src dst H32 Hs Hd)
    as (Hid & Eprio & Esrc & Epgn & Edst).
  rewrite send_to_frames by (try done; destruct Hpgn; simpl in *; lia).
  set (id := Identifier.encode prio pgn src dst) in *.
  set (t := tx_sequence_counter tx) in *.
  assert (valid_fast_packet_source (Identifier.source id) = true) as Hvs' by (by rewrite Esrc).
  destruct (first_frame_spec id t data Htx Hid Hdata Hlen) as (Hw0 & _ & _ & Hk0).
  eexists _, _, _. split; [done|]. rewrite Hk0. intros Hfil.
  destruct (fp_run_refines_spec (first_frame id t data :: trace) rx Hrx)
    as (rx' & out & E & _ & _ & Espec); [by constructor|].
  exists rx', out. split; [done|].
  assert (out = (fp_spec_run (max_rx_sessions rx) (fp_table (rx_sessions rx))
    (first_frame id t data :: trace)).2) as -> by (by rewrite Espec).
  destruct (first_step id t data (max_rx_sessions rx) Htx Hid Hdata Hlen Hvs'
    (fp_table (rx_sessions rx))) as (M1 & s & Hst & Hs1 & Hpr).
  { rewrite map_size_delete, fp_table_size by apply Hrx.
    destruct (_ !! _); simpl; lia. }
  cbn [fp_spec_run]. rewrite Hst.
  pose proof (frames_bound data Hlen) as Hb.
  pose proof (reassembly_run id t data (max_rx_sessions rx) Htx Hid Hdata Hlen Hvs'
    trace M1 1 s ltac:(lia) Hs1 Hpr) as Hrun.
  replace (div_ceil (Z.of_nat (length data) - 6) 7 - 1 + 1)
    with (div_ceil (Z.of_nat (length data) - 6) 7) in Hrun by lia.
  specialize (Hrun Hfil). destruct (fp_spec_run _ M1 trace) as [M2 o].
  cbn [snd fmap option_fmap option_map] in *. rewrite delivered_skip, Hrun. unfold transfer_message. rewrite Eprio, Esrc, Epgn, Edst.
  do 2 f_equal. apply (land_ones_small 18); [lia|]. by apply in_u_normalize.
Qed.

Lemma fp_transfer_interleaved_witness :
  exists rx' out,
    fp_run fp_new
      [first_frame (Identifier.encode Priority.Default 0x1F805 0x10 0xFF) 0
         [1; 2; 3; 4; 5; 6; 7; 8; 9];
       FrameOps.new8 (Identifier.encode Priority.Default 0x1F805 0x11 0xFF)
         [0; 9; 0; 0; 0; 0; 0; 0];
       cont_frame (Identifier.encode Priority.Default 0x1F805 0x10 0xFF) 0
         [1; 2; 3; 4; 5; 6; 7; 8; 9] 1] = Some (rx', out) /\
    delivered (0x10, 0x1F805, 0) out
    = [mkMessage 0x1F805 [1; 2; 3; 4; 5; 6; 7; 8; 9] 0x10 0xFF Priority.Default 0].
Proof.
  destruct (fp_transfer_interleaved fp_new fp_new 0x1F805 [1; 2; 3; 4; 5; 6; 7; 8; 9]
    0x10 0xFF Priority.Default
    [FrameOps.new8 (Identifier.encode Priority.Default 0x1F805 0x11 0xFF)
       [0; 9; 0; 0; 0; 0; 0; 0];
     cont_frame (Identifier.encode Priority.Default 0x1F805 0x10 0xFF) 0
       [1; 2; 3; 4; 5; 6; 7; 8; 9] 1]) as (tx & f0 & fs & E & H);
    try (by unfold in_u); try done; try (simpl; lia); try (repeat constructor; done).
  vm_compute in E. injection E as _ <- <-.
  destruct H as (rx' & out & Hr & Hd); [by vm_compute|].
  exists rx', out. split; [exact Hr|exact Hd].
Defined.

Lemma fp_update_spec_aux p elapsed :
  fp_wf p -> in_u 32 elapsed ->
  exists p', fp_update p elapsed = Some p' /\ fp_wf p' /\
    rx_sessions p' ≡ₚ filter fp_fresh (fp_bump elapsed <$> rx_sessions p) /\
    Forall fp_fresh (rx_sessions p').
Proof.
  intros [Hk Hs Ht] He.
  destruct (fp_update_loop_spec elapsed (rx_sessions p) [] p (length (rx_sessions p)))
    as (p' & Hu & Hp & _ & Hc); [done|done|].
  exists p'. split; [done|]. simpl in Hp. split_and!; [split| |]; rewrite ?Hp, ?Hc; try done.
  - replace (session_key <$> rx_sessions p)
      with (session_key <$> (fp_bump elapsed <$> rx_sessions p)) in Hk
      by (by rewrite <- list_fmap_compose).
    by apply NoDup_fmap_filter.
  - apply Forall_filter_P, Forall_fmap. eapply Forall_impl; [exact Hs|].
    intros s. apply fp_wf_update.
  - apply Forall_filter_self.
Qed.

(** The Fast Packet timeout sweep always terminates, removes exactly the sessions
    whose timer reaches T1 after the saturating addition, keeps the others with their
    advanced timer, and preserves the table invariant. *)
Theorem fp_update_spec p elapsed :
  fp_wf p -> in_u 32 elapsed ->
  exists p', fp_update p elapsed = Some p' /\ fp_wf p' /\
    rx_sessions p' ≡ₚ filter fp_fresh (fp_bump elapsed <$> rx_sessions p) /\
    Forall fp_fresh (rx_sessions p').
Proof. apply fp_update_spec_aux. Qed.

Lemma fp_update_spec_witness :
  exists p', fp_update fp_new 1000 = Some p' /\ fp_wf p'.
Proof.
  destruct (fp_update_spec fp_new 1000) as (p' & H & Hw & _).
  - split; [constructor|constructor|by unfold in_u].
  - by unfold in_u.
  - by exists p'.
Defined.

Lemma fp_send_to_outcome_aux tx pgn data src dst prio :
  in_u 3 (tx_sequence_counter tx) -> in_u 32 pgn -> in_u 8 src -> in_u 8 dst ->
  bytes data ->
  exists tx' r, send_to tx pgn data src dst prio = Some (tx', r) /\
    rx_sessions tx' = rx_sessions tx /\
    match r with
    | Ok fs =>
        pgn <= 0x3FFFF /\ valid_fast_packet_source src = true /\
        (9 <= length data <= 223)%nat /\ Forall FrameOps.wf fs /\
        Z.of_nat (length fs) = 1 + div_ceil (Z.of_nat (length data) - 6) 7 /\
        (length fs <= 32)%nat /\
        tx_sequence_counter tx' = (tx_sequence_counter tx + 1) mod 8
    | Err e =>
        tx_sequence_counter tx' = tx_sequence_counter tx /\
        ((Error.code e = ErrorCode.InvalidPgn /\ 0x3FFFF < pgn) \/
         (Error.code e = ErrorCode.InvalidAddress /\
          valid_fast_packet_source src = false) \/
         (Error.code e = ErrorCode.BufferOverflow /\ (223 < length data)%nat) \/
         (Error.code e = ErrorCode.InvalidState /\ (length data <= 8)%nat))
    end.
Proof.
  intros Htx Hpgn Hs Hd Hb.
  destruct (Z.leb_spec pgn 0x3FFFF) as [Hv|Hv]; cycle 1.
  { unfold send_to, pgn_is_valid. rewrite (proj2 (Z.leb_gt _ _)) by done.
    eexists _, _. split; [done|]. split; [done|]. split; [done|]. auto. }
  destruct (valid_fast_packet_source src) eqn:Hvs; cycle 1.
  { unfold send_to, pgn_is_valid. rewrite (proj2 (Z.leb_le _ _)), Hvs by done.
    eexists _, _. split; [done|]. split; [done|]. split; [done|]. auto. }
  destruct (decide (9 <= length data <= 223)%nat) as [Hl|Hl].
  - rewrite send_to_frames by done. eexists _, _. split; [done|]. split; [done|].
    pose proof (frames_bound data Hl) as Hn.
    destruct (identifier_fields prio pgn src dst Hpgn Hs Hd) as (Hid & _).
    do 3 (split; [done|]). split_and!.
    + constructor; [by apply first_frame_spec|].
      apply Forall_fmap, Forall_forall. intros j Hj%elem_of_seqZ. simpl.
      apply cont_frame_spec; done || lia.
    + simpl. rewrite length_fmap, length_seqZ. lia.
    + simpl. rewrite length_fmap, length_seqZ. lia.
    + simpl. by rewrite (Z.land_ones _ 3).
  - unfold send_to, pgn_is_valid. rewrite (proj2 (Z.leb_le _ _)), Hvs by done.
    cbn [negb]. unfold FAST_PACKET_MAX_DATA, CAN_DATA_LENGTH.
    destruct (Z.ltb_spec 223 (Z.of_nat (length data))).
    + eexists _, _. split; [done|]. split; [done|]. split; [done|].
      right; right; left. split; [done|lia].
    + rewrite (proj2 (Z.leb_le _ _)) by lia. eexists _, _. split; [done|].
      split; [done|]. split; [done|]. right; right; right. split; [done|lia].
Qed.

(** [send_to] never panics and decides as documented: an Ok result means an 18-bit
    PGN, a claimed source and 9 to 223 bytes, yields [1 + ceil((len-6)/7)] (at most 32)
    well-formed frames and advances the 3-bit sequence counter modulo 8; every refusal
    leaves the counter and the sessions alone and names its first failing check. *)
Theorem fp_send_to_outcome tx pgn data src dst prio :
  in_u 3 (tx_sequence_counter tx) -> in_u 32 pgn -> in_u 8 src -> in_u 8 dst ->
  bytes data ->
  exists tx' r, send_to tx pgn data src dst prio = Some (tx', r) /\
    rx_sessions tx' = rx_sessions tx /\
    match r with
    | Ok fs =>
        pgn <= 0x3FFFF /\ valid_fast_packet_source src = true /\
        (9 <= length data <= 223)%nat /\ Forall FrameOps.wf fs /\
        Z.of_nat (length fs) = 1 + div_ceil (Z.of_nat (length data) - 6) 7 /\
        (length fs <= 32)%nat /\
        tx_sequence_counter tx' = (tx_sequence_counter tx + 1) mod 8
    | Err e =>
        tx_sequence_counter tx' = tx_sequence_counter tx /\
        ((Error.code e = ErrorCode.InvalidPgn /\ 0x3FFFF < pgn) \/
         (Error.code e = ErrorCode.InvalidAddress /\
          valid_fast_packet_source src = false) \/
         (Error.code e = ErrorCode.BufferOverflow /\ (223 < length data)%nat) \/
         (Error.code e = ErrorCode.InvalidState /\ (length data <= 8)%nat))
    end.
Proof. apply fp_send_to_outcome_aux. Qed.

Lemma fp_send_to_outcome_witness :
  exists tx' r, send_to fp_new 0x1F805 [1; 2; 3; 4; 5; 6; 7; 8; 9] 0x10 0xFF
    Priority.Default = Some (tx', r).
Proof.
  destruct (fp_send_to_outcome fp_new 0x1F805 [1; 2; 3; 4; 5; 6; 7; 8; 9] 0x10 0xFF
    Priority.Default) as (tx' & r & H & _); try (by unfold in_u).
  - repeat constructor; done.
  - by exists tx', r.
Defined.
