(* ===== verification/Tp.v ===== *)
(** ISO 11783-3 Transport Protocol: the model of [src/net/tp/tp_protocol_engine.rs]
    and of the types of [src/net/tp/tp_protocol_types.rs] (hosted build).

    The engine is the record [TransportProtocol]; every method takes and returns it.
    A method's result is [option (state * frames to transmit * events)], where [None]
    is a panic: an index out of range or an overflowing [+], [-] or [*].  The three
    [Event] members are the constructors of [TpEvent], emitted in source order. *)
From S2P Require Export Frame Chunk Session.

(** [Vec::try_reserve_exact]: whether the allocator grants [n] bytes. *)
Class Allocator : Type := try_reserve_exact : Z -> bool.

Definition TP_DEFAULT_MAX_SESSIONS : nat := 32.
Definition TP_DEFAULT_MAX_RETRANSMITS : Z := 3.
Definition TP_T_HOLD_MS : Z := 500.

Module tp_cm.
Definition RTS : Z := 0x10.
Definition CTS : Z := 0x11.
Definition EOMA : Z := 0x13.
Definition BAM : Z := 0x20.
Definition ABORT : Z := 0xFF.
End tp_cm.

(** [tp_abort::TIMEOUT]. *)
Definition tp_abort_TIMEOUT : Z := 3.

(** ** Auxiliary timer sessions *)

Module TpSessionState.
Inductive t : Type :=
| Idle | WaitForCts | Sending | WaitForEndOfMsgAck | Complete | Aborted | TimedOut.

Definition is_active (s : t) : bool :=
  match s with Idle | Complete | Aborted | TimedOut => false | _ => true end.

#[global] Instance eq_dec : EqDecision t.
Proof. solve_decision. Defined.
End TpSessionState.

Record TpTimerSession : Type := mkTimer {
  ts_last_activity_ms : Z;
  ts_timer_state : TpSessionState.t;
  ts_abort_reason : Z;
  ts_cts_keepalive_timer_ms : Z;
  ts_source : Address;
  ts_destination : Address;
  ts_pgn : Pgn;
  ts_port : Z;
  ts_receiver_paused : bool
}.

Inductive TpEvent : Type :=
| OnComplete (s : TransportSession)
| OnAbort (e : TransportAbortEvent)
| OnSessionTimeout (ts : TpTimerSession).

(** ** Engine state *)

Record TransportProtocol : Type := mkTp {
  sessions : list TransportSession;
  timer_sessions : list TpTimerSession;
  max_receive_bytes : Z;
  max_sessions : nat;
  max_retransmits : Z;
  advertised_packets_per_cts : Z;
  stats : TransportStats
}.

Definition tp_new : TransportProtocol :=
  mkTp [] [] TP_MAX_DATA_LENGTH TP_DEFAULT_MAX_SESSIONS TP_DEFAULT_MAX_RETRANSMITS
    (wrap 8 TP_MAX_PACKETS_PER_CTS) TransportStats_default.

Definition with_sessions (l : list TransportSession) (p : TransportProtocol)
    : TransportProtocol :=
  mkTp l (timer_sessions p) (max_receive_bytes p) (max_sessions p) (max_retransmits p)
    (advertised_packets_per_cts p) (stats p).
Definition with_timer_sessions (l : list TpTimerSession) (p : TransportProtocol)
    : TransportProtocol :=
  mkTp (sessions p) l (max_receive_bytes p) (max_sessions p) (max_retransmits p)
    (advertised_packets_per_cts p) (stats p).
Definition with_stats (f : TransportStats -> TransportStats) (p : TransportProtocol)
    : TransportProtocol :=
  mkTp (sessions p) (timer_sessions p) (max_receive_bytes p) (max_sessions p)
    (max_retransmits p) (advertised_packets_per_cts p) (f (stats p)).

Definition set_max_receive_bytes (n : Z) (p : TransportProtocol) : TransportProtocol :=
  mkTp (sessions p) (timer_sessions p) (Z.min n TP_MAX_DATA_LENGTH) (max_sessions p)
    (max_retransmits p) (advertised_packets_per_cts p) (stats p).
Definition set_max_sessions (n : nat) (p : TransportProtocol) : TransportProtocol :=
  mkTp (sessions p) (timer_sessions p) (max_receive_bytes p) n
    (max_retransmits p) (advertised_packets_per_cts p) (stats p).
Definition set_max_retransmits (n : Z) (p : TransportProtocol) : TransportProtocol :=
  mkTp (sessions p) (timer_sessions p) (max_receive_bytes p) (max_sessions p) n
    (advertised_packets_per_cts p) (stats p).
(** [clamp(1, TP_MAX_PACKETS_PER_CTS as u8)]. *)
Definition set_advertised_packets_per_cts (n : Z) (p : TransportProtocol)
    : TransportProtocol :=
  mkTp (sessions p) (timer_sessions p) (max_receive_bytes p) (max_sessions p)
    (max_retransmits p) (Z.max 1 (Z.min n (wrap 8 TP_MAX_PACKETS_PER_CTS))) (stats p).
Definition with_max_receive_bytes (n : Z) : TransportProtocol :=
  set_max_receive_bytes n tp_new.
Definition with_max_sessions (n : nat) : TransportProtocol := set_max_sessions n tp_new.
Definition with_max_retransmits (n : Z) : TransportProtocol := set_max_retransmits n tp_new.
Definition with_advertised_packets_per_cts (n : Z) : TransportProtocol :=
  set_advertised_packets_per_cts n tp_new.
Definition clear_stats (p : TransportProtocol) : TransportProtocol :=
  with_stats (fun _ => TransportStats_default) p.

Definition note_dropped_frame := with_stats (add_dropped_frames 1).
Definition note_dropped_session := with_stats (add_dropped_sessions 1).
Definition note_abort_sent := with_stats (add_aborts_sent 1).
Definition note_abort_received := with_stats (add_aborts_received 1).
Definition note_timeout := with_stats (add_timeouts 1).
Definition note_resource_rejection := with_stats (add_resource_rejections 1).

(** [self.sessions[idx]], [self.sessions[idx] = s], [push_session] (which cannot fail
    on a [Vec]) and [remove_session]. *)
Definition update_session (idx : nat) (s : TransportSession) (p : TransportProtocol)
    : TransportProtocol := with_sessions (<[idx:=s]> (sessions p)) p.
Definition push_session (s : TransportSession) (p : TransportProtocol)
    : TransportProtocol := with_sessions (sessions p ++ [s]) p.
Definition remove_session (idx : nat) (p : TransportProtocol)
    : option (TransportSession * TransportProtocol) :=
  '(s, l) ← swap_remove idx (sessions p); Some (s, with_sessions l p).

(** ** Wire helpers *)

Definition valid_tp_source (source : Address) : bool :=
  negb (source =? NULL_ADDRESS) && negb (source =? BROADCAST_ADDRESS).
Definition valid_tp_destination (destination : Address) : bool :=
  negb (destination =? NULL_ADDRESS).

Definition pgn_from_cm_bytes (data : list Z) : Pgn :=
  Z.lor (Z.lor (data !!! 5%nat) (Z.shiftl (data !!! 6%nat) 8)) (Z.shiftl (data !!! 7%nat) 16).

Definition valid_tp_payload_shape (total_bytes total_packets : Z) : bool :=
  (CAN_DATA_LENGTH <? total_bytes) && (total_bytes <=? TP_MAX_DATA_LENGTH)
  && negb (total_packets =? 0) && (total_packets =? div_ceil total_bytes TP_BYTES_PER_FRAME).

Definition rx_buffer `{Allocator} (total_bytes max_receive_bytes : Z)
    : Result (list Z) AbortReason.t :=
  if max_receive_bytes <? total_bytes then Err AbortReason.ResourcesUnavailable
  else if negb (try_reserve_exact total_bytes) then Err AbortReason.ResourcesUnavailable
  else Ok (replicate (Z.to_nat total_bytes) 0xFF).

(** [(x & 0xFF) as u8], [((x >> 8) & 0xFF) as u8], [((x >> 16) & 0xFF) as u8]. *)
Definition byte0 (x : Z) : Z := Z.land x 0xFF.
Definition byte1 (x : Z) : Z := Z.land (Z.shiftr x 8) 0xFF.
Definition byte2 (x : Z) : Z := Z.land (Z.shiftr x 16) 0xFF.

Definition cm_id (src dst : Address) : Identifier.t :=
  Identifier.encode Priority.Lowest PGN_TP_CM src dst.
Definition dt_id (src dst : Address) : Identifier.t :=
  Identifier.encode Priority.Lowest PGN_TP_DT src dst.

Definition make_bam_fields (pgn : Pgn) (total_bytes : Z) (source : Address) : Frame :=
  FrameOps.new8 (cm_id source BROADCAST_ADDRESS)
    [tp_cm.BAM; byte0 total_bytes; byte1 total_bytes;
     wrap 8 (div_ceil total_bytes TP_BYTES_PER_FRAME); 0xFF;
     byte0 pgn; byte1 pgn; byte2 pgn].
Definition make_bam (s : TransportSession) : Frame :=
  make_bam_fields (s_pgn s) (s_total_bytes s) (s_source_address s).

Definition make_rts_fields (pgn : Pgn) (total_bytes : Z) (source destination : Address)
    (advertised : Z) : Frame :=
  FrameOps.new8 (cm_id source destination)
    [tp_cm.RTS; byte0 total_bytes; byte1 total_bytes;
     wrap 8 (div_ceil total_bytes TP_BYTES_PER_FRAME); advertised;
     byte0 pgn; byte1 pgn; byte2 pgn].
Definition make_rts (s : TransportSession) : Frame :=
  make_rts_fields (s_pgn s) (s_total_bytes s) (s_source_address s)
    (s_destination_address s) (s_advertised_packets_per_cts s).

Definition make_cts (src dst : Address) (num_packets next_seq : Z) (pgn : Pgn) : Frame :=
  FrameOps.new8 (cm_id src dst)
    [tp_cm.CTS; num_packets; next_seq; 0xFF; 0xFF; byte0 pgn; byte1 pgn; byte2 pgn].

Definition make_eoma (src dst : Address) (total_bytes total_packets : Z) (pgn : Pgn)
    : Frame :=
  FrameOps.new8 (cm_id src dst)
    [tp_cm.EOMA; byte0 total_bytes; byte1 total_bytes; total_packets; 0xFF;
     byte0 pgn; byte1 pgn; byte2 pgn].

Definition make_abort_fields (src dst : Address) (pgn : Pgn) (reason : AbortReason.t)
    : Frame :=
  FrameOps.new8 (cm_id src dst)
    [tp_cm.ABORT; AbortReason.as_u8 reason; 0xFF; 0xFF; 0xFF;
     byte0 pgn; byte1 pgn; byte2 pgn].
Definition make_abort (s : TransportSession) (reason : AbortReason.t) : Frame :=
  make_abort_fields (s_source_address s) (s_destination_address s) (s_pgn s) reason.

Definition make_session_abort (s : TransportSession) (reason : AbortReason.t) : Frame :=
  match s_direction s with
  | Transmit =>
      make_abort_fields (s_source_address s) (s_destination_address s) (s_pgn s) reason
  | Receive =>
      make_abort_fields (s_destination_address s) (s_source_address s) (s_pgn s) reason
  end.

(** [generate_data_frames]: at most [count] DT frames from the session's cursor. *)
Fixpoint generate_data_frames (count : nat) (s : TransportSession)
    : option (TransportSession * list Frame) :=
  match count with
  | O => Some (s, [])
  | S count =>
      if s_total_bytes s <=? s_bytes_transferred s then Some (s, [])
      else
        let id := dt_id (s_source_address s) (s_destination_address s) in
        let seq := wrap 8 (s_last_sequence s + 1) in
        data ← copy_out_loop 32 7 0 (s_data s) (s_bytes_transferred s) (s_total_bytes s)
                 (seq :: replicate 7 0xFF);
        next ← checked_add 32 (s_bytes_transferred s) TP_BYTES_PER_FRAME;
        let s := with_bytes_transferred (Z.min next (s_total_bytes s))
                   (with_last_sequence seq s) in
        '(s, frames) ← generate_data_frames count s;
        Some (s, FrameOps.new8 id data :: frames)
  end.

(** ** Sending *)

Definition tp_transmit_path (source dest : Address) (port : Z) (s : TransportSession) : bool :=
  (s_source_address s =? source) && (s_destination_address s =? dest)
  && bool_decide (s_direction s = Transmit) && (s_can_port s =? port).

Definition new_tx_session (p : TransportProtocol) (pgn : Pgn) (data : list Z)
    (source dest : Address) (port : Z) (priority : Priority.t) (state : SessionState.t)
    : TransportSession :=
  mkSession Transmit state pgn data (wrap 32 (Z.of_nat (length data))) 0 source dest port
    priority 0 0 0 (advertised_packets_per_cts p) TP_MAX_PACKETS_PER_CTS 1 0 0 0 0.

(** [TransportProtocol::send].  [data.len() as u32] truncates. *)
Definition tp_send (p : TransportProtocol) (pgn : Pgn) (data : list Z)
    (source dest : Address) (port : Z) (priority : Priority.t)
    : TransportProtocol * Result (list Frame) Error.t :=
  let len := wrap 32 (Z.of_nat (length data)) in
  if negb (pgn_is_valid pgn) then
    (p, Err (Error.invalid_data ("TP target PGN 0x" +:+ format_hex 0 pgn +:+
               " exceeds the 18-bit J1939/ISOBUS PGN range")))
  else if negb (valid_tp_source source) then (p, Err (Error.invalid_address source))
  else if negb (valid_tp_destination dest) then (p, Err (Error.invalid_address dest))
  else if TP_MAX_DATA_LENGTH <? len then
    (note_resource_rejection p, Err Error.buffer_overflow)
  else if len <=? CAN_DATA_LENGTH then
    (p, Err (Error.invalid_state "use single frame for <= 8 bytes"))
  else if existsb (tp_transmit_path source dest port) (sessions p) then
    (p, Err (Error.with_message ErrorCode.SessionExists "session already active"))
  else if (max_sessions p <=? length (sessions p))%nat then
    (note_resource_rejection p,
     Err (Error.with_message ErrorCode.NoResources "no TP session slots available"))
  else if dest =? BROADCAST_ADDRESS then
    let session :=
      new_tx_session p pgn data source dest port priority SessionState.SendingData in
    (push_session session p, Ok [make_bam session])
  else
    let session :=
      new_tx_session p pgn data source dest port priority SessionState.WaitingForCTS in
    (push_session session p, Ok [make_rts session]).

(** ** Timers *)

Definition tp_timed_out (s : TransportSession) : bool :=
  match s_state s with
  | SessionState.WaitingForCTS => TP_TIMEOUT_T3_MS <=? s_timer_ms s
  | SessionState.WaitingForData => TP_TIMEOUT_T2_MS <=? s_timer_ms s
  | SessionState.WaitingForEndOfMsg => TP_TIMEOUT_T3_MS <=? s_timer_ms s
  | SessionState.ReceivingData => TP_TIMEOUT_T1_MS <=? s_timer_ms s
  | _ => false
  end.

Definition is_bam_tx (s : TransportSession) : bool :=
  is_broadcast_session s && bool_decide (s_state s = SessionState.SendingData)
  && bool_decide (s_direction s = Transmit).

(** The [while i < self.sessions.len()] loop of [update]. *)
Fixpoint tp_update_loop (fuel i : nat) (elapsed_ms : Z) (p : TransportProtocol)
    : option (TransportProtocol * list Frame * list TpEvent) :=
  match sessions p !! i with
  | None => Some (p, [], [])
  | Some s =>
      match fuel with
      | O => None
      | S fuel =>
          let s := with_timer_ms (sat_add 32 (s_timer_ms s) elapsed_ms) s in
          let bam_due := is_bam_tx s && (TP_BAM_INTER_PACKET_MS <=? s_timer_ms s) in
          '(s, dt) ← (if bam_due then generate_data_frames 1 (with_timer_ms 0 s)
                      else Some (s, []));
          if bam_due && (s_total_bytes s <=? s_bytes_transferred s) then
            let p := update_session i (with_state SessionState.Complete s) p in
            '(session, p) ← remove_session i p;
            '(p, frames, evs) ← tp_update_loop fuel i elapsed_ms p;
            Some (p, dt ++ frames, OnComplete session :: evs)
          else if tp_timed_out s then
            let s := with_state SessionState.Aborted s in
            let p := update_session i s p in
            let evt := from_session s AbortReason.Timeout in
            let p := if is_broadcast_session s then p else note_abort_sent p in
            let abort := if is_broadcast_session s then []
                         else [make_session_abort s AbortReason.Timeout] in
            '(_, p) ← remove_session i (note_dropped_session (note_timeout p));
            '(p, frames, evs) ← tp_update_loop fuel i elapsed_ms p;
            Some (p, dt ++ abort ++ frames, OnAbort evt :: evs)
          else
            '(p, frames, evs) ← tp_update_loop fuel (S i) elapsed_ms (update_session i s p);
            Some (p, dt ++ frames, evs)
      end
  end.

(** [TransportProtocol::update]: one iteration per session suffices, since every
    iteration removes a session or advances the index. *)
Definition tp_update (p : TransportProtocol) (elapsed_ms : Z)
    : option (TransportProtocol * list Frame * list TpEvent) :=
  tp_update_loop (length (sessions p)) 0 elapsed_ms p.

Definition cmdt_sending (s : TransportSession) : bool :=
  bool_decide (s_state s = SessionState.SendingData)
  && bool_decide (s_direction s = Transmit) && negb (is_broadcast_session s).

(** The body of the [for] loop of [get_pending_data_frames]. *)
Definition drain_session (s : TransportSession) : option (TransportSession * list Frame) :=
  if cmdt_sending s then
    '(s, frames) ← generate_data_frames (Z.to_nat (s_packets_to_send s)) s;
    let state := if s_total_bytes s <=? s_bytes_transferred s
                 then SessionState.WaitingForEndOfMsg else SessionState.WaitingForCTS in
    Some (with_timer_ms 0 (with_state state s), frames)
  else Some (s, []).

Fixpoint drain_sessions (l : list TransportSession)
    : option (list TransportSession * list Frame) :=
  match l with
  | [] => Some ([], [])
  | s :: l =>
      '(s, frames) ← drain_session s;
      '(l, rest) ← drain_sessions l;
      Some (s :: l, frames ++ rest)
  end.

(** [TransportProtocol::get_pending_data_frames]. *)
Definition get_pending_data_frames (p : TransportProtocol)
    : option (TransportProtocol * list Frame) :=
  '(l, frames) ← drain_sessions (sessions p);
  Some (with_sessions l p, frames).

(** [TransportProtocol::abort_sessions_for_address]. *)
Definition abort_sessions_for_address (p : TransportProtocol) (port : Z) (address : Address)
    : TransportProtocol * list Frame :=
  (with_timer_sessions
     (filter (fun ts => ts_port ts <> port
                \/ (ts_source ts <> address /\ ts_destination ts <> address))
        (timer_sessions p))
     (with_sessions
        (filter (fun s => s_can_port s <> port
                   \/ (s_source_address s <> address /\ s_destination_address s <> address))
           (sessions p)) p), []).

(** ** Auxiliary timer-session API *)

Definition track_session (p : TransportProtocol) (src dst : Address) (pgn : Pgn)
    (state : TpSessionState.t) (port : Z) : TransportProtocol :=
  if (src =? NULL_ADDRESS) || (src =? BROADCAST_ADDRESS) || (dst =? NULL_ADDRESS)
     || (dst =? BROADCAST_ADDRESS) || negb (pgn_is_valid pgn)
     || negb (TpSessionState.is_active state)
  then p
  else with_timer_sessions
         (timer_sessions p ++ [mkTimer 0 state 0 0 src dst pgn port false]) p.

(** [iter_mut().find(pred)] followed by an update of the element found. *)
Fixpoint update_first {A} (pred : A -> bool) (f : A -> A) (l : list A) : list A :=
  match l with
  | [] => []
  | x :: l => if pred x then f x :: l else x :: update_first pred f l
  end.

Definition timer_matches (src dst : Address) (pgn : Pgn) (port : Z) (t : TpTimerSession)
    : bool :=
  (ts_source t =? src) && (ts_destination t =? dst) && (ts_pgn t =? pgn)
  && (ts_port t =? port).

Definition set_receiver_paused (p : TransportProtocol) (src dst : Address) (pgn : Pgn)
    (port : Z) : TransportProtocol :=
  with_timer_sessions
    (update_first (timer_matches src dst pgn port)
       (fun t => mkTimer (ts_last_activity_ms t) (ts_timer_state t) (ts_abort_reason t) 0
                   (ts_source t) (ts_destination t) (ts_pgn t) (ts_port t) true)
       (timer_sessions p)) p.

Definition reset_session_timer (p : TransportProtocol) (src dst : Address) (pgn : Pgn)
    (port : Z) : TransportProtocol :=
  with_timer_sessions
    (update_first (timer_matches src dst pgn port)
       (fun t => mkTimer 0 (ts_timer_state t) (ts_abort_reason t)
                   (ts_cts_keepalive_timer_ms t) (ts_source t) (ts_destination t)
                   (ts_pgn t) (ts_port t) (ts_receiver_paused t))
       (timer_sessions p)) p.

Definition set_session_state (p : TransportProtocol) (src dst : Address) (pgn : Pgn)
    (state : TpSessionState.t) (port : Z) : TransportProtocol :=
  with_timer_sessions
    (update_first (timer_matches src dst pgn port)
       (fun t => mkTimer 0 state (ts_abort_reason t) (ts_cts_keepalive_timer_ms t)
                   (ts_source t) (ts_destination t) (ts_pgn t) (ts_port t)
                   (ts_receiver_paused t))
       (timer_sessions p)) p.

Definition timer_threshold (state : TpSessionState.t) : option Z :=
  match state with
  | TpSessionState.WaitForCts => Some TP_TIMEOUT_T3_MS
  | TpSessionState.Sending => Some TP_TIMEOUT_T4_MS
  | TpSessionState.WaitForEndOfMsgAck => Some TP_TIMEOUT_T3_MS
  | _ => None
  end.

(** The body of the [for] loop of [update_sessions]: the updated tracker, the frames,
    and whether it timed out. *)
Definition update_timer_session (elapsed_ms : Z) (t : TpTimerSession)
    : TpTimerSession * list Frame * bool :=
  if negb (TpSessionState.is_active (ts_timer_state t)) then (t, [], false)
  else
    let activity := sat_add 32 (ts_last_activity_ms t) elapsed_ms in
    let t := mkTimer activity (ts_timer_state t) (ts_abort_reason t)
               (ts_cts_keepalive_timer_ms t) (ts_source t) (ts_destination t) (ts_pgn t)
               (ts_port t) (ts_receiver_paused t) in
    match timer_threshold (ts_timer_state t) with
    | None => (t, [], false)
    | Some threshold =>
        if threshold <=? activity then
          (mkTimer activity TpSessionState.TimedOut tp_abort_TIMEOUT
             (ts_cts_keepalive_timer_ms t) (ts_source t) (ts_destination t) (ts_pgn t)
             (ts_port t) (ts_receiver_paused t),
           (if negb (ts_destination t =? BROADCAST_ADDRESS) then
              [FrameOps.new8 (cm_id (ts_source t) (ts_destination t))
                 [tp_cm.ABORT; tp_abort_TIMEOUT; 0xFF; 0xFF; 0xFF;
                  byte0 (ts_pgn t); byte1 (ts_pgn t); byte2 (ts_pgn t)]]
            else []), true)
        else if ts_receiver_paused t then
          let keepalive := sat_add 32 (ts_cts_keepalive_timer_ms t) elapsed_ms in
          if TP_T_HOLD_MS <=? keepalive then
            (mkTimer activity (ts_timer_state t) (ts_abort_reason t) 0 (ts_source t)
               (ts_destination t) (ts_pgn t) (ts_port t) (ts_receiver_paused t),
             [make_cts (ts_destination t) (ts_source t) 0 0 (ts_pgn t)], false)
          else
            (mkTimer activity (ts_timer_state t) (ts_abort_reason t) keepalive
               (ts_source t) (ts_destination t) (ts_pgn t) (ts_port t)
               (ts_receiver_paused t), [], false)
        else (t, [], false)
    end.

(** The loop, with the three [u64] tallies it accumulates: timeouts, dropped sessions,
    aborts sent. *)
Fixpoint update_timers (elapsed_ms : Z) (l : list TpTimerSession)
    (timeouts dropped sent : Z)
    : list TpTimerSession * list Frame * list TpEvent * (Z * Z * Z) :=
  match l with
  | [] => ([], [], [], (timeouts, dropped, sent))
  | t :: l =>
      let '(t, frames, timed) := update_timer_session elapsed_ms t in
      let '(timeouts, dropped) :=
        if timed then (sat_add 64 timeouts 1, sat_add 64 dropped 1) else (timeouts, dropped) in
      let sent := if timed && negb (ts_destination t =? BROADCAST_ADDRESS)
                  then sat_add 64 sent 1 else sent in
      let '(l, rest, evs, tally) := update_timers elapsed_ms l timeouts dropped sent in
      (t :: l, frames ++ rest, (if timed then [OnSessionTimeout t] else []) ++ evs, tally)
  end.

(** [TransportProtocol::update_sessions]. *)
Definition update_sessions (p : TransportProtocol) (elapsed_ms : Z)
    : TransportProtocol * list Frame * list TpEvent :=
  let '(l, frames, evs, (timeouts, dropped, sent)) :=
    update_timers elapsed_ms (timer_sessions p) 0 0 0 in
  (with_stats (add_aborts_sent sent)
     (with_stats (add_dropped_sessions dropped)
        (with_stats (add_timeouts timeouts) (with_timer_sessions l p))), frames, evs).

(** ** Frame ingest *)

Definition tp_result : Type := option (TransportProtocol * list Frame * list TpEvent).

Definition receive_path (source destination : Address) (port : Z) (s : TransportSession)
    : bool :=
  bool_decide (s_direction s = Receive) && (s_source_address s =? source)
  && (s_can_port s =? port) && (s_destination_address s =? destination).

Definition receive_path_is_active (p : TransportProtocol) (source destination : Address)
    (port : Z) : bool :=
  existsb (receive_path source destination port) (sessions p).

Definition receive_session_for (p : TransportProtocol) (source destination : Address)
    (port : Z) (pgn : Pgn) : option nat :=
  position (fun s => receive_path source destination port s && (s_pgn s =? pgn))
    (sessions p).

(** [frame.data[1] as u32 | ((frame.data[2] as u32) << 8)]. *)
Definition cm_size (f : Frame) : Z :=
  Z.lor (FrameOps.byte f 1) (Z.shiftl (FrameOps.byte f 2) 8).

Definition new_rx_session (state : SessionState.t) (pgn : Pgn) (data : list Z)
    (total_bytes : Z) (source destination : Address) (port : Z) (priority : Priority.t)
    (max_packets window : Z) : TransportSession :=
  mkSession Receive state pgn data total_bytes 0 source destination port priority
    0 0 0 TP_MAX_PACKETS_PER_CTS max_packets 1 window 0 0 0.

(** The tail of the [tp_cm::RTS] arm of [handle_cm], once a session for the same path
    and PGN has been dropped: the session cap, the buffer, the new session. *)
Definition rts_open `{Allocator} (p : TransportProtocol) (frame : Frame) (port : Z)
    : tp_result :=
  let src := FrameOps.source frame in
  let dst := FrameOps.destination frame in
  let cm_pgn := pgn_from_cm_bytes (f_data frame) in
  let msg_size := cm_size frame in
  if (max_sessions p <=? length (sessions p))%nat then
    Some (note_abort_sent (note_resource_rejection (note_dropped_frame p)),
          [make_abort_fields dst src cm_pgn AbortReason.ResourcesUnavailable], [])
  else
    let max_pkts := Z.min (FrameOps.byte frame 4) (wrap 8 TP_MAX_PACKETS_PER_CTS) in
    let cts_count := Z.min (FrameOps.byte frame 3) max_pkts in
    match rx_buffer msg_size (max_receive_bytes p) with
    | Err reason =>
        let p := note_dropped_frame p in
        let p := if bool_decide (reason = AbortReason.ResourcesUnavailable)
                 then note_resource_rejection p else p in
        Some (note_abort_sent p, [make_abort_fields dst src cm_pgn reason], [])
    | Ok data =>
        let session := new_rx_session SessionState.WaitingForData cm_pgn data msg_size
          src dst port (FrameOps.priority frame) max_pkts cts_count in
        Some (push_session session p, [make_cts dst src cts_count 1 cm_pgn], [])
    end.

(** The [tp_cm::RTS] arm of [handle_cm]. *)
Definition handle_rts `{Allocator} (p : TransportProtocol) (frame : Frame) (port : Z)
    : tp_result :=
  let src := FrameOps.source frame in
  let dst := FrameOps.destination frame in
  let cm_pgn := pgn_from_cm_bytes (f_data frame) in
  if negb (valid_tp_payload_shape (cm_size frame) (FrameOps.byte frame 3))
     || (FrameOps.byte frame 4 =? 0) then
    Some (note_abort_sent (note_dropped_frame p),
          [make_abort_fields dst src cm_pgn AbortReason.UnexpectedDataSize], [])
  else
    match receive_session_for p src dst port cm_pgn with
    | Some existing => '(_, p) ← remove_session existing p; rts_open p frame port
    | None =>
        if receive_path_is_active p src dst port then
          Some (note_abort_sent (note_dropped_frame p),
                [make_abort_fields dst src cm_pgn AbortReason.AlreadyInSession], [])
        else rts_open p frame port
    end.

Definition cts_matches (src dst : Address) (pgn : Pgn) (port : Z) (s : TransportSession)
    : bool :=
  bool_decide (s_direction s = Transmit) && (s_source_address s =? dst)
  && (s_destination_address s =? src) && (s_pgn s =? pgn)
  && bool_decide (s_state s = SessionState.WaitingForCTS
                  \/ s_state s = SessionState.SendingData
                  \/ s_state s = SessionState.WaitingForEndOfMsg)
  && (s_can_port s =? port).

(** [(num_packets as u32).min(total - (next_seq - 1)).min(max_per_cts) as u8]. *)
Definition clamp_window (s : TransportSession) (num_packets next_seq : Z) : option Z :=
  prev ← checked_sub next_seq 1;
  remaining ← checked_sub (total_packets s) prev;
  Some (wrap 8 (Z.min (Z.min num_packets remaining) (s_max_packets_per_cts s))).

(** [is_duplicate_current_window], with the short-circuiting of its [&&]. *)
Definition is_duplicate_current_window (s : TransportSession) (num_packets next_seq : Z)
    : option bool :=
  if negb (num_packets =? 0) && negb (next_seq =? 0) && (next_seq <=? total_packets s)
     && (next_seq =? sat_add 8 (s_last_sequence s) 1)
  then w ← clamp_window s num_packets next_seq; Some (s_packets_to_send s =? w)
  else Some false.

(** What a CTS does to the transmit session it matches, and the reason to abort it. *)
Definition cts_session (max_retransmits num_packets next_seq : Z) (s : TransportSession)
    : option (TransportSession * option AbortReason.t) :=
  if bool_decide (s_state s = SessionState.SendingData) then
    dup ← is_duplicate_current_window s num_packets next_seq;
    if (dup : bool) then Some (with_timer_ms 0 s, None)
    else Some (with_state SessionState.Aborted s, Some AbortReason.ConnectionModeError)
  else if num_packets =? 0 then Some (with_timer_ms 0 s, None)
  else if (next_seq =? 0) || (total_packets s <? next_seq) then
    Some (with_state SessionState.Aborted s, Some AbortReason.BadSequence)
  else
    let is_retransmit :=
      next_seq - 1 <? div_ceil (s_bytes_transferred s) TP_BYTES_PER_FRAME in
    let s := with_retransmit_count
               (if is_retransmit then sat_add 8 (s_retransmit_count s) 1 else 0) s in
    if is_retransmit && (max_retransmits <? s_retransmit_count s) then
      Some (with_state SessionState.Aborted s, Some AbortReason.MaxRetransmitsExceeded)
    else
      clamped ← clamp_window s num_packets next_seq;
      prev ← checked_sub next_seq 1;
      sent ← checked_mul 32 prev 7;
      Some (with_timer_ms 0 (with_last_sequence prev (with_bytes_transferred sent
              (with_packets_to_send clamped
                 (with_state SessionState.SendingData s)))), None).

(** The [tp_cm::CTS] arm: every path through the loop body ends in [break], so the
    loop acts on the first matching session. *)
Definition handle_cts (p : TransportProtocol) (frame : Frame) (port : Z) : tp_result :=
  let src := FrameOps.source frame in
  let dst := FrameOps.destination frame in
  let cm_pgn := pgn_from_cm_bytes (f_data frame) in
  match position (cts_matches src dst cm_pgn port) (sessions p) with
  | None => Some (note_dropped_frame p, [], [])
  | Some idx =>
      s ← sessions p !! idx;
      '(s, abort) ← cts_session (max_retransmits p) (FrameOps.byte frame 1)
                      (FrameOps.byte frame 2) s;
      let p := update_session idx s p in
      match abort with
      | None => Some (p, [], [])
      | Some reason =>
          let p := note_abort_sent (note_dropped_session (note_dropped_frame p)) in
          '(_, p) ← remove_session idx p;
          Some (p, [make_session_abort s reason], [OnAbort (from_session s reason)])
      end
  end.

(** The [tp_cm::EOMA] arm. *)
Definition handle_eoma (p : TransportProtocol) (frame : Frame) (port : Z) : tp_result :=
  let src := FrameOps.source frame in
  let dst := FrameOps.destination frame in
  let cm_pgn := pgn_from_cm_bytes (f_data frame) in
  match position (fun s => bool_decide (s_direction s = Transmit)
                    && (s_source_address s =? dst) && (s_destination_address s =? src)
                    && (s_pgn s =? cm_pgn) && (s_can_port s =? port)) (sessions p) with
  | None => Some (note_dropped_frame p, [], [])
  | Some idx =>
      s ← sessions p !! idx;
      if negb (bool_decide (s_state s = SessionState.WaitingForEndOfMsg))
         || negb (cm_size frame =? s_total_bytes s)
         || negb (FrameOps.byte frame 3 =? wrap 8 (total_packets s))
      then Some (note_dropped_frame p, [], [])
      else
        '(session, p) ← remove_session idx p;
        Some (p, [], [OnComplete (with_state SessionState.Complete session)])
  end.

(** The tail of the [tp_cm::BAM] arm, once a session for the same source and PGN has
    been dropped. *)
Definition bam_open `{Allocator} (p : TransportProtocol) (frame : Frame) (port : Z)
    : tp_result :=
  let msg_size := cm_size frame in
  let over_receive_cap := max_receive_bytes p <? msg_size in
  if negb (FrameOps.is_broadcast frame)
     || negb (valid_tp_payload_shape msg_size (FrameOps.byte frame 3)) || over_receive_cap
  then
    let p := note_dropped_frame p in
    Some (if over_receive_cap then note_resource_rejection p else p, [], [])
  else if (max_sessions p <=? length (sessions p))%nat then
    Some (note_resource_rejection (note_dropped_frame p), [], [])
  else
    match rx_buffer msg_size (max_receive_bytes p) with
    | Err reason =>
        let p := note_dropped_frame p in
        Some (if bool_decide (reason = AbortReason.ResourcesUnavailable)
              then note_resource_rejection p else p, [], [])
    | Ok data =>
        let session := new_rx_session SessionState.ReceivingData
          (pgn_from_cm_bytes (f_data frame)) data msg_size (FrameOps.source frame)
          BROADCAST_ADDRESS port (FrameOps.priority frame) TP_MAX_PACKETS_PER_CTS 0 in
        Some (push_session session p, [], [])
    end.

(** The [tp_cm::BAM] arm. *)
Definition handle_bam `{Allocator} (p : TransportProtocol) (frame : Frame) (port : Z)
    : tp_result :=
  match receive_session_for p (FrameOps.source frame) BROADCAST_ADDRESS port
          (pgn_from_cm_bytes (f_data frame)) with
  | Some existing => '(_, p) ← remove_session existing p; bam_open p frame port
  | None => bam_open p frame port
  end.

(** The [tp_cm::ABORT] arm. *)
Definition handle_abort (p : TransportProtocol) (frame : Frame) (port : Z) : tp_result :=
  let src := FrameOps.source frame in
  let dst := FrameOps.destination frame in
  let cm_pgn := pgn_from_cm_bytes (f_data frame) in
  let reason := default AbortReason.Other (AbortReason.try_from_u8 (FrameOps.byte frame 1)) in
  match position (fun s => (s_pgn s =? cm_pgn) && (s_can_port s =? port)
                    && ((s_source_address s =? dst) && (s_destination_address s =? src)
                        || (s_source_address s =? src) && (s_destination_address s =? dst)))
          (sessions p) with
  | None => Some (note_dropped_frame p, [], [])
  | Some idx =>
      s ← sessions p !! idx;
      let s := with_state SessionState.Aborted s in
      '(_, p) ← remove_session idx (update_session idx s p);
      Some (note_dropped_session (note_abort_received p), [],
            [OnAbort (from_session s reason)])
  end.

(** [TransportProtocol::handle_cm]. *)
Definition handle_cm `{Allocator} (p : TransportProtocol) (frame : Frame) (port : Z)
    : tp_result :=
  let control_byte := FrameOps.byte frame 0 in
  if negb (pgn_is_valid (pgn_from_cm_bytes (f_data frame))) then
    Some (note_dropped_frame p, [], [])
  else if negb (control_byte =? tp_cm.BAM)
          && (FrameOps.destination frame =? BROADCAST_ADDRESS) then
    Some (note_dropped_frame p, [], [])
  else if control_byte =? tp_cm.RTS then handle_rts p frame port
  else if control_byte =? tp_cm.CTS then handle_cts p frame port
  else if control_byte =? tp_cm.EOMA then handle_eoma p frame port
  else if control_byte =? tp_cm.BAM then handle_bam p frame port
  else if control_byte =? tp_cm.ABORT then handle_abort p frame port
  else Some (note_dropped_frame p, [], []).

Definition dt_matches (src dst : Address) (port : Z) (s : TransportSession) : bool :=
  bool_decide (s_direction s = Receive) && (s_source_address s =? src)
  && (s_can_port s =? port)
  && bool_decide (s_state s = SessionState.WaitingForData
                  \/ s_state s = SessionState.ReceivingData)
  && (s_destination_address s =? dst).

(** The three abort arms of [handle_dt] (zero, duplicate and out-of-order sequence). *)
Definition dt_abort (p : TransportProtocol) (idx : nat) (s : TransportSession)
    (reason : AbortReason.t) : tp_result :=
  let broadcast := is_broadcast_session s in
  let responses := if broadcast then [] else [make_session_abort s reason] in
  let p := if broadcast then p else note_abort_sent p in
  let s := with_state SessionState.Aborted s in
  let p := note_dropped_session (note_dropped_frame (update_session idx s p)) in
  '(_, p) ← remove_session idx p;
  Some (p, responses, [OnAbort (from_session s reason)]).

(** The accepting tail of [handle_dt]: ingest the seven bytes, then complete, ask for
    the next window, or wait. *)
Definition dt_ingest (p : TransportProtocol) (frame : Frame) (idx : nat)
    (s : TransportSession) : tp_result :=
  let seq := FrameOps.byte frame 0 in
  prev ← checked_sub seq 1;
  offset ← checked_mul 32 prev 7;
  data ← copy_in_loop 32 7 0 (s_data s) offset (s_total_bytes s) (f_data frame);
  stop ← checked_add 32 offset TP_BYTES_PER_FRAME;
  let s := with_timer_ms 0 (with_last_sequence seq (with_bytes_transferred
             (Z.min stop (s_total_bytes s)) (with_data data s))) in
  if s_total_bytes s <=? s_bytes_transferred s then
    let s := with_state SessionState.Complete s in
    '(session, p) ← remove_session idx (update_session idx s p);
    Some (p,
      (if is_broadcast_session s then []
       else [make_eoma (s_destination_address s) (s_source_address s) (s_total_bytes s)
               (wrap 8 (total_packets s)) (s_pgn s)]),
      [OnComplete session])
  else if is_broadcast_session s then Some (update_session idx s p, [], [])
  else
    start ← checked_sub (s_cts_window_start s) 1;
    in_window ← checked_sub seq start;
    if s_cts_window_size s <=? in_window then
      remaining ← checked_sub (total_packets s) seq;
      let next_count := Z.min (wrap 8 remaining) (s_max_packets_per_cts s) in
      next_seq ← checked_add 8 seq 1;
      Some (update_session idx (with_cts_window next_seq next_count s) p,
            [make_cts (s_destination_address s) (s_source_address s) next_count next_seq
               (s_pgn s)], [])
    else Some (update_session idx s p, [], []).

(** [TransportProtocol::handle_dt]. *)
Definition handle_dt (p : TransportProtocol) (frame : Frame) (port : Z) : tp_result :=
  let src := FrameOps.source frame in
  let dst := FrameOps.destination frame in
  let seq := FrameOps.byte frame 0 in
  match position (dt_matches src dst port) (sessions p) with
  | None => Some (note_dropped_frame p, [], [])
  | Some idx =>
      s ← sessions p !! idx;
      if seq =? 0 then dt_abort p idx s AbortReason.BadSequence
      else
        expected ← checked_add 8 (s_last_sequence s) 1;
        if negb (seq =? expected) then
          if (seq <=? s_last_sequence s) && negb (seq =? 0) then
            dt_abort p idx s AbortReason.DuplicateSequence
          else if expected <? seq then dt_abort p idx s AbortReason.BadSequence
          else dt_ingest p frame idx s
        else dt_ingest p frame idx s
  end.

(** [TransportProtocol::process_frame]. *)
Definition tp_process_frame `{Allocator} (p : TransportProtocol) (frame : Frame) (port : Z)
    : tp_result :=
  let is_tp := (FrameOps.pgn frame =? PGN_TP_CM) || (FrameOps.pgn frame =? PGN_TP_DT) in
  if is_tp && (f_length frame <? CAN_DATA_LENGTH) then Some (note_dropped_frame p, [], [])
  else if is_tp && (negb (valid_tp_source (FrameOps.source frame))
                    || negb (valid_tp_destination (FrameOps.destination frame))) then
    Some (note_dropped_frame p, [], [])
  else if FrameOps.pgn frame =? PGN_TP_CM then handle_cm p frame port
  else if FrameOps.pgn frame =? PGN_TP_DT then handle_dt p frame port
  else Some (p, [], []).
