(* ===== verification/TpInv.v ===== *)
(** Invariant of the Transport Protocol engine of [Tp]: every operation, from every
    well-formed engine and on every well-formed frame, runs without a panic and leaves
    the engine well formed; every frame it emits is well formed; sessions stay
    addressable (one transmit session per DT path, one connection-mode receive session
    per DT path, one broadcast receive session per source and PGN). *)
From S2P Require Export Tp.

(** ** Invariant *)

Record rx_wf (s : TransportSession) : Prop := {
  rx_state : s_state s = if is_broadcast_session s then SessionState.ReceivingData
                         else SessionState.WaitingForData;
  rx_progress : s_bytes_transferred s = 7 * s_last_sequence s;
  rx_incomplete : 7 * s_last_sequence s < s_total_bytes s;
  rx_seq : 0 <= s_last_sequence s;
  rx_max : 1 <= s_max_packets_per_cts s <= 16;
  rx_window : is_broadcast_session s = false ->
    1 <= s_cts_window_start s <= s_last_sequence s + 1 /\
    s_last_sequence s + 2 <= s_cts_window_start s + s_cts_window_size s
      <= total_packets s + 1 /\
    s_cts_window_size s <= s_max_packets_per_cts s
}.

Record tx_wf (s : TransportSession) : Prop := {
  tx_progress : s_bytes_transferred s = Z.min (7 * s_last_sequence s) (s_total_bytes s);
  tx_seq : 0 <= s_last_sequence s <= total_packets s;
  tx_max : s_max_packets_per_cts s = TP_MAX_PACKETS_PER_CTS;
  tx_retransmit : in_u 8 (s_retransmit_count s);
  tx_state : match s_state s with
             | SessionState.SendingData =>
                 s_last_sequence s < total_packets s /\
                 (is_broadcast_session s = false ->
                  1 <= s_packets_to_send s <= TP_MAX_PACKETS_PER_CTS /\
                  s_last_sequence s + s_packets_to_send s <= total_packets s)
             | SessionState.WaitingForCTS =>
                 is_broadcast_session s = false /\ s_last_sequence s < total_packets s
             | SessionState.WaitingForEndOfMsg =>
                 is_broadcast_session s = false /\ s_last_sequence s = total_packets s
             | _ => False
             end
}.

Record session_wf (s : TransportSession) : Prop := {
  sw_total : CAN_DATA_LENGTH < s_total_bytes s <= TP_MAX_DATA_LENGTH;
  sw_len : Z.of_nat (length (s_data s)) = s_total_bytes s;
  sw_bytes : bytes (s_data s);
  sw_pgn : in_u 18 (s_pgn s);
  sw_src : in_u 8 (s_source_address s);
  sw_dst : in_u 8 (s_destination_address s);
  sw_timer : in_u 32 (s_timer_ms s);
  sw_adv : 1 <= s_advertised_packets_per_cts s <= TP_MAX_PACKETS_PER_CTS;
  sw_dir : match s_direction s with Receive => rx_wf s | Transmit => tx_wf s end
}.

(** The DT path a session occupies; broadcast receivers are told apart by PGN too. *)
Definition session_path (s : TransportSession)
    : TransportDirection * Z * Z * Z * option Z :=
  (s_direction s, s_source_address s, s_destination_address s, s_can_port s,
   if bool_decide (s_direction s = Receive) && is_broadcast_session s
   then Some (s_pgn s) else None).

Record tp_wf (p : TransportProtocol) : Prop := {
  tw_sessions : Forall session_wf (sessions p);
  tw_paths : NoDup (session_path <$> sessions p);
  tw_receive : 0 <= max_receive_bytes p <= TP_MAX_DATA_LENGTH;
  tw_adv : 1 <= advertised_packets_per_cts p <= TP_MAX_PACKETS_PER_CTS;
  tw_retransmits : in_u 8 (max_retransmits p)
}.

(** What an operation owes its caller. *)
Definition tp_safe (p : TransportProtocol) (r : tp_result) : Prop :=
  exists p' frames evs, r = Some (p', frames, evs) /\ tp_wf p' /\
    Forall FrameOps.wf frames /\
    (length (sessions p') <= Nat.max (length (sessions p)) (max_sessions p))%nat /\
    max_sessions p' = max_sessions p.

(** ** Bytes on the wire *)

Lemma byte0_range x : in_u 8 (byte0 x).
Proof. apply (in_u_land_ones 8). lia. Qed.
Lemma byte1_range x : in_u 8 (byte1 x).
Proof. apply (in_u_land_ones 8). lia. Qed.
Lemma byte2_range x : in_u 8 (byte2 x).
Proof. apply (in_u_land_ones 8). lia. Qed.
#[export] Hint Resolve byte0_range byte1_range byte2_range : bus.

Lemma le16_join x : in_u 16 x -> Z.lor (byte0 x) (Z.shiftl (byte1 x) 8) = x.
Proof.
  intros Hx. unfold byte0, byte1. change 255 with (Z.ones 8).
  apply Z.bits_inj'. intros n Hn.
  destruct (Z.ltb_spec n 8); [|destruct (Z.ltb_spec n 16)]; bits_norm; bits_done.
Qed.

Lemma le24_join x :
  in_u 24 x ->
  Z.lor (Z.lor (byte0 x) (Z.shiftl (byte1 x) 8)) (Z.shiftl (byte2 x) 16) = x.
Proof.
  intros Hx. unfold byte0, byte1, byte2. change 255 with (Z.ones 8).
  apply Z.bits_inj'. intros n Hn.
  destruct (Z.ltb_spec n 8); [|destruct (Z.ltb_spec n 16); [|destruct (Z.ltb_spec n 24)]];
    bits_norm; bits_done.
Qed.

Lemma cm_size_range f : FrameOps.wf f -> in_u 16 (cm_size f).
Proof.
  intros Hf. apply in_u_lor; [lia| |].
  - eapply in_u_mono; [|by apply byte_range]. lia.
  - apply (in_u_shiftl 8 8); [lia|lia|]. by apply byte_range.
Qed.

Lemma cm_pgn_range f :
  FrameOps.wf f -> pgn_is_valid (pgn_from_cm_bytes (f_data f)) = true ->
  in_u 18 (pgn_from_cm_bytes (f_data f)).
Proof.
  intros Hf Hv%Z.leb_le. split; [|change (2 ^ 18) with 0x40000; lia].
  apply Z.lor_nonneg; split; [apply Z.lor_nonneg; split|]; rewrite ?Z.shiftl_nonneg;
    by apply byte_range.
Qed.

(** Every TP frame has PGN [PGN_TP_CM] or [PGN_TP_DT], both canonical PDU1. *)
Lemma cm_frame_wf src dst data :
  in_u 8 src -> in_u 8 dst -> length data = 8%nat -> bytes data ->
  FrameOps.wf (FrameOps.new8 (cm_id src dst) data).
Proof. intros. by apply wf_new8. Qed.

Lemma dt_frame_wf src dst data :
  in_u 8 src -> in_u 8 dst -> length data = 8%nat -> bytes data ->
  FrameOps.wf (FrameOps.new8 (dt_id src dst) data).
Proof. intros. by apply wf_new8. Qed.

Ltac frame_bytes :=
  repeat (apply Forall_cons_2; [first [apply byte0_range|apply byte1_range
    |apply byte2_range|apply AbortReason.as_u8_reason_range|apply in_u_wrap; lia
    |done|unfold in_u; simpl; lia]|]); apply Forall_nil_2.

Lemma make_abort_wf src dst pgn r :
  in_u 8 src -> in_u 8 dst -> FrameOps.wf (make_abort_fields src dst pgn r).
Proof. intros. apply cm_frame_wf; try done. frame_bytes. Qed.

Lemma make_cts_wf src dst n k pgn :
  in_u 8 src -> in_u 8 dst -> in_u 8 n -> in_u 8 k ->
  FrameOps.wf (make_cts src dst n k pgn).
Proof. intros. apply cm_frame_wf; try done. frame_bytes. Qed.

Lemma make_eoma_wf src dst total n pgn :
  in_u 8 src -> in_u 8 dst -> in_u 8 n -> FrameOps.wf (make_eoma src dst total n pgn).
Proof. intros. apply cm_frame_wf; try done. frame_bytes. Qed.

Lemma make_bam_wf pgn total src :
  in_u 8 src -> FrameOps.wf (make_bam_fields pgn total src).
Proof. intros. apply cm_frame_wf; try done. frame_bytes. Qed.

Lemma make_rts_wf pgn total src dst adv :
  in_u 8 src -> in_u 8 dst -> in_u 8 adv ->
  FrameOps.wf (make_rts_fields pgn total src dst adv).
Proof. intros. apply cm_frame_wf; try done. frame_bytes. Qed.

Lemma make_session_abort_wf s r :
  in_u 8 (s_source_address s) -> in_u 8 (s_destination_address s) ->
  FrameOps.wf (make_session_abort s r).
Proof. intros. unfold make_session_abort. destruct (s_direction s); by apply make_abort_wf. Qed.

#[export] Hint Resolve make_abort_wf make_cts_wf make_eoma_wf make_bam_wf make_rts_wf
  make_session_abort_wf : bus.

(** ** Session table steps *)

Lemma tp_wf_stats f p : tp_wf p -> tp_wf (with_stats f p).
Proof. by intros []. Qed.
#[export] Hint Resolve tp_wf_stats : bus.

Lemma tp_wf_lookup p i s : tp_wf p -> sessions p !! i = Some s -> session_wf s.
Proof. intros [Hs _ _ _ _] Hi. exact (Forall_lookup_1 _ _ _ _ Hs Hi). Qed.

Lemma tp_wf_update p i s s' :
  tp_wf p -> sessions p !! i = Some s -> session_wf s' ->
  session_path s' = session_path s -> tp_wf (update_session i s' p).
Proof.
  intros [Hs Hn ? ? ?] Hi Hs' Hk. split; cbn [sessions update_session with_sessions]; try done.
  - by apply Forall_insert.
  - destruct (list_focus _ _ _ Hi) as (r & Hr & Hins).
    rewrite Hins. rewrite Hr in Hn. simpl in *. by rewrite Hk.
Qed.

Lemma tp_wf_push p s :
  tp_wf p -> session_wf s -> session_path s ∉ session_path <$> sessions p ->
  tp_wf (push_session s p).
Proof.
  intros [Hs Hn ? ? ?] Hw Hk. split; cbn [sessions push_session with_sessions]; try done.
  - apply Forall_app. split; [done|by apply Forall_singleton].
  - rewrite fmap_app. apply NoDup_app. split; [done|]. split; [|apply NoDup_singleton].
    intros x Hx ->%list_elem_of_singleton. done.
Qed.

(** Removing the session at an index, possibly after overwriting it. *)
Lemma tp_wf_remove p i s :
  tp_wf p -> sessions p !! i = Some s ->
  exists p', remove_session i p = Some (s, p') /\ tp_wf p' /\
    sessions p ≡ₚ s :: sessions p' /\ max_sessions p' = max_sessions p /\
    max_receive_bytes p' = max_receive_bytes p.
Proof.
  intros [Hs Hn ? ? ?] Hi. unfold remove_session.
  destruct (swap_remove_Some _ _ _ Hi) as (l & -> & Hp).
  cbn [mbind option_bind]. eexists. split; [done|].
  rewrite Hp in Hs, Hn. apply Forall_cons in Hs as [_ Hs].
  apply NoDup_cons in Hn as [_ Hn]. split_and!; done || by split.
Qed.

Lemma tp_wf_overwrite_remove p i s s' :
  tp_wf p -> sessions p !! i = Some s ->
  exists p', remove_session i (update_session i s' p) = Some (s', p') /\ tp_wf p' /\
    sessions p ≡ₚ s :: sessions p' /\ max_sessions p' = max_sessions p.
Proof.
  intros [Hs Hn ? ? ?] Hi. unfold remove_session. cbn [sessions update_session with_sessions].
  destruct (swap_remove_Some (<[i:=s']> (sessions p)) i s') as (l & -> & Hp).
  { apply list_lookup_insert_eq. by eapply lookup_lt_Some. }
  cbn [mbind option_bind]. eexists. split; [done|]. cbn [sessions with_sessions].
  destruct (list_focus _ _ _ Hi) as (r & Hr & Hins).
  rewrite Hins in Hp. apply Permutation_cons_inv in Hp.
  rewrite Hr in Hs, Hn. apply Forall_cons in Hs as [_ Hs].
  apply NoDup_cons in Hn as [_ Hn]. rewrite Hp in Hs, Hn, Hr. split_and!; done || by split.
Qed.

Lemma remove_session_stats i f p :
  remove_session i (with_stats f p)
  = '(s, p') ← remove_session i p; Some (s, with_stats f p').
Proof. unfold remove_session. simpl. by destruct (swap_remove i (sessions p)) as [[]|]. Qed.

Lemma update_session_stats i s f p :
  update_session i s (with_stats f p) = with_stats f (update_session i s p).
Proof. done. Qed.

(** Introduction rules for [tp_safe]. *)
Lemma tp_safe_intro p p' frames evs :
  tp_wf p' -> Forall FrameOps.wf frames ->
  (length (sessions p') <= Nat.max (length (sessions p)) (max_sessions p))%nat ->
  max_sessions p' = max_sessions p ->
  tp_safe p (Some (p', frames, evs)).
Proof. intros. by exists p', frames, evs. Qed.

Lemma tp_safe_same p f frames evs :
  tp_wf p -> Forall FrameOps.wf frames -> tp_safe p (Some (with_stats f p, frames, evs)).
Proof. intros. apply tp_safe_intro; auto with bus. simpl. lia. Qed.

Lemma tp_safe_update p i s s' frames evs :
  tp_wf p -> sessions p !! i = Some s -> session_wf s' ->
  session_path s' = session_path s -> Forall FrameOps.wf frames ->
  tp_safe p (Some (update_session i s' p, frames, evs)).
Proof.
  intros. apply tp_safe_intro; try done; [by eapply tp_wf_update|].
  simpl. rewrite length_insert. lia.
Qed.

(** Tear-down of a session: overwrite its state, count, remove it. *)
Ltac teardown Hp Hi :=
  rewrite ?remove_session_stats;
  match goal with
  | |- context [remove_session ?i (update_session ?i ?s' ?p)] =>
      let p1 := fresh "p1" in
      let Hp1 := fresh "Hp1" in let Hperm := fresh "Hperm" in let Hmx := fresh "Hmx" in
      destruct (tp_wf_overwrite_remove p i _ s' Hp Hi) as (p1 & -> & Hp1 & Hperm & Hmx);
      cbn [mbind option_bind]; apply tp_safe_intro;
      [auto 8 with bus| |simpl; rewrite (Permutation_length Hperm); simpl; lia|done]
  end.

Lemma total_packets_le s :
  session_wf s -> 2 <= total_packets s <= 255 /\
    7 * total_packets s - 7 < s_total_bytes s <= 7 * total_packets s.
Proof.
  intros []. unfold total_packets, TP_BYTES_PER_FRAME, CAN_DATA_LENGTH,
    TP_MAX_DATA_LENGTH in *.
  pose proof (div_ceil_7 (s_total_bytes s)). lia.
Qed.

(** ** Data frames *)

(** The DT frame with sequence number [k] of a transfer. *)
Definition dt_frame (src dst : Address) (data : list Z) (k : Z) : Frame :=
  FrameOps.new8 (dt_id src dst) (k :: pad7 (chunk7 (7 * (k - 1)) data)).

(** The session with its cursor after packet [k]. *)
Definition advance (k : Z) (s : TransportSession) : TransportSession :=
  with_bytes_transferred (Z.min (7 * k) (s_total_bytes s)) (with_last_sequence k s).

Lemma advance_self s :
  s_bytes_transferred s = Z.min (7 * s_last_sequence s) (s_total_bytes s) ->
  advance (s_last_sequence s) s = s.
Proof. intros E. destruct s. cbn in E. unfold advance. cbn. by rewrite E. Qed.

Lemma dt_frame_is_wf src dst data k :
  in_u 8 src -> in_u 8 dst -> bytes data -> 1 <= k <= 255 ->
  FrameOps.wf (dt_frame src dst data k).
Proof.
  intros Hs Hd Hb Hk. pose proof (length_chunk7 (7 * (k - 1)) data).
  apply dt_frame_wf; try done.
  - simpl. rewrite length_pad7; lia.
  - apply Forall_cons. split; [unfold in_u; simpl; lia|auto with bus].
Qed.

(** [generate_data_frames] emits consecutive packets from the cursor, stopping at the
    last one. *)
Lemma generate_data_frames_eq n s :
  session_wf s ->
  s_bytes_transferred s = Z.min (7 * s_last_sequence s) (s_total_bytes s) ->
  0 <= s_last_sequence s <= total_packets s ->
  let k := Z.min (Z.of_nat n) (total_packets s - s_last_sequence s) in
  generate_data_frames n s
  = Some (advance (s_last_sequence s + k) s,
          dt_frame (s_source_address s) (s_destination_address s) (s_data s)
            <$> seqZ (s_last_sequence s + 1) k).
Proof.
  intros Hw. pose proof (total_packets_le s Hw) as Htp. destruct Hw as [Ht Hl _ _ _ _ _ _ _].
  unfold TP_MAX_DATA_LENGTH, CAN_DATA_LENGTH in *.
  revert Ht Hl Htp. revert s. induction n as [|n IH]; intros s Ht Hl Htp Hb Hs.
  { rewrite Z.min_l by lia. rewrite Z.add_0_r. by rewrite advance_self. }
  cbn [generate_data_frames]. destruct (Z.leb_spec (s_total_bytes s) (s_bytes_transferred s)).
  { replace (Z.min _ (total_packets s - _)) with 0 by lia.
    rewrite Z.add_0_r. by rewrite advance_self. }
  rewrite wrap_small by (unfold in_u; simpl; lia).
  rewrite <- Hl, copy_out_chunk by (simpl; lia). cbn [mbind option_bind].
  rewrite checked_add_Some by (unfold TP_BYTES_PER_FRAME; simpl; lia).
  cbn [mbind option_bind]. rewrite Hl.
  replace (s_bytes_transferred s + TP_BYTES_PER_FRAME) with (7 * (s_last_sequence s + 1))
    by (unfold TP_BYTES_PER_FRAME; lia).
  fold (advance (s_last_sequence s + 1) s).
  rewrite (IH (advance (s_last_sequence s + 1) s));
    change (total_packets (advance _ s)) with (total_packets s); try done; [cbn|cbn; lia].
  rewrite (seqZ_cons (s_last_sequence s + 1)) by lia. rewrite fmap_cons.
  assert (7 * (s_last_sequence s + 1 - 1) = s_bytes_transferred s) as Hoff by lia.
  assert (forall a b, a = b -> advance a (advance (s_last_sequence s + 1) s) = advance b s)
    as Hadv by (by intros ? ? ->).
  unfold dt_frame at 2. rewrite Hoff.
  do 2 f_equal; [apply Hadv; lia|]. do 3 f_equal; lia.
Qed.

(** ** Transmit side *)

(** Sessions that agree on everything but the transfer cursor, the timers and the
    windows: what the engine changes in place. *)
Record same_transfer (s s' : TransportSession) : Prop := {
  st_dir : s_direction s' = s_direction s;
  st_pgn : s_pgn s' = s_pgn s;
  st_len : length (s_data s') = length (s_data s);
  st_total : s_total_bytes s' = s_total_bytes s;
  st_src : s_source_address s' = s_source_address s;
  st_dst : s_destination_address s' = s_destination_address s;
  st_port : s_can_port s' = s_can_port s;
  st_adv : s_advertised_packets_per_cts s' = s_advertised_packets_per_cts s
}.

Lemma same_transfer_path s s' :
  same_transfer s s' -> session_path s' = session_path s.
Proof.
  unfold session_path, is_broadcast_session. by intros [-> -> _ _ -> -> -> _].
Qed.

Lemma same_transfer_packets s s' : same_transfer s s' -> total_packets s' = total_packets s.
Proof. intros []. unfold total_packets. congruence. Qed.

Lemma same_transfer_broadcast s s' :
  same_transfer s s' -> is_broadcast_session s' = is_broadcast_session s.
Proof. intros []. unfold is_broadcast_session. congruence. Qed.

(** Well-formedness of an updated session: only the changed parts are owed. *)
Lemma session_wf_same s s' :
  session_wf s -> same_transfer s s' -> bytes (s_data s') -> in_u 32 (s_timer_ms s') ->
  match s_direction s with Receive => rx_wf s' | Transmit => tx_wf s' end ->
  session_wf s'.
Proof.
  intros [] [E1 E2 E3 E4 E5 E6 E7 E8] Hb Ht Hd.
  split; rewrite ?E1, ?E2, ?E3, ?E4, ?E5, ?E6, ?E8; done.
Qed.

#[export] Hint Resolve same_transfer_path : bus.

Lemma advance_wf_frames n s :
  session_wf s -> tx_wf s ->
  let k := Z.min (Z.of_nat n) (total_packets s - s_last_sequence s) in
  Forall FrameOps.wf
    (dt_frame (s_source_address s) (s_destination_address s) (s_data s)
       <$> seqZ (s_last_sequence s + 1) k).
Proof.
  intros Hw [? ? _ _ _]. pose proof (total_packets_le s Hw). destruct Hw.
  apply Forall_fmap, Forall_forall. intros j Hj%elem_of_seqZ. simpl.
  apply dt_frame_is_wf; done || lia.
Qed.

(** What [drain_session] does to a session with a granted window. *)
Definition drained (s : TransportSession) : TransportSession :=
  let k := s_last_sequence s + s_packets_to_send s in
  with_timer_ms 0 (with_state
    (if k =? total_packets s then SessionState.WaitingForEndOfMsg
     else SessionState.WaitingForCTS) (advance k s)).

Lemma drain_session_eq s :
  session_wf s -> cmdt_sending s = true ->
  drain_session s
  = Some (drained s, dt_frame (s_source_address s) (s_destination_address s) (s_data s)
            <$> seqZ (s_last_sequence s + 1) (s_packets_to_send s)) /\
  s_direction s = Transmit /\ is_broadcast_session s = false /\
  1 <= s_packets_to_send s <= 16 /\
  s_last_sequence s + s_packets_to_send s <= total_packets s.
Proof.
  intros Hw Hc. unfold drain_session. rewrite Hc.
  unfold cmdt_sending in Hc. reflect_bools. pose proof (total_packets_le s Hw) as Htp.
  pose proof (sw_dir s Hw) as Htx. rewrite H1 in Htx. destruct Htx as [Hb Hs _ _ Hst].
  rewrite H in Hst. destruct Hst as [Hlt Hst]. destruct Hst as [Hp Hle]; [done|].
  unfold TP_MAX_PACKETS_PER_CTS in *. split; [|done].
  rewrite generate_data_frames_eq by done. cbn [mbind option_bind].
  replace (Z.min _ (total_packets s - s_last_sequence s)) with (s_packets_to_send s) by lia.
  unfold drained. do 4 f_equal.
  change (s_total_bytes (advance _ s)) with (s_total_bytes s). cbn [advance
    s_bytes_transferred with_bytes_transferred].
  repeat case_bool; done || lia.
Qed.

Lemma drain_session_wf s :
  session_wf s ->
  exists s' frames, drain_session s = Some (s', frames) /\ session_wf s' /\
    same_transfer s s' /\ cmdt_sending s' = false /\ Forall FrameOps.wf frames.
Proof.
  intros Hw. destruct (cmdt_sending s) eqn:Hc.
  - destruct (drain_session_eq s Hw Hc) as (-> & Hd & Hb & Hp & Hle).
    pose proof (sw_dir s Hw) as Htx. rewrite Hd in Htx.
    pose proof (total_packets_le s Hw).
    assert (same_transfer s (drained s)) as Hst by done.
    eexists _, _. split; [done|]. split; [|split; [done|split]].
    + apply (session_wf_same s); try done; [apply Hw|].
      rewrite Hd. destruct Htx as [Hbt Hs Hm Hr Hstt].
      split; try done; change (total_packets (drained s)) with (total_packets s);
        change (is_broadcast_session (drained s)) with (is_broadcast_session s);
        cbn [drained s_last_sequence with_timer_ms with_state advance
          with_bytes_transferred with_last_sequence s_state]; [lia|].
      case_bool; split; done || lia.
    + unfold cmdt_sending, drained. cbn. by case_bool.
    + pose proof (advance_wf_frames (Z.to_nat (s_packets_to_send s)) s Hw Htx) as Hf.
      cbn zeta in Hf. rewrite Z.min_l in Hf by lia. by rewrite Z2Nat.id in Hf by lia.
  - unfold drain_session. rewrite Hc. exists s, []. by split_and!.
Qed.

Lemma drain_sessions_wf l :
  Forall session_wf l ->
  exists l' frames, drain_sessions l = Some (l', frames) /\ Forall session_wf l' /\
    session_path <$> l' = session_path <$> l /\
    Forall (fun s => cmdt_sending s = false) l' /\ Forall FrameOps.wf frames.
Proof.
  induction 1 as [|s l Hs Hl IH]; [by exists [], []|].
  destruct (drain_session_wf s Hs) as (s' & fs & E & Hs' & Hst & Hc & Hf).
  destruct IH as (l' & rest & E' & Hl' & Hk & Hc' & Hf').
  cbn [drain_sessions]. rewrite E. cbn [mbind option_bind]. rewrite E'.
  eexists _, _. split; [done|]. rewrite !fmap_cons, Hk, (same_transfer_path _ _ Hst).
  split_and!; try done; try by constructor. by apply Forall_app.
Qed.

(** ** The timer sweep *)

(** What one [update] does to one session: the session if it survives, the frames and
    the events. *)
Definition tick_session (elapsed_ms : Z) (s : TransportSession)
    : option TransportSession * list Frame * list TpEvent :=
  let s := with_timer_ms (sat_add 32 (s_timer_ms s) elapsed_ms) s in
  if is_bam_tx s && (TP_BAM_INTER_PACKET_MS <=? s_timer_ms s) then
    let k := s_last_sequence s + 1 in
    let s := advance k (with_timer_ms 0 s) in
    let dt := dt_frame (s_source_address s) (s_destination_address s) (s_data s) k in
    if s_total_bytes s <=? s_bytes_transferred s
    then (None, [dt], [OnComplete (with_state SessionState.Complete s)])
    else (Some s, [dt], [])
  else if tp_timed_out s then
    (None, (if is_broadcast_session s then []
            else [make_session_abort s AbortReason.Timeout]),
     [OnAbort (from_session s AbortReason.Timeout)])
  else (Some s, [], []).

Lemma in_u_sat_timer t e : in_u 32 t -> 0 <= e -> in_u 32 (sat_add 32 t e).
Proof. intros [? _] ?. by apply in_u_sat_add. Qed.
#[export] Hint Resolve in_u_sat_timer : bus.

Lemma session_wf_timer t s : in_u 32 t -> session_wf s -> session_wf (with_timer_ms t s).
Proof.
  intros Ht Hs. apply (session_wf_same s); try done; [apply Hs|].
  pose proof (sw_dir s Hs) as Hd. destruct (s_direction s); by destruct Hd.
Qed.

Lemma is_bam_tx_inv s :
  is_bam_tx s = true ->
  is_broadcast_session s = true /\ s_state s = SessionState.SendingData /\
  s_direction s = Transmit.
Proof. unfold is_bam_tx. intros. by reflect_bools. Qed.

(** One BAM data frame advances the session; it is complete after the last packet. *)
Lemma bam_advance s :
  session_wf s -> is_bam_tx s = true ->
  tx_wf s /\ s_last_sequence s < total_packets s /\
  generate_data_frames 1 s
  = Some (advance (s_last_sequence s + 1) s,
          [dt_frame (s_source_address s) (s_destination_address s) (s_data s)
             (s_last_sequence s + 1)]) /\
  ((s_total_bytes s <=? Z.min (7 * (s_last_sequence s + 1)) (s_total_bytes s)) = false ->
   session_wf (advance (s_last_sequence s + 1) s)).
Proof.
  intros Hw (H & H1 & H0)%is_bam_tx_inv.
  pose proof (total_packets_le s Hw) as Htp.
  pose proof (sw_dir s Hw) as Htx. rewrite H0 in Htx. split; [done|].
  destruct Htx as [Hbt Hs Hm Hr Hst]. rewrite H1 in Hst. destruct Hst as [Hlt Hst].
  split; [done|]. rewrite generate_data_frames_eq by done.
  rewrite Z.min_l by lia. cbn [Z.of_nat Pos.of_succ_nat]. split; [done|].
  intros Hinc. reflect_bools. apply (session_wf_same s); try done; [apply Hw..|].
  rewrite H0. split; try done; change (total_packets (advance _ s)) with (total_packets s);
    cbn [advance s_last_sequence with_bytes_transferred with_last_sequence s_state]; [lia|].
  rewrite H1. change (is_broadcast_session (advance _ s)) with (is_broadcast_session s).
  split; [lia|]. rewrite H. done.
Qed.

Definition tick_kept (e : Z) (s : TransportSession) := (tick_session e s).1.1.
Definition tick_frames (e : Z) (s : TransportSession) := (tick_session e s).1.2.
Definition tick_events (e : Z) (s : TransportSession) := (tick_session e s).2.

Lemma update_session_split p before s rest s' :
  sessions p = before ++ s :: rest ->
  update_session (length before) s' p = with_sessions (before ++ s' :: rest) p.
Proof.
  intros E. unfold update_session. rewrite E, insert_app_r_alt, Nat.sub_diag by lia. done.
Qed.

Lemma remove_session_split p before s rest :
  sessions p = before ++ s :: rest ->
  remove_session (length before) p = Some (s, with_sessions (before ++ rotate rest) p).
Proof. intros E. unfold remove_session. by rewrite E, swap_remove_split. Qed.

(** One iteration of the sweep is [tick_session] on the session at the index. *)
Lemma tp_update_loop_step fuel e p before s rest :
  0 <= e -> session_wf s -> sessions p = before ++ s :: rest ->
  exists g,
  tp_update_loop (S fuel) (length before) e p
  = '(p', frames, evs) ←
      match tick_kept e s with
      | Some s' => tp_update_loop fuel (S (length before)) e
                     (with_sessions (before ++ s' :: rest) p)
      | None => tp_update_loop fuel (length before) e
                  (with_stats g (with_sessions (before ++ rotate rest) p))
      end;
    Some (p', tick_frames e s ++ frames, tick_events e s ++ evs).
Proof.
  intros He Hs E. cbn [tp_update_loop]. rewrite E, list_lookup_middle by done.
  unfold tick_kept, tick_frames, tick_events, tick_session.
  set (s1 := with_timer_ms (sat_add 32 (s_timer_ms s) e) s).
  assert (session_wf s1) as Hs1 by (apply session_wf_timer; [apply in_u_sat_timer|]; try done; apply Hs).
  destruct (is_bam_tx s1 && _) eqn:Hdue.
  - apply andb_true_iff in Hdue as [Hbam _].
    destruct (bam_advance (with_timer_ms 0 s1)) as (_ & _ & -> & _);
      [by apply session_wf_timer|done|].
    cbn [mbind option_bind andb].
    change (s_last_sequence (with_timer_ms 0 s1)) with (s_last_sequence s1).
    set (s2 := advance (s_last_sequence s1 + 1) (with_timer_ms 0 s1)).
    destruct (s_total_bytes s2 <=? s_bytes_transferred s2) eqn:Hc.
    + exists id. rewrite (update_session_split _ _ s rest), (remove_session_split _ _
        (with_state SessionState.Complete s2) rest) by done.
      cbn [mbind option_bind fst snd]. by destruct p.
    + assert (tp_timed_out s2 = false) as ->.
      { apply is_bam_tx_inv in Hbam as (_ & Hst & _). unfold tp_timed_out, s2. cbn.
        change (s_state s) with (s_state s1). by rewrite Hst. }
      exists id. cbn [fst snd]. by rewrite (update_session_split _ _ s rest).
  - cbn [mbind option_bind andb]. destruct (tp_timed_out s1).
    + exists (fun st => add_dropped_sessions 1 (add_timeouts 1
          (if is_broadcast_session s1 then st else add_aborts_sent 1 st))).
      change (is_broadcast_session (with_state _ s1)) with (is_broadcast_session s1).
      rewrite (update_session_split _ _ s rest) by done.
      rewrite (remove_session_split _ before (with_state SessionState.Aborted s1) rest)
        by (by destruct (is_broadcast_session s1)).
      cbn [mbind option_bind fst snd]. by destruct (is_broadcast_session s1).
    + exists id. cbn [fst snd]. by rewrite (update_session_split _ _ s rest).
Qed.

Definition tp_config (p : TransportProtocol) :=
  (timer_sessions p, max_receive_bytes p, max_sessions p, max_retransmits p,
   advertised_packets_per_cts p).

Lemma tp_update_loop_spec e fuel before rest p :
  0 <= e -> Forall session_wf rest -> sessions p = before ++ rest ->
  (length rest <= fuel)%nat ->
  exists p' frames evs,
    tp_update_loop fuel (length before) e p = Some (p', frames, evs) /\
    sessions p' ≡ₚ before ++ omap (tick_kept e) rest /\
    frames ≡ₚ rest ≫= tick_frames e /\ evs ≡ₚ rest ≫= tick_events e /\
    tp_config p' = tp_config p.
Proof.
  intros He. revert before rest p. induction fuel as [|fuel IH]; intros before rest p Hw E Hf;
    (destruct rest as [|s rest];
      [exists p, [], []; rewrite E, app_nil_r; cbn [tp_update_loop];
       rewrite lookup_ge_None_2 by (by rewrite E, app_nil_r);
       by rewrite ?app_nil_r | simpl in Hf]); [lia|].
  apply Forall_cons in Hw as [Hs Hw].
  destruct (tp_update_loop_step fuel e p before s rest He Hs E) as (g & ->).
  cbn [omap list_omap]. destruct (tick_kept e s) as [s'|].
  - destruct (IH (before ++ [s']) rest (with_sessions (before ++ s' :: rest) p))
      as (p' & fr & ev & Hl & Hp & Hfr & Hev & Hc); [done|simpl; by rewrite <- app_assoc|lia|].
    rewrite length_app, Nat.add_comm in Hl. cbn [Nat.add length] in Hl. rewrite Hl.
    cbn [mbind option_bind]. exists p', (tick_frames e s ++ fr), (tick_events e s ++ ev).
    rewrite <- app_assoc in Hp. rewrite !bind_cons.
    split_and!; [done|by rewrite Hp|by rewrite Hfr|by rewrite Hev|done].
  - destruct (IH before (rotate rest) (with_stats g (with_sessions (before ++ rotate rest) p)))
      as (p' & fr & ev & -> & Hp & Hfr & Hev & Hc);
      [by rewrite rotate_perm|done|rewrite rotate_perm; lia|].
    cbn [mbind option_bind]. exists p', (tick_frames e s ++ fr), (tick_events e s ++ ev).
    rewrite !bind_cons.
    split_and!; [done|by rewrite Hp, (rotate_perm rest)|by rewrite Hfr, (rotate_perm rest)
      |by rewrite Hev, (rotate_perm rest)|done].
Qed.

Lemma tick_kept_wf e s s' :
  0 <= e -> session_wf s -> tick_kept e s = Some s' ->
  session_wf s' /\ same_transfer s s' /\ tp_timed_out s' = false.
Proof.
  intros He Hs. unfold tick_kept, tick_session.
  set (s1 := with_timer_ms (sat_add 32 (s_timer_ms s) e) s).
  assert (session_wf s1) as Hs1 by (apply session_wf_timer; [apply in_u_sat_timer; [apply Hs|done]|done]).
  destruct (is_bam_tx s1 && _) eqn:Hdue.
  - apply andb_true_iff in Hdue as [Hbam _].
    destruct (bam_advance (with_timer_ms 0 s1)) as (_ & _ & _ & Hadv);
      [by apply session_wf_timer|done|].
    destruct (_ <=? _) eqn:Hc; simpl; intros; simplify_eq.
    split; [by apply Hadv|]. split; [done|].
    apply is_bam_tx_inv in Hbam as (_ & Hst & _).
    unfold tp_timed_out. cbn. change (s_state s) with (s_state s1). by rewrite Hst.
  - destruct (tp_timed_out s1) eqn:Ht; simpl; intros; by simplify_eq.
Qed.

Lemma tick_frames_wf e s :
  0 <= e -> session_wf s -> Forall FrameOps.wf (tick_frames e s).
Proof.
  intros He Hs. unfold tick_frames, tick_session.
  set (s1 := with_timer_ms (sat_add 32 (s_timer_ms s) e) s).
  assert (session_wf s1) as Hs1 by (apply session_wf_timer; [apply in_u_sat_timer; [apply Hs|done]|done]).
  destruct (is_bam_tx s1 && _) eqn:Hdue.
  - apply andb_true_iff in Hdue as [Hbam _].
    destruct (bam_advance s1 Hs1 Hbam) as ([] & ? & _ & _).
    pose proof (total_packets_le _ Hs1). destruct Hs1.
    assert (FrameOps.wf (dt_frame (s_source_address s1) (s_destination_address s1)
      (s_data s1) (s_last_sequence s1 + 1))) by (apply dt_frame_is_wf; done || lia).
    destruct (_ <=? _); by apply Forall_singleton.
  - destruct (tp_timed_out s1); [|constructor]. cbn [fst snd].
    destruct (is_broadcast_session s1); [constructor|]. apply Forall_singleton.
    apply make_session_abort_wf; apply Hs.
Qed.

Lemma omap_paths e l :
  0 <= e -> Forall session_wf l -> NoDup (session_path <$> l) ->
  NoDup (session_path <$> omap (tick_kept e) l).
Proof.
  intros He Hw Hn. eapply sublist_NoDup; [exact Hn|]. clear Hn.
  induction Hw as [|s l Hs Hl IH]; [constructor|]. cbn [omap list_omap].
  destruct (tick_kept e s) as [s'|] eqn:E; [|by apply sublist_cons].
  destruct (tick_kept_wf e s s' He Hs E) as (_ & Hst & _).
  rewrite !fmap_cons, (same_transfer_path _ _ Hst). by constructor.
Qed.

Lemma tp_update_spec_aux p e :
  tp_wf p -> 0 <= e ->
  exists p' frames evs,
    tp_update p e = Some (p', frames, evs) /\ tp_wf p' /\ Forall FrameOps.wf frames /\
    sessions p' ≡ₚ omap (tick_kept e) (sessions p) /\
    frames ≡ₚ sessions p ≫= tick_frames e /\ evs ≡ₚ sessions p ≫= tick_events e /\
    Forall (fun s => tp_timed_out s = false) (sessions p') /\ tp_config p' = tp_config p.
Proof.
  intros [Hs Hn Hr Ha Hm] He.
  destruct (tp_update_loop_spec e (length (sessions p)) [] (sessions p) p)
    as (p' & fr & ev & E & Hp & Hf & Hv & Hc); try done.
  assert (Forall (fun s => session_wf s /\ tp_timed_out s = false)
    (omap (tick_kept e) (sessions p))) as Ho.
  { apply Forall_forall. intros s' (s & Hin & Hk)%list_elem_of_omap.
    rewrite Forall_forall in Hs. destruct (tick_kept_wf e s s' He (Hs s Hin) Hk) as (?&?&?).
    done. }
  apply Forall_and in Ho as [Ho1 Ho2]. injection Hc as Ht1 Ht2 Ht3 Ht4 Ht5.
  simpl in Hp. exists p', fr, ev. split_and!; try done.
  - split; rewrite ?Ht2, ?Ht4, ?Ht5; try done; rewrite Hp; [done|by apply omap_paths].
  - rewrite Hf. apply Forall_bind. eapply Forall_impl; [exact Hs|].
    intros s. by apply tick_frames_wf.
  - by rewrite Hp.
  - unfold tp_config. congruence.
Qed.
