(* ===== verification/TpSafety.v ===== *)
(** Safety of every Transport Protocol operation: sending, each connection-management
    handler, the data handler, draining and the timer sweep preserve the invariant of
    [TpInv] and never panic; reachability from a fresh engine follows. *)
From S2P Require Export TpInv.

Ltac unfold_notes :=
  unfold note_dropped_frame, note_dropped_session, note_abort_sent, note_abort_received,
    note_timeout, note_resource_rejection.

(** Close an error branch of a send: the state is unchanged up to counters and the
    error code names the failed check. *)
Ltac err_case := unfold_notes;
  cbn [Error.code Error.invalid_data Error.invalid_address Error.invalid_state
       Error.with_message Error.buffer_overflow Error.new];
  repeat match goal with |- _ /\ _ => split end; auto with bus; done.

Section safety.
Context `{Allocator}.

(** ** Opening sessions *)

Lemma existsb_false {A} (f : A -> bool) l :
  existsb f l = false <-> Forall (fun x => f x = false) l.
Proof.
  induction l as [|x l IH]; simpl; [done|]. rewrite orb_false_iff, IH, Forall_cons. done.
Qed.

Lemma transmit_path_fresh p src dst port s :
  existsb (tp_transmit_path src dst port) (sessions p) = false ->
  s_direction s = Transmit -> s_source_address s = src -> s_destination_address s = dst ->
  s_can_port s = port -> session_path s ∉ session_path <$> sessions p.
Proof.
  intros Hf%existsb_false Hd <- <- <- (x & Hx & Hin)%list_elem_of_fmap.
  rewrite Forall_forall in Hf. specialize (Hf x Hin). unfold session_path in Hx.
  injection Hx as E1 E2 E3 E4 _. unfold tp_transmit_path in Hf.
  rewrite E2, E3, E4, !Z.eqb_refl, <- E1, Hd in Hf. done.
Qed.

Lemma receive_path_fresh p src dst port s :
  receive_path_is_active p src dst port = false ->
  s_direction s = Receive -> s_source_address s = src -> s_destination_address s = dst ->
  s_can_port s = port -> session_path s ∉ session_path <$> sessions p.
Proof.
  intros Hf%existsb_false Hd <- <- <- (x & Hx & Hin)%list_elem_of_fmap.
  rewrite Forall_forall in Hf. specialize (Hf x Hin). unfold session_path in Hx.
  injection Hx as E1 E2 E3 E4 _. unfold receive_path in Hf.
  rewrite E2, E3, E4, !Z.eqb_refl, <- E1, Hd in Hf. done.
Qed.

Lemma broadcast_path_fresh p src port s :
  receive_session_for p src BROADCAST_ADDRESS port (s_pgn s) = None ->
  s_direction s = Receive -> s_source_address s = src ->
  s_destination_address s = BROADCAST_ADDRESS -> s_can_port s = port ->
  session_path s ∉ session_path <$> sessions p.
Proof.
  intros Hf%position_None Hd <- Hb <- (x & Hx & Hin)%list_elem_of_fmap.
  rewrite Forall_forall in Hf. specialize (Hf x Hin). unfold session_path in Hx.
  injection Hx as E1 E2 E3 E4 E5. unfold receive_path in Hf. unfold is_broadcast_session in E5.
  rewrite E2, <- E3, E4, Hb, !Z.eqb_refl, <- E1, Hd in Hf.
  rewrite <- E1, <- E3, Hd, Hb in E5. cbn in E5, Hf. injection E5 as E5.
  by rewrite E5, Z.eqb_refl in Hf.
Qed.

(** The session found by [receive_session_for]. *)
Lemma receive_session_for_Some p src dst port pgn i :
  receive_session_for p src dst port pgn = Some i ->
  exists s, sessions p !! i = Some s /\ s_direction s = Receive /\
    s_source_address s = src /\ s_destination_address s = dst /\ s_can_port s = port /\
    s_pgn s = pgn.
Proof.
  intros (s & Hs & Hp & _)%position_Some. unfold receive_path in Hp. reflect_bools.
  by exists s.
Qed.

(** Removing the session found by [receive_session_for] frees its path. *)
Lemma replace_session_fresh p src dst port pgn i s' :
  tp_wf p -> receive_session_for p src dst port pgn = Some i ->
  s_direction s' = Receive -> s_source_address s' = src -> s_destination_address s' = dst ->
  s_can_port s' = port -> s_pgn s' = pgn ->
  exists s p', remove_session i p = Some (s, p') /\ tp_wf p' /\
    sessions p ≡ₚ s :: sessions p' /\ max_sessions p' = max_sessions p /\
    max_receive_bytes p' = max_receive_bytes p /\
    session_path s' ∉ session_path <$> sessions p'.
Proof.
  intros Hp Hi D1 D2 D3 D4 D5.
  destruct (receive_session_for_Some _ _ _ _ _ _ Hi) as (s & Hs & E1 & E2 & E3 & E4 & E5).
  destruct (tp_wf_remove p i s Hp Hs) as (p' & Hr & Hp' & Hperm & Hm & Hb).
  exists s, p'. split_and!; try done.
  pose proof (tw_paths p Hp) as Hn. rewrite Hperm in Hn. simpl in Hn.
  apply NoDup_cons in Hn as [Hn _].
  replace (session_path s') with (session_path s); [done|].
  unfold session_path, is_broadcast_session.
  by rewrite E1, E2, E3, E4, E5, D1, D2, D3, D4, D5.
Qed.

Lemma new_tx_session_wf p pgn data src dst port prio st :
  tp_wf p -> in_u 18 pgn -> in_u 8 src -> in_u 8 dst -> bytes data ->
  8 < Z.of_nat (length data) <= 1785 ->
  st = (if dst =? BROADCAST_ADDRESS then SessionState.SendingData
        else SessionState.WaitingForCTS) ->
  session_wf (new_tx_session p pgn data src dst port prio st).
Proof.
  intros Hp Hpgn Hs Hd Hb Hl ->.
  assert (wrap 32 (Z.of_nat (length data)) = Z.of_nat (length data)) as Hwr
    by (apply wrap_small; unfold in_u; simpl; lia).
  pose proof (div_ceil_7 (Z.of_nat (length data))).
  split; unfold CAN_DATA_LENGTH, TP_MAX_DATA_LENGTH, new_tx_session; cbn; rewrite ?Hwr;
    try done; [apply Hp|].
  split; unfold total_packets, is_broadcast_session, TP_BYTES_PER_FRAME; cbn;
    rewrite ?Hwr; try done; try lia.
  destruct (dst =? BROADCAST_ADDRESS); split; done || lia.
Qed.

Lemma tp_send_safe_aux p pgn data src dst port prio :
  tp_wf p -> in_u 32 pgn -> in_u 8 src -> in_u 8 dst -> bytes data ->
  in_u 32 (Z.of_nat (length data)) ->
  let '(p', r) := tp_send p pgn data src dst port prio in
  tp_wf p' /\ max_sessions p' = max_sessions p /\
  match r with
  | Ok frames =>
      exists s, sessions p' = sessions p ++ [s] /\ session_wf s /\
        s_data s = data /\ s_pgn s = pgn /\ s_source_address s = src /\
        s_destination_address s = dst /\
        frames = [if dst =? BROADCAST_ADDRESS then make_bam s else make_rts s] /\
        Forall FrameOps.wf frames /\ (length (sessions p') <= max_sessions p)%nat /\
        pgn <= 0x3FFFF /\ valid_tp_source src = true /\ valid_tp_destination dst = true /\
        8 < Z.of_nat (length data) <= 1785
  | Err e =>
      sessions p' = sessions p /\
      match Error.code e with
      | ErrorCode.InvalidData => 0x3FFFF < pgn
      | ErrorCode.InvalidAddress =>
          valid_tp_source src = false \/ valid_tp_destination dst = false
      | ErrorCode.BufferOverflow => 1785 < Z.of_nat (length data)
      | ErrorCode.InvalidState => Z.of_nat (length data) <= 8
      | ErrorCode.SessionExists =>
          Exists (fun s => tp_transmit_path src dst port s = true) (sessions p)
      | ErrorCode.NoResources => (max_sessions p <= length (sessions p))%nat
      | _ => False
      end
  end.
Proof.
  intros Hp Hpgn Hs Hd Hb Hl. unfold tp_send, pgn_is_valid, TP_MAX_DATA_LENGTH, CAN_DATA_LENGTH.
  rewrite wrap_small by done.
  destruct (Z.leb_spec pgn 0x3FFFF) as [Hv|Hv]; cbn [negb]; [|err_case].
  destruct (valid_tp_source src) eqn:Hvs; cbn [negb]; [|err_case].
  destruct (valid_tp_destination dst) eqn:Hvd; cbn [negb]; [|err_case].
  destruct (Z.ltb_spec 1785 (Z.of_nat (length data))); [err_case|].
  destruct (Z.leb_spec (Z.of_nat (length data)) 8); [err_case|].
  destruct (existsb _ _) eqn:Hex.
  { split_and!; try done. apply List.existsb_exists in Hex as (x & Hin & Hx). cbn.
    apply Exists_exists. exists x. by rewrite <- list_elem_of_In in Hin. }
  destruct (Nat.leb_spec (max_sessions p) (length (sessions p))); [err_case|].
  assert (in_u 18 pgn) as H18 by (destruct Hpgn; split; simpl; lia).
  pose proof (new_tx_session_wf p pgn data src dst port prio _ Hp H18 Hs Hd Hb
    ltac:(lia) eq_refl) as Hw.
  assert (in_u 8 (advertised_packets_per_cts p)) as Hadv.
  { destruct Hp as [_ _ _ Ha _]. unfold TP_MAX_PACKETS_PER_CTS in Ha.
    unfold in_u. simpl. lia. }
  destruct (dst =? BROADCAST_ADDRESS) eqn:Hdst;
    (split; [by apply tp_wf_push; [| |eapply transmit_path_fresh]|split; [done|]]);
    (eexists; split; [done|]; split; [done|]; do 4 (split; [done|]);
     split; [done|]; split; [|split_and!; try done; [|lia..]]).
  all: try (cbn; rewrite length_app; simpl; lia).
  all: apply Forall_singleton.
  - by apply make_bam_wf.
  - by apply make_rts_wf.
Qed.

(** ** Connection management *)

(** Push a session after dropping a replaced one: the bound on the table. *)
Lemma tp_safe_push p p1 s frames evs :
  tp_wf p1 -> session_wf s -> session_path s ∉ session_path <$> sessions p1 ->
  (length (sessions p1) < max_sessions p1)%nat -> max_sessions p1 = max_sessions p ->
  Forall FrameOps.wf frames -> tp_safe p (Some (push_session s p1, frames, evs)).
Proof.
  intros. apply tp_safe_intro; try done; [by apply tp_wf_push|].
  cbn. rewrite length_app. simpl. lia.
Qed.

Lemma tp_safe_smaller p p1 f frames evs :
  tp_wf p1 -> (length (sessions p1) <= length (sessions p))%nat ->
  max_sessions p1 = max_sessions p -> Forall FrameOps.wf frames ->
  tp_safe p (Some (with_stats f p1, frames, evs)).
Proof. intros. apply tp_safe_intro; auto with bus. simpl. lia. Qed.

Lemma payload_shape total n :
  valid_tp_payload_shape total n = true ->
  8 < total <= 1785 /\ n = div_ceil total 7 /\ 2 <= n <= 255.
Proof.
  unfold valid_tp_payload_shape, CAN_DATA_LENGTH, TP_MAX_DATA_LENGTH, TP_BYTES_PER_FRAME.
  intros. reflect_bools. pose proof (div_ceil_7 total). lia.
Qed.

Lemma rx_buffer_cases total cap :
  match rx_buffer total cap with
  | Ok data => data = replicate (Z.to_nat total) 0xFF /\ total <= cap
  | Err r => r = AbortReason.ResourcesUnavailable
  end.
Proof.
  unfold rx_buffer. destruct (Z.ltb_spec cap total); [done|].
  by destruct (try_reserve_exact total).
Qed.

Lemma new_rx_session_wf pgn total src dst port prio maxp w n :
  valid_tp_payload_shape total n = true -> in_u 18 pgn -> in_u 8 src -> in_u 8 dst ->
  1 <= maxp <= 16 ->
  ((dst =? BROADCAST_ADDRESS) = false -> w = Z.min n maxp) ->
  session_wf (new_rx_session
    (if dst =? BROADCAST_ADDRESS then SessionState.ReceivingData
     else SessionState.WaitingForData)
    pgn (replicate (Z.to_nat total) 0xFF) total src dst port prio maxp w).
Proof.
  intros (Ht & -> & Hn)%payload_shape Hpgn Hs Hd Hm Hw.
  split; unfold CAN_DATA_LENGTH, TP_MAX_DATA_LENGTH; cbn; try done.
  - rewrite length_replicate. lia.
  - apply Forall_replicate. by unfold in_u.
  - split; unfold is_broadcast_session; cbn; try done; try lia.
    intros Hb. rewrite (Hw Hb). unfold total_packets, TP_BYTES_PER_FRAME. cbn. lia.
Qed.

(** What is known of a connection-management frame that passed the guards of
    [handle_cm]. *)
Record cm_frame (f : Frame) : Prop := {
  cf_wf : FrameOps.wf f;
  cf_pgn : in_u 18 (pgn_from_cm_bytes (f_data f));
  cf_src : in_u 8 (FrameOps.source f);
  cf_dst : in_u 8 (FrameOps.destination f)
}.

Lemma cm_frame_intro f :
  FrameOps.wf f -> pgn_is_valid (pgn_from_cm_bytes (f_data f)) = true -> cm_frame f.
Proof. intros. split; auto with bus. by apply cm_pgn_range. Qed.

Lemma rts_open_safe p p1 f port :
  cm_frame f -> valid_tp_payload_shape (cm_size f) (FrameOps.byte f 3) = true ->
  FrameOps.byte f 4 <> 0 -> (FrameOps.destination f =? BROADCAST_ADDRESS) = false ->
  tp_wf p1 -> (length (sessions p1) <= length (sessions p))%nat ->
  max_sessions p1 = max_sessions p ->
  (forall s, s_direction s = Receive -> s_source_address s = FrameOps.source f ->
     s_destination_address s = FrameOps.destination f -> s_can_port s = port ->
     s_pgn s = pgn_from_cm_bytes (f_data f) ->
     session_path s ∉ session_path <$> sessions p1) ->
  tp_safe p (rts_open p1 f port).
Proof.
  intros [Hf Hpgn Hs Hd] Hsh Hm0 Hdst Hp1 Hlen Hmax Hfresh. unfold rts_open. unfold_notes.
  pose proof (byte_range f 4 Hf) as Hb4. unfold in_u in Hb4.
  pose proof (payload_shape _ _ Hsh) as (Hsz & Hn & Hn2).
  change (wrap 8 TP_MAX_PACKETS_PER_CTS) with 16.
  set (maxp := Z.min (FrameOps.byte f 4) 16).
  assert (1 <= maxp <= 16) as Hmaxp by (unfold maxp; lia).
  pose proof (rx_buffer_cases (cm_size f) (max_receive_bytes p1)) as Hrx.
  destruct (Nat.leb_spec (max_sessions p1) (length (sessions p1)));
    [|destruct (rx_buffer _ _) as [data|r]].
  - apply tp_safe_smaller; auto with bus.
  - destruct Hrx as [-> _].
    pose proof (new_rx_session_wf (pgn_from_cm_bytes (f_data f)) (cm_size f)
      (FrameOps.source f) (FrameOps.destination f) port (FrameOps.priority f) maxp
      (Z.min (FrameOps.byte f 3) maxp) (FrameOps.byte f 3) Hsh Hpgn Hs Hd Hmaxp
      (fun _ => eq_refl)) as Hnew.
    rewrite Hdst in Hnew. apply tp_safe_push; auto. apply Forall_singleton.
    apply make_cts_wf; try done. unfold in_u. simpl. lia.
  - rewrite Hrx, bool_decide_eq_true_2 by done. apply tp_safe_smaller; auto with bus.
Qed.

Lemma handle_rts_safe p f port :
  tp_wf p -> cm_frame f -> (FrameOps.destination f =? BROADCAST_ADDRESS) = false ->
  tp_safe p (handle_rts p f port).
Proof.
  intros Hp Hf Hdst. pose proof Hf as [Hw Hpgn Hs Hd]. unfold handle_rts. unfold_notes.
  destruct (valid_tp_payload_shape (cm_size f) (FrameOps.byte f 3)) eqn:Hsh;
    cbn [negb orb]; [|by apply tp_safe_smaller; auto with bus].
  destruct (Z.eqb_spec (FrameOps.byte f 4) 0) as [|Hm0];
    [by apply tp_safe_smaller; auto with bus|].
  destruct (receive_session_for p _ _ port _) as [i|] eqn:Hi.
  - destruct (receive_session_for_Some _ _ _ _ _ _ Hi) as (s & Hls & _).
    destruct (tp_wf_remove p i s Hp Hls) as (p1 & E & Hp1 & Hperm & Hmx & _).
    rewrite E. cbn [mbind option_bind]. apply rts_open_safe; try done.
    + rewrite (Permutation_length Hperm). simpl. lia.
    + intros s' ? ? ? ? ?.
      destruct (replace_session_fresh p _ _ port _ i s' Hp Hi)
        as (s2 & p2 & E2 & _ & _ & _ & _ & Hn); try done.
      rewrite E in E2. by simplify_eq.
  - destruct (receive_path_is_active p _ _ port) eqn:Ha;
      [by apply tp_safe_smaller; auto with bus|].
    apply rts_open_safe; try done. intros s' ? ? ? ? ?. by eapply receive_path_fresh.
Qed.

Lemma bam_open_safe p p1 f port :
  cm_frame f -> tp_wf p1 -> (length (sessions p1) <= length (sessions p))%nat ->
  max_sessions p1 = max_sessions p ->
  (forall s, s_direction s = Receive -> s_source_address s = FrameOps.source f ->
     s_destination_address s = BROADCAST_ADDRESS -> s_can_port s = port ->
     s_pgn s = pgn_from_cm_bytes (f_data f) ->
     session_path s ∉ session_path <$> sessions p1) ->
  tp_safe p (bam_open p1 f port).
Proof.
  intros [Hf Hpgn Hs Hd] Hp1 Hlen Hmax Hfresh. unfold bam_open. unfold_notes.
  pose proof (rx_buffer_cases (cm_size f) (max_receive_bytes p1)) as Hrx.
  destruct (FrameOps.is_broadcast f); cbn [negb orb];
    [|destruct (_ <? _); apply tp_safe_smaller; auto with bus].
  destruct (valid_tp_payload_shape (cm_size f) (FrameOps.byte f 3)) eqn:Hsh; cbn [negb orb];
    [|destruct (_ <? _); apply tp_safe_smaller; auto with bus].
  destruct (max_receive_bytes p1 <? cm_size f); [apply tp_safe_smaller; auto with bus|].
  destruct (Nat.leb_spec (max_sessions p1) (length (sessions p1)));
    [apply tp_safe_smaller; auto with bus|].
  destruct (rx_buffer _ _) as [data|r].
  - destruct Hrx as [-> _].
    pose proof (new_rx_session_wf (pgn_from_cm_bytes (f_data f)) (cm_size f)
      (FrameOps.source f) BROADCAST_ADDRESS port (FrameOps.priority f)
      TP_MAX_PACKETS_PER_CTS 0 (FrameOps.byte f 3) Hsh Hpgn Hs
      ltac:(by unfold in_u) ltac:(by unfold TP_MAX_PACKETS_PER_CTS)
      ltac:(done)) as Hnew.
    apply tp_safe_push; auto.
  - rewrite Hrx, bool_decide_eq_true_2 by done. apply tp_safe_smaller; auto with bus.
Qed.

Lemma handle_bam_safe p f port :
  tp_wf p -> cm_frame f -> tp_safe p (handle_bam p f port).
Proof.
  intros Hp Hf. unfold handle_bam.
  destruct (receive_session_for p _ _ port _) as [i|] eqn:Hi.
  - destruct (receive_session_for_Some _ _ _ _ _ _ Hi) as (s & Hls & _).
    destruct (tp_wf_remove p i s Hp Hls) as (p1 & E & Hp1 & Hperm & Hmx & _).
    rewrite E. cbn [mbind option_bind]. apply bam_open_safe; try done.
    + rewrite (Permutation_length Hperm). simpl. lia.
    + intros s' ? ? ? ? ?.
      destruct (replace_session_fresh p _ _ port _ i s' Hp Hi)
        as (s2 & p2 & E2 & _ & _ & _ & _ & Hn); try done.
      rewrite E in E2. by simplify_eq.
  - apply bam_open_safe; try done. intros s' ? ? ? ? Hpg.
    rewrite <- Hpg in Hi. by eapply broadcast_path_fresh.
Qed.

(** ** CTS *)

Lemma clamp_window_eq s np ns :
  1 <= ns <= total_packets s -> total_packets s <= 255 -> 1 <= np ->
  s_max_packets_per_cts s = 16 ->
  clamp_window s np ns = Some (Z.min (Z.min np (total_packets s - (ns - 1))) 16).
Proof.
  intros Hns Ht Hnp Hm. unfold clamp_window.
  rewrite checked_sub_Some by lia. cbn [mbind option_bind].
  rewrite checked_sub_Some by lia. cbn [mbind option_bind].
  rewrite Hm, wrap_small; [done|]. unfold in_u. simpl. lia.
Qed.

(** The session a CTS for packet [ns] puts back to sending. *)
Definition cts_granted (rc np ns : Z) (s : TransportSession) : TransportSession :=
  with_timer_ms 0 (advance (ns - 1) (with_packets_to_send
    (Z.min (Z.min np (total_packets s - (ns - 1))) 16)
    (with_state SessionState.SendingData (with_retransmit_count rc s)))).

Lemma cts_granted_wf s rc np ns :
  session_wf s -> s_direction s = Transmit -> is_broadcast_session s = false ->
  in_u 8 rc -> 1 <= np -> 1 <= ns <= total_packets s -> session_wf (cts_granted rc np ns s).
Proof.
  intros Hw Hd Hb Hrc Hnp Hns.
  pose proof (sw_dir s Hw) as Htx. rewrite Hd in Htx. destruct Htx as [_ _ Hm _ _].
  apply (session_wf_same s); try done; [apply Hw|]. rewrite Hd.
  split; try done; change (total_packets (cts_granted rc np ns s)) with (total_packets s);
    cbn; [lia|].
  change (total_packets (cts_granted rc np ns s)) with (total_packets s).
  unfold TP_MAX_PACKETS_PER_CTS. lia.
Qed.

Lemma cts_session_cases s maxr np ns :
  session_wf s -> s_direction s = Transmit -> in_u 8 np -> in_u 8 ns ->
  exists s' r, cts_session maxr np ns s = Some (s', r) /\ same_transfer s s' /\
    match r with
    | Some _ => s_state s' = SessionState.Aborted
    | None => s' = with_timer_ms 0 s \/
        exists rc, in_u 8 rc /\ 1 <= np /\ 1 <= ns <= total_packets s /\
          s' = cts_granted rc np ns s /\ s_state s <> SessionState.SendingData
    end.
Proof.
  intros Hw Hd Hnp Hns. unfold in_u in Hnp, Hns. change (2 ^ 8) with 256 in *.
  pose proof (total_packets_le s Hw) as Htp.
  pose proof (sw_dir s Hw) as Htx. rewrite Hd in Htx. destruct Htx as [_ Hseq Hm Hr _].
  unfold cts_session. case_bool_decide as Hst.
  - unfold is_duplicate_current_window.
    destruct (negb _ && _ && _ && _) eqn:Hg.
    + reflect_bools. rewrite clamp_window_eq by (done || lia). cbn [mbind option_bind].
      case_bool; eexists _, _; split; try done; split; try done; by left.
    + cbn [mbind option_bind]. eexists _, _. by split.
  - destruct (Z.eqb_spec np 0); [eexists _, _; split; [done|]; split; [done|by left]|].
    destruct (Z.eqb_spec ns 0); [eexists _, _; split; [done|]; by split|]. cbn [orb].
    destruct (Z.ltb_spec (total_packets s) ns); [eexists _, _; split; [done|]; by split|].
    set (rc := if ns - 1 <? _ then _ else _).
    assert (in_u 8 rc) as Hrc.
    { unfold rc. destruct (_ <? _); [|by unfold in_u]. unfold in_u in Hr.
      apply in_u_sat_add; lia. }
    destruct (_ && _); [eexists _, _; split; [done|]; by split|].
    rewrite clamp_window_eq by (done || (change (total_packets _) with (total_packets s); lia)).
    cbn [mbind option_bind]. rewrite checked_sub_Some by lia. cbn [mbind option_bind].
    rewrite checked_mul_Some by (change (2 ^ 32) with 4294967296; lia).
    cbn [mbind option_bind].
    replace ((ns - 1) * 7) with (Z.min (7 * (ns - 1)) (s_total_bytes s)) by lia.
    eexists _, _. split; [done|]. split; [done|]. right. exists rc.
    do 2 (split; [done || lia|]). split; [lia|]. by split.
Qed.

Lemma cts_matches_inv src dst pgn port s :
  cts_matches src dst pgn port s = true ->
  s_direction s = Transmit /\ s_source_address s = dst /\ s_destination_address s = src /\
  s_pgn s = pgn /\ s_can_port s = port.
Proof. unfold cts_matches. intros. by reflect_bools. Qed.

Lemma handle_cts_safe p f port :
  tp_wf p -> cm_frame f -> (FrameOps.source f =? BROADCAST_ADDRESS) = false ->
  tp_safe p (handle_cts p f port).
Proof.
  intros Hp [Hf Hpgn Hs Hd] Hsrc. unfold handle_cts. unfold_notes.
  destruct (position _ _) as [i|] eqn:Hi; [|by apply tp_safe_same].
  apply position_Some in Hi as (s & Hls & Hm & _). rewrite Hls. cbn [mbind option_bind].
  apply cts_matches_inv in Hm as (Hdir & Hss & Hsd & _ & _).
  pose proof (tp_wf_lookup p i s Hp Hls) as Hw.
  destruct (cts_session_cases s (max_retransmits p) (FrameOps.byte f 1) (FrameOps.byte f 2))
    as (s' & r & -> & Hst & Hr); auto with bus.
  cbn [mbind option_bind]. destruct r as [r|].
  - teardown Hp Hls. apply Forall_singleton. destruct Hst as [_ _ _ _ E1 E2 _ _].
    apply make_session_abort_wf; rewrite ?E1, ?E2; apply Hw.
  - eapply tp_safe_update; try done; auto with bus. destruct Hr as [->|Hr].
    + apply session_wf_timer; [by unfold in_u|done].
    + destruct Hr as (rc & ? & ? & ? & -> & _). apply cts_granted_wf; try done.
      unfold is_broadcast_session. by rewrite Hsd.
Qed.

Lemma handle_eoma_safe p f port : tp_wf p -> tp_safe p (handle_eoma p f port).
Proof.
  intros Hp. unfold handle_eoma. unfold_notes.
  destruct (position _ _) as [i|] eqn:Hi; [|by apply tp_safe_same].
  apply position_Some in Hi as (s & Hls & Hm & _). rewrite Hls. cbn [mbind option_bind].
  destruct (_ || _ || _); [by apply tp_safe_same|].
  destruct (tp_wf_remove p i s Hp Hls) as (p1 & -> & Hp1 & Hperm & Hmx & _).
  cbn [mbind option_bind]. apply tp_safe_intro; try done.
  rewrite (Permutation_length Hperm). simpl. lia.
Qed.

Lemma handle_abort_safe p f port : tp_wf p -> tp_safe p (handle_abort p f port).
Proof.
  intros Hp. unfold handle_abort. unfold_notes.
  destruct (position _ _) as [i|] eqn:Hi; [|by apply tp_safe_same].
  apply position_Some in Hi as (s & Hls & Hm & _). rewrite Hls. cbn [mbind option_bind].
  teardown Hp Hls. constructor.
Qed.

(** ** DT *)

Lemma dt_matches_inv src dst port s :
  dt_matches src dst port s = true ->
  s_direction s = Receive /\ s_source_address s = src /\ s_destination_address s = dst /\
  s_can_port s = port.
Proof. unfold dt_matches. intros. by reflect_bools. Qed.

Lemma dt_abort_safe p i s r :
  tp_wf p -> sessions p !! i = Some s -> tp_safe p (dt_abort p i s r).
Proof.
  intros Hp Hi. pose proof (tp_wf_lookup p i s Hp Hi) as Hw. unfold dt_abort. unfold_notes.
  destruct (is_broadcast_session s); rewrite ?update_session_stats; teardown Hp Hi;
    [constructor|].
  apply Forall_singleton. apply make_session_abort_wf; apply Hw.
Qed.

(** The session after ingesting packet [seq]. *)
Definition ingested (f : Frame) (s : TransportSession) : TransportSession :=
  with_timer_ms 0 (advance (FrameOps.byte f 0)
    (with_data (scatter7 (7 * (FrameOps.byte f 0 - 1)) (s_data s) (f_data f)) s)).

(** The result of [dt_ingest] on the next packet in sequence. *)
Definition next_window (seq : Z) (s : TransportSession) : Z :=
  Z.min (total_packets s - seq) (s_max_packets_per_cts s).

Lemma dt_ingest_eq p f i s :
  session_wf s -> rx_wf s -> FrameOps.wf f -> FrameOps.byte f 0 = s_last_sequence s + 1 ->
  let seq := FrameOps.byte f 0 in
  let s' := ingested f s in
  dt_ingest p f i s =
    if seq =? total_packets s then
      let s' := with_state SessionState.Complete s' in
      '(done, p) ← remove_session i (update_session i s' p);
      Some (p,
        (if is_broadcast_session s then []
         else [make_eoma (s_destination_address s) (s_source_address s) (s_total_bytes s)
                 (total_packets s) (s_pgn s)]), [OnComplete done])
    else if is_broadcast_session s then Some (update_session i s' p, [], [])
    else if s_cts_window_start s + s_cts_window_size s =? seq + 1 then
      Some (update_session i (with_cts_window (seq + 1) (next_window seq s) s') p,
            [make_cts (s_destination_address s) (s_source_address s) (next_window seq s)
               (seq + 1) (s_pgn s)], [])
    else Some (update_session i s' p, [], []).
Proof.
  intros Hw Hrx Hf Hseq seq s'. pose proof (total_packets_le s Hw) as Htp.
  destruct Hw as [Ht Hl Hby _ _ _ _ _ _]. destruct Hrx as [_ Hb Hinc Hls Hm Hwin].
  destruct Hf as (_ & Hf8 & _).
  unfold dt_ingest. fold seq. rewrite (checked_sub_Some seq 1) by lia.
  cbn [mbind option_bind]. rewrite checked_mul_Some by (change (2 ^ 32) with 4294967296; lia).
  cbn [mbind option_bind]. rewrite <- Hl, copy_in_scatter, Hl
    by (try done; change (2 ^ 32) with 4294967296; lia).
  cbn [mbind option_bind]. rewrite (checked_add_Some 32 ((seq - 1) * 7) TP_BYTES_PER_FRAME)
    by (unfold TP_BYTES_PER_FRAME; change (2 ^ 32) with 4294967296; lia).
  cbn [mbind option_bind]. replace ((seq - 1) * 7 + TP_BYTES_PER_FRAME) with (7 * seq)
    by (unfold TP_BYTES_PER_FRAME; lia).
  replace ((seq - 1) * 7) with (7 * (seq - 1)) by lia.
  change (with_timer_ms 0 _) with s'. change (is_broadcast_session s') with
    (is_broadcast_session s). change (s_total_bytes s') with (s_total_bytes s).
  change (s_bytes_transferred s') with (Z.min (7 * seq) (s_total_bytes s)).
  destruct (Z.eqb_spec seq (total_packets s)) as [Hlast|Hlast].
  - rewrite (proj2 (Z.leb_le _ _)) by lia.
    change (total_packets (with_state _ s')) with (total_packets s).
    rewrite wrap_small by (unfold in_u; simpl; lia). done.
  - rewrite (proj2 (Z.leb_gt _ _)) by lia.
    destruct (is_broadcast_session s); [done|]. destruct Hwin as (H1 & H2 & H3); [done|].
    change (s_cts_window_start s') with (s_cts_window_start s).
    change (s_cts_window_size s') with (s_cts_window_size s).
    change (total_packets s') with (total_packets s).
    rewrite (checked_sub_Some (s_cts_window_start s)) by lia. cbn [mbind option_bind].
    rewrite (checked_sub_Some seq) by lia. cbn [mbind option_bind].
    destruct (Z.eqb_spec (s_cts_window_start s + s_cts_window_size s) (seq + 1));
      [rewrite (proj2 (Z.leb_le _ _)) by lia|by rewrite (proj2 (Z.leb_gt _ _)) by lia].
    rewrite checked_sub_Some by lia. cbn [mbind option_bind].
    rewrite wrap_small by (unfold in_u; simpl; lia).
    rewrite checked_add_Some by (simpl; lia). done.
Qed.

Lemma ingested_wf f s start size :
  session_wf s -> s_direction s = Receive -> FrameOps.wf f ->
  FrameOps.byte f 0 = s_last_sequence s + 1 -> FrameOps.byte f 0 <> total_packets s ->
  (is_broadcast_session s = false ->
   1 <= start <= FrameOps.byte f 0 + 1 /\
   FrameOps.byte f 0 + 2 <= start + size <= total_packets s + 1 /\
   size <= s_max_packets_per_cts s) ->
  session_wf (with_cts_window start size (ingested f s)).
Proof.
  intros Hw Hd (_ & Hf8 & Hfb & _) Hseq Hne Hwin. pose proof (total_packets_le s Hw) as Htp.
  pose proof (sw_dir s Hw) as Hrx. rewrite Hd in Hrx. destruct Hrx as [Hst Hb Hinc Hls Hm _].
  pose proof (sw_len s Hw) as Hl.
  apply (session_wf_same s); try done.
  - split; try done. cbn. apply length_scatter7; [lia|done].
  - cbn. apply bytes_scatter7; [apply Hw|done].
  - rewrite Hd. split; try done; cbn; try lia.
Qed.

Lemma with_cts_window_self s :
  with_cts_window (s_cts_window_start s) (s_cts_window_size s) s = s.
Proof. by destruct s. Qed.

Lemma dt_ingest_safe p f i s :
  tp_wf p -> sessions p !! i = Some s -> s_direction s = Receive -> FrameOps.wf f ->
  FrameOps.byte f 0 = s_last_sequence s + 1 -> tp_safe p (dt_ingest p f i s).
Proof.
  intros Hp Hi Hd Hf Hseq. pose proof (tp_wf_lookup p i s Hp Hi) as Hw.
  pose proof (total_packets_le s Hw) as Htp.
  pose proof (sw_dir s Hw) as Hrx. rewrite Hd in Hrx.
  pose proof Hrx as [_ _ Hinc Hls Hm Hwin]. pose proof (sw_len s Hw) as Hl.
  assert (same_transfer s (ingested f s)) as Hst.
  { split; try done. cbn. apply length_scatter7; [lia|apply Hf]. }
  rewrite dt_ingest_eq by done. cbn zeta.
  destruct (Z.eqb_spec (FrameOps.byte f 0) (total_packets s)) as [|Hne].
  { teardown Hp Hi. destruct (is_broadcast_session s); [constructor|].
    apply Forall_singleton, make_eoma_wf; try apply Hw. unfold in_u. simpl. lia. }
  pose proof (with_cts_window_self (ingested f s)) as Hself.
  change (s_cts_window_start (ingested f s)) with (s_cts_window_start s) in Hself.
  change (s_cts_window_size (ingested f s)) with (s_cts_window_size s) in Hself.
  destruct (is_broadcast_session s) eqn:Hb.
  { apply (tp_safe_update p i s); auto with bus. rewrite <- Hself.
    apply ingested_wf; try done. by rewrite Hb. }
  destruct Hwin as (H1 & H2 & H3); [done|].
  destruct (Z.eqb_spec (s_cts_window_start s + s_cts_window_size s) (FrameOps.byte f 0 + 1)).
  - apply (tp_safe_update p i s); try done.
    + apply ingested_wf; try done. intros _. unfold next_window. lia.
    + apply Forall_singleton, make_cts_wf; try apply Hw; unfold in_u, next_window; simpl; lia.
  - apply (tp_safe_update p i s); auto with bus. rewrite <- Hself.
    apply ingested_wf; try done. intros _. lia.
Qed.

Lemma handle_dt_safe p f port :
  tp_wf p -> FrameOps.wf f -> tp_safe p (handle_dt p f port).
Proof.
  intros Hp Hf. unfold handle_dt. unfold_notes.
  destruct (position _ _) as [i|] eqn:Hi; [|by apply tp_safe_same].
  apply position_Some in Hi as (s & Hls & Hm & _). rewrite Hls. cbn [mbind option_bind].
  apply dt_matches_inv in Hm as (Hd & _).
  pose proof (tp_wf_lookup p i s Hp Hls) as Hw. pose proof (total_packets_le s Hw).
  pose proof (sw_dir s Hw) as Hrx. rewrite Hd in Hrx. destruct Hrx as [_ _ Hinc Hs0 _ _].
  case_bool; [by apply dt_abort_safe|].
  rewrite checked_add_Some by (simpl; lia). cbn [mbind option_bind].
  destruct (Z.eqb_spec (FrameOps.byte f 0) (s_last_sequence s + 1)); cbn [negb];
    [by apply dt_ingest_safe|].
  destruct (_ && _) eqn:Hdup; [by apply dt_abort_safe|].
  destruct (Z.ltb_spec (s_last_sequence s + 1) (FrameOps.byte f 0)); [by apply dt_abort_safe|].
  exfalso. revert Hdup. destruct (Z.leb_spec (FrameOps.byte f 0) (s_last_sequence s)); [|lia].
  done.
Qed.

(** ** Dispatch *)

Lemma handle_cm_safe p f port :
  tp_wf p -> FrameOps.wf f -> (FrameOps.source f =? BROADCAST_ADDRESS) = false ->
  tp_safe p (handle_cm p f port).
Proof.
  intros Hp Hf Hsrc. unfold handle_cm. unfold_notes.
  destruct (pgn_is_valid _) eqn:Hpgn; cbn [negb]; [|by apply tp_safe_same].
  pose proof (cm_frame_intro f Hf Hpgn) as Hcf.
  destruct (Z.eqb_spec (FrameOps.byte f 0) tp_cm.BAM) as [->|Hne]; cbn [negb andb];
    [by apply handle_bam_safe|].
  destruct (FrameOps.destination f =? BROADCAST_ADDRESS) eqn:Hdst; [by apply tp_safe_same|].
  repeat match goal with |- context [if ?b then _ else _] => destruct b end;
    auto using tp_safe_same, handle_rts_safe, handle_cts_safe, handle_eoma_safe,
      handle_bam_safe, handle_abort_safe.
Qed.

Lemma tp_process_frame_safe_aux p f port :
  tp_wf p -> FrameOps.wf f -> tp_safe p (tp_process_frame p f port).
Proof.
  intros Hp Hf. unfold tp_process_frame. unfold_notes.
  destruct (_ && (f_length f <? _)); [by apply tp_safe_same|].
  destruct (FrameOps.pgn f =? PGN_TP_CM) eqn:Hcm; cbn [orb andb].
  - destruct (valid_tp_source _) eqn:Hs; cbn [negb orb]; [|by apply tp_safe_same].
    destruct (valid_tp_destination _); cbn [negb]; [|by apply tp_safe_same].
    apply handle_cm_safe; try done. unfold valid_tp_source in Hs. by reflect_bools; apply Z.eqb_neq.
  - destruct (FrameOps.pgn f =? PGN_TP_DT); cbn [andb].
    + destruct (_ || _); [by apply tp_safe_same|]. by apply handle_dt_safe.
    + apply tp_safe_intro; try done. lia.
Qed.

(** ** The engine as a transition system *)

(** One call of a public method, with what it emits. *)
Inductive tp_op : Type :=
| OpSend (pgn : Pgn) (data : list Z) (src dst : Address) (port : Z) (prio : Priority.t)
| OpFrame (f : Frame) (port : Z)
| OpUpdate (elapsed_ms : Z)
| OpDrain
| OpAbortFor (port : Z) (address : Address)
| OpTimers (elapsed_ms : Z)
| OpTrack (src dst : Address) (pgn : Pgn) (state : TpSessionState.t) (port : Z)
| OpPause (src dst : Address) (pgn : Pgn) (port : Z)
| OpResetTimer (src dst : Address) (pgn : Pgn) (port : Z)
| OpSetState (src dst : Address) (pgn : Pgn) (state : TpSessionState.t) (port : Z)
| OpMaxSessions (n : nat) | OpMaxReceive (n : Z) | OpMaxRetransmits (n : Z)
| OpAdvertise (n : Z).

Definition tp_apply (p : TransportProtocol) (op : tp_op) : tp_result :=
  match op with
  | OpSend pgn data src dst port prio =>
      match tp_send p pgn data src dst port prio with
      | (p, Ok frames) => Some (p, frames, [])
      | (p, Err _) => Some (p, [], [])
      end
  | OpFrame f port => tp_process_frame p f port
  | OpUpdate e => tp_update p e
  | OpDrain => '(p, frames) ← get_pending_data_frames p; Some (p, frames, [])
  | OpAbortFor port a => let '(p, frames) := abort_sessions_for_address p port a in
                         Some (p, frames, [])
  | OpTimers e => Some (update_sessions p e)
  | OpTrack src dst pgn st port => Some (track_session p src dst pgn st port, [], [])
  | OpPause src dst pgn port => Some (set_receiver_paused p src dst pgn port, [], [])
  | OpResetTimer src dst pgn port => Some (reset_session_timer p src dst pgn port, [], [])
  | OpSetState src dst pgn st port =>
      Some (set_session_state p src dst pgn st port, [], [])
  | OpMaxSessions n => Some (set_max_sessions n p, [], [])
  | OpMaxReceive n => Some (set_max_receive_bytes n p, [], [])
  | OpMaxRetransmits n => Some (set_max_retransmits n p, [], [])
  | OpAdvertise n => Some (set_advertised_packets_per_cts n p, [], [])
  end.

(** The arguments Rust's types allow. *)
Definition op_typed (op : tp_op) : Prop :=
  match op with
  | OpSend pgn data src dst port _ =>
      in_u 32 pgn /\ in_u 8 src /\ in_u 8 dst /\ bytes data /\
      in_u 32 (Z.of_nat (length data))
  | OpFrame f _ => FrameOps.wf f
  | OpUpdate e | OpTimers e => in_u 32 e
  | OpMaxReceive n => in_u 32 n
  | OpMaxRetransmits n | OpAdvertise n => in_u 8 n
  | _ => True
  end.

Inductive tp_reachable : TransportProtocol -> Prop :=
| tp_reach_new : tp_reachable tp_new
| tp_reach_step p op p' frames evs :
    tp_reachable p -> op_typed op -> tp_apply p op = Some (p', frames, evs) ->
    tp_reachable p'.

Lemma tp_wf_new : tp_wf tp_new.
Proof. split; cbn; try constructor; unfold in_u; simpl; done || lia. Qed.

Lemma get_pending_safe p :
  tp_wf p ->
  exists p' frames, get_pending_data_frames p = Some (p', frames) /\ tp_wf p' /\
    Forall FrameOps.wf frames /\ length (sessions p') = length (sessions p) /\
    Forall (fun s => cmdt_sending s = false) (sessions p').
Proof.
  intros [Hs Hn ? ? ?]. unfold get_pending_data_frames.
  destruct (drain_sessions_wf _ Hs) as (l & fr & -> & Hl & Hk & Hc & Hf).
  cbn [mbind option_bind]. eexists _, _. split; [done|]. split_and!; try done.
  - split; cbn; try done. by rewrite Hk.
  - cbn. by rewrite <- (length_fmap session_path l), Hk, length_fmap.
Qed.

Lemma abort_for_wf p port a :
  tp_wf p -> tp_wf (abort_sessions_for_address p port a).1.
Proof.
  intros [Hs Hn ? ? ?]. split; cbn; try done.
  - by apply Forall_filter_P.
  - by apply NoDup_fmap_filter.
Qed.

Lemma update_timer_frames_wf e t :
  in_u 8 (ts_source t) -> in_u 8 (ts_destination t) ->
  Forall FrameOps.wf (update_timer_session e t).1.2.
Proof.
  intros Hs Hd. unfold update_timer_session.
  destruct (negb _); [constructor|]. destruct (timer_threshold _); [|constructor]. cbn.
  destruct (_ <=? _); cbn.
  - destruct (negb _); [|constructor]. apply Forall_singleton, cm_frame_wf; try done.
    frame_bytes.
  - destruct (ts_receiver_paused t); [|constructor].
    destruct (_ <=? _); [|constructor]. apply Forall_singleton.
    apply make_cts_wf; try done; by unfold in_u.
Qed.

Lemma tp_wf_same_config p p' :
  tp_wf p -> sessions p' = sessions p -> max_receive_bytes p' = max_receive_bytes p ->
  max_retransmits p' = max_retransmits p ->
  advertised_packets_per_cts p' = advertised_packets_per_cts p -> tp_wf p'.
Proof. intros [] E1 E2 E3 E4. split; by rewrite ?E1, ?E2, ?E3, ?E4. Qed.

Lemma tp_apply_wf p op :
  tp_wf p -> op_typed op ->
  exists p' frames evs, tp_apply p op = Some (p', frames, evs) /\ tp_wf p'.
Proof.
  intros Hp Hop. destruct op; cbn [tp_apply op_typed] in *.
  - destruct Hop as (H1 & H2 & H3 & H4 & H5).
    pose proof (tp_send_safe_aux p pgn data src dst port prio Hp H1 H2 H3 H4 H5) as Hs.
    destruct (tp_send _ _ _ _ _ _ _) as [p' [fr|er]];
      destruct Hs as (Hs & _); by eexists _, _, _.
  - destruct (tp_process_frame_safe_aux p f port Hp Hop) as (p' & fr & ev & -> & ? & _).
    by eexists _, _, _.
  - destruct (tp_update_spec_aux p elapsed_ms Hp) as (p' & fr & ev & -> & ? & _);
      [apply Hop|]. by eexists _, _, _.
  - destruct (get_pending_safe p Hp) as (p' & fr & -> & ? & _). by eexists _, _, _.
  - pose proof (abort_for_wf p port address Hp) as Hw.
    destruct (abort_sessions_for_address p port address). by eexists _, _, _.
  - unfold update_sessions. destruct (update_timers _ _ _ _ _) as [[[l fr] ev] [[a b] c]].
    eexists _, _, _. split; [done|]. by apply (tp_wf_same_config p).
  - eexists _, _, _. split; [done|]. apply (tp_wf_same_config p); try done;
      unfold track_session; by destruct (_ || _).
  - eexists _, _, _. split; [done|]. by apply (tp_wf_same_config p).
  - eexists _, _, _. split; [done|]. by apply (tp_wf_same_config p).
  - eexists _, _, _. split; [done|]. by apply (tp_wf_same_config p).
  - eexists _, _, _. split; [done|]. by apply (tp_wf_same_config p).
  - eexists _, _, _. split; [done|]. destruct Hp, Hop. split; try done. cbn.
    unfold TP_MAX_DATA_LENGTH. lia.
  - eexists _, _, _. split; [done|]. by destruct Hp.
  - eexists _, _, _. split; [done|]. destruct Hp, Hop. split; try done. cbn.
    change (wrap 8 TP_MAX_PACKETS_PER_CTS) with 16. unfold TP_MAX_PACKETS_PER_CTS. lia.
Qed.

Lemma tp_reachable_wf p : tp_reachable p -> tp_wf p.
Proof.
  induction 1 as [|p op p' fr ev _ Hp Hop E]; [apply tp_wf_new|].
  destruct (tp_apply_wf p op Hp Hop) as (p2 & fr2 & ev2 & E2 & Hp2).
  rewrite E in E2. by simplify_eq.
Qed.

Lemma same_path_same_index p i j s t :
  tp_wf p -> sessions p !! i = Some s -> sessions p !! j = Some t ->
  session_path s = session_path t -> i = j.
Proof.
  intros Hp Hi Hj E.
  eapply (NoDup_lookup (session_path <$> sessions p)); [apply Hp| |].
  - rewrite list_lookup_fmap, Hi. done.
  - rewrite list_lookup_fmap, Hj. simpl. by rewrite E.
Qed.

(** ** Properties *)

(** C3: the Transport Protocol engine never panics: from every state reachable from a
    new engine by any sequence of public calls with arguments in their Rust types, the
    next call (send, frame, timer sweep, drain, address loss, timer-session and
    configuration calls) returns, and the session invariant holds before and after. *)
Theorem tp_reachable_safe p op :
  tp_reachable p -> op_typed op ->
  tp_wf p /\ exists p' frames evs, tp_apply p op = Some (p', frames, evs) /\ tp_wf p'.
Proof.
  intros Hr Hop. split; [by apply tp_reachable_wf|].
  by apply tp_apply_wf; [apply tp_reachable_wf|].
Qed.

(** Handling any well-formed CAN frame keeps the engine well formed, emits only
    well-formed frames and never grows the session table beyond the larger of its
    current size and the configured cap. *)
Theorem tp_process_frame_safe p f port :
  tp_wf p -> FrameOps.wf f ->
  exists p' frames evs, tp_process_frame p f port = Some (p', frames, evs) /\ tp_wf p' /\
    Forall FrameOps.wf frames /\
    (length (sessions p') <= Nat.max (length (sessions p)) (max_sessions p))%nat.
Proof.
  intros Hp Hf. destruct (tp_process_frame_safe_aux p f port Hp Hf)
    as (p' & fr & ev & ? & ? & ? & ? & _). by exists p', fr, ev.
Qed.

(** the timer sweep visits every session exactly once despite removing from the
    middle of the table: the surviving sessions, the frames and the events are, up to
    order, those of [tick_session] on each session; no session left is past its
    timeout; the table stays well formed. *)
Theorem tp_update_sweep p e :
  tp_wf p -> in_u 32 e ->
  exists p' frames evs,
    tp_update p e = Some (p', frames, evs) /\ tp_wf p' /\
    sessions p' ≡ₚ omap (tick_kept e) (sessions p) /\
    frames ≡ₚ sessions p ≫= tick_frames e /\ evs ≡ₚ sessions p ≫= tick_events e /\
    Forall (fun s => tp_timed_out s = false) (sessions p').
Proof.
  intros Hp [He _]. destruct (tp_update_spec_aux p e Hp He)
    as (p' & fr & ev & ? & ? & _ & ? & ? & ? & ? & _). by exists p', fr, ev.
Qed.

(** C40: [send] succeeds exactly by appending one well-formed session holding the
    payload and returning its BAM (broadcast) or RTS (connection mode); every refusal
    leaves the sessions alone and its error code states the condition that failed. *)
Theorem tp_send_outcome p pgn data src dst port prio :
  tp_wf p -> in_u 32 pgn -> in_u 8 src -> in_u 8 dst -> bytes data ->
  in_u 32 (Z.of_nat (length data)) ->
  let '(p', r) := tp_send p pgn data src dst port prio in
  tp_wf p' /\
  match r with
  | Ok frames =>
      exists s, sessions p' = sessions p ++ [s] /\ session_wf s /\
        s_data s = data /\ s_pgn s = pgn /\ s_source_address s = src /\
        s_destination_address s = dst /\
        frames = [if dst =? BROADCAST_ADDRESS then make_bam s else make_rts s] /\
        Forall FrameOps.wf frames /\ (length (sessions p') <= max_sessions p)%nat
  | Err e =>
      sessions p' = sessions p /\
      match Error.code e with
      | ErrorCode.InvalidData => 0x3FFFF < pgn
      | ErrorCode.InvalidAddress =>
          valid_tp_source src = false \/ valid_tp_destination dst = false
      | ErrorCode.BufferOverflow => 1785 < Z.of_nat (length data)
      | ErrorCode.InvalidState => Z.of_nat (length data) <= 8
      | ErrorCode.SessionExists =>
          Exists (fun s => tp_transmit_path src dst port s = true) (sessions p)
      | ErrorCode.NoResources => (max_sessions p <= length (sessions p))%nat
      | _ => False
      end
  end.
Proof.
  intros Hp H1 H2 H3 H4 H5.
  pose proof (tp_send_safe_aux p pgn data src dst port prio Hp H1 H2 H3 H4 H5) as Hs.
  destruct (tp_send _ _ _ _ _ _ _) as [p' [fr|er]]; destruct Hs as (Hw & _ & Hs);
    (split; [done|]); [|done].
  destruct Hs as (s & ? & ? & ? & ? & ? & ? & ? & ? & ? & _). by exists s.
Qed.

(** Data packets are unambiguous in connection mode: in every reachable state two
    sessions of the same direction on the same source, destination and port are the
    same session, unless they are broadcast receptions of different PGNs. *)
Theorem tp_paths_unambiguous p i j s t :
  tp_reachable p -> sessions p !! i = Some s -> sessions p !! j = Some t ->
  s_direction s = s_direction t -> s_source_address s = s_source_address t ->
  s_destination_address s = s_destination_address t -> s_can_port s = s_can_port t ->
  (s_direction s = Receive -> s_destination_address s = BROADCAST_ADDRESS ->
   s_pgn s = s_pgn t) ->
  i = j.
Proof.
  intros Hr%tp_reachable_wf Hi Hj Hd Hs Hdst Hp Hpgn.
  apply (same_path_same_index p i j s t Hr Hi Hj).
  unfold session_path, is_broadcast_session. rewrite Hs, Hdst, Hp.
  rewrite Hd in Hpgn |- *. rewrite Hdst in Hpgn. f_equal.
  case_bool_decide; [|done]. cbn. destruct (Z.eqb_spec (s_destination_address t) BROADCAST_ADDRESS);
    [|done]. f_equal. auto.
Qed.

(** Losing an address stops its traffic: afterwards no session and no tracker of
    that port uses the address at either end, all others are kept, nothing is
    transmitted, and the table stays well formed. *)
Theorem tp_abort_for_address p port a :
  tp_wf p ->
  let '(p', frames) := abort_sessions_for_address p port a in
  frames = [] /\ tp_wf p' /\
  (forall s, s ∈ sessions p' <->
     s ∈ sessions p /\ ~ (s_can_port s = port /\
       (s_source_address s = a \/ s_destination_address s = a))) /\
  (forall t, t ∈ timer_sessions p' <->
     t ∈ timer_sessions p /\ ~ (ts_port t = port /\
       (ts_source t = a \/ ts_destination t = a))).
Proof.
  intros Hp. pose proof (abort_for_wf p port a Hp) as Hw.
  unfold abort_sessions_for_address in *. split; [done|]. split; [done|].
  cbn. split; intros x; rewrite list_elem_of_filter; split; intros [H1 H2]; split;
    try done; lia.
Qed.
End safety.

(** ** Witnesses *)

(** An allocator that always grants the request. *)
Definition granting : Allocator := fun _ => true.

(** A BAM announcing nine bytes of PGN 0xFEEC from address 0x80. *)
Definition sample_bam : Frame := make_bam_fields 0xFEEC 9 0x80.

Lemma sample_bam_wf : FrameOps.wf sample_bam.
Proof. apply make_bam_wf. by unfold in_u. Qed.

Lemma tp_reachable_safe_witness :
  exists p' frames evs,
    tp_apply (H := granting) tp_new (OpFrame sample_bam 0) = Some (p', frames, evs) /\
    tp_wf p'.
Proof.
  exact (proj2 (tp_reachable_safe (H := granting) tp_new (OpFrame sample_bam 0)
    (tp_reach_new (H := granting)) sample_bam_wf)).
Defined.

Lemma tp_process_frame_safe_witness :
  exists p' frames evs,
    tp_process_frame (H := granting) tp_new sample_bam 0 = Some (p', frames, evs) /\ tp_wf p'.
Proof.
  destruct (tp_process_frame_safe (H := granting) tp_new sample_bam 0 tp_wf_new sample_bam_wf)
    as (p' & fr & ev & ? & ? & _).
  by exists p', fr, ev.
Defined.

Lemma tp_update_sweep_witness :
  exists p' frames evs, tp_update tp_new 50 = Some (p', frames, evs) /\ tp_wf p'.
Proof.
  destruct (tp_update_sweep tp_new 50 tp_wf_new) as (p' & fr & ev & ? & ? & _);
    [by unfold in_u|]. by exists p', fr, ev.
Defined.

Lemma tp_send_outcome_witness :
  tp_wf (tp_send tp_new 0xFEEC [1; 2; 3; 4; 5; 6; 7; 8; 9] 0x80 0xFF 0 Priority.Default).1.
Proof.
  pose proof (tp_send_outcome tp_new 0xFEEC [1; 2; 3; 4; 5; 6; 7; 8; 9] 0x80 0xFF 0
    Priority.Default tp_wf_new) as Hs.
  destruct (tp_send _ _ _ _ _ _ _) as [p' r].
  apply Hs; try (by unfold in_u). repeat constructor; by unfold in_u.
Defined.

(** The engine after accepting [sample_bam], and its one session. *)
Lemma tp_paths_unambiguous_witness :
  exists p' frames evs s,
    tp_process_frame (H := granting) tp_new sample_bam 0 = Some (p', frames, evs) /\
    sessions p' !! 0%nat = Some s /\ forall j t, sessions p' !! j = Some t ->
      s_direction t = Receive -> s_source_address t = 0x80 ->
      s_destination_address t = BROADCAST_ADDRESS -> s_can_port t = 0 ->
      s_pgn t = 0xFEEC -> j = 0%nat.
Proof.
  destruct (tp_process_frame (H := granting) tp_new sample_bam 0) as [[[p' fr] ev]|] eqn:E;
    [|vm_compute in E; discriminate].
  destruct (sessions p' !! 0%nat) as [s|] eqn:Hs.
  - exists p', fr, ev, s. split; [done|]. split; [done|]. intros j t Hj Hd Hsr Hds Hpo Hpg.
    symmetry. apply (tp_paths_unambiguous (H := granting) p' 0 j s t); try done.
    { eapply (tp_reach_step tp_new (OpFrame sample_bam 0)); [constructor|
        exact sample_bam_wf|exact E]. }
    all: vm_compute in E; injection E as <- _ _; vm_compute in Hs; injection Hs as <-;
      rewrite ?Hd, ?Hsr, ?Hds, ?Hpo, ?Hpg; done.
  - exfalso. vm_compute in E. injection E as <- _ _. vm_compute in Hs. discriminate.
Defined.

Lemma tp_abort_for_address_witness :
  (abort_sessions_for_address tp_new 0 0x80).2 = [].
Proof. exact (proj1 (tp_abort_for_address tp_new 0 0x80 tp_wf_new)). Defined.
