(* ===== verification/TpTransfer.v ===== *)
(** End-to-end correctness of the Transport Protocol: a payload handed to [tp_send] on
    one engine is delivered byte for byte by another, by broadcast (BAM) and in
    connection mode (RTS/CTS/EOMA), whatever other sessions the receiver has open. *)
From S2P Require Export TpSafety.

(** ** The fields of TP frames *)

Section fields.
Context `{Allocator}.

Lemma cm_id_fields s d :
  in_u 8 s -> in_u 8 d ->
  Identifier.pgn (cm_id s d) = PGN_TP_CM /\ Identifier.source (cm_id s d) = s /\
  Identifier.destination (cm_id s d) = d /\ Identifier.priority (cm_id s d) = Priority.Lowest.
Proof. intros. by apply pdu1_fields. Qed.

Lemma dt_id_fields s d :
  in_u 8 s -> in_u 8 d ->
  Identifier.pgn (dt_id s d) = PGN_TP_DT /\ Identifier.source (dt_id s d) = s /\
  Identifier.destination (dt_id s d) = d /\ Identifier.priority (dt_id s d) = Priority.Lowest.
Proof. intros. by apply pdu1_fields. Qed.

Lemma process_cm p port s d data :
  in_u 8 s -> in_u 8 d -> valid_tp_source s = true -> valid_tp_destination d = true ->
  tp_process_frame p (FrameOps.new8 (cm_id s d) data) port
  = handle_cm p (FrameOps.new8 (cm_id s d) data) port.
Proof.
  intros Hs Hd Hvs Hvd. destruct (cm_id_fields s d Hs Hd) as (E1 & E2 & E3 & _).
  unfold tp_process_frame, FrameOps.pgn, FrameOps.source, FrameOps.destination.
  cbn [f_id FrameOps.new8 f_length]. by rewrite E1, E2, E3, Hvs, Hvd.
Qed.

Lemma process_dt p port s d data :
  in_u 8 s -> in_u 8 d -> valid_tp_source s = true -> valid_tp_destination d = true ->
  tp_process_frame p (FrameOps.new8 (dt_id s d) data) port
  = handle_dt p (FrameOps.new8 (dt_id s d) data) port.
Proof.
  intros Hs Hd Hvs Hvd. destruct (dt_id_fields s d Hs Hd) as (E1 & E2 & E3 & _).
  unfold tp_process_frame, FrameOps.pgn, FrameOps.source, FrameOps.destination.
  cbn [f_id FrameOps.new8 f_length]. by rewrite E1, E2, E3, Hvs, Hvd.
Qed.

Lemma cm_pgn_join s d a b c e1 e2 pgn :
  in_u 18 pgn ->
  pgn_from_cm_bytes (f_data (FrameOps.new8 (cm_id s d)
    [a; b; c; e1; e2; byte0 pgn; byte1 pgn; byte2 pgn])) = pgn.
Proof. intros. apply le24_join. eapply in_u_mono; [|done]. lia. Qed.

Lemma pgn_valid_18 pgn : in_u 18 pgn -> pgn_is_valid pgn = true.
Proof. unfold in_u, pgn_is_valid. change (2 ^ 18) with 0x40000. intros. apply Z.leb_le. lia. Qed.

(** The guards of [handle_cm] on a frame built by this engine. *)
Lemma handle_cm_built p port s d c a b e1 e2 pgn :
  in_u 8 s -> in_u 8 d -> in_u 18 pgn ->
  (c = tp_cm.BAM \/ d <> BROADCAST_ADDRESS) ->
  let f := FrameOps.new8 (cm_id s d) [c; a; b; e1; e2; byte0 pgn; byte1 pgn; byte2 pgn] in
  handle_cm p f port =
    if c =? tp_cm.RTS then handle_rts p f port
    else if c =? tp_cm.CTS then handle_cts p f port
    else if c =? tp_cm.EOMA then handle_eoma p f port
    else if c =? tp_cm.BAM then handle_bam p f port
    else if c =? tp_cm.ABORT then handle_abort p f port
    else Some (note_dropped_frame p, [], []).
Proof.
  intros Hs Hd Hpgn Hc f. destruct (cm_id_fields s d Hs Hd) as (_ & _ & E3 & _).
  unfold handle_cm. unfold f at 1. rewrite cm_pgn_join, pgn_valid_18 by done. cbn [negb].
  replace (FrameOps.destination f) with d by (symmetry; exact E3).
  change (FrameOps.byte f 0) with c.
  destruct Hc as [->|Hd'].
  - by rewrite Z.eqb_refl.
  - rewrite (proj2 (Z.eqb_neq d _)) by done. by rewrite andb_false_r.
Qed.
End fields.

(** ** Locating the session of a path *)

(** The unique session of a path is where [position] finds it, up to the order of the
    table. *)
Lemma position_perm {A} (q : A -> bool) l x r :
  l ≡ₚ x :: r -> q x = true -> Forall (fun y => q y = false) r ->
  exists i, position q l = Some i /\ l !! i = Some x.
Proof.
  intros Hp Hx Hr. destruct (position q l) as [i|] eqn:E.
  - apply position_Some in E as (y & Hy & Hqy & _). exists i. split; [done|].
    apply list_elem_of_lookup_2 in Hy as Hin. rewrite Hp in Hin.
    apply elem_of_cons in Hin as [->|Hin]; [done|].
    rewrite Forall_forall in Hr. specialize (Hr y Hin). congruence.
  - apply position_None in E. rewrite Hp in E. apply Forall_cons in E as [E _]. congruence.
Qed.

Lemma update_perm p i s s' r :
  sessions p !! i = Some s -> sessions p ≡ₚ s :: r ->
  sessions (update_session i s' p) ≡ₚ s' :: r.
Proof.
  intros Hi Hp. destruct (list_focus _ _ _ Hi) as (r' & Hr' & Hins). cbn.
  rewrite Hins. constructor. rewrite Hp in Hr'. by apply Permutation_cons_inv in Hr'.
Qed.

(** Feeding frames to an engine in order. *)
Fixpoint tp_feed `{Allocator} (p : TransportProtocol) (port : Z) (fs : list Frame)
    : tp_result :=
  match fs with
  | [] => Some (p, [], [])
  | f :: fs =>
      '(p, out, evs) ← tp_process_frame p f port;
      '(p, out', evs') ← tp_feed p port fs;
      Some (p, out ++ out', evs ++ evs')
  end.

Lemma tp_feed_app `{Allocator} p port a b :
  tp_feed p port (a ++ b) =
    '(p, out, evs) ← tp_feed p port a;
    '(p, out', evs') ← tp_feed p port b;
    Some (p, out ++ out', evs ++ evs').
Proof.
  revert p. induction a as [|f a IH]; intros p; cbn [tp_feed app].
  - cbn [mbind option_bind]. by destruct (tp_feed p port b) as [[[? ?] ?]|].
  - destruct (tp_process_frame p f port) as [[[p1 o1] e1]|]; [|done]. cbn [mbind option_bind].
    rewrite IH. destruct (tp_feed p1 port a) as [[[p2 o2] e2]|]; [|done].
    cbn [mbind option_bind]. destruct (tp_feed p2 port b) as [[[p3 o3] e3]|]; [|done].
    cbn [mbind option_bind]. by rewrite !app_assoc.
Qed.

Lemma seqZ_snoc a n : 0 < n -> seqZ a n = seqZ a (n - 1) ++ [a + n - 1].
Proof.
  intros. replace n with ((n - 1) + 1) at 1 by lia. rewrite seqZ_app by lia. f_equal.
  rewrite seqZ_cons by lia. f_equal. lia.
Qed.

(** ** Receiving one transfer *)

Section receive.
Context `{Allocator}.
Context (src dst : Address) (port : Z) (pgn : Pgn) (data : list Z).
Hypothesis Hsrc : in_u 8 src.
Hypothesis Hdst : in_u 8 dst.
Hypothesis Hvs : valid_tp_source src = true.
Hypothesis Hvd : valid_tp_destination dst = true.
Hypothesis Hpgn : in_u 18 pgn.
Hypothesis Hbytes : bytes data.
Hypothesis Hlen : 8 < Z.of_nat (length data) <= 1785.

Let N := div_ceil (Z.of_nat (length data)) 7.

(** The receive session of the transfer after [k] packets. *)
Record rx_at (k : Z) (s : TransportSession) : Prop := {
  ra_wf : session_wf s;
  ra_dir : s_direction s = Receive;
  ra_src : s_source_address s = src;
  ra_dst : s_destination_address s = dst;
  ra_port : s_can_port s = port;
  ra_pgn : s_pgn s = pgn;
  ra_prio : s_priority s = Priority.Lowest;
  ra_total : s_total_bytes s = Z.of_nat (length data);
  ra_seq : s_last_sequence s = k;
  ra_data : agrees (7 * k) (s_data s) data
}.

(** The session reported when the transfer completes. *)
Record delivered_session (s : TransportSession) : Prop := {
  ds_dir : s_direction s = Receive;
  ds_state : s_state s = SessionState.Complete;
  ds_src : s_source_address s = src;
  ds_dst : s_destination_address s = dst;
  ds_port : s_can_port s = port;
  ds_pgn : s_pgn s = pgn;
  ds_data : s_data s = data
}.

(** No other receive session on the transfer's DT path. *)
Definition quiet (r : list TransportSession) : Prop :=
  Forall (fun s => receive_path src dst port s = false) r.

(** Last packet of the window granted by the latest CTS. *)
Definition window_end (s : TransportSession) : Z :=
  s_cts_window_start s + s_cts_window_size s - 1.

Lemma packets_bound : 7 * N - 7 < Z.of_nat (length data) <= 7 * N /\ 2 <= N <= 255.
Proof. pose proof (div_ceil_7 (Z.of_nat (length data))). unfold N. lia. Qed.

Lemma rx_at_packets k s : rx_at k s -> total_packets s = N.
Proof. intros []. unfold total_packets, TP_BYTES_PER_FRAME. by rewrite ra_total0. Qed.

Lemma quiet_dt r : quiet r -> Forall (fun s => dt_matches src dst port s = false) r.
Proof.
  intros Hq. eapply Forall_impl; [exact Hq|]. intros s. unfold receive_path, dt_matches.
  destruct (bool_decide _), (_ =? src), (_ =? port), (_ =? dst); cbn;
    rewrite ?andb_false_r; done.
Qed.

Lemma rx_at_matches k s : rx_at k s -> dt_matches src dst port s = true.
Proof.
  intros [Hw Hd E1 E2 E3 _ _ _ _ _]. pose proof (sw_dir s Hw) as Hrx. rewrite Hd in Hrx.
  destruct Hrx as [Hst _ _ _ _ _]. unfold dt_matches.
  rewrite bool_decide_eq_true_2, E1, E2, E3, !Z.eqb_refl by done. cbn.
  rewrite bool_decide_eq_true_2, ?andb_true_r by (rewrite Hst; destruct (is_broadcast_session s); auto).
  done.
Qed.

Lemma dt_frame_fields k :
  FrameOps.source (dt_frame src dst data k) = src /\
  FrameOps.destination (dt_frame src dst data k) = dst /\
  FrameOps.byte (dt_frame src dst data k) 0 = k.
Proof. destruct (dt_id_fields src dst Hsrc Hdst) as (_ & ? & ? & _). done. Qed.

(** [handle_dt] on the next packet reaches [dt_ingest] on the transfer's session. *)
Lemma dispatch_dt rx r k s :
  sessions rx ≡ₚ s :: r -> rx_at k s -> quiet r -> 0 <= k < N ->
  exists i, sessions rx !! i = Some s /\
    tp_process_frame rx (dt_frame src dst data (k + 1)) port
    = dt_ingest rx (dt_frame src dst data (k + 1)) i s.
Proof.
  intros Hp Hs Hq Hk. pose proof packets_bound.
  destruct (position_perm (dt_matches src dst port) _ s r Hp) as (i & Hi & Hls);
    [by eapply rx_at_matches|by apply quiet_dt|].
  exists i. split; [done|]. unfold dt_frame at 1. rewrite process_dt by done.
  fold (dt_frame src dst data (k + 1)). unfold handle_dt.
  destruct (dt_frame_fields (k + 1)) as (-> & -> & ->). rewrite Hi, Hls.
  cbn [mbind option_bind]. destruct Hs as [_ _ _ _ _ _ _ _ Hseq _].
  rewrite (proj2 (Z.eqb_neq _ 0)) by lia. rewrite Hseq, checked_add_Some by (simpl; lia).
  cbn [mbind option_bind]. by rewrite Z.eqb_refl.
Qed.

(** The session after packet [k + 1] has that much of the payload. *)
Lemma ingested_agrees k s :
  rx_at k s -> 0 <= k < N ->
  agrees (7 * (k + 1)) (s_data (ingested (dt_frame src dst data (k + 1)) s)) data /\
  length (s_data (ingested (dt_frame src dst data (k + 1)) s)) = length data.
Proof.
  intros [Hw _ _ _ _ _ _ Ht Hseq Hag] Hk. pose proof packets_bound.
  pose proof (sw_len s Hw) as Hl. unfold ingested.
  cbn [s_data with_timer_ms advance with_bytes_transferred with_last_sequence with_data].
  destruct (dt_frame_fields (k + 1)) as (_ & _ & ->).
  replace (k + 1 - 1) with k by lia. split.
  - replace (7 * (k + 1)) with (7 * k + 7) by lia.
    unfold dt_frame. cbn [f_data FrameOps.new8].
    replace (7 * (k + 1 - 1)) with (7 * k) by lia. apply scatter7_agrees; try done; lia.
  - rewrite length_scatter7; [lia|lia|]. cbn. rewrite length_pad7; [done|].
    rewrite length_chunk7 by lia. lia.
Qed.

Lemma rx_last rx r s :
  tp_wf rx -> sessions rx ≡ₚ s :: r -> rx_at (N - 1) s -> quiet r ->
  exists rx' s',
    tp_process_frame rx (dt_frame src dst data N) port
    = Some (rx', (if dst =? BROADCAST_ADDRESS then []
                  else [make_eoma dst src (Z.of_nat (length data)) N pgn]),
            [OnComplete s']) /\
    tp_wf rx' /\ sessions rx' ≡ₚ r /\ delivered_session s'.
Proof.
  intros Hrx Hp Hs Hq. pose proof packets_bound.
  destruct (dispatch_dt rx r (N - 1) s Hp Hs Hq) as (i & Hi & E); [lia|].
  replace (N - 1 + 1) with N in E by lia. rewrite E. clear E.
  pose proof (ingested_agrees (N - 1) s Hs ltac:(lia)) as [Hag Hl2].
  replace (N - 1 + 1) with N in Hag, Hl2 by lia.
  pose proof (rx_at_packets _ _ Hs) as HN.
  pose proof Hs as [Hw Hd E1 E2 E3 E4 E5 Ht Hseq _].
  pose proof (sw_dir s Hw) as Hr. rewrite Hd in Hr.
  rewrite dt_ingest_eq; [|done|done|apply dt_frame_is_wf; done || lia|].
  2: { destruct (dt_frame_fields N) as (_ & _ & ->). lia. }
  destruct (dt_frame_fields N) as (_ & _ & HN0). cbn zeta.
  rewrite HN0, HN, Z.eqb_refl.
  destruct (tp_wf_overwrite_remove rx i s
    (with_state SessionState.Complete (ingested (dt_frame src dst data N) s)) Hrx Hi)
    as (rx' & -> & Hrx' & Hperm & _).
  cbn [mbind option_bind].
  unfold is_broadcast_session. rewrite E1, E2, E4, Ht.
  eexists _, _. split; [done|]. split; [done|]. split.
  - rewrite Hp in Hperm. by apply Permutation_cons_inv in Hperm.
  - split; try done. cbn [s_data with_state]. apply (agrees_full (7 * N)); try done; lia.
Qed.

(** The CTS answering the last packet of a window. *)
Definition window_reply (k : Z) (s : TransportSession) : list Frame :=
  if dst =? BROADCAST_ADDRESS then []
  else if k =? window_end s then
    [make_cts dst src (Z.min (N - k) (s_max_packets_per_cts s)) (k + 1) pgn]
  else [].

Lemma rx_mid rx r k s :
  tp_wf rx -> sessions rx ≡ₚ s :: r -> rx_at k s -> quiet r -> 0 <= k < N - 1 ->
  exists rx' s',
    tp_process_frame rx (dt_frame src dst data (k + 1)) port
    = Some (rx', window_reply (k + 1) s, []) /\
    tp_wf rx' /\ sessions rx' ≡ₚ s' :: r /\ rx_at (k + 1) s' /\
    s_max_packets_per_cts s' = s_max_packets_per_cts s /\
    (dst <> BROADCAST_ADDRESS ->
     window_end s' = if k + 1 =? window_end s
                     then k + 1 + Z.min (N - (k + 1)) (s_max_packets_per_cts s)
                     else window_end s).
Proof.
  intros Hrx Hp Hs Hq Hk. pose proof packets_bound.
  destruct (dispatch_dt rx r k s Hp Hs Hq) as (i & Hi & E); [lia|].
  set (f := dt_frame src dst data (k + 1)) in *. rewrite E.
  destruct (dt_frame_fields (k + 1)) as (_ & _ & Hseq1). fold f in Hseq1.
  assert (FrameOps.wf f) as Hf by (apply dt_frame_is_wf; done || lia).
  pose proof (ingested_agrees k s Hs ltac:(lia)) as [Hag Hl2]. fold f in Hag, Hl2.
  pose proof (rx_at_packets _ _ Hs) as HN.
  pose proof Hs as [Hw Hd E1 E2 E3 E4 E5 Ht Hseq _].
  pose proof (dt_ingest_safe rx f i s Hrx Hi Hd Hf ltac:(lia)) as
    (rx' & fr & ev & Eres & Hrx' & _).
  pose proof (sw_dir s Hw) as Hr. rewrite Hd in Hr.
  rewrite dt_ingest_eq in Eres |- * by (done || lia). cbn zeta in Eres |- *.
  rewrite Hseq1, HN in *. rewrite (proj2 (Z.eqb_neq (k + 1) N)) in * by lia.
  unfold is_broadcast_session in *. rewrite E1, E2, E4 in *.
  assert (forall st, s_direction st = Receive -> s_source_address st = src ->
    s_destination_address st = dst -> s_can_port st = port -> s_pgn st = pgn ->
    s_priority st = Priority.Lowest -> s_total_bytes st = Z.of_nat (length data) ->
    s_last_sequence st = k + 1 -> s_data st = s_data (ingested f s) ->
    tp_wf (update_session i st rx) ->
    sessions (update_session i st rx) ≡ₚ st :: r /\ rx_at (k + 1) st) as Hnew.
  { intros st ? ? ? ? ? ? ? ? Hsd Hwf. split; [by eapply update_perm|]. split; try done.
    - apply (tp_wf_lookup _ i st Hwf). cbn. apply list_lookup_insert_eq.
      by eapply lookup_lt_Some.
    - by rewrite Hsd. }
  unfold window_reply, window_end in *.
  destruct (Z.eqb_spec dst BROADCAST_ADDRESS) as [Hb|Hb].
  - injection Eres as <- _ _. eexists _, _. split; [done|]. split; [done|].
    by destruct (Hnew (ingested f s)) as [? ?].
  - replace (s_cts_window_start s + s_cts_window_size s =? k + 1 + 1)
      with (k + 1 =? s_cts_window_start s + s_cts_window_size s - 1) in *
      by (apply Bool.eq_iff_eq_true; rewrite !Z.eqb_eq; lia).
    unfold next_window in *. rewrite HN in *. destruct (k + 1 =? _).
    + injection Eres as <- _ _. eexists _, _. split; [done|]. split; [done|].
      destruct (Hnew (with_cts_window (k + 1 + 1) (Z.min (N - (k + 1))
        (s_max_packets_per_cts s)) (ingested f s))) as [? ?]; try done.
      by split_and!; [done..|intros _; cbn; lia].
    + injection Eres as <- _ _. eexists _, _. split; [done|]. split; [done|].
      by destruct (Hnew (ingested f s)) as [? ?].
Qed.

(** A run of packets that stays inside the granted window is absorbed silently. *)
Lemma feed_inside rx r k s n :
  tp_wf rx -> sessions rx ≡ₚ s :: r -> rx_at k s -> quiet r -> 0 <= k ->
  0 <= n -> k + n < N -> (dst = BROADCAST_ADDRESS \/ k + n < window_end s) ->
  exists rx' s',
    tp_feed rx port (dt_frame src dst data <$> seqZ (k + 1) n) = Some (rx', [], []) /\
    tp_wf rx' /\ sessions rx' ≡ₚ s' :: r /\ rx_at (k + n) s' /\
    s_max_packets_per_cts s' = s_max_packets_per_cts s /\
    (dst <> BROADCAST_ADDRESS -> window_end s' = window_end s).
Proof.
  intros Hrx Hp Hs Hq Hk Hn. revert n Hn rx k s Hrx Hp Hs Hk.
  apply (natlike_ind (fun n => forall rx k s, tp_wf rx -> sessions rx ≡ₚ s :: r ->
    rx_at k s -> 0 <= k -> k + n < N ->
    (dst = BROADCAST_ADDRESS \/ k + n < window_end s) -> exists rx' s', _)).
  - intros rx k s Hrx Hp Hs Hk _ _. exists rx, s. rewrite Z.add_0_r. done.
  - intros n Hn IH rx k s Hrx Hp Hs Hk HN Hw.
    destruct (rx_mid rx r k s Hrx Hp Hs Hq) as (rx1 & s1 & E & Hrx1 & Hp1 & Hs1 & Hm1 & Hw1);
      [lia|].
    rewrite (seqZ_cons (k + 1)) by lia. cbn [fmap list_fmap tp_feed]. rewrite E.
    assert (window_reply (k + 1) s = []) as ->.
    { unfold window_reply. destruct (Z.eqb_spec dst BROADCAST_ADDRESS); [done|].
      destruct Hw as [|Hw]; [done|]. by rewrite (proj2 (Z.eqb_neq _ _)) by lia. }
    assert (dst <> BROADCAST_ADDRESS -> window_end s1 = window_end s) as Hw1'.
    { intros Hb. rewrite Hw1 by done. destruct Hw as [|Hw]; [done|].
      by rewrite (proj2 (Z.eqb_neq _ _)) by lia. }
    destruct (IH rx1 (k + 1) s1) as (rx2 & s2 & E2 & ? & ? & ? & ? & Hw2); try done; [lia|lia| |].
    { destruct (decide (dst = BROADCAST_ADDRESS)); [by left|right].
      rewrite Hw1' by done. destruct Hw; [done|lia]. }
    cbn [mbind option_bind]. replace (Z.succ (k + 1)) with (k + 1 + 1) by lia.
    replace (Z.pred (Z.succ n)) with n by lia. rewrite E2. cbn [mbind option_bind app].
    exists rx2, s2. split; [done|]. split; [done|]. split; [done|].
    replace (k + Z.succ n) with (k + 1 + n) by lia. split; [done|]. split; [congruence|].
    intros Hb. rewrite Hw2, Hw1' by done. done.
Qed.

(** All remaining packets of a broadcast complete the transfer. *)
Lemma feed_rest rx r s :
  tp_wf rx -> sessions rx ≡ₚ s :: r -> rx_at 0 s -> quiet r -> dst = BROADCAST_ADDRESS ->
  exists rx' s',
    tp_feed rx port (dt_frame src dst data <$> seqZ 1 N) = Some (rx', [], [OnComplete s']) /\
    tp_wf rx' /\ sessions rx' ≡ₚ r /\ delivered_session s'.
Proof.
  intros Hrx Hp Hs Hq Hb. pose proof packets_bound.
  rewrite seqZ_snoc by lia. replace (1 + N - 1) with N by lia.
  rewrite fmap_app, tp_feed_app.
  destruct (feed_inside rx r 0 s (N - 1) Hrx Hp Hs Hq)
    as (rx1 & s1 & E & Hrx1 & Hp1 & Hs1 & _); [lia..|by left|]. change (0 + 1) with 1 in E. rewrite Z.add_0_l in Hs1.
  rewrite E. cbn [mbind option_bind].
  destruct (rx_last rx1 r s1 Hrx1 Hp1 Hs1 Hq) as (rx2 & s2 & E2 & Hrx2 & Hp2 & Hds).
  cbn [fmap list_fmap tp_feed]. rewrite E2. rewrite Hb.
  cbn [mbind option_bind]. by exists rx2, s2.
Qed.

(** A whole granted window ends in the next CTS, or in EOMA after the last packet. *)
Lemma feed_window rx r k s :
  tp_wf rx -> sessions rx ≡ₚ s :: r -> rx_at k s -> quiet r -> 0 <= k ->
  dst <> BROADCAST_ADDRESS -> k < window_end s <= N ->
  let w := window_end s in
  exists rx',
    tp_wf rx' /\
    if w =? N then
      exists s', tp_feed rx port (dt_frame src dst data <$> seqZ (k + 1) (w - k))
        = Some (rx', [make_eoma dst src (Z.of_nat (length data)) N pgn], [OnComplete s']) /\
        sessions rx' ≡ₚ r /\ delivered_session s'
    else
      exists s', tp_feed rx port (dt_frame src dst data <$> seqZ (k + 1) (w - k))
        = Some (rx', [make_cts dst src (Z.min (N - w) (s_max_packets_per_cts s)) (w + 1) pgn],
                []) /\
        sessions rx' ≡ₚ s' :: r /\ rx_at w s' /\
        s_max_packets_per_cts s' = s_max_packets_per_cts s /\
        window_end s' = w + Z.min (N - w) (s_max_packets_per_cts s).
Proof.
  intros Hrx Hp Hs Hq Hk Hb Hw w. pose proof packets_bound.
  rewrite seqZ_snoc by lia. replace (k + 1 + (w - k) - 1) with w by lia.
  rewrite fmap_app, tp_feed_app.
  destruct (feed_inside rx r k s (w - k - 1) Hrx Hp Hs Hq Hk)
    as (rx1 & s1 & E & Hrx1 & Hp1 & Hs1 & Hm1 & Hw1); [lia|lia|right; lia|].
  rewrite E. cbn [mbind option_bind].
  replace (k + (w - k - 1)) with (w - 1) in Hs1 by lia.
  cbn [fmap list_fmap tp_feed].
  destruct (Z.eqb_spec w N) as [HwN|HwN].
  - rewrite HwN in Hs1 |- *.
    destruct (rx_last rx1 r s1 Hrx1 Hp1 Hs1 Hq) as (rx2 & s2 & -> & Hrx2 & Hp2 & Hds).
    rewrite (proj2 (Z.eqb_neq dst _)) by done. cbn [mbind option_bind app].
    exists rx2. split; [done|]. by exists s2.
  - destruct (rx_mid rx1 r (w - 1) s1 Hrx1 Hp1 Hs1 Hq)
      as (rx2 & s2 & E2 & Hrx2 & Hp2 & Hs2 & Hm2 & Hw2); [lia|].
    replace (w - 1 + 1) with w in * by lia. rewrite E2. unfold window_reply.
    specialize (Hw1 Hb). specialize (Hw2 Hb). rewrite Hw1, Hm1 in Hw2. rewrite Hm1 in Hm2.
    rewrite (proj2 (Z.eqb_neq dst _)) by done. rewrite Hw1, Hm1. fold w in Hw2 |- *.
    rewrite Z.eqb_refl in Hw2 |- *. cbn [mbind option_bind app]. exists rx2.
    split; [done|]. by exists s2.
Qed.

(** ** Opening the receive session *)

Hypothesis Hgrant : try_reserve_exact (Z.of_nat (length data)) = true.

Lemma wrap_packets : wrap 8 N = N.
Proof. apply wrap_small. pose proof packets_bound. unfold in_u. simpl. lia. Qed.

Lemma shape_ok : valid_tp_payload_shape (Z.of_nat (length data)) N = true.
Proof.
  pose proof packets_bound. unfold valid_tp_payload_shape, CAN_DATA_LENGTH,
    TP_MAX_DATA_LENGTH, TP_BYTES_PER_FRAME.
  rewrite (proj2 (Z.ltb_lt _ _)), (proj2 (Z.leb_le _ _)), (proj2 (Z.eqb_neq _ _)) by lia.
  apply Z.eqb_refl.
Qed.

Lemma built_size s d c e1 e2 b5 b6 b7 :
  cm_size (FrameOps.new8 (cm_id s d)
    [c; byte0 (Z.of_nat (length data)); byte1 (Z.of_nat (length data)); e1; e2; b5; b6; b7])
  = Z.of_nat (length data).
Proof. apply le16_join. unfold in_u. change (2 ^ 16) with 65536. lia. Qed.

Lemma quiet_no_session rx :
  quiet (sessions rx) -> receive_session_for rx src dst port pgn = None /\
    receive_path_is_active rx src dst port = false.
Proof.
  intros Hq. split; [|by apply existsb_false]. apply position_None.
  eapply Forall_impl; [exact Hq|]. intros s E. by rewrite E.
Qed.

Lemma open_buffer rx :
  Z.of_nat (length data) <= max_receive_bytes rx ->
  rx_buffer (Z.of_nat (length data)) (max_receive_bytes rx)
  = Ok (replicate (length data) 0xFF).
Proof.
  intros. unfold rx_buffer. rewrite (proj2 (Z.ltb_ge _ _)), Hgrant, Nat2Z.id by lia. done.
Qed.

Definition opened (maxp w : Z) : TransportSession :=
  new_rx_session (if dst =? BROADCAST_ADDRESS then SessionState.ReceivingData
                  else SessionState.WaitingForData)
    pgn (replicate (length data) 0xFF) (Z.of_nat (length data)) src dst port
    Priority.Lowest maxp w.

Lemma opened_at maxp w :
  1 <= maxp <= 16 -> (dst <> BROADCAST_ADDRESS -> w = Z.min N maxp) ->
  rx_at 0 (opened maxp w).
Proof.
  intros Hm Hw. split; try done.
  - unfold opened. rewrite <- (Nat2Z.id (length data)) at 1.
    apply (new_rx_session_wf _ _ _ _ _ _ _ _ N); try done; [apply shape_ok|].
    intros Hb. apply Hw. by apply Z.eqb_neq.
  - apply agrees_0.
Qed.

Lemma rx_open_bam rx :
  quiet (sessions rx) -> (length (sessions rx) < max_sessions rx)%nat ->
  Z.of_nat (length data) <= max_receive_bytes rx -> dst = BROADCAST_ADDRESS ->
  tp_process_frame rx (make_bam_fields pgn (Z.of_nat (length data)) src) port
  = Some (push_session (opened 16 0) rx, [], []).
Proof.
  intros Hq Hcap Hmax Hb. unfold make_bam_fields. rewrite process_cm by (by try unfold in_u).
  rewrite handle_cm_built by first [done|by unfold in_u|by left].
  cbn [Z.eqb Pos.eqb tp_cm.BAM tp_cm.RTS tp_cm.CTS tp_cm.EOMA].
  destruct (quiet_no_session rx Hq) as [Hns _].
  destruct (cm_id_fields src BROADCAST_ADDRESS Hsrc ltac:(by unfold in_u)) as (_ & Es & Ed & Ep).
  unfold handle_bam, bam_open, FrameOps.source, FrameOps.is_broadcast, FrameOps.priority.
  rewrite cm_pgn_join, built_size by done. cbn [f_id FrameOps.new8]. rewrite Es, Ep.
  rewrite <- Hb at 1. rewrite Hns.
  replace (Identifier.is_broadcast (cm_id src BROADCAST_ADDRESS)) with true
    by (unfold Identifier.is_broadcast; by rewrite Ed, orb_true_r). cbn [negb orb].
  change (FrameOps.byte _ 3) with (wrap 8 N). rewrite wrap_packets, shape_ok. cbn [negb orb].
  rewrite (proj2 (Z.ltb_ge _ _)) by lia. rewrite (proj2 (Nat.leb_gt _ _)) by done.
  rewrite open_buffer by done. unfold opened. by rewrite Hb.
Qed.

Lemma rx_open_rts rx adv :
  quiet (sessions rx) -> (length (sessions rx) < max_sessions rx)%nat ->
  Z.of_nat (length data) <= max_receive_bytes rx -> dst <> BROADCAST_ADDRESS ->
  1 <= adv <= 16 ->
  tp_process_frame rx (make_rts_fields pgn (Z.of_nat (length data)) src dst adv) port
  = Some (push_session (opened adv (Z.min N adv)) rx,
          [make_cts dst src (Z.min N adv) 1 pgn], []).
Proof.
  intros Hq Hcap Hmax Hb Hadv. unfold make_rts_fields. rewrite process_cm by done.
  rewrite handle_cm_built by first [done|by right]. cbn [Z.eqb Pos.eqb tp_cm.RTS].
  destruct (quiet_no_session rx Hq) as [Hns Hact].
  destruct (cm_id_fields src dst Hsrc Hdst) as (_ & Es & Ed & Ep).
  unfold handle_rts, rts_open, FrameOps.source, FrameOps.destination, FrameOps.priority.
  rewrite cm_pgn_join, built_size by done. cbn [f_id FrameOps.new8]. rewrite Es, Ed, Ep.
  change (FrameOps.byte _ 3) with (wrap 8 N). change (FrameOps.byte _ 4) with adv.
  rewrite wrap_packets, shape_ok, (proj2 (Z.eqb_neq adv 0)) by lia. cbn [negb orb].
  rewrite Hns, Hact, (proj2 (Nat.leb_gt _ _)) by done.
  rewrite open_buffer by done. change (wrap 8 TP_MAX_PACKETS_PER_CTS) with 16.
  rewrite (Z.min_l adv) by lia. unfold opened. by rewrite (proj2 (Z.eqb_neq dst _)).
Qed.
End receive.

(** ** Sending one transfer *)

Section transmit.
Context `{Allocator}.
Context (src dst : Address) (port : Z) (pgn : Pgn) (data : list Z).
Hypothesis Hsrc : in_u 8 src.
Hypothesis Hdst : in_u 8 dst.
Hypothesis Hvs : valid_tp_source src = true.
Hypothesis Hvd : valid_tp_destination dst = true.
Hypothesis Hpgn : in_u 18 pgn.
Hypothesis Hbytes : bytes data.
Hypothesis Hlen : 8 < Z.of_nat (length data) <= 1785.

Let N := div_ceil (Z.of_nat (length data)) 7.

(** The transmit session of the transfer in state [st] with [k] packets sent. *)
Record tx_at (st : SessionState.t) (k : Z) (s : TransportSession) : Prop := {
  ta_wf : session_wf s;
  ta_dir : s_direction s = Transmit;
  ta_src : s_source_address s = src;
  ta_dst : s_destination_address s = dst;
  ta_port : s_can_port s = port;
  ta_pgn : s_pgn s = pgn;
  ta_data : s_data s = data;
  ta_state : s_state s = st;
  ta_seq : s_last_sequence s = k
}.

Lemma tx_at_total st k s : tx_at st k s -> s_total_bytes s = Z.of_nat (length data).
Proof. intros []. rewrite <- (sw_len s), ta_data0; done. Qed.

Lemma tx_at_packets st k s : tx_at st k s -> total_packets s = N.
Proof.
  intros Hs. unfold total_packets, TP_BYTES_PER_FRAME. by rewrite (tx_at_total _ _ _ Hs).
Qed.

Lemma bam_tick s k e :
  tx_at SessionState.SendingData k s -> dst = BROADCAST_ADDRESS -> 50 <= e < 2 ^ 32 ->
  exists s', tick_session e s
    = (if k + 1 =? N then None else Some s', [dt_frame src dst data (k + 1)],
       if k + 1 =? N then [OnComplete (with_state SessionState.Complete s')] else []) /\
    s_data s' = data /\ s_direction s' = Transmit /\
    (k + 1 <> N -> tx_at SessionState.SendingData (k + 1) s').
Proof.
  intros Hs Hb He. pose proof (packets_bound data Hlen) as HN. fold N in HN.
  pose proof (tx_at_total _ _ _ Hs) as Ht. pose proof (tx_at_packets _ _ _ Hs) as Hp.
  pose proof Hs as [Hw Hd E1 E2 E3 E4 E5 Hst Hk].
  unfold tick_session. set (s1 := with_timer_ms (sat_add 32 (s_timer_ms s) e) s).
  pose proof (sw_timer s Hw) as Htm.
  assert (session_wf s1) as Hw1 by (apply session_wf_timer; [apply in_u_sat_timer; [done|lia]|done]).
  assert (is_bam_tx s1 = true) as Hbam.
  { unfold is_bam_tx, is_broadcast_session. cbn. by rewrite E2, Hst, Hd, Hb. }
  rewrite Hbam, (proj2 (Z.leb_le _ _)); cycle 1.
  { unfold TP_BAM_INTER_PACKET_MS. cbn. unfold sat_add, in_u in *. lia. }
  cbn [andb]. change (s_last_sequence s1) with (s_last_sequence s). rewrite Hk.
  set (s2 := advance (k + 1) (with_timer_ms 0 s1)).
  destruct (bam_advance (with_timer_ms 0 s1)) as (Htx & Hlt & _ & Hadv);
    [by apply session_wf_timer|done|].
  change (s_last_sequence (with_timer_ms 0 s1)) with (s_last_sequence s) in *.
  change (total_packets (with_timer_ms 0 s1)) with (total_packets s) in *.
  change (s_total_bytes (with_timer_ms 0 s1)) with (s_total_bytes s) in *.
  rewrite Hk in *. fold s2 in Hadv. rewrite Hp in Hlt.
  exists s2. change (s_source_address s2) with (s_source_address s).
  change (s_destination_address s2) with (s_destination_address s).
  change (s_data s2) with (s_data s). rewrite E1, E2, E5.
  change (s_total_bytes s2) with (s_total_bytes s).
  change (s_bytes_transferred s2) with (Z.min (7 * (k + 1)) (s_total_bytes s)).
  rewrite Ht in *. destruct (Z.eqb_spec (k + 1) N).
  - rewrite (proj2 (Z.leb_le _ _)) by lia. by split_and!.
  - rewrite (proj2 (Z.leb_gt _ _)) in * by lia. split_and!; try done.
    intros _. split; try done. by apply Hadv.
Qed.

(** ** Connection mode *)

Hypothesis Hvd2 : valid_tp_source dst = true.

Lemma dst_not_broadcast : dst <> BROADCAST_ADDRESS.
Proof. unfold valid_tp_source in Hvd2. by reflect_bools. Qed.

Lemma src_is_destination : valid_tp_destination src = true /\ src <> BROADCAST_ADDRESS.
Proof.
  unfold valid_tp_destination. revert Hvs. unfold valid_tp_source.
  destruct (src =? NULL_ADDRESS); [done|]. cbn. intros ?%negb_true_iff%Z.eqb_neq. done.
Qed.

(** A CTS for the next packets puts the waiting session back to sending. *)
Lemma cts_session_grant maxr s k c :
  tx_at SessionState.WaitingForCTS k s -> 1 <= c -> 0 <= k < N ->
  cts_session maxr c (k + 1) s = Some (cts_granted 0 c (k + 1) s, None).
Proof.
  intros Hs Hc Hk. pose proof (packets_bound data Hlen) as HN. fold N in HN.
  pose proof (tx_at_total _ _ _ Hs) as Ht. pose proof (tx_at_packets _ _ _ Hs) as Hp.
  destruct Hs as [Hw Hd E1 E2 E3 E4 E5 Hst Hseq].
  pose proof (sw_dir s Hw) as Htx. rewrite Hd in Htx. destruct Htx as [Hbt _ Hm _ _].
  unfold cts_session. rewrite bool_decide_eq_false_2 by congruence.
  rewrite !(proj2 (Z.eqb_neq _ 0)) by lia. cbn [orb]. rewrite Hp, (proj2 (Z.ltb_ge _ _)) by lia.
  assert ((k + 1 - 1 <? div_ceil (s_bytes_transferred s) TP_BYTES_PER_FRAME) = false) as ->.
  { apply Z.ltb_ge. apply div_ceil_7_le; lia. }
  cbn [andb].
  rewrite clamp_window_eq; try done; change (total_packets (with_retransmit_count 0 s))
    with (total_packets s); try lia.
  cbn [mbind option_bind]. rewrite checked_sub_Some by lia. cbn [mbind option_bind].
  rewrite checked_mul_Some by (change (2 ^ 32) with 4294967296; lia).
  cbn [mbind option_bind]. replace ((k + 1 - 1) * 7)
    with (Z.min (7 * (k + 1 - 1)) (s_total_bytes s)) by lia. done.
Qed.

Lemma tx_cts tx s k c :
  sessions tx = [s] -> tx_at SessionState.WaitingForCTS k s -> 1 <= c <= 16 ->
  0 <= k -> k + c <= N ->
  exists tx1 tx2 s2,
    tp_process_frame tx (make_cts dst src c (k + 1) pgn) port = Some (tx1, [], []) /\
    get_pending_data_frames tx1
    = Some (tx2, dt_frame src dst data <$> seqZ (k + 1) c) /\
    sessions tx2 = [s2] /\
    tx_at (if k + c =? N then SessionState.WaitingForEndOfMsg
           else SessionState.WaitingForCTS) (k + c) s2.
Proof.
  intros Htx Hs Hc Hk HcN. pose proof (packets_bound data Hlen) as HN. fold N in HN.
  pose proof (tx_at_packets _ _ _ Hs) as Hp. pose proof dst_not_broadcast as Hb.
  destruct src_is_destination as [Hvs' Hsb].
  pose proof Hs as [Hw Hd E1 E2 E3 E4 E5 Hst Hseq].
  set (g := cts_granted 0 c (k + 1) s). set (tx1 := update_session 0 g tx).
  assert (is_broadcast_session s = false) as Hnb
    by (unfold is_broadcast_session; rewrite E2; by apply Z.eqb_neq).
  assert (session_wf g) as Hg by (apply cts_granted_wf; try done; try lia; by unfold in_u).
  assert (s_packets_to_send g = c) as Hgp by (cbn; rewrite Hp; lia).
  assert (s_last_sequence g = k) as Hgk by (cbn; lia).
  destruct (drain_session_eq g Hg) as (Hdr & _ & _ & _ & _).
  { unfold cmdt_sending. change (is_broadcast_session g) with (is_broadcast_session s).
    rewrite Hnb. cbn. by rewrite Hd. }
  exists tx1, (with_sessions [drained g] tx1), (drained g). split; [|split; [|split]].
  - unfold make_cts. rewrite process_cm, handle_cm_built by first [done|by right].
    cbn [Z.eqb Pos.eqb tp_cm.CTS tp_cm.RTS].
    destruct (cm_id_fields dst src Hdst Hsrc) as (_ & Fs & Fd & _).
    unfold handle_cts, FrameOps.source, FrameOps.destination. rewrite cm_pgn_join by done.
    cbn [f_id FrameOps.new8]. rewrite Fs, Fd, Htx. cbn [position].
    replace (cts_matches dst src pgn port s) with true; cycle 1.
    { unfold cts_matches. rewrite Hd, E1, E2, E3, E4, Hst, !Z.eqb_refl.
      symmetry. by rewrite !bool_decide_eq_true_2 by auto. }
    cbn [lookup list_lookup mbind option_bind]. change (FrameOps.byte _ 1) with c.
    change (FrameOps.byte _ 2) with (k + 1).
    rewrite cts_session_grant by (done || lia). done.
  - unfold get_pending_data_frames, tx1, update_session. cbn [sessions with_sessions].
    rewrite Htx. cbn [insert list_insert drain_sessions]. rewrite Hdr.
    cbn [mbind option_bind]. rewrite app_nil_r, Hgp, Hgk.
    change (s_source_address g) with (s_source_address s).
    change (s_destination_address g) with (s_destination_address s).
    change (s_data g) with (s_data s). by rewrite E1, E2, E5.
  - done.
  - destruct (drain_session_wf g Hg) as (g' & fr & Hdr' & Hw' & _).
    rewrite Hdr in Hdr'. injection Hdr' as <- _.
    split; try done; cbn [drained s_state with_timer_ms with_state s_last_sequence advance
      with_bytes_transferred with_last_sequence]; rewrite Hgp, Hgk; [|done].
    by change (total_packets g) with (total_packets s); rewrite Hp.
Qed.

Lemma tx_eoma tx s :
  sessions tx = [s] -> tx_at SessionState.WaitingForEndOfMsg N s ->
  tp_process_frame tx (make_eoma dst src (Z.of_nat (length data)) N pgn) port
  = Some (with_sessions [] tx, [], [OnComplete (with_state SessionState.Complete s)]).
Proof.
  intros Htx Hs. pose proof (tx_at_packets _ _ _ Hs) as Hp.
  pose proof (tx_at_total _ _ _ Hs) as Ht. destruct src_is_destination as [Hvs' Hsb].
  destruct Hs as [Hw Hd E1 E2 E3 E4 E5 Hst Hseq].
  unfold make_eoma. rewrite process_cm, handle_cm_built by first [done|by right].
  cbn [Z.eqb Pos.eqb tp_cm.CTS tp_cm.RTS tp_cm.EOMA].
  destruct (cm_id_fields dst src Hdst Hsrc) as (_ & Fs & Fd & _).
  unfold handle_eoma, FrameOps.source, FrameOps.destination.
  rewrite cm_pgn_join, built_size by done.
  cbn [f_id FrameOps.new8]. rewrite Fs, Fd, Htx. cbn [position].
  rewrite Hd, E1, E2, E3, E4, !Z.eqb_refl, bool_decide_eq_true_2 by done.
  cbn [andb lookup list_lookup mbind option_bind].
  change (FrameOps.byte _ 3) with N. rewrite Hst, Ht, Hp.
  replace (wrap 8 N) with N by (symmetry; by apply wrap_packets). rewrite !Z.eqb_refl, bool_decide_eq_true_2 by done. cbn [negb orb].
  unfold remove_session. by rewrite Htx.
Qed.
End transmit.

(** ** Two engines *)

(** Driving the timer sweep repeatedly. *)
Fixpoint tp_updates (p : TransportProtocol) (es : list Z) : tp_result :=
  match es with
  | [] => Some (p, [], [])
  | e :: es =>
      '(p, out, evs) ← tp_update p e;
      '(p, out', evs') ← tp_updates p es;
      Some (p, out ++ out', evs ++ evs')
  end.

(** Connection-mode exchange: the receiver takes the frames on the wire, the sender takes
    its answers and drains the granted packets, until neither has anything to send. *)
Fixpoint cmdt_exchange `{Allocator} (fuel : nat) (tx rx : TransportProtocol) (port : Z)
    (wire : list Frame)
    : option (TransportProtocol * TransportProtocol * list TpEvent * list TpEvent) :=
  match fuel with
  | O => None
  | S fuel =>
      '(rx, replies, er) ← tp_feed rx port wire;
      '(tx, direct, et) ← tp_feed tx port replies;
      '(tx, out) ← get_pending_data_frames tx;
      match direct ++ out with
      | [] => Some (tx, rx, et, er)
      | wire =>
          '(tx, rx, et', er') ← cmdt_exchange fuel tx rx port wire;
          Some (tx, rx, et ++ et', er ++ er')
      end
  end.

Lemma tp_feed_one `{Allocator} p port f :
  tp_feed p port [f] = tp_process_frame p f port.
Proof.
  cbn [tp_feed]. destruct (tp_process_frame p f port) as [[[p1 o] e]|]; [|done].
  cbn [mbind option_bind]. by rewrite !app_nil_r.
Qed.

Section exchange.
Context `{Allocator}.
Context (src dst : Address) (port : Z) (pgn : Pgn) (data : list Z).
Hypothesis Hsrc : in_u 8 src.
Hypothesis Hdst : in_u 8 dst.
Hypothesis Hvs : valid_tp_source src = true.
Hypothesis Hpgn : in_u 18 pgn.
Hypothesis Hbytes : bytes data.
Hypothesis Hlen : 8 < Z.of_nat (length data) <= 1785.

Let N := div_ceil (Z.of_nat (length data)) 7.

(** Broadcast: each sweep of at least 50 ms emits the next packet. *)
Lemma bam_updates es tx s k :
  dst = BROADCAST_ADDRESS -> tp_wf tx -> sessions tx = [s] ->
  tx_at src dst port pgn data SessionState.SendingData k s -> 0 <= k < N ->
  Forall (fun e => 50 <= e < 2 ^ 32) es -> k + Z.of_nat (length es) = N ->
  exists tx' s', tp_updates tx es
    = Some (tx', dt_frame src dst data <$> seqZ (k + 1) (N - k), [OnComplete s']) /\
    sessions tx' = [] /\ s_data s' = data /\ s_direction s' = Transmit /\
    s_state s' = SessionState.Complete.
Proof.
  intros Hb. revert tx s k. induction es as [|e es IH]; intros tx s k Hw Htx Hs Hk He Hn;
    [simpl in Hn; lia|].
  apply Forall_cons in He as [He1 He]. simpl in Hn.
  destruct (bam_tick src dst port pgn data Hlen s k e Hs Hb He1) as (s1 & Ht & Hd & Hdir & Hn1).
  destruct (tp_update_spec_aux tx e Hw) as (tx1 & fr & ev & E & Hw1 & _ & Hp & Hf & Hv & _);
    [lia|].
  rewrite Htx in Hp, Hf, Hv. cbn [omap list_omap mbind list_bind] in Hp, Hf, Hv.
  unfold tick_kept, tick_frames, tick_events in Hp, Hf, Hv. rewrite Ht in Hp, Hf, Hv.
  cbn [fst snd] in Hp, Hf, Hv. rewrite app_nil_r in Hf, Hv.
  apply Permutation_singleton_r in Hf as ->.
  cbn [tp_updates]. rewrite E. cbn [mbind option_bind].
  rewrite (seqZ_cons (k + 1)) by (fold N; lia). rewrite fmap_cons.
  fold N in Hp, Hv, Hn1. destruct (Z.eqb_spec (k + 1) N) as [Hl|Hl].
  - destruct es; [|simpl in Hn; lia].
    apply Permutation_singleton_r in Hv as ->.
    apply Permutation_nil_r in Hp. cbn [tp_updates mbind option_bind].
    replace (Z.pred (N - k)) with 0 by lia.
    eexists _, _. by split_and!.
  - apply Permutation_nil_r in Hv as ->.
    apply Permutation_singleton_r in Hp.
    destruct (IH tx1 s1 (k + 1)) as (tx2 & s2 & E2 & ?); try done; [by apply Hn1|lia|lia|].
    rewrite E2. cbn [mbind option_bind app]. exists tx2, s2. split; [|done].
    do 4 f_equal. f_equal; f_equal; lia.
Qed.

(** ** Connection mode, round by round *)

Hypothesis Hvd : valid_tp_source dst = true.

Lemma dst_is_destination : valid_tp_destination dst = true /\ dst <> BROADCAST_ADDRESS.
Proof. by apply (src_is_destination dst). Qed.

Lemma dt_run_nonempty k c :
  0 < c -> exists x l, dt_frame src dst data <$> seqZ k c = x :: l.
Proof. intros. rewrite seqZ_cons by lia. by eexists _, _. Qed.

(** One round answered by a CTS: the sender drains the next window. *)
Lemma cmdt_next_window fuel tx rx rx' wire s w c :
  tp_feed rx port wire = Some (rx', [make_cts dst src c (w + 1) pgn], []) ->
  sessions tx = [s] -> tx_at src dst port pgn data SessionState.WaitingForCTS w s ->
  1 <= c <= 16 -> 0 <= w -> w + c <= N ->
  exists tx' s',
    cmdt_exchange (S fuel) tx rx port wire
    = cmdt_exchange fuel tx' rx' port (dt_frame src dst data <$> seqZ (w + 1) c) /\
    sessions tx' = [s'] /\
    tx_at src dst port pgn data
      (if w + c =? N then SessionState.WaitingForEndOfMsg
       else SessionState.WaitingForCTS) (w + c) s'.
Proof.
  intros Hfeed Htx Hs Hc Hw HwN. destruct dst_is_destination as [Hd Hb].
  destruct (tx_cts src dst port pgn data Hsrc Hdst Hvs Hpgn Hlen Hvd tx s w c)
    as (tx1 & tx2 & s2 & E1 & E2 & Hs2 & Hat); try done.
  exists tx2, s2. split; [|done]. cbn [cmdt_exchange]. rewrite Hfeed.
  cbn [mbind option_bind]. rewrite tp_feed_one, E1. cbn [mbind option_bind].
  rewrite E2. cbn [mbind option_bind app].
  destruct (dt_run_nonempty (w + 1) c) as (x & l & ->); [lia|].
  by destruct (cmdt_exchange fuel tx2 rx' port (x :: l)) as [[[[? ?] ?] ?]|].
Qed.

Lemma cmdt_loop fuel tx rx r s t k :
  tp_wf rx -> sessions tx = [s] ->
  tx_at src dst port pgn data
    (if window_end t =? N then SessionState.WaitingForEndOfMsg
     else SessionState.WaitingForCTS) (window_end t) s ->
  sessions rx ≡ₚ t :: r -> rx_at src dst port pgn data k t -> quiet src dst port r ->
  0 <= k < window_end t -> window_end t <= N -> N - window_end t < Z.of_nat fuel ->
  exists tx' rx' st sr,
    cmdt_exchange fuel tx rx port (dt_frame src dst data <$> seqZ (k + 1) (window_end t - k))
    = Some (tx', rx', [OnComplete st], [OnComplete sr]) /\
    sessions tx' = [] /\ tp_wf rx' /\ sessions rx' ≡ₚ r /\
    s_data st = data /\ s_direction st = Transmit /\ s_state st = SessionState.Complete /\
    delivered_session src dst port pgn data sr.
Proof.
  destruct dst_is_destination as [Hd Hb].
  revert tx rx s t k. induction fuel as [|fuel IH]; intros tx rx s t k Hrx Htx Hs Hp Ht Hq Hk HwN Hf;
    [lia|].
  destruct (feed_window src dst port pgn data Hsrc Hdst Hvs Hd Hbytes Hlen rx r k t
    Hrx Hp Ht Hq ltac:(lia) Hb ltac:(fold N; lia)) as (rx1 & Hrx1 & Hcase). cbn zeta in Hcase.
  fold N in Hcase. destruct (Z.eqb_spec (window_end t) N) as [Hw|Hw].
  - destruct Hcase as (sr & E & Hp1 & Hds). rewrite Hw in *.
    cbn [cmdt_exchange]. rewrite E. cbn [mbind option_bind]. rewrite tp_feed_one.
    rewrite (tx_eoma src dst port pgn data Hsrc Hdst Hvs Hpgn Hlen Hvd tx s Htx Hs).
    cbn [mbind option_bind get_pending_data_frames sessions with_sessions drain_sessions app].
    eexists _, _, _, _. split; [done|]. split_and!; try done; apply Hs.
  - destruct Hcase as (t1 & E & Hp1 & Ht1 & Hm1 & Hw1).
    pose proof (rx_max t) as Hmax.
    assert (1 <= s_max_packets_per_cts t <= 16) as Hm.
    { destruct Ht as [Hwf Hdir _ _ _ _ _ _ _ _]. pose proof (sw_dir t Hwf) as Hr.
      rewrite Hdir in Hr. apply Hr. }
    destruct (cmdt_next_window fuel tx rx rx1 _ s (window_end t)
      (Z.min (N - window_end t) (s_max_packets_per_cts t)) E Htx Hs)
      as (tx1 & s1 & -> & Hs1 & Hat1); [lia..|].
    rewrite <- Hw1 in Hat1.
    destruct (IH tx1 rx1 s1 t1 (window_end t)) as (tx2 & rx2 & st & sr & E2 & ?); try done;
      [lia..|].
    replace (window_end t1 - window_end t)
      with (Z.min (N - window_end t) (s_max_packets_per_cts t)) in E2 by lia.
    by exists tx2, rx2, st, sr.
Qed.
End exchange.

(** ** Properties *)

Section transfer.
Context `{Allocator}.

(** The sending call on an idle engine. *)
Lemma send_idle tx pgn data src dst port prio :
  tp_wf tx -> sessions tx = [] -> (0 < max_sessions tx)%nat ->
  in_u 18 pgn -> in_u 8 src -> in_u 8 dst -> bytes data ->
  valid_tp_source src = true -> valid_tp_destination dst = true ->
  8 < Z.of_nat (length data) <= 1785 ->
  let st := if dst =? BROADCAST_ADDRESS then SessionState.SendingData
            else SessionState.WaitingForCTS in
  let s := new_tx_session tx pgn data src dst port prio st in
  tp_send tx pgn data src dst port prio
  = (push_session s tx, Ok [if dst =? BROADCAST_ADDRESS then make_bam s else make_rts s]) /\
  tp_wf (push_session s tx) /\ sessions (push_session s tx) = [s] /\
  tx_at src dst port pgn data st 0 s /\ s_total_bytes s = Z.of_nat (length data) /\
  s_advertised_packets_per_cts s = advertised_packets_per_cts tx.
Proof.
  intros Hw Htx Hcap Hpgn Hs Hd Hb Hvs Hvd Hl st s.
  assert (wrap 32 (Z.of_nat (length data)) = Z.of_nat (length data)) as Hwr
    by (apply wrap_small; unfold in_u; simpl; lia).
  pose proof (new_tx_session_wf tx pgn data src dst port prio st Hw Hpgn Hs Hd Hb Hl eq_refl)
    as Hsw.
  split_and!.
  - unfold tp_send, TP_MAX_DATA_LENGTH, CAN_DATA_LENGTH.
    rewrite pgn_valid_18, Hvs, Hvd, Hwr, Htx by done. cbn [negb existsb length].
    rewrite (proj2 (Z.ltb_ge _ _)), (proj2 (Z.leb_gt _ _)), (proj2 (Nat.leb_gt _ _)) by lia.
    unfold s, st. by destruct (dst =? BROADCAST_ADDRESS).
  - apply tp_wf_push; try done. rewrite Htx. simpl. apply not_elem_of_nil.
  - cbn. by rewrite Htx.
  - by split.
  - done.
  - done.
Qed.

(** broadcast transfer end to end.  An idle sender accepts a 9- to 1785-byte
    payload, the announced number of timer sweeps (each at least 50 ms) emits the data
    frames and reports completion, and any receiver with a free slot and no other
    broadcast from that source, fed those frames in order, reports exactly one
    completed session holding the payload, answers nothing, and keeps its other
    sessions. *)
Theorem tp_bam_transfer tx rx pgn data src port prio es :
  tp_wf tx -> sessions tx = [] -> (0 < max_sessions tx)%nat ->
  in_u 18 pgn -> in_u 8 src -> valid_tp_source src = true -> bytes data ->
  8 < Z.of_nat (length data) <= 1785 ->
  tp_wf rx -> quiet src BROADCAST_ADDRESS port (sessions rx) ->
  (length (sessions rx) < max_sessions rx)%nat ->
  Z.of_nat (length data) <= max_receive_bytes rx ->
  try_reserve_exact (Z.of_nat (length data)) = true ->
  Z.of_nat (length es) = div_ceil (Z.of_nat (length data)) 7 ->
  Forall (fun e => 50 <= e < 2 ^ 32) es ->
  exists tx1 bam tx2 dts rx' st sr,
    tp_send tx pgn data src BROADCAST_ADDRESS port prio = (tx1, Ok [bam]) /\
    tp_updates tx1 es = Some (tx2, dts, [OnComplete st]) /\
    sessions tx2 = [] /\ s_data st = data /\
    tp_feed rx port (bam :: dts) = Some (rx', [], [OnComplete sr]) /\
    delivered_session src BROADCAST_ADDRESS port pgn data sr /\
    tp_wf rx' /\ sessions rx' ≡ₚ sessions rx.
Proof.
  intros Hw Htx Hcap Hpgn Hs Hvs Hb Hl Hrx Hq Hcap2 Hmax Hg Hn He.
  assert (in_u 8 BROADCAST_ADDRESS) as Hd by (by unfold in_u).
  destruct (send_idle tx pgn data src BROADCAST_ADDRESS port prio Hw Htx Hcap Hpgn Hs Hd Hb
    Hvs eq_refl Hl) as (E & Hw1 & Htx1 & Hat & Htot & _).
  rewrite Z.eqb_refl in *. set (s := new_tx_session _ _ _ _ _ _ _ _) in *.
  pose proof (packets_bound data Hl) as HN.
  destruct (bam_updates src BROADCAST_ADDRESS port pgn data Hl es _ s 0 eq_refl Hw1 Htx1 Hat
    ltac:(lia) He ltac:(lia)) as (tx2 & st & E2 & Htx2 & Hst & _).
  rewrite Z.sub_0_r, Z.add_0_l in E2.
  destruct (feed_rest src BROADCAST_ADDRESS port pgn data Hs Hd Hvs eq_refl Hb Hl
    (push_session (opened src BROADCAST_ADDRESS port pgn data 16 0) rx) (sessions rx)
    (opened src BROADCAST_ADDRESS port pgn data 16 0)) as (rx' & sr & E3 & Hrx' & Hp & Hds);
    try done.
  - apply tp_wf_push; try done.
    + by apply (opened_at src BROADCAST_ADDRESS port pgn data Hs Hd Hpgn Hl).
    + apply (receive_path_fresh rx src BROADCAST_ADDRESS port); try done.
      by apply existsb_false.
  - cbn. by rewrite Permutation_app_comm.
  - by apply opened_at.
  - eexists (push_session s tx), (make_bam s), tx2, _, rx', st, sr.
    split; [done|]. split; [exact E2|]. split; [done|]. split; [done|]. split; [|done].
    cbn [tp_feed]. unfold make_bam.
    rewrite Htot. rewrite (rx_open_bam src BROADCAST_ADDRESS port pgn data) by done.
    cbn [mbind option_bind]. by rewrite E3.
Qed.

(** C1: connection-mode transfer end to end.  Between an idle sender and any receiver
    with a free slot and no session on that path, the RTS, the CTS windows the receiver
    grants, the data the sender drains and the final acknowledgement run to completion
    within one exchange round per packet plus two: both sides report exactly one
    completed session with the payload, nothing is aborted, the sender's table is
    empty again and the receiver's other sessions are kept. *)
Theorem tp_cmdt_transfer tx rx pgn data src dst port prio fuel :
  tp_wf tx -> sessions tx = [] -> (0 < max_sessions tx)%nat ->
  in_u 18 pgn -> in_u 8 src -> in_u 8 dst ->
  valid_tp_source src = true -> valid_tp_source dst = true -> bytes data ->
  8 < Z.of_nat (length data) <= 1785 ->
  tp_wf rx -> quiet src dst port (sessions rx) ->
  (length (sessions rx) < max_sessions rx)%nat ->
  Z.of_nat (length data) <= max_receive_bytes rx ->
  try_reserve_exact (Z.of_nat (length data)) = true ->
  div_ceil (Z.of_nat (length data)) 7 + 2 <= Z.of_nat fuel ->
  exists tx1 rts tx2 rx' st sr,
    tp_send tx pgn data src dst port prio = (tx1, Ok [rts]) /\
    cmdt_exchange fuel tx1 rx port [rts]
    = Some (tx2, rx', [OnComplete st], [OnComplete sr]) /\
    sessions tx2 = [] /\ s_data st = data /\ s_state st = SessionState.Complete /\
    delivered_session src dst port pgn data sr /\
    tp_wf rx' /\ sessions rx' ≡ₚ sessions rx.
Proof.
  intros Hw Htx Hcap Hpgn Hs Hd Hvs Hvd Hb Hl Hrx Hq Hcap2 Hmax Hg Hf.
  destruct (dst_is_destination dst Hvd) as [Hvd' Hnb].
  destruct (send_idle tx pgn data src dst port prio Hw Htx Hcap Hpgn Hs Hd Hb Hvs Hvd' Hl)
    as (E & Hw1 & Htx1 & Hat & Htot & Hadv).
  rewrite (proj2 (Z.eqb_neq dst _)) in * by done. set (s := new_tx_session _ _ _ _ _ _ _ _) in *.
  pose proof (packets_bound data Hl) as HN. set (N := div_ceil _ 7) in *.
  pose proof (tw_adv tx Hw) as Ha. unfold TP_MAX_PACKETS_PER_CTS in Ha.
  set (a := advertised_packets_per_cts tx) in *.
  set (t := opened src dst port pgn data a (Z.min N a)).
  assert (rx_at src dst port pgn data 0 t) as Ht by (by apply opened_at).
  destruct fuel as [|fuel]; [lia|].
  assert (tp_feed rx port [make_rts s]
    = Some (push_session t rx, [make_cts dst src (Z.min N a) (0 + 1) pgn], [])) as Hopen.
  { rewrite tp_feed_one. unfold make_rts. rewrite Htot, Hadv.
    by rewrite (rx_open_rts src dst port pgn data) by done. }
  destruct (cmdt_next_window src dst port pgn data Hs Hd Hvs Hpgn Hl Hvd fuel
    (push_session s tx) rx _ [make_rts s] s 0 (Z.min N a) Hopen Htx1 Hat)
    as (tx1 & s1 & E1 & Hs1 & Hat1); [lia..|fold N; lia|].
  assert (window_end t = Z.min N a) as Hwe by (unfold window_end, t; cbn; lia).
  destruct (cmdt_loop src dst port pgn data Hs Hd Hvs Hpgn Hb Hl Hvd fuel tx1
    (push_session t rx) (sessions rx) s1 t 0) as (tx2 & rx2 & st & sr & E2 & R1 & R2 & R3 & R4 & _ & R5 & R6);
    try done; rewrite ?Hwe; try (fold N; lia).
  - apply tp_wf_push; try done; [apply Ht|].
    apply (receive_path_fresh rx src dst port); try done. by apply existsb_false.
  - by rewrite Z.add_0_l in Hat1.
  - cbn. by rewrite Permutation_app_comm.
  - rewrite Hwe, Z.sub_0_r in E2. exists (push_session s tx), (make_rts s), tx2, rx2, st, sr.
    split; [done|]. split; [by rewrite E1|]. done.
Qed.
End transfer.

(** ** Broadcast sessions of one source share a data path

    The RTS arm refuses a second PGN on a busy path because TP.DT frames carry only a
    sequence number; the BAM arm opens a second broadcast session for another PGN of the
    same source, and the data of the second transfer lands in the first. *)

(** after a BAM for PGN 0xFEEC is followed by a BAM for PGN 0xFEEB from the same
    source, the receiver holds two broadcast sessions on one data path, and the two data
    packets of the second transfer are reported as the completed payload of the first
    PGN while the second transfer is left without data. *)
Theorem tp_bam_second_pgn_misdelivered :
  match tp_feed (H := granting) tp_new 0
          [make_bam_fields 0xFEEC 9 0x80; make_bam_fields 0xFEEB 9 0x80] with
  | Some (p1, [], []) =>
      length (sessions p1) = 2%nat /\
      match tp_feed (H := granting) p1 0
              (dt_frame 0x80 0xFF [1; 2; 3; 4; 5; 6; 7; 8; 9] <$> [1; 2]) with
      | Some (p2, [], [OnComplete first]) =>
          s_pgn first = 0xFEEC /\ s_data first = [1; 2; 3; 4; 5; 6; 7; 8; 9] /\
          (fun s => (s_pgn s, s_bytes_transferred s)) <$> sessions p2 = [(0xFEEB, 0)]
      | _ => False
      end
  | _ => False
  end.
Proof. vm_compute. repeat split. Qed.

(** ** Witnesses *)

Definition sample_payload : list Z := [1; 2; 3; 4; 5; 6; 7; 8; 9; 10; 11; 12; 13; 14; 15].

Lemma sample_payload_bytes : bytes sample_payload.
Proof. repeat constructor; by unfold in_u. Qed.

Lemma tp_bam_transfer_witness :
  exists tx1 bam tx2 dts rx' st sr,
    tp_send tp_new 0xFEEC sample_payload 0x80 BROADCAST_ADDRESS 0 Priority.Default
    = (tx1, Ok [bam]) /\
    tp_updates tx1 [50; 60; 70] = Some (tx2, dts, [OnComplete st]) /\
    tp_feed (H := granting) tp_new 0 (bam :: dts) = Some (rx', [], [OnComplete sr]) /\
    delivered_session 0x80 BROADCAST_ADDRESS 0 0xFEEC sample_payload sr.
Proof.
  destruct (tp_bam_transfer (H := granting) tp_new tp_new 0xFEEC sample_payload 0x80 0
    Priority.Default [50; 60; 70] tp_wf_new)
    as (tx1 & bam & tx2 & dts & rx' & st & sr & H1 & H2 & _ & _ & H3 & H4 & _);
    try (by unfold in_u); try done; try apply tp_wf_new.
  - simpl. unfold TP_DEFAULT_MAX_SESSIONS. lia.
  - apply sample_payload_bytes.
  - constructor.
  - simpl. unfold TP_DEFAULT_MAX_SESSIONS. lia.
  - repeat constructor; lia.
  - by exists tx1, bam, tx2, dts, rx', st, sr.
Defined.

Lemma tp_cmdt_transfer_witness :
  exists tx1 rts tx2 rx' st sr,
    tp_send tp_new 0xEF00 sample_payload 0x80 0x42 0 Priority.Default = (tx1, Ok [rts]) /\
    cmdt_exchange (H := granting) 5 tx1 tp_new 0 [rts]
    = Some (tx2, rx', [OnComplete st], [OnComplete sr]) /\
    delivered_session 0x80 0x42 0 0xEF00 sample_payload sr.
Proof.
  destruct (tp_cmdt_transfer (H := granting) tp_new tp_new 0xEF00 sample_payload 0x80 0x42 0
    Priority.Default 5 tp_wf_new)
    as (tx1 & rts & tx2 & rx' & st & sr & H1 & H2 & _ & _ & _ & H3 & _);
    try (by unfold in_u); try done; try apply tp_wf_new.
  - simpl. unfold TP_DEFAULT_MAX_SESSIONS. lia.
  - apply sample_payload_bytes.
  - constructor.
  - simpl. unfold TP_DEFAULT_MAX_SESSIONS. lia.
  - by exists tx1, rts, tx2, rx', st, sr.
Defined.
