(* ===== verification/TpOutcome.v ===== *)
(** Branch-by-branch behaviour of the Transport Protocol engine: what a data packet with
    a right or wrong sequence number does, which packets a CTS makes the sender emit,
    how repeated CTS are bounded, and that a frame touches only the sessions its sender
    takes part in. *)
From S2P Require Export TpSafety.

(** ** Which sessions a frame can touch *)

(** The session involves [a] on [port]. *)
Definition involves (port : Z) (a : Address) (s : TransportSession) : Prop :=
  s_can_port s = port /\ (s_source_address s = a \/ s_destination_address s = a).
#[global] Instance involves_dec port a s : Decision (involves port a s).
Proof. unfold involves. apply _. Defined.

(** The sessions a frame from [a] on [port] must leave alone. *)
Definition bystanders (port : Z) (a : Address) (p : TransportProtocol)
    : list TransportSession := filter (fun s => ~ involves port a s) (sessions p).

(** The result of an operation leaves the bystanders alone. *)
Definition isolated (port : Z) (a : Address) (p : TransportProtocol) (r : tp_result) : Prop :=
  match r with
  | Some (p', _, _) => bystanders port a p' ≡ₚ bystanders port a p
  | None => True
  end.

(** Close a branch that changes nothing but counters. *)
Ltac untouched :=
  unfold isolated; cbv beta iota; first [done|reflexivity|assumption].

Section isolation.
Context (port : Z) (a : Address).

Lemma bystanders_perm p p' s :
  sessions p ≡ₚ s :: sessions p' -> involves port a s ->
  bystanders port a p' ≡ₚ bystanders port a p.
Proof.
  intros Hp Hi. unfold bystanders. rewrite Hp, filter_cons_False by (by intros ?). done.
Qed.

Lemma bystanders_update p i s s' :
  sessions p !! i = Some s -> involves port a s -> involves port a s' ->
  bystanders port a (update_session i s' p) ≡ₚ bystanders port a p.
Proof.
  intros Hi Hs Hs'. destruct (list_focus _ _ _ Hi) as (r & Hr & Hins).
  unfold bystanders. cbn. by rewrite Hins, Hr, !filter_cons_False by (by intros ?).
Qed.

Lemma bystanders_push p s :
  involves port a s -> bystanders port a (push_session s p) ≡ₚ bystanders port a p.
Proof.
  intros Hs. unfold bystanders. cbn.
  rewrite filter_app, filter_cons_False, filter_nil by (by intros ?). by rewrite app_nil_r.
Qed.

Context `{Allocator}.

Lemma rts_open_isolated p p1 f :
  bystanders port a p1 ≡ₚ bystanders port a p -> FrameOps.source f = a ->
  isolated port a p (rts_open p1 f port).
Proof.
  intros Hp Ha. unfold rts_open. unfold_notes.
  destruct (_ <=? _)%nat; [untouched|]. destruct (rx_buffer _ _) as [data|r]; cbn.
  - rewrite <- Hp. apply bystanders_push. split; [done|]. by left.
  - case_bool_decide; untouched.
Qed.

Lemma bam_open_isolated p p1 f :
  bystanders port a p1 ≡ₚ bystanders port a p -> FrameOps.source f = a ->
  isolated port a p (bam_open p1 f port).
Proof.
  intros Hp Ha. unfold bam_open. unfold_notes.
  destruct (_ || _ || _); [destruct (_ <? _); untouched|].
  destruct (_ <=? _)%nat; [untouched|]. destruct (rx_buffer _ _) as [data|r]; cbn.
  - rewrite <- Hp. apply bystanders_push. split; [done|]. by left.
  - case_bool_decide; untouched.
Qed.

(** Dropping the session found by [receive_session_for]. *)
Lemma replaced_bystanders p dst pgn i :
  tp_wf p -> receive_session_for p a dst port pgn = Some i ->
  exists s p', remove_session i p = Some (s, p') /\
    bystanders port a p' ≡ₚ bystanders port a p.
Proof.
  intros Hp (s & Hs & _ & Ha & _ & Hport & _)%receive_session_for_Some.
  destruct (tp_wf_remove p i s Hp Hs) as (p' & E & _ & Hperm & _).
  exists s, p'. split; [done|]. apply (bystanders_perm p p' s); [done|]. split; auto.
Qed.

Lemma handle_rts_isolated p f :
  tp_wf p -> FrameOps.source f = a -> isolated port a p (handle_rts p f port).
Proof.
  intros Hp Ha. unfold handle_rts. unfold_notes.
  destruct (_ || _); [untouched|]. rewrite Ha.
  destruct (receive_session_for p a _ port _) as [i|] eqn:Hi.
  - destruct (replaced_bystanders p _ _ i Hp Hi) as (s & p' & -> & Hb). cbn [mbind option_bind].
    by apply rts_open_isolated.
  - destruct (receive_path_is_active _ _ _ _); [untouched|]. by apply rts_open_isolated.
Qed.

Lemma handle_bam_isolated p f :
  tp_wf p -> FrameOps.source f = a -> isolated port a p (handle_bam p f port).
Proof.
  intros Hp Ha. unfold handle_bam. rewrite Ha.
  destruct (receive_session_for p a _ port _) as [i|] eqn:Hi.
  - destruct (replaced_bystanders p _ _ i Hp Hi) as (s & p' & -> & Hb). cbn [mbind option_bind].
    by apply bam_open_isolated.
  - by apply bam_open_isolated.
Qed.

Lemma same_transfer_involves s s' :
  same_transfer s s' -> involves port a s -> involves port a s'.
Proof. intros [_ _ _ _ E1 E2 E3 _]. unfold involves. by rewrite E1, E2, E3. Qed.

Lemma handle_cts_isolated p f :
  tp_wf p -> cm_frame f -> FrameOps.source f = a -> isolated port a p (handle_cts p f port).
Proof.
  intros Hp [Hf _ _ _] Ha. unfold handle_cts. unfold_notes.
  destruct (position _ _) as [i|] eqn:Hi; [|untouched].
  apply position_Some in Hi as (s & Hls & Hm & _). rewrite Hls. cbn [mbind option_bind].
  apply cts_matches_inv in Hm as (Hdir & Hss & Hsd & _ & Hpo).
  pose proof (tp_wf_lookup p i s Hp Hls) as Hw.
  assert (involves port a s) as Hin by (split; [done|right; congruence]).
  destruct (cts_session_cases s (max_retransmits p) (FrameOps.byte f 1) (FrameOps.byte f 2))
    as (s' & r & -> & Hst & Hr); auto with bus.
  cbn [mbind option_bind]. destruct r as [r|].
  - rewrite !remove_session_stats.
    destruct (tp_wf_overwrite_remove p i s s' Hp Hls) as (p' & -> & _ & Hperm & _).
    cbn. by apply (bystanders_perm p p' s).
  - cbn. apply (bystanders_update p i s); try done. by eapply same_transfer_involves.
Qed.

Lemma handle_eoma_isolated p f :
  tp_wf p -> FrameOps.source f = a -> isolated port a p (handle_eoma p f port).
Proof.
  intros Hp Ha. unfold handle_eoma. unfold_notes.
  destruct (position _ _) as [i|] eqn:Hi; [|untouched].
  apply position_Some in Hi as (s & Hls & Hm & _). rewrite Hls. cbn [mbind option_bind].
  reflect_bools. destruct (_ || _ || _); [untouched|].
  destruct (tp_wf_remove p i s Hp Hls) as (p' & -> & _ & Hperm & _).
  cbn. apply (bystanders_perm p p' s); [done|]. split; [done|right; congruence].
Qed.

Lemma handle_abort_isolated p f :
  tp_wf p -> FrameOps.source f = a -> isolated port a p (handle_abort p f port).
Proof.
  intros Hp Ha. unfold handle_abort. unfold_notes.
  destruct (position _ _) as [i|] eqn:Hi; [|untouched].
  apply position_Some in Hi as (s & Hls & Hm & _). rewrite Hls. cbn [mbind option_bind].
  destruct (tp_wf_overwrite_remove p i s (with_state SessionState.Aborted s) Hp Hls)
    as (p' & -> & _ & Hperm & _).
  cbn. apply (bystanders_perm p p' s); [done|]. apply andb_true_iff in Hm as [Hm1 Hm2].
  apply orb_true_iff in Hm2. reflect_bools. split; [done|].
  destruct Hm2 as [Hm2|Hm2]; reflect_bools; [right|left]; congruence.
Qed.

Lemma dt_ingest_isolated p f i s :
  tp_wf p -> sessions p !! i = Some s -> involves port a s -> session_wf s -> rx_wf s ->
  FrameOps.wf f -> FrameOps.byte f 0 = s_last_sequence s + 1 ->
  isolated port a p (dt_ingest p f i s).
Proof.
  intros Hp Hi Hin Hw Hrx Hf Hseq. rewrite dt_ingest_eq by done. cbn zeta.
  destruct (_ =? total_packets s).
  - destruct (tp_wf_overwrite_remove p i s
      (with_state SessionState.Complete (ingested f s)) Hp Hi) as (p' & -> & _ & Hperm & _).
    cbn. by apply (bystanders_perm p p' s).
  - destruct (is_broadcast_session s); [|destruct (_ =? _)]; cbn;
      by apply (bystanders_update p i s).
Qed.

Lemma handle_dt_isolated p f :
  tp_wf p -> FrameOps.wf f -> FrameOps.source f = a ->
  isolated port a p (handle_dt p f port).
Proof.
  intros Hp Hf Ha. unfold handle_dt. unfold_notes.
  destruct (position _ _) as [i|] eqn:Hi; [|untouched].
  apply position_Some in Hi as (s & Hls & Hm & _). rewrite Hls. cbn [mbind option_bind].
  apply dt_matches_inv in Hm as (Hd & Hs & _ & Hpo).
  pose proof (tp_wf_lookup p i s Hp Hls) as Hw. pose proof (total_packets_le s Hw).
  pose proof (sw_dir s Hw) as Hrx. rewrite Hd in Hrx.
  assert (involves port a s) as Hin by (split; [done|left; congruence]).
  assert (forall r, isolated port a p (dt_abort p i s r)) as Hab.
  { intros r. unfold dt_abort. unfold_notes.
    destruct (is_broadcast_session s); rewrite ?update_session_stats, !remove_session_stats;
      destruct (tp_wf_overwrite_remove p i s (with_state SessionState.Aborted s) Hp Hls)
        as (p' & -> & _ & Hperm & _); cbn; by apply (bystanders_perm p p' s). }
  pose proof Hrx as [_ _ Hinc Hs0 _ _].
  case_bool; [done|]. rewrite checked_add_Some by (simpl; lia). cbn [mbind option_bind].
  destruct (Z.eqb_spec (FrameOps.byte f 0) (s_last_sequence s + 1)); cbn [negb];
    [by apply dt_ingest_isolated|].
  destruct (Z.leb_spec (FrameOps.byte f 0) (s_last_sequence s)); cbn [andb negb]; [done|].
  rewrite (proj2 (Z.ltb_lt _ _)) by lia. done.
Qed.
End isolation.

(** ** Sequence errors *)

(** The reason a data packet with sequence number [seq] aborts a reception that has
    received [last] packets. *)
Definition dt_error (seq last : Z) : AbortReason.t :=
  if seq =? 0 then AbortReason.BadSequence
  else if seq <=? last then AbortReason.DuplicateSequence else AbortReason.BadSequence.

Lemma dt_abort_eq p i s r :
  tp_wf p -> sessions p !! i = Some s ->
  exists p', dt_abort p i s r
    = Some (p', (if is_broadcast_session s then [] else [make_session_abort s r]),
            [OnAbort (from_session s r)]) /\
    sessions p ≡ₚ s :: sessions p'.
Proof.
  intros Hp Hi. unfold dt_abort. unfold_notes.
  destruct (tp_wf_overwrite_remove p i s (with_state SessionState.Aborted s) Hp Hi)
    as (p' & E & _ & Hperm & _).
  destruct (is_broadcast_session s); rewrite ?update_session_stats, !remove_session_stats, E;
    cbn [mbind option_bind]; by eexists.
Qed.

Lemma handle_dt_found p f port i s :
  tp_wf p -> position (dt_matches (FrameOps.source f) (FrameOps.destination f) port)
    (sessions p) = Some i -> sessions p !! i = Some s ->
  handle_dt p f port =
    if FrameOps.byte f 0 =? s_last_sequence s + 1 then dt_ingest p f i s
    else dt_abort p i s (dt_error (FrameOps.byte f 0) (s_last_sequence s)).
Proof.
  intros Hp Hi Hls. pose proof Hi as (s0 & Hls0 & Hm & _)%position_Some.
  rewrite Hls in Hls0. injection Hls0 as <-. apply dt_matches_inv in Hm as (Hd & _).
  pose proof (tp_wf_lookup p i s Hp Hls) as Hw. pose proof (total_packets_le s Hw).
  pose proof (sw_dir s Hw) as Hrx. rewrite Hd in Hrx. destruct Hrx as [_ _ Hinc Hs0 _ _].
  unfold handle_dt. rewrite Hi, Hls. cbn [mbind option_bind]. unfold dt_error.
  destruct (Z.eqb_spec (FrameOps.byte f 0) 0) as [E0|E0].
  { by rewrite (proj2 (Z.eqb_neq _ _)) by lia. }
  rewrite checked_add_Some by (simpl; lia). cbn [mbind option_bind].
  destruct (Z.eqb_spec (FrameOps.byte f 0) (s_last_sequence s + 1)); cbn [negb]; [done|].
  destruct (Z.leb_spec (FrameOps.byte f 0) (s_last_sequence s)); cbn [andb]; [done|].
  by rewrite (proj2 (Z.ltb_lt _ _)) by lia.
Qed.

(** ** CTS and the packets it requests *)

(** Packets already sent, as the sender counts them. *)
Lemma sent_packets s :
  session_wf s -> tx_wf s -> div_ceil (s_bytes_transferred s) TP_BYTES_PER_FRAME
    = s_last_sequence s.
Proof.
  intros Hw [Hb Hs _ _ _]. pose proof (total_packets_le s Hw) as Htp.
  unfold TP_BYTES_PER_FRAME. rewrite Hb. pose proof (div_ceil_7 (Z.min (7 * s_last_sequence s)
    (s_total_bytes s))). lia.
Qed.

Lemma cts_granted_fields rc np ns s :
  let g := cts_granted rc np ns s in
  s_last_sequence g = ns - 1 /\
  s_packets_to_send g = Z.min (Z.min np (total_packets s - (ns - 1))) 16 /\
  total_packets g = total_packets s /\ s_source_address g = s_source_address s /\
  s_destination_address g = s_destination_address s /\ s_data g = s_data s /\
  is_broadcast_session g = is_broadcast_session s /\ s_direction g = s_direction s /\
  s_state g = SessionState.SendingData.
Proof. done. Qed.

Lemma drained_fields s :
  s_last_sequence (drained s) = s_last_sequence s + s_packets_to_send s /\
  s_state (drained s) = (if s_last_sequence s + s_packets_to_send s =? total_packets s
    then SessionState.WaitingForEndOfMsg else SessionState.WaitingForCTS).
Proof. done. Qed.

(** A grant retransmits when it goes back behind the packets already sent. *)
Definition retransmits (ns : Z) (s : TransportSession) : bool := ns - 1 <? s_last_sequence s.

Lemma cts_session_idle s maxr np ns :
  session_wf s -> s_direction s = Transmit -> s_state s <> SessionState.SendingData ->
  in_u 8 np -> in_u 8 ns ->
  let rc := if retransmits ns s then sat_add 8 (s_retransmit_count s) 1 else 0 in
  cts_session maxr np ns s =
    if np =? 0 then Some (with_timer_ms 0 s, None)
    else if (ns =? 0) || (total_packets s <? ns) then
      Some (with_state SessionState.Aborted s, Some AbortReason.BadSequence)
    else if retransmits ns s && (maxr <? rc) then
      Some (with_state SessionState.Aborted (with_retransmit_count rc s),
            Some AbortReason.MaxRetransmitsExceeded)
    else Some (cts_granted rc np ns s, None).
Proof.
  intros Hw Hd Hst Hnp Hns rc. unfold in_u in Hnp, Hns. change (2 ^ 8) with 256 in *.
  pose proof (total_packets_le s Hw) as Htp.
  pose proof (sw_dir s Hw) as Htx. rewrite Hd in Htx.
  unfold cts_session. rewrite bool_decide_eq_false_2 by done.
  destruct (Z.eqb_spec np 0); [done|]. destruct (Z.eqb_spec ns 0); [done|].
  cbn [orb]. destruct (Z.ltb_spec (total_packets s) ns); [done|].
  rewrite (sent_packets s Hw Htx). fold (retransmits ns s). fold rc.
  cbn [s_retransmit_count with_retransmit_count].
  destruct (retransmits ns s && (maxr <? rc)); [done|]. destruct Htx as [_ _ Hm _ _].
  rewrite clamp_window_eq by (done || (change (total_packets _) with (total_packets s); lia)).
  cbn [mbind option_bind]. rewrite checked_sub_Some by lia. cbn [mbind option_bind].
  rewrite checked_mul_Some by (change (2 ^ 32) with 4294967296; lia). cbn [mbind option_bind].
  by replace ((ns - 1) * 7) with (Z.min (7 * (ns - 1)) (s_total_bytes s)) by lia.
Qed.

(** ** Properties *)

Section properties.
Context `{Allocator}.

(** a frame touches only sessions its sender takes part in: whatever well-formed
    frame arrives, the sessions on other ports or between other nodes are unchanged. *)
Theorem tp_frame_isolation p f port p' frames evs :
  tp_wf p -> FrameOps.wf f -> tp_process_frame p f port = Some (p', frames, evs) ->
  bystanders port (FrameOps.source f) p' ≡ₚ bystanders port (FrameOps.source f) p.
Proof.
  intros Hp Hf E.
  assert (isolated port (FrameOps.source f) p (tp_process_frame p f port)) as Hi;
    [|by rewrite E in Hi].
  clear E. unfold tp_process_frame, handle_cm. unfold_notes.
  destruct (pgn_is_valid (pgn_from_cm_bytes (f_data f))) eqn:Hpgn;
    [pose proof (cm_frame_intro f Hf Hpgn)|]; cbn [negb];
  repeat match goal with |- context [if ?b then _ else _] => destruct b end;
    first [untouched|by apply handle_rts_isolated|by apply handle_bam_isolated
      |by apply handle_cts_isolated|by apply handle_eoma_isolated
      |by apply handle_abort_isolated|by apply handle_dt_isolated].
Qed.

(** sequence checking of data packets.  For the reception a DT frame matches: the
    next number in sequence is stored at its offset, advances the session and never
    aborts; zero, a repeat and a gap each remove the session with the documented
    reason, one abort event, and an abort frame exactly when it is not a broadcast. *)
Theorem tp_dt_sequence p f port i s :
  tp_wf p -> FrameOps.wf f ->
  position (dt_matches (FrameOps.source f) (FrameOps.destination f) port) (sessions p)
  = Some i -> sessions p !! i = Some s ->
  let seq := FrameOps.byte f 0 in
  exists p' frames evs, handle_dt p f port = Some (p', frames, evs) /\
  if seq =? s_last_sequence s + 1 then
    exists s', s_last_sequence s' = seq /\
      s_data s' = scatter7 (7 * (seq - 1)) (s_data s) (f_data f) /\
      if seq =? total_packets s
      then evs = [OnComplete s'] /\ sessions p ≡ₚ s :: sessions p'
      else evs = [] /\ sessions p' = <[i:=s']> (sessions p)
  else
    let r := dt_error seq (s_last_sequence s) in
    evs = [OnAbort (from_session s r)] /\ sessions p ≡ₚ s :: sessions p' /\
    frames = if is_broadcast_session s then [] else [make_session_abort s r].
Proof.
  intros Hp Hf Hi Hls seq. rewrite (handle_dt_found p f port i s) by done. fold seq.
  destruct (Z.eqb_spec seq (s_last_sequence s + 1)) as [Hseq|Hseq].
  - pose proof Hi as (s0 & Hls0 & Hm & _)%position_Some.
    rewrite Hls in Hls0. injection Hls0 as <-. apply dt_matches_inv in Hm as (Hd & _).
    pose proof (tp_wf_lookup p i s Hp Hls) as Hw.
    pose proof (sw_dir s Hw) as Hrx. rewrite Hd in Hrx.
    rewrite dt_ingest_eq by done. cbn zeta. fold seq.
    destruct (seq =? total_packets s).
    + destruct (tp_wf_overwrite_remove p i s
        (with_state SessionState.Complete (ingested f s)) Hp Hls) as (p' & -> & _ & Hperm & _).
      cbn [mbind option_bind]. eexists _, _, _. split; [done|].
      by exists (with_state SessionState.Complete (ingested f s)).
    + destruct (is_broadcast_session s); [|destruct (_ =? _)];
        eexists _, _, _; (split; [done|]);
        [by exists (ingested f s)
        |by exists (with_cts_window (seq + 1) (next_window seq s) (ingested f s))
        |by exists (ingested f s)].
  - destruct (dt_abort_eq p i s (dt_error seq (s_last_sequence s)) Hp Hls) as (p' & -> & ?).
    by eexists _, _, _.
Qed.

(** a CTS selects exactly the packets the sender emits next: on a session that is
    not sending, zero packets is a hold that only restarts the timer, a start outside
    the transfer aborts, and an accepted grant of [np] packets from [ns] makes the next
    drain emit packets [ns], [ns+1], ... of the payload, at most 16 and none past the
    end, leaving the session waiting for the next CTS or for the acknowledgement. *)
Theorem tp_cts_drain maxr np ns s :
  session_wf s -> s_direction s = Transmit -> is_broadcast_session s = false ->
  s_state s <> SessionState.SendingData -> in_u 8 np -> in_u 8 ns ->
  exists s' r, cts_session maxr np ns s = Some (s', r) /\
  match r with
  | Some AbortReason.BadSequence => np <> 0 /\ (ns = 0 \/ total_packets s < ns)
  | Some AbortReason.MaxRetransmitsExceeded =>
      retransmits ns s = true /\ maxr < sat_add 8 (s_retransmit_count s) 1
  | Some _ => False
  | None =>
      (np = 0 /\ s' = with_timer_ms 0 s) \/
      exists s2, let c := Z.min (Z.min np (total_packets s - (ns - 1))) 16 in
        1 <= ns <= total_packets s /\ session_wf s' /\
        drain_session s'
        = Some (s2, dt_frame (s_source_address s) (s_destination_address s) (s_data s)
                      <$> seqZ ns c) /\
        s_last_sequence s2 = ns + c - 1 /\
        s_state s2 = if ns + c - 1 =? total_packets s then SessionState.WaitingForEndOfMsg
                     else SessionState.WaitingForCTS
  end.
Proof.
  intros Hw Hd Hb Hst Hnp Hns. rewrite cts_session_idle by done. cbn zeta.
  unfold in_u in Hnp, Hns. change (2 ^ 8) with 256 in *.
  destruct (Z.eqb_spec np 0); [eexists _, _; split; [done|]; by left|].
  destruct (Z.eqb_spec ns 0); [eexists _, _; split; [done|]; cbn; by auto|]. cbn [orb].
  destruct (Z.ltb_spec (total_packets s) ns); [eexists _, _; split; [done|]; cbn; by auto|].
  set (rc := if retransmits ns s then _ else _).
  assert (in_u 8 rc) as Hrc.
  { unfold rc. destruct (retransmits ns s); [|by unfold in_u].
    pose proof (sw_dir s Hw) as Htx. rewrite Hd in Htx. destruct Htx as [_ _ _ [? _] _].
    apply in_u_sat_add; lia. }
  destruct (retransmits ns s && (maxr <? rc)) eqn:Hcap.
  { eexists _, _. split; [done|]. apply andb_true_iff in Hcap as [Hr Hm%Z.ltb_lt].
    unfold rc in Hm. by rewrite Hr in Hm. }
  pose proof (cts_granted_wf s rc np ns Hw Hd Hb Hrc ltac:(lia) ltac:(lia)) as Hg.
  eexists _, _. split; [done|]. right.
  destruct (cts_granted_fields rc np ns s) as (F1 & F2 & F3 & F4 & F5 & F6 & F7 & F8 & F9).
  destruct (drain_session_eq (cts_granted rc np ns s) Hg) as (Hdr & _).
  { unfold cmdt_sending. by rewrite F7, F8, F9, Hb, Hd. }
  destruct (drained_fields (cts_granted rc np ns s)) as (G1 & G2).
  rewrite F1, F2, ?F3 in G1, G2. rewrite F1, F2, F4, F5, F6 in Hdr.
  replace (ns - 1 + 1) with ns in Hdr by lia.
  exists (drained (cts_granted rc np ns s)). cbn zeta. split; [lia|].
  split; [exact Hg|]. split; [exact Hdr|]. rewrite G1, G2.
  split; [lia|]. set (c := Z.min _ 16). by replace (ns - 1 + c) with (ns + c - 1) by lia.
Qed.
End properties.

(** ** Witnesses *)

(** A transmit session of 15 bytes (three packets) waiting for a CTS. *)
Definition sample_tx : TransportSession :=
  new_tx_session tp_new 0xEF00 [1; 2; 3; 4; 5; 6; 7; 8; 9; 10; 11; 12; 13; 14; 15] 0x80 0x42 0
    Priority.Default SessionState.WaitingForCTS.

Lemma sample_tx_wf : session_wf sample_tx.
Proof.
  apply new_tx_session_wf; try done; try (by unfold in_u); [apply tp_wf_new|].
  repeat constructor; by unfold in_u.
Qed.

Lemma tp_frame_isolation_witness :
  exists p' frames evs,
    tp_process_frame (H := granting) tp_new sample_bam 0 = Some (p', frames, evs) /\
    bystanders 0 0x80 p' ≡ₚ bystanders 0 0x80 tp_new.
Proof.
  destruct (tp_process_frame (H := granting) tp_new sample_bam 0) as [[[p' fr] ev]|] eqn:E.
  - exists p', fr, ev. split; [done|].
    exact (tp_frame_isolation (H := granting) tp_new sample_bam 0 p' fr ev tp_wf_new
      sample_bam_wf E).
  - exfalso. vm_compute in E. discriminate.
Defined.

(** An engine receiving a nine-byte broadcast, and a data packet that skips a number. *)
Definition sample_rx : TransportSession :=
  new_rx_session SessionState.ReceivingData 0xFEEC (replicate 9 0xFF) 9 0x80
    BROADCAST_ADDRESS 0 Priority.Lowest 16 0.
Definition sample_gap : Frame := dt_frame 0x80 0xFF [1; 2; 3; 4; 5; 6; 7; 8; 9] 2.

Lemma tp_dt_sequence_witness :
  exists p' frames evs, handle_dt (push_session sample_rx tp_new) sample_gap 0
    = Some (p', frames, evs) /\
    evs = [OnAbort (from_session sample_rx AbortReason.BadSequence)].
Proof.
  destruct (tp_dt_sequence (push_session sample_rx tp_new) sample_gap 0 0 sample_rx)
    as (p' & fr & ev & H & Hev & _).
  - apply tp_wf_push; [apply tp_wf_new| |apply not_elem_of_nil].
    apply (new_rx_session_wf 0xFEEC 9 0x80 0xFF 0 Priority.Lowest 16 0 2); try done;
      by unfold in_u.
  - apply dt_frame_is_wf; try (by unfold in_u). repeat constructor; by unfold in_u.
  - by vm_compute.
  - done.
  - by exists p', fr, ev.
Defined.

Lemma tp_cts_drain_witness :
  exists s' r, cts_session 3 2 1 sample_tx = Some (s', r) /\ r = None.
Proof.
  destruct (tp_cts_drain 3 2 1 sample_tx sample_tx_wf) as (s' & r & H & _);
    try (by unfold in_u); try done.
  exists s', r. split; [done|]. vm_compute in H. by injection H as _ <-.
Defined.
