(* ===== verification/Etp.v ===== *)
(** ISO 11783-3 Extended Transport Protocol: the model of the hosted engine of
    [src/net/etp/etp_protocol_engine.rs] (payloads of 1786 bytes to 117 MB, connection
    mode only).

    The engine is the record [ExtendedTransportProtocol].  As in [Tp], a handler returns
    [option (state * frames * events)], where [None] is a panic.  [rx_buffer],
    [pgn_from_cm_bytes] and the byte helpers are the twins of [Tp]'s. *)
From S2P Require Export Tp.

Definition ETP_TIMEOUT_T1_MS : Z := TP_TIMEOUT_T1_MS.
Definition ETP_TIMEOUT_T2_MS : Z := TP_TIMEOUT_T2_MS.
Definition ETP_TIMEOUT_T3_MS : Z := TP_TIMEOUT_T3_MS.
Definition ETP_DEFAULT_MAX_SESSIONS : nat := 16.

Module etp_cm.
Definition RTS : Z := 0x14.
Definition CTS : Z := 0x15.
Definition DPO : Z := 0x16.
Definition EOMA : Z := 0x17.
Definition ABORT : Z := 0xFF.
End etp_cm.

Inductive EtpEvent : Type :=
| EtpComplete (s : TransportSession)
| EtpAbort (e : TransportAbortEvent).

Record EtpReceiveProfile : Type := mkProfile {
  rp_total_bytes : Z;
  rp_total_packets : Z;
  rp_max_receive_bytes : Z
}.

(** ** Engine state *)

Record ExtendedTransportProtocol : Type := mkEtp {
  etp_sessions : list TransportSession;
  etp_max_receive_bytes : Z;
  etp_max_sessions : nat;
  etp_stats : TransportStats
}.

Definition etp_new : ExtendedTransportProtocol :=
  mkEtp [] ETP_MAX_DATA_LENGTH ETP_DEFAULT_MAX_SESSIONS TransportStats_default.

Definition etp_with_sessions (l : list TransportSession) (p : ExtendedTransportProtocol)
    : ExtendedTransportProtocol :=
  mkEtp l (etp_max_receive_bytes p) (etp_max_sessions p) (etp_stats p).
Definition etp_with_stats (f : TransportStats -> TransportStats)
    (p : ExtendedTransportProtocol) : ExtendedTransportProtocol :=
  mkEtp (etp_sessions p) (etp_max_receive_bytes p) (etp_max_sessions p) (f (etp_stats p)).

Definition etp_set_max_receive_bytes (n : Z) (p : ExtendedTransportProtocol)
    : ExtendedTransportProtocol :=
  mkEtp (etp_sessions p) (Z.min n ETP_MAX_DATA_LENGTH) (etp_max_sessions p) (etp_stats p).
Definition etp_with_max_receive_bytes (n : Z) : ExtendedTransportProtocol :=
  etp_set_max_receive_bytes n etp_new.
Definition etp_set_max_sessions (n : nat) (p : ExtendedTransportProtocol)
    : ExtendedTransportProtocol :=
  mkEtp (etp_sessions p) (etp_max_receive_bytes p) n (etp_stats p).
Definition etp_with_max_sessions (n : nat) : ExtendedTransportProtocol :=
  etp_set_max_sessions n etp_new.
Definition etp_clear_stats (p : ExtendedTransportProtocol) : ExtendedTransportProtocol :=
  etp_with_stats (fun _ => TransportStats_default) p.

Definition etp_note_dropped_frame := etp_with_stats (add_dropped_frames 1).
Definition etp_note_dropped_session := etp_with_stats (add_dropped_sessions 1).
Definition etp_note_abort_sent := etp_with_stats (add_aborts_sent 1).
Definition etp_note_abort_received := etp_with_stats (add_aborts_received 1).
Definition etp_note_timeout := etp_with_stats (add_timeouts 1).
Definition etp_note_resource_rejection := etp_with_stats (add_resource_rejections 1).

Definition etp_update_session (idx : nat) (s : TransportSession)
    (p : ExtendedTransportProtocol) : ExtendedTransportProtocol :=
  etp_with_sessions (<[idx:=s]> (etp_sessions p)) p.
Definition etp_push_session (s : TransportSession) (p : ExtendedTransportProtocol)
    : ExtendedTransportProtocol := etp_with_sessions (etp_sessions p ++ [s]) p.
Definition etp_remove_session (idx : nat) (p : ExtendedTransportProtocol)
    : option (TransportSession * ExtendedTransportProtocol) :=
  '(s, l) ← swap_remove idx (etp_sessions p); Some (s, etp_with_sessions l p).

Definition etp_result : Type :=
  option (ExtendedTransportProtocol * list Frame * list EtpEvent).

(** ** Wire helpers *)

Definition valid_etp_source (source : Address) : bool :=
  negb (source =? NULL_ADDRESS) && negb (source =? BROADCAST_ADDRESS).
Definition valid_etp_destination (destination : Address) : bool :=
  negb (destination =? NULL_ADDRESS) && negb (destination =? BROADCAST_ADDRESS).

(** [((x >> 24) & 0xFF) as u8]. *)
Definition byte3 (x : Z) : Z := Z.land (Z.shiftr x 24) 0xFF.

(** The 32-bit size of bytes 1 to 4 and the 24-bit packet number of bytes 2 to 4. *)
Definition etp_size (f : Frame) : Z :=
  Z.lor (Z.lor (Z.lor (FrameOps.byte f 1) (Z.shiftl (FrameOps.byte f 2) 8))
           (Z.shiftl (FrameOps.byte f 3) 16)) (Z.shiftl (FrameOps.byte f 4) 24).
Definition etp_packet (f : Frame) : Z :=
  Z.lor (Z.lor (FrameOps.byte f 2) (Z.shiftl (FrameOps.byte f 3) 8))
    (Z.shiftl (FrameOps.byte f 4) 16).

Definition etp_cm_id (src dst : Address) : Identifier.t :=
  Identifier.encode Priority.Lowest PGN_ETP_CM src dst.
Definition etp_dt_id (src dst : Address) : Identifier.t :=
  Identifier.encode Priority.Lowest PGN_ETP_DT src dst.

Definition etp_make_rts_fields (pgn : Pgn) (total_bytes : Z) (source destination : Address)
    : Frame :=
  FrameOps.new8 (etp_cm_id source destination)
    [etp_cm.RTS; byte0 total_bytes; byte1 total_bytes; byte2 total_bytes; byte3 total_bytes;
     byte0 pgn; byte1 pgn; byte2 pgn].
Definition etp_make_rts (s : TransportSession) : Frame :=
  etp_make_rts_fields (s_pgn s) (s_total_bytes s) (s_source_address s)
    (s_destination_address s).

Definition make_dpo_fields (pgn : Pgn) (source destination : Address)
    (packets_to_send packet_offset : Z) : Frame :=
  FrameOps.new8 (etp_cm_id source destination)
    [etp_cm.DPO; packets_to_send; byte0 packet_offset; byte1 packet_offset;
     byte2 packet_offset; byte0 pgn; byte1 pgn; byte2 pgn].
Definition make_dpo (s : TransportSession) : Frame :=
  make_dpo_fields (s_pgn s) (s_source_address s) (s_destination_address s)
    (s_packets_to_send s) (s_bytes_transferred s / 7).

Definition etp_make_cts (src dst : Address) (num_packets next_packet : Z) (pgn : Pgn)
    : Frame :=
  FrameOps.new8 (etp_cm_id src dst)
    [etp_cm.CTS; num_packets; byte0 next_packet; byte1 next_packet; byte2 next_packet;
     byte0 pgn; byte1 pgn; byte2 pgn].

Definition etp_make_eoma (src dst : Address) (total_bytes : Z) (pgn : Pgn) : Frame :=
  FrameOps.new8 (etp_cm_id src dst)
    [etp_cm.EOMA; byte0 total_bytes; byte1 total_bytes; byte2 total_bytes; byte3 total_bytes;
     byte0 pgn; byte1 pgn; byte2 pgn].

Definition etp_make_abort_fields (src dst : Address) (pgn : Pgn) (reason : AbortReason.t)
    : Frame :=
  FrameOps.new8 (etp_cm_id src dst)
    [etp_cm.ABORT; AbortReason.as_u8 reason; 0xFF; 0xFF; 0xFF;
     byte0 pgn; byte1 pgn; byte2 pgn].

Definition etp_make_session_abort (s : TransportSession) (reason : AbortReason.t) : Frame :=
  match s_direction s with
  | Transmit =>
      etp_make_abort_fields (s_source_address s) (s_destination_address s) (s_pgn s) reason
  | Receive =>
      etp_make_abort_fields (s_destination_address s) (s_source_address s) (s_pgn s) reason
  end.

(** [generate_data_frames]: the loop [for i in 0..count]; the sequence number restarts
    at 1 in every DPO group. *)
Fixpoint etp_generate_data_frames (count : nat) (i : Z) (s : TransportSession)
    : option (TransportSession * list Frame) :=
  match count with
  | O => Some (s, [])
  | S count =>
      if s_total_bytes s <=? s_bytes_transferred s then Some (s, [])
      else
        let id := etp_dt_id (s_source_address s) (s_destination_address s) in
        seq ← checked_add 8 i 1;
        data ← copy_out_loop 32 7 0 (s_data s) (s_bytes_transferred s) (s_total_bytes s)
                 (seq :: replicate 7 0xFF);
        next ← checked_add 32 (s_bytes_transferred s) TP_BYTES_PER_FRAME;
        let s := with_bytes_transferred (Z.min next (s_total_bytes s)) s in
        '(s, frames) ← etp_generate_data_frames count (i + 1) s;
        Some (s, FrameOps.new8 id data :: frames)
  end.

(** [receive_profile_for_advertised_size]. *)
Definition receive_profile_for_advertised_size (p : ExtendedTransportProtocol)
    (total_bytes : Z) : Result EtpReceiveProfile AbortReason.t :=
  if negb ((TP_MAX_DATA_LENGTH + 1 <=? total_bytes) && (total_bytes <=? ETP_MAX_DATA_LENGTH))
  then Err AbortReason.UnexpectedDataSize
  else if etp_max_receive_bytes p <? total_bytes then Err AbortReason.ResourcesUnavailable
  else Ok (mkProfile total_bytes (div_ceil total_bytes TP_BYTES_PER_FRAME)
             (etp_max_receive_bytes p)).

(** ** Sending *)

Definition etp_path (dir : TransportDirection) (source destination : Address) (port : Z)
    (s : TransportSession) : bool :=
  bool_decide (s_direction s = dir) && (s_source_address s =? source)
  && (s_destination_address s =? destination) && (s_can_port s =? port).
Definition transmit_dt_path_is_active (p : ExtendedTransportProtocol)
    (source destination : Address) (port : Z) : bool :=
  existsb (etp_path Transmit source destination port) (etp_sessions p).
Definition receive_dt_path_is_active (p : ExtendedTransportProtocol)
    (source destination : Address) (port : Z) : bool :=
  existsb (etp_path Receive source destination port) (etp_sessions p).

Definition etp_tx_session (pgn : Pgn) (data : list Z) (source dest : Address) (port : Z)
    (priority : Priority.t) : TransportSession :=
  mkSession Transmit SessionState.WaitingForCTS pgn data
    (wrap 32 (Z.of_nat (length data))) 0 source dest port priority
    0 0 0 TP_MAX_PACKETS_PER_CTS TP_MAX_PACKETS_PER_CTS 1 0 0 0 0.

(** [ExtendedTransportProtocol::send].  [data.len() as u32] truncates. *)
Definition etp_send (p : ExtendedTransportProtocol) (pgn : Pgn) (data : list Z)
    (source dest : Address) (port : Z) (priority : Priority.t)
    : ExtendedTransportProtocol * Result (list Frame) Error.t :=
  let len := wrap 32 (Z.of_nat (length data)) in
  if negb (pgn_is_valid pgn) then
    (p, Err (Error.invalid_data ("ETP target PGN 0x" +:+ format_hex 0 pgn +:+
               " exceeds the 18-bit J1939/ISOBUS PGN range")))
  else if negb (valid_etp_source source) then (p, Err (Error.invalid_address source))
  else if negb (valid_etp_destination dest) then (p, Err (Error.invalid_address dest))
  else if ETP_MAX_DATA_LENGTH <? len then
    (etp_note_resource_rejection p, Err Error.buffer_overflow)
  else if len <=? TP_MAX_DATA_LENGTH then
    (p, Err (Error.invalid_state "use TP for <= 1785 bytes"))
  else if transmit_dt_path_is_active p source dest port then
    (p, Err (Error.with_message ErrorCode.SessionExists "session already active"))
  else if (etp_max_sessions p <=? length (etp_sessions p))%nat then
    (etp_note_resource_rejection p,
     Err (Error.with_message ErrorCode.NoResources "no ETP session slots available"))
  else
    let session := etp_tx_session pgn data source dest port priority in
    (etp_push_session session p, Ok [etp_make_rts session]).

(** ** Timers *)

(** [deadline_ms]: the [_] arm is [u32::MAX]. *)
Definition etp_deadline (state : SessionState.t) : Z :=
  match state with
  | SessionState.WaitingForCTS | SessionState.WaitingForEndOfMsg => ETP_TIMEOUT_T3_MS
  | SessionState.WaitingForData => ETP_TIMEOUT_T2_MS
  | SessionState.ReceivingData => ETP_TIMEOUT_T1_MS
  | _ => 2 ^ 32 - 1
  end.
Definition etp_timed_out (s : TransportSession) : bool :=
  etp_deadline (s_state s) <=? s_timer_ms s.

(** The [while i < self.sessions.len()] loop of [update]. *)
Fixpoint etp_update_loop (fuel i : nat) (elapsed_ms : Z) (p : ExtendedTransportProtocol)
    : etp_result :=
  match etp_sessions p !! i with
  | None => Some (p, [], [])
  | Some s =>
      match fuel with
      | O => None
      | S fuel =>
          let s := with_timer_ms (sat_add 32 (s_timer_ms s) elapsed_ms) s in
          if etp_timed_out s then
            let s := with_state SessionState.Aborted s in
            let p := etp_update_session i s p in
            let p := etp_note_abort_sent (etp_note_dropped_session (etp_note_timeout p)) in
            '(_, p) ← etp_remove_session i p;
            '(p, frames, evs) ← etp_update_loop fuel i elapsed_ms p;
            Some (p, etp_make_session_abort s AbortReason.Timeout :: frames,
                  EtpAbort (from_session s AbortReason.Timeout) :: evs)
          else etp_update_loop fuel (S i) elapsed_ms (etp_update_session i s p)
      end
  end.

(** [ExtendedTransportProtocol::update]: one iteration per session suffices. *)
Definition etp_update (p : ExtendedTransportProtocol) (elapsed_ms : Z) : etp_result :=
  etp_update_loop (length (etp_sessions p)) 0 elapsed_ms p.

Definition etp_sending (s : TransportSession) : bool :=
  bool_decide (s_state s = SessionState.SendingData)
  && bool_decide (s_direction s = Transmit).

(** The body of the [for] loop of [get_pending_data_frames]. *)
Definition etp_drain_session (s : TransportSession)
    : option (TransportSession * list Frame) :=
  if etp_sending s then
    let dpo := make_dpo s in
    '(s, frames) ← etp_generate_data_frames (Z.to_nat (s_packets_to_send s)) 0 s;
    let state := if s_total_bytes s <=? s_bytes_transferred s
                 then SessionState.WaitingForEndOfMsg else SessionState.WaitingForCTS in
    Some (with_timer_ms 0 (with_state state s), dpo :: frames)
  else Some (s, []).

Fixpoint etp_drain_sessions (l : list TransportSession)
    : option (list TransportSession * list Frame) :=
  match l with
  | [] => Some ([], [])
  | s :: l =>
      '(s, frames) ← etp_drain_session s;
      '(l, rest) ← etp_drain_sessions l;
      Some (s :: l, frames ++ rest)
  end.

(** [ExtendedTransportProtocol::get_pending_data_frames]. *)
Definition etp_get_pending_data_frames (p : ExtendedTransportProtocol)
    : option (ExtendedTransportProtocol * list Frame) :=
  '(l, frames) ← etp_drain_sessions (etp_sessions p);
  Some (etp_with_sessions l p, frames).

(** [ExtendedTransportProtocol::abort_sessions_for_address]. *)
Definition etp_abort_sessions_for_address (p : ExtendedTransportProtocol) (port : Z)
    (address : Address) : ExtendedTransportProtocol * list Frame :=
  (etp_with_sessions
     (filter (fun s => s_can_port s <> port
                \/ (s_source_address s <> address /\ s_destination_address s <> address))
        (etp_sessions p)) p, []).

(** ** Connection management *)

(** The rejections of the RTS arm: an abort frame answering the sender. *)
Definition etp_reject (p : ExtendedTransportProtocol) (frame : Frame)
    (reason : AbortReason.t) (resources : bool) : etp_result :=
  let p := etp_note_dropped_frame p in
  let p := if resources then etp_note_resource_rejection p else p in
  Some (etp_note_abort_sent p,
        [etp_make_abort_fields (FrameOps.destination frame) (FrameOps.source frame)
           (pgn_from_cm_bytes (f_data frame)) reason], []).

Definition etp_rx_session (pgn : Pgn) (data : list Z) (total_bytes : Z)
    (source destination : Address) (port : Z) (priority : Priority.t) : TransportSession :=
  mkSession Receive SessionState.WaitingForData pgn data total_bytes 0 source destination
    port priority 0 0 0 TP_MAX_PACKETS_PER_CTS TP_MAX_PACKETS_PER_CTS 1
    (wrap 8 TP_MAX_PACKETS_PER_CTS) 0 0 0.

(** The [etp_cm::RTS] arm of [handle_cm]. *)
Definition etp_handle_rts `{Allocator} (p : ExtendedTransportProtocol) (frame : Frame)
    (port : Z) : etp_result :=
  let src := FrameOps.source frame in
  let dst := FrameOps.destination frame in
  let cm_pgn := pgn_from_cm_bytes (f_data frame) in
  let msg_size := etp_size frame in
  match receive_profile_for_advertised_size p msg_size with
  | Err AbortReason.UnexpectedDataSize =>
      etp_reject p frame AbortReason.UnexpectedDataSize false
  | Err reason =>
      etp_reject p frame reason (bool_decide (reason = AbortReason.ResourcesUnavailable))
  | Ok profile =>
      if 0xFFFFFF <? rp_total_packets profile then
        etp_reject p frame AbortReason.UnexpectedDataSize false
      else if receive_dt_path_is_active p src dst port then
        etp_reject p frame AbortReason.AlreadyInSession false
      else if (etp_max_sessions p <=? length (etp_sessions p))%nat then
        etp_reject p frame AbortReason.ResourcesUnavailable true
      else
        match rx_buffer msg_size (etp_max_receive_bytes p) with
        | Err reason =>
            etp_reject p frame reason
              (bool_decide (reason = AbortReason.ResourcesUnavailable))
        | Ok data =>
            let session := etp_rx_session cm_pgn data msg_size src dst port
                             (FrameOps.priority frame) in
            Some (etp_push_session session p,
                  [etp_make_cts dst src (wrap 8 TP_MAX_PACKETS_PER_CTS) 1 cm_pgn], [])
        end
  end.

Definition etp_cts_matches (src dst : Address) (pgn : Pgn) (port : Z)
    (s : TransportSession) : bool :=
  bool_decide (s_direction s = Transmit) && (s_source_address s =? dst)
  && (s_destination_address s =? src) && (s_pgn s =? pgn)
  && bool_decide (s_state s = SessionState.WaitingForCTS
                  \/ s_state s = SessionState.SendingData)
  && (s_can_port s =? port).

(** [(num_packets as u32).min(total - (next_pkt - 1)).min(TP_MAX_PACKETS_PER_CTS) as u8]. *)
Definition etp_clamp_window (s : TransportSession) (num_packets next_pkt : Z) : option Z :=
  prev ← checked_sub next_pkt 1;
  remaining ← checked_sub (total_packets s) prev;
  Some (wrap 8 (Z.min (Z.min num_packets remaining) TP_MAX_PACKETS_PER_CTS)).

Definition etp_is_duplicate_current_window (s : TransportSession)
    (num_packets next_pkt : Z) : option bool :=
  if negb (num_packets =? 0) && negb (next_pkt =? 0) && (next_pkt <=? total_packets s)
     && (next_pkt =? s_bytes_transferred s / 7 + 1)
  then w ← etp_clamp_window s num_packets next_pkt; Some (s_packets_to_send s =? w)
  else Some false.

(** What a CTS does to the transmit session it matches, and the reason to abort it. *)
Definition etp_cts_session (num_packets next_pkt : Z) (s : TransportSession)
    : option (TransportSession * option AbortReason.t) :=
  if bool_decide (s_state s = SessionState.SendingData) then
    dup ← etp_is_duplicate_current_window s num_packets next_pkt;
    if (dup : bool) then Some (with_timer_ms 0 s, None)
    else Some (with_state SessionState.Aborted s, Some AbortReason.ConnectionModeError)
  else if num_packets =? 0 then Some (with_timer_ms 0 s, None)
  else if (next_pkt =? 0) || (total_packets s <? next_pkt) then
    Some (with_state SessionState.Aborted s, Some AbortReason.BadSequence)
  else
    clamped ← etp_clamp_window s num_packets next_pkt;
    prev ← checked_sub next_pkt 1;
    sent ← checked_mul 32 prev 7;
    Some (with_timer_ms 0 (with_bytes_transferred sent (with_packets_to_send clamped
            (with_state SessionState.SendingData s))), None).

(** The [etp_cm::CTS] arm: the loop acts on the first matching session. *)
Definition etp_handle_cts (p : ExtendedTransportProtocol) (frame : Frame) (port : Z)
    : etp_result :=
  let src := FrameOps.source frame in
  let dst := FrameOps.destination frame in
  let cm_pgn := pgn_from_cm_bytes (f_data frame) in
  match position (etp_cts_matches src dst cm_pgn port) (etp_sessions p) with
  | None => Some (etp_note_dropped_frame p, [], [])
  | Some idx =>
      s ← etp_sessions p !! idx;
      '(s, abort) ← etp_cts_session (FrameOps.byte frame 1) (etp_packet frame) s;
      let p := etp_update_session idx s p in
      match abort with
      | None => Some (p, [], [])
      | Some reason =>
          let p := etp_note_abort_sent (etp_note_dropped_session (etp_note_dropped_frame p)) in
          '(_, p) ← etp_remove_session idx p;
          Some (p, [etp_make_session_abort s reason], [EtpAbort (from_session s reason)])
      end
  end.

(** The abort arms of DPO and DT: the receiver aborts with [BadSequence]. *)
Definition etp_abort_receive (p : ExtendedTransportProtocol) (idx : nat)
    (s : TransportSession) : etp_result :=
  let abort := etp_make_session_abort s AbortReason.BadSequence in
  let s := with_state SessionState.Aborted s in
  let p := etp_note_dropped_session (etp_note_dropped_frame (etp_update_session idx s
             (etp_note_abort_sent p))) in
  '(_, p) ← etp_remove_session idx p;
  Some (p, [abort], [EtpAbort (from_session s AbortReason.BadSequence)]).

Definition dpo_matches (src dst : Address) (pgn : Pgn) (port : Z) (s : TransportSession)
    : bool :=
  bool_decide (s_direction s = Receive) && (s_source_address s =? src)
  && (s_destination_address s =? dst) && (s_pgn s =? pgn) && (s_can_port s =? port).

(** [packet_window_valid]. *)
Definition packet_window_valid (s : TransportSession) (num_packets packet_offset : Z)
    : option bool :=
  left ← checked_sub (s_total_bytes s) (s_bytes_transferred s);
  let remaining_packets := div_ceil left 7 in
  Some (negb (num_packets =? 0) && (num_packets <=? s_cts_window_size s)
        && (num_packets <=? remaining_packets)
        && (packet_offset =? s_bytes_transferred s / 7)).

(** The [etp_cm::DPO] arm. *)
Definition etp_handle_dpo (p : ExtendedTransportProtocol) (frame : Frame) (port : Z)
    : etp_result :=
  let src := FrameOps.source frame in
  let dst := FrameOps.destination frame in
  let cm_pgn := pgn_from_cm_bytes (f_data frame) in
  let num_packets := FrameOps.byte frame 1 in
  match position (dpo_matches src dst cm_pgn port) (etp_sessions p) with
  | None => Some (etp_note_dropped_frame p, [], [])
  | Some idx =>
      s ← etp_sessions p !! idx;
      valid ← packet_window_valid s num_packets (etp_packet frame);
      if negb valid then etp_abort_receive p idx s
      else
        let s := with_dpo_packet_offset (etp_packet frame) s in
        let s := with_cts_window (s_cts_window_start s) num_packets s in
        let s := with_timer_ms 0 (with_last_sequence 0 (with_packets_to_send num_packets s)) in
        Some (etp_update_session idx s p, [], [])
  end.

(** The [etp_cm::EOMA] arm. *)
Definition etp_handle_eoma (p : ExtendedTransportProtocol) (frame : Frame) (port : Z)
    : etp_result :=
  let src := FrameOps.source frame in
  let dst := FrameOps.destination frame in
  let cm_pgn := pgn_from_cm_bytes (f_data frame) in
  match position (fun s => bool_decide (s_direction s = Transmit)
                    && (s_source_address s =? dst) && (s_destination_address s =? src)
                    && (s_pgn s =? cm_pgn) && (s_can_port s =? port)) (etp_sessions p) with
  | None => Some (etp_note_dropped_frame p, [], [])
  | Some idx =>
      s ← etp_sessions p !! idx;
      if negb (bool_decide (s_state s = SessionState.WaitingForEndOfMsg))
         || negb (etp_size frame =? s_total_bytes s)
      then Some (etp_note_dropped_frame p, [], [])
      else
        '(session, p) ← etp_remove_session idx p;
        Some (p, [], [EtpComplete (with_state SessionState.Complete session)])
  end.

(** The [etp_cm::ABORT] arm. *)
Definition etp_handle_abort (p : ExtendedTransportProtocol) (frame : Frame) (port : Z)
    : etp_result :=
  let src := FrameOps.source frame in
  let dst := FrameOps.destination frame in
  let cm_pgn := pgn_from_cm_bytes (f_data frame) in
  let reason := default AbortReason.Other (AbortReason.try_from_u8 (FrameOps.byte frame 1)) in
  match position (fun s => (s_pgn s =? cm_pgn) && (s_can_port s =? port)
                    && ((s_source_address s =? dst) && (s_destination_address s =? src)
                        || (s_source_address s =? src) && (s_destination_address s =? dst)))
          (etp_sessions p) with
  | None => Some (etp_note_dropped_frame p, [], [])
  | Some idx =>
      s ← etp_sessions p !! idx;
      let s := with_state SessionState.Aborted s in
      '(_, p) ← etp_remove_session idx (etp_update_session idx s p);
      Some (etp_note_dropped_session (etp_note_abort_received p), [],
            [EtpAbort (from_session s reason)])
  end.

(** [ExtendedTransportProtocol::handle_cm]. *)
Definition etp_handle_cm `{Allocator} (p : ExtendedTransportProtocol) (frame : Frame)
    (port : Z) : etp_result :=
  let control_byte := FrameOps.byte frame 0 in
  if negb (pgn_is_valid (pgn_from_cm_bytes (f_data frame))) then
    Some (etp_note_dropped_frame p, [], [])
  else if control_byte =? etp_cm.RTS then etp_handle_rts p frame port
  else if control_byte =? etp_cm.CTS then etp_handle_cts p frame port
  else if control_byte =? etp_cm.DPO then etp_handle_dpo p frame port
  else if control_byte =? etp_cm.EOMA then etp_handle_eoma p frame port
  else if control_byte =? etp_cm.ABORT then etp_handle_abort p frame port
  else Some (etp_note_dropped_frame p, [], []).

(** ** Data *)

Definition etp_dt_matches (src dst : Address) (port : Z) (s : TransportSession) : bool :=
  bool_decide (s_direction s = Receive) && (s_source_address s =? src)
  && (s_destination_address s =? dst) && (s_can_port s =? port)
  && bool_decide (s_state s = SessionState.WaitingForData).

(** The accepting tail of [handle_dt]. *)
Definition etp_dt_ingest (p : ExtendedTransportProtocol) (frame : Frame) (idx : nat)
    (s : TransportSession) : etp_result :=
  let seq := FrameOps.byte frame 0 in
  packet ← checked_add 32 (s_dpo_packet_offset s) seq;
  prev ← checked_sub packet 1;
  byte_offset ← checked_mul 32 prev 7;
  data ← copy_in_loop 32 7 0 (s_data s) byte_offset (s_total_bytes s) (f_data frame);
  stop ← checked_add 32 byte_offset 7;
  let s := with_timer_ms 0 (with_last_sequence seq (with_bytes_transferred
             (Z.min stop (s_total_bytes s)) (with_data data s))) in
  if s_total_bytes s <=? s_bytes_transferred s then
    let s := with_state SessionState.Complete s in
    '(session, p) ← etp_remove_session idx (etp_update_session idx s p);
    Some (p, [etp_make_eoma (s_destination_address s) (s_source_address s)
                (s_total_bytes s) (s_pgn s)],
          [EtpComplete session])
  else if s_cts_window_size s <=? seq then
    next_pkt ← checked_add 32 packet 1;
    left ← checked_sub (s_total_bytes s) (s_bytes_transferred s);
    let next_count := wrap 8 (Z.min (div_ceil left 7) TP_MAX_PACKETS_PER_CTS) in
    let s := with_packets_to_send 0 (with_cts_window (s_cts_window_start s) next_count s) in
    Some (etp_update_session idx s p,
          [etp_make_cts (s_destination_address s) (s_source_address s) next_count next_pkt
             (s_pgn s)], [])
  else Some (etp_update_session idx s p, [], []).

(** [ExtendedTransportProtocol::handle_dt]. *)
Definition etp_handle_dt (p : ExtendedTransportProtocol) (frame : Frame) (port : Z)
    : etp_result :=
  let seq := FrameOps.byte frame 0 in
  match position (etp_dt_matches (FrameOps.source frame) (FrameOps.destination frame) port)
          (etp_sessions p) with
  | None => Some (etp_note_dropped_frame p, [], [])
  | Some idx =>
      s ← etp_sessions p !! idx;
      if s_packets_to_send s =? 0 then etp_abort_receive p idx s
      else
        expected ← checked_add 8 (s_last_sequence s) 1;
        if negb (seq =? expected) then etp_abort_receive p idx s
        else etp_dt_ingest p frame idx s
  end.

(** [ExtendedTransportProtocol::process_frame]. *)
Definition etp_process_frame `{Allocator} (p : ExtendedTransportProtocol) (frame : Frame)
    (port : Z) : etp_result :=
  let is_etp := (FrameOps.pgn frame =? PGN_ETP_CM) || (FrameOps.pgn frame =? PGN_ETP_DT) in
  if is_etp && (f_length frame <? 8) then Some (etp_note_dropped_frame p, [], [])
  else if is_etp && (negb (valid_etp_source (FrameOps.source frame))
                     || negb (valid_etp_destination (FrameOps.destination frame))) then
    Some (etp_note_dropped_frame p, [], [])
  else if FrameOps.pgn frame =? PGN_ETP_CM then etp_handle_cm p frame port
  else if FrameOps.pgn frame =? PGN_ETP_DT then etp_handle_dt p frame port
  else Some (p, [], []).
