(* ===== verification/EtpInv.v ===== *)
(** Invariant of the Extended Transport Protocol engine of [Etp]: well-formed sessions
    on pairwise distinct DT paths, the frames the engine builds, draining and the timer
    sweep. *)
From S2P Require Export Etp TpInv.

(** ** Invariant *)

(** A reception: [dpo + last_sequence] packets are in, the rest of the granted window
    is either announced by a DPO ([packets_to_send] is the window) or still to be. *)
Record etp_rx_wf (s : TransportSession) : Prop := {
  erx_state : s_state s = SessionState.WaitingForData;
  erx_progress :
    s_bytes_transferred s = 7 * (s_dpo_packet_offset s + s_last_sequence s);
  erx_incomplete : s_bytes_transferred s < s_total_bytes s;
  erx_dpo : 0 <= s_dpo_packet_offset s;
  erx_seq : 0 <= s_last_sequence s <= 16;
  erx_window : 1 <= s_cts_window_size s <= 16;
  erx_grant :
    (s_packets_to_send s = 0 /\
     s_dpo_packet_offset s + s_last_sequence s + s_cts_window_size s <= total_packets s)
    \/ (s_packets_to_send s = s_cts_window_size s /\
        s_last_sequence s < s_cts_window_size s /\
        s_dpo_packet_offset s + s_cts_window_size s <= total_packets s)
}.

(** A transmission whose first [k] packets have been sent. *)
Record etp_tx_wf (k : Z) (s : TransportSession) : Prop := {
  etx_progress : s_bytes_transferred s = Z.min (7 * k) (s_total_bytes s);
  etx_packets : 0 <= k <= total_packets s;
  etx_state : match s_state s with
              | SessionState.WaitingForCTS => k < total_packets s
              | SessionState.SendingData =>
                  1 <= s_packets_to_send s <= 16 /\ k + s_packets_to_send s <= total_packets s
              | SessionState.WaitingForEndOfMsg => k = total_packets s
              | _ => False
              end
}.

Record etp_session_wf (s : TransportSession) : Prop := {
  esw_total : TP_MAX_DATA_LENGTH < s_total_bytes s <= ETP_MAX_DATA_LENGTH;
  esw_len : Z.of_nat (length (s_data s)) = s_total_bytes s;
  esw_bytes : bytes (s_data s);
  esw_pgn : in_u 18 (s_pgn s);
  esw_src : in_u 8 (s_source_address s);
  esw_dst : in_u 8 (s_destination_address s);
  esw_src_ok : valid_etp_source (s_source_address s) = true;
  esw_dst_ok : valid_etp_destination (s_destination_address s) = true;
  esw_timer : in_u 32 (s_timer_ms s);
  esw_dir : match s_direction s with
            | Receive => etp_rx_wf s
            | Transmit => exists k, etp_tx_wf k s
            end
}.

Definition etp_session_path (s : TransportSession) : TransportDirection * Z * Z * Z :=
  (s_direction s, s_source_address s, s_destination_address s, s_can_port s).

Record etp_wf (p : ExtendedTransportProtocol) : Prop := {
  ew_sessions : Forall etp_session_wf (etp_sessions p);
  ew_paths : NoDup (etp_session_path <$> etp_sessions p);
  ew_receive : 0 <= etp_max_receive_bytes p <= ETP_MAX_DATA_LENGTH
}.

(** What a frame handler owes its caller. *)
Definition etp_safe (p : ExtendedTransportProtocol) (r : etp_result) : Prop :=
  exists p' frames evs, r = Some (p', frames, evs) /\ etp_wf p' /\
    Forall FrameOps.wf frames /\
    (length (etp_sessions p')
     <= Nat.max (length (etp_sessions p)) (etp_max_sessions p))%nat.

(** ** Bytes on the wire *)

Lemma byte3_range x : in_u 8 (byte3 x).
Proof. apply (in_u_land_ones 8). lia. Qed.
#[export] Hint Resolve byte3_range : bus.

Lemma le32_join x :
  in_u 32 x ->
  Z.lor (Z.lor (Z.lor (byte0 x) (Z.shiftl (byte1 x) 8)) (Z.shiftl (byte2 x) 16))
    (Z.shiftl (byte3 x) 24) = x.
Proof.
  intros Hx. unfold byte0, byte1, byte2, byte3. change 255 with (Z.ones 8).
  apply Z.bits_inj'. intros n Hn.
  destruct (Z.ltb_spec n 8); [|destruct (Z.ltb_spec n 16); [|destruct (Z.ltb_spec n 24);
    [|destruct (Z.ltb_spec n 32)]]]; bits_norm; bits_done.
Qed.

Lemma etp_packet_range f : FrameOps.wf f -> in_u 24 (etp_packet f).
Proof.
  intros Hf. pose proof (fun i => byte_range f i Hf) as Hb.
  apply in_u_lor; [lia|apply in_u_lor; [lia| |]|].
  - eapply in_u_mono; [|apply Hb]. lia.
  - eapply (in_u_mono 16); [lia|]. apply (in_u_shiftl 8 8); [lia|lia|apply Hb].
  - apply (in_u_shiftl 8 16); [lia|lia|apply Hb].
Qed.

Lemma etp_cm_frame_wf src dst data :
  in_u 8 src -> in_u 8 dst -> length data = 8%nat -> bytes data ->
  FrameOps.wf (FrameOps.new8 (etp_cm_id src dst) data).
Proof. intros. by apply wf_new8. Qed.

Ltac etp_frame_bytes :=
  repeat (apply Forall_cons_2; [first [apply byte0_range|apply byte1_range
    |apply byte2_range|apply byte3_range|apply AbortReason.as_u8_reason_range
    |done|unfold in_u; simpl; lia]|]); apply Forall_nil_2.

Lemma etp_make_abort_wf src dst pgn r :
  in_u 8 src -> in_u 8 dst -> FrameOps.wf (etp_make_abort_fields src dst pgn r).
Proof. intros. apply etp_cm_frame_wf; try done. etp_frame_bytes. Qed.

Lemma etp_make_cts_wf src dst n k pgn :
  in_u 8 src -> in_u 8 dst -> in_u 8 n -> FrameOps.wf (etp_make_cts src dst n k pgn).
Proof. intros. apply etp_cm_frame_wf; try done. etp_frame_bytes. Qed.

Lemma etp_make_eoma_wf src dst total pgn :
  in_u 8 src -> in_u 8 dst -> FrameOps.wf (etp_make_eoma src dst total pgn).
Proof. intros. apply etp_cm_frame_wf; try done. etp_frame_bytes. Qed.

Lemma etp_make_rts_wf pgn total src dst :
  in_u 8 src -> in_u 8 dst -> FrameOps.wf (etp_make_rts_fields pgn total src dst).
Proof. intros. apply etp_cm_frame_wf; try done. etp_frame_bytes. Qed.

Lemma make_dpo_wf pgn src dst n off :
  in_u 8 src -> in_u 8 dst -> in_u 8 n -> FrameOps.wf (make_dpo_fields pgn src dst n off).
Proof. intros. apply etp_cm_frame_wf; try done. etp_frame_bytes. Qed.

Lemma etp_make_session_abort_wf s r :
  etp_session_wf s -> FrameOps.wf (etp_make_session_abort s r).
Proof.
  intros []. unfold etp_make_session_abort. destruct (s_direction s);
    by apply etp_make_abort_wf.
Qed.
#[export] Hint Resolve etp_make_abort_wf etp_make_cts_wf etp_make_eoma_wf etp_make_rts_wf
  make_dpo_wf etp_make_session_abort_wf : bus.

(** ** Session table steps *)

Lemma etp_wf_stats f p : etp_wf p -> etp_wf (etp_with_stats f p).
Proof. by intros []. Qed.
#[export] Hint Resolve etp_wf_stats : bus.

Lemma etp_wf_lookup p i s :
  etp_wf p -> etp_sessions p !! i = Some s -> etp_session_wf s.
Proof. intros [Hs _ _] Hi. exact (Forall_lookup_1 _ _ _ _ Hs Hi). Qed.

Lemma etp_wf_update p i s s' :
  etp_wf p -> etp_sessions p !! i = Some s -> etp_session_wf s' ->
  etp_session_path s' = etp_session_path s -> etp_wf (etp_update_session i s' p).
Proof.
  intros [Hs Hn ?] Hi Hs' Hk.
  split; cbn [etp_sessions etp_update_session etp_with_sessions]; try done.
  - by apply Forall_insert.
  - destruct (list_focus _ _ _ Hi) as (r & Hr & Hins).
    rewrite Hins. rewrite Hr in Hn. simpl in *. by rewrite Hk.
Qed.

Lemma etp_wf_push p s :
  etp_wf p -> etp_session_wf s ->
  existsb (etp_path (s_direction s) (s_source_address s) (s_destination_address s)
             (s_can_port s)) (etp_sessions p) = false ->
  etp_wf (etp_push_session s p).
Proof.
  intros [Hs Hn ?] Hw Hk.
  split; cbn [etp_sessions etp_push_session etp_with_sessions]; try done.
  - apply Forall_app. split; [done|by apply Forall_singleton].
  - rewrite fmap_app. apply NoDup_app. split; [done|]. split; [|apply NoDup_singleton].
    intros x Hx ->%list_elem_of_singleton.
    apply list_elem_of_fmap in Hx as (y & Hy & Hin). injection Hy as E1 E2 E3 E4.
    assert (existsb (etp_path (s_direction s) (s_source_address s)
      (s_destination_address s) (s_can_port s)) (etp_sessions p) = true); [|congruence].
    apply List.existsb_exists. exists y. split; [by apply list_elem_of_In|].
    unfold etp_path. rewrite E2, E3, E4, !Z.eqb_refl, E1. by rewrite bool_decide_eq_true_2.
Qed.

(** Removing the session at an index after overwriting it. *)
Lemma etp_wf_overwrite_remove p i s s' :
  etp_wf p -> etp_sessions p !! i = Some s ->
  exists p', etp_remove_session i (etp_update_session i s' p) = Some (s', p') /\ etp_wf p' /\
    etp_sessions p ≡ₚ s :: etp_sessions p' /\ etp_max_sessions p' = etp_max_sessions p.
Proof.
  intros [Hs Hn ?] Hi. unfold etp_remove_session.
  cbn [etp_sessions etp_update_session etp_with_sessions].
  destruct (swap_remove_Some (<[i:=s']> (etp_sessions p)) i s') as (l & -> & Hp).
  { apply list_lookup_insert_eq. by eapply lookup_lt_Some. }
  cbn [mbind option_bind]. eexists. split; [done|]. cbn [etp_sessions etp_with_sessions].
  destruct (list_focus _ _ _ Hi) as (r & Hr & Hins).
  rewrite Hins in Hp. apply Permutation_cons_inv in Hp.
  rewrite Hr in Hs, Hn. apply Forall_cons in Hs as [_ Hs].
  apply NoDup_cons in Hn as [_ Hn]. rewrite Hp in Hs, Hn, Hr. split_and!; done || by split.
Qed.

Lemma etp_update_self p i s :
  etp_sessions p !! i = Some s -> etp_update_session i s p = p.
Proof.
  intros Hi. unfold etp_update_session, etp_with_sessions.
  rewrite list_insert_id by done. by destruct p.
Qed.

Lemma etp_remove_stats i f p :
  etp_remove_session i (etp_with_stats f p)
  = '(s, p') ← etp_remove_session i p; Some (s, etp_with_stats f p').
Proof. unfold etp_remove_session. simpl. by destruct (swap_remove i (etp_sessions p)) as [[]|]. Qed.

Lemma etp_update_stats i s f p :
  etp_update_session i s (etp_with_stats f p) = etp_with_stats f (etp_update_session i s p).
Proof. done. Qed.

Lemma etp_safe_intro p p' frames evs :
  etp_wf p' -> Forall FrameOps.wf frames ->
  (length (etp_sessions p')
   <= Nat.max (length (etp_sessions p)) (etp_max_sessions p))%nat ->
  etp_safe p (Some (p', frames, evs)).
Proof. intros. by exists p', frames, evs. Qed.

Lemma etp_safe_same p f frames evs :
  etp_wf p -> Forall FrameOps.wf frames ->
  etp_safe p (Some (etp_with_stats f p, frames, evs)).
Proof. intros. apply etp_safe_intro; auto with bus. simpl. lia. Qed.

Lemma etp_safe_update p i s s' frames evs :
  etp_wf p -> etp_sessions p !! i = Some s -> etp_session_wf s' ->
  etp_session_path s' = etp_session_path s -> Forall FrameOps.wf frames ->
  etp_safe p (Some (etp_update_session i s' p, frames, evs)).
Proof.
  intros. apply etp_safe_intro; try done; [by eapply etp_wf_update|].
  simpl. rewrite length_insert. lia.
Qed.

(** Tear-down of a session: overwrite its state, count, remove it. *)
Lemma etp_safe_teardown p i s s' f frames evs :
  etp_wf p -> etp_sessions p !! i = Some s -> Forall FrameOps.wf frames ->
  etp_safe p ('(_, p') ← etp_remove_session i (etp_with_stats f (etp_update_session i s' p));
              Some (p', frames, evs)).
Proof.
  intros Hp Hi Hf. rewrite etp_remove_stats.
  destruct (etp_wf_overwrite_remove p i s s' Hp Hi) as (p1 & -> & Hp1 & Hperm & Hm).
  cbn [mbind option_bind]. apply etp_safe_intro; auto with bus.
  simpl. rewrite (Permutation_length Hperm). simpl. lia.
Qed.

Lemma etp_packets_le s :
  etp_session_wf s -> 256 <= total_packets s <= 16777215 /\
    7 * total_packets s - 7 < s_total_bytes s <= 7 * total_packets s.
Proof.
  intros []. unfold total_packets, TP_BYTES_PER_FRAME, ETP_MAX_DATA_LENGTH,
    TP_MAX_DATA_LENGTH in *.
  pose proof (div_ceil_7 (s_total_bytes s)). lia.
Qed.

(** What an in-place change keeps, so that only the direction part is left to prove. *)
Lemma etp_session_wf_same s s' :
  etp_session_wf s -> s_total_bytes s' = s_total_bytes s -> s_pgn s' = s_pgn s ->
  etp_session_path s' = etp_session_path s -> length (s_data s') = length (s_data s) ->
  bytes (s_data s') -> in_u 32 (s_timer_ms s') ->
  match s_direction s' with
  | Receive => etp_rx_wf s'
  | Transmit => exists k, etp_tx_wf k s'
  end -> etp_session_wf s'.
Proof.
  intros [] E1 E2 E3 E4 Hb Ht Hd. injection E3 as D1 D2 D3 D4.
  split; rewrite ?E1, ?E2, ?D2, ?D3, ?E4; done.
Qed.

(** ** Data frames *)

(** The DT frame of absolute packet [k] with window sequence number [j]. *)
Definition etp_dt_frame (src dst : Address) (data : list Z) (k j : Z) : Frame :=
  FrameOps.new8 (etp_dt_id src dst) (j :: pad7 (chunk7 (7 * (k - 1)) data)).

(** The frames of the window of [n] packets that follows packet [k]. *)
Definition etp_window (src dst : Address) (data : list Z) (k n : Z) : list Frame :=
  (fun j => etp_dt_frame src dst data (k + j) j) <$> seqZ 1 n.

Definition etp_advance (k : Z) (s : TransportSession) : TransportSession :=
  with_bytes_transferred (Z.min (7 * k) (s_total_bytes s)) s.

Lemma etp_dt_frame_wf src dst data k j :
  in_u 8 src -> in_u 8 dst -> bytes data -> 1 <= k -> 1 <= j <= 255 ->
  FrameOps.wf (etp_dt_frame src dst data k j).
Proof.
  intros Hs Hd Hb Hk Hj. pose proof (length_chunk7 (7 * (k - 1)) data).
  apply wf_new8; try done.
  - simpl. rewrite length_pad7; lia.
  - apply Forall_cons. split; [unfold in_u; simpl; lia|auto with bus].
Qed.

Lemma etp_generate_eq n i k s :
  etp_session_wf s -> 0 <= i -> i + Z.of_nat n <= 255 -> 0 <= k ->
  k + Z.of_nat n <= total_packets s ->
  s_bytes_transferred s = Z.min (7 * k) (s_total_bytes s) ->
  etp_generate_data_frames n i s
  = Some (etp_advance (k + Z.of_nat n) s,
          (fun j => etp_dt_frame (s_source_address s) (s_destination_address s) (s_data s)
                      (k - i + j) j) <$> seqZ (i + 1) (Z.of_nat n)).
Proof.
  intros Hw. pose proof (etp_packets_le s Hw) as Htp. destruct Hw as [Ht Hl _ _ _ _ _ _ _ _].
  unfold TP_MAX_DATA_LENGTH, ETP_MAX_DATA_LENGTH in *.
  revert Ht Hl Htp. revert s i k. induction n as [|n IH]; intros s i k Ht Hl Htp Hi Hn Hk Hle Hb.
  { cbn. rewrite Z.add_0_r. unfold etp_advance. rewrite <- Hb. by destruct s. }
  cbn [etp_generate_data_frames].
  rewrite (proj2 (Z.leb_gt _ _)) by lia.
  rewrite (checked_add_Some 8) by (simpl; lia). cbn [mbind option_bind].
  rewrite <- Hl, copy_out_chunk by (simpl; lia). cbn [mbind option_bind].
  rewrite (checked_add_Some 32) by (unfold TP_BYTES_PER_FRAME; simpl; lia).
  cbn [mbind option_bind]. rewrite Hl.
  replace (s_bytes_transferred s + TP_BYTES_PER_FRAME) with (7 * (k + 1))
    by (unfold TP_BYTES_PER_FRAME; lia).
  fold (etp_advance (k + 1) s).
  rewrite (IH (etp_advance (k + 1) s) (i + 1) (k + 1));
    change (total_packets (etp_advance _ s)) with (total_packets s); try done; try lia.
  rewrite (seqZ_cons (i + 1)) by lia. rewrite fmap_cons.
  assert (forall a b, a = b -> etp_advance a (etp_advance (k + 1) s) = etp_advance b s)
    as Hadv by (by intros ? ? ->).
  cbn [mbind option_bind]. unfold etp_dt_frame at 2.
  replace (7 * (k - i + (i + 1) - 1)) with (s_bytes_transferred s) by lia.
  f_equal. f_equal; [apply Hadv; lia|]. f_equal.
  replace (Z.pred (Z.of_nat (S n))) with (Z.of_nat n) by lia.
  apply list_fmap_ext. intros j x _. cbn. f_equal. lia.
Qed.

(** ** Draining a window *)

Definition etp_drained (k : Z) (s : TransportSession) : TransportSession :=
  with_timer_ms 0 (with_state
    (if k =? total_packets s then SessionState.WaitingForEndOfMsg
     else SessionState.WaitingForCTS) (etp_advance k s)).

Lemma etp_sending_inv s :
  etp_session_wf s -> etp_sending s = true ->
  s_direction s = Transmit /\ exists k, etp_tx_wf k s /\ 0 <= k /\
    s_bytes_transferred s = 7 * k /\ 1 <= s_packets_to_send s <= 16 /\
    k + s_packets_to_send s <= total_packets s.
Proof.
  intros Hw Hs. pose proof (etp_packets_le s Hw). unfold etp_sending in Hs. reflect_bools.
  split; [done|]. pose proof (esw_dir s Hw) as Hd. rewrite H1 in Hd.
  destruct Hd as (k & Htx). exists k. split; [done|]. destruct Htx as [Hb Hk Hst].
  rewrite H0 in Hst. lia.
Qed.

Lemma etp_drain_eq s :
  etp_session_wf s -> etp_sending s = true ->
  exists k, s_bytes_transferred s = 7 * k /\ 0 <= k /\
    k + s_packets_to_send s <= total_packets s /\ 1 <= s_packets_to_send s <= 16 /\
  etp_drain_session s
  = Some (etp_drained (k + s_packets_to_send s) s,
          make_dpo_fields (s_pgn s) (s_source_address s) (s_destination_address s)
            (s_packets_to_send s) k
          :: etp_window (s_source_address s) (s_destination_address s) (s_data s) k
               (s_packets_to_send s)).
Proof.
  intros Hw Hs. destruct (etp_sending_inv s Hw Hs) as (Hd & k & Htx & Hk & Hb & Hp & Hle).
  exists k. do 4 (split; [lia|]). pose proof (etp_packets_le s Hw) as Htp.
  unfold etp_drain_session. rewrite Hs.
  rewrite (etp_generate_eq _ 0 k) by (try done; lia). cbn [mbind option_bind].
  rewrite Z2Nat.id by lia. unfold make_dpo. rewrite Hb, Z.mul_comm, Z.div_mul by lia.
  unfold etp_drained. f_equal. f_equal; [f_equal; f_equal|].
  - cbn [etp_advance s_total_bytes s_bytes_transferred with_bytes_transferred].
    destruct (Z.eqb_spec (k + s_packets_to_send s) (total_packets s));
      destruct (Z.leb_spec (s_total_bytes s)
        (Z.min (7 * (k + s_packets_to_send s)) (s_total_bytes s))); done || lia.
  - f_equal. unfold etp_window. apply list_fmap_ext. intros j x _. f_equal. lia.
Qed.

Lemma etp_window_wf src dst data k n :
  in_u 8 src -> in_u 8 dst -> bytes data -> 0 <= k -> n <= 255 ->
  Forall FrameOps.wf (etp_window src dst data k n).
Proof.
  intros. apply Forall_fmap, Forall_forall. intros j Hj%elem_of_seqZ.
  apply etp_dt_frame_wf; done || lia.
Qed.

Lemma etp_drain_wf s :
  etp_session_wf s ->
  exists s' frames, etp_drain_session s = Some (s', frames) /\ etp_session_wf s' /\
    etp_session_path s' = etp_session_path s /\ etp_sending s' = false /\
    Forall FrameOps.wf frames.
Proof.
  intros Hw. destruct (etp_sending s) eqn:Hc.
  - destruct (etp_drain_eq s Hw Hc) as (k & Hb & Hk & Hle & Hp & ->).
    destruct (etp_sending_inv s Hw Hc) as (Hd & _). pose proof (etp_packets_le s Hw).
    eexists _, _. split; [done|]. split; [|split; [done|split]].
    + apply (etp_session_wf_same s); try done; [apply Hw|].
      cbn [etp_drained s_direction with_timer_ms with_state etp_advance
        with_bytes_transferred]. rewrite Hd. exists (k + s_packets_to_send s).
      split; [done| |]; change (total_packets (etp_drained _ s)) with (total_packets s);
        [lia|]. cbn [etp_drained s_state with_timer_ms with_state].
      destruct (Z.eqb_spec (k + s_packets_to_send s) (total_packets s)); lia.
    + unfold etp_sending, etp_drained. cbn. by destruct (_ =? _).
    + destruct Hw. constructor; [apply make_dpo_wf; try done; unfold in_u; simpl; lia|].
      apply etp_window_wf; done || lia.
  - unfold etp_drain_session. rewrite Hc. exists s, []. by split_and!.
Qed.

Lemma etp_drain_sessions_wf l :
  Forall etp_session_wf l ->
  exists l' frames, etp_drain_sessions l = Some (l', frames) /\ Forall etp_session_wf l' /\
    etp_session_path <$> l' = etp_session_path <$> l /\
    Forall (fun s => etp_sending s = false) l' /\ Forall FrameOps.wf frames.
Proof.
  induction 1 as [|s l Hs Hl IH]; [by exists [], []|].
  destruct (etp_drain_wf s Hs) as (s' & fs & E & Hs' & Hst & Hc & Hf).
  destruct IH as (l' & rest & E' & Hl' & Hk & Hc' & Hf').
  cbn [etp_drain_sessions]. rewrite E. cbn [mbind option_bind]. rewrite E'.
  eexists _, _. split; [done|]. rewrite !fmap_cons, Hk, Hst.
  split_and!; try done; try by constructor. by apply Forall_app.
Qed.
