(* ===== verification/EtpSafety.v ===== *)
(** Safety of the Extended Transport Protocol engine: the timer sweep, every handler,
    sending and draining preserve the invariant of [EtpInv] and never panic. *)
From S2P Require Export EtpInv.

Ltac unfold_etp_notes :=
  unfold etp_note_dropped_frame, etp_note_dropped_session, etp_note_abort_sent,
    etp_note_abort_received, etp_note_timeout, etp_note_resource_rejection.

Lemma etp_stats_stats f g p :
  etp_with_stats f (etp_with_stats g p) = etp_with_stats (fun s => f (g s)) p.
Proof. done. Qed.

(** ** The timer sweep *)

(** What one [update] does to one session. *)
Definition etp_tick (elapsed_ms : Z) (s : TransportSession)
    : option TransportSession * list Frame * list EtpEvent :=
  let s := with_timer_ms (sat_add 32 (s_timer_ms s) elapsed_ms) s in
  if etp_timed_out s then
    (None, [etp_make_session_abort s AbortReason.Timeout],
     [EtpAbort (from_session s AbortReason.Timeout)])
  else (Some s, [], []).
Definition etp_kept (e : Z) (s : TransportSession) := (etp_tick e s).1.1.
Definition etp_tick_frames (e : Z) (s : TransportSession) := (etp_tick e s).1.2.
Definition etp_tick_events (e : Z) (s : TransportSession) := (etp_tick e s).2.

Lemma etp_update_loop_step fuel e p before s rest :
  etp_sessions p = before ++ s :: rest ->
  exists g,
  etp_update_loop (S fuel) (length before) e p
  = '(p', frames, evs) ←
      match etp_kept e s with
      | Some s' => etp_update_loop fuel (S (length before)) e
                     (etp_with_sessions (before ++ s' :: rest) p)
      | None => etp_update_loop fuel (length before) e
                  (etp_with_stats g (etp_with_sessions (before ++ rotate rest) p))
      end;
    Some (p', etp_tick_frames e s ++ frames, etp_tick_events e s ++ evs).
Proof.
  intros E. cbn [etp_update_loop]. rewrite E, list_lookup_middle by done.
  unfold etp_kept, etp_tick_frames, etp_tick_events, etp_tick.
  set (s1 := with_timer_ms (sat_add 32 (s_timer_ms s) e) s).
  assert (forall s', etp_update_session (length before) s' p
            = etp_with_sessions (before ++ s' :: rest) p) as Hu.
  { intros s'. unfold etp_update_session. by rewrite E, insert_app_r_alt, Nat.sub_diag by lia. }
  destruct (etp_timed_out s1); cbn [fst snd]; rewrite Hu.
  - exists (fun st => add_aborts_sent 1 (add_dropped_sessions 1 (add_timeouts 1 st))).
    unfold_etp_notes. rewrite !etp_remove_stats. unfold etp_remove_session at 1.
    cbn [etp_sessions etp_with_sessions]. rewrite swap_remove_split. done.
  - exists id. by destruct (etp_update_loop _ _ _ _) as [[[]]|].
Qed.

Lemma etp_update_loop_spec e fuel before rest p :
  etp_sessions p = before ++ rest -> (length rest <= fuel)%nat ->
  exists p' frames evs,
    etp_update_loop fuel (length before) e p = Some (p', frames, evs) /\
    etp_sessions p' ≡ₚ before ++ omap (etp_kept e) rest /\
    frames ≡ₚ rest ≫= etp_tick_frames e /\ evs ≡ₚ rest ≫= etp_tick_events e /\
    etp_max_receive_bytes p' = etp_max_receive_bytes p /\
    etp_max_sessions p' = etp_max_sessions p.
Proof.
  revert before rest p. induction fuel as [|fuel IH]; intros before rest p E Hf;
    (destruct rest as [|s rest];
      [exists p, [], []; rewrite E, app_nil_r; cbn [etp_update_loop];
       rewrite lookup_ge_None_2 by (by rewrite E, app_nil_r);
       by rewrite ?app_nil_r | simpl in Hf]); [lia|].
  destruct (etp_update_loop_step fuel e p before s rest E) as (g & ->).
  cbn [omap list_omap]. destruct (etp_kept e s) as [s'|].
  - destruct (IH (before ++ [s']) rest (etp_with_sessions (before ++ s' :: rest) p))
      as (p' & fr & ev & Hl & Hp & Hfr & Hev & Hc); [simpl; by rewrite <- app_assoc|lia|].
    rewrite length_app, Nat.add_comm in Hl. cbn [Nat.add length] in Hl. rewrite Hl.
    cbn [mbind option_bind]. eexists p', _, _. split; [done|].
    rewrite <- app_assoc in Hp. rewrite !bind_cons.
    split_and!; [by rewrite Hp|by rewrite Hfr|by rewrite Hev|apply Hc..].
  - destruct (IH before (rotate rest)
      (etp_with_stats g (etp_with_sessions (before ++ rotate rest) p)))
      as (p' & fr & ev & -> & Hp & Hfr & Hev & Hc); [done|rewrite rotate_perm; lia|].
    cbn [mbind option_bind]. eexists p', _, _. split; [done|]. rewrite !bind_cons.
    split_and!; [by rewrite Hp, (rotate_perm rest)|by rewrite Hfr, (rotate_perm rest)
      |by rewrite Hev, (rotate_perm rest)|apply Hc..].
Qed.

Lemma etp_session_wf_timer t s :
  in_u 32 t -> etp_session_wf s -> etp_session_wf (with_timer_ms t s).
Proof.
  intros Ht Hs. apply (etp_session_wf_same s); try done; [apply Hs|].
  pose proof (esw_dir s Hs) as Hd. cbn [s_direction with_timer_ms].
  destruct (s_direction s); [by destruct Hd as (k & []); exists k|by destruct Hd].
Qed.

Lemma etp_kept_wf e s s' :
  0 <= e -> etp_session_wf s -> etp_kept e s = Some s' ->
  etp_session_wf s' /\ etp_session_path s' = etp_session_path s /\ etp_timed_out s' = false.
Proof.
  intros He Hs. unfold etp_kept, etp_tick.
  destruct (etp_timed_out _) eqn:Ht; simpl; intros; simplify_eq.
  split_and!; [|done|done]. apply etp_session_wf_timer; [|done].
  apply in_u_sat_timer; [apply Hs|done].
Qed.

Lemma etp_tick_frames_wf e s :
  0 <= e -> etp_session_wf s -> Forall FrameOps.wf (etp_tick_frames e s).
Proof.
  intros He Hw. unfold etp_tick_frames, etp_tick. destruct (etp_timed_out _); [|constructor].
  apply Forall_singleton, etp_make_session_abort_wf, etp_session_wf_timer; [|done].
  apply in_u_sat_timer; [apply Hw|done].
Qed.

Lemma etp_update_spec_aux p e :
  etp_wf p -> 0 <= e ->
  exists p' frames evs,
    etp_update p e = Some (p', frames, evs) /\ etp_wf p' /\ Forall FrameOps.wf frames /\
    etp_sessions p' ≡ₚ omap (etp_kept e) (etp_sessions p) /\
    frames ≡ₚ etp_sessions p ≫= etp_tick_frames e /\
    evs ≡ₚ etp_sessions p ≫= etp_tick_events e /\
    Forall (fun s => etp_timed_out s = false) (etp_sessions p').
Proof.
  intros [Hs Hn Hr] He.
  destruct (etp_update_loop_spec e (length (etp_sessions p)) [] (etp_sessions p) p)
    as (p' & fr & ev & E & Hp & Hf & Hv & Hc1 & Hc2); try done.
  assert (Forall (fun s => etp_session_wf s /\ etp_timed_out s = false)
    (omap (etp_kept e) (etp_sessions p))) as Ho.
  { apply Forall_forall. intros s' (s & Hin & Hk)%list_elem_of_omap.
    rewrite Forall_forall in Hs. by destruct (etp_kept_wf e s s' He (Hs s Hin) Hk) as (?&?&?). }
  apply Forall_and in Ho as [Ho1 Ho2]. simpl in Hp. exists p', fr, ev. split_and!; try done.
  - split; rewrite ?Hc1; try done; rewrite Hp; [done|]. clear -Hs Hn He.
    eapply sublist_NoDup; [exact Hn|]. clear Hn.
    induction Hs as [|s l Hs Hl IH]; [constructor|]. cbn [omap list_omap].
    destruct (etp_kept e s) as [s'|] eqn:E; [|by apply sublist_cons].
    destruct (etp_kept_wf e s s' He Hs E) as (_ & Hst & _).
    rewrite !fmap_cons, Hst. by constructor.
  - rewrite Hf. apply Forall_bind. eapply Forall_impl; [exact Hs|]. intros s.
    by apply etp_tick_frames_wf.
  - by rewrite Hp.
Qed.

(** ** Connection management *)

(** What is known of an ETP frame that passed the guards of [process_frame]. *)
Record etp_frame (f : Frame) : Prop := {
  ef_wf : FrameOps.wf f;
  ef_src : in_u 8 (FrameOps.source f);
  ef_dst : in_u 8 (FrameOps.destination f);
  ef_src_ok : valid_etp_source (FrameOps.source f) = true;
  ef_dst_ok : valid_etp_destination (FrameOps.destination f) = true
}.

Section safety.
Context `{Allocator}.

Lemma etp_reject_safe p f reason b :
  etp_wf p -> etp_frame f -> etp_safe p (etp_reject p f reason b).
Proof.
  intros Hp []. unfold etp_reject. unfold_etp_notes.
  destruct b; rewrite !etp_stats_stats; apply etp_safe_same; auto with bus.
Qed.

Lemma etp_rx_session_wf pgn total src dst port prio :
  1785 < total <= 117440505 -> in_u 18 pgn -> in_u 8 src -> in_u 8 dst ->
  valid_etp_source src = true -> valid_etp_destination dst = true ->
  etp_session_wf (etp_rx_session pgn (replicate (Z.to_nat total) 0xFF) total src dst port prio).
Proof.
  intros Ht. intros. split; cbn; try done.
  - rewrite length_replicate. lia.
  - apply Forall_replicate. by unfold in_u.
  - split; cbn; try done; try lia. left. split; [done|].
    unfold total_packets, TP_BYTES_PER_FRAME. cbn. change (wrap 8 TP_MAX_PACKETS_PER_CTS) with 16.
    pose proof (div_ceil_7 total). lia.
Qed.

Lemma etp_handle_rts_safe p f port :
  etp_wf p -> etp_frame f -> in_u 18 (pgn_from_cm_bytes (f_data f)) ->
  etp_safe p (etp_handle_rts p f port).
Proof.
  intros Hp Hf Hpgn. pose proof Hf as [Hw Hs Hd Hso Hdo]. unfold etp_handle_rts,
    receive_profile_for_advertised_size, TP_MAX_DATA_LENGTH, ETP_MAX_DATA_LENGTH.
  destruct (Z.leb_spec (1785 + 1) (etp_size f)); cbn [andb negb]; [|by apply etp_reject_safe].
  destruct (Z.leb_spec (etp_size f) 117440505); cbn [andb negb]; [|by apply etp_reject_safe].
  destruct (_ <? etp_size f); [by apply etp_reject_safe|].
  destruct (_ <? _); [by apply etp_reject_safe|].
  destruct (receive_dt_path_is_active _ _ _ _) eqn:Ha; [by apply etp_reject_safe|].
  destruct (Nat.leb_spec (etp_max_sessions p) (length (etp_sessions p)));
    [by apply etp_reject_safe|].
  unfold rx_buffer. destruct (_ <? etp_size f); [by apply etp_reject_safe|].
  destruct (try_reserve_exact _); cbn [negb]; [|by apply etp_reject_safe].
  apply etp_safe_intro.
  - apply etp_wf_push; [done| |done]. by apply etp_rx_session_wf; [lia|..].
  - apply Forall_singleton. by apply etp_make_cts_wf.
  - cbn. rewrite length_app. simpl. lia.
Qed.

Lemma etp_clamp_eq s n k :
  1 <= k <= total_packets s -> in_u 8 n -> n <> 0 ->
  etp_clamp_window s n k
  = Some (Z.min (Z.min n (total_packets s - (k - 1))) TP_MAX_PACKETS_PER_CTS) /\
  1 <= Z.min (Z.min n (total_packets s - (k - 1))) TP_MAX_PACKETS_PER_CTS <= 16.
Proof.
  intros Hk [Hn _] Hn0. unfold etp_clamp_window, TP_MAX_PACKETS_PER_CTS.
  rewrite (checked_sub_Some k) by lia. cbn [mbind option_bind].
  rewrite (checked_sub_Some (total_packets s)) by lia. cbn [mbind option_bind].
  rewrite wrap_small; [split; [done|lia]|]. unfold in_u. simpl. lia.
Qed.

(** The session after a CTS grants [n] packets from packet [k]. *)
Definition etp_granted (n k : Z) (s : TransportSession) : TransportSession :=
  with_timer_ms 0 (with_bytes_transferred ((k - 1) * 7) (with_packets_to_send
    (Z.min (Z.min n (total_packets s - (k - 1))) TP_MAX_PACKETS_PER_CTS)
    (with_state SessionState.SendingData s))).

Lemma etp_cts_session_cases n k s :
  etp_session_wf s -> s_direction s = Transmit -> in_u 8 n -> in_u 24 k ->
  exists s' r, etp_cts_session n k s = Some (s', r) /\
  match r with
  | Some _ => s' = with_state SessionState.Aborted s
  | None => s' = with_timer_ms 0 s \/
            (s' = etp_granted n k s /\ n <> 0 /\ 1 <= k <= total_packets s /\
             s_state s <> SessionState.SendingData)
  end.
Proof.
  intros Hw Hd Hn Hk. pose proof (etp_packets_le s Hw) as Htp. unfold etp_cts_session.
  destruct (bool_decide_reflect (s_state s = SessionState.SendingData)) as [Hst|Hst].
  - unfold etp_is_duplicate_current_window.
    destruct (negb (n =? 0) && _ && _ && _) eqn:Hc; cbn [mbind option_bind].
    + reflect_bools. destruct Hk. destruct (etp_clamp_eq s n k) as (-> & _); [lia|done|done|].
      cbn [mbind option_bind]. destruct (_ =? _); eexists _, _; (split; [done|]); [by left|done].
    + by eexists _, _.
  - destruct (Z.eqb_spec n 0); [eexists _, _; split; [done|]; by left|].
    destruct (Z.eqb_spec k 0); cbn [orb]; [by eexists _, _|].
    destruct (Z.ltb_spec (total_packets s) k); [by eexists _, _|].
    destruct Hk. destruct (etp_clamp_eq s n k) as (-> & _); [lia|done|done|].
    cbn [mbind option_bind]. rewrite (checked_sub_Some k) by lia. cbn [mbind option_bind].
    rewrite checked_mul_Some by (simpl; lia). cbn [mbind option_bind].
    eexists _, _. split; [done|]. right. split_and!; [done|done|lia|lia|done].
Qed.

Lemma etp_granted_wf n k s :
  etp_session_wf s -> s_direction s = Transmit -> in_u 8 n -> n <> 0 ->
  1 <= k <= total_packets s -> etp_session_wf (etp_granted n k s).
Proof.
  intros Hw Hd [Hn _] Hn0 Hk. pose proof (etp_packets_le s Hw) as Htp.
  apply (etp_session_wf_same s); try done; [apply Hw|].
  cbn [s_direction etp_granted with_timer_ms with_bytes_transferred with_packets_to_send
    with_state]. rewrite Hd. exists (k - 1).
  split; change (total_packets (etp_granted n k s)) with (total_packets s);
    cbn [etp_granted s_bytes_transferred s_total_bytes s_state s_packets_to_send
      with_timer_ms with_bytes_transferred with_packets_to_send with_state];
    unfold TP_MAX_PACKETS_PER_CTS; lia.
Qed.

Lemma etp_handle_cts_safe p f port :
  etp_wf p -> etp_frame f -> etp_safe p (etp_handle_cts p f port).
Proof.
  intros Hp [Hf _ _ _ _]. unfold etp_handle_cts.
  destruct (position _ _) as [i|] eqn:Hi; [|apply etp_safe_same; auto with bus].
  apply position_Some in Hi as (s & Hs & Hm & _). rewrite Hs. cbn [mbind option_bind].
  pose proof (etp_wf_lookup p i s Hp Hs) as Hw. unfold etp_cts_matches in Hm. reflect_bools.
  destruct (etp_cts_session_cases (FrameOps.byte f 1) (etp_packet f) s)
    as (s' & r & -> & Hr); [done|done|by apply byte_range|by apply etp_packet_range|].
  cbn [mbind option_bind]. destruct r as [reason|].
  - subst s'. unfold_etp_notes. rewrite !etp_stats_stats.
    eapply etp_safe_teardown; [done|done|]. apply Forall_singleton.
    by apply (etp_make_session_abort_wf s).
  - destruct Hr as [->|(-> & Hn & Hk & _)]; eapply etp_safe_update; try done.
    + by apply etp_session_wf_timer.
    + apply etp_granted_wf; try done. by apply byte_range.
Qed.

Lemma etp_abort_receive_safe p i s :
  etp_wf p -> etp_sessions p !! i = Some s -> etp_safe p (etp_abort_receive p i s).
Proof.
  intros Hp Hi. pose proof (etp_wf_lookup p i s Hp Hi). unfold etp_abort_receive.
  unfold_etp_notes. rewrite etp_update_stats, !etp_stats_stats.
  eapply etp_safe_teardown; [done|done|]. apply Forall_singleton. auto with bus.
Qed.

(** What the DPO check establishes. *)
Lemma packet_window_spec s n k :
  etp_session_wf s -> s_direction s = Receive ->
  packet_window_valid s n k
  = Some (bool_decide (n <> 0 /\ n <= s_cts_window_size s /\
            s_dpo_packet_offset s + s_last_sequence s + n <= total_packets s /\
            k = s_dpo_packet_offset s + s_last_sequence s)).
Proof.
  intros Hw Hd. pose proof (esw_dir s Hw) as Hrx. rewrite Hd in Hrx.
  pose proof (etp_packets_le s Hw) as Htp.
  destruct Hrx as [_ Hb Hinc Hdp Hsq _ _]. unfold packet_window_valid.
  rewrite checked_sub_Some by lia. cbn [mbind option_bind].
  pose proof (div_ceil_7 (s_total_bytes s - s_bytes_transferred s)).
  assert (s_bytes_transferred s / 7 = s_dpo_packet_offset s + s_last_sequence s) as Hdiv
    by (rewrite Hb, Z.mul_comm, Z.div_mul; lia).
  f_equal. rewrite Hdiv. case_bool_decide as Hc.
  - repeat case_bool; cbn; done || lia.
  - repeat case_bool; cbn; try done; lia.
Qed.

Lemma etp_handle_dpo_safe p f port :
  etp_wf p -> etp_frame f -> etp_safe p (etp_handle_dpo p f port).
Proof.
  intros Hp [Hf _ _ _ _]. unfold etp_handle_dpo.
  destruct (position _ _) as [i|] eqn:Hi; [|apply etp_safe_same; auto with bus].
  apply position_Some in Hi as (s & Hs & Hm & _). rewrite Hs. cbn [mbind option_bind].
  pose proof (etp_wf_lookup p i s Hp Hs) as Hw. unfold dpo_matches in Hm. reflect_bools.
  rewrite packet_window_spec by done. cbn [mbind option_bind].
  case_bool_decide as Hv; cbn [negb]; [|by apply etp_abort_receive_safe].
  eapply etp_safe_update; try done.
  pose proof (byte_range f 1 Hf) as [Hb _]. pose proof (esw_dir s Hw) as Hrx.
  rewrite H0 in Hrx. destruct Hrx as [Hst Hbt Hinc Hdp Hsq Hwin _].
  apply (etp_session_wf_same s); try done; [apply Hw|]. cbn. rewrite H0.
  split; cbn; try done; try lia. right. unfold total_packets in *. cbn. lia.
Qed.

Lemma etp_handle_eoma_safe p f port :
  etp_wf p -> etp_safe p (etp_handle_eoma p f port).
Proof.
  intros Hp. unfold etp_handle_eoma.
  destruct (position _ _) as [i|] eqn:Hi; [|apply etp_safe_same; auto with bus].
  apply position_Some in Hi as (s & Hs & Hm & _). rewrite Hs. cbn [mbind option_bind].
  destruct (_ || _); [apply etp_safe_same; auto with bus|].
  destruct (etp_wf_overwrite_remove p i s s Hp Hs) as (p' & E & Hp' & Hperm & _).
  rewrite etp_update_self in E by done. rewrite E. cbn [mbind option_bind].
  apply etp_safe_intro; [done|constructor|]. rewrite (Permutation_length Hperm). simpl. lia.
Qed.

Lemma etp_handle_abort_safe p f port :
  etp_wf p -> etp_safe p (etp_handle_abort p f port).
Proof.
  intros Hp. unfold etp_handle_abort.
  destruct (position _ _) as [i|] eqn:Hi; [|apply etp_safe_same; auto with bus].
  apply position_Some in Hi as (s & Hs & Hm & _). rewrite Hs. cbn [mbind option_bind].
  destruct (etp_wf_overwrite_remove p i s (with_state SessionState.Aborted s) Hp Hs)
    as (p' & -> & Hp' & Hperm & _). cbn [mbind option_bind].
  apply etp_safe_intro; [unfold_etp_notes; auto with bus|constructor|].
  simpl. rewrite (Permutation_length Hperm). simpl. lia.
Qed.

(** ** Data *)

(** The session after accepting the next DT of its window. *)
Definition etp_ingested (f : Frame) (s : TransportSession) : TransportSession :=
  let k := s_dpo_packet_offset s + s_last_sequence s + 1 in
  with_timer_ms 0 (with_last_sequence (s_last_sequence s + 1)
    (with_bytes_transferred (Z.min (7 * k) (s_total_bytes s))
       (with_data (scatter7 (7 * (k - 1)) (s_data s) (f_data f)) s))).

(** The window granted once packet [k] closes the current one. *)
Definition etp_next_window (k : Z) (s : TransportSession) : Z :=
  Z.min (total_packets s - k) TP_MAX_PACKETS_PER_CTS.

Lemma etp_dt_ingest_eq p f i s :
  etp_session_wf s -> s_direction s = Receive -> s_packets_to_send s <> 0 ->
  FrameOps.wf f -> FrameOps.byte f 0 = s_last_sequence s + 1 ->
  let s' := etp_ingested f s in
  let k := s_dpo_packet_offset s + s_last_sequence s + 1 in
  etp_dt_ingest p f i s
  = if k =? total_packets s then
      '(session, p) ← etp_remove_session i
                        (etp_update_session i (with_state SessionState.Complete s') p);
      Some (p, [etp_make_eoma (s_destination_address s) (s_source_address s)
                  (s_total_bytes s) (s_pgn s)], [EtpComplete session])
    else if s_cts_window_size s =? s_last_sequence s + 1 then
      Some (etp_update_session i (with_packets_to_send 0
              (with_cts_window (s_cts_window_start s) (etp_next_window k s) s')) p,
            [etp_make_cts (s_destination_address s) (s_source_address s)
               (etp_next_window k s) (k + 1) (s_pgn s)], [])
    else Some (etp_update_session i s' p, [], []).
Proof.
  intros Hw Hd Hp0 Hf Hseq s' k. pose proof (esw_dir s Hw) as Hrx. rewrite Hd in Hrx.
  pose proof (etp_packets_le s Hw) as Htp. destruct Hw as [_ Hl _ _ _ _ _ _ _ _].
  destruct Hrx as [_ Hb Hinc Hdp Hsq Hwin Hgr]. unfold etp_dt_ingest. rewrite Hseq.
  rewrite (checked_add_Some 32) by (simpl; lia). cbn [mbind option_bind].
  rewrite checked_sub_Some by lia. cbn [mbind option_bind].
  rewrite checked_mul_Some by (simpl; lia). cbn [mbind option_bind].
  replace ((s_dpo_packet_offset s + (s_last_sequence s + 1) - 1) * 7) with (7 * (k - 1)) by lia.
  rewrite <- Hl, copy_in_scatter by (try apply Hf; simpl; lia). cbn [mbind option_bind].
  rewrite (checked_add_Some 32 (7 * (k - 1)) 7) by (simpl; lia).
  cbn [mbind option_bind]. rewrite Hl.
  replace (7 * (k - 1) + 7) with (7 * k) by lia.
  change (with_timer_ms 0 (with_last_sequence (s_last_sequence s + 1)
    (with_bytes_transferred (Z.min (7 * k) (s_total_bytes s))
       (with_data (scatter7 (7 * (k - 1)) (s_data s) (f_data f)) s)))) with s'.
  change (s_total_bytes s') with (s_total_bytes s).
  change (s_bytes_transferred s') with (Z.min (7 * k) (s_total_bytes s)).
  change (s_cts_window_size s') with (s_cts_window_size s).
  destruct (Z.eqb_spec k (total_packets s)).
  { rewrite (proj2 (Z.leb_le _ _)) by lia. done. }
  rewrite (proj2 (Z.leb_gt _ _)) by lia.
  destruct (Z.eqb_spec (s_cts_window_size s) (s_last_sequence s + 1)).
  2: { by rewrite (proj2 (Z.leb_gt _ _)) by lia. }
  rewrite (proj2 (Z.leb_le _ _)) by lia.
  rewrite (checked_add_Some 32) by (simpl; lia). cbn [mbind option_bind].
  rewrite (Z.min_l (7 * k) (s_total_bytes s)) by lia.
  rewrite checked_sub_Some by lia. cbn [mbind option_bind].
  replace (div_ceil (s_total_bytes s - 7 * k) 7) with (total_packets s - k).
  2: { pose proof (div_ceil_7 (s_total_bytes s - 7 * k)). lia. }
  fold (etp_next_window k s).
  rewrite wrap_small by (unfold in_u, etp_next_window, TP_MAX_PACKETS_PER_CTS; simpl; lia).
  by replace (s_dpo_packet_offset s + (s_last_sequence s + 1) + 1) with (k + 1) by lia.
Qed.

Lemma etp_ingested_wf f s :
  etp_session_wf s -> s_direction s = Receive -> FrameOps.wf f ->
  s_dpo_packet_offset s + s_last_sequence s + 1 < total_packets s ->
  s_packets_to_send s <> 0 ->
  if s_cts_window_size s =? s_last_sequence s + 1 then
    etp_session_wf (with_packets_to_send 0 (with_cts_window (s_cts_window_start s)
      (etp_next_window (s_dpo_packet_offset s + s_last_sequence s + 1) s) (etp_ingested f s)))
  else etp_session_wf (etp_ingested f s).
Proof.
  intros Hw Hd Hf Hlt Hp0. pose proof (esw_dir s Hw) as Hrx. rewrite Hd in Hrx.
  pose proof (etp_packets_le s Hw) as Htp. destruct Hrx as [Hst Hb Hinc Hdp Hsq Hwin Hgr].
  assert (Z.of_nat (length (s_data s)) = s_total_bytes s) as Hl by apply Hw.
  assert (length (s_data (etp_ingested f s)) = length (s_data s)) as Hlen
    by (apply length_scatter7; [lia|apply Hf]).
  assert (bytes (s_data (etp_ingested f s))) as Hbs
    by (apply bytes_scatter7; [apply Hw|apply Hf]).
  destruct (Z.eqb_spec (s_cts_window_size s) (s_last_sequence s + 1));
    (apply (etp_session_wf_same s); try done;
     cbn [s_direction etp_ingested with_packets_to_send with_cts_window with_timer_ms
       with_last_sequence with_bytes_transferred with_data]; rewrite Hd).
  - split; unfold total_packets in *; cbn -[Z.mul Z.min]; try done;
      unfold etp_next_window, total_packets, TP_MAX_PACKETS_PER_CTS in *; lia.
  - split; unfold total_packets in *; cbn -[Z.mul Z.min]; try done; lia.
Qed.

Lemma etp_handle_dt_safe p f port :
  etp_wf p -> etp_frame f -> etp_safe p (etp_handle_dt p f port).
Proof.
  intros Hp [Hf _ _ _ _]. unfold etp_handle_dt.
  destruct (position _ _) as [i|] eqn:Hi; [|apply etp_safe_same; auto with bus].
  apply position_Some in Hi as (s & Hs & Hm & _). rewrite Hs. cbn [mbind option_bind].
  pose proof (etp_wf_lookup p i s Hp Hs) as Hw. unfold etp_dt_matches in Hm. reflect_bools.
  destruct (Z.eqb_spec (s_packets_to_send s) 0) as [|Hp0]; [by apply etp_abort_receive_safe|].
  pose proof (esw_dir s Hw) as Hrx. rewrite H0 in Hrx.
  rewrite checked_add_Some by (destruct Hrx; simpl; lia). cbn [mbind option_bind].
  destruct (Z.eqb_spec (FrameOps.byte f 0) (s_last_sequence s + 1)) as [Hseq|];
    cbn [negb]; [|by apply etp_abort_receive_safe].
  rewrite etp_dt_ingest_eq by done. pose proof (etp_ingested_wf f s Hw H0 Hf) as Hwf.
  destruct (Z.eqb_spec (s_dpo_packet_offset s + s_last_sequence s + 1) (total_packets s)).
  - destruct (etp_wf_overwrite_remove p i s
      (with_state SessionState.Complete (etp_ingested f s)) Hp Hs)
      as (p' & -> & Hp' & Hperm & _). cbn [mbind option_bind].
    apply etp_safe_intro; [done| |rewrite (Permutation_length Hperm); simpl; lia].
    apply Forall_singleton. destruct Hw. by apply etp_make_eoma_wf.
  - specialize (Hwf ltac:(destruct Hrx; lia) Hp0).
    destruct (s_cts_window_size s =? s_last_sequence s + 1);
      eapply etp_safe_update; try done.
    apply Forall_singleton. destruct Hw. apply etp_make_cts_wf; try done.
    unfold in_u, etp_next_window, TP_MAX_PACKETS_PER_CTS. destruct Hrx. simpl. lia.
Qed.

Lemma etp_process_frame_safe_aux p f port :
  etp_wf p -> FrameOps.wf f -> etp_safe p (etp_process_frame p f port).
Proof.
  intros Hp Hf. unfold etp_process_frame.
  destruct (_ && (f_length f <? 8)); [apply etp_safe_same; auto with bus|].
  destruct (FrameOps.pgn f =? PGN_ETP_CM) eqn:E1; cbn [orb andb].
  - destruct (valid_etp_source _) eqn:Hs; cbn [negb orb];
      [|apply etp_safe_same; auto with bus].
    destruct (valid_etp_destination _) eqn:Hd; cbn [negb];
      [|apply etp_safe_same; auto with bus].
    assert (etp_frame f) as Hef by (split; auto with bus).
    unfold etp_handle_cm. destruct (pgn_is_valid _) eqn:Hv; cbn [negb];
      [|apply etp_safe_same; auto with bus].
    pose proof (cm_pgn_range f Hf Hv).
    repeat (case_bool; [by auto using etp_handle_rts_safe, etp_handle_cts_safe,
      etp_handle_dpo_safe, etp_handle_eoma_safe, etp_handle_abort_safe|]).
    apply etp_safe_same; auto with bus.
  - destruct (FrameOps.pgn f =? PGN_ETP_DT) eqn:E2; cbn [andb].
    + destruct (valid_etp_source _) eqn:Hs; cbn [negb orb];
        [|apply etp_safe_same; auto with bus].
      destruct (valid_etp_destination _) eqn:Hd; cbn [negb];
        [|apply etp_safe_same; auto with bus].
      apply etp_handle_dt_safe; [done|]. split; auto with bus.
    + apply etp_safe_intro; [done|constructor|lia].
Qed.
End safety.
