(* ===== verification/EtpTransfer.v ===== *)
(** End-to-end correctness of the Extended Transport Protocol: a payload handed to
    [etp_send] on one engine is delivered byte for byte by another through the
    RTS/CTS/DPO/DT/EOMA exchange, whatever other sessions the receiver has open. *)
From S2P Require Export EtpSafety TpTransfer.

(** Feeding frames to an engine in order. *)
Fixpoint etp_feed `{Allocator} (p : ExtendedTransportProtocol) (port : Z) (fs : list Frame)
    : etp_result :=
  match fs with
  | [] => Some (p, [], [])
  | f :: fs =>
      '(p, out, evs) ← etp_process_frame p f port;
      '(p, out', evs') ← etp_feed p port fs;
      Some (p, out ++ out', evs ++ evs')
  end.

(** The exchange of two engines: the receiver takes the frames on the wire, the sender
    takes its answers and drains what they grant, until the sender has nothing left. *)
Fixpoint etp_exchange `{Allocator} (fuel : nat) (tx rx : ExtendedTransportProtocol)
    (port : Z) (wire : list Frame)
    : option (ExtendedTransportProtocol * ExtendedTransportProtocol
              * list EtpEvent * list EtpEvent) :=
  match fuel with
  | O => None
  | S fuel =>
      '(rx, replies, er) ← etp_feed rx port wire;
      '(tx, direct, et) ← etp_feed tx port replies;
      '(tx, out) ← etp_get_pending_data_frames tx;
      match direct ++ out with
      | [] => Some (tx, rx, et, er)
      | wire =>
          '(tx, rx, et', er') ← etp_exchange fuel tx rx port wire;
          Some (tx, rx, et ++ et', er ++ er')
      end
  end.

Lemma etp_feed_one `{Allocator} p port f :
  etp_feed p port [f] = etp_process_frame p f port.
Proof.
  cbn [etp_feed]. destruct (etp_process_frame p f port) as [[[p1 o] e]|]; [|done].
  cbn [mbind option_bind]. by rewrite !app_nil_r.
Qed.

Lemma etp_update_perm p i s s' r :
  etp_sessions p !! i = Some s -> etp_sessions p ≡ₚ s :: r ->
  etp_sessions (etp_update_session i s' p) ≡ₚ s' :: r.
Proof.
  intros Hi Hp. destruct (list_focus _ _ _ Hi) as (r' & Hr' & Hins). cbn.
  rewrite Hins. constructor. rewrite Hp in Hr'. by apply Permutation_cons_inv in Hr'.
Qed.

(** ** The fields of ETP frames *)

Section fields.
Context `{Allocator}.

Lemma etp_dt_fields s d :
  in_u 8 s -> in_u 8 d ->
  Identifier.pgn (etp_dt_id s d) = PGN_ETP_DT /\ Identifier.source (etp_dt_id s d) = s /\
  Identifier.destination (etp_dt_id s d) = d.
Proof.
  intros Hs Hd. by destruct (pdu1_fields Priority.Lowest PGN_ETP_DT s d) as (?&?&?&_).
Qed.

Lemma etp_cm_fields s d :
  in_u 8 s -> in_u 8 d ->
  Identifier.pgn (etp_cm_id s d) = PGN_ETP_CM /\ Identifier.source (etp_cm_id s d) = s /\
  Identifier.destination (etp_cm_id s d) = d.
Proof.
  intros Hs Hd. by destruct (pdu1_fields Priority.Lowest PGN_ETP_CM s d) as (?&?&?&_).
Qed.

(** [process_frame] on a connection-management frame built by this engine. *)
Lemma etp_process_cm p port s d c b1 b2 b3 b4 pgn :
  in_u 8 s -> in_u 8 d -> valid_etp_source s = true -> valid_etp_destination d = true ->
  in_u 18 pgn ->
  let f := FrameOps.new8 (etp_cm_id s d) [c; b1; b2; b3; b4; byte0 pgn; byte1 pgn; byte2 pgn] in
  pgn_from_cm_bytes (f_data f) = pgn /\ FrameOps.source f = s /\ FrameOps.destination f = d /\
  etp_process_frame p f port =
    if c =? etp_cm.RTS then etp_handle_rts p f port
    else if c =? etp_cm.CTS then etp_handle_cts p f port
    else if c =? etp_cm.DPO then etp_handle_dpo p f port
    else if c =? etp_cm.EOMA then etp_handle_eoma p f port
    else if c =? etp_cm.ABORT then etp_handle_abort p f port
    else Some (etp_note_dropped_frame p, [], []).
Proof.
  intros Hs Hd Hvs Hvd Hpgn f. destruct (etp_cm_fields s d Hs Hd) as (E1 & E2 & E3).
  assert (pgn_from_cm_bytes (f_data f) = pgn) as Hj
    by (apply le24_join; eapply in_u_mono; [|done]; lia).
  split_and!; [done|exact E2|exact E3|].
  unfold etp_process_frame, etp_handle_cm. rewrite Hj, (pgn_valid_18 pgn) by done.
  unfold FrameOps.pgn, FrameOps.source, FrameOps.destination, f.
  cbn [f_id FrameOps.new8 f_length]. by rewrite E1, E2, E3, Hvs, Hvd.
Qed.

Lemma etp_process_dt p port s d data :
  in_u 8 s -> in_u 8 d -> valid_etp_source s = true -> valid_etp_destination d = true ->
  let f := FrameOps.new8 (etp_dt_id s d) data in
  FrameOps.source f = s /\ FrameOps.destination f = d /\
  etp_process_frame p f port = etp_handle_dt p f port.
Proof.
  intros Hs Hd Hvs Hvd f. destruct (etp_dt_fields s d Hs Hd) as (E1 & E2 & E3).
  split_and!; [exact E2|exact E3|]. unfold etp_process_frame, FrameOps.pgn,
    FrameOps.source, FrameOps.destination, f.
  cbn [f_id FrameOps.new8 f_length]. by rewrite E1, E2, E3, Hvs, Hvd.
Qed.
End fields.

(** ** Receiving one transfer *)

Section receive.
Context `{Allocator}.
Context (src dst : Address) (port : Z) (pgn : Pgn) (data : list Z).
Hypothesis Hsrc : in_u 8 src.
Hypothesis Hdst : in_u 8 dst.
Hypothesis Hvs : valid_etp_source src = true.
Hypothesis Hvd : valid_etp_destination dst = true.
Hypothesis Hpgn : in_u 18 pgn.
Hypothesis Hbytes : bytes data.
Hypothesis Hlen : 1785 < Z.of_nat (length data) <= 117440505.

Let N := div_ceil (Z.of_nat (length data)) 7.

(** The receive session of the transfer after [k] packets. *)
Record etp_rx_at (k : Z) (s : TransportSession) : Prop := {
  era_wf : etp_session_wf s;
  era_dir : s_direction s = Receive;
  era_src : s_source_address s = src;
  era_dst : s_destination_address s = dst;
  era_port : s_can_port s = port;
  era_pgn : s_pgn s = pgn;
  era_total : s_total_bytes s = Z.of_nat (length data);
  era_packets : s_dpo_packet_offset s + s_last_sequence s = k;
  era_data : agrees (7 * k) (s_data s) data
}.

(** No other receive session on the transfer's path. *)
Definition etp_quiet (r : list TransportSession) : Prop :=
  Forall (fun s => etp_path Receive src dst port s = false) r.

Lemma etp_packets_bound :
  7 * N - 7 < Z.of_nat (length data) <= 7 * N /\ 256 <= N <= 16777215.
Proof. pose proof (div_ceil_7 (Z.of_nat (length data))). unfold N. lia. Qed.

Lemma etp_rx_at_packets k s : etp_rx_at k s -> total_packets s = N.
Proof. intros []. unfold total_packets, TP_BYTES_PER_FRAME. by rewrite era_total0. Qed.

Lemma etp_rx_at_rx k s : etp_rx_at k s -> etp_rx_wf s.
Proof. intros [Hw Hd _ _ _ _ _ _ _]. pose proof (esw_dir s Hw) as Hr. by rewrite Hd in Hr. Qed.

(** A predicate that refines the path finds the transfer's session. *)
Lemma etp_locate rx r k s q :
  etp_sessions rx ≡ₚ s :: r -> etp_rx_at k s -> etp_quiet r -> q s = true ->
  (forall t, q t = true -> etp_path Receive src dst port t = true) ->
  exists i, position q (etp_sessions rx) = Some i /\ etp_sessions rx !! i = Some s.
Proof.
  intros Hp Hs Hq Hqs Href. apply (position_perm q _ s r Hp Hqs).
  eapply Forall_impl; [exact Hq|]. intros t Ht. cbn in Ht.
  destruct (q t) eqn:E; [|done]. rewrite Href in Ht by done. done.
Qed.

Lemma etp_rx_dpo rx r k s n :
  etp_wf rx -> etp_sessions rx ≡ₚ s :: r -> etp_rx_at k s -> etp_quiet r ->
  1 <= n <= s_cts_window_size s -> k + n <= N ->
  exists rx' s',
    etp_process_frame rx (make_dpo_fields pgn src dst n k) port = Some (rx', [], []) /\
    etp_wf rx' /\ etp_sessions rx' ≡ₚ s' :: r /\ etp_rx_at k s' /\
    s_packets_to_send s' = n /\ s_cts_window_size s' = n /\ s_last_sequence s' = 0.
Proof.
  intros Hrx Hp Hs Hq Hn Hk. pose proof (etp_rx_at_rx k s Hs) as Hr.
  pose proof (etp_rx_at_packets k s Hs) as HN. pose proof etp_packets_bound.
  destruct (etp_process_cm rx port src dst etp_cm.DPO n (byte0 k) (byte1 k) (byte2 k) pgn
    Hsrc Hdst Hvs Hvd Hpgn) as (Ej & Es & Ed & Ep).
  fold (make_dpo_fields pgn src dst n k) in *. set (f := make_dpo_fields pgn src dst n k) in *.
  rewrite Ep. cbn [Z.eqb Pos.eqb etp_cm.DPO etp_cm.RTS etp_cm.CTS].
  pose proof Hs as [Hw Hd E1 E2 E3 E4 Et Ek Hag].
  destruct (etp_locate rx r k s (dpo_matches src dst pgn port) Hp Hs Hq) as (i & Hi & Hls).
  { unfold dpo_matches. by rewrite Hd, E1, E2, E3, E4, !Z.eqb_refl. }
  { intros t. unfold dpo_matches, etp_path.
    by destruct (bool_decide _), (_ =? src), (_ =? dst), (_ =? pgn). }
  assert (etp_packet f = k) as Hpk.
  { apply le24_join. destruct Hr. unfold in_u. change (2 ^ 24) with 16777216. lia. }
  assert (FrameOps.byte f 1 = n) as Hb1 by done.
  assert (FrameOps.wf f) as Hf.
  { apply make_dpo_wf; try done. destruct Hr. unfold in_u. simpl. lia. }
  destruct (etp_handle_dpo_safe rx f port Hrx) as (rx' & fr & ev & E & Hrx' & _).
  { split; rewrite ?Es, ?Ed; done. }
  unfold etp_handle_dpo in E |- *. rewrite Ej, Es, Ed, Hi, Hls in E |- *.
  cbn [mbind option_bind] in E |- *. rewrite packet_window_spec in E |- * by done.
  rewrite bool_decide_eq_true_2 in E |- * by (rewrite Hb1, Hpk; lia).
  cbn [mbind option_bind negb] in E |- *. rewrite Hb1, Hpk in E |- *. injection E as <- _ _.
  eexists _, _. split; [done|]. split; [done|]. split; [by eapply etp_update_perm|].
  split; [|done]. split; try done; [|cbn; lia].
  apply (etp_wf_lookup _ i _ Hrx'). cbn. apply list_lookup_insert_eq. by eapply lookup_lt_Some.
Qed.

(** The answer to packet [k] when it closes the window. *)
Definition etp_grant (k : Z) : Frame :=
  etp_make_cts dst src (Z.min (N - k) 16) (k + 1) pgn.

(** The buffer after packet [k + 1]. *)
Lemma etp_ingested_agrees k s :
  etp_rx_at k s -> 0 <= k < N ->
  let s' := etp_ingested (etp_dt_frame src dst data (k + 1) (s_last_sequence s + 1)) s in
  agrees (7 * (k + 1)) (s_data s') data /\ length (s_data s') = length data.
Proof.
  intros [Hw _ _ _ _ _ Ht Ek Hag] Hk. pose proof etp_packets_bound.
  pose proof (esw_len s Hw) as Hl. unfold etp_ingested. cbn zeta.
  cbn [s_data with_timer_ms with_bytes_transferred with_last_sequence with_data].
  rewrite Ek. replace (k + 1 - 1) with k by lia. split.
  - replace (7 * (k + 1)) with (7 * k + 7) by lia.
    unfold etp_dt_frame. cbn [f_data FrameOps.new8].
    replace (7 * (k + 1 - 1)) with (7 * k) by lia. apply scatter7_agrees; try done; lia.
  - rewrite length_scatter7; [lia|lia|]. cbn. rewrite length_pad7; [done|].
    rewrite length_chunk7 by lia. lia.
Qed.

(** The next packet of an announced window. *)
Lemma etp_rx_dt rx r k s :
  etp_wf rx -> etp_sessions rx ≡ₚ s :: r -> etp_rx_at k s -> etp_quiet r ->
  s_packets_to_send s <> 0 ->
  let f := etp_dt_frame src dst data (k + 1) (s_last_sequence s + 1) in
  exists rx', etp_wf rx' /\
  if k + 1 =? N then
    exists s', etp_process_frame rx f port
      = Some (rx', [etp_make_eoma dst src (Z.of_nat (length data)) pgn], [EtpComplete s']) /\
      etp_sessions rx' ≡ₚ r /\ delivered_session src dst port pgn data s'
  else
    exists s', etp_process_frame rx f port
      = Some (rx', (if s_cts_window_size s =? s_last_sequence s + 1
                    then [etp_grant (k + 1)] else []), []) /\
      etp_sessions rx' ≡ₚ s' :: r /\ etp_rx_at (k + 1) s' /\
      if s_cts_window_size s =? s_last_sequence s + 1
      then s_cts_window_size s' = Z.min (N - (k + 1)) 16
      else s_cts_window_size s' = s_cts_window_size s /\
           s_last_sequence s' = s_last_sequence s + 1 /\
           s_packets_to_send s' = s_packets_to_send s.
Proof.
  intros Hrx Hp Hs Hq Hp0 f. pose proof (etp_rx_at_rx k s Hs) as Hr.
  pose proof (etp_rx_at_packets k s Hs) as HN. pose proof etp_packets_bound.
  pose proof Hs as [Hw Hd E1 E2 E3 E4 Et Ek Hag]. destruct Hr as [Hst Hb Hinc Hdp Hsq Hwn Hgr].
  destruct (etp_process_dt rx port src dst (s_last_sequence s + 1
    :: pad7 (chunk7 (7 * (k + 1 - 1)) data)) Hsrc Hdst Hvs Hvd) as (Es & Ed & Ep).
  fold (etp_dt_frame src dst data (k + 1) (s_last_sequence s + 1)) in *. fold f in Es, Ed, Ep.
  rewrite Ep. clear Ep.
  destruct (etp_locate rx r k s (etp_dt_matches src dst port) Hp Hs Hq) as (i & Hi & Hls).
  { unfold etp_dt_matches. by rewrite Hd, E1, E2, E3, Hst, !Z.eqb_refl. }
  { intros t. unfold etp_dt_matches, etp_path.
    by intros [? _]%andb_true_iff. }
  assert (FrameOps.wf f) as Hf by (apply etp_dt_frame_wf; done || lia).
  assert (FrameOps.byte f 0 = s_last_sequence s + 1) as Hb0 by done.
  pose proof (etp_ingested_agrees k s Hs ltac:(lia)) as [Hag' Hl']. fold f in Hag', Hl'.
  destruct (etp_handle_dt_safe rx f port Hrx) as (rx' & fr & ev & E & Hrx' & _).
  { split; rewrite ?Es, ?Ed; done. }
  unfold etp_handle_dt in E |- *. rewrite Es, Ed, Hi, Hls in E |- *.
  cbn [mbind option_bind] in E |- *. rewrite (proj2 (Z.eqb_neq _ 0)) in E |- * by done.
  rewrite checked_add_Some in E |- * by (simpl; lia). cbn [mbind option_bind] in E |- *.
  rewrite Hb0, Z.eqb_refl in E |- *. cbn [negb] in E |- *.
  rewrite etp_dt_ingest_eq in E |- * by done. cbn zeta in E |- *.
  rewrite Ek, HN, E1, E2, E4, Et in E |- *. destruct (Z.eqb_spec (k + 1) N) as [Hl|Hl].
  - destruct (etp_wf_overwrite_remove rx i s
      (with_state SessionState.Complete (etp_ingested f s)) Hrx Hls)
      as (rx2 & E' & Hrx2 & Hperm & _).
    rewrite E'. cbn [mbind option_bind]. exists rx2. split; [done|]. eexists.
    split; [done|]. split; [rewrite Hp in Hperm; by apply Permutation_cons_inv in Hperm|].
    split; try done. cbn [s_data with_state]. apply (agrees_full (7 * (k + 1))); done || lia.
  - unfold etp_grant. unfold etp_next_window in E |- *. rewrite HN in E |- *.
    change TP_MAX_PACKETS_PER_CTS with 16 in E |- *.
    assert (forall st, etp_session_path st = etp_session_path s -> s_pgn st = pgn ->
      s_total_bytes st = Z.of_nat (length data) -> s_data st = s_data (etp_ingested f s) ->
      s_dpo_packet_offset st = s_dpo_packet_offset s ->
      s_last_sequence st = s_last_sequence s + 1 -> etp_wf (etp_update_session i st rx) ->
      etp_sessions (etp_update_session i st rx) ≡ₚ st :: r /\ etp_rx_at (k + 1) st) as Hnew.
    { intros st Hpath ? ? Hsd Hdo Hsl Hwf. injection Hpath as P1 P2 P3 P4.
      split; [by eapply etp_update_perm|]. split; try congruence; [|lia|by rewrite Hsd].
      apply (etp_wf_lookup _ i st Hwf). cbn. apply list_lookup_insert_eq.
      by eapply lookup_lt_Some. }
    destruct (s_cts_window_size s =? s_last_sequence s + 1); injection E as <- _ _;
      (eexists; split; [done|]; eexists; split; [done|]); cbn [s_cts_window_size
        s_last_sequence s_packets_to_send with_packets_to_send with_cts_window etp_ingested
        with_timer_ms with_last_sequence with_bytes_transferred with_data].
    + destruct (Hnew (with_packets_to_send 0 (with_cts_window (s_cts_window_start s)
        (Z.min (N - (k + 1)) 16) (etp_ingested f s)))) as [? ?]; done.
    + destruct (Hnew (etp_ingested f s)) as [? ?]; done.
Qed.

(** The rest of an announced window ends in the next CTS, or in EOMA after the last
    packet. *)
Lemma etp_feed_window n rx r k s :
  etp_wf rx -> etp_sessions rx ≡ₚ s :: r -> etp_rx_at k s -> etp_quiet r ->
  s_packets_to_send s <> 0 -> s_cts_window_size s - s_last_sequence s = Z.of_nat (S n) ->
  let e := k + Z.of_nat (S n) in
  let b := k - s_last_sequence s in
  let fs := (fun j => etp_dt_frame src dst data (b + j) j)
              <$> seqZ (s_last_sequence s + 1) (Z.of_nat (S n)) in
  e <= N ->
  exists rx', etp_wf rx' /\
  if e =? N then
    exists s', etp_feed rx port fs
      = Some (rx', [etp_make_eoma dst src (Z.of_nat (length data)) pgn], [EtpComplete s']) /\
      etp_sessions rx' ≡ₚ r /\ delivered_session src dst port pgn data s'
  else
    exists s', etp_feed rx port fs = Some (rx', [etp_grant e], []) /\
      etp_sessions rx' ≡ₚ s' :: r /\ etp_rx_at e s' /\
      s_cts_window_size s' = Z.min (N - e) 16.
Proof.
  revert rx k s. induction n as [|n IH]; intros rx k s Hrx Hp Hs Hq Hp0 Hw e b fs He;
    unfold fs; rewrite (seqZ_cons (s_last_sequence s + 1)) by lia;
    rewrite fmap_cons; cbn [etp_feed];
    replace (b + (s_last_sequence s + 1)) with (k + 1) by lia;
    destruct (etp_rx_dt rx r k s Hrx Hp Hs Hq Hp0) as (rx1 & Hrx1 & Hc); cbn zeta in Hc.
  - replace (k + 1) with e in Hc by lia. replace (k + 1) with e by lia.
    rewrite (proj2 (Z.eqb_eq (s_cts_window_size s) _)) in Hc by lia.
    exists rx1. split; [done|].
    destruct (e =? N); destruct Hc as (s1 & -> & ?); exists s1; split; done.
  - rewrite (proj2 (Z.eqb_neq (k + 1) N)) in Hc by lia.
    rewrite (proj2 (Z.eqb_neq (s_cts_window_size s) _)) in Hc by lia.
    destruct Hc as (s1 & -> & Hp1 & Hs1 & Hw1 & Hl1 & Hpt1). cbn [mbind option_bind].
    destruct (IH rx1 (k + 1) s1) as (rx2 & Hrx2 & Hc2); try done; [congruence|lia|lia|].
    replace (k + 1 + Z.of_nat (S n)) with e in Hc2 by lia. rewrite Hl1 in Hc2.
    replace (k + 1 - (s_last_sequence s + 1)) with b in Hc2 by lia.
    replace (Z.succ (s_last_sequence s + 1)) with (s_last_sequence s + 1 + 1) by lia.
    replace (Z.pred (Z.of_nat (S (S n)))) with (Z.of_nat (S n)) by lia.
    exists rx2. split; [done|].
    destruct (e =? N); destruct Hc2 as (s2 & -> & ?); by exists s2.
Qed.

(** One round of data: the DPO and its window. *)
Lemma etp_feed_round rx r k s :
  etp_wf rx -> etp_sessions rx ≡ₚ s :: r -> etp_rx_at k s -> etp_quiet r ->
  s_cts_window_size s = Z.min (N - k) 16 -> 0 <= k < N ->
  let n := Z.min (N - k) 16 in
  exists rx', etp_wf rx' /\
  if k + n =? N then
    exists s', etp_feed rx port (make_dpo_fields pgn src dst n k
                                 :: etp_window src dst data k n)
      = Some (rx', [etp_make_eoma dst src (Z.of_nat (length data)) pgn], [EtpComplete s']) /\
      etp_sessions rx' ≡ₚ r /\ delivered_session src dst port pgn data s'
  else
    exists s', etp_feed rx port (make_dpo_fields pgn src dst n k
                                 :: etp_window src dst data k n)
      = Some (rx', [etp_grant (k + n)], []) /\
      etp_sessions rx' ≡ₚ s' :: r /\ etp_rx_at (k + n) s' /\
      s_cts_window_size s' = Z.min (N - (k + n)) 16.
Proof.
  intros Hrx Hp Hs Hq Hw Hk n. cbn [etp_feed].
  destruct (etp_rx_dpo rx r k s n Hrx Hp Hs Hq) as
    (rx1 & s1 & -> & Hrx1 & Hp1 & Hs1 & Hpt1 & Hw1 & Hl1); [lia|lia|].
  cbn [mbind option_bind].
  destruct (etp_feed_window (Z.to_nat (n - 1)) rx1 r k s1) as (rx2 & Hrx2 & Hc);
    try done; [lia|lia|lia|].
  replace (Z.of_nat (S (Z.to_nat (n - 1)))) with n in Hc by lia.
  rewrite Hl1, Z.sub_0_r in Hc. change (0 + 1) with 1 in Hc. fold (etp_window src dst data k n) in Hc.
  exists rx2. split; [done|].
  destruct (k + n =? N); destruct Hc as (s2 & -> & ?); by exists s2.
Qed.

(** The RTS opens the session and grants the first window. *)
Lemma etp_rx_open rx :
  etp_wf rx -> etp_quiet (etp_sessions rx) ->
  (length (etp_sessions rx) < etp_max_sessions rx)%nat ->
  Z.of_nat (length data) <= etp_max_receive_bytes rx ->
  try_reserve_exact (Z.of_nat (length data)) = true ->
  exists rx' s,
    etp_process_frame rx (etp_make_rts_fields pgn (Z.of_nat (length data)) src dst) port
    = Some (rx', [etp_grant 0], []) /\
    etp_wf rx' /\ etp_sessions rx' ≡ₚ s :: etp_sessions rx /\ etp_rx_at 0 s /\
    s_cts_window_size s = 16.
Proof.
  intros Hrx Hq Hcap Hmax Hg. pose proof etp_packets_bound. unfold etp_make_rts_fields.
  set (L := Z.of_nat (length data)) in *.
  destruct (etp_process_cm rx port src dst etp_cm.RTS (byte0 L) (byte1 L) (byte2 L) (byte3 L)
    pgn Hsrc Hdst Hvs Hvd Hpgn) as (Ej & Es & Ed & ->).
  cbn [Z.eqb Pos.eqb etp_cm.RTS].
  set (f := FrameOps.new8 _ _) in *.
  assert (etp_size f = L) as Hsz.
  { apply le32_join. unfold in_u. change (2 ^ 32) with 4294967296. lia. }
  assert (receive_dt_path_is_active rx src dst port = false) as Ha by (by apply existsb_false).
  unfold etp_handle_rts, receive_profile_for_advertised_size, TP_MAX_DATA_LENGTH,
    ETP_MAX_DATA_LENGTH, rx_buffer.
  rewrite Hsz, Ej, Es, Ed, Ha, Hg. rewrite (proj2 (Z.leb_le (1785 + 1) _)) by lia.
  rewrite (proj2 (Z.leb_le _ 117440505)) by lia. cbn [andb negb].
  rewrite (proj2 (Z.ltb_ge _ L)) by lia. cbn [rp_total_packets].
  unfold TP_BYTES_PER_FRAME. fold N. rewrite (proj2 (Z.ltb_ge _ N)) by lia.
  rewrite (proj2 (Nat.leb_gt _ _)) by lia.
  set (s := etp_rx_session _ _ _ _ _ _ _).
  assert (etp_session_wf s) as Hws by (by apply etp_rx_session_wf).
  eexists _, s. split.
  { unfold etp_grant. rewrite Z.min_r by lia. done. }
  split_and!; [by apply etp_wf_push|cbn; by rewrite Permutation_app_comm| |done].
  split; try done. apply agrees_0.
Qed.
End receive.

(** ** Sending one transfer *)

Section transmit.
Context `{Allocator}.
Context (src dst : Address) (port : Z) (pgn : Pgn) (data : list Z).
Hypothesis Hsrc : in_u 8 src.
Hypothesis Hdst : in_u 8 dst.
Hypothesis Hvs : valid_etp_source src = true.
Hypothesis Hvd : valid_etp_destination dst = true.
Hypothesis Hpgn : in_u 18 pgn.
Hypothesis Hlen : 1785 < Z.of_nat (length data) <= 117440505.

Let N := div_ceil (Z.of_nat (length data)) 7.

(** The transmit session of the transfer, in state [st] after [k] packets. *)
Record etp_tx_at (st : SessionState.t) (k : Z) (s : TransportSession) : Prop := {
  eta_wf : etp_session_wf s;
  eta_dir : s_direction s = Transmit;
  eta_src : s_source_address s = src;
  eta_dst : s_destination_address s = dst;
  eta_port : s_can_port s = port;
  eta_pgn : s_pgn s = pgn;
  eta_data : s_data s = data;
  eta_state : s_state s = st;
  eta_sent : s_bytes_transferred s = Z.min (7 * k) (s_total_bytes s)
}.

Lemma etp_tx_at_total st k s :
  etp_tx_at st k s -> s_total_bytes s = Z.of_nat (length data) /\ total_packets s = N.
Proof.
  intros [Hw _ _ _ _ _ Hd _ _]. destruct Hw as [_ Hl _ _ _ _ _ _ _ _]. rewrite Hd in Hl.
  split; [done|]. unfold total_packets, TP_BYTES_PER_FRAME. by rewrite <- Hl.
Qed.

Lemma etp_addresses_swap : valid_etp_source dst = true /\ valid_etp_destination src = true.
Proof. by split. Qed.

(** A CTS for the next packets is answered by their DPO and DT frames. *)
Lemma etp_tx_cts tx s k c :
  etp_wf tx -> etp_sessions tx = [s] -> etp_tx_at SessionState.WaitingForCTS k s ->
  1 <= c <= 16 -> 0 <= k -> k + c <= N ->
  exists tx1 tx2 s2,
    etp_process_frame tx (etp_make_cts dst src c (k + 1) pgn) port = Some (tx1, [], []) /\
    etp_get_pending_data_frames tx1
    = Some (tx2, make_dpo_fields pgn src dst c k :: etp_window src dst data k c) /\
    etp_wf tx2 /\ etp_sessions tx2 = [s2] /\
    etp_tx_at (if k + c =? N then SessionState.WaitingForEndOfMsg
               else SessionState.WaitingForCTS) (k + c) s2.
Proof.
  intros Htx Hss Hs Hc Hk HkN. destruct etp_addresses_swap as [Hvd' Hvs'].
  pose proof (etp_packets_bound data Hlen) as HNb. fold N in HNb.
  destruct (etp_tx_at_total _ _ _ Hs) as [Ht HN].
  pose proof Hs as [Hw Hd E1 E2 E3 E4 Hda Hst Hb].
  destruct (etp_process_cm tx port dst src etp_cm.CTS c (byte0 (k + 1)) (byte1 (k + 1))
    (byte2 (k + 1)) pgn Hdst Hsrc Hvd' Hvs' Hpgn) as (Ej & Es & Ed & Ep).
  fold (etp_make_cts dst src c (k + 1) pgn) in *.
  set (f := etp_make_cts dst src c (k + 1) pgn) in *. rewrite Ep. clear Ep.
  cbn [Z.eqb Pos.eqb etp_cm.RTS etp_cm.CTS].
  assert (etp_packet f = k + 1) as Hpk.
  { apply le24_join. unfold in_u. change (2 ^ 24) with 16777216. lia. }
  assert (FrameOps.byte f 1 = c) as Hb1 by done.
  assert (in_u 8 c) as Hc8 by (unfold in_u; simpl; lia).
  assert (etp_cts_session c (k + 1) s = Some (etp_granted c (k + 1) s, None)) as Hcts.
  { unfold etp_cts_session. rewrite Hst. rewrite bool_decide_eq_false_2 by done.
    rewrite (proj2 (Z.eqb_neq c 0)), (proj2 (Z.eqb_neq (k + 1) 0)),
      (proj2 (Z.ltb_ge _ _)) by lia. cbn [orb].
    destruct (etp_clamp_eq s c (k + 1)) as (-> & _); [lia|done|lia|]. cbn [mbind option_bind].
    rewrite checked_sub_Some by lia. cbn [mbind option_bind].
    rewrite checked_mul_Some by (simpl; lia). done. }
  assert (etp_session_wf (etp_granted c (k + 1) s)) as Hgw
    by (apply etp_granted_wf; try done; lia).
  unfold etp_handle_cts. rewrite Ej, Es, Ed, Hss, Hb1, Hpk. cbn [position].
  assert (etp_cts_matches dst src pgn port s = true) as ->.
  { unfold etp_cts_matches. rewrite Hd, E1, E2, E3, E4, Hst, !Z.eqb_refl. done. }
  cbn [lookup list_lookup mbind option_bind]. rewrite Hcts. cbn [mbind option_bind].
  set (g := etp_granted c (k + 1) s) in *.
  assert (s_packets_to_send g = c) as Hgp.
  { unfold g, etp_granted, TP_MAX_PACKETS_PER_CTS. cbn [s_packets_to_send with_timer_ms
      with_bytes_transferred with_packets_to_send]. lia. }
  assert (s_bytes_transferred g = 7 * k) as Hgb by (unfold g; cbn -[Z.mul]; lia).
  destruct (etp_drain_eq g Hgw) as (k' & Hb' & Hk' & _ & _ & Edr);
    [by unfold etp_sending; cbn; rewrite Hd|].
  assert (k' = k) as -> by lia. rewrite Hgp in Edr.
  destruct (etp_drain_wf g Hgw) as (s2 & fr & Edr2 & Hs2w & _). rewrite Edr in Edr2.
  injection Edr2 as <- <-.
  eexists _, _, (etp_drained (k + c) g). split; [done|]. split.
  { unfold etp_get_pending_data_frames, etp_update_session. rewrite Hss.
    cbn [etp_sessions etp_with_sessions insert list_insert etp_drain_sessions].
    rewrite Edr. cbn [mbind option_bind]. rewrite app_nil_r.
    change (s_pgn g) with (s_pgn s). change (s_source_address g) with (s_source_address s).
    change (s_destination_address g) with (s_destination_address s).
    change (s_data g) with (s_data s). by rewrite E1, E2, E4, Hda. }
  split.
  { split; cbn; [by constructor|apply NoDup_singleton|apply Htx]. }
  split; [done|]. split; try done. cbn [etp_drained s_state with_timer_ms with_state].
  change (total_packets g) with (total_packets s). by rewrite HN.
Qed.

Lemma etp_tx_eoma tx s :
  etp_sessions tx = [s] -> etp_tx_at SessionState.WaitingForEndOfMsg N s ->
  etp_process_frame tx (etp_make_eoma dst src (Z.of_nat (length data)) pgn) port
  = Some (etp_with_sessions [] tx, [], [EtpComplete (with_state SessionState.Complete s)]).
Proof.
  intros Hss Hs. destruct etp_addresses_swap as [Hvd' Hvs'].
  destruct (etp_tx_at_total _ _ _ Hs) as [Ht _].
  pose proof Hs as [Hw Hd E1 E2 E3 E4 Hda Hst _]. unfold etp_make_eoma.
  set (L := Z.of_nat (length data)) in *.
  destruct (etp_process_cm tx port dst src etp_cm.EOMA (byte0 L) (byte1 L) (byte2 L) (byte3 L)
    pgn Hdst Hsrc Hvd' Hvs' Hpgn) as (Ej & Es & Ed & ->).
  cbn [Z.eqb Pos.eqb etp_cm.RTS etp_cm.CTS etp_cm.DPO etp_cm.EOMA].
  set (f := FrameOps.new8 _ _) in *.
  assert (etp_size f = L) as Hsz.
  { apply le32_join. unfold in_u. change (2 ^ 32) with 4294967296. lia. }
  unfold etp_handle_eoma, etp_remove_session. rewrite Ej, Es, Ed, Hss, Hsz. cbn [position].
  rewrite Hd, E1, E2, E3, E4, !Z.eqb_refl. cbn [lookup list_lookup mbind option_bind andb].
  rewrite bool_decide_eq_true_2 by done. cbn [andb lookup list_lookup mbind option_bind].
  rewrite Hst, Ht, Z.eqb_refl. rewrite bool_decide_eq_true_2 by done. cbn [negb orb].
  done.
Qed.
End transmit.

(** ** The exchange *)

Section exchange.
Context `{Allocator}.
Context (src dst : Address) (port : Z) (pgn : Pgn) (data : list Z).
Hypothesis Hsrc : in_u 8 src.
Hypothesis Hdst : in_u 8 dst.
Hypothesis Hvs : valid_etp_source src = true.
Hypothesis Hvd : valid_etp_destination dst = true.
Hypothesis Hpgn : in_u 18 pgn.
Hypothesis Hbytes : bytes data.
Hypothesis Hlen : 1785 < Z.of_nat (length data) <= 117440505.

Let N := div_ceil (Z.of_nat (length data)) 7.
Let round (k : Z) : list Frame :=
  make_dpo_fields pgn src dst (Z.min (N - k) 16) k
  :: etp_window src dst data k (Z.min (N - k) 16).

(** A round answered by a CTS at packet [e]: the sender puts the next round on the wire. *)
Lemma etp_next_round fuel tx rx rx' wire s e :
  etp_feed rx port wire = Some (rx', [etp_grant src dst pgn data e], []) ->
  etp_wf tx -> etp_sessions tx = [s] ->
  etp_tx_at src dst port pgn data SessionState.WaitingForCTS e s -> 0 <= e < N ->
  exists tx' s',
    etp_exchange (S fuel) tx rx port wire = etp_exchange fuel tx' rx' port (round e) /\
    etp_wf tx' /\ etp_sessions tx' = [s'] /\
    etp_tx_at src dst port pgn data
      (if e + Z.min (N - e) 16 =? N then SessionState.WaitingForEndOfMsg
       else SessionState.WaitingForCTS) (e + Z.min (N - e) 16) s'.
Proof.
  intros Hfeed Htx Hss Hs He.
  destruct (etp_tx_cts src dst port pgn data Hsrc Hdst Hvs Hvd Hpgn Hlen tx s e
    (Z.min (N - e) 16) Htx Hss Hs) as (tx1 & tx2 & s2 & E1 & E2 & Htx2 & Hs2 & Hat);
    [lia|lia|fold N; lia|].
  exists tx2, s2. split; [|done]. cbn [etp_exchange]. rewrite Hfeed. cbn [mbind option_bind].
  rewrite etp_feed_one. unfold etp_grant. fold N. rewrite E1. cbn [mbind option_bind].
  rewrite E2. cbn [mbind option_bind app]. fold (round e).
  by destruct (etp_exchange fuel tx2 rx' port (round e)) as [[[[? ?] ?] ?]|].
Qed.

Lemma etp_exchange_loop fuel tx rx r s t k :
  etp_wf tx -> etp_wf rx -> etp_sessions tx = [s] ->
  etp_tx_at src dst port pgn data
    (if k + Z.min (N - k) 16 =? N then SessionState.WaitingForEndOfMsg
     else SessionState.WaitingForCTS) (k + Z.min (N - k) 16) s ->
  etp_sessions rx ≡ₚ t :: r -> etp_rx_at src dst port pgn data k t ->
  etp_quiet src dst port r -> s_cts_window_size t = Z.min (N - k) 16 -> 0 <= k < N ->
  N - k <= 16 * Z.of_nat fuel ->
  exists tx' rx' st sr,
    etp_exchange fuel tx rx port (round k)
    = Some (tx', rx', [EtpComplete st], [EtpComplete sr]) /\
    etp_sessions tx' = [] /\ etp_wf rx' /\ etp_sessions rx' ≡ₚ r /\
    s_data st = data /\ s_direction st = Transmit /\ s_state st = SessionState.Complete /\
    delivered_session src dst port pgn data sr.
Proof.
  revert tx rx s t k. induction fuel as [|fuel IH];
    intros tx rx s t k Htx Hrx Hss Hs Hp Ht Hq Hw Hk Hf; [lia|].
  destruct (etp_feed_round src dst port pgn data Hsrc Hdst Hvs Hvd Hpgn Hbytes Hlen rx r k t
    Hrx Hp Ht Hq Hw Hk) as (rx1 & Hrx1 & Hcase). cbn zeta in Hcase. fold N in Hcase.
  fold (round k) in Hcase. destruct (Z.eqb_spec (k + Z.min (N - k) 16) N) as [He|He].
  - destruct Hcase as (sr & E & Hp1 & Hds). rewrite He in Hs.
    cbn [etp_exchange]. rewrite E. cbn [mbind option_bind]. rewrite etp_feed_one.
    rewrite (etp_tx_eoma src dst port pgn data Hsrc Hdst Hvs Hvd Hpgn Hlen tx s Hss Hs).
    cbn [mbind option_bind etp_get_pending_data_frames etp_sessions etp_with_sessions
      etp_drain_sessions app].
    eexists _, _, _, _. split; [done|]. split_and!; try done; apply Hs.
  - destruct Hcase as (t1 & E & Hp1 & Ht1 & Hw1).
    set (e := k + Z.min (N - k) 16) in *.
    destruct (etp_next_round fuel tx rx rx1 _ s e E Htx Hss Hs)
      as (tx1 & s1 & -> & Htx1 & Hss1 & Hs1); [lia|].
    apply (IH tx1 rx1 s1 t1 e); try done; lia.
Qed.
End exchange.
