(* ===== verification/EtpProps.v ===== *)
(** The properties of the Extended Transport Protocol engine, from the lemmas of
    [EtpInv], [EtpSafety] and [EtpTransfer]. *)
From S2P Require Export EtpTransfer.

Section properties.
Context `{Allocator}.

(** ** Public calls *)

Inductive etp_op : Type :=
| EtpSend (pgn : Pgn) (data : list Z) (src dst : Address) (port : Z) (prio : Priority.t)
| EtpFrame (f : Frame) (port : Z)
| EtpUpdate (elapsed_ms : Z)
| EtpDrain
| EtpAbortFor (port : Z) (address : Address)
| EtpMaxReceive (n : Z)
| EtpMaxSessions (n : nat)
| EtpClearStats.

Definition etp_apply (p : ExtendedTransportProtocol) (op : etp_op) : etp_result :=
  match op with
  | EtpSend pgn data src dst port prio =>
      match etp_send p pgn data src dst port prio with
      | (p, Ok frames) => Some (p, frames, [])
      | (p, Err _) => Some (p, [], [])
      end
  | EtpFrame f port => etp_process_frame p f port
  | EtpUpdate e => etp_update p e
  | EtpDrain => '(p, frames) ← etp_get_pending_data_frames p; Some (p, frames, [])
  | EtpAbortFor port a => let '(p, frames) := etp_abort_sessions_for_address p port a in
                          Some (p, frames, [])
  | EtpMaxReceive n => Some (etp_set_max_receive_bytes n p, [], [])
  | EtpMaxSessions n => Some (etp_set_max_sessions n p, [], [])
  | EtpClearStats => Some (etp_clear_stats p, [], [])
  end.

(** The arguments Rust's types allow; a payload is shorter than 4 GiB. *)
Definition etp_op_typed (op : etp_op) : Prop :=
  match op with
  | EtpSend pgn data src dst port _ =>
      in_u 32 pgn /\ in_u 8 src /\ in_u 8 dst /\ bytes data /\
      in_u 32 (Z.of_nat (length data))
  | EtpFrame f _ => FrameOps.wf f
  | EtpUpdate e => in_u 32 e
  | EtpMaxReceive n => in_u 32 n
  | _ => True
  end.

Inductive etp_reachable : ExtendedTransportProtocol -> Prop :=
| etp_reach_new : etp_reachable etp_new
| etp_reach_step p op p' frames evs :
    etp_reachable p -> etp_op_typed op -> etp_apply p op = Some (p', frames, evs) ->
    etp_reachable p'.

Lemma etp_wf_new : etp_wf etp_new.
Proof. split; cbn; try constructor; unfold ETP_MAX_DATA_LENGTH; done || lia. Qed.

Lemma etp_tx_session_wf pgn data src dst port prio :
  in_u 18 pgn -> in_u 8 src -> in_u 8 dst -> bytes data ->
  valid_etp_source src = true -> valid_etp_destination dst = true ->
  1785 < Z.of_nat (length data) <= 117440505 ->
  etp_session_wf (etp_tx_session pgn data src dst port prio).
Proof.
  intros Hpgn Hs Hd Hb Hvs Hvd Hl.
  assert (wrap 32 (Z.of_nat (length data)) = Z.of_nat (length data)) as Hwr
    by (apply wrap_small; unfold in_u; change (2 ^ 32) with 4294967296; lia).
  pose proof (div_ceil_7 (Z.of_nat (length data))).
  split; unfold etp_tx_session; cbn [s_total_bytes s_data s_pgn s_source_address
    s_destination_address s_timer_ms s_direction]; rewrite ?Hwr; try done.
  exists 0. split; unfold total_packets, TP_BYTES_PER_FRAME; cbn [s_total_bytes
    s_bytes_transferred s_state]; rewrite ?Hwr; lia.
Qed.

Lemma etp_send_cases p pgn data src dst port prio :
  etp_wf p -> in_u 32 pgn -> in_u 8 src -> in_u 8 dst -> bytes data ->
  in_u 32 (Z.of_nat (length data)) ->
  let '(p', r) := etp_send p pgn data src dst port prio in
  etp_wf p' /\
  match r with
  | Ok frames =>
      exists s, etp_sessions p' = etp_sessions p ++ [s] /\ etp_session_wf s /\
        s_data s = data /\ s_pgn s = pgn /\ s_source_address s = src /\
        s_destination_address s = dst /\ s_state s = SessionState.WaitingForCTS /\
        frames = [etp_make_rts s] /\ Forall FrameOps.wf frames /\
        (length (etp_sessions p') <= etp_max_sessions p)%nat
  | Err e =>
      etp_sessions p' = etp_sessions p /\
      match Error.code e with
      | ErrorCode.InvalidData => 0x3FFFF < pgn
      | ErrorCode.InvalidAddress =>
          valid_etp_source src = false \/ valid_etp_destination dst = false
      | ErrorCode.BufferOverflow => 117440505 < Z.of_nat (length data)
      | ErrorCode.InvalidState => Z.of_nat (length data) <= 1785
      | ErrorCode.SessionExists =>
          Exists (fun s => etp_path Transmit src dst port s = true) (etp_sessions p)
      | ErrorCode.NoResources => (etp_max_sessions p <= length (etp_sessions p))%nat
      | _ => False
      end
  end.
Proof.
  intros Hp Hpgn Hs Hd Hb Hl. unfold etp_send, pgn_is_valid, TP_MAX_DATA_LENGTH,
    ETP_MAX_DATA_LENGTH. unfold_etp_notes. rewrite wrap_small by done.
  destruct (Z.leb_spec pgn 0x3FFFF) as [Hv|Hv]; cbn [negb]; [|err_case].
  destruct (valid_etp_source src) eqn:Hvs; cbn [negb]; [|err_case].
  destruct (valid_etp_destination dst) eqn:Hvd; cbn [negb]; [|err_case].
  destruct (Z.ltb_spec 117440505 (Z.of_nat (length data))); [err_case|].
  destruct (Z.leb_spec (Z.of_nat (length data)) 1785); [err_case|].
  destruct (transmit_dt_path_is_active p src dst port) eqn:Hex.
  { split_and!; try done. apply List.existsb_exists in Hex as (x & Hin & Hx). cbn.
    apply Exists_exists. exists x. by rewrite <- list_elem_of_In in Hin. }
  destruct (Nat.leb_spec (etp_max_sessions p) (length (etp_sessions p))); [err_case|].
  assert (in_u 18 pgn) as H18
    by (destruct Hpgn; unfold in_u; change (2 ^ 18) with 0x40000; lia).
  pose proof (etp_tx_session_wf pgn data src dst port prio H18 Hs Hd Hb Hvs Hvd
    ltac:(lia)) as Hw.
  split; [by apply etp_wf_push|]. eexists. split; [done|]. split_and!; try done.
  - apply Forall_singleton. by apply etp_make_rts_wf.
  - cbn. rewrite length_app. simpl. lia.
Qed.

Lemma etp_get_pending_safe p :
  etp_wf p ->
  exists p' frames, etp_get_pending_data_frames p = Some (p', frames) /\ etp_wf p' /\
    Forall FrameOps.wf frames /\ Forall (fun s => etp_sending s = false) (etp_sessions p').
Proof.
  intros [Hs Hn ?]. unfold etp_get_pending_data_frames.
  destruct (etp_drain_sessions_wf _ Hs) as (l & fr & -> & Hl & Hk & Hc & Hf).
  cbn [mbind option_bind]. eexists _, _. split; [done|]. split_and!; try done.
  split; cbn; try done. by rewrite Hk.
Qed.

Lemma etp_apply_wf p op :
  etp_wf p -> etp_op_typed op ->
  exists p' frames evs, etp_apply p op = Some (p', frames, evs) /\ etp_wf p' /\
    Forall FrameOps.wf frames.
Proof.
  intros Hp Hop. destruct op; cbn [etp_apply etp_op_typed] in *.
  - destruct Hop as (H1 & H2 & H3 & H4 & H5).
    pose proof (etp_send_cases p pgn data src dst port prio Hp H1 H2 H3 H4 H5) as Hs.
    destruct (etp_send _ _ _ _ _ _ _) as [p' [fr|er]]; destruct Hs as (Hw & Hs).
    + destruct Hs as (s & ? & ? & ? & ? & ? & ? & ? & ? & ? & _). by eexists _, _, _.
    + eexists _, _, _. split; [done|]. split; [done|constructor].
  - destruct (etp_process_frame_safe_aux p f port Hp Hop) as (p' & fr & ev & -> & ? & ? & _).
    by eexists _, _, _.
  - destruct (etp_update_spec_aux p elapsed_ms Hp) as (p' & fr & ev & -> & ? & ? & _);
      [apply Hop|]. by eexists _, _, _.
  - destruct (etp_get_pending_safe p Hp) as (p' & fr & -> & ? & ? & _). by eexists _, _, _.
  - eexists _, _, _. split; [done|]. split; [|constructor]. destruct Hp.
    split; cbn; [by apply Forall_filter_P|by apply NoDup_fmap_filter|done].
  - eexists _, _, _. split; [done|]. split; [|constructor]. destruct Hp, Hop. split; try done.
    cbn. unfold ETP_MAX_DATA_LENGTH. lia.
  - eexists _, _, _. split; [done|]. split; [|constructor]. by destruct Hp.
  - eexists _, _, _. split; [done|]. split; [|constructor]. by apply etp_wf_stats.
Qed.

Lemma etp_reachable_wf p : etp_reachable p -> etp_wf p.
Proof.
  induction 1 as [|p op p' fr ev _ Hp Hop E]; [apply etp_wf_new|].
  destruct (etp_apply_wf p op Hp Hop) as (p2 & fr2 & ev2 & E2 & Hp2 & _).
  rewrite E in E2. by simplify_eq.
Qed.

Lemma etp_abort_receive_eq p i s :
  etp_wf p -> etp_sessions p !! i = Some s ->
  exists p', etp_abort_receive p i s
    = Some (p', [etp_make_session_abort s AbortReason.BadSequence],
            [EtpAbort (from_session s AbortReason.BadSequence)]) /\
    etp_wf p' /\ etp_sessions p ≡ₚ s :: etp_sessions p'.
Proof.
  intros Hp Hi. unfold etp_abort_receive. unfold_etp_notes.
  rewrite etp_update_stats, !etp_stats_stats, etp_remove_stats.
  destruct (etp_wf_overwrite_remove p i s (with_state SessionState.Aborted s) Hp Hi)
    as (p1 & -> & Hp1 & Hperm & _). cbn [mbind option_bind].
  eexists. split; [done|]. split; [by apply etp_wf_stats|done].
Qed.

(** ** Properties *)

(** C4: the Extended Transport Protocol engine never panics: from every state reachable
    from a new engine by public calls with arguments in their Rust types, the next call
    returns, keeps the session invariant and emits only well-formed frames. *)
Theorem etp_reachable_safe p op :
  etp_reachable p -> etp_op_typed op ->
  etp_wf p /\ exists p' frames evs, etp_apply p op = Some (p', frames, evs) /\ etp_wf p' /\
    Forall FrameOps.wf frames.
Proof.
  intros Hr Hop. split; [by apply etp_reachable_wf|].
  by apply etp_apply_wf; [apply etp_reachable_wf|].
Qed.

(** C2: extended transfer end to end.  Between an idle sender and any receiver with a
    free slot and no session on that path, a payload of 1786 to 117440505 bytes runs to
    completion in one exchange round for the RTS and one per sixteen packets: both
    sides report exactly one completed session with the payload, nothing is aborted, the
    sender's table is empty again and the receiver's other sessions are kept. *)
Theorem etp_transfer tx rx pgn data src dst port prio fuel :
  etp_wf tx -> etp_sessions tx = [] -> (0 < etp_max_sessions tx)%nat ->
  in_u 18 pgn -> in_u 8 src -> in_u 8 dst ->
  valid_etp_source src = true -> valid_etp_destination dst = true -> bytes data ->
  1785 < Z.of_nat (length data) <= 117440505 ->
  etp_wf rx -> etp_quiet src dst port (etp_sessions rx) ->
  (length (etp_sessions rx) < etp_max_sessions rx)%nat ->
  Z.of_nat (length data) <= etp_max_receive_bytes rx ->
  try_reserve_exact (Z.of_nat (length data)) = true ->
  div_ceil (Z.of_nat (length data)) 7 + 16 <= 16 * Z.of_nat fuel ->
  exists tx1 rts tx2 rx' st sr,
    etp_send tx pgn data src dst port prio = (tx1, Ok [rts]) /\
    etp_exchange fuel tx1 rx port [rts]
    = Some (tx2, rx', [EtpComplete st], [EtpComplete sr]) /\
    etp_sessions tx2 = [] /\ s_data st = data /\ s_state st = SessionState.Complete /\
    delivered_session src dst port pgn data sr /\
    etp_wf rx' /\ etp_sessions rx' ≡ₚ etp_sessions rx.
Proof.
  intros Htx Hss Hcap Hpgn Hs Hd Hvs Hvd Hb Hl Hrx Hq Hcap2 Hmax Hg Hf.
  pose proof (etp_tx_session_wf pgn data src dst port prio Hpgn Hs Hd Hb Hvs Hvd Hl) as Hw.
  set (s := etp_tx_session pgn data src dst port prio) in *.
  assert (wrap 32 (Z.of_nat (length data)) = Z.of_nat (length data)) as Hwr
    by (apply wrap_small; unfold in_u; change (2 ^ 32) with 4294967296; lia).
  assert (etp_send tx pgn data src dst port prio
    = (etp_push_session s tx, Ok [etp_make_rts s])) as Esend.
  { unfold etp_send, transmit_dt_path_is_active, TP_MAX_DATA_LENGTH, ETP_MAX_DATA_LENGTH.
    rewrite pgn_valid_18, Hvs, Hvd, Hwr, Hss by done. cbn [negb existsb length].
    by rewrite (proj2 (Z.ltb_ge _ _)), (proj2 (Z.leb_gt _ _)), (proj2 (Nat.leb_gt _ _)) by lia. }
  assert (etp_wf (etp_push_session s tx)) as Htx1.
  { apply etp_wf_push; [done|done|]. by rewrite Hss. }
  assert (etp_sessions (etp_push_session s tx) = [s]) as Hss1 by (cbn; by rewrite Hss).
  assert (etp_tx_at src dst port pgn data SessionState.WaitingForCTS 0 s) as Hat.
  { split; try done. unfold s, etp_tx_session. cbn [s_bytes_transferred s_total_bytes].
    rewrite Hwr. lia. }
  destruct (etp_rx_open src dst port pgn data Hs Hd Hvs Hvd Hpgn Hl rx Hrx Hq Hcap2 Hmax Hg)
    as (rx1 & t & Eo & Hrx1 & Hp1 & Ht & Hw1).
  pose proof (etp_packets_bound data Hl) as HN. set (N := div_ceil _ 7) in *.
  destruct fuel as [|fuel]; [lia|].
  assert (etp_feed rx port [etp_make_rts s] = Some (rx1, [etp_grant src dst pgn data 0], []))
    as Hopen.
  { rewrite etp_feed_one. unfold etp_make_rts, s, etp_tx_session.
    cbn [s_pgn s_total_bytes s_source_address s_destination_address]. by rewrite Hwr. }
  destruct (etp_next_round src dst port pgn data Hs Hd Hvs Hvd Hpgn Hl fuel
    (etp_push_session s tx) rx rx1 _ s 0 Hopen Htx1 Hss1 Hat)
    as (tx1 & s1 & E1 & Htx2 & Hss2 & Hat2); [fold N; lia|].
  destruct (etp_exchange_loop src dst port pgn data Hs Hd Hvs Hvd Hpgn Hb Hl fuel tx1 rx1
    (etp_sessions rx) s1 t 0) as (tx2 & rx2 & st & sr & E2 & R1 & R2 & R3 & R4 & _ & R5 & R6);
    try done; [fold N; lia..|].
  exists (etp_push_session s tx), (etp_make_rts s), tx2, rx2, st, sr.
  split; [done|]. split; [by rewrite E1|]. done.
Qed.

(** The ETP timer sweep visits every session exactly once: survivors, abort frames
    and events are, up to order, those of [etp_tick] on each session, and no session left
    is past its per-state deadline. *)
Theorem etp_update_sweep p e :
  etp_wf p -> in_u 32 e ->
  exists p' frames evs,
    etp_update p e = Some (p', frames, evs) /\ etp_wf p' /\
    etp_sessions p' ≡ₚ omap (etp_kept e) (etp_sessions p) /\
    frames ≡ₚ etp_sessions p ≫= etp_tick_frames e /\
    evs ≡ₚ etp_sessions p ≫= etp_tick_events e /\
    Forall (fun s => etp_timed_out s = false) (etp_sessions p').
Proof.
  intros Hp [He _]. destruct (etp_update_spec_aux p e Hp He)
    as (p' & fr & ev & ? & ? & _ & ?). by exists p', fr, ev.
Qed.

(** [send] of the extended engine succeeds exactly by appending one well-formed
    session waiting for a CTS and returning its RTS; every refusal leaves the sessions
    alone and its error code states the condition that failed. *)
Theorem etp_send_outcome p pgn data src dst port prio :
  etp_wf p -> in_u 32 pgn -> in_u 8 src -> in_u 8 dst -> bytes data ->
  in_u 32 (Z.of_nat (length data)) ->
  let '(p', r) := etp_send p pgn data src dst port prio in
  etp_wf p' /\
  match r with
  | Ok frames =>
      exists s, etp_sessions p' = etp_sessions p ++ [s] /\ etp_session_wf s /\
        s_data s = data /\ s_pgn s = pgn /\ s_source_address s = src /\
        s_destination_address s = dst /\ s_state s = SessionState.WaitingForCTS /\
        frames = [etp_make_rts s] /\ Forall FrameOps.wf frames /\
        (length (etp_sessions p') <= etp_max_sessions p)%nat
  | Err e =>
      etp_sessions p' = etp_sessions p /\
      match Error.code e with
      | ErrorCode.InvalidData => 0x3FFFF < pgn
      | ErrorCode.InvalidAddress =>
          valid_etp_source src = false \/ valid_etp_destination dst = false
      | ErrorCode.BufferOverflow => 117440505 < Z.of_nat (length data)
      | ErrorCode.InvalidState => Z.of_nat (length data) <= 1785
      | ErrorCode.SessionExists =>
          Exists (fun s => etp_path Transmit src dst port s = true) (etp_sessions p)
      | ErrorCode.NoResources => (etp_max_sessions p <= length (etp_sessions p))%nat
      | _ => False
      end
  end.
Proof. apply etp_send_cases. Qed.

(** ETP data is unambiguous: in every reachable state two sessions of the same
    direction on the same source, destination and port are the same session, and both
    endpoints of every session are addresses a node can own. *)
Theorem etp_paths_unambiguous p i j s t :
  etp_reachable p -> etp_sessions p !! i = Some s -> etp_sessions p !! j = Some t ->
  s_direction s = s_direction t -> s_source_address s = s_source_address t ->
  s_destination_address s = s_destination_address t -> s_can_port s = s_can_port t ->
  i = j /\ valid_etp_source (s_source_address s) = true /\
  valid_etp_destination (s_destination_address s) = true.
Proof.
  intros Hp%etp_reachable_wf Hi Hj E1 E2 E3 E4.
  destruct (etp_wf_lookup p i s Hp Hi). split; [|done].
  eapply (NoDup_lookup (etp_session_path <$> etp_sessions p)); [apply Hp| |].
  - rewrite list_lookup_fmap, Hi. done.
  - rewrite list_lookup_fmap, Hj. cbn. unfold etp_session_path. congruence.
Qed.

(** a DPO is accepted exactly when it announces a non-empty run inside the granted
    window that starts at the next missing packet and does not pass the end: then it
    resets the sequence and nothing received is lost; otherwise the receiver aborts with
    BadSequence and drops only that session. *)
Theorem etp_dpo_window p f port i s :
  etp_wf p -> FrameOps.wf f ->
  position (dpo_matches (FrameOps.source f) (FrameOps.destination f)
              (pgn_from_cm_bytes (f_data f)) port) (etp_sessions p) = Some i ->
  etp_sessions p !! i = Some s ->
  let n := FrameOps.byte f 1 in
  let k := s_dpo_packet_offset s + s_last_sequence s in
  if bool_decide (1 <= n <= s_cts_window_size s /\ k + n <= total_packets s /\
                  etp_packet f = k)
  then exists s', etp_handle_dpo p f port = Some (etp_update_session i s' p, [], []) /\
         etp_wf (etp_update_session i s' p) /\ s_dpo_packet_offset s' = k /\
         s_last_sequence s' = 0 /\ s_packets_to_send s' = n /\ s_cts_window_size s' = n /\
         s_data s' = s_data s /\ s_bytes_transferred s' = s_bytes_transferred s
  else exists p', etp_handle_dpo p f port
         = Some (p', [etp_make_session_abort s AbortReason.BadSequence],
                 [EtpAbort (from_session s AbortReason.BadSequence)]) /\
         etp_wf p' /\ etp_sessions p ≡ₚ s :: etp_sessions p'.
Proof.
  intros Hp Hf Hi Hls n k. pose proof (etp_wf_lookup p i s Hp Hls) as Hw.
  apply position_Some in Hi as Hm. destruct Hm as (s2 & Hs2 & Hm & _).
  rewrite Hls in Hs2. injection Hs2 as <-. unfold dpo_matches in Hm. reflect_bools.
  pose proof (byte_range f 1 Hf) as [Hb _]. fold n in Hb.
  pose proof (esw_dir s Hw) as Hrx. rewrite H0 in Hrx.
  destruct Hrx as [Hst Hbt Hinc Hdp Hsq Hwin _].
  unfold etp_handle_dpo. rewrite Hi, Hls. cbn [mbind option_bind].
  rewrite packet_window_spec by done. cbn [mbind option_bind]. fold n. fold k.
  destruct (bool_decide_reflect (1 <= n <= s_cts_window_size s /\ k + n <= total_packets s
    /\ etp_packet f = k)) as [Hv|Hv].
  - rewrite bool_decide_eq_true_2 by lia. cbn [negb].
    eexists. split; [done|]. split; [|split_and!; done || apply Hv].
    eapply etp_wf_update; [done|done| |done].
    apply (etp_session_wf_same s); try done; [apply Hw|]. cbn. rewrite H0.
    split; cbn; try done; try lia. right. unfold total_packets in *. cbn. lia.
  - rewrite bool_decide_eq_false_2 by lia. cbn [negb]. by apply etp_abort_receive_eq.
Qed.

(** A data packet is accepted exactly when a DPO has announced its window and it
    carries the next sequence number: its seven bytes land at their absolute offset, the
    last packet of the payload completes the session with an EOMA, the last packet of a
    window asks for the next one, and any other packet is silent; every other packet
    aborts the session with BadSequence. *)
Theorem etp_dt_sequence p f port i s :
  etp_wf p -> FrameOps.wf f ->
  position (etp_dt_matches (FrameOps.source f) (FrameOps.destination f) port)
    (etp_sessions p) = Some i ->
  etp_sessions p !! i = Some s ->
  let k := s_dpo_packet_offset s + s_last_sequence s + 1 in
  let s' := etp_ingested f s in
  if bool_decide (s_packets_to_send s <> 0 /\ FrameOps.byte f 0 = s_last_sequence s + 1)
  then
    s_data s' = scatter7 (7 * (k - 1)) (s_data s) (f_data f) /\
    if k =? total_packets s then
      exists p', etp_handle_dt p f port
        = Some (p', [etp_make_eoma (s_destination_address s) (s_source_address s)
                       (s_total_bytes s) (s_pgn s)],
                [EtpComplete (with_state SessionState.Complete s')]) /\
        etp_wf p' /\ etp_sessions p ≡ₚ s :: etp_sessions p'
    else if s_cts_window_size s =? s_last_sequence s + 1 then
      etp_handle_dt p f port
      = Some (etp_update_session i (with_packets_to_send 0
                (with_cts_window (s_cts_window_start s) (etp_next_window k s) s')) p,
              [etp_make_cts (s_destination_address s) (s_source_address s)
                 (etp_next_window k s) (k + 1) (s_pgn s)], [])
    else etp_handle_dt p f port = Some (etp_update_session i s' p, [], [])
  else exists p', etp_handle_dt p f port
         = Some (p', [etp_make_session_abort s AbortReason.BadSequence],
                 [EtpAbort (from_session s AbortReason.BadSequence)]) /\
         etp_wf p' /\ etp_sessions p ≡ₚ s :: etp_sessions p'.
Proof.
  intros Hp Hf Hi Hls k s'. pose proof (etp_wf_lookup p i s Hp Hls) as Hw.
  apply position_Some in Hi as Hm. destruct Hm as (s2 & Hs2 & Hm & _).
  rewrite Hls in Hs2. injection Hs2 as <-. unfold etp_dt_matches in Hm. reflect_bools.
  pose proof (esw_dir s Hw) as Hrx. rewrite H0 in Hrx.
  unfold etp_handle_dt. rewrite Hi, Hls. cbn [mbind option_bind].
  destruct (Z.eqb_spec (s_packets_to_send s) 0) as [Hp0|Hp0].
  { rewrite bool_decide_eq_false_2 by tauto. by apply etp_abort_receive_eq. }
  rewrite checked_add_Some by (destruct Hrx; simpl; lia). cbn [mbind option_bind].
  destruct (Z.eqb_spec (FrameOps.byte f 0) (s_last_sequence s + 1)) as [Hseq|Hseq]; cbn [negb].
  2: { rewrite bool_decide_eq_false_2 by tauto. by apply etp_abort_receive_eq. }
  rewrite bool_decide_eq_true_2 by done. split; [done|].
  rewrite etp_dt_ingest_eq by done. cbn zeta. fold k. fold s'.
  destruct (k =? total_packets s).
  - destruct (etp_wf_overwrite_remove p i s (with_state SessionState.Complete s') Hp Hls)
      as (p' & -> & Hp' & Hperm & _). cbn [mbind option_bind]. by exists p'.
  - by destruct (_ =? _).
Qed.
End properties.

(** ** Witnesses *)

Definition sample_large : list Z := replicate 1786 0x5A.

Lemma sample_large_bytes : bytes sample_large.
Proof. apply Forall_replicate. by unfold in_u. Qed.

Lemma sample_large_length : Z.of_nat (length sample_large) = 1786.
Proof. done. Qed.

(** A receiver that has answered an RTS for 1786 bytes of PGN 0xEF00 from 0x80 to 0x42. *)
Definition sample_etp_rx : TransportSession :=
  etp_rx_session 0xEF00 (replicate (Z.to_nat 1786) 0xFF) 1786 0x80 0x42 0 Priority.Lowest.
Definition sample_etp : ExtendedTransportProtocol :=
  mkEtp [sample_etp_rx] ETP_MAX_DATA_LENGTH 16 TransportStats_default.

Lemma sample_etp_wf : etp_wf sample_etp.
Proof.
  split; [|apply NoDup_singleton|cbn; unfold ETP_MAX_DATA_LENGTH; lia].
  apply Forall_singleton. apply etp_rx_session_wf; done || lia || by unfold in_u.
Qed.

Definition sample_dpo : Frame := make_dpo_fields 0xEF00 0x80 0x42 16 0.
Definition sample_etp_dt : Frame := etp_dt_frame 0x80 0x42 sample_large 1 1.

Lemma sample_dpo_wf : FrameOps.wf sample_dpo.
Proof. apply make_dpo_wf; by unfold in_u. Qed.

Lemma sample_etp_dt_wf : FrameOps.wf sample_etp_dt.
Proof.
  apply etp_dt_frame_wf; [by unfold in_u|by unfold in_u|apply sample_large_bytes|lia|lia].
Qed.

Lemma etp_reachable_safe_witness :
  exists p' frames evs,
    etp_apply (H := granting) etp_new (EtpFrame sample_dpo 0) = Some (p', frames, evs) /\
    etp_wf p' /\ Forall FrameOps.wf frames.
Proof.
  exact (proj2 (etp_reachable_safe (H := granting) etp_new (EtpFrame sample_dpo 0)
    (etp_reach_new (H := granting)) sample_dpo_wf)).
Defined.

Lemma etp_transfer_witness :
  exists tx1 rts tx2 rx' st sr,
    etp_send etp_new 0xEF00 sample_large 0x80 0x42 0 Priority.Default = (tx1, Ok [rts]) /\
    etp_exchange (H := granting) 17 tx1 etp_new 0 [rts]
    = Some (tx2, rx', [EtpComplete st], [EtpComplete sr]) /\
    delivered_session 0x80 0x42 0 0xEF00 sample_large sr.
Proof.
  destruct (etp_transfer (H := granting) etp_new etp_new 0xEF00 sample_large 0x80 0x42 0
    Priority.Default 17)
    as (tx1 & rts & tx2 & rx' & st & sr & H1 & H2 & _ & _ & _ & H3 & _).
  - apply etp_wf_new.
  - reflexivity.
  - cbn. unfold ETP_DEFAULT_MAX_SESSIONS. lia.
  - by unfold in_u.
  - by unfold in_u.
  - by unfold in_u.
  - reflexivity.
  - reflexivity.
  - apply sample_large_bytes.
  - rewrite sample_large_length. lia.
  - apply etp_wf_new.
  - constructor.
  - cbn. unfold ETP_DEFAULT_MAX_SESSIONS. lia.
  - rewrite sample_large_length. cbn. unfold ETP_MAX_DATA_LENGTH. lia.
  - reflexivity.
  - rewrite sample_large_length. pose proof (div_ceil_7 1786). lia.
  - by exists tx1, rts, tx2, rx', st, sr.
Defined.

Lemma etp_update_sweep_witness :
  exists p' frames evs, etp_update sample_etp 1250 = Some (p', frames, evs) /\ etp_wf p'.
Proof.
  destruct (etp_update_sweep sample_etp 1250 sample_etp_wf) as (p' & fr & ev & ? & ? & _);
    [by unfold in_u|]. by exists p', fr, ev.
Defined.

Lemma etp_send_outcome_witness :
  etp_wf (etp_send etp_new 0xEF00 sample_large 0x80 0x42 0 Priority.Default).1.
Proof.
  pose proof (etp_send_outcome etp_new 0xEF00 sample_large 0x80 0x42 0 Priority.Default
    etp_wf_new) as Hs.
  destruct (etp_send _ _ _ _ _ _ _) as [p' r].
  apply Hs; try (by unfold in_u). apply sample_large_bytes.
Defined.

(** The engine after accepting the RTS of the sample transfer. *)
Lemma etp_paths_unambiguous_witness :
  exists p' frames evs s,
    etp_process_frame (H := granting) etp_new (etp_make_rts_fields 0xEF00 1786 0x80 0x42) 0
    = Some (p', frames, evs) /\
    etp_sessions p' !! 0%nat = Some s /\ forall j t, etp_sessions p' !! j = Some t ->
      s_direction t = Receive -> s_source_address t = 0x80 ->
      s_destination_address t = 0x42 -> s_can_port t = 0 -> j = 0%nat.
Proof.
  set (f := etp_make_rts_fields 0xEF00 1786 0x80 0x42).
  destruct (etp_process_frame (H := granting) etp_new f 0) as [[[p' fr] ev]|] eqn:E;
    [|vm_compute in E; discriminate].
  destruct (etp_sessions p' !! 0%nat) as [s|] eqn:Hs.
  - exists p', fr, ev, s. split; [done|]. split; [done|]. intros j t Hj Hd Hsr Hds Hpo.
    assert (s_direction s = Receive /\ s_source_address s = 0x80 /\
      s_destination_address s = 0x42 /\ s_can_port s = 0) as (D1 & D2 & D3 & D4).
    { vm_compute in E. injection E as <- _ _. cbn in Hs. injection Hs as <-. by split_and!. }
    symmetry. apply (etp_paths_unambiguous (H := granting) p' 0 j s t); try congruence.
    eapply (etp_reach_step etp_new (EtpFrame f 0)); [constructor| |exact E].
    apply etp_make_rts_wf; by unfold in_u.
  - exfalso. vm_compute in E. injection E as <- _ _. cbn in Hs. discriminate.
Defined.

Lemma etp_dpo_window_witness :
  exists s', etp_handle_dpo sample_etp sample_dpo 0
    = Some (etp_update_session 0 s' sample_etp, [], []) /\ s_packets_to_send s' = 16.
Proof.
  pose proof (etp_dpo_window sample_etp sample_dpo 0 0 sample_etp_rx sample_etp_wf
    sample_dpo_wf eq_refl eq_refl) as Hd. cbn zeta in Hd.
  rewrite bool_decide_eq_true_2 in Hd by (vm_compute; intuition discriminate).
  destruct Hd as (s' & E & _ & _ & _ & Hp & _). by exists s'.
Defined.

Lemma etp_dt_sequence_witness :
  exists p', etp_handle_dt sample_etp sample_etp_dt 0
    = Some (p', [etp_make_session_abort sample_etp_rx AbortReason.BadSequence],
            [EtpAbort (from_session sample_etp_rx AbortReason.BadSequence)]).
Proof.
  pose proof (etp_dt_sequence sample_etp sample_etp_dt 0 0 sample_etp_rx sample_etp_wf
    sample_etp_dt_wf eq_refl eq_refl) as Hd. cbn zeta in Hd.
  rewrite bool_decide_eq_false_2 in Hd by (intros [Hd0 _]; by apply Hd0).
  destruct Hd as (p' & E & _). by exists p'.
Defined.
