(* ===== verification/AddressClaim.v ===== *)
(** ISO 11783-5 address claiming: the model of [src/net/address_claimer.rs], with the
    local control function it drives ([internal_cf.rs], [control_function.rs]), the
    generic [state_machine.rs], and the remote control functions tracked by NAME filters
    ([partner_cf.rs]).

    Every claimer method takes [&mut self] and [&mut InternalCf]; its model takes both
    and returns both, with the frames to transmit and the events fired, in order.  No
    method can panic once the claimer is built: indices are guarded and arithmetic
    saturates; [with_timeout] alone adds unchecked ([None] is the overflow). *)
From S2P Require Export Name Frame.

(** ** [state_machine.rs] *)

Module StateMachine.
Record t (S : Type) : Type := mk { state : S }.
Arguments mk {S} state.
Arguments state {S} _.

(** The new machine and the [(from, to)] pair [on_transition] fires with. *)
Definition transition {S} `{EqDecision S} (m : t S) (new_state : S)
    : t S * option (S * S) :=
  if bool_decide (new_state = state m) then (m, None)
  else (mk new_state, Some (state m, new_state)).

Definition force_state {S} (m : t S) (new_state : S) : t S := mk new_state.
Definition is_state {S} `{EqDecision S} (m : t S) (s : S) : bool := bool_decide (state m = s).
End StateMachine.

(** ** [control_function.rs] and [internal_cf.rs] *)

Inductive CfType : Type := Internal | External | Partnered.

Module CfState.
Inductive t : Type := Online | Offline.
#[global] Instance eq_dec : EqDecision t.
Proof. solve_decision. Defined.
End CfState.

Record ControlFunction : Type := mkCf {
  cf_name : Name.t;
  cf_address : Address;
  cf_can_port : Z;
  cf_type : CfType;
  cf_state : CfState.t
}.

Definition ControlFunction_new (name : Name.t) (port : Z) (ty : CfType) : ControlFunction :=
  mkCf name NULL_ADDRESS port ty CfState.Offline.
Definition address_valid (c : ControlFunction) : bool := cf_address c <=? MAX_ADDRESS.
Definition is_online (c : ControlFunction) : bool := bool_decide (cf_state c = CfState.Online).

Module ClaimState.
Inductive t : Type :=
| None_ | WaitForClaim | SendRequest | WaitForContest | SendClaim | Claimed | Failed.
#[global] Instance eq_dec : EqDecision t.
Proof. solve_decision. Defined.
End ClaimState.

Record InternalCf : Type := mkIcf {
  icf_cf : ControlFunction;
  state_machine : StateMachine.t ClaimState.t;
  preferred_address : Address;
  claim_timer_ms : Z
}.

Definition InternalCf_new (name : Name.t) (port : Z) (preferred : Address) : InternalCf :=
  let cf := ControlFunction_new name port Internal in
  mkIcf (mkCf (cf_name cf) preferred (cf_can_port cf) (cf_type cf) (cf_state cf))
    (StateMachine.mk ClaimState.None_) preferred 0.

Definition icf_name (cf : InternalCf) : Name.t := cf_name (icf_cf cf).
Definition icf_address (cf : InternalCf) : Address := cf_address (icf_cf cf).
Definition claim_state (cf : InternalCf) : ClaimState.t := StateMachine.state (state_machine cf).

(** The events [on_transition], [on_address_claimed] and [on_address_lost]. *)
Inductive ClaimEvent : Type :=
| OnTransition (from to : ClaimState.t)
| OnAddressClaimed (a : Address)
| OnAddressLost.

Definition set_address (a : Address) (cf : InternalCf) : InternalCf :=
  mkIcf (mkCf (cf_name (icf_cf cf)) a (cf_can_port (icf_cf cf)) (cf_type (icf_cf cf))
           (cf_state (icf_cf cf))) (state_machine cf) (preferred_address cf)
    (claim_timer_ms cf).
Definition set_name (n : Name.t) (cf : InternalCf) : InternalCf :=
  mkIcf (mkCf n (cf_address (icf_cf cf)) (cf_can_port (icf_cf cf)) (cf_type (icf_cf cf))
           (cf_state (icf_cf cf))) (state_machine cf) (preferred_address cf)
    (claim_timer_ms cf).
Definition set_state (s : CfState.t) (cf : InternalCf) : InternalCf :=
  mkIcf (mkCf (cf_name (icf_cf cf)) (cf_address (icf_cf cf)) (cf_can_port (icf_cf cf))
           (cf_type (icf_cf cf)) s) (state_machine cf) (preferred_address cf)
    (claim_timer_ms cf).
Definition add_claim_time (ms : Z) (cf : InternalCf) : InternalCf :=
  mkIcf (icf_cf cf) (state_machine cf) (preferred_address cf)
    (sat_add 32 (claim_timer_ms cf) ms).
Definition reset_claim_timer (cf : InternalCf) : InternalCf :=
  mkIcf (icf_cf cf) (state_machine cf) (preferred_address cf) 0.

(** [cf.state_machine_mut().transition(s)], with the event it fires. *)
Definition cf_transition (s : ClaimState.t) (cf : InternalCf) : InternalCf * list ClaimEvent :=
  let '(m, ev) := StateMachine.transition (state_machine cf) s in
  (mkIcf (icf_cf cf) m (preferred_address cf) (claim_timer_ms cf),
   match ev with Some (a, b) => [OnTransition a b] | None => [] end).

(** ** [AddressClaimer] *)

Definition CLAIMABLE_ADDRESS_COUNT : nat := 254.
Definition SELF_CONFIG_ADDRESS_MIN : Address := 128.
Definition SELF_CONFIG_ADDRESS_MAX : Address := 247.

Record AddressClaimer : Type := mkClaimer {
  timeout_ms : Z;
  rtxd_ms : Z;
  attempted_claim : bool;
  claim_guard_timer_ms : Z;
  cannot_claim_pending : bool;
  cannot_claim_delay_timer_ms : Z;
  listen_pending : bool;
  listen_timer_ms : Z;
  reclaim_pending : bool;
  reclaim_delay_timer_ms : Z;
  reclaim_address : Address;
  occupied_addresses : list bool
}.

Definition no_addresses : list bool := replicate CLAIMABLE_ADDRESS_COUNT false.

Definition with_timeout (base_timeout_ms rtxd : Z) : option AddressClaimer :=
  let rtxd := if ADDRESS_CLAIM_RTXD_MAX_MS <? rtxd then ADDRESS_CLAIM_RTXD_MAX_MS else rtxd in
  timeout ← checked_add 32 base_timeout_ms rtxd;
  Some (mkClaimer timeout rtxd false 0 false 0 false 0 false 0 NULL_ADDRESS no_addresses).

(** [AddressClaimer::new]; the base timeout is a literal. *)
Definition AddressClaimer_new (rtxd : Z) : option AddressClaimer :=
  with_timeout ADDRESS_CLAIM_TIMEOUT_MS rtxd.

Definition make_request_frame : Frame :=
  FrameOps.new8 (Identifier.encode Priority.Default PGN_REQUEST NULL_ADDRESS BROADCAST_ADDRESS)
    [Z.land PGN_ADDRESS_CLAIMED 0xFF; Z.land (Z.shiftr PGN_ADDRESS_CLAIMED 8) 0xFF;
     Z.land (Z.shiftr PGN_ADDRESS_CLAIMED 16) 0xFF; 0xFF; 0xFF; 0xFF; 0xFF; 0xFF].

Definition make_claim_frame (name : Name.t) (addr : Address) : Frame :=
  FrameOps.new8 (Identifier.encode Priority.Default PGN_ADDRESS_CLAIMED addr BROADCAST_ADDRESS)
    (Name.to_bytes name).

Definition is_occupied (c : AddressClaimer) (addr : Address) : bool :=
  (addr <=? MAX_ADDRESS) && default false (occupied_addresses c !! Z.to_nat addr).

Definition with_occupied (l : list bool) (c : AddressClaimer) : AddressClaimer :=
  mkClaimer (timeout_ms c) (rtxd_ms c) (attempted_claim c) (claim_guard_timer_ms c)
    (cannot_claim_pending c) (cannot_claim_delay_timer_ms c) (listen_pending c)
    (listen_timer_ms c) (reclaim_pending c) (reclaim_delay_timer_ms c) (reclaim_address c) l.
Definition mark_occupied (addr : Address) (c : AddressClaimer) : AddressClaimer :=
  if addr <=? MAX_ADDRESS
  then with_occupied (<[Z.to_nat addr:=true]> (occupied_addresses c)) c else c.

(** The [for _ in 0..=(HI - LO)] loop of [find_next_address]. *)
Fixpoint search_address (n : nat) (c : AddressClaimer) (cf : InternalCf) (next : Address)
    : Address :=
  match n with
  | O => NULL_ADDRESS
  | S n =>
      if negb (next =? preferred_address cf) && negb (is_occupied c next) then next
      else search_address n c cf
             (if next <? SELF_CONFIG_ADDRESS_MAX then next + 1 else SELF_CONFIG_ADDRESS_MIN)
  end.

Definition find_next_address (c : AddressClaimer) (cf : InternalCf) (current : Address)
    : Address :=
  search_address (Z.to_nat (SELF_CONFIG_ADDRESS_MAX - SELF_CONFIG_ADDRESS_MIN + 1)) c cf
    (if (SELF_CONFIG_ADDRESS_MIN <=? current) && (current <? SELF_CONFIG_ADDRESS_MAX)
     then current + 1 else SELF_CONFIG_ADDRESS_MIN).

(** Field updates of the claimer. *)
Definition with_reclaim (pending : bool) (delay : Z) (addr : Address) (c : AddressClaimer)
    : AddressClaimer :=
  mkClaimer (timeout_ms c) (rtxd_ms c) (attempted_claim c) (claim_guard_timer_ms c)
    (cannot_claim_pending c) (cannot_claim_delay_timer_ms c) (listen_pending c)
    (listen_timer_ms c) pending delay addr (occupied_addresses c).
Definition with_guard (t : Z) (c : AddressClaimer) : AddressClaimer :=
  mkClaimer (timeout_ms c) (rtxd_ms c) (attempted_claim c) t
    (cannot_claim_pending c) (cannot_claim_delay_timer_ms c) (listen_pending c)
    (listen_timer_ms c) (reclaim_pending c) (reclaim_delay_timer_ms c) (reclaim_address c)
    (occupied_addresses c).
Definition with_listen (pending : bool) (t : Z) (c : AddressClaimer) : AddressClaimer :=
  mkClaimer (timeout_ms c) (rtxd_ms c) (attempted_claim c) (claim_guard_timer_ms c)
    (cannot_claim_pending c) (cannot_claim_delay_timer_ms c) pending t (reclaim_pending c)
    (reclaim_delay_timer_ms c) (reclaim_address c) (occupied_addresses c).
Definition with_cannot_claim (pending : bool) (t : Z) (c : AddressClaimer) : AddressClaimer :=
  mkClaimer (timeout_ms c) (rtxd_ms c) (attempted_claim c) (claim_guard_timer_ms c)
    pending t (listen_pending c) (listen_timer_ms c) (reclaim_pending c)
    (reclaim_delay_timer_ms c) (reclaim_address c) (occupied_addresses c).
Definition with_attempted (c : AddressClaimer) : AddressClaimer :=
  mkClaimer (timeout_ms c) (rtxd_ms c) true (claim_guard_timer_ms c)
    (cannot_claim_pending c) (cannot_claim_delay_timer_ms c) (listen_pending c)
    (listen_timer_ms c) (reclaim_pending c) (reclaim_delay_timer_ms c) (reclaim_address c)
    (occupied_addresses c).

Definition claim_result : Type :=
  AddressClaimer * InternalCf * list Frame * list ClaimEvent.

(** [set_address], [SendClaim], the claim frame, [WaitForContest]: the sequence every
    claim is sent with. *)
Definition send_claim (addr : Address) (c : AddressClaimer) (cf : InternalCf) : claim_result :=
  let cf := reset_claim_timer (set_address addr cf) in
  let '(cf, ev1) := cf_transition ClaimState.SendClaim cf in
  let frame := make_claim_frame (icf_name cf) addr in
  let '(cf, ev2) := cf_transition ClaimState.WaitForContest cf in
  (with_guard 0 c, cf, [frame], ev1 ++ ev2).

(** [AddressClaimer::start]. *)
Definition claimer_start (c : AddressClaimer) (cf : InternalCf) : claim_result :=
  let c := with_occupied no_addresses (with_attempted c) in
  if MAX_ADDRESS <? preferred_address cf then
    let '(cf, ev) := cf_transition ClaimState.Failed (set_state CfState.Offline cf) in
    let cf := set_address NULL_ADDRESS cf in
    (with_guard 0 (with_reclaim false 0 NULL_ADDRESS c), cf,
     [make_claim_frame (icf_name cf) NULL_ADDRESS], ev)
  else
    let '(cf, ev) := cf_transition ClaimState.SendRequest cf in
    (with_guard 0 (with_listen true 0 c), reset_claim_timer cf, [make_request_frame], ev).

(** [AddressClaimer::finish_listen]. *)
Definition finish_listen (c : AddressClaimer) (cf : InternalCf) : claim_result :=
  let c := with_listen false 0 c in
  let preferred := preferred_address cf in
  let address := if is_occupied c preferred && Name.self_configurable (icf_name cf)
                 then find_next_address c cf preferred else preferred in
  if MAX_ADDRESS <? address then
    let '(cf, ev) := cf_transition ClaimState.Failed (set_state CfState.Offline cf) in
    let cf := set_address NULL_ADDRESS cf in
    (c, cf, [make_claim_frame (icf_name cf) NULL_ADDRESS], ev)
  else send_claim address c cf.

(** The delayed re-claim of [AddressClaimer::update], once RTxD has elapsed. *)
Definition fire_reclaim (c : AddressClaimer) (cf : InternalCf) : claim_result :=
  let addr := reclaim_address c in
  let addr := if (MAX_ADDRESS <? addr) || (addr =? preferred_address cf) || is_occupied c addr
              then find_next_address c cf addr else addr in
  if MAX_ADDRESS <? addr then
    let c := with_guard 0 (with_reclaim false 0 NULL_ADDRESS c) in
    let cf := set_state CfState.Offline (set_address NULL_ADDRESS cf) in
    let '(cf, ev) := cf_transition ClaimState.Failed cf in
    (c, cf, [make_claim_frame (icf_name cf) NULL_ADDRESS], ev)
  else send_claim addr (with_reclaim false (reclaim_delay_timer_ms c) addr c) cf.

(** The contention guard of [AddressClaimer::update]. *)
Definition guard_tick (elapsed_ms : Z) (c : AddressClaimer) (cf : InternalCf) : claim_result :=
  if bool_decide (claim_state cf = ClaimState.WaitForContest) then
    let cf := add_claim_time elapsed_ms cf in
    let c := with_guard (sat_add 32 (claim_guard_timer_ms c) elapsed_ms) c in
    if timeout_ms c <=? claim_guard_timer_ms c then
      let '(cf, ev) := cf_transition ClaimState.Claimed cf in
      let cf := if icf_address cf =? NULL_ADDRESS
                then set_address (preferred_address cf) cf else cf in
      let cf := set_state CfState.Online cf in
      (c, cf, [], ev ++ [OnAddressClaimed (icf_address cf)])
    else (c, cf, [], [])
  else (c, cf, [], []).

(** [AddressClaimer::update]. *)
Definition claimer_update (c : AddressClaimer) (cf : InternalCf) (elapsed_ms : Z)
    : claim_result :=
  if listen_pending c then
    let c := with_listen true (sat_add 32 (listen_timer_ms c) elapsed_ms) c in
    if timeout_ms c <=? listen_timer_ms c then finish_listen c cf else (c, cf, [], [])
  else
    let '(c, frames) :=
      if cannot_claim_pending c then
        let t := sat_add 32 (cannot_claim_delay_timer_ms c) elapsed_ms in
        if rtxd_ms c <=? t then
          (with_cannot_claim false 0 c,
           if bool_decide (claim_state cf = ClaimState.Failed)
           then [make_claim_frame (icf_name cf) NULL_ADDRESS] else [])
        else (with_cannot_claim true t c, [])
      else (c, []) in
    if reclaim_pending c then
      let t := sat_add 32 (reclaim_delay_timer_ms c) elapsed_ms in
      let c := with_reclaim true t (reclaim_address c) c in
      if rtxd_ms c <=? t then
        let '(c, cf, fs, evs) := fire_reclaim c cf in (c, cf, frames ++ fs, evs)
      else (c, cf, frames, [])
    else
      let '(c, cf, fs, evs) := guard_tick elapsed_ms c cf in (c, cf, frames ++ fs, evs).

(** The yielding half of [AddressClaimer::handle_claim]. *)
Definition yield_address (c : AddressClaimer) (cf : InternalCf) (claimed_address : Address)
    : claim_result :=
  let cf := set_state CfState.Offline cf in
  let fail cf :=
    let '(cf, ev) := cf_transition ClaimState.Failed cf in
    let cf := set_address NULL_ADDRESS cf in
    (c, cf, [make_claim_frame (icf_name cf) NULL_ADDRESS], OnAddressLost :: ev) in
  if negb (Name.self_configurable (icf_name cf)) then fail cf
  else
    let next := find_next_address c cf claimed_address in
    if MAX_ADDRESS <? next then fail cf
    else if 0 <? rtxd_ms c then
      let c := with_reclaim true 0 next c in
      let '(cf, ev) :=
        if bool_decide (claim_state cf = ClaimState.Claimed)
        then cf_transition ClaimState.WaitForClaim cf else (cf, []) in
      (c, cf, [], OnAddressLost :: ev)
    else
      let '(c, cf, fs, evs) := send_claim next c cf in (c, cf, fs, OnAddressLost :: evs).

(** [AddressClaimer::handle_claim]. *)
Definition handle_claim (c : AddressClaimer) (cf : InternalCf) (claimed_address : Address)
    (other_name : Name.t) : claim_result :=
  if MAX_ADDRESS <? claimed_address then (c, cf, [], [])
  else
    let c := if negb (Name.eqb other_name (icf_name cf))
             then mark_occupied claimed_address c else c in
    if negb (attempted_claim c) then (c, cf, [], [])
    else if bool_decide (claim_state cf = ClaimState.Failed) then (c, cf, [], [])
    else if listen_pending c then (c, cf, [], [])
    else if negb (claimed_address =? icf_address cf) then (c, cf, [], [])
    else if Name.eqb other_name (icf_name cf) then (c, cf, [], [])
    else if Name.ltb (icf_name cf) other_name then
      (c, cf, [make_claim_frame (icf_name cf) (icf_address cf)], [])
    else yield_address c cf claimed_address.

(** [AddressClaimer::handle_duplicate_name]. *)
Definition handle_duplicate_name (c : AddressClaimer) (cf : InternalCf) : claim_result :=
  if negb (attempted_claim c) || bool_decide (claim_state cf = ClaimState.Failed)
  then (c, cf, [], [])
  else
    let c := with_guard 0 (with_reclaim false 0 NULL_ADDRESS c) in
    let cf := set_state CfState.Offline cf in
    let '(cf, ev) := cf_transition ClaimState.Failed cf in
    let cf := set_address NULL_ADDRESS cf in
    (c, cf, [make_claim_frame (icf_name cf) NULL_ADDRESS], OnAddressLost :: ev).

(** [AddressClaimer::handle_request_for_claim]. *)
Definition handle_request_for_claim (c : AddressClaimer) (cf : InternalCf) : claim_result :=
  if negb (attempted_claim c) then (c, cf, [], [])
  else if reclaim_pending c then (c, cf, [], [])
  else
    match claim_state cf with
    | ClaimState.Claimed | ClaimState.WaitForContest =>
        (c, cf, [make_claim_frame (icf_name cf) (icf_address cf)], [])
    | ClaimState.Failed =>
        if rtxd_ms c =? 0 then (c, cf, [make_claim_frame (icf_name cf) NULL_ADDRESS], [])
        else (with_cannot_claim true 0 c, cf, [], [])
    | _ => (c, cf, [], [])
    end.

(** [rtxd_for_name]: FNV-1a over the NAME, scaled to 0.6 ms units. *)
Fixpoint fnv_loop (n : nat) (i raw hash : Z) : Z :=
  match n with
  | O => hash
  | S n =>
      let hash := Z.lxor hash (Z.land (Z.shiftr raw (i * 8)) 0xFF) in
      fnv_loop n (i + 1) raw (wrap 64 (hash * 0x100000001B3))
  end.

Definition rtxd_for_name (name : Name.t) : Z :=
  let hash := fnv_loop 8 0 (Name.raw name) 0xcbf29ce484222325 in
  let random_byte := Z.land hash 0xFF in
  let delay := random_byte * 6 / 10 in
  if ADDRESS_CLAIM_RTXD_MAX_MS <? delay then ADDRESS_CLAIM_RTXD_MAX_MS else delay.

Definition PARTNER_ADDRESS_CLAIM_RESPONSE_TIMEOUT_MS : Z := 2000.

Inductive NameFilterField : Type :=
| IdentityNumber | ManufacturerCode | EcuInstance | FunctionInstance | FunctionCode
| DeviceClass | DeviceClassInstance | IndustryGroup.

Record NameFilter : Type := mkNameFilter { nf_field : NameFilterField; nf_value : Z }.

Definition nf_matches (f : NameFilter) (name : Name.t) : bool :=
  match nf_field f with
  | IdentityNumber => Name.identity_number name =? nf_value f
  | ManufacturerCode => Name.manufacturer_code name =? nf_value f
  | EcuInstance => Name.ecu_instance name =? nf_value f
  | FunctionInstance => Name.function_instance name =? nf_value f
  | FunctionCode => Name.function_code name =? nf_value f
  | DeviceClass => Name.device_class name =? nf_value f
  | DeviceClassInstance => Name.device_class_instance name =? nf_value f
  | IndustryGroup => Name.industry_group name =? nf_value f
  end.

Record PartnerCf : Type := mkPartner {
  p_cf : ControlFunction;
  p_filters : list NameFilter;
  p_validation_elapsed_ms : Z;
  p_validation_pending : bool
}.

Inductive PartnerEvent : Type := OnPartnerFound (a : Address) | OnPartnerLost.

(** [ControlFunction::default()] has NAME zero, the null address and is offline. *)
Definition PartnerCf_new (port : Z) (filters : list NameFilter) : PartnerCf :=
  mkPartner (mkCf (Name.from_raw 0) NULL_ADDRESS port Partnered CfState.Offline) filters 0 false.

Definition p_name (p : PartnerCf) : Name.t := cf_name (p_cf p).
Definition p_address (p : PartnerCf) : Address := cf_address (p_cf p).
Definition p_port (p : PartnerCf) : Z := cf_can_port (p_cf p).
Definition p_online (p : PartnerCf) : bool := is_online (p_cf p).

(** [set_name], [set_address] and [set_state] in sequence, with the validation fields. *)
Definition p_set (name : Name.t) (a : Address) (s : CfState.t) (elapsed : Z) (pending : bool)
    (p : PartnerCf) : PartnerCf :=
  mkPartner (mkCf name a (cf_can_port (p_cf p)) (cf_type (p_cf p)) s) (p_filters p)
    elapsed pending.

Definition note_address_claim_seen (name : Name.t) (a : Address) (p : PartnerCf)
    : PartnerCf * list PartnerEvent :=
  (p_set name a CfState.Online 0 false p, [OnPartnerFound a]).

Definition note_cannot_claim_seen (name : Name.t) (p : PartnerCf)
    : PartnerCf * list PartnerEvent :=
  let was_online := p_online p || address_valid (p_cf p) in
  (p_set name NULL_ADDRESS CfState.Offline 0 false p,
   if was_online then [OnPartnerLost] else []).

Definition begin_claim_validation (p : PartnerCf) : PartnerCf :=
  if p_online p && address_valid (p_cf p)
  then mkPartner (p_cf p) (p_filters p) 0 true else p.

Definition update_claim_validation (elapsed_ms : Z) (p : PartnerCf)
    : PartnerCf * list PartnerEvent :=
  if negb (p_validation_pending p) then (p, [])
  else
    let t := sat_add 32 (p_validation_elapsed_ms p) elapsed_ms in
    if t <? PARTNER_ADDRESS_CLAIM_RESPONSE_TIMEOUT_MS
    then (mkPartner (p_cf p) (p_filters p) t true, [])
    else (p_set (p_name p) NULL_ADDRESS CfState.Offline 0 false p, [OnPartnerLost]).

Definition matches_name (p : PartnerCf) (name : Name.t) : bool :=
  forallb (fun f => nf_matches f name) (p_filters p).

(** ** Invariant *)

(** What the methods maintain: a pending validation concerns an online partner and has
    not expired; a partner is online exactly while it has a claimable address. *)
Record partner_ok (p : PartnerCf) : Prop := {
  po_online : p_online p = true -> 0 <= p_address p <= MAX_ADDRESS;
  po_offline : p_online p = false -> p_address p = NULL_ADDRESS;
  po_pending : p_validation_pending p = true -> p_online p = true;
  po_elapsed : 0 <= p_validation_elapsed_ms p < PARTNER_ADDRESS_CLAIM_RESPONSE_TIMEOUT_MS
}.

Lemma partner_ok_new port filters : partner_ok (PartnerCf_new port filters).
Proof. by split. Qed.

Lemma note_claim_ok name a p :
  0 <= a <= MAX_ADDRESS -> partner_ok (note_address_claim_seen name a p).1.
Proof. intros. split; cbn; done. Qed.

Lemma note_cannot_claim_ok name p : partner_ok (note_cannot_claim_seen name p).1.
Proof. by split. Qed.

Lemma begin_validation_ok p : partner_ok p -> partner_ok (begin_claim_validation p).
Proof.
  intros [H1 H2 H3 H4]. unfold begin_claim_validation.
  destruct (p_online p) eqn:E; simpl; [|by split; rewrite ?E].
  destruct (address_valid _); [|by split; rewrite ?E]. split; try done.
  - intros _. by apply H1.
  - change (p_online (mkPartner _ _ _ _)) with (p_online p). by rewrite E.
Qed.

Lemma update_validation_ok e p :
  in_u 32 e -> partner_ok p -> partner_ok (update_claim_validation e p).1.
Proof.
  intros He Hp. unfold update_claim_validation.
  destruct (p_validation_pending p) eqn:E; simpl; [|done].
  case_bool; simpl; [|by split].
  destruct Hp as [H1 H2 H3 H4]. split; simpl; try done.
  - intros _. by apply H3.
  - unfold sat_add, in_u, PARTNER_ADDRESS_CLAIM_RESPONSE_TIMEOUT_MS in *. lia.
Qed.

(** A run of updates and the events it fires. *)
Fixpoint partner_updates (es : list Z) (p : PartnerCf) : PartnerCf * list PartnerEvent :=
  match es with
  | [] => (p, [])
  | e :: es =>
      let '(p, ev) := update_claim_validation e p in
      let '(p, ev') := partner_updates es p in (p, ev ++ ev')
  end.

Definition total (es : list Z) : Z := foldr Z.add 0 es.

Lemma total_nonneg es : Forall (in_u 32) es -> 0 <= total es.
Proof. induction 1 as [|e es [? ?]]; simpl; lia. Qed.

Lemma updates_idle es p : p_validation_pending p = false -> partner_updates es p = (p, []).
Proof.
  intros E. induction es as [|e es IH]; simpl; [done|].
  unfold update_claim_validation at 1. rewrite E. simpl. by rewrite IH.
Qed.

Lemma updates_pending es p :
  partner_ok p -> p_validation_pending p = true -> Forall (in_u 32) es ->
  let t := p_validation_elapsed_ms p + total es in
  partner_updates es p =
    if t <? PARTNER_ADDRESS_CLAIM_RESPONSE_TIMEOUT_MS
    then (mkPartner (p_cf p) (p_filters p) t true, [])
    else (p_set (p_name p) NULL_ADDRESS CfState.Offline 0 false p, [OnPartnerLost]).
Proof.
  revert p. induction es as [|e es IH]; intros p Hok Hp Hes; simpl.
  - rewrite Z.add_0_r, (proj2 (Z.ltb_lt _ _)) by apply Hok.
    destruct p; simpl in *. by subst.
  - apply Forall_cons in Hes as [[He1 He2] Hes]. pose proof (total_nonneg es Hes).
    pose proof (po_elapsed p Hok) as Hel. unfold PARTNER_ADDRESS_CLAIM_RESPONSE_TIMEOUT_MS in *.
    unfold update_claim_validation at 1. rewrite Hp. simpl.
    unfold PARTNER_ADDRESS_CLAIM_RESPONSE_TIMEOUT_MS.
    destruct (Z.ltb_spec (sat_add 32 (p_validation_elapsed_ms p) e) 2000) as [Hlt|Hge].
    + assert (Hs : sat_add 32 (p_validation_elapsed_ms p) e = p_validation_elapsed_ms p + e)
        by (unfold sat_add in *; lia).
      rewrite Hs in *. rewrite IH; simpl; try done.
      * by rewrite !Z.add_assoc; case_match.
      * destruct Hok. split; simpl; try done; unfold PARTNER_ADDRESS_CLAIM_RESPONSE_TIMEOUT_MS; try lia. by intros _; apply po_pending0.
    + rewrite updates_idle by done. unfold sat_add in Hge.
      rewrite (proj2 (Z.ltb_ge _ _)) by lia. done.
Qed.

(** A partner asked to re-claim is lost exactly when two seconds pass without an answer:
    while the validation is pending every update either keeps the partner as it is or, when
    the accumulated time reaches the timeout, takes it offline with one event; an answer in
    time keeps it, at whatever address it now claims. *)
Theorem partner_validation_window p es name a :
  partner_ok p -> p_online p = true -> Forall (in_u 32) es -> 0 <= a <= MAX_ADDRESS ->
  let '(p', evs) := partner_updates es (begin_claim_validation p) in
  if total es <? 2000 then
    evs = [] /\ p_online p' = true /\ p_address p' = p_address p /\
    (* a claim heard now ends the validation, however much time passes afterwards *)
    forall es', partner_updates es' (note_address_claim_seen name a p').1
                = ((note_address_claim_seen name a p').1, [])
  else evs = [OnPartnerLost] /\ p_online p' = false /\ p_address p' = NULL_ADDRESS.
Proof.
  intros Hok Hon Hes Ha.
  assert (Hb : begin_claim_validation p = mkPartner (p_cf p) (p_filters p) 0 true).
  { unfold begin_claim_validation, address_valid. rewrite Hon.
    by rewrite (proj2 (Z.leb_le _ _)) by (by apply (po_online p)). }
  pose proof (begin_validation_ok p Hok) as Hok'.
  rewrite Hb in *. rewrite updates_pending by done.
  cbn [p_validation_elapsed_ms]. rewrite Z.add_0_l.
  unfold PARTNER_ADDRESS_CLAIM_RESPONSE_TIMEOUT_MS.
  destruct (total es <? 2000); split_and!; try done.
  intros. by apply updates_idle.
Qed.

Lemma partner_validation_window_witness :
  let p := (note_address_claim_seen (Name.from_raw 5) 0x79 (PartnerCf_new 0 [])).1 in
  (partner_updates [1500; 400] (begin_claim_validation p)).2 = [] /\
  (partner_updates [1500; 500] (begin_claim_validation p)).2 = [OnPartnerLost].
Proof.
  intros p. split.
  - pose proof (partner_validation_window p [1500; 400] (Name.from_raw 5) 0x79) as H.
    destruct (partner_updates _ _). apply H; [by apply note_claim_ok|done| |done].
    repeat constructor; by vm_compute.
  - pose proof (partner_validation_window p [1500; 500] (Name.from_raw 5) 0x79) as H.
    destruct (partner_updates _ _). apply H; [by apply note_claim_ok|done| |done].
    repeat constructor; by vm_compute.
Defined.
