(* ===== verification/AddressClaimProofs.v ===== *)
(** Correctness of the address claimer of [AddressClaim]: its invariant over all reachable
    states, the frames it may send, the self-configurable address search, arbitration,
    and the liveness of an uncontested claim. *)
From S2P Require Export AddressClaim.

(** ** State transitions *)

Definition set_claim_state (s : ClaimState.t) (cf : InternalCf) : InternalCf :=
  mkIcf (icf_cf cf) (StateMachine.mk s) (preferred_address cf) (claim_timer_ms cf).

Lemma cf_transition_eq s cf :
  cf_transition s cf
  = (set_claim_state s cf,
     if bool_decide (s = claim_state cf) then [] else [OnTransition (claim_state cf) s]).
Proof.
  unfold cf_transition, StateMachine.transition, claim_state, set_claim_state.
  destruct cf as [cf [st] pr t]. cbn. by case_bool_decide; subst.
Qed.

(** ** The machine *)

Inductive claim_op : Type :=
| OpStart | OpUpdate (elapsed_ms : Z) | OpClaim (a : Address) (other : Name.t)
| OpDuplicate | OpRequest.

Definition claim_apply (op : claim_op) (c : AddressClaimer) (cf : InternalCf) : claim_result :=
  match op with
  | OpStart => claimer_start c cf
  | OpUpdate e => claimer_update c cf e
  | OpClaim a n => handle_claim c cf a n
  | OpDuplicate => handle_duplicate_name c cf
  | OpRequest => handle_request_for_claim c cf
  end.

(** Calls with arguments in their types; [start] is called on a control function that is
    not online, as the network manager does. *)
Definition op_ok (op : claim_op) (cf : InternalCf) : Prop :=
  match op with
  | OpStart => cf_state (icf_cf cf) = CfState.Offline
  | OpUpdate e => in_u 32 e
  | OpClaim a n => in_u 8 a /\ Name.wf n
  | _ => True
  end.

Inductive claim_reachable : AddressClaimer -> InternalCf -> Prop :=
| reach_new base rtxd c name port preferred :
    in_u 32 base -> in_u 32 rtxd -> with_timeout base rtxd = Some c ->
    Name.wf name -> in_u 8 preferred ->
    claim_reachable c (InternalCf_new name port preferred)
| reach_op op c cf c' cf' frames evs :
    claim_reachable c cf -> op_ok op cf -> claim_apply op c cf = (c', cf', frames, evs) ->
    claim_reachable c' cf'.

(** ** Invariant *)

(** The claim state, the operational state, the address in use and a queued re-claim fit
    together. *)
Record status_ok (st : ClaimState.t) (op : CfState.t) (a : Address) (pending : bool)
    : Prop := {
  so_online : op = CfState.Online <-> st = ClaimState.Claimed;
  so_held : st = ClaimState.Claimed \/ st = ClaimState.WaitForContest -> a <= MAX_ADDRESS;
  so_failed : st = ClaimState.Failed -> a = NULL_ADDRESS;
  so_reclaim : pending = true -> st <> ClaimState.Claimed;
  so_address : in_u 8 a
}.

Record claimer_ok (c : AddressClaimer) : Prop := {
  co_rtxd : 0 <= rtxd_ms c <= ADDRESS_CLAIM_RTXD_MAX_MS;
  co_timeout : rtxd_ms c <= timeout_ms c < 2 ^ 32;
  co_table : length (occupied_addresses c) = CLAIMABLE_ADDRESS_COUNT;
  co_reclaim : in_u 8 (reclaim_address c);
  co_listen : in_u 32 (listen_timer_ms c);
  co_guard : in_u 32 (claim_guard_timer_ms c);
  co_delay : in_u 32 (reclaim_delay_timer_ms c);
  co_cannot : in_u 32 (cannot_claim_delay_timer_ms c)
}.

Record claim_inv (c : AddressClaimer) (cf : InternalCf) : Prop := {
  ci_claimer : claimer_ok c;
  ci_status : status_ok (claim_state cf) (cf_state (icf_cf cf)) (icf_address cf)
                (reclaim_pending c);
  ci_listen : listen_pending c = true -> claim_state cf <> ClaimState.Claimed;
  ci_name : Name.wf (icf_name cf);
  ci_preferred : in_u 8 (preferred_address cf)
}.

(** ** The address search *)

(** An address the automatic fallback may take. *)
Definition free_address (c : AddressClaimer) (cf : InternalCf) (a : Address) : bool :=
  negb (a =? preferred_address cf) && negb (is_occupied c a).

(** Cyclic successor inside 128..=247, and distance along it. *)
Definition next_config (a : Address) : Address := if a <? 247 then a + 1 else 128.
Definition config_distance (from to : Address) : Z :=
  if from <=? to then to - from else to - from + 120.

Lemma search_address_spec n c cf a :
  128 <= a <= 247 -> (n <= 120)%nat ->
  let r := search_address n c cf a in
  (r = NULL_ADDRESS /\
   forall b, 128 <= b <= 247 -> config_distance a b < Z.of_nat n -> free_address c cf b = false)
  \/ (128 <= r <= 247 /\ free_address c cf r = true /\ config_distance a r < Z.of_nat n /\
      forall b, 128 <= b <= 247 -> free_address c cf b = true ->
        config_distance a r <= config_distance a b).
Proof.
  revert a. induction n as [|n IH]; intros a Ha Hn; cbn [search_address].
  { left. split; [done|]. unfold config_distance. intros b Hb Hd. exfalso. revert Hd.
    case_bool; lia. }
  fold (free_address c cf a). destruct (free_address c cf a) eqn:Hf.
  { right. split; [done|]. split; [done|]. unfold config_distance.
    rewrite Z.leb_refl. split; [lia|]. intros b Hb _. case_bool; lia. }
  unfold SELF_CONFIG_ADDRESS_MAX, SELF_CONFIG_ADDRESS_MIN. fold (next_config a).
  assert (128 <= next_config a <= 247) as Hna by (unfold next_config; case_bool; lia).
  assert (forall b, 128 <= b <= 247 -> b <> a ->
    config_distance a b = config_distance (next_config a) b + 1) as Hstep.
  { intros b Hb Hne. unfold config_distance, next_config. repeat case_bool; lia. }
  destruct (IH (next_config a) Hna ltac:(lia)) as [[Hr Hall]|(Hr & Hfr & Hd & Hmin)].
  - left. split; [done|]. intros b Hb Hdb. destruct (decide (b = a)) as [->|Hne]; [done|].
    apply Hall; [done|]. rewrite Hstep in Hdb by done. lia.
  - assert (search_address n c cf (next_config a) <> a) as Hne by congruence.
    right. split; [done|]. split; [done|]. rewrite (Hstep _ Hr Hne). split; [lia|].
    intros b Hb Hfb. rewrite (Hstep b Hb) by congruence. specialize (Hmin b Hb Hfb). lia.
Qed.

Lemma find_next_address_spec c cf cur :
  let r := find_next_address c cf cur in
  let from := if (128 <=? cur) && (cur <? 247) then cur + 1 else 128 in
  (r = NULL_ADDRESS /\ forall b, 128 <= b <= 247 -> free_address c cf b = false)
  \/ (128 <= r <= 247 /\ free_address c cf r = true /\
      forall b, 128 <= b <= 247 -> free_address c cf b = true ->
        config_distance from r <= config_distance from b).
Proof.
  unfold find_next_address, SELF_CONFIG_ADDRESS_MIN, SELF_CONFIG_ADDRESS_MAX.
  change (Z.to_nat (247 - 128 + 1)) with 120%nat.
  set (from := if (128 <=? cur) && (cur <? 247) then cur + 1 else 128).
  assert (128 <= from <= 247) as Hf by (unfold from; repeat case_bool; simpl; lia).
  destruct (search_address_spec 120 c cf from Hf ltac:(lia)) as [[Hr Hall]|(Hr & Hfr & _ & Hmin)].
  - left. split; [done|]. intros b Hb. apply Hall; [done|].
    unfold config_distance. case_bool; lia.
  - right. split; [done|]. by split.
Qed.

Lemma find_next_address_range c cf cur :
  let r := find_next_address c cf cur in r = NULL_ADDRESS \/ 128 <= r <= 247.
Proof. destruct (find_next_address_spec c cf cur) as [[? _]|[? _]]; auto. Qed.

(** ** Invariant preservation *)

(** What an operation owes: the invariant, and frames that are the request or a claim of
    the function's own NAME from the address it now uses, or from the null address. *)
Definition own_frame (cf : InternalCf) (f : Frame) : Prop :=
  f = make_request_frame \/
  f = make_claim_frame (icf_name cf) NULL_ADDRESS \/
  (f = make_claim_frame (icf_name cf) (icf_address cf) /\ icf_address cf <= MAX_ADDRESS).

Definition claim_safe (cf : InternalCf) (r : claim_result) : Prop :=
  let '(c', cf', frames, _) := r in
  claim_inv c' cf' /\ icf_name cf' = icf_name cf /\
  preferred_address cf' = preferred_address cf /\ Forall (own_frame cf') frames.

Lemma claim_inv_new base rtxd c name port preferred :
  in_u 32 base -> in_u 32 rtxd -> with_timeout base rtxd = Some c ->
  Name.wf name -> in_u 8 preferred -> claim_inv c (InternalCf_new name port preferred).
Proof.
  intros [Hb _] [Hr _] E Hn Hp. unfold with_timeout in E.
  set (r := if ADDRESS_CLAIM_RTXD_MAX_MS <? rtxd then _ else _) in E.
  assert (0 <= r <= ADDRESS_CLAIM_RTXD_MAX_MS) as Hr2
    by (unfold r, ADDRESS_CLAIM_RTXD_MAX_MS in *; case_bool; lia).
  unfold checked_add in E. destruct (Z.ltb_spec (base + r) (2 ^ 32)); [|done].
  cbn in E. injection E as <-. split; try done.
  - split; cbn; done || lia.
  - split; cbn; try done. by intros [?|?].
Qed.

(** The resting states an operation can leave. *)
Lemma status_contest a pending :
  0 <= a <= MAX_ADDRESS ->
  status_ok ClaimState.WaitForContest CfState.Offline a pending.
Proof.
  intros Ha. split; unfold MAX_ADDRESS, in_u in *; try done; [intros _; lia|simpl; lia].
Qed.

Lemma status_failed pending :
  status_ok ClaimState.Failed CfState.Offline NULL_ADDRESS pending.
Proof. split; try done. by intros [?|?]. Qed.

Lemma status_waiting st a pending :
  (st = ClaimState.WaitForClaim \/ st = ClaimState.SendRequest) -> in_u 8 a ->
  status_ok st CfState.Offline a pending.
Proof. intros [-> | ->] Ha; split; try done; by intros [?|?]. Qed.

Lemma status_claimed a :
  0 <= a <= MAX_ADDRESS -> status_ok ClaimState.Claimed CfState.Online a false.
Proof.
  intros Ha. split; unfold MAX_ADDRESS, in_u in *; try done; [intros _; lia|simpl; lia].
Qed.

(** A function that is not claimed is offline, and may have a re-claim queued. *)
Lemma status_offline st a op pending :
  status_ok st op a pending -> st <> ClaimState.Claimed -> op = CfState.Offline.
Proof. intros [[Ho _] _ _ _ _] Hst. destruct op; [|done]. by destruct Hst; apply Ho. Qed.

Lemma status_queue st a op pending pending' :
  status_ok st op a pending -> st <> ClaimState.Claimed ->
  status_ok st CfState.Offline a pending'.
Proof.
  intros Hs Hst. pose proof (status_offline _ _ _ _ Hs Hst) as ->.
  destruct Hs. split; done.
Qed.

Lemma status_unqueue st a op pending :
  status_ok st op a pending -> status_ok st op a false.
Proof. by intros []. Qed.

(** Field updates keep the claimer well formed. *)
Lemma claimer_guard t c : in_u 32 t -> claimer_ok c -> claimer_ok (with_guard t c).
Proof. by intros ? []. Qed.
Lemma claimer_listen b t c : in_u 32 t -> claimer_ok c -> claimer_ok (with_listen b t c).
Proof. by intros ? []. Qed.
Lemma claimer_cannot b t c : in_u 32 t -> claimer_ok c -> claimer_ok (with_cannot_claim b t c).
Proof. by intros ? []. Qed.
Lemma claimer_reclaim b t a c :
  in_u 32 t -> in_u 8 a -> claimer_ok c -> claimer_ok (with_reclaim b t a c).
Proof. by intros ? ? []. Qed.
Lemma claimer_mark a c : claimer_ok c -> claimer_ok (mark_occupied a c).
Proof.
  intros []. unfold mark_occupied. destruct (_ <=? _); [|by split].
  split; try done. cbn. by rewrite length_insert.
Qed.
Lemma in_u32_tick t e : in_u 32 t -> in_u 32 e -> in_u 32 (sat_add 32 t e).
Proof. intros [? _] [? _]. by apply in_u_sat_add. Qed.
Lemma in_u32_0 : in_u 32 0.
Proof. by unfold in_u. Qed.
Lemma in_u8_null : in_u 8 NULL_ADDRESS.
Proof. by unfold in_u. Qed.
Create HintDb claim.
#[export] Hint Resolve claimer_guard claimer_listen claimer_cannot claimer_reclaim
  claimer_mark in_u32_tick in_u32_0 in_u8_null status_failed status_contest
  co_listen co_guard co_delay co_cannot co_reclaim status_unqueue : claim.
#[export] Hint Extern 3 (own_frame _ _) => (right; left; reflexivity) : claim.
#[export] Hint Extern 3 (own_frame _ _) => (left; reflexivity) : claim.

(** Sending a claim for a claimable address. *)
Lemma send_claim_safe c cf a :
  claimer_ok c -> Name.wf (icf_name cf) -> in_u 8 (preferred_address cf) ->
  0 <= a <= MAX_ADDRESS -> cf_state (icf_cf cf) = CfState.Offline ->
  claim_safe cf (send_claim a c cf).
Proof.
  intros Hc Hn Hp Ha Hoff. unfold send_claim. rewrite !cf_transition_eq.
  split; [|split; [done|split; [done|]]].
  - split; try done; auto with claim. cbn. rewrite Hoff. by apply status_contest.
  - apply Forall_singleton. right. right. split; [done|apply Ha].
Qed.

(** Giving up: offline, [Failed], Cannot Claim. *)
Lemma fail_safe c cf evs :
  claimer_ok c -> Name.wf (icf_name cf) -> in_u 8 (preferred_address cf) ->
  claim_safe cf (c, set_address NULL_ADDRESS (set_claim_state ClaimState.Failed
    (set_state CfState.Offline cf)), [make_claim_frame (icf_name cf) NULL_ADDRESS], evs).
Proof.
  intros Hc Hn Hp. split; [|split; [done|split; [done|]]].
  - split; try done. apply status_failed.
  - apply Forall_singleton. auto with claim.
Qed.

Lemma same_safe c c' cf evs :
  claim_inv c cf -> claimer_ok c' -> reclaim_pending c' = reclaim_pending c ->
  listen_pending c' = listen_pending c -> claim_safe cf (c', cf, [], evs).
Proof.
  intros [] Hc Hp Hl. split; [|by split]. split; rewrite ?Hp, ?Hl; done.
Qed.

Lemma claimer_start_safe c cf :
  claim_inv c cf -> cf_state (icf_cf cf) = CfState.Offline ->
  claim_safe cf (claimer_start c cf).
Proof.
  intros [Hc Hs _ Hn Hp] Hoff. unfold claimer_start. rewrite !cf_transition_eq.
  assert (claimer_ok (with_occupied no_addresses (with_attempted c))) as Hc'
    by (by destruct Hc; split).
  destruct (_ <? _).
  - apply (fail_safe _ cf); auto 6 with claim.
  - split; [|split; [done|split; [done|]]].
    + split; try done; [auto 6 with claim|]. cbn. rewrite Hoff.
      apply status_waiting; [by right|apply Hs].
    + apply Forall_singleton. auto with claim.
Qed.

Lemma finish_listen_safe c cf :
  claim_inv c cf -> cf_state (icf_cf cf) = CfState.Offline ->
  claim_safe cf (finish_listen c cf).
Proof.
  intros [Hc Hs _ Hn Hp] Hoff. unfold finish_listen. rewrite !cf_transition_eq.
  set (c' := with_listen false 0 c). assert (claimer_ok c') by (unfold c'; auto with claim).
  set (a := if is_occupied c' _ && _ then _ else _).
  destruct (Z.ltb_spec MAX_ADDRESS a); [by apply (fail_safe _ cf)|].
  apply send_claim_safe; try done. split; [|done]. unfold a.
  destruct (_ && _); [|apply Hp].
  destruct (find_next_address_range c' cf (preferred_address cf)) as [-> | ?]; [done|lia].
Qed.

Lemma fire_reclaim_safe c cf :
  claimer_ok c -> Name.wf (icf_name cf) -> in_u 8 (preferred_address cf) ->
  cf_state (icf_cf cf) = CfState.Offline -> claim_safe cf (fire_reclaim c cf).
Proof.
  intros Hc Hn Hp Hoff. unfold fire_reclaim.
  set (a := if _ || _ || _ then _ else _).
  assert (in_u 8 a) as Ha.
  { unfold a. destruct (_ || _); [|apply Hc].
    destruct (find_next_address_range c cf (reclaim_address c)) as [-> | ?]; [done|].
    unfold in_u. simpl. lia. }
  rewrite !cf_transition_eq. destruct (Z.ltb_spec MAX_ADDRESS a).
  - apply (fail_safe _ cf); auto 6 with claim.
  - apply send_claim_safe; auto with claim. destruct Ha. lia.
Qed.

Lemma guard_tick_safe e c cf :
  claim_inv c cf -> in_u 32 e -> reclaim_pending c = false -> listen_pending c = false ->
  claim_safe cf (guard_tick e c cf).
Proof.
  intros Hi He Hr Hl. pose proof Hi as [Hc Hs _ Hn Hp]. unfold guard_tick.
  case_bool_decide as Hst; [|by apply (same_safe c)].
  assert (icf_address cf <= MAX_ADDRESS) as Hmax by (apply Hs; auto).
  assert (claimer_ok (with_guard (sat_add 32 (claim_guard_timer_ms c) e) c)) as Hc'
    by auto with claim.
  destruct (_ <=? _).
  - rewrite cf_transition_eq.
    change (icf_address (set_claim_state _ (add_claim_time e cf))) with (icf_address cf).
    assert (icf_address cf <> NULL_ADDRESS) as Hnn
      by (unfold MAX_ADDRESS, NULL_ADDRESS in *; lia).
    rewrite (proj2 (Z.eqb_neq _ _) Hnn).
    split; [|by split]. split; try done; [|cbn; by rewrite Hl]. cbn. rewrite Hr.
    apply status_claimed. split; [apply Hs|done].
  - split; [|by split]. split; [done|exact Hs|cbn; by rewrite Hl|done|done].
Qed.

Lemma claim_safe_frames cf c' cf' fs gs evs :
  claim_safe cf (c', cf', fs, evs) -> Forall (own_frame cf') gs ->
  claim_safe cf (c', cf', gs ++ fs, evs).
Proof. intros (H1 & H2 & H3 & H4) Hg. split_and!; try done. by apply Forall_app. Qed.

Lemma claimer_update_safe e c cf :
  claim_inv c cf -> in_u 32 e -> claim_safe cf (claimer_update c cf e).
Proof.
  intros Hi He. pose proof Hi as [Hc Hs Hl Hn Hp]. unfold claimer_update.
  destruct (listen_pending c) eqn:El.
  { assert (cf_state (icf_cf cf) = CfState.Offline) as Hoff
      by (eapply status_offline; [exact Hs|by apply Hl]).
    assert (claim_inv (with_listen true (sat_add 32 (listen_timer_ms c) e) c) cf) as Hi'.
    { split; try done; auto with claim. }
    destruct (_ <=? _); [by apply finish_listen_safe|].
    apply (same_safe _ _ cf [] Hi'); try done. apply Hi'. }
  set (q := if cannot_claim_pending c then _ else _).
  assert (claimer_ok q.1 /\ reclaim_pending q.1 = reclaim_pending c /\
    listen_pending q.1 = false /\ forall cf', icf_name cf' = icf_name cf ->
      Forall (own_frame cf') q.2) as (Hq1 & Hq2 & Hq3 & Hq4).
  { unfold q. destruct (cannot_claim_pending c); [destruct (_ <=? _)|]; cbn;
      split_and!; auto with claim. intros cf' Hname. case_bool_decide; [|constructor].
    apply Forall_singleton. right. left. by rewrite Hname. }
  destruct q as [c1 gs]. cbn in Hq1, Hq2, Hq3, Hq4.
  assert (claim_inv c1 cf) as Hi1 by (split; rewrite ?Hq2, ?Hq3; done).
  destruct (reclaim_pending c1) eqn:Er.
  - assert (cf_state (icf_cf cf) = CfState.Offline) as Hoff.
    { eapply status_offline; [exact Hs|]. apply Hs. by rewrite <- Hq2. }
    set (c2 := with_reclaim true _ _ c1).
    assert (claimer_ok c2) as Hc2 by (unfold c2; auto with claim).
    destruct (_ <=? _).
    + destruct (fire_reclaim c2 cf) as [[[c3 cf3] fs] ev] eqn:E.
      pose proof (fire_reclaim_safe c2 cf Hc2 Hn Hp Hoff) as Hf. rewrite E in Hf.
      apply claim_safe_frames; [done|]. apply Hq4. apply Hf.
    + split; [|split; [done|split; [done|by apply Hq4]]].
      split; try done; [cbn; by rewrite <- Er; apply Hi1|cbn; by rewrite Hq3].
  - destruct (guard_tick e c1 cf) as [[[c3 cf3] fs] ev] eqn:E.
    pose proof (guard_tick_safe e c1 cf Hi1 He Er Hq3) as Hf. rewrite E in Hf.
    apply claim_safe_frames; [done|]. apply Hq4. apply Hf.
Qed.

Lemma mark_occupied_flags a c :
  reclaim_pending (mark_occupied a c) = reclaim_pending c /\
  listen_pending (mark_occupied a c) = listen_pending c /\
  attempted_claim (mark_occupied a c) = attempted_claim c /\
  rtxd_ms (mark_occupied a c) = rtxd_ms c.
Proof. unfold mark_occupied. by destruct (_ <=? _). Qed.

Lemma claim_inv_mark a c cf : claim_inv c cf -> claim_inv (mark_occupied a c) cf.
Proof.
  intros []. destruct (mark_occupied_flags a c) as (E1 & E2 & _).
  split; rewrite ?E1, ?E2; auto with claim.
Qed.

Lemma yield_safe c cf a :
  claim_inv c cf -> listen_pending c = false -> claim_safe cf (yield_address c cf a).
Proof.
  intros Hi Hl. pose proof Hi as [Hc Hs _ Hn Hp]. unfold yield_address.
  rewrite !cf_transition_eq. destruct (negb _); [by apply (fail_safe _ cf)|].
  set (next := find_next_address _ _ _).
  assert (in_u 8 next) as Hnext.
  { unfold next. destruct (find_next_address_range c (set_state CfState.Offline cf) a)
      as [-> | ?]; [done|unfold in_u; simpl; lia]. }
  destruct (Z.ltb_spec MAX_ADDRESS next); [by apply (fail_safe _ cf)|].
  destruct (0 <? rtxd_ms c).
  - change (claim_state (set_state CfState.Offline cf)) with (claim_state cf).
    case_bool_decide as Hst; (split; [|by split]); split; try done; auto with claim;
      cbn; try (by rewrite Hl).
    + apply status_waiting; [by left|apply Hs].
    + eapply status_queue; [exact Hs|done].
  - destruct (send_claim next c (set_state CfState.Offline cf)) as [[[c1 cf1] fs] ev] eqn:E.
    pose proof (send_claim_safe c (set_state CfState.Offline cf) next Hc Hn Hp) as Hf.
    rewrite E in Hf. apply Hf; [|done]. destruct Hnext. lia.
Qed.

Lemma handle_claim_safe c cf a n :
  claim_inv c cf -> in_u 8 a -> claim_safe cf (handle_claim c cf a n).
Proof.
  intros Hi Ha. unfold handle_claim.
  destruct (Z.ltb_spec MAX_ADDRESS a); [by apply (same_safe c); try apply Hi|].
  set (c1 := if negb (Name.eqb n (icf_name cf)) then mark_occupied a c else c).
  assert (claim_inv c1 cf) as Hi1
    by (unfold c1; destruct (negb _); [by apply claim_inv_mark|done]).
  assert (claim_safe cf (c1, cf, [], [])) as Hsame by (by apply (same_safe c1); try apply Hi1).
  destruct (negb (attempted_claim c1)); [done|]. case_bool_decide; [done|].
  destruct (listen_pending c1) eqn:El; [done|].
  destruct (Z.eqb_spec a (icf_address cf)) as [Ea|]; cbn [negb]; [|done].
  destruct (Name.eqb _ _); [done|]. destruct (Name.ltb _ _); [|by apply yield_safe].
  split; [done|]. split; [done|]. split; [done|]. apply Forall_singleton. right. right.
  by split; [|rewrite <- Ea].
Qed.

Lemma handle_duplicate_safe c cf :
  claim_inv c cf -> claim_safe cf (handle_duplicate_name c cf).
Proof.
  intros Hi. pose proof Hi as [Hc Hs Hl Hn Hp]. unfold handle_duplicate_name.
  destruct (_ || _); [by apply (same_safe c)|].
  rewrite cf_transition_eq. apply (fail_safe _ cf); auto 6 with claim.
Qed.

Lemma handle_request_safe c cf :
  claim_inv c cf -> claim_safe cf (handle_request_for_claim c cf).
Proof.
  intros Hi. pose proof Hi as [Hc Hs Hl Hn Hp]. unfold handle_request_for_claim.
  assert (claim_safe cf (c, cf, [], [])) as Hsame by (by apply (same_safe c)).
  destruct (negb _); [done|]. destruct (reclaim_pending c); [done|].
  destruct (claim_state cf) eqn:Hst; try done.
  1,2: split; [done|]; split; [done|]; split; [done|]; apply Forall_singleton;
    right; right; split; [done|]; apply Hs; auto.
  destruct (rtxd_ms c =? 0); [|apply (same_safe c); auto with claim].
  split; [done|]. split; [done|]. split; [done|]. apply Forall_singleton. right. by left.
Qed.

Lemma claim_apply_safe op c cf :
  claim_inv c cf -> op_ok op cf -> claim_safe cf (claim_apply op c cf).
Proof.
  intros Hi Hop. destruct op; cbn [op_ok claim_apply] in *.
  - by apply claimer_start_safe.
  - by apply claimer_update_safe.
  - apply handle_claim_safe; [done|apply Hop].
  - by apply handle_duplicate_safe.
  - by apply handle_request_safe.
Qed.

Lemma claim_reachable_inv c cf : claim_reachable c cf -> claim_inv c cf.
Proof.
  induction 1 as [base rtxd c name port pr Hb Hr E Hn Hp|op c cf c' cf' fs ev _ IH Hop E].
  - by apply (claim_inv_new base rtxd).
  - pose proof (claim_apply_safe op c cf IH Hop) as Hs. rewrite E in Hs. apply Hs.
Qed.

(** ** Frames *)

Lemma own_frame_wf cf f :
  Name.wf (icf_name cf) -> in_u 8 (icf_address cf) -> own_frame cf f -> FrameOps.wf f.
Proof.
  intros Hn Ha. assert (forall a, in_u 8 a -> FrameOps.wf (make_claim_frame (icf_name cf) a)).
  { intros a Hi. apply wf_new8; try done. repeat constructor; apply (in_u_land_ones 8); lia. }
  intros [->|[->|[-> _]]]; [|by apply H|by apply H].
  apply wf_new8; try (by unfold in_u); try done. repeat constructor; by unfold in_u.
Qed.

(** ** Properties *)


(** the claimer only speaks for itself: every frame any operation emits from a
    reachable state is well formed and is the request for address claimed, or an
    address claim carrying the function's own NAME whose source address is the one the
    function uses afterwards (at most 253) or the null address. *)
Theorem claim_frames_own op c cf :
  claim_reachable c cf -> op_ok op cf ->
  let '(c', cf', frames, evs) := claim_apply op c cf in
  icf_name cf' = icf_name cf /\
  Forall (fun f => FrameOps.wf f /\ own_frame cf' f) frames.
Proof.
  intros Hr%claim_reachable_inv Hop. pose proof (claim_apply_safe op c cf Hr Hop) as Hs.
  destruct (claim_apply op c cf) as [[[c' cf'] fs] ev].
  destruct Hs as ([_ Hst _ Hn _] & Hname & _ & Hf). split; [done|].
  eapply Forall_impl; [exact Hf|]. intros f Hown. split; [|done].
  apply (own_frame_wf cf'); [done|apply Hst|done].
Qed.

(** the fallback address search is sound, complete and fair: it returns an address
    of 128..=247 that is neither preferred nor known to be occupied, the nearest such
    address cyclically after the current one, and the null address only when there is
    none. *)
Theorem find_next_address_correct c cf cur :
  let r := find_next_address c cf cur in
  let from := if (128 <=? cur) && (cur <? 247) then cur + 1 else 128 in
  (r = NULL_ADDRESS /\
   forall b, 128 <= b <= 247 -> b = preferred_address cf \/ is_occupied c b = true)
  \/ (128 <= r <= 247 /\ r <> preferred_address cf /\ is_occupied c r = false /\
      forall b, 128 <= b <= 247 -> b <> preferred_address cf -> is_occupied c b = false ->
        config_distance from r <= config_distance from b).
Proof.
  assert (forall b, free_address c cf b = true <->
    b <> preferred_address cf /\ is_occupied c b = false) as Hfree.
  { intros b. unfold free_address. rewrite andb_true_iff, !negb_true_iff, Z.eqb_neq. done. }
  destruct (find_next_address_spec c cf cur) as [[Hr Hall]|(Hr & Hf & Hmin)]; [left|right].
  - split; [done|]. intros b Hb. specialize (Hall b Hb).
    destruct (decide (b = preferred_address cf)); [by left|right].
    destruct (is_occupied c b) eqn:E; [done|].
    exfalso. rewrite <- not_true_iff_false in Hall. by apply Hall, Hfree.
  - apply Hfree in Hf as [? ?]. split; [done|]. split; [done|]. split; [done|].
    intros b Hb ? ?. apply Hmin; [done|]. by apply Hfree.
Qed.

(** A function that holds (or contests) address [a] and listens to claims. *)
Definition holds (c : AddressClaimer) (cf : InternalCf) (a : Address) : Prop :=
  attempted_claim c = true /\ listen_pending c = false /\ icf_address cf = a /\
  (claim_state cf = ClaimState.Claimed \/ claim_state cf = ClaimState.WaitForContest).

Lemma handle_claim_contest c cf a n :
  holds c cf a -> in_u 8 a -> a <= MAX_ADDRESS -> Name.eqb n (icf_name cf) = false ->
  handle_claim c cf a n =
    if Name.ltb (icf_name cf) n
    then (mark_occupied a c, cf, [make_claim_frame (icf_name cf) a], [])
    else yield_address (mark_occupied a c) cf a.
Proof.
  intros (Hat & Hl & Ha & Hst) _ Hmax Hne. destruct (mark_occupied_flags a c) as (_ & E2 & E3 & _).
  unfold handle_claim. rewrite (proj2 (Z.ltb_ge _ _)), Hne by done. cbn [negb].
  rewrite E2, E3, Hat, Hl, Ha, Z.eqb_refl. cbn [negb].
  rewrite bool_decide_eq_false_2 by (by destruct Hst as [-> | ->]). done.
Qed.

Lemma claim_frame_fields n a :
  in_u 8 a -> FrameOps.source (make_claim_frame n a) = a /\
  FrameOps.pgn (make_claim_frame n a) = PGN_ADDRESS_CLAIMED.
Proof.
  intros Ha. destruct (pdu1_fields Priority.Default PGN_ADDRESS_CLAIMED a BROADCAST_ADDRESS)
    as (? & ? & _); try done.
Qed.

(** The function gave up [a]: offline, not claimed, and about to use another address or
    none. *)
Definition gave_up (a : Address) (c : AddressClaimer) (cf : InternalCf) : Prop :=
  claim_state cf <> ClaimState.Claimed /\ cf_state (icf_cf cf) = CfState.Offline /\
  (icf_address cf <> a \/ (reclaim_pending c = true /\ reclaim_address c <> a)).

Lemma yield_leaves c cf a :
  is_occupied c a = true -> a <= MAX_ADDRESS ->
  let '(c', cf', frames, evs) := yield_address c cf a in
  gave_up a c' cf' /\ OnAddressLost ∈ evs /\ Forall (fun f => FrameOps.source f <> a) frames.
Proof.
  intros Hocc Hmax. unfold yield_address. rewrite !cf_transition_eq.
  assert (NULL_ADDRESS <> a) as Hnull by (unfold NULL_ADDRESS, MAX_ADDRESS in *; lia).
  assert (forall n, Forall (fun f => FrameOps.source f <> a) [make_claim_frame n NULL_ADDRESS])
    as Hcannot.
  { intros n. apply Forall_singleton. by rewrite (proj1 (claim_frame_fields n NULL_ADDRESS
      in_u8_null)). }
  assert (forall evs, OnAddressLost ∈ OnAddressLost :: evs) as Hev by (by left).
  destruct (negb _); [split; [split; [done|split; [done|by left]]|by split]|].
  set (next := find_next_address _ _ _).
  destruct (Z.ltb_spec MAX_ADDRESS next);
    [split; [split; [done|split; [done|by left]]|by split]|].
  assert (next <> a /\ in_u 8 next) as [Hne Hin].
  { destruct (find_next_address_spec c (set_state CfState.Offline cf) a) as [[E _]|(Hr & Hf & _)].
    - exfalso. unfold next in H. rewrite E in H. unfold MAX_ADDRESS, NULL_ADDRESS in H. lia.
    - fold next in Hr, Hf. split; [|unfold in_u; simpl; lia]. intros ->.
      unfold free_address in Hf. rewrite Hocc, andb_false_r in Hf. done. }
  destruct (0 <? rtxd_ms c).
  - case_bool_decide as Hst; (split; [|by split]); (split; [done|]); (split; [done|]); by right.
  - unfold send_claim. rewrite !cf_transition_eq. split; [|split; [done|]].
    + split; [done|]. split; [done|]. by left.
    + apply Forall_singleton.
      change (icf_name (set_claim_state _ _)) with (icf_name cf).
      by rewrite (proj1 (claim_frame_fields (icf_name cf) next Hin)).
Qed.

Lemma is_occupied_mark a c :
  in_u 8 a -> a <= MAX_ADDRESS -> length (occupied_addresses c) = CLAIMABLE_ADDRESS_COUNT ->
  is_occupied (mark_occupied a c) a = true.
Proof.
  intros [Ha _] Hmax Hl. unfold is_occupied, mark_occupied.
  rewrite (proj2 (Z.leb_le _ _)) by done. cbn [andb with_occupied occupied_addresses].
  rewrite list_lookup_insert_eq; [done|]. rewrite Hl.
  unfold CLAIMABLE_ADDRESS_COUNT, MAX_ADDRESS in *. lia.
Qed.

(** C37: arbitration.  When two control functions hold or contest the same address and
    each hears the other's claim, the one with the lower NAME keeps its state and
    repeats its claim, and the other goes offline, reports the loss, sends nothing from
    that address and moves to another address (now, or after the queued delay) or
    gives up: they never both keep it. *)
Theorem claim_arbitration c1 cf1 c2 cf2 a :
  claim_reachable c1 cf1 -> claim_reachable c2 cf2 ->
  holds c1 cf1 a -> holds c2 cf2 a ->
  Name.ltb (icf_name cf1) (icf_name cf2) = true ->
  (exists c1', handle_claim c1 cf1 a (icf_name cf2)
     = (c1', cf1, [make_claim_frame (icf_name cf1) a], [])) /\
  let '(c2', cf2', frames, evs) := handle_claim c2 cf2 a (icf_name cf1) in
  gave_up a c2' cf2' /\ OnAddressLost ∈ evs /\ Forall (fun f => FrameOps.source f <> a) frames.
Proof.
  intros Hr1%claim_reachable_inv Hr2%claim_reachable_inv H1 H2 Hlt.
  assert (in_u 8 a /\ a <= MAX_ADDRESS) as [Ha Hmax].
  { destruct Hr1 as [_ Hs _ _ _]. destruct H1 as (_ & _ & <- & Hst). split; [apply Hs|].
    by apply Hs. }
  unfold Name.ltb in Hlt. reflect_bools. split.
  - exists (mark_occupied a c1). rewrite handle_claim_contest; try done.
    + unfold Name.ltb. by rewrite (proj2 (Z.ltb_lt _ _)).
    + unfold Name.eqb. apply Z.eqb_neq. lia.
  - rewrite handle_claim_contest; try done; [|unfold Name.eqb; apply Z.eqb_neq; lia].
    unfold Name.ltb. rewrite (proj2 (Z.ltb_ge _ _)) by lia.
    pose proof (yield_leaves (mark_occupied a c2) cf2 a) as Hy.
    destruct (yield_address _ _ _) as [[[c' cf'] fs] ev]. apply Hy; [|done].
    apply is_occupied_mark; try done. apply Hr2.
Qed.

(** ** Liveness of an uncontested claim *)

Fixpoint claim_updates (c : AddressClaimer) (cf : InternalCf) (es : list Z) : claim_result :=
  match es with
  | [] => (c, cf, [], [])
  | e :: es =>
      let '(c, cf, fs, ev) := claimer_update c cf e in
      let '(c, cf, fs', ev') := claim_updates c cf es in
      (c, cf, fs ++ fs', ev ++ ev')
  end.

Definition elapsed (es : list Z) : Z := foldr Z.add 0 es.

(** Time steps that stay below the window [t], and one that closes it. *)
Definition window (t : Z) (es : list Z) (e : Z) : Prop :=
  Forall (in_u 32) es /\ in_u 32 e /\ elapsed es < t <= elapsed es + e.

Lemma elapsed_nonneg es : Forall (in_u 32) es -> 0 <= elapsed es.
Proof. induction 1 as [|e es [? _] _ IH]; cbn; [done|]. unfold elapsed in IH. lia. Qed.

Lemma sat_add_small a b t : 0 <= a -> 0 <= b -> a + b < t < 2 ^ 32 -> sat_add 32 a b = a + b.
Proof. intros. unfold sat_add. lia. Qed.

Lemma sat_add_reach a b t : t <= a + b -> t < 2 ^ 32 -> t <= sat_add 32 a b.
Proof. intros. unfold sat_add. lia. Qed.

(** The listen window: silent until it closes, then [finish_listen]. *)
Lemma listen_updates es e c cf :
  listen_pending c = true -> timeout_ms c < 2 ^ 32 -> 0 <= listen_timer_ms c ->
  Forall (in_u 32) es -> in_u 32 e ->
  listen_timer_ms c + elapsed es < timeout_ms c <= listen_timer_ms c + elapsed es + e ->
  exists t, claim_updates c cf (es ++ [e]) = finish_listen (with_listen true t c) cf.
Proof.
  intros Hl Ht H0 Hes He. revert c Hl Ht H0.
  induction Hes as [|x es [Hx _] Hes IH]; intros c Hl Ht H0 Hsum; cbn [elapsed foldr app] in *.
  - exists (sat_add 32 (listen_timer_ms c) e).
    cbn [claim_updates]. unfold claimer_update. rewrite Hl.
    cbn [timeout_ms listen_timer_ms with_listen].
    rewrite (proj2 (Z.leb_le _ _)) by (apply sat_add_reach; lia).
    destruct (finish_listen _ cf) as [[[c1 cf1] fs] ev]. by rewrite !app_nil_r.
  - fold (elapsed es) in *. pose proof (elapsed_nonneg es Hes). destruct He as [He _].
    cbn [claim_updates]. unfold claimer_update at 1. rewrite Hl.
    cbn [timeout_ms listen_timer_ms with_listen].
    rewrite (sat_add_small _ _ (timeout_ms c)) by lia.
    rewrite (proj2 (Z.leb_gt _ _)) by lia.
    destruct (IH (with_listen true (listen_timer_ms c + x) c)) as (t & ->); cbn; try done; try lia.
    exists t. destruct (finish_listen _ cf) as [[[c1 cf1] fs] ev]. done.
Qed.

(** A contesting function that nobody contests. *)
Definition contesting (c : AddressClaimer) (cf : InternalCf) (a : Address) : Prop :=
  listen_pending c = false /\ cannot_claim_pending c = false /\ reclaim_pending c = false /\
  claim_state cf = ClaimState.WaitForContest /\ icf_address cf = a.

Lemma contest_tick c cf a e :
  contesting c cf a -> a <= MAX_ADDRESS ->
  claimer_update c cf e =
    let c' := with_guard (sat_add 32 (claim_guard_timer_ms c) e) c in
    let cf' := add_claim_time e cf in
    if timeout_ms c <=? sat_add 32 (claim_guard_timer_ms c) e then
      (c', set_state CfState.Online (set_claim_state ClaimState.Claimed cf'), [],
       [OnTransition ClaimState.WaitForContest ClaimState.Claimed; OnAddressClaimed a])
    else (c', cf', [], []).
Proof.
  intros (H1 & H2 & H3 & H4 & H5) Hmax. unfold claimer_update. rewrite H1, H2, H3.
  unfold guard_tick. rewrite bool_decide_eq_true_2 by done.
  cbn [timeout_ms claim_guard_timer_ms with_guard]. destruct (_ <=? _); [|done].
  rewrite cf_transition_eq.
  change (icf_address (set_claim_state _ (add_claim_time e cf))) with (icf_address cf).
  rewrite H5, (proj2 (Z.eqb_neq _ _)) by (unfold MAX_ADDRESS, NULL_ADDRESS in *; lia).
  change (claim_state (add_claim_time e cf)) with (claim_state cf). rewrite H4.
  rewrite bool_decide_eq_false_2 by done. cbn [app]. do 3 f_equal.
  unfold icf_address in H5. cbn. by rewrite H5.
Qed.

(** The guard window: silent until it closes, then Claimed. *)
Lemma contest_updates es e c cf a :
  contesting c cf a -> a <= MAX_ADDRESS -> timeout_ms c < 2 ^ 32 ->
  0 <= claim_guard_timer_ms c -> Forall (in_u 32) es -> in_u 32 e ->
  claim_guard_timer_ms c + elapsed es < timeout_ms c <= claim_guard_timer_ms c + elapsed es + e ->
  exists c' cf' evs, claim_updates c cf (es ++ [e]) = (c', cf', [], evs) /\
    claim_state cf' = ClaimState.Claimed /\ cf_state (icf_cf cf') = CfState.Online /\
    icf_address cf' = a /\ OnAddressClaimed a ∈ evs.
Proof.
  intros Hc Hmax Ht H0 Hes He. revert c cf Hc Ht H0.
  induction Hes as [|x es [Hx _] Hes IH]; intros c cf Hc Ht H0 Hsum; cbn [elapsed foldr app] in *;
    cbn [claim_updates]; rewrite (contest_tick c cf a) by done; cbn zeta.
  - rewrite (proj2 (Z.leb_le _ _)) by (apply sat_add_reach; lia).
    eexists _, _, _. split; [done|]. destruct Hc as (_ & _ & _ & _ & Ha).
    split; [done|]. split; [done|]. split; [exact Ha|]. right. by left.
  - fold (elapsed es) in *. pose proof (elapsed_nonneg es Hes). destruct He as [He _].
    rewrite (sat_add_small _ _ (timeout_ms c)) by lia. rewrite (proj2 (Z.leb_gt _ _)) by lia.
    destruct (IH (with_guard (claim_guard_timer_ms c + x) c) (add_claim_time x cf))
      as (c' & cf' & ev & -> & ?); cbn; try done; try lia.
    by eexists _, _, _.
Qed.

Lemma with_timeout_fresh base rtxd c :
  in_u 32 base -> in_u 32 rtxd -> with_timeout base rtxd = Some c ->
  0 <= timeout_ms c < 2 ^ 32 /\ reclaim_pending c = false /\ cannot_claim_pending c = false.
Proof.
  intros [Hb _] [Hr _] E. unfold with_timeout, checked_add in E.
  set (r := if ADDRESS_CLAIM_RTXD_MAX_MS <? rtxd then _ else _) in E.
  assert (0 <= r) by (unfold r, ADDRESS_CLAIM_RTXD_MAX_MS; case_bool; lia).
  destruct (Z.ltb_spec (base + r) (2 ^ 32)); [|done]. cbn in E. injection E as <-.
  split; [cbn; lia|done].
Qed.

(** A claimer that has heard nobody knows no occupied address. *)
Lemma nobody_occupied c a : occupied_addresses c = no_addresses -> is_occupied c a = false.
Proof.
  intros E. unfold is_occupied. rewrite E. unfold no_addresses.
  destruct (replicate _ false !! _) as [b|] eqn:Hl; [|by rewrite andb_false_r].
  apply lookup_replicate in Hl as [-> _]. by rewrite andb_false_r.
Qed.

(** an uncontested claim succeeds.  From a new claimer and a claimable preferred
    address, [start] sends exactly the request; when the listen window closes exactly
    the claim of the preferred address goes out; when the guard window then closes the
    function is claimed and online at that address and reports it, whatever the
    granularity of the time steps. *)
Theorem claim_uncontested base rtxd c name port preferred es1 e1 es2 e2 :
  in_u 32 base -> in_u 32 rtxd -> with_timeout base rtxd = Some c ->
  0 <= preferred <= MAX_ADDRESS ->
  window (timeout_ms c) es1 e1 -> window (timeout_ms c) es2 e2 ->
  exists c1 cf1 ev1 c2 cf2 ev2 c3 cf3 ev3,
    claimer_start c (InternalCf_new name port preferred)
    = (c1, cf1, [make_request_frame], ev1) /\
    claim_updates c1 cf1 (es1 ++ [e1]) = (c2, cf2, [make_claim_frame name preferred], ev2) /\
    claim_state cf2 = ClaimState.WaitForContest /\
    claim_updates c2 cf2 (es2 ++ [e2]) = (c3, cf3, [], ev3) /\
    claim_state cf3 = ClaimState.Claimed /\ cf_state (icf_cf cf3) = CfState.Online /\
    icf_address cf3 = preferred /\ OnAddressClaimed preferred ∈ ev3.
Proof.
  intros Hb Hr E Hp (F1 & F2 & F3) (G1 & G2 & G3).
  destruct (with_timeout_fresh base rtxd c Hb Hr E) as (Ht & Hrp & Hcc).
  unfold claimer_start. rewrite !cf_transition_eq.
  change (preferred_address (InternalCf_new name port preferred)) with preferred.
  rewrite (proj2 (Z.ltb_ge _ _)) by lia.
  set (c1 := with_guard 0 _). set (cf1 := reset_claim_timer _).
  destruct (listen_updates es1 e1 c1 cf1) as (t & E1); try done; cbn; try lia.
  set (c2 := with_listen false 0 (with_listen true t c1)).
  assert (is_occupied c2 preferred = false) as Hocc by (by apply nobody_occupied).
  assert (finish_listen (with_listen true t c1) cf1 = send_claim preferred c2 cf1) as E2.
  { unfold finish_listen. fold c2. change (preferred_address cf1) with preferred.
    rewrite Hocc. cbn [andb]. by rewrite (proj2 (Z.ltb_ge _ _)) by lia. }
  rewrite E2 in E1. unfold send_claim in E1. rewrite !cf_transition_eq in E1.
  eexists c1, cf1, _, _, _, _.
  destruct (contest_updates es2 e2 (with_guard 0 c2) (set_claim_state ClaimState.WaitForContest
    (set_claim_state ClaimState.SendClaim (reset_claim_timer (set_address preferred cf1))))
    preferred) as (c3 & cf3 & ev3 & E3 & Hfin); try done; cbn; try lia.
  exists c3, cf3, ev3. split; [done|]. split; [exact E1|]. split; [done|]. by split.
Qed.

(** Answers to a request for address claimed: nothing before the first claim
    attempt or while a re-claim is queued; the current address when claimed or
    contesting; when failed, Cannot Claim at once without a delay, otherwise queued and
    sent, once, by the first update after the RTxD delay. *)
Theorem request_answered c cf :
  let '(c', cf', frames, evs) := handle_request_for_claim c cf in
  cf' = cf /\ evs = [] /\
  if attempted_claim c && negb (reclaim_pending c) then
    match claim_state cf with
    | ClaimState.Claimed | ClaimState.WaitForContest =>
        c' = c /\ frames = [make_claim_frame (icf_name cf) (icf_address cf)]
    | ClaimState.Failed =>
        if rtxd_ms c =? 0
        then c' = c /\ frames = [make_claim_frame (icf_name cf) NULL_ADDRESS]
        else frames = [] /\ (listen_pending c = false -> forall e,
          (claimer_update c' cf e).1.2 =
            (if rtxd_ms c <=? sat_add 32 0 e
             then [make_claim_frame (icf_name cf) NULL_ADDRESS] else []) /\
          cannot_claim_pending (claimer_update c' cf e).1.1.1 = negb (rtxd_ms c <=? sat_add 32 0 e))
    | _ => c' = c /\ frames = []
    end
  else c' = c /\ frames = [].
Proof.
  unfold handle_request_for_claim.
  destruct (attempted_claim c); cbn [negb andb]; [|done].
  destruct (reclaim_pending c) eqn:Hr; cbn [negb]; [done|].
  destruct (claim_state cf) eqn:Hst; try done. destruct (rtxd_ms c =? 0); [done|].
  split; [done|]. split; [done|]. split; [done|]. intros Hl e. unfold claimer_update.
  cbn [listen_pending cannot_claim_pending with_cannot_claim cannot_claim_delay_timer_ms rtxd_ms].
  rewrite Hl, Hst, bool_decide_eq_true_2 by done.
  destruct (_ <=? sat_add 32 0 e); cbn [reclaim_pending with_cannot_claim]; rewrite Hr;
    unfold guard_tick; rewrite Hst, bool_decide_eq_false_2 by done; done.
Qed.

(** The derived re-claim delay stays within the standard's 0..=153 ms for every
    NAME, so building a claimer from it never overflows and never clamps. *)
Theorem rtxd_for_name_bounds name :
  0 <= rtxd_for_name name <= ADDRESS_CLAIM_RTXD_MAX_MS /\
  exists c, AddressClaimer_new (rtxd_for_name name) = Some c /\
    rtxd_ms c = rtxd_for_name name /\
    timeout_ms c = ADDRESS_CLAIM_TIMEOUT_MS + rtxd_for_name name.
Proof.
  assert (0 <= rtxd_for_name name <= ADDRESS_CLAIM_RTXD_MAX_MS) as Hr.
  { unfold rtxd_for_name, ADDRESS_CLAIM_RTXD_MAX_MS.
    set (h := fnv_loop _ _ _ _). pose proof (in_u_land_ones 8 h ltac:(lia)) as [Hh _].
    change (Z.ones 8) with 0xFF in Hh.
    assert (0 <= Z.land h 0xFF * 6 / 10) by (apply Z.div_pos; lia). case_bool; lia. }
  split; [done|]. unfold AddressClaimer_new, with_timeout.
  rewrite (proj2 (Z.ltb_ge _ _)) by lia.
  rewrite checked_add_Some by (unfold ADDRESS_CLAIM_TIMEOUT_MS, ADDRESS_CLAIM_RTXD_MAX_MS in *; simpl; lia).
  cbn. by eexists.
Qed.

(** ** Where the claimer departs from its documentation *)

(** [handle_duplicate_name] fails the claim but leaves the listen window open: a
    duplicate NAME detected during the window makes the function announce Cannot
    Claim, and when the window closes it claims its preferred address all the same and
    comes online under the ambiguous NAME. *)
Theorem duplicate_name_while_listening_reclaims base rtxd c name port preferred :
  in_u 32 base -> in_u 32 rtxd -> with_timeout base rtxd = Some c ->
  0 <= preferred <= MAX_ADDRESS ->
  exists c1 cf1 ev1 c2 cf2 ev2 c3 cf3 ev3 c4 cf4 ev4,
    claimer_start c (InternalCf_new name port preferred)
    = (c1, cf1, [make_request_frame], ev1) /\
    handle_duplicate_name c1 cf1
    = (c2, cf2, [make_claim_frame name NULL_ADDRESS], ev2) /\
    claim_state cf2 = ClaimState.Failed /\
    claimer_update c2 cf2 (timeout_ms c)
    = (c3, cf3, [make_claim_frame name preferred], ev3) /\
    claimer_update c3 cf3 (timeout_ms c) = (c4, cf4, [], ev4) /\
    claim_state cf4 = ClaimState.Claimed /\ cf_state (icf_cf cf4) = CfState.Online /\
    icf_address cf4 = preferred.
Proof.
  intros Hb Hr E Hp.
  destruct (with_timeout_fresh base rtxd c Hb Hr E) as (Ht & Hrp & Hcc).
  unfold claimer_start. rewrite !cf_transition_eq.
  change (preferred_address (InternalCf_new name port preferred)) with preferred.
  rewrite (proj2 (Z.ltb_ge _ _)) by lia.
  set (c1 := with_guard 0 _). set (cf1 := reset_claim_timer _).
  set (c2 := with_guard 0 (with_reclaim false 0 NULL_ADDRESS c1)).
  set (cf2 := set_address NULL_ADDRESS (set_claim_state ClaimState.Failed
    (set_state CfState.Offline cf1))).
  assert (exists ev, handle_duplicate_name c1 cf1
    = (c2, cf2, [make_claim_frame name NULL_ADDRESS], ev)) as [ev2 E2].
  { unfold handle_duplicate_name. rewrite cf_transition_eq.
    change (attempted_claim c1) with true. change (claim_state cf1) with ClaimState.SendRequest.
    cbn [negb orb]. rewrite bool_decide_eq_false_2 by done. by eexists. }
  assert (is_occupied (with_listen false 0 (with_listen true (timeout_ms c) c2)) preferred = false)
    as Hocc by (by apply nobody_occupied).
  set (c3 := with_guard 0 (with_listen false 0 (with_listen true (timeout_ms c) c2))).
  set (cf3 := set_claim_state ClaimState.WaitForContest (set_claim_state ClaimState.SendClaim
    (reset_claim_timer (set_address preferred cf2)))).
  assert (exists ev, claimer_update c2 cf2 (timeout_ms c)
    = (c3, cf3, [make_claim_frame name preferred], ev)) as [ev3 E3].
  { unfold claimer_update. change (listen_pending c2) with true. cbn [listen_timer_ms].
    change (listen_timer_ms c2) with 0. cbn [timeout_ms with_listen listen_timer_ms].
    change (timeout_ms c2) with (timeout_ms c). unfold sat_add. rewrite Z.min_l by lia.
    rewrite Z.add_0_l, Z.leb_refl. unfold finish_listen.
    change (preferred_address cf2) with preferred. rewrite Hocc. cbn [andb].
    rewrite (proj2 (Z.ltb_ge _ _)) by lia. unfold send_claim. rewrite !cf_transition_eq.
    by eexists. }
  eexists c1, cf1, _, c2, cf2, ev2, c3, cf3, ev3, _, _, _.
  split; [done|]. split; [exact E2|]. split; [done|]. split; [exact E3|].
  rewrite (contest_tick c3 cf3 preferred) by (done || lia). cbn zeta.
  change (claim_guard_timer_ms c3) with 0. change (timeout_ms c3) with (timeout_ms c).
  unfold sat_add. rewrite Z.min_l, Z.add_0_l, Z.leb_refl by lia.
  split; [done|]. split; [done|]. split; [done|]. done.
Qed.

(** between losing an address and the delayed re-claim the function still answers
    for it: having yielded [a] to a lower NAME, it meets a claim of [a] by a higher NAME
    with its own claim of [a]. *)
Theorem yielded_address_still_defended c cf a winner third :
  claim_reachable c cf -> holds c cf a -> 0 < rtxd_ms c ->
  Name.self_configurable (icf_name cf) = true ->
  (exists b, 128 <= b <= 247 /\ b <> a /\ free_address c cf b = true) ->
  Name.ltb winner (icf_name cf) = true -> Name.ltb (icf_name cf) third = true ->
  exists c1 cf1 ev1 c2,
    handle_claim c cf a winner = (c1, cf1, [], ev1) /\ OnAddressLost ∈ ev1 /\
    reclaim_pending c1 = true /\ reclaim_address c1 <> a /\
    handle_claim c1 cf1 a third = (c2, cf1, [make_claim_frame (icf_name cf) a], []).
Proof.
  intros Hr%claim_reachable_inv Hh Hrt Hsc (b & Hb & Hba & Hfb) Hw Ht.
  assert (in_u 8 a /\ a <= MAX_ADDRESS) as [Ha Hmax].
  { destruct Hr as [_ Hs _ _ _]. destruct Hh as (_ & _ & <- & Hst). split; [apply Hs|].
    by apply Hs. }
  unfold Name.ltb in Hw, Ht. reflect_bools. set (c' := mark_occupied a c).
  destruct (mark_occupied_flags a c) as (_ & E2 & E3 & E4). fold c' in E2, E3, E4.
  rewrite (handle_claim_contest c cf a winner) by (try done; unfold Name.eqb; apply Z.eqb_neq; lia).
  unfold Name.ltb. rewrite (proj2 (Z.ltb_ge _ _)) by lia. fold c'.
  unfold yield_address. change (icf_name (set_state CfState.Offline cf)) with (icf_name cf).
  rewrite Hsc. cbn [negb]. set (next := find_next_address c' _ a).
  assert (is_occupied c' a = true) as Hocc
    by (apply is_occupied_mark; try done; apply Hr).
  assert (forall x, x <> a -> 0 <= x -> is_occupied c' x = is_occupied c x) as Hother.
  { intros x Hx Hx0. unfold c', mark_occupied. rewrite (proj2 (Z.leb_le _ _)) by done.
    unfold is_occupied. cbn. rewrite list_lookup_insert_ne by (destruct Ha; lia). done. }
  destruct (find_next_address_spec c' (set_state CfState.Offline cf) a) as [[_ Hall]|(Hn & Hf & _)].
  { exfalso. specialize (Hall b Hb). unfold free_address in Hall, Hfb.
    rewrite Hother in Hall by lia. cbn in Hall. congruence. }
  fold next in Hn, Hf. unfold MAX_ADDRESS at 1. rewrite (proj2 (Z.ltb_ge _ _)) by lia.
  rewrite E4, (proj2 (Z.ltb_lt _ _)) by done.
  assert (next <> a) as Hne.
  { intros En. unfold free_address in Hf. rewrite En, Hocc, andb_false_r in Hf. done. }
  change (claim_state (set_state CfState.Offline cf)) with (claim_state cf).
  rewrite cf_transition_eq.
  set (cf1 := if bool_decide (claim_state cf = ClaimState.Claimed)
              then set_claim_state ClaimState.WaitForClaim (set_state CfState.Offline cf)
              else set_state CfState.Offline cf).
  assert (claim_state cf1 <> ClaimState.Failed /\ icf_address cf1 = a /\
    icf_name cf1 = icf_name cf) as (Hs1 & Ha1 & Hn1).
  { destruct Hh as (_ & _ & Haddr & Hst). unfold cf1. case_bool_decide; split; try done.
    change (claim_state cf <> ClaimState.Failed). by destruct Hst as [-> | ->]. }
  assert (forall c2, listen_pending c2 = false -> attempted_claim c2 = true ->
    exists c3, handle_claim c2 cf1 a third = (c3, cf1, [make_claim_frame (icf_name cf) a], []))
    as Hdef.
  { intros c2 Hl2 Hat2. destruct (mark_occupied_flags a c2) as (_ & F2 & F3 & _).
    exists (mark_occupied a c2). unfold handle_claim. rewrite (proj2 (Z.ltb_ge _ _)) by done.
    rewrite Hn1. unfold Name.eqb, Name.ltb. rewrite (proj2 (Z.eqb_neq _ _)) by lia. cbn [negb].
    rewrite F2, F3, Hl2, Hat2, bool_decide_eq_false_2, Ha1, Z.eqb_refl by done. cbn [negb].
    by rewrite (proj2 (Z.ltb_lt _ _)) by lia. }
  destruct Hh as (Hat & Hl & _ & _). unfold cf1 in *.
  case_bool_decide; destruct (Hdef (with_reclaim true 0 next c')) as [c3 E];
    try (cbn; congruence); eexists _, _, _, c3; split; try done; split; try (by left); by split.
Qed.

(** ** Witnesses *)

(** A function that has listened for its window and is contesting its address. *)
Definition sample_claim (raw : Z) : option (AddressClaimer * InternalCf) :=
  c ← with_timeout 250 10;
  let '(c, cf, _, _) := claimer_start c (InternalCf_new (Name.from_raw raw) 0 0x80) in
  let '(c, cf, _, _) := claimer_update c cf 300 in
  Some (c, cf).

Lemma sample_claim_reachable raw c cf :
  in_u 64 raw -> sample_claim raw = Some (c, cf) -> claim_reachable c cf.
Proof.
  intros Hr E. unfold sample_claim in E.
  destruct (with_timeout 250 10) as [c0|] eqn:E0; [|done]. cbn [mbind option_bind] in E.
  destruct (claimer_start _ _) as [[[c1 cf1] f1] v1] eqn:E1.
  destruct (claimer_update c1 cf1 300) as [[[c2 cf2] f2] v2] eqn:E2. injection E as -> ->.
  apply (reach_op (OpUpdate 300) c1 cf1 c cf f2 v2); [|by unfold op_ok, in_u|exact E2].
  apply (reach_op OpStart c0 (InternalCf_new (Name.from_raw raw) 0 0x80) c1 cf1 f1 v1);
    [|done|exact E1].
  by apply (reach_new 250 10); try (by unfold in_u).
Qed.

(** The NAMEs 0x8000000000000001 < 0x8000000000000002 < 0x8000000000000003, all
    self-configurable. *)
Definition sample_name (k : Z) : Z := 0x8000000000000000 + k.


Lemma claim_frames_own_witness :
  exists c cf, sample_claim (sample_name 1) = Some (c, cf) /\
    Forall (fun f => FrameOps.wf f) (claim_apply OpRequest c cf).1.2.
Proof.
  destruct (sample_claim (sample_name 1)) as [[c cf]|] eqn:E;
    [|exfalso; vm_compute in E; discriminate].
  exists c, cf. split; [done|].
  pose proof (claim_frames_own OpRequest c cf
    (sample_claim_reachable (sample_name 1) c cf ltac:(by unfold in_u) E) I) as H.
  destruct (claim_apply OpRequest c cf) as [[[c' cf'] fs] ev]. destruct H as [_ H].
  eapply Forall_impl; [exact H|]. by intros f [? _].
Defined.

Lemma claim_arbitration_witness :
  exists c1 cf1 c2 cf2 c1',
    sample_claim (sample_name 1) = Some (c1, cf1) /\
    sample_claim (sample_name 2) = Some (c2, cf2) /\
    handle_claim c1 cf1 0x80 (icf_name cf2)
    = (c1', cf1, [make_claim_frame (icf_name cf1) 0x80], []).
Proof.
  destruct (sample_claim (sample_name 1)) as [[c1 cf1]|] eqn:E1;
    [|exfalso; vm_compute in E1; discriminate].
  destruct (sample_claim (sample_name 2)) as [[c2 cf2]|] eqn:E2;
    [|exfalso; vm_compute in E2; discriminate].
  destruct (claim_arbitration c1 cf1 c2 cf2 0x80
    (sample_claim_reachable (sample_name 1) c1 cf1 ltac:(by unfold in_u) E1)
    (sample_claim_reachable (sample_name 2) c2 cf2 ltac:(by unfold in_u) E2)) as [[c1' H] _].
  - vm_compute in E1. injection E1 as <- <-. repeat split. by right.
  - vm_compute in E2. injection E2 as <- <-. repeat split. by right.
  - vm_compute in E1, E2. by injection E1 as _ <-; injection E2 as _ <-.
  - by exists c1, cf1, c2, cf2, c1'.
Defined.

Lemma claim_uncontested_witness :
  exists c c1 cf1 ev1, with_timeout 250 10 = Some c /\
    claimer_start c (InternalCf_new (Name.from_raw 7) 0 0x26)
    = (c1, cf1, [make_request_frame], ev1).
Proof.
  destruct (with_timeout 250 10) as [c|] eqn:E; [|exfalso; vm_compute in E; discriminate].
  destruct (claim_uncontested 250 10 c (Name.from_raw 7) 0 0x26 [100; 100] 100 [50] 250)
    as (c1 & cf1 & ev1 & _ & _ & _ & _ & _ & _ & H & _); try done; try (by unfold in_u).
  - vm_compute in E. injection E as <-. repeat split; try (repeat constructor); done.
  - vm_compute in E. injection E as <-. repeat split; try (repeat constructor); done.
  - by exists c, c1, cf1, ev1.
Defined.

Lemma duplicate_name_while_listening_reclaims_witness :
  exists c c1 cf1 ev1, with_timeout 250 10 = Some c /\
    claimer_start c (InternalCf_new (Name.from_raw 7) 0 0x26)
    = (c1, cf1, [make_request_frame], ev1).
Proof.
  destruct (with_timeout 250 10) as [c|] eqn:E; [|exfalso; vm_compute in E; discriminate].
  destruct (duplicate_name_while_listening_reclaims 250 10 c (Name.from_raw 7) 0 0x26)
    as (c1 & cf1 & ev1 & _ & _ & _ & _ & _ & _ & _ & _ & _ & H & _); try done;
    try (by unfold in_u).
  by exists c, c1, cf1, ev1.
Defined.

Lemma yielded_address_still_defended_witness :
  exists c cf c1 cf1 ev1 c2, sample_claim (sample_name 2) = Some (c, cf) /\
    handle_claim c cf 0x80 (Name.from_raw (sample_name 1)) = (c1, cf1, [], ev1) /\
    handle_claim c1 cf1 0x80 (Name.from_raw (sample_name 3))
    = (c2, cf1, [make_claim_frame (icf_name cf) 0x80], []).
Proof.
  destruct (sample_claim (sample_name 2)) as [[c cf]|] eqn:E;
    [|exfalso; vm_compute in E; discriminate].
  destruct (yielded_address_still_defended c cf 0x80 (Name.from_raw (sample_name 1))
    (Name.from_raw (sample_name 3)) (sample_claim_reachable (sample_name 2) c cf ltac:(by unfold in_u) E))
    as (c1 & cf1 & ev1 & c2 & H1 & _ & _ & _ & H2).
  7: by exists c, cf, c1, cf1, ev1, c2.
  all: vm_compute in E; injection E as <- <-.
  - repeat split. by right.
  - done.
  - done.
  - exists 0x81. split; [lia|]. split; [lia|done].
  - done.
  - done.
Defined.
