(* ===== verification/BusLoad.v ===== *)
(** The rolling bus-load estimator: the model of [src/net/bus_load.rs].

    The estimator bins an approximate bit count every 100 ms into a ring of 100 samples.
    [bl_samples] reads the ring back in chronological order; [bus_load_update_refines] shows
    that [update] appends the samples of the elapsed periods and keeps the last hundred.
    The floating-point percentage of [load_percent] is not modelled. *)
From S2P Require Export Types.

Definition WINDOW_SIZE : nat := 100.
Definition SAMPLE_PERIOD_MS : Z := 100.

Record BusLoad : Type := mkBusLoad {
  bl_bit_counts : list Z;
  bl_write_idx : nat;
  bl_current_bits : Z;
  bl_timer_ms : Z;
  bl_filled : bool
}.

Definition BusLoad_new : BusLoad := mkBusLoad (replicate WINDOW_SIZE 0) 0 0 0 false.

(** [BusLoad::add_frame]: the arithmetic cannot overflow, [dlc] is at most 8. *)
Definition bl_add_frame (dlc : Z) (b : BusLoad) : BusLoad :=
  let bits := 67 + Z.min dlc 8 * 8 in
  let bits := bits * 120 / 100 in
  mkBusLoad (bl_bit_counts b) (bl_write_idx b) (sat_add 32 (bl_current_bits b) bits)
    (bl_timer_ms b) (bl_filled b).

(** One turn of the [while] loop of [BusLoad::update]. *)
Definition bl_bin (b : BusLoad) : BusLoad :=
  let idx := ((bl_write_idx b + 1) mod WINDOW_SIZE)%nat in
  mkBusLoad (<[bl_write_idx b:=bl_current_bits b]> (bl_bit_counts b)) idx 0
    (bl_timer_ms b - SAMPLE_PERIOD_MS) ((idx =? 0)%nat || bl_filled b).

Fixpoint bl_update_loop (fuel : nat) (b : BusLoad) : option BusLoad :=
  if bl_timer_ms b <? SAMPLE_PERIOD_MS then Some b
  else match fuel with O => None | S fuel => bl_update_loop fuel (bl_bin b) end.

(** [BusLoad::update]: one iteration per elapsed sample period. *)
Definition bl_update (delta_ms : Z) (b : BusLoad) : option BusLoad :=
  let t := sat_add 32 (bl_timer_ms b) delta_ms in
  bl_update_loop (Z.to_nat (t / SAMPLE_PERIOD_MS))
    (mkBusLoad (bl_bit_counts b) (bl_write_idx b) (bl_current_bits b) t (bl_filled b)).

Definition bl_sample_count (b : BusLoad) : nat :=
  if bl_filled b then WINDOW_SIZE else bl_write_idx b.

(** [BusLoad::reset]. *)
Definition bl_reset (b : BusLoad) : BusLoad := BusLoad_new.

(** ** The ring as a list of samples *)

Record bus_load_wf (b : BusLoad) : Prop := {
  bw_len : length (bl_bit_counts b) = WINDOW_SIZE;
  bw_idx : (bl_write_idx b < WINDOW_SIZE)%nat;
  bw_bits : in_u 32 (bl_current_bits b);
  bw_timer : in_u 32 (bl_timer_ms b)
}.

(** The samples in the order they were taken, oldest first. *)
Definition bl_samples (b : BusLoad) : list Z :=
  if bl_filled b
  then drop (bl_write_idx b) (bl_bit_counts b) ++ take (bl_write_idx b) (bl_bit_counts b)
  else take (bl_write_idx b) (bl_bit_counts b).

(** The last [n] elements of a list. *)
Definition last_n {A} (n : nat) (l : list A) : list A := drop (length l - n) l.

Lemma last_n_short {A} n (l : list A) : (length l <= n)%nat -> last_n n l = l.
Proof. intros. unfold last_n. by replace (length l - n)%nat with 0%nat by lia. Qed.

Lemma last_n_snoc_full {A} n (l : list A) x :
  length l = S n -> last_n (S n) (l ++ [x]) = tail l ++ [x].
Proof.
  intros Hl. unfold last_n. rewrite length_app. simpl.
  replace (length l + 1 - S n)%nat with 1%nat by lia.
  destruct l; [done|]. done.
Qed.

Lemma last_n_app {A} n (l k : list A) : last_n n (last_n n l ++ k) = last_n n (l ++ k).
Proof.
  unfold last_n. rewrite !length_app, length_drop.
  destruct (decide (length l <= n)%nat).
  - replace (length l - n)%nat with 0%nat by lia. by rewrite drop_0, Nat.sub_0_r.
  - set (m := (length l - n)%nat).
    assert (E : l ++ k = take m l ++ drop m l ++ k) by (by rewrite app_assoc, take_drop).
    rewrite E.
    replace (length l + length k - n)%nat
      with (length (take m l) + (length l - m + length k - n))%nat
      by (rewrite length_take; lia).
    by rewrite drop_app_add.
Qed.

Lemma bl_bin_wf b : bus_load_wf b -> SAMPLE_PERIOD_MS <= bl_timer_ms b -> bus_load_wf (bl_bin b).
Proof.
  intros [Hl Hi Hb Ht] Hp. split; unfold bl_bin; cbn [bl_bit_counts bl_write_idx bl_current_bits bl_timer_ms].
  - by rewrite length_insert.
  - by apply Nat.mod_upper_bound.
  - done.
  - unfold in_u, SAMPLE_PERIOD_MS in *. lia.
Qed.

Lemma bl_bin_samples b :
  bus_load_wf b -> bl_samples (bl_bin b) = last_n WINDOW_SIZE (bl_samples b ++ [bl_current_bits b]).
Proof.
  intros [Hl Hi _ _]. destruct b as [l i c t f]; cbn in Hl, Hi.
  unfold bl_bin, bl_samples; cbn [bl_bit_counts bl_write_idx bl_current_bits bl_timer_ms bl_filled].
  assert (Htake : take (S i) (<[i:=c]> l) = take i l ++ [c]).
  { rewrite (take_S_r _ _ c) by (apply list_lookup_insert_eq; lia).
    by rewrite take_insert_ge by lia. }
  assert (Hdrop : drop (S i) (<[i:=c]> l) = drop (S i) l) by (apply drop_insert_lt; lia).
  destruct (lookup_lt_is_Some_2 l i ltac:(lia)) as [x Hx].
  assert (Hwrap : i = 99%nat \/ (i < 99)%nat) by (unfold WINDOW_SIZE in *; lia).
  destruct Hwrap as [->|Hlt].
  - change ((99 + 1) mod WINDOW_SIZE)%nat with 0%nat. simpl.
    rewrite <- (take_ge (<[99%nat:=c]> l) 100) by (rewrite length_insert; unfold WINDOW_SIZE in *; lia).
    rewrite drop_0, app_nil_r, Htake. destruct f.
    + unfold WINDOW_SIZE. rewrite last_n_snoc_full, (drop_S _ x) by
        (try rewrite length_app, length_drop, length_take; try done; unfold WINDOW_SIZE in *; lia).
      rewrite drop_ge by (unfold WINDOW_SIZE in *; lia). done.
    + rewrite last_n_short; [done|].
      rewrite length_app, length_take. cbn [length]. unfold WINDOW_SIZE in *. lia.
  - rewrite Nat.mod_small by (unfold WINDOW_SIZE; lia).
    rewrite Nat.add_1_r. cbn [Nat.eqb orb]. rewrite Htake, Hdrop. destruct f.
    + unfold WINDOW_SIZE. rewrite last_n_snoc_full, (drop_S l x i) by
        (try rewrite length_app, length_drop, length_take; try done; unfold WINDOW_SIZE in *; lia).
      simpl. by rewrite app_assoc.
    + rewrite last_n_short; [done|].
      rewrite length_app, length_take. simpl. unfold WINDOW_SIZE in *. lia.
Qed.

(** What [n] periods contribute: the bits counted so far, then idle periods. *)
Definition new_samples (n : nat) (bits : Z) : list Z :=
  match n with O => [] | S n => bits :: replicate n 0 end.

Lemma bl_update_loop_spec n b :
  bus_load_wf b -> Z.of_nat n = bl_timer_ms b / SAMPLE_PERIOD_MS ->
  (length (bl_samples b) <= WINDOW_SIZE)%nat ->
  exists b', bl_update_loop n b = Some b' /\ bus_load_wf b' /\
    bl_timer_ms b' = bl_timer_ms b mod SAMPLE_PERIOD_MS /\
    bl_current_bits b' = (if (n =? 0)%nat then bl_current_bits b else 0) /\
    bl_samples b' = last_n WINDOW_SIZE (bl_samples b ++ new_samples n (bl_current_bits b)).
Proof.
  revert b. induction n as [|n IH]; intros b Hwf Hn Hlen.
  - exists b. unfold SAMPLE_PERIOD_MS in *. pose proof (bw_timer b Hwf) as Ht. unfold in_u in Ht.
    simpl. assert (bl_timer_ms b < 100)
      by (pose proof (Z.div_mod (bl_timer_ms b) 100); pose proof (Z.mod_pos_bound (bl_timer_ms b) 100); lia).
    rewrite (proj2 (Z.ltb_lt _ _)), Z.mod_small, app_nil_r, last_n_short by (try done; lia).
    by split_and!.
  - assert (Hge : SAMPLE_PERIOD_MS <= bl_timer_ms b).
    { unfold SAMPLE_PERIOD_MS in *. pose proof (Z.div_mod (bl_timer_ms b) 100).
      pose proof (Z.mod_pos_bound (bl_timer_ms b) 100). lia. }
    simpl bl_update_loop. rewrite (proj2 (Z.ltb_ge _ _)) by done.
    destruct (IH (bl_bin b)) as (b' & Hb & Hwf' & Ht & Hc & Hs).
    + by apply bl_bin_wf.
    + unfold bl_bin, SAMPLE_PERIOD_MS in *. cbn.
      replace (bl_timer_ms b - 100) with (bl_timer_ms b + (-1) * 100) by lia.
      rewrite Z.div_add by lia. lia.
    + rewrite bl_bin_samples by done. unfold last_n. rewrite length_drop. lia.
    + exists b'. split; [done|]. split; [done|]. split; [|split].
      * rewrite Ht. unfold bl_bin, SAMPLE_PERIOD_MS. cbn.
        replace (bl_timer_ms b - 100) with (bl_timer_ms b + (-1) * 100) by lia.
        by rewrite Z.mod_add by lia.
      * rewrite Hc. simpl. by destruct n.
      * rewrite Hs, bl_bin_samples, last_n_app, <- app_assoc by done. simpl.
        do 3 f_equal. by destruct n.
Qed.

Lemma bl_samples_length b : bus_load_wf b -> length (bl_samples b) = bl_sample_count b.
Proof.
  intros [? ? _ _]. unfold bl_samples, bl_sample_count. destruct (bl_filled b);
    rewrite ?length_app, ?length_drop, length_take; lia.
Qed.

Lemma bus_load_wf_new : bus_load_wf BusLoad_new.
Proof. split; simpl; unfold in_u, WINDOW_SIZE; try lia; done. Qed.

Lemma bl_add_frame_wf dlc b : 0 <= dlc -> bus_load_wf b -> bus_load_wf (bl_add_frame dlc b).
Proof.
  intros ? [? ? [? ?] ?]. split; try done. simpl. apply in_u_sat_add; try lia.
  apply Z.div_pos; lia.
Qed.

Lemma bus_load_update_refines_aux b delta :
  bus_load_wf b -> in_u 32 delta ->
  exists b', bl_update delta b = Some b' /\ bus_load_wf b' /\
    let t := sat_add 32 (bl_timer_ms b) delta in
    bl_timer_ms b' = t mod 100 /\
    bl_samples b' = last_n 100 (bl_samples b ++ new_samples (Z.to_nat (t / 100)) (bl_current_bits b)) /\
    bl_sample_count b' = Nat.min 100 (bl_sample_count b + Z.to_nat (t / 100)).
Proof.
  intros Hwf [? ?]. unfold bl_update.
  set (t := sat_add 32 (bl_timer_ms b) delta).
  assert (Ht : in_u 32 t) by (apply in_u_sat_add; [lia|apply Hwf|lia]).
  set (b0 := mkBusLoad _ _ _ t _).
  assert (Hwf0 : bus_load_wf b0) by (destruct Hwf; by split).
  pose proof (bl_samples_length b0 Hwf0) as Hl0.
  destruct (bl_update_loop_spec (Z.to_nat (t / SAMPLE_PERIOD_MS)) b0)
    as (b' & Hb & Hwf' & Htm & _ & Hs); [done| | |].
  - rewrite Z2Nat.id; [done|]. unfold in_u in Ht. apply Z.div_pos; unfold SAMPLE_PERIOD_MS; lia.
  - rewrite Hl0. unfold bl_sample_count. destruct Hwf0. destruct (bl_filled b0); lia.
  - exists b'. split; [done|]. split; [done|]. split; [done|]. split; [done|].
    rewrite <- bl_samples_length, Hs by done. unfold last_n.
    rewrite length_drop, length_app, Hl0. unfold SAMPLE_PERIOD_MS, WINDOW_SIZE.
    replace (length (new_samples _ _)) with (Z.to_nat (t / 100)).
    + change (bl_sample_count b0) with (bl_sample_count b). lia.
    + unfold new_samples. destruct (Z.to_nat (t / 100)); simpl; [done|]. by rewrite length_replicate.
Qed.

(** Advancing the estimator always terminates, keeps the ring well formed, bins one sample
    per elapsed 100 ms (the bits counted so far, then zeros) and retains exactly the last
    hundred samples in order. *)
Theorem bus_load_update_refines b delta :
  bus_load_wf b -> in_u 32 delta ->
  exists b', bl_update delta b = Some b' /\ bus_load_wf b' /\
    let t := sat_add 32 (bl_timer_ms b) delta in
    bl_timer_ms b' = t mod 100 /\
    bl_samples b' = last_n 100 (bl_samples b ++ new_samples (Z.to_nat (t / 100)) (bl_current_bits b)) /\
    bl_sample_count b' = Nat.min 100 (bl_sample_count b + Z.to_nat (t / 100)).
Proof. apply bus_load_update_refines_aux. Qed.

Lemma bus_load_update_refines_witness :
  exists b', bl_update 250 (bl_add_frame 8 BusLoad_new) = Some b' /\
    bl_samples b' = [157; 0] /\ bl_timer_ms b' = 50.
Proof.
  destruct (bus_load_update_refines (bl_add_frame 8 BusLoad_new) 250)
    as (b' & Hb & _ & Ht & Hs & _).
  - apply bl_add_frame_wf; [lia|apply bus_load_wf_new].
  - by vm_compute.
  - exists b'. split; [done|]. split; [by rewrite Hs; vm_compute|by rewrite Ht; vm_compute].
Defined.
