(* ===== verification/Requests.v ===== *)
(** The J1939 request and acknowledgment messages: the model of
    [src/j1939/pgn_request.rs] and [src/j1939/acknowledgment.rs].  The network manager
    decodes requests for the address-claimed group with [decode_request]; the
    interconnection unit answers its control messages with an [Acknowledgment]. *)
From S2P Require Export TpInv.

Definition PGN_ACKNOWLEDGMENT : Pgn := 0xE800.

(** [(d0 as Pgn) | ((d1 as Pgn) << 8) | ((d2 as Pgn) << 16)]. *)
Definition le24 (d0 d1 d2 : Z) : Z := Z.lor (Z.lor d0 (Z.shiftl d1 8)) (Z.shiftl d2 16).

(** ** [pgn_request.rs] *)

Definition all_ff (l : list Z) : bool := forallb (fun b => b =? 0xFF) l.

Definition decode_request (data : list Z) : option Pgn :=
  let valid_len := (length data =? 3)%nat
    || ((length data =? 8)%nat && all_ff (drop 3 data)) in
  if negb valid_len then None
  else
    let pgn := le24 (data !!! 0%nat) (data !!! 1%nat) (data !!! 2%nat) in
    if pgn_is_valid pgn then Some pgn else None.

Definition requested_pgn (msg : Message) : option Pgn :=
  if negb (has_usable_envelope_for_pgn msg PGN_REQUEST) then None
  else decode_request (m_data msg).

Definition encode_request (pgn : Pgn) : Result (list Z) Error.t :=
  if negb (pgn_is_valid pgn) then
    Err (Error.invalid_data ("requested PGN 0x" +:+ format_hex 0 pgn +:+
           " exceeds the 18-bit J1939/ISOBUS PGN range"))
  else Ok [byte0 pgn; byte1 pgn; byte2 pgn].

(** ** [acknowledgment.rs] *)

Module AckControl.
Inductive t : Type := PositiveAck | NegativeAck | AccessDenied | CannotRespond.

Definition try_from_u8 (v : Z) : option t :=
  match v with
  | 0 => Some PositiveAck | 1 => Some NegativeAck
  | 2 => Some AccessDenied | 3 => Some CannotRespond
  | _ => None
  end.

Definition from_u8 (v : Z) : t := default CannotRespond (try_from_u8 v).

Definition as_u8 (c : t) : Z :=
  match c with PositiveAck => 0 | NegativeAck => 1 | AccessDenied => 2 | CannotRespond => 3 end.
End AckControl.

Module Acknowledgment.
Record t : Type := mk {
  control : AckControl.t;
  group_function : Z;
  acknowledged_pgn : Pgn;
  address : Address
}.

Definition ack (pgn : Pgn) (addr : Address) : t := mk AckControl.PositiveAck 0xFF pgn addr.
Definition nack (pgn : Pgn) (addr : Address) : t := mk AckControl.NegativeAck 0xFF pgn addr.

Definition encode (a : t) : Result (list Z) Error.t :=
  if negb (pgn_is_valid (acknowledged_pgn a)) then
    Err (Error.invalid_data ("acknowledged PGN 0x" +:+ format_hex 0 (acknowledged_pgn a) +:+
           " exceeds the 18-bit J1939/ISOBUS PGN range"))
  else Ok [AckControl.as_u8 (control a); group_function a; 0xFF; 0xFF; address a;
           byte0 (acknowledged_pgn a); byte1 (acknowledged_pgn a); byte2 (acknowledged_pgn a)].

Definition decode (data : list Z) : option t :=
  if negb (length data =? 8)%nat then None
  else if negb (data !!! 2%nat =? 0xFF) || negb (data !!! 3%nat =? 0xFF) then None
  else
    control ← AckControl.try_from_u8 (data !!! 0%nat);
    let pgn := le24 (data !!! 5%nat) (data !!! 6%nat) (data !!! 7%nat) in
    if negb (pgn_is_valid pgn) then None
    else Some (mk control (data !!! 1%nat) pgn (data !!! 4%nat)).

Definition from_message (msg : Message) : option t :=
  if negb (has_usable_envelope_for_pgn msg PGN_ACKNOWLEDGMENT) then None
  else decode (m_data msg).
End Acknowledgment.

(** ** Lemmas *)

Lemma le24_bytes a b c :
  in_u 8 a -> in_u 8 b -> in_u 8 c ->
  byte0 (le24 a b c) = a /\ byte1 (le24 a b c) = b /\ byte2 (le24 a b c) = c.
Proof.
  intros Ha Hb Hc. unfold byte0, byte1, byte2, le24. change 255 with (Z.ones 8).
  split_and!; apply Z.bits_inj'; intros n Hn;
    (destruct (Z.ltb_spec n 8); bits_norm; bits_done).
Qed.

Lemma le24_in_u a b c : in_u 8 a -> in_u 8 b -> in_u 8 c -> in_u 24 (le24 a b c).
Proof.
  intros. unfold le24. repeat apply in_u_lor; try lia.
  - by apply (in_u_mono 8).
  - apply (in_u_mono 16); [lia|]. by apply (in_u_shiftl 8 8).
  - by apply (in_u_shiftl 8 16).
Qed.

Lemma le24_join_pgn pgn : in_u 24 pgn -> le24 (byte0 pgn) (byte1 pgn) (byte2 pgn) = pgn.
Proof. apply le24_join. Qed.

Lemma pgn_valid_in_u pgn : 0 <= pgn -> pgn_is_valid pgn = true <-> in_u 18 pgn.
Proof. intros. unfold pgn_is_valid, in_u. rewrite Z.leb_le. lia. Qed.

Lemma in_u_18_24 pgn : in_u 18 pgn -> in_u 24 pgn.
Proof. apply in_u_mono. lia. Qed.

Lemma all_ff_eq l : all_ff l = true -> l = replicate (length l) 0xFF.
Proof.
  unfold all_ff. induction l as [|b l IH]; simpl; [done|]. intros [Hb ?]%andb_true_iff.
  apply Z.eqb_eq in Hb. f_equal; auto.
Qed.

Lemma all_ff_replicate n : all_ff (replicate n 0xFF) = true.
Proof. induction n; simpl; done. Qed.

Lemma length_3 {A} (l : list A) : length l = 3%nat -> exists a b c, l = [a; b; c].
Proof. intros. destruct l as [|a [|b [|c [|]]]]; try discriminate. eauto. Qed.

Lemma length_8 {A} (l : list A) :
  length l = 8%nat -> exists a b c d e f g h, l = [a; b; c; d; e; f; g; h].
Proof.
  intros. destruct l as [|a [|b [|c [|d [|e [|f [|g [|h [|]]]]]]]]]; try discriminate.
  eauto 10.
Qed.

Ltac destruct_bytes H :=
  repeat match type of H with Forall _ (_ :: _) => apply Forall_cons in H as [? H] end.

Lemma ack_control_inv v c : AckControl.try_from_u8 v = Some c <-> v = AckControl.as_u8 c.
Proof.
  split.
  - destruct v as [|[[|[]|]|[|[]|]|]|]; simpl; intros; simplify_eq; done.
  - intros ->. by destruct c.
Qed.

(** Encoding a request succeeds exactly for 18-bit PGNs and decodes back, with or without
    the padding of a classic frame; whatever decodes is the encoding of its PGN followed by
    nothing or by five 0xFF bytes. *)
Theorem request_roundtrip :
  (forall pgn b, 0 <= pgn -> encode_request pgn = Ok b ->
     decode_request b = Some pgn /\ decode_request (b ++ replicate 5 0xFF) = Some pgn) /\
  (forall d pgn, bytes d -> decode_request d = Some pgn ->
     exists b, encode_request pgn = Ok b /\ (d = b \/ d = b ++ replicate 5 0xFF)).
Proof.
  split.
  - intros pgn b Hp. unfold encode_request. destruct (pgn_is_valid pgn) eqn:E; [|done].
    intros [= <-]. apply pgn_valid_in_u in E as Hu; [|done].
    unfold decode_request. cbn [length drop app replicate Nat.eqb orb andb negb].
    rewrite (all_ff_replicate 5 : all_ff [255; 255; 255; 255; 255] = true). cbn.
    rewrite le24_join_pgn by (by apply in_u_18_24). by rewrite E.
  - intros d pgn Hd. unfold decode_request.
    destruct (_ || _) eqn:E; [|done]. cbn [negb].
    assert (exists a b c r, d = a :: b :: c :: r /\ (r = [] \/ r = replicate 5 0xFF))
      as (a & b & c & r & -> & Hr).
    { apply orb_true_iff in E as [E|E].
      - apply Nat.eqb_eq, length_3 in E as (a & b & c & ->). eauto 10.
      - apply andb_true_iff in E as [E F]. apply Nat.eqb_eq, length_8 in E.
        destruct E as (a & b & c & d' & e & f & g & h & ->). apply all_ff_eq in F.
        simpl in F. simplify_eq. eauto 10. }
    destruct_bytes Hd. cbn -[le24].
    destruct (pgn_is_valid (le24 a b c)) eqn:V; [|done]. intros [= <-].
    unfold encode_request. rewrite V. cbn -[le24].
    destruct (le24_bytes a b c) as (-> & -> & ->); try done.
    exists [a; b; c]. split; [done|]. destruct Hr as [-> | ->]; auto.
Qed.

Lemma request_roundtrip_witness :
  decode_request [0x00; 0xEE; 0x00] = Some PGN_ADDRESS_CLAIMED.
Proof. apply (proj1 request_roundtrip PGN_ADDRESS_CLAIMED); [by vm_compute|reflexivity]. Defined.

(** An acknowledgment payload decodes to [a] exactly when it is the encoding of [a]. *)
Theorem acknowledgment_codec d a :
  bytes d -> in_u 8 (Acknowledgment.group_function a) -> in_u 8 (Acknowledgment.address a) ->
  0 <= Acknowledgment.acknowledged_pgn a ->
  Acknowledgment.decode d = Some a <-> Acknowledgment.encode a = Ok d.
Proof.
  intros Hd Hg Ha Hp. unfold Acknowledgment.decode, Acknowledgment.encode. split.
  - destruct (Nat.eqb_spec (length d) 8) as [E|]; [|done].
    apply length_8 in E as (b0 & b1 & b2 & b3 & b4 & b5 & b6 & b7 & ->).
    destruct_bytes Hd. cbn -[le24 AckControl.try_from_u8].
    destruct (Z.eqb_spec b2 255), (Z.eqb_spec b3 255); try done. subst.
    destruct (AckControl.try_from_u8 b0) as [c|] eqn:Ec; cbn -[le24]; [|done].
    destruct (pgn_is_valid (le24 b5 b6 b7)) eqn:V; [|done]. cbn -[le24].
    intros [= <-]. cbn -[le24]. rewrite V. cbn -[le24].
    destruct (le24_bytes b5 b6 b7) as (-> & -> & ->); try done.
    apply ack_control_inv in Ec as ->. done.
  - destruct (pgn_is_valid _) eqn:V; [|done]. cbn -[byte0 byte1 byte2]. intros [= <-].
    cbn -[le24 byte0 byte1 byte2 AckControl.try_from_u8].
    rewrite (proj2 (ack_control_inv _ _) eq_refl). cbn -[le24 byte0 byte1 byte2].
    rewrite le24_join_pgn by (apply in_u_18_24; by apply pgn_valid_in_u).
    rewrite V. by destruct a.
Qed.

Lemma acknowledgment_codec_witness :
  Acknowledgment.decode [1; 0xFF; 0xFF; 0xFF; 0x42; 0x00; 0xED; 0x00]
  = Some (Acknowledgment.nack 0xED00 0x42).
Proof.
  apply acknowledgment_codec; simpl; unfold in_u; try lia; [|reflexivity].
  repeat constructor; unfold in_u; lia.
Defined.
