(* ===== verification/Transport.v ===== *)
(** What a multi-frame transport promises to the network manager.

    [TransportEngine] is the part of [TransportProtocol] and [ExtendedTransportProtocol]
    the manager calls, [TransportLaws] what it relies on: no call panics, the table
    stays well formed, sessions keep their endpoints, only a frame from the bus opens
    a reception (between that frame's own source and destination), and only a send opens a
    transmission.  Both engines are instances; the manager's theorems use the laws only. *)
From S2P Require Export TpOutcome EtpProps.

(** The path of a session: which way it runs, between which nodes, on which port. *)
Definition ends (s : TransportSession) : TransportDirection * Z * Z * Z :=
  (s_direction s, s_source_address s, s_destination_address s, s_can_port s).

Class TransportEngine (T : Type) : Type := {
  te_sessions : T -> list TransportSession;
  te_send : T -> Pgn -> list Z -> Address -> Address -> Z -> Priority.t ->
    T * Result (list Frame) Error.t;
  (** The third component lists the sessions [on_complete] fires with, in order. *)
  te_frame : T -> Frame -> Z -> option (T * list Frame * list TransportSession);
  te_update : T -> Z -> option (T * list Frame * list TransportSession);
  te_drain : T -> option (T * list Frame);
  te_abort_for : T -> Z -> Address -> T * list Frame;
  te_wf : T -> Prop
}.

(** [l'] only continues sessions of [l]. *)
Definition continues (l l' : list TransportSession) : Prop :=
  forall s', s' ∈ l' -> exists s, s ∈ l /\ ends s = ends s'.

(** [l'] continues sessions of [l] or receives from the sender of [f]. *)
Definition continues_rx (f : Frame) (port : Z) (l l' : list TransportSession) : Prop :=
  forall s', s' ∈ l' -> (exists s, s ∈ l /\ ends s = ends s') \/
    ends s' = (Receive, FrameOps.source f, FrameOps.destination f, port).

Class TransportLaws (T : Type) `{!TransportEngine T} : Prop := {
  te_send_law t pgn data src dst port prio :
    te_wf t -> in_u 32 pgn -> in_u 8 src -> in_u 8 dst -> bytes data ->
    in_u 32 (Z.of_nat (length data)) ->
    let '(t', r) := te_send t pgn data src dst port prio in
    te_wf t' /\
    match r with
    | Ok frames => Forall FrameOps.wf frames /\
        exists s, te_sessions t' = te_sessions t ++ [s] /\ ends s = (Transmit, src, dst, port)
    | Err _ => te_sessions t' = te_sessions t
    end;
  te_frame_law t f port :
    te_wf t -> FrameOps.wf f ->
    exists t' frames done, te_frame t f port = Some (t', frames, done) /\ te_wf t' /\
      Forall FrameOps.wf frames /\ Forall (fun s => bytes (s_data s)) done /\
      continues_rx f port (te_sessions t) (te_sessions t');
  te_update_law t e :
    te_wf t -> in_u 32 e ->
    exists t' frames done, te_update t e = Some (t', frames, done) /\ te_wf t' /\
      Forall FrameOps.wf frames /\ Forall (fun s => bytes (s_data s)) done /\
      continues (te_sessions t) (te_sessions t');
  te_drain_law t :
    te_wf t ->
    exists t' frames, te_drain t = Some (t', frames) /\ te_wf t' /\
      Forall FrameOps.wf frames /\ continues (te_sessions t) (te_sessions t');
  te_abort_law t port a :
    te_wf t ->
    let '(t', frames) := te_abort_for t port a in
    frames = [] /\ te_wf t' /\
    forall s, s ∈ te_sessions t' <-> s ∈ te_sessions t /\
      ~ (s_can_port s = port /\ (s_source_address s = a \/ s_destination_address s = a))
}.

(** ** Continuation lemmas *)

Lemma continues_refl l : continues l l.
Proof. intros s Hs. eauto. Qed.

Lemma continues_sub l l' : (forall s, s ∈ l' -> s ∈ l) -> continues l l'.
Proof. intros H s Hs. eauto. Qed.

Lemma continues_perm l l' s : l ≡ₚ s :: l' -> continues l l'.
Proof. intros Hp. apply continues_sub. intros x Hx. rewrite Hp. set_solver. Qed.

Lemma continues_insert l i s s' :
  l !! i = Some s -> ends s' = ends s -> continues l (<[i:=s']> l).
Proof.
  intros Hi He x [j Hj]%list_elem_of_lookup. destruct (decide (i = j)) as [->|Hne].
  - rewrite list_lookup_insert_eq in Hj by (by eapply lookup_lt_Some). simplify_eq.
    exists s. split; [by eapply list_elem_of_lookup_2|unfold ends; congruence].
  - rewrite list_lookup_insert_ne in Hj by done. exists x.
    split; [by eapply list_elem_of_lookup_2|done].
Qed.

Lemma continues_trans l1 l2 l3 : continues l1 l2 -> continues l2 l3 -> continues l1 l3.
Proof.
  intros H1 H2 s Hs. destruct (H2 s Hs) as (s2 & Hs2 & E2).
  destruct (H1 s2 Hs2) as (s1 & Hs1 & E1). exists s1. split; [done|congruence].
Qed.


Lemma continues_weaken f port l l' : continues l l' -> continues_rx f port l l'.
Proof. intros H s Hs. left. by apply H. Qed.

Lemma continues_push f port l l' s :
  continues l l' -> ends s = (Receive, FrameOps.source f, FrameOps.destination f, port) ->
  continues_rx f port l (l' ++ [s]).
Proof.
  intros H E x [Hx|Hx]%elem_of_app; [left; by apply H|].
  apply list_elem_of_singleton in Hx as ->. by right.
Qed.

Lemma continues_fmap {B} (g : TransportSession -> B) l l' :
  (forall s s', g s = g s' -> ends s = ends s') -> g <$> l' = g <$> l -> continues l l'.
Proof.
  intros Hg E x [i Hi]%list_elem_of_lookup.
  assert ((g <$> l') !! i = Some (g x)) as Hx by (by rewrite list_lookup_fmap, Hi).
  rewrite E, list_lookup_fmap in Hx. destruct (l !! i) as [s|] eqn:Es; [|done].
  simpl in Hx. exists s. split; [by eapply list_elem_of_lookup_2|]. apply Hg. by simplify_eq.
Qed.

Lemma continues_omap g l l' :
  (forall s s', s ∈ l -> g s = Some s' -> ends s' = ends s) ->
  l' ≡ₚ omap g l -> continues l l'.
Proof.
  intros Hg Hp x Hx. rewrite Hp in Hx. apply list_elem_of_omap in Hx as (s & Hs & E).
  exists s. split; [done|]. symmetry. eauto.
Qed.

(** ** The Transport Protocol engine *)

(** The sessions [on_complete] fires with. *)
Definition tp_completed (evs : list TpEvent) : list TransportSession :=
  omap (fun ev => match ev with OnComplete s => Some s | _ => None end) evs.

#[global] Instance tp_engine `{Allocator} : TransportEngine TransportProtocol := {
  te_sessions := sessions;
  te_send := tp_send;
  te_frame p f port :=
    '(p, frames, evs) ← tp_process_frame p f port; Some (p, frames, tp_completed evs);
  te_update p e :=
    '(p, frames, evs) ← tp_update p e; Some (p, frames, tp_completed evs);
  te_drain := get_pending_data_frames;
  te_abort_for := abort_sessions_for_address;
  te_wf := tp_wf
}.

Section tp_instance.
Context `{Allocator} (f : Frame) (port : Z).

(** What a handler's result must satisfy. *)
Definition tp_tracks (p : TransportProtocol) (r : tp_result) : Prop :=
  match r with
  | Some (p', _, evs) => continues_rx f port (sessions p) (sessions p') /\
      Forall (fun s => bytes (s_data s)) (tp_completed evs)
  | None => True
  end.

#[local] Arguments tp_tracks : simpl never.

Lemma tp_tracks_same p g frames :
  tp_tracks p (Some (with_stats g p, frames, [])).
Proof. split; [apply continues_weaken, continues_refl|constructor]. Qed.

Lemma tp_tracks_update p i s s' frames :
  sessions p !! i = Some s -> ends s' = ends s ->
  tp_tracks p (Some (update_session i s' p, frames, [])).
Proof.
  intros. split; [|constructor]. apply continues_weaken. by eapply continues_insert.
Qed.

Lemma tp_tracks_perm p p' s frames evs :
  sessions p ≡ₚ s :: sessions p' -> Forall (fun s => bytes (s_data s)) (tp_completed evs) ->
  tp_tracks p (Some (p', frames, evs)).
Proof. intros. split; [|done]. by eapply continues_weaken, continues_perm. Qed.

Lemma same_transfer_ends s s' : same_transfer s s' -> ends s' = ends s.
Proof. intros []. unfold ends. congruence. Qed.

Ltac tracked := split; [by apply continues_weaken|constructor].

Lemma rts_open_tracks p p1 :
  continues (sessions p) (sessions p1) -> tp_tracks p (rts_open p1 f port).
Proof.
  intros Hc. unfold rts_open. destruct (_ <=? _)%nat; [tracked|].
  destruct (rx_buffer _ _); [|case_match; tracked].
  split; [|constructor]. by apply continues_push.
Qed.

Lemma bam_open_tracks p p1 :
  continues (sessions p) (sessions p1) -> tp_tracks p (bam_open p1 f port).
Proof.
  intros Hc. unfold bam_open. destruct (FrameOps.is_broadcast f) eqn:Eb; cbn [negb orb];
    [|case_match; tracked].
  destruct (_ || _); [case_match; tracked|].
  destruct (_ <=? _)%nat; [tracked|]. destruct (rx_buffer _ _); [|case_match; tracked].
  split; [|constructor]. apply continues_push; [done|]. unfold ends. cbn.
  by rewrite (broadcast_destination f Eb).
Qed.

Lemma remove_session_continues i p s p' :
  remove_session i p = Some (s, p') -> continues (sessions p) (sessions p').
Proof.
  unfold remove_session. destruct (swap_remove i (sessions p)) as [[x l]|] eqn:E; [|done].
  cbn. intros [= <- <-]. apply swap_remove_inv in E as [_ E]. by eapply continues_perm.
Qed.

Lemma handle_rts_tracks p : tp_tracks p (handle_rts p f port).
Proof.
  unfold handle_rts. destruct (_ || _).
  { split; [apply continues_weaken, continues_refl|constructor]. }
  destruct (receive_session_for _ _ _ _ _) as [i|].
  - destruct (remove_session i p) as [[s p1]|] eqn:E; [|done]. cbn.
    by eapply rts_open_tracks, remove_session_continues.
  - case_match.
    + split; [apply continues_weaken, continues_refl|constructor].
    + apply rts_open_tracks, continues_refl.
Qed.

Lemma handle_bam_tracks p : tp_tracks p (handle_bam p f port).
Proof.
  unfold handle_bam. destruct (receive_session_for _ _ _ _ _) as [i|].
  - destruct (remove_session i p) as [[s p1]|] eqn:E; [|done]. cbn.
    by eapply bam_open_tracks, remove_session_continues.
  - apply bam_open_tracks, continues_refl.
Qed.

Lemma handle_cts_tracks p :
  tp_wf p -> cm_frame f -> tp_tracks p (handle_cts p f port).
Proof.
  intros Hp [Hf _ _ _]. unfold handle_cts.
  destruct (position _ _) as [i|] eqn:Hi; [|by apply tp_tracks_same].
  apply position_Some in Hi as (s & Hls & Hm & _). rewrite Hls. cbn [mbind option_bind].
  apply cts_matches_inv in Hm as (Hdir & _).
  pose proof (tp_wf_lookup p i s Hp Hls) as Hw.
  destruct (cts_session_cases s (max_retransmits p) (FrameOps.byte f 1) (FrameOps.byte f 2))
    as (s' & r & -> & Hst & Hr); auto with bus.
  cbn [mbind option_bind]. destruct r as [r|].
  - unfold_notes. rewrite !remove_session_stats.
    destruct (tp_wf_overwrite_remove p i s s' Hp Hls) as (p' & -> & _ & Hperm & _).
    cbn. apply (tp_tracks_perm _ _ s); [done|constructor].
  - apply (tp_tracks_update _ i s); [done|by apply same_transfer_ends].
Qed.

Lemma handle_eoma_tracks p : tp_wf p -> tp_tracks p (handle_eoma p f port).
Proof.
  intros Hp. unfold handle_eoma.
  destruct (position _ _) as [i|] eqn:Hi; [|by apply tp_tracks_same].
  apply position_Some in Hi as (s & Hls & _). rewrite Hls. cbn [mbind option_bind].
  pose proof (tp_wf_lookup p i s Hp Hls) as Hw.
  destruct (_ || _); [by apply tp_tracks_same|].
  destruct (tp_wf_remove p i s Hp Hls) as (p' & -> & _ & Hperm & _). cbn.
  apply (tp_tracks_perm _ _ s); [done|]. repeat constructor. apply Hw.
Qed.

Lemma handle_abort_tracks p : tp_wf p -> tp_tracks p (handle_abort p f port).
Proof.
  intros Hp. unfold handle_abort.
  destruct (position _ _) as [i|] eqn:Hi; [|by apply tp_tracks_same].
  apply position_Some in Hi as (s & Hls & _). rewrite Hls. cbn [mbind option_bind].
  destruct (tp_wf_overwrite_remove p i s (with_state SessionState.Aborted s) Hp Hls)
    as (p' & -> & _ & Hperm & _).
  apply (tp_tracks_perm _ _ s); [done|constructor].
Qed.

Lemma dt_ingest_tracks p i s :
  tp_wf p -> sessions p !! i = Some s -> session_wf s -> rx_wf s ->
  FrameOps.wf f -> FrameOps.byte f 0 = s_last_sequence s + 1 ->
  tp_tracks p (dt_ingest p f i s).
Proof.
  intros Hp Hi Hw Hrx Hf Hseq. rewrite dt_ingest_eq by done. cbn zeta.
  destruct (_ =? total_packets s).
  - destruct (tp_wf_overwrite_remove p i s
      (with_state SessionState.Complete (ingested f s)) Hp Hi) as (p' & -> & _ & Hperm & _).
    apply (tp_tracks_perm _ _ s); [done|]. repeat constructor.
    cbn. apply bytes_scatter7; [apply Hw|apply Hf].
  - destruct (is_broadcast_session s); [|destruct (_ =? _)]; by apply (tp_tracks_update _ i s).
Qed.

Lemma handle_dt_tracks p : tp_wf p -> FrameOps.wf f -> tp_tracks p (handle_dt p f port).
Proof.
  intros Hp Hf. destruct (position (dt_matches (FrameOps.source f) (FrameOps.destination f) port)
    (sessions p)) as [i|] eqn:Hi.
  - apply position_Some in Hi as Hm. destruct Hm as (s & Hls & Hm & _).
    apply dt_matches_inv in Hm as (Hd & _).
    pose proof (tp_wf_lookup p i s Hp Hls) as Hw. pose proof (sw_dir s Hw) as Hrx.
    rewrite Hd in Hrx. rewrite (handle_dt_found p f port i s) by done.
    case_bool; [by apply dt_ingest_tracks|].
    destruct (dt_abort_eq p i s (dt_error (FrameOps.byte f 0) (s_last_sequence s)) Hp Hls)
      as (p' & -> & Hperm).
    apply (tp_tracks_perm _ _ s); [done|constructor].
  - unfold handle_dt. rewrite Hi. by apply tp_tracks_same.
Qed.

Lemma tp_process_tracks p :
  tp_wf p -> FrameOps.wf f -> tp_tracks p (tp_process_frame p f port).
Proof.
  intros Hp Hf. unfold tp_process_frame, handle_cm.
  destruct (pgn_is_valid (pgn_from_cm_bytes (f_data f))) eqn:Hpgn;
    [pose proof (cm_frame_intro f Hf Hpgn)|]; cbn [negb];
  repeat match goal with |- context [if ?b then _ else _] => destruct b end;
    first [by apply tp_tracks_same|by apply handle_rts_tracks|by apply handle_bam_tracks
      |by apply handle_cts_tracks|by apply handle_eoma_tracks
      |by apply handle_abort_tracks|by apply handle_dt_tracks
      |split; [apply continues_weaken, continues_refl|constructor]].
Qed.
End tp_instance.

Lemma tp_path_ends s s' : session_path s = session_path s' -> ends s = ends s'.
Proof. unfold session_path, ends. congruence. Qed.

Lemma tp_tick_completed e s :
  session_wf s -> Forall (fun s => bytes (s_data s)) (tp_completed (tick_events e s)).
Proof.
  intros Hw. unfold tick_events, tick_session. cbn zeta.
  destruct (_ && _); [|destruct (tp_timed_out _); constructor].
  case_match; cbn; [|constructor]. repeat constructor. apply Hw.
Qed.

Lemma Forall_completed_perm (evs evs' : list TpEvent) :
  evs ≡ₚ evs' -> Forall (fun s => bytes (s_data s)) (tp_completed evs') ->
  Forall (fun s => bytes (s_data s)) (tp_completed evs).
Proof. intros Hp. unfold tp_completed. by rewrite Hp. Qed.

Lemma tp_completed_bind e l :
  Forall session_wf l -> Forall (fun s => bytes (s_data s)) (tp_completed (l ≫= tick_events e)).
Proof.
  induction 1 as [|s l Hs _ IH]; cbn; [constructor|].
  unfold tp_completed in *. rewrite omap_app. apply Forall_app. split; [|done].
  by apply tp_tick_completed.
Qed.

Lemma tp_send_pushes p pgn data src dst port prio p' frames :
  tp_send p pgn data src dst port prio = (p', Ok frames) ->
  exists st, sessions p' = sessions p ++ [new_tx_session p pgn data src dst port prio st].
Proof.
  unfold tp_send. intros E. repeat case_match; simplify_eq; by eexists.
Qed.

#[global] Instance tp_laws `{Allocator} : TransportLaws TransportProtocol.
Proof.
  split; cbn.
  - intros p pgn data src dst port prio Hp ? ? ? ? ?.
    pose proof (tp_send_safe_aux p pgn data src dst port prio) as Hc.
    pose proof (tp_send_pushes p pgn data src dst port prio) as He.
    destruct (tp_send p pgn data src dst port prio) as [p' r].
    destruct r as [frames|err]; destruct Hc as (Hw & _ & Hs); try done; (split; [done|]).
    + destruct Hs as (s & _ & _ & _ & _ & _ & _ & _ & Hf & _).
      destruct (He p' frames) as (st & Hst); [done|]. split; [done|]. by eexists.
    + apply Hs.
  - intros p f port Hp Hf.
    destruct (tp_process_frame_safe_aux p f port Hp Hf)
      as (p' & frames & evs & E & Hp' & Hfr & _).
    pose proof (tp_process_tracks f port p Hp Hf) as Ht. rewrite E in *. destruct Ht.
    cbn. by eexists _, _, _.
  - intros p e Hp [He _].
    destruct (tp_update_spec_aux p e Hp He) as (p' & frames & evs & -> & Hp' & Hfr & Hs & _ & Hev & _).
    cbn. eexists _, _, _. split_and!; try done.
    + eapply Forall_completed_perm; [done|]. apply tp_completed_bind, Hp.
    + eapply continues_omap; [|done]. intros s s' Hin Hk.
      apply same_transfer_ends. eapply tick_kept_wf; [done| |done].
      by eapply (proj1 (Forall_forall _ _) (tw_sessions p Hp)).
  - intros p Hp. unfold get_pending_data_frames.
    destruct (get_pending_safe p Hp) as (p' & frames & E & Hp' & Hf & _).
    unfold get_pending_data_frames in E.
    destruct (drain_sessions_wf (sessions p) (tw_sessions p Hp))
      as (l' & fr & Hd & _ & Hpath & _). rewrite Hd in *. cbn in *. simplify_eq.
    eexists _, _. split_and!; try done.
    by apply (continues_fmap session_path); [apply tp_path_ends|].
  - intros p port a Hp. split_and!; [done|by apply abort_for_wf|].
    intros s. cbn. rewrite list_elem_of_filter. split; intros [H1 H2]; split; try done; lia.
Qed.

(** ** The Extended Transport Protocol engine *)

Definition etp_completed (evs : list EtpEvent) : list TransportSession :=
  omap (fun ev => match ev with EtpComplete s => Some s | _ => None end) evs.

#[global] Instance etp_engine `{Allocator} : TransportEngine ExtendedTransportProtocol := {
  te_sessions := etp_sessions;
  te_send := etp_send;
  te_frame p f port :=
    '(p, frames, evs) ← etp_process_frame p f port; Some (p, frames, etp_completed evs);
  te_update p e :=
    '(p, frames, evs) ← etp_update p e; Some (p, frames, etp_completed evs);
  te_drain := etp_get_pending_data_frames;
  te_abort_for := etp_abort_sessions_for_address;
  te_wf := etp_wf
}.

Section etp_instance.
Context `{Allocator} (f : Frame) (port : Z).

Definition etp_tracks (p : ExtendedTransportProtocol) (r : etp_result) : Prop :=
  match r with
  | Some (p', _, evs) => continues_rx f port (etp_sessions p) (etp_sessions p') /\
      Forall (fun s => bytes (s_data s)) (etp_completed evs)
  | None => True
  end.

#[local] Arguments etp_tracks : simpl never.

Lemma etp_tracks_same p g frames :
  etp_tracks p (Some (etp_with_stats g p, frames, [])).
Proof. split; [apply continues_weaken, continues_refl|constructor]. Qed.

Lemma etp_tracks_update p i s s' frames :
  etp_sessions p !! i = Some s -> ends s' = ends s ->
  etp_tracks p (Some (etp_update_session i s' p, frames, [])).
Proof.
  intros. split; [|constructor]. apply continues_weaken. by eapply continues_insert.
Qed.

Lemma etp_tracks_perm p p' s frames evs :
  etp_sessions p ≡ₚ s :: etp_sessions p' ->
  Forall (fun s => bytes (s_data s)) (etp_completed evs) ->
  etp_tracks p (Some (p', frames, evs)).
Proof. intros. split; [|done]. by eapply continues_weaken, continues_perm. Qed.

Lemma etp_tracks_reject p reason b : etp_tracks p (etp_reject p f reason b).
Proof.
  unfold etp_reject. destruct b; (split; [apply continues_weaken, continues_refl|constructor]).
Qed.

Lemma etp_handle_rts_tracks p : etp_tracks p (etp_handle_rts p f port).
Proof.
  unfold etp_handle_rts. destruct (receive_profile_for_advertised_size _ _) as [pr|r].
  - repeat (case_match; try by apply etp_tracks_reject).
    split; [|constructor]. apply continues_push; [apply continues_refl|done].
  - case_match; apply etp_tracks_reject.
Qed.

Lemma etp_handle_cts_tracks p :
  etp_wf p -> FrameOps.wf f -> etp_tracks p (etp_handle_cts p f port).
Proof.
  intros Hp Hf. unfold etp_handle_cts.
  destruct (position _ _) as [i|] eqn:Hi; [|by apply etp_tracks_same].
  apply position_Some in Hi as (s & Hls & Hm & _). rewrite Hls. cbn [mbind option_bind].
  unfold etp_cts_matches in Hm. reflect_bools.
  pose proof (etp_wf_lookup p i s Hp Hls) as Hw.
  destruct (etp_cts_session_cases (FrameOps.byte f 1) (etp_packet f) s) as (s' & r & -> & Hr);
    auto using etp_packet_range with bus.
  cbn [mbind option_bind]. destruct r as [r|].
  - unfold_etp_notes. rewrite !etp_remove_stats.
    destruct (etp_wf_overwrite_remove p i s s' Hp Hls) as (p' & -> & _ & Hperm & _).
    cbn. apply (etp_tracks_perm _ _ s); [done|constructor].
  - apply (etp_tracks_update _ i s); [done|]. by destruct Hr as [-> | (-> & _)].
Qed.

Lemma etp_abort_receive_tracks p i s :
  etp_wf p -> etp_sessions p !! i = Some s -> etp_tracks p (etp_abort_receive p i s).
Proof.
  intros Hp Hi. destruct (etp_abort_receive_eq p i s Hp Hi) as (p' & -> & _ & Hperm).
  apply (etp_tracks_perm _ _ s); [done|constructor].
Qed.

Lemma etp_handle_dpo_tracks p : etp_wf p -> etp_tracks p (etp_handle_dpo p f port).
Proof.
  intros Hp. unfold etp_handle_dpo.
  destruct (position _ _) as [i|] eqn:Hi; [|by apply etp_tracks_same].
  apply position_Some in Hi as (s & Hls & _). rewrite Hls. cbn [mbind option_bind].
  destruct (packet_window_valid _ _ _) as [v|]; cbn [mbind option_bind]; [|done].
  case_match; [by apply etp_abort_receive_tracks|]. by apply (etp_tracks_update _ i s).
Qed.

Lemma etp_handle_eoma_tracks p : etp_wf p -> etp_tracks p (etp_handle_eoma p f port).
Proof.
  intros Hp. unfold etp_handle_eoma.
  destruct (position _ _) as [i|] eqn:Hi; [|by apply etp_tracks_same].
  apply position_Some in Hi as (s & Hls & _). rewrite Hls. cbn [mbind option_bind].
  pose proof (etp_wf_lookup p i s Hp Hls) as Hw.
  destruct (_ || _); [by apply etp_tracks_same|].
  destruct (etp_wf_overwrite_remove p i s s Hp Hls) as (p' & E & _ & Hperm & _).
  rewrite etp_update_self in E by done. rewrite E. cbn.
  apply (etp_tracks_perm _ _ s); [done|]. repeat constructor. apply Hw.
Qed.

Lemma etp_handle_abort_tracks p : etp_wf p -> etp_tracks p (etp_handle_abort p f port).
Proof.
  intros Hp. unfold etp_handle_abort.
  destruct (position _ _) as [i|] eqn:Hi; [|by apply etp_tracks_same].
  apply position_Some in Hi as (s & Hls & _). rewrite Hls. cbn [mbind option_bind].
  destruct (etp_wf_overwrite_remove p i s (with_state SessionState.Aborted s) Hp Hls)
    as (p' & -> & _ & Hperm & _).
  apply (etp_tracks_perm _ _ s); [done|constructor].
Qed.

Lemma etp_handle_dt_tracks p :
  etp_wf p -> FrameOps.wf f -> etp_tracks p (etp_handle_dt p f port).
Proof.
  intros Hp Hf. unfold etp_handle_dt.
  destruct (position _ _) as [i|] eqn:Hi; [|by apply etp_tracks_same].
  apply position_Some in Hi as (s & Hls & Hm & _). rewrite Hls. cbn [mbind option_bind].
  unfold etp_dt_matches in Hm. reflect_bools.
  pose proof (etp_wf_lookup p i s Hp Hls) as Hw.
  case_bool; [by apply etp_abort_receive_tracks|].
  destruct (checked_add 8 (s_last_sequence s) 1) as [e|] eqn:Ee; cbn [mbind option_bind]; [|done].
  unfold checked_add in Ee. case_match; simplify_eq.
  destruct (Z.eqb_spec (FrameOps.byte f 0) (s_last_sequence s + 1)); cbn [negb];
    [|by apply etp_abort_receive_tracks].
  rewrite etp_dt_ingest_eq by done. cbn zeta. case_match.
  - destruct (etp_wf_overwrite_remove p i s
      (with_state SessionState.Complete (etp_ingested f s)) Hp Hls) as (p' & -> & _ & Hperm & _).
    apply (etp_tracks_perm _ _ s); [done|]. repeat constructor.
    cbn. apply bytes_scatter7; [apply Hw|apply Hf].
  - case_match; by apply (etp_tracks_update _ i s).
Qed.

Lemma etp_process_tracks p :
  etp_wf p -> FrameOps.wf f -> etp_tracks p (etp_process_frame p f port).
Proof.
  intros Hp Hf. unfold etp_process_frame, etp_handle_cm.
  repeat match goal with |- context [if ?b then _ else _] => destruct b end;
    first [by apply etp_tracks_same|by apply etp_handle_rts_tracks
      |by apply etp_handle_cts_tracks|by apply etp_handle_dpo_tracks
      |by apply etp_handle_eoma_tracks|by apply etp_handle_abort_tracks
      |by apply etp_handle_dt_tracks
      |split; [apply continues_weaken, continues_refl|constructor]].
Qed.
End etp_instance.

Lemma etp_completed_bind e l : etp_completed (l ≫= etp_tick_events e) = [].
Proof.
  induction l as [|s l IH]; cbn; [done|]. unfold etp_completed in *. rewrite omap_app, IH.
  unfold etp_tick_events, etp_tick. cbn zeta. by destruct (etp_timed_out _).
Qed.

Lemma etp_send_pushes p pgn data src dst port prio p' frames :
  etp_send p pgn data src dst port prio = (p', Ok frames) ->
  etp_sessions p' = etp_sessions p ++ [etp_tx_session pgn data src dst port prio].
Proof. unfold etp_send. intros E. by repeat case_match; simplify_eq. Qed.

#[global] Instance etp_laws `{Allocator} : TransportLaws ExtendedTransportProtocol.
Proof.
  split; cbn.
  - intros p pgn data src dst port prio Hp ? ? ? ? ?.
    pose proof (etp_send_cases p pgn data src dst port prio) as Hc.
    pose proof (etp_send_pushes p pgn data src dst port prio) as He.
    destruct (etp_send p pgn data src dst port prio) as [p' r].
    destruct r as [frames|err]; destruct Hc as (Hw & Hs); try done; (split; [done|]).
    + destruct Hs as (s & _ & _ & _ & _ & _ & _ & _ & _ & Hf & _).
      split; [done|]. eexists. by split; [apply (He p' frames)|].
    + apply Hs.
  - intros p f port Hp Hf.
    destruct (etp_process_frame_safe_aux p f port Hp Hf)
      as (p' & frames & evs & E & Hp' & Hfr & _).
    pose proof (etp_process_tracks f port p Hp Hf) as Ht. rewrite E in *. destruct Ht.
    cbn. by eexists _, _, _.
  - intros p e Hp [He _].
    destruct (etp_update_spec_aux p e Hp He) as (p' & frames & evs & -> & Hp' & Hfr & Hs & _ & Hev & _).
    cbn. eexists _, _, _. split_and!; try done.
    + unfold etp_completed. rewrite Hev.
      pose proof (etp_completed_bind e (etp_sessions p)) as Hc. unfold etp_completed in Hc.
      rewrite Hc. constructor.
    + eapply continues_omap; [|done]. intros s s' Hin Hk.
      eapply (etp_kept_wf e s s'); [done| |done].
      by eapply (proj1 (Forall_forall _ _) (ew_sessions p Hp)).
  - intros p Hp. unfold etp_get_pending_data_frames.
    destruct (etp_get_pending_safe p Hp) as (p' & frames & E & Hp' & Hf & _).
    unfold etp_get_pending_data_frames in E.
    destruct (etp_drain_sessions_wf (etp_sessions p) (ew_sessions p Hp))
      as (l' & fr & Hd & _ & Hpath & _). rewrite Hd in *. cbn in *. simplify_eq.
    eexists _, _. split_and!; try done. by apply (continues_fmap etp_session_path).
  - intros p port a Hp. split_and!; [done| |].
    + destruct (etp_apply_wf p (EtpAbortFor port a) Hp I) as (p' & fr & evs & E & Hw & _).
      cbn in E. by simplify_eq.
    + intros s. cbn. rewrite list_elem_of_filter. split; intros [H1 H2]; split; try done; lia.
Qed.
