(* ===== verification/Network.v ===== *)
(** The network manager: the model of [src/net/network_manager/iso_network_manager.rs].

    [IsoNet] owns the control functions and their claimers, the three transport
    engines, the queue of transfers waiting for a busy path, and the frame input and output:
    either CAN endpoints per port or, in the sans-IO mode, the [outbound] buffer.

    Every method is a computation of the monad [M]: it threads the state and may
    stop with a [Fault], either a panic inside an engine or one of the two 64-bit frame
    counters overflowing ([frames_sent += 1]).  The callbacks and [Event]s fired are
    appended, oldest first, to the ghost field [net_trace].  A registered PGN callback is a
    closure; the model keeps an identifier and records each call. *)
From stdpp Require Import gmap.
From S2P Require Export Transport FastPacketProofs AddressClaim BusLoad Requests.
#[local] Open Scope Z_scope.

Definition PGN_COMMANDED_ADDRESS : Pgn := 0xFED8.

Record NetworkConfig : Type := mkConfig {
  num_ports : Z;
  address_claim_timeout_ms : Z;
  enable_bus_load : bool;
  enable_fast_packet : bool
}.

Definition NetworkConfig_default : NetworkConfig :=
  mkConfig 1 ADDRESS_CLAIM_TIMEOUT_MS true false.
Definition config_ports (v : Z) (c : NetworkConfig) : NetworkConfig :=
  mkConfig v (address_claim_timeout_ms c) (enable_bus_load c) (enable_fast_packet c).
Definition claim_timeout (ms : Z) (c : NetworkConfig) : NetworkConfig :=
  mkConfig (num_ports c) ms (enable_bus_load c) (enable_fast_packet c).
Definition config_bus_load (b : bool) (c : NetworkConfig) : NetworkConfig :=
  mkConfig (num_ports c) (address_claim_timeout_ms c) b (enable_fast_packet c).
Definition config_fast_packet (b : bool) (c : NetworkConfig) : NetworkConfig :=
  mkConfig (num_ports c) (address_claim_timeout_ms c) (enable_bus_load c) b.

Definition MAX_PENDING_TRANSPORT_TX : nat := 32.
Definition ADDRESS_VIOLATION_RESPONSE_INTERVAL_MS : Z := 1000.

Inductive PendingTransportKind : Type := KindTp | KindEtp.

Record PendingTransportTx : Type := mkPending {
  px_kind : PendingTransportKind;
  px_pgn : Pgn;
  px_data : list Z;
  px_source : Address;
  px_destination : Address;
  px_port : Z;
  px_priority : Priority.t
}.

(** What the manager's callbacks and events observe. *)
Inductive NetEvent : Type :=
| NetMessage (m : Message)
| NetCallback (pgn : Pgn) (id : nat) (m : Message)
| NetAddressViolation (a : Address)
| NetDuplicateName (name : Name.t) (a : Address)
| NetClaim (name : Name.t) (ev : ClaimEvent)
| NetPartner (idx : nat) (ev : PartnerEvent).

(** [CanEndpoint] comes from the driver crate.  [ep_recv] is [recv_can], [None] standing for
    every error; reading a frame removes it from the endpoint's receive queue, so the
    number of frames waiting goes down, and the frame is a value of its Rust type. *)
Class CanEndpoint (E : Type) : Type := {
  ep_send : E -> CanFrame.t -> E * Result unit string;
  ep_recv : E -> E * option CanFrame.t;
  ep_waiting : E -> nat;
  ep_recv_waiting e e' cf : ep_recv e = (e', Some cf) -> (ep_waiting e' < ep_waiting e)%nat;
  ep_recv_typed e e' cf : ep_recv e = (e', Some cf) ->
    length (CanFrame.data cf) = 8%nat /\ bytes (CanFrame.data cf) /\ 0 <= CanFrame.can_dlc cf
}.

(** The in-tree endpoint of [can_adapter.rs] for builds without the driver. *)
#[global, refine] Instance shim_endpoint : CanEndpoint unit := {
  ep_send e _ := (e, Ok tt);
  ep_recv e := (e, None);
  ep_waiting _ := 0%nat
}.
Proof. all: done. Defined.

Section network.
Context {E : Type} `{!CanEndpoint E} `{!Allocator}.

Record IsoNet : Type := mkNet {
  net_config : NetworkConfig;
  net_frames_sent : Z;
  net_frames_received : Z;
  internal_cfs : list InternalCf;
  recent_violations : list (Z * Address * Z);
  partner_cfs : list PartnerCf;
  claimers : list AddressClaimer;
  endpoints : gmap Z E;
  bus_loads : gmap Z BusLoad;
  net_tp : TransportProtocol;
  net_etp : ExtendedTransportProtocol;
  net_fast_packet : FastPacketProtocol;
  pgn_callbacks : gmap Z (list nat);
  fast_packet_pgns : list Pgn;
  pending_transport_tx : list PendingTransportTx;
  tp_completions : list TransportSession;
  etp_completions : list TransportSession;
  outbound : list (Z * Frame);
  capture_outbound : bool;
  captured_messages : list Message;
  capture_messages : bool;
  net_trace : list NetEvent
}.

(** Field updates. *)
Definition set_frames_sent (v : Z) (n : IsoNet) : IsoNet :=
  mkNet (net_config n) v (net_frames_received n) (internal_cfs n)
    (recent_violations n) (partner_cfs n) (claimers n) (endpoints n) (bus_loads n)
    (net_tp n) (net_etp n) (net_fast_packet n) (pgn_callbacks n) (fast_packet_pgns n)
    (pending_transport_tx n) (tp_completions n) (etp_completions n) (outbound n)
    (capture_outbound n) (captured_messages n) (capture_messages n) (net_trace n).
Definition set_frames_received (v : Z) (n : IsoNet) : IsoNet :=
  mkNet (net_config n) (net_frames_sent n) v (internal_cfs n) (recent_violations n)
    (partner_cfs n) (claimers n) (endpoints n) (bus_loads n) (net_tp n) (net_etp n)
    (net_fast_packet n) (pgn_callbacks n) (fast_packet_pgns n)
    (pending_transport_tx n) (tp_completions n) (etp_completions n) (outbound n)
    (capture_outbound n) (captured_messages n) (capture_messages n) (net_trace n).
Definition set_internal_cfs (v : list InternalCf) (n : IsoNet) : IsoNet :=
  mkNet (net_config n) (net_frames_sent n) (net_frames_received n) v
    (recent_violations n) (partner_cfs n) (claimers n) (endpoints n) (bus_loads n)
    (net_tp n) (net_etp n) (net_fast_packet n) (pgn_callbacks n) (fast_packet_pgns n)
    (pending_transport_tx n) (tp_completions n) (etp_completions n) (outbound n)
    (capture_outbound n) (captured_messages n) (capture_messages n) (net_trace n).
Definition set_recent_violations (v : list (Z * Address * Z)) (n : IsoNet) : IsoNet :=
  mkNet (net_config n) (net_frames_sent n) (net_frames_received n) (internal_cfs n) v
    (partner_cfs n) (claimers n) (endpoints n) (bus_loads n) (net_tp n) (net_etp n)
    (net_fast_packet n) (pgn_callbacks n) (fast_packet_pgns n)
    (pending_transport_tx n) (tp_completions n) (etp_completions n) (outbound n)
    (capture_outbound n) (captured_messages n) (capture_messages n) (net_trace n).
Definition set_partner_cfs (v : list PartnerCf) (n : IsoNet) : IsoNet :=
  mkNet (net_config n) (net_frames_sent n) (net_frames_received n) (internal_cfs n)
    (recent_violations n) v (claimers n) (endpoints n) (bus_loads n) (net_tp n)
    (net_etp n) (net_fast_packet n) (pgn_callbacks n) (fast_packet_pgns n)
    (pending_transport_tx n) (tp_completions n) (etp_completions n) (outbound n)
    (capture_outbound n) (captured_messages n) (capture_messages n) (net_trace n).
Definition set_claimers (v : list AddressClaimer) (n : IsoNet) : IsoNet :=
  mkNet (net_config n) (net_frames_sent n) (net_frames_received n) (internal_cfs n)
    (recent_violations n) (partner_cfs n) v (endpoints n) (bus_loads n) (net_tp n)
    (net_etp n) (net_fast_packet n) (pgn_callbacks n) (fast_packet_pgns n)
    (pending_transport_tx n) (tp_completions n) (etp_completions n) (outbound n)
    (capture_outbound n) (captured_messages n) (capture_messages n) (net_trace n).
Definition set_endpoints (v : gmap Z E) (n : IsoNet) : IsoNet :=
  mkNet (net_config n) (net_frames_sent n) (net_frames_received n) (internal_cfs n)
    (recent_violations n) (partner_cfs n) (claimers n) v (bus_loads n) (net_tp n)
    (net_etp n) (net_fast_packet n) (pgn_callbacks n) (fast_packet_pgns n)
    (pending_transport_tx n) (tp_completions n) (etp_completions n) (outbound n)
    (capture_outbound n) (captured_messages n) (capture_messages n) (net_trace n).
Definition set_bus_loads (v : gmap Z BusLoad) (n : IsoNet) : IsoNet :=
  mkNet (net_config n) (net_frames_sent n) (net_frames_received n) (internal_cfs n)
    (recent_violations n) (partner_cfs n) (claimers n) (endpoints n) v (net_tp n)
    (net_etp n) (net_fast_packet n) (pgn_callbacks n) (fast_packet_pgns n)
    (pending_transport_tx n) (tp_completions n) (etp_completions n) (outbound n)
    (capture_outbound n) (captured_messages n) (capture_messages n) (net_trace n).
Definition set_tp (v : TransportProtocol) (n : IsoNet) : IsoNet :=
  mkNet (net_config n) (net_frames_sent n) (net_frames_received n) (internal_cfs n)
    (recent_violations n) (partner_cfs n) (claimers n) (endpoints n) (bus_loads n) v
    (net_etp n) (net_fast_packet n) (pgn_callbacks n) (fast_packet_pgns n)
    (pending_transport_tx n) (tp_completions n) (etp_completions n) (outbound n)
    (capture_outbound n) (captured_messages n) (capture_messages n) (net_trace n).
Definition set_etp (v : ExtendedTransportProtocol) (n : IsoNet) : IsoNet :=
  mkNet (net_config n) (net_frames_sent n) (net_frames_received n) (internal_cfs n)
    (recent_violations n) (partner_cfs n) (claimers n) (endpoints n) (bus_loads n)
    (net_tp n) v (net_fast_packet n) (pgn_callbacks n) (fast_packet_pgns n)
    (pending_transport_tx n) (tp_completions n) (etp_completions n) (outbound n)
    (capture_outbound n) (captured_messages n) (capture_messages n) (net_trace n).
Definition set_fast_packet (v : FastPacketProtocol) (n : IsoNet) : IsoNet :=
  mkNet (net_config n) (net_frames_sent n) (net_frames_received n) (internal_cfs n)
    (recent_violations n) (partner_cfs n) (claimers n) (endpoints n) (bus_loads n)
    (net_tp n) (net_etp n) v (pgn_callbacks n) (fast_packet_pgns n)
    (pending_transport_tx n) (tp_completions n) (etp_completions n) (outbound n)
    (capture_outbound n) (captured_messages n) (capture_messages n) (net_trace n).
Definition set_pgn_callbacks (v : gmap Z (list nat)) (n : IsoNet) : IsoNet :=
  mkNet (net_config n) (net_frames_sent n) (net_frames_received n) (internal_cfs n)
    (recent_violations n) (partner_cfs n) (claimers n) (endpoints n) (bus_loads n)
    (net_tp n) (net_etp n) (net_fast_packet n) v (fast_packet_pgns n)
    (pending_transport_tx n) (tp_completions n) (etp_completions n) (outbound n)
    (capture_outbound n) (captured_messages n) (capture_messages n) (net_trace n).
Definition set_fast_packet_pgns (v : list Pgn) (n : IsoNet) : IsoNet :=
  mkNet (net_config n) (net_frames_sent n) (net_frames_received n) (internal_cfs n)
    (recent_violations n) (partner_cfs n) (claimers n) (endpoints n) (bus_loads n)
    (net_tp n) (net_etp n) (net_fast_packet n) (pgn_callbacks n) v
    (pending_transport_tx n) (tp_completions n) (etp_completions n) (outbound n)
    (capture_outbound n) (captured_messages n) (capture_messages n) (net_trace n).
Definition set_pending_transport_tx (v : list PendingTransportTx) (n : IsoNet) : IsoNet :=
  mkNet (net_config n) (net_frames_sent n) (net_frames_received n) (internal_cfs n)
    (recent_violations n) (partner_cfs n) (claimers n) (endpoints n) (bus_loads n)
    (net_tp n) (net_etp n) (net_fast_packet n) (pgn_callbacks n) (fast_packet_pgns n)
    v (tp_completions n) (etp_completions n) (outbound n) (capture_outbound n)
    (captured_messages n) (capture_messages n) (net_trace n).
Definition set_tp_completions (v : list TransportSession) (n : IsoNet) : IsoNet :=
  mkNet (net_config n) (net_frames_sent n) (net_frames_received n) (internal_cfs n)
    (recent_violations n) (partner_cfs n) (claimers n) (endpoints n) (bus_loads n)
    (net_tp n) (net_etp n) (net_fast_packet n) (pgn_callbacks n) (fast_packet_pgns n)
    (pending_transport_tx n) v (etp_completions n) (outbound n) (capture_outbound n)
    (captured_messages n) (capture_messages n) (net_trace n).
Definition set_etp_completions (v : list TransportSession) (n : IsoNet) : IsoNet :=
  mkNet (net_config n) (net_frames_sent n) (net_frames_received n) (internal_cfs n)
    (recent_violations n) (partner_cfs n) (claimers n) (endpoints n) (bus_loads n)
    (net_tp n) (net_etp n) (net_fast_packet n) (pgn_callbacks n) (fast_packet_pgns n)
    (pending_transport_tx n) (tp_completions n) v (outbound n) (capture_outbound n)
    (captured_messages n) (capture_messages n) (net_trace n).
Definition set_outbound (v : list (Z * Frame)) (n : IsoNet) : IsoNet :=
  mkNet (net_config n) (net_frames_sent n) (net_frames_received n) (internal_cfs n)
    (recent_violations n) (partner_cfs n) (claimers n) (endpoints n) (bus_loads n)
    (net_tp n) (net_etp n) (net_fast_packet n) (pgn_callbacks n) (fast_packet_pgns n)
    (pending_transport_tx n) (tp_completions n) (etp_completions n) v
    (capture_outbound n) (captured_messages n) (capture_messages n) (net_trace n).
Definition set_capture_outbound (v : bool) (n : IsoNet) : IsoNet :=
  mkNet (net_config n) (net_frames_sent n) (net_frames_received n) (internal_cfs n)
    (recent_violations n) (partner_cfs n) (claimers n) (endpoints n) (bus_loads n)
    (net_tp n) (net_etp n) (net_fast_packet n) (pgn_callbacks n) (fast_packet_pgns n)
    (pending_transport_tx n) (tp_completions n) (etp_completions n) (outbound n) v
    (captured_messages n) (capture_messages n) (net_trace n).
Definition set_captured_messages (v : list Message) (n : IsoNet) : IsoNet :=
  mkNet (net_config n) (net_frames_sent n) (net_frames_received n) (internal_cfs n)
    (recent_violations n) (partner_cfs n) (claimers n) (endpoints n) (bus_loads n)
    (net_tp n) (net_etp n) (net_fast_packet n) (pgn_callbacks n) (fast_packet_pgns n)
    (pending_transport_tx n) (tp_completions n) (etp_completions n) (outbound n)
    (capture_outbound n) v (capture_messages n) (net_trace n).
Definition set_capture_messages (v : bool) (n : IsoNet) : IsoNet :=
  mkNet (net_config n) (net_frames_sent n) (net_frames_received n) (internal_cfs n)
    (recent_violations n) (partner_cfs n) (claimers n) (endpoints n) (bus_loads n)
    (net_tp n) (net_etp n) (net_fast_packet n) (pgn_callbacks n) (fast_packet_pgns n)
    (pending_transport_tx n) (tp_completions n) (etp_completions n) (outbound n)
    (capture_outbound n) (captured_messages n) v (net_trace n).
Definition set_trace (v : list NetEvent) (n : IsoNet) : IsoNet :=
  mkNet (net_config n) (net_frames_sent n) (net_frames_received n) (internal_cfs n)
    (recent_violations n) (partner_cfs n) (claimers n) (endpoints n) (bus_loads n)
    (net_tp n) (net_etp n) (net_fast_packet n) (pgn_callbacks n) (fast_packet_pgns n)
    (pending_transport_tx n) (tp_completions n) (etp_completions n) (outbound n)
    (capture_outbound n) (captured_messages n) (capture_messages n) v.

(** ** The monad *)

(** Why a call does not return: a panic in an engine, or a frame counter at its
    maximum, with the state in which it was reached. *)
Inductive Fault : Type := EnginePanic | CounterExhausted (n : IsoNet).

Definition M (A : Type) : Type := IsoNet -> Result (A * IsoNet) Fault.

#[global] Instance net_ret : MRet M := fun A a n => Ok (a, n).
#[global] Instance net_bind : MBind M := fun A B k m n =>
  match m n with Ok (a, n) => k a n | Err e => Err e end.

Definition get_net : M IsoNet := fun n => Ok (n, n).
Definition gets {A} (f : IsoNet -> A) : M A := fun n => Ok (f n, n).
Definition modify (f : IsoNet -> IsoNet) : M unit := fun n => Ok (tt, f n).
Definition lift_option {A} (o : option A) : M A := fun n =>
  match o with Some a => Ok (a, n) | None => Err EnginePanic end.
Definition emit (evs : list NetEvent) : M unit :=
  modify (fun n => set_trace (net_trace n ++ evs) n).

(** [for x in l { f(x) }]. *)
Fixpoint for_each {A} (f : A -> M unit) (l : list A) : M unit :=
  match l with [] => mret tt | x :: l => _ ← f x; for_each f l end.

(** [self.stats.frames_sent += 1] and [self.stats.frames_received += 1]. *)
Definition count_sent : M unit := fun n =>
  match checked_add 64 (net_frames_sent n) 1 with
  | Some k => Ok (tt, set_frames_sent k n)
  | None => Err (CounterExhausted n)
  end.
Definition count_received : M unit := fun n =>
  match checked_add 64 (net_frames_received n) 1 with
  | Some k => Ok (tt, set_frames_received k n)
  | None => Err (CounterExhausted n)
  end.

(** ** Construction *)

Definition IsoNet_new (config : NetworkConfig) : IsoNet :=
  mkNet config 0 0 [] [] [] [] ∅
    (if enable_bus_load config
     then list_to_map ((fun i => (i, BusLoad_new)) <$> seqZ 0 (num_ports config)) else ∅)
    tp_new etp_new fp_new ∅ [] [] [] [] [] false [] false [].

(** [create_internal]; the handle is the index of the new control function. *)
Definition create_internal (name : Name.t) (port : Z) (preferred : Address)
    : M (Result nat Error.t) :=
  n ← get_net;
  if existsb (fun cf => Name.eqb (icf_name cf) name) (internal_cfs n) then
    mret (Err (Error.with_message ErrorCode.AddressConflict
                 ("duplicate internal NAME 0x" +:+ format_hex 16 (Name.raw name))))
  else
    claimer ← lift_option (with_timeout (address_claim_timeout_ms (net_config n))
                             (rtxd_for_name name));
    _ ← modify (fun n => set_claimers (claimers n ++ [claimer])
                 (set_internal_cfs (internal_cfs n ++ [InternalCf_new name port preferred]) n));
    mret (Ok (length (internal_cfs n))).

Definition create_partner (port : Z) (filters : list NameFilter) : M (Result nat Error.t) :=
  n ← get_net;
  _ ← modify (set_partner_cfs (partner_cfs n ++ [PartnerCf_new port filters]));
  mret (Ok (length (partner_cfs n))).

Definition set_endpoint (port : Z) (ep : E) : M unit :=
  modify (fun n =>
    let n := set_endpoints (<[port:=ep]> (endpoints n)) n in
    if enable_bus_load (net_config n)
    then set_bus_loads (<[port:=default BusLoad_new (bus_loads n !! port)]> (bus_loads n)) n
    else n).

(** [ports]: the keys of the [BTreeMap], ascending. *)
Definition ports (n : IsoNet) : list Z :=
  filter (fun p => is_Some (endpoints n !! p)) (seqZ 0 256).

Definition register_pgn_callback (pgn : Pgn) (id : nat) : M (Result unit Error.t) :=
  if negb (pgn_is_valid pgn) then mret (Err (Error.invalid_pgn pgn))
  else
    _ ← modify (fun n => set_pgn_callbacks
                 (<[pgn:=default [] (pgn_callbacks n !! pgn) ++ [id]]> (pgn_callbacks n)) n);
    mret (Ok tt).

Definition register_fast_packet_pgn (pgn : Pgn) : M (Result unit Error.t) :=
  if negb (pgn_is_valid pgn) then mret (Err (Error.invalid_pgn pgn))
  else
    _ ← modify (fun n =>
          if existsb (Z.eqb pgn) (fast_packet_pgns n) then n
          else set_fast_packet_pgns (fast_packet_pgns n ++ [pgn]) n);
    mret (Ok tt).

Definition set_capture_outbound_mode (enabled : bool) : M unit :=
  modify (set_capture_outbound enabled).

Definition take_outbound : M (option (Z * Frame)) :=
  n ← get_net;
  match outbound n with
  | [] => mret None
  | x :: l => _ ← modify (set_outbound l); mret (Some x)
  end.

Definition set_capture_messages_mode (enabled : bool) : M unit :=
  modify (fun n =>
    let n := set_capture_messages enabled n in
    if negb enabled then set_captured_messages [] n else n).

Definition take_message : M (option Message) :=
  n ← get_net;
  match captured_messages n with
  | [] => mret None
  | x :: l => _ ← modify (set_captured_messages l); mret (Some x)
  end.

(** ** Sending *)

(** [if self.config.enable_bus_load && let Some(bl) = self.bus_loads.get_mut(&port)]. *)
Definition bus_load_add (port len : Z) (n : IsoNet) : IsoNet :=
  if enable_bus_load (net_config n) then
    match bus_loads n !! port with
    | Some bl => set_bus_loads (<[port:=bl_add_frame len bl]> (bus_loads n)) n
    | None => n
    end
  else n.

Definition send_frame (frame : Frame) (port : Z) : M (Result unit Error.t) :=
  n ← get_net;
  if capture_outbound n then
    _ ← modify (set_outbound (outbound n ++ [(port, frame)]));
    _ ← count_sent;
    _ ← modify (bus_load_add port (f_length frame));
    mret (Ok tt)
  else
    match endpoints n !! port with
    | None => mret (Err Error.not_connected)
    | Some ep =>
        let '(ep, r) := ep_send ep (FrameOps.to_can_frame frame) in
        _ ← modify (set_endpoints (<[port:=ep]> (endpoints n)));
        match r with
        | Err e => mret (Err (Error.with_message ErrorCode.DriverError e))
        | Ok _ =>
            _ ← count_sent;
            _ ← modify (bus_load_add port (f_length frame));
            mret (Ok tt)
        end
    end.

(** [let _ = self.send_frame(f, port)]. *)
Definition send_frame_ignored (port : Z) (f : Frame) : M unit :=
  _ ← send_frame f port; mret tt.

(** [send_frames]: stops at the first error. *)
Fixpoint send_frames (frames : list Frame) (port : Z) : M (Result unit Error.t) :=
  match frames with
  | [] => mret (Ok tt)
  | f :: frames =>
      r ← send_frame f port;
      match r with Ok _ => send_frames frames port | Err e => mret (Err e) end
  end.

Definition send_frames_best_effort (frames : list Frame) (port : Z) : M unit :=
  for_each (send_frame_ignored port) frames.

Definition send_single_frame (pgn : Pgn) (data : list Z) (src dst : Address)
    (priority : Priority.t) (port : Z) : M (Result unit Error.t) :=
  let k := Nat.min (length data) 8 in
  send_frame (FrameOps.new8 (Identifier.encode priority pgn src dst)
                (take k data ++ replicate (8 - k) 0xFF)) port.

Definition queue_transport_tx (tx : PendingTransportTx) : M (Result unit Error.t) :=
  n ← get_net;
  if negb (length (pending_transport_tx n) <? MAX_PENDING_TRANSPORT_TX)%nat then
    mret (Err (Error.with_message ErrorCode.NoResources
                 "pending transport transmit queue full"))
  else
    _ ← modify (set_pending_transport_tx (pending_transport_tx n ++ [tx]));
    mret (Ok tt).

Definition is_fast_packet_pgn (n : IsoNet) (pgn : Pgn) : bool :=
  enable_fast_packet (net_config n) && existsb (Z.eqb pgn) (fast_packet_pgns n).

(** The calls into the two session engines, with [kind] selecting the engine. *)
Definition engine_send (kind : PendingTransportKind) (pgn : Pgn) (data : list Z)
    (src dst : Address) (port : Z) (priority : Priority.t) : M (Result (list Frame) Error.t) :=
  n ← get_net;
  match kind with
  | KindTp =>
      let '(t, r) := te_send (net_tp n) pgn data src dst port priority in
      _ ← modify (set_tp t); mret r
  | KindEtp =>
      let '(t, r) := te_send (net_etp n) pgn data src dst port priority in
      _ ← modify (set_etp t); mret r
  end.

(** The two [match self.tp.send(..)] / [match self.etp.send(..)] blocks of [send]: start
    the transfer now, or queue it when the path is busy. *)
Definition send_or_queue (kind : PendingTransportKind) (pgn : Pgn) (data : list Z)
    (src dst : Address) (port : Z) (priority : Priority.t) : M (Result unit Error.t) :=
  r ← engine_send kind pgn data src dst port priority;
  match r with
  | Ok frames => send_frames frames port
  | Err e =>
      if bool_decide (Error.code e = ErrorCode.SessionExists)
      then queue_transport_tx (mkPending kind pgn data src dst port priority)
      else mret (Err e)
  end.

(** [IsoNet::send]. *)
Definition net_send (pgn : Pgn) (data : list Z) (src : nat) (dst : Address)
    (priority : Priority.t) : M (Result unit Error.t) :=
  if negb (pgn_is_valid pgn) then mret (Err (Error.invalid_pgn pgn))
  else
    n ← get_net;
    match internal_cfs n !! src with
    | None => mret (Err Error.not_connected)
    | Some icf =>
        if negb (bool_decide (claim_state icf = ClaimState.Claimed))
           || negb (is_online (icf_cf icf)) then
          mret (Err (Error.invalid_state "control function has not claimed an address"))
        else if negb (address_valid (icf_cf icf)) then mret (Err Error.not_connected)
        else
          let src_addr := icf_address icf in
          let port := cf_can_port (icf_cf icf) in
          let len := wrap 32 (Z.of_nat (length data)) in
          if len <=? CAN_DATA_LENGTH then
            send_single_frame pgn data src_addr dst priority port
          else if is_fast_packet_pgn n pgn && (len <=? FAST_PACKET_MAX_DATA) then
            '(fp, r) ← lift_option (send_to (net_fast_packet n) pgn data src_addr dst priority);
            _ ← modify (set_fast_packet fp);
            match r with Ok frames => send_frames frames port | Err e => mret (Err e) end
          else if len <=? TP_MAX_DATA_LENGTH then
            send_or_queue KindTp pgn data src_addr dst port priority
          else if dst =? BROADCAST_ADDRESS then
            mret (Err (Error.invalid_state "ETP does not support broadcast"))
          else send_or_queue KindEtp pgn data src_addr dst port priority
    end.

Definition try_start_pending_transport_tx (tx : PendingTransportTx)
    : M (Result unit Error.t) :=
  r ← engine_send (px_kind tx) (px_pgn tx) (px_data tx) (px_source tx) (px_destination tx)
        (px_port tx) (px_priority tx);
  match r with Ok frames => send_frames frames (px_port tx) | Err e => mret (Err e) end.

(** One turn of the loop of [start_ready_pending_transport]. *)
Definition start_one_pending : M unit :=
  n ← get_net;
  match pending_transport_tx n with
  | [] => mret tt
  | tx :: rest =>
      _ ← modify (set_pending_transport_tx rest);
      r ← try_start_pending_transport_tx tx;
      match r with
      | Ok _ => mret tt
      | Err e =>
          if bool_decide (Error.code e = ErrorCode.SessionExists
                          \/ Error.code e = ErrorCode.NoResources)
          then modify (fun n => set_pending_transport_tx (pending_transport_tx n ++ [tx]) n)
          else mret tt
      end
  end.

Definition start_ready_pending_transport : M unit :=
  n ← get_net;
  for_each (fun _ => start_one_pending) (replicate (length (pending_transport_tx n)) tt).

(** ** Control functions *)

(** What one turn of a loop over [internal_cfs.iter_mut().zip(claimers.iter_mut())]
    produces: frames, events, addresses given up, and a flag. *)
Record CfOut : Type := mkOut {
  o_frames : list (Z * Frame);
  o_events : list NetEvent;
  o_surrendered : list (Z * Address);
  o_flag : bool
}.

Definition no_out : CfOut := mkOut [] [] [] false.

Fixpoint each_cf (step : InternalCf -> AddressClaimer -> InternalCf * AddressClaimer * CfOut)
    (cfs : list InternalCf) (cls : list AddressClaimer)
    : list InternalCf * list AddressClaimer * list CfOut :=
  match cfs, cls with
  | cf :: cfs, c :: cls =>
      let '(cf, c, o) := step cf c in
      let '(cfs, cls, os) := each_cf step cfs cls in
      (cf :: cfs, c :: cls, o :: os)
  | cfs, cls => (cfs, cls, [])
  end.

(** Run the loop, record its events, and return its outputs in order. *)
Definition run_cfs (step : InternalCf -> AddressClaimer -> InternalCf * AddressClaimer * CfOut)
    : M (list CfOut) := fun n =>
  let '(cfs, cls, os) := each_cf step (internal_cfs n) (claimers n) in
  Ok (os, set_trace (net_trace n ++ (os ≫= o_events))
            (set_claimers cls (set_internal_cfs cfs n))).

(** A claimer call as a loop body: its frames on the control function's port. *)
Definition claim_step (r : claim_result) : InternalCf * AddressClaimer * CfOut :=
  let '(c, cf, frames, evs) := r in
  (cf, c, mkOut (pair (cf_can_port (icf_cf cf)) <$> frames)
            (NetClaim (icf_name cf) <$> evs) [] false).

Definition send_all (l : list (Z * Frame)) : M unit :=
  for_each (fun '(port, f) => send_frame_ignored port f) l.

Definition start_address_claiming : M (Result unit Error.t) :=
  n ← get_net;
  match claimers n with
  | [] => mret (Err (Error.invalid_state "no control functions registered"))
  | _ =>
      os ← run_cfs (fun cf c => claim_step (claimer_start c cf));
      _ ← send_all (os ≫= o_frames);
      mret (Ok tt)
  end.

Definition send_address_claim_responses : M (Result unit Error.t) :=
  n ← get_net;
  match claimers n with
  | [] => mret (Err (Error.invalid_state "no control functions registered"))
  | _ =>
      os ← run_cfs (fun cf c => claim_step (handle_request_for_claim c cf));
      _ ← send_all (os ≫= o_frames);
      mret (Ok tt)
  end.

(** [discontinue_address]: the engines return no abort frames. *)
Definition discontinue_address (port : Z) (address : Address) : M (list Frame) :=
  if (address =? NULL_ADDRESS) || (address =? BROADCAST_ADDRESS) then mret []
  else fun n =>
    let '(tp, f1) := te_abort_for (net_tp n) port address in
    let '(etp, f2) := te_abort_for (net_etp n) port address in
    Ok (f1 ++ f2,
        set_pending_transport_tx
          (filter (fun tx => px_port tx <> port \/ px_source tx <> address)
             (pending_transport_tx n))
          (set_etp etp (set_tp tp n))).

(** [for address in surrendered { emitted.extend(self.discontinue_address(port, address)) }]. *)
Fixpoint discontinue_all (port : Z) (l : list Address) : M (list Frame) :=
  match l with
  | [] => mret []
  | a :: l =>
      f1 ← discontinue_address port a;
      f2 ← discontinue_all port l;
      mret (f1 ++ f2)
  end.

(** ** Dispatch *)

Definition dispatch_message (msg : Message) : M unit :=
  n ← get_net;
  _ ← (if capture_messages n
       then modify (set_captured_messages (captured_messages n ++ [msg])) else mret tt);
  _ ← emit [NetMessage msg];
  emit ((fun id => NetCallback (m_pgn msg) id msg)
          <$> default [] (pgn_callbacks n !! m_pgn msg)).

Definition port_for_address (n : IsoNet) (addr : Address) : Z :=
  match position (fun cf => icf_address cf =? addr) (internal_cfs n) with
  | Some i => default 0 ((fun cf => cf_can_port (icf_cf cf)) <$> internal_cfs n !! i)
  | None => 0
  end.

(** ** Commanded address *)

Definition commanded_occupied (n : IsoNet) (target : Name.t) (new_address port : Z) : bool :=
  existsb (fun cf => (cf_can_port (icf_cf cf) =? port) && (icf_address cf =? new_address)
             && negb (Name.eqb (icf_name cf) target)
             && bool_decide (claim_state cf = ClaimState.Claimed)) (internal_cfs n)
  || existsb (fun p => (p_port p =? port) && (p_address p =? new_address)
                && negb (Name.eqb (p_name p) target) && p_online p) (partner_cfs n).

(** The body of the loop of [handle_commanded_address_message]; the claimer is untouched. *)
Definition commanded_step (target : Name.t) (new_address port : Z) (occupied : bool)
    (cf : InternalCf) (c : AddressClaimer) : InternalCf * AddressClaimer * CfOut :=
  if negb (cf_can_port (icf_cf cf) =? port) || negb (Name.eqb (icf_name cf) target)
  then (cf, c, no_out)
  else
    let cannot_claim := bool_decide (claim_state cf = ClaimState.Failed) in
    if negb cannot_claim && (negb (bool_decide (claim_state cf = ClaimState.Claimed))
                             || negb (is_online (icf_cf cf)))
    then (cf, c, no_out)
    else if occupied && cannot_claim then (cf, c, mkOut [] [] [] true)
    else if occupied then
      (cf, c, mkOut [(port, make_claim_frame target (icf_address cf))] [] [] true)
    else
      let vacated := icf_address cf in
      let cf := set_state CfState.Online (set_address new_address cf) in
      let '(cf, evs) := cf_transition ClaimState.Claimed cf in
      let cf := reset_claim_timer cf in
      (cf, c, mkOut [(port, make_claim_frame target new_address)]
                (NetClaim (icf_name cf) <$> (evs ++ [OnAddressClaimed new_address]))
                (if negb (vacated =? new_address) then [(port, vacated)] else []) true).

Definition handle_commanded_address_message (msg : Message) (port : Z) : M bool :=
  if negb (m_pgn msg =? PGN_COMMANDED_ADDRESS) || negb (length (m_data msg) =? 9)%nat
  then mret false
  else
    match Name.from_bytes (take 8 (m_data msg)) with
    | None => mret false
    | Some target =>
        let new_address := m_data msg !!! 8%nat in
        if MAX_ADDRESS <? new_address then mret false
        else
          n ← get_net;
          os ← run_cfs (commanded_step target new_address port
                          (commanded_occupied n target new_address port));
          aborts ← discontinue_all port (snd <$> (os ≫= o_surrendered));
          _ ← send_frames_best_effort ((snd <$> (os ≫= o_frames)) ++ aborts) port;
          mret (existsb o_flag os)
    end.

(** ** Completed transfers *)

Definition session_message (s : TransportSession) : Message :=
  mkMessage (s_pgn s) (s_data s) (s_source_address s) (s_destination_address s)
    (s_priority s) 0.

Definition deliver_session (s : TransportSession) : M unit :=
  if negb (bool_decide (s_direction s = Receive)) then mret tt
  else
    _ ← handle_commanded_address_message (session_message s) (s_can_port s);
    dispatch_message (session_message s).

Definition drain_transport_completions : M unit :=
  n ← get_net;
  _ ← modify (fun n => set_tp_completions [] (set_etp_completions [] n));
  for_each deliver_session (tp_completions n ++ etp_completions n).

(** ** Frames from the bus *)

Definition is_addressed_to_us (n : IsoNet) (frame : Frame) (port : Z) : bool :=
  let dst := FrameOps.destination frame in
  (dst =? BROADCAST_ADDRESS)
  || existsb (fun cf => (cf_can_port (icf_cf cf) =? port)
                && bool_decide (claim_state cf = ClaimState.Claimed)
                && (icf_address cf =? dst)) (internal_cfs n).

Definition violation_step (src port : Z) (cf : InternalCf) (c : AddressClaimer)
    : InternalCf * AddressClaimer * CfOut :=
  if (cf_can_port (icf_cf cf) =? port) && bool_decide (claim_state cf = ClaimState.Claimed)
     && (icf_address cf =? src)
  then
    let '(cf, c, o) := claim_step (handle_request_for_claim c cf) in
    (cf, c, mkOut (o_frames o) (o_events o) [] true)
  else (cf, c, no_out).

Definition check_address_violation (frame : Frame) (port : Z) : M unit :=
  let src := FrameOps.source frame in
  if (src =? NULL_ADDRESS) || (src =? BROADCAST_ADDRESS) then mret tt
  else
    n ← get_net;
    if existsb (fun '(p, a, _) => (p =? port) && (a =? src)) (recent_violations n)
    then mret tt
    else
      os ← run_cfs (violation_step src port);
      if existsb o_flag os then
        _ ← modify (fun n => set_recent_violations (recent_violations n ++ [(port, src, 0)]) n);
        _ ← emit [NetAddressViolation src];
        send_frames_best_effort (snd <$> (os ≫= o_frames)) port
      else mret tt.

Definition request_step (dst port : Z) (cf : InternalCf) (c : AddressClaimer)
    : InternalCf * AddressClaimer * CfOut :=
  if negb (cf_can_port (icf_cf cf) =? port) then (cf, c, no_out)
  else if negb (dst =? BROADCAST_ADDRESS) && negb (icf_address cf =? dst) then (cf, c, no_out)
  else claim_step (handle_request_for_claim c cf).

Definition validate_partner (dst port : Z) (p : PartnerCf) : PartnerCf :=
  if negb (p_port p =? port) || negb (p_online p) then p
  else if negb (dst =? BROADCAST_ADDRESS) && negb (p_address p =? dst) then p
  else begin_claim_validation p.

Definition handle_request_for_address_claim (frame : Frame) (port : Z) : M bool :=
  match decode_request (FrameOps.payload frame) with
  | None => mret false
  | Some requested =>
      if negb (requested =? PGN_ADDRESS_CLAIMED) then mret false
      else
        let dst := FrameOps.destination frame in
        os ← run_cfs (request_step dst port);
        _ ← modify (fun n => set_partner_cfs (validate_partner dst port <$> partner_cfs n) n);
        _ ← send_frames_best_effort (snd <$> (os ≫= o_frames)) port;
        mret true
  end.

Definition duplicate_step (claimed_name : Name.t) (claimed_addr port : Z)
    (cf : InternalCf) (c : AddressClaimer) : InternalCf * AddressClaimer * CfOut :=
  if negb (cf_can_port (icf_cf cf) =? port) || negb (Name.eqb (icf_name cf) claimed_name)
     || negb (attempted_claim c) || bool_decide (claim_state cf = ClaimState.Failed)
     || (icf_address cf =? claimed_addr)
  then (cf, c, no_out)
  else
    let held := icf_address cf in
    let '(cf, c, o) := claim_step (handle_duplicate_name c cf) in
    (cf, c, mkOut (o_frames o) (o_events o)
              (if negb (icf_address cf =? held) || negb (is_online (icf_cf cf))
               then [(port, held)] else []) true).

Definition handle_duplicate_internal_name (claimed_name : Name.t) (claimed_addr port : Z)
    : M (list Address) :=
  if (claimed_addr =? NULL_ADDRESS) || (claimed_addr =? BROADCAST_ADDRESS) then mret []
  else
    os ← run_cfs (duplicate_step claimed_name claimed_addr port);
    _ ← emit (omap (fun o => if o_flag o then Some (NetDuplicateName claimed_name claimed_addr)
                             else None) os);
    _ ← send_frames_best_effort (snd <$> (os ≫= o_frames)) port;
    mret (snd <$> (os ≫= o_surrendered)).

Definition contest_step (claimed_name : Name.t) (claimed_addr port : Z)
    (cf : InternalCf) (c : AddressClaimer) : InternalCf * AddressClaimer * CfOut :=
  if negb (cf_can_port (icf_cf cf) =? port) then (cf, c, no_out)
  else
    let held := icf_address cf in
    let '(cf, c, o) := claim_step (handle_claim c cf claimed_addr claimed_name) in
    (cf, c, mkOut (o_frames o) (o_events o)
              (if negb (icf_address cf =? held) || negb (is_online (icf_cf cf))
               then [(port, held)] else []) false).

(** The loop over [partner_cfs] at the end of [handle_address_claim]. *)
Definition partner_hears (name : Name.t) (addr port : Z) (idx : nat) (p : PartnerCf)
    : PartnerCf * list NetEvent :=
  if (p_port p =? port) && matches_name p name then
    let '(p, evs) := if addr =? NULL_ADDRESS then note_cannot_claim_seen name p
                     else note_address_claim_seen name addr p in
    (p, NetPartner idx <$> evs)
  else (p, []).

Definition run_partners (step : nat -> PartnerCf -> PartnerCf * list NetEvent) : M unit :=
  modify (fun n =>
    let l := imap step (partner_cfs n) in
    set_trace (net_trace n ++ (l ≫= snd)) (set_partner_cfs l.*1 n)).

Definition handle_address_claim (frame : Frame) (port : Z) : M unit :=
  match Name.from_bytes (FrameOps.payload frame) with
  | None => mret tt
  | Some claimed_name =>
      let claimed_addr := FrameOps.source frame in
      if claimed_addr =? BROADCAST_ADDRESS then mret tt
      else
        _ ← (if claimed_addr <=? MAX_ADDRESS then
               vacated ← handle_duplicate_internal_name claimed_name claimed_addr port;
               os ← run_cfs (contest_step claimed_name claimed_addr port);
               aborts ← discontinue_all port (vacated ++ (snd <$> (os ≫= o_surrendered)));
               send_frames_best_effort ((snd <$> (os ≫= o_frames)) ++ aborts) port
             else mret tt);
        run_partners (partner_hears claimed_name claimed_addr port)
  end.

Definition frame_message (frame : Frame) (timestamp : Z) : Message :=
  mkMessage (FrameOps.pgn frame) (FrameOps.payload frame) (FrameOps.source frame)
    (FrameOps.destination frame) (FrameOps.priority frame) timestamp.

(** [self.tp.process_frame] and [self.etp.process_frame]; the subscriber of [on_complete]
    appends to the completion queue. *)
Definition tp_input (frame : Frame) (port : Z) : M (list Frame) :=
  n ← get_net;
  '(t, responses, done) ← lift_option (te_frame (net_tp n) frame port);
  _ ← modify (fun n => set_tp_completions (tp_completions n ++ done) (set_tp t n));
  mret responses.
Definition etp_input (frame : Frame) (port : Z) : M (list Frame) :=
  n ← get_net;
  '(t, responses, done) ← lift_option (te_frame (net_etp n) frame port);
  _ ← modify (fun n => set_etp_completions (etp_completions n ++ done) (set_etp t n));
  mret responses.

(** The part of [process_frame] after the address violation check. *)
Definition route_frame (frame : Frame) (port : Z) : M unit :=
  let pgn := FrameOps.pgn frame in
  let is_tp := (pgn =? PGN_TP_CM) || (pgn =? PGN_TP_DT) in
  let is_etp := (pgn =? PGN_ETP_CM) || (pgn =? PGN_ETP_DT) in
  n ← get_net;
  if (is_tp || is_etp) && negb (is_addressed_to_us n frame port) then mret tt
  else if is_tp then
    responses ← tp_input frame port;
    _ ← send_frames_best_effort responses port;
    drain_transport_completions
  else if is_etp then
    responses ← etp_input frame port;
    _ ← send_frames_best_effort responses port;
    drain_transport_completions
  else if is_fast_packet_pgn n pgn then
    '(fp, m) ← lift_option (process_frame (net_fast_packet n) frame);
    _ ← modify (set_fast_packet fp);
    match m with Some msg => dispatch_message msg | None => mret tt end
  else dispatch_message (frame_message frame (f_timestamp_us frame)).

(** [IsoNet::process_frame]. *)
Definition net_process_frame (frame : Frame) (port : Z) : M unit :=
  _ ← count_received;
  let pgn := FrameOps.pgn frame in
  if pgn =? PGN_ADDRESS_CLAIMED then
    _ ← handle_address_claim frame port;
    dispatch_message (frame_message frame 0)
  else
    answered ← (if pgn =? PGN_REQUEST then handle_request_for_address_claim frame port
                else mret false);
    if (answered : bool) then mret tt
    else
      _ ← check_address_violation frame port;
      route_frame frame port.

Definition feed (frame : Frame) (port : Z) : M unit :=
  _ ← modify (bus_load_add port (f_length frame));
  net_process_frame frame port.

Definition inject_message (msg : Message) : M unit := dispatch_message msg.

(** ** The poll loop *)

(** [while let Ok(cf) = ep.recv_can()], one unit of fuel per waiting frame. *)
Fixpoint drain_endpoint (fuel : nat) (ep : E) : E * list Frame :=
  match fuel with
  | O => (ep, [])
  | S fuel =>
      match ep_recv ep with
      | (ep, None) => (ep, [])
      | (ep, Some cf) =>
          let '(ep, frames) := drain_endpoint fuel ep in
          (ep, match FrameOps.from_can_frame cf with Some f => f :: frames | None => frames end)
      end
  end.

Definition drain_port (port : Z) : M (list (Z * Frame)) := fun n =>
  match endpoints n !! port with
  | None => Ok ([], n)
  | Some ep =>
      let '(ep, frames) := drain_endpoint (S (ep_waiting ep)) ep in
      Ok (pair port <$> frames, set_endpoints (<[port:=ep]> (endpoints n)) n)
  end.

Fixpoint drain_ports (l : list Z) : M (list (Z * Frame)) :=
  match l with
  | [] => mret []
  | p :: l => a ← drain_port p; b ← drain_ports l; mret (a ++ b)
  end.

(** [for f in &frames { let port = self.port_for_address(f.source()); .. }]. *)
Definition send_by_source (f : Frame) : M unit :=
  port ← gets (fun n => port_for_address n (FrameOps.source f));
  send_frame_ignored port f.

Definition tp_tick (elapsed_ms : Z) : M unit :=
  n ← get_net;
  '(t, frames, done) ← lift_option (te_update (net_tp n) elapsed_ms);
  _ ← modify (fun n => set_tp_completions (tp_completions n ++ done) (set_tp t n));
  _ ← for_each send_by_source frames;
  n ← get_net;
  '(t, data) ← lift_option (te_drain (net_tp n));
  _ ← modify (set_tp t);
  for_each send_by_source data.

Definition etp_tick_net (elapsed_ms : Z) : M unit :=
  n ← get_net;
  '(t, frames, done) ← lift_option (te_update (net_etp n) elapsed_ms);
  _ ← modify (fun n => set_etp_completions (etp_completions n ++ done) (set_etp t n));
  _ ← for_each send_by_source frames;
  n ← get_net;
  '(t, data) ← lift_option (te_drain (net_etp n));
  _ ← modify (set_etp t);
  for_each send_by_source data.

Definition update_step (elapsed_ms : Z) (cf : InternalCf) (c : AddressClaimer)
    : InternalCf * AddressClaimer * CfOut :=
  let port := cf_can_port (icf_cf cf) in
  let held := icf_address cf in
  let was_online := is_online (icf_cf cf) in
  let '(cf, c, o) := claim_step (claimer_update c cf elapsed_ms) in
  (cf, c, mkOut (o_frames o) (o_events o)
            (if negb (held =? NULL_ADDRESS)
                && (negb (icf_address cf =? held) || (was_online && negb (is_online (icf_cf cf))))
             then [(port, held)] else []) false).

Definition age_violations (elapsed_ms : Z) (l : list (Z * Address * Z)) : list (Z * Address * Z) :=
  filter (fun '(_, _, age) => age < ADDRESS_VIOLATION_RESPONSE_INTERVAL_MS)
    ((fun '(p, a, age) => (p, a, sat_add 32 age elapsed_ms)) <$> l).

Definition bus_loads_update (elapsed_ms : Z) : M unit :=
  n ← get_net;
  if enable_bus_load (net_config n) then
    l ← lift_option (mapM (fun '(port, bl) => bl ← bl_update elapsed_ms bl; Some (port, bl))
                       (map_to_list (bus_loads n)));
    modify (set_bus_loads (list_to_map l))
  else mret tt.

(** [IsoNet::update]. *)
Definition net_update (elapsed_ms : Z) : M unit :=
  _ ← run_partners (fun idx p =>
        let '(p, evs) := update_claim_validation elapsed_ms p in (p, NetPartner idx <$> evs));
  _ ← modify (fun n => set_recent_violations (age_violations elapsed_ms (recent_violations n)) n);
  n ← get_net;
  rx ← drain_ports (ports n);
  _ ← for_each (fun '(port, frame) =>
        _ ← modify (bus_load_add port (f_length frame)); net_process_frame frame port) rx;
  _ ← tp_tick elapsed_ms;
  _ ← etp_tick_net elapsed_ms;
  n ← get_net;
  fp ← lift_option (fp_update (net_fast_packet n) elapsed_ms);
  _ ← modify (set_fast_packet fp);
  _ ← drain_transport_completions;
  _ ← start_ready_pending_transport;
  os ← run_cfs (update_step elapsed_ms);
  _ ← for_each (fun '(port, address) =>
        aborts ← discontinue_address port address;
        send_frames_best_effort aborts port) (os ≫= o_surrendered);
  _ ← send_all (os ≫= o_frames);
  bus_loads_update elapsed_ms.
End network.
