(* ===== verification/NetworkInv.v ===== *)
(** The invariant of the network manager and its preservation by every operation.

    First its control-function half.  The manager restarts claimers while they are online and moves
    control functions by commanded address, so the invariant is weaker than [claim_inv]: a claimed
    function is online, an online or contesting function holds a claimable address, a failed one is
    offline.  Every claimer call preserves it from any such state and emits well-formed frames only.

    [net_inv_x pending_loss n] says that the state is well formed and that every transport
    session and every queued transfer runs from an address an online local control function
    holds on that port, except for the addresses listed, which have been given up but
    whose traffic is still to be torn down.  [net_inv] lists none.

    [wp m Q n] is the weakest precondition: the call [m] returns in a state satisfying [Q],
    or a 64-bit frame counter is exhausted; an engine panic satisfies no [wp]. *)
From stdpp Require Import gmap.
From S2P Require Export AddressClaimProofs Network.
#[local] Open Scope Z_scope.

Record cf_ok (c : AddressClaimer) (cf : InternalCf) : Prop := {
  ck_claimer : claimer_ok c;
  ck_name : Name.wf (icf_name cf);
  ck_preferred : in_u 8 (preferred_address cf);
  ck_address : in_u 8 (icf_address cf);
  ck_claimed : claim_state cf = ClaimState.Claimed -> cf_state (icf_cf cf) = CfState.Online;
  ck_online : cf_state (icf_cf cf) = CfState.Online -> icf_address cf <= MAX_ADDRESS;
  ck_contest : claim_state cf = ClaimState.WaitForContest -> icf_address cf <= MAX_ADDRESS;
  ck_failed : claim_state cf = ClaimState.Failed -> cf_state (icf_cf cf) = CfState.Offline
}.

(** What the manager relies on for a claimer call. *)
Definition cf_safe (cf : InternalCf) (r : claim_result) : Prop :=
  let '(c', cf', frames, _) := r in
  cf_ok c' cf' /\ icf_name cf' = icf_name cf /\
  cf_can_port (icf_cf cf') = cf_can_port (icf_cf cf) /\
  preferred_address cf' = preferred_address cf /\ Forall FrameOps.wf frames.

Lemma claim_frame_wf n a : Name.wf n -> in_u 8 a -> FrameOps.wf (make_claim_frame n a).
Proof.
  intros Hn Ha. apply wf_new8; try done. repeat constructor; apply (in_u_land_ones 8); lia.
Qed.

Lemma request_frame_wf : FrameOps.wf make_request_frame.
Proof. apply wf_new8; try (by unfold in_u); try done. repeat constructor; by unfold in_u. Qed.

Lemma in_u8_max a : 0 <= a <= MAX_ADDRESS -> in_u 8 a.
Proof. unfold in_u, MAX_ADDRESS. lia. Qed.

#[export] Hint Resolve claim_frame_wf request_frame_wf in_u8_max in_u8_null in_u32_0 in_u32_tick
  claimer_guard claimer_listen claimer_cannot claimer_reclaim claimer_mark : claim.

Ltac claim_frame := apply Forall_singleton, claim_frame_wf; auto with claim.

Section cf.
Context (c : AddressClaimer) (cf : InternalCf).

Lemma send_claim_ok a :
  claimer_ok c -> Name.wf (icf_name cf) -> in_u 8 (preferred_address cf) ->
  0 <= a <= MAX_ADDRESS -> cf_safe cf (send_claim a c cf).
Proof.
  intros Hc Hn Hp Ha. unfold send_claim. rewrite !cf_transition_eq.
  split; [|split_and!; try done; claim_frame].
  split; cbn; try done; auto with claim; lia.
Qed.

Lemma fail_ok evs :
  claimer_ok c -> Name.wf (icf_name cf) -> in_u 8 (preferred_address cf) ->
  cf_safe cf (c, set_address NULL_ADDRESS (set_claim_state ClaimState.Failed
    (set_state CfState.Offline cf)), [make_claim_frame (icf_name cf) NULL_ADDRESS], evs).
Proof.
  intros. split; [|split_and!; try done; claim_frame].
  split; cbn; try done; auto with claim.
Qed.
End cf.

Lemma cf_ok_claimer c c' cf : claimer_ok c' -> cf_ok c cf -> cf_ok c' cf.
Proof. intros ? []. by split. Qed.

Lemma claimer_start_ok c cf : cf_ok c cf -> cf_safe cf (claimer_start c cf).
Proof.
  intros [Hc Hn Hp Ha H1 H2 H3 H4]. unfold claimer_start. rewrite !cf_transition_eq.
  assert (claimer_ok (with_occupied no_addresses (with_attempted c))) by (by destruct Hc).
  destruct (_ <? _).
  - apply (fail_ok _ cf); auto with claim.
  - split; [|by split_and!; try done; apply Forall_singleton, request_frame_wf].
    split; cbn; try done; auto with claim.
Qed.

Lemma find_next_in_u c cf a : 0 <= find_next_address c cf a.
Proof. destruct (find_next_address_range c cf a) as [->|]; [done|lia]. Qed.

Lemma finish_listen_ok c cf : cf_ok c cf -> cf_safe cf (finish_listen c cf).
Proof.
  intros [Hc Hn Hp Ha H1 H2 H3 H4]. unfold finish_listen. rewrite !cf_transition_eq.
  cbn zeta. set (a := if _ && _ then _ else _).
  assert (0 <= a) by (unfold a; case_match; [apply find_next_in_u|apply Hp]).
  destruct (Z.ltb_spec MAX_ADDRESS a).
  - apply (fail_ok _ cf); auto with claim.
  - apply send_claim_ok; auto with claim.
Qed.

Lemma fire_reclaim_ok c cf : cf_ok c cf -> cf_safe cf (fire_reclaim c cf).
Proof.
  intros [Hc Hn Hp Ha H1 H2 H3 H4]. unfold fire_reclaim. rewrite !cf_transition_eq.
  cbn zeta. set (a := if _ || _ then _ else _).
  assert (Ha0 : 0 <= a) by (unfold a; case_match; [apply find_next_in_u|apply Hc]).
  destruct (Z.ltb_spec MAX_ADDRESS a).
  - split; [|split_and!; try done; claim_frame].
    split; cbn; try done; auto with claim.
  - apply send_claim_ok; auto with claim.
Qed.

Lemma guard_tick_ok e c cf : cf_ok c cf -> in_u 32 e -> cf_safe cf (guard_tick e c cf).
Proof.
  intros Hok He. pose proof Hok as [Hc Hn Hp Ha H1 H2 H3 H4]. unfold guard_tick.
  assert (Hg : claimer_ok (with_guard (sat_add 32 (claim_guard_timer_ms c) e) c))
    by (apply claimer_guard; [apply in_u32_tick; [apply Hc|done]|done]).
  case_bool_decide as Hst; [|by split_and!].
  specialize (H3 Hst). destruct (_ <=? _).
  - rewrite cf_transition_eq. cbn [icf_address].
    change (icf_address (set_claim_state ClaimState.Claimed (add_claim_time e cf)))
      with (icf_address cf).
    destruct (Z.eqb_spec (icf_address cf) NULL_ADDRESS) as [Heq|_].
    { unfold NULL_ADDRESS, MAX_ADDRESS in *. lia. }
    split; [|by split_and!]. split; cbn; done.
  - split; [|by split_and!]. split; cbn; try done.
Qed.

Lemma cf_safe_frames cf c' cf' fs gs evs :
  cf_safe cf (c', cf', fs, evs) -> Forall FrameOps.wf gs -> cf_safe cf (c', cf', gs ++ fs, evs).
Proof. intros (? & ? & ? & ? & ?) ?. split_and!; try done. by apply Forall_app. Qed.

Lemma claimer_update_ok e c cf : cf_ok c cf -> in_u 32 e -> cf_safe cf (claimer_update c cf e).
Proof.
  intros Hok He. pose proof Hok as [Hc Hn Hp Ha H1 H2 H3 H4]. unfold claimer_update.
  destruct (listen_pending c).
  { assert (cf_ok (with_listen true (sat_add 32 (listen_timer_ms c) e) c) cf) as Hok'.
    { apply (cf_ok_claimer c); [|done]. apply claimer_listen; [|done].
      apply in_u32_tick; [apply Hc|done]. }
    destruct (_ <=? _); [by apply finish_listen_ok|by split_and!]. }
  set (q := if cannot_claim_pending c then _ else _).
  assert (claimer_ok q.1 /\ Forall FrameOps.wf q.2) as (Hq1 & Hq2).
  { unfold q. destruct (cannot_claim_pending c); [destruct (_ <=? _)|]; cbn; split; try done.
    - by apply claimer_cannot.
    - case_bool_decide; [claim_frame|constructor].
    - apply claimer_cannot; [apply in_u32_tick; [apply Hc|done]|done]. }
  destruct q as [c1 gs]. cbn in Hq1, Hq2.
  assert (cf_ok c1 cf) as Hok1 by (by apply (cf_ok_claimer c)).
  destruct (reclaim_pending c1).
  - set (c2 := with_reclaim true _ _ c1).
    assert (cf_ok c2 cf).
    { apply (cf_ok_claimer c); [|done]. apply claimer_reclaim; [|apply Hq1|done].
      apply in_u32_tick; [apply Hq1|done]. }
    destruct (_ <=? _); [|by split_and!].
    pose proof (fire_reclaim_ok c2 cf) as Hf. destruct (fire_reclaim c2 cf) as [[[? ?] ?] ?].
    apply cf_safe_frames; auto.
  - pose proof (guard_tick_ok e c1 cf) as Hf. destruct (guard_tick e c1 cf) as [[[? ?] ?] ?].
    apply cf_safe_frames; auto.
Qed.

Lemma yield_ok c cf a : cf_ok c cf -> cf_safe cf (yield_address c cf a).
Proof.
  intros Hok. pose proof Hok as [Hc Hn Hp Ha H1 H2 H3 H4]. unfold yield_address.
  rewrite !cf_transition_eq. cbn zeta beta. destruct (negb _); [by apply (fail_ok _ cf)|].
  change (icf_name (set_state CfState.Offline cf)) with (icf_name cf).
  set (next := find_next_address _ _ _).
  destruct (Z.ltb_spec MAX_ADDRESS next); [by apply (fail_ok _ cf)|].
  assert (0 <= next) by apply find_next_in_u.
  destruct (_ <? _).
  - case_bool_decide; (split; [|by split_and!]); split; cbn; try done; auto with claim.
  - pose proof (send_claim_ok c (set_state CfState.Offline cf) next) as Hs.
    destruct (send_claim _ _ _) as [[[c' cf'] fs] evs].
    by destruct Hs as (? & ? & ? & ? & ?).
Qed.

Lemma handle_claim_ok c cf a n : cf_ok c cf -> cf_safe cf (handle_claim c cf a n).
Proof.
  intros Hok. unfold handle_claim. destruct (_ <? _); [by split_and!|].
  set (c1 := if negb (Name.eqb n (icf_name cf)) then mark_occupied a c else c).
  assert (Hok1 : cf_ok c1 cf).
  { apply (cf_ok_claimer c); [|done]. unfold c1. case_match; [apply claimer_mark|]; apply Hok. }
  clearbody c1. repeat (case_match; [by split_and!|]).
  destruct (Name.ltb _ _); [|by apply yield_ok].
  split_and!; try done. apply Forall_singleton, claim_frame_wf; apply Hok1.
Qed.

Lemma handle_duplicate_ok c cf : cf_ok c cf -> cf_safe cf (handle_duplicate_name c cf).
Proof.
  intros Hok. unfold handle_duplicate_name. rewrite cf_transition_eq.
  destruct (_ || _); [by split_and!|].
  apply (fail_ok _ cf); [|apply Hok|apply Hok].
  apply claimer_guard; [done|]. apply claimer_reclaim; try apply Hok; auto with claim.
Qed.

Lemma handle_request_ok c cf : cf_ok c cf -> cf_safe cf (handle_request_for_claim c cf).
Proof.
  intros Hok. unfold handle_request_for_claim. case_match; [by split_and!|].
  case_match; [by split_and!|].
  assert (forall a, in_u 8 a -> FrameOps.wf (make_claim_frame (icf_name cf) a))
    by (intros; apply claim_frame_wf; [apply Hok|done]).
  destruct (claim_state cf) eqn:E; try (by split_and!).
  - split_and!; try done. apply Forall_singleton, H1, Hok.
  - split_and!; try done. apply Forall_singleton, H1, Hok.
  - case_match.
    + split_and!; try done. apply Forall_singleton, H1. auto with claim.
    + split_and!; try done. apply (cf_ok_claimer c); [|done].
      apply claimer_cannot; [done|apply Hok].
Qed.

Lemma rtxd_range name : 0 <= rtxd_for_name name <= ADDRESS_CLAIM_RTXD_MAX_MS.
Proof.
  unfold rtxd_for_name, ADDRESS_CLAIM_RTXD_MAX_MS.
  set (h := fnv_loop _ _ _ _). pose proof (in_u_land_ones 8 h ltac:(lia)) as [Hh _].
  change (Z.ones 8) with 0xFF in Hh.
  assert (0 <= Z.land h 0xFF * 6 / 10) by (apply Z.div_pos; lia). case_bool; lia.
Qed.

Lemma cf_ok_new base name port preferred :
  0 <= base -> base + ADDRESS_CLAIM_RTXD_MAX_MS < 2 ^ 32 -> Name.wf name -> in_u 8 preferred ->
  exists c, with_timeout base (rtxd_for_name name) = Some c /\
    cf_ok c (InternalCf_new name port preferred).
Proof.
  intros Hb Hm Hn Hp. pose proof (rtxd_range name) as Hr. unfold with_timeout.
  rewrite (proj2 (Z.ltb_ge _ _)) by lia. rewrite checked_add_Some by lia. cbn.
  eexists. split; [done|]. split; cbn; try done.
  split; cbn; try done; unfold ADDRESS_CLAIM_RTXD_MAX_MS, in_u in *; lia.
Qed.

Section inv.
Context {E : Type} `{!CanEndpoint E} `{!Allocator}.
Abbreviation IsoNet := (IsoNet (E:=E)).
Abbreviation M := (M (E:=E)).

(** ** Weakest preconditions *)

Definition exhausted (n : IsoNet) : Prop :=
  net_frames_sent n + 1 = 2 ^ 64 \/ net_frames_received n + 1 = 2 ^ 64.

Definition wp {A} (m : M A) (Q : A -> IsoNet -> Prop) (n : IsoNet) : Prop :=
  match m n with
  | Ok (a, n') => Q a n'
  | Err EnginePanic => False
  | Err (CounterExhausted n') => exhausted n'
  end.

Lemma wp_ret {A} (a : A) (Q : A -> IsoNet -> Prop) n : Q a n -> wp (mret a) Q n.
Proof. done. Qed.

Lemma wp_bind {A B} (m : M A) (k : A -> M B) Q n :
  wp m (fun a => wp (k a) Q) n -> wp (m ≫= k) Q n.
Proof. unfold wp, mbind, net_bind. by destruct (m n) as [[a n']|[|]]. Qed.

Lemma wp_mono {A} (m : M A) (P Q : A -> IsoNet -> Prop) n :
  (forall a n', P a n' -> Q a n') -> wp m P n -> wp m Q n.
Proof. unfold wp. destruct (m n) as [[a n']|[|]]; auto. Qed.

Lemma wp_get (Q : IsoNet -> IsoNet -> Prop) n : Q n n -> wp get_net Q n.
Proof. done. Qed.

Lemma wp_gets {A} (f : IsoNet -> A) Q n : Q (f n) n -> wp (gets f) Q n.
Proof. done. Qed.

Lemma wp_modify f (Q : unit -> IsoNet -> Prop) n : Q tt (f n) -> wp (modify f) Q n.
Proof. done. Qed.

Lemma wp_lift {A} (o : option A) (a : A) Q n : o = Some a -> Q a n -> wp (lift_option o) Q n.
Proof. unfold wp, lift_option. by intros ->. Qed.

Lemma wp_for_each {A} (P : IsoNet -> Prop) (f : A -> M unit) l n :
  (forall x n, x ∈ l -> P n -> wp (f x) (fun _ => P) n) -> P n ->
  wp (for_each f l) (fun _ => P) n.
Proof.
  revert n. induction l as [|x l IH]; intros n Hf Hn; simpl; [done|].
  apply wp_bind. eapply wp_mono; [|apply Hf; [set_solver|done]].
  intros [] n' Hn'. apply IH; [|done]. intros. apply Hf; [set_solver|done].
Qed.

(** ** The invariant *)

(** The address a session transmits from, if any: a broadcast reception sends nothing. *)
Definition local_address (s : TransportSession) : option Address :=
  match s_direction s with
  | Transmit => Some (s_source_address s)
  | Receive => if s_destination_address s =? BROADCAST_ADDRESS then None
               else Some (s_destination_address s)
  end.

(** A local control function is online at [a] on [port]. *)
Definition holds_address (cfs : list InternalCf) (port : Z) (a : Address) : Prop :=
  exists cf, cf ∈ cfs /\ cf_can_port (icf_cf cf) = port /\ icf_address cf = a /\
    cf_state (icf_cf cf) = CfState.Online.

Definition held_or_lost (lost : list (Z * Address)) (cfs : list InternalCf) (port : Z)
    (a : Address) : Prop :=
  0 <= a <= MAX_ADDRESS /\ (holds_address cfs port a \/ (port, a) ∈ lost).

Definition session_owned lost cfs (s : TransportSession) : Prop :=
  forall a, local_address s = Some a -> held_or_lost lost cfs (s_can_port s) a.

Record pending_ok (tx : PendingTransportTx) : Prop := {
  pk_pgn : in_u 32 (px_pgn tx);
  pk_data : bytes (px_data tx);
  pk_len : in_u 32 (Z.of_nat (length (px_data tx)));
  pk_dst : in_u 8 (px_destination tx)
}.

Record net_inv_x (lost : list (Z * Address)) (n : IsoNet) : Prop := {
  ni_timeout : 0 <= address_claim_timeout_ms (net_config n) /\
    address_claim_timeout_ms (net_config n) + ADDRESS_CLAIM_RTXD_MAX_MS < 2 ^ 32;
  ni_cfs : Forall2 cf_ok (claimers n) (internal_cfs n);
  ni_names : NoDup (icf_name <$> internal_cfs n);
  ni_tp : te_wf (net_tp n);
  ni_etp : te_wf (net_etp n);
  ni_fp : fp_wf (net_fast_packet n);
  ni_bus : map_Forall (fun _ => bus_load_wf) (bus_loads n);
  ni_partners : Forall partner_ok (partner_cfs n);
  ni_pending : Forall pending_ok (pending_transport_tx n);
  ni_pending_len : (length (pending_transport_tx n) <= MAX_PENDING_TRANSPORT_TX)%nat;
  ni_tp_done : Forall (fun s => bytes (s_data s)) (tp_completions n);
  ni_etp_done : Forall (fun s => bytes (s_data s)) (etp_completions n);
  ni_counters : in_u 64 (net_frames_sent n) /\ in_u 64 (net_frames_received n);
  ni_tp_owned : Forall (session_owned lost (internal_cfs n)) (te_sessions (net_tp n));
  ni_etp_owned : Forall (session_owned lost (internal_cfs n)) (te_sessions (net_etp n));
  ni_pending_owned : Forall (fun tx => held_or_lost lost (internal_cfs n) (px_port tx)
                                (px_source tx)) (pending_transport_tx n)
}.

Definition net_inv : IsoNet -> Prop := net_inv_x [].

(** ** Frame output *)

(** [n'] differs from [n] only in the frame output: the driver, the outbound buffer, the
    counters, the load estimators and the trace. *)
Record io_step (n n' : IsoNet) : Prop := {
  io_config : net_config n' = net_config n;
  io_cfs : internal_cfs n' = internal_cfs n;
  io_claimers : claimers n' = claimers n;
  io_tp : net_tp n' = net_tp n;
  io_etp : net_etp n' = net_etp n;
  io_fp : net_fast_packet n' = net_fast_packet n;
  io_partners : partner_cfs n' = partner_cfs n;
  io_pending : pending_transport_tx n' = pending_transport_tx n;
  io_tp_done : tp_completions n' = tp_completions n;
  io_etp_done : etp_completions n' = etp_completions n
}.

#[global] Instance io_step_preorder : PreOrder io_step.
Proof.
  split; [by intros n; split|]. intros a b c [] []. split; congruence.
Qed.

Lemma net_inv_io lost (n n' : IsoNet) :
  net_inv_x lost n -> io_step n n' -> map_Forall (fun _ => bus_load_wf) (bus_loads n') ->
  in_u 64 (net_frames_sent n') /\ in_u 64 (net_frames_received n') -> net_inv_x lost n'.
Proof.
  intros [] [H1 H2 H3 H4 H5 H6 H7 H8 H9 H10] ? ?. split; rewrite ?H1, ?H2, ?H3, ?H4, ?H5, ?H6, ?H7, ?H8, ?H9, ?H10; done.
Qed.

(** A call that preserves every [net_inv_x] and only does output. *)
Definition outputs {A} (m : M A) : Prop :=
  forall lost n, net_inv_x lost n -> wp m (fun _ n' => net_inv_x lost n' /\ io_step n n') n.

Lemma outputs_ret {A} (a : A) : outputs (mret a).
Proof. intros lost n Hn. by split. Qed.

Lemma outputs_bind {A B} (m : M A) (k : A -> M B) :
  outputs m -> (forall a, outputs (k a)) -> outputs (m ≫= k).
Proof.
  intros Hm Hk lost n Hn. apply wp_bind. eapply wp_mono; [|by apply Hm].
  intros a n1 [H1 E1]. eapply wp_mono; [|by apply (Hk a lost)].
  intros b n2 [H2 E2]. split; [done|]. by etrans.
Qed.

Lemma outputs_get {A} (k : IsoNet -> M A) : (forall n, outputs (k n)) -> outputs (n ← get_net; k n).
Proof. intros Hk lost n Hn. apply wp_bind, wp_get. by apply Hk. Qed.

Lemma outputs_for_each {A} (f : A -> M unit) l :
  (forall x, outputs (f x)) -> outputs (for_each f l).
Proof.
  intros Hf. induction l as [|x l IH]; simpl; [apply outputs_ret|].
  apply outputs_bind; [done|]. by intros [].
Qed.

Lemma bus_load_add_bus port len (n : IsoNet) :
  0 <= len -> map_Forall (fun _ => bus_load_wf) (bus_loads n) ->
  map_Forall (fun _ => bus_load_wf) (bus_loads (bus_load_add port len n)).
Proof.
  intros Hl Hb. unfold bus_load_add. destruct (enable_bus_load _); [|done].
  destruct (bus_loads n !! port) as [bl|] eqn:Eb; [|done]. cbn.
  apply map_Forall_insert_2; [|done]. apply bl_add_frame_wf; [done|]. by eapply Hb.
Qed.

Lemma bus_load_add_io port len (n : IsoNet) : io_step n (bus_load_add port len n).
Proof.
  unfold bus_load_add. destruct (enable_bus_load _); [|done].
  by destruct (bus_loads n !! port).
Qed.

Lemma bus_load_add_counters port len (n : IsoNet) :
  net_frames_sent (bus_load_add port len n) = net_frames_sent n /\
  net_frames_received (bus_load_add port len n) = net_frames_received n.
Proof.
  unfold bus_load_add. destruct (enable_bus_load _); [|done].
  by destruct (bus_loads n !! port).
Qed.

Lemma outputs_bus_load_add port len : 0 <= len -> outputs (modify (bus_load_add port len)).
Proof.
  intros Hl lost n Hn. apply wp_modify. pose proof (bus_load_add_io port len n) as Hio.
  split; [|done]. eapply net_inv_io; [done|done| |].
  - apply bus_load_add_bus; [done|apply Hn].
  - destruct (bus_load_add_counters port len n) as [-> ->]. apply Hn.
Qed.

Lemma outputs_modify (f : IsoNet -> IsoNet) :
  (forall n, io_step n (f n) /\ bus_loads (f n) = bus_loads n /\
     net_frames_sent (f n) = net_frames_sent n /\
     net_frames_received (f n) = net_frames_received n) -> outputs (modify f).
Proof.
  intros Hf lost n Hn. apply wp_modify. destruct (Hf n) as (Hio & Hb & Hs & Hr).
  split; [|done]. eapply net_inv_io; [done|done|rewrite Hb; apply Hn|rewrite Hs, Hr; apply Hn].
Qed.

Lemma counter_step x : in_u 64 x -> checked_add 64 x 1 = None -> x + 1 = 2 ^ 64.
Proof. unfold checked_add, in_u. intros. case_match; [done|]. reflect_bools. lia. Qed.

Lemma outputs_count_sent : outputs count_sent.
Proof.
  intros lost n Hn. destruct (ni_counters lost n Hn) as [Hs Hr]. unfold wp, count_sent.
  destruct (checked_add 64 (net_frames_sent n) 1) as [k|] eqn:Ec.
  - assert (Hio : io_step n (set_frames_sent k n)) by (by split). split; [|done].
    eapply net_inv_io; [done|done|apply Hn|split; [|done]]. cbn.
    unfold checked_add, in_u in *. case_match; simplify_eq. reflect_bools. lia.
  - left. by apply counter_step.
Qed.

Lemma wp_count_received lost (n : IsoNet) :
  net_inv_x lost n -> wp count_received (fun _ n' => net_inv_x lost n' /\ io_step n n') n.
Proof.
  intros Hn. destruct (ni_counters lost n Hn) as [Hs Hr]. unfold wp, count_received.
  destruct (checked_add 64 (net_frames_received n) 1) as [k|] eqn:Ec.
  - assert (Hio : io_step n (set_frames_received k n)) by (by split). split; [|done].
    eapply net_inv_io; [done|done|apply Hn|split; [done|]]. cbn.
    unfold checked_add, in_u in *. case_match; simplify_eq. reflect_bools. lia.
  - right. by apply counter_step.
Qed.

Lemma outputs_send_frame f port : 0 <= f_length f -> outputs (send_frame f port).
Proof.
  intros Hf. unfold send_frame. apply outputs_get. intros n0.
  destruct (capture_outbound n0).
  - apply outputs_bind; [apply outputs_modify; by intros n|intros _].
    apply outputs_bind; [apply outputs_count_sent|intros _].
    apply outputs_bind; [by apply outputs_bus_load_add|intros _]. apply outputs_ret.
  - destruct (endpoints n0 !! port) as [ep|]; [|apply outputs_ret].
    destruct (ep_send ep _) as [ep' r].
    apply outputs_bind; [apply outputs_modify; by intros n|intros _].
    destruct r as [u|e]; [|apply outputs_ret].
    apply outputs_bind; [apply outputs_count_sent|intros _].
    apply outputs_bind; [by apply outputs_bus_load_add|intros _]. apply outputs_ret.
Qed.

Lemma wf_length f : FrameOps.wf f -> 0 <= f_length f.
Proof. by intros (_ & _ & _ & ? & _). Qed.

Lemma outputs_ignored port f : 0 <= f_length f -> outputs (send_frame_ignored port f).
Proof.
  intros. apply outputs_bind; [by apply outputs_send_frame|]. intros. apply outputs_ret.
Qed.

(** Output of a list of well-formed frames. *)
Lemma outputs_best_effort frames port :
  Forall FrameOps.wf frames -> outputs (send_frames_best_effort frames port).
Proof.
  unfold send_frames_best_effort. induction 1 as [|f fs Hf _ IH]; simpl; [apply outputs_ret|].
  apply outputs_bind; [by apply outputs_ignored, wf_length|]. by intros [].
Qed.

Lemma outputs_send_all l :
  Forall (fun pf => FrameOps.wf pf.2) l -> outputs (send_all l).
Proof.
  unfold send_all. induction 1 as [|[p f] fs Hf _ IH]; simpl; [apply outputs_ret|].
  apply outputs_bind; [by apply outputs_ignored, wf_length|]. by intros [].
Qed.

Lemma outputs_by_source frames :
  Forall FrameOps.wf frames -> outputs (for_each send_by_source frames).
Proof.
  induction 1 as [|f fs Hf _ IH]; simpl; [apply outputs_ret|].
  apply outputs_bind; [|by intros []]. unfold send_by_source.
  intros lost n Hn. apply wp_bind, wp_gets.
  by apply (outputs_ignored _ _ (wf_length f Hf)).
Qed.

Lemma outputs_send_frames frames port :
  Forall FrameOps.wf frames -> outputs (send_frames frames port).
Proof.
  induction 1 as [|f fs Hf _ IH]; simpl; [apply outputs_ret|].
  apply outputs_bind; [by apply outputs_send_frame, wf_length|].
  intros [u|e]; [done|apply outputs_ret].
Qed.

Lemma outputs_emit evs : outputs (emit evs).
Proof. apply outputs_modify. by intros n. Qed.

Lemma outputs_dispatch msg : outputs (dispatch_message msg).
Proof.
  unfold dispatch_message. apply outputs_get. intros n0. apply outputs_bind.
  - case_match; [|apply outputs_ret]. apply outputs_modify. by intros n.
  - intros _. apply outputs_bind; [apply outputs_emit|]. intros _. apply outputs_emit.
Qed.

(** Use an output computation under an invariant. *)
Lemma wp_outputs {A} (m : M A) lost Q n :
  outputs m -> net_inv_x lost n ->
  (forall a n', net_inv_x lost n' -> io_step n n' -> Q a n') -> wp m Q n.
Proof. intros Hm Hn HQ. eapply wp_mono; [|by apply (Hm lost)]. intros a n' []. by apply HQ. Qed.
End inv.
