(* ===== verification/NetworkSteps.v ===== *)
(** The network manager's parts keep its invariant: teardown of a surrendered address, the
    loops over the control functions, the calls into the engines, and the queue of
    transfers waiting for a busy path. *)
From stdpp Require Import gmap.
From S2P Require Export NetworkInv.
#[local] Open Scope Z_scope.

Section steps.
Context {E : Type} `{!CanEndpoint E} `{!Allocator}.
Abbreviation IsoNet := (IsoNet (E:=E)).
Abbreviation M := (M (E:=E)).

(** The call returns and leaves the invariant as it was. *)
Definition keeps {A} (m : M A) : Prop :=
  forall lost n, net_inv_x lost n -> wp m (fun _ => net_inv_x lost) n.

Lemma keeps_ret {A} (a : A) : keeps (mret a).
Proof. by intros lost n. Qed.

Lemma keeps_bind {A B} (m : M A) (k : A -> M B) :
  keeps m -> (forall a, keeps (k a)) -> keeps (m ≫= k).
Proof.
  intros Hm Hk lost n Hn. apply wp_bind. eapply wp_mono; [|by apply Hm].
  intros a n1 H1. by apply Hk.
Qed.

Lemma keeps_get {A} (k : IsoNet -> M A) : (forall n, keeps (k n)) -> keeps (n ← get_net; k n).
Proof. intros Hk lost n Hn. apply wp_bind, wp_get. by apply Hk. Qed.

Lemma outputs_keeps {A} (m : M A) : outputs m -> keeps m.
Proof. intros Hm lost n Hn. eapply wp_outputs; eauto. Qed.

Lemma keeps_for_each {A} (f : A -> M unit) l :
  (forall x, x ∈ l -> keeps (f x)) -> keeps (for_each f l).
Proof. intros Hf lost n Hn. apply wp_for_each; [|done]. intros. by apply Hf. Qed.

(** ** Ownership *)

Lemma session_owned_ends lost cfs s s' :
  ends s = ends s' -> session_owned lost cfs s -> session_owned lost cfs s'.
Proof.
  unfold ends, session_owned, local_address. intros [= -> -> -> ->]. done.
Qed.

Lemma owned_continues lost cfs l l' :
  continues l l' -> Forall (session_owned lost cfs) l -> Forall (session_owned lost cfs) l'.
Proof.
  rewrite !Forall_forall. intros Hc Hl s Hs. destruct (Hc s Hs) as (s0 & Hs0 & He).
  eapply session_owned_ends; eauto.
Qed.

(** Ownership survives a change of the control functions that loses no address silently. *)
Lemma owned_mono lost lost' cfs cfs' l :
  (forall port a, held_or_lost lost cfs port a -> held_or_lost lost' cfs' port a) ->
  Forall (session_owned lost cfs) l -> Forall (session_owned lost' cfs') l.
Proof.
  intros Hm Hl. eapply Forall_impl; [exact Hl|]. intros s Hs a Ha. by apply Hm, Hs.
Qed.

Lemma held_mono lost lost' cfs cfs' port a :
  (holds_address cfs port a -> holds_address cfs' port a \/ (port, a) ∈ lost') ->
  lost ⊆ lost' -> held_or_lost lost cfs port a -> held_or_lost lost' cfs' port a.
Proof.
  intros Hh Hs [Ha [Hx|Hx]]; (split; [done|]); [by apply Hh|]. right. by apply Hs.
Qed.

(** An online control function holds its address. *)
Lemma online_held lost cfs cf c :
  cf ∈ cfs -> cf_ok c cf -> cf_state (icf_cf cf) = CfState.Online ->
  held_or_lost lost cfs (cf_can_port (icf_cf cf)) (icf_address cf).
Proof.
  intros Hin Hok Hon. split; [|left; by exists cf].
  split; [apply (ck_address c cf Hok)|by apply (ck_online c cf Hok)].
Qed.

Lemma cf_paired (n : IsoNet) lost cf :
  net_inv_x lost n -> cf ∈ internal_cfs n -> exists c, cf_ok c cf.
Proof.
  intros Hn [i Hi]%list_elem_of_lookup.
  destruct (Forall2_lookup_r _ _ _ i cf (ni_cfs lost n Hn) Hi) as (c & _ & Hc). by exists c.
Qed.

Lemma holds_local lost (n : IsoNet) cf :
  net_inv_x lost n -> cf ∈ internal_cfs n -> cf_state (icf_cf cf) = CfState.Online ->
  held_or_lost lost (internal_cfs n) (cf_can_port (icf_cf cf)) (icf_address cf).
Proof.
  intros Hn Hin Hon. destruct (cf_paired n lost cf Hn Hin) as (c & Hc).
  by eapply online_held.
Qed.

(** ** Tearing down a surrendered address *)

Lemma held_removed lost cfs port a p b :
  held_or_lost ((port, a) :: lost) cfs p b -> (p, b) <> (port, a) -> held_or_lost lost cfs p b.
Proof. intros [Hb [Hx|Hx]] Hne; (split; [done|]); [by left|right]. set_solver. Qed.

Lemma abort_owned lost cfs port a l l' :
  (forall s, s ∈ l' <-> s ∈ l /\
     ~ (s_can_port s = port /\ (s_source_address s = a \/ s_destination_address s = a))) ->
  Forall (session_owned ((port, a) :: lost) cfs) l -> Forall (session_owned lost cfs) l'.
Proof.
  rewrite !Forall_forall. intros Hl Ho s [Hs Hne]%Hl b Hb.
  apply (held_removed _ _ port a); [by apply Ho|]. intros [= Hp ->]. apply Hne.
  split; [done|]. unfold local_address in Hb. destruct (s_direction s); simplify_eq; [by left|].
  case_match; simplify_eq. by right.
Qed.

Lemma owned_special lost cfs port a l :
  MAX_ADDRESS < a -> Forall (session_owned ((port, a) :: lost) cfs) l ->
  Forall (session_owned lost cfs) l.
Proof.
  intros Ha Hl. eapply Forall_impl; [exact Hl|]. intros s Hs b Hb. specialize (Hs b Hb).
  eapply held_removed; [exact Hs|]. intros [= _ ->]. destruct Hs as [[_ ?] _]. lia.
Qed.

Lemma wp_discontinue lost port a (n : IsoNet) :
  net_inv_x ((port, a) :: lost) n ->
  wp (discontinue_address port a) (fun fs n' => fs = [] /\ net_inv_x lost n') n.
Proof.
  intros Hn. unfold discontinue_address. destruct (_ || _) eqn:Eb.
  - apply wp_ret. split; [done|]. assert (MAX_ADDRESS < a) as Ha.
    { apply orb_true_iff in Eb as [Eb|Eb]; reflect_bools; unfold MAX_ADDRESS, NULL_ADDRESS, BROADCAST_ADDRESS in *; lia. }
    destruct Hn. split; try done; try (by eapply owned_special).
    eapply Forall_impl; [exact ni_pending_owned|]. intros tx Htx. eapply held_removed; [exact Htx|].
    intros [= _ Hpx]. destruct Htx as [[_ ?] _]. lia.
  - unfold wp. pose proof (te_abort_law (net_tp n) port a (ni_tp _ n Hn)) as Ht.
    pose proof (te_abort_law (net_etp n) port a (ni_etp _ n Hn)) as He.
    destruct (te_abort_for (net_tp n) port a) as [tp f1].
    destruct (te_abort_for (net_etp n) port a) as [etp f2].
    destruct Ht as (-> & Ht & Htl), He as (-> & He & Hel). split; [done|].
    destruct Hn. split; cbn; try done.
    + by apply Forall_filter_P.
    + etrans; [apply length_filter|done].
    + by eapply abort_owned.
    + by eapply abort_owned.
    + apply Forall_forall. intros tx [Hne Hin]%list_elem_of_filter.
      eapply (held_removed _ _ port a); [by eapply (proj1 (Forall_forall _ _) ni_pending_owned)|].
      intros [= Hp1 Hp2]. tauto.
Qed.

Lemma wp_discontinue_all lost port l (n : IsoNet) :
  net_inv_x ((pair port <$> l) ++ lost) n ->
  wp (discontinue_all port l) (fun fs n' => fs = [] /\ net_inv_x lost n') n.
Proof.
  revert n. induction l as [|a l IH]; intros n Hn; simpl; [by apply wp_ret|].
  apply wp_bind. eapply wp_mono; [|apply (wp_discontinue ((pair port <$> l) ++ lost)); exact Hn].
  intros fs n1 [-> H1].
  apply wp_bind. eapply wp_mono; [|apply IH; exact H1].
  intros fs n2 [-> H2]. by apply wp_ret.
Qed.

(** [for (port, address) in surrendered { .. }] at the end of [update]. *)
Lemma wp_discontinue_each lost l (n : IsoNet) :
  net_inv_x (l ++ lost) n ->
  wp (for_each (fun '(port, address) => aborts ← discontinue_address port address;
                  send_frames_best_effort aborts port) l) (fun _ => net_inv_x lost) n.
Proof.
  revert n. induction l as [|[port a] l IH]; intros n Hn; simpl; [done|].
  apply wp_bind, wp_bind. eapply wp_mono; [|apply (wp_discontinue (l ++ lost)); exact Hn].
  intros fs n1 [-> H1]. by apply IH.
Qed.

(** ** The loops over the control functions *)

(** A loop body keeps the control function well formed, emits well-formed frames, and
    reports the address when an online function leaves it. *)
Definition cf_step_ok (cf : InternalCf) (r : InternalCf * AddressClaimer * CfOut) : Prop :=
  let '(cf', c', o) := r in
  cf_ok c' cf' /\ icf_name cf' = icf_name cf /\
  cf_can_port (icf_cf cf') = cf_can_port (icf_cf cf) /\
  Forall (fun pf => FrameOps.wf pf.2) (o_frames o) /\
  (cf_state (icf_cf cf) = CfState.Online ->
   (cf_state (icf_cf cf') = CfState.Online /\ icf_address cf' = icf_address cf) \/
   (cf_can_port (icf_cf cf), icf_address cf) ∈ o_surrendered o).

Lemma holds_cons cf cfs port a :
  holds_address (cf :: cfs) port a <->
  (cf_can_port (icf_cf cf) = port /\ icf_address cf = a /\
   cf_state (icf_cf cf) = CfState.Online) \/ holds_address cfs port a.
Proof.
  unfold holds_address. split.
  - intros (cf' & [->|Hin]%elem_of_cons & ?); [by left|right; by exists cf'].
  - intros [?|(cf' & ? & ?)]; [exists cf|exists cf']; by rewrite elem_of_cons; auto.
Qed.

Lemma each_cf_spec step cls cfs :
  Forall2 cf_ok cls cfs ->
  (forall c cf, cf ∈ cfs -> cf_ok c cf -> cf_step_ok cf (step cf c)) ->
  let '(cfs', cls', os) := each_cf step cfs cls in
  Forall2 cf_ok cls' cfs' /\ (icf_name <$> cfs') = (icf_name <$> cfs) /\
  Forall (fun pf => FrameOps.wf pf.2) (os ≫= o_frames) /\
  Forall (fun o => exists cf c, o = (step cf c).2) os /\
  (forall port a, holds_address cfs port a ->
     holds_address cfs' port a \/ (port, a) ∈ os ≫= o_surrendered).
Proof.
  induction 1 as [|c cf cls cfs Hok H2 IH]; intros Hstep; simpl; [by split_and!; auto|].
  pose proof (Hstep c cf ltac:(set_solver) Hok) as Hs.
  assert (Hfrom : exists cf0 c0, (step cf c).2 = (step cf0 c0).2) by eauto.
  destruct (step cf c) as [[cf' c'] o].
  destruct Hs as (Hok' & Hname & Hport & Hfr & Hsur).
  assert (Hrec : forall c cf, cf ∈ cfs -> cf_ok c cf -> cf_step_ok cf (step cf c))
    by (intros; apply Hstep; set_solver).
  specialize (IH Hrec). destruct (each_cf step cfs cls) as [[cfs' cls'] os].
  destruct IH as (IH2 & IHn & IHf & IHo & IHs). split_and!.
  - by constructor.
  - rewrite !fmap_cons. by f_equal.
  - rewrite bind_cons. by apply Forall_app.
  - by constructor.
  - intros port a. rewrite !holds_cons, bind_cons, elem_of_app.
    intros [(<- & <- & Hon)|Hh].
    + destruct (Hsur Hon) as [[? ?]|?]; [left; left; by split_and!|auto].
    + destruct (IHs port a Hh); auto.
Qed.

Lemma held_weaken lost lost' cfs port a :
  lost ⊆ lost' -> held_or_lost lost cfs port a -> held_or_lost lost' cfs port a.
Proof. intros. eapply held_mono; eauto. Qed.

Lemma net_inv_weaken lost lost' (n : IsoNet) :
  lost ⊆ lost' -> net_inv_x lost n -> net_inv_x lost' n.
Proof.
  intros Hs []. pose proof (fun p a => held_weaken lost lost' (internal_cfs n) p a Hs).
  split; try done; try (by eapply owned_mono).
  eapply Forall_impl; [exact ni_pending_owned|]. auto.
Qed.

Lemma wp_run_cfs lost step (Q : list CfOut -> IsoNet -> Prop) (n : IsoNet) :
  net_inv_x lost n ->
  (forall c cf, cf ∈ internal_cfs n -> cf_ok c cf -> cf_step_ok cf (step cf c)) ->
  (forall os n', net_inv_x ((os ≫= o_surrendered) ++ lost) n' ->
     Forall (fun pf => FrameOps.wf pf.2) (os ≫= o_frames) ->
     Forall (fun o => exists cf c, o = (step cf c).2) os -> Q os n') ->
  wp (run_cfs step) Q n.
Proof.
  intros Hn Hstep HQ. unfold wp, run_cfs.
  pose proof (each_cf_spec step (claimers n) (internal_cfs n) (ni_cfs _ n Hn) Hstep) as Hs.
  destruct (each_cf step (internal_cfs n) (claimers n)) as [[cfs' cls'] os].
  destruct Hs as (H2 & Hname & Hfr & Hfrom & Hhold). apply HQ; [|done|done].
  assert (Hmono : forall port a, held_or_lost lost (internal_cfs n) port a ->
      held_or_lost ((os ≫= o_surrendered) ++ lost) cfs' port a).
  { intros port a. apply held_mono; [|set_solver].
    intros [?|?]%Hhold; [by left|right; set_solver]. }
  destruct Hn. split; cbn; try done.
  - by rewrite Hname.
  - by eapply owned_mono.
  - by eapply owned_mono.
  - eapply Forall_impl; [exact ni_pending_owned|]. intros tx. apply Hmono.
Qed.

(** A loop whose body gives up no address. *)
Lemma wp_run_cfs_quiet lost step (Q : list CfOut -> IsoNet -> Prop) (n : IsoNet) :
  net_inv_x lost n ->
  (forall c cf, cf ∈ internal_cfs n -> cf_ok c cf -> cf_step_ok cf (step cf c)) ->
  (forall c cf, o_surrendered (step cf c).2 = []) ->
  (forall os n', net_inv_x lost n' ->
     Forall (fun pf => FrameOps.wf pf.2) (os ≫= o_frames) -> Q os n') ->
  wp (run_cfs step) Q n.
Proof.
  intros Hn Hstep Hquiet HQ. eapply wp_run_cfs; [done|done|].
  intros os n' Hn' Hfr Hfrom. apply HQ; [|done].
  assert (os ≫= o_surrendered = []) as Hnil.
  { clear -Hquiet Hfrom. induction Hfrom as [|o os (cf & c & ->) _ IHos]; [done|]. by rewrite bind_cons, Hquiet, IHos. }
  by rewrite Hnil in Hn'.
Qed.

(** Surrendered addresses of a loop that works on one port only. *)
Lemma surrendered_on port
    (step : InternalCf -> AddressClaimer -> InternalCf * AddressClaimer * CfOut) os :
  (forall cf c, Forall (fun x => x.1 = port) (o_surrendered (step cf c).2)) ->
  Forall (fun o => exists cf c, o = (step cf c).2) os ->
  os ≫= o_surrendered = pair port <$> (snd <$> (os ≫= o_surrendered)).
Proof.
  intros Hp Hfrom. assert (Hall : Forall (fun x => x.1 = port) (os ≫= o_surrendered)).
  { induction Hfrom as [|o os (cf & c & ->) _ IHos]; [constructor|].
    rewrite bind_cons. by apply Forall_app. }
  induction Hall as [|[p a] l Hx _ IH]; simpl; [done|]. simpl in Hx. subst.
  f_equal. exact IH.
Qed.

Lemma frames_snd (l : list (Z * Frame)) :
  Forall (fun pf => FrameOps.wf pf.2) l -> Forall FrameOps.wf (snd <$> l).
Proof. intros. by apply Forall_fmap. Qed.

(** A claimer call as a loop body. *)
Lemma claim_step_frames cf r :
  cf_safe cf r -> Forall (fun pf => FrameOps.wf pf.2) (o_frames (claim_step r).2).
Proof.
  destruct r as [[[c' cf'] fs] evs]. intros (_ & _ & _ & _ & Hfs). cbn.
  apply Forall_fmap. by eapply Forall_impl.
Qed.

(** ** Loop bodies *)

Lemma step_skip c cf : cf_ok c cf -> cf_step_ok cf (cf, c, no_out).
Proof. intros. split_and!; try done; auto. Qed.

(** The body of the loops that note the address held before the call and report it when
    it changed or the function went offline. *)
Lemma step_reports cf r (q : bool) sur flag :
  cf_safe cf r ->
  (q = false -> cf_state (icf_cf cf) = CfState.Online ->
     icf_address (claim_step r).1.1 = icf_address cf /\
     cf_state (icf_cf (claim_step r).1.1) = CfState.Online) ->
  (q = true -> (cf_can_port (icf_cf cf), icf_address cf) ∈ sur) ->
  let '(cf', c', o) := claim_step r in
  cf_step_ok cf (cf', c', mkOut (o_frames o) (o_events o) (if q then sur else []) flag).
Proof.
  intros Hs Hkeep Hsur. pose proof (claim_step_frames cf r Hs) as Hfr.
  destruct r as [[[c' cf'] fs] evs]. cbn in *. destruct Hs as (Hok & Hnm & Hp & _ & _).
  split_and!; try done. intros Hon. destruct q; [right; auto|left]. by destruct Hkeep.
Qed.

Lemma request_keeps_cf c cf : (handle_request_for_claim c cf).1.1.2 = cf.
Proof. unfold handle_request_for_claim. by repeat case_match. Qed.

Lemma request_claim_step c cf flag :
  cf_ok c cf ->
  let '(cf', c', o) := claim_step (handle_request_for_claim c cf) in
  cf_step_ok cf (cf', c', mkOut (o_frames o) (o_events o) [] flag).
Proof.
  intros Hok. apply (step_reports cf _ false []); [by apply handle_request_ok| |done].
  pose proof (request_keeps_cf c cf) as Hk.
  destruct (handle_request_for_claim c cf) as [[[c' cf'] fs] evs]. cbn in *. by subst.
Qed.

Lemma response_step_ok c cf : cf_ok c cf -> cf_step_ok cf (claim_step (handle_request_for_claim c cf)).
Proof.
  intros Hok. pose proof (request_claim_step c cf false Hok) as Hr.
  by destruct (handle_request_for_claim c cf) as [[[c' cf'] fs] evs].
Qed.

Lemma violation_step_ok src port c cf : cf_ok c cf -> cf_step_ok cf (violation_step src port cf c).
Proof.
  intros Hok. unfold violation_step. case_match; [|by apply step_skip].
  pose proof (request_claim_step c cf true Hok) as Hr. by destruct (claim_step _) as [[cf' c'] o].
Qed.

Lemma request_step_ok dst port c cf : cf_ok c cf -> cf_step_ok cf (request_step dst port cf c).
Proof.
  intros Hok. unfold request_step. repeat (case_match; [by apply step_skip|]).
  by apply response_step_ok.
Qed.

Lemma left_address (a b : Address) (cf : InternalCf) :
  negb (a =? b) || negb (is_online (icf_cf cf)) = false ->
  a = b /\ cf_state (icf_cf cf) = CfState.Online.
Proof. unfold is_online. intros. by reflect_bools. Qed.

Lemma duplicate_step_ok name addr port c cf :
  cf_ok c cf -> cf_step_ok cf (duplicate_step name addr port cf c).
Proof.
  intros Hok. unfold duplicate_step. destruct (_ || _) eqn:Eg; [by apply step_skip|].
  reflect_bools. cbn zeta. pose proof (handle_duplicate_ok c cf Hok) as Hs.
  pose proof (step_reports cf (handle_duplicate_name c cf)) as Hr.
  destruct (claim_step _) as [[cf' c'] o]. apply Hr; [done| |set_solver].
  intros Hq _. by apply left_address in Hq.
Qed.

Lemma contest_step_ok name addr port c cf :
  cf_ok c cf -> cf_step_ok cf (contest_step name addr port cf c).
Proof.
  intros Hok. unfold contest_step. case_match; [by apply step_skip|]. reflect_bools.
  cbn zeta. pose proof (handle_claim_ok c cf addr name Hok) as Hs.
  pose proof (step_reports cf (handle_claim c cf addr name)) as Hr.
  destruct (claim_step _) as [[cf' c'] o]. apply Hr; [done| |set_solver].
  intros Hq _. by apply left_address in Hq.
Qed.

Lemma update_step_ok e c cf :
  in_u 32 e -> cf_ok c cf -> cf_step_ok cf (update_step e cf c).
Proof.
  intros He Hok. unfold update_step. cbn zeta.
  pose proof (claimer_update_ok e c cf Hok He) as Hs.
  pose proof (step_reports cf (claimer_update c cf e)) as Hr.
  destruct (claim_step _) as [[cf' c'] o]. apply Hr; [done| |set_solver].
  cbn. intros Hq Hon. pose proof (ck_online c cf Hok Hon) as Ha.
  unfold is_online in *. rewrite (bool_decide_eq_true_2 (cf_state (icf_cf cf) = _)) in Hq by done.
  destruct (Z.eqb_spec (icf_address cf) NULL_ADDRESS) as [Heq|_].
  { unfold NULL_ADDRESS, MAX_ADDRESS in *. lia. }
  simpl in Hq. by reflect_bools.
Qed.

Lemma commanded_step_ok target a port occ c cf :
  0 <= a <= MAX_ADDRESS -> cf_ok c cf ->
  cf_step_ok cf (commanded_step target a port occ cf c).
Proof.
  intros Ha Hok. unfold commanded_step. destruct (_ || _) eqn:Eg; [by apply step_skip|].
  reflect_bools. cbn zeta. case_match; [by apply step_skip|].
  assert (Hnm : icf_name cf = target).
  { destruct (icf_name cf), target. unfold Name.eqb in *. reflect_bools. cbn in *. by subst. }
  destruct (occ && _); [by split_and!; try done; auto|].
  destruct occ.
  - split_and!; try done; [|auto]. apply Forall_singleton, claim_frame_wf; [|apply Hok].
    rewrite <- Hnm. apply Hok.
  - rewrite cf_transition_eq. destruct Hok. split_and!; try done.
    + split; cbn; try done; [by apply in_u8_max|lia].
    + apply Forall_singleton, claim_frame_wf; [by rewrite <- Hnm|by apply in_u8_max].
    + intros Hon. cbn. destruct (Z.eqb_spec (icf_address cf) a); [by left|right].
      simpl. rewrite list_elem_of_singleton. by f_equal.
Qed.
End steps.
