(* ===== verification/NetworkSafety.v ===== *)
(** Every operation of the network manager keeps its invariant: frame input, the poll, sends,
    address claiming and configuration. *)
From stdpp Require Import gmap.
From S2P Require Export NetworkSteps.
#[local] Open Scope Z_scope.

Section safety.
Context {E : Type} `{!CanEndpoint E} `{!Allocator}.
Abbreviation IsoNet := (IsoNet (E:=E)).
Abbreviation M := (M (E:=E)).

(** ** The engines *)

Lemma owned_rx lost cfs f port l l' :
  continues_rx f port l l' -> Forall (session_owned lost cfs) l ->
  FrameOps.destination f = BROADCAST_ADDRESS \/
    held_or_lost lost cfs port (FrameOps.destination f) ->
  Forall (session_owned lost cfs) l'.
Proof.
  rewrite !Forall_forall. intros Hc Hl Hd s Hs.
  destruct (Hc s Hs) as [(s0 & Hs0 & He)|He]; [eapply session_owned_ends; eauto|].
  unfold ends in He. injection He as Hdir Hsrc Hdst Hport.
  intros a. unfold local_address. rewrite Hdir, Hdst, Hport.
  destruct (Z.eqb_spec (FrameOps.destination f) BROADCAST_ADDRESS) as [|Hne]; [done|].
  intros [= <-]. by destruct Hd.
Qed.

Lemma addressed_held lost (n : IsoNet) f port :
  net_inv_x lost n -> is_addressed_to_us n f port = true ->
  FrameOps.destination f = BROADCAST_ADDRESS \/
    held_or_lost lost (internal_cfs n) port (FrameOps.destination f).
Proof.
  intros Hn [Hb|Hx]%orb_true_iff; [left; by reflect_bools|right].
  apply existsb_exists in Hx as (cf & Hin%list_elem_of_In & Hcf). reflect_bools. subst.
  destruct (cf_paired n lost cf Hn Hin) as (c & Hc).
  match goal with Ha : icf_address cf = _ |- _ => rewrite <- Ha end.
  by eapply online_held; [done|done|apply (ck_claimed c cf Hc)].
Qed.

Lemma wp_tp_input lost f port (Q : list Frame -> IsoNet -> Prop) n :
  net_inv_x lost n -> FrameOps.wf f -> is_addressed_to_us n f port = true ->
  (forall rs n', Forall FrameOps.wf rs -> net_inv_x lost n' -> Q rs n') ->
  wp (tp_input f port) Q n.
Proof.
  intros Hn Hf Ha HQ. unfold tp_input. apply wp_bind, wp_get.
  destruct (te_frame_law (net_tp n) f port (ni_tp lost n Hn) Hf)
    as (t' & rs & dn & E0 & Hw & Hr & Hd & Hc).
  apply wp_bind. eapply wp_lift; [exact E0|]. apply wp_bind, wp_modify, HQ; [done|].
  pose proof (addressed_held lost n f port Hn Ha) as Hh. destruct Hn.
  split; cbn; try done; [by apply Forall_app|by eapply owned_rx].
Qed.

Lemma wp_etp_input lost f port (Q : list Frame -> IsoNet -> Prop) n :
  net_inv_x lost n -> FrameOps.wf f -> is_addressed_to_us n f port = true ->
  (forall rs n', Forall FrameOps.wf rs -> net_inv_x lost n' -> Q rs n') ->
  wp (etp_input f port) Q n.
Proof.
  intros Hn Hf Ha HQ. unfold etp_input. apply wp_bind, wp_get.
  destruct (te_frame_law (net_etp n) f port (ni_etp lost n Hn) Hf)
    as (t' & rs & dn & E0 & Hw & Hr & Hd & Hc).
  apply wp_bind. eapply wp_lift; [exact E0|]. apply wp_bind, wp_modify, HQ; [done|].
  pose proof (addressed_held lost n f port Hn Ha) as Hh. destruct Hn.
  split; cbn; try done; [by apply Forall_app|by eapply owned_rx].
Qed.

Lemma keeps_tp_tick e : in_u 32 e -> keeps (tp_tick (E:=E) e).
Proof.
  intros He lost n Hn. unfold tp_tick. apply wp_bind, wp_get.
  destruct (te_update_law (net_tp n) e (ni_tp lost n Hn) He)
    as (t' & fr & dn & E0 & Hw & Hr & Hd & Hc).
  apply wp_bind. eapply wp_lift; [exact E0|]. apply wp_bind, wp_modify, wp_bind.
  eapply (wp_outputs _ lost); [by apply outputs_by_source| |].
  { destruct Hn. split; cbn; try done; [by apply Forall_app|by eapply owned_continues]. }
  intros _ n1 H1 _. apply wp_bind, wp_get.
  destruct (te_drain_law (net_tp n1) (ni_tp lost n1 H1)) as (t2 & fr2 & E1 & Hw2 & Hr2 & Hc2).
  apply wp_bind. eapply wp_lift; [exact E1|]. apply wp_bind, wp_modify.
  eapply (wp_outputs _ lost); [by apply outputs_by_source| |done].
  destruct H1. split; cbn; try done. by eapply owned_continues.
Qed.

Lemma keeps_etp_tick e : in_u 32 e -> keeps (etp_tick_net (E:=E) e).
Proof.
  intros He lost n Hn. unfold etp_tick_net. apply wp_bind, wp_get.
  destruct (te_update_law (net_etp n) e (ni_etp lost n Hn) He)
    as (t' & fr & dn & E0 & Hw & Hr & Hd & Hc).
  apply wp_bind. eapply wp_lift; [exact E0|]. apply wp_bind, wp_modify, wp_bind.
  eapply (wp_outputs _ lost); [by apply outputs_by_source| |].
  { destruct Hn. split; cbn; try done; [by apply Forall_app|by eapply owned_continues]. }
  intros _ n1 H1 _. apply wp_bind, wp_get.
  destruct (te_drain_law (net_etp n1) (ni_etp lost n1 H1)) as (t2 & fr2 & E1 & Hw2 & Hr2 & Hc2).
  apply wp_bind. eapply wp_lift; [exact E1|]. apply wp_bind, wp_modify.
  eapply (wp_outputs _ lost); [by apply outputs_by_source| |done].
  destruct H1. split; cbn; try done. by eapply owned_continues.
Qed.

(** ** Completed transfers and commanded addresses *)

Lemma keeps_commanded msg port : bytes (m_data msg) -> keeps (handle_commanded_address_message (E:=E) msg port).
Proof.
  intros Hb lost n Hn. unfold handle_commanded_address_message.
  destruct (_ || _) eqn:Eg; [by apply wp_ret|]. reflect_bools.
  destruct (Name.from_bytes _) as [target|]; [|by apply wp_ret].
  case_bool; [by apply wp_ret|]. apply wp_bind, wp_get, wp_bind.
  set (a := m_data msg !!! 8%nat) in *.
  assert (Ha : 0 <= a <= MAX_ADDRESS).
  { split; [|lia]. subst a. match goal with Hl : (_ =? _)%nat = true |- _ => apply Nat.eqb_eq in Hl end.
    destruct (lookup_lt_is_Some_2 (m_data msg) 8) as [x Hx]; [lia|].
    rewrite (list_lookup_total_correct _ _ _ Hx). by apply (Forall_lookup_1 _ _ _ _ Hb Hx). }
  eapply (wp_run_cfs lost); [done|intros; by apply commanded_step_ok|].
  intros os n1 Hn1 Hfr Hfrom. apply wp_bind.
  apply (surrendered_on port) in Hfrom as Hs; [rewrite Hs in Hn1|clear; intros cf c].
  - eapply wp_mono; [|by apply wp_discontinue_all]. intros aborts n2 [-> Hn2].
    apply wp_bind. eapply (wp_outputs _ lost); [|done|by intros; apply wp_ret].
    apply outputs_best_effort. rewrite app_nil_r. by apply frames_snd.
  - unfold commanded_step. repeat case_match; cbn; repeat constructor.
Qed.

Lemma keeps_deliver s : bytes (s_data s) -> keeps (deliver_session (E:=E) s).
Proof.
  intros Hb. unfold deliver_session. case_match; [apply keeps_ret|].
  apply keeps_bind; [by apply keeps_commanded|]. intros _.
  apply outputs_keeps, outputs_dispatch.
Qed.

Lemma keeps_completions : keeps (drain_transport_completions (E:=E)).
Proof.
  intros lost n Hn. unfold drain_transport_completions. apply wp_bind, wp_get, wp_bind, wp_modify.
  assert (Hall : Forall (fun s => bytes (s_data s)) (tp_completions n ++ etp_completions n))
    by (apply Forall_app; split; apply Hn).
  apply keeps_for_each.
  - intros s Hs. apply keeps_deliver. by eapply (proj1 (Forall_forall _ _) Hall).
  - destruct Hn. by split; cbn.
Qed.

(** ** Frames from the bus *)

(** Updates of fields the invariant does not constrain. *)
Lemma keeps_modify (f : IsoNet -> IsoNet) :
  (forall lost n, net_inv_x lost n -> net_inv_x lost (f n)) -> keeps (modify f).
Proof. intros Hf lost n Hn. by apply wp_modify, Hf. Qed.

Lemma keeps_violation frame port : keeps (check_address_violation (E:=E) frame port).
Proof.
  intros lost n Hn. unfold check_address_violation. destruct (_ || _); [by apply wp_ret|].
  apply wp_bind, wp_get. destruct (existsb _ _); [by apply wp_ret|]. apply wp_bind.
  eapply (wp_run_cfs_quiet lost); [done|intros; by apply violation_step_ok| |].
  { intros c cf. unfold violation_step. case_match; [|done].
    by destruct (claim_step _) as [[? ?] ?]. }
  intros os n1 Hn1 Hfr. destruct (existsb _ _); [|by apply wp_ret].
  apply wp_bind, wp_modify, wp_bind.
  eapply (wp_outputs _ lost); [apply outputs_emit|by destruct Hn1; split|].
  intros _ n2 Hn2 _. apply outputs_keeps; [|done].
  by apply outputs_best_effort, frames_snd.
Qed.

Lemma validate_ok dst port p : partner_ok p -> partner_ok (validate_partner dst port p).
Proof. unfold validate_partner. intros. repeat case_match; auto using begin_validation_ok. Qed.

Lemma claim_step_quiet r : o_surrendered (claim_step r).2 = [].
Proof. by destruct r as [[[? ?] ?] ?]. Qed.

Lemma keeps_request frame port : keeps (handle_request_for_address_claim (E:=E) frame port).
Proof.
  intros lost n Hn. unfold handle_request_for_address_claim.
  destruct (decode_request _) as [r|]; [|by apply wp_ret].
  case_match; [by apply wp_ret|]. apply wp_bind.
  eapply (wp_run_cfs_quiet lost); [done|intros; by apply request_step_ok| |].
  { intros c cf. unfold request_step. repeat (case_match; [done|]). apply claim_step_quiet. }
  intros os n1 Hn1 Hfr. apply wp_bind, wp_modify, wp_bind.
  eapply (wp_outputs _ lost); [by apply outputs_best_effort, frames_snd| |by intros; apply wp_ret].
  destruct Hn1. split; cbn; try done. apply Forall_fmap.
  eapply Forall_impl; [exact ni_partners|]. intros p. apply validate_ok.
Qed.

Lemma keeps_partners step :
  (forall i p, partner_ok p -> partner_ok (step i p).1) -> keeps (run_partners (E:=E) step).
Proof.
  intros Hs. apply keeps_modify. intros lost n []. split; cbn; try done.
  apply Forall_fmap, Forall_lookup_2. intros i x. rewrite list_lookup_imap.
  destruct (partner_cfs n !! i) as [p|] eqn:Ep; simpl; [|done]. intros [= <-].
  apply Hs. by eapply Forall_lookup_1.
Qed.

(** The duplicate-NAME pass leaves the vacated addresses to be torn down. *)
Lemma wp_duplicates lost name addr port (Q : list Address -> IsoNet -> Prop) n :
  net_inv_x lost n ->
  (forall vac n', net_inv_x ((pair port <$> vac) ++ lost) n' -> Q vac n') ->
  wp (handle_duplicate_internal_name name addr port) Q n.
Proof.
  intros Hn HQ. unfold handle_duplicate_internal_name.
  destruct (_ || _); [by apply wp_ret, HQ|]. apply wp_bind.
  eapply (wp_run_cfs lost); [done|intros; by apply duplicate_step_ok|].
  intros os n1 Hn1 Hfr Hfrom. apply wp_bind.
  apply (surrendered_on port) in Hfrom as Hs; [|clear; intros cf c].
  - eapply wp_outputs; [apply outputs_emit|exact Hn1|]. intros _ n2 Hn2 _. apply wp_bind.
    eapply wp_outputs; [by apply outputs_best_effort, frames_snd|exact Hn2|].
    intros _ n3 Hn3 _. apply wp_ret, HQ. by rewrite <- Hs.
  - unfold duplicate_step. case_match; [constructor|].
    destruct (claim_step _) as [[? ?] ?]. cbn. case_match; repeat constructor.
Qed.

Lemma keeps_address_claim frame port : keeps (handle_address_claim (E:=E) frame port).
Proof.
  unfold handle_address_claim. destruct (Name.from_bytes _) as [name|]; [|apply keeps_ret].
  set (addr := FrameOps.source frame).
  pose proof (frame_source_range frame) as Hsrc. fold addr in Hsrc.
  destruct (Z.eqb_spec addr BROADCAST_ADDRESS) as [|Hnb]; [apply keeps_ret|].
  apply keeps_bind.
  - case_match; [|apply keeps_ret]. intros lost n Hn. apply wp_bind.
    apply (wp_duplicates lost); [done|]. intros vac n1 Hn1. apply wp_bind.
    eapply (wp_run_cfs _); [exact Hn1|intros; by apply contest_step_ok|].
    intros os n2 Hn2 Hfr Hfrom. apply wp_bind.
    apply (surrendered_on port) in Hfrom as Hs; [|clear; intros cf c].
    + eapply wp_mono; [|apply (wp_discontinue_all lost)].
      * intros aborts n3 [-> Hn3]. rewrite app_nil_r.
        apply outputs_keeps; [by apply outputs_best_effort, frames_snd|done].
      * rewrite fmap_app, <- Hs. revert Hn2. apply net_inv_weaken. set_solver.
    + unfold contest_step. case_match; [constructor|].
      destruct (claim_step _) as [[? ?] ?]. cbn. case_match; repeat constructor.
  - intros _. apply keeps_partners. intros i p Hp. unfold partner_hears.
    case_match; [|done]. destruct (Z.eqb_spec addr NULL_ADDRESS) as [|Hnn]; cbn.
    + apply note_cannot_claim_ok.
    + apply note_claim_ok. unfold in_u, NULL_ADDRESS, BROADCAST_ADDRESS, MAX_ADDRESS in *. lia.
Qed.

(** A frame that is not part of a TP or ETP transfer. *)
Lemma route_single lost frame ts (n : IsoNet) :
  FrameOps.wf frame -> net_inv_x lost n ->
  wp (if is_fast_packet_pgn n (FrameOps.pgn frame) then
        '(fp, m) ← lift_option (process_frame (net_fast_packet n) frame);
        _ ← modify (set_fast_packet fp);
        match m with Some msg => dispatch_message msg | None => mret tt end
      else dispatch_message (frame_message frame ts)) (fun _ => net_inv_x lost) n.
Proof.
  intros Hf Hn. case_match; [|by apply (outputs_keeps _ (outputs_dispatch _))].
  destruct (process_frame_refines (net_fast_packet n) frame (ni_fp lost n Hn) Hf)
    as (fp & r & Er & Hfp & _).
  apply wp_bind. eapply wp_lift; [exact Er|]. apply wp_bind, wp_modify.
  assert (Hn' : net_inv_x lost (set_fast_packet fp n)) by (destruct Hn; by split).
  destruct r as [s|]; cbn [fmap option_fmap option_map]; [|by apply wp_ret].
  by apply (outputs_keeps _ (outputs_dispatch _)).
Qed.

Lemma keeps_route frame port : FrameOps.wf frame -> keeps (route_frame (E:=E) frame port).
Proof.
  intros Hf lost n Hn. unfold route_frame. apply wp_bind, wp_get.
  set (tp := (FrameOps.pgn frame =? PGN_TP_CM) || _).
  set (etp := (FrameOps.pgn frame =? PGN_ETP_CM) || _).
  destruct (is_addressed_to_us n frame port) eqn:Ea; cbn [negb];
    rewrite ?andb_false_r, ?andb_true_r.
  - destruct tp; [|destruct etp].
    + apply wp_bind. apply (wp_tp_input lost); [done..|]. intros rs n1 Hrs Hn1. apply wp_bind.
      eapply (wp_outputs _ lost); [by apply outputs_best_effort|done|].
      intros _ n2 Hn2 _. by apply keeps_completions.
    + apply wp_bind. apply (wp_etp_input lost); [done..|]. intros rs n1 Hrs Hn1. apply wp_bind.
      eapply (wp_outputs _ lost); [by apply outputs_best_effort|done|].
      intros _ n2 Hn2 _. by apply keeps_completions.
    + by apply route_single.
  - destruct tp, etp; cbn [orb]; try (by apply wp_ret). by apply route_single.
Qed.

Lemma keeps_process_frame frame port :
  FrameOps.wf frame -> keeps (net_process_frame (E:=E) frame port).
Proof.
  intros Hf. unfold net_process_frame. apply keeps_bind.
  { intros lost n Hn. eapply wp_mono; [|by apply (wp_count_received lost)]. by intros ? ? []. }
  intros _. case_match.
  - apply keeps_bind; [apply keeps_address_claim|]. intros _.
    apply outputs_keeps, outputs_dispatch.
  - apply keeps_bind; [case_match; [apply keeps_request|apply keeps_ret]|].
    intros []; [apply keeps_ret|]. apply keeps_bind; [apply keeps_violation|].
    intros _. by apply keeps_route.
Qed.

Lemma keeps_feed frame port : FrameOps.wf frame -> keeps (feed (E:=E) frame port).
Proof.
  intros Hf. apply keeps_bind; [|intros _; by apply keeps_process_frame].
  by apply outputs_keeps, outputs_bus_load_add, wf_length.
Qed.

Lemma received_wf (ep ep' : E) cf f :
  ep_recv ep = (ep', Some cf) -> FrameOps.from_can_frame cf = Some f -> FrameOps.wf f.
Proof.
  intros Er Ef. destruct (ep_recv_typed ep ep' cf Er) as (Hl & Hb & Hd). unfold FrameOps.from_can_frame in Ef.
  repeat case_match; simplify_eq. reflect_bools. split_and!; cbn; try done.
  apply (in_u_land_ones 29). lia.
Qed.
Lemma drain_endpoint_wf fuel (ep : E) : Forall FrameOps.wf (drain_endpoint fuel ep).2.
Proof.
  revert ep. induction fuel as [|fuel IH]; intros ep; simpl; [constructor|].
  destruct (ep_recv ep) as [ep' [cf|]] eqn:Er; [|constructor].
  specialize (IH ep'). destruct (drain_endpoint fuel ep') as [ep'' frames]. simpl in *.
  destruct (FrameOps.from_can_frame cf) as [f|] eqn:Ef; [|done]. constructor; [|done]. by eapply received_wf.
Qed.

Lemma keeps_drain_port lost p (n : IsoNet) :
  net_inv_x lost n ->
  wp (drain_port p) (fun l n' => Forall (fun pf => FrameOps.wf pf.2) l /\ net_inv_x lost n') n.
Proof.
  intros Hn. unfold wp, drain_port. destruct (endpoints n !! p) as [ep|]; [|by split].
  pose proof (drain_endpoint_wf (S (ep_waiting ep)) ep) as Hd.
  destruct (drain_endpoint _ ep) as [ep' fs]. split; [|destruct Hn; by split].
  apply Forall_fmap. by eapply Forall_impl.
Qed.

Lemma keeps_drain_ports lost l (n : IsoNet) :
  net_inv_x lost n ->
  wp (drain_ports l) (fun l n' => Forall (fun pf => FrameOps.wf pf.2) l /\ net_inv_x lost n') n.
Proof.
  revert n. induction l as [|p l IH]; intros n Hn; simpl; [by apply wp_ret|].
  apply wp_bind. eapply wp_mono; [|by apply keeps_drain_port]. intros a n1 [Ha Hn1].
  apply wp_bind. eapply wp_mono; [|by apply IH]. intros b n2 [Hb Hn2].
  apply wp_ret. split; [|done]. by apply Forall_app.
Qed.

(** ** Sends *)

Lemma single_frame_wf pgn data src dst prio :
  bytes data -> in_u 32 pgn -> in_u 8 src -> in_u 8 dst ->
  FrameOps.wf (FrameOps.new8 (Identifier.encode prio pgn src dst)
    (take (Nat.min (length data) 8) data ++ replicate (8 - Nat.min (length data) 8) 0xFF)).
Proof.
  intros Hb ? ? ?. apply wf_new8; try done.
  - rewrite length_app, length_take, length_replicate. lia.
  - apply Forall_app. split; [by apply Forall_take|]. apply Forall_replicate. by vm_compute.
Qed.

(** Starting a transfer from an address held on the port. *)
Lemma wp_engine_send lost kind pgn data src dst port prio
    (Q : Result (list Frame) Error.t -> IsoNet -> Prop) (n : IsoNet) :
  net_inv_x lost n -> in_u 32 pgn -> in_u 8 dst -> bytes data ->
  in_u 32 (Z.of_nat (length data)) -> held_or_lost lost (internal_cfs n) port src ->
  (forall r n', net_inv_x lost n' -> internal_cfs n' = internal_cfs n ->
     pending_transport_tx n' = pending_transport_tx n ->
     (forall fs, r = Ok fs -> Forall FrameOps.wf fs) -> Q r n') ->
  wp (engine_send kind pgn data src dst port prio) Q n.
Proof.
  intros Hn Hpgn Hdst Hb Hlen Hheld HQ. unfold engine_send. apply wp_bind, wp_get.
  assert (Hsrc : in_u 8 src) by (by apply in_u8_max, Hheld).
  assert (Hown : forall s l l', Forall (session_owned lost (internal_cfs n)) l ->
      l' = l ++ [s] -> ends s = (Transmit, src, dst, port) ->
      Forall (session_owned lost (internal_cfs n)) l').
  { intros s l l' Hl -> Hs. apply Forall_app. split; [done|]. apply Forall_singleton.
    unfold ends in Hs. injection Hs as H1 H2 H3 H4. intros a. unfold local_address.
    rewrite H1, H4. intros [= <-]. by rewrite H2. }
  destruct kind.
  - pose proof (te_send_law (net_tp n) pgn data src dst port prio (ni_tp lost n Hn)) as Hl.
    destruct (te_send (net_tp n) pgn data src dst port prio) as [t r].
    destruct Hl as (Hw & Hr); try done. apply wp_bind, wp_modify, wp_ret, HQ; [|done|done|].
    + destruct Hn. split; cbn; try done. destruct r as [fs|e]; [|cbn in Hr; by rewrite Hr].
      destruct Hr as (_ & s & Hs & He). exact (Hown s _ _ ni_tp_owned Hs He).
    + intros fs ->. apply Hr.
  - pose proof (te_send_law (net_etp n) pgn data src dst port prio (ni_etp lost n Hn)) as Hl.
    destruct (te_send (net_etp n) pgn data src dst port prio) as [t r].
    destruct Hl as (Hw & Hr); try done. apply wp_bind, wp_modify, wp_ret, HQ; [|done|done|].
    + destruct Hn. split; cbn; try done. destruct r as [fs|e]; [|cbn in Hr; by rewrite Hr].
      destruct Hr as (_ & s & Hs & He). exact (Hown s _ _ ni_etp_owned Hs He).
    + intros fs ->. apply Hr.
Qed.

Lemma pending_push lost tx (n : IsoNet) :
  net_inv_x lost n -> pending_ok tx ->
  held_or_lost lost (internal_cfs n) (px_port tx) (px_source tx) ->
  (length (pending_transport_tx n) < MAX_PENDING_TRANSPORT_TX)%nat ->
  net_inv_x lost (set_pending_transport_tx (pending_transport_tx n ++ [tx]) n).
Proof.
  intros [] Htx Hh Hl. split; cbn; try done.
  - apply Forall_app. by split; [|apply Forall_singleton].
  - rewrite length_app. cbn. lia.
  - apply Forall_app. by split; [|apply Forall_singleton].
Qed.

Lemma wp_send_or_queue lost kind pgn data src dst port prio (n : IsoNet) :
  net_inv_x lost n -> in_u 32 pgn -> in_u 8 dst -> bytes data ->
  in_u 32 (Z.of_nat (length data)) -> held_or_lost lost (internal_cfs n) port src ->
  wp (send_or_queue kind pgn data src dst port prio) (fun _ => net_inv_x lost) n.
Proof.
  intros Hn Hpgn Hdst Hb Hlen Hheld. apply wp_bind.
  apply (wp_engine_send lost); try done. intros [fs|e] n1 Hn1 Hcfs _ Hfs.
  - apply outputs_keeps; [|done]. by apply outputs_send_frames, Hfs.
  - case_match; [|by apply wp_ret]. unfold queue_transport_tx. apply wp_bind, wp_get.
    destruct (Nat.ltb_spec (length (pending_transport_tx n1)) MAX_PENDING_TRANSPORT_TX);
      cbn [negb]; [|by apply wp_ret].
    apply wp_bind, wp_modify, wp_ret. apply pending_push; try done. by rewrite Hcfs.
Qed.

Lemma keeps_send pgn data src dst prio :
  in_u 32 pgn -> in_u 8 dst -> bytes data -> in_u 32 (Z.of_nat (length data)) ->
  keeps (net_send (E:=E) pgn data src dst prio).
Proof.
  intros Hpgn Hdst Hb Hlen lost n Hn. unfold net_send. case_match; [by apply wp_ret|].
  apply wp_bind, wp_get. destruct (internal_cfs n !! src) as [icf|] eqn:Ei; [|by apply wp_ret].
  destruct (negb _ || _) eqn:Eon; [by apply wp_ret|]. case_match; [by apply wp_ret|].
  unfold is_online in Eon. reflect_bools.
  assert (Hin : icf ∈ internal_cfs n) by (by eapply list_elem_of_lookup_2).
  pose proof (holds_local lost n icf Hn Hin ltac:(done)) as Hheld.
  assert (Hsrc : in_u 8 (icf_address icf)) by (by apply in_u8_max, Hheld).
  case_match.
  { apply outputs_keeps; [|done]. by apply outputs_send_frame, wf_length, single_frame_wf. }
  case_match.
  { destruct (fp_send_to_outcome_aux (net_fast_packet n) pgn data (icf_address icf) dst prio)
      as (fp & r & Es & Hrx & Hr); try done; [apply Hn|].
    apply wp_bind. eapply wp_lift; [exact Es|]. apply wp_bind, wp_modify.
    assert (Hn' : net_inv_x lost (set_fast_packet fp n)).
    { destruct Hn as [? ? ? ? ? [? ? ?]]. split; try done. split; cbn; rewrite ?Hrx; try done.
      destruct r as [fs|e]; [|by destruct Hr as [-> _]].
      destruct Hr as (_ & _ & _ & _ & _ & _ & ->). apply Z.mod_pos_bound. lia. }
    destruct r as [fs|e]; [|by apply wp_ret]. apply outputs_keeps; [|done].
    apply outputs_send_frames, Hr. }
  case_match; [by apply wp_send_or_queue|]. case_match; [by apply wp_ret|].
  by apply wp_send_or_queue.
Qed.

(** One turn of the pending queue: the transfer starts, is dropped, or goes to the back. *)
Lemma keeps_start_one : keeps (start_one_pending (E:=E)).
Proof.
  intros lost n Hn. unfold start_one_pending. apply wp_bind, wp_get.
  destruct (pending_transport_tx n) as [|tx rest] eqn:Ep; [by apply wp_ret|].
  pose proof (ni_pending lost n Hn) as Hpk. pose proof (ni_pending_owned lost n Hn) as Hpo.
  pose proof (ni_pending_len lost n Hn) as Hpl.
  rewrite Ep in Hpk, Hpo, Hpl. apply Forall_cons in Hpk as [Htx Hrest].
  apply Forall_cons in Hpo as [Hheld Hown]. cbn [length] in Hpl.
  apply wp_bind, wp_modify, wp_bind, wp_bind.
  apply (wp_engine_send lost); try apply Htx; try done.
  { destruct Hn. split; cbn; try done. lia. }
  intros r n1 Hn1 Hcfs Hpd Hfs.
  assert (Hback : forall n2, net_inv_x lost n2 -> io_step n1 n2 -> net_inv_x lost
      (set_pending_transport_tx (pending_transport_tx n2 ++ [tx]) n2)).
  { intros n2 Hn2 Hio. apply pending_push; try done.
    - by rewrite (io_cfs _ _ Hio), Hcfs.
    - rewrite (io_pending _ _ Hio), Hpd. cbn. lia. }
  destruct r as [fs|e].
  - eapply (wp_outputs _ lost); [by apply outputs_send_frames, Hfs|done|].
    intros [u|e] n2 Hn2 Hio; [by apply wp_ret|]. case_match; [|by apply wp_ret].
    by apply wp_modify, Hback.
  - apply wp_ret. case_match; [|by apply wp_ret]. by apply wp_modify, Hback.
Qed.

Lemma keeps_start_ready : keeps (start_ready_pending_transport (E:=E)).
Proof. apply keeps_get. intros n. apply keeps_for_each. intros _ _. apply keeps_start_one. Qed.

(** ** The poll *)

Lemma bus_loads_list e (l : list (Z * BusLoad)) :
  in_u 32 e -> Forall (fun x => bus_load_wf x.2) l ->
  exists l', mapM (fun '(port, bl) => bl ← bl_update e bl; Some (port, bl)) l = Some l' /\
    Forall (fun x => bus_load_wf x.2) l'.
Proof.
  intros He. induction 1 as [|[port bl] l Hbl _ (l' & Hl & Hw)]; simpl; [by exists []|].
  destruct (bus_load_update_refines_aux bl e Hbl He) as (bl' & -> & Hbl' & _).
  rewrite Hl. simpl. eexists. split; [done|]. by constructor.
Qed.

Lemma keeps_bus_loads e : in_u 32 e -> keeps (bus_loads_update (E:=E) e).
Proof.
  intros He lost n Hn. unfold bus_loads_update. apply wp_bind, wp_get.
  case_match; [|by apply wp_ret].
  destruct (bus_loads_list e (map_to_list (bus_loads n))) as (l & Hl & Hw); [done| |].
  { apply Forall_forall. intros [p bl] Hin%elem_of_map_to_list. by eapply (ni_bus lost n Hn). }
  apply wp_bind. eapply wp_lift; [exact Hl|]. apply wp_modify. destruct Hn. split; cbn; try done.
  intros p bl Hp%elem_of_list_to_map_2. exact (proj1 (Forall_forall _ _) Hw (p, bl) Hp).
Qed.

Lemma keeps_update e : in_u 32 e -> keeps (net_update (E:=E) e).
Proof.
  intros He. unfold net_update. apply keeps_bind.
  { apply keeps_partners. intros i p Hp. pose proof (update_validation_ok e p He Hp).
    by destruct (update_claim_validation e p). }
  intros _. apply keeps_bind; [apply keeps_modify; intros lost n []; by split|].
  intros _. intros lost n Hn. apply wp_bind, wp_get, wp_bind.
  eapply wp_mono; [|by apply (keeps_drain_ports lost)]. intros rx n1 [Hrx Hn1].
  clear n Hn. revert lost n1 Hn1.
  apply keeps_bind.
  { apply keeps_for_each. intros [port f] Hin.
    apply keeps_feed. by eapply (proj1 (Forall_forall _ _) Hrx _ Hin). }
  intros _. apply keeps_bind; [by apply keeps_tp_tick|].
  intros _. apply keeps_bind; [by apply keeps_etp_tick|].
  intros _ lost n1 Hn1. apply wp_bind, wp_get.
  destruct (fp_update_spec_aux (net_fast_packet n1) e (ni_fp lost n1 Hn1) He)
    as (fp & Hfp & Hw & _).
  apply wp_bind. eapply wp_lift; [exact Hfp|]. apply wp_bind, wp_modify.
  assert (Hn2 : net_inv_x lost (set_fast_packet fp n1)) by (destruct Hn1; by split).
  revert Hn2. generalize (set_fast_packet fp n1). clear n1 Hn1 Hfp. revert lost.
  apply keeps_bind; [apply keeps_completions|].
  intros _. apply keeps_bind; [apply keeps_start_ready|].
  intros _ lost n1 Hn1. apply wp_bind.
  eapply (wp_run_cfs lost); [done|intros; by apply update_step_ok|].
  intros os n2 Hn2 Hfr _. apply wp_bind.
  eapply wp_mono; [|by apply (wp_discontinue_each lost)]. intros [] n3 Hn3. apply wp_bind.
  eapply (wp_outputs _ lost); [by apply outputs_send_all|done|]. intros _ n4 Hn4 _.
  by apply keeps_bus_loads.
Qed.

(** ** Configuration and claiming *)

Lemma name_eqb_eq (a b : Name.t) : Name.eqb a b = true <-> a = b.
Proof.
  destruct a, b. unfold Name.eqb. rewrite Z.eqb_eq. cbn. split; [by intros ->|by intros [= ->]].
Qed.

Lemma keeps_create_internal name port preferred :
  Name.wf name -> in_u 8 preferred -> keeps (create_internal (E:=E) name port preferred).
Proof.
  intros Hnm Hp lost n Hn. unfold create_internal. apply wp_bind, wp_get.
  destruct (existsb _ _) eqn:Ex; [by apply wp_ret|].
  destruct (ni_timeout lost n Hn) as [Ht0 Ht1].
  destruct (cf_ok_new (address_claim_timeout_ms (net_config n)) name port preferred Ht0 Ht1 Hnm Hp)
    as (c & Hc & Hok).
  apply wp_bind. eapply wp_lift; [exact Hc|]. apply wp_bind, wp_modify, wp_ret.
  set (cf := InternalCf_new name port preferred) in *.
  assert (Hmono : forall p a, held_or_lost lost (internal_cfs n) p a ->
      held_or_lost lost (internal_cfs n ++ [cf]) p a).
  { intros p a. apply held_mono; [|done]. intros (cf' & Hin & ?). left. exists cf'.
    split; [set_solver|done]. }
  destruct Hn. split; cbn; try done.
  - by apply Forall2_app; [|constructor].
  - rewrite fmap_app. apply NoDup_app. split_and!; [done| |apply NoDup_singleton].
    intros x Hx Hin%list_elem_of_singleton. subst.
    apply list_elem_of_fmap in Hx as (cf' & Hnm' & Hin').
    assert (Hxt : existsb (fun cf => Name.eqb (icf_name cf) name) (internal_cfs n) = true).
    { apply existsb_exists. exists cf'. split; [by apply list_elem_of_In|].
      by apply name_eqb_eq. }
    congruence.
  - by eapply owned_mono.
  - by eapply owned_mono.
  - eapply Forall_impl; [exact ni_pending_owned|]. intros tx. apply Hmono.
Qed.

Lemma keeps_create_partner port filters : keeps (create_partner (E:=E) port filters).
Proof.
  intros lost n Hn. apply wp_bind, wp_get, wp_bind, wp_modify, wp_ret. destruct Hn.
  split; cbn; try done. apply Forall_app. split; [done|].
  apply Forall_singleton, partner_ok_new.
Qed.

Lemma keeps_set_endpoint port (ep : E) : keeps (set_endpoint port ep).
Proof.
  apply keeps_modify. intros lost n Hn. cbn. case_match; [|destruct Hn; by split].
  destruct Hn. split; cbn; try done. apply map_Forall_insert_2; [|done].
  destruct (bus_loads n !! port) as [bl|] eqn:Eb; cbn; [by eapply ni_bus|apply bus_load_wf_new].
Qed.

(** Claiming restarts cleanly only when every online function asks for an address it may
    claim; see [restart_keeps_sessions] for the other case. *)
Definition restartable (n : IsoNet) : Prop :=
  Forall (fun cf => cf_state (icf_cf cf) = CfState.Online ->
            preferred_address cf <= MAX_ADDRESS) (internal_cfs n).

Lemma start_step_ok c cf :
  cf_ok c cf -> (cf_state (icf_cf cf) = CfState.Online -> preferred_address cf <= MAX_ADDRESS) ->
  cf_step_ok cf (claim_step (claimer_start c cf)).
Proof.
  intros Hok Hpref. pose proof (claimer_start_ok c cf Hok) as Hs.
  pose proof (claim_step_frames cf _ Hs) as Hfr. revert Hs Hfr.
  unfold claimer_start. rewrite !cf_transition_eq.
  destruct (Z.ltb_spec MAX_ADDRESS (preferred_address cf)); intros (Hk & Hnm & Hpt & _) Hfr;
    split_and!; try done; intros Hon; [|by left].
  specialize (Hpref Hon). lia.
Qed.

Lemma wp_start_claiming lost (n : IsoNet) :
  net_inv_x lost n -> restartable n -> wp start_address_claiming (fun _ => net_inv_x lost) n.
Proof.
  intros Hn Hr. apply wp_bind, wp_get. destruct (claimers n); [by apply wp_ret|].
  apply wp_bind. eapply (wp_run_cfs_quiet lost); [done| |intros; apply claim_step_quiet|].
  { intros c cf Hin Hok. apply start_step_ok; [done|].
    by eapply (proj1 (Forall_forall _ _) Hr). }
  intros os n1 Hn1 Hfr. apply wp_bind.
  eapply (wp_outputs _ lost); [by apply outputs_send_all|done|]. by intros; apply wp_ret.
Qed.

Lemma keeps_responses : keeps (send_address_claim_responses (E:=E)).
Proof.
  intros lost n Hn. apply wp_bind, wp_get. destruct (claimers n); [by apply wp_ret|].
  apply wp_bind. eapply (wp_run_cfs_quiet lost); [done| |intros; apply claim_step_quiet|].
  { intros. by apply response_step_ok. }
  intros os n1 Hn1 Hfr. apply wp_bind.
  eapply (wp_outputs _ lost); [by apply outputs_send_all|done|]. by intros; apply wp_ret.
Qed.

Lemma net_inv_new config :
  0 <= address_claim_timeout_ms config ->
  address_claim_timeout_ms config + ADDRESS_CLAIM_RTXD_MAX_MS < 2 ^ 32 ->
  net_inv (IsoNet_new (E:=E) config).
Proof.
  intros H0 H1. split; try done.
  - constructor.
  - apply tp_wf_new.
  - apply etp_wf_new.
  - split; [constructor|constructor|done].
  - cbn [bus_loads IsoNet_new]. case_match; [|apply map_Forall_empty].
    intros p bl (i & [= -> ->] & _)%elem_of_list_to_map_2%list_elem_of_fmap.
    apply bus_load_wf_new.
  - cbn. unfold MAX_PENDING_TRANSPORT_TX. lia.
Qed.
End safety.
