(* ===== verification/NetworkProps.v ===== *)
(** The theorems of the network manager.

    [NetOp] lists its public calls and [net_reachable] the states they lead to.  From every
    such state each call returns (or a 64-bit frame counter is full), and every transport
    session and queued transfer runs from an address an online local control function
    holds on that port. *)
From stdpp Require Import gmap.
From S2P Require Export NetworkSafety.
#[local] Open Scope Z_scope.

Section props.
Context {E : Type} `{!CanEndpoint E} `{!Allocator}.
Abbreviation IsoNet := (IsoNet (E:=E)).
Abbreviation M := (M (E:=E)).

(** ** Calls and reachable states *)

Inductive NetOp : Type :=
| DoCreateInternal (name : Name.t) (port : Z) (preferred : Address)
| DoCreatePartner (port : Z) (filters : list NameFilter)
| DoSetEndpoint (port : Z) (ep : E)
| DoRegisterPgn (pgn : Pgn) (id : nat)
| DoRegisterFastPacket (pgn : Pgn)
| DoCaptureOutbound (enabled : bool)
| DoTakeOutbound
| DoCaptureMessages (enabled : bool)
| DoTakeMessage
| DoSend (pgn : Pgn) (data : list Z) (src : nat) (dst : Address) (priority : Priority.t)
| DoFrame (frame : Frame) (port : Z)
| DoFeed (frame : Frame) (port : Z)
| DoInject (msg : Message)
| DoStartClaiming
| DoClaimResponses
| DoUpdate (elapsed_ms : Z).

Definition discard {A} (m : M A) : M unit := _ ← m; mret tt.

Definition run_op (op : NetOp) : M unit :=
  match op with
  | DoCreateInternal name port preferred => discard (create_internal name port preferred)
  | DoCreatePartner port filters => discard (create_partner port filters)
  | DoSetEndpoint port ep => set_endpoint port ep
  | DoRegisterPgn pgn id => discard (register_pgn_callback pgn id)
  | DoRegisterFastPacket pgn => discard (register_fast_packet_pgn pgn)
  | DoCaptureOutbound enabled => set_capture_outbound_mode enabled
  | DoTakeOutbound => discard take_outbound
  | DoCaptureMessages enabled => set_capture_messages_mode enabled
  | DoTakeMessage => discard take_message
  | DoSend pgn data src dst priority => discard (net_send pgn data src dst priority)
  | DoFrame frame port => net_process_frame frame port
  | DoFeed frame port => feed frame port
  | DoInject msg => inject_message msg
  | DoStartClaiming => discard start_address_claiming
  | DoClaimResponses => discard send_address_claim_responses
  | DoUpdate elapsed_ms => net_update elapsed_ms
  end.

(** Arguments are values of their Rust types; claiming is restarted only when every online
    function has a claimable preferred address. *)
Definition op_ok (n : IsoNet) (op : NetOp) : Prop :=
  match op with
  | DoCreateInternal name _ preferred => Name.wf name /\ in_u 8 preferred
  | DoSend pgn data _ dst _ =>
      in_u 32 pgn /\ in_u 8 dst /\ bytes data /\ in_u 32 (Z.of_nat (length data))
  | DoFrame frame _ | DoFeed frame _ => FrameOps.wf frame
  | DoStartClaiming => restartable n
  | DoUpdate elapsed_ms => in_u 32 elapsed_ms
  | _ => True
  end.

Definition config_ok (config : NetworkConfig) : Prop :=
  0 <= address_claim_timeout_ms config /\
  address_claim_timeout_ms config + ADDRESS_CLAIM_RTXD_MAX_MS < 2 ^ 32.

Inductive net_reachable (config : NetworkConfig) : IsoNet -> Prop :=
| reach_new : net_reachable config (IsoNet_new config)
| reach_step n op n' :
    net_reachable config n -> op_ok n op -> run_op op n = Ok (tt, n') ->
    net_reachable config n'.

Lemma keeps_discard {A} (m : M A) : keeps m -> keeps (discard m).
Proof. intros. apply keeps_bind; [done|]. intros _. apply keeps_ret. Qed.

Lemma wp_discard {A} (m : M A) P n :
  wp m (fun _ => P) n -> wp (discard m) (fun _ => P) n.
Proof. intros Hm. apply wp_bind. eapply wp_mono; [|exact Hm]. intros a n' H'. by apply wp_ret. Qed.

(** The configuration calls touch no field the invariant constrains. *)
Lemma keeps_config op :
  match op with
  | DoRegisterPgn _ _ | DoRegisterFastPacket _ | DoCaptureOutbound _ | DoTakeOutbound
  | DoCaptureMessages _ | DoTakeMessage => keeps (run_op op)
  | _ => True
  end.
Proof.
  destruct op; try done; cbn [run_op].
  - apply keeps_discard. unfold register_pgn_callback. case_match; [apply keeps_ret|].
    apply keeps_bind; [|intros _; apply keeps_ret]. apply keeps_modify. intros lost n []. by split.
  - apply keeps_discard. unfold register_fast_packet_pgn. case_match; [apply keeps_ret|].
    apply keeps_bind; [|intros _; apply keeps_ret]. apply keeps_modify.
    intros lost n Hn. case_match; [done|]. destruct Hn. by split.
  - apply keeps_modify. intros lost n []. by split.
  - apply keeps_discard, keeps_get. intros n. case_match; [apply keeps_ret|].
    apply keeps_bind; [|intros _; apply keeps_ret]. apply keeps_modify. intros lost n' []. by split.
  - apply keeps_modify. intros lost n []. case_match; by split.
  - apply keeps_discard, keeps_get. intros n. case_match; [apply keeps_ret|].
    apply keeps_bind; [|intros _; apply keeps_ret]. apply keeps_modify. intros lost n' []. by split.
Qed.

Lemma run_op_safe op (n : IsoNet) :
  net_inv n -> op_ok n op -> wp (run_op op) (fun _ => net_inv) n.
Proof.
  intros Hn Hop. pose proof (keeps_config op) as Hc. unfold net_inv in *.
  destruct op; cbn [run_op op_ok] in *; try (by apply Hc).
  - by apply keeps_discard, Hn; apply keeps_create_internal; apply Hop.
  - by apply (keeps_discard _ (keeps_create_partner _ _)).
  - by apply keeps_set_endpoint.
  - destruct Hop as (Hp & Hd & Hb & Hl).
    by apply (keeps_discard _ (keeps_send pgn data src dst priority Hp Hd Hb Hl)).
  - by apply keeps_process_frame.
  - by apply keeps_feed.
  - by apply (outputs_keeps _ (outputs_dispatch _)).
  - by apply wp_discard, wp_start_claiming.
  - by apply (keeps_discard _ keeps_responses).
  - by apply keeps_update.
Qed.

Lemma reachable_inv config n : config_ok config -> net_reachable config n -> net_inv n.
Proof.
  intros [H0 H1]. induction 1 as [|n op n' _ IH Hop Hrun]; [by apply net_inv_new|].
  pose proof (run_op_safe op n IH Hop) as Hs. unfold wp in Hs. by rewrite Hrun in Hs.
Qed.



(** ** Frames between other nodes *)

(** The transfers in progress are the same. *)
Record same_transfers (n n' : IsoNet) : Prop := {
  st_tp : net_tp n' = net_tp n;
  st_etp : net_etp n' = net_etp n;
  st_fp : net_fast_packet n' = net_fast_packet n;
  st_pending : pending_transport_tx n' = pending_transport_tx n;
  st_tp_done : tp_completions n' = tp_completions n;
  st_etp_done : etp_completions n' = etp_completions n;
  st_cfs : internal_cfs n' = internal_cfs n
}.

Lemma same_transfers_io n n' : io_step n n' -> same_transfers n n'.
Proof. by intros []. Qed.

Lemma same_transfers_trans n1 n2 n3 :
  same_transfers n1 n2 -> same_transfers n2 n3 -> same_transfers n1 n3.
Proof. intros [] []. split; congruence. Qed.

Lemma each_cf_same step cfs cls :
  (forall cf c, (step cf c).1.1 = cf) -> (each_cf step cfs cls).1.1 = cfs.
Proof.
  intros Hs. revert cls. induction cfs as [|cf cfs IH]; intros [|c cls]; simpl; try done.
  specialize (Hs cf c). destruct (step cf c) as [[cf' c'] o]. simpl in Hs. subst.
  specialize (IH cls). destruct (each_cf step cfs cls) as [[cfs' cls'] os]. simpl in *. by subst.
Qed.

Lemma violation_same src port cf c : (violation_step src port cf c).1.1 = cf.
Proof.
  unfold violation_step. case_match; [|done]. pose proof (request_keeps_cf c cf) as Hk.
  destruct (handle_request_for_claim c cf) as [[[c' cf'] fs] evs]. cbn in *. by subst.
Qed.

(** Calls that deliver no message to the application. *)
Definition silent {A} (m : M A) : Prop :=
  forall n, match m n with
            | Ok (_, n') => captured_messages n' = captured_messages n
            | Err _ => True
            end.

Lemma silent_ret {A} (a : A) : silent (mret a).
Proof. done. Qed.

Lemma silent_bind {A B} (m : M A) (k : A -> M B) :
  silent m -> (forall a, silent (k a)) -> silent (m ≫= k).
Proof.
  intros Hm Hk n. specialize (Hm n). unfold mbind, net_bind.
  destruct (m n) as [[a n1]|]; [|done]. specialize (Hk a n1).
  destruct (k a n1) as [[b n2]|]; [congruence|done].
Qed.

Lemma silent_get {A} (k : IsoNet -> M A) : (forall n, silent (k n)) -> silent (n ← get_net; k n).
Proof. intros Hk. apply silent_bind; [by intros n|done]. Qed.

Lemma silent_modify (f : IsoNet -> IsoNet) :
  (forall n, captured_messages (f n) = captured_messages n) -> silent (modify f).
Proof. intros Hf n. apply Hf. Qed.

Lemma silent_for_each {A} (f : A -> M unit) l : (forall x, silent (f x)) -> silent (for_each f l).
Proof.
  intros Hf. induction l as [|x l IH]; simpl; [apply silent_ret|]. by apply silent_bind.
Qed.

Lemma silent_bus_load port len : silent (modify (bus_load_add (E:=E) port len)).
Proof. apply silent_modify. intros n. unfold bus_load_add. by repeat case_match. Qed.

Lemma silent_count_sent : silent (count_sent (E:=E)).
Proof. intros n. unfold count_sent. by destruct (checked_add _ _ _). Qed.

Lemma silent_count_received : silent (count_received (E:=E)).
Proof. intros n. unfold count_received. by destruct (checked_add _ _ _). Qed.

Lemma silent_best_effort fs port : silent (send_frames_best_effort (E:=E) fs port).
Proof.
  apply silent_for_each. intros f. apply silent_bind; [|intros; apply silent_ret].
  apply silent_get. intros n0. destruct (capture_outbound n0).
  - apply silent_bind; [by apply silent_modify|intros _].
    apply silent_bind; [apply silent_count_sent|intros _].
    apply silent_bind; [apply silent_bus_load|intros _]. apply silent_ret.
  - destruct (endpoints n0 !! port) as [ep|]; [|apply silent_ret].
    destruct (ep_send ep _) as [ep' r].
    apply silent_bind; [by apply silent_modify|intros _]. destruct r; [|apply silent_ret].
    apply silent_bind; [apply silent_count_sent|intros _].
    apply silent_bind; [apply silent_bus_load|intros _]. apply silent_ret.
Qed.

Lemma silent_violation f port : silent (check_address_violation (E:=E) f port).
Proof.
  unfold check_address_violation. case_match; [apply silent_ret|].
  apply silent_get. intros n0. case_match; [apply silent_ret|]. apply silent_bind.
  { intros n. unfold run_cfs. by destruct (each_cf _ _ _) as [[? ?] ?]. }
  intros os. case_match; [|apply silent_ret].
  apply silent_bind; [by apply silent_modify|intros _].
  apply silent_bind; [by apply silent_modify|intros _]. apply silent_best_effort.
Qed.

Lemma wp_silent {A} (m : M A) (P : A -> IsoNet -> Prop) n :
  silent m -> wp m P n ->
  wp m (fun a n' => P a n' /\ captured_messages n' = captured_messages n) n.
Proof. intros Hm Hw. specialize (Hm n). unfold wp in *. destruct (m n) as [[a n']|[|]]; done. Qed.

Lemma wp_violation f port (n : IsoNet) :
  net_inv n ->
  wp (check_address_violation f port) (fun _ n' => net_inv n' /\ same_transfers n n') n.
Proof.
  intros Hn. unfold check_address_violation. case_match; [by apply wp_ret|].
  apply wp_bind, wp_get. case_match; [by apply wp_ret|]. apply wp_bind.
  unfold run_cfs, wp at 1.
  pose proof (each_cf_same (violation_step (FrameOps.source f) port) (internal_cfs n) (claimers n)
    (violation_same _ _)) as Hsame.
  pose proof (wp_run_cfs_quiet [] (violation_step (FrameOps.source f) port)
    (fun os n' => net_inv n' /\ Forall (fun pf => FrameOps.wf pf.2) (os ≫= o_frames)) n Hn) as Hq.
  unfold wp, run_cfs in Hq.
  destruct (each_cf _ _ _) as [[cfs' cls'] os]. simpl in Hsame. subst cfs'.
  destruct Hq as [Hn1 Hfr]; [intros; by apply violation_step_ok| |done|].
  { intros c cf. unfold violation_step. case_match; [|done].
    by destruct (claim_step _) as [[? ?] ?]. }
  set (n1 := set_trace _ _) in *. assert (Hst : same_transfers n n1) by (by split).
  case_match; [|by apply wp_ret]. apply wp_bind, wp_modify, wp_bind.
  eapply (wp_outputs _ []); [apply outputs_emit|by destruct Hn1; split|].
  intros _ n2 Hn2 Hio2. eapply (wp_outputs _ []); [by apply outputs_best_effort, frames_snd|done|].
  intros _ n3 Hn3 Hio3. split; [done|].
  eapply same_transfers_trans; [|by apply same_transfers_io].
  eapply same_transfers_trans; [|by apply same_transfers_io]. by destruct Hst; split.
Qed.

(** C7: A transport frame between two other nodes changes no transfer and delivers nothing: the
    session tables, the queue, the control functions and the captured messages are what
    they were, even when the frame abuses one of our source addresses. *)
Theorem net_third_party_frames config n f port :
  config_ok config -> net_reachable config n -> FrameOps.wf f ->
  FrameOps.pgn f ∈ [PGN_TP_CM; PGN_TP_DT; PGN_ETP_CM; PGN_ETP_DT] ->
  is_addressed_to_us n f port = false ->
  match net_process_frame f port n with
  | Ok (_, n') => same_transfers n n' /\ captured_messages n' = captured_messages n
  | Err EnginePanic => False
  | Err (CounterExhausted _) => True
  end.
Proof.
  intros Hc Hr Hf Hpgn Ha. pose proof (reachable_inv config n Hc Hr) as Hn.
  cut (wp (net_process_frame f port) (fun _ n' => same_transfers n n' /\
         captured_messages n' = captured_messages n) n).
  { unfold wp. by destruct (net_process_frame f port n) as [[u n']|[|]]. }
  assert (FrameOps.pgn f =? PGN_ADDRESS_CLAIMED = false /\ FrameOps.pgn f =? PGN_REQUEST = false /\
    ((FrameOps.pgn f =? PGN_TP_CM) || (FrameOps.pgn f =? PGN_TP_DT) ||
     ((FrameOps.pgn f =? PGN_ETP_CM) || (FrameOps.pgn f =? PGN_ETP_DT))) = true) as (H1 & H2 & H3).
  { rewrite !elem_of_cons in Hpgn. destruct Hpgn as [->|[->|[->|[->|Hx]]]]; try done.
    by apply elem_of_nil in Hx. }
  unfold net_process_frame. apply wp_bind.
  eapply wp_mono; [|apply (wp_silent _ _ _ silent_count_received (wp_count_received [] n Hn))].
  intros _ n1 [[Hn1 Hio1] Hcap1]. rewrite H1, H2. apply wp_bind, wp_ret, wp_bind.
  eapply wp_mono; [|apply (wp_silent _ _ _ (silent_violation f port) (wp_violation f port n1 Hn1))].
  intros _ n2 [[Hn2 Hst] Hcap2]. unfold route_frame. apply wp_bind, wp_get.
  assert (is_addressed_to_us n2 f port = false) as ->.
  { unfold is_addressed_to_us in *. by rewrite (st_cfs _ _ Hst), (io_cfs _ _ Hio1). }
  rewrite H3. apply wp_ret. split; [|congruence].
  eapply same_transfers_trans; [by apply same_transfers_io|done].
Qed.

(** ** Starting and queueing transfers *)

Lemma send_frame_captured f port (n : IsoNet) :
  capture_outbound n = true -> net_frames_sent n + 1 < 2 ^ 64 ->
  exists n', send_frame f port n = Ok (Ok tt, n') /\ same_transfers n n' /\
    outbound n' = outbound n ++ [(port, f)] /\ net_frames_sent n' = net_frames_sent n + 1.
Proof.
  intros Hcap Hs. unfold send_frame, mbind, net_bind, get_net, modify. rewrite Hcap.
  unfold count_sent at 1. cbn [net_frames_sent set_outbound]. rewrite checked_add_Some by done.
  unfold bus_load_add. eexists. split; [reflexivity|].
  repeat case_match; (split; [by split|done]).
Qed.

Lemma sent_address (icf : InternalCf) lost (n : IsoNet) :
  net_inv_x lost n -> icf ∈ internal_cfs n -> cf_state (icf_cf icf) = CfState.Online ->
  address_valid (icf_cf icf) = true /\ valid_tp_source (icf_address icf) = true.
Proof.
  intros Hn Hin Hon. pose proof (holds_local lost n icf Hn Hin Hon) as [[? ?] _].
  unfold address_valid, valid_tp_source. fold (icf_address icf).
  rewrite (proj2 (Z.leb_le _ _)) by done. split; [done|].
  unfold NULL_ADDRESS, BROADCAST_ADDRESS, MAX_ADDRESS in *. by repeat (case_bool; try lia).
Qed.


(** ** Draining the driver *)

(** [drains e l e']: reading until the driver has nothing left yields [l]. *)
Inductive drains : E -> list CanFrame.t -> E -> Prop :=
| drains_empty e e' : ep_recv e = (e', None) -> drains e [] e'
| drains_frame e e' cf l e'' :
    ep_recv e = (e', Some cf) -> drains e' l e'' -> drains e (cf :: l) e''.

Lemma drain_endpoint_drains fuel (ep : E) :
  (ep_waiting ep < fuel)%nat ->
  exists l, drains ep l (drain_endpoint fuel ep).1 /\
    (drain_endpoint fuel ep).2 = omap FrameOps.from_can_frame l.
Proof.
  revert ep. induction fuel as [|fuel IH]; intros ep Hw; [lia|]. simpl.
  destruct (ep_recv ep) as [ep' [cf|]] eqn:Er.
  - pose proof (ep_recv_waiting ep ep' cf Er). destruct (IH ep') as (l & Hd & Hl); [lia|].
    destruct (drain_endpoint fuel ep') as [ep'' frames]. simpl in *. exists (cf :: l).
    split; [by econstructor|]. simpl. by rewrite Hl; destruct (FrameOps.from_can_frame cf).
  - exists []. split; [by constructor|done].
Qed.

Lemma drains_unique e l e' l' e'' : drains e l e' -> drains e l' e'' -> l = l' /\ e' = e''.
Proof.
  intros H1. revert l' e''. induction H1 as [e e' Hr|e e' cf l e'' Hr _ IH]; intros l2 e2 H2;
    inversion H2 as [? ? Hr'|? ? ? ? ? Hr' Hd]; rewrite Hr in Hr'; simplify_eq; [done|].
  by destruct (IH _ _ Hd) as [-> ->].
Qed.

End props.

(** ** Runs *)

Section runs.
Context {E : Type} `{!CanEndpoint E} `{!Allocator}.
Abbreviation IsoNet := (IsoNet (E:=E)).

Fixpoint run_ops (ops : list NetOp) (n : IsoNet) : option IsoNet :=
  match ops with
  | [] => Some n
  | op :: ops => match run_op op n with Ok (_, n) => run_ops ops n | Err _ => None end
  end.

(** The arguments of every call of a run are in order. *)
Fixpoint ops_ok (ops : list NetOp) (n : IsoNet) : Prop :=
  match ops with
  | [] => True
  | op :: ops =>
      op_ok n op /\ match run_op op n with Ok (_, n) => ops_ok ops n | Err _ => True end
  end.

Lemma run_ops_reachable config ops n n' :
  net_reachable config n -> ops_ok ops n -> run_ops ops n = Some n' -> net_reachable config n'.
Proof.
  revert n. induction ops as [|op ops IH]; intros n Hn Hok Hrun; simpl in *; [by simplify_eq|].
  destruct Hok as [Hop Hok]. destruct (run_op op n) as [[[] n1]|] eqn:Er; [|done].
  eapply IH; [|done|done]. by eapply reach_step.
Qed.
End runs.

(** A manager without driver, one control function claimed at 0x80 on port 0. *)
Definition sample_name : Name.t := Name.from_raw 5.
Definition sample_ops : list (NetOp (E:=unit)) :=
  [DoCreateInternal sample_name 0 0x80; DoCaptureOutbound true; DoStartClaiming;
   DoUpdate 300; DoUpdate 500].
Definition sample_net : IsoNet (E:=unit) :=
  default (IsoNet_new NetworkConfig_default)
    (run_ops (H := granting) sample_ops (IsoNet_new NetworkConfig_default)).

Lemma sample_config : config_ok NetworkConfig_default.
Proof. by vm_compute. Qed.

Lemma sample_reachable : net_reachable (H := granting) NetworkConfig_default sample_net.
Proof.
  eapply (run_ops_reachable (H := granting) _ sample_ops); [apply reach_new| |by vm_compute].
  vm_compute; split_and!; try done. repeat constructor. done.
Qed.



(** A connection request from node 0x21 to node 0x22. *)
Definition foreign_rts : Frame :=
  FrameOps.new8 (Identifier.encode Priority.Lowest PGN_TP_CM 0x21 0x22)
    [16; 9; 0; 2; 16; 0xEC; 0xFE; 0].

Lemma foreign_rts_facts :
  FrameOps.wf foreign_rts /\ FrameOps.pgn foreign_rts = PGN_TP_CM /\
  is_addressed_to_us sample_net foreign_rts 0 = false.
Proof.
  split_and!; [|by vm_compute..]. apply wf_new8; [by unfold in_u..|done|].
  by (repeat (apply Forall_cons; split; [by unfold in_u|])).
Qed.

Lemma net_third_party_frames_witness :
  match net_process_frame (H := granting) foreign_rts 0 sample_net with
  | Ok (_, n') => same_transfers sample_net n'
  | Err _ => False
  end.
Proof.
  destruct foreign_rts_facts as (Hf & Hpgn & Ha).
  assert (Hin : FrameOps.pgn foreign_rts ∈ [PGN_TP_CM; PGN_TP_DT; PGN_ETP_CM; PGN_ETP_DT])
    by (rewrite Hpgn; by left).
  pose proof (net_third_party_frames (H := granting) NetworkConfig_default sample_net foreign_rts 0
    sample_config sample_reachable Hf Hin Ha) as Hs.
  destruct (net_process_frame foreign_rts 0 sample_net) as [[u n']|e] eqn:Er; [apply Hs|].
  by vm_compute in Er.
Defined.

Definition nine : list Z := [1; 2; 3; 4; 5; 6; 7; 8; 9].

Lemma nine_ok : op_ok sample_net (DoSend 0xFEEC nine 0 0x20 Priority.Default).
Proof.
  split_and!; try (by unfold in_u). by (repeat (apply Forall_cons; split; [by unfold in_u|])).
Qed.


(** ** Behaviours the code most likely does not intend *)

(** Two control functions, on port 0 and on port 1, both at address 0x80: separate buses, so
    no conflict. *)
Definition two_port_ops : list (NetOp (E:=unit)) :=
  [DoCreateInternal (Name.from_raw 5) 0 0x80; DoCreateInternal (Name.from_raw 6) 1 0x80;
   DoCaptureOutbound true; DoStartClaiming; DoUpdate 500; DoUpdate 500;
   DoSend 0xFEEC nine 1 BROADCAST_ADDRESS Priority.Default; DoUpdate 60].

Definition two_ports : NetworkConfig := config_ports 2 NetworkConfig_default.

(** The data packets of a transfer go out on the port of the first control function with
    the sender's address.  With the same address in use on two ports, the function on port
    1 announces its broadcast on port 1 and sends the data on port 0. *)
Theorem transfer_data_on_wrong_port :
  exists n, run_ops (H := granting) two_port_ops (IsoNet_new two_ports) = Some n /\
    ops_ok (H := granting) two_port_ops (IsoNet_new two_ports) /\
    (fst <$> filter (fun pf => FrameOps.pgn pf.2 = PGN_TP_CM) (outbound n)) = [1] /\
    (fst <$> filter (fun pf => FrameOps.pgn pf.2 = PGN_TP_DT) (outbound n)) = [0].
Proof.
  destruct (run_ops (H := granting) two_port_ops (IsoNet_new two_ports)) as [n|] eqn:Er;
    [|by vm_compute in Er].
  exists n. split; [done|]. split.
  - clear Er. vm_compute; split_and!; try done; repeat constructor; try done; discriminate.
  - vm_compute in Er. injection Er as <-. split; vm_compute; reflexivity.
Qed.

(** A node configured without a preferred address (254) that a tool has given address 0x80
    by a commanded-address broadcast. *)
Definition commanded_ops : list (NetOp (E:=unit)) :=
  let tp pgn data := FrameOps.new8 (Identifier.encode Priority.Lowest pgn 0x21 0xFF) data in
  [DoCreateInternal sample_name 0 0xFE; DoCaptureOutbound true; DoStartClaiming;
   DoFrame (tp PGN_TP_CM [32; 9; 0; 2; 0xFF; 0xD8; 0xFE; 0]) 0;
   DoFrame (tp PGN_TP_DT [1; 5; 0; 0; 0; 0; 0; 0]) 0;
   DoFrame (tp PGN_TP_DT [2; 0; 0x80; 0xFF; 0xFF; 0xFF; 0xFF; 0xFF]) 0;
   DoSend 0xFEEC nine 0 BROADCAST_ADDRESS Priority.Default].

(** Restarting address claiming takes such a node offline but leaves its transfers running:
    the next update transmits from address 0x80 while the only local control function has
    announced Cannot Claim and holds the null address. *)
Theorem restart_keeps_sessions :
  exists n n', run_ops (H := granting) commanded_ops (IsoNet_new NetworkConfig_default) = Some n /\
    ops_ok (H := granting) commanded_ops (IsoNet_new NetworkConfig_default) /\
    holds_address (internal_cfs n) 0 0x80 /\
    run_ops (H := granting) [DoStartClaiming; DoUpdate 60] n = Some n' /\
    (fun cf => (cf_state (icf_cf cf), icf_address cf)) <$> internal_cfs n'
      = [(CfState.Offline, NULL_ADDRESS)] /\
    (fun pf => (FrameOps.source pf.2, FrameOps.pgn pf.2)) <$> last (outbound n')
      = Some (0x80, PGN_TP_DT).
Proof.
  destruct (run_ops (H := granting) commanded_ops (IsoNet_new NetworkConfig_default))
    as [n|] eqn:Er; [|by vm_compute in Er].
  vm_compute in Er. injection Er as <-. eexists _, _. split; [reflexivity|]. split.
  { vm_compute; split_and!; try done; repeat constructor; try done; discriminate. }
  split; [eexists; split; [by left|done]|].
  split; [vm_compute; reflexivity|]. split; vm_compute; reflexivity.
Qed.
