(* ===== verification/NiuWire.v ===== *)
(** Wire and storage formats of the network interconnection unit: the codecs of
    [src/net/niu/niu_router_policy.rs] (ISO 11783-4).

    [FilterRule] is the 22-byte storage record, [NiuNetworkMsg] the 8-byte control message,
    [NiuFilterDbResponse], [NiuTopologyMsg], [NiuConnectionRequest] and
    [NiuConnectionResponse] the other messages of PGN 0xED00. *)
From S2P Require Export Name Requests.

Definition PGN_NIU_NETWORK_MSG : Pgn := 0xED00.

Module ForwardPolicy.
Inductive t : Type := Allow | Block | Monitor.

Definition as_u8 (p : t) : Z := match p with Allow => 0 | Block => 1 | Monitor => 2 end.

Definition try_from_u8 (value : Z) : option t :=
  match value with 0 => Some Allow | 1 => Some Block | 2 => Some Monitor | _ => None end.

Definition from_u8 (value : Z) : t := default Monitor (try_from_u8 value).

#[global] Instance eq_dec : EqDecision t.
Proof. solve_decision. Defined.
End ForwardPolicy.

Inductive Side : Type := Tractor | Implement.

Definition other (s : Side) : Side :=
  match s with Tractor => Implement | Implement => Tractor end.

#[global] Instance Side_eq_dec : EqDecision Side.
Proof. solve_decision. Defined.

Module NiuFilterMode.
Inductive t : Type := BlockSpecific | PassSpecific.

Definition try_from_u8 (value : Z) : option t :=
  match value with 0 => Some BlockSpecific | 1 => Some PassSpecific | _ => None end.
End NiuFilterMode.

Module NiuFunction.
Inductive t : Type :=
| RequestFilterDb | FilterDbResponse | AddFilterEntry | DeleteFilterEntry | ClearFilterEntry
| CreateFilterEntry | AddNameQualifiedEntries | RequestSourceAddressList
| SourceAddressListResponse | RequestSourceAddressNameList | SourceAddressNameListResponse
| RequestGeneralParametrics | GeneralParametricsResponse | ResetGeneralStatistics
| RequestSpecificParametrics | SpecificParametricsResponse | ResetSpecificStatistics
| OpenConnection | OpenConnectionResponse | CloseConnection | CloseConnectionResponse.

Definition as_u8 (f : t) : Z :=
  match f with
  | RequestFilterDb => 0 | FilterDbResponse => 1 | AddFilterEntry => 2
  | DeleteFilterEntry => 3 | ClearFilterEntry => 4 | CreateFilterEntry => 6
  | AddNameQualifiedEntries => 7 | RequestSourceAddressList => 64
  | SourceAddressListResponse => 65 | RequestSourceAddressNameList => 66
  | SourceAddressNameListResponse => 67 | RequestGeneralParametrics => 128
  | GeneralParametricsResponse => 129 | ResetGeneralStatistics => 130
  | RequestSpecificParametrics => 131 | SpecificParametricsResponse => 132
  | ResetSpecificStatistics => 133 | OpenConnection => 192
  | OpenConnectionResponse => 193 | CloseConnection => 194
  | CloseConnectionResponse => 195
  end.

Definition try_from_u8 (value : Z) : option t :=
  match value with
  | 0 => Some RequestFilterDb | 1 => Some FilterDbResponse | 2 => Some AddFilterEntry
  | 3 => Some DeleteFilterEntry | 4 => Some ClearFilterEntry | 6 => Some CreateFilterEntry
  | 7 => Some AddNameQualifiedEntries | 64 => Some RequestSourceAddressList
  | 65 => Some SourceAddressListResponse | 66 => Some RequestSourceAddressNameList
  | 67 => Some SourceAddressNameListResponse | 128 => Some RequestGeneralParametrics
  | 129 => Some GeneralParametricsResponse | 130 => Some ResetGeneralStatistics
  | 131 => Some RequestSpecificParametrics | 132 => Some SpecificParametricsResponse
  | 133 => Some ResetSpecificStatistics | 192 => Some OpenConnection
  | 193 => Some OpenConnectionResponse | 194 => Some CloseConnection
  | 195 => Some CloseConnectionResponse
  | _ => None
  end.

Definition from_u8 (value : Z) : t := default RequestFilterDb (try_from_u8 value).

#[global] Instance eq_dec : EqDecision t.
Proof. solve_decision. Defined.
End NiuFunction.

(** The three bytes of an 18-bit PGN: [pgn & 0xFF], [(pgn >> 8) & 0xFF], [(pgn >> 16) & 0x03]. *)
Definition pgn3 (pgn : Pgn) : list Z :=
  [Z.land pgn 0xFF; Z.land (Z.shiftr pgn 8) 0xFF; Z.land (Z.shiftr pgn 16) 0x03].

(** [(d0 as Pgn) | ((d1 as Pgn) << 8) | (((d2 & 0x03) as Pgn) << 16)]. *)
Definition pgn_of3 (d0 d1 d2 : Z) : Pgn := le24 d0 d1 (Z.land d2 0x03).

Definition filter_pgn_error (pgn : Pgn) : Error.t :=
  Error.invalid_data ("NIU filter PGN 0x" +:+ format_hex 0 pgn +:+
    " exceeds the 18-bit J1939/ISOBUS PGN range").

(** ** [FilterRule] *)

Record FilterRule : Type := mkRule {
  r_pgn : Pgn;
  r_policy : ForwardPolicy.t;
  r_bidirectional : bool;
  r_source_name : option Name.t;
  r_destination_name : option Name.t;
  r_max_frequency_ms : Z;
  r_last_forward_time_ms : option Z;
  r_persistent : bool
}.

Definition FilterRule_new (pgn : Pgn) (policy : ForwardPolicy.t) (bidirectional : bool)
    : FilterRule := mkRule pgn policy bidirectional None None 0 None false.
Definition with_source_name (n : Name.t) (r : FilterRule) : FilterRule :=
  mkRule (r_pgn r) (r_policy r) (r_bidirectional r) (Some n) (r_destination_name r)
    (r_max_frequency_ms r) (r_last_forward_time_ms r) (r_persistent r).
Definition with_destination_name (n : Name.t) (r : FilterRule) : FilterRule :=
  mkRule (r_pgn r) (r_policy r) (r_bidirectional r) (r_source_name r) (Some n)
    (r_max_frequency_ms r) (r_last_forward_time_ms r) (r_persistent r).
Definition with_max_frequency_ms (ms : Z) (r : FilterRule) : FilterRule :=
  mkRule (r_pgn r) (r_policy r) (r_bidirectional r) (r_source_name r) (r_destination_name r)
    ms (r_last_forward_time_ms r) (r_persistent r).
Definition rule_persistent (p : bool) (r : FilterRule) : FilterRule :=
  mkRule (r_pgn r) (r_policy r) (r_bidirectional r) (r_source_name r) (r_destination_name r)
    (r_max_frequency_ms r) (r_last_forward_time_ms r) p.
(** [rule.last_forward_time_ms = t]. *)
Definition with_last_forward (t : option Z) (r : FilterRule) : FilterRule :=
  mkRule (r_pgn r) (r_policy r) (r_bidirectional r) (r_source_name r) (r_destination_name r)
    (r_max_frequency_ms r) t (r_persistent r).

Definition rule_flags (r : FilterRule) : Z :=
  let flags := Z.land (ForwardPolicy.as_u8 (r_policy r)) 0x03 in
  let flags := if r_bidirectional r then Z.lor flags 0x04 else flags in
  let flags := if r_persistent r then Z.lor flags 0x08 else flags in
  let flags := if r_source_name r then Z.lor flags 0x10 else flags in
  if r_destination_name r then Z.lor flags 0x20 else flags.

(** [name.map_or([0xFF; 8], Name::to_bytes)]. *)
Definition name_bytes (n : option Name.t) : list Z :=
  match n with Some n => Name.to_bytes n | None => replicate 8 0xFF end.

Definition rule_encode (r : FilterRule) : Result (list Z) Error.t :=
  if negb (pgn_is_valid (r_pgn r)) then Err (filter_pgn_error (r_pgn r))
  else if 0xFFFF <? r_max_frequency_ms r then
    Err (Error.invalid_data ("NIU filter max_frequency_ms " +:+ pretty (r_max_frequency_ms r)
           +:+ " exceeds the 16-bit storage field"))
  else Ok (pgn3 (r_pgn r) ++ [rule_flags r] ++ name_bytes (r_source_name r)
           ++ name_bytes (r_destination_name r)
           ++ [Z.land (r_max_frequency_ms r) 0xFF;
               Z.land (Z.shiftr (r_max_frequency_ms r) 8) 0xFF]).

(** [None] is the panic of an [unwrap]. *)
Definition rule_decode (data : list Z) : option (Result FilterRule Error.t) :=
  let err msg := Some (Err (Error.invalid_data msg)) in
  if negb (length data =? 22)%nat then err "filter rule must be exactly 22 bytes"
  else if negb (Z.land (data !!! 2%nat) (not_u 8 0x03) =? 0) then
    err "filter rule PGN high bits are reserved"
  else
    let pgn := pgn_of3 (data !!! 0%nat) (data !!! 1%nat) (data !!! 2%nat) in
    let flags := data !!! 3%nat in
    if negb (Z.land flags 0xC0 =? 0) then err "filter rule flags contain reserved bits"
    else
      match ForwardPolicy.try_from_u8 (Z.land flags 0x03) with
      | None => err "filter rule policy is reserved"
      | Some policy =>
          let bidirectional := negb (Z.land flags 0x04 =? 0) in
          let persistent := negb (Z.land flags 0x08 =? 0) in
          let has_source := negb (Z.land flags 0x10 =? 0) in
          let has_dest := negb (Z.land flags 0x20 =? 0) in
          let src := take 8 (drop 4 data) in
          let dst := take 8 (drop 12 data) in
          if negb has_source && negb (all_ff src) then
            err "filter rule absent source NAME must be padded with 0xFF"
          else if negb has_dest && negb (all_ff dst) then
            err "filter rule absent destination NAME must be padded with 0xFF"
          else
            source_name ← (if has_source then Some <$> Name.from_bytes src else Some None);
            destination_name ← (if has_dest then Some <$> Name.from_bytes dst else Some None);
            Some (Ok (mkRule pgn policy bidirectional source_name destination_name
              (Z.lor (data !!! 20%nat) (Z.shiftl (data !!! 21%nat) 8)) None persistent))
      end.

(** ** [NiuNetworkMsg] *)

Record NiuNetworkMsg : Type := mkNiuMsg {
  nm_function : NiuFunction.t;
  nm_port_number : Z;
  nm_filter_pgn : Pgn;
  nm_filter_mode : NiuFilterMode.t;
  nm_msgs_forwarded : Z;
  nm_msgs_blocked : Z
}.

Definition NiuNetworkMsg_default : NiuNetworkMsg :=
  mkNiuMsg NiuFunction.RequestFilterDb 0 0 NiuFilterMode.BlockSpecific 0 0.

Definition is_entry_function (f : NiuFunction.t) : bool :=
  match f with
  | NiuFunction.AddFilterEntry | NiuFunction.DeleteFilterEntry => true
  | _ => false
  end.

Definition niu_encode (m : NiuNetworkMsg) : Result (list Z) Error.t :=
  let head := [NiuFunction.as_u8 (nm_function m); nm_port_number m] in
  if is_entry_function (nm_function m) then
    if negb (pgn_is_valid (nm_filter_pgn m)) then Err (filter_pgn_error (nm_filter_pgn m))
    else Ok (head ++ pgn3 (nm_filter_pgn m) ++ [0xFF; 0xFF; 0xFF])
  else
    match nm_function m with
    | NiuFunction.GeneralParametricsResponse =>
        let forwarded := Z.min (nm_msgs_forwarded m) 0xFFFF in
        let blocked := Z.min (nm_msgs_blocked m) 0xFFFF in
        Ok (head ++ [Z.land forwarded 0xFF; Z.land (Z.shiftr forwarded 8) 0xFF;
                     Z.land blocked 0xFF; Z.land (Z.shiftr blocked 8) 0xFF; 0xFF; 0xFF])
    | _ => Ok (head ++ replicate 6 0xFF)
    end.

Definition niu_decode (data : list Z) : option NiuNetworkMsg :=
  if negb (length data =? 8)%nat then None
  else
    function ← NiuFunction.try_from_u8 (data !!! 0%nat);
    let port := data !!! 1%nat in
    let d i := data !!! i in
    if is_entry_function function then
      if negb (Z.land (d 4%nat) 0xFC =? 0) || negb (all_ff (drop 5 data)) then None
      else Some (mkNiuMsg function port (pgn_of3 (d 2%nat) (d 3%nat) (d 4%nat))
                   NiuFilterMode.BlockSpecific 0 0)
    else
      match function with
      | NiuFunction.GeneralParametricsResponse =>
          if negb (all_ff (drop 6 data)) then None
          else Some (mkNiuMsg function port 0 NiuFilterMode.BlockSpecific
                 (Z.lor (d 2%nat) (Z.shiftl (d 3%nat) 8)) (Z.lor (d 4%nat) (Z.shiftl (d 5%nat) 8)))
      | _ =>
          if negb (all_ff (drop 2 data)) then None
          else Some (mkNiuMsg function port 0 NiuFilterMode.BlockSpecific 0 0)
      end.

(** ** [NiuFilterDbResponse] *)

Record NiuFilterDbResponse : Type := mkFilterDb {
  fd_from_port : Z;
  fd_to_port : Z;
  fd_filter_mode : Z;
  fd_entries : list Pgn
}.

(** The loop over the entries: stops at the first PGN out of range. *)
Fixpoint encode_entries (l : list Pgn) : Result (list Z) Error.t :=
  match l with
  | [] => Ok []
  | pgn :: l =>
      if negb (pgn_is_valid pgn) then Err (filter_pgn_error pgn)
      else match encode_entries l with Ok d => Ok (pgn3 pgn ++ d) | Err e => Err e end
  end.

Definition db_encode (r : NiuFilterDbResponse) : Result (list Z) Error.t :=
  if (0x0F <? fd_from_port r) || (0x0F <? fd_to_port r) then
    Err (Error.invalid_data "NIU port numbers occupy one nibble each")
  else
    match encode_entries (fd_entries r) with
    | Err e => Err e
    | Ok d => Ok (NiuFunction.as_u8 NiuFunction.FilterDbResponse
                  :: Z.lor (wrap 8 (Z.shiftl (fd_from_port r) 4)) (fd_to_port r)
                  :: fd_filter_mode r :: d)
    end.

(** [chunks_exact(3)] over a region whose length is a multiple of three. *)
Fixpoint decode_entries (l : list Z) : option (list Pgn) :=
  match l with
  | c0 :: c1 :: c2 :: l =>
      if negb (Z.land c2 0xFC =? 0) then None
      else
        let pgn := pgn_of3 c0 c1 c2 in
        if negb (pgn_is_valid pgn) then None
        else rest ← decode_entries l; Some (pgn :: rest)
  | _ => Some []
  end.

Definition db_decode (data : list Z) : option NiuFilterDbResponse :=
  if (length data <? 3)%nat
     || negb (data !!! 0%nat =? NiuFunction.as_u8 NiuFunction.FilterDbResponse) then None
  else if negb ((length data - 3) mod 3 =? 0)%nat then None
  else
    entries ← decode_entries (drop 3 data);
    Some (mkFilterDb (Z.shiftr (data !!! 1%nat) 4) (Z.land (data !!! 1%nat) 0x0F)
            (data !!! 2%nat) entries).

(** ** [NiuTopologyMsg] *)

Record SourceAddressName : Type := mkSan { san_address : Z; san_name : Z }.

Record NiuTopologyMsg : Type := mkTopology {
  tm_function : NiuFunction.t;
  tm_port_number : Z;
  tm_entries : list SourceAddressName
}.

Definition topology_request (port_number : Z) : NiuTopologyMsg :=
  mkTopology NiuFunction.RequestSourceAddressNameList port_number [].
Definition topology_response (port_number : Z) (entries : list SourceAddressName)
    : NiuTopologyMsg :=
  mkTopology NiuFunction.SourceAddressNameListResponse port_number entries.

Definition san_bytes (e : SourceAddressName) : list Z :=
  san_address e :: Name.to_le_bytes 8 (san_name e).

Definition topology_encode (m : NiuTopologyMsg) : Result (list Z) Error.t :=
  if 14 <? tm_port_number m then
    Err (Error.with_message ErrorCode.InvalidData "NIU topology port number must be 0..=14")
  else if (255 <? length (tm_entries m))%nat then
    Err (Error.with_message ErrorCode.InvalidData "NIU topology entry count exceeds one byte")
  else
    let head := [NiuFunction.as_u8 (tm_function m);
                 Z.lor 0xF0 (Z.land (tm_port_number m) 0x0F)] in
    match tm_function m with
    | NiuFunction.RequestSourceAddressNameList => Ok (head ++ replicate 6 0xFF)
    | NiuFunction.SourceAddressNameListResponse =>
        Ok (head ++ [wrap 8 (Z.of_nat (length (tm_entries m)))] ++ (tm_entries m ≫= san_bytes))
    | _ => Err (Error.with_message ErrorCode.InvalidData "not a NIU topology function")
    end.

(** The loop reading [count] nine-byte entries. *)
Fixpoint decode_san (count : nat) (l : list Z) : list SourceAddressName :=
  match count with
  | O => []
  | S count =>
      mkSan (l !!! 0%nat) (Name.from_le_bytes (take 8 (drop 1 l))) :: decode_san count (drop 9 l)
  end.

Definition topology_decode (data : list Z) : option NiuTopologyMsg :=
  b0 ← data !! 0%nat;
  function ← NiuFunction.try_from_u8 b0;
  port_byte ← data !! 1%nat;
  if negb (Z.land port_byte 0xF0 =? 0xF0) then None
  else
    let port_number := Z.land port_byte 0x0F in
    if 14 <? port_number then None
    else
      match function with
      | NiuFunction.RequestSourceAddressNameList =>
          if negb (length data =? 8)%nat || negb (all_ff (drop 2 data)) then None
          else Some (topology_request port_number)
      | NiuFunction.SourceAddressNameListResponse =>
          b2 ← data !! 2%nat;
          let count := Z.to_nat b2 in
          if negb (length data =? 3 + count * 9)%nat then None
          else Some (topology_response port_number (decode_san count (drop 3 data)))
      | _ => None
      end.

(** ** Connection management *)

Module ConnectionFailureReason.
Inductive t : Type :=
| CannotFindCfWithName | ConnectionsToNameExceeded | ConnectionsInNiuExceeded | Busy
| RequestTypeNotSupported | NotAvailable.

Definition from_u8 (raw : Z) : option t :=
  match raw with
  | 0 => Some CannotFindCfWithName | 1 => Some ConnectionsToNameExceeded
  | 2 => Some ConnectionsInNiuExceeded | 3 => Some Busy
  | 4 => Some RequestTypeNotSupported | 255 => Some NotAvailable
  | _ => None
  end.

Definition as_u8 (r : t) : Z :=
  match r with
  | CannotFindCfWithName => 0 | ConnectionsToNameExceeded => 1
  | ConnectionsInNiuExceeded => 2 | Busy => 3 | RequestTypeNotSupported => 4
  | NotAvailable => 255
  end.
End ConnectionFailureReason.

Record NiuConnectionRequest : Type := mkConnReq {
  cr_function : NiuFunction.t;
  cr_to_port : Z;
  cr_from_port : Z;
  cr_name : Z
}.

Definition is_connection_request (f : NiuFunction.t) : bool :=
  match f with
  | NiuFunction.OpenConnection | NiuFunction.CloseConnection => true
  | _ => false
  end.

Definition conn_request_encode (m : NiuConnectionRequest) : Result (list Z) Error.t :=
  if negb (is_connection_request (cr_function m)) then
    Err (Error.with_message ErrorCode.InvalidData "not a NIU connection request function")
  else if (15 <? cr_to_port m) || (15 <? cr_from_port m) then
    Err (Error.with_message ErrorCode.InvalidData "NIU port numbers are 4-bit")
  else Ok ([NiuFunction.as_u8 (cr_function m);
            Z.lor (wrap 8 (Z.shiftl (cr_from_port m) 4)) (Z.land (cr_to_port m) 0x0F)]
           ++ Name.to_le_bytes 8 (cr_name m)).

Definition conn_request_decode (data : list Z) : option NiuConnectionRequest :=
  if negb (length data =? 10)%nat then None
  else
    function ← NiuFunction.try_from_u8 (data !!! 0%nat);
    if negb (is_connection_request function) then None
    else Some (mkConnReq function (Z.land (data !!! 1%nat) 0x0F) (Z.shiftr (data !!! 1%nat) 4)
                 (Name.from_le_bytes (take 8 (drop 2 data)))).

Record NiuConnectionResponse : Type := mkConnResp {
  cp_function : NiuFunction.t;
  cp_to_port : Z;
  cp_from_port : Z;
  cp_success : bool;
  cp_reason : ConnectionFailureReason.t
}.

Definition is_connection_response (f : NiuFunction.t) : bool :=
  match f with
  | NiuFunction.OpenConnectionResponse | NiuFunction.CloseConnectionResponse => true
  | _ => false
  end.

Definition conn_response_encode (m : NiuConnectionResponse) : Result (list Z) Error.t :=
  if negb (is_connection_response (cp_function m)) then
    Err (Error.with_message ErrorCode.InvalidData "not a NIU connection response function")
  else if (15 <? cp_to_port m) || (15 <? cp_from_port m) then
    Err (Error.with_message ErrorCode.InvalidData "NIU port numbers are 4-bit")
  else Ok [NiuFunction.as_u8 (cp_function m);
           Z.lor (wrap 8 (Z.shiftl (cp_from_port m) 4)) (Z.land (cp_to_port m) 0x0F);
           Z.lor 0xFC (if cp_success m then 1 else 0);
           ConnectionFailureReason.as_u8 (cp_reason m); 0xFF; 0xFF; 0xFF; 0xFF].

Definition conn_response_decode (data : list Z) : option NiuConnectionResponse :=
  if negb (length data =? 8)%nat then None
  else
    function ← NiuFunction.try_from_u8 (data !!! 0%nat);
    if negb (is_connection_response function) then None
    else
      reason ← ConnectionFailureReason.from_u8 (data !!! 3%nat);
      Some (mkConnResp function (Z.land (data !!! 1%nat) 0x0F) (Z.shiftr (data !!! 1%nat) 4)
              (Z.land (data !!! 2%nat) 0x03 =? 0x01) reason).
