(* ===== verification/NiuWireProofs.v ===== *)
(** The interconnection unit's formats: what is encoded decodes to the same value, and what
    decodes is the encoding of its value. *)
From S2P Require Export NiuWire.

#[local] Arguments pgn3 : simpl never.
#[local] Arguments pgn_of3 : simpl never.

(** ** Finite case analysis on bytes *)

Lemma byte_cases (P : Z -> bool) :
  forallb P (seqZ 0 256) = true -> forall b, in_u 8 b -> P b = true.
Proof.
  intros H b Hb. rewrite forallb_forall in H. apply H.
  apply list_elem_of_In, elem_of_seqZ. unfold in_u in Hb. lia.
Qed.

Lemma function_code_inv v f :
  in_u 8 v -> NiuFunction.try_from_u8 v = Some f <-> v = NiuFunction.as_u8 f.
Proof.
  intros Hv. split; [|by intros ->; destruct f].
  intros Hf. pose proof (byte_cases (fun v => match NiuFunction.try_from_u8 v with
    | Some f => NiuFunction.as_u8 f =? v | None => true end) ltac:(by vm_compute) v Hv) as H.
  cbn beta in H. rewrite Hf in H. by apply Z.eqb_eq in H.
Qed.

Lemma function_code_roundtrip f : NiuFunction.try_from_u8 (NiuFunction.as_u8 f) = Some f.
Proof. by destruct f. Qed.

Lemma function_code_byte f : in_u 8 (NiuFunction.as_u8 f).
Proof. by destruct f; vm_compute. Qed.

(** The nibble pair of a port byte. *)
Lemma port_byte_join from to :
  0 <= from <= 15 -> 0 <= to <= 15 ->
  let b := Z.lor (wrap 8 (Z.shiftl from 4)) to in
  Z.shiftr b 4 = from /\ Z.land b 0x0F = to /\ Z.land to 0x0F = to.
Proof.
  intros Hf Ht. rewrite wrap_small by (apply (in_u_shiftl 4 4); unfold in_u; lia).
  assert (in_u 4 from) by (unfold in_u; lia). assert (in_u 4 to) by (unfold in_u; lia).
  change 15 with (Z.ones 4). split_and!; [| |by apply land_ones_small];
    apply Z.bits_inj'; intros n Hn; destruct (Z.ltb_spec n 4); bits_norm; bits_done.
Qed.

Lemma port_byte_split b :
  in_u 8 b ->
  Z.lor (wrap 8 (Z.shiftl (Z.shiftr b 4) 4)) (Z.land b 0x0F) = b /\
  0 <= Z.shiftr b 4 <= 15 /\ 0 <= Z.land b 0x0F <= 15.
Proof.
  intros Hb. pose proof (byte_cases (fun b =>
    (Z.lor (wrap 8 (Z.shiftl (Z.shiftr b 4) 4)) (Z.land b 0x0F) =? b) &&
    (0 <=? Z.shiftr b 4) && (Z.shiftr b 4 <=? 15) && (0 <=? Z.land b 0x0F) &&
    (Z.land b 0x0F <=? 15)) ltac:(by vm_compute) b Hb) as H. cbn beta in H.
  reflect_bools. lia.
Qed.

(** ** Three-byte PGNs *)

Lemma pgn3_bytes pgn : in_u 18 pgn -> pgn3 pgn = [byte0 pgn; byte1 pgn; byte2 pgn].
Proof.
  intros Hp. unfold pgn3, byte0, byte1, byte2. do 3 f_equal.
  change 3 with (Z.ones 2). change 255 with (Z.ones 8).
  apply Z.bits_inj'. intros n Hn. destruct (Z.ltb_spec n 2); bits_norm; bits_done.
Qed.

Lemma pgn_of3_pgn3 pgn :
  in_u 18 pgn -> pgn_of3 (byte0 pgn) (byte1 pgn) (byte2 pgn) = pgn /\ Z.land (byte2 pgn) 0xFC = 0.
Proof.
  intros Hp. assert (H2 : in_u 2 (byte2 pgn)).
  { unfold byte2. change 255 with (Z.ones 8). apply in_u_bits; [lia| |].
    - apply Z.land_nonneg. left. apply Z.shiftr_nonneg, Hp.
    - intros n Hn. bits_norm; bits_done. }
  unfold pgn_of3. change 3 with (Z.ones 2). rewrite land_ones_small by (done || lia).
  split; [apply le24_join_pgn; by apply in_u_18_24|].
  unfold in_u in H2. assert (byte2 pgn = 0 \/ byte2 pgn = 1 \/ byte2 pgn = 2 \/ byte2 pgn = 3)
    as [-> | [-> | [-> | ->]]] by lia; done.
Qed.

(** A byte with its six high bits clear. *)
Lemma low2 c : in_u 8 c -> Z.land c 0xFC = 0 -> in_u 2 c /\ Z.land c 0x03 = c.
Proof.
  intros Hc H0. pose proof (byte_cases (fun c => negb (Z.land c 0xFC =? 0) ||
    (c <? 4) && (Z.land c 0x03 =? c)) ltac:(by vm_compute) c Hc) as H. cbn beta in H.
  rewrite H0 in H. cbn in H. reflect_bools. unfold in_u in *. lia.
Qed.

Lemma pgn3_pgn_of3 c0 c1 c2 :
  in_u 8 c0 -> in_u 8 c1 -> in_u 8 c2 -> Z.land c2 0xFC = 0 ->
  in_u 18 (pgn_of3 c0 c1 c2) /\ pgn_is_valid (pgn_of3 c0 c1 c2) = true /\
  pgn3 (pgn_of3 c0 c1 c2) = [c0; c1; c2].
Proof.
  intros H0 H1 H2 Hz. destruct (low2 c2 H2 Hz) as [Hlow Hand]. unfold pgn_of3. rewrite Hand.
  assert (Hu : in_u 18 (le24 c0 c1 c2)).
  { unfold le24. repeat apply in_u_lor; try lia.
    - by apply (in_u_mono 8).
    - apply (in_u_mono 16); [lia|]. by apply (in_u_shiftl 8 8).
    - by apply (in_u_shiftl 2 16). }
  split; [done|]. split; [apply pgn_valid_in_u; [apply Hu|done]|].
  rewrite pgn3_bytes by done. by destruct (le24_bytes c0 c1 c2) as (-> & -> & ->).
Qed.

(** Sixteen-bit little-endian fields. *)
Lemma byte_pair_join x :
  in_u 16 x -> Z.lor (Z.land x 0xFF) (Z.shiftl (Z.land (Z.shiftr x 8) 0xFF) 8) = x.
Proof. apply le16_join. Qed.

Lemma le16_split a b :
  in_u 8 a -> in_u 8 b -> let x := Z.lor a (Z.shiftl b 8) in
  Z.land x 0xFF = a /\ Z.land (Z.shiftr x 8) 0xFF = b /\ in_u 16 x.
Proof.
  intros Ha Hb. cbn zeta. rewrite le_cons_low, le_cons_high by (done || apply Hb).
  split_and!; [done|by apply (land_ones_small 8)|].
  apply in_u_lor; [lia|by apply (in_u_mono 8)|by apply (in_u_shiftl 8 8)].
Qed.

(** ** Names *)

Lemma name_to_from n : Name.wf n -> Name.from_bytes (Name.to_bytes n) = Some n.
Proof.
  intros Hn. unfold Name.from_bytes, Name.to_bytes. rewrite length_to_le_bytes.
  change ((8 =? 8)%nat) with true. cbv iota. rewrite from_to_le_bytes, get_field_all by done.
  by destruct n.
Qed.

Lemma name_from_to d n : bytes d -> Name.from_bytes d = Some n -> Name.wf n /\ Name.to_bytes n = d.
Proof.
  intros Hd. unfold Name.from_bytes. destruct (Nat.eqb_spec (length d) 8) as [E|]; [|done].
  intros [= <-]. split.
  - pose proof (from_le_bytes_range d Hd) as H. by rewrite E in H.
  - unfold Name.to_bytes. cbn [Name.raw]. rewrite <- E. by apply to_from_le_bytes.
Qed.

(** The rewrite database of the byte-level inverses. *)
Lemma u64_to_from x : in_u 64 x -> Name.from_le_bytes (Name.to_le_bytes 8 x) = x.
Proof. intros. rewrite from_to_le_bytes. by apply get_field_all. Qed.

Lemma u64_from_to d :
  bytes d -> length d = 8%nat ->
  in_u 64 (Name.from_le_bytes d) /\ Name.to_le_bytes 8 (Name.from_le_bytes d) = d.
Proof.
  intros Hd Hl. split.
  - pose proof (from_le_bytes_range d Hd) as H. by rewrite Hl in H.
  - rewrite <- Hl. by apply to_from_le_bytes.
Qed.

(** ** [FilterRule] *)

(** Fields in their Rust types. *)
Record rule_typed (r : FilterRule) : Prop := {
  rt_pgn : in_u 32 (r_pgn r);
  rt_freq : in_u 32 (r_max_frequency_ms r);
  rt_source : match r_source_name r with Some n => Name.wf n | None => True end;
  rt_dest : match r_destination_name r with Some n => Name.wf n | None => True end
}.

Definition flags_of (p : ForwardPolicy.t) (bidir pers src dst : bool) : Z :=
  rule_flags (mkRule 0 p bidir (if src then Some (Name.from_raw 0) else None)
    (if dst then Some (Name.from_raw 0) else None) 0 None pers).

Lemma rule_flags_of r :
  rule_flags r = flags_of (r_policy r) (r_bidirectional r) (r_persistent r)
    (bool_decide (is_Some (r_source_name r))) (bool_decide (is_Some (r_destination_name r))).
Proof. by destruct r as [? ? ? [|] [|] ? ? ?]. Qed.

Lemma flags_split p bidir pers src dst :
  let f := flags_of p bidir pers src dst in
  Z.land f 0xC0 = 0 /\ ForwardPolicy.try_from_u8 (Z.land f 0x03) = Some p /\
  negb (Z.land f 0x04 =? 0) = bidir /\ negb (Z.land f 0x08 =? 0) = pers /\
  negb (Z.land f 0x10 =? 0) = src /\ negb (Z.land f 0x20 =? 0) = dst.
Proof. by destruct p, bidir, pers, src, dst; vm_compute. Qed.

Lemma flags_join f p :
  in_u 8 f -> Z.land f 0xC0 = 0 -> ForwardPolicy.try_from_u8 (Z.land f 0x03) = Some p ->
  flags_of p (negb (Z.land f 0x04 =? 0)) (negb (Z.land f 0x08 =? 0))
    (negb (Z.land f 0x10 =? 0)) (negb (Z.land f 0x20 =? 0)) = f.
Proof.
  intros Hf H0 Hp. pose proof (byte_cases (fun f => negb (Z.land f 0xC0 =? 0) ||
    match ForwardPolicy.try_from_u8 (Z.land f 0x03) with
    | None => true
    | Some p => flags_of p (negb (Z.land f 0x04 =? 0)) (negb (Z.land f 0x08 =? 0))
        (negb (Z.land f 0x10 =? 0)) (negb (Z.land f 0x20 =? 0)) =? f
    end) ltac:(by vm_compute) f Hf) as H. cbn beta in H.
  rewrite H0, Hp in H. by apply Z.eqb_eq in H.
Qed.

Lemma name_bytes_8 n : length (name_bytes n) = 8%nat.
Proof. destruct n; [apply length_to_le_bytes|done]. Qed.

(** One NAME field of the record, written and read. *)
Lemma name_field_read n (Hn : match n with Some n => Name.wf n | None => True end) :
  negb (bool_decide (is_Some n)) && negb (all_ff (name_bytes n)) = false /\
  (if bool_decide (is_Some n) then Some <$> Name.from_bytes (name_bytes n) else Some None)
    = Some n.
Proof.
  destruct n as [n|]; [|done]. split; [done|]. cbn [name_bytes]. by rewrite name_to_from.
Qed.

Lemma name_field_written d has n :
  bytes d -> length d = 8%nat -> negb has && negb (all_ff d) = false ->
  (if has then Some <$> Name.from_bytes d else Some None) = Some n ->
  name_bytes n = d /\ bool_decide (is_Some n) = has /\
  match n with Some n => Name.wf n | None => True end.
Proof.
  intros Hd Hl. destruct has; cbn.
  - intros _. destruct (Name.from_bytes d) as [m|] eqn:E; cbn; [|done]. intros [= <-].
    apply name_from_to in E as [Hw Hb]; [|done]. done.
  - intros Hff%negb_false_iff [= <-]. apply all_ff_eq in Hff. rewrite Hl in Hff. by rewrite Hff.
Qed.

(** The record as its fields. *)
Lemma rule_layout (d0 d1 d2 fl f0 f1 : Z) (src dst : list Z) :
  length src = 8%nat -> length dst = 8%nat ->
  let d := d0 :: d1 :: d2 :: fl :: src ++ dst ++ [f0; f1] in
  length d = 22%nat /\ take 8 (drop 4 d) = src /\ take 8 (drop 12 d) = dst /\
  d !!! 20%nat = f0 /\ d !!! 21%nat = f1.
Proof.
  intros Hs Hd. destruct (length_8 src Hs) as (? & ? & ? & ? & ? & ? & ? & ? & ->).
  by destruct (length_8 dst Hd) as (? & ? & ? & ? & ? & ? & ? & ? & ->).
Qed.

Lemma rule_shape (d : list Z) :
  length d = 22%nat -> exists d0 d1 d2 fl src dst f0 f1,
    d = d0 :: d1 :: d2 :: fl :: src ++ dst ++ [f0; f1] /\ length src = 8%nat /\ length dst = 8%nat.
Proof.
  intros H. do 22 (destruct d as [|? d]; [done|]). destruct d; [|done].
  eexists _, _, _, _, [_; _; _; _; _; _; _; _], [_; _; _; _; _; _; _; _], _, _. by split_and!.
Qed.

Lemma rule_encode_decode r :
  rule_typed r ->
  match rule_encode r with
  | Ok d => length d = 22%nat /\ rule_decode d = Some (Ok (with_last_forward None r))
  | Err _ => 0x3FFFF < r_pgn r \/ 0xFFFF < r_max_frequency_ms r
  end.
Proof.
  intros [Hp Hq Hs Hd]. unfold rule_encode, pgn_is_valid.
  destruct (Z.leb_spec (r_pgn r) 0x3FFFF) as [Hv|]; cbn [negb]; [|by left].
  destruct (Z.ltb_spec 0xFFFF (r_max_frequency_ms r)) as [|Hf]; [by right|].
  assert (Hp18 : in_u 18 (r_pgn r)) by (unfold in_u in *; lia).
  assert (Hf16 : in_u 16 (r_max_frequency_ms r)) by (unfold in_u in *; lia).
  rewrite pgn3_bytes by done. cbn [app].
  set (f0 := Z.land (r_max_frequency_ms r) 0xFF). set (f1 := Z.land (Z.shiftr _ 8) 0xFF).
  destruct (rule_layout (byte0 (r_pgn r)) (byte1 (r_pgn r)) (byte2 (r_pgn r)) (rule_flags r)
    f0 f1 (name_bytes (r_source_name r)) (name_bytes (r_destination_name r)))
    as (Hl & Hsrc & Hdst & H20 & H21); try apply name_bytes_8.
  split; [done|]. unfold rule_decode. rewrite Hl, Hsrc, Hdst, H20, H21.
  destruct (pgn_of3_pgn3 (r_pgn r) Hp18) as [Hpgn Hres].
  change (not_u 8 3) with 0xFC.
  cbn [lookup_total list_lookup_total Nat.eqb negb]. rewrite Hres, Hpgn, rule_flags_of.
  destruct (flags_split (r_policy r) (r_bidirectional r) (r_persistent r)
    (bool_decide (is_Some (r_source_name r))) (bool_decide (is_Some (r_destination_name r))))
    as (-> & -> & -> & -> & -> & ->). cbn [Z.eqb negb].
  destruct (name_field_read (r_source_name r) Hs) as [-> ->].
  destruct (name_field_read (r_destination_name r) Hd) as [-> ->]. cbn [mbind option_bind].
  unfold f0, f1. rewrite byte_pair_join by done. by destruct r.
Qed.

Lemma rule_decode_encode d :
  bytes d ->
  match rule_decode d with
  | Some (Ok r) => rule_typed r /\ rule_encode r = Ok d
  | Some (Err e) => Error.code e = ErrorCode.InvalidData
  | None => False
  end.
Proof.
  intros Hb. unfold rule_decode. destruct (Nat.eqb_spec (length d) 22) as [Hl|]; [|done].
  destruct (rule_shape d Hl) as (d0 & d1 & d2 & fl & src & dst & f0 & f1 & -> & Hs & Hd).
  destruct (rule_layout d0 d1 d2 fl f0 f1 src dst Hs Hd) as (_ & Hsrc & Hdst & H20 & H21).
  rewrite Hsrc, Hdst, H20, H21. change (not_u 8 3) with 0xFC.
  cbn [lookup_total list_lookup_total negb].
  repeat (apply Forall_cons in Hb as [? Hb]). apply Forall_app in Hb as [Hbs Hb].
  apply Forall_app in Hb as [Hbd Hb]. destruct_bytes Hb.
  destruct (Z.eqb_spec (Z.land d2 0xFC) 0) as [Hz|]; [|done]. cbn [negb].
  destruct (Z.eqb_spec (Z.land fl 0xC0) 0) as [Hfl|]; [|done]. cbn [negb].
  destruct (ForwardPolicy.try_from_u8 _) as [p|] eqn:Hp; [|done].
  destruct (negb (negb (Z.land fl 16 =? 0)) && _) eqn:Es; [done|].
  destruct (negb (negb (Z.land fl 32 =? 0)) && _) eqn:Ed; [done|].
  destruct (if negb (Z.land fl 16 =? 0) then _ else _) as [sn|] eqn:Esn; cbn [mbind option_bind];
    [|by destruct (negb (Z.land fl 16 =? 0)); [|done];
       unfold Name.from_bytes in Esn; rewrite Hs in Esn].
  destruct (if negb (Z.land fl 32 =? 0) then _ else _) as [dn|] eqn:Edn; cbn [mbind option_bind];
    [|by destruct (negb (Z.land fl 32 =? 0)); [|done];
       unfold Name.from_bytes in Edn; rewrite Hd in Edn].
  destruct (name_field_written src _ sn Hbs Hs Es Esn) as (Hsn & Hsb & Hsw).
  destruct (name_field_written dst _ dn Hbd Hd Ed Edn) as (Hdn & Hdb & Hdw).
  destruct (pgn3_pgn_of3 d0 d1 d2) as (Hu & Hv & Hp3); try done.
  destruct (le16_split f0 f1) as (Hf0 & Hf1 & Hf16); try done.
  split; [split; cbn; try done; [by apply (in_u_mono 18)|by apply (in_u_mono 16)]|].
  unfold rule_encode. cbn [r_pgn r_max_frequency_ms r_source_name r_destination_name].
  rewrite Hv, (proj2 (Z.ltb_ge _ _)), Hp3, Hsn, Hdn, Hf0, Hf1 by (unfold in_u in *; lia).
  rewrite rule_flags_of. cbn [r_policy r_bidirectional r_persistent r_source_name
    r_destination_name]. by rewrite Hsb, Hdb, flags_join.
Qed.

(** The 22-byte filter record: encoding succeeds exactly for an 18-bit PGN and a 16-bit
    interval, and decodes to the same rule with its rate-limiter state cleared; decoding
    never panics, and every record it accepts is the encoding of the rule it returns. *)
Theorem filter_rule_codec :
  (forall r, rule_typed r ->
     match rule_encode r with
     | Ok d => length d = 22%nat /\ rule_decode d = Some (Ok (with_last_forward None r))
     | Err _ => 0x3FFFF < r_pgn r \/ 0xFFFF < r_max_frequency_ms r
     end) /\
  (forall d, bytes d ->
     match rule_decode d with
     | Some (Ok r) => rule_typed r /\ rule_encode r = Ok d
     | Some (Err e) => Error.code e = ErrorCode.InvalidData
     | None => False
     end).
Proof. split; [apply rule_encode_decode|apply rule_decode_encode]. Qed.

Lemma filter_rule_codec_witness :
  let r := with_source_name (Name.from_raw 0xA00C840200123456)
             (FilterRule_new 0xFECA ForwardPolicy.Monitor false) in
  exists d, rule_encode r = Ok d /\ rule_decode d = Some (Ok r).
Proof.
  intros r. pose proof (proj1 filter_rule_codec r) as H.
  assert (Ht : rule_typed r) by (split; by vm_compute). specialize (H Ht).
  destruct (rule_encode r) as [d|e] eqn:E; [|by vm_compute in E].
  exists d. split; [done|]. apply H.
Defined.

(** ** Control messages *)

(** The fields a message's function does not carry have their defaults, the others fit
    the wire. *)
Definition msg_canonical (m : NiuNetworkMsg) : Prop :=
  in_u 8 (nm_port_number m) /\ nm_filter_mode m = NiuFilterMode.BlockSpecific /\
  (if is_entry_function (nm_function m) then in_u 18 (nm_filter_pgn m) else nm_filter_pgn m = 0) /\
  (if bool_decide (nm_function m = NiuFunction.GeneralParametricsResponse)
   then in_u 16 (nm_msgs_forwarded m) /\ in_u 16 (nm_msgs_blocked m)
   else nm_msgs_forwarded m = 0 /\ nm_msgs_blocked m = 0).

Lemma in_u_16_min x : in_u 16 x -> Z.min x 0xFFFF = x.
Proof. unfold in_u. lia. Qed.

Lemma niu_decode_encode d m :
  bytes d -> niu_decode d = Some m -> msg_canonical m /\ niu_encode m = Ok d.
Proof.
  intros Hd. unfold niu_decode. destruct (Nat.eqb_spec (length d) 8) as [E|]; [|done].
  apply length_8 in E as (b0 & b1 & b2 & b3 & b4 & b5 & b6 & b7 & ->). destruct_bytes Hd.
  cbn [negb lookup_total list_lookup_total drop].
  destruct (NiuFunction.try_from_u8 b0) as [f|] eqn:Ef; [|done].
  apply function_code_inv in Ef as ->; [|done]. cbn [mbind option_bind].
  destruct (is_entry_function f) eqn:Ee.
  - destruct (Z.eqb_spec (Z.land b4 0xFC) 0) as [Hz|]; [|done]. cbn [negb orb].
    destruct (all_ff _) eqn:Hff; [|done]. apply all_ff_eq in Hff. simplify_eq/=. intros [= <-].
    destruct (pgn3_pgn_of3 b2 b3 b4) as (Hu & Hv & Hp3); try done.
    unfold msg_canonical, niu_encode. cbn. rewrite Ee, Hv, Hp3.
    rewrite bool_decide_eq_false_2 by (by intros ->). by split_and!.
  - assert (Hgen : f = NiuFunction.GeneralParametricsResponse \/
      f <> NiuFunction.GeneralParametricsResponse) by (destruct (decide
        (f = NiuFunction.GeneralParametricsResponse)); auto).
    destruct Hgen as [->|Hne].
    + destruct (all_ff _) eqn:Hff; [|done]. apply all_ff_eq in Hff. simplify_eq/=. intros [= <-].
      destruct (le16_split b2 b3) as (Ha0 & Ha1 & Ha); try done.
      destruct (le16_split b4 b5) as (Hb0 & Hb1 & Hb); try done.
      unfold msg_canonical, niu_encode.
      cbn [nm_function is_entry_function nm_port_number nm_msgs_forwarded nm_msgs_blocked
           nm_filter_mode nm_filter_pgn].
      rewrite !in_u_16_min, Ha0, Ha1, Hb0, Hb1 by done. by split_and!.
    + destruct (all_ff [b2; b3; b4; b5; b6; b7]) eqn:Hff; [|by destruct f].
      apply all_ff_eq in Hff. simplify_eq/=. intros Hm.
      assert (m = mkNiuMsg f b1 0 NiuFilterMode.BlockSpecific 0 0) as -> by (destruct f; congruence).
      unfold msg_canonical, niu_encode. cbn. rewrite Ee.
      rewrite bool_decide_eq_false_2 by done. split; [by split_and!|]. by destruct f.
Qed.

Lemma niu_encode_decode d m :
  msg_canonical m -> niu_encode m = Ok d -> niu_decode d = Some m.
Proof.
  destruct m as [f port pgn mode fw bl]. unfold msg_canonical, niu_encode. cbn.
  intros (Hp & -> & Hpgn & Hcnt). destruct (is_entry_function f) eqn:Ee.
  - rewrite bool_decide_eq_false_2 in Hcnt by (by intros ->). destruct Hcnt as [-> ->].
    destruct (pgn_is_valid pgn); cbn [negb]; [|done]. rewrite pgn3_bytes by done. intros [= <-].
    destruct (pgn_of3_pgn3 pgn Hpgn) as [Hj Hr]. unfold niu_decode.
    cbn [length app Nat.eqb negb lookup_total list_lookup_total drop].
    rewrite function_code_roundtrip. cbn [mbind option_bind].
    by rewrite Ee, Hr, Hj.
  - destruct (decide (f = NiuFunction.GeneralParametricsResponse)) as [->|Hne].
    + rewrite bool_decide_eq_true_2 in Hcnt by done. destruct Hcnt as [Hf Hb].
      rewrite !in_u_16_min by done. intros [= <-]. unfold niu_decode.
      cbn [length app Nat.eqb negb lookup_total list_lookup_total drop
           NiuFunction.as_u8 NiuFunction.try_from_u8 mbind option_bind is_entry_function].
      by rewrite !byte_pair_join, Hpgn.
    + rewrite bool_decide_eq_false_2 in Hcnt by done. destruct Hcnt as [-> ->]. subst pgn.
      assert (Hff : all_ff (replicate 6 0xFF) = true) by apply all_ff_replicate.
      intros Hd. assert (d = NiuFunction.as_u8 f :: port :: replicate 6 0xFF) as ->
        by (destruct f; try done; by injection Hd as <-).
      unfold niu_decode. cbn [length replicate Nat.eqb negb lookup_total list_lookup_total drop].
      rewrite function_code_roundtrip. cbn [mbind option_bind]. rewrite Ee.
      cbn [replicate] in Hff. rewrite Hff. by destruct f.
Qed.

(** ** Filter database responses *)

Record db_typed (r : NiuFilterDbResponse) : Prop := {
  dt_from : in_u 8 (fd_from_port r);
  dt_to : in_u 8 (fd_to_port r);
  dt_mode : in_u 8 (fd_filter_mode r);
  dt_entries : Forall (in_u 32) (fd_entries r)
}.

Lemma list_ind3 {A} (P : list A -> Prop) :
  P [] -> (forall a, P [a]) -> (forall a b, P [a; b]) ->
  (forall a b c l, P l -> P (a :: b :: c :: l)) -> forall l, P l.
Proof.
  intros H0 H1 H2 H3. fix IH 1. intros [|a [|b [|c l]]]; [done|apply H1|apply H2|].
  apply H3, IH.
Qed.

Lemma entries_roundtrip l d :
  Forall (in_u 32) l -> encode_entries l = Ok d ->
  decode_entries d = Some l /\ length d = (3 * length l)%nat.
Proof.
  intros Hl. revert d. induction Hl as [|pgn l Hp _ IH]; intros d; cbn [encode_entries].
  { by intros [= <-]. }
  destruct (pgn_is_valid pgn) eqn:V; [|done]. cbn [negb].
  destruct (encode_entries l) as [d'|]; [|done].
  apply pgn_valid_in_u in V as Hu; [|apply Hp]. rewrite pgn3_bytes by done. intros [= <-].
  destruct (pgn_of3_pgn3 pgn Hu) as [Hj Hr]. destruct (IH d' eq_refl) as [Hd Hlen].
  cbn [app decode_entries]. rewrite Hr, Hj, V, Hd. cbn. split; [done|]. lia.
Qed.

Lemma entries_canonical d l :
  bytes d -> (length d mod 3 = 0)%nat -> decode_entries d = Some l ->
  encode_entries l = Ok d /\ Forall (in_u 32) l.
Proof.
  revert l. induction d as [| | |c0 c1 c2 d IH] using list_ind3; intros l Hb Hm; try done.
  { intros [= <-]. done. }
  destruct_bytes Hb. cbn [decode_entries].
  destruct (Z.eqb_spec (Z.land c2 0xFC) 0) as [Hz|]; [|done].
  destruct (pgn3_pgn_of3 c0 c1 c2) as (Hu & Hv & H3'); try done. cbn [negb]. rewrite Hv. cbn [negb].
  destruct (decode_entries d) as [l'|]; [|done]. cbn. intros [= <-].
  assert (Hm' : (length d mod 3 = 0)%nat).
  { cbn [length] in Hm. replace (S (S (S (length d)))) with (length d + 1 * 3)%nat in Hm by lia.
    by rewrite Nat.Div0.mod_add in Hm. }
  destruct (IH l' Hb Hm' eq_refl) as [He Hl]. cbn [encode_entries].
  rewrite Hv, He, H3'. cbn. split; [done|]. constructor; [by apply (in_u_mono 18)|done].
Qed.

Lemma db_codec d r :
  bytes d -> db_typed r -> db_decode d = Some r <-> db_encode r = Ok d.
Proof.
  intros Hb [Hf Ht Hm He]. unfold db_decode, db_encode. split.
  - destruct d as [|b0 [|b1 [|b2 d]]]; try discriminate. destruct_bytes Hb.
    cbn [length Nat.ltb Nat.leb lookup_total list_lookup_total drop orb].
    change (NiuFunction.as_u8 NiuFunction.FilterDbResponse) with 1.
    destruct (Z.eqb_spec b0 1) as [->|]; [|done]. cbn [negb].
    replace (S (S (S (length d))) - 3)%nat with (length d) by lia.
    destruct (Nat.eqb_spec (length d mod 3) 0) as [Hmod|]; [|done]. cbn [negb].
    rewrite drop_0. destruct (decode_entries d) as [l|] eqn:El; cbn; [|done]. intros [= <-].
    cbn [fd_entries fd_from_port fd_to_port fd_filter_mode].
    destruct (entries_canonical d l Hb Hmod El) as [-> _].
    destruct (port_byte_split b1) as (Hj & ? & ?); [done|]. cbn.
    rewrite !(proj2 (Z.ltb_ge _ _)) by lia. by rewrite Hj.
  - destruct (Z.ltb_spec 15 (fd_from_port r)); [done|].
    destruct (Z.ltb_spec 15 (fd_to_port r)); [done|]. cbn [orb].
    destruct (encode_entries (fd_entries r)) as [d'|] eqn:Ee; [|done]. intros [= <-].
    destruct (entries_roundtrip (fd_entries r) d' He Ee) as [Hd Hlen].
    cbn [length Nat.ltb Nat.leb lookup_total list_lookup_total drop orb Z.eqb negb
         NiuFunction.as_u8 Pos.eqb].
    replace (S (S (S (length d'))) - 3)%nat with (length r.(fd_entries) * 3)%nat by lia.
    rewrite Nat.Div0.mod_mul. cbn [Nat.eqb negb]. rewrite drop_0, Hd. cbn [mbind option_bind].
    unfold in_u in *. destruct (port_byte_join (fd_from_port r) (fd_to_port r)) as (-> & -> & _);
      [lia..|]. by destruct r.
Qed.

(** ** Topology messages *)

Definition san_typed (e : SourceAddressName) : Prop :=
  in_u 8 (san_address e) /\ in_u 64 (san_name e).

Definition topology_canonical (m : NiuTopologyMsg) : Prop :=
  0 <= tm_port_number m <= 14 /\ Forall san_typed (tm_entries m) /\
  (tm_function m = NiuFunction.RequestSourceAddressNameList -> tm_entries m = []).

Lemma topology_port_join p :
  0 <= p <= 14 ->
  let b := Z.lor 0xF0 (Z.land p 0x0F) in
  in_u 8 b /\ Z.land b 0xF0 = 0xF0 /\ Z.land b 0x0F = p.
Proof.
  intros Hp. pose proof (byte_cases (fun p => (14 <? p) ||
    (Z.lor 0xF0 (Z.land p 0x0F) <? 256) && (0 <=? Z.lor 0xF0 (Z.land p 0x0F)) &&
    (Z.land (Z.lor 0xF0 (Z.land p 0x0F)) 0xF0 =? 0xF0) &&
    (Z.land (Z.lor 0xF0 (Z.land p 0x0F)) 0x0F =? p)) ltac:(by vm_compute) p
    ltac:(unfold in_u; lia)) as H. cbn beta in H.
  rewrite (proj2 (Z.ltb_ge 14 p)) in H by lia. cbn [orb] in H. reflect_bools. unfold in_u. lia.
Qed.

Lemma topology_port_split b :
  in_u 8 b -> Z.land b 0xF0 = 0xF0 ->
  Z.lor 0xF0 (Z.land (Z.land b 0x0F) 0x0F) = b /\ 0 <= Z.land b 0x0F.
Proof.
  intros Hb H0. pose proof (byte_cases (fun b => negb (Z.land b 0xF0 =? 0xF0) ||
    (Z.lor 0xF0 (Z.land (Z.land b 0x0F) 0x0F) =? b) && (0 <=? Z.land b 0x0F))
    ltac:(by vm_compute) b Hb) as H. cbn beta in H. rewrite H0 in H. cbn in H. reflect_bools. lia.
Qed.

Lemma san_roundtrip l :
  Forall san_typed l -> decode_san (length l) (l ≫= san_bytes) = l /\
  length (l ≫= san_bytes) = (length l * 9)%nat.
Proof.
  induction 1 as [|[a n] l [Ha Hn] _ [IH IHl]]; [done|].
  rewrite bind_cons. unfold san_bytes at 1 3. cbn [san_address san_name length decode_san app].
  assert (Hl : length (Name.to_le_bytes 8 n) = 8%nat) by apply length_to_le_bytes.
  cbn [lookup_total list_lookup_total drop]. rewrite drop_0, take_app_length' by done.
  rewrite u64_to_from by done. split.
  - f_equal. rewrite drop_app_length' by done. done.
  - rewrite length_app, IHl, Hl. lia.
Qed.

Lemma san_canonical n d :
  bytes d -> length d = (n * 9)%nat ->
  decode_san n d ≫= san_bytes = d /\ Forall san_typed (decode_san n d) /\
  length (decode_san n d) = n.
Proof.
  revert d. induction n as [|n IH]; intros d Hb Hl; cbn [decode_san].
  { destruct d; [done|]. cbn in Hl. lia. }
  destruct d as [|a d]; [done|]. apply Forall_cons in Hb as [Ha Hb]. cbn [length] in Hl.
  cbn [lookup_total list_lookup_total drop]. rewrite drop_0.
  destruct (u64_from_to (take 8 d)) as [Hn Hj]; [by apply Forall_take|rewrite length_take; lia|].
  destruct (IH (drop 8 d)) as (Hd & Ht & Hc); [by apply Forall_drop|rewrite length_drop; lia|].
  rewrite bind_cons, Hd. unfold san_bytes. cbn [san_address san_name app].
  rewrite Hj, take_drop. split; [done|]. split; [by constructor|]. cbn. by rewrite Hc.
Qed.

Lemma topology_codec d m :
  bytes d -> topology_decode d = Some m <-> topology_canonical m /\ topology_encode m = Ok d.
Proof.
  intros Hb. unfold topology_decode, topology_encode, topology_canonical. split.
  - destruct d as [|b0 [|b1 d]]; [done|by cbn; destruct (NiuFunction.try_from_u8 b0)|].
    destruct_bytes Hb. cbn [lookup list_lookup mbind option_bind].
    destruct (NiuFunction.try_from_u8 b0) as [f|] eqn:Ef; [|done].
    apply function_code_inv in Ef as ->; [|done]. cbn [mbind option_bind].
    destruct (Z.eqb_spec (Z.land b1 0xF0) 0xF0) as [Hf0|]; [|done]. cbn [negb].
    destruct (topology_port_split b1) as [Hj Hge]; [done..|].
    destruct (Z.ltb_spec 14 (Z.land b1 0x0F)) as [|Hle]; [done|].
    assert (Hle' : (14 <? Z.land b1 15) = false) by (by apply Z.ltb_ge).
    destruct f; try done.
    + destruct (Nat.eqb_spec (length (NiuFunction.as_u8 NiuFunction.RequestSourceAddressNameList
        :: b1 :: d)) 8) as [Hl|]; [|done]. cbn [negb orb drop]. rewrite drop_0.
      destruct (all_ff d) eqn:Hff; [|done]. apply all_ff_eq in Hff. cbn [length] in Hl.
      intros [= <-]. split; [split_and!; try done|]. cbn [tm_port_number tm_entries tm_function
        topology_request]. rewrite Hle', Hj. rewrite Hff. replace (length d) with 6%nat by lia. done.
    + destruct d as [|b2 d]; [done|]. apply Forall_cons in Hb as [Hb2 Hb].
      cbn [lookup list_lookup mbind option_bind drop]. rewrite drop_0.
      cbn [length]. destruct (Nat.eqb_spec (S (S (S (length d)))) (3 + Z.to_nat b2 * 9))
        as [Hl|]; [|done]. cbn [negb]. intros [= <-].
      destruct (san_canonical (Z.to_nat b2) d) as (Hd & Ht & Hc); [done|lia|].
      split; [split_and!; try done|]. cbn [tm_port_number tm_entries tm_function
        topology_response]. unfold in_u in Hb2. rewrite Hle', Hj, Hc, Hd.
      rewrite (proj2 (Nat.ltb_ge _ _)) by lia.
      rewrite Z2Nat.id, wrap_small by (unfold in_u; lia). done.
  - intros ((Hp & Ht & Hreq) & He). destruct m as [f p l].
    cbn [tm_port_number tm_entries tm_function] in *.
    rewrite (proj2 (Z.ltb_ge 14 p)) in He by lia.
    destruct (Nat.ltb_spec 255 (length l)) as [|Hlen]; [done|].
    destruct (topology_port_join p Hp) as (_ & Hf0 & Hlow).
    destruct f; try done; injection He as <-; cbn [app lookup list_lookup mbind option_bind
      NiuFunction.as_u8 NiuFunction.try_from_u8]; rewrite Hf0, Hlow; cbn [Z.eqb Pos.eqb negb];
      rewrite (proj2 (Z.ltb_ge 14 p)) by lia.
    + by rewrite Hreq.
    + destruct (san_roundtrip l Ht) as [Hd Hl].
      rewrite wrap_small by (unfold in_u; lia). rewrite Nat2Z.id. cbn [length drop].
      rewrite drop_0, Hd, Hl. replace (S (S (S _)) =? _)%nat with true
        by (symmetry; apply Nat.eqb_eq; lia). done.
Qed.

(** ** Connection messages *)

Lemma conn_request_codec d m :
  bytes d -> in_u 8 (cr_to_port m) -> in_u 8 (cr_from_port m) -> in_u 64 (cr_name m) ->
  conn_request_decode d = Some m <-> conn_request_encode m = Ok d.
Proof.
  intros Hb Ht Hf Hn. unfold conn_request_decode, conn_request_encode. split.
  - destruct (Nat.eqb_spec (length d) 10) as [Hl|]; [|done]. cbn [negb].
    destruct d as [|b0 [|b1 d]]; try done. destruct_bytes Hb.
    cbn [lookup_total list_lookup_total drop length] in *. rewrite drop_0.
    destruct (NiuFunction.try_from_u8 b0) as [f|] eqn:Ef; [|done].
    apply function_code_inv in Ef as ->; [|done]. cbn [mbind option_bind].
    destruct (is_connection_request f) eqn:Er; [|done]. cbn [negb]. intros [= <-]. cbn [cr_function
      cr_to_port cr_from_port cr_name]. rewrite Er. cbn [negb].
    destruct (port_byte_split b1) as (Hj & ? & ?); [done|].
    rewrite !(proj2 (Z.ltb_ge _ _)) by lia. cbn [orb].
    rewrite take_ge by lia. destruct (u64_from_to d) as [_ Hd]; [done|lia|].
    destruct (port_byte_join (Z.shiftr b1 4) (Z.land b1 15)) as (_ & _ & Hland); [done..|].
    rewrite Hland, Hj, Hd. done.
  - destruct (is_connection_request (cr_function m)) eqn:Er; [|done]. cbn [negb].
    destruct (Z.ltb_spec 15 (cr_to_port m)); [done|].
    destruct (Z.ltb_spec 15 (cr_from_port m)); [done|]. cbn [orb].
    unfold in_u in Ht, Hf.
    destruct (port_byte_join (cr_from_port m) (cr_to_port m)) as (H1 & H2 & H3); [lia..|].
    rewrite H3. pose proof (length_to_le_bytes 8 (cr_name m)) as Hl.
    pose proof (u64_to_from (cr_name m) Hn) as Hx. revert Hl Hx.
    generalize (Name.to_le_bytes 8 (cr_name m)). intros nb Hl Hx [= <-].
    cbn [length app lookup_total list_lookup_total drop]. rewrite Hl, function_code_roundtrip.
    cbn [Nat.eqb negb mbind option_bind]. rewrite Er. cbn [negb].
    rewrite H1, H2, drop_0, take_ge, Hx by lia. by destruct m.
Qed.

Lemma conn_response_roundtrip m d :
  in_u 8 (cp_to_port m) -> in_u 8 (cp_from_port m) ->
  conn_response_encode m = Ok d -> conn_response_decode d = Some m.
Proof.
  intros Ht Hf. unfold conn_response_encode.
  destruct (is_connection_response (cp_function m)) eqn:Er; [|done]. cbn [negb].
  destruct (Z.ltb_spec 15 (cp_to_port m)); [done|].
  destruct (Z.ltb_spec 15 (cp_from_port m)); [done|]. cbn [orb]. unfold in_u in Ht, Hf.
  destruct (port_byte_join (cp_from_port m) (cp_to_port m)) as (H1 & H2 & H3); [lia..|].
  rewrite H3. intros [= <-]. unfold conn_response_decode.
  cbn [length Nat.eqb negb lookup_total list_lookup_total]. rewrite function_code_roundtrip.
  cbn [mbind option_bind]. rewrite Er. cbn [negb].
  replace (ConnectionFailureReason.from_u8 (ConnectionFailureReason.as_u8 (cp_reason m)))
    with (Some (cp_reason m)) by (by destruct (cp_reason m)). cbn [mbind option_bind].
  rewrite H1, H2. destruct m as [? ? ? [|] ?]; done.
Qed.

(** The messages of PGN 0xED00.  Control, filter-database, topology and connection-request
    payloads decode to a message exactly when they are its encoding (the fields a
    function does not carry at their defaults); an encoded connection response decodes to
    itself. *)
Theorem niu_message_codecs d :
  bytes d ->
  (forall m, niu_decode d = Some m <-> msg_canonical m /\ niu_encode m = Ok d) /\
  (forall r, db_typed r -> db_decode d = Some r <-> db_encode r = Ok d) /\
  (forall m, topology_decode d = Some m <-> topology_canonical m /\ topology_encode m = Ok d) /\
  (forall m, in_u 8 (cr_to_port m) -> in_u 8 (cr_from_port m) -> in_u 64 (cr_name m) ->
     conn_request_decode d = Some m <-> conn_request_encode m = Ok d) /\
  (forall m, in_u 8 (cp_to_port m) -> in_u 8 (cp_from_port m) ->
     conn_response_encode m = Ok d -> conn_response_decode d = Some m).
Proof.
  intros Hd. split_and!; intros.
  - split; [by apply niu_decode_encode|]. intros []. by apply niu_encode_decode.
  - by apply db_codec.
  - by apply topology_codec.
  - by apply conn_request_codec.
  - by apply conn_response_roundtrip.
Qed.

Lemma niu_message_codecs_witness :
  niu_decode [2; 0x12; 0xCA; 0xFE; 0x00; 0xFF; 0xFF; 0xFF]
  = Some (mkNiuMsg NiuFunction.AddFilterEntry 0x12 0xFECA NiuFilterMode.BlockSpecific 0 0).
Proof.
  apply niu_message_codecs; [repeat constructor; by unfold in_u|].
  split; [by split_and!|reflexivity].
Defined.
