(* ===== verification/Niu.v ===== *)
(** The network interconnection unit ([src/net/niu/niu_router_policy.rs]): the forwarding engine
    [Niu] with its configuration, filters and loop guard, and the address-translating router with
    its translation database, the learning table and the product profiles.

    A method returns the new state, its result and the events it emits, in order.  Nothing
    panics: indices come from [position], counters saturate, clock differences wrap or
    saturate as written. *)
From stdpp Require Import gmap.
From S2P Require Export NiuWire Frame.
#[local] Open Scope Z_scope.

#[global, program] Instance Side_countable : Countable Side := {
  encode s := match s with Tractor => 1%positive | Implement => 2%positive end;
  decode p := Some (if (p =? 1)%positive then Tractor else Implement)
}.
Next Obligation. by intros []. Qed.

Definition DEFAULT_LOOP_GUARD_WINDOW_MS : Z := 250.
Definition DEFAULT_LOOP_GUARD_MAX_RECENT_FORWARDS : nat := 256.

(** [u32::wrapping_sub]. *)
Definition wrapping_sub32 (a b : Z) : Z := wrap 32 (a - b).

Record FrameSignature : Type := mkSig { sig_raw_id : Z; sig_length : Z; sig_data : list Z }.

Definition from_frame (f : Frame) : FrameSignature :=
  let length := Z.min (f_length f) 8 in
  let n := Z.to_nat length in
  mkSig (Identifier.raw (f_id f)) length (take n (f_data f) ++ replicate (8 - n) 0).

#[global] Instance FrameSignature_eq_dec : EqDecision FrameSignature.
Proof. solve_decision. Defined.

Record RecentForward : Type := mkRecent {
  rf_target_side : Side;
  rf_signature : FrameSignature;
  rf_forwarded_at_ms : Z
}.

Module NiuState.
Inductive t : Type := Inactive | Active | Error.
#[global] Instance eq_dec : EqDecision t.
Proof. solve_decision. Defined.
End NiuState.

Record NiuConfig : Type := mkNiuConfig {
  nc_name : string;
  forward_global_by_default : bool;
  forward_specific_by_default : bool;
  nc_filter_mode : NiuFilterMode.t;
  loop_guard_max_recent_forwards : nat;
  loop_guard_window_ms : Z;
  persistence_file : option string
}.

Definition NiuConfig_default : NiuConfig :=
  mkNiuConfig "NIU" true true NiuFilterMode.BlockSpecific
    DEFAULT_LOOP_GUARD_MAX_RECENT_FORWARDS DEFAULT_LOOP_GUARD_WINDOW_MS None.

Definition mode (m : NiuFilterMode.t) (c : NiuConfig) : NiuConfig :=
  mkNiuConfig (nc_name c) (forward_global_by_default c) (forward_specific_by_default c) m
    (loop_guard_max_recent_forwards c) (loop_guard_window_ms c) (persistence_file c).
Definition global_default (allow : bool) (c : NiuConfig) : NiuConfig :=
  mkNiuConfig (nc_name c) allow (forward_specific_by_default c) (nc_filter_mode c)
    (loop_guard_max_recent_forwards c) (loop_guard_window_ms c) (persistence_file c).
Definition specific_default (allow : bool) (c : NiuConfig) : NiuConfig :=
  mkNiuConfig (nc_name c) (forward_global_by_default c) allow (nc_filter_mode c)
    (loop_guard_max_recent_forwards c) (loop_guard_window_ms c) (persistence_file c).

Definition loop_guard_window (ms : Z) (c : NiuConfig) : NiuConfig :=
  mkNiuConfig (nc_name c) (forward_global_by_default c) (forward_specific_by_default c)
    (nc_filter_mode c) (loop_guard_max_recent_forwards c) ms (persistence_file c).
Definition loop_guard_capacity (capacity : nat) (c : NiuConfig) : NiuConfig :=
  mkNiuConfig (nc_name c) (forward_global_by_default c) (forward_specific_by_default c)
    (nc_filter_mode c) capacity (loop_guard_window_ms c) (persistence_file c).

(** ** [Niu] *)

Record Niu : Type := mkNiu {
  niu_config : NiuConfig;
  filters : list FilterRule;
  observed_names : gmap (Side * Address) Name.t;
  recent_forwards : list RecentForward;
  niu_state : NiuState.t;
  forwarded_count : Z;
  blocked_count : Z;
  rate_limited_count : Z
}.

Inductive NiuEvent : Type :=
| OnForwarded (f : Frame) (origin : Side)
| OnBlocked (f : Frame) (origin : Side)
| OnMonitored (f : Frame) (origin : Side)
| OnNiuMessage (m : NiuNetworkMsg) (source : Address).

Definition Niu_new (config : NiuConfig) : Niu :=
  mkNiu config [] ∅ [] NiuState.Inactive 0 0 0.

(** Field updates. *)
Definition set_niu_config (v : NiuConfig) (n : Niu) : Niu :=
  mkNiu v (filters n) (observed_names n) (recent_forwards n) (niu_state n)
    (forwarded_count n) (blocked_count n) (rate_limited_count n).
Definition set_filters (v : list FilterRule) (n : Niu) : Niu :=
  mkNiu (niu_config n) v (observed_names n) (recent_forwards n) (niu_state n)
    (forwarded_count n) (blocked_count n) (rate_limited_count n).
Definition set_observed_names (v : gmap (Side * Address) Name.t) (n : Niu) : Niu :=
  mkNiu (niu_config n) (filters n) v (recent_forwards n) (niu_state n)
    (forwarded_count n) (blocked_count n) (rate_limited_count n).
Definition set_recent_forwards (v : list RecentForward) (n : Niu) : Niu :=
  mkNiu (niu_config n) (filters n) (observed_names n) v (niu_state n)
    (forwarded_count n) (blocked_count n) (rate_limited_count n).
Definition set_niu_state (v : NiuState.t) (n : Niu) : Niu :=
  mkNiu (niu_config n) (filters n) (observed_names n) (recent_forwards n) v
    (forwarded_count n) (blocked_count n) (rate_limited_count n).
(** [self.x_count = self.x_count.saturating_add(1)]. *)
Definition add_forwarded (n : Niu) : Niu :=
  mkNiu (niu_config n) (filters n) (observed_names n) (recent_forwards n) (niu_state n)
    (sat_add 32 (forwarded_count n) 1) (blocked_count n) (rate_limited_count n).
Definition add_blocked (n : Niu) : Niu :=
  mkNiu (niu_config n) (filters n) (observed_names n) (recent_forwards n) (niu_state n)
    (forwarded_count n) (sat_add 32 (blocked_count n) 1) (rate_limited_count n).
Definition add_rate_limited (n : Niu) : Niu :=
  mkNiu (niu_config n) (filters n) (observed_names n) (recent_forwards n) (niu_state n)
    (forwarded_count n) (blocked_count n) (sat_add 32 (rate_limited_count n) 1).

Definition add_filter (rule : FilterRule) (n : Niu) : Niu := set_filters (filters n ++ [rule]) n.
Definition allow_pgn (pgn : Pgn) (bidirectional : bool) (n : Niu) : Niu :=
  add_filter (FilterRule_new pgn ForwardPolicy.Allow bidirectional) n.
Definition block_pgn (pgn : Pgn) (bidirectional : bool) (n : Niu) : Niu :=
  add_filter (FilterRule_new pgn ForwardPolicy.Block bidirectional) n.
Definition monitor_pgn (pgn : Pgn) (bidirectional : bool) (n : Niu) : Niu :=
  add_filter (FilterRule_new pgn ForwardPolicy.Monitor bidirectional) n.
Definition allow_pgn_rate_limited (pgn : Pgn) (min_interval_ms : Z) (bidirectional : bool)
    (n : Niu) : Niu :=
  add_filter (with_max_frequency_ms min_interval_ms
                (FilterRule_new pgn ForwardPolicy.Allow bidirectional)) n.
Definition clear_filters (n : Niu) : Niu :=
  set_filters (filter (fun r => r_persistent r = true) (filters n)) n.
Definition clear_observed_names (n : Niu) : Niu := set_observed_names ∅ n.
Definition clear_loop_guard (n : Niu) : Niu := set_recent_forwards [] n.
Definition observed_name (n : Niu) (side : Side) (address : Address) : option Name.t :=
  observed_names n !! (side, address).

Definition set_filter_mode (m : NiuFilterMode.t) (n : Niu) : Niu :=
  let pass := match m with
              | NiuFilterMode.BlockSpecific => true
              | NiuFilterMode.PassSpecific => false
              end in
  set_niu_config (specific_default pass (global_default pass (mode m (niu_config n)))) n.

Definition niu_start (n : Niu) : Niu := set_niu_state NiuState.Active n.
Definition niu_stop (n : Niu) : Niu := set_niu_state NiuState.Inactive n.

(** *** Policy *)

(** The [continue] conditions of the loop of [resolve_policy]. *)
Definition rule_matches (pgn : Pgn) (origin : Side) (source_name destination_name : option Name.t)
    (rule : FilterRule) : bool :=
  let required (want have : option Name.t) :=
    match want with
    | None => true
    | Some w => match have with Some h => Name.eqb h w | None => false end
    end in
  ((r_pgn rule =? 0) || (r_pgn rule =? pgn))
  && (r_bidirectional rule || bool_decide (origin = Tractor))
  && required (r_source_name rule) source_name
  && required (r_destination_name rule) destination_name.

(** What the loop does with the first matching rule: the rule as left behind, and whether
    the frame is rate limited. *)
Definition rule_apply (now_ms : Z) (rule : FilterRule) : FilterRule * bool :=
  if 0 <? r_max_frequency_ms rule then
    match r_last_forward_time_ms rule with
    | Some last =>
        if sat_sub now_ms last <? r_max_frequency_ms rule then (rule, true)
        else (with_last_forward (Some now_ms) rule, false)
    | None => (with_last_forward (Some now_ms) rule, false)
    end
  else (rule, false).

Fixpoint resolve_rules (matches : FilterRule -> bool) (now_ms : Z) (rules : list FilterRule)
    : list FilterRule * option (ForwardPolicy.t * bool) :=
  match rules with
  | [] => ([], None)
  | rule :: rules =>
      if matches rule then
        let '(rule', limited) := rule_apply now_ms rule in
        (rule' :: rules, Some (r_policy rule, limited))
      else
        let '(rules, r) := resolve_rules matches now_ms rules in (rule :: rules, r)
  end.

Definition default_policy (c : NiuConfig) (is_broadcast : bool) : ForwardPolicy.t :=
  match nc_filter_mode c with
  | NiuFilterMode.PassSpecific => ForwardPolicy.Block
  | NiuFilterMode.BlockSpecific =>
      if (if is_broadcast then forward_global_by_default c else forward_specific_by_default c)
      then ForwardPolicy.Allow else ForwardPolicy.Block
  end.

(** The filter of [resolve_policy] for one frame. *)
Definition frame_matches (n : Niu) (frame : Frame) (origin : Side) : FilterRule -> bool :=
  rule_matches (FrameOps.pgn frame) origin (observed_name n origin (FrameOps.source frame))
    (if FrameOps.is_broadcast frame then None
     else observed_name n origin (FrameOps.destination frame)).

Definition resolve_policy (frame : Frame) (origin : Side) (now_ms : Z) (n : Niu)
    : Niu * ForwardPolicy.t * bool :=
  let '(rules, r) := resolve_rules (frame_matches n frame origin) now_ms (filters n) in
  let n' := set_filters rules n in
  match r with
  | Some (policy, limited) => (n', policy, limited)
  | None => (n', default_policy (niu_config n) (FrameOps.is_broadcast frame), false)
  end.

Definition observe_address_claim (frame : Frame) (origin : Side) (n : Niu) : Niu :=
  if negb (FrameOps.pgn frame =? PGN_ADDRESS_CLAIMED) || (FrameOps.source frame =? NULL_ADDRESS)
  then n
  else
    match Name.from_bytes (FrameOps.payload frame) with
    | Some name =>
        set_observed_names (<[(origin, FrameOps.source frame):=name]> (observed_names n)) n
    | None => n
    end.

(** *** Loop guard *)

Definition is_recent (now_ms window : Z) (e : RecentForward) : Prop :=
  wrapping_sub32 now_ms (rf_forwarded_at_ms e) <= window.

#[global] Instance is_recent_dec now window e : Decision (is_recent now window e).
Proof. unfold is_recent. apply _. Defined.

Definition same_forward (side : Side) (s : FrameSignature) (e : RecentForward) : bool :=
  bool_decide (rf_target_side e = side) && bool_decide (rf_signature e = s).

(** [retain] the recent entries, then look for the frame. *)
Definition is_loop_echo (frame : Frame) (origin : Side) (now_ms : Z) (n : Niu) : Niu * bool :=
  let window := loop_guard_window_ms (niu_config n) in
  if (window =? 0) || (loop_guard_max_recent_forwards (niu_config n) =? 0)%nat then (n, false)
  else
    let l := filter (is_recent now_ms window) (recent_forwards n) in
    (set_recent_forwards l n, existsb (same_forward origin (from_frame frame)) l).

(** [while self.recent_forwards.len() >= capacity { self.recent_forwards.remove(0); }] *)
Fixpoint evict (capacity : nat) (l : list RecentForward) : list RecentForward :=
  match l with
  | [] => []
  | _ :: l' => if (capacity <=? length l)%nat then evict capacity l' else l
  end.

Definition remember_forwarded_frame (frame : Frame) (target : Side) (now_ms : Z) (n : Niu) : Niu :=
  let window := loop_guard_window_ms (niu_config n) in
  let capacity := loop_guard_max_recent_forwards (niu_config n) in
  if (window =? 0) || (capacity =? 0)%nat then n
  else
    let l := filter (is_recent now_ms window) (recent_forwards n) in
    let s := from_frame frame in
    let l' :=
      match position (same_forward target s) l with
      | Some i => <[i:=mkRecent target s now_ms]> l
      | None => evict capacity l ++ [mkRecent target s now_ms]
      end in
    set_recent_forwards l' n.

(** *** Frames *)

Definition niu_result : Type := Niu * option Frame * list NiuEvent.

Definition block_frame (frame : Frame) (origin : Side) (n : Niu) : niu_result :=
  (add_blocked n, None, [OnBlocked frame origin]).

Definition process_frame_inner (frame : Frame) (origin : Side) (now_ms : Z)
    (remember_on_forward : bool) (n : Niu) : niu_result :=
  if negb (bool_decide (niu_state n = NiuState.Active)) then (n, None, [])
  else
    let pgn := FrameOps.pgn frame in
    if (FrameOps.source frame =? BROADCAST_ADDRESS)
       || ((FrameOps.source frame =? NULL_ADDRESS) && negb (pgn =? PGN_ADDRESS_CLAIMED))
    then block_frame frame origin n
    else
      let '(n, echo) := is_loop_echo frame origin now_ms n in
      if (echo : bool) then block_frame frame origin n
      else
        let n := observe_address_claim frame origin n in
        let '(n, policy, rate_limited) := resolve_policy frame origin now_ms n in
        if (rate_limited : bool) then
          (add_rate_limited (add_blocked n), None, [OnBlocked frame origin])
        else
          let remember n := if remember_on_forward
            then remember_forwarded_frame frame (other origin) now_ms n else n in
          match policy with
          | ForwardPolicy.Allow =>
              (remember (add_forwarded n), Some frame, [OnForwarded frame origin])
          | ForwardPolicy.Block => block_frame frame origin n
          | ForwardPolicy.Monitor =>
              (remember (add_forwarded n), Some frame,
               [OnForwarded frame origin; OnMonitored frame origin])
          end.

Definition niu_process_frame (frame : Frame) (origin : Side) (now_ms : Z) (n : Niu) : niu_result :=
  process_frame_inner frame origin now_ms true n.

(** *** The control protocol *)

Definition niu_acknowledgment (positive : bool) (request : Message) : Message :=
  let a := if positive then Acknowledgment.ack PGN_NIU_NETWORK_MSG (m_source request)
           else Acknowledgment.nack PGN_NIU_NETWORK_MSG (m_source request) in
  let payload := match Acknowledgment.encode a with Ok d => d | Err _ => replicate 8 0xFF end in
  mkMessage PGN_ACKNOWLEDGMENT payload (m_destination request) (m_source request)
    Priority.Default 0.

(** The [match niu_msg.function]: the new state and the event, or a refusal. *)
Definition niu_command (m : NiuNetworkMsg) (source : Address) (n : Niu)
    : option (Niu * list NiuEvent) :=
  let note n := Some (n, [OnNiuMessage m source]) in
  match nm_function m with
  | NiuFunction.AddFilterEntry =>
      if nm_filter_pgn m =? 0 then None
      else
        let policy := match nc_filter_mode (niu_config n) with
                      | NiuFilterMode.BlockSpecific => ForwardPolicy.Block
                      | NiuFilterMode.PassSpecific => ForwardPolicy.Allow
                      end in
        note (add_filter (FilterRule_new (nm_filter_pgn m) policy true) n)
  | NiuFunction.DeleteFilterEntry =>
      note (match position (fun f => r_pgn f =? nm_filter_pgn m) (filters n) with
            | Some idx => set_filters (delete idx (filters n)) n
            | None => n
            end)
  | NiuFunction.ClearFilterEntry => note (clear_filters n)
  | NiuFunction.RequestGeneralParametrics =>
      Some (n, [OnNiuMessage (mkNiuMsg NiuFunction.GeneralParametricsResponse
                  (nm_port_number m) 0 NiuFilterMode.BlockSpecific (forwarded_count n)
                  (blocked_count n)) source])
  | _ => note n
  end.

Definition handle_niu_message (msg : Message) (n : Niu)
    : Niu * option Message * list NiuEvent :=
  if negb (m_pgn msg =? PGN_NIU_NETWORK_MSG) then (n, None, [])
  else if negb (has_usable_source msg) || (m_destination msg =? NULL_ADDRESS)
          || (m_destination msg =? BROADCAST_ADDRESS) then (n, None, [])
  else
    match niu_decode (m_data msg) with
    | None => (n, Some (niu_acknowledgment false msg), [])
    | Some m =>
        match niu_command m (m_source msg) n with
        | None => (n, Some (niu_acknowledgment false msg), [])
        | Some (n, evs) => (n, Some (niu_acknowledgment true msg), evs)
        end
    end.

(** ** [AddressTranslationDb] *)

Record AddressTranslation : Type := mkTranslation {
  tr_name : Name.t;
  tr_tractor_address : Address;
  tr_implement_address : Address;
  tr_active : bool
}.

Definition AddressTranslation_new (name : Name.t) (tractor implement : Address)
    : AddressTranslation := mkTranslation name tractor implement true.

(** The entry's address on one side. *)
Definition tr_address (t : AddressTranslation) (side : Side) : Address :=
  match side with
  | Tractor => tr_tractor_address t
  | Implement => tr_implement_address t
  end.

Definition tr_translate (t : AddressTranslation) (addr : Address) (from_side : Side)
    : option Address :=
  if addr =? tr_address t from_side then Some (tr_address t (other from_side)) else None.

(** [AddressTranslationDb] is its list of entries. *)
Definition TranslationDb : Type := list AddressTranslation.

Definition validate_translation_address (addr : Address) : Result unit Error.t :=
  if addr <=? MAX_ADDRESS then Ok tt else Err (Error.invalid_address addr).

Definition address_conflict (side : string) (addr : Address) (existing requested : Name.t)
    : Error.t :=
  Error.with_message ErrorCode.AddressConflict
    (side +:+ "-side address 0x" +:+ format_hex 2 addr +:+ " already belongs to NAME 0x"
     +:+ format_hex 16 (Name.raw existing) +:+ ", requested by NAME 0x"
     +:+ format_hex 16 (Name.raw requested)).

Fixpoint ensure_side_addresses_available (name : Name.t) (tractor implement : Address)
    (db : TranslationDb) : Result unit Error.t :=
  match db with
  | [] => Ok tt
  | e :: db =>
      if tr_active e && negb (Name.eqb (tr_name e) name) then
        if tr_tractor_address e =? tractor then
          Err (address_conflict "tractor" tractor (tr_name e) name)
        else if tr_implement_address e =? implement then
          Err (address_conflict "implement" implement (tr_name e) name)
        else ensure_side_addresses_available name tractor implement db
      else ensure_side_addresses_available name tractor implement db
  end.

Definition db_add (name : Name.t) (tractor implement : Address) (db : TranslationDb)
    : Result TranslationDb Error.t :=
  match validate_translation_address tractor with
  | Err e => Err e
  | Ok _ =>
      match validate_translation_address implement with
      | Err e => Err e
      | Ok _ =>
          match ensure_side_addresses_available name tractor implement db with
          | Err e => Err e
          | Ok _ =>
              Ok (match position (fun t => Name.eqb (tr_name t) name) db with
                  | Some i => alter (fun t => mkTranslation (tr_name t) tractor implement true) i db
                  | None => db ++ [AddressTranslation_new name tractor implement]
                  end)
          end
      end
  end.

Definition db_remove (name : Name.t) (db : TranslationDb) : TranslationDb :=
  match position (fun t => Name.eqb (tr_name t) name) db with
  | Some idx => delete idx db
  | None => db
  end.

(** [self.entries.iter().filter(|t| t.active).find_map(|t| t.translate(addr, from_side))]. *)
Fixpoint db_translate (addr : Address) (from_side : Side) (db : TranslationDb)
    : option Address :=
  match db with
  | [] => None
  | t :: db =>
      match (if tr_active t then tr_translate t addr from_side else None) with
      | Some a => Some a
      | None => db_translate addr from_side db
      end
  end.

Definition db_clear (db : TranslationDb) : TranslationDb := [].

Definition lookup_by_address (addr : Address) (side : Side) (db : TranslationDb)
    : option AddressTranslation :=
  List.find (fun t => tr_active t && (tr_address t side =? addr)) db.

Definition lookup_by_name (name : Name.t) (db : TranslationDb) : option AddressTranslation :=
  List.find (fun t => tr_active t && Name.eqb (tr_name t) name) db.

Definition is_address_available (addr : Address) (side : Side) (db : TranslationDb) : bool :=
  match validate_translation_address addr with
  | Ok _ => match lookup_by_address addr side db with None => true | Some _ => false end
  | Err _ => false
  end.

(** ** [Router] *)

Record Router : Type := mkRouter {
  rt_niu : Niu;
  rt_db : TranslationDb;
  rt_forward_address_claims : bool
}.

Definition Router_new (config : NiuConfig) : Router := mkRouter (Niu_new config) [] false.
Definition forward_address_claims (forward : bool) (r : Router) : Router :=
  mkRouter (rt_niu r) (rt_db r) forward.
Definition set_niu (n : Niu) (r : Router) : Router :=
  mkRouter n (rt_db r) (rt_forward_address_claims r).

Definition add_translation (name : Name.t) (tractor implement : Address) (r : Router)
    : Router * Result unit Error.t :=
  match db_add name tractor implement (rt_db r) with
  | Ok db => (mkRouter (rt_niu r) db (rt_forward_address_claims r), Ok tt)
  | Err e => (r, Err e)
  end.

Definition remove_translation (name : Name.t) (r : Router) : Router :=
  mkRouter (rt_niu r) (db_remove name (rt_db r)) (rt_forward_address_claims r).

Definition translate_address_claim_source (frame : Frame) (origin : Side) (r : Router)
    : option (option Address) :=
  let source := FrameOps.source frame in
  if source =? NULL_ADDRESS then Some None
  else
    claimed_name ← Name.from_bytes (FrameOps.payload frame);
    match lookup_by_address source origin (rt_db r) with
    | Some entry =>
        if negb (Name.eqb (tr_name entry) claimed_name) then None
        else Some (tr_translate entry source origin)
    | None =>
        match lookup_by_name claimed_name (rt_db r) with
        | Some _ => None
        | None => Some None
        end
    end.

Definition router_result : Type := Router * option Frame * list NiuEvent.

Definition block_translated_frame (frame : Frame) (origin : Side) (evs : list NiuEvent)
    (r : Router) : router_result :=
  (set_niu (add_blocked (rt_niu r)) r, None, evs ++ [OnBlocked frame origin]).

(** [Router::process_frame]. *)
Definition router_process_frame (frame : Frame) (origin : Side) (now_ms : Z) (r : Router)
    : router_result :=
  let '(n, out, evs) := process_frame_inner frame origin now_ms false (rt_niu r) in
  let r := set_niu n r in
  match out with
  | None => (r, None, evs)
  | Some frame =>
      let source := FrameOps.source frame in
      let destination := FrameOps.destination frame in
      let is_broadcast := FrameOps.is_broadcast frame in
      let is_claim := FrameOps.pgn frame =? PGN_ADDRESS_CLAIMED in
      if is_claim && negb (rt_forward_address_claims r)
      then block_translated_frame frame origin evs r
      else
        match (if is_claim then translate_address_claim_source frame origin r
               else Some (db_translate source origin (rt_db r))) with
        | None => block_translated_frame frame origin evs r
        | Some translated_source =>
            let translated_dest :=
              if is_broadcast then None else db_translate destination origin (rt_db r) in
            if negb is_broadcast && negb (bool_decide (is_Some translated_dest))
            then block_translated_frame frame origin evs r
            else
              let new_source := default source translated_source in
              let new_dest := if is_broadcast then destination
                              else default destination translated_dest in
              let out :=
                if (new_source =? source) && (new_dest =? destination) then frame
                else mkFrame (Identifier.encode (FrameOps.priority frame) (FrameOps.pgn frame)
                                new_source new_dest)
                       (f_data frame) (f_length frame) (f_timestamp_us frame) in
              (set_niu (remember_forwarded_frame out (other origin) now_ms (rt_niu r)) r,
               Some out, evs)
        end
  end.

(** ** [AddressTable] *)

Definition AddressTable : Type := gmap Address Side.
Definition learn (addr : Address) (side : Side) (t : AddressTable) : AddressTable :=
  <[addr:=side]> t.
Definition table_lookup (addr : Address) (t : AddressTable) : option Side := t !! addr.
Definition table_clear (t : AddressTable) : AddressTable := ∅.

(** ** Product profiles *)

Inductive NiuProfile : Type := SimpleRouter | Bridge | ManagedGateway | TestSimulator.
Inductive NiuProfileStatus : Type := Implemented | PartialHelper.

#[global] Instance NiuProfile_eq_dec : EqDecision NiuProfile.
Proof. solve_decision. Defined.

Record NiuProfileSupport : Type := mkProfile {
  pr_profile : NiuProfile;
  pr_forwarding : bool;
  pr_filtering : bool;
  pr_address_translation : bool;
  pr_runtime_reconfiguration : bool;
  pr_persistence : bool;
  pr_status : NiuProfileStatus
}.

Definition NIU_PROFILES : list NiuProfileSupport :=
  [mkProfile SimpleRouter true true false false false Implemented;
   mkProfile Bridge true true true false false Implemented;
   mkProfile ManagedGateway true true true true true PartialHelper;
   mkProfile TestSimulator true true true true false Implemented].

(** [None] is the panic of [expect]. *)
Definition niu_profile (profile : NiuProfile) : option NiuProfileSupport :=
  List.find (fun p => bool_decide (pr_profile p = profile)) NIU_PROFILES.
