(* ===== verification/NiuProofs.v ===== *)
(** The theorems of the interconnection unit: the forwarding decision, frame accounting,
    the loop guard, rate limiting, and address translation. *)
From stdpp Require Import gmap.
From S2P Require Export Niu NiuWireProofs.
#[local] Open Scope Z_scope.

#[local] Arguments wrapping_sub32 : simpl never.
#[local] Arguments from_frame : simpl never.

(** ** The forwarding decision *)

(** The loop guard is switched on. *)
Definition guarded (c : NiuConfig) : bool :=
  negb ((loop_guard_window_ms c =? 0) || (loop_guard_max_recent_forwards c =? 0)%nat).

(** The frame was forwarded to the side it now comes from, within the window. *)
Definition echoes (n : Niu) (f : Frame) (origin : Side) (now : Z) : Prop :=
  guarded (niu_config n) = true /\
  exists e, e ∈ recent_forwards n /\ is_recent now (loop_guard_window_ms (niu_config n)) e /\
    rf_target_side e = origin /\ rf_signature e = from_frame f.

Lemma same_forward_true side s e :
  same_forward side s e = true <-> rf_target_side e = side /\ rf_signature e = s.
Proof. unfold same_forward. by rewrite andb_true_iff, !bool_decide_eq_true. Qed.

Lemma loop_echo_spec f origin now n :
  let '(n', echo) := is_loop_echo f origin now n in
  (echo = true <-> echoes n f origin now) /\
  n' = set_recent_forwards
    (if guarded (niu_config n)
     then filter (is_recent now (loop_guard_window_ms (niu_config n))) (recent_forwards n)
     else recent_forwards n) n.
Proof.
  unfold is_loop_echo, echoes, guarded.
  destruct (_ || _); cbn [negb]; [by split; [naive_solver|destruct n]|].
  split; [|done]. rewrite existsb_exists. split.
  - intros (e & He%list_elem_of_In & Hs%same_forward_true). split; [done|].
    apply list_elem_of_filter in He as [Hr Hin]. eauto.
  - intros [_ (e & Hin & Hr & Ht & Hs)]. exists e. split; [|by apply same_forward_true].
    apply list_elem_of_In, list_elem_of_filter. done.
Qed.

(** The rule list after one frame: only the first matching rule is touched. *)
Lemma resolve_rules_spec m now rules :
  match List.find m rules with
  | None => resolve_rules m now rules = (rules, None)
  | Some r => exists l1 l2, rules = l1 ++ r :: l2 /\ Forall (fun r => m r = false) l1 /\
      m r = true /\
      resolve_rules m now rules =
        (l1 ++ (rule_apply now r).1 :: l2, Some (r_policy r, (rule_apply now r).2))
  end.
Proof.
  induction rules as [|r rules IH]; simpl; [done|]. destruct (m r) eqn:Em.
  - exists [], rules. simpl. by destruct (rule_apply now r).
  - destruct (List.find m rules) as [r'|].
    + destruct IH as (l1 & l2 & -> & Hl1 & Hm & ->). exists (r :: l1), l2.
      split_and!; try done. by constructor.
    + by rewrite IH.
Qed.

(** The rule would let the frame through now. *)
Definition rule_passes (now : Z) (r : FilterRule) : Prop :=
  r_policy r <> ForwardPolicy.Block /\
  (r_max_frequency_ms r <= 0 \/
   match r_last_forward_time_ms r with
   | None => True
   | Some last => r_max_frequency_ms r <= sat_sub now last
   end).

Lemma rule_apply_limited now r :
  (rule_apply now r).2 = true <->
  0 < r_max_frequency_ms r /\
  exists last, r_last_forward_time_ms r = Some last /\ sat_sub now last < r_max_frequency_ms r.
Proof.
  unfold rule_apply. destruct (Z.ltb_spec 0 (r_max_frequency_ms r)); cbn.
  - destruct (r_last_forward_time_ms r) as [last|]; cbn; [|by split; [|intros [_ (? & ? & _)]]].
    destruct (Z.ltb_spec (sat_sub now last) (r_max_frequency_ms r)); cbn.
    + split; eauto.
    + split; [done|]. intros [_ (l & [= ->] & ?)]. lia.
  - split; [done|]. intros [? _]. lia.
Qed.

Lemma rule_passes_alt now r :
  rule_passes now r <-> (rule_apply now r).2 = false /\ r_policy r <> ForwardPolicy.Block.
Proof.
  rewrite <- not_true_iff_false, rule_apply_limited. unfold rule_passes.
  destruct (r_last_forward_time_ms r) as [last|].
  - split.
    + intros [? H]. split; [|done]. intros [? (l & [= ->] & ?)]. lia.
    + intros [H ?]. split; [done|]. destruct (decide (r_max_frequency_ms r <= 0)); [by left|right].
      destruct (decide (sat_sub now last < r_max_frequency_ms r)); [|lia]. exfalso. apply H.
      split; [lia|]. eauto.
  - split; [intros [? _]; split; [|done]; by intros [_ (? & ? & _)]|]. intros [_ ?]. auto.
Qed.

(** The filter the frame meets: a claim is learned before the rules are consulted. *)
Definition filters_for (n : Niu) (f : Frame) (origin : Side) : FilterRule -> bool :=
  frame_matches (observe_address_claim f origin n) f origin.

Definition source_ok (f : Frame) : Prop :=
  FrameOps.source f <> BROADCAST_ADDRESS /\
  (FrameOps.source f = NULL_ADDRESS -> FrameOps.pgn f = PGN_ADDRESS_CLAIMED).

(** What decides: the first matching rule, else the default of the filter mode. *)
Definition admitted (n : Niu) (f : Frame) (origin : Side) (now : Z) : Prop :=
  match List.find (filters_for n f origin) (filters n) with
  | Some r => rule_passes now r
  | None => default_policy (niu_config n) (FrameOps.is_broadcast f) <> ForwardPolicy.Block
  end.

(** Fields the frame path leaves alone: configuration, state, and every rule but for its
    rate-limiter clock. *)
Record niu_frame_keeps (n n' : Niu) : Prop := {
  nk_config : niu_config n' = niu_config n;
  nk_state : niu_state n' = niu_state n;
  nk_filters : (with_last_forward None <$> filters n') = (with_last_forward None <$> filters n)
}.

Lemma keeps_refl n : niu_frame_keeps n n.
Proof. by split. Qed.

Lemma resolve_policy_spec f origin now n :
  let '(n', policy, limited) := resolve_policy f origin now n in
  niu_frame_keeps n n' /\ forwarded_count n' = forwarded_count n /\
  blocked_count n' = blocked_count n /\ recent_forwards n' = recent_forwards n /\
  match List.find (frame_matches n f origin) (filters n) with
  | Some r => policy = r_policy r /\ limited = (rule_apply now r).2
  | None => policy = default_policy (niu_config n) (FrameOps.is_broadcast f) /\ limited = false
  end.
Proof.
  unfold resolve_policy. pose proof (resolve_rules_spec (frame_matches n f origin) now (filters n)) as H.
  destruct (List.find _ _) as [r|].
  - destruct H as (l1 & l2 & Hr & _ & _ & ->). split_and!; try done. split; try done. cbn.
    rewrite Hr, !fmap_app, !fmap_cons. do 2 f_equal. unfold rule_apply. by repeat case_match.
  - rewrite H. by split_and!.
Qed.

Lemma observe_claim_same f origin n :
  niu_config (observe_address_claim f origin n) = niu_config n /\
  niu_state (observe_address_claim f origin n) = niu_state n /\
  filters (observe_address_claim f origin n) = filters n /\
  recent_forwards (observe_address_claim f origin n) = recent_forwards n /\
  forwarded_count (observe_address_claim f origin n) = forwarded_count n /\
  blocked_count (observe_address_claim f origin n) = blocked_count n.
Proof. unfold observe_address_claim. by repeat case_match. Qed.

Lemma filters_for_recent l f origin n :
  filters_for (set_recent_forwards l n) f origin = filters_for n f origin.
Proof. unfold filters_for, observe_address_claim, frame_matches. by repeat case_match. Qed.

Lemma remember_same f side now n :
  niu_config (remember_forwarded_frame f side now n) = niu_config n /\
  niu_state (remember_forwarded_frame f side now n) = niu_state n /\
  filters (remember_forwarded_frame f side now n) = filters n /\
  forwarded_count (remember_forwarded_frame f side now n) = forwarded_count n /\
  blocked_count (remember_forwarded_frame f side now n) = blocked_count n.
Proof. unfold remember_forwarded_frame. by repeat case_match. Qed.

Lemma source_guard f :
  (FrameOps.source f =? BROADCAST_ADDRESS)
  || ((FrameOps.source f =? NULL_ADDRESS) && negb (FrameOps.pgn f =? PGN_ADDRESS_CLAIMED)) = false
  <-> source_ok f.
Proof.
  unfold source_ok. destruct (Z.eqb_spec (FrameOps.source f) BROADCAST_ADDRESS),
    (Z.eqb_spec (FrameOps.source f) NULL_ADDRESS), (Z.eqb_spec (FrameOps.pgn f) PGN_ADDRESS_CLAIMED);
    cbn; (split; [try done|try done]); tauto.
Qed.

(** The recent-forward memory after a frame that was let through. *)
Definition remembered (f : Frame) (origin : Side) (now : Z) (l : list RecentForward) (n : Niu)
    : list RecentForward :=
  recent_forwards (remember_forwarded_frame f (other origin) now (set_recent_forwards l n)).

Lemma inner_spec f origin now rem n :
  niu_state n = NiuState.Active ->
  let '(n', out, evs) := process_frame_inner f origin now rem n in
  niu_frame_keeps n n' /\
  match out with
  | Some g => g = f /\ source_ok f /\ ~ echoes n f origin now /\ admitted n f origin now /\
      forwarded_count n' = sat_add 32 (forwarded_count n) 1 /\
      blocked_count n' = blocked_count n /\
      (evs = [OnForwarded f origin] \/ evs = [OnForwarded f origin; OnMonitored f origin])
  | None => ~ (source_ok f /\ ~ echoes n f origin now /\ admitted n f origin now) /\
      forwarded_count n' = forwarded_count n /\
      blocked_count n' = sat_add 32 (blocked_count n) 1 /\ evs = [OnBlocked f origin]
  end.
Proof.
  intros Hact. unfold process_frame_inner. rewrite Hact, bool_decide_eq_true_2 by done.
  cbn [negb]. pose proof (source_guard f) as Hsrc.
  destruct (_ || _); [split; [by split|]; split_and!; try done; intros [? _]; naive_solver|].
  apply proj1 in Hsrc. specialize (Hsrc eq_refl).
  pose proof (loop_echo_spec f origin now n) as He.
  destruct (is_loop_echo f origin now n) as [n1 echo]. destruct He as [Hecho ->].
  set (l := if guarded (niu_config n) then _ else _).
  destruct echo.
  { split; [by split|]. split_and!; try done. intros (_ & Hne & _). by apply Hne, Hecho. }
  assert (Hne : ~ echoes n f origin now) by (intros ?%Hecho; done).
  set (n1 := set_recent_forwards l n).
  destruct (observe_claim_same f origin n1) as (Hc & Hst & Hfl & Hrf & Hfw & Hbl).
  pose proof (resolve_policy_spec f origin now (observe_address_claim f origin n1)) as Hr.
  destruct (resolve_policy f origin now (observe_address_claim f origin n1)) as [[n2 policy] lim].
  destruct Hr as ([Kc Ks Kf] & Fw & Bl & _ & Hdec). rewrite Hfl in Hdec, Kf.
  assert (Hadm : lim = false /\ policy <> ForwardPolicy.Block <-> admitted n f origin now).
  { unfold admitted. rewrite <- (filters_for_recent l). fold n1. unfold filters_for.
    change (filters n) with (filters n1).
    destruct (List.find _ _) as [r|]; destruct Hdec as [-> ->]; [by rewrite rule_passes_alt|].
    rewrite Hc. tauto. }
  assert (Hk : niu_frame_keeps n n2) by (split; [by rewrite Kc, Hc|by rewrite Ks, Hst|done]).
  destruct lim.
  { split; [by destruct Hk|]. split_and!; cbn; rewrite ?Fw, ?Hfw, ?Bl, ?Hbl; try done.
    intros (_ & _ & [? _]%Hadm). done. }
  assert (Hkr : forall n3, niu_config n3 = niu_config n2 -> niu_state n3 = niu_state n2 ->
    filters n3 = filters n2 -> niu_frame_keeps n n3).
  { intros n3 E1 E2 E3. destruct Hk. split; congruence. }
  destruct policy; cbn beta iota.
  - destruct (remember_same f (other origin) now (add_forwarded n2)) as (R1 & R2 & R3 & R4 & R5).
    destruct rem; (split; [by apply Hkr|]); split_and!; try done; try (by apply Hadm);
      rewrite ?R4, ?R5; cbn; rewrite ?Fw, ?Hfw, ?Bl, ?Hbl; auto.
  - split; [by destruct Hk|]. split_and!; cbn; rewrite ?Fw, ?Hfw, ?Bl, ?Hbl; try done.
    intros (_ & _ & [_ ?]%Hadm). done.
  - destruct (remember_same f (other origin) now (add_forwarded n2)) as (R1 & R2 & R3 & R4 & R5).
    destruct rem; (split; [by apply Hkr|]); split_and!; try done; try (by apply Hadm);
      rewrite ?R4, ?R5; cbn; rewrite ?Fw, ?Hfw, ?Bl, ?Hbl; auto.
Qed.

(** ** Decision and accounting *)

Lemma niu_decision f origin now n :
  let '(n', out, evs) := niu_process_frame f origin now n in
  niu_frame_keeps n n' /\ (out = Some f \/ out = None) /\
  (out = Some f <-> niu_state n = NiuState.Active /\ source_ok f /\ ~ echoes n f origin now /\
     admitted n f origin now) /\
  (niu_state n = NiuState.Active -> out = None -> evs = [OnBlocked f origin]) /\
  (niu_state n <> NiuState.Active -> n' = n /\ evs = []).
Proof.
  unfold niu_process_frame. destruct (decide (niu_state n = NiuState.Active)) as [Ha|Ha].
  - pose proof (inner_spec f origin now true n Ha) as Hs.
    destruct (process_frame_inner f origin now true n) as [[n' out] evs].
    destruct Hs as [Hk Hs]. destruct out as [g|].
    + destruct Hs as (-> & ? & ? & ? & _). split_and!; try done; auto.
    + destruct Hs as (? & _ & _ & ->). split_and!; try done; [auto|]. split; [done|tauto].
  - unfold process_frame_inner. rewrite bool_decide_eq_false_2 by done. cbn [negb].
    split_and!; try done; [auto|]. by split; [|intros []].
Qed.


(** A run of frames, and the frames sent on. *)
Fixpoint niu_run (l : list (Frame * Side * Z)) (n : Niu) : Niu * list Frame :=
  match l with
  | [] => (n, [])
  | (f, origin, now) :: l =>
      let '(n, out, _) := niu_process_frame f origin now n in
      let '(n, fs) := niu_run l n in
      (n, match out with Some f => f :: fs | None => fs end)
  end.

(** Every frame an active unit sees is counted once, as forwarded or as blocked, and the
    forwarded ones are what it sends on, in order (up to the saturation of the 32-bit
    counters). *)
Theorem niu_accounting l n :
  niu_state n = NiuState.Active -> 0 <= forwarded_count n -> 0 <= blocked_count n ->
  forwarded_count n + Z.of_nat (length l) < 2 ^ 32 ->
  blocked_count n + Z.of_nat (length l) < 2 ^ 32 ->
  let '(n', out) := niu_run l n in
  forwarded_count n' = forwarded_count n + Z.of_nat (length out) /\
  forwarded_count n' + blocked_count n'
    = forwarded_count n + blocked_count n + Z.of_nat (length l) /\
  sublist out (l.*1.*1).
Proof.
  revert n. induction l as [|[[f origin] now] l IH]; intros n Ha Hf Hb Hfl Hbl; simpl.
  { split_and!; try lia. constructor. }
  unfold niu_process_frame. pose proof (inner_spec f origin now true n Ha) as Hs.
  destruct (process_frame_inner f origin now true n) as [[n1 out] evs].
  destruct Hs as [[Hc Hst Hfi] Hs]. cbn [length] in *.
  specialize (IH n1). destruct (niu_run l n1) as [n2 fs].
  destruct out as [g|].
  - destruct Hs as (-> & _ & _ & _ & Hfw & Hbk & _). unfold sat_add in Hfw.
    destruct IH as (I1 & I2 & I3); [congruence|lia..|]. cbn [length].
    split_and!; [lia|lia|]. by constructor.
  - destruct Hs as (_ & Hfw & Hbk & _). unfold sat_add in Hbk.
    destruct IH as (I1 & I2 & I3); [congruence|lia..|].
    split_and!; [lia|lia|]. by constructor.
Qed.

(** ** The loop guard *)

Definition remembers (n : Niu) (side : Side) (s : FrameSignature) (at_ms : Z) (c : nat) : Prop :=
  exists l1 l2, recent_forwards n = l1 ++ mkRecent side s at_ms :: l2 /\ (length l2 <= c)%nat.

Lemma recent_offset t d e w :
  0 <= e <= d -> d <= w -> w < 2 ^ 32 ->
  forall side s, is_recent (wrap 32 (t + d)) w (mkRecent side s (wrap 32 (t + e))).
Proof.
  intros He Hd Hw side s. unfold is_recent, wrapping_sub32, wrap. cbn.
  rewrite <- Zminus_mod. replace (t + d - (t + e)) with (d - e) by lia.
  rewrite Z.mod_small; lia.
Qed.

Lemma evict_suffix cap l1 l2 :
  (length l2 < cap)%nat -> exists l1', evict cap (l1 ++ l2) = l1' ++ l2.
Proof.
  intros Hl. induction l1 as [|x l1 IH].
  - exists []. destruct l2 as [|y l2]; [done|]. cbn [app evict].
    by rewrite (proj2 (Nat.leb_gt _ _)).
  - cbn [app evict]. destruct (_ <=? _)%nat; [done|]. by exists (x :: l1).
Qed.

Lemma filter_middle now w l1 e l2 :
  is_recent now w e ->
  filter (is_recent now w) (l1 ++ e :: l2)
    = filter (is_recent now w) l1 ++ e :: filter (is_recent now w) l2.
Proof. intros. by rewrite filter_app, filter_cons_True. Qed.

Lemma remembers_filter n side s at_ms c now w :
  remembers n side s at_ms c -> is_recent now w (mkRecent side s at_ms) ->
  remembers (set_recent_forwards (filter (is_recent now w) (recent_forwards n)) n) side s at_ms c.
Proof.
  intros (l1 & l2 & Hl & Hc) Hr. rewrite Hl. eexists _, _. cbn. rewrite filter_middle by done.
  split; [done|]. etrans; [apply length_filter|done].
Qed.

Lemma remembers_insert l1 e l2 i (x : RecentForward) :
  exists l1' e' l2', <[i:=x]> (l1 ++ e :: l2) = l1' ++ e' :: l2' /\
    length l2' = length l2 /\ (e' = e \/ e' = x /\ i = length l1).
Proof.
  destruct (decide (i < length l1)%nat) as [Hi|Hi].
  - eexists _, e, l2. rewrite insert_app_l by done. split_and!; auto.
  - replace i with (length l1 + (i - length l1))%nat by lia. rewrite insert_app_r.
    destruct (i - length l1)%nat as [|k] eqn:Ek.
    + exists l1, x, l2. split_and!; try done. right. split; [done|lia].
    + exists l1, e, (<[k:=x]> l2). split_and!; try done; [apply length_insert|by left].
Qed.

(** Remembering another forward keeps an entry that is still recent, while fewer than
    [capacity] frames have been remembered since. *)
Lemma remember_keeps n side s t e d c g target :
  let w := loop_guard_window_ms (niu_config n) in
  0 <= e <= d -> d <= w -> w < 2 ^ 32 ->
  (c + 1 < loop_guard_max_recent_forwards (niu_config n))%nat ->
  remembers n side s (wrap 32 (t + e)) c ->
  exists e', e <= e' <= d /\
    remembers (remember_forwarded_frame g target (wrap 32 (t + d)) n) side s
      (wrap 32 (t + e')) (c + 1).
Proof.
  intros w He Hd Hw Hcap (l1 & l2 & Hl & Hc). unfold remember_forwarded_frame. fold w.
  destruct (_ || _). { exists e. split; [lia|]. exists l1, l2. split; [done|lia]. }
  rewrite Hl, filter_middle by (by apply recent_offset).
  set (f1 := filter _ l1). set (f2 := filter _ l2).
  assert (Hf2 : (length f2 <= c)%nat) by (etrans; [apply length_filter|done]).
  destruct (position _ _) as [i|] eqn:Hi.
  - destruct (remembers_insert f1 (mkRecent side s (wrap 32 (t + e))) f2 i
      (mkRecent target (from_frame g) (wrap 32 (t + d)))) as (l1' & e' & l2' & Heq & Hlen & Hor).
    destruct Hor as [->|[-> ->]].
    + exists e. split; [lia|]. eexists _, _. cbn. rewrite Heq. split; [done|lia].
    + exists d. split; [lia|]. apply position_Some in Hi as (y & Hy & Hm & _).
      rewrite list_lookup_middle in Hy by done. injection Hy as <-.
      apply same_forward_true in Hm as [Hm1 Hm2]. cbn in Hm1, Hm2. subst target s.
      eexists _, _. cbn. rewrite Heq. split; [done|lia].
  - destruct (evict_suffix (loop_guard_max_recent_forwards (niu_config n)) f1
      (mkRecent side s (wrap 32 (t + e)) :: f2)) as (l1' & ->); [cbn; lia|].
    exists e. split; [lia|]. exists l1', (f2 ++ [mkRecent target (from_frame g) (wrap 32 (t + d))]).
    cbn. split; [by rewrite <- app_assoc|]. rewrite length_app. cbn. lia.
Qed.

Lemma remembers_eq n n' side s a c :
  recent_forwards n' = recent_forwards n -> remembers n side s a c -> remembers n' side s a c.
Proof. unfold remembers. by intros ->. Qed.

Lemma remembers_more n side s a c c' :
  (c <= c')%nat -> remembers n side s a c -> remembers n side s a c'.
Proof. intros Hc (l1 & l2 & ? & ?). exists l1, l2. split; [done|lia]. Qed.

(** One frame of any kind keeps an entry that is still recent. *)
Lemma process_keeps n side s t e d c g o :
  let w := loop_guard_window_ms (niu_config n) in
  0 <= e <= d -> d <= w -> w < 2 ^ 32 ->
  (c + 1 < loop_guard_max_recent_forwards (niu_config n))%nat ->
  remembers n side s (wrap 32 (t + e)) c ->
  exists e', e <= e' <= d /\
    remembers (niu_process_frame g o (wrap 32 (t + d)) n).1.1 side s (wrap 32 (t + e')) (c + 1).
Proof.
  intros w He Hd Hw Hcap Hr. unfold niu_process_frame, process_frame_inner.
  assert (Hsame : forall n', recent_forwards n' = recent_forwards n -> exists e', e <= e' <= d /\
    remembers n' side s (wrap 32 (t + e')) (c + 1)).
  { intros n' Hn'. exists e. split; [lia|]. eapply remembers_more, remembers_eq; [|done|done]. lia. }
  destruct (negb _); [by apply Hsame|]. destruct (_ || _); [by apply Hsame|].
  pose proof (loop_echo_spec g o (wrap 32 (t + d)) n) as Hecho.
  destruct (is_loop_echo g o (wrap 32 (t + d)) n) as [n1 echo]. destruct Hecho as [_ ->].
  set (l := if guarded _ then _ else _). set (n1 := set_recent_forwards l n).
  assert (Hr1 : remembers n1 side s (wrap 32 (t + e)) c).
  { subst n1 l. destruct (guarded _); [|done].
    apply remembers_filter; [done|]. by apply recent_offset. }
  assert (Hkeep : forall n', recent_forwards n' = recent_forwards n1 -> exists e', e <= e' <= d /\
    remembers n' side s (wrap 32 (t + e')) (c + 1)).
  { intros n' Hn'. exists e. split; [lia|]. eapply remembers_more, remembers_eq; [|done|done]. lia. }
  destruct echo; [by apply Hkeep|].
  destruct (observe_claim_same g o n1) as (Hc & _ & _ & Hrf & _).
  pose proof (resolve_policy_spec g o (wrap 32 (t + d)) (observe_address_claim g o n1)) as Hrp.
  destruct (resolve_policy _ _ _ _) as [[n2 policy] lim].
  destruct Hrp as ([Kc _ _] & _ & _ & Hr2 & _). rewrite Hrf in Hr2.
  destruct lim; [by apply Hkeep|].
  assert (Hrem : exists e', e <= e' <= d /\ remembers (remember_forwarded_frame g (other o)
    (wrap 32 (t + d)) (add_forwarded n2)) side s (wrap 32 (t + e')) (c + 1)).
  { apply remember_keeps; cbn [niu_config add_forwarded]; rewrite ?Kc, ?Hc; try done.
    by eapply remembers_eq. }
  destruct policy; [done|by apply Hkeep|done].
Qed.

(** A run of frames at offsets from [t]. *)
Definition at_offsets (t : Z) (l : list (Frame * Side * Z)) : list (Frame * Side * Z) :=
  (fun '(f, o, d) => (f, o, wrap 32 (t + d))) <$> l.

Lemma frame_keeps f o now n : niu_frame_keeps n (niu_process_frame f o now n).1.1.
Proof.
  unfold niu_process_frame. destruct (decide (niu_state n = NiuState.Active)) as [Ha|Ha].
  - pose proof (inner_spec f o now true n Ha) as Hs.
    destruct (process_frame_inner f o now true n) as [[n' out] evs]. apply Hs.
  - unfold process_frame_inner. by rewrite bool_decide_eq_false_2.
Qed.

Lemma run_frame_keeps l n :
  niu_config (niu_run l n).1 = niu_config n /\ niu_state (niu_run l n).1 = niu_state n.
Proof.
  revert n. induction l as [|[[f o] now] l IH]; intros n; [done|]. cbn [niu_run].
  pose proof (frame_keeps f o now n) as Hk.
  destruct (niu_process_frame f o now n) as [[n1 out] evs]. destruct Hk as [Hc Hs _].
  specialize (IH n1). destruct (niu_run l n1) as [n2 fs]. cbn in *. destruct IH. split; congruence.
Qed.

(** Times that never go back from [d], and stay up to [dn]. *)
Fixpoint in_order (d dn : Z) (ds : list Z) : Prop :=
  match ds with [] => d <= dn | x :: ds => d <= x /\ in_order x dn ds end.

Lemma in_order_le d dn ds : in_order d dn ds -> d <= dn.
Proof. revert d. induction ds as [|x ds IH]; intros d; cbn; [done|]. intros [? ?%IH]. lia. Qed.

Lemma run_keeps l side s t dn : forall n e d0 c,
  let w := loop_guard_window_ms (niu_config n) in
  0 <= e <= d0 -> w < 2 ^ 32 -> in_order d0 dn l.*2 -> dn <= w ->
  (c + length l < loop_guard_max_recent_forwards (niu_config n))%nat ->
  remembers n side s (wrap 32 (t + e)) c ->
  exists e', e <= e' <= dn /\
    remembers (niu_run (at_offsets t l) n).1 side s (wrap 32 (t + e')) (c + length l).
Proof.
  induction l as [|[[g o] d] l IH]; intros n e d0 c w He Hw Hord Hwin Hcap Hr.
  { exists e. cbn in *. rewrite Nat.add_0_r. split; [lia|done]. }
  cbn [length fmap list_fmap in_order snd] in *. destruct Hord as [Hd0 Hord].
  pose proof (in_order_le _ _ _ Hord).
  destruct (process_keeps n side s t e d c g o) as (e1 & He1 & Hr1); [fold w; lia..|done|].
  pose proof (frame_keeps g o (wrap 32 (t + d)) n) as [Hc _ _].
  destruct (IH (niu_process_frame g o (wrap 32 (t + d)) n).1.1 e1 d (c + 1)%nat) as (e' & H1 & H2);
    rewrite ?Hc; try done; try lia.
  exists e'. split; [lia|]. cbn [at_offsets fmap list_fmap niu_run]. fold (at_offsets t l).
  destruct (niu_process_frame g o (wrap 32 (t + d)) n) as [[n1 out] evs]. cbn in *.
  change (list_fmap _ _ _ l) with (at_offsets t l).
  destruct (niu_run (at_offsets t l) n1) as [n2 fs]. cbn in *.
  by replace (c + S (length l))%nat with (c + 1 + length l)%nat by lia.
Qed.

(** A forwarded frame that was not in memory is remembered last. *)
Lemma forward_remembers n f origin t :
  guarded (niu_config n) = true ->
  Forall (fun e => same_forward (other origin) (from_frame f) e = false) (recent_forwards n) ->
  (niu_process_frame f origin t n).1.2 = Some f ->
  remembers (niu_process_frame f origin t n).1.1 (other origin) (from_frame f) t 0.
Proof.
  intros Hg Hnew. unfold niu_process_frame, process_frame_inner.
  destruct (negb _); [done|]. destruct (_ || _); [done|].
  pose proof (loop_echo_spec f origin t n) as Hecho.
  destruct (is_loop_echo f origin t n) as [n1 echo]. destruct Hecho as [_ ->].
  destruct echo; [done|]. rewrite Hg. set (n1 := set_recent_forwards _ n).
  destruct (observe_claim_same f origin n1) as (Hc & _ & _ & Hrf & _).
  pose proof (resolve_policy_spec f origin t (observe_address_claim f origin n1)) as Hrp.
  destruct (resolve_policy _ _ _ _) as [[n2 policy] lim].
  destruct Hrp as ([Kc _ _] & _ & _ & Hr2 & _). rewrite Hrf in Hr2.
  assert (Hrem : remembers (remember_forwarded_frame f (other origin) t (add_forwarded n2))
    (other origin) (from_frame f) t 0).
  { unfold remember_forwarded_frame. cbn [niu_config add_forwarded recent_forwards].
    unfold guarded in Hg. apply negb_true_iff in Hg.
    rewrite Kc, Hc, Hr2. cbn [niu_config n1 set_recent_forwards recent_forwards]. rewrite Hg.
    rewrite (proj2 (position_None _ _)); [by eexists _, []; split|].
    by apply Forall_filter_P, Forall_filter_P. }
  destruct lim; [done|]. by destruct policy.
Qed.

(** The loop guard: a frame forwarded at time [t] (and not already in memory) is not
    accepted back from the side it was sent to while the window lasts, whatever fewer than
    [loop_guard_max_recent_forwards] other frames arrive in between, in either direction, and
    even across a wrap of the 32-bit clock. *)
Theorem niu_no_echo n f origin t l d :
  let c := niu_config n in
  let n1 := (niu_process_frame f origin t n).1.1 in
  let n2 := (niu_run (at_offsets t l) n1).1 in
  guarded c = true -> in_u 32 t -> loop_guard_window_ms c < 2 ^ 32 ->
  Forall (fun e => same_forward (other origin) (from_frame f) e = false) (recent_forwards n) ->
  (niu_process_frame f origin t n).1.2 = Some f ->
  (length l < loop_guard_max_recent_forwards c)%nat ->
  in_order 0 d l.*2 -> d <= loop_guard_window_ms c ->
  (niu_process_frame f (other origin) (wrap 32 (t + d)) n2).1.2 = None.
Proof.
  intros c n1 n2 Hg Ht Hw Hnew Hfw Hlen Hord Hd.
  pose proof (forward_remembers n f origin t Hg Hnew Hfw) as Hr. fold n1 in Hr.
  assert (Hc1 : niu_config n1 = c) by apply frame_keeps.
  assert (Hc2 : niu_config n2 = c) by (unfold n2; by rewrite (proj1 (run_frame_keeps _ _))).
  destruct (run_keeps l (other origin) (from_frame f) t d n1 0 0 0) as (e & He & l1 & l2 & Hl & _);
    rewrite ?Hc1; try done; try lia.
  { by rewrite Z.add_0_r, wrap_small. }
  fold n2 in Hl. pose proof (in_order_le _ _ _ Hord).
  pose proof (niu_decision f (other origin) (wrap 32 (t + d)) n2) as Hdec.
  destruct (niu_process_frame f (other origin) (wrap 32 (t + d)) n2) as [[n3 out] evs].
  destruct Hdec as (_ & [->| ->] & Hiff & _); [|done].
  destruct (proj1 Hiff eq_refl) as (_ & _ & Hne & _). exfalso. apply Hne. unfold echoes. rewrite Hc2.
  split; [done|]. eexists. rewrite Hl. split; [apply elem_of_app; right; by left|].
  split; [by apply recent_offset|done].
Qed.

Definition guard_frame : Frame :=
  FrameOps.new8 (Identifier.encode Priority.Default 0xFECA 0x20 0xFF) [1; 2; 3; 4; 5; 6; 7; 8].

Definition active_niu (capacity : nat) : Niu :=
  niu_start (Niu_new (mkNiuConfig "NIU" true true NiuFilterMode.BlockSpecific capacity 250 None)).

Lemma niu_no_echo_witness :
  (niu_process_frame guard_frame Implement (wrap 32 (2 ^ 32 - 100 + 200))
    (niu_process_frame guard_frame Tractor (2 ^ 32 - 100) (active_niu 256)).1.1).1.2 = None.
Proof.
  apply (niu_no_echo (active_niu 256) guard_frame Tractor (2 ^ 32 - 100) [] 200); cbn;
    unfold in_u; try done; lia.
Defined.

(** Refreshing an entry leaves it at its place in the queue, so that the frame seen last can
    be the first one evicted: with room for two entries, a frame is forwarded, another one,
    then the first again; a third frame evicts the first, and its echo ten milliseconds
    after it was forwarded is let through. *)
Theorem refreshed_echo_forwarded :
  let g k := FrameOps.new8 (Identifier.encode Priority.Default 0xFECA k 0xFF)
               [0; 0; 0; 0; 0; 0; 0; 0] in
  let '(n, out) := niu_run [(g 0x20, Tractor, 0); (g 0x21, Tractor, 10); (g 0x20, Tractor, 20);
                            (g 0x22, Tractor, 25)] (active_niu 2) in
  length out = 4%nat /\ (niu_process_frame (g 0x20) Implement 30 n).1.2 = Some (g 0x20).
Proof. vm_compute. done. Qed.

(** ** Rate limiting *)

(** The times at which a rule lets frames through, of those offered. *)
Fixpoint rule_fires (nows : list Z) (r : FilterRule) : list Z :=
  match nows with
  | [] => []
  | now :: nows =>
      let '(r, limited) := rule_apply now r in
      if (limited : bool) then rule_fires nows r else now :: rule_fires nows r
  end.

Definition spaced_from (m : Z) (last : option Z) (l : list Z) : Prop :=
  forall i a b, (omap id [last] ++ l) !! i = Some a -> (omap id [last] ++ l) !! S i = Some b ->
    m <= b - a.

Lemma spaced_nil m last : spaced_from m last [].
Proof. intros i a b. destruct last, i as [|[|]]; cbn; done. Qed.

Lemma spaced_cons m last x l :
  match last with Some a => m <= x - a | None => True end -> spaced_from m (Some x) l ->
  spaced_from m last (x :: l).
Proof.
  intros H0 Hl. destruct last as [a|]; cbn; [|exact Hl].
  intros [|i] y z; cbn; [by intros [= <-] [= <-]|]. apply (Hl i y z).
Qed.

Lemma rule_apply_clock now r m :
  0 < m -> r_max_frequency_ms r = m ->
  match r_last_forward_time_ms r with Some a => a <= now | None => True end ->
  (match r_last_forward_time_ms r with Some a => m <= now - a | None => True end /\
   rule_apply now r = (with_last_forward (Some now) r, false)) \/
  (exists a, r_last_forward_time_ms r = Some a /\ now - a < m /\ rule_apply now r = (r, true)).
Proof.
  intros Hm Hr Hle. unfold rule_apply. rewrite Hr, (proj2 (Z.ltb_lt _ _)) by done.
  destruct (r_last_forward_time_ms r) as [a|]; [|by left].
  unfold sat_sub. destruct (Z.ltb_spec (Z.max (now - a) 0) m); [right|left].
  - exists a. split_and!; try done. lia.
  - split; [lia|done].
Qed.

Lemma rule_fires_spec m dn : 0 < m -> forall nows r d,
  r_max_frequency_ms r = m -> in_order d dn nows ->
  match r_last_forward_time_ms r with Some a => a <= d | None => True end ->
  spaced_from m (r_last_forward_time_ms r) (rule_fires nows r) /\
  forall t, t ∈ nows -> exists s, s ∈ omap id [r_last_forward_time_ms r] ++ rule_fires nows r /\
    s <= t < s + m.
Proof.
  intros Hm. induction nows as [|t nows IH]; intros r d Hr Hord Hle.
  { split; [apply spaced_nil|]. by intros t ?%elem_of_nil. }
  destruct Hord as [Hdt Hord]. cbn [rule_fires].
  destruct (rule_apply_clock t r m Hm Hr) as [[Hsp ->]|(a & Ha & Hlt & ->)].
  { destruct (r_last_forward_time_ms r); [lia|done]. }
  - destruct (IH (with_last_forward (Some t) r) t Hr Hord (Z.le_refl t)) as [I1 I2].
    split; [by apply spaced_cons|]. intros u [->|Hu]%elem_of_cons.
    + exists t. split; [|lia]. apply elem_of_app. right. by left.
    + destruct (I2 u Hu) as (s & Hs & ?). exists s. split; [|done].
      apply elem_of_app. right. by apply Hs.
  - destruct (IH r t Hr Hord) as [I1 I2]. { rewrite Ha in *. lia. }
    split; [done|]. intros u [->|Hu]%elem_of_cons; [|by apply I2].
    exists a. rewrite Ha in *. split; [by left|]. lia.
Qed.

(** On a clock that does not go back, a rate-limited rule lets frames through at least
    [max_frequency_ms] apart and drops none it need not drop: every frame offered comes less
    than that interval after one that went through (or is one). *)
Theorem niu_rate_limit nows r d dn :
  0 < r_max_frequency_ms r -> in_order d dn nows ->
  match r_last_forward_time_ms r with Some a => a <= d | None => True end ->
  spaced_from (r_max_frequency_ms r) (r_last_forward_time_ms r) (rule_fires nows r) /\
  forall t, t ∈ nows -> exists s, s ∈ omap id [r_last_forward_time_ms r] ++ rule_fires nows r /\
    s <= t < s + r_max_frequency_ms r.
Proof. intros. by eapply (rule_fires_spec _ dn). Qed.

Lemma niu_rate_limit_witness :
  let r := with_max_frequency_ms 100 (FilterRule_new 0xFECA ForwardPolicy.Allow true) in
  rule_fires [0; 40; 100; 150; 210] r = [0; 100; 210] /\
  spaced_from 100 None (rule_fires [0; 40; 100; 150; 210] r).
Proof.
  intros r. split; [reflexivity|]. apply (niu_rate_limit [0; 40; 100; 150; 210] r 0 300); cbn; lia.
Defined.

(** The rate limiter subtracts clock values without wrapping, unlike the loop guard.  A rule
    that forwarded a frame less than its interval before the 32-bit clock wraps never
    lets a frame through again, at any clock value, until the rules are replaced. *)
Theorem rate_limit_blackout n f origin r last now :
  List.find (filters_for n f origin) (filters n) = Some r ->
  r_last_forward_time_ms r = Some last -> 2 ^ 32 <= last + r_max_frequency_ms r ->
  in_u 32 last -> in_u 32 now ->
  let '(n', out, _) := niu_process_frame f origin now n in
  out = None /\ (with_last_forward None <$> filters n') = (with_last_forward None <$> filters n).
Proof.
  intros Hf Hl Hm [Hl0 Hl1] [Hn0 Hn1]. pose proof (niu_decision f origin now n) as Hd.
  destruct (niu_process_frame f origin now n) as [[n' out] evs].
  destruct Hd as ([_ _ Hk] & [->| ->] & Hiff & _); [|done].
  destruct (proj1 Hiff eq_refl) as (_ & _ & _ & Ha). unfold admitted in Ha. rewrite Hf in Ha.
  destruct Ha as [_ [?|Ha]]; [lia|]. rewrite Hl in Ha. unfold sat_sub in Ha. lia.
Qed.

Lemma rate_limit_blackout_witness :
  let n := add_filter (with_last_forward (Some (2 ^ 32 - 10)) (with_max_frequency_ms 100
             (FilterRule_new 0xFECA ForwardPolicy.Allow true))) (active_niu 256) in
  let '(n', out, _) := niu_process_frame guard_frame Tractor 500 n in
  out = None /\ (with_last_forward None <$> filters n') = (with_last_forward None <$> filters n).
Proof.
  intros n. apply (rate_limit_blackout n guard_frame Tractor (with_last_forward (Some (2 ^ 32 - 10))
    (with_max_frequency_ms 100 (FilterRule_new 0xFECA ForwardPolicy.Allow true))) (2 ^ 32 - 10));
    try (vm_compute; done); unfold in_u; cbn; lia.
Defined.

Lemma niu_accounting_witness :
  forwarded_count (niu_run [(guard_frame, Tractor, 0); (guard_frame, Implement, 5)]
                     (active_niu 256)).1 = 1.
Proof.
  pose proof (niu_accounting [(guard_frame, Tractor, 0); (guard_frame, Implement, 5)]
    (active_niu 256)) as H.
  destruct (niu_run _ _) as [n' out] eqn:E. cbn [fst].
  destruct H as (-> & _); try (cbn; done || lia).
  vm_compute in E. injection E as _ <-. reflexivity.
Defined.
