(* ===== verification/NiuRouterProofs.v ===== *)
(** The theorems of the router: the translation database is a pair of inverse partial maps,
    and a routed frame is the original with its addresses translated. *)
From stdpp Require Import gmap.
From S2P Require Export NiuProofs.
#[local] Open Scope Z_scope.

(** ** The translation database *)

(** Every entry is active and every NAME, tractor address and implement address occurs
    once. *)
Record db_ok (db : TranslationDb) : Prop := {
  do_active : Forall (fun t => tr_active t = true) db;
  do_names : NoDup (tr_name <$> db);
  do_side : forall side, NoDup ((fun t => tr_address t side) <$> db);
  do_range : Forall (fun t => forall side, 0 <= tr_address t side <= MAX_ADDRESS) db
}.

Lemma name_eqb_true (a b : Name.t) : Name.eqb a b = true <-> a = b.
Proof.
  destruct a, b. unfold Name.eqb. rewrite Z.eqb_eq. cbn. split; [by intros ->|by intros [= ->]].
Qed.

Lemma name_eqb_false (a b : Name.t) : Name.eqb a b = false <-> a <> b.
Proof. rewrite <- not_true_iff_false. by rewrite name_eqb_true. Qed.

(** An OK from the check: no other active NAME uses either address. *)
Lemma ensure_ok name ta ia db :
  ensure_side_addresses_available name ta ia db = Ok tt ->
  Forall (fun e => tr_active e = true -> tr_name e <> name ->
            tr_tractor_address e <> ta /\ tr_implement_address e <> ia) db.
Proof.
  induction db as [|e db IH]; simpl; [done|].
  destruct (tr_active e) eqn:Ea, (Name.eqb (tr_name e) name) eqn:En; simpl; intros H;
    try (constructor; [|by apply IH]; congruence).
  - constructor; [|by apply IH]. apply name_eqb_true in En. by intros.
  - destruct (Z.eqb_spec (tr_tractor_address e) ta); [done|].
    destruct (Z.eqb_spec (tr_implement_address e) ia); [done|].
    constructor; [done|by apply IH].
Qed.

Lemma db_translate_elem a b side db :
  db_ok db ->
  db_translate a side db = Some b <->
  exists t, t ∈ db /\ tr_address t side = a /\ tr_address t (other side) = b.
Proof.
  intros [Ha _ Hs _]. specialize (Hs side). induction db as [|t db IH]; simpl.
  { split; [done|]. by intros (t & ?%elem_of_nil & _). }
  apply Forall_cons in Ha as [-> Ha]. apply NoDup_cons in Hs as [Hn Hs]. unfold tr_translate.
  destruct (Z.eqb_spec a (tr_address t side)) as [->|Hne].
  - split; [intros [= <-]; exists t; split; [by left|done]|].
    intros (t' & [->|Hin]%elem_of_cons & He & Hb); [by rewrite Hb|].
    exfalso. apply Hn. rewrite <- He. by apply (list_elem_of_fmap_2 (fun t => tr_address t side)).
  - rewrite IH by done. split; intros (t' & Hin & ? & ?).
    + exists t'. split; [by right|done].
    + apply elem_of_cons in Hin as [->|Hin]; [congruence|]. by exists t'.
Qed.

Lemma other_other s : other (other s) = s.
Proof. by destruct s. Qed.

Lemma db_translate_inverse a b side db :
  db_ok db -> db_translate a side db = Some b -> db_translate b (other side) db = Some a.
Proof.
  intros Hok (t & Hin & <- & <-)%db_translate_elem; [|done]. apply db_translate_elem; [done|].
  exists t. by rewrite other_other.
Qed.

Lemma db_translate_range a b side db :
  db_ok db -> db_translate a side db = Some b -> 0 <= b <= MAX_ADDRESS.
Proof.
  intros Hok (t & Hin & _ & <-)%db_translate_elem; [|done].
  by apply (proj1 (Forall_forall _ _) (do_range db Hok)).
Qed.

Lemma alter_middle {A} (h : A -> A) l i x :
  l !! i = Some x -> exists l1 l2, l = l1 ++ x :: l2 /\ alter h i l = l1 ++ h x :: l2.
Proof.
  revert i. induction l as [|y l IH]; intros [|i] Hi; try done.
  - injection Hi as ->. by exists [], l.
  - destruct (IH i Hi) as (l1 & l2 & -> & Ha). exists (y :: l1), l2. split; [done|].
    cbn. f_equal. exact Ha.
Qed.

(** Replacing an element by one whose key is its own or new. *)
Lemma NoDup_replace {A B} (g : A -> B) l1 x y l2 :
  NoDup (g <$> (l1 ++ x :: l2)) -> Forall (fun z => g z <> g y) (l1 ++ l2) ->
  NoDup (g <$> (l1 ++ y :: l2)).
Proof.
  rewrite !fmap_app, !fmap_cons. intros Hn Hy. assert (Hp : forall a,
    (g <$> l1) ++ a :: (g <$> l2) ≡ₚ a :: (g <$> l1) ++ (g <$> l2)) by (intros; symmetry; apply Permutation_middle).
  rewrite Hp in *. apply NoDup_cons in Hn as [_ Hn]. apply NoDup_cons. split; [|done].
  rewrite <- fmap_app. intros (z & Hz & Hin)%list_elem_of_fmap.
  by apply (proj1 (Forall_forall _ _) Hy z Hin (eq_sym Hz)).
Qed.

Lemma Forall_replace {A} (P : A -> Prop) l1 x y l2 :
  Forall P (l1 ++ x :: l2) -> P y -> Forall P (l1 ++ y :: l2).
Proof. rewrite !Forall_app, !Forall_cons. tauto. Qed.

Lemma Ok_inj {A X} (a b : A) : Ok (E:=X) a = Ok b -> b = a.
Proof. by intros [= ->]. Qed.

Lemma db_add_ok name ta ia db db' :
  db_ok db -> in_u 8 ta -> in_u 8 ia -> db_add name ta ia db = Ok db' -> db_ok db'.
Proof.
  intros [Ha Hnm Hs Hr] Ht Hi. unfold db_add, validate_translation_address, TranslationDb.
  destruct (Z.leb_spec ta MAX_ADDRESS); [|done]. destruct (Z.leb_spec ia MAX_ADDRESS); [|done].
  destruct (ensure_side_addresses_available name ta ia db) as [[]|] eqn:Ee; [|done].
  apply ensure_ok in Ee. unfold in_u in *.
  assert (Hfree : forall t side, t ∈ db -> tr_name t <> name ->
      tr_address t side <> match side with Tractor => ta | Implement => ia end).
  { intros t side Hin Hne. pose proof (proj1 (Forall_forall _ _) Ee t Hin
      (proj1 (Forall_forall _ _) Ha t Hin) Hne) as [Hta Hia]. by destruct side. }
  destruct (position _ db) as [i|] eqn:Hp; intros ->%Ok_inj.
  - apply position_Some in Hp as (t & Hti & Hn%name_eqb_true & _).
    destruct (alter_middle (fun t => mkTranslation (tr_name t) ta ia true) db i t Hti)
      as (l1 & l2 & -> & ->). subst name.
    assert (Hother : Forall (fun z => tr_name z <> tr_name t) (l1 ++ l2)).
    { rewrite fmap_app, fmap_cons, NoDup_app, NoDup_cons in Hnm.
      destruct Hnm as (_ & Hd & Hnt & _). apply Forall_app. split; apply Forall_forall; intros z Hz E0.
      - apply (Hd (tr_name z)); [by apply list_elem_of_fmap_2|]. rewrite E0. by left.
      - apply Hnt. rewrite <- E0. by apply list_elem_of_fmap_2. }
    split.
    + by eapply Forall_replace.
    + by eapply NoDup_replace.
    + intros side. eapply NoDup_replace; [apply Hs|]. apply Forall_forall. intros z Hz.
      pose proof (proj1 (Forall_forall _ _) Hother z Hz) as Hne.
      destruct side; cbn; apply (Hfree z Tractor) || apply (Hfree z Implement);
        (done || (apply elem_of_app; rewrite elem_of_cons; apply elem_of_app in Hz; tauto)).
    + eapply Forall_replace; [done|]. intros []; cbn; lia.
  - apply position_None in Hp. assert (Hother : Forall (fun z => tr_name z <> name) db).
    { eapply Forall_impl; [exact Hp|]. intros z. apply name_eqb_false. }
    split.
    + apply Forall_app. by split; [|constructor].
    + rewrite fmap_app. apply NoDup_app. split_and!; [done| |apply NoDup_singleton].
      intros x (z & -> & Hz)%list_elem_of_fmap Hx%list_elem_of_singleton.
      by apply (proj1 (Forall_forall _ _) Hother z Hz).
    + intros side. rewrite fmap_app. apply NoDup_app. split_and!; [done| |apply NoDup_singleton].
      intros x (z & -> & Hz)%list_elem_of_fmap Hx%list_elem_of_singleton.
      apply (Hfree z side Hz); [by apply (proj1 (Forall_forall _ _) Hother)|].
      rewrite Hx. by destruct side.
    + apply Forall_app. split; [done|]. apply Forall_singleton. intros []; cbn; lia.
Qed.

Lemma Forall_sublist {A} (P : A -> Prop) l k : sublist k l -> Forall P l -> Forall P k.
Proof.
  induction 1; intros Hl; [done|apply Forall_cons in Hl as [? ?]; by constructor; auto|].
  apply Forall_cons in Hl as [? ?]. auto.
Qed.

Lemma db_remove_ok name db : db_ok db -> db_ok (db_remove name db).
Proof.
  intros [Ha Hn Hs Hr]. unfold db_remove. destruct (position _ _) as [i|]; [|done].
  assert (Hsub : sublist (delete i db) db) by apply sublist_delete.
  split.
  - by eapply Forall_sublist.
  - eapply sublist_NoDup; [exact Hn|]. by apply fmap_sublist.
  - intros side. eapply sublist_NoDup; [apply Hs|]. by apply fmap_sublist.
  - by eapply Forall_sublist.
Qed.

Lemma db_ok_nil : db_ok [].
Proof. by split; try constructor. Qed.

(** The calls that change the database. *)
Inductive DbOp : Type :=
| DbAdd (name : Name.t) (tractor implement : Address)
| DbRemove (name : Name.t).

(** A refused addition leaves the database as it was. *)
Definition db_apply (op : DbOp) (db : TranslationDb) : TranslationDb :=
  match op with
  | DbAdd name ta ia => match db_add name ta ia db with Ok db' => db' | Err _ => db end
  | DbRemove name => db_remove name db
  end.

Definition db_op_typed (op : DbOp) : Prop :=
  match op with DbAdd _ ta ia => in_u 8 ta /\ in_u 8 ia | DbRemove _ => True end.

Lemma db_ops_ok ops db :
  Forall db_op_typed ops -> db_ok db -> db_ok (foldl (fun db op => db_apply op db) db ops).
Proof.
  revert db. induction ops as [|op ops IH]; intros db Ht Hok; [done|].
  apply Forall_cons in Ht as [Hop Ht]. cbn [foldl]. apply IH; [done|].
  destruct op as [name ta ia|name]; cbn; [|by apply db_remove_ok].
  destruct (db_add name ta ia db) as [db'|] eqn:Ea; [|done].
  destruct Hop as [Hta Hia]. exact (db_add_ok name ta ia db db' Hok Hta Hia Ea).
Qed.

(** Under any sequence of additions and removals the translation database stays a pair of
    inverse partial maps: a translated address is claimable and translates back to the
    original. *)
Theorem translation_inverse ops side a b :
  Forall db_op_typed ops ->
  let db := foldl (fun db op => db_apply op db) [] ops in
  db_translate a side db = Some b ->
  db_translate b (other side) db = Some a /\ 0 <= a <= MAX_ADDRESS /\ 0 <= b <= MAX_ADDRESS.
Proof.
  intros Ht db Hab. assert (Hok : db_ok db) by (apply db_ops_ok; [done|apply db_ok_nil]).
  pose proof (db_translate_inverse _ _ _ _ Hok Hab) as Hba.
  split_and!; [done|..]; by eapply db_translate_range.
Qed.

Definition sample_db_ops : list DbOp :=
  [DbAdd (Name.from_raw 7) 0x20 0x30; DbAdd (Name.from_raw 8) 0x21 0x20;
   DbAdd (Name.from_raw 9) 0x20 0x40].

Lemma translation_inverse_witness :
  db_translate 0x20 Implement (foldl (fun db op => db_apply op db) [] sample_db_ops) = Some 0x21.
Proof.
  apply (translation_inverse sample_db_ops Tractor 0x21 0x20); [|reflexivity].
  repeat constructor; by unfold in_u.
Defined.

(** ** Routed frames *)

(** Encoding a frame's own priority and PGN with other addresses changes the addresses
    only. *)
Lemma readdress f s d :
  in_u 8 s -> in_u 8 d ->
  let g := mkFrame (Identifier.encode (FrameOps.priority f) (FrameOps.pgn f) s d)
             (f_data f) (f_length f) (f_timestamp_us f) in
  FrameOps.pgn g = FrameOps.pgn f /\ FrameOps.priority g = FrameOps.priority f /\
  FrameOps.source g = s /\
  FrameOps.destination g = (if Identifier.is_pdu2 (f_id f) then BROADCAST_ADDRESS else d) /\
  Identifier.is_pdu2 (f_id g) = Identifier.is_pdu2 (f_id f).
Proof.
  intros Hs Hd g. pose proof (pgn_range (f_id f)) as Hp.
  assert (Hp32 : in_u 32 (FrameOps.pgn f)) by (by eapply in_u_mono; [|exact Hp]).
  destruct (identifier_fields (FrameOps.priority f) (FrameOps.pgn f) s d Hp32 Hs Hd)
    as (_ & H1 & H2 & H3 & H4).
  assert (Hpdu : pgn_is_pdu2 (FrameOps.pgn f) = Identifier.is_pdu2 (f_id f)).
  { unfold pgn_is_pdu2, Identifier.is_pdu2, FrameOps.pgn. by rewrite pdu_format_pgn. }
  split_and!; try done.
  - change (FrameOps.pgn g) with (Identifier.pgn (f_id g)). cbn [f_id g]. rewrite H3.
    unfold FrameOps.pgn. rewrite normalize_pgn. by apply (land_ones_small 18).
  - change (FrameOps.destination g) with (Identifier.destination (f_id g)). cbn [f_id g].
    by rewrite H4, Hpdu.
  - cbn [f_id g]. by rewrite encoded_is_pdu2.
Qed.

Lemma specific_pdu1 f :
  FrameOps.is_broadcast f = false -> Identifier.is_pdu2 (f_id f) = false.
Proof. unfold FrameOps.is_broadcast, Identifier.is_broadcast. by intros []%orb_false_iff. Qed.

(** The source of a routed frame: translated when the sender has an entry. *)
Lemma claim_source_range f origin r s :
  db_ok (rt_db r) -> translate_address_claim_source f origin r = Some (Some s) -> in_u 8 s.
Proof.
  intros Hok. unfold translate_address_claim_source. case_match; [done|].
  destruct (Name.from_bytes _) as [nm|]; cbn; [|done].
  destruct (lookup_by_address _ _ _) as [e|] eqn:El; [|by case_match].
  apply List.find_some in El as [Hin%list_elem_of_In _]. case_match; [done|]. intros [= He].
  unfold tr_translate in He. case_match; simplify_eq.
  pose proof (proj1 (Forall_forall _ _) (do_range _ Hok) e Hin (other origin)).
  unfold in_u, MAX_ADDRESS in *. lia.
Qed.

Lemma router_inner f origin now r n out evs :
  process_frame_inner f origin now false (rt_niu r) = (n, out, evs) -> out = Some f \/ out = None.
Proof.
  intros E. destruct (decide (niu_state (rt_niu r) = NiuState.Active)) as [Ha|Ha].
  - pose proof (inner_spec f origin now false (rt_niu r) Ha) as Hs. rewrite E in Hs.
    destruct out as [g|]; [|by right]. destruct Hs as (_ & -> & _). by left.
  - unfold process_frame_inner in E. rewrite bool_decide_eq_false_2 in E by done.
    cbn in E. simplify_eq. by right.
Qed.

Lemma in_u8_of_claimable a : 0 <= a <= MAX_ADDRESS -> in_u 8 a.
Proof. unfold in_u, MAX_ADDRESS. lia. Qed.

(** The outgoing frame of a routed one. *)
Lemma routed_frame f ns nd :
  in_u 8 ns -> in_u 8 nd ->
  (FrameOps.is_broadcast f = true -> nd = FrameOps.destination f) ->
  (FrameOps.is_broadcast f = false -> nd <= MAX_ADDRESS) ->
  let g := if (ns =? FrameOps.source f) && (nd =? FrameOps.destination f) then f
           else mkFrame (Identifier.encode (FrameOps.priority f) (FrameOps.pgn f) ns nd)
                  (f_data f) (f_length f) (f_timestamp_us f) in
  FrameOps.pgn g = FrameOps.pgn f /\ FrameOps.priority g = FrameOps.priority f /\
  FrameOps.payload g = FrameOps.payload f /\ FrameOps.source g = ns /\
  FrameOps.destination g = nd /\ FrameOps.is_broadcast g = FrameOps.is_broadcast f.
Proof.
  intros Hs Hd Hb Hsp. cbv zeta. destruct (_ && _) eqn:Eq; [by reflect_bools; subst|]. clear Eq.
  pose proof (readdress f ns nd Hs Hd) as (H1 & H2 & H3 & H4 & H5).
  revert H1 H2 H3 H4 H5. set (g := mkFrame _ _ _ _). intros H1 H2 H3 H4 H5.
  assert (Hdest : FrameOps.destination g = nd).
  { rewrite H4. destruct (Identifier.is_pdu2 (f_id f)) eqn:Ep; [|done].
    assert (Hbc : FrameOps.is_broadcast f = true)
      by (unfold FrameOps.is_broadcast, Identifier.is_broadcast; by rewrite Ep).
    by rewrite Hb, broadcast_destination. }
  split_and!; try done. unfold FrameOps.is_broadcast at 1, Identifier.is_broadcast.
  fold (FrameOps.destination g). rewrite H5, Hdest.
  destruct (FrameOps.is_broadcast f) eqn:Ebc.
  - by rewrite Hb, broadcast_destination, orb_true_r.
  - rewrite specific_pdu1 by done. cbn [orb]. apply Z.eqb_neq. specialize (Hsp eq_refl).
    unfold MAX_ADDRESS, BROADCAST_ADDRESS in *. lia.
Qed.

Lemma router_keeps_db f origin now r :
  let '(r', _, _) := router_process_frame f origin now r in
  rt_db r' = rt_db r /\ rt_forward_address_claims r' = rt_forward_address_claims r.
Proof.
  unfold router_process_frame. destruct (process_frame_inner _ _ _ _ _) as [[n out] evs].
  destruct out as [g|]; [|done]. destruct (_ && _); [done|].
  destruct (if _ =? _ then _ else _); [|done]. by destruct (negb _ && _).
Qed.

(** A routed frame keeps its PGN, priority and payload.  A destination-specific frame goes
    only to the translation of its destination and is dropped without one; its source
    is translated when the sender has an entry; and a reply from the other side to that
    source translates back to the original addresses.  Address claims cross only when
    the router was told to forward them. *)
Theorem router_translates r f origin now g r' evs :
  db_ok (rt_db r) ->
  router_process_frame f origin now r = (r', Some g, evs) ->
  FrameOps.pgn g = FrameOps.pgn f /\ FrameOps.priority g = FrameOps.priority f /\
  FrameOps.payload g = FrameOps.payload f /\
  (FrameOps.is_broadcast f = true -> FrameOps.is_broadcast g = true) /\
  (FrameOps.is_broadcast f = false ->
     db_translate (FrameOps.destination f) origin (rt_db r) = Some (FrameOps.destination g) /\
     db_translate (FrameOps.destination g) (other origin) (rt_db r')
       = Some (FrameOps.destination f)) /\
  (FrameOps.pgn f = PGN_ADDRESS_CLAIMED -> rt_forward_address_claims r = true) /\
  (FrameOps.pgn f <> PGN_ADDRESS_CLAIMED ->
     match db_translate (FrameOps.source f) origin (rt_db r) with
     | Some s => FrameOps.source g = s /\
         db_translate s (other origin) (rt_db r') = Some (FrameOps.source f)
     | None => FrameOps.source g = FrameOps.source f
     end).
Proof.
  intros Hok Hp. pose proof (router_keeps_db f origin now r) as Hdb. rewrite Hp in Hdb.
  destruct Hdb as [-> _]. unfold router_process_frame in Hp.
  destruct (process_frame_inner f origin now false (rt_niu r)) as [[n out] evs0] eqn:Ei.
  destruct (router_inner _ _ _ _ _ _ _ Ei) as [->| ->]; [|done].
  cbn [rt_db set_niu rt_forward_address_claims] in Hp.
  destruct (_ && negb _) eqn:Eclaim; [done|].
  set (src := if FrameOps.pgn f =? PGN_ADDRESS_CLAIMED then _ else _) in Hp.
  destruct src as [ts|] eqn:Esrc; [|done]. subst src.
  destruct (negb (FrameOps.is_broadcast f) && _) eqn:Ebr; [done|].
  apply (f_equal (fun x => x.1.2)) in Hp. cbn [fst snd] in Hp. apply (inj Some) in Hp as Hg.
  assert (Hts : in_u 8 (default (FrameOps.source f) ts)).
  { destruct ts as [s|]; cbn; [|auto with bus]. destruct (_ =? _).
    - by eapply (claim_source_range f origin (set_niu n r)).
    - injection Esrc as Esrc. apply in_u8_of_claimable. by eapply db_translate_range. }
  set (nd := if FrameOps.is_broadcast f then _ else _) in Hg.
  assert (Hnd : in_u 8 nd /\ (FrameOps.is_broadcast f = true -> nd = FrameOps.destination f) /\
    (FrameOps.is_broadcast f = false ->
       db_translate (FrameOps.destination f) origin (rt_db r) = Some nd)).
  { subst nd. destruct (FrameOps.is_broadcast f); [by split_and!; auto with bus|].
    cbn in Ebr. apply negb_false_iff, bool_decide_eq_true in Ebr as [b Eb]. rewrite Eb. cbn.
    split_and!; try done. apply in_u8_of_claimable. by eapply db_translate_range. }
  destruct Hnd as (Hn8 & Hnb & Hns).
  destruct (routed_frame f (default (FrameOps.source f) ts) nd Hts Hn8 Hnb) as
    (G1 & G2 & G3 & G4 & G5 & G6); [intros Hf; by apply (db_translate_range _ _ _ _ Hok (Hns Hf))|].
  rewrite Hg in *. split_and!; try done.
  - by rewrite G6.
  - rewrite G5. intros Hf. split; [by apply Hns|]. eapply db_translate_inverse; [done|by apply Hns].
  - intros Hcl. rewrite Hcl in Eclaim. cbn in Eclaim. by apply negb_false_iff in Eclaim.
  - intros Hncl. apply Z.eqb_neq in Hncl. rewrite Hncl in Esrc. injection Esrc as <-.
    rewrite G4. destruct (db_translate (FrameOps.source f) origin (rt_db r)) as [s|] eqn:Es; [|done].
    split; [done|]. by eapply db_translate_inverse.
Qed.

(** A router with two translations, forwarding by default. *)
Definition sample_router : Router :=
  mkRouter (active_niu 256) (foldl (fun db op => db_apply op db) [] sample_db_ops) false.

(** A request from tractor node 0x20 to tractor-side address 0x21. *)
Definition routed_request : Frame :=
  FrameOps.new8 (Identifier.encode Priority.Default PGN_REQUEST 0x20 0x21)
    [0; 0xEE; 0; 0xFF; 0xFF; 0xFF; 0xFF; 0xFF].

Lemma router_translates_witness :
  exists r' g evs, router_process_frame routed_request Tractor 0 sample_router = (r', Some g, evs) /\
    FrameOps.source g = 0x30 /\ FrameOps.destination g = 0x20.
Proof.
  destruct (router_process_frame routed_request Tractor 0 sample_router) as [[r' out] evs] eqn:E.
  destruct out as [g|]; [|by vm_compute in E].
  assert (Hok : db_ok (rt_db sample_router)).
  { apply (db_ops_ok sample_db_ops []); [|apply db_ok_nil]. repeat constructor; by unfold in_u. }
  destruct (router_translates sample_router routed_request Tractor 0 g r' evs Hok E)
    as (_ & _ & _ & _ & Hd & _ & Hs).
  exists r', g, evs. split; [done|]. split.
  - apply Hs. by vm_compute.
  - destruct (Hd ltac:(by vm_compute)) as [Hd' _].
    assert (Ht : db_translate (FrameOps.destination routed_request) Tractor (rt_db sample_router)
      = Some 0x20) by (vm_compute; reflexivity).
    rewrite Ht in Hd'. by apply (inj Some) in Hd'.
Defined.

(** A frame the filters admit but the router drops for want of a translation is counted
    and reported twice: as forwarded by the base unit, then as blocked by the router. *)
Theorem router_drop_counted_forwarded r f origin now :
  niu_state (rt_niu r) = NiuState.Active -> source_ok f -> ~ echoes (rt_niu r) f origin now ->
  admitted (rt_niu r) f origin now -> FrameOps.pgn f <> PGN_ADDRESS_CLAIMED ->
  FrameOps.is_broadcast f = false -> db_translate (FrameOps.destination f) origin (rt_db r) = None ->
  let '(r', out, evs) := router_process_frame f origin now r in
  out = None /\ OnForwarded f origin ∈ evs /\ OnBlocked f origin ∈ evs /\
  forwarded_count (rt_niu r') = sat_add 32 (forwarded_count (rt_niu r)) 1 /\
  blocked_count (rt_niu r') = sat_add 32 (blocked_count (rt_niu r)) 1.
Proof.
  intros Ha Hs He Had Hpgn Hb Hd. unfold router_process_frame.
  pose proof (inner_spec f origin now false (rt_niu r) Ha) as Hi.
  destruct (process_frame_inner f origin now false (rt_niu r)) as [[n out] evs].
  destruct Hi as [_ Hi]. destruct out as [g|]; [|by destruct Hi as [[] _]].
  destruct Hi as (-> & _ & _ & _ & Hfw & Hbl & Hev). apply Z.eqb_neq in Hpgn. rewrite Hpgn.
  cbn [andb rt_db set_niu]. rewrite Hb, Hd. rewrite bool_decide_eq_false_2 by (by intros [? ?]).
  cbn [negb andb block_translated_frame]. split_and!; try done.
  - apply elem_of_app. left. destruct Hev as [->| ->]; by left.
  - apply elem_of_app. right. by left.
  - cbn. by rewrite Hbl.
Qed.

(** A request to tractor-side address 0x22, which no translation covers. *)
Definition unrouted_request : Frame :=
  FrameOps.new8 (Identifier.encode Priority.Default PGN_REQUEST 0x20 0x22)
    [0; 0xEE; 0; 0xFF; 0xFF; 0xFF; 0xFF; 0xFF].

Lemma router_drop_counted_forwarded_witness :
  let '(r', out, _) := router_process_frame unrouted_request Tractor 0 sample_router in
  out = None /\ forwarded_count (rt_niu r') = 1 /\ blocked_count (rt_niu r') = 1.
Proof.
  assert (Ha : niu_state (rt_niu sample_router) = NiuState.Active) by reflexivity.
  assert (Hs : source_ok unrouted_request) by (vm_compute; intuition congruence).
  assert (He : ~ echoes (rt_niu sample_router) unrouted_request Tractor 0).
  { intros [_ (e & Hin & _)]. vm_compute in Hin. by apply elem_of_nil in Hin. }
  assert (Had : admitted (rt_niu sample_router) unrouted_request Tractor 0).
  { vm_compute. discriminate. }
  assert (Hp : FrameOps.pgn unrouted_request <> PGN_ADDRESS_CLAIMED) by (vm_compute; discriminate).
  assert (Hb : FrameOps.is_broadcast unrouted_request = false) by (vm_compute; reflexivity).
  assert (Hd : db_translate (FrameOps.destination unrouted_request) Tractor (rt_db sample_router)
    = None) by (vm_compute; reflexivity).
  assert (Hf : sat_add 32 (forwarded_count (rt_niu sample_router)) 1 = 1) by (vm_compute; reflexivity).
  assert (Hk : sat_add 32 (blocked_count (rt_niu sample_router)) 1 = 1) by (vm_compute; reflexivity).
  pose proof (router_drop_counted_forwarded sample_router unrouted_request Tractor 0
    Ha Hs He Had Hp Hb Hd) as H.
  destruct (router_process_frame unrouted_request Tractor 0 sample_router) as [[r' out] evs].
  destruct H as (Ho & _ & _ & Hfw & Hbl). rewrite Hf in Hfw. rewrite Hk in Hbl.
  exact (conj Ho (conj Hfw Hbl)).
Defined.
