(* ===== verification/Fixed.v ===== *)
(** The fixed-capacity containers of the embedded profile: the model of [src/fixed.rs].

    An inline array [[Option<T>; N]] is a list of [N] options; reading or writing outside
    it is a panic ([None]).  [FixedQueue] is a ring, [FixedSlots] a packed table,
    [FixedBytes] a byte buffer, [FixedBufferPool] a set of buffers handed out by
    index.  The theorems show that each refines the unbounded container of the hosted build
    (a [VecDeque] or [Vec] as a list) up to its capacity, and that no operation panics. *)
From S2P Require Export Frame.

(** [buf[i] = v]. *)
Definition array_set {A} (i : nat) (v : A) (l : list A) : option (list A) :=
  if (i <? length l)%nat then Some (<[i:=v]> l) else None.

(** ** [FixedQueue] *)

Record FixedQueue (T : Type) : Type := mkQueue {
  fq_buf : list (option T);
  fq_head : nat;
  fq_len : nat
}.
Arguments mkQueue {T} _ _ _.
Arguments fq_buf {T} _.
Arguments fq_head {T} _.
Arguments fq_len {T} _.

Section queue.
Context {T : Type} (N : nat).

Definition fq_new : FixedQueue T := mkQueue (replicate N None) 0 0.

Definition fq_is_full (q : FixedQueue T) : bool := (fq_len q =? N)%nat.

Definition fq_advance (idx : nat) : nat := if (N =? 0)%nat then 0%nat else ((idx + 1) mod N)%nat.

Definition fq_physical_index (q : FixedQueue T) (logical : nat) : nat :=
  if (N =? 0)%nat then 0%nat else ((fq_head q + logical) mod N)%nat.

Definition fq_push_back (item : T) (q : FixedQueue T) : option (FixedQueue T * Result unit T) :=
  if (fq_len q =? N)%nat then Some (q, Err item)
  else
    buf ← array_set (fq_physical_index q (fq_len q)) (Some item) (fq_buf q);
    Some (mkQueue buf (fq_head q) (fq_len q + 1), Ok tt).

Definition fq_pop_front (q : FixedQueue T) : option (FixedQueue T * option T) :=
  if (fq_len q =? 0)%nat then Some (q, None)
  else
    item ← fq_buf q !! fq_head q;
    buf ← array_set (fq_head q) None (fq_buf q);
    let len := (fq_len q - 1)%nat in
    Some (mkQueue buf (if (len =? 0)%nat then 0%nat else fq_advance (fq_head q)) len, item).

Definition fq_front (q : FixedQueue T) : option (option T) :=
  if (0 <? fq_len q)%nat then fq_buf q !! fq_head q else Some None.

(** The body of [retain], [n] times; [let _ = self.push_back(item)] drops an error. *)
Fixpoint fq_retain_loop (keep : T -> bool) (n : nat) (q : FixedQueue T) : option (FixedQueue T) :=
  match n with
  | O => Some q
  | S n =>
      '(q, item) ← fq_pop_front q;
      match item with
      | None => Some q
      | Some x =>
          if keep x then '(q, _) ← fq_push_back x q; fq_retain_loop keep n q
          else fq_retain_loop keep n q
      end
  end.

Definition fq_retain (keep : T -> bool) (q : FixedQueue T) : option (FixedQueue T) :=
  fq_retain_loop keep (fq_len q) q.

(** [while self.pop_front().is_some() {}]; one unit of fuel per item and one for the end. *)
Fixpoint fq_clear_loop (fuel : nat) (q : FixedQueue T) : option (FixedQueue T) :=
  match fuel with
  | O => None
  | S fuel =>
      '(q, item) ← fq_pop_front q;
      match item with Some _ => fq_clear_loop fuel q | None => Some q end
  end.

Definition fq_clear (q : FixedQueue T) : option (FixedQueue T) := fq_clear_loop (S (fq_len q)) q.
End queue.

(** ** [FixedSlots] *)

Record FixedSlots (T : Type) : Type := mkSlots {
  fs_buf : list (option T);
  fs_len : nat
}.
Arguments mkSlots {T} _ _.
Arguments fs_buf {T} _.
Arguments fs_len {T} _.

Section slots.
Context {T : Type} (N : nat).

Definition fs_new : FixedSlots T := mkSlots (replicate N None) 0.

(** [iter]: the slice [buf[..len]] and the [expect] on every slot. *)
Definition fs_iter (s : FixedSlots T) : option (list T) :=
  if (fs_len s <=? length (fs_buf s))%nat then mapM id (take (fs_len s) (fs_buf s)) else None.

Definition fs_push (item : T) (s : FixedSlots T) : option (FixedSlots T * Result unit T) :=
  if (fs_len s =? N)%nat then Some (s, Err item)
  else
    buf ← array_set (fs_len s) (Some item) (fs_buf s);
    Some (mkSlots buf (fs_len s + 1), Ok tt).

Definition fs_swap_remove (idx : nat) (s : FixedSlots T) : option (FixedSlots T * option T) :=
  if (fs_len s <=? idx)%nat then Some (s, None)
  else
    let last_idx := (fs_len s - 1)%nat in
    removed ← fs_buf s !! idx;
    buf ← array_set idx None (fs_buf s);
    buf ← (if (idx =? last_idx)%nat then Some buf
           else
             moved ← buf !! last_idx;
             buf ← array_set last_idx None buf;
             array_set idx moved buf);
    Some (mkSlots buf (fs_len s - 1), removed).

(** [retain]: every turn removes an item or advances, [len] turns in all. *)
Fixpoint fs_retain_loop (keep : T -> bool) (fuel idx : nat) (s : FixedSlots T)
    : option (FixedSlots T) :=
  if (fs_len s <=? idx)%nat then Some s
  else
    match fuel with
    | O => None
    | S fuel =>
        slot ← fs_buf s !! idx;
        if (match slot with Some x => negb (keep x) | None => false end) then
          '(s, _) ← fs_swap_remove idx s; fs_retain_loop keep fuel idx s
        else fs_retain_loop keep fuel (idx + 1) s
    end.

Definition fs_retain (keep : T -> bool) (s : FixedSlots T) : option (FixedSlots T) :=
  fs_retain_loop keep (fs_len s) 0 s.

Fixpoint fs_clear_loop (fuel : nat) (s : FixedSlots T) : option (FixedSlots T) :=
  if (fs_len s =? 0)%nat then Some s
  else
    match fuel with
    | O => None
    | S fuel => '(s, _) ← fs_swap_remove (fs_len s - 1) s; fs_clear_loop fuel s
    end.

Definition fs_clear (s : FixedSlots T) : option (FixedSlots T) := fs_clear_loop (fs_len s) s.

(** [Index] and [IndexMut], which assert the index and expect an item. *)
Definition fs_index (idx : nat) (s : FixedSlots T) : option T :=
  if (idx <? fs_len s)%nat then mjoin (fs_buf s !! idx) else None.

Definition fs_index_set (idx : nat) (v : T) (s : FixedSlots T) : option (FixedSlots T) :=
  _ ← fs_index idx s;
  buf ← array_set idx (Some v) (fs_buf s);
  Some (mkSlots buf (fs_len s)).
End slots.

(** ** [FixedBytes] *)

Record FixedCapacityError : Type := mkCapacityError { ce_capacity : nat; ce_requested : nat }.

Record FixedBytes : Type := mkFixedBytes { fb_data : list Z; fb_len : nat }.

Section fixed_bytes.
Context (N : nat).

Definition fb_new : FixedBytes := mkFixedBytes (replicate N 0) 0.

Definition fb_as_slice (b : FixedBytes) : list Z := take (fb_len b) (fb_data b).

Definition fb_push (byte : Z) (b : FixedBytes) : option (FixedBytes * Result unit FixedCapacityError) :=
  if (fb_len b =? N)%nat then Some (b, Err (mkCapacityError N (fb_len b + 1)))
  else
    data ← array_set (fb_len b) byte (fb_data b);
    Some (mkFixedBytes data (fb_len b + 1), Ok tt).

(** [self.data[a..b].copy_from_slice(bytes)], which panics out of range and on a length
    mismatch. *)
Definition copy_range (a b : nat) (bytes data : list Z) : option (list Z) :=
  if (a <=? b)%nat && (b <=? length data)%nat && (b - a =? length bytes)%nat
  then Some (take a data ++ bytes ++ drop b data) else None.

(** The [saturating_add] cannot saturate: arrays and slices are at most [isize::MAX] long. *)
Definition fb_extend_from_slice (bytes : list Z) (b : FixedBytes)
    : option (FixedBytes * Result unit FixedCapacityError) :=
  let requested := (fb_len b + length bytes)%nat in
  if (N <? requested)%nat then Some (b, Err (mkCapacityError N requested))
  else
    data ← copy_range (fb_len b) requested bytes (fb_data b);
    Some (mkFixedBytes data requested, Ok tt).

Definition fb_resize (new_len : nat) (value : Z) (b : FixedBytes)
    : option (FixedBytes * Result unit FixedCapacityError) :=
  if (N <? new_len)%nat then Some (b, Err (mkCapacityError N new_len))
  else
    data ← (if (fb_len b <? new_len)%nat
            then copy_range (fb_len b) new_len (replicate (new_len - fb_len b) value) (fb_data b)
            else Some (fb_data b));
    Some (mkFixedBytes data new_len, Ok tt).

Definition fb_clear (b : FixedBytes) : FixedBytes := mkFixedBytes (fb_data b) 0.

Definition fb_from_slice (bytes : list Z) : option (Result FixedBytes FixedCapacityError) :=
  '(b, r) ← fb_extend_from_slice bytes fb_new;
  Some (match r with Ok _ => Ok b | Err e => Err e end).
End fixed_bytes.

(** ** [FixedMessage] *)

Record FixedMessage : Type := mkFixedMessage {
  fm_pgn : Pgn;
  fm_data : FixedBytes;
  fm_source : Address;
  fm_destination : Address;
  fm_priority : Priority.t;
  fm_timestamp_us : Z
}.

Section fixed_message.
Context (N : nat).

(** [FixedBytes::from_slice(payload)?] under a constructor. *)
Definition fm_build (pgn : Pgn) (payload : list Z) (source destination : Address)
    (priority : Priority.t) (timestamp : Z) : option (Result FixedMessage FixedCapacityError) :=
  r ← fb_from_slice N payload;
  Some (match r with
        | Ok d => Ok (mkFixedMessage pgn d source destination priority timestamp)
        | Err e => Err e
        end).

Definition fm_new (pgn : Pgn) (payload : list Z) (source : Address) :=
  fm_build pgn payload source BROADCAST_ADDRESS Priority.Default 0.

Definition fm_with_addressing (pgn : Pgn) (payload : list Z) (source destination : Address)
    (priority : Priority.t) := fm_build pgn payload source destination priority 0.

Definition fm_from_frame (f : Frame) :=
  fm_build (FrameOps.pgn f) (FrameOps.payload f) (FrameOps.source f) (FrameOps.destination f)
    (FrameOps.priority f) (f_timestamp_us f).

Definition fm_from_message (m : Message) :=
  fm_build (m_pgn m) (m_data m) (m_source m) (m_destination m) (m_priority m) (m_timestamp_us m).

Definition fm_to_frame (m : FixedMessage) : Result Frame Error.t :=
  if (8 <? fb_len (fm_data m))%nat then Err Error.buffer_overflow
  else
    FrameOps.try_from_message_at (fm_priority m) (fm_pgn m) (fm_source m) (fm_destination m)
      (fb_as_slice (fm_data m)) (fm_timestamp_us m).
End fixed_message.

(** ** [FixedBufferPool] *)

Record FixedBufferPool : Type := mkPool { fp_buffers : list (list Z); fp_used : list bool }.

Section pool.
Context (SLOTS BUF_LEN : nat).

Definition pool_new : FixedBufferPool :=
  mkPool (replicate SLOTS (replicate BUF_LEN 0)) (replicate SLOTS false).

(** [acquire]: the first free slot; the caller gets its index and may fill the buffer through
    the reference ([pool_write]). *)
Definition pool_acquire (p : FixedBufferPool) : option (FixedBufferPool * nat) :=
  match position negb (fp_used p) with
  | None => None
  | Some i => Some (mkPool (fp_buffers p) (<[i:=true]> (fp_used p)), i)
  end.

Definition pool_write (i : nat) (content : list Z) (p : FixedBufferPool) : FixedBufferPool :=
  mkPool (<[i:=content]> (fp_buffers p)) (fp_used p).

Definition pool_release (slot : nat) (p : FixedBufferPool) : FixedBufferPool * bool :=
  if (slot <? SLOTS)%nat && (fp_used p !!! slot) then
    (mkPool (<[slot:=replicate BUF_LEN 0]> (fp_buffers p)) (<[slot:=false]> (fp_used p)), true)
  else (p, false).
End pool.
