(* ===== verification/FixedProofs.v ===== *)
(** The fixed-capacity containers refine the unbounded ones up to their capacity. *)
From S2P Require Export Fixed.
#[local] Open Scope nat_scope.

Lemma array_set_lt {A} i (v : A) l : i < length l -> array_set i v l = Some (<[i:=v]> l).
Proof. intros Hi. unfold array_set. by rewrite (proj2 (Nat.ltb_lt _ _) Hi). Qed.

(** ** The ring *)

Section ring.
Context {T : Type} (N : nat).

(** The ring holds [l]: slot [head + k] (modulo [N]) holds the [k]-th item, the others are
    empty. *)
Record fq_repr (q : FixedQueue T) (l : list T) : Prop := {
  repr_buf : length (fq_buf q) = N;
  repr_len : fq_len q = length l;
  repr_bound : length l <= N;
  repr_head : fq_head q < N \/ (N = 0 /\ fq_head q = 0);
  repr_slot k : k < N -> fq_buf q !! ((fq_head q + k) mod N) = Some (l !! k)
}.

Lemma ring_index h k :
  h < N -> k < N -> (h + k) mod N = if decide (h + k < N) then h + k else h + k - N.
Proof.
  intros Hh Hk. case_decide; [by apply Nat.mod_small|].
  rewrite <- (Nat.mod_small (h + k - N) N) by lia.
  rewrite <- (Nat.Div0.mod_add (h + k - N) 1 N). f_equal. lia.
Qed.

Lemma ring_index_lt h k : h < N -> (h + k) mod N < N.
Proof. intros. apply Nat.mod_upper_bound. lia. Qed.

Lemma ring_index_inj h k k' :
  h < N -> k < N -> k' < N -> (h + k) mod N = (h + k') mod N -> k = k'.
Proof. intros ???. rewrite !ring_index by done. repeat case_decide; lia. Qed.

Lemma ring_index_surj h i : h < N -> i < N -> exists k, k < N /\ (h + k) mod N = i.
Proof.
  intros. exists (if decide (h <= i) then i - h else i + N - h).
  case_decide; (split; [lia|]); rewrite ring_index by lia; case_decide; lia.
Qed.

Lemma fq_repr_new : fq_repr (fq_new N) [].
Proof.
  split; cbn; try done; [by rewrite length_replicate|lia|lia|].
  intros k Hk. rewrite lookup_nil. apply lookup_replicate_2. apply Nat.mod_upper_bound. lia.
Qed.

Lemma fq_push_spec q l x :
  fq_repr q l ->
  if decide (length l = N) then fq_push_back N x q = Some (q, Err x)
  else exists q', fq_push_back N x q = Some (q', Ok tt) /\ fq_repr q' (l ++ [x]).
Proof.
  intros [Hb Hl Hn Hh Hs]. unfold fq_push_back. rewrite Hl.
  case_decide as He; [by rewrite He, Nat.eqb_refl|].
  rewrite (proj2 (Nat.eqb_neq _ _) He). assert (Hh' : fq_head q < N) by lia.
  unfold fq_physical_index. rewrite (proj2 (Nat.eqb_neq N 0)) by lia.
  rewrite array_set_lt by (rewrite Hb; by apply ring_index_lt). cbn.
  eexists. split; [done|]. split; cbn.
  - by rewrite length_insert.
  - rewrite length_app. cbn. lia.
  - rewrite length_app. cbn. lia.
  - by left.
  - intros k Hk. destruct (decide (k = length l)) as [->|Hne].
    + rewrite list_lookup_insert_eq by (rewrite Hb; by apply ring_index_lt).
      by rewrite lookup_app_r, Nat.sub_diag by lia.
    + rewrite list_lookup_insert_ne by (intros E; apply ring_index_inj in E; lia).
      rewrite Hs by done. f_equal. destruct (decide (k < length l)).
      * by rewrite lookup_app_l.
      * rewrite lookup_ge_None_2 by lia. rewrite lookup_app_r by lia.
        symmetry. apply lookup_ge_None_2. cbn. lia.
Qed.

(** Taking the only item empties every slot. *)
Lemma fq_pop_last q (x : T) :
  fq_repr q [x] -> fq_repr (mkQueue (<[fq_head q:=None]> (fq_buf q)) 0 0) [].
Proof.
  intros [Hb Hl Hn Hh Hs]. cbn in Hn. assert (Hh' : fq_head q < N) by lia.
  split; cbn; try lia; [by rewrite length_insert|].
  intros k Hk. rewrite Nat.mod_small, lookup_nil by done.
  destruct (decide (k = fq_head q)) as [->|Hne].
  - apply list_lookup_insert_eq. lia.
  - rewrite list_lookup_insert_ne by done.
    destruct (ring_index_surj (fq_head q) k) as (j & Hj & <-); [done|done|].
    rewrite Hs by done. destruct j; [|done].
    rewrite Nat.add_0_r, Nat.mod_small in Hne by done. done.
Qed.

Lemma fq_pop_more q (x y : T) l :
  fq_repr q (x :: y :: l) ->
  fq_repr (mkQueue (<[fq_head q:=None]> (fq_buf q)) (fq_advance N (fq_head q)) (fq_len q - 1))
    (y :: l).
Proof.
  intros [Hb Hl Hn Hh Hs]. cbn in Hl, Hn. assert (Hh' : fq_head q < N) by lia.
  unfold fq_advance. rewrite (proj2 (Nat.eqb_neq N 0)) by lia.
  split; cbn [fq_buf fq_head fq_len].
  - by rewrite length_insert.
  - cbn. lia.
  - cbn. lia.
  - left. by apply ring_index_lt.
  - intros k Hk. rewrite Nat.Div0.add_mod_idemp_l, <- Nat.add_assoc, (Nat.add_comm 1 k).
    destruct (decide (k + 1 < N)) as [Hk'|Hk'].
    + rewrite list_lookup_insert_ne, Hs by
        (try done; intros E; rewrite <- (Nat.mod_small (fq_head q) N) in E at 1 by done;
         rewrite <- (Nat.add_0_r (fq_head q)) in E at 1; apply ring_index_inj in E; lia).
      by rewrite Nat.add_1_r.
    + replace (k + 1) with (1 * N) by lia. rewrite Nat.Div0.mod_add, Nat.mod_small by done.
      rewrite list_lookup_insert_eq by lia. symmetry. f_equal. apply lookup_ge_None_2. cbn. lia.
Qed.

Lemma fq_head_slot q (x : T) l : fq_repr q (x :: l) -> fq_buf q !! fq_head q = Some (Some x).
Proof.
  intros [Hb Hl Hn Hh Hs]. cbn in Hn. specialize (Hs 0).
  rewrite Nat.add_0_r, Nat.mod_small in Hs by lia. apply Hs. lia.
Qed.

Lemma fq_pop_spec q l :
  fq_repr q l ->
  match l with
  | [] => fq_pop_front N q = Some (q, None)
  | x :: l' => exists q', fq_pop_front N q = Some (q', Some x) /\ fq_repr q' l'
  end.
Proof.
  intros Hr. pose proof (repr_len _ _ Hr) as Hl. unfold fq_pop_front. rewrite Hl.
  destruct l as [|x l]; [done|]. cbn [length Nat.eqb]. rewrite (fq_head_slot _ _ _ Hr). cbn.
  pose proof (repr_bound _ _ Hr) as Hn. pose proof (repr_head _ _ Hr) as Hh.
  rewrite array_set_lt by (rewrite (repr_buf _ _ Hr); cbn in Hn; lia). cbn.
  eexists. split; [done|]. rewrite Nat.sub_0_r. destruct l as [|y l]; cbn.
  - by eapply fq_pop_last.
  - pose proof (fq_pop_more _ _ _ _ Hr) as H. rewrite Hl in H. exact H.
Qed.

Lemma fq_front_spec q l : fq_repr q l -> fq_front q = Some (head l).
Proof.
  intros Hr. unfold fq_front. rewrite (repr_len _ _ Hr). destruct l as [|x l]; [done|].
  cbn [length]. by rewrite (fq_head_slot _ _ _ Hr).
Qed.

(** One turn per item: the kept items go round to the back, in order. *)
Lemma fq_retain_loop_spec keep l1 l2 q :
  fq_repr q (l1 ++ l2) -> length l1 + length l2 <= N ->
  exists q', fq_retain_loop N keep (length l1) q = Some q' /\
    fq_repr q' (l2 ++ List.filter keep l1).
Proof.
  revert l2 q. induction l1 as [|x l1 IH]; intros l2 q Hr Hn; cbn in *.
  - eexists. split; [done|]. by rewrite app_nil_r.
  - destruct (fq_pop_spec _ _ Hr) as (q1 & -> & Hr1). cbn.
    destruct (keep x) eqn:Ek; cbn.
    + pose proof (fq_push_spec q1 _ x Hr1) as Hp. rewrite decide_False in Hp
        by (rewrite length_app; lia).
      destruct Hp as (q2 & -> & Hr2). cbn.
      rewrite <- app_assoc in Hr2. destruct (IH (l2 ++ [x]) q2 Hr2) as (q' & -> & Hr').
      { rewrite length_app. cbn. lia. }
      eexists. split; [done|]. by rewrite <- app_assoc in Hr'.
    + apply (IH l2 q1 Hr1). lia.
Qed.

Lemma fq_retain_spec keep q l :
  fq_repr q l -> exists q', fq_retain N keep q = Some q' /\ fq_repr q' (List.filter keep l).
Proof.
  intros Hr. unfold fq_retain. rewrite (repr_len _ _ Hr).
  apply (fq_retain_loop_spec keep l [] q); [by rewrite app_nil_r|].
  pose proof (repr_bound _ _ Hr). cbn. lia.
Qed.

Lemma fq_clear_spec q l : fq_repr q l -> exists q', fq_clear N q = Some q' /\ fq_repr q' [].
Proof.
  intros Hr. unfold fq_clear. rewrite (repr_len _ _ Hr). revert q Hr.
  induction l as [|x l IH]; intros q Hr; cbn.
  - rewrite (fq_pop_spec _ _ Hr). cbn. by exists q.
  - destruct (fq_pop_spec _ _ Hr) as (q' & -> & Hr'). by apply IH.
Qed.

(** *** Runs *)

Inductive QueueOp : Type := QPush (x : T) | QPop | QFront | QRetain (keep : T -> bool) | QClear.
Inductive QueueOut : Type := OPushed (r : Result unit T) | OItem (x : option T) | ODone.

Definition queue_step (op : QueueOp) (q : FixedQueue T) : option (FixedQueue T * QueueOut) :=
  match op with
  | QPush x => '(q, r) ← fq_push_back N x q; Some (q, OPushed r)
  | QPop => '(q, r) ← fq_pop_front N q; Some (q, OItem r)
  | QFront => r ← fq_front q; Some (q, OItem r)
  | QRetain keep => q ← fq_retain N keep q; Some (q, ODone)
  | QClear => q ← fq_clear N q; Some (q, ODone)
  end.

(** The bounded [VecDeque]. *)
Definition deque_step (op : QueueOp) (l : list T) : list T * QueueOut :=
  match op with
  | QPush x =>
      if decide (length l = N) then (l, OPushed (Err x)) else (l ++ [x], OPushed (Ok tt))
  | QPop => (tail l, OItem (head l))
  | QFront => (l, OItem (head l))
  | QRetain keep => (List.filter keep l, ODone)
  | QClear => ([], ODone)
  end.

Fixpoint queue_run (ops : list QueueOp) (q : FixedQueue T) : option (FixedQueue T * list QueueOut) :=
  match ops with
  | [] => Some (q, [])
  | op :: ops => '(q, o) ← queue_step op q; '(q, os) ← queue_run ops q; Some (q, o :: os)
  end.

Fixpoint deque_run (ops : list QueueOp) (l : list T) : list T * list QueueOut :=
  match ops with
  | [] => (l, [])
  | op :: ops => let '(l, o) := deque_step op l in let '(l, os) := deque_run ops l in (l, o :: os)
  end.

Lemma queue_step_spec op q l :
  fq_repr q l ->
  exists q', queue_step op q = Some (q', (deque_step op l).2) /\ fq_repr q' (deque_step op l).1.
Proof.
  intros Hr. destruct op as [x| | |keep|]; cbn [queue_step deque_step].
  - pose proof (fq_push_spec q l x Hr) as H. case_decide; [rewrite H|destruct H as (q' & -> & ?)];
      cbn; eauto.
  - pose proof (fq_pop_spec q l Hr) as H. destruct l; [rewrite H|destruct H as (q' & -> & ?)];
      cbn; eauto.
  - rewrite (fq_front_spec _ _ Hr). cbn. eauto.
  - destruct (fq_retain_spec keep q l Hr) as (q' & -> & ?). cbn. eauto.
  - destruct (fq_clear_spec q l Hr) as (q' & -> & ?). cbn. eauto.
Qed.

Lemma queue_run_spec ops q l :
  fq_repr q l ->
  exists q', queue_run ops q = Some (q', (deque_run ops l).2) /\ fq_repr q' (deque_run ops l).1.
Proof.
  revert q l. induction ops as [|op ops IH]; intros q l Hr; cbn; [by exists q|].
  destruct (queue_step_spec op q l Hr) as (q1 & -> & Hr1). cbn.
  destruct (deque_step op l) as [l1 o]. destruct (IH q1 l1 Hr1) as (q2 & -> & Hr2). cbn.
  destruct (deque_run ops l1). eauto.
Qed.

(** Under any sequence of operations the ring of capacity [N] returns exactly what a
    [VecDeque] that refuses items beyond [N] returns; no operation panics and [clear]
    terminates. *)
Theorem fixed_queue_refines ops :
  exists q, queue_run ops (fq_new N) = Some (q, (deque_run ops []).2) /\
    fq_repr q (deque_run ops []).1.
Proof. apply queue_run_spec, fq_repr_new. Qed.
End ring.

(** ** The slot table *)

Section slot_table.
Context {T : Type} (N : nat).

(** The table holds [l] in its first slots, the others are empty. *)
Record fs_repr (s : FixedSlots T) (l : list T) : Prop := {
  slots_buf : length (fs_buf s) = N;
  slots_len : fs_len s = length l;
  slots_bound : length l <= N;
  slots_slot k : k < N -> fs_buf s !! k = Some (l !! k)
}.

Lemma fs_repr_new : fs_repr (fs_new N) [].
Proof.
  split; cbn; [by rewrite length_replicate|done|lia|].
  intros k Hk. rewrite lookup_nil. by apply lookup_replicate_2.
Qed.

Lemma fs_push_spec s l x :
  fs_repr s l ->
  if decide (length l = N) then fs_push N x s = Some (s, Err x)
  else exists s', fs_push N x s = Some (s', Ok tt) /\ fs_repr s' (l ++ [x]).
Proof.
  intros [Hb Hl Hn Hs]. unfold fs_push. rewrite Hl.
  case_decide as He; [by rewrite He, Nat.eqb_refl|]. rewrite (proj2 (Nat.eqb_neq _ _) He).
  rewrite array_set_lt by lia. cbn. eexists. split; [done|].
  split; cbn; rewrite ?length_app, ?length_insert; cbn; try lia.
  intros k Hk. destruct (decide (k = length l)) as [->|Hne].
  - rewrite list_lookup_insert_eq by lia. by rewrite lookup_app_r, Nat.sub_diag by lia.
  - rewrite list_lookup_insert_ne, Hs by lia. f_equal. destruct (decide (k < length l)).
    + by rewrite lookup_app_l.
    + rewrite !(lookup_ge_None_2 _ k); rewrite ?length_app; cbn; try done; lia.
Qed.

(** The reference is [Vec::swap_remove]. *)
Lemma fs_swap_remove_spec s l idx x l' :
  fs_repr s l -> swap_remove idx l = Some (x, l') ->
  exists s', fs_swap_remove idx s = Some (s', Some x) /\ fs_repr s' l'.
Proof.
  intros [Hb Hl Hn Hs] Hr. unfold swap_remove in Hr.
  destruct (l !! idx) as [x'|] eqn:Hx; [|done]. destruct (last l) as [y|] eqn:Hy; [|done].
  cbn in Hr. injection Hr as <- <-. apply lookup_lt_Some in Hx as Hi.
  rewrite last_lookup in Hy. replace (pred (length l)) with (length l - 1) in Hy by lia.
  unfold fs_swap_remove. rewrite Hl, (proj2 (Nat.leb_gt _ _) Hi), Hs, Hx by lia. cbn.
  rewrite array_set_lt by lia. cbn.
  assert (Hlen : length (take (length l - 1) (<[idx:=y]> l)) = length l - 1)
    by (rewrite length_take, length_insert; lia).
  assert (Hout : forall k, length l - 1 <= k -> take (length l - 1) (<[idx:=y]> l) !! k = None)
    by (intros; apply lookup_ge_None_2; lia).
  destruct (Nat.eqb_spec idx (length l - 1)) as [->|Hne]; cbn.
  - eexists. split; [done|]. split; cbn; rewrite ?length_insert, ?Hlen; try lia.
    intros k Hk. destruct (decide (k = length l - 1)) as [->|Hk'].
    { rewrite list_lookup_insert_eq, Hout by lia. done. }
    rewrite list_lookup_insert_ne, Hs by done. f_equal.
    destruct (decide (k < length l)).
    + rewrite lookup_take_lt by lia. by rewrite list_lookup_insert_ne.
    + rewrite Hout by lia. apply lookup_ge_None_2. lia.
  - rewrite list_lookup_insert_ne, Hs, Hy by lia. cbn.
    rewrite array_set_lt by (rewrite length_insert; lia). cbn.
    rewrite array_set_lt by (rewrite !length_insert; lia). cbn.
    eexists. split; [done|]. split; cbn; rewrite ?length_insert, ?Hlen; try lia.
    intros k Hk. destruct (decide (k = idx)) as [->|Hk1].
    { rewrite list_lookup_insert_eq by (rewrite !length_insert; lia).
      by rewrite lookup_take_lt, list_lookup_insert_eq by lia. }
    rewrite list_lookup_insert_ne by done. destruct (decide (k = length l - 1)) as [->|Hk2].
    { rewrite list_lookup_insert_eq, Hout by (rewrite ?length_insert; lia). done. }
    rewrite !list_lookup_insert_ne, Hs by done. f_equal.
    destruct (decide (k < length l)).
    + rewrite lookup_take_lt by lia. by rewrite list_lookup_insert_ne.
    + rewrite Hout by lia. apply lookup_ge_None_2. lia.
Qed.

Lemma fs_swap_remove_out s l idx :
  fs_repr s l -> length l <= idx -> fs_swap_remove idx s = Some (s, None).
Proof.
  intros Hr Hi. unfold fs_swap_remove. by rewrite (slots_len _ _ Hr), (proj2 (Nat.leb_le _ _) Hi).
Qed.

Lemma fs_iter_spec s l : fs_repr s l -> fs_iter s = Some l.
Proof.
  intros [Hb Hl Hn Hs]. unfold fs_iter. rewrite Hb, Hl, (proj2 (Nat.leb_le _ _) Hn).
  apply mapM_Some. replace (take (length l) (fs_buf s)) with (Some <$> l).
  { clear. by induction l; constructor. }
  apply list_eq. intros k. rewrite list_lookup_fmap. destruct (decide (k < length l)) as [Hk|Hk].
  - rewrite lookup_take_lt, Hs by lia. apply lookup_lt_is_Some_2 in Hk as [x ->]. done.
  - rewrite lookup_ge_None_2 by lia. symmetry. apply lookup_ge_None_2. rewrite length_take. lia.
Qed.

Lemma fs_index_spec s l idx : fs_repr s l -> fs_index idx s = l !! idx.
Proof.
  intros [Hb Hl Hn Hs]. unfold fs_index. rewrite Hl. destruct (Nat.ltb_spec idx (length l)).
  - rewrite Hs by lia. done.
  - by rewrite lookup_ge_None_2.
Qed.

Lemma fs_index_set_spec s l idx v :
  fs_repr s l -> idx < length l ->
  exists s', fs_index_set idx v s = Some s' /\ fs_repr s' (<[idx:=v]> l).
Proof.
  intros Hr Hi. unfold fs_index_set. rewrite (fs_index_spec _ _ _ Hr).
  destruct (lookup_lt_is_Some_2 _ _ Hi) as [x ->]. cbn. destruct Hr as [Hb Hl Hn Hs].
  rewrite array_set_lt by lia. cbn. eexists. split; [done|].
  split; cbn; rewrite ?length_insert; try done.
  intros k Hk. destruct (decide (k = idx)) as [->|Hne].
  - by rewrite !list_lookup_insert_eq by lia.
  - by rewrite !list_lookup_insert_ne, Hs by done.
Qed.

Lemma filter_perm (keep : T -> bool) l l' : l ≡ₚ l' -> List.filter keep l ≡ₚ List.filter keep l'.
Proof.
  induction 1; cbn; repeat case_match; try done; [by constructor|by constructor|by etrans].
Qed.

(** [retain] keeps the prefix it has passed and, of the rest, what the predicate keeps. *)
Lemma fs_retain_loop_spec keep n l1 l2 s :
  fs_repr s (l1 ++ l2) -> length l2 <= n ->
  exists s' l', fs_retain_loop keep n (length l1) s = Some s' /\ fs_repr s' (l1 ++ l') /\
    l' ≡ₚ List.filter keep l2.
Proof.
  revert l1 l2 s. induction n as [|n IH]; intros l1 l2 s Hr Hf;
    pose proof (slots_len _ _ Hr) as Hl; rewrite length_app in Hl; destruct l2 as [|x l2];
    try (cbn in Hf; lia); cbn [fs_retain_loop].
  1,2: exists s, []; cbn in Hl; rewrite Hl, Nat.add_0_r, Nat.leb_refl; done.
  cbn [length] in Hl, Hf. rewrite Hl, (proj2 (Nat.leb_gt _ _)) by lia.
  assert (Hx : (l1 ++ x :: l2) !! length l1 = Some x)
    by (rewrite lookup_app_r, Nat.sub_diag by lia; done).
  pose proof (slots_bound _ _ Hr) as Hb. rewrite length_app in Hb. cbn in Hb.
  rewrite (slots_slot _ _ Hr), Hx by lia. cbn [mbind option_bind List.filter].
  destruct (keep x); cbn [negb].
  - destruct (IH (l1 ++ [x]) l2 s) as (s' & l' & E & Hr' & Hp); [by rewrite <- app_assoc|lia|].
    rewrite length_app in E. exists s', (x :: l'). rewrite <- app_assoc in Hr'.
    split_and!; try done. by rewrite Hp.
  - pose proof (swap_remove_split l1 l2 x) as Hsr.
    destruct (fs_swap_remove_spec _ _ _ _ _ Hr Hsr) as (s1 & -> & Hr1). cbn.
    destruct (IH l1 (rotate l2) s1 Hr1) as (s' & l' & E & Hr' & Hp).
    { rewrite (Permutation_length (rotate_perm l2)). lia. }
    exists s', l'. split_and!; try done. rewrite Hp. apply filter_perm, rotate_perm.
Qed.

Lemma fs_retain_spec keep s l :
  fs_repr s l ->
  exists s' l', fs_retain keep s = Some s' /\ fs_repr s' l' /\ l' ≡ₚ List.filter keep l.
Proof.
  intros Hr. unfold fs_retain. rewrite (slots_len _ _ Hr).
  apply (fs_retain_loop_spec keep (length l) [] l s Hr). done.
Qed.

Lemma fs_clear_spec s l : fs_repr s l -> exists s', fs_clear s = Some s' /\ fs_repr s' [].
Proof.
  intros Hr. unfold fs_clear. rewrite (slots_len _ _ Hr).
  revert s Hr. induction l as [|x l IH] using rev_ind; intros s Hr.
  - cbn. rewrite (slots_len _ _ Hr). cbn. eauto.
  - rewrite length_app, Nat.add_1_r. cbn [fs_clear_loop].
    rewrite (slots_len _ _ Hr), length_app, Nat.add_1_r. cbn [Nat.eqb].
    pose proof (swap_remove_split l [] x) as Hsr. cbn in Hsr. rewrite app_nil_r in Hsr.
    rewrite Nat.sub_succ, Nat.sub_0_r.
    destruct (fs_swap_remove_spec _ _ _ _ _ Hr Hsr) as (s1 & -> & Hr1). by apply IH.
Qed.

(** *** Runs *)

Inductive SlotOp : Type :=
| SPush (x : T) | SSwapRemove (idx : nat) | SRetain (keep : T -> bool) | SClear
| SIter | SSet (idx : nat) (x : T).
Inductive SlotOut : Type :=
| SPushed (r : Result unit T) | SRemoved (x : option T) | SItems (l : list T) | SDone.

Definition slots_step (op : SlotOp) (s : FixedSlots T) : option (FixedSlots T * SlotOut) :=
  match op with
  | SPush x => '(s, r) ← fs_push N x s; Some (s, SPushed r)
  | SSwapRemove idx => '(s, r) ← fs_swap_remove idx s; Some (s, SRemoved r)
  | SRetain keep => s ← fs_retain keep s; Some (s, SDone)
  | SClear => s ← fs_clear s; Some (s, SDone)
  | SIter => l ← fs_iter s; Some (s, SItems l)
  | SSet idx x => s ← fs_index_set idx x s; Some (s, SDone)
  end.

(** What the same call does on a [Vec] that holds at most [N] items.  The order [retain] leaves
    is not specified; [IndexMut] panics outside the vector. *)
Inductive vec_step : SlotOp -> list T -> list T -> SlotOut -> Prop :=
| vec_push l x : length l < N -> vec_step (SPush x) l (l ++ [x]) (SPushed (Ok tt))
| vec_full l x : length l = N -> vec_step (SPush x) l l (SPushed (Err x))
| vec_remove l idx x l' :
    swap_remove idx l = Some (x, l') -> vec_step (SSwapRemove idx) l l' (SRemoved (Some x))
| vec_remove_out l idx : length l <= idx -> vec_step (SSwapRemove idx) l l (SRemoved None)
| vec_retain l keep l' : l' ≡ₚ List.filter keep l -> vec_step (SRetain keep) l l' SDone
| vec_clear l : vec_step SClear l [] SDone
| vec_iter l : vec_step SIter l l (SItems l)
| vec_set l idx x : idx < length l -> vec_step (SSet idx x) l (<[idx:=x]> l) SDone.

Definition slot_op_ok (op : SlotOp) (l : list T) : Prop :=
  match op with SSet idx _ => idx < length l | _ => True end.

(** A slot table of capacity [N] that holds the items of a vector behaves, under every
    operation, as that vector with pushes beyond [N] refused: it returns without a panic
    ([IndexMut] inside its bounds), [retain] and [clear] terminate, and the table again holds
    the items of the resulting vector. *)
Theorem fixed_slots_refines op s l :
  fs_repr s l -> slot_op_ok op l ->
  exists s' l' o, slots_step op s = Some (s', o) /\ vec_step op l l' o /\ fs_repr s' l'.
Proof.
  intros Hr Hok. destruct op as [x|idx|keep| | |idx x]; cbn [slots_step].
  - pose proof (fs_push_spec s l x Hr) as H. pose proof (slots_bound _ _ Hr).
    case_decide; [rewrite H|destruct H as (s' & -> & Hr')]; cbn;
      (do 3 eexists; split; [done|]; split; [|done]).
    + by constructor.
    + constructor. lia.
  - destruct (decide (idx < length l)) as [Hi|Hi].
    + apply lookup_lt_is_Some_2 in Hi as [x Hx].
      destruct (swap_remove_Some _ _ _ Hx) as (l' & Hsr & _).
      destruct (fs_swap_remove_spec _ _ _ _ _ Hr Hsr) as (s' & -> & Hr'). cbn.
      exists s', l', (SRemoved (Some x)). split_and!; [done|by constructor|done].
    + rewrite (fs_swap_remove_out _ _ _ Hr) by lia. cbn.
      exists s, l, (SRemoved None). split_and!; [done|constructor; lia|done].
  - destruct (fs_retain_spec keep s l Hr) as (s' & l' & -> & Hr' & Hp). cbn.
    exists s', l', SDone. split_and!; [done|by constructor|done].
  - destruct (fs_clear_spec s l Hr) as (s' & -> & Hr'). cbn.
    exists s', [], SDone. split_and!; [done|constructor|done].
  - rewrite (fs_iter_spec _ _ Hr). cbn. exists s, l, (SItems l).
    split_and!; [done|constructor|done].
  - destruct (fs_index_set_spec s l idx x Hr Hok) as (s' & -> & Hr'). cbn.
    exists s', (<[idx:=x]> l), SDone. split_and!; [done|by constructor|done].
Qed.
End slot_table.

Lemma fixed_slots_refines_witness :
  exists s' l' o, slots_step 3 (SRetain Nat.even) (mkSlots [Some 1; Some 2; None] 2) = Some (s', o) /\
    vec_step 3 (SRetain Nat.even) [1; 2] l' o /\ fs_repr 3 s' l'.
Proof.
  apply (fixed_slots_refines 3 (SRetain Nat.even) (mkSlots [Some 1; Some 2; None] 2) [1; 2]); [|done].
  split; cbn; try lia. intros [|[|[|k]]] Hk; try done. lia.
Defined.

(** ** Byte buffers and messages *)

Section byte_buffer.
Context (N : nat).

Record fb_repr (b : FixedBytes) (l : list Z) : Prop := {
  fb_repr_data : length (fb_data b) = N;
  fb_repr_len : fb_len b = length l;
  fb_repr_bound : length l <= N;
  fb_repr_slice : fb_as_slice b = l
}.

Lemma fb_repr_new : fb_repr (fb_new N) [].
Proof. split; cbn; rewrite ?length_replicate; try done. lia. Qed.

(** Overwriting the bytes behind the visible ones appends them. *)
Lemma copy_range_spec b l bytes :
  fb_repr b l -> length l + length bytes <= N ->
  exists data, copy_range (length l) (length l + length bytes) bytes (fb_data b) = Some data /\
    fb_repr (mkFixedBytes data (length l + length bytes)) (l ++ bytes).
Proof.
  intros [Hd Hl Hn Hs] Hb. unfold copy_range. rewrite Hd.
  rewrite (proj2 (Nat.leb_le _ _)) by lia. rewrite (proj2 (Nat.leb_le _ _)) by lia.
  rewrite (proj2 (Nat.eqb_eq _ _)) by lia. eexists. split; [done|].
  unfold fb_as_slice in Hs. rewrite Hl in Hs. rewrite Hs. split; cbn.
  - rewrite !length_app, length_drop. lia.
  - by rewrite length_app.
  - rewrite length_app. lia.
  - unfold fb_as_slice. cbn. rewrite app_assoc, <- length_app. apply take_app_length.
Qed.

Lemma fb_extend_spec b l bytes :
  fb_repr b l ->
  if decide (length l + length bytes <= N) then
    exists b', fb_extend_from_slice N bytes b = Some (b', Ok tt) /\ fb_repr b' (l ++ bytes)
  else fb_extend_from_slice N bytes b
       = Some (b, Err (mkCapacityError N (length l + length bytes))).
Proof.
  intros Hr. unfold fb_extend_from_slice. pose proof (fb_repr_len _ _ Hr) as ->.
  case_decide as Hb.
  - rewrite (proj2 (Nat.ltb_ge _ _) Hb).
    destruct (copy_range_spec b l bytes Hr Hb) as (data & -> & Hr'). cbn. eauto.
  - by rewrite (proj2 (Nat.ltb_lt _ _)) by lia.
Qed.

Lemma fb_push_spec b l x :
  fb_repr b l ->
  if decide (length l < N) then
    exists b', fb_push N x b = Some (b', Ok tt) /\ fb_repr b' (l ++ [x])
  else fb_push N x b = Some (b, Err (mkCapacityError N (length l + 1))).
Proof.
  intros [Hd Hl Hn Hs]. unfold fb_push. rewrite Hl. case_decide as Hb.
  - rewrite (proj2 (Nat.eqb_neq _ _)) by lia. rewrite array_set_lt by lia. cbn.
    eexists. split; [done|]. split; cbn; rewrite ?length_insert, ?length_app; cbn; try lia.
    unfold fb_as_slice in *. cbn. rewrite Hl in Hs.
    rewrite Nat.add_1_r, (take_S_r _ _ x) by (apply list_lookup_insert_eq; lia).
    by rewrite take_insert_ge, Hs by lia.
  - by rewrite (proj2 (Nat.eqb_eq _ _)) by lia.
Qed.

Lemma fb_resize_spec b l n x :
  fb_repr b l ->
  if decide (n <= N) then
    exists b', fb_resize N n x b = Some (b', Ok tt) /\
      fb_repr b' (take n l ++ replicate (n - length l) x)
  else fb_resize N n x b = Some (b, Err (mkCapacityError N n)).
Proof.
  intros Hr. unfold fb_resize. case_decide as Hb.
  - rewrite (proj2 (Nat.ltb_ge _ _) Hb), !(fb_repr_len _ _ Hr).
    destruct (Nat.ltb_spec (length l) n) as [Hlt|Hge].
    + destruct (copy_range_spec b l (replicate (n - length l) x) Hr) as (data & E & Hr').
      { rewrite length_replicate. lia. }
      rewrite length_replicate in E, Hr'. replace (length l + (n - length l)) with n in E, Hr' by lia.
      rewrite E. cbn. eexists. split; [done|]. by rewrite take_ge by lia.
    + cbn. eexists. split; [done|]. destruct Hr as [Hd Hl Hn Hs].
      replace (n - length l) with 0 by lia. cbn. rewrite app_nil_r.
      split; cbn; rewrite ?length_take; try done; try lia.
      unfold fb_as_slice in *. cbn. rewrite <- Hs, take_take. f_equal. lia.
  - by rewrite (proj2 (Nat.ltb_lt _ _)) by lia.
Qed.

Lemma fb_clear_spec b l : fb_repr b l -> fb_repr (fb_clear b) [].
Proof. intros [Hd Hl Hn Hs]. split; cbn; try done. lia. Qed.

Lemma fb_from_slice_spec bytes :
  if decide (length bytes <= N) then
    exists b, fb_from_slice N bytes = Some (Ok b) /\ fb_repr b bytes
  else fb_from_slice N bytes = Some (Err (mkCapacityError N (length bytes))).
Proof.
  unfold fb_from_slice. pose proof (fb_extend_spec _ _ bytes fb_repr_new) as H. cbn in H.
  case_decide; [destruct H as (b & -> & Hr)|rewrite H]; cbn; eauto.
Qed.

(** A single-frame message survives the fixed representation: it is accepted exactly when the
    payload fits, and converting back gives the same identifier, length, payload and
    time stamp. *)
Theorem fixed_message_roundtrip f :
  FrameOps.wf f ->
  if decide (length (FrameOps.payload f) <= N) then
    exists m g, fm_from_frame N f = Some (Ok m) /\ fm_to_frame m = Ok g /\
      same_frame f g /\ f_timestamp_us g = f_timestamp_us f
  else fm_from_frame N f = Some (Err (mkCapacityError N (length (FrameOps.payload f)))).
Proof.
  intros (Hid & Hd & Hb & Hl). unfold fm_from_frame, fm_build.
  pose proof (fb_from_slice_spec (FrameOps.payload f)) as H.
  assert (Hpl : length (FrameOps.payload f) = Z.to_nat (f_length f)).
  { unfold FrameOps.payload. rewrite length_take. lia. }
  case_decide; [destruct H as (b & -> & Hr)|by rewrite H]. cbn.
  destruct Hr as [_ Hlen _ Hsl].
  exists (mkFixedMessage (FrameOps.pgn f) b (FrameOps.source f) (FrameOps.destination f)
    (FrameOps.priority f) (f_timestamp_us f)). unfold fm_to_frame. cbn [fm_data fm_priority fm_pgn fm_source fm_destination fm_timestamp_us].
  rewrite Hlen, Hpl, Hsl.
  unfold FrameOps.try_from_message_at, FrameOps.try_from_message, pgn_is_valid.
  rewrite (proj2 (Nat.ltb_ge _ _)) by lia.
  pose proof (pgn_range (f_id f)) as Hp. unfold in_u in Hp.
  rewrite (proj2 (Z.leb_le _ _)) by (unfold FrameOps.pgn; cbn in *; lia). cbn [negb].
  rewrite (proj2 (Nat.ltb_ge _ _)) by lia. eexists. split; [done|]. split; [done|].
  split; [|done]. unfold same_frame. cbn [f_id f_length f_data].
  unfold FrameOps.priority, FrameOps.pgn, FrameOps.source, FrameOps.destination.
  rewrite encode_accessors by done. split_and!; [done|lia|].
  match goal with |- _ = FrameOps.payload (mkFrame _ ?d ?n _) =>
    change (FrameOps.payload f = take (Nat.min (Z.to_nat n) 8) d) end.
  by rewrite Nat2Z.id, firstn_all, Nat.min_l, take_app_length by lia.
Qed.
End byte_buffer.

Lemma fixed_message_roundtrip_witness :
  exists m g, fm_from_frame 3 (mkFrame (Identifier.mk 0x18EAFF80) [0; 0xEE; 0; 255; 255; 255; 255; 255]%Z 3 7)
      = Some (Ok m) /\ fm_to_frame m = Ok g /\ f_timestamp_us g = 7%Z.
Proof.
  pose proof (fixed_message_roundtrip 3
    (mkFrame (Identifier.mk 0x18EAFF80) [0; 0xEE; 0; 255; 255; 255; 255; 255]%Z 3 7)) as H.
  rewrite decide_True in H by (vm_compute; lia).
  destruct H as (m & g & H1 & H2 & _ & H3).
  - split_and!; try done. repeat (apply Forall_cons; split; [done|]). by apply Forall_nil.
  - eauto.
Defined.

(** ** The buffer pool *)

Section buffer_pool.
Context (SLOTS BUF_LEN : nat).

(** A free buffer is zeroed. *)
Record pool_wf (p : FixedBufferPool) : Prop := {
  pool_buffers : length (fp_buffers p) = SLOTS;
  pool_flags : length (fp_used p) = SLOTS;
  pool_zeroed i : fp_used p !! i = Some false -> fp_buffers p !! i = Some (replicate BUF_LEN 0%Z)
}.

Lemma pool_wf_new : pool_wf (pool_new SLOTS BUF_LEN).
Proof.
  split; cbn; rewrite ?length_replicate; try done.
  intros i [_ Hi]%lookup_replicate_1. by apply lookup_replicate_2.
Qed.

(** The slots handed out. *)
Definition pool_owned (p : FixedBufferPool) (i : nat) : Prop := fp_used p !! i = Some true.

(** Ownership: [acquire] hands out a zeroed buffer nobody holds and fails only when all are
    taken; writing through a held slot touches no other; [release] takes back exactly a
    held slot, and wipes it; all three keep every free buffer zeroed. *)
Theorem buffer_pool_ownership p :
  pool_wf p ->
  match pool_acquire p with
  | Some (p', i) =>
      ~ pool_owned p i /\ pool_owned p' i /\ fp_buffers p' !! i = Some (replicate BUF_LEN 0%Z) /\
      (forall j, j <> i -> pool_owned p' j <-> pool_owned p j) /\ pool_wf p'
  | None => forall i, i < SLOTS -> pool_owned p i
  end /\
  (forall i content, pool_owned p i -> length content = BUF_LEN ->
     pool_wf (pool_write i content p) /\
     forall j, j <> i -> fp_buffers (pool_write i content p) !! j = fp_buffers p !! j) /\
  (forall i, let '(p', ok) := pool_release SLOTS BUF_LEN i p in
     (ok = true <-> pool_owned p i) /\ pool_wf p' /\
     (forall j, pool_owned p' j <-> pool_owned p j /\ (ok = true -> j <> i))).
Proof.
  intros [Hb Hu Hz]. unfold pool_owned. split_and!.
  - unfold pool_acquire. destruct (position negb (fp_used p)) as [i|] eqn:E.
    + apply position_Some in E as (x & Hx & Hneg & _).
      destruct x; [done|]. pose proof (lookup_lt_Some _ _ _ Hx) as Hi. cbn. split_and!.
      * by rewrite Hx.
      * by apply list_lookup_insert_eq.
      * by apply Hz.
      * intros j Hj. by rewrite list_lookup_insert_ne.
      * split; cbn; rewrite ?length_insert; try done. intros j Hj.
        destruct (decide (j = i)) as [->|]; [by rewrite list_lookup_insert_eq in Hj|].
        rewrite list_lookup_insert_ne in Hj by done. auto.
    + intros i Hi. destruct (lookup_lt_is_Some_2 (fp_used p) i) as [x Hx]; [lia|].
      pose proof (proj1 (position_None _ _) E) as Hn. rewrite Forall_lookup in Hn.
      specialize (Hn _ _ Hx). by destruct x.
  - intros i content Hi Hc. split.
    + split; cbn; rewrite ?length_insert; try done. intros j Hj.
      rewrite list_lookup_insert_ne by (intros ->; congruence). auto.
    + intros j Hj. cbn. by apply list_lookup_insert_ne.
  - intros i. unfold pool_release. destruct (fp_used p !! i) as [u|] eqn:Ei.
    + pose proof (lookup_lt_Some _ _ _ Ei) as Hi. rewrite Hu in Hi.
      rewrite (proj2 (Nat.ltb_lt _ _) Hi), (list_lookup_total_correct _ _ _ Ei).
      destruct u; cbn [andb]; [|split_and!; try done; naive_solver].
      split_and!; [done| |].
      * split; cbn; rewrite ?length_insert; try done. intros j Hj.
        destruct (decide (j = i)) as [->|]; [by rewrite list_lookup_insert_eq by lia|].
        rewrite list_lookup_insert_ne in Hj by done. rewrite list_lookup_insert_ne by done. auto.
      * intros j. cbn. destruct (decide (j = i)) as [->|].
        -- rewrite list_lookup_insert_eq by lia. naive_solver.
        -- rewrite list_lookup_insert_ne by done. naive_solver.
    + pose proof (lookup_ge_None_1 _ _ Ei) as Hi. rewrite Hu in Hi.
      rewrite (proj2 (Nat.ltb_ge _ _) Hi). cbn. split_and!; try done. naive_solver.
Qed.
End buffer_pool.

Lemma buffer_pool_ownership_witness :
  exists p i, pool_acquire (pool_new 2 4) = Some (p, i) /\ pool_owned p i.
Proof.
  destruct (buffer_pool_ownership 2 4 (pool_new 2 4) (pool_wf_new 2 4)) as [H _].
  destruct (pool_acquire (pool_new 2 4)) as [[p i]|] eqn:E.
  - exists p, i. by destruct H as (_ & H & _).
  - discriminate E.
Defined.
