(* ===== verification/TpFixed.v ===== *)
(** The allocation-free Transport Protocol helpers of the embedded profile:
    [TpCmdtTx] and [TpRxFixed] of [src/net/tp/tp_protocol_types.rs].

    [TpCmdtTx] sends one borrowed payload in connection mode, window by window;
    [TpRxFixed<N>] reassembles one transfer of at most [N] bytes.  A method returns [None]
    when it panics. *)
From S2P Require Export Tp Fixed.

(** ** [TpCmdtTx] *)

Record TpCmdtTx : Type := mkCmdtTx {
  ct_pgn : Pgn;
  ct_payload : list Z;
  ct_source : Address;
  ct_destination : Address;
  ct_total_bytes : Z;
  ct_total_packets : Z;
  ct_advertised_packets_per_cts : Z;
  ct_next_sequence : Z;
  ct_packets_to_send : Z
}.

Definition ct_window (next packets : Z) (t : TpCmdtTx) : TpCmdtTx :=
  mkCmdtTx (ct_pgn t) (ct_payload t) (ct_source t) (ct_destination t) (ct_total_bytes t)
    (ct_total_packets t) (ct_advertised_packets_per_cts t) next packets.

(** [u8::clamp(1, 16)]. *)
Definition clamp_packets (n : Z) : Z := Z.min (Z.max n 1) (wrap 8 TP_MAX_PACKETS_PER_CTS).

(** [with_advertised_packets_per_cts]. *)
Definition ct_with_advertised (pgn : Pgn) (payload : list Z) (source destination : Address)
    (advertised : Z) : Result TpCmdtTx Error.t :=
  let len := wrap 32 (Z.of_nat (length payload)) in
  if negb (pgn_is_valid pgn) then Err (Error.invalid_pgn pgn)
  else if negb (valid_tp_source source) then Err (Error.invalid_address source)
  else if negb (valid_tp_destination destination) || (destination =? BROADCAST_ADDRESS) then
    Err (Error.invalid_address destination)
  else if TP_MAX_DATA_LENGTH <? len then Err Error.buffer_overflow
  else if len <=? CAN_DATA_LENGTH then
    Err (Error.invalid_state "use single frame for <= 8 bytes")
  else
    Ok (mkCmdtTx pgn payload source destination len
          (wrap 8 (div_ceil len TP_BYTES_PER_FRAME)) (clamp_packets advertised) 1 0).

Definition ct_new (pgn : Pgn) (payload : list Z) (source destination : Address)
    : Result TpCmdtTx Error.t :=
  ct_with_advertised pgn payload source destination (wrap 8 TP_MAX_PACKETS_PER_CTS).

Definition ct_rts (t : TpCmdtTx) : Frame :=
  make_rts_fields (ct_pgn t) (ct_total_bytes t) (ct_source t) (ct_destination t)
    (ct_advertised_packets_per_cts t).

Definition ct_set_window (next_sequence packets : Z) (t : TpCmdtTx)
    : option (TpCmdtTx * Result unit Error.t) :=
  if packets =? 0 then
    Some (ct_window (Z.min (Z.max next_sequence 1) (ct_total_packets t)) 0 t, Ok tt)
  else if (next_sequence =? 0) || (ct_total_packets t <? next_sequence) then
    Some (t, Err (Error.invalid_state "invalid TP CTS next packet"))
  else
    prev ← checked_sub next_sequence 1;
    remaining ← checked_sub (ct_total_packets t) prev;
    Some (ct_window next_sequence
            (Z.min (Z.min packets remaining) (wrap 8 TP_MAX_PACKETS_PER_CTS)) t, Ok tt).

(** The loop of [pending_data_frames_fixed] over [offset_packet]; [usize] is at least 32 bits
    wide. *)
Fixpoint ct_emit (N n : nat) (offset_packet : Z) (t : TpCmdtTx) (frames : FixedSlots Frame)
    : option (Result (FixedSlots Frame) Error.t) :=
  match n with
  | O => Some (Ok frames)
  | S n =>
      sequence ← checked_add 8 (ct_next_sequence t) offset_packet;
      prev ← checked_sub sequence 1;
      payload_offset ← checked_mul 32 prev TP_BYTES_PER_FRAME;
      data ← copy_out_loop 32 7 0 (ct_payload t) payload_offset
               (Z.of_nat (length (ct_payload t))) (sequence :: replicate 7 0xFF);
      '(frames, r) ← fs_push N (FrameOps.new8 (dt_id (ct_source t) (ct_destination t)) data)
                       frames;
      match r with
      | Err _ => Some (Err Error.buffer_overflow)
      | Ok _ => ct_emit N n (offset_packet + 1) t frames
      end
  end.

Definition ct_pending_data_frames (N : nat) (t : TpCmdtTx)
    : option (TpCmdtTx * Result (FixedSlots Frame) Error.t) :=
  if Z.of_nat N <? ct_packets_to_send t then Some (t, Err Error.buffer_overflow)
  else
    let count := ct_packets_to_send t in
    r ← ct_emit N (Z.to_nat count) 0 t (fs_new N);
    match r with
    | Err e => Some (t, Err e)
    | Ok frames => Some (ct_window (sat_add 8 (ct_next_sequence t) count) 0 t, Ok frames)
    end.

Definition ct_is_complete (t : TpCmdtTx) : bool := ct_total_packets t <? ct_next_sequence t.

(** ** [TpRxFixed] *)

Record TpRxFixed : Type := mkRxFixed {
  rf_active : bool;
  rf_pgn : Pgn;
  rf_source : Address;
  rf_destination : Address;
  rf_priority : Priority.t;
  rf_total_bytes : Z;
  rf_total_packets : Z;
  rf_max_packets_per_cts : Z;
  rf_cts_window_start : Z;
  rf_cts_window_size : Z;
  rf_last_sequence : Z;
  rf_broadcast : bool;
  rf_data : FixedBytes
}.

Record TpRxOutcome : Type := mkOutcome {
  oc_response : option Frame;
  oc_message : option FixedMessage
}.

Definition no_outcome : TpRxOutcome := mkOutcome None None.
Definition respond (f : Frame) : TpRxOutcome := mkOutcome (Some f) None.

Section rx_fixed.
Context (N : nat).

Definition rf_new : TpRxFixed :=
  mkRxFixed false 0 NULL_ADDRESS NULL_ADDRESS Priority.Default 0 0
    (wrap 8 TP_MAX_PACKETS_PER_CTS) 1 0 0 false (fb_new N).

(** [reset]: [*self = Self::new()]. *)
Definition rf_reset (r : TpRxFixed) : TpRxFixed := rf_new.

Definition rf_window (start size : Z) (r : TpRxFixed) : TpRxFixed :=
  mkRxFixed (rf_active r) (rf_pgn r) (rf_source r) (rf_destination r) (rf_priority r)
    (rf_total_bytes r) (rf_total_packets r) (rf_max_packets_per_cts r) start size
    (rf_last_sequence r) (rf_broadcast r) (rf_data r).

Definition rf_received (seq : Z) (data : FixedBytes) (r : TpRxFixed) : TpRxFixed :=
  mkRxFixed (rf_active r) (rf_pgn r) (rf_source r) (rf_destination r) (rf_priority r)
    (rf_total_bytes r) (rf_total_packets r) (rf_max_packets_per_cts r)
    (rf_cts_window_start r) (rf_cts_window_size r) seq (rf_broadcast r) data.

Definition rf_result : Type := option (TpRxFixed * Result TpRxOutcome Error.t).

(** [start_receive]. *)
Definition rf_start_receive (pgn : Pgn) (source destination : Address) (priority : Priority.t)
    (total_bytes total_packets : Z) (broadcast : bool) (max_packets_per_cts : Z)
    (r : TpRxFixed) : option (TpRxFixed * Result unit Error.t) :=
  '(data, res) ← fb_resize N (Z.to_nat total_bytes) 0xFF (fb_new N);
  match res with
  | Err _ => Some (r, Err Error.buffer_overflow)
  | Ok _ =>
      Some (mkRxFixed true pgn source destination priority total_bytes total_packets
              max_packets_per_cts 1 0 0 broadcast data, Ok tt)
  end.

(** The [tp_cm::RTS] arm of [process_cm]. *)
Definition rf_rts (frame : Frame) (r : TpRxFixed) : rf_result :=
  let src := FrameOps.source frame in
  let dst := FrameOps.destination frame in
  let cm_pgn := pgn_from_cm_bytes (f_data frame) in
  let total_bytes := cm_size frame in
  let total_packets := FrameOps.byte frame 3 in
  let max_per_cts := FrameOps.byte frame 4 in
  let abort reason := Some (r, Ok (respond (make_abort_fields dst src cm_pgn reason))) in
  if negb (valid_tp_payload_shape total_bytes total_packets) || (max_per_cts =? 0) then
    abort AbortReason.UnexpectedDataSize
  else if rf_active r then abort AbortReason.AlreadyInSession
  else if Z.of_nat N <? total_bytes then abort AbortReason.ResourcesUnavailable
  else
    '(r, res) ← rf_start_receive cm_pgn src dst (FrameOps.priority frame) total_bytes
                  total_packets false (Z.min max_per_cts (wrap 8 TP_MAX_PACKETS_PER_CTS)) r;
    match res with
    | Err e => Some (r, Err e)
    | Ok _ =>
        let cts_count := Z.min total_packets (rf_max_packets_per_cts r) in
        Some (rf_window (rf_cts_window_start r) cts_count r,
              Ok (respond (make_cts dst src cts_count 1 cm_pgn)))
    end.

(** The [tp_cm::BAM] arm. *)
Definition rf_bam (frame : Frame) (r : TpRxFixed) : rf_result :=
  let total_bytes := cm_size frame in
  let total_packets := FrameOps.byte frame 3 in
  if rf_active r || negb (FrameOps.is_broadcast frame)
     || negb (valid_tp_payload_shape total_bytes total_packets)
     || (Z.of_nat N <? total_bytes)
  then Some (r, Ok no_outcome)
  else
    '(r, res) ← rf_start_receive (pgn_from_cm_bytes (f_data frame)) (FrameOps.source frame)
                  BROADCAST_ADDRESS (FrameOps.priority frame) total_bytes total_packets true
                  (wrap 8 TP_MAX_PACKETS_PER_CTS) r;
    Some (r, match res with Err e => Err e | Ok _ => Ok no_outcome end).

(** The [tp_cm::ABORT] arm. *)
Definition rf_abort (frame : Frame) (r : TpRxFixed) : rf_result :=
  let src := FrameOps.source frame in
  let dst := FrameOps.destination frame in
  Some (if rf_active r && (rf_pgn r =? pgn_from_cm_bytes (f_data frame))
           && ((rf_source r =? src) && (rf_destination r =? dst)
               || (rf_source r =? dst) && (rf_destination r =? src))
        then rf_reset r else r, Ok no_outcome).

Definition rf_process_cm (frame : Frame) (r : TpRxFixed) : rf_result :=
  let control_byte := FrameOps.byte frame 0 in
  if negb (pgn_is_valid (pgn_from_cm_bytes (f_data frame)))
     || (negb (control_byte =? tp_cm.BAM) && (FrameOps.destination frame =? BROADCAST_ADDRESS))
  then Some (r, Ok no_outcome)
  else if control_byte =? tp_cm.RTS then rf_rts frame r
  else if control_byte =? tp_cm.BAM then rf_bam frame r
  else if control_byte =? tp_cm.ABORT then rf_abort frame r
  else Some (r, Ok no_outcome).

(** The rejecting head of [process_dt]: a sequence number that is not the next one. *)
Definition rf_bad_sequence (seq : Z) (r : TpRxFixed) : rf_result :=
  let reason := if negb (seq =? 0) && (seq <=? rf_last_sequence r)
                then AbortReason.DuplicateSequence else AbortReason.BadSequence in
  let response := if rf_broadcast r then None
                  else Some (make_abort_fields (rf_destination r) (rf_source r) (rf_pgn r) reason) in
  Some (rf_reset r, Ok (mkOutcome response None)).

(** The accepting tail of [process_dt]: store the seven bytes, then deliver, ask for the next
    window, or wait. *)
Definition rf_ingest (frame : Frame) (r : TpRxFixed) : rf_result :=
  let seq := FrameOps.byte frame 0 in
  prev ← checked_sub seq 1;
  offset ← checked_mul 32 prev TP_BYTES_PER_FRAME;
  slice ← copy_in_loop 32 7 0 (fb_as_slice (rf_data r)) offset (rf_total_bytes r) (f_data frame);
  let data := mkFixedBytes (slice ++ drop (fb_len (rf_data r)) (fb_data (rf_data r)))
                (fb_len (rf_data r)) in
  let r := rf_received seq data r in
  stop ← checked_add 32 offset TP_BYTES_PER_FRAME;
  let bytes_transferred := Z.min stop (rf_total_bytes r) in
  if rf_total_bytes r <=? bytes_transferred then
    let message := mkFixedMessage (rf_pgn r) (rf_data r) (rf_source r) (rf_destination r)
                     (rf_priority r) (f_timestamp_us frame) in
    let response := if rf_broadcast r then None
                    else Some (make_eoma (rf_destination r) (rf_source r) (rf_total_bytes r)
                                 (rf_total_packets r) (rf_pgn r)) in
    Some (rf_reset r, Ok (mkOutcome response (Some message)))
  else if negb (rf_broadcast r) then
    start ← checked_sub (rf_cts_window_start r) 1;
    in_window ← checked_sub seq start;
    if rf_cts_window_size r <=? in_window then
      remaining ← checked_sub (rf_total_packets r) seq;
      let next_count := Z.min (wrap 8 remaining) (rf_max_packets_per_cts r) in
      next_seq ← checked_add 8 seq 1;
      Some (rf_window next_seq next_count r,
            Ok (respond (make_cts (rf_destination r) (rf_source r) next_count next_seq
                           (rf_pgn r))))
    else Some (r, Ok no_outcome)
  else Some (r, Ok no_outcome).

Definition rf_process_dt (frame : Frame) (r : TpRxFixed) : rf_result :=
  if negb (rf_active r) || negb (FrameOps.source frame =? rf_source r)
     || (negb (rf_broadcast r) && negb (FrameOps.destination frame =? rf_destination r))
  then Some (r, Ok no_outcome)
  else
    let seq := FrameOps.byte frame 0 in
    let expected := sat_add 8 (rf_last_sequence r) 1 in
    if (seq =? 0) || negb (seq =? expected) then rf_bad_sequence seq r
    else rf_ingest frame r.

Definition rf_process_frame (frame : Frame) (r : TpRxFixed) : rf_result :=
  let is_tp := (FrameOps.pgn frame =? PGN_TP_CM) || (FrameOps.pgn frame =? PGN_TP_DT) in
  if is_tp && (f_length frame <? CAN_DATA_LENGTH) then Some (r, Ok no_outcome)
  else if is_tp && (negb (valid_tp_source (FrameOps.source frame))
                    || negb (valid_tp_destination (FrameOps.destination frame))) then
    Some (r, Ok no_outcome)
  else if FrameOps.pgn frame =? PGN_TP_CM then rf_process_cm frame r
  else if FrameOps.pgn frame =? PGN_TP_DT then rf_process_dt frame r
  else Some (r, Ok no_outcome).
End rx_fixed.
