(* ===== verification/TpFixedProofs.v ===== *)
(** The fixed-capacity TP helpers against the hosted engine: [TpRxFixed] refines a
    [TransportProtocol] with one session, and a [TpCmdtTx] delivers its payload. *)
From S2P Require Export TpFixed FixedProofs TpTransfer TpOutcome.

Section refinement.
Context `{Allocator} (Hgrant : forall n, try_reserve_exact n = true).
Context (N : nat) (port : Z).

(** The hosted session a busy receiver stands for. *)
Definition session_of (r : TpRxFixed) : TransportSession :=
  mkSession Receive
    (if rf_broadcast r then SessionState.ReceivingData else SessionState.WaitingForData)
    (rf_pgn r) (fb_as_slice (rf_data r)) (rf_total_bytes r) (7 * rf_last_sequence r)
    (rf_source r) (rf_destination r) port (rf_priority r) (rf_last_sequence r) 0 0
    TP_MAX_PACKETS_PER_CTS (rf_max_packets_per_cts r) (rf_cts_window_start r)
    (rf_cts_window_size r) 0 0 0.

Definition rx_sessions (r : TpRxFixed) : list TransportSession :=
  if rf_active r then [session_of r] else [].

(** An idle receiver is a new one; a busy one is a well-formed session in [N] bytes. *)
Record rf_busy (r : TpRxFixed) : Prop := {
  rb_session : session_wf (session_of r);
  rb_data : fb_repr N (rf_data r) (fb_as_slice (rf_data r));
  rb_packets : rf_total_packets r = total_packets (session_of r);
  rb_broadcast : rf_broadcast r = (rf_destination r =? BROADCAST_ADDRESS)
}.

Definition rf_wf (r : TpRxFixed) : Prop :=
  if rf_active r then rf_busy r else r = rf_new N.

(** The hosted engine has room for one session of at most [N] bytes and holds the one the
    receiver stands for. *)
Record rf_sim (r : TpRxFixed) (p : TransportProtocol) : Prop := {
  sim_wf : rf_wf r;
  sim_sessions : sessions p = rx_sessions r;
  sim_room : (0 < max_sessions p)%nat;
  sim_bytes : max_receive_bytes p = Z.min (Z.of_nat N) TP_MAX_DATA_LENGTH
}.

(** What was delivered: PGN, payload, addresses and priority. *)
Definition message_of (m : FixedMessage) : Pgn * list Z * Address * Address * Priority.t :=
  (fm_pgn m, fb_as_slice (fm_data m), fm_source m, fm_destination m, fm_priority m).
Definition delivered_by (e : TpEvent) : option (Pgn * list Z * Address * Address * Priority.t) :=
  match e with
  | OnComplete s =>
      Some (s_pgn s, s_data s, s_source_address s, s_destination_address s, s_priority s)
  | _ => None
  end.

(** The two results agree: same reply, same delivery, corresponding states. *)
Definition agree (p : TransportProtocol) (x : rf_result) (y : tp_result) : Prop :=
  exists r' o p' frames evs, x = Some (r', Ok o) /\ y = Some (p', frames, evs) /\
    frames = option_list (oc_response o) /\
    omap delivered_by evs = option_list (message_of <$> oc_message o) /\ rf_sim r' p'.

Lemma sim_stats r p g : rf_sim r p -> rf_sim r (with_stats g p).
Proof. by intros [? ? ? ?]. Qed.

Lemma agree_same r p p' :
  rf_sim r p' -> agree p (Some (r, Ok no_outcome)) (Some (p', [], [])).
Proof. intros Hs. by exists r, no_outcome, p', [], []. Qed.

Lemma agree_reply r p p' f :
  rf_sim r p' -> agree p (Some (r, Ok (respond f))) (Some (p', [f], [])).
Proof. intros Hs. by exists r, (respond f), p', [f], []. Qed.

Lemma idle_new r : rf_wf r -> rf_active r = false -> r = rf_new N.
Proof. unfold rf_wf. intros Hw E. by rewrite E in Hw. Qed.

Lemma sim_idle p :
  sessions p = [] -> (0 < max_sessions p)%nat ->
  max_receive_bytes p = Z.min (Z.of_nat N) TP_MAX_DATA_LENGTH -> rf_sim (rf_new N) p.
Proof. by split. Qed.

(** *** Opening a transfer *)

Lemma start_receive_eq pgn src dst prio total packets b maxp :
  0 <= total <= Z.of_nat N ->
  exists d, rf_start_receive N pgn src dst prio total packets b maxp (rf_new N)
    = Some (mkRxFixed true pgn src dst prio total packets maxp 1 0 0 b d, Ok tt) /\
    fb_repr N d (replicate (Z.to_nat total) 0xFF).
Proof.
  intros Ht. unfold rf_start_receive.
  pose proof (fb_resize_spec N _ _ (Z.to_nat total) 0xFF (fb_repr_new N)) as Hr.
  rewrite decide_True in Hr by lia. destruct Hr as (d & -> & Hr). cbn.
  rewrite take_nil, Nat.sub_0_r in Hr. eauto.
Qed.

(** A freshly opened receiver corresponds to the hosted engine's new session. *)
Lemma opened_sim p pgn src dst prio total packets maxp w d :
  rf_sim (rf_new N) p -> valid_tp_payload_shape total packets = true -> in_u 18 pgn ->
  in_u 8 src -> in_u 8 dst -> 1 <= maxp <= 16 ->
  ((dst =? BROADCAST_ADDRESS) = false -> w = Z.min packets maxp) ->
  fb_repr N d (replicate (Z.to_nat total) 0xFF) ->
  let b := dst =? BROADCAST_ADDRESS in
  rf_sim (mkRxFixed true pgn src dst prio total packets maxp 1 w 0 b d)
    (push_session (new_rx_session
       (if b then SessionState.ReceivingData else SessionState.WaitingForData)
       pgn (replicate (Z.to_nat total) 0xFF) total src dst port prio maxp w) p).
Proof.
  intros [_ Hs Hroom Hb] Hshape Hpgn Hsrc Hdst Hm Hw Hd b.
  pose proof (fb_repr_slice _ _ _ Hd) as Hsl.
  assert (Hso : session_of (mkRxFixed true pgn src dst prio total packets maxp 1 w 0 b d)
    = new_rx_session (if b then SessionState.ReceivingData else SessionState.WaitingForData)
        pgn (replicate (Z.to_nat total) 0xFF) total src dst port prio maxp w).
  { unfold session_of. cbn. by rewrite Hsl. }
  split; try done.
  - unfold rf_wf. cbn [rf_active]. split; cbn [rf_data rf_broadcast rf_total_packets]; try done.
    + rewrite Hso. by eapply new_rx_session_wf.
    + by rewrite Hsl.
    + apply payload_shape in Hshape as (_ & -> & _). done.
  - cbn. rewrite Hs. cbn. unfold rx_sessions. cbn [rf_active]. by rewrite Hso.
Qed.

Lemma rts_agree p f :
  rf_sim (rf_new N) p -> cm_frame f -> (FrameOps.destination f =? BROADCAST_ADDRESS) = false ->
  agree p (rf_rts N f (rf_new N)) (handle_rts p f port).
Proof.
  intros Hsim Hcf Hdst. pose proof Hsim as [_ Hs Hroom Hbytes]. cbn in Hs.
  unfold rf_rts, handle_rts. unfold_notes. cbn [rf_active rf_new].
  destruct (negb _ || _) eqn:Hbad; [by apply agree_reply, sim_stats, sim_stats|].
  apply orb_false_iff in Hbad as [Hshape%negb_false_iff Hmax%Z.eqb_neq].
  unfold receive_session_for, receive_path_is_active. rewrite Hs. cbn [position existsb].
  unfold rts_open. unfold_notes. rewrite Hs. cbn [length].
  rewrite (proj2 (Nat.leb_gt _ _)) by done.
  pose proof (payload_shape _ _ Hshape) as (Hsize & _ & _).
  unfold rx_buffer. rewrite Hgrant, Hbytes. cbn [negb].
  unfold TP_MAX_DATA_LENGTH. destruct (Z.ltb_spec (Z.of_nat N) (cm_size f)).
  - rewrite (proj2 (Z.ltb_lt _ _)) by lia. rewrite bool_decide_eq_true_2 by done.
    by apply agree_reply, sim_stats, sim_stats, sim_stats.
  - rewrite (proj2 (Z.ltb_ge _ _)) by lia.
    pose proof (byte_range f 4 (cf_wf f Hcf)) as Hb4. unfold in_u in Hb4.
    change (wrap 8 TP_MAX_PACKETS_PER_CTS) with 16.
    destruct (start_receive_eq (pgn_from_cm_bytes (f_data f)) (FrameOps.source f)
      (FrameOps.destination f) (FrameOps.priority f) (cm_size f) (FrameOps.byte f 3) false
      (Z.min (FrameOps.byte f 4) 16)) as (d & -> & Hd); [lia|].
    cbn [mbind option_bind rf_max_packets_per_cts rf_cts_window_start rf_window rf_active rf_pgn
      rf_source rf_destination rf_priority rf_total_bytes rf_total_packets rf_last_sequence
      rf_broadcast rf_data].
    apply agree_reply.
    pose proof (opened_sim p (pgn_from_cm_bytes (f_data f)) (FrameOps.source f)
      (FrameOps.destination f) (FrameOps.priority f) (cm_size f) (FrameOps.byte f 3)
      (Z.min (FrameOps.byte f 4) 16) (Z.min (FrameOps.byte f 3) (Z.min (FrameOps.byte f 4) 16)) d)
      as Ho. rewrite Hdst in Ho. apply Ho; try done; try apply Hcf. lia.
Qed.

Lemma bam_agree p f :
  rf_sim (rf_new N) p -> cm_frame f -> agree p (rf_bam N f (rf_new N)) (handle_bam p f port).
Proof.
  intros Hsim Hcf. pose proof Hsim as [_ Hs Hroom Hbytes]. cbn in Hs.
  unfold rf_bam, handle_bam, receive_session_for. rewrite Hs. cbn [position rf_active rf_new orb].
  unfold bam_open. unfold_notes. rewrite Hbytes, Hs. cbn [length]. unfold TP_MAX_DATA_LENGTH.
  destruct (FrameOps.is_broadcast f); cbn [negb orb].
  2: { destruct (_ <? _); by apply agree_same; repeat apply sim_stats. }
  destruct (valid_tp_payload_shape _ _) eqn:Hshape; cbn [negb orb].
  2: { destruct (_ <? cm_size f) eqn:E; [|]; destruct (Z.of_nat N <? cm_size f);
       by apply agree_same; repeat apply sim_stats. }
  pose proof (payload_shape _ _ Hshape) as (Hsize & _ & _).
  destruct (Z.ltb_spec (Z.of_nat N) (cm_size f)).
  - rewrite (proj2 (Z.ltb_lt _ _)) by lia. by apply agree_same; repeat apply sim_stats.
  - rewrite (proj2 (Z.ltb_ge _ _)) by lia. rewrite (proj2 (Nat.leb_gt _ _)) by done.
    unfold rx_buffer. rewrite Hgrant, (proj2 (Z.ltb_ge _ _)) by lia. cbn [negb].
    change (wrap 8 TP_MAX_PACKETS_PER_CTS) with 16.
    destruct (start_receive_eq (pgn_from_cm_bytes (f_data f)) (FrameOps.source f)
      BROADCAST_ADDRESS (FrameOps.priority f) (cm_size f) (FrameOps.byte f 3) true 16)
      as (d & -> & Hd); [lia|].
    cbn [mbind option_bind]. apply agree_same.
    pose proof (opened_sim p (pgn_from_cm_bytes (f_data f)) (FrameOps.source f)
      BROADCAST_ADDRESS (FrameOps.priority f) (cm_size f) (FrameOps.byte f 3) 16 0 d) as Ho.
    rewrite Z.eqb_refl in Ho. apply Ho; try done; apply Hcf.
Qed.

(** *** Closing a transfer *)

(** The hosted session table of a busy receiver, and what removing its session leaves. *)
Lemma sim_busy r p :
  rf_sim r p -> rf_active r = true -> sessions p = [session_of r] /\ rf_busy r.
Proof.
  intros [Hw Hs _ _] Ha. unfold rf_wf, rx_sessions in *. rewrite Ha in Hw, Hs. done.
Qed.

Lemma remove_only p s s' :
  sessions p = [s] ->
  remove_session 0 (update_session 0 s' p) = Some (s', with_sessions [] p).
Proof. intros E. unfold remove_session, update_session. cbn. by rewrite E. Qed.

Lemma sim_closed r p : rf_sim r p -> rf_sim (rf_new N) (with_sessions [] p).
Proof. intros [_ _ Hroom Hb]. by apply sim_idle. Qed.

Lemma abort_agree r p f :
  rf_sim r p -> agree p (rf_abort N f r) (handle_abort p f port).
Proof.
  intros Hsim. unfold rf_abort, handle_abort. unfold_notes.
  destruct (rf_active r) eqn:Ha; cbn [andb].
  - destruct (sim_busy r p Hsim Ha) as [Hs _]. rewrite Hs. cbn [position].
    unfold session_of at 1 2 3 4 5 6 7. cbn [s_pgn s_can_port s_source_address s_destination_address].
    rewrite Z.eqb_refl, andb_true_r.
    rewrite (orb_comm ((rf_source r =? FrameOps.destination f) && _)).
    destruct (_ && _) eqn:E; cbn [fmap option_fmap option_map];
      [|by apply agree_same, sim_stats].
    cbn [lookup list_lookup mbind option_bind].
    rewrite (remove_only _ _ _ Hs). cbn [mbind option_bind].
    eexists _, no_outcome, _, [], [_]. split_and!; try done.
    apply sim_stats, sim_stats. by eapply sim_closed.
  - destruct Hsim as [Hw Hs Hroom Hb]. unfold rx_sessions in Hs. rewrite Ha in Hs. rewrite Hs.
    cbn [position]. apply agree_same, sim_stats. split; try done.
    unfold rx_sessions. by rewrite Ha.
Qed.

(** The hosted engine answers CTS and EOMA frames only for transmissions. *)
Lemma receivers_ignore r p (q : TransportSession -> bool) :
  rf_sim r p -> (forall s, q s = true -> s_direction s = Transmit) ->
  position q (sessions p) = None.
Proof.
  intros Hsim Hq. apply position_None. rewrite (sim_sessions _ _ Hsim). unfold rx_sessions.
  destruct (rf_active r); [|constructor]. apply Forall_singleton.
  destruct (q (session_of r)) eqn:E; [|done]. by apply Hq in E.
Qed.

Lemma cts_ignored r p f :
  rf_sim r p -> handle_cts p f port = Some (note_dropped_frame p, [], []).
Proof.
  intros Hsim. unfold handle_cts. rewrite (receivers_ignore r p _ Hsim); [done|].
  unfold cts_matches. intros s ?. by reflect_bools.
Qed.

Lemma eoma_ignored r p f :
  rf_sim r p -> handle_eoma p f port = Some (note_dropped_frame p, [], []).
Proof.
  intros Hsim. unfold handle_eoma. rewrite (receivers_ignore r p _ Hsim); [done|].
  intros s ?. by reflect_bools.
Qed.

(** *** Data packets *)

Lemma busy_bounds r :
  rf_busy r ->
  0 <= rf_last_sequence r < rf_total_packets r /\ rf_total_packets r <= 255 /\
  Z.of_nat (length (fb_as_slice (rf_data r))) = rf_total_bytes r /\
  7 * rf_last_sequence r < rf_total_bytes r <= 7 * rf_total_packets r /\
  7 * rf_total_packets r - 7 < rf_total_bytes r /\ fb_len (rf_data r) = length (fb_as_slice (rf_data r)).
Proof.
  intros [Hw Hd Hp _]. pose proof (total_packets_le _ Hw) as (H2 & Hlo & Hhi). rewrite <- Hp in *.
  cbn in Hlo, Hhi. pose proof (sw_len _ Hw) as Hl. pose proof (sw_dir _ Hw) as [_ _ Hinc H0 _ _].
  cbn in Hl, Hinc, H0. pose proof (fb_repr_len _ _ _ Hd). lia.
Qed.

(** The receiver after storing packet [seq]. *)
Definition rf_stored (f : Frame) (r : TpRxFixed) : TpRxFixed :=
  rf_received (FrameOps.byte f 0)
    (mkFixedBytes (scatter7 (7 * (FrameOps.byte f 0 - 1)) (fb_as_slice (rf_data r)) (f_data f)
                   ++ drop (fb_len (rf_data r)) (fb_data (rf_data r))) (fb_len (rf_data r))) r.

Lemma stored_slice r f :
  rf_busy r -> FrameOps.wf f -> FrameOps.byte f 0 = rf_last_sequence r + 1 ->
  fb_as_slice (rf_data (rf_stored f r))
  = scatter7 (7 * (FrameOps.byte f 0 - 1)) (fb_as_slice (rf_data r)) (f_data f) /\
  fb_repr N (rf_data (rf_stored f r)) (fb_as_slice (rf_data (rf_stored f r))).
Proof.
  intros Hb Hf Hseq. pose proof (busy_bounds r Hb) as (H1 & H2 & H3 & H4 & H5 & H6).
  destruct (rb_data r Hb) as [Hd Hl Hn _]. destruct Hf as (_ & Hf8 & _).
  set (x := scatter7 _ _ _).
  assert (Hx : length x = fb_len (rf_data r)) by (unfold x; rewrite length_scatter7; lia).
  assert (Hsl : fb_as_slice (rf_data (rf_stored f r)) = x).
  { unfold fb_as_slice. cbn [rf_stored rf_received rf_data fb_len fb_data]. fold x.
    rewrite <- Hx. apply take_app_length. }
  split; [done|]. rewrite Hsl. split; cbn [rf_stored rf_received rf_data fb_data fb_len]; fold x.
  - rewrite length_app, length_drop. lia.
  - done.
  - lia.
  - exact Hsl.
Qed.

(** Storing a packet is what the hosted engine does to its session. *)
Lemma stored_session r f :
  rf_busy r -> FrameOps.wf f -> FrameOps.byte f 0 = rf_last_sequence r + 1 ->
  7 * FrameOps.byte f 0 <= rf_total_bytes r ->
  session_of (rf_stored f r) = ingested f (session_of r).
Proof.
  intros Hb Hf Hseq Hle. destruct (stored_slice r f Hb Hf Hseq) as [Hsl _].
  unfold session_of. rewrite Hsl. unfold ingested, advance. cbn.
  by rewrite Z.min_l by done.
Qed.

Lemma ingest_eq r f :
  rf_busy r -> FrameOps.wf f -> FrameOps.byte f 0 = rf_last_sequence r + 1 ->
  let seq := FrameOps.byte f 0 in
  let r' := rf_stored f r in
  rf_ingest N f r =
    if seq =? rf_total_packets r then
      Some (rf_new N, Ok (mkOutcome
        (if rf_broadcast r then None
         else Some (make_eoma (rf_destination r) (rf_source r) (rf_total_bytes r)
                      (rf_total_packets r) (rf_pgn r)))
        (Some (mkFixedMessage (rf_pgn r) (rf_data r') (rf_source r) (rf_destination r)
                 (rf_priority r) (f_timestamp_us f)))))
    else if rf_broadcast r then Some (r', Ok no_outcome)
    else if rf_cts_window_start r + rf_cts_window_size r =? seq + 1 then
      let n := Z.min (rf_total_packets r - seq) (rf_max_packets_per_cts r) in
      Some (rf_window (seq + 1) n r',
            Ok (respond (make_cts (rf_destination r) (rf_source r) n (seq + 1) (rf_pgn r))))
    else Some (r', Ok no_outcome).
Proof.
  intros Hb Hf Hseq seq r'. pose proof (busy_bounds r Hb) as (H1 & H2 & H3 & H4 & H5 & H6).
  pose proof (sw_dir _ (rb_session r Hb)) as [_ _ _ _ Hm Hwin].
  unfold is_broadcast_session in Hwin. cbn [session_of s_destination_address s_cts_window_start
    s_cts_window_size s_last_sequence s_max_packets_per_cts] in Hm, Hwin.
  rewrite <- (rb_broadcast r Hb), <- (rb_packets r Hb) in Hwin.
  destruct Hf as (_ & Hf8 & _). unfold rf_ingest. fold seq. unfold TP_BYTES_PER_FRAME.
  rewrite (checked_sub_Some seq 1) by lia. cbn [mbind option_bind].
  rewrite checked_mul_Some by (change (2 ^ 32) with 4294967296; lia). cbn [mbind option_bind].
  rewrite <- H3, copy_in_scatter, H3 by (try done; change (2 ^ 32) with 4294967296; lia).
  cbn [mbind option_bind]. replace ((seq - 1) * 7) with (7 * (seq - 1)) by lia.
  change (rf_received seq _ r) with r'.
  rewrite (checked_add_Some 32) by (change (2 ^ 32) with 4294967296; lia). cbn [mbind option_bind].
  replace (7 * (seq - 1) + 7) with (7 * seq) by lia.
  change (rf_total_bytes r') with (rf_total_bytes r). change (rf_broadcast r') with (rf_broadcast r).
  destruct (Z.eqb_spec seq (rf_total_packets r)) as [Hlast|Hlast].
  - by rewrite (proj2 (Z.leb_le _ _)) by lia.
  - rewrite (proj2 (Z.leb_gt _ _)) by lia. destruct (rf_broadcast r) eqn:Eb; [done|]. cbn [negb].
    destruct (Hwin eq_refl) as (W1 & W2 & W3).
    change (rf_cts_window_start r') with (rf_cts_window_start r).
    change (rf_cts_window_size r') with (rf_cts_window_size r).
    change (rf_total_packets r') with (rf_total_packets r).
    rewrite (checked_sub_Some (rf_cts_window_start r)) by lia. cbn [mbind option_bind].
    rewrite (checked_sub_Some seq) by lia. cbn [mbind option_bind].
    destruct (Z.eqb_spec (rf_cts_window_start r + rf_cts_window_size r) (seq + 1));
      [rewrite (proj2 (Z.leb_le _ _)) by lia|by rewrite (proj2 (Z.leb_gt _ _)) by lia].
    rewrite checked_sub_Some by lia. cbn [mbind option_bind].
    rewrite wrap_small by (unfold in_u; simpl; lia).
    by rewrite checked_add_Some by (simpl; lia).
Qed.

(** A stored packet that does not complete the transfer leaves a well-formed receiver. *)
Lemma stored_busy r f start size :
  rf_busy r -> FrameOps.wf f -> FrameOps.byte f 0 = rf_last_sequence r + 1 ->
  FrameOps.byte f 0 <> rf_total_packets r ->
  (rf_broadcast r = false ->
   1 <= start <= FrameOps.byte f 0 + 1 /\
   FrameOps.byte f 0 + 2 <= start + size <= rf_total_packets r + 1 /\
   size <= rf_max_packets_per_cts r) ->
  rf_busy (rf_window start size (rf_stored f r)) /\
  session_of (rf_window start size (rf_stored f r))
  = with_cts_window start size (ingested f (session_of r)).
Proof.
  intros Hb Hf Hseq Hne Hwin. pose proof (busy_bounds r Hb) as (H1 & H2 & H3 & H4 & H5 & H6).
  assert (Hso : session_of (rf_window start size (rf_stored f r))
    = with_cts_window start size (ingested f (session_of r))).
  { rewrite <- stored_session by (done || lia). done. }
  split; [|done]. split.
  - rewrite Hso. apply ingested_wf; try done; [apply Hb|by rewrite <- (rb_packets r Hb)|].
    unfold is_broadcast_session. cbn [session_of s_destination_address].
    rewrite <- (rb_broadcast r Hb), <- (rb_packets r Hb). exact Hwin.
  - by apply stored_slice.
  - apply Hb.
  - apply Hb.
Qed.

Lemma rf_window_self r :
  rf_window (rf_cts_window_start r) (rf_cts_window_size r) r = r.
Proof. by destruct r. Qed.

(** The hosted engine with its only session replaced. *)
Lemma sim_updated r p s s' r' :
  rf_sim r p -> sessions p = [s] -> rf_active r' = true -> rf_busy r' -> session_of r' = s' ->
  rf_sim r' (update_session 0 s' p).
Proof.
  intros [_ _ Hroom Hb] Hs Ha Hbusy <-. split; try done.
  - unfold rf_wf. by rewrite Ha.
  - unfold rx_sessions, update_session. rewrite Ha. cbn. by rewrite Hs.
Qed.

Lemma ingest_agree r p f :
  rf_sim r p -> rf_active r = true -> FrameOps.wf f ->
  FrameOps.byte f 0 = rf_last_sequence r + 1 ->
  agree p (rf_ingest N f r) (dt_ingest p f 0 (session_of r)).
Proof.
  intros Hsim Ha Hf Hseq. destruct (sim_busy r p Hsim Ha) as [Hs Hb].
  pose proof (rb_session r Hb) as Hw. pose proof (sw_dir _ Hw) as Hrx. cbn [s_direction session_of] in Hrx.
  rewrite (ingest_eq r f Hb Hf Hseq), (dt_ingest_eq p f 0 (session_of r) Hw Hrx Hf Hseq).
  cbn zeta. unfold next_window. rewrite <- (rb_packets r Hb). unfold is_broadcast_session.
  cbn [session_of s_destination_address s_source_address s_total_bytes s_pgn s_cts_window_start
    s_cts_window_size s_max_packets_per_cts]. rewrite <- (rb_broadcast r Hb).
  pose proof (busy_bounds r Hb) as (H1 & H2 & H3 & H4 & H5 & H6).
  destruct Hrx as [_ _ _ _ Hm Hwin]. unfold is_broadcast_session in Hwin.
  cbn [session_of s_destination_address s_cts_window_start s_cts_window_size s_last_sequence
    s_max_packets_per_cts] in Hm, Hwin.
  rewrite <- (rb_broadcast r Hb), <- (rb_packets r Hb) in Hwin.
  destruct (Z.eqb_spec (FrameOps.byte f 0) (rf_total_packets r)) as [Hlast|Hlast].
  - fold (session_of r). rewrite (remove_only p (session_of r) _ Hs). cbn [mbind option_bind].
    eexists _, _, _, _, _. split; [done|]. split; [done|]. cbn [oc_response oc_message].
    split_and!.
    + by destruct (rf_broadcast r).
    + pose proof (proj1 (stored_slice r f Hb Hf Hseq)) as Hsl.
      cbn [omap list_omap delivered_by fmap option_fmap option_map option_list].
      unfold message_of. cbn [fm_data fm_pgn fm_source fm_destination fm_priority].
      by rewrite Hsl.
    + by eapply sim_closed.
  - fold (session_of r). destruct (rf_broadcast r) eqn:Ebr.
    { apply agree_same. rewrite <- (rf_window_self (rf_stored f r)).
      destruct (stored_busy r f (rf_cts_window_start r) (rf_cts_window_size r)) as [Hb' Hso];
        try done; [by rewrite Ebr|].
      eapply sim_updated; [done|done|done|exact Hb'|]. exact (eq_trans Hso (with_cts_window_self _)). }
    destruct (Hwin eq_refl) as (W1 & W2 & W3).
    destruct (Z.eqb_spec (rf_cts_window_start r + rf_cts_window_size r) (FrameOps.byte f 0 + 1)).
    + apply agree_reply.
      destruct (stored_busy r f (FrameOps.byte f 0 + 1)
        (Z.min (rf_total_packets r - FrameOps.byte f 0) (rf_max_packets_per_cts r))) as [Hb' Hso];
        try done; [lia|]. by eapply sim_updated.
    + apply agree_same. rewrite <- (rf_window_self (rf_stored f r)).
      destruct (stored_busy r f (rf_cts_window_start r) (rf_cts_window_size r)) as [Hb' Hso];
        try done; [lia|].
      eapply sim_updated; [done|done|done|exact Hb'|]. exact (eq_trans Hso (with_cts_window_self _)).
Qed.

Lemma bad_sequence_agree r p seq :
  rf_sim r p -> rf_active r = true ->
  agree p (rf_bad_sequence N seq r) (dt_abort p 0 (session_of r) (dt_error seq (rf_last_sequence r))).
Proof.
  intros Hsim Ha. destruct (sim_busy r p Hsim Ha) as [Hs Hb].
  unfold rf_bad_sequence, dt_abort. unfold_notes. unfold is_broadcast_session, make_session_abort.
  cbn [session_of s_destination_address s_direction s_source_address s_pgn].
  rewrite <- (rb_broadcast r Hb).
  assert (Hreason : (if negb (seq =? 0) && (seq <=? rf_last_sequence r)
    then AbortReason.DuplicateSequence else AbortReason.BadSequence)
    = dt_error seq (rf_last_sequence r)).
  { unfold dt_error. by destruct (seq =? 0). }
  rewrite Hreason. fold (session_of r).
  destruct (rf_broadcast r); rewrite ?update_session_stats, !remove_session_stats,
    (remove_only p _ _ Hs); cbn [mbind option_bind];
    (eexists _, _, _, _, _; split; [done|]; split; [done|]; split_and!; try done;
     repeat apply sim_stats; by eapply sim_closed).
Qed.

Lemma dt_agree r p f :
  rf_sim r p -> tp_wf p -> FrameOps.wf f ->
  (rf_active r = true -> rf_broadcast r = true -> FrameOps.destination f = BROADCAST_ADDRESS) ->
  agree p (rf_process_dt N f r) (handle_dt p f port).
Proof.
  intros Hsim Hp Hf Hadm. unfold rf_process_dt. destruct (rf_active r) eqn:Ha; cbn [negb orb].
  2: { unfold handle_dt. rewrite (sim_sessions _ _ Hsim). unfold rx_sessions. rewrite Ha.
       cbn [position]. by apply agree_same, sim_stats. }
  destruct (sim_busy r p Hsim Ha) as [Hs Hb].
  assert (Hm : dt_matches (FrameOps.source f) (FrameOps.destination f) port (session_of r)
    = (rf_source r =? FrameOps.source f) && (rf_destination r =? FrameOps.destination f)).
  { unfold dt_matches, session_of.
    cbn [s_direction s_source_address s_can_port s_state s_destination_address].
    rewrite Z.eqb_refl, !bool_decide_eq_true_2 by (destruct (rf_broadcast r); auto).
    by rewrite !andb_true_r. }
  assert (Hcond : (negb (FrameOps.source f =? rf_source r)
      || negb (rf_broadcast r) && negb (FrameOps.destination f =? rf_destination r))
    = negb ((rf_source r =? FrameOps.source f) && (rf_destination r =? FrameOps.destination f))).
  { rewrite (Z.eqb_sym (FrameOps.source f)), (Z.eqb_sym (FrameOps.destination f)).
    destruct (rf_source r =? FrameOps.source f); [|done]. cbn.
    pose proof (rb_broadcast r Hb) as Hbr. destruct (rf_broadcast r); [|done].
    symmetry in Hbr. apply Z.eqb_eq in Hbr. by rewrite Hadm, Hbr, Z.eqb_refl by done. }
  rewrite Hcond, <- Hm.
  destruct (dt_matches _ _ _ _) eqn:Em; cbn [negb].
  2: { unfold handle_dt. rewrite Hs. cbn [position]. rewrite Em. cbn.
       by apply agree_same, sim_stats. }
  rewrite (handle_dt_found p f port 0 (session_of r) Hp) by
    (rewrite Hs; cbn [position]; by rewrite ?Em).
  cbn [session_of s_last_sequence]. fold (session_of r).
  pose proof (busy_bounds r Hb) as (H1 & H2 & _).
  unfold sat_add. rewrite Z.min_l by (simpl; lia).
  destruct (Z.eqb_spec (FrameOps.byte f 0) (rf_last_sequence r + 1)) as [E|E].
  - rewrite (proj2 (Z.eqb_neq _ 0)) by lia. by apply ingest_agree.
  - rewrite orb_true_r. by apply bad_sequence_agree.
Qed.

(** *** Dispatch *)

(** A busy receiver refuses a second announcement, where the hosted engine may replace a
    session or open another. *)
Definition second_announcement (r : TpRxFixed) (f : Frame) : Prop :=
  rf_active r = true /\ FrameOps.pgn f = PGN_TP_CM /\
  (FrameOps.byte f 0 = tp_cm.RTS \/ FrameOps.byte f 0 = tp_cm.BAM).

(** A data packet addressed to one node, seen during a broadcast reception. *)
Definition directed_data (r : TpRxFixed) (f : Frame) : Prop :=
  rf_active r = true /\ rf_broadcast r = true /\ FrameOps.pgn f = PGN_TP_DT /\
  FrameOps.destination f <> BROADCAST_ADDRESS.

Lemma cm_agree r p f :
  rf_sim r p -> FrameOps.wf f -> FrameOps.pgn f = PGN_TP_CM -> ~ second_announcement r f ->
  agree p (rf_process_cm N f r) (handle_cm p f port).
Proof.
  intros Hsim Hf Hpgn Hno. unfold rf_process_cm, handle_cm. unfold_notes.
  destruct (pgn_is_valid _) eqn:Hv; cbn [negb orb]; [|by apply agree_same, sim_stats].
  pose proof (cm_frame_intro f Hf Hv) as Hcf.
  assert (Hidle : FrameOps.byte f 0 = tp_cm.RTS \/ FrameOps.byte f 0 = tp_cm.BAM -> r = rf_new N).
  { intros Hc. apply idle_new; [apply Hsim|]. destruct (rf_active r) eqn:E; [|done].
    exfalso. by apply Hno. }
  destruct (Z.eqb_spec (FrameOps.byte f 0) tp_cm.BAM) as [E|E]; cbn [negb andb].
  { rewrite E. cbn [Z.eqb]. rewrite Hidle in Hsim |- * by auto. by apply bam_agree. }
  destruct (FrameOps.destination f =? BROADCAST_ADDRESS) eqn:Ed; [by apply agree_same, sim_stats|].
  destruct (Z.eqb_spec (FrameOps.byte f 0) tp_cm.RTS) as [E1|E1].
  { rewrite Hidle in Hsim |- * by auto. by apply rts_agree. }
  destruct (Z.eqb_spec (FrameOps.byte f 0) tp_cm.CTS) as [E2|E2].
  { rewrite (cts_ignored r p f Hsim), E2. cbn [Z.eqb]. by apply agree_same, sim_stats. }
  destruct (Z.eqb_spec (FrameOps.byte f 0) tp_cm.EOMA) as [E3|E3].
  { rewrite (eoma_ignored r p f Hsim), E3. cbn [Z.eqb]. by apply agree_same, sim_stats. }
  destruct (Z.eqb_spec (FrameOps.byte f 0) tp_cm.ABORT) as [E4|E4]; [by apply abort_agree|].
  by apply agree_same, sim_stats.
Qed.

Lemma process_agree r p f :
  rf_sim r p -> tp_wf p -> FrameOps.wf f -> ~ second_announcement r f -> ~ directed_data r f ->
  agree p (rf_process_frame N f r) (tp_process_frame p f port).
Proof.
  intros Hsim Hp Hf Hno Hdir. unfold rf_process_frame, tp_process_frame. unfold_notes.
  destruct (_ && (f_length f <? _)); [by apply agree_same, sim_stats|].
  destruct (_ && (_ || _)) eqn:Hbad; [by apply agree_same, sim_stats|].
  destruct (Z.eqb_spec (FrameOps.pgn f) PGN_TP_CM); [by apply cm_agree|].
  destruct (Z.eqb_spec (FrameOps.pgn f) PGN_TP_DT) as [Hdt|]; [|by apply agree_same].
  apply dt_agree; try done. intros Ha Hb.
  destruct (decide (FrameOps.destination f = BROADCAST_ADDRESS)); [done|].
  exfalso. by apply Hdir.
Qed.

(** The fixed receiver refines the hosted engine: from corresponding states, every frame
    that is neither a second announcement nor a directed packet during a broadcast gets
    the same reply and delivers the same message, without a panic, and the states again
    correspond. *)
Theorem tp_rx_fixed_refines r p f :
  rf_sim r p -> tp_wf p -> FrameOps.wf f -> ~ second_announcement r f -> ~ directed_data r f ->
  exists r' o p' frames evs,
    rf_process_frame N f r = Some (r', Ok o) /\
    tp_process_frame p f port = Some (p', frames, evs) /\
    frames = option_list (oc_response o) /\
    omap delivered_by evs = option_list (message_of <$> oc_message o) /\
    rf_sim r' p' /\ tp_wf p'.
Proof.
  intros Hsim Hp Hf Hno Hdir.
  destruct (process_agree r p f Hsim Hp Hf Hno Hdir) as (r' & o & p' & fr & ev & E1 & E2 & E3 & E4 & E5).
  destruct (tp_process_frame_safe_aux p f port Hp Hf) as (p2 & fr2 & ev2 & E & Hp2 & _).
  rewrite E2 in E. injection E as <- <- <-. exists r', o, p', fr, ev. done.
Qed.
End refinement.

(** ** A transfer between the two helpers *)

(** Feeding frames to the receiver: the replies and the delivered messages, in order. *)
Fixpoint rf_feed (N : nat) (r : TpRxFixed) (fs : list Frame)
    : option (TpRxFixed * list Frame * list FixedMessage) :=
  match fs with
  | [] => Some (r, [], [])
  | f :: fs =>
      '(r, res) ← rf_process_frame N f r;
      match res with
      | Err _ => None
      | Ok o =>
          '(r, out, msgs) ← rf_feed N r fs;
          Some (r, option_list (oc_response o) ++ out, option_list (oc_message o) ++ msgs)
      end
  end.

(** The application between the helpers: a CTS sets the window and drains it into a table of
    [cap] frames. *)
Definition ct_reply (cap : nat) (t : TpCmdtTx) (f : Frame) : option (TpCmdtTx * list Frame) :=
  if FrameOps.byte f 0 =? tp_cm.CTS then
    '(t, res) ← ct_set_window (FrameOps.byte f 2) (FrameOps.byte f 1) t;
    match res with
    | Err _ => Some (t, [])
    | Ok _ =>
        '(t, res) ← ct_pending_data_frames cap t;
        match res with
        | Err _ => Some (t, [])
        | Ok frames => l ← fs_iter frames; Some (t, l)
        end
    end
  else Some (t, []).

Fixpoint ct_replies (cap : nat) (t : TpCmdtTx) (fs : list Frame)
    : option (TpCmdtTx * list Frame) :=
  match fs with
  | [] => Some (t, [])
  | f :: fs => '(t, l) ← ct_reply cap t f; '(t, l') ← ct_replies cap t fs; Some (t, l ++ l')
  end.

(** Rounds of frames to the receiver and replies to the sender, until the sender is silent. *)
Fixpoint fixed_exchange (N cap fuel : nat) (t : TpCmdtTx) (r : TpRxFixed) (wire : list Frame)
    : option (TpCmdtTx * TpRxFixed * list FixedMessage) :=
  match fuel with
  | O => None
  | S fuel =>
      '(r, replies, msgs) ← rf_feed N r wire;
      '(t, out) ← ct_replies cap t replies;
      match out with
      | [] => Some (t, r, msgs)
      | _ => '(t, r, msgs') ← fixed_exchange N cap fuel t r out; Some (t, r, msgs ++ msgs')
      end
  end.

(** *** The sender *)

Section sender.
Context (src dst : Address) (pgn : Pgn) (data : list Z).
Hypothesis Hlen : 8 < Z.of_nat (length data) <= 1785.
Let P := div_ceil (Z.of_nat (length data)) 7.

(** A sender of the payload whose next packet is [next]. *)
Record ct_at (next : Z) (t : TpCmdtTx) : Prop := {
  ca_src : ct_source t = src;
  ca_dst : ct_destination t = dst;
  ca_data : ct_payload t = data;
  ca_packets : ct_total_packets t = P;
  ca_next : ct_next_sequence t = next;
  ca_pending : ct_packets_to_send t = 0
}.

Lemma ct_packets : 2 <= P <= 255 /\ 7 * P - 7 < Z.of_nat (length data) <= 7 * P.
Proof. pose proof (div_ceil_7 (Z.of_nat (length data))). unfold P. lia. Qed.

Lemma ct_emit_spec cap n off t frames l :
  ct_source t = src -> ct_destination t = dst -> ct_payload t = data ->
  1 <= ct_next_sequence t -> 0 <= off -> ct_next_sequence t + off + Z.of_nat n <= 256 ->
  fs_repr cap frames l -> (length l + n <= cap)%nat ->
  exists frames', ct_emit cap n off t frames = Some (Ok frames') /\
    fs_repr cap frames'
      (l ++ (dt_frame src dst data <$> seqZ (ct_next_sequence t + off) (Z.of_nat n))).
Proof.
  intros Hs Hd Hp H1. revert off frames l. induction n as [|n IH]; intros off frames l Ho Hb Hr Hc.
  - exists frames. cbn. by rewrite app_nil_r.
  - cbn [ct_emit]. rewrite checked_add_Some by (simpl; lia). cbn [mbind option_bind].
    rewrite checked_sub_Some by lia. cbn [mbind option_bind]. unfold TP_BYTES_PER_FRAME.
    rewrite checked_mul_Some by (change (2 ^ 32) with 4294967296; lia). cbn [mbind option_bind].
    rewrite copy_out_chunk by (change (2 ^ 32) with 4294967296; lia). cbn [mbind option_bind].
    rewrite Hs, Hd, Hp.
    set (k := ct_next_sequence t + off).
    replace ((k - 1) * 7) with (7 * (k - 1)) by lia. fold (dt_frame src dst data k).
    pose proof (fs_push_spec cap frames l (dt_frame src dst data k) Hr) as Hpush.
    rewrite decide_False in Hpush by lia. destruct Hpush as (fr1 & -> & Hr1). cbn [mbind option_bind].
    destruct (IH (off + 1) fr1 (l ++ [dt_frame src dst data k])) as (fr2 & -> & Hr2);
      try done; try lia.
    { rewrite length_app. cbn. lia. }
    exists fr2. split; [done|]. rewrite <- app_assoc in Hr2. cbn [app] in Hr2.
    rewrite Nat2Z.inj_succ, seqZ_cons by lia. cbn [fmap list_fmap].
    replace (Z.succ k) with (ct_next_sequence t + (off + 1)) by lia.
    by replace (Z.pred (Z.succ (Z.of_nat n))) with (Z.of_nat n) by lia.
Qed.

(** A CTS for [c] packets from [k + 1] on makes the sender emit exactly these. *)
Lemma ct_reply_cts cap next t k c d s p :
  ct_at next t -> (16 <= cap)%nat -> 0 <= k -> 1 <= c <= 16 -> k + c <= P ->
  exists t', ct_reply cap t (make_cts d s c (k + 1) p)
    = Some (t', dt_frame src dst data <$> seqZ (k + 1) c) /\
    ct_at (sat_add 8 (k + 1) c) t'.
Proof.
  intros [Hs Hd Hp HP Hn Hq] Hcap Hk Hc HkP. pose proof ct_packets as (HP1 & _).
  unfold ct_reply. change (FrameOps.byte (make_cts d s c (k + 1) p) 0) with tp_cm.CTS.
  change (FrameOps.byte (make_cts d s c (k + 1) p) 1) with c.
  change (FrameOps.byte (make_cts d s c (k + 1) p) 2) with (k + 1).
  cbn [Z.eqb tp_cm.CTS Pos.eqb]. unfold ct_set_window.
  rewrite (proj2 (Z.eqb_neq c 0)), (proj2 (Z.eqb_neq (k + 1) 0)) by lia.
  rewrite HP, (proj2 (Z.ltb_ge _ _)) by lia. cbn [orb].
  rewrite checked_sub_Some by lia. cbn [mbind option_bind].
  rewrite checked_sub_Some by lia. cbn [mbind option_bind].
  change (wrap 8 TP_MAX_PACKETS_PER_CTS) with 16.
  replace (Z.min (Z.min c (P - (k + 1 - 1))) 16) with c by lia.
  unfold ct_pending_data_frames. cbn [ct_packets_to_send ct_window].
  rewrite (proj2 (Z.ltb_ge _ _)) by lia.
  destruct (ct_emit_spec cap (Z.to_nat c) 0 (ct_window (k + 1) c t) (fs_new cap) [])
    as (fr & -> & Hr); cbn [ct_next_sequence ct_window ct_source ct_destination ct_payload length];
    try done; try lia; [apply fs_repr_new|].
  cbn [mbind option_bind]. cbn [app ct_next_sequence ct_window] in Hr.
  rewrite (fs_iter_spec _ _ _ Hr). cbn [mbind option_bind].
  rewrite Z.add_0_r, Z2Nat.id by lia. eexists. split; [done|]. by split.
Qed.
End sender.

(** *** The receiver, through the hosted engine *)

Section feeding.
Context `{Allocator} (Hgrant : forall n, try_reserve_exact n = true).
Context (N : nat) (port : Z).

(** Data packets do not turn a connection-mode reception into a broadcast one. *)
Lemma ingest_destination r f r' x :
  rf_ingest N f r = Some (r', x) ->
  rf_destination r' = rf_destination r \/ rf_destination r' = NULL_ADDRESS.
Proof.
  unfold rf_ingest. intros E.
  repeat (match type of E with
          | context [mbind _ ?o] => destruct o; [cbn [mbind option_bind] in E|done]
          | context [if ?b then _ else _] => destruct b
          end); injection E as <- _; by (left + right).
Qed.

Lemma dt_destination r f r' x :
  FrameOps.pgn f = PGN_TP_DT -> rf_destination r <> BROADCAST_ADDRESS ->
  rf_process_frame N f r = Some (r', x) -> rf_destination r' <> BROADCAST_ADDRESS.
Proof.
  intros Hp Hd. unfold rf_process_frame, rf_process_dt, rf_bad_sequence. rewrite Hp.
  cbn [Z.eqb PGN_TP_DT PGN_TP_CM Pos.eqb orb andb]. intros E.
  repeat (match type of E with (if ?b then _ else _) = _ => destruct b end);
    try (injection E as <- _; done).
  by apply ingest_destination in E as [->| ->].
Qed.

Lemma feed_agree fs r p p' out evs :
  rf_sim N port r p -> tp_wf p -> rf_destination r <> BROADCAST_ADDRESS ->
  Forall (fun f => FrameOps.wf f /\ FrameOps.pgn f = PGN_TP_DT) fs ->
  tp_feed p port fs = Some (p', out, evs) ->
  exists r' msgs, rf_feed N r fs = Some (r', out, msgs) /\
    omap delivered_by evs = message_of <$> msgs /\ rf_sim N port r' p' /\
    rf_destination r' <> BROADCAST_ADDRESS.
Proof.
  intros Hsim Hp Hd Hfs. revert r p out evs Hsim Hp Hd.
  induction Hfs as [|f fs [Hf Hpgn] _ IH]; intros r p out evs Hsim Hp Hd E; cbn in E.
  - injection E as <- <- <-. by exists r, [].
  - assert (~ second_announcement r f) by (intros (_ & Hc & _); by rewrite Hpgn in Hc).
    assert (~ directed_data r f).
    { intros (Ha & Hb & _). destruct (sim_busy N port r p Hsim Ha) as [_ Hbusy].
      rewrite (rb_broadcast _ _ _ Hbusy) in Hb. by apply Z.eqb_eq in Hb. }
    destruct (process_agree Hgrant N port r p f) as (r1 & o & p1 & fr & ev & E1 & E2 & -> & E4 & Hs1);
      try done.
    destruct (tp_process_frame_safe_aux p f port Hp Hf) as (p2 & fr2 & ev2 & E3 & Hp2 & _).
    rewrite E2 in E3, E. injection E3 as <- _ _. cbn [mbind option_bind] in E.
    destruct (tp_feed p1 port fs) as [[[p3 out3] ev3]|] eqn:E5; [|done].
    cbn [mbind option_bind] in E. injection E as -> <- <-.
    destruct (IH r1 p1 out3 ev3 Hs1 Hp2) as (r' & msgs & E6 & E7 & Hs' & Hd'); try done.
    { by eapply dt_destination. }
    cbn [rf_feed]. rewrite E1. cbn [mbind option_bind]. rewrite E6. cbn [mbind option_bind].
    exists r', (option_list (oc_message o) ++ msgs). split_and!; try done.
    rewrite omap_app, E4, E7, fmap_app. f_equal. by destruct (oc_message o).
Qed.
End feeding.

(** *** The transfer *)

Section transfer.
Context `{Allocator} (Hgrant : forall n, try_reserve_exact n = true).
Context (src dst : Address) (pgn : Pgn) (data : list Z) (N cap : nat).
Hypothesis Hsrc : in_u 8 src.
Hypothesis Hdst : in_u 8 dst.
Hypothesis Hvs : valid_tp_source src = true.
Hypothesis Hvd : valid_tp_destination dst = true.
Hypothesis Hnb : dst <> BROADCAST_ADDRESS.
Hypothesis Hpgn : in_u 18 pgn.
Hypothesis Hbytes : bytes data.
Hypothesis Hlen : 8 < Z.of_nat (length data) <= 1785.
Hypothesis Hfit : (length data <= N)%nat.
Hypothesis Hcap : (16 <= cap)%nat.
Let P := div_ceil (Z.of_nat (length data)) 7.

Lemma dt_frames_ok k n :
  0 <= k -> k + n <= P ->
  Forall (fun f => FrameOps.wf f /\ FrameOps.pgn f = PGN_TP_DT)
    (dt_frame src dst data <$> seqZ (k + 1) n).
Proof.
  intros Hk Hn. pose proof (ct_packets data Hlen) as [HP _]. fold P in HP. apply Forall_fmap, Forall_forall.
  intros i Hi%elem_of_seqZ. cbn. split.
  - apply dt_frame_is_wf; try done. lia.
  - by destruct (dt_id_fields src dst Hsrc Hdst) as (? & _).
Qed.

Lemma fixed_loop fuel t r p s k :
  rf_sim N 0 r p -> tp_wf p -> sessions p = [s] -> rf_destination r <> BROADCAST_ADDRESS ->
  rx_at src dst 0 pgn data k s -> 0 <= k < window_end s -> window_end s <= P ->
  ct_at src dst data (sat_add 8 (window_end s) 1) t ->
  P - window_end s < Z.of_nat fuel ->
  exists t' m,
    fixed_exchange N cap fuel t r (dt_frame src dst data <$> seqZ (k + 1) (window_end s - k))
      = Some (t', rf_new N, [m]) /\
    fm_pgn m = pgn /\ fb_as_slice (fm_data m) = data /\ fm_source m = src /\
    fm_destination m = dst /\ ct_at src dst data (sat_add 8 P 1) t'.
Proof.
  revert t r p s k. induction fuel as [|fuel IH]; [lia|].
  intros t r p s k Hsim Hp Hs Hd Hrx Hk Hw Ht Hf. cbn [fixed_exchange].
  pose proof (ct_packets data Hlen) as [HP _]. fold P in HP.
  destruct (feed_window src dst 0 pgn data Hsrc Hdst Hvs Hvd Hbytes Hlen p [] k s)
    as (p1 & Hp1 & Hwin); try done; [by rewrite Hs|constructor|lia|fold P; lia|].
  fold P in Hwin. destruct (Z.eqb_spec (window_end s) P) as [He|He].
  - destruct Hwin as (s' & E & Hnil & Hdel).
    destruct (feed_agree Hgrant N 0 _ r p _ _ _ Hsim Hp Hd (dt_frames_ok k (window_end s - k) ltac:(lia) ltac:(lia)) E)
      as (r' & msgs & E' & Em & Hs' & _).
    rewrite E'. cbn [mbind option_bind ct_replies]. unfold ct_reply.
    change (FrameOps.byte (make_eoma dst src (Z.of_nat (length data)) P pgn) 0) with tp_cm.EOMA.
    cbn [Z.eqb Pos.eqb tp_cm.EOMA tp_cm.CTS mbind option_bind app].
    destruct msgs as [|m [|]]; try done. exists t, m.
    apply Permutation_nil_r in Hnil.
    assert (r' = rf_new N) as ->.
    { apply (idle_new N 0); [apply Hs'|]. pose proof (sim_sessions _ _ _ _ Hs') as Hss.
      rewrite Hnil in Hss. unfold rx_sessions in Hss. by destruct (rf_active r'). }
    cbn in Em. injection Em as Em1 Em2 Em3 Em4 _. destruct Hdel. rewrite <- He.
    split_and!; congruence || done.
  - destruct Hwin as (s' & E & Hs1 & Hrx1 & Hmax & Hwe).
    assert (Hm : 1 <= s_max_packets_per_cts s <= 16).
    { destruct Hrx as [Hwf Hdir _ _ _ _ _ _ _ _]. pose proof (sw_dir s Hwf) as Hr.
      rewrite Hdir in Hr. apply Hr. }
    set (c := Z.min (P - window_end s) (s_max_packets_per_cts s)) in *.
    destruct (feed_agree Hgrant N 0 _ r p _ _ _ Hsim Hp Hd (dt_frames_ok k (window_end s - k) ltac:(lia) ltac:(lia)) E)
      as (r1 & msgs & E' & Em & Hs' & Hd1).
    rewrite E'. cbn [mbind option_bind ct_replies].
    destruct (ct_reply_cts src dst data Hlen cap _ t (window_end s) c dst src pgn Ht Hcap)
      as (t1 & Et & Ht1); [lia|lia|fold P; lia|].
    rewrite Et. cbn [mbind option_bind]. rewrite app_nil_r.
    apply Permutation_singleton_r in Hs1.
    destruct (IH t1 r1 p1 s' (window_end s)) as (t2 & m & E2 & Hfin); try done; [lia|lia| |lia|].
    { rewrite Hwe. unfold sat_add in *. by rewrite Z.add_shuffle0 in Ht1. }
    replace (window_end s' - window_end s) with c in E2 by lia.
    destruct msgs as [|? ?]; [|done].
    destruct (dt_run_nonempty src dst data (window_end s + 1) c) as (x & l & Ex); [lia|].
    rewrite Ex in *. rewrite E2. cbn [mbind option_bind app]. by exists t2, m.
Qed.

(** The announcement, answered by the first CTS. *)
Lemma fixed_open t adv :
  ct_at src dst data 1 t -> ct_rts t = make_rts_fields pgn (Z.of_nat (length data)) src dst adv ->
  1 <= adv <= 16 ->
  exists r p s,
    rf_feed N (rf_new N) [ct_rts t] = Some (r, [make_cts dst src (Z.min P adv) (0 + 1) pgn], []) /\
    rf_sim N 0 r p /\ tp_wf p /\ sessions p = [s] /\ rf_destination r <> BROADCAST_ADDRESS /\
    rx_at src dst 0 pgn data 0 s /\ window_end s = Z.min P adv.
Proof.
  intros Ht Hrts Hadv. pose proof (ct_packets data Hlen) as [HP _]. fold P in HP.
  set (p0 := set_max_receive_bytes (Z.of_nat N) tp_new).
  assert (Hp0 : tp_wf p0).
  { destruct tp_wf_new as [H1 H2 H3 H4 H5]. split; try done.
    unfold p0. cbn. unfold TP_MAX_DATA_LENGTH. lia. }
  assert (Hsim : rf_sim N 0 (rf_new N) p0) by (apply sim_idle; [done|cbv; lia|done]).
  assert (Hf : FrameOps.wf (ct_rts t)).
  { rewrite Hrts. apply make_rts_wf; try done. unfold in_u. simpl. lia. }
  destruct (process_agree Hgrant N 0 (rf_new N) p0 (ct_rts t) Hsim Hp0 Hf)
    as (r & o & p & fr & ev & E1 & E2 & Efr & Eev & Hs); [by intros []|by intros []|].
  destruct (tp_process_frame_safe_aux p0 (ct_rts t) 0 Hp0 Hf) as (p2 & fr2 & ev2 & E3 & Hp2 & _).
  rewrite E2 in E3. injection E3 as <- _ _. rewrite Hrts in E2.
  rewrite (rx_open_rts src dst 0 pgn data Hsrc Hdst Hvs Hvd Hpgn Hlen) in E2; try done;
    [|exact (Forall_nil_2 _)|cbv; lia
     |change (max_receive_bytes p0) with (Z.min (Z.of_nat N) 1785); lia].
  fold P in E2. injection E2 as <- <- <-.
  set (s := opened src dst 0 pgn data adv (Z.min P adv)) in *.
  exists r, (push_session s p0), s. cbn [rf_feed]. rewrite E1. cbn [mbind option_bind].
  destruct (oc_message o); [done|]. rewrite <- Efr. split_and!; try done.
  - pose proof (sim_sessions _ _ _ _ Hs) as Hss. unfold rx_sessions in Hss.
    destruct (rf_active r); [|done]. apply (f_equal (map s_destination_address)) in Hss.
    unfold s in Hss. cbn in Hss. congruence.
  - by apply opened_at.
  - unfold window_end, s. cbn. lia.
Qed.
End transfer.

(** The two helpers together deliver: whatever the advertised window, if the receiver's buffer
    holds the payload and the frame table a full window, the exchange that starts with the
    RTS ends with the receiver idle again and the payload delivered once, byte for byte.
    The sender then reports completion, except for a payload of 255 packets. *)
Theorem tp_fixed_transfer pgn data src dst adv N cap fuel t :
  ct_with_advertised pgn data src dst adv = Ok t ->
  0 <= pgn -> in_u 8 src -> in_u 8 dst -> bytes data -> Z.of_nat (length data) < 2 ^ 32 ->
  (length data <= N)%nat -> (16 <= cap)%nat -> ct_total_packets t + 1 <= Z.of_nat fuel ->
  exists t' m,
    fixed_exchange N cap fuel t (rf_new N) [ct_rts t] = Some (t', rf_new N, [m]) /\
    fm_pgn m = pgn /\ fb_as_slice (fm_data m) = data /\ fm_source m = src /\
    fm_destination m = dst /\ ct_is_complete t' = negb (ct_total_packets t =? 255).
Proof.
  intros Hnew H0 Hsrc Hdst Hb H32 Hfit Hcap Hfuel. unfold ct_with_advertised in Hnew.
  rewrite wrap_small in Hnew by (unfold in_u; lia).
  unfold TP_MAX_DATA_LENGTH, CAN_DATA_LENGTH, TP_BYTES_PER_FRAME in Hnew.
  destruct (pgn_is_valid pgn) eqn:Hv; [|done]. destruct (valid_tp_source src) eqn:Hvs; [|done].
  destruct (valid_tp_destination dst) eqn:Hvd; [|done]. cbn [negb orb] in Hnew.
  destruct (Z.eqb_spec dst BROADCAST_ADDRESS) as [|Hnb]; [done|].
  destruct (Z.ltb_spec 1785 (Z.of_nat (length data))) as [|Hhi]; [done|].
  destruct (Z.leb_spec (Z.of_nat (length data)) 8) as [|Hlo]; [done|].
  injection Hnew as Ht.
  assert (Hpgn : in_u 18 pgn).
  { unfold pgn_is_valid in Hv. apply Z.leb_le in Hv. unfold in_u. simpl. lia. }
  assert (Hlen : 8 < Z.of_nat (length data) <= 1785) by lia.
  pose proof (ct_packets data Hlen) as [HP _]. set (P := div_ceil (Z.of_nat (length data)) 7) in *.
  assert (HtP : ct_total_packets t = P).
  { rewrite <- Ht. cbn. apply wrap_small. unfold in_u. simpl. lia. }
  assert (Hat : ct_at src dst data 1 t) by (split; [..|exact HtP| |]; by rewrite <- Ht).
  set (a := clamp_packets adv). assert (Ha : 1 <= a <= 16).
  { unfold a, clamp_packets. change (wrap 8 TP_MAX_PACKETS_PER_CTS) with 16. lia. }
  destruct (fixed_open (H := granting) (fun _ => eq_refl) src dst pgn data N cap Hsrc Hdst Hvs Hvd Hnb
    Hpgn Hlen Hfit Hcap t a Hat) as (r & p & s & E & Hsim & Hp & Hs & Hd & Hrx & Hw);
    [by rewrite <- Ht|done|].
  fold P in E, Hw.
  destruct (ct_reply_cts src dst data Hlen cap 1 t 0 (Z.min P a) dst src pgn Hat Hcap)
    as (t1 & Et & Ht1); [lia|lia|fold P; lia|].
  destruct fuel as [|fuel]; [lia|]. cbn [fixed_exchange]. rewrite E.
  cbn [mbind option_bind ct_replies]. rewrite Et. cbn [mbind option_bind]. rewrite app_nil_r.
  destruct (fixed_loop (H := granting) (fun _ => eq_refl) src dst pgn data N cap Hsrc Hdst Hvs Hvd
    Hnb Hb Hlen Hfit Hcap fuel t1 r p s 0) as (t' & m & E2 & M1 & M2 & M3 & M4 & Hat'); try done;
    [lia|fold P; lia| |fold P; lia|].
  { replace (sat_add 8 (window_end s) 1) with (sat_add 8 (0 + 1) (Z.min P a)); [done|].
    rewrite Hw. unfold sat_add. f_equal. lia. }
  rewrite Hw, Z.sub_0_r in E2.
  destruct (dt_run_nonempty src dst data (0 + 1) (Z.min P a)) as (x & l & Ex); [lia|].
  rewrite Ex in *. rewrite E2. cbn [mbind option_bind app]. exists t', m. split_and!; try done.
  destruct Hat' as [_ _ _ HP' Hn' _]. unfold ct_is_complete. rewrite HP', Hn', HtP. fold P.
  unfold sat_add. change (2 ^ 8 - 1) with 255.
  destruct (Z.eqb_spec P 255); [apply Z.ltb_ge|apply Z.ltb_lt]; lia.
Qed.

(** A packet addressed to one node, sent by the source of the broadcast being received, is
    taken for the next packet of the broadcast and its bytes are stored; the hosted engine
    drops the same frame. *)
Theorem directed_data_accepted `{Allocator} N port r p f :
  rf_sim N port r p -> FrameOps.wf f -> f_length f = 8 -> directed_data r f ->
  FrameOps.source f = rf_source r -> valid_tp_source (rf_source r) = true ->
  valid_tp_destination (FrameOps.destination f) = true ->
  FrameOps.byte f 0 = rf_last_sequence r + 1 ->
  tp_process_frame p f port = Some (note_dropped_frame p, [], []) /\
  exists r' o, rf_process_frame N f r = Some (r', Ok o) /\
    let stored := scatter7 (7 * rf_last_sequence r) (fb_as_slice (rf_data r)) (f_data f) in
    match oc_message o with
    | Some m => fb_as_slice (fm_data m) = stored
    | None => rf_last_sequence r' = rf_last_sequence r + 1 /\ fb_as_slice (rf_data r') = stored
    end.
Proof.
  intros Hsim Hf Hlen (Ha & Hb & Hp & Hd) Hs Hvs Hvd Hseq.
  destruct (sim_busy N port r p Hsim Ha) as [Hss Hbusy].
  unfold tp_process_frame, rf_process_frame. rewrite Hp, Hlen, Hs, Hvs, Hvd.
  cbn [Z.eqb Z.ltb Z.compare Pos.eqb PGN_TP_DT PGN_TP_CM CAN_DATA_LENGTH orb andb negb]. split.
  - unfold handle_dt. rewrite Hss. cbn [position].
    replace (dt_matches _ _ _ _) with false; [done|]. symmetry. apply andb_false_iff. right.
    apply Z.eqb_neq. cbn. pose proof (rb_broadcast _ _ _ Hbusy) as Hbr. rewrite Hb in Hbr.
    symmetry in Hbr. apply Z.eqb_eq in Hbr. congruence.
  - unfold rf_process_dt. rewrite Ha, Hs, Z.eqb_refl, Hb. cbn [negb orb andb].
    pose proof (busy_bounds _ _ _ Hbusy) as (H1 & H2 & _).
    unfold sat_add. rewrite Z.min_l by (simpl; lia).
    rewrite Hseq, (proj2 (Z.eqb_neq _ 0)), Z.eqb_refl by lia. cbn [negb orb].
    rewrite (ingest_eq N port r f Hbusy Hf Hseq), Hb. cbn zeta.
    pose proof (proj1 (stored_slice N port r f Hbusy Hf Hseq)) as Hsl. rewrite Hseq in Hsl |- *.
    replace (rf_last_sequence r + 1 - 1) with (rf_last_sequence r) in Hsl by lia.
    destruct (_ =? _); (eexists _, _; split; [done|]); cbn [oc_message no_outcome fm_data]; done.
Qed.

(** ** Witnesses *)

(** A BAM from 0x80 announcing 15 bytes of PGN 0xFEEC, and a packet of its transfer to 0x42. *)
Definition fixed_bam : Frame := make_bam_fields 0xFEEC 15 0x80.
Definition directed_dt : Frame := dt_frame 0x80 0x42 sample_payload 1.

Lemma frame_bytes_ok l : forallb (fun b => (0 <=? b) && (b <? 256)) l = true -> bytes l.
Proof.
  induction l as [|x l IH]; cbn; [constructor|]. intros [Hx Hl]%andb_true_iff.
  constructor; [|by apply IH]. reflect_bools. unfold in_u. simpl. lia.
Qed.

Lemma fixed_bam_wf : FrameOps.wf fixed_bam.
Proof. split_and!; try done. by apply frame_bytes_ok. Qed.

Lemma directed_dt_wf : FrameOps.wf directed_dt.
Proof. split_and!; try done. by apply frame_bytes_ok. Qed.

Lemma new_sim : rf_sim 1785 0 (rf_new 1785) tp_new.
Proof. apply sim_idle; [done|cbv; lia|done]. Qed.

Lemma tp_rx_fixed_refines_witness :
  exists r' p' frames evs,
    rf_process_frame 1785 fixed_bam (rf_new 1785) = Some (r', Ok no_outcome) /\
    tp_process_frame (H := granting) tp_new fixed_bam 0 = Some (p', frames, evs) /\
    rf_sim 1785 0 r' p'.
Proof.
  destruct (tp_rx_fixed_refines (H := granting) (fun _ => eq_refl) 1785 0 (rf_new 1785) tp_new fixed_bam)
    as (r' & o & p' & fr & ev & E1 & E2 & E3 & E4 & E5 & _);
    [exact new_sim|exact tp_wf_new|exact fixed_bam_wf|by intros []|by intros []|].
  assert (o = no_outcome) as ->.
  { vm_compute in E1. apply (f_equal (fmap snd)) in E1. injection E1 as E1. by rewrite <- E1. }
  by exists r', p', fr, ev.
Defined.

Lemma tp_fixed_transfer_witness :
  exists t m, fixed_exchange 15 16 4
      (match ct_new 0xEF00 sample_payload 0x80 0x42 with Ok t => t | Err _ =>
         mkCmdtTx 0 [] 0 0 0 0 0 0 0 end) (rf_new 15)
      [make_rts_fields 0xEF00 15 0x80 0x42 16] = Some (t, rf_new 15, [m]) /\
    fb_as_slice (fm_data m) = sample_payload /\ ct_is_complete t = true.
Proof.
  destruct (ct_new 0xEF00 sample_payload 0x80 0x42) as [t|] eqn:E; [|by vm_compute in E].
  assert (Ht : ct_total_packets t = 3 /\ ct_rts t = make_rts_fields 0xEF00 15 0x80 0x42 16).
  { vm_compute in E. apply (f_equal (fun x => match x with Ok t => t | Err _ => t end)) in E.
    by rewrite <- E. }
  destruct Ht as [Hp Hr].
  destruct (tp_fixed_transfer 0xEF00 sample_payload 0x80 0x42 16 15 16 4 t E)
    as (t' & m & E1 & _ & E2 & _ & _ & E3);
    [done|by unfold in_u|by unfold in_u|exact sample_payload_bytes|done|cbn; lia|lia|lia|].
  rewrite Hr in E1. rewrite Hp in E3. by exists t', m.
Defined.

Lemma directed_data_accepted_witness :
  exists r' o, rf_process_frame 1785 directed_dt
      (match rf_process_frame 1785 fixed_bam (rf_new 1785) with
       | Some (r, _) => r | None => rf_new 1785 end) = Some (r', Ok o) /\
    match oc_message o with
    | Some _ => False
    | None => rf_last_sequence r' = 1 /\ take 7 (fb_as_slice (rf_data r')) = [1; 2; 3; 4; 5; 6; 7]
    end.
Proof.
  destruct (process_agree (H := granting) (fun _ => eq_refl) 1785 0 (rf_new 1785) tp_new fixed_bam)
    as (r & o & p & fr & ev & E1 & _ & _ & _ & Hs);
    [exact new_sim|exact tp_wf_new|exact fixed_bam_wf|by intros []|by intros []|].
  rewrite E1. vm_compute in E1. apply (f_equal (fun x => match x with Some (r, _) => r | None => r end)) in E1.
  destruct (directed_data_accepted (H := granting) 1785 0 r p directed_dt Hs directed_dt_wf)
    as (_ & r' & o' & E2 & E3);
    [done|rewrite <- E1; split_and!; done|by rewrite <- E1|by rewrite <- E1|done|by rewrite <- E1|].
  exists r', o'. split; [done|]. 
  assert (Hno : oc_message o' = None).
  { rewrite <- E1 in E2. vm_compute in E2. apply (f_equal (fun x => match x with Some (_, Ok o) => oc_message o | _ => None end)) in E2.
    by cbn in E2. }
  rewrite Hno in *. cbn zeta in E3. destruct E3 as [-> ->]. by rewrite <- E1.
Defined.
