(* ===== verification/DataSpan.v ===== *)
(** Bit fields and byte views: the model of [src/net/bitfield.rs], [src/net/data_span.rs] and
    of the field readers and writers of [src/net/message.rs].

    The generic functions of [bitfield.rs] take the width [w] of their unsigned type.  A
    [DataSpan] is the list it borrows; a read outside it gives ones, never a panic.  [usize]
    is 64 bits wide; the sums of the writers and of [Message::get_bits] are unchecked in the
    source and panic on overflow ([None]). *)
From S2P Require Export Name.

Definition USIZE_BITS : Z := 64.

(** ** [bitfield.rs] *)

Module Bitfield.
Definition get_bits (w value start_bit length : Z) : Z :=
  if (length =? 0) || (w <=? start_bit) then 0
  else if w <=? length then Z.shiftr value start_bit
  else Z.land (Z.shiftr value start_bit) (Z.shiftl 1 length - 1).

Definition set_bits (w value start_bit length field_value : Z) : Z :=
  if (length =? 0) || (w <=? start_bit) then value
  else if w <=? length then field_value
  else
    let mask := Z.shiftl 1 length - 1 in
    let cleared := Z.land value (not_u w (wrap w (Z.shiftl mask start_bit))) in
    Z.lor cleared (wrap w (Z.shiftl (Z.land field_value mask) start_bit)).

Definition get_bit (w value bit : Z) : bool :=
  if w <=? bit then false else negb (Z.land (Z.shiftr value bit) 1 =? 0).

Definition set_bit (w value bit : Z) (on : bool) : Z :=
  if w <=? bit then value
  else if on then Z.lor value (Z.shiftl 1 bit)
  else Z.land value (not_u w (Z.shiftl 1 bit)).

(** [unpack_u16_le], [unpack_u32_le], [unpack_u64_le]: [n] leading bytes, a panic when there
    are fewer. *)
Definition unpack_le (n : nat) (data : list Z) : option Z :=
  if (n <=? length data)%nat then Some (Name.from_le_bytes (take n data)) else None.

(** [pack_u16_le], [pack_u32_le], [pack_u64_le]. *)
Definition pack_le (n : nat) (data : list Z) (value : Z) : option (list Z) :=
  if (n <=? length data)%nat then Some (Name.to_le_bytes n value ++ drop n data) else None.
End Bitfield.

(** ** [data_span.rs] *)

Module Span.
Definition at_ (d : list Z) (idx : Z) : Z := default 0xFF (d !! Z.to_nat idx).
Definition get_u8 (d : list Z) (offset : Z) : Z := at_ d offset.

Definition subspan (d : list Z) (offset count : Z) : list Z :=
  if Z.of_nat (length d) <=? offset then []
  else take (Z.to_nat (Z.min count (Z.of_nat (length d) - offset))) (drop (Z.to_nat offset) d).

Definition subspan_from (d : list Z) (offset : Z) : list Z :=
  if Z.of_nat (length d) <=? offset then [] else drop (Z.to_nat offset) d.

(** [get_u16_le], [get_u32_le], [get_u64_le] for [n] = 2, 4, 8; the option is the panic of the
    unpacking, which the bounds test excludes. *)
Definition get_le (n : nat) (d : list Z) (offset : Z) : option Z :=
  match checked_add USIZE_BITS offset (Z.of_nat n) with
  | None => Some (Z.ones (8 * Z.of_nat n))
  | Some e =>
      if Z.of_nat (length d) <? e then Some (Z.ones (8 * Z.of_nat n))
      else Bitfield.unpack_le n (drop (Z.to_nat offset) d)
  end.

Definition get_bit (d : list Z) (byte_offset bit : Z) : option bool :=
  if (Z.of_nat (length d) <=? byte_offset) || (7 <? bit) then Some false
  else b ← d !! Z.to_nat byte_offset; Some (Bitfield.get_bit 8 b bit).
End Span.

(** ** The accessors of [message.rs] *)

Definition msg_u8 (m : Message) (offset : Z) : Z := Span.get_u8 (m_data m) offset.
Definition msg_le (n : nat) (m : Message) (offset : Z) : option Z :=
  Span.get_le n (m_data m) offset.

Definition set_data (d : list Z) (m : Message) : Message :=
  mkMessage (m_pgn m) d (m_source m) (m_destination m) (m_priority m) (m_timestamp_us m).

(** The loop of [Message::get_bits] over [i]: [n] turns are left. *)
Fixpoint msg_bits_loop (n : nat) (i : Z) (d : list Z) (start_bit result : Z) : option Z :=
  match n with
  | O => Some result
  | S n =>
      bit_pos ← checked_add USIZE_BITS start_bit i;
      let byte_idx := bit_pos / 8 in
      let bit_idx := bit_pos mod 8 in
      result ← (if byte_idx <? Z.of_nat (length d) then
                  b ← d !! Z.to_nat byte_idx;
                  Some (Z.lor result (Z.shiftl (Z.land (Z.shiftr b bit_idx) 0x01) i))
                else Some result);
      msg_bits_loop n (i + 1) d start_bit result
  end.

Definition msg_bits (m : Message) (start_bit length : Z) : option Z :=
  if (length =? 0) || (32 <? length) then Some 0
  else msg_bits_loop (Z.to_nat length) 0 (m_data m) start_bit 0.

(** [self.data.resize(n, 0xFF)]. *)
Definition resize_ff (n : nat) (d : list Z) : list Z :=
  take n d ++ replicate (n - length d) 0xFF.

Definition msg_set_u8 (offset val : Z) (m : Message) : option Message :=
  needed ← checked_add USIZE_BITS offset 1;
  let d := if Z.of_nat (length (m_data m)) <=? offset
           then resize_ff (Z.to_nat needed) (m_data m) else m_data m in
  if Z.of_nat (length d) <=? offset then None
  else Some (set_data (<[Z.to_nat offset := val]> d) m).

(** [set_u16_le] and [set_u32_le] for [n] = 2, 4. *)
Definition msg_set_le (n : nat) (offset val : Z) (m : Message) : option Message :=
  needed ← checked_add USIZE_BITS offset (Z.of_nat n);
  let d := if Z.of_nat (length (m_data m)) <? needed
           then resize_ff (Z.to_nat needed) (m_data m) else m_data m in
  tail ← Bitfield.pack_le n (drop (Z.to_nat offset) d) val;
  Some (set_data (take (Z.to_nat offset) d ++ tail) m).

(** ** Bit fields, bit by bit *)

Lemma mask_ones l : Z.shiftl 1 l - 1 = Z.ones l.
Proof. unfold Z.ones. lia. Qed.

Lemma get_bits_testbit w v s l n :
  in_u w v -> 0 <= s -> 1 <= l -> s + l <= w -> 0 <= n ->
  Z.testbit (Bitfield.get_bits w v s l) n = (n <? l) && Z.testbit v (n + s).
Proof.
  intros Hv Hs Hl Hw Hn. unfold Bitfield.get_bits. rewrite mask_ones.
  rewrite (proj2 (Z.eqb_neq _ _)), (proj2 (Z.leb_gt _ _)) by lia. cbn [orb].
  destruct (Z.leb_spec w l).
  - assert (s = 0 /\ l = w) as [-> ->] by lia. rewrite Z.shiftr_0_r, Z.add_0_r.
    destruct (Z.ltb_spec n w); [done|]. apply (testbit_high w); [done|lia].
  - rewrite Z.land_spec, Z.shiftr_spec, testbit_ones by lia.
    rewrite (proj2 (Z.leb_le 0 n)) by lia. apply andb_comm.
Qed.

Lemma wrap_testbit w x n :
  0 <= w -> 0 <= n -> Z.testbit (wrap w x) n = (n <? w) && Z.testbit x n.
Proof.
  intros Hw Hn. unfold wrap. destruct (Z.ltb_spec n w).
  - by rewrite Z.mod_pow2_bits_low.
  - by rewrite Z.mod_pow2_bits_high.
Qed.

Lemma set_bits_testbit w v s l f n :
  in_u w v -> in_u w f -> 0 <= s -> 1 <= l -> s + l <= w -> 0 <= n ->
  Z.testbit (Bitfield.set_bits w v s l f) n
  = if (s <=? n) && (n <? s + l) then Z.testbit f (n - s) else Z.testbit v n.
Proof.
  intros Hv Hf Hs Hl Hw Hn. unfold Bitfield.set_bits. rewrite mask_ones.
  rewrite (proj2 (Z.eqb_neq _ _)), (proj2 (Z.leb_gt _ _)) by lia. cbn [orb].
  destruct (Z.leb_spec w l).
  - assert (s = 0 /\ l = w) as [-> ->] by lia. rewrite Z.sub_0_r, Z.add_0_l.
    rewrite (proj2 (Z.leb_le 0 n)) by lia. cbn [andb].
    destruct (Z.ltb_spec n w); [done|]. by rewrite !(testbit_high w) by (done || lia).
  - unfold not_u. rewrite Z.lor_spec, Z.land_spec, Z.ldiff_spec, !wrap_testbit,
      !Z.shiftl_spec, Z.land_spec, testbit_ones by lia.
    destruct (Z.leb_spec s n); cbn [andb].
    + rewrite (testbit_ones l) by lia.
      rewrite (proj2 (Z.leb_le 0 n)), (proj2 (Z.leb_le 0 (n - s))) by lia.
      destruct (Z.ltb_spec n (s + l)).
      * rewrite (proj2 (Z.ltb_lt n w)), (proj2 (Z.ltb_lt (n - s) l)) by lia. cbn [andb negb].
        by rewrite !andb_false_r, andb_true_r.
      * rewrite (proj2 (Z.ltb_ge (n - s) l)) by lia. rewrite !andb_false_r, orb_false_r.
        destruct (Z.ltb_spec n w); [by rewrite !andb_true_r|].
        rewrite (testbit_high w v) by (done || lia). done.
    + rewrite !(Z.testbit_neg_r _ (n - s)) by lia. rewrite !andb_false_r, orb_false_r.
      rewrite (proj2 (Z.leb_le 0 n)), (proj2 (Z.ltb_lt n w)) by lia. cbn. by rewrite andb_true_r.
Qed.

(** [set_bits] writes exactly its field: reading it back gives the written value cut to the
    field's length, every disjoint field reads as before, and the word keeps its width. *)
Theorem bitfield_laws w v s l f s' l' :
  in_u w v -> in_u w f -> 0 <= s -> 1 <= l -> s + l <= w -> 0 <= s' -> 1 <= l' -> s' + l' <= w ->
  let v' := Bitfield.set_bits w v s l f in
  in_u w v' /\ Bitfield.get_bits w v' s l = f mod 2 ^ l /\
  (s + l <= s' \/ s' + l' <= s ->
   Bitfield.get_bits w v' s' l' = Bitfield.get_bits w v s' l').
Proof.
  intros Hv Hf Hs Hl Hw Hs' Hl' Hw' v'.
  assert (Hv' : in_u w v').
  { apply in_u_bits; [lia| |].
    - unfold v', Bitfield.set_bits. destruct (_ || _); [apply Hv|].
      destruct (_ <=? _); [apply Hf|]. apply Z.lor_nonneg. split.
      + apply Z.land_nonneg. left. apply Hv.
      + apply in_u_wrap. lia.
    - intros n Hn. unfold v'. rewrite set_bits_testbit by (done || lia).
      rewrite (proj2 (Z.ltb_ge n (s + l))), andb_false_r by lia.
      apply (testbit_high w); [done|lia]. }
  split; [done|]. split.
  - apply Z.bits_inj'. intros n Hn. rewrite get_bits_testbit by (done || lia).
    unfold v'. rewrite set_bits_testbit by (done || lia).
    destruct (Z.ltb_spec n l); cbn [andb].
    + rewrite (proj2 (Z.leb_le s (n + s))), (proj2 (Z.ltb_lt (n + s) (s + l))) by lia.
      rewrite Z.mod_pow2_bits_low by lia. cbn. f_equal. lia.
    + by rewrite Z.mod_pow2_bits_high by lia.
  - intros Hd. apply Z.bits_inj'. intros n Hn. rewrite !get_bits_testbit by (done || lia).
    destruct (Z.ltb_spec n l'); [|done]. cbn [andb]. unfold v'.
    rewrite set_bits_testbit by (done || lia).
    destruct (Z.leb_spec s (n + s')), (Z.ltb_spec (n + s') (s + l)); try done; lia.
Qed.

Lemma bitfield_laws_witness :
  Bitfield.get_bits 8 (Bitfield.set_bits 8 0xAB 4 4 0xF5) 4 4 = 5.
Proof.
  destruct (bitfield_laws 8 0xAB 4 4 0xF5 0 4) as (_ & H & _);
    [by vm_compute|by vm_compute|lia..|exact H].
Defined.

(** ** Reading and writing fields of a message *)

Lemma length_resize_ff n d : length (resize_ff n d) = n.
Proof. unfold resize_ff. rewrite length_app, length_take, length_replicate. lia. Qed.

Lemma resize_ff_lookup n d i :
  (i < n)%nat -> resize_ff n d !! i = Some (if decide (i < length d)%nat then d !!! i else 0xFF).
Proof.
  intros Hi. unfold resize_ff. case_decide.
  - rewrite lookup_app_l by (rewrite length_take; lia). rewrite lookup_take_lt by lia.
    by rewrite <- list_lookup_lookup_total_lt.
  - rewrite lookup_app_r by (rewrite length_take; lia). rewrite length_take.
    apply lookup_replicate. split; [done|lia].
Qed.

(** The buffer a write of [n] bytes at [off] works on: grown with [0xFF] when it is short. *)
Definition grown (needed : nat) (d : list Z) : list Z :=
  if (length d <? needed)%nat then resize_ff needed d else d.

Lemma grown_length needed d : length (grown needed d) = Nat.max needed (length d).
Proof.
  unfold grown. destruct (Nat.ltb_spec (length d) needed); [rewrite length_resize_ff|]; lia.
Qed.

Lemma grown_lookup needed d i :
  (i < Nat.max needed (length d))%nat ->
  grown needed d !! i = Some (if decide (i < length d)%nat then d !!! i else 0xFF).
Proof.
  intros Hi. unfold grown. destruct (Nat.ltb_spec (length d) needed).
  - apply resize_ff_lookup. lia.
  - rewrite decide_True by lia. rewrite <- list_lookup_lookup_total_lt by lia. done.
Qed.

Lemma msg_set_le_eq n off v m :
  0 <= off -> off + Z.of_nat n < 2 ^ 64 ->
  let o := Z.to_nat off in
  let d := grown (o + n) (m_data m) in
  msg_set_le n off v m
  = Some (set_data (take o d ++ Name.to_le_bytes n v ++ drop (o + n) d) m).
Proof.
  intros Ho Hb o d. unfold msg_set_le. rewrite checked_add_Some by (unfold USIZE_BITS; lia).
  cbn [mbind option_bind].
  replace (Z.to_nat (off + Z.of_nat n)) with (o + n)%nat by lia.
  replace (if Z.of_nat (length (m_data m)) <? off + Z.of_nat n
           then resize_ff (o + n) (m_data m) else m_data m) with d.
  2: { unfold d, grown. destruct (Nat.ltb_spec (length (m_data m)) (o + n)),
         (Z.ltb_spec (Z.of_nat (length (m_data m))) (off + Z.of_nat n)); done || lia. }
  unfold Bitfield.pack_le. fold o. rewrite length_drop.
  pose proof (grown_length (o + n) (m_data m)) as Hl. fold d in Hl.
  rewrite (proj2 (Nat.leb_le _ _)) by lia. cbn [mbind option_bind]. by rewrite drop_drop.
Qed.

(** Writing a little-endian field and reading it back: [set_u16_le] / [set_u32_le] never
    panic below the address space's end; the message has grown just enough, with [0xFF] in
    the gap; the field reads back as written; every other byte is what it was. *)
Theorem message_field_roundtrip n off v m :
  0 <= off -> off + Z.of_nat n < 2 ^ 64 -> in_u (8 * Z.of_nat n) v ->
  exists m', msg_set_le n off v m = Some m' /\
    length (m_data m') = Nat.max (Z.to_nat off + n) (length (m_data m)) /\
    msg_le n m' off = Some v /\
    (forall i, 0 <= i < Z.of_nat (length (m_data m')) -> i < off \/ off + Z.of_nat n <= i ->
       msg_u8 m' i = if i <? Z.of_nat (length (m_data m)) then msg_u8 m i else 0xFF).
Proof.
  intros Ho Hb Hv. rewrite msg_set_le_eq by done. eexists. split; [done|].
  set (o := Z.to_nat off). pose proof (grown_length (o + n) (m_data m)) as Hl.
  set (d := grown (o + n) (m_data m)) in *. cbn [set_data m_data].
  assert (Hlen : length (take o d ++ Name.to_le_bytes n v ++ drop (o + n) d) = length d).
  { rewrite !length_app, length_take, length_drop, length_to_le_bytes. lia. }
  rewrite Hlen. split; [exact Hl|]. split.
  - unfold msg_le, Span.get_le. cbn [set_data m_data].
    rewrite checked_add_Some by (unfold USIZE_BITS; lia). cbv iota beta. rewrite Hlen.
    rewrite (proj2 (Z.ltb_ge _ _)) by lia. fold o. unfold Bitfield.unpack_le.
    rewrite drop_app_length' by (rewrite length_take; lia).
    rewrite length_app, length_to_le_bytes, (proj2 (Nat.leb_le _ _)) by lia.
    rewrite take_app_length' by (symmetry; apply length_to_le_bytes).
    rewrite from_to_le_bytes. f_equal. unfold get_field. rewrite Z.shiftr_0_r.
    apply land_ones_small; [lia|done].
  - intros i Hi Hout. unfold msg_u8, Span.get_u8, Span.at_. cbn [set_data m_data].
    assert (Hd : (take o d ++ Name.to_le_bytes n v ++ drop (o + n) d) !! Z.to_nat i
                 = d !! Z.to_nat i).
    { destruct Hout.
      - rewrite lookup_app_l by (rewrite length_take; lia). apply lookup_take_lt. lia.
      - rewrite lookup_app_r by (rewrite length_take; lia).
        rewrite lookup_app_r by (rewrite length_take, length_to_le_bytes; lia).
        rewrite length_take, length_to_le_bytes, lookup_drop. f_equal. lia. }
    rewrite Hd. unfold d. rewrite grown_lookup by lia. cbn [default from_option].
    destruct (Z.ltb_spec i (Z.of_nat (length (m_data m)))).
    + rewrite decide_True by lia.
      rewrite (list_lookup_lookup_total_lt (m_data m)) by lia. done.
    + by rewrite decide_False by lia.
Qed.

Lemma message_field_roundtrip_witness :
  exists m', msg_set_le 2 2 0xCAFE Message_default = Some m' /\ msg_le 2 m' 2 = Some 0xCAFE.
Proof.
  destruct (message_field_roundtrip 2 2 0xCAFE Message_default) as (m' & H1 & _ & H2 & _);
    [lia|lia|by vm_compute|by exists m'].
Defined.

(** *** [Message::get_bits] against the integer the payload spells *)

Lemma from_le_bytes_testbit d n :
  bytes d -> 0 <= n ->
  Z.testbit (Name.from_le_bytes d) n = Z.testbit (default 0 (d !! Z.to_nat (n / 8))) (n mod 8).
Proof.
  intros Hd. revert n. induction Hd as [|b d Hb Hd IH]; intros n Hn.
  - rewrite lookup_nil. by rewrite !Z.testbit_0_l.
  - cbn [Name.from_le_bytes]. rewrite Z.lor_spec, Z.shiftl_spec by lia.
    destruct (Z.ltb_spec n 8).
    + rewrite Z.div_small, Z.mod_small, (Z.testbit_neg_r _ (n - 8)), orb_false_r by lia. done.
    + rewrite (testbit_high 8 b) by (done || lia). rewrite IH by lia.
      replace ((n - 8) mod 8) with (n mod 8)
        by (rewrite <- (Z_mod_plus_full (n - 8) 1 8); f_equal; lia).
      replace (n / 8) with ((n - 8) / 8 + 1)
        by (rewrite <- (Z_div_plus_full (n - 8) 1 8) by lia; f_equal; lia).
      pose proof (Z.div_pos (n - 8) 8).
      rewrite Z2Nat.inj_add, Nat.add_1_r by lia. done.
Qed.

(** What one turn adds at bit [i]. *)
Lemma msg_bits_step b i bit n :
  0 <= i -> 0 <= n -> 0 <= bit ->
  Z.testbit (Z.shiftl (Z.land (Z.shiftr b bit) 0x01) i) n = (n =? i) && Z.testbit b bit.
Proof.
  intros Hi Hn Hb. rewrite Z.shiftl_spec by lia. change 1 with (Z.ones 1).
  destruct (Z.ltb_spec n i).
  - rewrite Z.testbit_neg_r by lia. by rewrite (proj2 (Z.eqb_neq n i)) by lia.
  - rewrite Z.land_spec, Z.shiftr_spec, testbit_ones by lia.
    destruct (Z.eqb_spec n i); subst.
    + rewrite Z.sub_diag, Z.add_0_l. cbn. by rewrite andb_true_r.
    + by rewrite (proj2 (Z.ltb_ge (n - i) 1)), !andb_false_r by lia.
Qed.

Lemma msg_bits_loop_spec n d s : forall i result,
  bytes d -> 0 <= s -> 0 <= i -> s + i + Z.of_nat n <= 2 ^ 64 ->
  result = get_field s i (Name.from_le_bytes d) ->
  msg_bits_loop n i d s result = Some (get_field s (i + Z.of_nat n) (Name.from_le_bytes d)).
Proof.
  induction n as [|n IH]; intros i result Hd Hs Hi Hb Hr; cbn [msg_bits_loop].
  { by rewrite Z.add_0_r, Hr. }
  rewrite checked_add_Some by (unfold USIZE_BITS; lia). cbn [mbind option_bind].
  set (p := s + i) in *. pose proof (Z.div_pos p 8 ltac:(lia) ltac:(lia)).
  pose proof (Z.mod_pos_bound p 8 ltac:(lia)).
  assert (Hstep : exists r, (if p / 8 <? Z.of_nat (length d) then
              b ← d !! Z.to_nat (p / 8);
              Some (Z.lor result (Z.shiftl (Z.land (Z.shiftr b (p mod 8)) 0x01) i))
            else Some result) = Some r /\ r = get_field s (i + 1) (Name.from_le_bytes d)).
  { assert (Hbit : forall k, 0 <= k ->
        Z.testbit (get_field s (i + 1) (Name.from_le_bytes d)) k
        = Z.testbit (get_field s i (Name.from_le_bytes d)) k
          || ((k =? i) && Z.testbit (default 0 (d !! Z.to_nat (p / 8))) (p mod 8))).
    { intros k Hk. unfold get_field. rewrite !Z.land_spec, Z.shiftr_spec, !testbit_ones by lia.
      rewrite (proj2 (Z.leb_le 0 k)) by lia. cbn [andb].
      destruct (Z.eqb_spec k i); subst.
      - rewrite (proj2 (Z.ltb_ge i i)), (proj2 (Z.ltb_lt i (i + 1))) by lia.
        rewrite andb_true_r, andb_false_r. cbn. replace (i + s) with p by lia.
        apply from_le_bytes_testbit; [done|lia].
      - cbn [andb]. rewrite orb_false_r. f_equal.
        destruct (Z.ltb_spec k i), (Z.ltb_spec k (i + 1)); done || lia. }
    destruct (Z.ltb_spec (p / 8) (Z.of_nat (length d))).
    - destruct (lookup_lt_is_Some_2 d (Z.to_nat (p / 8))) as [b Eb]; [lia|].
      rewrite Eb in *. eexists. split; [done|]. apply Z.bits_inj'. intros k Hk.
      rewrite Hbit, Z.lor_spec, msg_bits_step by lia. by rewrite Hr.
    - eexists. split; [done|]. apply Z.bits_inj'. intros k Hk. rewrite Hbit, Hr by lia.
      rewrite (lookup_ge_None_2 d (Z.to_nat (p / 8))) by lia. cbn.
      by rewrite Z.testbit_0_l, andb_false_r, orb_false_r. }
  destruct Hstep as (r & -> & ->). cbn [mbind option_bind].
  rewrite IH; try done; try lia. do 2 f_equal. lia.
Qed.

(** [get_bits] reads a bit range of the payload taken as one little-endian integer, with
    zeros past its end, and cannot panic unless the bit index itself overflows [usize]. *)
Theorem message_get_bits_spec m start len :
  bytes (m_data m) -> 0 <= start -> 1 <= len <= 32 -> start + len <= 2 ^ 64 ->
  msg_bits m start len = Some (get_field start len (Name.from_le_bytes (m_data m))).
Proof.
  intros Hd Hs Hl Hb. unfold msg_bits.
  rewrite (proj2 (Z.eqb_neq _ _)), (proj2 (Z.ltb_ge _ _)) by lia. cbn [orb].
  rewrite msg_bits_loop_spec; try done; try lia.
  - do 2 f_equal. lia.
  - unfold get_field. by rewrite Z.land_0_r.
Qed.

Lemma message_get_bits_spec_witness :
  msg_bits (set_data [0xAB; 0xCD] Message_default) 4 8 = Some 0xDA.
Proof.
  rewrite message_get_bits_spec; [by vm_compute|by repeat constructor|lia..].
Defined.
