(* ===== verification/ScTypes.v ===== *)
(** ISO 11783-14 sequence control, the shared types: the model of [src/isobus/sc/types.rs].

    The master and the client are in [ScMaster] and [ScClient], what they guarantee alone and
    together in [ScProofs]. *)
From stdpp Require Import pretty.
From S2P Require Export DataSpan AddressClaim.

Definition PGN_SC_MASTER_STATUS : Pgn := 0x8E00.
Definition PGN_SC_CLIENT_STATUS : Pgn := 0x8D00.

Definition SC_MSG_CODE_MASTER : Z := 0x95.
Definition SC_MSG_CODE_CLIENT : Z := 0x96.
Definition SC_STATUS_TIMEOUT_ACTIVE_MS : Z := 600.
Definition SC_STATUS_TIMEOUT_READY_MS : Z := 3000.
Definition SC_STATUS_MIN_SPACING_MS : Z := 100.
Definition SC_STATUS_ACTIVE_RATE_MS : Z := 200.
Definition SC_STATUS_IDLE_RATE_MS : Z := 1000.
Definition SC_MAX_SEQUENCE_STEP_ID : Z := 0x31.
Definition SC_STATUS_PAYLOAD_LEN : nat := 8.
Definition SC_SEQUENCE_NUMBER_NOT_AVAILABLE : Z := 0xFF.

Module SCState.
Inductive t : Type := Idle | Ready | Active | Paused | Complete | Error.

#[global] Instance eq_dec : EqDecision t.
Proof. solve_decision. Defined.
End SCState.

Module SCMasterState.
Inductive t : Type := Inactive | Active | Initialization.

#[global] Instance eq_dec : EqDecision t.
Proof. solve_decision. Defined.

Definition try_from_u8 (v : Z) : option t :=
  if v =? 0 then Some Inactive else if v =? 1 then Some Active
  else if v =? 2 then Some Initialization else None.
Definition as_u8 (s : t) : Z :=
  match s with Inactive => 0 | Active => 1 | Initialization => 2 end.
End SCMasterState.

Module SCClientState.
Inductive t : Type := Disabled | Enabled | Initialization.

#[global] Instance eq_dec : EqDecision t.
Proof. solve_decision. Defined.

Definition try_from_u8 (v : Z) : option t :=
  if v =? 0 then Some Disabled else if v =? 1 then Some Enabled
  else if v =? 2 then Some Initialization else None.
Definition as_u8 (s : t) : Z :=
  match s with Disabled => 0 | Enabled => 1 | Initialization => 2 end.
End SCClientState.

Module SCSequenceState.
Inductive t : Type :=
| Reserved | Ready | Recording | RecordingCompletion | PlayBack | Abort | NotApplicable.

#[global] Instance eq_dec : EqDecision t.
Proof. solve_decision. Defined.

Definition try_from_u8 (v : Z) : option t :=
  if v =? 0 then Some Reserved else if v =? 1 then Some Ready
  else if v =? 2 then Some Recording else if v =? 3 then Some RecordingCompletion
  else if v =? 4 then Some PlayBack else if v =? 5 then Some Abort
  else if v =? 0xFF then Some NotApplicable else None.
Definition as_u8 (s : t) : Z :=
  match s with
  | Reserved => 0 | Ready => 1 | Recording => 2 | RecordingCompletion => 3
  | PlayBack => 4 | Abort => 5 | NotApplicable => 0xFF
  end.
End SCSequenceState.

Module SCClientFuncError.
Inductive t : Type := NoErrors | NoChange | Changed | NeedsConfirm | NotApplicable.

Definition try_from_u8 (v : Z) : option t :=
  if v =? 0 then Some NoErrors else if v =? 1 then Some NoChange
  else if v =? 2 then Some Changed else if v =? 3 then Some NeedsConfirm
  else if v =? 0xFF then Some NotApplicable else None.
Definition as_u8 (s : t) : Z :=
  match s with
  | NoErrors => 0 | NoChange => 1 | Changed => 2 | NeedsConfirm => 3 | NotApplicable => 0xFF
  end.
End SCClientFuncError.

Definition sc_master_state_byte_is_valid (v : Z) : bool :=
  bool_decide (is_Some (SCMasterState.try_from_u8 v)).
Definition sc_client_state_byte_is_valid (v : Z) : bool :=
  bool_decide (is_Some (SCClientState.try_from_u8 v)).
Definition sc_sequence_state_byte_is_valid (v : Z) : bool :=
  bool_decide (is_Some (SCSequenceState.try_from_u8 v)).
Definition sc_client_func_error_byte_is_valid (v : Z) : bool :=
  bool_decide (is_Some (SCClientFuncError.try_from_u8 v)).

Definition sc_status_sequence_number_is_valid (s : SCSequenceState.t) (n : Z) : bool :=
  match s with
  | SCSequenceState.Ready => n =? SC_SEQUENCE_NUMBER_NOT_AVAILABLE
  | SCSequenceState.PlayBack | SCSequenceState.Abort => n <=? SC_MAX_SEQUENCE_STEP_ID
  | _ => true
  end.

Definition sc_status_sequence_state_is_supported (s : SCSequenceState.t) : bool :=
  match s with
  | SCSequenceState.Ready | SCSequenceState.PlayBack | SCSequenceState.Abort => true
  | _ => false
  end.

Definition sc_inactive_status_sequence_fields_are_valid (s : SCSequenceState.t) (n : Z) : bool :=
  match s with
  | SCSequenceState.NotApplicable => n =? SC_SEQUENCE_NUMBER_NOT_AVAILABLE
  | _ => false
  end.

Definition sc_status_payload_len_is_canonical (data : list Z) : bool :=
  (length data =? SC_STATUS_PAYLOAD_LEN)%nat.

Record SequenceStep : Type := mkStep {
  step_id : Z;
  description : string;
  duration_ms : Z;
  completed : bool
}.

Record SCMasterConfig : Type := mkMasterConfig {
  ready_timeout_ms : Z;
  active_timeout_ms : Z;
  status_interval_ms : Z;
  cfg_required_client_count : Z
}.

Definition SCMasterConfig_default : SCMasterConfig :=
  mkMasterConfig SC_STATUS_TIMEOUT_READY_MS SC_STATUS_TIMEOUT_ACTIVE_MS
    SC_STATUS_MIN_SPACING_MS 1.

Definition limit_for (c : SCMasterConfig) (s : SCSequenceState.t) : Z :=
  match s with
  | SCSequenceState.Recording | SCSequenceState.RecordingCompletion
  | SCSequenceState.PlayBack | SCSequenceState.Abort => active_timeout_ms c
  | _ => ready_timeout_ms c
  end.

Definition with_ready_timeout (ms : Z) (c : SCMasterConfig) : SCMasterConfig :=
  mkMasterConfig ms (active_timeout_ms c) (status_interval_ms c) (cfg_required_client_count c).
Definition with_active_timeout (ms : Z) (c : SCMasterConfig) : SCMasterConfig :=
  mkMasterConfig (ready_timeout_ms c) ms (status_interval_ms c) (cfg_required_client_count c).
Definition with_status_interval (ms : Z) (c : SCMasterConfig) : SCMasterConfig :=
  mkMasterConfig (ready_timeout_ms c) (active_timeout_ms c) ms (cfg_required_client_count c).
Definition with_required_client_count (count : Z) (c : SCMasterConfig) : SCMasterConfig :=
  mkMasterConfig (ready_timeout_ms c) (active_timeout_ms c) (status_interval_ms c)
    (if count =? 0 then 1 else count).

Definition required_client_count (c : SCMasterConfig) : nat :=
  if cfg_required_client_count c =? 0 then 1 else Z.to_nat (cfg_required_client_count c).

Record SCClientConfig : Type := mkClientConfig {
  min_status_spacing_ms : Z;
  busy_pause_timeout_ms : Z;
  active_status_interval_ms : Z;
  idle_status_interval_ms : Z;
  master_timeout_active_ms : Z;
  master_timeout_ready_ms : Z
}.

Definition SCClientConfig_default : SCClientConfig :=
  mkClientConfig SC_STATUS_MIN_SPACING_MS SC_STATUS_TIMEOUT_ACTIVE_MS SC_STATUS_ACTIVE_RATE_MS
    SC_STATUS_IDLE_RATE_MS SC_STATUS_TIMEOUT_ACTIVE_MS SC_STATUS_TIMEOUT_READY_MS.

Definition with_min_spacing (ms : Z) (c : SCClientConfig) : SCClientConfig :=
  mkClientConfig ms (busy_pause_timeout_ms c) (active_status_interval_ms c)
    (idle_status_interval_ms c) (master_timeout_active_ms c) (master_timeout_ready_ms c).
Definition with_busy_timeout (ms : Z) (c : SCClientConfig) : SCClientConfig :=
  mkClientConfig (min_status_spacing_ms c) ms (active_status_interval_ms c)
    (idle_status_interval_ms c) (master_timeout_active_ms c) (master_timeout_ready_ms c).
