(* ===== verification/ScMaster.v ===== *)
(** The sequence control master: the model of [src/isobus/sc/master.rs].

    A method returns the new master and the events it fires, in order; [None] is a panic (a
    failed [expect] or index), which the proofs exclude.  The maps and sets of client
    addresses are a [gmap] and [gset]s. *)
From stdpp Require Import gmap pretty.
From S2P Require Export ScTypes.
#[local] Open Scope Z_scope.

Record ClientLiveness : Type := mkLiveness { cl_age_ms : Z; cl_reported : SCSequenceState.t }.

Inductive ScmEvent : Type :=
| ScmStateChange (from to : SCState.t)
| ScmStepStarted (id : Z)
| ScmStepCompleted (id : Z)
| ScmSequenceComplete
| ScmTimeout (reason : string)
| ScmClientStatus (client : Address) (state : SCState.t).

Record SCMaster : Type := mkScMaster {
  sm_config : SCMasterConfig;
  sm_machine : StateMachine.t SCState.t;
  sm_steps : list SequenceStep;
  sm_index : nat;
  sm_status_timer_ms : Z;
  sm_ready_timer_ms : Z;
  sm_active_timer_ms : Z;
  sm_client_ack : bool;
  sm_client_seen : gmap Z ClientLiveness;
  sm_ready_clients : gset Z;
  sm_active_acks : gset Z;
  sm_abort_confirmed : gset Z;
  sm_abort_seen : gset Z;
  sm_busy_nv_memory : bool;
  sm_busy_parsing_scd : bool
}.

Definition sm_state (m : SCMaster) : SCState.t := StateMachine.state (sm_machine m).
Definition sm_is (s : SCState.t) (m : SCMaster) : bool := StateMachine.is_state (sm_machine m) s.

Definition SCMaster_new (config : SCMasterConfig) : SCMaster :=
  mkScMaster config (StateMachine.mk SCState.Idle) [] 0 0 0 0 false ∅ ∅ ∅ ∅ ∅ false false.

(** ** Field updates *)

Definition sm_with_machine (x : StateMachine.t SCState.t) (m : SCMaster) : SCMaster :=
  let 'mkScMaster c _ st i t r a k sn rc aa ac ab n p := m in
  mkScMaster c x st i t r a k sn rc aa ac ab n p.
(** The steps and the current index. *)
Definition sm_with_steps (x : list SequenceStep) (i : nat) (m : SCMaster) : SCMaster :=
  let 'mkScMaster c s _ _ t r a k sn rc aa ac ab n p := m in
  mkScMaster c s x i t r a k sn rc aa ac ab n p.
Definition sm_with_status_timer (x : Z) (m : SCMaster) : SCMaster :=
  let 'mkScMaster c s st i _ r a k sn rc aa ac ab n p := m in
  mkScMaster c s st i x r a k sn rc aa ac ab n p.
Definition sm_with_ready_timer (x : Z) (m : SCMaster) : SCMaster :=
  let 'mkScMaster c s st i t _ a k sn rc aa ac ab n p := m in
  mkScMaster c s st i t x a k sn rc aa ac ab n p.
Definition sm_with_active_timer (x : Z) (m : SCMaster) : SCMaster :=
  let 'mkScMaster c s st i t r _ k sn rc aa ac ab n p := m in
  mkScMaster c s st i t r x k sn rc aa ac ab n p.
(** [client_ack_received] and [active_ack_clients]. *)
Definition sm_with_acks (k : bool) (aa : gset Z) (m : SCMaster) : SCMaster :=
  let 'mkScMaster c s st i t r a _ sn rc _ ac ab n p := m in
  mkScMaster c s st i t r a k sn rc aa ac ab n p.
Definition sm_with_seen (x : gmap Z ClientLiveness) (m : SCMaster) : SCMaster :=
  let 'mkScMaster c s st i t r a k _ rc aa ac ab n p := m in
  mkScMaster c s st i t r a k x rc aa ac ab n p.
Definition sm_with_ready_clients (x : gset Z) (m : SCMaster) : SCMaster :=
  let 'mkScMaster c s st i t r a k sn _ aa ac ab n p := m in
  mkScMaster c s st i t r a k sn x aa ac ab n p.
(** [abort_confirmed] and [abort_seen]. *)
Definition sm_with_abort (ac ab : gset Z) (m : SCMaster) : SCMaster :=
  let 'mkScMaster c s st i t r a k sn rc aa _ _ n p := m in
  mkScMaster c s st i t r a k sn rc aa ac ab n p.

Definition set_busy_nv_memory (x : bool) (m : SCMaster) : SCMaster :=
  let 'mkScMaster c s st i t r a k sn rc aa ac ab _ p := m in
  mkScMaster c s st i t r a k sn rc aa ac ab x p.
Definition set_busy_parsing_scd (x : bool) (m : SCMaster) : SCMaster :=
  let 'mkScMaster c s st i t r a k sn rc aa ac ab n _ := m in
  mkScMaster c s st i t r a k sn rc aa ac ab n x.

(** ** Internals *)

(** [transition]. *)
Definition sm_transition (new_state : SCState.t) (m : SCMaster) : SCMaster * list ScmEvent :=
  let old := sm_state m in
  if bool_decide (old = new_state) then (m, [])
  else
    let m := if bool_decide (new_state = SCState.Error) then sm_with_abort ∅ ∅ m else m in
    (sm_with_machine (StateMachine.transition (sm_machine m) new_state).1 m,
     [ScmStateChange old new_state]).

Definition uncomplete (s : SequenceStep) : SequenceStep :=
  mkStep (step_id s) (description s) (duration_ms s) false.

Definition rearm_after_abort (m : SCMaster) : SCMaster * list ScmEvent :=
  let m := sm_with_abort ∅ ∅ m in
  let m := sm_with_ready_clients ∅ m in
  let m := sm_with_acks false ∅ m in
  let m := sm_with_steps (uncomplete <$> sm_steps m) 0 m in
  let m := sm_with_ready_timer 0 m in
  let m := sm_with_active_timer 0 m in
  let '(m, evs) := sm_transition SCState.Ready m in
  (sm_with_status_timer (status_interval_ms (sm_config m)) m, evs).

Definition iso_master_state (m : SCMaster) : SCMasterState.t :=
  match sm_state m with
  | SCState.Idle | SCState.Complete => SCMasterState.Inactive
  | _ => SCMasterState.Active
  end.

(** [iso_sequence_state], the same in master and client. *)
Definition iso_sequence_state (s : SCState.t) : SCSequenceState.t :=
  match s with
  | SCState.Ready | SCState.Paused => SCSequenceState.Ready
  | SCState.Active => SCSequenceState.PlayBack
  | SCState.Error => SCSequenceState.Abort
  | _ => SCSequenceState.Reserved
  end.

Definition current_sequence_number (m : SCMaster) : Z :=
  match sm_steps m !! sm_index m with
  | Some step =>
      if step_id step <=? SC_MAX_SEQUENCE_STEP_ID then wrap 8 (step_id step)
      else SC_SEQUENCE_NUMBER_NOT_AVAILABLE
  | None => SC_SEQUENCE_NUMBER_NOT_AVAILABLE
  end.

Definition encode_master_status (m : SCMaster) : list Z :=
  let master := iso_master_state m in
  let seq := iso_sequence_state (sm_state m) in
  let inactive := bool_decide (master = SCMasterState.Inactive) in
  [SC_MSG_CODE_MASTER; SCMasterState.as_u8 master;
   if inactive || bool_decide (seq = SCSequenceState.Ready)
   then SC_SEQUENCE_NUMBER_NOT_AVAILABLE else current_sequence_number m;
   if inactive then SCSequenceState.as_u8 SCSequenceState.NotApplicable
   else SCSequenceState.as_u8 seq;
   Z.lor (Z.lor 0xFC (Z.b2z (sm_busy_nv_memory m))) (Z.shiftl (Z.b2z (sm_busy_parsing_scd m)) 1);
   0xFF; 0xFF; 0xFF].

(** ** Steps and sequence control *)

Definition sm_result : Type := SCMaster * list ScmEvent * Result unit Error.t.
Definition sm_refuse (m : SCMaster) (msg : string) : sm_result :=
  (m, [], Err (Error.invalid_state msg)).

Definition add_step (step : SequenceStep) (m : SCMaster) : sm_result :=
  if negb (sm_is SCState.Idle m) then sm_refuse m "can only add steps in Idle state"
  else if SC_MAX_SEQUENCE_STEP_ID <? step_id step then
    (m, [], Err (Error.invalid_data ("SC step_id " +:+ pretty (step_id step) +:+
                                     " exceeds wire maximum " +:+
                                     pretty SC_MAX_SEQUENCE_STEP_ID)))
  else if existsb (fun e => step_id e =? step_id step) (sm_steps m) then
    (m, [], Err (Error.invalid_data ("duplicate SC step_id " +:+ pretty (step_id step))))
  else (sm_with_steps (sm_steps m ++ [step]) (sm_index m) m, [], Ok tt).

Definition current_step (m : SCMaster) : option SequenceStep := sm_steps m !! sm_index m.

Definition sm_start (m : SCMaster) : sm_result :=
  if negb (sm_is SCState.Idle m) then sm_refuse m "can only start from Idle"
  else if (length (sm_steps m) =? 0)%nat then sm_refuse m "no steps defined"
  else
    let m := sm_with_steps (sm_steps m) 0 m in
    let m := sm_with_ready_timer 0 m in
    let m := sm_with_status_timer 0 m in
    let m := sm_with_ready_clients ∅ m in
    let m := sm_with_acks false ∅ m in
    let '(m, evs) := sm_transition SCState.Ready m in
    (m, evs, Ok tt).

Definition sm_abort (m : SCMaster) : sm_result :=
  match sm_state m with
  | SCState.Idle | SCState.Complete | SCState.Error => sm_refuse m "nothing to abort"
  | _ =>
      let '(m, evs) := sm_transition SCState.Error m in
      (sm_with_status_timer (status_interval_ms (sm_config m)) m, evs, Ok tt)
  end.

Definition sm_pause (m : SCMaster) : sm_result :=
  if negb (sm_is SCState.Active m) then sm_refuse m "can only pause in Active state"
  else let '(m, evs) := sm_transition SCState.Paused m in (m, evs, Ok tt).

Definition sm_resume (m : SCMaster) : sm_result :=
  if negb (sm_is SCState.Paused m) then sm_refuse m "can only resume from Paused state"
  else
    let m := sm_with_active_timer 0 m in
    let m := sm_with_acks false ∅ m in
    let '(m, evs) := sm_transition SCState.Active m in
    (m, evs, Ok tt).

Definition complete (s : SequenceStep) : SequenceStep :=
  mkStep (step_id s) (description s) (duration_ms s) true.

Definition step_completed (id : Z) (m : SCMaster) : option sm_result :=
  if negb (sm_is SCState.Active m) then Some (sm_refuse m "not in Active state")
  else
    match sm_steps m !! sm_index m with
    | None => Some (sm_refuse m "no current step")
    | Some cur =>
        if negb (step_id cur =? id) then Some (sm_refuse m "step_id mismatch")
        else
          let m := sm_with_steps (<[sm_index m := complete cur]> (sm_steps m))
                     (sm_index m + 1) m in
          if (length (sm_steps m) <=? sm_index m)%nat then
            let '(m, evs) := sm_transition SCState.Complete m in
            Some (m, ScmStepCompleted id :: evs ++ [ScmSequenceComplete], Ok tt)
          else
            let m := sm_with_active_timer 0 m in
            let m := sm_with_acks false ∅ m in
            next ← sm_steps m !! sm_index m;
            Some (m, [ScmStepCompleted id; ScmStepStarted (step_id next)], Ok tt)
    end.

(** ** [update] *)

(** The shared tail of the three timeouts: abort, report, and send the status now. *)
Definition sm_timeout (reason : string) (m : SCMaster)
    : SCMaster * list ScmEvent * option (list Z) :=
  let '(m, evs) := sm_transition SCState.Error m in
  let m := sm_with_status_timer 0 m in
  (m, evs ++ [ScmTimeout reason], Some (encode_master_status m)).

Definition sm_interval (m : SCMaster) : Z :=
  match sm_state m with
  | SCState.Idle | SCState.Complete => SC_STATUS_IDLE_RATE_MS
  | _ => status_interval_ms (sm_config m)
  end.

(** The [match s] over the Ready and Active timers. *)
Definition sm_phase_timer (elapsed_ms : Z) (to_send : option (list Z)) (m : SCMaster)
    : SCMaster * list ScmEvent * option (list Z) :=
  match sm_state m with
  | SCState.Ready =>
      let m := sm_with_ready_timer (sat_add 32 (sm_ready_timer_ms m) elapsed_ms) m in
      if ready_timeout_ms (sm_config m) <=? sm_ready_timer_ms m
      then sm_timeout "ready timeout" m else (m, [], to_send)
  | SCState.Active =>
      if negb (sm_client_ack m) then
        let m := sm_with_active_timer (sat_add 32 (sm_active_timer_ms m) elapsed_ms) m in
        if active_timeout_ms (sm_config m) <=? sm_active_timer_ms m
        then sm_timeout "active timeout - no client ack" m else (m, [], to_send)
      else (m, [], to_send)
  | _ => (m, [], to_send)
  end.

Definition aged (elapsed_ms : Z) (seen : ClientLiveness) : ClientLiveness :=
  mkLiveness (sat_add 32 (cl_age_ms seen) elapsed_ms) (cl_reported seen).

Definition lost (c : SCMasterConfig) (seen : ClientLiveness) : bool :=
  limit_for c (cl_reported seen) <=? cl_age_ms seen.

(** The client watchdog, run when [update] began in [s]. *)
Definition sm_watchdog (s : SCState.t) (elapsed_ms : Z) (to_send : option (list Z)) (m : SCMaster)
    : SCMaster * list ScmEvent * option (list Z) :=
  match s with
  | SCState.Ready | SCState.Active | SCState.Paused =>
      let m := sm_with_seen (aged elapsed_ms <$> sm_client_seen m) m in
      let expired := existsb (fun kv => lost (sm_config m) kv.2)
                       (map_to_list (sm_client_seen m)) in
      if expired && negb (sm_is SCState.Error m) then
        sm_timeout "client status timeout"
          (sm_with_seen (filter (fun kv => lost (sm_config m) kv.2 = false) (sm_client_seen m)) m)
      else (m, [], to_send)
  | _ => (m, [], to_send)
  end.

Definition sm_update (elapsed_ms : Z) (m : SCMaster)
    : SCMaster * list ScmEvent * option (list Z) :=
  let s := sm_state m in
  let m := sm_with_status_timer (sat_add 32 (sm_status_timer_ms m) elapsed_ms) m in
  let interval := sm_interval m in
  let '(m, to_send) :=
    if interval <=? sm_status_timer_ms m then
      let m := sm_with_status_timer (sm_status_timer_ms m - interval) m in
      (m, Some (encode_master_status m))
    else (m, None) in
  match s with
  | SCState.Idle | SCState.Complete => (m, [], to_send)
  | _ =>
      let '(m, evs1, to_send) := sm_phase_timer elapsed_ms to_send m in
      let '(m, evs2, to_send) := sm_watchdog s elapsed_ms to_send m in
      (m, evs1 ++ evs2, to_send)
  end.

(** ** [try_handle_client_status] *)

(** The validation: the client's state, sequence state and sequence number. *)
Definition decode_client_status (msg : Message)
    : option (Result (SCClientState.t * SCSequenceState.t * Z) Error.t) :=
  let refuse s := Some (Err (Error.invalid_data s)) in
  if negb (m_pgn msg =? PGN_SC_CLIENT_STATUS) then Some (Err (Error.invalid_pgn (m_pgn msg)))
  else if negb (has_usable_source msg) then Some (Err (Error.invalid_address (m_source msg)))
  else if negb (has_valid_destination_for_pgn msg) then
    Some (Err (Error.invalid_address (m_destination msg)))
  else if negb (length (m_data msg) =? SC_STATUS_PAYLOAD_LEN)%nat then
    refuse "SC client status must be exactly 8 bytes"
  else if negb (msg_u8 msg 0 =? SC_MSG_CODE_CLIENT) then
    refuse "SC client status has wrong message code"
  else if negb (sc_status_payload_len_is_canonical (m_data msg)) then
    refuse "SC client status has a wrong payload length"
  else if negb (sc_client_state_byte_is_valid (msg_u8 msg 1)) then
    refuse "SC client status has reserved client state"
  else
    client_state ← SCClientState.try_from_u8 (msg_u8 msg 1);
    if bool_decide (client_state = SCClientState.Initialization) then
      refuse "SC client initialization state is not supported"
    else if negb (sc_client_func_error_byte_is_valid (msg_u8 msg 4)) then
      refuse "SC client status has reserved function error byte"
    else if negb (sc_sequence_state_byte_is_valid (msg_u8 msg 3)) then
      refuse "SC client status has reserved sequence state"
    else
      seq_state ← SCSequenceState.try_from_u8 (msg_u8 msg 3);
      let seq_num := msg_u8 msg 2 in
      let enabled := bool_decide (client_state = SCClientState.Enabled) in
      if negb enabled && negb (sc_inactive_status_sequence_fields_are_valid seq_state seq_num)
      then refuse "SC disabled client status has active sequence fields"
      else if enabled && negb (sc_status_sequence_state_is_supported seq_state) then
        refuse "SC client status has unsupported sequence state"
      else if negb (sc_status_sequence_number_is_valid seq_state seq_num) then
        refuse "SC client status has invalid sequence number"
      else Some (Ok (client_state, seq_state, seq_num)).

Definition map_client_state (cs : SCClientState.t) (seq : SCSequenceState.t) : SCState.t :=
  match cs with
  | SCClientState.Enabled =>
      match seq with
      | SCSequenceState.Ready => SCState.Ready
      | SCSequenceState.PlayBack => SCState.Active
      | SCSequenceState.Abort => SCState.Error
      | _ => SCState.Ready
      end
  | _ => SCState.Idle
  end.

(** The branch of a master in Abort: credit the client, and re-arm when enough confirmed. *)
Definition sm_confirm_abort (client : Address) (mapped : SCState.t) (m : SCMaster)
    : SCMaster * list ScmEvent :=
  let m :=
    if bool_decide (mapped = SCState.Error) then
      sm_with_abort (sm_abort_confirmed m ∖ {[client]}) ({[client]} ∪ sm_abort_seen m) m
    else if bool_decide (client ∈ sm_abort_seen m) then
      sm_with_abort ({[client]} ∪ sm_abort_confirmed m) (sm_abort_seen m) m
    else m in
  let enabled := Nat.max (size (sm_client_seen m)) 1 in
  if (enabled <=? size (sm_abort_confirmed m))%nat then rearm_after_abort m else (m, []).

(** Losing a Ready client, or the acknowledgement of an Active one. *)
Definition sm_withdraw (client : Address) (mapped : SCState.t) (seq_num : Z) (m : SCMaster)
    : SCMaster :=
  let m :=
    if sm_is SCState.Ready m && negb (bool_decide (mapped = SCState.Ready))
    then sm_with_ready_clients (sm_ready_clients m ∖ {[client]}) m else m in
  if sm_is SCState.Active m
     && (negb (bool_decide (mapped = SCState.Active))
         || negb (seq_num =? current_sequence_number m))
  then
    let had_active_ack := bool_decide (client ∈ sm_active_acks m) in
    let m := sm_with_acks (sm_client_ack m) (sm_active_acks m ∖ {[client]}) m in
    if had_active_ack
       && (size (sm_active_acks m) <? required_client_count (sm_config m))%nat
    then sm_with_active_timer 0 (sm_with_acks false (sm_active_acks m) m) else m
  else m.

(** A Ready client: with enough of them the master dispatches the first step. *)
Definition sm_enlist (client : Address) (mapped : SCState.t) (m : SCMaster)
    : SCMaster * list ScmEvent :=
  if sm_is SCState.Ready m && bool_decide (mapped = SCState.Ready) then
    let m := sm_with_ready_clients ({[client]} ∪ sm_ready_clients m) m in
    if (required_client_count (sm_config m) <=? size (sm_ready_clients m))%nat then
      let m := sm_with_active_timer 0 m in
      let m := sm_with_acks false ∅ m in
      let '(m, evs) := sm_transition SCState.Active m in
      (m, evs ++ match sm_steps m with s :: _ => [ScmStepStarted (step_id s)] | [] => [] end)
    else (m, [])
  else (m, []).

(** An Active client that names the current step. *)
Definition sm_acknowledge (client : Address) (mapped : SCState.t) (seq_num : Z) (m : SCMaster)
    : SCMaster :=
  if sm_is SCState.Active m && bool_decide (mapped = SCState.Active)
     && (seq_num =? current_sequence_number m)
  then
    let m := sm_with_acks (sm_client_ack m) ({[client]} ∪ sm_active_acks m) m in
    if (required_client_count (sm_config m) <=? size (sm_active_acks m))%nat
    then sm_with_active_timer 0 (sm_with_acks true (sm_active_acks m) m) else m
  else m.

(** What an accepted status does. *)
Definition sm_client_status (client : Address) (cs : SCClientState.t) (seq : SCSequenceState.t)
    (seq_num : Z) (m : SCMaster) : SCMaster * list ScmEvent :=
  let m := sm_with_seen
             (if bool_decide (cs = SCClientState.Enabled)
              then <[client := mkLiveness 0 seq]> (sm_client_seen m)
              else delete client (sm_client_seen m)) m in
  let mapped := map_client_state cs seq in
  let ev := ScmClientStatus client mapped in
  if bool_decide (mapped = SCState.Error)
     && negb (bool_decide (sm_state m ∈ [SCState.Idle; SCState.Complete; SCState.Error]))
  then
    let '(m, evs) := sm_transition SCState.Error m in
    (sm_with_status_timer (status_interval_ms (sm_config m)) m, ev :: evs)
  else if sm_is SCState.Error m then
    let '(m, evs) := sm_confirm_abort client mapped m in (m, ev :: evs)
  else
    let m := sm_withdraw client mapped seq_num m in
    let '(m, evs) := sm_enlist client mapped m in
    (sm_acknowledge client mapped seq_num m, ev :: evs).

Definition try_handle_client_status (msg : Message) (m : SCMaster) : option sm_result :=
  r ← decode_client_status msg;
  Some (match r with
        | Err e => (m, [], Err e)
        | Ok (cs, seq, n) =>
            let '(m, evs) := sm_client_status (m_source msg) cs seq n m in (m, evs, Ok tt)
        end).

(** The compatibility wrapper drops the error. *)
Definition handle_client_status (msg : Message) (m : SCMaster)
    : option (SCMaster * list ScmEvent) :=
  '(m, evs, _) ← try_handle_client_status msg m; Some (m, evs).
