(* ===== verification/ScMasterProofs.v ===== *)
(** The sequence control master keeps its invariant over every run of its public calls, never
    panics, and changes state along the protocol's edges only; a client that falls silent
    stops the sequence. *)
From stdpp Require Import gmap.
From S2P Require Export ScMaster.
#[local] Open Scope Z_scope.

(** ** The invariant *)

Definition index_ok (s : SCState.t) (i n : nat) : Prop :=
  match s with
  | SCState.Idle => i = 0%nat
  | SCState.Ready => i = 0%nat /\ (0 < n)%nat
  | SCState.Complete => i = n /\ (0 < n)%nat
  | _ => (i < n)%nat
  end.

Definition step_ids (m : SCMaster) : list Z := step_id <$> sm_steps m.

(** A conjunction over projections, so that an update of another field keeps it by
    computation. *)
Definition sm_inv (m : SCMaster) : Prop :=
  Forall (fun s => 0 <= step_id s <= SC_MAX_SEQUENCE_STEP_ID) (sm_steps m) /\
  NoDup (step_ids m) /\
  index_ok (sm_state m) (sm_index m) (length (sm_steps m)) /\
  Forall (fun s => completed s = true) (take (sm_index m) (sm_steps m)) /\
  (sm_state m = SCState.Ready ->
   (size (sm_ready_clients m) < required_client_count (sm_config m))%nat) /\
  (sm_client_ack m = true <->
   (required_client_count (sm_config m) <= size (sm_active_acks m))%nat) /\
  sm_abort_confirmed m ⊆ sm_abort_seen m /\
  (0 < required_client_count (sm_config m))%nat.

(** The edges of the state machine. *)
Definition sm_edge (a b : SCState.t) : bool :=
  match a, b with
  | SCState.Idle, SCState.Ready
  | SCState.Ready, (SCState.Active | SCState.Error)
  | SCState.Active, (SCState.Paused | SCState.Complete | SCState.Error)
  | SCState.Paused, (SCState.Active | SCState.Error)
  | SCState.Error, SCState.Ready => true
  | _, _ => false
  end.

(** Follow the state changes of a trace: each starts where the last one ended and is an edge. *)
Fixpoint sm_follow (s : SCState.t) (tr : list ScmEvent) : option SCState.t :=
  match tr with
  | [] => Some s
  | ScmStateChange a b :: tr =>
      if bool_decide (a = s) && sm_edge a b then sm_follow b tr else None
  | _ :: tr => sm_follow s tr
  end.

(** The steps reported complete since the master last became Ready. *)
Definition completed_step (acc : list Z) (e : ScmEvent) : list Z :=
  match e with
  | ScmStateChange _ SCState.Ready => []
  | ScmStepCompleted id => acc ++ [id]
  | _ => acc
  end.

Definition done_ids (m : SCMaster) : list Z := take (sm_index m) (step_ids m).

(** What one call does to an invariant master. *)
Definition sm_moves (m : SCMaster) (evs : list ScmEvent) (m' : SCMaster) : Prop :=
  sm_inv m' /\ sm_config m' = sm_config m /\ sm_follow (sm_state m) evs = Some (sm_state m') /\
  foldl completed_step (done_ids m) evs = done_ids m'.

Lemma sm_follow_app s t1 t2 : sm_follow s (t1 ++ t2) = sm_follow s t1 ≫= fun s' => sm_follow s' t2.
Proof.
  revert s. induction t1 as [|e t1 IH]; intros s; [done|]. destruct e; cbn; try apply IH.
  destruct (_ && _); [apply IH|done].
Qed.

Lemma sm_moves_refl m : sm_inv m -> sm_moves m [] m.
Proof. done. Qed.

Lemma sm_moves_trans m1 e1 m2 e2 m3 :
  sm_moves m1 e1 m2 -> sm_moves m2 e2 m3 -> sm_moves m1 (e1 ++ e2) m3.
Proof.
  intros (Hi1 & Hc1 & Hf1 & Hd1) (Hi2 & Hc2 & Hf2 & Hd2).
  split; [done|]. split; [by rewrite Hc2|]. split.
  - by rewrite sm_follow_app, Hf1.
  - by rewrite foldl_app, Hd1.
Qed.

(** Events that are no state change and complete no step leave no mark. *)
Definition silent (e : ScmEvent) : bool :=
  match e with ScmStateChange _ _ | ScmStepCompleted _ => false | _ => true end.

Lemma sm_moves_silent m evs m' e :
  silent e = true -> sm_moves m evs m' -> sm_moves m (e :: evs) m'.
Proof. destruct e; intros He; try discriminate He; by intros (? & ? & ? & ?). Qed.

Lemma sm_moves_silent_end m evs m' es :
  forallb silent es = true -> sm_moves m evs m' -> sm_moves m (evs ++ es) m'.
Proof.
  intros He Hm. eapply sm_moves_trans; [done|]. pose proof Hm as (Hi & _). clear Hm.
  induction es as [|e es IH]; [done|]. cbn in He. apply andb_true_iff in He as [He Hes].
  apply sm_moves_silent; auto.
Qed.

(** Entering a state along an edge. *)
Definition sm_enter (s : SCState.t) (m : SCMaster) : SCMaster :=
  sm_with_machine (StateMachine.mk s)
    (if bool_decide (s = SCState.Error) then sm_with_abort ∅ ∅ m else m).

Lemma sm_transition_enter s m :
  sm_edge (sm_state m) s = true ->
  sm_transition s m = (sm_enter s m, [ScmStateChange (sm_state m) s]).
Proof.
  intros He. unfold sm_transition.
  assert (sm_state m <> s) by (intros <-; by destruct (sm_state m)).
  rewrite bool_decide_eq_false_2 by done. unfold StateMachine.transition, sm_enter.
  destruct (bool_decide (s = SCState.Error)); destruct m as [? [st] ? ? ? ? ? ? ? ? ? ? ? ? ?];
    cbn in *; by rewrite bool_decide_eq_false_2.
Qed.

Lemma sm_enter_moves s m :
  sm_inv m -> sm_edge (sm_state m) s = true -> index_ok s (sm_index m) (length (sm_steps m)) ->
  (s = SCState.Ready ->
   (size (sm_ready_clients m) < required_client_count (sm_config m))%nat) ->
  sm_moves m [ScmStateChange (sm_state m) s] (sm_enter s m).
Proof.
  intros (Hids & Hnd & _ & Hdone & _ & Hack & Hsub & Hreq) He Hix Hr.
  assert (Hst : sm_state (sm_enter s m) = s) by (by destruct m, s).
  split; [|split; [by destruct m, s|split]].
  - unfold sm_inv. rewrite Hst. destruct m, s; cbn in *; repeat split; try done; tauto.
  - cbn [sm_follow]. by rewrite bool_decide_eq_true_2, He, Hst.
  - cbn [foldl completed_step].
    assert (done_ids (sm_enter s m) = done_ids m) as -> by (by destruct m, s).
    destruct s; try done. destruct Hix as [Hix _]. unfold done_ids. by rewrite Hix.
Qed.

(** A transition, whether or not it changes the state. *)
Lemma sm_transition_moves s m :
  sm_inv m -> sm_edge (sm_state m) s = true -> index_ok s (sm_index m) (length (sm_steps m)) ->
  (s = SCState.Ready ->
   (size (sm_ready_clients m) < required_client_count (sm_config m))%nat) ->
  sm_moves m (sm_transition s m).2 (sm_transition s m).1.
Proof. intros. rewrite sm_transition_enter by done. by apply sm_enter_moves. Qed.

(** Updates of the timers and of the liveness table. *)
Lemma sm_status_timer_moves x m evs m' :
  sm_moves m evs m' -> sm_moves m evs (sm_with_status_timer x m').
Proof. by destruct m'. Qed.
Lemma sm_timers_inv x m :
  sm_inv m -> sm_inv (sm_with_status_timer x m) /\ sm_inv (sm_with_ready_timer x m) /\
  sm_inv (sm_with_active_timer x m).
Proof. by destruct m. Qed.
Lemma sm_seen_inv x m : sm_inv m -> sm_inv (sm_with_seen x m).
Proof. by destruct m. Qed.

Lemma required_pos c : in_u 8 (cfg_required_client_count c) -> (0 < required_client_count c)%nat.
Proof.
  intros [H0 _]. unfold required_client_count.
  destruct (Z.eqb_spec (cfg_required_client_count c) 0); lia.
Qed.

(** ** Every call keeps the invariant *)

Lemma take_insert_next {A} (l : list A) (i : nat) (x y : A) :
  l !! i = Some x -> take (i + 1) (<[i := y]> l) = take i l ++ [y].
Proof.
  intros Hx. pose proof (lookup_lt_Some _ _ _ Hx). rewrite Nat.add_1_r.
  rewrite (take_S_r _ i y) by (by apply list_lookup_insert_eq). f_equal.
  by rewrite take_insert_ge by lia.
Qed.

(** The current step marked complete, the index still in place. *)
Lemma complete_ids (l : list SequenceStep) i cur :
  l !! i = Some cur -> step_id <$> <[i := complete cur]> l = step_id <$> l.
Proof.
  intros Hc. rewrite list_fmap_insert. apply list_insert_id. by rewrite list_lookup_fmap, Hc.
Qed.

Lemma add_step_moves s m :
  0 <= step_id s -> sm_inv m -> sm_moves m (add_step s m).1.2 (add_step s m).1.1.
Proof.
  intros Hs Hi. unfold add_step, sm_refuse.
  destruct (sm_is SCState.Idle m) eqn:Ei; [|done]. cbn [negb].
  apply bool_decide_eq_true in Ei. fold (sm_state m) in Ei.
  destruct (Z.ltb_spec SC_MAX_SEQUENCE_STEP_ID (step_id s)); [done|].
  destruct (existsb _ _) eqn:Ex; [done|]. cbn [fst snd].
  destruct Hi as (Hids & Hnd & Hix & Hdone & Hr & Hrest). rewrite Ei in Hix. cbn in Hix.
  set (m' := sm_with_steps _ _ m).
  assert (H' : sm_state m' = SCState.Idle /\ sm_steps m' = sm_steps m ++ [s] /\
    sm_index m' = 0%nat /\ sm_config m' = sm_config m).
  { unfold m'. destruct m; unfold sm_state in *; cbn in *. by subst. }
  destruct H' as (Hs' & Hst' & Hi' & Hc').
  split; [|split; [done|split; [by rewrite Ei, Hs'|]]].
  - unfold sm_inv, step_ids. rewrite Hs', Hst', Hi', Hc'. split.
    { apply Forall_app. split; [done|]. by repeat constructor. }
    split; [|split; [done|split; [done|split; [done|by destruct m]]]].
    rewrite fmap_app. apply NoDup_app. split; [done|]. split; [|apply NoDup_singleton].
    intros x Hx Hx'. apply list_elem_of_singleton in Hx' as ->.
    apply list_elem_of_fmap in Hx as (e & He1 & He2). apply not_true_iff_false in Ex.
    apply Ex, existsb_exists. exists e. split; [by apply list_elem_of_In|]. by apply Z.eqb_eq.
  - unfold done_ids. by rewrite Hi', Hix.
Qed.

Lemma sm_start_moves m : sm_inv m -> sm_moves m (sm_start m).1.2 (sm_start m).1.1.
Proof.
  intros Hi. unfold sm_start, sm_refuse. destruct (sm_is SCState.Idle m) eqn:Ei; [|done].
  cbn [negb]. apply bool_decide_eq_true in Ei. fold (sm_state m) in Ei.
  destruct (Nat.eqb_spec (length (sm_steps m)) 0); [done|].
  set (m1 := sm_with_acks false ∅ _).
  destruct Hi as (Hids & Hnd & Hix & Hdone & Hr & Hack & Hsub & Hreq).
  assert (Hm1 : sm_inv m1).
  { unfold m1, sm_inv, step_ids in *. destruct m; unfold sm_state in *; cbn in *. rewrite Ei in *.
    cbn in *. subst. repeat split; try done. rewrite size_empty. intros. lia. }
  assert (Hs1 : sm_state m1 = SCState.Idle) by (by destruct m).
  assert (Hi1 : sm_index m1 = 0%nat /\ sm_steps m1 = sm_steps m /\ sm_ready_clients m1 = ∅
                /\ sm_config m1 = sm_config m) by (by destruct m).
  destruct Hi1 as (Hi1 & Hst1 & Hrc1 & Hc1).
  pose proof (sm_transition_moves SCState.Ready m1 Hm1) as Ht. rewrite Hs1 in Ht.
  specialize (Ht eq_refl). rewrite Hi1, Hst1, Hrc1, size_empty, Hc1 in Ht.
  assert (Hmv : sm_moves m [] m1).
  { split; [done|]. split; [done|]. split; [by rewrite Hs1, Ei|].
    unfold done_ids, step_ids. rewrite Hi1. rewrite Ei in Hix. cbn in *. by rewrite Hix. }
  destruct (sm_transition SCState.Ready m1) as [m2 evs]. cbn [fst snd] in *.
  apply (sm_moves_trans _ _ _ _ _ Hmv). apply Ht; [|done]. cbn. lia.
Qed.

(** Entering Error from a running state. *)
Lemma sm_error_moves m :
  sm_inv m -> sm_edge (sm_state m) SCState.Error = true ->
  sm_moves m (sm_transition SCState.Error m).2 (sm_transition SCState.Error m).1.
Proof.
  intros Hi He. apply sm_transition_moves; try done.
  destruct Hi as (_ & _ & Hix & _). destruct (sm_state m); try discriminate; cbn in *; lia.
Qed.

Lemma sm_abort_moves m : sm_inv m -> sm_moves m (sm_abort m).1.2 (sm_abort m).1.1.
Proof.
  intros Hi. unfold sm_abort, sm_refuse.
  destruct (sm_state m) eqn:Es; try done;
    pose proof (sm_error_moves m Hi) as Ht; rewrite Es in Ht; specialize (Ht eq_refl);
    destruct (sm_transition SCState.Error m) as [m' evs]; by apply sm_status_timer_moves.
Qed.

Lemma sm_pause_moves m : sm_inv m -> sm_moves m (sm_pause m).1.2 (sm_pause m).1.1.
Proof.
  intros Hi. unfold sm_pause, sm_refuse. destruct (sm_is SCState.Active m) eqn:Ei; [|done].
  cbn [negb]. apply bool_decide_eq_true in Ei. fold (sm_state m) in Ei.
  pose proof (sm_transition_moves SCState.Paused m Hi) as Ht. rewrite Ei in Ht.
  destruct (sm_transition SCState.Paused m) as [m' evs]. apply Ht; try done.
  destruct Hi as (_ & _ & Hix & _). by rewrite Ei in Hix.
Qed.

(** Dropping every acknowledgement. *)
Lemma sm_unack_moves m t :
  sm_inv m -> let m' := sm_with_acks false ∅ (sm_with_active_timer t m) in
  sm_moves m [] m' /\ sm_state m' = sm_state m /\ sm_index m' = sm_index m /\
  sm_steps m' = sm_steps m /\ sm_ready_clients m' = sm_ready_clients m.
Proof.
  intros (Hids & Hnd & Hix & Hdone & Hr & Hack & Hsub & Hreq) m'. unfold m'.
  destruct m; unfold sm_moves, sm_inv, done_ids, step_ids, sm_state in *; cbn in *.
  repeat split; try done. rewrite size_empty. intros. lia.
Qed.

Lemma sm_resume_moves m : sm_inv m -> sm_moves m (sm_resume m).1.2 (sm_resume m).1.1.
Proof.
  intros Hi. unfold sm_resume, sm_refuse. destruct (sm_is SCState.Paused m) eqn:Ei; [|done].
  cbn [negb]. apply bool_decide_eq_true in Ei. fold (sm_state m) in Ei.
  destruct (sm_unack_moves m 0 Hi) as (Hm & Hs & Hix & Hst & _).
  set (m1 := sm_with_acks false ∅ _) in *. pose proof Hm as (Hi1 & _).
  pose proof (sm_transition_moves SCState.Active m1 Hi1) as Ht. rewrite Hs, Ei in Ht.
  destruct (sm_transition SCState.Active m1) as [m' evs].
  apply (sm_moves_trans _ _ _ _ _ Hm). apply Ht; try done.
  destruct Hi1 as (_ & _ & Hix1 & _). by rewrite Hs, Ei in Hix1.
Qed.

Lemma step_completed_moves id m :
  sm_inv m -> exists m' evs r, step_completed id m = Some (m', evs, r) /\ sm_moves m evs m'.
Proof.
  intros Hi. unfold step_completed, sm_refuse.
  destruct (sm_is SCState.Active m) eqn:Ei; [|by do 3 eexists; split; [|by apply sm_moves_refl]].
  cbn [negb]. apply bool_decide_eq_true in Ei. fold (sm_state m) in Ei.
  destruct (sm_steps m !! sm_index m) as [cur|] eqn:Ec; [|by do 3 eexists; split; [|by apply sm_moves_refl]].
  destruct (Z.eqb_spec (step_id cur) id) as [Hid|]; [|by do 3 eexists; split; [|by apply sm_moves_refl]]. cbn [negb].
  set (m1 := sm_with_steps _ _ m).
  pose proof Hi as (Hids & Hnd & Hix & Hdone & Hr & Hack & Hsub & Hreq).
  rewrite Ei in Hix. cbn in Hix.
  assert (H1 : sm_state m1 = SCState.Active /\ sm_index m1 = (sm_index m + 1)%nat /\
               sm_steps m1 = <[sm_index m := complete cur]> (sm_steps m) /\
               sm_config m1 = sm_config m) by (by destruct m).
  destruct H1 as (Hs1 & Hix1 & Hst1 & Hc1).
  assert (Hd1 : done_ids m1 = done_ids m ++ [id]).
  { unfold done_ids, step_ids. rewrite Hix1, Hst1, <- !fmap_take, (take_insert_next _ _ cur) by done.
    by rewrite fmap_app, <- Hid. }
  assert (Hids1 : step_ids m1 = step_ids m)
    by (unfold step_ids; rewrite Hst1; by apply complete_ids).
  assert (Hl1 : length (sm_steps m1) = length (sm_steps m))
    by (rewrite Hst1; apply length_insert).
  assert (Hbase : Forall (fun s => 0 <= step_id s <= SC_MAX_SEQUENCE_STEP_ID) (sm_steps m1) /\
    NoDup (step_ids m1) /\ Forall (fun s => completed s = true) (take (sm_index m1) (sm_steps m1))).
  { rewrite Hids1. split; [|split; [done|]].
    - rewrite Hst1. apply Forall_insert; [done|].
      apply (Forall_lookup_1 _ _ _ _ Hids Ec).
    - rewrite Hix1, Hst1, (take_insert_next _ _ cur) by done.
      apply Forall_app. by split; [|repeat constructor]. }
  destruct Hbase as (Hb1 & Hb2 & Hb3).
  assert (Hrest : (sm_client_ack m1 = true <->
      (required_client_count (sm_config m1) <= size (sm_active_acks m1))%nat) /\
    sm_abort_confirmed m1 ⊆ sm_abort_seen m1 /\ (0 < required_client_count (sm_config m1))%nat)
    by (by destruct m).
  clearbody m1.
  destruct (Nat.leb_spec (length (sm_steps m1)) (sm_index m1)) as [Hle|Hlt].
  - rewrite sm_transition_enter by (by rewrite Hs1). rewrite Hs1.
    do 3 eexists. split; [done|].
    assert (Hen : sm_state (sm_enter SCState.Complete m1) = SCState.Complete) by (by destruct m1).
    split; [|split; [|split]].
    + unfold sm_inv. rewrite Hen.
      change (sm_enter SCState.Complete m1)
        with (sm_with_machine (StateMachine.mk SCState.Complete) m1). destruct m1; unfold sm_state, step_ids in *; cbn in *.
      split_and!; try done; try lia; tauto.
    + rewrite <- Hc1. by destruct m1.
    + cbn [sm_follow app]. by rewrite Ei, Hen.
    + cbn [foldl completed_step app]. rewrite <- Hd1. by destruct m1.
  - assert (Hi1 : sm_inv m1).
    { unfold sm_inv. rewrite Hs1. split_and!; try done; try tauto. }
    destruct (sm_unack_moves m1 0 Hi1) as ((Hi2 & Hc2 & _ & Hd2) & Hs2 & Hix2 & Hst2 & _).
    set (m2 := sm_with_acks false ∅ _) in *. rewrite Hix2, Hst2.
    destruct (lookup_lt_is_Some_2 (sm_steps m1) (sm_index m1) Hlt) as [next ->].
    cbn [mbind option_bind]. do 3 eexists. split; [done|].
    split; [done|]. split; [by rewrite Hc2|]. split; [cbn; by rewrite Ei, Hs2, Hs1|].
    cbn [foldl completed_step]. cbn in Hd2. by rewrite <- Hd2, Hd1.
Qed.

(** ** [update] *)

Lemma silent_moves m m' :
  sm_inv m' -> sm_state m' = sm_state m -> sm_index m' = sm_index m -> sm_steps m' = sm_steps m ->
  sm_config m' = sm_config m -> sm_moves m [] m'.
Proof.
  intros Hi Hs Hx Hst Hc. split; [done|]. split; [done|]. split; [by rewrite Hs|].
  unfold done_ids, step_ids. by rewrite Hx, Hst.
Qed.

(** Timer and liveness updates move nothing. *)
Lemma sm_timer_moves m x :
  sm_inv m ->
  sm_moves m [] (sm_with_status_timer x m) /\ sm_moves m [] (sm_with_ready_timer x m) /\
  sm_moves m [] (sm_with_active_timer x m) /\ forall y, sm_moves m [] (sm_with_seen y m).
Proof. intros Hi. by destruct m. Qed.

Lemma sm_state_timers x m :
  sm_state (sm_with_status_timer x m) = sm_state m /\
  sm_state (sm_with_ready_timer x m) = sm_state m /\
  sm_state (sm_with_active_timer x m) = sm_state m.
Proof. by destruct m. Qed.

Lemma sm_enter_state s m : sm_state (sm_enter s m) = s.
Proof. by destruct m, s. Qed.

Lemma sm_timeout_moves reason m :
  sm_inv m -> sm_edge (sm_state m) SCState.Error = true ->
  let '(m', evs, _) := sm_timeout reason m in
  sm_moves m evs m' /\ sm_state m' = SCState.Error.
Proof.
  intros Hi He. unfold sm_timeout. pose proof (sm_error_moves m Hi He) as Ht.
  pose proof (sm_transition_enter _ _ He) as Eq. rewrite Eq in *. cbn [fst snd] in Ht. split.
  - by apply sm_moves_silent_end, sm_status_timer_moves.
  - rewrite (proj1 (sm_state_timers _ _)). apply sm_enter_state.
Qed.

(** The state is kept, or the sequence is aborted. *)
Definition kept_or_error (m m' : SCMaster) : Prop :=
  sm_state m' = sm_state m \/ sm_state m' = SCState.Error.

Lemma sm_phase_timer_moves e snd m :
  sm_inv m ->
  let '(m', evs, _) := sm_phase_timer e snd m in sm_moves m evs m' /\ kept_or_error m m'.
Proof.
  intros Hi. unfold sm_phase_timer, kept_or_error.
  destruct (sm_state m) eqn:Es; try by (split; [by apply sm_moves_refl|left]).
  - set (x := sat_add 32 _ _). destruct (sm_timer_moves m x Hi) as (_ & Hm & _).
    pose proof Hm as (Hi1 & _). destruct (_ <=? _).
    + pose proof (sm_timeout_moves "ready timeout" (sm_with_ready_timer x m) Hi1) as Ht.
      rewrite (proj1 (proj2 (sm_state_timers x m))), Es in Ht. specialize (Ht eq_refl).
      destruct (sm_timeout _ _) as [[m' evs] o]. destruct Ht as [Ht ->].
      split; [|by right]. by apply (sm_moves_trans _ _ _ _ _ Hm).
    + split; [done|]. left. by rewrite (proj1 (proj2 (sm_state_timers x m))).
  - destruct (sm_client_ack m); cbn [negb]; [by split; [by apply sm_moves_refl|left]|].
    set (x := sat_add 32 _ _). destruct (sm_timer_moves m x Hi) as (_ & _ & Hm & _).
    pose proof Hm as (Hi1 & _). destruct (_ <=? _).
    + pose proof (sm_timeout_moves "active timeout - no client ack"
        (sm_with_active_timer x m) Hi1) as Ht.
      rewrite (proj2 (proj2 (sm_state_timers x m))), Es in Ht. specialize (Ht eq_refl).
      destruct (sm_timeout _ _) as [[m' evs] o]. destruct Ht as [Ht ->].
      split; [|by right]. by apply (sm_moves_trans _ _ _ _ _ Hm).
    + split; [done|]. left. by rewrite (proj2 (proj2 (sm_state_timers x m))).
Qed.

Lemma sm_watchdog_moves s e snd m :
  sm_inv m -> sm_state m = s \/ sm_state m = SCState.Error ->
  let '(m', evs, _) := sm_watchdog s e snd m in sm_moves m evs m' /\ kept_or_error m m'.
Proof.
  intros Hi Hs. unfold sm_watchdog, kept_or_error.
  assert (Hgo : sm_edge s SCState.Error = true ->
    let '(m', evs, _) :=
      (let m := sm_with_seen (aged e <$> sm_client_seen m) m in
       let expired := existsb (fun kv => lost (sm_config m) kv.2)
                        (map_to_list (sm_client_seen m)) in
       if expired && negb (sm_is SCState.Error m) then
         sm_timeout "client status timeout"
           (sm_with_seen (filter (fun kv => lost (sm_config m) kv.2 = false) (sm_client_seen m)) m)
       else (m, [], snd)) in
    sm_moves m evs m' /\ (sm_state m' = sm_state m \/ sm_state m' = SCState.Error)).
  { intros He. cbv zeta. set (m1 := sm_with_seen (aged e <$> sm_client_seen m) m).
    destruct (sm_timer_moves m 0 Hi) as (_ & _ & _ & Hm1). specialize (Hm1 (aged e <$> sm_client_seen m)).
    fold m1 in Hm1. pose proof Hm1 as (Hi1 & _). assert (Hs1 : sm_state m1 = sm_state m) by (by destruct m).
    destruct (_ && _) eqn:Ex; [|by split; [|left]].
    apply andb_true_iff in Ex as [_ Ex]. apply negb_true_iff, bool_decide_eq_false in Ex.
    fold (sm_state m1) in Ex. rewrite Hs1 in Ex. destruct Hs as [Hs|Hs]; [|done].
    set (y := filter _ _). destruct (sm_timer_moves m1 0 Hi1) as (_ & _ & _ & Hm2).
    specialize (Hm2 y). set (m2 := sm_with_seen y m1) in *. pose proof Hm2 as (Hi2 & _).
    assert (Hs2 : sm_state m2 = sm_state m1) by (by destruct m1).
    pose proof (sm_timeout_moves "client status timeout" m2 Hi2) as Ht.
    rewrite Hs2, Hs1, Hs in Ht. specialize (Ht He).
    destruct (sm_timeout _ m2) as [[m' evs] o]. destruct Ht as [Ht ->]. split; [|by right].
    apply (sm_moves_trans _ _ _ _ _ Hm1), (sm_moves_trans _ _ _ _ _ Hm2), Ht. }
  destruct s; first [ exact (Hgo eq_refl) | split; [by apply sm_moves_refl|by left] ].
Qed.

Lemma sm_update_moves e m :
  sm_inv m -> let '(m', evs, _) := sm_update e m in sm_moves m evs m' /\ kept_or_error m m'.
Proof.
  intros Hi. unfold sm_update, kept_or_error. set (x := sat_add 32 _ _).
  destruct (sm_timer_moves m x Hi) as (Hm1 & _).
  pose proof (proj1 (sm_state_timers x m)) as Hs1.
  set (m1 := sm_with_status_timer x m) in *. pose proof Hm1 as (Hi1 & _).
  set (r := if _ <=? _ then _ else _).
  assert (Hr : sm_moves m [] r.1 /\ sm_state r.1 = sm_state m).
  { unfold r. destruct (_ <=? _); [|done]. cbn [fst].
    destruct (sm_timer_moves m1 (sm_status_timer_ms m1 - sm_interval m1) Hi1) as (Hm2 & _).
    split; [by apply (sm_moves_trans _ _ _ _ _ Hm1)|].
    by rewrite (proj1 (sm_state_timers _ _)). }
  destruct r as [m2 o2]. cbn [fst] in Hr. destruct Hr as [Hm2 Hs2]. pose proof Hm2 as (Hi2 & _).
  pose proof (sm_phase_timer_moves e o2 m2 Hi2) as Hp.
  destruct (sm_phase_timer e o2 m2) as [[m3 e3] o3]. destruct Hp as [Hm3 Hk3].
  pose proof Hm3 as (Hi3 & _). unfold kept_or_error in Hk3. rewrite Hs2 in Hk3.
  pose proof (sm_watchdog_moves (sm_state m) e o3 m3 Hi3 Hk3) as Hw.
  destruct (sm_watchdog (sm_state m) e o3 m3) as [[m4 e4] o4]. destruct Hw as [Hm4 Hk4].
  unfold kept_or_error in Hk4.
  assert (Hall : sm_moves m (e3 ++ e4) m4 /\ (sm_state m4 = sm_state m \/ sm_state m4 = SCState.Error)).
  { split.
    - apply (sm_moves_trans _ _ _ _ _ Hm2), (sm_moves_trans _ _ _ _ _ Hm3), Hm4.
    - destruct Hk4 as [->|]; [done|by right]. }
  destruct (sm_state m); try done; split; try done; by left.
Qed.

(** ** Client statuses *)

(** Updates of the client sets, each with the part of the invariant that speaks of it. *)
Lemma sm_ready_clients_moves x m :
  sm_inv m ->
  (sm_state m = SCState.Ready -> (size x < required_client_count (sm_config m))%nat) ->
  sm_moves m [] (sm_with_ready_clients x m).
Proof.
  intros (H1 & H2 & H3 & H4 & _ & H6 & H7 & H8) Hx.
  apply silent_moves; by destruct m.
Qed.

Lemma sm_acks_moves k x m :
  sm_inv m -> (k = true <-> (required_client_count (sm_config m) <= size x)%nat) ->
  sm_moves m [] (sm_with_acks k x m).
Proof.
  intros (H1 & H2 & H3 & H4 & H5 & _ & H7 & H8) Hx.
  apply silent_moves; by destruct m.
Qed.

Lemma sm_abort_sets_moves ac ab m :
  sm_inv m -> ac ⊆ ab -> sm_moves m [] (sm_with_abort ac ab m).
Proof.
  intros (H1 & H2 & H3 & H4 & H5 & H6 & _ & H8) Hx.
  apply silent_moves; by destruct m.
Qed.

Lemma rearm_moves m :
  sm_inv m -> sm_state m = SCState.Error ->
  sm_moves m (rearm_after_abort m).2 (rearm_after_abort m).1.
Proof.
  intros (Hids & Hnd & Hix & Hdone & _ & _ & _ & Hreq) Es. rewrite Es in Hix. cbn in Hix.
  unfold rearm_after_abort.
  set (m2 := sm_with_active_timer 0 _).
  assert (Hst : sm_state m2 = SCState.Error) by (by destruct m).
  assert (Hsteps : sm_steps m2 = uncomplete <$> sm_steps m) by (by destruct m).
  assert (Hi2 : sm_index m2 = 0%nat) by (by destruct m).
  assert (Hids2 : step_ids m2 = step_ids m).
  { unfold step_ids. rewrite Hsteps, <- list_fmap_compose. by apply list_fmap_ext. }
  assert (Hr2 : sm_ready_clients m2 = ∅) by (by destruct m).
  assert (Hc2 : sm_config m2 = sm_config m) by (by destruct m).
  assert (Hinv : sm_inv m2).
  { unfold sm_inv. rewrite Hst, Hi2, Hids2, Hsteps, length_fmap, Hc2, Hr2. split_and!; try done.
    - by apply Forall_fmap, (Forall_impl _ _ _ Hids).
    - cbn. lia.
    - assert (sm_client_ack m2 = false /\ sm_active_acks m2 = ∅) as [-> ->] by (by destruct m).
      rewrite size_empty. split; [done|lia].
    - by destruct m. }
  pose proof (sm_enter_moves SCState.Ready m2 Hinv) as He.
  rewrite Hst in He. specialize (He eq_refl). rewrite Hi2, Hsteps, length_fmap, Hr2, size_empty in He.
  rewrite sm_transition_enter by (by rewrite Hst). rewrite Hst. cbn [fst snd].
  apply sm_status_timer_moves.
  destruct He as (Hie & Hce & Hfe & Hde); [cbn; lia|by rewrite Hc2|].
  split; [done|]. split; [by rewrite Hce|]. split; [by rewrite Es, Hst in *|].
  cbn [foldl completed_step]. unfold done_ids. by destruct m.
Qed.

Lemma sm_confirm_abort_moves client mapped m :
  sm_inv m -> sm_state m = SCState.Error ->
  sm_moves m (sm_confirm_abort client mapped m).2 (sm_confirm_abort client mapped m).1.
Proof.
  intros Hi Es. unfold sm_confirm_abort. set (m1 := if bool_decide _ then _ else _).
  assert (Hm1 : sm_moves m [] m1 /\ sm_state m1 = SCState.Error).
  { pose proof Hi as (_ & _ & _ & _ & _ & _ & Hsub & _). unfold m1.
    case_bool_decide; [|case_bool_decide]; (split; [|by destruct m]); try done;
      apply sm_abort_sets_moves; try done; set_solver. }
  destruct Hm1 as [Hm1 Hs1]. pose proof Hm1 as (Hi1 & _). clearbody m1. cbv zeta.
  destruct (_ <=? _)%nat; [|done].
  apply (sm_moves_trans _ _ _ _ _ Hm1). by apply rearm_moves.
Qed.

Lemma sm_withdraw_moves client mapped n m :
  sm_inv m -> sm_moves m [] (sm_withdraw client mapped n m) /\
    sm_state (sm_withdraw client mapped n m) = sm_state m.
Proof.
  intros Hi. unfold sm_withdraw. set (m1 := if _ && _ then _ else m).
  assert (Hm1 : sm_moves m [] m1 /\ sm_state m1 = sm_state m).
  { unfold m1. destruct (_ && _); [|done]. split; [|by destruct m].
    apply sm_ready_clients_moves; [done|]. intros Es.
    pose proof Hi as (_ & _ & _ & _ & Hr & _). specialize (Hr Es).
    pose proof (subseteq_size (sm_ready_clients m ∖ {[client]}) (sm_ready_clients m)) as Hle.
    specialize (Hle ltac:(set_solver)). lia. }
  destruct Hm1 as [Hm1 Hs1]. pose proof Hm1 as (Hi1 & _). clearbody m1. cbv zeta.
  destruct (sm_is SCState.Active m1 && _); [|done].
  pose proof Hi1 as (_ & _ & _ & _ & _ & Hack & _).
  set (x := sm_active_acks m1 ∖ {[client]}).
  assert (Hsz : (size x <= size (sm_active_acks m1))%nat) by (apply subseteq_size; set_solver).
  set (m2 := sm_with_acks _ x m1).
  assert (H2 : sm_active_acks m2 = x /\ sm_config m2 = sm_config m1 /\ sm_state m2 = sm_state m1)
    by (by destruct m1).
  destruct H2 as (Ha2 & Hc2 & Hs2). rewrite Ha2, Hc2.
  destruct (bool_decide (client ∈ sm_active_acks m1) && _) eqn:Eb.
  - apply andb_true_iff in Eb as [_ Hlt%Nat.ltb_lt].
    replace (sm_with_active_timer 0 (sm_with_acks false x m2))
      with (sm_with_active_timer 0 (sm_with_acks false x m1)) by (by destruct m1).
    pose proof (sm_acks_moves false x m1 Hi1) as Hm3.
    specialize (Hm3 ltac:(split; [done|lia])). pose proof Hm3 as (Hi3 & _).
    destruct (sm_timer_moves _ 0 Hi3) as (_ & _ & Hm4 & _).
    split; [|rewrite <- Hs1; by destruct m1].
    apply (sm_moves_trans _ _ _ _ _ Hm1), (sm_moves_trans _ _ _ _ _ Hm3), Hm4.
  - split; [|by rewrite Hs2]. apply (sm_moves_trans _ _ _ _ _ Hm1).
    apply sm_acks_moves; [done|]. apply andb_false_iff in Eb as [Hn%bool_decide_eq_false|Hge].
    + replace x with (sm_active_acks m1); [done|]. unfold x. set_solver.
    + apply Nat.ltb_ge in Hge. rewrite Hack. lia.
Qed.

Lemma sm_enlist_moves client mapped m :
  sm_inv m -> sm_moves m (sm_enlist client mapped m).2 (sm_enlist client mapped m).1.
Proof.
  intros Hi. unfold sm_enlist. destruct (sm_is SCState.Ready m) eqn:Er; [|done].
  apply bool_decide_eq_true in Er. fold (sm_state m) in Er. cbn [andb].
  destruct (bool_decide _); [|done]. cbv zeta.
  set (x := {[client]} ∪ sm_ready_clients m). set (m1 := sm_with_ready_clients x m).
  assert (H1 : sm_ready_clients m1 = x /\ sm_config m1 = sm_config m) by (by destruct m).
  destruct H1 as [-> ->]. destruct (Nat.leb_spec (required_client_count (sm_config m)) (size x)).
  - destruct (sm_unack_moves m 0 Hi) as (Hm2 & Hs2 & Hi2 & Hst2 & _).
    set (m2 := sm_with_acks false ∅ _) in *. pose proof Hm2 as (Hinv2 & _).
    replace (sm_with_acks false ∅ (sm_with_active_timer 0 m1))
      with (sm_with_ready_clients x m2) by (by destruct m).
    assert (Hs3 : sm_state (sm_with_ready_clients x m2) = SCState.Ready).
    { transitivity (sm_state m2); [by destruct m2|by rewrite Hs2]. }
    rewrite sm_transition_enter by (by rewrite Hs3).
    replace (sm_enter SCState.Active (sm_with_ready_clients x m2))
      with (sm_with_ready_clients x (sm_enter SCState.Active m2)) by (by destruct m).
    replace (sm_state (sm_with_ready_clients x m2)) with (sm_state m2) by (by destruct m).
    cbn [fst snd]. apply (sm_moves_trans _ _ _ _ _ Hm2).
    apply (sm_moves_silent_end _ [ScmStateChange (sm_state m2) SCState.Active]).
    { by case_match. }
    pose proof (sm_enter_moves SCState.Active m2 Hinv2) as He. rewrite Hs2, Er in He.
    specialize (He eq_refl). rewrite Hi2, Hst2 in He.
    assert (Hlt : (sm_index m < length (sm_steps m))%nat).
    { destruct Hi as (_ & _ & Hix & _). rewrite Er in Hix. cbn in Hix. lia. }
    specialize (He Hlt ltac:(done)). pose proof He as (Hie & _).
    rewrite Hs2, Er. replace [ScmStateChange SCState.Ready SCState.Active]
      with ([ScmStateChange SCState.Ready SCState.Active] ++ []) by done.
    eapply sm_moves_trans; [exact He|]. apply sm_ready_clients_moves; [done|].
    rewrite sm_enter_state. done.
  - apply sm_ready_clients_moves; [done|]. intros _. lia.
Qed.

Lemma sm_acknowledge_moves client mapped n m :
  sm_inv m -> sm_moves m [] (sm_acknowledge client mapped n m).
Proof.
  intros Hi. unfold sm_acknowledge. destruct (_ && _); [|done]. cbv zeta.
  pose proof Hi as (_ & _ & _ & _ & _ & Hack & _).
  set (x := {[client]} ∪ sm_active_acks m).
  assert (Hsz : (size (sm_active_acks m) <= size x)%nat) by (apply subseteq_size; set_solver).
  set (m1 := sm_with_acks (sm_client_ack m) x m).
  assert (H1 : sm_active_acks m1 = x /\ sm_config m1 = sm_config m) by (by destruct m).
  destruct H1 as [-> ->]. destruct (Nat.leb_spec (required_client_count (sm_config m)) (size x)).
  - replace (sm_with_acks true x m1) with (sm_with_acks true x m) by (by destruct m).
    pose proof (sm_acks_moves true x m Hi) as Hm2. specialize (Hm2 ltac:(done)).
    pose proof Hm2 as (Hi2 & _). destruct (sm_timer_moves _ 0 Hi2) as (_ & _ & Hm3 & _).
    apply (sm_moves_trans _ _ _ _ _ Hm2), Hm3.
  - apply sm_acks_moves; [done|]. rewrite Hack. lia.
Qed.

Lemma sm_client_status_moves client cs seq n m :
  sm_inv m ->
  sm_moves m (sm_client_status client cs seq n m).2 (sm_client_status client cs seq n m).1.
Proof.
  intros Hi. unfold sm_client_status. set (y := if bool_decide _ then _ else _).
  destruct (sm_timer_moves m 0 Hi) as (_ & _ & _ & Hm1). specialize (Hm1 y).
  set (m1 := sm_with_seen y m) in *. pose proof Hm1 as (Hi1 & _). clearbody m1. cbv zeta.
  set (mapped := map_client_state cs seq).
  destruct (bool_decide (mapped = SCState.Error) && _) eqn:Eb; [|destruct (sm_is _ m1) eqn:Ee].
  - apply andb_true_iff in Eb as [_ Hs%negb_true_iff%bool_decide_eq_false].
    assert (He : sm_edge (sm_state m1) SCState.Error = true)
      by (destruct (sm_state m1); try done; exfalso; apply Hs; set_solver).
    pose proof (sm_error_moves m1 Hi1 He) as Ht. destruct (sm_transition _ m1) as [m2 evs].
    cbn [fst snd] in *. apply sm_moves_silent; [done|].
    by apply (sm_moves_trans _ _ _ _ _ Hm1), sm_status_timer_moves.
  - apply bool_decide_eq_true in Ee. fold (sm_state m1) in Ee.
    pose proof (sm_confirm_abort_moves client mapped m1 Hi1 Ee) as Ht.
    destruct (sm_confirm_abort _ _ _) as [m2 evs]. apply sm_moves_silent; [done|].
    by apply (sm_moves_trans _ _ _ _ _ Hm1).
  - destruct (sm_withdraw_moves client mapped n m1 Hi1) as [Hm2 _].
    set (m2 := sm_withdraw _ _ _ m1) in *. pose proof Hm2 as (Hi2 & _).
    pose proof (sm_enlist_moves client mapped m2 Hi2) as Hm3.
    destruct (sm_enlist _ _ m2) as [m3 evs]. cbn [fst snd] in *. pose proof Hm3 as (Hi3 & _).
    apply sm_moves_silent; [done|].
    apply (sm_moves_trans _ _ _ _ _ Hm1), (sm_moves_trans _ _ _ _ _ Hm2).
    rewrite <- (app_nil_r evs). eapply sm_moves_trans; [exact Hm3|].
    by apply sm_acknowledge_moves.
Qed.

Lemma decode_client_status_total msg : is_Some (decode_client_status msg).
Proof.
  unfold decode_client_status, sc_client_state_byte_is_valid, sc_sequence_state_byte_is_valid.
  repeat (case_match; [by eauto|]).
  repeat match goal with H : negb (bool_decide _) = false |- _ =>
    apply negb_false_iff, bool_decide_eq_true in H end.
  destruct (SCClientState.try_from_u8 (msg_u8 msg 1)) as [cs|]; [|by destruct (is_Some_None (A:=SCClientState.t))].
  cbn [mbind option_bind]. repeat (case_match; [by eauto|]).
  repeat match goal with H : negb (bool_decide _) = false |- _ =>
    apply negb_false_iff, bool_decide_eq_true in H end.
  destruct (SCSequenceState.try_from_u8 (msg_u8 msg 3)) as [ss|];
    [|by destruct (is_Some_None (A:=SCSequenceState.t))].
  cbn [mbind option_bind]. repeat case_match; by eauto.
Qed.

(** ** Runs *)

Inductive ScmOp : Type :=
| OpAddStep (s : SequenceStep)
| OpStart
| OpAbort
| OpPause
| OpResume
| OpStepCompleted (id : Z)
| OpUpdate (elapsed_ms : Z)
| OpClientStatus (msg : Message)
| OpBusyNv (b : bool)
| OpBusyScd (b : bool).

Definition scm_op (op : ScmOp) (m : SCMaster) : option (SCMaster * list ScmEvent) :=
  match op with
  | OpAddStep s => Some (add_step s m).1
  | OpStart => Some (sm_start m).1
  | OpAbort => Some (sm_abort m).1
  | OpPause => Some (sm_pause m).1
  | OpResume => Some (sm_resume m).1
  | OpStepCompleted id => fst <$> step_completed id m
  | OpUpdate e => Some (sm_update e m).1
  | OpClientStatus msg => handle_client_status msg m
  | OpBusyNv b => Some (set_busy_nv_memory b m, [])
  | OpBusyScd b => Some (set_busy_parsing_scd b m, [])
  end.

(** A step id is a [u16]. *)
Definition scm_op_ok (op : ScmOp) : Prop :=
  match op with OpAddStep s => 0 <= step_id s | _ => True end.

Fixpoint scm_run (ops : list ScmOp) (m : SCMaster) : option (SCMaster * list ScmEvent) :=
  match ops with
  | [] => Some (m, [])
  | op :: ops =>
      '(m, e1) ← scm_op op m;
      '(m, e2) ← scm_run ops m;
      Some (m, e1 ++ e2)
  end.

Lemma scm_op_moves op m :
  sm_inv m -> scm_op_ok op -> exists m' evs, scm_op op m = Some (m', evs) /\ sm_moves m evs m'.
Proof.
  intros Hi Hop. destruct op; cbn [scm_op] in *.
  - rewrite (surjective_pairing (add_step s m).1). eauto using add_step_moves.
  - rewrite (surjective_pairing (sm_start m).1). eauto using sm_start_moves.
  - rewrite (surjective_pairing (sm_abort m).1). eauto using sm_abort_moves.
  - rewrite (surjective_pairing (sm_pause m).1). eauto using sm_pause_moves.
  - rewrite (surjective_pairing (sm_resume m).1). eauto using sm_resume_moves.
  - destruct (step_completed_moves id m Hi) as (m' & evs & r & -> & Hm). cbn. eauto.
  - pose proof (sm_update_moves elapsed_ms m Hi) as Hu.
    destruct (sm_update elapsed_ms m) as [[m' evs] o]. destruct Hu as [Hu _]. eauto.
  - unfold handle_client_status, try_handle_client_status.
    destruct (decode_client_status_total msg) as [r ->]. cbn [mbind option_bind].
    destruct r as [[[cs seq] n]|e]; [|by eauto using sm_moves_refl].
    pose proof (sm_client_status_moves (m_source msg) cs seq n m Hi) as Hm.
    destruct (sm_client_status _ cs seq n m) as [m' evs]. eauto.
  - exists (set_busy_nv_memory b m), []. split; [done|]. by destruct m.
  - exists (set_busy_parsing_scd b m), []. split; [done|]. by destruct m.
Qed.

Lemma scm_run_moves ops m :
  sm_inv m -> Forall scm_op_ok ops ->
  exists m' evs, scm_run ops m = Some (m', evs) /\ sm_moves m evs m'.
Proof.
  intros Hi Hops. revert m Hi. induction Hops as [|op ops Hop Hops IH]; intros m Hi.
  { exists m, []. by split; [|apply sm_moves_refl]. }
  cbn [scm_run]. destruct (scm_op_moves op m Hi Hop) as (m1 & e1 & -> & Hm1).
  cbn [mbind option_bind]. pose proof Hm1 as (Hi1 & _).
  destruct (IH m1 Hi1) as (m2 & e2 & -> & Hm2). cbn [mbind option_bind].
  eauto using sm_moves_trans.
Qed.

Lemma SCMaster_new_inv c : in_u 8 (cfg_required_client_count c) -> sm_inv (SCMaster_new c).
Proof.
  intros Hc. unfold sm_inv, SCMaster_new, step_ids, sm_state. cbn.
  pose proof (required_pos c Hc). rewrite !size_empty.
  split_and!; try done; try constructor; lia.
Qed.

(** What holds in a state reached with a trace of events. *)
Record scm_safe (m : SCMaster) (tr : list ScmEvent) : Prop := {
  (** The state changes of the trace lead from Idle to the current state, edge by edge. *)
  ss_path : sm_follow SCState.Idle tr = Some (sm_state m);
  (** The steps completed since the plan was last (re)started are its first ones, in order. *)
  ss_done : foldl completed_step [] tr = take (sm_index m) (step_ids m);
  ss_complete : sm_state m = SCState.Complete -> foldl completed_step [] tr = step_ids m;
  (** A running master has a current step. *)
  ss_current : sm_state m ∈ [SCState.Ready; SCState.Active; SCState.Paused; SCState.Error] ->
    is_Some (current_step m);
  (** The acknowledgement flag says that enough clients acknowledged the current step. *)
  ss_acks : sm_client_ack m = true <->
    (required_client_count (sm_config m) <= size (sm_active_acks m))%nat;
  (** A master still waiting in Ready has too few clients. *)
  ss_ready : sm_state m = SCState.Ready ->
    (size (sm_ready_clients m) < required_client_count (sm_config m))%nat
}.

(** C18: No call of the master panics in any order, whatever arrives from the bus, and every
    state it reaches is safe: the states follow the protocol's edges from Idle, the completed
    steps are a prefix of the plan in order (all of it in Complete), a running master has a
    current step, and the acknowledgement and readiness bookkeeping agrees with its sets. *)
Theorem sc_master_run config ops :
  in_u 8 (cfg_required_client_count config) -> Forall scm_op_ok ops ->
  exists m tr, scm_run ops (SCMaster_new config) = Some (m, tr) /\ scm_safe m tr.
Proof.
  intros Hc Hops. destruct (scm_run_moves ops _ (SCMaster_new_inv config Hc) Hops)
    as (m & tr & Hrun & (Hi & Hcfg & Hf & Hd)).
  exists m, tr. split; [done|]. destruct Hi as (_ & _ & Hix & _ & Hr & Hack & _ & _).
  cbn in Hf, Hd. split; try done.
  - intros Es. rewrite Hd. unfold done_ids. rewrite Es in Hix. destruct Hix as [-> _].
    apply firstn_all2. unfold step_ids. by rewrite length_fmap.
  - intros Hs. unfold current_step. apply lookup_lt_is_Some_2.
    destruct (sm_state m); cbn in Hix; try lia; set_solver.
Qed.

Definition sample_step (id : Z) : SequenceStep := mkStep id "step" 100 false.
Definition sample_plan : list ScmOp := [OpAddStep (sample_step 7); OpAddStep (sample_step 3); OpStart].

Lemma sc_master_run_witness :
  exists m tr, scm_run sample_plan (SCMaster_new SCMasterConfig_default) = Some (m, tr) /\
    sm_state m = SCState.Ready /\ is_Some (current_step m).
Proof.
  destruct (sc_master_run SCMasterConfig_default sample_plan) as (m & tr & Hr & Hs).
  - by vm_compute.
  - repeat constructor; cbn; lia.
  - exists m, tr. split; [exact Hr|].
    assert (Es : sm_state m = SCState.Ready).
    { vm_compute in Hr. injection Hr as <- _. reflexivity. }
    split; [exact Es|]. apply (ss_current m tr Hs). rewrite Es. apply list_elem_of_here.
Defined.
