(* ===== verification/ScClient.v ===== *)
(** The sequence control client: the model of [src/isobus/sc/client.rs].

    As for the master, a method returns the new client, the events it fires and the status
    payload to transmit; [None] is a panic. *)
From stdpp Require Import pretty.
From S2P Require Export ScMaster.

Inductive SccEvent : Type :=
| SccStateChange (from to : SCState.t)
| SccSequenceStart
| SccStepRequest (id : Z)
| SccPause
| SccResume
| SccAbort.

Record SCClient : Type := mkScClient {
  sc_config : SCClientConfig;
  sc_machine : StateMachine.t SCState.t;
  sc_busy : bool;
  sc_busy_timer_ms : Z;
  sc_since_status_ms : Z;
  sc_status_pending : bool;
  sc_master_age_ms : Z;
  sc_step_id : Z
}.

Definition sc_state (c : SCClient) : SCState.t := StateMachine.state (sc_machine c).
Definition sc_is (s : SCState.t) (c : SCClient) : bool := StateMachine.is_state (sc_machine c) s.

Definition SCClient_new (config : SCClientConfig) : SCClient :=
  mkScClient config (StateMachine.mk SCState.Idle) false 0 (2 ^ 32 - 1) false 0 0.

Definition sc_with_machine (x : StateMachine.t SCState.t) (c : SCClient) : SCClient :=
  let 'mkScClient g _ b bt ss sp ma id := c in mkScClient g x b bt ss sp ma id.
Definition sc_with_busy (b : bool) (bt : Z) (c : SCClient) : SCClient :=
  let 'mkScClient g m _ _ ss sp ma id := c in mkScClient g m b bt ss sp ma id.
Definition sc_with_since (x : Z) (c : SCClient) : SCClient :=
  let 'mkScClient g m b bt _ sp ma id := c in mkScClient g m b bt x sp ma id.
Definition sc_with_pending (x : bool) (c : SCClient) : SCClient :=
  let 'mkScClient g m b bt ss _ ma id := c in mkScClient g m b bt ss x ma id.
Definition sc_with_master_age (x : Z) (c : SCClient) : SCClient :=
  let 'mkScClient g m b bt ss sp _ id := c in mkScClient g m b bt ss sp x id.
Definition sc_with_step (x : Z) (c : SCClient) : SCClient :=
  let 'mkScClient g m b bt ss sp ma _ := c in mkScClient g m b bt ss sp ma x.

Definition sc_out : Type := SCClient * list SccEvent * option (list Z).

(** ** Internals *)

Definition sc_transition (new_state : SCState.t) (c : SCClient) : SCClient * list SccEvent :=
  let old := sc_state c in
  if bool_decide (old = new_state) then (c, [])
  else (sc_with_machine (StateMachine.transition (sc_machine c) new_state).1 c,
        [SccStateChange old new_state]).

Definition clear_sequence_session (c : SCClient) : SCClient :=
  sc_with_step 0 (sc_with_pending false (sc_with_busy false 0 c)).

Definition iso_client_state (c : SCClient) : SCClientState.t :=
  if sc_is SCState.Idle c then SCClientState.Disabled else SCClientState.Enabled.

Definition client_status (c : SCClient) : list Z :=
  let cs := iso_client_state c in
  let seq := iso_sequence_state (sc_state c) in
  let disabled := bool_decide (cs = SCClientState.Disabled) in
  [SC_MSG_CODE_CLIENT; SCClientState.as_u8 cs;
   if disabled || bool_decide (seq = SCSequenceState.Ready)
   then SC_SEQUENCE_NUMBER_NOT_AVAILABLE else Z.land (sc_step_id c) 0xFF;
   if disabled then SCSequenceState.as_u8 SCSequenceState.NotApplicable
   else SCSequenceState.as_u8 seq;
   if disabled then SCClientFuncError.as_u8 SCClientFuncError.NotApplicable
   else SCClientFuncError.as_u8 SCClientFuncError.NoErrors;
   0xFF; 0xFF; 0xFF].

(** [encode_client_status_now]: also restarts the spacing timer. *)
Definition encode_client_status_now (c : SCClient) : SCClient * list Z :=
  (sc_with_since 0 c, client_status c).

Definition request_status_send_inline (c : SCClient) : SCClient * option (list Z) :=
  if min_status_spacing_ms (sc_config c) <=? sc_since_status_ms c
  then let '(c, d) := encode_client_status_now c in (c, Some d)
  else (sc_with_pending true c, None).

(** ** Commands *)

Definition set_busy (busy : bool) (c : SCClient) : SCClient * option (list Z) :=
  if bool_decide (sc_busy c = busy) then (c, None)
  else request_status_send_inline (sc_with_busy busy 0 c).

Definition report_step_complete (id : Z) (c : SCClient)
    : SCClient * Result (option (list Z)) Error.t :=
  if negb (sc_is SCState.Active c) then (c, Err (Error.invalid_state "not in Active state"))
  else if negb (id =? sc_step_id c) then (c, Err (Error.invalid_state "step_id mismatch"))
  else let '(c, d) := request_status_send_inline c in (c, Ok d).

(** ** [update] *)

(** The master watchdog; [Some] when it fires and [update] returns. *)
Definition sc_master_watchdog (elapsed_ms : Z) (c : SCClient) : SCClient * option sc_out :=
  if negb (sc_is SCState.Idle c) then
    let c := sc_with_master_age (sat_add 32 (sc_master_age_ms c) elapsed_ms) c in
    let limit := if sc_is SCState.Ready c then master_timeout_ready_ms (sc_config c)
                 else master_timeout_active_ms (sc_config c) in
    if (limit <=? sc_master_age_ms c) && negb (sc_is SCState.Error c) then
      let '(c, evs) := sc_transition SCState.Error c in
      let c := sc_with_pending false (clear_sequence_session c) in
      let '(c, d) := encode_client_status_now c in
      (c, Some (c, evs ++ [SccAbort], Some d))
    else (c, None)
  else (c, None).

(** The busy timeout; [Some] when it fires. *)
Definition sc_busy_watchdog (elapsed_ms : Z) (c : SCClient) : SCClient * option sc_out :=
  if sc_busy c && (sc_is SCState.Active c || sc_is SCState.Paused c) then
    let c := sc_with_busy (sc_busy c) (sat_add 32 (sc_busy_timer_ms c) elapsed_ms) c in
    if busy_pause_timeout_ms (sc_config c) <=? sc_busy_timer_ms c then
      let '(c, evs) := sc_transition SCState.Error c in
      let '(c, d) := encode_client_status_now (sc_with_pending false c) in
      (c, Some (c, evs ++ [SccAbort], Some d))
    else (c, None)
  else (c, None).

Definition sc_status_interval (c : SCClient) : Z :=
  match iso_sequence_state (sc_state c) with
  | SCSequenceState.PlayBack | SCSequenceState.Recording | SCSequenceState.Abort =>
      active_status_interval_ms (sc_config c)
  | _ => idle_status_interval_ms (sc_config c)
  end.

(** The deferred and the periodic status. *)
Definition sc_periodic (c : SCClient) : sc_out :=
  if sc_status_pending c && (min_status_spacing_ms (sc_config c) <=? sc_since_status_ms c) then
    let '(c, d) := encode_client_status_now (sc_with_pending false c) in (c, [], Some d)
  else if sc_status_interval c <=? sc_since_status_ms c then
    let '(c, d) := encode_client_status_now c in (c, [], Some d)
  else (c, [], None).

Definition sc_update (elapsed_ms : Z) (c : SCClient) : sc_out :=
  let c := sc_with_since (sat_add 32 (sc_since_status_ms c) elapsed_ms) c in
  match sc_master_watchdog elapsed_ms c with
  | (_, Some out) => out
  | (c, None) =>
      match sc_busy_watchdog elapsed_ms c with
      | (_, Some out) => out
      | (c, None) => sc_periodic c
      end
  end.

(** ** [try_handle_master_status] *)

(** The validation: the master's state, sequence state and sequence number. *)
Definition decode_master_status (msg : Message)
    : option (Result (SCMasterState.t * SCSequenceState.t * Z) Error.t) :=
  let refuse s := Some (Err (Error.invalid_data s)) in
  if negb (m_pgn msg =? PGN_SC_MASTER_STATUS) then Some (Err (Error.invalid_pgn (m_pgn msg)))
  else if negb (has_usable_source msg) then Some (Err (Error.invalid_address (m_source msg)))
  else if negb (has_valid_destination_for_pgn msg) then
    Some (Err (Error.invalid_address (m_destination msg)))
  else if negb (length (m_data msg) =? SC_STATUS_PAYLOAD_LEN)%nat then
    refuse "SC master status must be exactly 8 bytes"
  else if negb (msg_u8 msg 0 =? SC_MSG_CODE_MASTER) then
    refuse "SC master status has wrong message code"
  else if negb (sc_status_payload_len_is_canonical (m_data msg)) then
    refuse "SC master status has a wrong payload length"
  else if negb (sc_master_state_byte_is_valid (msg_u8 msg 1)) then
    refuse "SC master status has reserved master state"
  else
    master_ms ← SCMasterState.try_from_u8 (msg_u8 msg 1);
    if bool_decide (master_ms = SCMasterState.Initialization) then
      refuse "SC master initialization state is not supported"
    else if negb (sc_sequence_state_byte_is_valid (msg_u8 msg 3)) then
      refuse "SC master status has reserved sequence state"
    else
      seq_state ← SCSequenceState.try_from_u8 (msg_u8 msg 3);
      let seq_num := msg_u8 msg 2 in
      let active := bool_decide (master_ms = SCMasterState.Active) in
      if negb active && negb (sc_inactive_status_sequence_fields_are_valid seq_state seq_num)
      then refuse "SC inactive master status has active sequence fields"
      else if active && negb (sc_status_sequence_state_is_supported seq_state) then
        refuse "SC master status has unsupported sequence state"
      else if negb (sc_status_sequence_number_is_valid seq_state seq_num) then
        refuse "SC master status has invalid sequence number"
      else Some (Ok (master_ms, seq_state, seq_num)).

Definition map_master_state (ms : SCMasterState.t) (seq : SCSequenceState.t) (c : SCClient)
    : SCState.t :=
  if bool_decide (ms = SCMasterState.Active) then
    match seq with
    | SCSequenceState.Ready =>
        if sc_is SCState.Active c || sc_is SCState.Paused c then SCState.Paused else SCState.Ready
    | SCSequenceState.PlayBack => SCState.Active
    | SCSequenceState.Abort => SCState.Error
    | _ => SCState.Ready
    end
  else SCState.Idle.

(** An event and an immediate status after a change. *)
Definition sc_notify (evs : list SccEvent) (c : SCClient) : sc_out :=
  let '(c, d) := request_status_send_inline c in (c, evs, d).

(** The [match master_state]. *)
Definition sc_follow (target : SCState.t) (id : Z) (c : SCClient) : sc_out :=
  match target with
  | SCState.Ready =>
      if bool_decide (sc_state c ∈ [SCState.Idle; SCState.Error; SCState.Complete]) then
        let '(c, evs) := sc_transition SCState.Ready (clear_sequence_session c) in
        sc_notify (evs ++ [SccSequenceStart]) c
      else (c, [], None)
  | SCState.Active =>
      if sc_is SCState.Ready c || sc_is SCState.Active c || sc_is SCState.Paused c then
        let '(c, evs) :=
          if sc_is SCState.Paused c then
            let '(c, evs) := sc_transition SCState.Active c in (c, evs ++ [SccResume])
          else if negb (sc_is SCState.Active c) then sc_transition SCState.Active c
          else (c, []) in
        sc_notify (evs ++ [SccStepRequest id]) (sc_with_step id c)
      else (c, [], None)
  | SCState.Paused =>
      if sc_is SCState.Active c then
        let '(c, evs) := sc_transition SCState.Paused c in sc_notify (evs ++ [SccPause]) c
      else (c, [], None)
  | SCState.Complete =>
      if sc_is SCState.Active c || sc_is SCState.Paused c then
        let '(c, evs) := sc_transition SCState.Complete c in sc_notify evs c
      else (c, [], None)
  | SCState.Error =>
      let '(c, evs) := sc_transition SCState.Error c in sc_notify (evs ++ [SccAbort]) c
  | SCState.Idle =>
      if negb (sc_is SCState.Idle c) then
        let '(c, evs) := sc_transition SCState.Idle c in
        sc_notify (evs ++ [SccAbort]) (clear_sequence_session c)
      else (c, [], None)
  end.

(** What an accepted status does. *)
Definition sc_master_status (ms : SCMasterState.t) (seq : SCSequenceState.t) (seq_num : Z)
    (c : SCClient) : sc_out :=
  let c := sc_with_master_age 0 c in
  sc_follow (map_master_state ms seq c)
    (if seq_num =? SC_SEQUENCE_NUMBER_NOT_AVAILABLE then 0 else seq_num) c.

Definition try_handle_master_status (msg : Message) (c : SCClient)
    : option (SCClient * list SccEvent * Result (option (list Z)) Error.t) :=
  r ← decode_master_status msg;
  Some (match r with
        | Err e => (c, [], Err e)
        | Ok (ms, seq, n) =>
            let '(c, evs, d) := sc_master_status ms seq n c in (c, evs, Ok d)
        end).

(** The wrapper that maps an error to no reply. *)
Definition handle_master_status (msg : Message) (c : SCClient) : option sc_out :=
  '(c, evs, r) ← try_handle_master_status msg c;
  Some (c, evs, match r with Ok d => d | Err _ => None end).
