(* ===== verification/ScProofs.v ===== *)
(** Sequence control: the client alone, and master and client together.

    The client follows the protocol's edges and never panics; every status one side sends is
    accepted by the other and read as the state that sent it; either side stops when the
    other falls silent.  Two behaviours the code most likely does not intend close the file. *)
From stdpp Require Import gmap.
From S2P Require Export ScMasterProofs ScClient.
#[local] Open Scope Z_scope.

(** ** The client's invariant *)

Definition sc_inv (c : SCClient) : Prop :=
  sc_state c <> SCState.Complete /\ 0 <= sc_step_id c <= SC_MAX_SEQUENCE_STEP_ID.

Definition sc_edge (a b : SCState.t) : bool :=
  match a, b with
  | SCState.Idle, (SCState.Ready | SCState.Error)
  | SCState.Ready, (SCState.Active | SCState.Error | SCState.Idle)
  | SCState.Active, (SCState.Paused | SCState.Error | SCState.Idle)
  | SCState.Paused, (SCState.Active | SCState.Error | SCState.Idle)
  | SCState.Error, (SCState.Ready | SCState.Idle) => true
  | _, _ => false
  end.

Fixpoint sc_path (s : SCState.t) (tr : list SccEvent) : option SCState.t :=
  match tr with
  | [] => Some s
  | SccStateChange a b :: tr => if bool_decide (a = s) && sc_edge a b then sc_path b tr else None
  | _ :: tr => sc_path s tr
  end.

(** The step last asked for. *)
Definition last_request (acc : option Z) (e : SccEvent) : option Z :=
  match e with SccStepRequest id => Some id | _ => acc end.

(** A client executing or pausing a step executes the one last asked for. *)
Definition on_request (c : SCClient) (acc : option Z) : Prop :=
  sc_state c = SCState.Active \/ sc_state c = SCState.Paused -> acc = Some (sc_step_id c).

(** What one call does; a payload it returns is the status of the client it leaves. *)
Definition sc_moves (c : SCClient) (evs : list SccEvent) (c' : SCClient) (out : option (list Z))
    : Prop :=
  sc_inv c' /\ sc_config c' = sc_config c /\ sc_path (sc_state c) evs = Some (sc_state c') /\
  (forall acc, on_request c acc -> on_request c' (foldl last_request acc evs)) /\
  (forall d, out = Some d -> d = client_status c').

Lemma sc_path_app s t1 t2 : sc_path s (t1 ++ t2) = sc_path s t1 ≫= fun s' => sc_path s' t2.
Proof.
  revert s. induction t1 as [|e t1 IH]; intros s; [done|]. destruct e; cbn; try apply IH.
  destruct (_ && _); [apply IH|done].
Qed.

Lemma sc_moves_none c : sc_inv c -> sc_moves c [] c None.
Proof. intros Hi. unfold sc_moves. by split_and!. Qed.

(** Updates of the timers, of the busy flag and of the pending flag. *)
Definition same_core (c c' : SCClient) : Prop :=
  sc_config c' = sc_config c /\ sc_machine c' = sc_machine c /\ sc_step_id c' = sc_step_id c.

Lemma same_core_moves c0 c evs c' out :
  same_core c0 c -> sc_moves c evs c' out -> sc_moves c0 evs c' out.
Proof.
  intros (H1 & H2 & H3) (Hi & Hc & Hp & Hr & Ho).
  split; [done|]. split; [by rewrite Hc|]. split; [by unfold sc_state in *; rewrite <- H2|].
  split; [|done]. intros acc Ha. apply Hr. unfold on_request, sc_state in *. by rewrite H2, H3.
Qed.

Lemma same_core_inv c c' : same_core c c' -> sc_inv c -> sc_inv c'.
Proof. intros (H1 & H2 & H3). unfold sc_inv, sc_state. by rewrite H2, H3. Qed.

Lemma same_core_refl c : same_core c c.
Proof. done. Qed.

Lemma same_core_trans a b c : same_core a b -> same_core b c -> same_core a c.
Proof. unfold same_core. intros (?&?&?) (?&?&?). by split_and!; etrans. Qed.

Lemma same_core_updates c x b :
  same_core c (sc_with_since x c) /\ same_core c (sc_with_pending b c) /\
  same_core c (sc_with_busy b x c) /\ same_core c (sc_with_master_age x c).
Proof. by destruct c. Qed.

(** Replying with the current status changes timers only. *)
Lemma request_inline_core c :
  let '(c', out) := request_status_send_inline c in
  same_core c c' /\ (forall d, out = Some d -> d = client_status c').
Proof.
  unfold request_status_send_inline, encode_client_status_now.
  destruct (_ <=? _); destruct c; (split; [done|]); intros d; [|done]. by intros [= <-].
Qed.

Lemma sc_notify_moves c evs c1 :
  sc_inv c1 -> sc_config c1 = sc_config c -> sc_path (sc_state c) evs = Some (sc_state c1) ->
  (forall acc, on_request c acc -> on_request c1 (foldl last_request acc evs)) ->
  let '(c', evs', out) := sc_notify evs c1 in sc_moves c evs' c' out.
Proof.
  intros Hi Hc Hp Hr. unfold sc_notify. pose proof (request_inline_core c1) as Hn.
  destruct (request_status_send_inline c1) as [c' out]. destruct Hn as [Hs Ho].
  split; [by eapply same_core_inv|]. destruct Hs as (H1 & H2 & H3).
  split; [by rewrite H1|]. split; [unfold sc_state in *; by rewrite H2|]. split; [|done].
  intros acc Ha. specialize (Hr acc Ha). unfold on_request, sc_state in *. by rewrite H2, H3.
Qed.

Lemma sc_transition_eq s c :
  sc_transition s c
  = if bool_decide (sc_state c = s) then (c, [])
    else (sc_with_machine (StateMachine.mk s) c, [SccStateChange (sc_state c) s]).
Proof.
  unfold sc_transition. case_bool_decide as Hs; [done|]. unfold StateMachine.transition.
  destruct c as [? [st] ? ? ? ? ? ?]. unfold sc_state in *. cbn in *.
  by rewrite bool_decide_eq_false_2.
Qed.

Lemma sc_machine_facts s c :
  sc_state (sc_with_machine (StateMachine.mk s) c) = s /\
  sc_step_id (sc_with_machine (StateMachine.mk s) c) = sc_step_id c /\
  sc_config (sc_with_machine (StateMachine.mk s) c) = sc_config c.
Proof. by destruct c. Qed.

Lemma clear_session_facts c :
  sc_state (clear_sequence_session c) = sc_state c /\ sc_step_id (clear_sequence_session c) = 0 /\
  sc_config (clear_sequence_session c) = sc_config c.
Proof. by destruct c. Qed.

Lemma with_step_facts x c :
  sc_state (sc_with_step x c) = sc_state c /\ sc_step_id (sc_with_step x c) = x /\
  sc_config (sc_with_step x c) = sc_config c.
Proof. by destruct c. Qed.

(** The branches of the client's [match master_state] have this shape: enter [s] (or stay),
    fire events that are no state change, perhaps set the step, then reply. *)
Lemma sc_enter_moves s evs id c c1 :
  sc_inv c -> sc_edge (sc_state c) s = true \/ sc_state c = s -> s <> SCState.Complete ->
  Forall (fun e => match e with SccStateChange _ _ => False | _ => True end) evs ->
  0 <= id <= SC_MAX_SEQUENCE_STEP_ID ->
  sc_state c1 = s -> sc_step_id c1 = id -> sc_config c1 = sc_config c ->
  (s = SCState.Active \/ s = SCState.Paused ->
   foldl last_request None evs = Some id \/
   foldl last_request None evs = None /\ id = sc_step_id c /\
     (sc_state c = SCState.Active \/ sc_state c = SCState.Paused)) ->
  let '(c', evs', out) := sc_notify ((sc_transition s c).2 ++ evs) c1 in sc_moves c evs' c' out.
Proof.
  intros Hi He Hs Hev Hid Hs1 Hid1 Hc1 Hreq. apply sc_notify_moves; [|done| |].
  - split; [by rewrite Hs1|by rewrite Hid1].
  - rewrite Hs1, sc_path_app, sc_transition_eq.
    assert (Hq : forall s', sc_path s' evs = Some s').
    { clear -Hev. induction Hev as [|e evs He Hev IH]; intros s'; [done|]. by destruct e; cbn. }
    case_bool_decide as Hst; cbn [snd sc_path mbind option_bind]; [by rewrite Hq, Hst|].
    destruct He as [He|He]; [|done]. rewrite bool_decide_eq_true_2 by reflexivity. rewrite He.
    cbn [andb mbind option_bind]. apply Hq.
  - intros acc Ha Hst. rewrite Hs1 in Hst. rewrite Hid1.
    assert (Hf : foldl last_request acc ((sc_transition s c).2 ++ evs) = foldl last_request acc evs).
    { rewrite foldl_app, sc_transition_eq. by case_bool_decide. }
    rewrite Hf. assert (Hl : foldl last_request acc evs
      = match foldl last_request None evs with Some x => Some x | None => acc end).
    { clear. revert acc. induction evs as [|e evs IH] using rev_ind; intros acc; [done|].
      rewrite !foldl_app. cbn. destruct e; cbn; solve [done | apply IH]. }
    rewrite Hl. destruct (Hreq Hst) as [->|(-> & -> & Hc)]; [done|]. by apply Ha.
Qed.

Lemma transition_events s c c0 :
  sc_state c0 = sc_state c -> (sc_transition s c0).2 = (sc_transition s c).2.
Proof. intros E. rewrite !sc_transition_eq, E. by case_bool_decide. Qed.

Lemma transition_facts s c :
  sc_state (sc_transition s c).1 = s /\ sc_step_id (sc_transition s c).1 = sc_step_id c /\
  sc_config (sc_transition s c).1 = sc_config c.
Proof. rewrite sc_transition_eq. case_bool_decide; [done|apply sc_machine_facts]. Qed.

Lemma sc_is_true s c : sc_is s c = true <-> sc_state c = s.
Proof. apply bool_decide_eq_true. Qed.
Lemma sc_is_false s c : sc_is s c = false <-> sc_state c <> s.
Proof. apply bool_decide_eq_false. Qed.

Lemma sc_follow_moves target id c :
  sc_inv c -> 0 <= id <= SC_MAX_SEQUENCE_STEP_ID -> target <> SCState.Complete ->
  let '(c', evs, out) := sc_follow target id c in sc_moves c evs c' out.
Proof.
  intros Hi Hid Ht. pose proof Hi as [Hnc Hstep]. destruct target; cbn [sc_follow]; try done.
  - (* Idle *)
    destruct (sc_is SCState.Idle c) eqn:E; [by apply sc_moves_none|]. cbn [negb].
    apply sc_is_false in E. rewrite (surjective_pairing (sc_transition _ c)).
    destruct (transition_facts SCState.Idle c) as (F1 & F2 & F3).
    destruct (clear_session_facts (sc_transition SCState.Idle c).1) as (G1 & G2 & G3).
    apply (sc_enter_moves SCState.Idle [SccAbort] 0); try done; try congruence.
    + left. by destruct (sc_state c).
    + by repeat constructor.
    + intros [|]; discriminate.
  - (* Ready *)
    case_bool_decide as E; [|by apply sc_moves_none].
    destruct (clear_session_facts c) as (G1 & G2 & G3).
    rewrite (surjective_pairing (sc_transition _ (clear_sequence_session c))).
    destruct (transition_facts SCState.Ready (clear_sequence_session c)) as (F1 & F2 & F3).
    rewrite (transition_events _ c) by done.
    apply (sc_enter_moves SCState.Ready [SccSequenceStart] 0); try done; try congruence.
    + left. destruct (sc_state c); try done; exfalso; set_solver.
    + by repeat constructor.
    + intros [|]; discriminate.
  - (* Active *)
    destruct (_ || _) eqn:E; [|by apply sc_moves_none].
    assert (He : exists pre, (if sc_is SCState.Paused c then
        let '(c, evs) := sc_transition SCState.Active c in (c, evs ++ [SccResume])
      else if negb (sc_is SCState.Active c) then sc_transition SCState.Active c
      else (c, [])) = ((sc_transition SCState.Active c).1,
                       (sc_transition SCState.Active c).2 ++ pre) /\
      (pre = [] \/ pre = [SccResume])).
    { destruct (sc_is SCState.Paused c) eqn:Ep.
      - exists [SccResume]. rewrite (surjective_pairing (sc_transition _ c)). auto.
      - exists []. rewrite app_nil_r, <- surjective_pairing.
        destruct (sc_is SCState.Active c) eqn:Ea; cbn [negb]; [|auto].
        apply sc_is_true in Ea. rewrite sc_transition_eq, bool_decide_eq_true_2 by done. auto. }
    destruct He as (pre & -> & Hpre). cbv beta iota. rewrite <- app_assoc.
    destruct (transition_facts SCState.Active c) as (F1 & F2 & F3).
    destruct (with_step_facts id (sc_transition SCState.Active c).1) as (G1 & G2 & G3).
    apply (sc_enter_moves SCState.Active (pre ++ [SccStepRequest id]) id);
      try done; try congruence.
    + apply orb_true_iff in E as [E|E%sc_is_true]; [|left; by rewrite E].
      apply orb_true_iff in E as [E%sc_is_true|E%sc_is_true]; rewrite E; auto.
    + destruct Hpre as [-> | ->]; by repeat constructor.
    + intros _. left. by destruct Hpre as [-> | ->].
  - (* Paused *)
    destruct (sc_is SCState.Active c) eqn:E; [|by apply sc_moves_none].
    apply sc_is_true in E. rewrite (surjective_pairing (sc_transition _ c)).
    destruct (transition_facts SCState.Paused c) as (F1 & F2 & F3).
    apply (sc_enter_moves SCState.Paused [SccPause] (sc_step_id c)); try done.
    + left. by rewrite E.
    + by repeat constructor.
    + intros _. right. rewrite E. auto.
  - (* Error *)
    rewrite (surjective_pairing (sc_transition _ c)).
    destruct (transition_facts SCState.Error c) as (F1 & F2 & F3).
    apply (sc_enter_moves SCState.Error [SccAbort] (sc_step_id c)); try done.
    + destruct (sc_state c); auto.
    + by repeat constructor.
    + intros [|]; discriminate.
Qed.

(** The abort branches of [update]: enter Error, report the new status. *)
Lemma sc_abort_moves c c1 :
  sc_inv c -> (sc_state c = SCState.Error \/ sc_edge (sc_state c) SCState.Error = true) ->
  sc_state c1 = SCState.Error -> 0 <= sc_step_id c1 <= SC_MAX_SEQUENCE_STEP_ID ->
  sc_config c1 = sc_config c ->
  sc_moves c ((sc_transition SCState.Error c).2 ++ [SccAbort]) (encode_client_status_now c1).1
    (Some (encode_client_status_now c1).2).
Proof.
  intros Hi He Hs Hid Hc. unfold encode_client_status_now. cbn [fst snd].
  assert (Hst : sc_state (sc_with_since 0 c1) = SCState.Error) by (rewrite <- Hs; by destruct c1).
  split; [split; [by rewrite Hst|by destruct c1]|]. split; [rewrite <- Hc; by destruct c1|].
  split; [|split].
  - rewrite Hst, sc_path_app, sc_transition_eq. case_bool_decide as Hb.
    + cbn. by rewrite Hb.
    + destruct He as [He|He]; [done|]. cbn [snd sc_path].
      rewrite bool_decide_eq_true_2 by done. by rewrite He.
  - intros acc _ [Hx|Hx]; congruence.
  - intros d [= <-]. by destruct c1.
Qed.

Lemma sc_periodic_moves c :
  sc_inv c -> let '(c', evs, out) := sc_periodic c in sc_moves c evs c' out.
Proof.
  intros Hi. unfold sc_periodic, encode_client_status_now, sc_moves.
  destruct (_ && _); [|destruct (_ <=? _)];
    (split; [by destruct c|]); (split; [by destruct c|]); (split; [by destruct c|]);
    (split; [by destruct c|]); try done; intros d [= <-]; by destruct c.
Qed.

Lemma sc_update_moves e c :
  sc_inv c -> let '(c', evs, out) := sc_update e c in sc_moves c evs c' out.
Proof.
  intros Hi. unfold sc_update. set (x := sat_add 32 _ _).
  destruct (same_core_updates c x false) as (H1 & _ & _ & _).
  set (c1 := sc_with_since x c) in *. pose proof (same_core_inv _ _ H1 Hi) as Hi1.
  enough (H : let '(c', evs, out) := match sc_master_watchdog e c1 with
    | (_, Some out) => out
    | (c, None) => match sc_busy_watchdog e c with
                   | (_, Some out) => out | (c, None) => sc_periodic c end end in
    sc_moves c1 evs c' out).
  { destruct (match sc_master_watchdog e c1 with (_, Some out) => out | _ => _ end)
      as [[c' evs] out]. by eapply same_core_moves. }
  assert (Hrest : forall c2, same_core c1 c2 ->
    let '(c', evs, out) := match sc_busy_watchdog e c2 with
                   | (_, Some out) => out | (c, None) => sc_periodic c end in
    sc_moves c1 evs c' out).
  { intros c2 H2. pose proof (same_core_inv _ _ H2 Hi1) as Hi2. unfold sc_busy_watchdog.
    assert (Hper : forall c3, same_core c2 c3 ->
      let '(c', evs, out) := sc_periodic c3 in sc_moves c1 evs c' out).
    { intros c3 H3. pose proof (sc_periodic_moves c3 (same_core_inv _ _ H3 Hi2)) as Hp.
      destruct (sc_periodic c3) as [[c' evs] out].
      eapply same_core_moves; [exact H2|]. by eapply same_core_moves. }
    destruct (sc_busy c2 && _) eqn:Eb; [|by apply Hper].
    set (c3 := sc_with_busy _ _ c2). assert (H3 : same_core c2 c3) by apply same_core_updates.
    destruct (_ <=? _); [|by apply Hper].
    rewrite (surjective_pairing (sc_transition _ c3)).
    destruct (transition_facts SCState.Error c3) as (F1 & F2 & F3).
    set (c4 := sc_with_pending false _). rewrite (surjective_pairing (encode_client_status_now c4)).
    eapply same_core_moves; [exact H2|]. eapply same_core_moves; [exact H3|].
    pose proof (same_core_inv _ _ H3 Hi2) as Hi3.
    assert (H4 : same_core (sc_transition SCState.Error c3).1 c4) by apply (same_core_updates _ 0 false).
    destruct H4 as (K1 & K2 & K3).
    apply sc_abort_moves; try done.
    - apply andb_true_iff in Eb as [_ Eb]. destruct H3 as (_ & E3 & _). unfold sc_state. rewrite E3.
      apply orb_true_iff in Eb as [Eb%sc_is_true|Eb%sc_is_true]; unfold sc_state in Eb;
        rewrite Eb; auto.
    - unfold sc_state. by rewrite K2.
    - rewrite K3, F2. apply Hi3.
    - congruence. }
  unfold sc_master_watchdog. destruct (sc_is SCState.Idle c1) eqn:Ei; cbn [negb]; [by apply Hrest|].
  set (c2 := sc_with_master_age _ c1). assert (H2 : same_core c1 c2) by apply (same_core_updates c1 _ false).
  destruct (_ && _) eqn:Eb; [|by apply Hrest].
  apply sc_is_false in Ei. rewrite (surjective_pairing (sc_transition _ c2)).
  destruct (transition_facts SCState.Error c2) as (F1 & F2 & F3).
  destruct (clear_session_facts (sc_transition SCState.Error c2).1) as (G1 & G2 & G3).
  set (c4 := sc_with_pending false _). rewrite (surjective_pairing (encode_client_status_now c4)).
  eapply same_core_moves; [exact H2|]. pose proof (same_core_inv _ _ H2 Hi1) as Hi2.
  assert (H4 : same_core (clear_sequence_session (sc_transition SCState.Error c2).1) c4)
    by apply (same_core_updates _ 0 false).
  destruct H4 as (K1 & K2 & K3). apply sc_abort_moves; try done.
  - right. destruct H2 as (_ & E2 & _). unfold sc_state in *. rewrite E2.
    destruct Hi1 as [Hnc _]. unfold sc_state in Hnc.
    apply andb_true_iff in Eb as [_ Eb%negb_true_iff%sc_is_false]. unfold sc_state in Eb.
    rewrite E2 in Eb. by destruct (StateMachine.state (sc_machine c1)).
  - unfold sc_state in *. rewrite K2. congruence.
  - rewrite K3, G2. unfold SC_MAX_SEQUENCE_STEP_ID. lia.
  - congruence.
Qed.

(** ** Decoding *)

(** What an accepted status says: an idle sender gives no sequence fields, a working one a
    supported sequence state with its number. *)
Definition status_fields (working : bool) (seq : SCSequenceState.t) (n : Z) : Prop :=
  if working then
    (seq = SCSequenceState.Ready /\ n = SC_SEQUENCE_NUMBER_NOT_AVAILABLE) \/
    ((seq = SCSequenceState.PlayBack \/ seq = SCSequenceState.Abort) /\
     0 <= n <= SC_MAX_SEQUENCE_STEP_ID)
  else seq = SCSequenceState.NotApplicable /\ n = SC_SEQUENCE_NUMBER_NOT_AVAILABLE.

Lemma msg_u8_range msg i : bytes (m_data msg) -> in_u 8 (msg_u8 msg i).
Proof.
  intros Hb. unfold msg_u8, Span.get_u8, Span.at_.
  destruct (m_data msg !! Z.to_nat i) eqn:E; cbn; [|by unfold in_u].
  by apply (Forall_lookup_1 _ _ _ _ Hb E).
Qed.

Lemma status_fields_ok (working : bool) seq n :
  0 <= n -> (negb working && negb (sc_inactive_status_sequence_fields_are_valid seq n)) = false ->
  (working && negb (sc_status_sequence_state_is_supported seq)) = false ->
  sc_status_sequence_number_is_valid seq n = true -> status_fields working seq n.
Proof.
  unfold status_fields. destruct working; cbn [negb andb]; intros Hn H1 H2 H3.
  - apply negb_false_iff in H2. destruct seq; try discriminate; cbn in H3; reflect_bools.
    + by left.
    + right. split; [by left|lia].
    + right. split; [by right|lia].
  - apply negb_false_iff in H1. destruct seq; try discriminate. cbn in H1. by reflect_bools.
Qed.

Ltac decode_step :=
  match goal with
  | |- context [if ?b then _ else _] => destruct b eqn:?
  | H : negb (bool_decide (is_Some ?o)) = false |- context [?o] =>
      apply negb_false_iff, bool_decide_eq_true in H; destruct H as [? H]; rewrite H;
      cbn [mbind option_bind]
  end.

Lemma decode_master_status_cases msg :
  bytes (m_data msg) ->
  (exists e, decode_master_status msg = Some (Err e)) \/
  exists ms seq, decode_master_status msg = Some (Ok (ms, seq, msg_u8 msg 2)) /\
    status_fields (bool_decide (ms = SCMasterState.Active)) seq (msg_u8 msg 2).
Proof.
  intros Hb. unfold decode_master_status, sc_master_state_byte_is_valid,
    sc_sequence_state_byte_is_valid. pose proof (msg_u8_range msg 2 Hb) as [H0 _].
  repeat decode_step; try by (left; eauto). right. do 2 eexists. split; [done|].
  apply status_fields_ok; try done. by apply negb_false_iff.
Qed.

Lemma decode_client_status_cases msg :
  bytes (m_data msg) ->
  (exists e, decode_client_status msg = Some (Err e)) \/
  exists cs seq, decode_client_status msg = Some (Ok (cs, seq, msg_u8 msg 2)) /\
    status_fields (bool_decide (cs = SCClientState.Enabled)) seq (msg_u8 msg 2).
Proof.
  intros Hb. unfold decode_client_status, sc_client_state_byte_is_valid,
    sc_sequence_state_byte_is_valid. pose proof (msg_u8_range msg 2 Hb) as [H0 _].
  repeat decode_step; try by (left; eauto). right. do 2 eexists. split; [done|].
  apply status_fields_ok; try done. by apply negb_false_iff.
Qed.

Lemma sc_master_status_moves ms seq n c :
  sc_inv c -> status_fields (bool_decide (ms = SCMasterState.Active)) seq n ->
  let '(c', evs, out) := sc_master_status ms seq n c in sc_moves c evs c' out.
Proof.
  intros Hi Hf. unfold sc_master_status. set (c1 := sc_with_master_age 0 c).
  assert (H1 : same_core c c1) by apply (same_core_updates c 0 false).
  pose proof (sc_follow_moves (map_master_state ms seq c1)
    (if n =? SC_SEQUENCE_NUMBER_NOT_AVAILABLE then 0 else n) c1) as Hm.
  destruct (sc_follow _ _ c1) as [[c' evs] out]. eapply same_core_moves; [exact H1|].
  apply Hm.
  - by eapply same_core_inv.
  - unfold status_fields, SC_SEQUENCE_NUMBER_NOT_AVAILABLE, SC_MAX_SEQUENCE_STEP_ID in *.
    case_bool_decide; destruct (Z.eqb_spec n 0xFF); lia.
  - unfold map_master_state, status_fields in *. case_bool_decide; [|done].
    destruct Hf as [[-> _]|[[-> | ->] _]]; try done. by destruct (_ || _).
Qed.

(** ** Runs of the client *)

Inductive SccOp : Type :=
| OpcSetBusy (b : bool)
| OpcReportComplete (id : Z)
| OpcUpdate (elapsed_ms : Z)
| OpcMasterStatus (msg : Message).

Definition scc_op (op : SccOp) (c : SCClient) : option sc_out :=
  match op with
  | OpcSetBusy b => let '(c, out) := set_busy b c in Some (c, [], out)
  | OpcReportComplete id =>
      let '(c, r) := report_step_complete id c in
      Some (c, [], match r with Ok out => out | Err _ => None end)
  | OpcUpdate e => Some (sc_update e c)
  | OpcMasterStatus msg => handle_master_status msg c
  end.

(** A payload is a list of bytes. *)
Definition scc_op_ok (op : SccOp) : Prop :=
  match op with OpcMasterStatus msg => bytes (m_data msg) | _ => True end.

(** The run with the statuses it transmits. *)
Fixpoint scc_run (ops : list SccOp) (c : SCClient)
    : option (SCClient * list SccEvent * list (list Z)) :=
  match ops with
  | [] => Some (c, [], [])
  | op :: ops =>
      '(c, e1, out) ← scc_op op c;
      '(c, e2, sent) ← scc_run ops c;
      Some (c, e1 ++ e2, match out with Some d => d :: sent | None => sent end)
  end.

Lemma inline_moves c0 c :
  sc_inv c0 -> same_core c0 c ->
  let '(c', out) := request_status_send_inline c in sc_moves c0 [] c' out.
Proof.
  intros Hi Hc. pose proof (request_inline_core c) as Hr.
  destruct (request_status_send_inline c) as [c' out]. destruct Hr as [Hs Ho].
  pose proof (same_core_trans _ _ _ Hc Hs) as (H1 & H2 & H3).
  split; [exact (same_core_inv c0 c' (conj H1 (conj H2 H3)) Hi)|]. split; [done|].
  split; [unfold sc_state; by rewrite H2|]. split; [|done].
  intros acc Ha. unfold on_request, sc_state in *. cbn [foldl]. by rewrite H2, H3.
Qed.

Lemma scc_op_moves op c :
  sc_inv c -> scc_op_ok op ->
  exists c' evs out, scc_op op c = Some (c', evs, out) /\ sc_moves c evs c' out.
Proof.
  intros Hi Hop. destruct op; cbn [scc_op].
  - unfold set_busy. case_bool_decide; [by do 3 eexists; split; [|apply sc_moves_none]|].
    pose proof (inline_moves c (sc_with_busy b 0 c) Hi) as Hm.
    destruct (request_status_send_inline _) as [c' out].
    do 3 eexists. split; [done|]. apply Hm, (same_core_updates c 0 b).
  - unfold report_step_complete. destruct (negb _); [by do 3 eexists; split; [|apply sc_moves_none]|].
    destruct (negb _); [by do 3 eexists; split; [|apply sc_moves_none]|].
    pose proof (inline_moves c c Hi (same_core_refl c)) as Hm.
    destruct (request_status_send_inline _) as [c' out]. eauto.
  - pose proof (sc_update_moves elapsed_ms c Hi) as Hm.
    destruct (sc_update elapsed_ms c) as [[c' evs] out]. eauto.
  - unfold handle_master_status, try_handle_master_status.
    destruct (decode_master_status_cases msg Hop) as [[e ->]|(ms & seq & -> & Hf)];
      cbn [mbind option_bind]; [by do 3 eexists; split; [|apply sc_moves_none]|].
    pose proof (sc_master_status_moves ms seq _ c Hi Hf) as Hm.
    destruct (sc_master_status _ _ _ c) as [[c' evs] out]. cbn [mbind option_bind]. eauto.
Qed.

Lemma SCClient_new_inv g : sc_inv (SCClient_new g).
Proof. unfold sc_inv, SC_MAX_SEQUENCE_STEP_ID. cbn. split; [done|lia]. Qed.

Lemma scc_run_moves ops : forall c,
  sc_inv c -> Forall scc_op_ok ops ->
  exists c' evs sent, scc_run ops c = Some (c', evs, sent) /\ sc_moves c evs c' None.
Proof.
  induction ops as [|op ops IH]; intros c Hi Hops; cbn [scc_run].
  { do 3 eexists. split; [done|by apply sc_moves_none]. }
  apply Forall_cons in Hops as [Hop Hops].
  destruct (scc_op_moves op c Hi Hop) as (c1 & e1 & out & -> & (Hi1 & Hc1 & Hp1 & Hr1 & _)).
  cbn [mbind option_bind].
  destruct (IH c1 Hi1 Hops) as (c2 & e2 & sent & -> & (Hi2 & Hc2 & Hp2 & Hr2 & _)).
  cbn [mbind option_bind]. do 3 eexists. split; [done|].
  split; [done|]. split; [by rewrite Hc2|]. split; [by rewrite sc_path_app, Hp1|].
  split; [|done]. intros acc Ha. rewrite foldl_app. by apply Hr2, Hr1.
Qed.

(** What holds of a client in a state reached with a trace of events. *)
Record scc_safe (c : SCClient) (tr : list SccEvent) : Prop := {
  cs_path : sc_path SCState.Idle tr = Some (sc_state c);
  (** A client that executes a step, or holds it paused, was last asked for that step. *)
  cs_request : sc_state c = SCState.Active \/ sc_state c = SCState.Paused ->
    foldl last_request None tr = Some (sc_step_id c);
  cs_step : 0 <= sc_step_id c <= SC_MAX_SEQUENCE_STEP_ID
}.


(** ** Statuses are understood *)

Definition status_message (pgn : Pgn) (src : Address) (d : list Z) : Message :=
  mkMessage pgn d src BROADCAST_ADDRESS Priority.BelowNormal 0.

(** What a status says about its sender. *)
Definition client_fields (c : SCClient) : SCClientState.t * SCSequenceState.t * Z :=
  match sc_state c with
  | SCState.Idle => (SCClientState.Disabled, SCSequenceState.NotApplicable, 0xFF)
  | SCState.Ready | SCState.Paused => (SCClientState.Enabled, SCSequenceState.Ready, 0xFF)
  | s => (SCClientState.Enabled, iso_sequence_state s, sc_step_id c)
  end.

Definition master_fields (m : SCMaster) : SCMasterState.t * SCSequenceState.t * Z :=
  match sm_state m with
  | SCState.Idle | SCState.Complete =>
      (SCMasterState.Inactive, SCSequenceState.NotApplicable, 0xFF)
  | SCState.Ready | SCState.Paused => (SCMasterState.Active, SCSequenceState.Ready, 0xFF)
  | s => (SCMasterState.Active, iso_sequence_state s,
          match current_step m with Some st => step_id st | None => 0xFF end)
  end.

Definition usable (src : Address) : Prop := src <> NULL_ADDRESS /\ src <> BROADCAST_ADDRESS.

(** The envelope and the payload bytes of a status message. *)
Lemma status_message_facts pgn src b0 b1 b2 b3 b4 msg :
  usable src -> msg = status_message pgn src [b0; b1; b2; b3; b4; 0xFF; 0xFF; 0xFF] ->
  m_pgn msg = pgn /\ has_usable_source msg = true /\ has_valid_destination_for_pgn msg = true /\
  length (m_data msg) = SC_STATUS_PAYLOAD_LEN /\
  msg_u8 msg 0 = b0 /\ msg_u8 msg 1 = b1 /\ msg_u8 msg 2 = b2 /\ msg_u8 msg 3 = b3 /\
  msg_u8 msg 4 = b4.
Proof.
  intros [Hs1 Hs2] ->. unfold has_usable_source, has_valid_destination_for_pgn.
  cbn [status_message m_source m_destination m_pgn].
  rewrite (proj2 (Z.eqb_neq _ _) Hs1), (proj2 (Z.eqb_neq _ _) Hs2), Z.eqb_refl, orb_true_r.
  by split_and!.
Qed.

(** The checks both validations end with. *)
Lemma status_fields_checks working seq n :
  status_fields working seq n ->
  (negb working && negb (sc_inactive_status_sequence_fields_are_valid seq n)) = false /\
  (working && negb (sc_status_sequence_state_is_supported seq)) = false /\
  sc_status_sequence_number_is_valid seq n = true.
Proof.
  unfold status_fields, SC_MAX_SEQUENCE_STEP_ID. destruct working.
  - intros [[-> ->]|[[-> | ->] Hn]]; cbn; try done; unfold SC_MAX_SEQUENCE_STEP_ID;
      by rewrite (proj2 (Z.leb_le _ _)) by lia.
  - by intros [-> ->].
Qed.

(** A well-formed status decodes to its fields; [n] is the sequence number. *)
Lemma decode_client_payload src cb n sb eb cs seq :
  usable src -> SCClientState.try_from_u8 cb = Some cs -> cs <> SCClientState.Initialization ->
  SCSequenceState.try_from_u8 sb = Some seq -> is_Some (SCClientFuncError.try_from_u8 eb) ->
  status_fields (bool_decide (cs = SCClientState.Enabled)) seq n ->
  decode_client_status (status_message PGN_SC_CLIENT_STATUS src
    [SC_MSG_CODE_CLIENT; cb; n; sb; eb; 0xFF; 0xFF; 0xFF]) = Some (Ok (cs, seq, n)).
Proof.
  intros Hs Hcb Hni Hsb Heb (F1 & F2 & F3)%status_fields_checks.
  remember (status_message _ _ _) as msg eqn:E.
  destruct (status_message_facts _ _ _ _ _ _ _ _ Hs E) as (P1 & P2 & P3 & Hl & B0 & B1 & B2 & B3 & B4).
  unfold decode_client_status, sc_client_state_byte_is_valid, sc_sequence_state_byte_is_valid,
    sc_client_func_error_byte_is_valid, sc_status_payload_len_is_canonical.
  rewrite P1, P2, P3, Hl, B0, B1, B2, B3, B4, !Z.eqb_refl, Nat.eqb_refl, Hcb, Hsb. cbn [negb].
  rewrite !(bool_decide_eq_true_2 (is_Some _)) by done. cbn [negb mbind option_bind].
  rewrite bool_decide_eq_false_2 by done. by rewrite F1, F2, F3.
Qed.

Lemma decode_master_payload src mb n sb bb ms seq :
  usable src -> SCMasterState.try_from_u8 mb = Some ms -> ms <> SCMasterState.Initialization ->
  SCSequenceState.try_from_u8 sb = Some seq ->
  status_fields (bool_decide (ms = SCMasterState.Active)) seq n ->
  decode_master_status (status_message PGN_SC_MASTER_STATUS src
    [SC_MSG_CODE_MASTER; mb; n; sb; bb; 0xFF; 0xFF; 0xFF]) = Some (Ok (ms, seq, n)).
Proof.
  intros Hs Hmb Hni Hsb (F1 & F2 & F3)%status_fields_checks.
  remember (status_message _ _ _) as msg eqn:E.
  destruct (status_message_facts _ _ _ _ _ _ _ _ Hs E) as (P1 & P2 & P3 & Hl & B0 & B1 & B2 & B3 & _).
  unfold decode_master_status, sc_master_state_byte_is_valid, sc_sequence_state_byte_is_valid,
    sc_status_payload_len_is_canonical.
  rewrite P1, P2, P3, Hl, B0, B1, B2, B3, !Z.eqb_refl, Nat.eqb_refl, Hmb, Hsb. cbn [negb].
  rewrite !(bool_decide_eq_true_2 (is_Some _)) by done. cbn [negb mbind option_bind].
  rewrite bool_decide_eq_false_2 by done. by rewrite F1, F2, F3.
Qed.

Ltac solve_fields :=
  unfold status_fields;
  first [ rewrite bool_decide_eq_true_2 by done | rewrite bool_decide_eq_false_2 by done ]; auto.

Lemma byte_of_step id : 0 <= id <= SC_MAX_SEQUENCE_STEP_ID -> Z.land id 0xFF = id.
Proof.
  unfold SC_MAX_SEQUENCE_STEP_ID. intros. change 0xFF with (Z.ones 8).
  apply land_ones_small; [lia|unfold in_u; lia].
Qed.

Lemma client_status_decodes src c :
  sc_inv c -> usable src ->
  decode_client_status (status_message PGN_SC_CLIENT_STATUS src (client_status c))
  = Some (Ok (client_fields c)).
Proof.
  intros [Hnc Hid] Hs. unfold client_status, client_fields, iso_client_state.
  rewrite (byte_of_step _ Hid). unfold sc_is, StateMachine.is_state. fold (sc_state c).
  destruct (sc_state c); try done; apply decode_client_payload; try done; solve_fields.
Qed.

Lemma current_sequence_number_eq m :
  sm_inv m -> (sm_index m < length (sm_steps m))%nat ->
  exists st, current_step m = Some st /\ current_sequence_number m = step_id st /\
    0 <= step_id st <= SC_MAX_SEQUENCE_STEP_ID.
Proof.
  intros (Hids & _) Hlt. unfold current_step, current_sequence_number.
  destruct (lookup_lt_is_Some_2 _ _ Hlt) as [st Est]. rewrite Est. exists st. split; [done|].
  pose proof (Forall_lookup_1 _ _ _ _ Hids Est) as Hb. cbn in Hb.
  rewrite (proj2 (Z.leb_le _ _)) by lia. split; [|done].
  apply wrap_small. unfold in_u, SC_MAX_SEQUENCE_STEP_ID in *. lia.
Qed.

Lemma master_status_decodes src m :
  sm_inv m -> usable src ->
  decode_master_status (status_message PGN_SC_MASTER_STATUS src (encode_master_status m))
  = Some (Ok (master_fields m)).
Proof.
  intros Hi Hs. unfold encode_master_status, master_fields, iso_master_state.
  pose proof Hi as (_ & _ & Hix & _).
  destruct (sm_state m) eqn:Es; cbn in Hix;
    try (apply decode_master_payload; try done; solve [solve_fields]);
    destruct (current_sequence_number_eq m Hi Hix) as (st & -> & -> & Hb);
    apply decode_master_payload; try done; solve_fields.
Qed.

(** The payload [update] returns is the status of the master it leaves. *)
Lemma encode_master_frame m m' :
  sm_machine m' = sm_machine m -> sm_steps m' = sm_steps m -> sm_index m' = sm_index m ->
  sm_busy_nv_memory m' = sm_busy_nv_memory m -> sm_busy_parsing_scd m' = sm_busy_parsing_scd m ->
  encode_master_status m' = encode_master_status m.
Proof.
  intros H1 H2 H3 H4 H5. unfold encode_master_status, iso_master_state, sm_state,
    current_sequence_number. by rewrite H1, H2, H3, H4, H5.
Qed.

Lemma sm_update_status e m :
  let '(m', _, out) := sm_update e m in forall d, out = Some d -> d = encode_master_status m'.
Proof.
  assert (Hto : forall r x, let '(m', _, out) := sm_timeout r x in
    forall d, out = Some d -> d = encode_master_status m').
  { intros r x. unfold sm_timeout. destruct (sm_transition _ x) as [x' evs].
    by intros d [= <-]. }
  assert (Hph : forall snd x, (forall d, snd = Some d -> d = encode_master_status x) ->
    let '(m', _, out) := sm_phase_timer e snd x in
    forall d, out = Some d -> d = encode_master_status m').
  { intros snd x Hx. unfold sm_phase_timer. destruct (sm_state x) eqn:Es; try done.
    - destruct (_ <=? _); [apply Hto|]. intros d Hd. rewrite (Hx d Hd).
      symmetry. apply encode_master_frame; by destruct x.
    - destruct (negb _); [|done]. destruct (_ <=? _); [apply Hto|]. intros d Hd.
      rewrite (Hx d Hd). symmetry. apply encode_master_frame; by destruct x. }
  assert (Hwd : forall s snd x, (forall d, snd = Some d -> d = encode_master_status x) ->
    let '(m', _, out) := sm_watchdog s e snd x in
    forall d, out = Some d -> d = encode_master_status m').
  { intros s snd x Hx. unfold sm_watchdog.
    destruct s; try done; (destruct (_ && _); [apply Hto|]); intros d Hd; rewrite (Hx d Hd);
      symmetry; apply encode_master_frame; by destruct x. }
  unfold sm_update. set (m1 := sm_with_status_timer _ m).
  set (r := if _ <=? _ then _ else _).
  assert (Hr : forall d, r.2 = Some d -> d = encode_master_status r.1).
  { unfold r. destruct (_ <=? _); [|done]. by intros d [= <-]. }
  destruct r as [m2 o2]. cbn [fst snd] in Hr. specialize (Hph o2 m2 Hr).
  destruct (sm_phase_timer e o2 m2) as [[m3 e3] o3].
  specialize (Hwd (sm_state m) o3 m3 Hph).
  destruct (sm_watchdog (sm_state m) e o3 m3) as [[m4 e4] o4].
  by destruct (sm_state m).
Qed.

(** Master and client understand each other: whatever runs brought them to their states, the
    next status either sends is accepted by the other's validation and read as exactly the
    sender's state, sequence state and step. *)
Theorem sc_status_accepted config mops m mtr g cops c ctr sent src :
  in_u 8 (cfg_required_client_count config) -> Forall scm_op_ok mops -> Forall scc_op_ok cops ->
  usable src ->
  scm_run mops (SCMaster_new config) = Some (m, mtr) ->
  scc_run cops (SCClient_new g) = Some (c, ctr, sent) ->
  (forall e m' evs d, sm_update e m = (m', evs, Some d) ->
     decode_master_status (status_message PGN_SC_MASTER_STATUS src d)
     = Some (Ok (master_fields m'))) /\
  (forall op c' evs d, scc_op_ok op -> scc_op op c = Some (c', evs, Some d) ->
     decode_client_status (status_message PGN_SC_CLIENT_STATUS src d)
     = Some (Ok (client_fields c'))).
Proof.
  intros Hcfg Hm Hc Hs Hrm Hrc. split.
  - intros e m' evs d Hu. pose proof (SCMaster_new_inv config Hcfg) as Hi0.
    destruct (scm_run_moves mops _ Hi0 Hm) as (m0 & t0 & E & (Hi & _)). rewrite Hrm in E.
    injection E as <- <-. pose proof (sm_update_moves e m Hi) as Hmv.
    pose proof (sm_update_status e m) as Hst. rewrite Hu in Hmv, Hst.
    destruct Hmv as [(Hi' & _) _]. rewrite (Hst d eq_refl). by apply master_status_decodes.
  - intros op c' evs d Hop Hu.
    destruct (scc_run_moves cops _ (SCClient_new_inv g) Hc) as (c0 & t0 & s0 & E & (Hi & _)).
    rewrite Hrc in E. injection E as <- <- <-.
    destruct (scc_op_moves op c Hi Hop) as (c1 & e1 & o1 & E1 & (Hi1 & _ & _ & _ & Hst)).
    rewrite Hu in E1. injection E1 as <- <- <-. rewrite (Hst d eq_refl).
    by apply client_status_decodes.
Qed.

Lemma sc_status_accepted_witness :
  decode_master_status (status_message PGN_SC_MASTER_STATUS 0x20
    [0x95; 1; 0xFF; 1; 0xFC; 0xFF; 0xFF; 0xFF])
  = Some (Ok (SCMasterState.Active, SCSequenceState.Ready, 0xFF)).
Proof.
  destruct (scm_run sample_plan (SCMaster_new SCMasterConfig_default)) as [[m tr]|] eqn:E;
    [|vm_compute in E; discriminate E].
  destruct (sc_status_accepted SCMasterConfig_default sample_plan m tr SCClientConfig_default []
    (SCClient_new SCClientConfig_default) [] [] 0x20) as [H _].
  - by vm_compute.
  - repeat constructor; cbn; lia.
  - constructor.
  - split; discriminate.
  - exact E.
  - reflexivity.
  - vm_compute in E. injection E as <- <-. exact (H 100 _ _ _ eq_refl).
Defined.


(** ** Silence stops the sequence *)

Definition running (s : SCState.t) : Prop :=
  s = SCState.Ready \/ s = SCState.Active \/ s = SCState.Paused.

Fixpoint sm_ticks (es : list Z) (m : SCMaster) : SCMaster :=
  match es with [] => m | e :: es => sm_ticks es (sm_update e m).1.1 end.
Fixpoint sc_ticks (es : list Z) (c : SCClient) : SCClient :=
  match es with [] => c | e :: es => sc_ticks es (sc_update e c).1.1 end.

Lemma sm_timeout_state r m : sm_state (sm_timeout r m).1.1 = SCState.Error.
Proof.
  by destruct m as [? [[]] ? ? ? ? ? ? ? ? ? ? ? ? ?].
Qed.

Lemma sm_phase_timer_frame e o m :
  let m' := (sm_phase_timer e o m).1.1 in
  sm_state m' = SCState.Error \/
  (sm_state m' = sm_state m /\ sm_client_seen m' = sm_client_seen m /\ sm_config m' = sm_config m).
Proof.
  unfold sm_phase_timer. destruct (sm_state m) eqn:Es; try by right.
  - destruct (_ <=? _); [left; apply sm_timeout_state|right]. rewrite <- Es. by destruct m.
  - destruct (negb _); [|by right].
    destruct (_ <=? _); [left; apply sm_timeout_state|right]. rewrite <- Es. by destruct m.
Qed.

(** One update of a running master either aborts or ages every enrolled client, none of which
    has reached its limit. *)
Lemma sm_update_ages e m a l :
  running (sm_state m) -> sm_client_seen m !! a = Some l ->
  let m' := (sm_update e m).1.1 in
  sm_state m' = SCState.Error \/
  (sm_state m' = sm_state m /\ sm_config m' = sm_config m /\
   sm_client_seen m' !! a = Some (aged e l) /\ lost (sm_config m) (aged e l) = false).
Proof.
  intros Hrun Ha. unfold sm_update. set (m1 := sm_with_status_timer _ m).
  set (r := if _ <=? _ then _ else _).
  assert (Hr : sm_state r.1 = sm_state m /\ sm_client_seen r.1 = sm_client_seen m /\
               sm_config r.1 = sm_config m).
  { unfold r, m1. destruct (_ <=? _); by destruct m. }
  destruct r as [m2 o2]. cbn [fst] in Hr. destruct Hr as (Hs2 & Hn2 & Hc2).
  pose proof (sm_phase_timer_frame e o2 m2) as Hp.
  destruct (sm_phase_timer e o2 m2) as [[m3 e3] o3]. cbn [fst snd] in Hp.
  assert (Hw : forall s, running s -> let m' := (sm_watchdog s e o3 m3).1.1 in
    sm_state m' = SCState.Error \/
    (sm_state m' = sm_state m /\ sm_config m' = sm_config m /\
     sm_client_seen m' !! a = Some (aged e l) /\ lost (sm_config m) (aged e l) = false)).
  { intros s Hs. unfold sm_watchdog.
    enough (H : forall x, x = (let m := sm_with_seen (aged e <$> sm_client_seen m3) m3 in
       let expired := existsb (fun kv => lost (sm_config m) kv.2)
                        (map_to_list (sm_client_seen m)) in
       if expired && negb (sm_is SCState.Error m) then
         sm_timeout "client status timeout"
           (sm_with_seen (filter (fun kv => lost (sm_config m) kv.2 = false) (sm_client_seen m)) m)
       else (m, [], o3)) ->
       sm_state x.1.1 = SCState.Error \/
       (sm_state x.1.1 = sm_state m /\ sm_config x.1.1 = sm_config m /\
        sm_client_seen x.1.1 !! a = Some (aged e l) /\ lost (sm_config m) (aged e l) = false)).
    { destruct Hs as [-> |[-> | ->]]; by apply H. }
    intros x ->. cbv zeta. set (m4 := sm_with_seen _ m3).
    assert (H4 : sm_state m4 = sm_state m3 /\ sm_config m4 = sm_config m3 /\
      sm_client_seen m4 = aged e <$> sm_client_seen m3) by (by destruct m3).
    destruct H4 as (Hs4 & Hc4 & Hn4).
    destruct (_ && _) eqn:Eb; cbn [fst]; [left; apply sm_timeout_state|].
    destruct Hp as [Hp|(Hp1 & Hp2 & Hp3)]; [left; congruence|right].
    rewrite Hs4, Hc4, Hn4, lookup_fmap, Hp2, Hn2, Ha. cbn.
    split_and!; try congruence.
    apply andb_false_iff in Eb as [Eb|Eb].
    - apply not_true_iff_false. intros Hl. apply not_true_iff_false in Eb. apply Eb.
      apply existsb_exists. exists (a, aged e l). split; [|cbn; by rewrite Hc4, Hp3, Hc2].
      apply list_elem_of_In, elem_of_map_to_list. by rewrite Hn4, lookup_fmap, Hp2, Hn2, Ha.
    - apply negb_false_iff, bool_decide_eq_true in Eb. fold (sm_state m4) in Eb.
      rewrite Hs4, Hp1, Hs2 in Eb. destruct Hrun as [Hx|[Hx|Hx]]; congruence. }
  specialize (Hw (sm_state m) Hrun).
  destruct (sm_watchdog (sm_state m) e o3 m3) as [[m4 e4] o4]. cbn [fst] in Hw.
  destruct Hrun as [Hx|[Hx|Hx]]; rewrite Hx in *; exact Hw.
Qed.

Lemma sm_ticks_error es m : sm_inv m -> sm_state m = SCState.Error -> sm_state (sm_ticks es m) = SCState.Error.
Proof.
  revert m. induction es as [|e es IH]; intros m Hi Hs; [done|]. cbn [sm_ticks].
  pose proof (sm_update_moves e m Hi) as Hm. destruct (sm_update e m) as [[m' evs] o].
  destruct Hm as [(Hi' & _) Hk]. apply IH; [done|]. cbn [fst].
  destruct Hk as [Hk|Hk]; congruence.
Qed.

(** A list of elapsed times. *)
Definition total (es : list Z) : Z := foldr Z.add 0 es.

Lemma sm_silence es : forall m a l,
  sm_inv m -> running (sm_state m) -> Forall (in_u 32) es ->
  sm_client_seen m !! a = Some l -> 0 <= cl_age_ms l ->
  limit_for (sm_config m) (cl_reported l) < 2 ^ 32 ->
  cl_age_ms l < limit_for (sm_config m) (cl_reported l) <= cl_age_ms l + total es ->
  sm_state (sm_ticks es m) = SCState.Error.
Proof.
  induction es as [|e es IH]; intros m a l Hi Hrun Hes Ha H0 Hu Hl; cbn in Hl; [lia|].
  apply Forall_cons in Hes as [He Hes]. cbn [sm_ticks].
  pose proof (sm_update_ages e m a l Hrun Ha) as Hage.
  pose proof (sm_update_moves e m Hi) as Hm. destruct (sm_update e m) as [[m' evs] o].
  destruct Hm as [(Hi' & _) _]. cbn [fst] in *.
  destruct Hage as [Hs|(Hs & Hc & Ha' & Hlost)]; [by apply sm_ticks_error|].
  unfold lost, aged in Hlost. cbn in Hlost. apply Z.leb_gt in Hlost.
  unfold in_u in He.
  assert (Hsat : sat_add 32 (cl_age_ms l) e = cl_age_ms l + e).
  { unfold sat_add in *. fold (total es) in Hl. lia. }
  apply (IH m' a (aged e l)); try done; unfold aged; cbn; rewrite ?Hc, ?Hs, ?Hsat; try done;
    try lia.
  fold (total es) in *. lia.
Qed.

Lemma sc_busy_watchdog_cases e c :
  match sc_busy_watchdog e c with
  | (c', Some out) => sc_state out.1.1 = SCState.Error
  | (c', None) => sc_state c' = sc_state c /\ sc_master_age_ms c' = sc_master_age_ms c /\
                  sc_config c' = sc_config c
  end.
Proof.
  unfold sc_busy_watchdog. destruct (_ && _); [|done]. destruct (_ <=? _); [|by destruct c].
  rewrite (surjective_pairing (sc_transition _ _)). cbn.
  set (x := sc_with_busy _ _ c). destruct (transition_facts SCState.Error x) as (F1 & _ & _).
  rewrite <- F1 at 2. by destruct (sc_transition SCState.Error x).1.
Qed.

Definition master_limit (c : SCClient) : Z :=
  if sc_is SCState.Ready c then master_timeout_ready_ms (sc_config c)
  else master_timeout_active_ms (sc_config c).

Lemma sc_update_ages e c :
  sc_state c <> SCState.Idle ->
  let c' := (sc_update e c).1.1 in
  sc_state c' = SCState.Error \/
  (sc_state c' = sc_state c /\ sc_config c' = sc_config c /\
   sc_master_age_ms c' = sat_add 32 (sc_master_age_ms c) e /\
   sat_add 32 (sc_master_age_ms c) e < master_limit c).
Proof.
  intros Hni. unfold sc_update. set (c1 := sc_with_since _ c).
  assert (H1 : sc_state c1 = sc_state c /\ sc_config c1 = sc_config c /\
    sc_master_age_ms c1 = sc_master_age_ms c) by (by destruct c).
  destruct H1 as (Hs1 & Hc1 & Ha1). unfold sc_master_watchdog.
  assert (sc_is SCState.Idle c1 = false) as -> by (apply sc_is_false; congruence). cbn [negb].
  set (c2 := sc_with_master_age _ c1).
  assert (H2 : sc_state c2 = sc_state c1 /\ sc_config c2 = sc_config c1 /\
    sc_master_age_ms c2 = sat_add 32 (sc_master_age_ms c) e /\ sc_is SCState.Ready c2 = sc_is SCState.Ready c)
    by (unfold c2; rewrite Ha1; destruct c; done).
  destruct H2 as (Hs2 & Hc2 & Ha2 & Hr2). rewrite Ha2, Hc2, Hc1, Hr2. fold (master_limit c).
  destruct (_ && _) eqn:Eb.
  - left. rewrite (surjective_pairing (sc_transition _ c2)). cbn.
    destruct (transition_facts SCState.Error c2) as (F1 & _ & _).
    rewrite <- F1 at 2. by destruct (sc_transition SCState.Error c2).1.
  - pose proof (sc_busy_watchdog_cases e c2) as Hb.
    destruct (sc_busy_watchdog e c2) as [c3 [out|]]; [by left|].
    destruct Hb as (Hs3 & Ha3 & Hc3).
    assert (Hp : forall x, let x' := (sc_periodic x).1.1 in sc_state x' = sc_state x /\
      sc_config x' = sc_config x /\ sc_master_age_ms x' = sc_master_age_ms x).
    { clear. intros x. unfold sc_periodic. destruct x; unfold encode_client_status_now; cbn [fst snd]; repeat (case_match; try done). }
    destruct (Hp c3) as (Hs4 & Hc4 & Ha4).
    apply andb_false_iff in Eb as [Eb|Eb].
    + right. apply Z.leb_gt in Eb. split_and!; try congruence; exact Eb.
    + left. apply negb_false_iff, sc_is_true in Eb. congruence.
Qed.

Lemma sc_ticks_error es c : sc_state c = SCState.Error -> sc_state (sc_ticks es c) = SCState.Error.
Proof.
  revert c. induction es as [|e es IH]; intros c Hs; [done|]. cbn [sc_ticks]. apply IH.
  destruct (sc_update_ages e c) as [H|(H & _)]; congruence.
Qed.

(** Silence stops the sequence on both sides.  A running master that hears nothing from an
    enrolled client for that client's limit is in Error, and a client outside Idle that hears
    nothing from the master for its limit is in Error too, however the elapsed time is cut
    into updates. *)
Theorem sc_silence_stops config mops m mtr a l mes c ces :
  in_u 8 (cfg_required_client_count config) -> Forall scm_op_ok mops ->
  scm_run mops (SCMaster_new config) = Some (m, mtr) -> running (sm_state m) ->
  sm_client_seen m !! a = Some l -> 0 <= cl_age_ms l ->
  Forall (in_u 32) mes -> limit_for (sm_config m) (cl_reported l) < 2 ^ 32 ->
  cl_age_ms l < limit_for (sm_config m) (cl_reported l) <= cl_age_ms l + total mes ->
  sc_state c <> SCState.Idle -> 0 <= sc_master_age_ms c -> Forall (in_u 32) ces ->
  master_limit c < 2 ^ 32 ->
  sc_master_age_ms c < master_limit c <= sc_master_age_ms c + total ces ->
  sm_state (sm_ticks mes m) = SCState.Error /\ sc_state (sc_ticks ces c) = SCState.Error.
Proof.
  intros Hcfg Hops Hrun Hs Ha H0 Hmes Hu Hl Hni Hc0 Hces Hcu Hcl. split.
  - destruct (scm_run_moves mops _ (SCMaster_new_inv config Hcfg) Hops)
      as (m0 & t0 & E & (Hi & _)). rewrite Hrun in E. injection E as <- <-.
    by apply (sm_silence mes m a l).
  - clear -Hni Hc0 Hces Hcu Hcl. revert c Hni Hc0 Hcu Hcl.
    induction ces as [|e ces IH]; intros c Hni H0 Hu Hl; cbn in Hl; [lia|].
    apply Forall_cons in Hces as [He Hes]. cbn [sc_ticks].
    pose proof (sc_update_ages e c Hni) as Hage. fold (total ces) in Hl.
    destruct Hage as [Hs|(Hs & Hc & Ha & Hlim)]; [by apply sc_ticks_error|].
    unfold in_u in He.
    assert (Hsat : sat_add 32 (sc_master_age_ms c) e = sc_master_age_ms c + e)
      by (unfold sat_add in *; lia).
    assert (Hml : master_limit (sc_update e c).1.1 = master_limit c).
    { unfold master_limit, sc_is, StateMachine.is_state. unfold sc_state in Hs. by rewrite Hs, Hc. }
    apply IH; try done; rewrite ?Hml, ?Ha, ?Hs, ?Hsat; try done; lia.
Qed.

Definition sample_client_status (seq n : Z) (src : Address) : ScmOp :=
  OpClientStatus (status_message PGN_SC_CLIENT_STATUS src
                    [0x96; 1; n; seq; 0; 0xFF; 0xFF; 0xFF]).

(** A client that has been told to start. *)
Definition started_client : SCClient :=
  (sc_master_status SCMasterState.Active SCSequenceState.Ready 0xFF
     (SCClient_new SCClientConfig_default)).1.1.

Lemma sc_silence_stops_witness :
  exists m tr, scm_run (sample_plan ++ [sample_client_status 1 0xFF 0x30])
      (SCMaster_new SCMasterConfig_default) = Some (m, tr) /\
    sm_state m = SCState.Active /\ sm_state (sm_ticks [1000; 1000; 1000] m) = SCState.Error /\
    sc_state (sc_ticks [1000; 1000; 1000] started_client) = SCState.Error.
Proof.
  destruct (scm_run (sample_plan ++ [sample_client_status 1 0xFF 0x30])
    (SCMaster_new SCMasterConfig_default)) as [[m tr]|] eqn:E; [|vm_compute in E; discriminate E].
  exists m, tr. split; [reflexivity|].
  pose proof (sc_silence_stops SCMasterConfig_default
    (sample_plan ++ [sample_client_status 1 0xFF 0x30]) m tr 0x30
    (mkLiveness 0 SCSequenceState.Ready) [1000; 1000; 1000] started_client
    [1000; 1000; 1000]) as H.
  assert (Em : sm_state m = SCState.Active /\ sm_config m = SCMasterConfig_default /\
    sm_client_seen m !! 0x30 = Some (mkLiveness 0 SCSequenceState.Ready)).
  { vm_compute in E. injection E as <- <-. split; [reflexivity|split; reflexivity]. }
  destruct Em as (Es & Ec & Ea). split; [exact Es|]. rewrite Ec in H. apply H.
  - by vm_compute.
  - repeat constructor; cbn; lia.
  - exact E.
  - right. left. exact Es.
  - exact Ea.
  - cbn. lia.
  - repeat constructor; unfold in_u; lia.
  - vm_compute. reflexivity.
  - vm_compute. split; [reflexivity|discriminate].
  - vm_compute. discriminate.
  - vm_compute. discriminate.
  - repeat constructor; unfold in_u; lia.
  - vm_compute. reflexivity.
  - vm_compute. split; [reflexivity|discriminate].
Defined.

(** ** An abort is never left

    A master, its clients and everything they ever sent; a status may be lost, delayed,
    repeated or reordered, clocks and local commands are free. *)
Record ScSystem : Type := mkSystem {
  sys_master : SCMaster;
  sys_clients : gmap Z SCClient;
  sys_master_sent : list (list Z);
  sys_client_sent : list (Address * list Z)
}.

Inductive sys_step (addr : Address) : ScSystem -> ScSystem -> Prop :=
| sys_master_tick m cs ms sent e :
    sys_step addr (mkSystem m cs ms sent)
      (mkSystem (sm_update e m).1.1 cs (option_list (sm_update e m).2 ++ ms) sent)
| sys_master_command m cs ms sent op m' evs :
    match op with OpClientStatus _ | OpUpdate _ => False | _ => True end ->
    scm_op op m = Some (m', evs) -> sys_step addr (mkSystem m cs ms sent) (mkSystem m' cs ms sent)
| sys_master_receive m cs ms sent src d m' evs :
    (src, d) ∈ sent ->
    handle_client_status (status_message PGN_SC_CLIENT_STATUS src d) m = Some (m', evs) ->
    sys_step addr (mkSystem m cs ms sent) (mkSystem m' cs ms sent)
| sys_client_act m cs ms sent src c op c' evs out :
    cs !! src = Some c ->
    match op with OpcMasterStatus _ => False | _ => True end ->
    scc_op op c = Some (c', evs, out) ->
    sys_step addr (mkSystem m cs ms sent)
      (mkSystem m (<[src := c']> cs) ms (((src,.) <$> option_list out) ++ sent))
| sys_client_receive m cs ms sent src c d c' evs out :
    cs !! src = Some c -> d ∈ ms ->
    handle_master_status (status_message PGN_SC_MASTER_STATUS addr d) c = Some (c', evs, out) ->
    sys_step addr (mkSystem m cs ms sent)
      (mkSystem m (<[src := c']> cs) ms (((src,.) <$> option_list out) ++ sent)).

(** The payload of an Abort status. *)
Definition abort_payload (code : Z) (d : list Z) : Prop :=
  exists n x, d = [code; 1; n; 5; x; 0xFF; 0xFF; 0xFF] /\ in_u 8 n /\ in_u 8 x.

Record sys_aborted (s : ScSystem) : Prop := {
  sa_master : sm_state (sys_master s) = SCState.Error;
  sa_confirmed : sm_abort_confirmed (sys_master s) = ∅;
  sa_clients : map_Forall (fun _ c => sc_state c = SCState.Error /\ sc_inv c) (sys_clients s);
  sa_master_sent : Forall (abort_payload SC_MSG_CODE_MASTER) (sys_master_sent s);
  sa_client_sent : Forall (fun p => abort_payload SC_MSG_CODE_CLIENT p.2) (sys_client_sent s)
}.

Lemma abort_payload_bytes pgn src code d :
  in_u 8 code -> abort_payload code d -> bytes (m_data (status_message pgn src d)).
Proof. intros Hc (n & x & -> & Hn & Hx). cbn. repeat constructor; unfold in_u in *; lia. Qed.

Lemma client_abort_payload c :
  sc_state c = SCState.Error -> abort_payload SC_MSG_CODE_CLIENT (client_status c).
Proof.
  intros Es. exists (Z.land (sc_step_id c) 0xFF), 0.
  split; [|split; [by apply (in_u_land_ones 8)|by unfold in_u]].
  unfold client_status, iso_client_state, sc_is, StateMachine.is_state. fold (sc_state c).
  by rewrite Es.
Qed.

Lemma master_abort_payload m :
  sm_state m = SCState.Error -> abort_payload SC_MSG_CODE_MASTER (encode_master_status m).
Proof.
  intros Es. unfold encode_master_status, iso_master_state. rewrite Es. do 2 eexists.
  split; [done|]. split.
  - unfold current_sequence_number. repeat case_match;
      solve [by apply in_u_wrap | by vm_compute].
  - by destruct (sm_busy_nv_memory m), (sm_busy_parsing_scd m).
Qed.

Lemma decode_client_ok msg cs seq n :
  decode_client_status msg = Some (Ok (cs, seq, n)) ->
  SCClientState.try_from_u8 (msg_u8 msg 1) = Some cs /\
  SCSequenceState.try_from_u8 (msg_u8 msg 3) = Some seq.
Proof.
  unfold decode_client_status, sc_client_state_byte_is_valid, sc_sequence_state_byte_is_valid.
  repeat decode_step; try discriminate. by intros [= <- <- _].
Qed.

Lemma decode_master_ok msg ms seq n :
  decode_master_status msg = Some (Ok (ms, seq, n)) ->
  SCMasterState.try_from_u8 (msg_u8 msg 1) = Some ms /\
  SCSequenceState.try_from_u8 (msg_u8 msg 3) = Some seq.
Proof.
  unfold decode_master_status, sc_master_state_byte_is_valid, sc_sequence_state_byte_is_valid.
  repeat decode_step; try discriminate. by intros [= <- <- _].
Qed.

(** *** The master in Abort *)

Definition still_aborted (m m' : SCMaster) : Prop :=
  sm_state m = SCState.Error -> sm_abort_confirmed m = ∅ ->
  sm_state m' = SCState.Error /\ sm_abort_confirmed m' = ∅.

Lemma update_aborted e m : still_aborted m (sm_update e m).1.1.
Proof.
  intros Es Ec. destruct m as [? [st] ? ? ? ? ? ? ? ? ? ? ? ? ?].
  unfold sm_state in Es. cbn in Es, Ec. subst. unfold sm_update. cbn. by destruct (_ <=? _).
Qed.

Lemma command_aborted op m m' evs :
  match op with OpClientStatus _ | OpUpdate _ => False | _ => True end ->
  scm_op op m = Some (m', evs) -> still_aborted m m'.
Proof.
  intros Hop H Es Ec.
  assert (Hn : forall s, s <> SCState.Error -> sm_is s m = false).
  { intros s Hs. unfold sm_is, StateMachine.is_state. fold (sm_state m). rewrite Es.
    by apply bool_decide_eq_false_2. }
  destruct op; try done; cbn in H;
    unfold add_step, sm_start, sm_abort, sm_pause, sm_resume, step_completed, sm_refuse in H;
    rewrite ?Es in H; rewrite ?Hn in H by done; cbn in H; injection H as <- <-; try done;
    by destruct m.
Qed.

Lemma receive_aborted src d m m' evs :
  abort_payload SC_MSG_CODE_CLIENT d ->
  handle_client_status (status_message PGN_SC_CLIENT_STATUS src d) m = Some (m', evs) ->
  still_aborted m m'.
Proof.
  intros (n & x & -> & _ & _) H Es Ec. unfold handle_client_status, try_handle_client_status in H.
  destruct (decode_client_status_total (status_message PGN_SC_CLIENT_STATUS src
    [SC_MSG_CODE_CLIENT; 1; n; 5; x; 255; 255; 255])) as [r Hr]. rewrite Hr in H.
  cbn [mbind option_bind] in H. destruct r as [[[cs seq] k]|er]; [|by injection H as <- <-].
  apply decode_client_ok in Hr as [Hcs Hseq]. injection Hcs as <-. injection Hseq as <-.
  unfold sm_client_status in H. cbn [map_client_state] in H.
  set (m1 := sm_with_seen _ m) in H.
  assert (H1 : sm_state m1 = SCState.Error /\ sm_abort_confirmed m1 = ∅) by (by destruct m).
  destruct H1 as [Es1 Ec1]. rewrite Es1 in H.
  change (bool_decide (SCState.Error = SCState.Error)
    && negb (bool_decide (SCState.Error ∈ [SCState.Idle; SCState.Complete; SCState.Error])))
    with false in H.
  unfold sm_is, StateMachine.is_state in H. fold (sm_state m1) in H. rewrite Es1 in H.
  rewrite bool_decide_eq_true_2 in H by done. unfold sm_confirm_abort in H.
  rewrite bool_decide_eq_true_2 in H by done.
  set (m2 := sm_with_abort _ _ m1) in H.
  assert (H2 : sm_state m2 = SCState.Error /\ sm_abort_confirmed m2 = ∅).
  { split; [by destruct m1|]. transitivity (sm_abort_confirmed m1 ∖ {[src]}); [by destruct m1|].
    rewrite Ec1. set_solver. }
  destruct H2 as [Es2 Ec2]. rewrite Ec2, size_empty in H.
  rewrite (proj2 (Nat.leb_gt _ _)) in H by lia. by injection H as <- <-.
Qed.

(** *** The clients in Abort *)

Lemma act_aborted op c c' evs out :
  match op with OpcMasterStatus _ => False | _ => True end ->
  sc_state c = SCState.Error -> sc_inv c -> scc_op op c = Some (c', evs, out) ->
  sc_state c' = SCState.Error /\ sc_inv c' /\
  Forall (abort_payload SC_MSG_CODE_CLIENT) (option_list out).
Proof.
  intros Hop Es Hi H.
  assert (Hok : scc_op_ok op) by (by destruct op).
  destruct (scc_op_moves op c Hi Hok) as (c1 & e1 & o1 & E & (Hi1 & _ & _ & _ & Ho)).
  rewrite H in E. injection E as <- <- <-.
  assert (Es' : sc_state c' = SCState.Error).
  { destruct op; try done; cbn in H.
    - unfold set_busy in H. case_bool_decide; [by injection H as <- <- <-|].
      pose proof (request_inline_core (sc_with_busy b 0 c)) as Hr.
      destruct (request_status_send_inline _) as [c1 o]. injection H as <- <- <-.
      destruct Hr as [(_ & Hm & _) _]. unfold sc_state. rewrite Hm. by destruct c.
    - unfold report_step_complete in H.
      assert (sc_is SCState.Active c = false) as Hn by (apply sc_is_false; congruence).
      rewrite Hn in H. by injection H as <- <- <-.
    - injection H as H. pose proof (sc_update_ages elapsed_ms c) as Hage. rewrite H in Hage.
      destruct Hage as [Hx|[Hx _]]; cbn in *; congruence. }
  split; [done|]. split; [done|]. destruct out as [d|]; [|constructor].
  constructor; [|constructor]. rewrite (Ho d eq_refl). by apply client_abort_payload.
Qed.

Lemma follow_aborted addr d c c' evs out :
  abort_payload SC_MSG_CODE_MASTER d -> sc_state c = SCState.Error -> sc_inv c ->
  handle_master_status (status_message PGN_SC_MASTER_STATUS addr d) c = Some (c', evs, out) ->
  sc_state c' = SCState.Error /\ sc_inv c' /\
  Forall (abort_payload SC_MSG_CODE_CLIENT) (option_list out).
Proof.
  intros Hd Es Hi H.
  assert (Hb : bytes (m_data (status_message PGN_SC_MASTER_STATUS addr d)))
    by (by apply (abort_payload_bytes _ _ SC_MSG_CODE_MASTER)).
  destruct (scc_op_moves (OpcMasterStatus (status_message PGN_SC_MASTER_STATUS addr d)) c Hi Hb)
    as (c1 & e1 & o1 & E & (Hi1 & _ & _ & _ & Ho)).
  cbn [scc_op] in E. rewrite H in E. injection E as <- <- <-.
  assert (Es' : sc_state c' = SCState.Error).
  { destruct Hd as (n & x & -> & _ & _). unfold handle_master_status, try_handle_master_status in H.
    destruct (decode_master_status_cases _ Hb) as [[e He]|(ms & seq & He & _)]; rewrite He in H;
      [by injection H as <- <- <-|].
    apply decode_master_ok in He as [Hms Hseq]. injection Hms as <-. injection Hseq as <-.
    cbn [mbind option_bind] in H. unfold sc_master_status in H.
    change (map_master_state SCMasterState.Active SCSequenceState.Abort _) with SCState.Error in H.
    cbn [sc_follow] in H. rewrite (surjective_pairing (sc_transition _ _)) in H.
    destruct (transition_facts SCState.Error (sc_with_master_age 0 c)) as (F1 & _ & _).
    unfold sc_notify in H. pose proof (request_inline_core
      (sc_transition SCState.Error (sc_with_master_age 0 c)).1) as Hr.
    destruct (request_status_send_inline _) as [c1 o]. injection H as <- <- <-.
    destruct Hr as [(_ & Hm & _) _]. unfold sc_state in *. by rewrite Hm. }
  split; [done|]. split; [done|]. destruct out as [d'|]; [|constructor].
  constructor; [|constructor]. rewrite (Ho d' eq_refl). by apply client_abort_payload.
Qed.

Lemma sys_step_aborted addr s s' : sys_step addr s s' -> sys_aborted s -> sys_aborted s'.
Proof.
  intros Hst [Hm Hc Hcl Hms Hcs]. destruct Hst; cbn in *.
  - destruct (update_aborted e m Hm Hc) as [Hm' Hc']. split; cbn; try done.
    apply Forall_app. split; [|done]. pose proof (sm_update_status e m) as Hu.
    destruct (sm_update e m) as [[m' evs] [d|]]; cbn in *; [|constructor].
    constructor; [|constructor]. rewrite (Hu d eq_refl). by apply master_abort_payload.
  - destruct (command_aborted op m m' evs ltac:(done) ltac:(done) Hm Hc). by split.
  - pose proof (proj1 (Forall_forall _ _) Hcs _ ltac:(done)) as Hp.
    destruct (receive_aborted src d m m' evs Hp ltac:(done) Hm Hc). by split.
  - destruct (map_Forall_lookup_1 _ _ _ _ Hcl ltac:(eassumption)) as [Es Hi].
    destruct (act_aborted op c c' evs out) as (Es' & Hi' & Ho); try done.
    split; cbn; try done.
    + by apply map_Forall_insert_2.
    + apply Forall_app. split; [by apply Forall_fmap|done].
  - destruct (map_Forall_lookup_1 _ _ _ _ Hcl ltac:(eassumption)) as [Es Hi].
    pose proof (proj1 (Forall_forall _ _) Hms _ ltac:(done)) as Hp.
    destruct (follow_aborted addr d c c' evs out) as (Es' & Hi' & Ho); try done.
    split; cbn; try done.
    + by apply map_Forall_insert_2.
    + apply Forall_app. split; [by apply Forall_fmap|done].
Qed.

(** A client state some run reaches. *)
Definition scc_reachable (c : SCClient) : Prop :=
  exists g ops tr sent, Forall scc_op_ok ops /\ scc_run ops (SCClient_new g) = Some (c, tr, sent).

Lemma scc_reachable_inv c : scc_reachable c -> sc_inv c.
Proof.
  intros (g & ops & tr & sent & Hok & Hr).
  destruct (scc_run_moves ops _ (SCClient_new_inv g) Hok) as (c' & t & s & E & (Hi & _)).
  rewrite Hr in E. by injection E as <- _ _.
Qed.

(** An abort is never left.  Once the master has entered Abort and its clients have followed,
    no exchange of statuses, no passage of time and no local command on either side brings any
    of them out: the master waits for the clients to leave Abort before it re-arms, and the
    clients leave it only when the master does. *)
Theorem abort_deadlock addr s s' :
  sm_state (sys_master s) = SCState.Error -> sm_abort_confirmed (sys_master s) = ∅ ->
  map_Forall (fun _ c => sc_state c = SCState.Error /\ scc_reachable c) (sys_clients s) ->
  sys_master_sent s = [] -> sys_client_sent s = [] ->
  rtc (sys_step addr) s s' ->
  sm_state (sys_master s') = SCState.Error /\
  map_Forall (fun _ c => sc_state c = SCState.Error) (sys_clients s').
Proof.
  intros Hm Hc Hcl Hms Hcs Hr.
  assert (Ha : sys_aborted s).
  { split; try done; [|by rewrite Hms|by rewrite Hcs].
    intros i c Hi. destruct (Hcl i c Hi) as [Es Hre]. split; [done|by apply scc_reachable_inv]. }
  clear -Hr Ha. induction Hr as [s|s1 s2 s3 H12 H23 IH].
  - split; [apply Ha|]. intros i c Hi. apply (sa_clients _ Ha i c Hi).
  - apply IH. by eapply sys_step_aborted.
Qed.

Definition aborted_client_ops : list SccOp :=
  [ OpcMasterStatus (status_message PGN_SC_MASTER_STATUS 0x20 [0x95; 1; 0xFF; 1; 0xFC; 0xFF; 0xFF; 0xFF]);
    OpcMasterStatus (status_message PGN_SC_MASTER_STATUS 0x20 [0x95; 1; 7; 4; 0xFC; 0xFF; 0xFF; 0xFF]);
    OpcMasterStatus (status_message PGN_SC_MASTER_STATUS 0x20 [0x95; 1; 7; 5; 0xFC; 0xFF; 0xFF; 0xFF]) ].

Lemma abort_deadlock_witness :
  exists m tr c ctr sent s',
    scm_run (sample_plan ++ [sample_client_status 1 0xFF 0x30; sample_client_status 4 7 0x30; OpAbort])
      (SCMaster_new SCMasterConfig_default) = Some (m, tr) /\
    scc_run aborted_client_ops (SCClient_new SCClientConfig_default) = Some (c, ctr, sent) /\
    rtc (sys_step 0x20) (mkSystem m {[0x30 := c]} [] []) s' /\
    sm_state (sys_master s') = SCState.Error.
Proof.
  destruct (scm_run (sample_plan ++ [sample_client_status 1 0xFF 0x30;
    sample_client_status 4 7 0x30; OpAbort]) (SCMaster_new SCMasterConfig_default))
    as [[m tr]|] eqn:Em; [|vm_compute in Em; discriminate Em].
  destruct (scc_run aborted_client_ops (SCClient_new SCClientConfig_default))
    as [[[c ctr] sent]|] eqn:Ec; [|vm_compute in Ec; discriminate Ec].
  assert (Hm : sm_state m = SCState.Error /\ sm_abort_confirmed m = ∅).
  { vm_compute in Em. injection Em as <- <-. split; reflexivity. }
  assert (Hc : sc_state c = SCState.Error).
  { vm_compute in Ec. injection Ec as <- <- <-. reflexivity. }
  assert (Hr : scc_reachable c).
  { exists SCClientConfig_default, aborted_client_ops, ctr, sent. split; [|exact Ec].
    unfold aborted_client_ops. repeat constructor; unfold in_u; lia. }
  pose proof (sys_master_tick 0x20 m {[0x30 := c]} [] [] 100) as Hstep.
  set (s' := mkSystem (sm_update 100 m).1.1 _ _ _) in Hstep.
  exists m, tr, c, ctr, sent, s'.
  split; [reflexivity|]. split; [reflexivity|]. split; [exact (rtc_once _ _ Hstep)|].
  refine (proj1 (abort_deadlock 0x20 (mkSystem m {[0x30 := c]} [] []) s' _ _ _ _ _ _)).
  - exact (proj1 Hm).
  - exact (proj2 Hm).
  - apply map_Forall_singleton. split; [exact Hc|exact Hr].
  - reflexivity.
  - reflexivity.
  - exact (rtc_once _ _ Hstep).
Defined.

Definition two_clients : SCMasterConfig := with_required_client_count 2 SCMasterConfig_default.

(** Two clients play the first step, both report Abort, and then the first one goes offline. *)
Definition disabled_client_ops : list ScmOp :=
  sample_plan ++
  [ sample_client_status 1 0xFF 0x30; sample_client_status 1 0xFF 0x31;
    sample_client_status 4 7 0x30; sample_client_status 4 7 0x31;
    sample_client_status 5 7 0x30; sample_client_status 5 7 0x30; sample_client_status 5 7 0x31;
    OpClientStatus (status_message PGN_SC_CLIENT_STATUS 0x30
                      [0x96; 0; 0xFF; 0xFF; 0xFF; 0xFF; 0xFF; 0xFF]) ].

(** A client that switches itself off while the master is in Abort is struck from the clients
    whose confirmation is needed but still counts as a confirmation, so the master re-arms
    while another enabled client still reports Abort. *)
Theorem disabled_client_confirms_abort :
  exists m tr, scm_run disabled_client_ops (SCMaster_new two_clients) = Some (m, tr) /\
    sm_state m = SCState.Ready /\
    cl_reported <$> (sm_client_seen m !! 0x31) = Some SCSequenceState.Abort.
Proof.
  destruct (scm_run disabled_client_ops (SCMaster_new two_clients)) as [[m tr]|] eqn:E;
    vm_compute in E; [|discriminate E].
  exists m, tr. injection E as <- <-. by vm_compute.
Qed.
