(* ===== verification/Clock.v ===== *)
(** Time, the stop latch and ordered maps: the model of [src/time.rs] and [src/safety.rs], and of
    Rust's [BTreeMap], which the file server, its client and the heartbeat keep their tables in.

    An [Instant] is a count of microseconds in 64 bits.  [advance_millis] turns the instants a
    caller polls with into the elapsed milliseconds every timer of the stack runs on; the
    theorem shows that no polling rate makes it lose time. *)
From S2P Require Export Types.

Module Instant.
Abbreviation t := Z (only parsing).

Definition ZERO : t := 0.
Definition from_micros (micros : Z) : t := micros.
Definition from_millis (millis : Z) : t := Z.min (millis * 1000) (2 ^ 64 - 1).
Definition as_micros (i : t) : Z := i.
Definition as_millis (i : t) : Z := i / 1000.
Definition saturating_duration_since (i earlier : t) : Z := sat_sub i earlier.

Definition millis_since (i earlier : t) : Z :=
  let micros := sat_sub i earlier in
  let millis := micros / 1000 in
  if 2 ^ 32 - 1 <? millis then 2 ^ 32 - 1 else wrap 32 millis.

Definition add_micros (i : t) (micros : Z) : t := sat_add 64 i micros.
Definition add_millis (i : t) (millis : Z) : t :=
  sat_add 64 i (Z.min (millis * 1000) (2 ^ 64 - 1)).
End Instant.

(** [advance_millis]: the new [last] and the milliseconds to report. *)
Definition advance_millis (last : option Instant.t) (now : Instant.t) : option Instant.t * Z :=
  match last with
  | None => (Some now, 0)
  | Some previous =>
      let elapsed := Instant.millis_since now previous in
      (if 0 <? elapsed then Some (Instant.add_millis previous elapsed) else last, elapsed)
  end.

(** The times a caller that polls at [nows] reports, one per call. *)
Fixpoint poll (last : option Instant.t) (nows : list Instant.t) : option Instant.t * list Z :=
  match nows with
  | [] => (last, [])
  | now :: nows =>
      let '(last, e) := advance_millis last now in
      let '(last, es) := poll last nows in (last, e :: es)
  end.

(** ** [safety.rs] *)

Module SafeStopTrigger.
Inductive t : Type :=
| GuidanceLinkTimeout | HeartbeatError | IsbStop | BusOff | AddressClaimLost | OperatorOverride
| CommandStale | ClockWentBackwards | SendFailed (pgn : Pgn) | PositionStale | FixDegraded
| KeySwitchOff.

Definition as_code (s : t) : Z :=
  match s with
  | GuidanceLinkTimeout => 1 | HeartbeatError => 4 | IsbStop => 5 | BusOff => 6
  | AddressClaimLost => 7 | OperatorOverride => 8 | CommandStale => 9 | ClockWentBackwards => 10
  | SendFailed _ => 11 | PositionStale => 12 | FixDegraded => 13 | KeySwitchOff => 14
  end.
End SafeStopTrigger.

Record StopLatch : Type := mkLatch { latch_reason : option SafeStopTrigger.t }.

Definition StopLatch_new : StopLatch := mkLatch None.
Definition trip (trigger : SafeStopTrigger.t) (l : StopLatch) : StopLatch * bool :=
  match latch_reason l with
  | Some _ => (l, false)
  | None => (mkLatch (Some trigger), true)
  end.
Definition is_latched (l : StopLatch) : bool :=
  match latch_reason l with Some _ => true | None => false end.
Definition latch_clear (l : StopLatch) : StopLatch := mkLatch None.

Definition trip_all (ts : list SafeStopTrigger.t) (l : StopLatch) : StopLatch * list bool :=
  foldl (fun '(l, bs) t => let '(l, b) := trip t l in (l, bs ++ [b])) (l, []) ts.

(** ** No polling rate loses time *)

(** [nows] never goes back below [from], and no gap overflows a 32-bit count of
    milliseconds. *)
Fixpoint monotone (from : Instant.t) (nows : list Instant.t) : Prop :=
  match nows with
  | [] => True
  | now :: nows => from <= now < from + 1000 * (2 ^ 32 - 1) /\ now < 2 ^ 64 /\ monotone now nows
  end.

Definition sum (es : list Z) : Z := foldr Z.add 0 es.

Lemma advance_millis_some previous now :
  0 <= previous <= now -> now < 2 ^ 64 -> now < previous + 1000 * 2 ^ 32 ->
  exists previous', advance_millis (Some previous) now = (Some previous', (now - previous) / 1000)
    /\ previous' = previous + 1000 * ((now - previous) / 1000) /\ previous' <= now < previous' + 1000.
Proof.
  intros Hp Hn Hg. unfold advance_millis, Instant.millis_since, sat_sub.
  rewrite Z.max_l by lia. set (q := (now - previous) / 1000).
  assert (Hq : 0 <= q /\ 1000 * q <= now - previous < 1000 * q + 1000).
  { pose proof (Z.div_mod (now - previous) 1000 ltac:(lia)) as H1.
    pose proof (Z.mod_pos_bound (now - previous) 1000 ltac:(lia)) as H2.
    pose proof (Z.div_pos (now - previous) 1000 ltac:(lia) ltac:(lia)) as H3.
    fold q in H1, H3. lia. }
  rewrite (proj2 (Z.ltb_ge (2 ^ 32 - 1) q)) by lia. rewrite wrap_small by (unfold in_u; lia).
  destruct (Z.ltb_spec 0 q).
  - unfold Instant.add_millis, sat_add. eexists. split; [done|]. lia.
  - assert (q = 0) as -> by lia. eexists. split; [done|]. lia.
Qed.

Lemma last_instant (now from : Instant.t) nows : List.last (now :: nows) from = List.last nows now.
Proof.
  revert now. induction nows as [|x nows IH]; intros now; [done|]. cbn in *.
  destruct nows; [done|]. apply IH.
Qed.
(** The same for a caller that has polled before: [prev] is what it carries, [from] the last
    instant. *)
Lemma poll_no_drift nows from prev :
  0 <= prev <= from -> from < prev + 1000 -> from < 2 ^ 64 -> monotone from nows ->
  exists last', (poll (Some prev) nows).1 = Some last' /\
    sum (poll (Some prev) nows).2 = (List.last nows from - prev) / 1000 /\
    last' <= List.last nows from < last' + 1000.
Proof.
  revert from prev. induction nows as [|now nows IH]; intros from prev Hp Hg Hf Hm.
  { exists prev. cbn. split; [done|]. rewrite Z.div_small by lia. split; [done|lia]. }
  destruct Hm as (Hn & H64 & Hm). cbn [poll].
  destruct (advance_millis_some prev now) as (prev' & -> & Hp' & Hl); [lia..|].
  destruct (IH now prev') as (l & E1 & E2 & E3); [lia..|done|].
  destruct (poll (Some prev') nows) as [l' es]. cbn [fst snd] in *.
  rewrite last_instant. exists l. split; [done|]. split; [|done].
  cbn [sum foldr]. fold (sum es). rewrite E2, Hp'.
  replace (List.last nows now - (prev + 1000 * ((now - prev) / 1000)))
    with (List.last nows now - prev + (- ((now - prev) / 1000)) * 1000) by lia.
  rewrite Z.div_add by lia. lia.
Qed.
Lemma advance_millis_nonneg last now : 0 <= (advance_millis last now).2.
Proof.
  destruct last as [p|]; cbn; [|done]. unfold Instant.millis_since, sat_sub. cbv zeta.
  destruct (_ <? _); [done|]. unfold wrap. by apply Z.mod_pos_bound.
Qed.
Lemma poll_nonneg last nows : Forall (fun ms => 0 <= ms) (poll last nows).2.
Proof.
  revert last. induction nows as [|now nows IH]; intros last; cbn [poll]; [constructor|].
  assert (H := advance_millis_nonneg last now). destruct (advance_millis last now) as [l e].
  specialize (IH l). destruct (poll l nows) as [l' es]. by constructor.
Qed.

(** However the instants are spaced, the milliseconds reported add up to the whole
    milliseconds since the first call, and the carried instant lags the last one by less
    than a millisecond. *)
Theorem advance_millis_no_drift first nows :
  0 <= first < 2 ^ 64 -> monotone first nows ->
  exists last', poll None (first :: nows) = (Some last', 0 :: (poll (Some first) nows).2) /\
    sum (poll None (first :: nows)).2 = (List.last nows first - first) / 1000 /\
    last' <= List.last nows first < last' + 1000.
Proof.
  intros Hf Hm. destruct (poll_no_drift nows first first) as (l & E1 & E2 & E3); [lia|lia|lia|done|].
  exists l. cbn [poll advance_millis]. destruct (poll (Some first) nows) as [l' es].
  cbn [fst snd sum foldr] in *. fold (sum es). rewrite Z.add_0_l. by subst.
Qed.

Lemma advance_millis_no_drift_witness :
  sum (poll None [0; 400; 800; 1200; 1600; 2000]).2 = 2.
Proof.
  destruct (advance_millis_no_drift 0 [400; 800; 1200; 1600; 2000]) as (l & _ & H & _).
  - lia.
  - cbn. lia.
  - exact H.
Defined.

(** A latched latch refuses every further trigger and keeps its reason. *)
Lemma trip_all_latched ts l bs0 :
  latch_reason l <> None ->
  foldl (fun '(l, bs) t => let '(l, b) := trip t l in (l, bs ++ [b])) (l, bs0) ts
  = (l, bs0 ++ replicate (length ts) false).
Proof.
  revert bs0. induction ts as [|t ts IH]; intros bs0 Hl; cbn; [by rewrite app_nil_r|].
  unfold trip at 2. destruct (latch_reason l) eqn:E; [|done].
  rewrite IH by done. by rewrite <- app_assoc.
Qed.

(** The latch keeps the first trigger, reports the stop exactly once, and stays latched until
    it is cleared. *)
Theorem stop_latch_first ts l :
  let '(l', bs) := trip_all ts l in
  latch_reason l' = match latch_reason l with Some r => Some r | None => head ts end /\
  bs = match ts with
       | [] => []
       | _ :: ts' => bool_decide (latch_reason l = None) :: replicate (length ts') false
       end.
Proof.
  unfold trip_all. destruct ts as [|t ts]; cbn; [by destruct (latch_reason l)|].
  unfold trip at 2. destruct (latch_reason l) as [r|] eqn:E; cbn; rewrite trip_all_latched;
    cbn; try done; by rewrite E.
Qed.

(** ** [BTreeMap]

    The entries in ascending order of their keys.  [Ord K] is Rust's order on the keys. *)

Class Ord (K : Type) : Type := compare : K -> K -> comparison.
Class OrdLaws (K : Type) `{Ord K} : Prop := {
  compare_eq : forall a b : K, compare a b = Eq <-> a = b;
  compare_antisym : forall a b : K, compare a b = CompOpp (compare b a);
  compare_trans : forall a b c : K, compare a b = Lt -> compare b c = Lt -> compare a c = Lt
}.
#[export] Instance ord_Z : Ord Z := Z.compare.
(** Strings are ordered byte by byte. *)
Fixpoint compare_bytes (a b : list Z) : comparison :=
  match a, b with
  | [], [] => Eq
  | [], _ => Lt
  | _, [] => Gt
  | x :: a, y :: b => match x ?= y with Eq => compare_bytes a b | c => c end
  end.
#[export] Instance ord_bytes : Ord (list Z) := compare_bytes.

Module BTreeMap.
Section map.
Context {K V : Type} `{Ord K}.
Definition t : Type := list (K * V).
Fixpoint get (k : K) (m : t) : option V :=
  match m with
  | [] => None
  | (k', v) :: m => match compare k k' with Eq => Some v | _ => get k m end
  end.
Fixpoint insert (k : K) (v : V) (m : t) : t :=
  match m with
  | [] => [(k, v)]
  | (k', v') :: r =>
      match compare k k' with
      | Lt => (k, v) :: m
      | Eq => (k, v) :: r
      | Gt => (k', v') :: insert k v r
      end
  end.
Fixpoint remove (k : K) (m : t) : t :=
  match m with
  | [] => []
  | (k', v') :: m => match compare k k' with Eq => remove k m | _ => (k', v') :: remove k m end
  end.
Definition contains_key (k : K) (m : t) : bool := bool_decide (is_Some (get k m)).
(** [entry(k).or_insert_with(f)]. *)
Definition or_insert (k : K) (v : V) (m : t) : t :=
  match get k m with Some _ => m | None => insert k v m end.
(** [get_mut(k)] and an assignment through it. *)
Definition update (k : K) (f : V -> V) (m : t) : t :=
  match get k m with Some v => insert k (f v) m | None => m end.
Definition map_values (f : V -> V) (m : t) : t := (fun '(k, v) => (k, f v)) <$> m.
Definition retain (p : K -> V -> bool) (m : t) : t :=
  List.filter (fun e : K * V => p e.1 e.2) m.
Definition values (m : t) : list V := m.*2.
Definition keys (m : t) : list K := m.*1.
(** Ascending keys: what every map built from the empty one satisfies. *)
Inductive sorted : t -> Prop :=
| sorted_nil : sorted []
| sorted_cons k v m :
    Forall (fun e : K * V => compare k e.1 = Lt) m -> sorted m -> sorted ((k, v) :: m).
End map.
Arguments t : clear implicits.
End BTreeMap.
