(* ===== verification/DdiDatabase.v ===== *)
(** The data dictionary of ISO 11783-11: the model of [src/isobus/tc/ddi_database/].

    [DDI_DATABASE] is the generated table with its 760 entries; a [resolution] is kept as the
    bit pattern of its 64-bit float, which is all the modelled code reads of it.  The theorems
    check the table against the fingerprint the source publishes, and what the category
    predicates decided from it promise each other. *)
From Stdlib Require Import String Ascii Sorted.
From S2P Require Export Types Name.

Record DDIDefinition : Type := mkDdi {
  def_ddi : Z;
  def_name : string;
  def_unit : string;
  def_resolution_bits : Z;
  def_min_value : Z;
  def_max_value : Z
}.

#[local] Open Scope string_scope.
#[local] Open Scope Z_scope.
Definition DDI_DATABASE : list DDIDefinition := [
  mkDdi 0 "Internal Data Base DDI" "" 0x3FF0000000000000 0 2147483647;
  mkDdi 1 "Setpoint Volume Per Area Application Rate" "mm3/m2" 0x3F847AE147AE147B 0 2147483647;
  mkDdi 2 "Actual Volume Per Area Application Rate" "mm3/m2" 0x3F847AE147AE147B 0 2147483647;
  mkDdi 3 "Default Volume Per Area Application Rate" "mm3/m2" 0x3F847AE147AE147B 0 2147483647;
  mkDdi 4 "Minimum Volume Per Area Application Rate" "mm3/m2" 0x3F847AE147AE147B 0 2147483647;
  mkDdi 5 "Maximum Volume Per Area Application Rate" "mm3/m2" 0x3F847AE147AE147B 0 2147483647;
  mkDdi 6 "Setpoint Mass Per Area Application Rate" "mg/m2" 0x3FF0000000000000 0 2147483647;
  mkDdi 7 "Actual Mass Per Area Application Rate" "mg/m2" 0x3FF0000000000000 0 2147483647;
  mkDdi 8 "Default Mass Per Area Application Rate" "mg/m2" 0x3FF0000000000000 0 2147483647;
  mkDdi 9 "Minimum Mass Per Area Application Rate" "mg/m2" 0x3FF0000000000000 0 2147483647;
  mkDdi 10 "Maximum Mass Per Area Application Rate" "mg/m2" 0x3FF0000000000000 0 2147483647;
  mkDdi 11 "Setpoint Count Per Area Application Rate" "/m2" 0x3F50624DD2F1A9FC 0 2147483647;
  mkDdi 12 "Actual Count Per Area Application Rate" "/m2" 0x3F50624DD2F1A9FC 0 2147483647;
  mkDdi 13 "Default Count Per Area Application Rate" "/m2" 0x3F50624DD2F1A9FC 0 2147483647;
  mkDdi 14 "Minimum Count Per Area Application Rate" "/m2" 0x3F50624DD2F1A9FC 0 2147483647;
  mkDdi 15 "Maximum Count Per Area Application Rate" "/m2" 0x3F50624DD2F1A9FC 0 2147483647;
  mkDdi 16 "Setpoint Spacing Application Rate" "mm" 0x3FF0000000000000 0 2147483647;
  mkDdi 17 "Actual Spacing Application Rate" "mm" 0x3FF0000000000000 0 2147483647;
  mkDdi 18 "Default Spacing Application Rate" "mm" 0x3FF0000000000000 0 2147483647;
  mkDdi 19 "Minimum Spacing Application Rate" "mm" 0x3FF0000000000000 0 2147483647;
  mkDdi 20 "Maximum Spacing Application Rate" "mm" 0x3FF0000000000000 0 2147483647;
  mkDdi 21 "Setpoint Volume Per Volume Application Rate" "mm3/m3" 0x3FF0000000000000 0 2147483647;
  mkDdi 22 "Actual Volume Per Volume Application Rate" "mm3/m3" 0x3FF0000000000000 0 2147483647;
  mkDdi 23 "Default Volume Per Volume Application Rate" "mm3/m3" 0x3FF0000000000000 0 2147483647;
  mkDdi 24 "Minimum Volume Per Volume Application Rate" "mm3/m3" 0x3FF0000000000000 0 2147483647;
  mkDdi 25 "Maximum Volume Per Volume Application Rate" "mm3/m3" 0x3FF0000000000000 0 2147483647;
  mkDdi 26 "Setpoint Mass Per Mass Application Rate" "mg/kg" 0x3FF0000000000000 0 2147483647;
  mkDdi 27 "Actual Mass Per Mass Application Rate" "mg/kg" 0x3FF0000000000000 0 2147483647;
  mkDdi 28 "Default Mass Per Mass Application Rate" "mg/kg" 0x3FF0000000000000 0 2147483647;
  mkDdi 29 "Minimum Mass Per Mass Application Rate" "mg/kg" 0x3FF0000000000000 0 2147483647;
  mkDdi 30 "MaximumMass Per Mass Application Rate" "mg/kg" 0x3FF0000000000000 0 2147483647;
  mkDdi 31 "Setpoint Volume Per Mass Application Rate" "mm3/kg" 0x3FF0000000000000 0 2147483647;
  mkDdi 32 "Actual Volume Per Mass Application Rate" "mm3/kg" 0x3FF0000000000000 0 2147483647;
  mkDdi 33 "Default Volume Per Mass Application Rate" "mm3/kg" 0x3FF0000000000000 0 2147483647;
  mkDdi 34 "Minimum Volume Per Mass Application Rate" "mm3/kg" 0x3FF0000000000000 0 2147483647;
  mkDdi 35 "Maximum Volume Per Mass Application Rate" "mm3/kg" 0x3FF0000000000000 0 2147483647;
  mkDdi 36 "Setpoint Volume Per Time Application Rate" "mm3/s" 0x3FF0000000000000 0 2147483647;
  mkDdi 37 "Actual Volume Per Time Application Rate" "mm3/s" 0x3FF0000000000000 0 2147483647;
  mkDdi 38 "Default Volume Per Time Application Rate" "mm3/s" 0x3FF0000000000000 0 2147483647;
  mkDdi 39 "Minimum Volume Per Time Application Rate" "mm3/s" 0x3FF0000000000000 0 2147483647;
  mkDdi 40 "Maximum Volume Per Time Application Rate" "mm3/s" 0x3FF0000000000000 0 2147483647;
  mkDdi 41 "Setpoint Mass Per Time Application Rate" "mg/s" 0x3FF0000000000000 0 2147483647;
  mkDdi 42 "Actual Mass Per Time Application Rate" "mg/s" 0x3FF0000000000000 0 2147483647;
  mkDdi 43 "Default Mass Per Time Application Rate" "mg/s" 0x3FF0000000000000 0 2147483647;
  mkDdi 44 "Minimum Mass Per Time Application Rate" "mg/s" 0x3FF0000000000000 0 2147483647;
  mkDdi 45 "Maximum Mass Per Time Application Rate" "mg/s" 0x3FF0000000000000 0 2147483647;
  mkDdi 46 "Setpoint Count Per Time Application Rate" "/s" 0x3F50624DD2F1A9FC 0 2147483647;
  mkDdi 47 "Actual Count Per Time Application Rate" "/s" 0x3F50624DD2F1A9FC 0 2147483647;
  mkDdi 48 "Default Count Per Time Application Rate" "/s" 0x3F50624DD2F1A9FC 0 2147483647;
  mkDdi 49 "Minimum Count Per Time Application Rate" "/s" 0x3F50624DD2F1A9FC 0 2147483647;
  mkDdi 50 "Maximum Count Per Time Application Rate" "/s" 0x3F50624DD2F1A9FC 0 2147483647;
  mkDdi 51 "Setpoint Tillage Depth" "mm" 0x3FF0000000000000 (-2147483648) 2147483647;
  mkDdi 52 "Actual Tillage Depth" "mm" 0x3FF0000000000000 (-2147483648) 2147483647;
  mkDdi 53 "Default Tillage Depth" "mm" 0x3FF0000000000000 (-2147483648) 2147483647;
  mkDdi 54 "Minimum Tillage Depth" "mm" 0x3FF0000000000000 (-2147483648) 2147483647;
  mkDdi 55 "Maximum Tillage Depth" "mm" 0x3FF0000000000000 (-2147483648) 2147483647;
  mkDdi 56 "Setpoint Seeding Depth" "mm" 0x3FF0000000000000 0 2147483647;
  mkDdi 57 "Actual Seeding Depth" "mm" 0x3FF0000000000000 0 2147483647;
  mkDdi 58 "Default Seeding Depth" "mm" 0x3FF0000000000000 0 2147483647;
  mkDdi 59 "Minimum Seeding Depth" "mm" 0x3FF0000000000000 0 2147483647;
  mkDdi 60 "Maximum Seeding Depth" "mm" 0x3FF0000000000000 0 2147483647;
  mkDdi 61 "Setpoint Working Height" "mm" 0x3FF0000000000000 0 2147483647;
  mkDdi 62 "Actual Working Height" "mm" 0x3FF0000000000000 0 2147483647;
  mkDdi 63 "Default Working Height" "mm" 0x3FF0000000000000 0 2147483647;
  mkDdi 64 "Minimum Working Height" "mm" 0x3FF0000000000000 0 2147483647;
  mkDdi 65 "Maximum Working Height" "mm" 0x3FF0000000000000 0 2147483647;
  mkDdi 66 "Setpoint Working Width" "mm" 0x3FF0000000000000 0 2147483647;
  mkDdi 67 "Actual Working Width" "mm" 0x3FF0000000000000 0 2147483647;
  mkDdi 68 "Default Working Width" "mm" 0x3FF0000000000000 0 2147483647;
  mkDdi 69 "Minimum Working Width" "mm" 0x3FF0000000000000 0 2147483647;
  mkDdi 70 "Maximum Working Width" "mm" 0x3FF0000000000000 0 2147483647;
  mkDdi 71 "Setpoint Volume Content" "ml" 0x3FF0000000000000 0 2147483647;
  mkDdi 72 "Actual Volume Content" "ml" 0x3FF0000000000000 0 2147483647;
  mkDdi 73 "Maximum Volume Content" "ml" 0x3FF0000000000000 0 2147483647;
  mkDdi 74 "Setpoint Mass Content" "g" 0x3FF0000000000000 0 2147483647;
  mkDdi 75 "Actual Mass Content" "g" 0x3FF0000000000000 (-2147483648) 2147483647;
  mkDdi 76 "Maximum Mass Content" "g" 0x3FF0000000000000 0 2147483647;
  mkDdi 77 "Setpoint Count Content" "#" 0x3FF0000000000000 0 2147483647;
  mkDdi 78 "Actual Count Content" "#" 0x3FF0000000000000 0 2147483647;
  mkDdi 79 "Maximum Count Content" "#" 0x3FF0000000000000 0 2147483647;
  mkDdi 80 "Application Total Volume" "L" 0x3FF0000000000000 0 2147483647;
  mkDdi 81 "Application Total Mass" "kg" 0x3FF0000000000000 0 2147483647;
  mkDdi 82 "Application Total Count" "#" 0x3FF0000000000000 0 2147483647;
  mkDdi 83 "Volume Per Area Yield" "ml/m2" 0x3FF0000000000000 0 2147483647;
  mkDdi 84 "Mass Per Area Yield" "mg/m2" 0x3FF0000000000000 0 2147483647;
  mkDdi 85 "Count Per Area Yield" "/m2" 0x3F50624DD2F1A9FC 0 2147483647;
  mkDdi 86 "Volume Per Time Yield" "ml/s" 0x3FF0000000000000 0 2147483647;
  mkDdi 87 "Mass Per Time Yield" "mg/s" 0x3FF0000000000000 0 2147483647;
  mkDdi 88 "Count Per Time Yield" "/s" 0x3F50624DD2F1A9FC 0 2147483647;
  mkDdi 89 "Yield Total Volume" "L" 0x3FF0000000000000 0 2147483647;
  mkDdi 90 "Yield Total Mass" "kg" 0x3FF0000000000000 0 2147483647;
  mkDdi 91 "Yield Total Count" "#" 0x3FF0000000000000 0 2147483647;
  mkDdi 92 "Volume Per Area Crop Loss" "ml/m2" 0x3FF0000000000000 0 2147483647;
  mkDdi 93 "Mass Per Area Crop Loss" "mg/m2" 0x3FF0000000000000 0 2147483647;
  mkDdi 94 "Count Per Area Crop Loss" "/m2" 0x3F50624DD2F1A9FC 0 2147483647;
  mkDdi 95 "Volume Per Time Crop Loss" "ml/s" 0x3FF0000000000000 0 2147483647;
  mkDdi 96 "Mass Per Time Crop Loss" "mg/s" 0x3FF0000000000000 0 2147483647;
  mkDdi 97 "Count Per Time Crop Loss" "/s" 0x3F50624DD2F1A9FC 0 2147483647;
  mkDdi 98 "Percentage Crop Loss" "ppm" 0x3FF0000000000000 0 2147483647;
  mkDdi 99 "Crop Moisture" "ppm" 0x3FF0000000000000 0 2147483647;
  mkDdi 100 "Crop Contamination" "ppm" 0x3FF0000000000000 0 2147483647;
  mkDdi 101 "Setpoint Bale Width" "mm" 0x3FF0000000000000 0 2147483647;
  mkDdi 102 "Actual Bale Width" "mm" 0x3FF0000000000000 0 2147483647;
  mkDdi 103 "Default Bale Width" "mm" 0x3FF0000000000000 0 2147483647;
  mkDdi 104 "Minimum Bale Width" "mm" 0x3FF0000000000000 0 2147483647;
  mkDdi 105 "Maximum Bale Width" "mm" 0x3FF0000000000000 0 2147483647;
  mkDdi 106 "Setpoint Bale Height" "mm" 0x3FF0000000000000 0 2147483647;
  mkDdi 107 "Actual Bale Height" "mm" 0x3FF0000000000000 0 2147483647;
  mkDdi 108 "Default Bale Height" "mm" 0x3FF0000000000000 0 2147483647;
  mkDdi 109 "Minimum Bale Height" "mm" 0x3FF0000000000000 0 2147483647;
  mkDdi 110 "Maximum Bale Height" "mm" 0x3FF0000000000000 0 2147483647;
  mkDdi 111 "Setpoint Bale Size" "mm" 0x3FF0000000000000 0 2147483647;
  mkDdi 112 "Actual Bale Size" "mm" 0x3FF0000000000000 0 2147483647;
  mkDdi 113 "Default Bale Size" "mm" 0x3FF0000000000000 0 2147483647;
  mkDdi 114 "Minimum Bale Size" "mm" 0x3FF0000000000000 0 2147483647;
  mkDdi 115 "Maximum Bale Size" "mm" 0x3FF0000000000000 0 2147483647;
  mkDdi 116 "Total Area" "m2" 0x3FF0000000000000 0 2147483647;
  mkDdi 117 "Effective Total Distance" "mm" 0x3FF0000000000000 0 2147483647;
  mkDdi 118 "Ineffective Total Distance" "mm" 0x3FF0000000000000 0 2147483647;
  mkDdi 119 "Effective Total Time" "s" 0x3FF0000000000000 0 2147483647;
  mkDdi 120 "Ineffective Total Time" "s" 0x3FF0000000000000 0 2147483647;
  mkDdi 121 "Product Density Mass Per Volume" "mg/l" 0x3FF0000000000000 0 2147483647;
  mkDdi 122 "Product Density Mass PerCount" "mg/1000" 0x3FF0000000000000 0 2147483647;
  mkDdi 123 "Product Density Volume Per Count" "ml/1000" 0x3FF0000000000000 0 2147483647;
  mkDdi 124 "Auxiliary Valve Scaling Extend" "%" 0x3FB999999999999A (-2147483648) 2147483647;
  mkDdi 125 "Auxiliary Valve Scaling Retract" "%" 0x3FB999999999999A (-2147483648) 2147483647;
  mkDdi 126 "Auxiliary Valve Ramp Extend Up" "ms" 0x3FF0000000000000 (-2147483648) 2147483647;
  mkDdi 127 "Auxiliary Valve Ramp Extend Down" "ms" 0x3FF0000000000000 (-2147483648) 2147483647;
  mkDdi 128 "Auxiliary Valve Ramp Retract Up" "ms" 0x3FF0000000000000 (-2147483648) 2147483647;
  mkDdi 129 "Auxiliary Valve Ramp Retract Down" "ms" 0x3FF0000000000000 (-2147483648) 2147483647;
  mkDdi 130 "Auxiliary Valve Float Threshold" "%" 0x3FB999999999999A (-2147483648) 2147483647;
  mkDdi 131 "Auxiliary Valve Progressivity Extend" "n.a. -" 0x3FF0000000000000 (-2147483648) 2147483647;
  mkDdi 132 "Auxiliary Valve Progressivity Retract" "n.a. -" 0x3FF0000000000000 (-2147483648) 2147483647;
  mkDdi 133 "Auxiliary Valve Invert Ports" "n.a. -" 0x3FF0000000000000 (-2147483648) 2147483647;
  mkDdi 134 "Device Element Offset X" "mm" 0x3FF0000000000000 (-2147483648) 2147483647;
  mkDdi 135 "Device Element Offset Y" "mm" 0x3FF0000000000000 (-2147483648) 2147483647;
  mkDdi 136 "Device Element Offset Z" "mm" 0x3FF0000000000000 (-2147483648) 2147483647;
  mkDdi 137 "Device Volume Capacity (Deprecated)" "ml" 0x3FF0000000000000 0 2147483647;
  mkDdi 138 "Device Mass Capacity (Deprecated)" "g" 0x3FF0000000000000 0 2147483647;
  mkDdi 139 "Device Count Capacity (Deprecated)" "#" 0x3FF0000000000000 0 2147483647;
  mkDdi 140 "Setpoint Percentage Application Rate" "ppm" 0x3FF0000000000000 0 2147483647;
  mkDdi 141 "Actual Work State" "n.a. -" 0x3FF0000000000000 0 3;
  mkDdi 142 "Physical Setpoint Time Latency" "ms" 0x3FF0000000000000 0 2147483647;
  mkDdi 143 "Physical Actual Value Time Latency" "ms" 0x3FF0000000000000 (-2147483648) 2147483647;
  mkDdi 144 "Yaw Angle" "deg" 0x3F50624DD2F1A9FC (-180000) 180000;
  mkDdi 145 "Roll Angle" "deg" 0x3F50624DD2F1A9FC (-180000) 180000;
  mkDdi 146 "Pitch Angle" "deg" 0x3F50624DD2F1A9FC (-180000) 180000;
  mkDdi 147 "Log Count" "n.a. -" 0x3FF0000000000000 0 2147483647;
  mkDdi 148 "Total Fuel Consumption" "ml" 0x3FF0000000000000 0 2147483647;
  mkDdi 149 "Instantaneous Fuel Consumption per Time" "mm3/s" 0x3FF0000000000000 0 2147483647;
  mkDdi 150 "Instantaneous Fuel Consumption per Area" "mm3/m2" 0x3FF0000000000000 0 2147483647;
  mkDdi 151 "Instantaneous Area Per Time Capacity" "mm2/s" 0x3FF0000000000000 0 2147483647;
  mkDdi 153 "Actual Normalized Difference Vegetative Index (NDVI)" "n.a. -" 0x3F50624DD2F1A9FC (-1000) 1000;
  mkDdi 154 "Physical Object Length" "mm" 0x3FF0000000000000 0 2147483647;
  mkDdi 155 "Physical Object Width" "mm" 0x3FF0000000000000 0 2147483647;
  mkDdi 156 "Physical Object Height" "mm" 0x3FF0000000000000 0 2147483647;
  mkDdi 157 "Connector Type" "n.a. -" 0x3FF0000000000000 (-1) 10;
  mkDdi 158 "Prescription Control State" "n.a. -" 0x3FF0000000000000 0 3;
  mkDdi 159 "Number of Sub-Units per Section" "#" 0x3FF0000000000000 0 2147483647;
  mkDdi 160 "Section Control State" "n.a. -" 0x3FF0000000000000 0 3;
  mkDdi 161 "Actual Condensed Work State (1-16)" "n.a. -" 0x3FF0000000000000 0 4294967295;
  mkDdi 162 "Actual Condensed Work State (17-32)" "n.a. -" 0x3FF0000000000000 0 4294967295;
  mkDdi 163 "Actual Condensed Work State (33-48)" "n.a. -" 0x3FF0000000000000 0 4294967295;
  mkDdi 164 "Actual Condensed Work State (49-64)" "n.a. -" 0x3FF0000000000000 0 4294967295;
  mkDdi 165 "Actual Condensed Work State (65-80)" "n.a. -" 0x3FF0000000000000 0 4294967295;
  mkDdi 166 "Actual Condensed Work State (81-96)" "n.a. -" 0x3FF0000000000000 0 4294967295;
  mkDdi 167 "Actual Condensed Work State (97-112)" "n.a. -" 0x3FF0000000000000 0 4294967295;
  mkDdi 168 "Actual Condensed Work State (113-128)" "n.a. -" 0x3FF0000000000000 0 4294967295;
  mkDdi 169 "Actual Condensed Work State (129-144)" "n.a. -" 0x3FF0000000000000 0 4294967295;
  mkDdi 170 "Actual Condensed Work State (145-160)" "n.a. -" 0x3FF0000000000000 0 4294967295;
  mkDdi 171 "Actual Condensed Work State (161-176)" "n.a. -" 0x3FF0000000000000 0 4294967295;
  mkDdi 172 "Actual Condensed Work State (177-192)" "n.a. -" 0x3FF0000000000000 0 4294967295;
  mkDdi 173 "Actual Condensed Work State (193-208)" "n.a. -" 0x3FF0000000000000 0 4294967295;
  mkDdi 174 "Actual Condensed Work State (209-224)" "n.a. -" 0x3FF0000000000000 0 4294967295;
  mkDdi 175 "Actual Condensed Work State (225-240)" "n.a. -" 0x3FF0000000000000 0 4294967295;
  mkDdi 176 "Actual Condensed Work State (241-256)" "n.a. -" 0x3FF0000000000000 0 4294967295;
  mkDdi 177 "Actual length of cut" "mm" 0x3F50624DD2F1A9FC 0 2147483647;
  mkDdi 178 "Element Type Instance" "n.a. -" 0x3FF0000000000000 0 65533;
  mkDdi 179 "Actual Cultural Practice" "n.a. -" 0x3FF0000000000000 0 2147483647;
  mkDdi 180 "Device Reference Point (DRP) to Ground distance" "mm" 0x3FF0000000000000 (-2147483648) 2147483647;
  mkDdi 181 "Dry Mass Per Area Yield" "mg/m2" 0x3FF0000000000000 0 2147483647;
  mkDdi 182 "Dry Mass Per Time Yield" "mg/s" 0x3FF0000000000000 0 2147483647;
  mkDdi 183 "Yield Total Dry Mass" "kg" 0x3FF0000000000000 0 2147483647;
  mkDdi 184 "Reference Moisture For Dry Mass" "ppm" 0x3FF0000000000000 0 2147483647;
  mkDdi 185 "Seed Cotton Mass Per Area Yield" "mg/m2" 0x3FF0000000000000 0 2147483647;
  mkDdi 186 "Lint Cotton Mass Per Area Yield" "mg/m2" 0x3FF0000000000000 0 2147483647;
  mkDdi 187 "Seed Cotton Mass Per Time Yield" "mg/s" 0x3FF0000000000000 0 2147483647;
  mkDdi 188 "Lint Cotton Mass Per Time Yield" "mg/s" 0x3FF0000000000000 0 2147483647;
  mkDdi 189 "Yield Total Seed Cotton Mass" "kg" 0x3FF0000000000000 0 2147483647;
  mkDdi 190 "Yield Total Lint Cotton Mass" "kg" 0x3FF0000000000000 0 2147483647;
  mkDdi 191 "Lint Turnout Percentage" "ppm" 0x3FF0000000000000 0 2147483647;
  mkDdi 192 "Ambient temperature" "mK" 0x3FF0000000000000 0 1000000;
  mkDdi 193 "Setpoint Product Pressure" "Pa" 0x3FB999999999999A (-2147483648) 2147483647;
  mkDdi 194 "Actual Product Pressure" "Pa" 0x3FB999999999999A (-2147483648) 2147483647;
  mkDdi 195 "Minimum Product Pressure" "Pa" 0x3FB999999999999A (-2147483648) 2147483647;
  mkDdi 196 "Maximum Product Pressure" "Pa" 0x3FB999999999999A (-2147483648) 2147483647;
  mkDdi 197 "Setpoint Pump Output Pressure" "Pa" 0x3FB999999999999A (-2147483648) 2147483647;
  mkDdi 198 "Actual Pump Output Pressure" "Pa" 0x3FB999999999999A (-2147483648) 2147483647;
  mkDdi 199 "Minimum Pump Output Pressure" "Pa" 0x3FB999999999999A (-2147483648) 2147483647;
  mkDdi 200 "Maximum Pump Output Pressure" "Pa" 0x3FB999999999999A (-2147483648) 2147483647;
  mkDdi 201 "Setpoint Tank Agitation Pressure" "Pa" 0x3FB999999999999A (-2147483648) 2147483647;
  mkDdi 202 "Actual Tank Agitation Pressure" "Pa" 0x3FB999999999999A (-2147483648) 2147483647;
  mkDdi 203 "Minimum Tank Agitation Pressure" "Pa" 0x3FB999999999999A (-2147483648) 2147483647;
  mkDdi 204 "Maximum Tank Agitation Pressure" "Pa" 0x3FB999999999999A (-2147483648) 2147483647;
  mkDdi 205 "SC Setpoint Turn On Time" "ms" 0x3FF0000000000000 (-2147483648) 2147483647;
  mkDdi 206 "SC Setpoint Turn Off Time" "ms" 0x3FF0000000000000 (-2147483648) 2147483647;
  mkDdi 207 "Wind speed" "mm/s" 0x3FF0000000000000 0 100000000;
  mkDdi 208 "Wind direction" "deg" 0x3FF0000000000000 0 359;
  mkDdi 209 "Relative Humidity" "%" 0x3FF0000000000000 0 100;
  mkDdi 210 "Sky conditions" "n.a. -" 0x3FF0000000000000 0 2147483647;
  mkDdi 211 "Last Bale Flakes per Bale" "#" 0x3FF0000000000000 0 1000;
  mkDdi 212 "Last Bale Average Moisture" "ppm" 0x3FF0000000000000 0 100000000;
  mkDdi 213 "Last Bale Average Strokes per Flake" "#" 0x3FF0000000000000 0 1000;
  mkDdi 214 "Lifetime Bale Count" "#" 0x3FF0000000000000 0 2147483647;
  mkDdi 215 "Lifetime Working Hours" "h" 0x3FA999999999999A 0 2147483647;
  mkDdi 216 "Actual Bale Hydraulic Pressure" "Pa" 0x3FF0000000000000 0 2147483647;
  mkDdi 217 "Last Bale Average Hydraulic Pressure" "Pa" 0x3FF0000000000000 0 2147483647;
  mkDdi 218 "Setpoint Bale Compression Plunger Load" "ppm" 0x3FF0000000000000 0 2147483647;
  mkDdi 219 "Actual Bale Compression Plunger Load" "ppm" 0x3FF0000000000000 0 2147483647;
  mkDdi 220 "Last Bale Average Bale Compression Plunger Load" "ppm" 0x3FF0000000000000 0 2147483647;
  mkDdi 221 "Last Bale Applied Preservative" "ml" 0x3FF0000000000000 0 2147483647;
  mkDdi 222 "Last Bale Tag Number" "n.a. -" 0x3FF0000000000000 (-2147483648) 2147483647;
  mkDdi 223 "Last Bale Mass" "g" 0x3FF0000000000000 0 2147483647;
  mkDdi 224 "Delta T" "mK" 0x3FF0000000000000 0 1000000;
  mkDdi 225 "Setpoint Working Length" "mm" 0x3FF0000000000000 0 2147483647;
  mkDdi 226 "Actual Working Length" "mm" 0x3FF0000000000000 0 2147483647;
  mkDdi 227 "Minimum Working Length" "mm" 0x3FF0000000000000 0 2147483647;
  mkDdi 228 "Maximum Working Length" "mm" 0x3FF0000000000000 0 2147483647;
  mkDdi 229 "Actual Net Weight" "g" 0x3FF0000000000000 (-2147483648) 2147483647;
  mkDdi 230 "Net Weight State" "n.a. -" 0x3FF0000000000000 0 3;
  mkDdi 231 "Setpoint Net Weight" "g" 0x3FF0000000000000 (-2147483648) 2147483647;
  mkDdi 232 "Actual Gross Weight" "g" 0x3FF0000000000000 (-2147483648) 2147483647;
  mkDdi 233 "Gross Weight State" "n.a. -" 0x3FF0000000000000 0 3;
  mkDdi 234 "Minimum Gross Weight" "g" 0x3FF0000000000000 (-2147483648) 2147483647;
  mkDdi 235 "Maximum Gross Weight" "g" 0x3FF0000000000000 (-2147483648) 2147483647;
  mkDdi 236 "Thresher Engagement Total Time" "s" 0x3FF0000000000000 0 2147483647;
  mkDdi 237 "Actual Header Working Height Status" "n.a. -" 0x3FF0000000000000 0 3;
  mkDdi 238 "Actual Header Rotational Speed Status" "n.a. -" 0x3FF0000000000000 0 3;
  mkDdi 239 "Yield Hold Status" "n.a. -" 0x3FF0000000000000 0 3;
  mkDdi 240 "Actual (Un)Loading System Status" "n.a. -" 0x3FF0000000000000 (-2147483648) 2147483647;
  mkDdi 241 "Crop Temperature" "mK" 0x3FF0000000000000 0 1000000;
  mkDdi 242 "Setpoint Sieve Clearance" "mm" 0x3FF0000000000000 0 2147483647;
  mkDdi 243 "Actual Sieve Clearance" "mm" 0x3FF0000000000000 0 2147483647;
  mkDdi 244 "Minimum Sieve Clearance" "mm" 0x3FF0000000000000 0 2147483647;
  mkDdi 245 "Maximum Sieve Clearance" "mm" 0x3FF0000000000000 0 2147483647;
  mkDdi 246 "Setpoint Chaffer Clearance" "mm" 0x3FF0000000000000 0 2147483647;
  mkDdi 247 "Actual Chaffer Clearance" "mm" 0x3FF0000000000000 0 2147483647;
  mkDdi 248 "Minimum Chaffer Clearance" "mm" 0x3FF0000000000000 0 2147483647;
  mkDdi 249 "Maximum Chaffer Clearance" "mm" 0x3FF0000000000000 0 2147483647;
  mkDdi 250 "Setpoint Concave Clearance" "mm" 0x3FF0000000000000 0 2147483647;
  mkDdi 251 "Actual Concave Clearance" "mm" 0x3FF0000000000000 0 2147483647;
  mkDdi 252 "Minimum Concave Clearance" "mm" 0x3FF0000000000000 0 2147483647;
  mkDdi 253 "Maximum Concave Clearance" "mm" 0x3FF0000000000000 0 2147483647;
  mkDdi 254 "Setpoint Separation Fan Rotational Speed" "/s" 0x3F50624DD2F1A9FC 0 2147483647;
  mkDdi 255 "Actual Separation Fan Rotational Speed" "/s" 0x3F50624DD2F1A9FC 0 2147483647;
  mkDdi 256 "Minimum Separation Fan Rotational Speed" "/s" 0x3F50624DD2F1A9FC 0 2147483647;
  mkDdi 257 "Maximum Separation Fan Rotational Speed" "/s" 0x3F50624DD2F1A9FC 0 2147483647;
  mkDdi 258 "Hydraulic Oil Temperature" "mK" 0x3FF0000000000000 0 2000000;
  mkDdi 259 "Yield Lag Ignore Time" "ms" 0x3FF0000000000000 0 2147483647;
  mkDdi 260 "Yield Lead Ignore Time" "ms" 0x3FF0000000000000 0 2147483647;
  mkDdi 261 "Average Yield Mass Per Time" "mg/s" 0x3FF0000000000000 0 2147483647;
  mkDdi 262 "Average Crop Moisture" "ppm" 0x3FF0000000000000 0 2147483647;
  mkDdi 263 "Average Yield Mass Per Area" "mg/m2" 0x3FF0000000000000 0 2147483647;
  mkDdi 264 "Connector Pivot X-Offset" "mm" 0x3FF0000000000000 (-2147483648) 2147483647;
  mkDdi 265 "Remaining Area" "m2" 0x3FF0000000000000 0 2147483647;
  mkDdi 266 "Lifetime Application Total Mass" "kg" 0x3FF0000000000000 0 2147483647;
  mkDdi 267 "Lifetime Application Total Count" "#" 0x3FF0000000000000 0 2147483647;
  mkDdi 268 "Lifetime Yield Total Volume" "L" 0x3FF0000000000000 0 2147483647;
  mkDdi 269 "Lifetime Yield Total Mass" "kg" 0x3FF0000000000000 0 2147483647;
  mkDdi 270 "Lifetime Yield Total Count" "#" 0x3FF0000000000000 0 2147483647;
  mkDdi 271 "Lifetime Total Area" "m2" 0x3FF0000000000000 0 2147483647;
  mkDdi 272 "Lifetime Effective Total Distance" "m" 0x3FF0000000000000 0 2147483647;
  mkDdi 273 "Lifetime Ineffective Total Distance" "m" 0x3FF0000000000000 0 2147483647;
  mkDdi 274 "Lifetime Effective Total Time" "s" 0x3FF0000000000000 0 2147483647;
  mkDdi 275 "Lifetime Ineffective Total Time" "s" 0x3FF0000000000000 0 2147483647;
  mkDdi 276 "Lifetime Fuel Consumption" "L" 0x3FE0000000000000 0 2147483647;
  mkDdi 277 "Lifetime Average Fuel Consumption per Time" "mm3/s" 0x3FF0000000000000 0 2147483647;
  mkDdi 278 "Lifetime Average Fuel Consumption per Area" "mm3/m2" 0x3FF0000000000000 0 2147483647;
  mkDdi 279 "Lifetime Yield Total Dry Mass" "kg" 0x3FF0000000000000 0 2147483647;
  mkDdi 280 "Lifetime Yield Total Seed Cotton Mass" "kg" 0x3FF0000000000000 0 2147483647;
  mkDdi 281 "Lifetime Yield Total Lint Cotton Mass" "kg" 0x3FF0000000000000 0 2147483647;
  mkDdi 282 "Lifetime Threshing Engagement Total Time" "s" 0x3FF0000000000000 0 2147483647;
  mkDdi 283 "Precut Total Count" "#" 0x3FF0000000000000 0 2147483647;
  mkDdi 284 "Uncut Total Count" "#" 0x3FF0000000000000 0 2147483647;
  mkDdi 285 "Lifetime Precut Total Count" "#" 0x3FF0000000000000 0 2147483647;
  mkDdi 286 "Lifetime Uncut Total Count" "#" 0x3FF0000000000000 0 2147483647;
  mkDdi 287 "Setpoint Prescription Mode" "n.a. -" 0x3FF0000000000000 0 6;
  mkDdi 288 "Actual Prescription Mode" "n.a. -" 0x3FF0000000000000 0 5;
  mkDdi 289 "Setpoint Work State" "n.a. -" 0x3FF0000000000000 0 3;
  mkDdi 290 "Setpoint Condensed Work State (1-16)" "n.a. -" 0x3FF0000000000000 0 4294967295;
  mkDdi 291 "Setpoint Condensed Work State (17-32)" "n.a. -" 0x3FF0000000000000 0 4294967295;
  mkDdi 292 "Setpoint Condensed Work State (33-48)" "n.a. -" 0x3FF0000000000000 0 4294967295;
  mkDdi 293 "Setpoint Condensed Work State (49-64)" "n.a. -" 0x3FF0000000000000 0 4294967295;
  mkDdi 294 "Setpoint Condensed Work State (65-80)" "n.a. -" 0x3FF0000000000000 0 4294967295;
  mkDdi 295 "Setpoint Condensed Work State (81-96)" "n.a. -" 0x3FF0000000000000 0 4294967295;
  mkDdi 296 "Setpoint Condensed Work State (97-112)" "n.a. -" 0x3FF0000000000000 0 4294967295;
  mkDdi 297 "Setpoint Condensed Work State (113-128)" "n.a. -" 0x3FF0000000000000 0 4294967295;
  mkDdi 298 "Setpoint Condensed Work State (129-144)" "n.a. -" 0x3FF0000000000000 0 4294967295;
  mkDdi 299 "Setpoint Condensed Work State (145-160)" "n.a. -" 0x3FF0000000000000 0 4294967295;
  mkDdi 300 "Setpoint Condensed Work State (161-176)" "n.a. -" 0x3FF0000000000000 0 4294967295;
  mkDdi 301 "Setpoint Condensed Work State (177-192)" "n.a. -" 0x3FF0000000000000 0 4294967295;
  mkDdi 302 "Setpoint Condensed Work State (193-208)" "n.a. -" 0x3FF0000000000000 0 4294967295;
  mkDdi 303 "Setpoint Condensed Work State (209-224)" "n.a. -" 0x3FF0000000000000 0 4294967295;
  mkDdi 304 "Setpoint Condensed Work State (225-240)" "n.a. -" 0x3FF0000000000000 0 4294967295;
  mkDdi 305 "Setpoint Condensed Work State (241-256)" "n.a. -" 0x3FF0000000000000 0 4294967295;
  mkDdi 306 "True Rotation Point  X-Offset" "mm" 0x3FF0000000000000 (-2147483648) 2147483647;
  mkDdi 307 "True Rotation Point Y-Offset" "mm" 0x3FF0000000000000 (-2147483648) 2147483647;
  mkDdi 308 "Actual Percentage Application Rate" "ppm" 0x3FF0000000000000 0 2147483647;
  mkDdi 309 "Minimum Percentage Application Rate" "ppm" 0x3FF0000000000000 0 2147483647;
  mkDdi 310 "Maximum Percentage Application Rate" "ppm" 0x3FF0000000000000 0 2147483647;
  mkDdi 311 "Relative Yield Potential" "ppm" 0x3FF0000000000000 0 2147483647;
  mkDdi 312 "Minimum Relative Yield Potential" "ppm" 0x3FF0000000000000 0 2147483647;
  mkDdi 313 "Maximum Relative Yield Potential" "ppm" 0x3FF0000000000000 0 2147483647;
  mkDdi 314 "Actual Percentage Crop Dry Matter" "ppm" 0x3FF0000000000000 0 2147483647;
  mkDdi 315 "Average Percentage Crop Dry Matter" "ppm" 0x3FF0000000000000 0 2147483647;
  mkDdi 316 "Effective Total Fuel Consumption" "ml" 0x3FF0000000000000 0 2147483647;
  mkDdi 317 "Ineffective Total Fuel Consumption" "ml" 0x3FF0000000000000 0 2147483647;
  mkDdi 318 "Effective Total Diesel Exhaust Fluid Consumption" "ml" 0x3FF0000000000000 0 2147483647;
  mkDdi 319 "Ineffective Total Diesel Exhaust Fluid Consumption" "ml" 0x3FF0000000000000 0 2147483647;
  mkDdi 320 "Last loaded Weight" "g" 0x3FF0000000000000 0 2147483647;
  mkDdi 321 "Last unloaded Weight" "g" 0x3FF0000000000000 0 2147483647;
  mkDdi 322 "Load Identification Number" "#" 0x3FF0000000000000 0 2147483647;
  mkDdi 323 "Unload Identification Number" "#" 0x3FF0000000000000 0 2147483647;
  mkDdi 324 "Chopper Engagement Total Time" "s" 0x3FF0000000000000 0 2147483647;
  mkDdi 325 "Lifetime Application Total Volume" "L" 0x3FF0000000000000 0 2147483647;
  mkDdi 326 "Setpoint Header Speed" "/s" 0x3F50624DD2F1A9FC 0 2147483647;
  mkDdi 327 "Actual Header Speed" "/s" 0x3F50624DD2F1A9FC 0 2147483647;
  mkDdi 328 "Minimum Header Speed" "/s" 0x3F50624DD2F1A9FC 0 2147483647;
  mkDdi 329 "Maximum Header Speed" "/s" 0x3F50624DD2F1A9FC 0 2147483647;
  mkDdi 330 "Setpoint Cutting drum speed" "/s" 0x3F50624DD2F1A9FC 0 2147483647;
  mkDdi 331 "Actual Cutting drum speed" "/s" 0x3F50624DD2F1A9FC 0 2147483647;
  mkDdi 332 "Minimum Cutting drum speed" "/s" 0x3F50624DD2F1A9FC 0 2147483647;
  mkDdi 333 "Maximum Cutting drum speed" "/s" 0x3F50624DD2F1A9FC 0 2147483647;
  mkDdi 334 "Operating Hours Since Last Sharpening" "s" 0x3FF0000000000000 0 2147483647;
  mkDdi 335 "Front PTO hours" "s" 0x3FF0000000000000 0 2147483647;
  mkDdi 336 "Rear PTO hours" "s" 0x3FF0000000000000 0 2147483647;
  mkDdi 337 "Lifetime Front PTO hours" "h" 0x3FB999999999999A 0 2147483647;
  mkDdi 338 "Lifetime Rear PTO Hours" "h" 0x3FB999999999999A 0 2147483647;
  mkDdi 339 "Total Loading Time" "s" 0x3FF0000000000000 0 2147483647;
  mkDdi 340 "Total Unloading Time" "s" 0x3FF0000000000000 0 2147483647;
  mkDdi 341 "Setpoint Grain Kernel Cracker Gap" "mm" 0x3F50624DD2F1A9FC 0 2147483647;
  mkDdi 342 "Actual Grain Kernel Cracker Gap" "mm" 0x3F50624DD2F1A9FC 0 2147483647;
  mkDdi 343 "Minimum Grain Kernel Cracker Gap" "mm" 0x3F50624DD2F1A9FC 0 2147483647;
  mkDdi 344 "Maximum Grain Kernel Cracker Gap" "mm" 0x3F50624DD2F1A9FC 0 2147483647;
  mkDdi 345 "Setpoint Swathing Width" "mm" 0x3FF0000000000000 0 2147483647;
  mkDdi 346 "Actual Swathing Width" "mm" 0x3FF0000000000000 0 2147483647;
  mkDdi 347 "Minimum Swathing Width" "mm" 0x3FF0000000000000 0 2147483647;
  mkDdi 348 "Maximum Swathing Width" "mm" 0x3FF0000000000000 0 2147483647;
  mkDdi 349 "Nozzle Drift Reduction" "ppm" 0x3FF0000000000000 0 100;
  mkDdi 350 "Function or Operation Technique" "n.a. -" 0x3FF0000000000000 0 2147483647;
  mkDdi 351 "Application Total Volume" "ml" 0x3FF0000000000000 0 2147483647;
  mkDdi 352 "Application Total Mass in gram [g]" "g" 0x3FF0000000000000 0 2147483647;
  mkDdi 353 "Total Application of Nitrogen [N2]" "g" 0x3FF0000000000000 0 2147483647;
  mkDdi 354 "Total Application of Ammonium" "g" 0x3FF0000000000000 0 2147483647;
  mkDdi 355 "Total Application of Phosphor" "g" 0x3FF0000000000000 0 2147483647;
  mkDdi 356 "Total Application of Potassium" "g" 0x3FF0000000000000 0 2147483647;
  mkDdi 357 "Total Application of Dry Matter" "kg" 0x3FF0000000000000 0 2147483647;
  mkDdi 358 "Average Dry Yield Mass Per Time" "mg/s" 0x3FF0000000000000 0 2147483647;
  mkDdi 359 "Average Dry Yield Mass Per Area" "mg/m2" 0x3FF0000000000000 0 2147483647;
  mkDdi 360 "Last Bale Size" "mm" 0x3FF0000000000000 0 2147483647;
  mkDdi 361 "Last Bale Density" "mg/l (mass per unit volume)" 0x3FF0000000000000 0 2147483647;
  mkDdi 362 "Total Bale Length" "mm" 0x3FF0000000000000 0 2147483647;
  mkDdi 363 "Last Bale Dry Mass" "g" 0x3FF0000000000000 0 2147483647;
  mkDdi 364 "Actual Flake Size" "mm" 0x3FF0000000000000 0 1000;
  mkDdi 365 "Setpoint Downforce Pressure" "Pa" 0x3FF0000000000000 (-2147483648) 2147483647;
  mkDdi 366 "Actual Downforce Pressure" "Pa" 0x3FF0000000000000 (-2147483648) 2147483647;
  mkDdi 367 "Condensed Section Override State (1-16)" "" 0x3FF0000000000000 0 4294967295;
  mkDdi 368 "Condensed Section Override State (17-32)" "" 0x3FF0000000000000 0 4294967295;
  mkDdi 369 "Condensed Section Override State (33-48)" "" 0x3FF0000000000000 0 4294967295;
  mkDdi 370 "Condensed Section Override State (49-64)" "" 0x3FF0000000000000 0 4294967295;
  mkDdi 371 "Condensed Section Override State (65-80)" "" 0x3FF0000000000000 0 4294967295;
  mkDdi 372 "Condensed Section Override State (81-96)" "" 0x3FF0000000000000 0 4294967295;
  mkDdi 373 "Condensed Section Override State (97-112)" "" 0x3FF0000000000000 0 4294967295;
  mkDdi 374 "Condensed Section Override State (113-128)" "" 0x3FF0000000000000 0 4294967295;
  mkDdi 375 "Condensed Section Override State (129-144)" "" 0x3FF0000000000000 0 4294967295;
  mkDdi 376 "Condensed Section Override State (145-160)" "" 0x3FF0000000000000 0 4294967295;
  mkDdi 377 "Condensed Section Override State (161-176)" "" 0x3FF0000000000000 0 4294967295;
  mkDdi 378 "Condensed Section Override State (177-192)" "" 0x3FF0000000000000 0 4294967295;
  mkDdi 379 "Condensed Section Override State (193-208)" "" 0x3FF0000000000000 0 4294967295;
  mkDdi 380 "Condensed Section Override State (209-224)" "" 0x3FF0000000000000 0 4294967295;
  mkDdi 381 "Condensed Section Override State (225-240)" "" 0x3FF0000000000000 0 4294967295;
  mkDdi 382 "Condensed Section Override State (241-256)" "" 0x3FF0000000000000 0 4294967295;
  mkDdi 383 "Apparent Wind Direction" "deg" 0x3FF0000000000000 0 359;
  mkDdi 384 "Apparent Wind Speed" "mm/s" 0x3FF0000000000000 0 100000000;
  mkDdi 385 "MSL Atmospheric Pressure" "Pa" 0x3FB999999999999A 0 2000000;
  mkDdi 386 "Actual Atmospheric Pressure" "Pa" 0x3FB999999999999A 0 2000000;
  mkDdi 387 "Total Revolutions in Fractional Revolutions" "#" 0x3F1A36E2EB1C432D (-2147483648) 2147483647;
  mkDdi 388 "Total Revolutions in Complete Revolutions" "#" 0x3FF0000000000000 (-2147483648) 2147483647;
  mkDdi 389 "Setpoint Revolutions specified as count per time" "r/min" 0x3F1A36E2EB1C432D (-2147483648) 2147483647;
  mkDdi 390 "Actual Revolutions Per Time" "r/min" 0x3F1A36E2EB1C432D (-2147483648) 2147483647;
  mkDdi 391 "Default Revolutions Per Time" "r/min" 0x3F1A36E2EB1C432D (-2147483648) 2147483647;
  mkDdi 392 "Minimum Revolutions Per Time" "r/min" 0x3F1A36E2EB1C432D (-2147483648) 2147483647;
  mkDdi 393 "Maximum Revolutions Per Time" "r/min" 0x3F1A36E2EB1C432D (-2147483648) 2147483647;
  mkDdi 394 "Actual Fuel Tank Content" "ml" 0x3FF0000000000000 0 2147483647;
  mkDdi 395 "Actual Diesel Exhaust Fluid Tank Content" "ml" 0x3FF0000000000000 0 2147483647;
  mkDdi 396 "Setpoint Speed" "mm/s" 0x3FF0000000000000 (-2147483648) 2147483647;
  mkDdi 397 "Actual Speed" "mm/s" 0x3FF0000000000000 (-2147483648) 2147483647;
  mkDdi 398 "Minimum Speed" "mm/s" 0x3FF0000000000000 (-2147483648) 2147483647;
  mkDdi 399 "Maximum Speed" "mm/s" 0x3FF0000000000000 (-2147483648) 2147483647;
  mkDdi 400 "Speed Source" "n.a. -" 0x3FF0000000000000 0 255;
  mkDdi 401 "Actual Application of Nitrogen [N2]" "mg/l" 0x3FF0000000000000 0 2147483647;
  mkDdi 402 "Actual application of Ammonium" "mg/l" 0x3FF0000000000000 0 2147483647;
  mkDdi 403 "Actual application of Phosphor" "mg/l" 0x3FF0000000000000 0 2147483647;
  mkDdi 404 "Actual application of Potassium" "mg/l" 0x3FF0000000000000 0 2147483647;
  mkDdi 405 "Actual application of Dry Matter" "mg/l" 0x3FF0000000000000 0 2147483647;
  mkDdi 406 "Actual Crude Protein Content" "ppm" 0x3FF0000000000000 0 2147483647;
  mkDdi 407 "Average Crude Protein Content" "ppm" 0x3FF0000000000000 0 2147483647;
  mkDdi 408 "Average Crop Contamination" "ppm" 0x3FF0000000000000 0 2147483647;
  mkDdi 409 "Total Diesel Exhaust Fluid Consumption" "ml" 0x3FF0000000000000 0 2147483647;
  mkDdi 410 "Instantaneous Diesel Exhaust Fluid Consumption per Time" "mm3/s" 0x3FF0000000000000 0 2147483647;
  mkDdi 411 "Instantaneous Diesel Exhaust Fluid Consumption per Area" "mm3/m2" 0x3FF0000000000000 0 2147483647;
  mkDdi 412 "Lifetime Diesel Exhaust Fluid Consumption" "L" 0x3FE0000000000000 0 2147483647;
  mkDdi 413 "Lifetime Average Diesel Exhaust Fluid Consumption per Time" "mm3/s" 0x3FF0000000000000 0 2147483647;
  mkDdi 414 "Lifetime Average Diesel Exhaust Fluid Consumption per Area" "mm3/m2" 0x3FF0000000000000 0 2147483647;
  mkDdi 415 "Actual Seed Singulation Percentage" "ppm" 0x3FF0000000000000 0 1000000;
  mkDdi 416 "Average Seed Singulation Percentage" "ppm" 0x3FF0000000000000 0 1000000;
  mkDdi 417 "Actual Seed Skip Percentage" "ppm" 0x3FF0000000000000 0 1000000;
  mkDdi 418 "Average Seed Skip Percentage" "ppm" 0x3FF0000000000000 0 1000000;
  mkDdi 419 "Actual Seed Multiple Percentage" "ppm" 0x3FF0000000000000 0 1000000;
  mkDdi 420 "Average Seed Multiple Percentage" "ppm" 0x3FF0000000000000 0 1000000;
  mkDdi 421 "Actual Seed Spacing Deviation" "mm" 0x3FF0000000000000 0 2147483647;
  mkDdi 422 "Average Seed Spacing Deviation" "mm" 0x3FF0000000000000 0 2147483647;
  mkDdi 423 "Actual Coefficient of Variation of Seed Spacing Percentage" "ppm" 0x3FF0000000000000 0 1000000;
  mkDdi 424 "Average Coefficient of Variation of Seed Spacing Percentage" "ppm" 0x3FF0000000000000 0 1000000;
  mkDdi 425 "Setpoint Maximum Allowed Seed Spacing Deviation" "mm" 0x3FF0000000000000 0 2147483647;
  mkDdi 426 "Setpoint Downforce as Force" "N" 0x3FF0000000000000 (-2147483648) 2147483647;
  mkDdi 427 "Actual Downforce as Force" "N" 0x3FF0000000000000 (-2147483648) 2147483647;
  mkDdi 428 "Loaded Total Mass" "kg" 0x3FF0000000000000 0 2147483647;
  mkDdi 429 "Unloaded Total Mass" "kg" 0x3FF0000000000000 0 2147483647;
  mkDdi 430 "Lifetime Loaded Total Mass" "kg" 0x3FF0000000000000 0 2147483647;
  mkDdi 431 "Lifetime Unloaded Total Mass" "kg" 0x3FF0000000000000 0 2147483647;
  mkDdi 432 "Setpoint Application Rate of Nitrogen [N2]" "mg/m2" 0x3FF0000000000000 0 2147483647;
  mkDdi 433 "Actual  Application Rate of Nitrogen [N2]" "mg/m2" 0x3FF0000000000000 0 2147483647;
  mkDdi 434 "Minimum Application Rate of Nitrogen [N2]" "mg/m2" 0x3FF0000000000000 0 2147483647;
  mkDdi 435 "Maximum  Application Rate of Nitrogen [N2]" "mg/m2" 0x3FF0000000000000 0 2147483647;
  mkDdi 436 "Setpoint  Application Rate of Ammonium" "mg/m2" 0x3FF0000000000000 0 2147483647;
  mkDdi 437 "Actual  Application Rate of Ammonium" "mg/m2" 0x3FF0000000000000 0 2147483647;
  mkDdi 438 "Minimum  Application Rate of Ammonium" "mg/m2" 0x3FF0000000000000 0 2147483647;
  mkDdi 439 "Maximum  Application Rate of Ammonium" "mg/m2" 0x3FF0000000000000 0 2147483647;
  mkDdi 440 "Setpoint  Application Rate of Phosphor" "mg/m2" 0x3FF0000000000000 0 2147483647;
  mkDdi 441 "Actual  Application Rate of Phosphor" "mg/m2" 0x3FF0000000000000 0 2147483647;
  mkDdi 442 "Minimum  Application Rate of Phosphor" "mg/m2" 0x3FF0000000000000 0 2147483647;
  mkDdi 443 "Maximum  Application Rate of Phosphor" "mg/m2" 0x3FF0000000000000 0 2147483647;
  mkDdi 444 "Setpoint  Application Rate of Potassium" "mg/m2" 0x3FF0000000000000 0 2147483647;
  mkDdi 445 "Actual  Application Rate of Potassium" "mg/m2" 0x3FF0000000000000 0 2147483647;
  mkDdi 446 "Minimum Application Rate of Potassium" "mg/m2" 0x3FF0000000000000 0 2147483647;
  mkDdi 447 "Maximum Application Rate of Potassium" "mg/m2" 0x3FF0000000000000 0 2147483647;
  mkDdi 448 "Setpoint Application Rate of Dry Matter" "ppm" 0x3FF0000000000000 0 2147483647;
  mkDdi 449 "Actual  Application Rate of Dry Matter" "ppm" 0x3FF0000000000000 0 2147483647;
  mkDdi 450 "Minimum Application Rate of Dry Matter" "ppm" 0x3FF0000000000000 0 2147483647;
  mkDdi 451 "Maximum Application Rate of Dry Matter" "ppm" 0x3FF0000000000000 0 2147483647;
  mkDdi 452 "Loaded Total Volume" "ml" 0x3FF0000000000000 0 2147483647;
  mkDdi 453 "Unloaded Total Volume" "ml" 0x3FF0000000000000 0 2147483647;
  mkDdi 454 "Lifetime loaded Total Volume" "L" 0x3FF0000000000000 0 2147483647;
  mkDdi 455 "Lifetime Unloaded Total Volume" "L" 0x3FF0000000000000 0 2147483647;
  mkDdi 456 "Last loaded Volume" "ml" 0x3FF0000000000000 0 2147483647;
  mkDdi 457 "Last unloaded Volume" "ml" 0x3FF0000000000000 0 2147483647;
  mkDdi 458 "Loaded Total Count" "#" 0x3FF0000000000000 0 2147483647;
  mkDdi 459 "Unloaded Total Count" "#" 0x3FF0000000000000 0 2147483647;
  mkDdi 460 "Lifetime Loaded Total Count" "#" 0x3FF0000000000000 0 2147483647;
  mkDdi 461 "Lifetime Unloaded Total Count" "#" 0x3FF0000000000000 0 2147483647;
  mkDdi 462 "Last loaded Count" "#" 0x3FF0000000000000 0 2147483647;
  mkDdi 463 "Last unloaded Count" "#" 0x3FF0000000000000 0 2147483647;
  mkDdi 464 "Haul Counter" "#" 0x3FF0000000000000 0 2147483647;
  mkDdi 465 "Lifetime Haul Counter" "#" 0x3FF0000000000000 0 2147483647;
  mkDdi 466 "Actual relative connector angle" "deg" 0x3F50624DD2F1A9FC (-180000) 180000;
  mkDdi 467 "Actual Percentage Content" "%" 0x3F847AE147AE147B 0 10000;
  mkDdi 468 "Soil Snow/Frozen Condtion" "n.a. -" 0x3FF0000000000000 0 3;
  mkDdi 469 "Estimated Soil Water Condtion" "n.a. -" 0x3FF0000000000000 0 6;
  mkDdi 470 "Soil Compaction" "n.a. -" 0x3FF0000000000000 0 4;
  mkDdi 471 "Setpoint Cultural Practice" "n.a. -" 0x3FF0000000000000 0 2147483647;
  mkDdi 472 "Setpoint Length of Cut" "mm" 0x3F50624DD2F1A9FC 0 2147483647;
  mkDdi 473 "Minimum length of cut" "mm" 0x3F50624DD2F1A9FC 0 2147483647;
  mkDdi 474 "Maximum Length of Cut" "mm" 0x3F50624DD2F1A9FC 0 2147483647;
  mkDdi 475 "Setpoint Bale Hydraulic Pressure" "Pa" 0x3FF0000000000000 0 2147483647;
  mkDdi 476 "Minimum Bale Hydraulic Pressure" "Pa" 0x3FF0000000000000 0 2147483647;
  mkDdi 477 "Maximum Bale Hydraulic Pressure" "Pa" 0x3FF0000000000000 0 2147483647;
  mkDdi 478 "Setpoint Flake Size" "mm" 0x3FF0000000000000 0 1000;
  mkDdi 479 "Minimum Flake Size" "mm" 0x3FF0000000000000 0 1000;
  mkDdi 480 "Maximum Flake Size" "mm" 0x3FF0000000000000 0 1000;
  mkDdi 481 "Setpoint Number of Subbales" "" 0x3FF0000000000000 0 2147483647;
  mkDdi 482 "Last Bale Number of Subbales" "" 0x3FF0000000000000 0 2147483647;
  mkDdi 483 "Setpoint Engine Speed" "r/min" 0x3F1A36E2EB1C432D 0 2147483647;
  mkDdi 484 "Actual Engine Speed" "r/min" 0x3F1A36E2EB1C432D 0 2147483647;
  mkDdi 485 "Minimum Engine Speed" "r/min" 0x3F1A36E2EB1C432D 0 2147483647;
  mkDdi 486 "Maximum Engine Speed" "r/min" 0x3F1A36E2EB1C432D 0 2147483647;
  mkDdi 488 "Diesel Exhaust Fluid Tank Percentage Level" "%" 0x3F847AE147AE147B 0 10000;
  mkDdi 489 "Maximum Diesel Exhaust Fluid Tank Content" "ml" 0x3FF0000000000000 0 2147483647;
  mkDdi 490 "Maximum Fuel Tank Content" "ml" 0x3FF0000000000000 0 2147483647;
  mkDdi 491 "Fuel Percentage Level" "%" 0x3F847AE147AE147B 0 2147483647;
  mkDdi 492 "Total Engine Hours" "h" 0x3FA999999999999A 0 2147483647;
  mkDdi 493 "Lifetime Engine Hours" "h" 0x3FB999999999999A 0 2147483647;
  mkDdi 494 "Last Event Partner ID (Byte 1-4)" "" 0x3FF0000000000000 0 0;
  mkDdi 495 "Last Event Partner ID (Byte 5-8)" "n.a. -" 0x3FF0000000000000 0 2147483647;
  mkDdi 496 "Last Event Partner ID (Byte 9-12)" "n.a. -" 0x3FF0000000000000 0 2147483647;
  mkDdi 497 "Last Event Partner ID (Byte 13-16)" "" 0x3FF0000000000000 0 2147483647;
  mkDdi 498 "Last Event Partner ID Type" "n.a. -" 0x3FF0000000000000 0 2147483647;
  mkDdi 499 "Last Event Partner ID Manufacturer ID Code" "" 0x3FF0000000000000 0 2147483647;
  mkDdi 500 "Last Event Partner ID Device Class" "n.a. -" 0x3FF0000000000000 0 2147483647;
  mkDdi 501 "Setpoint Engine Torque" "%" 0x3F50624DD2F1A9FC 0 2147483647;
  mkDdi 502 "Actual Engine Torque" "%" 0x3F50624DD2F1A9FC 0 2147483647;
  mkDdi 503 "Minimum Engine Torque" "%" 0x3F50624DD2F1A9FC 0 2147483647;
  mkDdi 504 "Maximum Engine Torque" "%" 0x3F50624DD2F1A9FC 0 2147483647;
  mkDdi 505 "Tramline Control Level" "n.a. -" 0x3FF0000000000000 0 7;
  mkDdi 506 "Setpoint Tramline Control Level" "n.a. -" 0x3FF0000000000000 0 3;
  mkDdi 507 "Tramline Sequence Number" "n.a. -" 0x3FF0000000000000 0 2147483647;
  mkDdi 508 "Unique A-B Guidance Reference Line ID" "n.a. -" 0x3FF0000000000000 0 2147483647;
  mkDdi 509 "Actual Track Number" "n.a. -" 0x3FF0000000000000 (-2147483648) 2147483647;
  mkDdi 510 "Track Number to the right" "n.a. -" 0x3FF0000000000000 (-2147483648) 2147483647;
  mkDdi 511 "Track Number to the left" "n.a. -" 0x3FF0000000000000 (-2147483648) 2147483647;
  mkDdi 512 "Guidance Line Swath Width" "mm" 0x3FF0000000000000 0 2147483647;
  mkDdi 513 "Guidance Line Deviation" "mm" 0x3FF0000000000000 (-2147483648) 2147483647;
  mkDdi 514 "GNSS Quality" "n.a. -" 0x3FF0000000000000 0 2147483647;
  mkDdi 515 "Tramline Control State" "n.a. -" 0x3FF0000000000000 0 3;
  mkDdi 516 "Tramline Overdosing Rate" "ppm" 0x3FF0000000000000 0 2147483647;
  mkDdi 517 "Setpoint Tramline Condensed Work State (1-16)" "n.a. -" 0x3FF0000000000000 0 4294967295;
  mkDdi 518 "Actual Tramline Condensed Work State (1-16)" "n.a. -" 0x3FF0000000000000 0 4294967295;
  mkDdi 519 "Last Bale Lifetime Count" "n.a. -" 0x3FF0000000000000 0 2147483647;
  mkDdi 520 "Actual Canopy Height" "mm" 0x3FF0000000000000 0 2147483647;
  mkDdi 521 "GNSS Installation Type" "n.a. -" 0x3FF0000000000000 0 100;
  mkDdi 522 "Twine Bale Total Count (Deprecated)" "#" 0x3FF0000000000000 0 2147483647;
  mkDdi 523 "Mesh Bale Total Count (Deprecated)" "#" 0x3FF0000000000000 0 2147483647;
  mkDdi 524 "Lifetime Twine Bale Total Count (Deprecated)" "#" 0x3FF0000000000000 0 2147483647;
  mkDdi 525 "Lifetime Mesh Bale Total Count (Deprecated)" "#" 0x3FF0000000000000 0 2147483647;
  mkDdi 526 "Actual Cooling Fluid Temperature" "mK" 0x3FF0000000000000 0 2147483647;
  mkDdi 528 "Last Bale Capacity" "kg/h" 0x3FF0000000000000 0 2147483647;
  mkDdi 529 "Setpoint Tillage Disc Gang Angle" "deg" 0x3F50624DD2F1A9FC (-180000) 180000;
  mkDdi 530 "Actual Tillage Disc Gang Angle" "deg" 0x3F50624DD2F1A9FC (-180000) 180000;
  mkDdi 531 "Actual Applied Preservative Per Yield Mass" "mm3/kg" 0x3FF0000000000000 0 2147483647;
  mkDdi 532 "Setpoint Applied Preservative Per Yield Mass" "mm3/kg" 0x3FF0000000000000 0 2147483647;
  mkDdi 533 "Default Applied Preservative Per Yield Mass" "mm3/kg" 0x3FF0000000000000 0 2147483647;
  mkDdi 534 "Minimum Applied Preservative Per Yield Mass" "mm3/kg" 0x3FF0000000000000 0 2147483647;
  mkDdi 535 "Maximum Applied Preservative Per Yield Mass" "mm3/kg" 0x3FF0000000000000 0 2147483647;
  mkDdi 536 "Total Applied Preservative" "ml" 0x3FF0000000000000 0 2147483647;
  mkDdi 537 "Lifetime Applied Preservative" "ml" 0x3FF0000000000000 0 2147483647;
  mkDdi 538 "Average Applied Preservative Per Yield Mass" "mm3/kg" 0x3FF0000000000000 0 2147483647;
  mkDdi 539 "Actual Preservative Tank Volume" "ml" 0x3FF0000000000000 0 2147483647;
  mkDdi 540 "Actual Preservative Tank Level" "ppm" 0x3FF0000000000000 0 2147483647;
  mkDdi 541 "Actual PTO Speed" "r/min" 0x3F1A36E2EB1C432D 0 2147483647;
  mkDdi 542 "Setpoint PTO Speed" "r/min" 0x3F1A36E2EB1C432D 0 2147483647;
  mkDdi 543 "Default PTO Speed" "r/min" 0x3F1A36E2EB1C432D 0 2147483647;
  mkDdi 544 "Minimum PTO Speed" "r/min" 0x3F1A36E2EB1C432D 0 2147483647;
  mkDdi 545 "Maximum PTO Speed" "r/min" 0x3F1A36E2EB1C432D 0 2147483647;
  mkDdi 546 "Lifetime Chopping Engagement Total Time" "s" 0x3FF0000000000000 0 2147483647;
  mkDdi 547 "Setpoint Bale Compression Plunger Load (N)" "N" 0x3FF0000000000000 0 2147483647;
  mkDdi 548 "Actual Bale Compression Plunger Load (N)" "N" 0x3FF0000000000000 0 2147483647;
  mkDdi 549 "Last Bale Average Bale Compression Plunger Load (N)" "N" 0x3FF0000000000000 0 2147483647;
  mkDdi 550 "Ground Cover" "%" 0x3FB999999999999A 0 1000;
  mkDdi 551 "Actual PTO Torque" "N*m" 0x3F1A36E2EB1C432D 0 2147483647;
  mkDdi 552 "Setpoint PTO Torque" "N*m" 0x3F1A36E2EB1C432D 0 2147483647;
  mkDdi 553 "Default PTO Torque" "N*m" 0x3F1A36E2EB1C432D 0 2147483647;
  mkDdi 554 "Minimum PTO Torque" "N*m" 0x3F1A36E2EB1C432D 0 2147483647;
  mkDdi 555 "Maximum PTO Torque" "N*m" 0x3F1A36E2EB1C432D 0 2147483647;
  mkDdi 556 "Present Weather Conditions" "" 0x3FF0000000000000 1 6;
  mkDdi 557 "Setpoint Electrical Current" "A" 0x3F747AE147AE147B 0 2147483647;
  mkDdi 558 "Actual Electrical Current" "A" 0x3F747AE147AE147B 0 2147483647;
  mkDdi 559 "Minimum Electrical Current" "A" 0x3F747AE147AE147B 0 2147483647;
  mkDdi 560 "Maximum Electrical Current" "A" 0x3F747AE147AE147B 0 2147483647;
  mkDdi 561 "Default Electrical Current" "A" 0x3F747AE147AE147B 0 2147483647;
  mkDdi 562 "Setpoint Voltage" "V" 0x3F50624DD2F1A9FC (-2147483648) 2147483647;
  mkDdi 563 "Default Voltage" "V" 0x3F50624DD2F1A9FC (-2147483648) 2147483647;
  mkDdi 564 "Actual Voltage" "V" 0x3F50624DD2F1A9FC (-2147483648) 2147483647;
  mkDdi 565 "Minimum Voltage" "V" 0x3F50624DD2F1A9FC (-2147483648) 2147483647;
  mkDdi 566 "Maximum Voltage" "V" 0x3F50624DD2F1A9FC (-2147483648) 2147483647;
  mkDdi 567 "Actual Electrical Resistance" "Ohm" 0x3F847AE147AE147B 0 2147483647;
  mkDdi 568 "Setpoint Electrical Power" "W" 0x3F50624DD2F1A9FC 0 2147483647;
  mkDdi 569 "Actual Electrical Power" "W" 0x3F50624DD2F1A9FC 0 2147483647;
  mkDdi 570 "Default Electrical Power" "W" 0x3F50624DD2F1A9FC 0 2147483647;
  mkDdi 571 "Maximum Electrical Power" "W" 0x3F50624DD2F1A9FC 0 2147483647;
  mkDdi 572 "Minimum Electrical Power" "W" 0x3F50624DD2F1A9FC 0 2147483647;
  mkDdi 573 "Total Electrical Energy" "kWh" 0x3F50624DD2F1A9FC 0 2147483647;
  mkDdi 574 "Setpoint Electrical Energy per Area Application Rate" "kWh/m2" 0x3FF0000000000000 0 2147483647;
  mkDdi 575 "Actual  Electrical Energy per Area Application Rate" "kWh/m2" 0x3FF0000000000000 0 2147483647;
  mkDdi 576 "Maximum  Electrical Energy  per Area Application Rate" "kWh/m2" 0x3FF0000000000000 0 2147483647;
  mkDdi 577 "Minimum  Electrical Energy per Area Application Rate" "kWh/m2" 0x3FF0000000000000 0 2147483647;
  mkDdi 578 "Setpoint Temperature" "mK" 0x3FF0000000000000 0 1000000;
  mkDdi 579 "Actual Temperature" "mK" 0x3FF0000000000000 0 1000000;
  mkDdi 580 "Minimum Temperature" "mK" 0x3FF0000000000000 0 1000000;
  mkDdi 581 "Maximum Temperature" "mK" 0x3FF0000000000000 0 1000000;
  mkDdi 582 "Default Temperature" "mK" 0x3FF0000000000000 0 1000000;
  mkDdi 583 "Setpoint Frequency" "Hz" 0x3F50624DD2F1A9FC 0 2147483647;
  mkDdi 584 "Actual Frequency" "Hz" 0x3F50624DD2F1A9FC 0 2147483647;
  mkDdi 585 "Minimum Frequency" "Hz" 0x3F50624DD2F1A9FC 0 2147483647;
  mkDdi 586 "Maximum Frequency" "Hz" 0x3F50624DD2F1A9FC 0 2147483647;
  mkDdi 587 "Previous Rainfall" "" 0x3FF0000000000000 1 6;
  mkDdi 588 "Setpoint Volume Per Area Application Rate" "ml/m2" 0x3FB999999999999A 0 2147483647;
  mkDdi 589 "Actual Volume Per Area Application Rate" "ml/m2" 0x3FB999999999999A 0 2147483647;
  mkDdi 590 "Minimum Volume Per Area Application Rate" "ml/m2" 0x3FB999999999999A 0 2147483647;
  mkDdi 591 "Maximum Volume Per Area Application Rate" "ml/m2" 0x3FB999999999999A 0 2147483647;
  mkDdi 592 "Default Volume Per Area Application Rate" "ml/m2" 0x3FB999999999999A 0 2147483647;
  mkDdi 593 "Traction Type" "n.a. -" 0x3FF0000000000000 0 5;
  mkDdi 594 "Steering Type" "n.a. -" 0x3FF0000000000000 0 7;
  mkDdi 595 "Machine Mode" "n.a. -" 0x3FF0000000000000 0 2147483647;
  mkDdi 596 "Cargo Area Cover State" "%" 0x3FF0000000000000 (-1) 100;
  mkDdi 597 "Total Distance" "mm" 0x3FF0000000000000 0 2147483647;
  mkDdi 598 "Lifetime Total Distance" "m" 0x3FF0000000000000 0 2147483647;
  mkDdi 599 "Total Distance Field" "mm" 0x3FF0000000000000 0 2147483647;
  mkDdi 600 "Lifetime Total Distance Field" "m" 0x3FF0000000000000 0 2147483647;
  mkDdi 601 "Total Distance Street" "mm" 0x3FF0000000000000 0 2147483647;
  mkDdi 602 "Lifetime Total Distance Street" "m" 0x3FF0000000000000 0 2147483647;
  mkDdi 603 "Actual Tramline Condensed Work State (17-32)" "n.a. -" 0x3FF0000000000000 0 2147483647;
  mkDdi 604 "Actual Tramline Condensed Work State (33-48)" "n.a. -" 0x3FF0000000000000 0 2147483647;
  mkDdi 605 "Actual Tramline Condensed Work State (49-64)" "n.a. -" 0x3FF0000000000000 0 2147483647;
  mkDdi 606 "Actual Tramline Condensed Work State (65-80)" "n.a. -" 0x3FF0000000000000 0 2147483647;
  mkDdi 607 "Actual Tramline Condensed Work State (81-96)" "n.a. -" 0x3FF0000000000000 0 2147483647;
  mkDdi 608 "Actual Tramline Condensed Work State (97-112)" "n.a. -" 0x3FF0000000000000 0 2147483647;
  mkDdi 609 "Actual Tramline Condensed Work State (113-128)" "n.a. -" 0x3FF0000000000000 0 2147483647;
  mkDdi 610 "Actual Tramline Condensed Work State (129-144)" "n.a. -" 0x3FF0000000000000 0 2147483647;
  mkDdi 611 "Actual Tramline Condensed Work State (145-160)" "n.a. -" 0x3FF0000000000000 0 2147483647;
  mkDdi 612 "Actual Tramline Condensed Work State (161-176)" "n.a. -" 0x3FF0000000000000 0 2147483647;
  mkDdi 613 "Actual Tramline Condensed Work State (177-192)" "n.a. -" 0x3FF0000000000000 0 2147483647;
  mkDdi 614 "Actual Tramline Condensed Work State (193-208)" "n.a. -" 0x3FF0000000000000 0 2147483647;
  mkDdi 615 "Actual Tramline Condensed Work State (209-224)" "n.a. -" 0x3FF0000000000000 0 2147483647;
  mkDdi 616 "Actual Tramline Condensed Work State (225-240)" "n.a. -" 0x3FF0000000000000 0 2147483647;
  mkDdi 617 "Actual Tramline Condensed Work State (241-256)" "n.a. -" 0x3FF0000000000000 0 2147483647;
  mkDdi 618 "Setpoint Tramline Condensed Work State (17-32)" "n.a. -" 0x3FF0000000000000 0 2147483647;
  mkDdi 619 "Setpoint Tramline Condensed Work State (33-48)" "n.a. -" 0x3FF0000000000000 0 2147483647;
  mkDdi 620 "Setpoint Tramline Condensed Work State (49-64)" "n.a. -" 0x3FF0000000000000 0 2147483647;
  mkDdi 621 "Setpoint Tramline Condensed Work State (65-80)" "n.a. -" 0x3FF0000000000000 0 2147483647;
  mkDdi 622 "Setpoint Tramline Condensed Work State (81-96)" "n.a. -" 0x3FF0000000000000 0 2147483647;
  mkDdi 623 "Setpoint Tramline Condensed Work State (97-112)" "n.a. -" 0x3FF0000000000000 0 2147483647;
  mkDdi 624 "Setpoint Tramline Condensed Work State (113-128)" "n.a. -" 0x3FF0000000000000 0 2147483647;
  mkDdi 625 "Setpoint Tramline Condensed Work State (129-144)" "n.a. -" 0x3FF0000000000000 0 2147483647;
  mkDdi 626 "Setpoint Tramline Condensed Work State (145-160)" "n.a. -" 0x3FF0000000000000 0 2147483647;
  mkDdi 627 "Setpoint Tramline Condensed Work State (161-176)" "n.a. -" 0x3FF0000000000000 0 2147483647;
  mkDdi 628 "Setpoint Tramline Condensed Work State (177-192)" "n.a. -" 0x3FF0000000000000 0 2147483647;
  mkDdi 629 "Setpoint Tramline Condensed Work State (193-208)" "n.a. -" 0x3FF0000000000000 0 2147483647;
  mkDdi 630 "Setpoint Tramline Condensed Work State (209-224)" "n.a. -" 0x3FF0000000000000 0 2147483647;
  mkDdi 631 "Setpoint Tramline Condensed Work State (225-240)" "n.a. -" 0x3FF0000000000000 0 2147483647;
  mkDdi 632 "Setpoint Tramline Condensed Work State (241-256)" "n.a. -" 0x3FF0000000000000 0 2147483647;
  mkDdi 633 "Setpoint Volume per distance Application Rate" "ml/m" 0x3F50624DD2F1A9FC 0 2147483647;
  mkDdi 634 "Actual Volume per distance Application Rate" "ml/m" 0x3F50624DD2F1A9FC 0 2147483647;
  mkDdi 635 "Default Volume per distance Application Rate" "ml/m" 0x3F50624DD2F1A9FC 0 2147483647;
  mkDdi 636 "Minimum Volume per distance Application Rate" "ml/m" 0x3F50624DD2F1A9FC 0 2147483647;
  mkDdi 637 "Maximum Volume per distance Application Rate" "ml/m" 0x3F50624DD2F1A9FC 0 2147483647;
  mkDdi 638 "Setpoint Tire Pressure" "Pa" 0x3FB999999999999A 0 2147483647;
  mkDdi 639 "Actual Tire Pressure" "Pa" 0x3FB999999999999A 0 2147483647;
  mkDdi 640 "Default Tire Pressure" "Pa" 0x3FB999999999999A 0 2147483647;
  mkDdi 641 "Minimum Tire Pressure" "Pa" 0x3FB999999999999A 0 2147483647;
  mkDdi 642 "Maximum Tire Pressure" "Pa" 0x3FB999999999999A 0 2147483647;
  mkDdi 643 "Actual Tire Temperature" "mK" 0x3FF0000000000000 0 1000000;
  mkDdi 644 "Binding Method" "n.a. -" 0x3FF0000000000000 0 5;
  mkDdi 645 "Last Bale Number of Knives" "#" 0x3FF0000000000000 0 2147483647;
  mkDdi 646 "Last Bale Binding Twine Consumption" "mm" 0x3FF0000000000000 0 2147483647;
  mkDdi 647 "Last Bale Binding Mesh Consumption" "mm" 0x3FF0000000000000 0 2147483647;
  mkDdi 648 "Last Bale Binding Film Consumption" "mm" 0x3FF0000000000000 0 2147483647;
  mkDdi 649 "Last Bale Binding Film Stretching" "%" 0x3F50624DD2F1A9FC 0 2147483647;
  mkDdi 650 "Last Bale Wrapping Film Width" "mm" 0x3FF0000000000000 0 2147483647;
  mkDdi 651 "Last Bale Wrapping Film Consumption" "mm" 0x3FF0000000000000 0 2147483647;
  mkDdi 652 "Last Bale Wrapping Film Stretching" "%" 0x3F50624DD2F1A9FC 0 2147483647;
  mkDdi 653 "Last Bale Wrapping Film Overlap Percentage" "%" 0x3F50624DD2F1A9FC 0 2147483647;
  mkDdi 654 "Last Bale Wrapping Film Layers" "#" 0x3FF0000000000000 0 2147483647;
  mkDdi 655 "Electrical Apparent Soil Conductivity" "mS/m" 0x3FB999999999999A (-2147483648) 2147483647;
  mkDdi 656 "SC Actual Turn On Time" "" 0x3FF0000000000000 (-2147483648) 2147483647;
  mkDdi 657 "SC Actual Turn Off Time" "" 0x3FF0000000000000 (-2147483648) 2147483647;
  mkDdi 658 "Actual CO2 equivalent specified as mass per area" "mg/m2" 0x3FF0000000000000 0 2147483647;
  mkDdi 659 "Actual CO2 equivalent specified as mass per time" "mg/s" 0x3FF0000000000000 0 2147483647;
  mkDdi 660 "Actual CO2 equivalent specified as mass per mass" "mg/kg" 0x3FF0000000000000 0 2147483647;
  mkDdi 661 "Actual CO2 equivalent specified as mass per yield" "mg/kg" 0x3FF0000000000000 0 2147483647;
  mkDdi 662 "Actual CO2 equivalent specified as mass per volume" "mg/l" 0x3FF0000000000000 0 2147483647;
  mkDdi 663 "Actual CO2 equivalent specified as mass per count" "n.a. -" 0x3FF0000000000000 0 2147483647;
  mkDdi 664 "Total CO2 equivalent" "kg" 0x3FF0000000000000 0 2147483647;
  mkDdi 665 "Lifetime total CO2 equivalent" "kg" 0x3FF0000000000000 0 2147483647;
  mkDdi 666 "Working Direction" "" 0x3FF0000000000000 0 2;
  mkDdi 667 "Distance between Guidance Track Number 0R and 1" "mm" 0x3FF0000000000000 0 2147483647;
  mkDdi 668 "Distance between Guidance Track Number 0R and 0L" "mm" 0x3FF0000000000000 0 2147483647;
  mkDdi 669 "Bout Track Number Shift" "" 0x3FF0000000000000 (-2147483648) 2147483647;
  mkDdi 670 "Tramline Primary Working Width" "mm" 0x3FF0000000000000 0 2147483647;
  mkDdi 671 "Tramline Primary Tire Width" "mm" 0x3FF0000000000000 0 2147483647;
  mkDdi 672 "Tramline Primary Wheel Distance" "mm" 0x3FF0000000000000 0 2147483647;
  mkDdi 673 "Tramline Secondary Working Width" "mm" 0x3FF0000000000000 0 2147483647;
  mkDdi 674 "Tramline Secondary Tire Width" "mm" 0x3FF0000000000000 0 2147483647;
  mkDdi 675 "Tramline Secondary Wheel Distance" "mm" 0x3FF0000000000000 0 2147483647;
  mkDdi 676 "Last Bale Binding Mesh Layers" "#" 0x3FF0000000000000 0 2147483647;
  mkDdi 677 "Last Bale Binding Film Layers" "#" 0x3FF0000000000000 0 2147483647;
  mkDdi 678 "Last Bale Binding Twine Layers" "#" 0x3FF0000000000000 0 2147483647;
  mkDdi 679 "Crop Contamination Total Mass" "kg" 0x3FF0000000000000 0 2147483647;
  mkDdi 680 "Crop Contamination Lifetime Total Mass" "kg" 0x3FF0000000000000 0 2147483647;
  mkDdi 681 "Film bale Total Count" "#" 0x3FF0000000000000 0 2147483647;
  mkDdi 682 "Mesh bale Total Count" "#" 0x3FF0000000000000 0 2147483647;
  mkDdi 683 "Twine bale Total Count" "#" 0x3FF0000000000000 0 2147483647;
  mkDdi 684 "Wrapping Film bale Total Count" "#" 0x3FF0000000000000 0 2147483647;
  mkDdi 685 "Lifetime Film Bale Total Count" "#" 0x3FF0000000000000 0 2147483647;
  mkDdi 686 "Lifetime Mesh Bale Total Count" "#" 0x3FF0000000000000 0 2147483647;
  mkDdi 687 "Lifetime Twine Bale Total Count" "#" 0x3FF0000000000000 0 2147483647;
  mkDdi 688 "Lifetime Wrapping Film Bale Total Count" "#" 0x3FF0000000000000 0 2147483647;
  mkDdi 689 "Effective Total Electrical Battery Energy Consumption" "kWh" 0x3F50624DD2F1A9FC (-2147483648) 2147483647;
  mkDdi 690 "Ineffective Total Electrical Battery Energy Consumption" "kWh" 0x3F50624DD2F1A9FC (-2147483648) 2147483647;
  mkDdi 691 "Instantaneous Electrical Battery Energy Consumption per Time" "W" 0x3FF0000000000000 (-2147483648) 2147483647;
  mkDdi 692 "Instantaneous Electrical Battery Energy Consumption per Area" "kWh/m2" 0x3FF0000000000000 (-2147483648) 2147483647;
  mkDdi 693 "Lifetime Total Loading Time" "s" 0x3FF0000000000000 0 2147483647;
  mkDdi 694 "Lifetime Total Unloading Time" "s" 0x3FF0000000000000 0 2147483647;
  mkDdi 695 "Mesh Total Used" "mm" 0x3FF0000000000000 0 2147483647;
  mkDdi 696 "Film Total Used" "mm" 0x3FF0000000000000 0 2147483647;
  mkDdi 697 "Twine Total Used" "mm" 0x3FF0000000000000 0 2147483647;
  mkDdi 698 "Average Mass Per Bale" "kg" 0x3FF0000000000000 0 2147483647;
  mkDdi 699 "Average Mass Per Load" "kg" 0x3FF0000000000000 0 2147483647;
  mkDdi 700 "Nutrient Analysis Method" "n.a. -" 0x3FF0000000000000 0 2147483647;
  mkDdi 701 "Actual Starch Content" "ppm" 0x3FF0000000000000 0 2147483647;
  mkDdi 702 "Average Starch Content" "ppm" 0x3FF0000000000000 0 2147483647;
  mkDdi 703 "Actual Ash Content" "ppm" 0x3FF0000000000000 0 2147483647;
  mkDdi 704 "Average Ash Content" "ppm" 0x3FF0000000000000 0 2147483647;
  mkDdi 705 "Actual Sugar Content" "ppm" 0x3FF0000000000000 0 2147483647;
  mkDdi 706 "Average Sugar Content" "ppm" 0x3FF0000000000000 0 2147483647;
  mkDdi 707 "Actual Lipids Content" "ppm" 0x3FF0000000000000 0 2147483647;
  mkDdi 708 "Average Lipids Content" "ppm" 0x3FF0000000000000 0 2147483647;
  mkDdi 709 "Actual Crude Fat Content" "ppm" 0x3FF0000000000000 0 2147483647;
  mkDdi 710 "Average Crude Fat Content" "ppm" 0x3FF0000000000000 0 2147483647;
  mkDdi 711 "Actual Crude Fiber Content" "ppm" 0x3FF0000000000000 0 2147483647;
  mkDdi 712 "Average Crude Fiber Content" "ppm" 0x3FF0000000000000 0 2147483647;
  mkDdi 713 "Actual Nitrogen (TKN) Content" "ppm" 0x3FF0000000000000 0 2147483647;
  mkDdi 714 "Average Nitrogen (TKN) Content" "ppm" 0x3FF0000000000000 0 2147483647;
  mkDdi 715 "Actual Phosphates Content" "ppm" 0x3FF0000000000000 0 2147483647;
  mkDdi 716 "Average Phosphates Content" "ppm" 0x3FF0000000000000 0 2147483647;
  mkDdi 717 "Actual Potassium Content" "ppm" 0x3FF0000000000000 0 2147483647;
  mkDdi 718 "Average Potassium Content" "ppm" 0x3FF0000000000000 0 2147483647;
  mkDdi 719 "Actual ADL Content" "ppm" 0x3FF0000000000000 0 2147483647;
  mkDdi 720 "Average ADL Content" "ppm" 0x3FF0000000000000 0 2147483647;
  mkDdi 721 "Actual ADF Content" "ppm" 0x3FF0000000000000 0 2147483647;
  mkDdi 722 "Average ADF Content" "ppm" 0x3FF0000000000000 0 2147483647;
  mkDdi 723 "Actual NDF Content" "ppm" 0x3FF0000000000000 0 2147483647;
  mkDdi 724 "Average NDF Content" "ppm" 0x3FF0000000000000 0 2147483647;
  mkDdi 725 "Actual uNDFom240 Content" "ppm" 0x3FF0000000000000 0 2147483647;
  mkDdi 726 "Average uNDFom240 Content" "ppm" 0x3FF0000000000000 0 2147483647;
  mkDdi 727 "Actual Biomethanation Production Potential" "mm3/kg" 0x3FF0000000000000 0 2147483647;
  mkDdi 728 "Average Biomethanation Production Potential" "mm3/kg" 0x3FF0000000000000 0 2147483647;
  mkDdi 32768 "Maximum Droplet Size" "n.a. -" 0x3FF0000000000000 0 255;
  mkDdi 32769 "Maximum Crop Grade Diameter" "mm" 0x3F50624DD2F1A9FC 0 2147483647;
  mkDdi 32770 "Maximum Crop Grade Length" "mm" 0x3F50624DD2F1A9FC 0 2147483647;
  mkDdi 32771 "Maximum Crop Contamination Mass per Area" "mg/m2" 0x3FF0000000000000 0 2147483647;
  mkDdi 32772 "Maximum Crop Contamination Mass per Time" "mg/s" 0x3FF0000000000000 0 2147483647;
  mkDdi 32773 "Maximum Crop Conditioning Intensity" "%" 0x3F847AE147AE147B 0 10000;
  mkDdi 36864 "Minimum Droplet Size" "n.a. -" 0x3FF0000000000000 0 255;
  mkDdi 36865 "Minimum Crop Grade Diameter" "mm" 0x3F50624DD2F1A9FC 0 2147483647;
  mkDdi 36866 "Minimum Crop Grade Length" "mm" 0x3F50624DD2F1A9FC 0 2147483647;
  mkDdi 36867 "Minimum Crop Contamination Mass per Area" "mg/m2" 0x3FF0000000000000 0 2147483647;
  mkDdi 36868 "Minimum Crop Contamination Mass per Time" "mg/s" 0x3FF0000000000000 0 2147483647;
  mkDdi 36869 "Minimum Crop Conditioning Intensity" "%" 0x3F847AE147AE147B 0 10000;
  mkDdi 40960 "Default Droplet Size" "n.a. -" 0x3FF0000000000000 0 255;
  mkDdi 40961 "Default Crop Grade Diameter" "mm" 0x3F50624DD2F1A9FC 0 2147483647;
  mkDdi 40962 "Default Crop Grade Length" "mm" 0x3F50624DD2F1A9FC 0 2147483647;
  mkDdi 40963 "Default Crop Contamination Mass per Area" "mg/m2" 0x3FF0000000000000 0 2147483647;
  mkDdi 40964 "Default Crop Contamination Mass per Time" "mg/s" 0x3FF0000000000000 0 2147483647;
  mkDdi 40965 "Default Crop Conditioning Intensity" "%" 0x3F847AE147AE147B 0 10000;
  mkDdi 45056 "Actual Droplet Size" "n.a. -" 0x3FF0000000000000 0 255;
  mkDdi 45057 "Actual Crop Grade Diameter" "mm" 0x3F50624DD2F1A9FC 0 2147483647;
  mkDdi 45058 "Actual Crop Grade Length" "mm" 0x3F50624DD2F1A9FC 0 2147483647;
  mkDdi 45059 "Actual Crop Contamination Mass per Area" "mg/m2" 0x3FF0000000000000 0 2147483647;
  mkDdi 45060 "Actual Crop Contamination Mass per Time" "mg/s" 0x3FF0000000000000 0 2147483647;
  mkDdi 45061 "Actual Crop Conditioning Intensity" "%" 0x3F847AE147AE147B 0 10000;
  mkDdi 49152 "Setpoint Droplet Size" "n.a. -" 0x3FF0000000000000 0 255;
  mkDdi 49153 "Setpoint Crop Grade Diameter" "mm" 0x3F50624DD2F1A9FC 0 2147483647;
  mkDdi 49154 "Setpoint Crop Grade Length" "mm" 0x3F50624DD2F1A9FC 0 2147483647;
  mkDdi 49155 "Setpoint Crop Contamination Mass per Area" "mg/m2" 0x3FF0000000000000 0 2147483647;
  mkDdi 49156 "Setpoint Crop Contamination Mass per Time" "mg/s" 0x3FF0000000000000 0 2147483647;
  mkDdi 49157 "Setpoint Crop Conditioning Intensity" "%" 0x3F847AE147AE147B 0 10000;
  mkDdi 57342 "PGN Based Data" "n.a. -" 0x3FF0000000000000 (-2147483648) 2147483647;
  mkDdi 57343 "Request Default Process Data" "n.a. -" 0x3FF0000000000000 0 0;
  mkDdi 57344 "65534 Proprietary DDI Range" "n.a. -" 0x0 0 2147483647;
  mkDdi 65535 "Reserved" "n.a. -" 0x0 0 2147483647
].

(** The numbers of [mod ddi] the modelled code names. *)
Module ddi.
Definition ACTUAL_WORKING_WIDTH : Z := 67.
Definition MAXIMUM_WORKING_WIDTH : Z := 70.
Definition DEVICE_ELEMENT_OFFSET_X : Z := 134.
Definition DEVICE_ELEMENT_OFFSET_Y : Z := 135.
Definition DEVICE_ELEMENT_OFFSET_Z : Z := 136.
Definition CONNECTOR_PIVOT_X_OFFSET : Z := 264.
End ddi.

(** ** The fingerprint *)

Definition DDI_DATABASE_SIZE : nat := 760.
Definition DDI_DATABASE_FINGERPRINT_FNV1A64 : Z := 0x90BC620AFA2CA611.
Definition FNV1A64_OFFSET : Z := 0xcbf29ce484222325.
Definition FNV1A64_PRIME : Z := 0x00000100000001b3.

Definition fnv1a64_byte (hash byte : Z) : Z := wrap 64 (Z.lxor hash byte * FNV1A64_PRIME).
Definition fnv1a64_bytes (hash : Z) (bytes : list Z) : Z :=
  fnv1a64_byte (foldl fnv1a64_byte hash bytes) 0.

(** [str::as_bytes] of an ASCII string. *)
Definition str_bytes (s : string) : list Z :=
  (fun a => Z.of_N (N_of_ascii a)) <$> list_ascii_of_string s.

Definition fnv1a64_str (hash : Z) (value : string) : Z := fnv1a64_bytes hash (str_bytes value).
Definition fnv1a64_u16 (hash value : Z) : Z := fnv1a64_bytes hash (Name.to_le_bytes 2 value).
Definition fnv1a64_u64 (hash value : Z) : Z := fnv1a64_bytes hash (Name.to_le_bytes 8 value).
Definition fnv1a64_i32 (hash value : Z) : Z := fnv1a64_bytes hash (Name.to_le_bytes 4 value).
Definition fnv1a64_i64 (hash value : Z) : Z := fnv1a64_bytes hash (Name.to_le_bytes 8 value).

Definition ddi_fingerprint_entry (hash : Z) (entry : DDIDefinition) : Z :=
  let hash := fnv1a64_u16 hash (def_ddi entry) in
  let hash := fnv1a64_str hash (def_name entry) in
  let hash := fnv1a64_str hash (def_unit entry) in
  let hash := fnv1a64_u64 hash (def_resolution_bits entry) in
  let hash := fnv1a64_i32 hash (def_min_value entry) in
  fnv1a64_i64 hash (def_max_value entry).
Definition ddi_database_fingerprint (table : list DDIDefinition) : Z :=
  foldl ddi_fingerprint_entry FNV1A64_OFFSET table.

(** ** Lookups and categories *)

(** [str::contains]. *)
Fixpoint str_contains (needle s : string) : bool :=
  if String.prefix needle s then true
  else match s with EmptyString => false | String _ s => str_contains needle s end.

Definition ddi_lookup (d : Z) : option DDIDefinition :=
  List.find (fun e => def_ddi e =? d) DDI_DATABASE.
Definition ddi_name (d : Z) : string :=
  match ddi_lookup d with Some e => def_name e | None => "Unknown" end.
Definition ddi_unit (d : Z) : string :=
  match ddi_lookup d with Some e => def_unit e | None => "" end.

Definition named (needle : string) (d : Z) : bool :=
  match ddi_lookup d with Some e => str_contains needle (def_name e) | None => false end.

Definition ddi_is_rate (d : Z) : bool := named "Application Rate" d.
Definition ddi_is_total (d : Z) : bool := named "Total" d.
Definition ddi_is_geometry (d : Z) : bool :=
  ((134 <=? d) && (d <=? 136)) || ((264 <=? d) && (d <=? 266)).
Definition ddi_is_section_control (d : Z) : bool :=
  if (158 <=? d) && (d <=? 160) then true
  else match ddi_lookup d with
       | Some e => str_contains "Condensed Work State" (def_name e)
                   || str_contains "Condensed Section Override State" (def_name e)
       | None => false
       end.
Definition ddi_is_speed_distance (d : Z) : bool :=
  (d =? 117) || (d =? 118) || (d =? 272) || (d =? 273) || ((396 <=? d) && (d <=? 400))
  || ((597 <=? d) && (d <=? 602)).
Definition ddi_is_proprietary (d : Z) : bool := (57344 <=? d) && (d <=? 65534).

Module DdiClass.
Inductive t : Type := Known | Proprietary | Unknown.
#[global] Instance eq_dec : EqDecision t.
Proof. solve_decision. Defined.
End DdiClass.

Definition classify_ddi (d : Z) : DdiClass.t :=
  match ddi_lookup d with
  | Some _ => DdiClass.Known
  | None => if ddi_is_proprietary d then DdiClass.Proprietary else DdiClass.Unknown
  end.
Definition ddi_is_acceptable (d : Z) : bool :=
  negb (bool_decide (classify_ddi d = DdiClass.Unknown)).
Definition unknown_ddis (ddis : list Z) : list Z := List.filter (fun d => negb (ddi_is_acceptable d)) ddis.

(** ** The table is the published one *)

(** Boolean checks the closed computations run. *)
Fixpoint increasing (l : list Z) : bool :=
  match l with
  | x :: ((y :: _) as l') => (x <? y) && increasing l'
  | _ => true
  end.
Definition entry_ok (e : DDIDefinition) : bool :=
  (0 <=? def_ddi e) && (def_ddi e <? 2 ^ 16) && (- 2 ^ 31 <=? def_min_value e)
  && (def_min_value e <=? def_max_value e) && (def_max_value e <? 2 ^ 63).
Definition category_ok (d : Z) : bool :=
  let none l := forallb negb l in
  implb (ddi_is_rate d)
    (none [ddi_is_total d; ddi_is_section_control d; ddi_is_geometry d; ddi_is_speed_distance d])
  && implb (ddi_is_section_control d)
       (none [ddi_is_total d; ddi_is_geometry d; ddi_is_speed_distance d])
  && eqb (ddi_is_geometry d && ddi_is_total d) (d =? 266).

Lemma increasing_sorted l : increasing l = true -> Sorted Z.lt l.
Proof.
  induction l as [|x l IH]; [constructor|]. cbn. destruct l as [|y l]; [by repeat constructor|].
  intros [H1 H2]%andb_prop. constructor; [by apply IH|]. constructor. lia.
Qed.

Lemma increasing_NoDup l : increasing l = true -> NoDup l.
Proof.
  intros H%increasing_sorted%Sorted_StronglySorted; [|intros ???; lia].
  induction H as [|x l _ IH Hx]; [constructor|]. constructor; [|done].
  intros Hin. rewrite Forall_forall in Hx. specialize (Hx x Hin). lia.
Qed.

Lemma forallb_Forall {A} (f : A -> bool) (P : A -> Prop) l :
  (forall x, f x = true -> P x) -> forallb f l = true -> Forall P l.
Proof.
  intros HP. induction l as [|x l IH]; [constructor|]. cbn. intros [H1 H2]%andb_prop.
  constructor; eauto.
Qed.

(** The fingerprint with the reduction modulo [2 ^ 64] as a mask, to run it. *)
Definition fast_byte (hash byte : Z) : Z :=
  Z.land (FNV1A64_PRIME * Z.lxor hash byte) 0xFFFFFFFFFFFFFFFF.
Definition fast_bytes (hash : Z) (bytes : list Z) : Z := fast_byte (foldl fast_byte hash bytes) 0.
Definition fast_entry (hash : Z) (e : DDIDefinition) : Z :=
  foldl fast_bytes hash
    [Name.to_le_bytes 2 (def_ddi e); str_bytes (def_name e); str_bytes (def_unit e);
     Name.to_le_bytes 8 (def_resolution_bits e); Name.to_le_bytes 4 (def_min_value e);
     Name.to_le_bytes 8 (def_max_value e)].

Lemma foldl_ext_eq {A B} (f g : B -> A -> B) l : (forall b a, f b a = g b a) ->
  forall b, foldl f b l = foldl g b l.
Proof. intros H. induction l as [|a l IH]; intros b; [done|]. cbn. by rewrite H. Qed.

Lemma fast_byte_eq hash byte : fnv1a64_byte hash byte = fast_byte hash byte.
Proof.
  unfold fnv1a64_byte, fast_byte, wrap. change 0xFFFFFFFFFFFFFFFF with (Z.ones 64).
  by rewrite Z.land_ones, (Z.mul_comm FNV1A64_PRIME).
Qed.

Lemma fast_bytes_eq hash bytes : fnv1a64_bytes hash bytes = fast_bytes hash bytes.
Proof.
  unfold fnv1a64_bytes, fast_bytes. rewrite fast_byte_eq. f_equal.
  apply foldl_ext_eq, fast_byte_eq.
Qed.

Lemma fast_entry_eq hash e : ddi_fingerprint_entry hash e = fast_entry hash e.
Proof.
  unfold ddi_fingerprint_entry, fast_entry, fnv1a64_u16, fnv1a64_str, fnv1a64_u64, fnv1a64_i32,
    fnv1a64_i64. cbn [foldl]. by rewrite !fast_bytes_eq.
Qed.

(** The table has the size and the fingerprint the source publishes for it, its numbers grow
    strictly, and every entry has its fields in their types with an ordered range. *)
(** The table has the size and the fingerprint the source publishes for it, its numbers grow
    strictly, and every entry has its fields in their types with an ordered range. *)
Theorem ddi_table_published :
  length DDI_DATABASE = DDI_DATABASE_SIZE /\
  ddi_database_fingerprint DDI_DATABASE = DDI_DATABASE_FINGERPRINT_FNV1A64 /\
  StronglySorted Z.lt (def_ddi <$> DDI_DATABASE) /\
  Forall (fun e => in_u 16 (def_ddi e) /\ -2 ^ 31 <= def_min_value e <= def_max_value e /\
                   def_max_value e < 2 ^ 63) DDI_DATABASE.
Proof.
  split; [by vm_compute|]. split.
  { unfold ddi_database_fingerprint. rewrite (foldl_ext_eq _ _ _ fast_entry_eq). by vm_compute. }
  split.
  - apply Sorted_StronglySorted; [intros ???; lia|].
    apply (increasing_sorted (def_ddi <$> DDI_DATABASE)). by vm_compute.
  - apply (forallb_Forall entry_ok); [|by vm_compute]. intros e He.
    unfold entry_ok in He. unfold in_u. lia.
Qed.

(** A lookup finds exactly the entry with that number. *)
Theorem ddi_lookup_spec d e :
  ddi_lookup d = Some e <-> e ∈ DDI_DATABASE /\ def_ddi e = d.
Proof.
  split.
  - intros H. apply find_some in H as [H1 H2]. apply list_elem_of_In in H1. split; [done|lia].
  - intros [He <-]. unfold ddi_lookup.
    assert (Hnd : NoDup (def_ddi <$> DDI_DATABASE)).
    { apply increasing_NoDup. by vm_compute. }
    revert He Hnd. generalize DDI_DATABASE. induction l as [|x l IH]; [by intros ?%not_elem_of_nil|].
    cbn. intros [->|He]%elem_of_cons [Hx Hnd]%NoDup_cons; [by rewrite Z.eqb_refl|].
    destruct (Z.eqb_spec (def_ddi x) (def_ddi e)) as [E|_]; [|by apply IH].
    destruct Hx. rewrite E. by apply list_elem_of_fmap_2.
Qed.

(** The categories decided from the names exclude each other, and exclude the geometry and
    speed ranges but for one number: 266 counts as a geometry offset although the table names
    it a lifetime total. *)
Theorem ddi_categories d :
  (ddi_is_rate d = true -> ddi_is_total d = false /\ ddi_is_section_control d = false /\
     ddi_is_geometry d = false /\ ddi_is_speed_distance d = false) /\
  (ddi_is_section_control d = true -> ddi_is_total d = false /\
     ddi_is_geometry d = false /\ ddi_is_speed_distance d = false) /\
  (ddi_is_geometry d = true /\ ddi_is_total d = true <-> d = 266) /\
  ddi_name 266 = "Lifetime Application Total Mass".
Proof.
  assert (Hk : is_Some (ddi_lookup d) \/ ddi_lookup d = None)
    by (destruct (ddi_lookup d); eauto).
  destruct Hk as [[e He]|Hn].
  - apply ddi_lookup_spec in He as [He <-].
    assert (H : Forall (fun d => category_ok d = true) (def_ddi <$> DDI_DATABASE)).
    { apply (forallb_Forall category_ok); [done|]. by vm_compute. }
    rewrite Forall_fmap, Forall_forall in H. specialize (H e He). cbn in H.
    unfold category_ok in H. revert H. generalize (ddi_is_rate (def_ddi e)).
    generalize (ddi_is_total (def_ddi e)), (ddi_is_section_control (def_ddi e)).
    generalize (ddi_is_geometry (def_ddi e)), (ddi_is_speed_distance (def_ddi e)).
    intros g sp t sc r H. split; [|split; [|split; [|by vm_compute]]];
      destruct r, t, sc, g, sp, (Z.eqb_spec (def_ddi e) 266); by cbn in *; intuition.
  - unfold ddi_is_rate, ddi_is_total, ddi_is_section_control, named. rewrite Hn.
    split_and!; try done.
    + destruct (_ && _) eqn:E; [|done]. intros _. split_and!; [done| |];
        unfold ddi_is_geometry, ddi_is_speed_distance; lia.
    + split; [by intros []|]. intros ->. by vm_compute in Hn.
Qed.
