(* ===== verification/DdopObjects.v ===== *)
(** Device descriptor objects: the model of [src/isobus/tc/objects.rs].

    A Rust [String] is its list of UTF-8 bytes; an [f32] that is only stored, compared for
    finiteness and copied is its bit pattern.  Serialisation returns a [Result]; the [?]
    operator is [let?]. *)
From S2P Require Export Name DdiDatabase.

(** The [?] operator. *)
Definition try_bind {A B E} (r : Result A E) (k : A -> Result B E) : Result B E :=
  match r with Ok a => k a | Err e => Err e end.
Notation "'let?' x ':=' m 'in' k" := (try_bind m (fun x => k))
  (at level 200, x pattern, m at level 100, k at level 200, right associativity) : bus_scope.

Definition pool_validation (m : string) : Error.t := Error.with_message ErrorCode.PoolValidation m.

(** [core::str::from_utf8] accepts exactly these byte sequences. *)
Definition utf8_tail (b : Z) : bool := (0x80 <=? b) && (b <=? 0xBF).
Fixpoint utf8_valid (l : list Z) : bool :=
  match l with
  | [] => true
  | b :: l1 =>
      if b <? 0x80 then utf8_valid l1
      else if (0xC2 <=? b) && (b <=? 0xDF) then
        match l1 with b1 :: l2 => utf8_tail b1 && utf8_valid l2 | _ => false end
      else if (0xE0 <=? b) && (b <=? 0xEF) then
        match l1 with
        | b1 :: b2 :: l3 =>
            ((if b =? 0xE0 then 0xA0 else 0x80) <=? b1)
            && (b1 <=? (if b =? 0xED then 0x9F else 0xBF)) && utf8_tail b2 && utf8_valid l3
        | _ => false
        end
      else if (0xF0 <=? b) && (b <=? 0xF4) then
        match l1 with
        | b1 :: b2 :: b3 :: l4 =>
            ((if b =? 0xF0 then 0x90 else 0x80) <=? b1)
            && (b1 <=? (if b =? 0xF4 then 0x8F else 0xBF)) && utf8_tail b2 && utf8_tail b3
            && utf8_valid l4
        | _ => false
        end
      else false
  end.

(** [bytes.iter().map(|&b| b as char).collect()]: every byte as the code point it numbers. *)
Definition latin1_char (b : Z) : list Z :=
  if b <? 0x80 then [b] else [Z.lor 0xC0 (Z.shiftr b 6); Z.lor 0x80 (Z.land b 0x3F)].
Definition latin1_string (l : list Z) : list Z := l ≫= latin1_char.

Definition DDOP_TEXT_MAX_BYTES : nat := 128.
Definition DDOP_VERSION_EXTENDED_STRUCTURE_LABEL : Z := 4.
Definition NULL_OBJECT_ID : Z := 0xFFFF.

Module TCObjectType.
Inductive t : Type :=
| Device | DeviceElement | DeviceProcessData | DeviceProperty | DeviceValuePresentation.

#[global] Instance eq_dec : EqDecision t.
Proof. solve_decision. Defined.

(** ["DVC"], ["DET"], ["DPD"], ["DPT"] and ["DVP"]. *)
Definition table_id (x : t) : list Z :=
  match x with
  | Device => [0x44; 0x56; 0x43]
  | DeviceElement => [0x44; 0x45; 0x54]
  | DeviceProcessData => [0x44; 0x50; 0x44]
  | DeviceProperty => [0x44; 0x50; 0x54]
  | DeviceValuePresentation => [0x44; 0x56; 0x50]
  end.
Definition from_table_id (id : list Z) : option t :=
  match id with
  | 0x44 :: 0x56 :: 0x43 :: _ => Some Device
  | 0x44 :: 0x45 :: 0x54 :: _ => Some DeviceElement
  | 0x44 :: 0x50 :: 0x44 :: _ => Some DeviceProcessData
  | 0x44 :: 0x50 :: 0x54 :: _ => Some DeviceProperty
  | 0x44 :: 0x56 :: 0x50 :: _ => Some DeviceValuePresentation
  | _ => None
  end.
End TCObjectType.

Module DeviceElementType.
Inductive t : Type :=
| Device | Function_ | Bin | Section_ | Unit_ | Connector | NavigationReference.

#[global] Instance eq_dec : EqDecision t.
Proof. solve_decision. Defined.

Definition as_u8 (x : t) : Z :=
  match x with
  | Device => 1 | Function_ => 2 | Bin => 3 | Section_ => 4 | Unit_ => 5 | Connector => 6
  | NavigationReference => 7
  end.
End DeviceElementType.

Module TriggerMethod.
Inductive t : Type := TimeInterval | DistanceInterval | ThresholdLimits | OnChange | Total.
Definition as_u8 (x : t) : Z :=
  match x with
  | TimeInterval => 0x01 | DistanceInterval => 0x02 | ThresholdLimits => 0x04
  | OnChange => 0x08 | Total => 0x10
  end.
Definition ALL_BITS : Z :=
  Z.lor (as_u8 TimeInterval) (Z.lor (as_u8 DistanceInterval) (Z.lor (as_u8 ThresholdLimits)
    (Z.lor (as_u8 OnChange) (as_u8 Total)))).
End TriggerMethod.

(** ** The five records *)

Record DeviceObject : Type := mkDevice {
  dvc_id : Z;
  dvc_designator : list Z;
  dvc_software_version : list Z;
  dvc_client_name : Z;
  dvc_serial_number : list Z;
  dvc_structure_label : list Z;
  dvc_localization_label : list Z;
  dvc_extended_structure_label : list Z
}.
Record DeviceElement : Type := mkElement {
  det_id : Z;
  det_type : DeviceElementType.t;
  det_number : Z;
  det_parent_id : Z;
  det_designator : list Z;
  det_child_objects : list Z
}.
Record DeviceProcessData : Type := mkProcessData {
  dpd_id : Z;
  dpd_ddi : Z;
  dpd_properties : Z;
  dpd_trigger_methods : Z;
  dpd_presentation_object_id : Z;
  dpd_designator : list Z
}.
Record DeviceProperty : Type := mkProperty {
  dpt_id : Z;
  dpt_ddi : Z;
  dpt_value : Z;
  dpt_presentation_object_id : Z;
  dpt_designator : list Z
}.
Record DeviceValuePresentation : Type := mkPresentation {
  dvp_id : Z;
  dvp_offset : Z;
  dvp_scale_bits : Z;
  dvp_decimal_digits : Z;
  dvp_unit_designator : list Z
}.

(** ** Serialisation *)

Definition push_u16_le (v : Z) : list Z := [Z.land v 0xFF; Z.land (Z.shiftr v 8) 0xFF].

Definition text_too_long (field : string) : Error.t :=
  pool_validation (field +:+ " exceeds the 128-byte DDOP text limit").
Definition push_str_with_len (field : string) (s : list Z) : Result (list Z) Error.t :=
  if (DDOP_TEXT_MAX_BYTES <? length s)%nat then Err (text_too_long field)
  else Ok (wrap 8 (Z.of_nat (length s)) :: s).

Definition device_serialize_for_version (version : Z) (d : DeviceObject)
    : Result (list Z) Error.t :=
  if (32 <? length (dvc_extended_structure_label d))%nat then
    Err (pool_validation "device extended structure label exceeds 32 bytes")
  else
    let? designator := push_str_with_len "device designator" (dvc_designator d) in
    let? version_text := push_str_with_len "device software version" (dvc_software_version d) in
    let? serial := push_str_with_len "device serial number" (dvc_serial_number d) in
    Ok (TCObjectType.table_id TCObjectType.Device ++ push_u16_le (dvc_id d)
        ++ designator ++ version_text ++ Name.to_le_bytes 8 (dvc_client_name d) ++ serial
        ++ dvc_structure_label d ++ dvc_localization_label d
        ++ if DDOP_VERSION_EXTENDED_STRUCTURE_LABEL <=? version then
             wrap 8 (Z.of_nat (length (dvc_extended_structure_label d)))
               :: dvc_extended_structure_label d
           else []).

Definition element_serialize (e : DeviceElement) : Result (list Z) Error.t :=
  if 0xFFFF <? Z.of_nat (length (det_child_objects e)) then
    Err (pool_validation "device element has too many child object references")
  else
    let? designator := push_str_with_len "device element designator" (det_designator e) in
    Ok (TCObjectType.table_id TCObjectType.DeviceElement ++ push_u16_le (det_id e)
        ++ [DeviceElementType.as_u8 (det_type e)] ++ designator
        ++ push_u16_le (det_number e) ++ push_u16_le (det_parent_id e)
        ++ push_u16_le (wrap 16 (Z.of_nat (length (det_child_objects e))))
        ++ (det_child_objects e ≫= push_u16_le)).

Definition validate_trigger_methods (pd : DeviceProcessData) : Result unit Error.t :=
  if negb (Z.land (dpd_trigger_methods pd) (not_u 8 TriggerMethod.ALL_BITS) =? 0) then
    Err (pool_validation "process data trigger methods contain reserved bits")
  else Ok tt.

Definition validate_properties (pd : DeviceProcessData) : Result unit Error.t :=
  let DEFAULT_SET := 0x01 in
  let SETTABLE := 0x02 in
  let CONTROL_SOURCE := 0x04 in
  if negb (Z.land (dpd_properties pd)
             (not_u 8 (Z.lor (Z.lor DEFAULT_SET SETTABLE) CONTROL_SOURCE)) =? 0) then
    Err (pool_validation "process data properties contain reserved bits")
  else if negb (Z.land (dpd_properties pd) SETTABLE =? 0)
          && negb (Z.land (dpd_properties pd) CONTROL_SOURCE =? 0) then
    Err (pool_validation
      "process data properties: settable and control source are mutually exclusive")
  else Ok tt.

Definition process_data_serialize (pd : DeviceProcessData) : Result (list Z) Error.t :=
  let? _ := validate_trigger_methods pd in
  let? _ := validate_properties pd in
  let? designator := push_str_with_len "process data designator" (dpd_designator pd) in
  Ok (TCObjectType.table_id TCObjectType.DeviceProcessData ++ push_u16_le (dpd_id pd)
      ++ push_u16_le (dpd_ddi pd) ++ [dpd_properties pd; dpd_trigger_methods pd]
      ++ designator ++ push_u16_le (dpd_presentation_object_id pd)).

(** [i32::to_le_bytes]. *)
Definition i32_le (v : Z) : list Z := Name.to_le_bytes 4 v.

Definition property_serialize (p : DeviceProperty) : Result (list Z) Error.t :=
  let? designator := push_str_with_len "property designator" (dpt_designator p) in
  Ok (TCObjectType.table_id TCObjectType.DeviceProperty ++ push_u16_le (dpt_id p)
      ++ push_u16_le (dpt_ddi p) ++ i32_le (dpt_value p)
      ++ designator ++ push_u16_le (dpt_presentation_object_id p)).

(** [f32::is_finite] on the bit pattern. *)
Definition f32_is_finite (bits : Z) : bool := negb (Z.land (Z.shiftr bits 23) 0xFF =? 0xFF).

Definition presentation_serialize (vp : DeviceValuePresentation) : Result (list Z) Error.t :=
  if negb (f32_is_finite (dvp_scale_bits vp)) then
    Err (pool_validation "value presentation scale must be finite")
  else
    let? unit_text :=
      push_str_with_len "value presentation unit designator" (dvp_unit_designator vp) in
    Ok (TCObjectType.table_id TCObjectType.DeviceValuePresentation ++ push_u16_le (dvp_id vp)
        ++ i32_le (dvp_offset vp) ++ Name.to_le_bytes 4 (dvp_scale_bits vp)
        ++ [dvp_decimal_digits vp] ++ unit_text).
