(* ===== verification/Ddop.v ===== *)
(** The device descriptor object pool: the model of [src/isobus/tc/ddop.rs].

    A parser is a function of the input and an offset; [None] is the panic of an index out of
    range, an inner [Err] the error the source returns.  ISOXML emission, which prints floats,
    is left out. *)
From S2P Require Export DdopObjects.

(** [crate::isobus::tc::server::MAX_PROCESS_DATA_ELEMENT_NUMBER] *)
Definition MAX_PROCESS_DATA_ELEMENT_NUMBER : Z := 0x0FFF.

Record DDOP : Type := mkDdop {
  dd_devices : list DeviceObject;
  dd_elements : list DeviceElement;
  dd_process_data : list DeviceProcessData;
  dd_properties : list DeviceProperty;
  dd_value_presentations : list DeviceValuePresentation;
  dd_next_id : Z
}.
Definition DDOP_default : DDOP := mkDdop [] [] [] [] [] 0.

Definition dd_with_next_id (x : Z) (d : DDOP) : DDOP :=
  mkDdop (dd_devices d) (dd_elements d) (dd_process_data d) (dd_properties d)
    (dd_value_presentations d) x.
Definition push_device (x : DeviceObject) (d : DDOP) : DDOP :=
  mkDdop (dd_devices d ++ [x]) (dd_elements d) (dd_process_data d) (dd_properties d)
    (dd_value_presentations d) (dd_next_id d).
Definition push_element (x : DeviceElement) (d : DDOP) : DDOP :=
  mkDdop (dd_devices d) (dd_elements d ++ [x]) (dd_process_data d) (dd_properties d)
    (dd_value_presentations d) (dd_next_id d).
Definition push_process_data (x : DeviceProcessData) (d : DDOP) : DDOP :=
  mkDdop (dd_devices d) (dd_elements d) (dd_process_data d ++ [x]) (dd_properties d)
    (dd_value_presentations d) (dd_next_id d).
Definition push_property (x : DeviceProperty) (d : DDOP) : DDOP :=
  mkDdop (dd_devices d) (dd_elements d) (dd_process_data d) (dd_properties d ++ [x])
    (dd_value_presentations d) (dd_next_id d).
Definition push_presentation (x : DeviceValuePresentation) (d : DDOP) : DDOP :=
  mkDdop (dd_devices d) (dd_elements d) (dd_process_data d) (dd_properties d)
    (dd_value_presentations d ++ [x]) (dd_next_id d).

(** ** Identifiers *)

Definition object_count (d : DDOP) : nat :=
  (length (dd_devices d) + length (dd_elements d) + length (dd_process_data d)
   + length (dd_properties d) + length (dd_value_presentations d))%nat.

Definition vp_exists (d : DDOP) (id : Z) : bool :=
  existsb (fun vp => dvp_id vp =? id) (dd_value_presentations d).

Definition object_kind (d : DDOP) (id : Z) : option TCObjectType.t :=
  if existsb (fun x => dvc_id x =? id) (dd_devices d) then Some TCObjectType.Device
  else if existsb (fun x => det_id x =? id) (dd_elements d) then Some TCObjectType.DeviceElement
  else if existsb (fun x => dpd_id x =? id) (dd_process_data d)
  then Some TCObjectType.DeviceProcessData
  else if existsb (fun x => dpt_id x =? id) (dd_properties d)
  then Some TCObjectType.DeviceProperty
  else if vp_exists d id then Some TCObjectType.DeviceValuePresentation
  else None.

Definition object_exists (d : DDOP) (id : Z) : bool :=
  match object_kind d id with Some _ => true | None => false end.

(** The search loop of [allocate_next_id]. *)
Fixpoint free_id (n : nat) (candidate : Z) (d : DDOP) : option Z :=
  match n with
  | O => None
  | S n =>
      if negb (candidate =? NULL_OBJECT_ID) && negb (object_exists d candidate)
      then Some candidate
      else free_id n (wrap 16 (candidate + 1)) d
  end.

Definition no_identifiers : Error.t :=
  pool_validation "DDOP has no available object identifiers".
Definition allocate_next_id (d : DDOP) : DDOP * Result Z Error.t :=
  if 0xFFFF <=? Z.of_nat (object_count d) then (d, Err no_identifiers)
  else match free_id (Z.to_nat 0x10000) (dd_next_id d) d with
       | Some candidate =>
           let next := wrap 16 (candidate + 1) in
           (dd_with_next_id (if next =? NULL_OBJECT_ID then 0 else next) d, Ok candidate)
       | None => (d, Err no_identifiers)
       end.

Definition next_id (d : DDOP) : DDOP * Z :=
  let '(d, r) := allocate_next_id d in
  (d, match r with Ok id => id | Err _ => NULL_OBJECT_ID end).

(** [if x.id == 0 { x.id = self.allocate_next_id()? }]. *)
Definition auto_id (id : Z) (d : DDOP) : DDOP * Result Z Error.t :=
  if id =? 0 then allocate_next_id d else (d, Ok id).

Definition add_device (obj : DeviceObject) (d : DDOP) : DDOP * Result Z Error.t :=
  match dvc_designator obj with
  | [] => (d, Err (Error.invalid_state "device designator is required"))
  | _ =>
      let obj := mkDevice 0 (dvc_designator obj) (dvc_software_version obj)
                   (dvc_client_name obj) (dvc_serial_number obj) (dvc_structure_label obj)
                   (dvc_localization_label obj) (dvc_extended_structure_label obj) in
      (push_device obj d, Ok (dvc_id obj))
  end.

Definition add_element (e : DeviceElement) (d : DDOP) : DDOP * Result Z Error.t :=
  match auto_id (det_id e) d with
  | (d, Ok id) =>
      (push_element (mkElement id (det_type e) (det_number e) (det_parent_id e)
                       (det_designator e) (det_child_objects e)) d, Ok id)
  | (d, Err e) => (d, Err e)
  end.

Definition add_process_data (pd : DeviceProcessData) (d : DDOP) : DDOP * Result Z Error.t :=
  match auto_id (dpd_id pd) d with
  | (d, Ok id) =>
      (push_process_data (mkProcessData id (dpd_ddi pd) (dpd_properties pd)
         (dpd_trigger_methods pd) (dpd_presentation_object_id pd) (dpd_designator pd)) d, Ok id)
  | (d, Err e) => (d, Err e)
  end.

Definition add_property (p : DeviceProperty) (d : DDOP) : DDOP * Result Z Error.t :=
  match auto_id (dpt_id p) d with
  | (d, Ok id) =>
      (push_property (mkProperty id (dpt_ddi p) (dpt_value p) (dpt_presentation_object_id p)
                        (dpt_designator p)) d, Ok id)
  | (d, Err e) => (d, Err e)
  end.

Definition add_value_presentation (vp : DeviceValuePresentation) (d : DDOP)
    : DDOP * Result Z Error.t :=
  match auto_id (dvp_id vp) d with
  | (d, Ok id) =>
      (push_presentation (mkPresentation id (dvp_offset vp) (dvp_scale_bits vp)
                            (dvp_decimal_digits vp) (dvp_unit_designator vp)) d, Ok id)
  | (d, Err e) => (d, Err e)
  end.

Definition ddop_clear (d : DDOP) : DDOP := mkDdop [] [] [] [] [] 0.

(** ** Validation *)

(** A [for] loop whose body may return an error. *)
Fixpoint try_each {A} (f : A -> Result unit Error.t) (l : list A) : Result unit Error.t :=
  match l with
  | [] => Ok tt
  | x :: l => let? _ := f x in try_each f l
  end.

Definition validate_wire_text (field : string) (value : list Z) : Result unit Error.t :=
  if (DDOP_TEXT_MAX_BYTES <? length value)%nat then Err (text_too_long field) else Ok tt.

Definition validate_serializable (d : DDOP) : Result unit Error.t :=
  let? _ := try_each (fun dev =>
    match dvc_designator dev with
    | [] => Err (Error.invalid_state "device designator is required")
    | _ =>
        let? _ := validate_wire_text "device designator" (dvc_designator dev) in
        let? _ := validate_wire_text "device software version" (dvc_software_version dev) in
        validate_wire_text "device serial number" (dvc_serial_number dev)
    end) (dd_devices d) in
  let? _ := try_each (fun e =>
    let? _ := validate_wire_text "device element designator" (det_designator e) in
    if 0xFFFF <? Z.of_nat (length (det_child_objects e)) then
      Err (pool_validation "device element has too many child object references")
    else Ok tt) (dd_elements d) in
  let? _ := try_each (fun pd =>
    let? _ := validate_trigger_methods pd in
    validate_wire_text "process data designator" (dpd_designator pd)) (dd_process_data d) in
  let? _ := try_each (fun p => validate_wire_text "property designator" (dpt_designator p))
              (dd_properties d) in
  try_each (fun vp =>
    if negb (f32_is_finite (dvp_scale_bits vp)) then
      Err (pool_validation "value presentation scale must be finite")
    else validate_wire_text "value presentation unit designator" (dvp_unit_designator vp))
    (dd_value_presentations d).

Fixpoint unique_ids (ids : list Z) (l : list Z) : Result (list Z) Error.t :=
  match l with
  | [] => Ok ids
  | id :: l =>
      if id =? NULL_OBJECT_ID then Err (pool_validation "object ID 0xFFFF is reserved")
      else if existsb (Z.eqb id) ids then Err (pool_validation "duplicate DDOP object id")
      else unique_ids (ids ++ [id]) l
  end.

Definition validate_unique_object_ids (d : DDOP) : Result unit Error.t :=
  let? ids := unique_ids [] (dvc_id <$> dd_devices d) in
  let? ids := unique_ids ids (det_id <$> dd_elements d) in
  let? ids := unique_ids ids (dpd_id <$> dd_process_data d) in
  let? ids := unique_ids ids (dpt_id <$> dd_properties d) in
  let? _ := unique_ids ids (dvp_id <$> dd_value_presentations d) in
  Ok tt.

Definition is_root (e : DeviceElement) : bool :=
  bool_decide (det_type e = DeviceElementType.Device).

Definition validate_object_hierarchy (d : DDOP) : Result unit Error.t :=
  match dd_devices d with
  | [dev] =>
      if negb (dvc_id dev =? 0) then
        Err (pool_validation "A.7 Figure A.1: the DeviceObject has ObjectId 0")
      else match List.filter is_root (dd_elements d) with
           | [root] =>
               if negb (det_number root =? 0) then
                 Err (pool_validation
                   "A.3: the device-type DeviceElement is element number 0")
               else try_each (fun e =>
                 if MAX_PROCESS_DATA_ELEMENT_NUMBER <? det_number e then
                   Err (pool_validation "element number exceeds the 12-bit process-data field")
                 else Ok tt) (dd_elements d)
           | _ => Err (pool_validation
               "A.3: a DDOP shall contain exactly one DeviceElement of type device")
           end
  | _ => Err (pool_validation "A.7: a DDOP shall contain exactly one DeviceObject")
  end.

Definition validate_parent (d : DDOP) (e : DeviceElement) : Result unit Error.t :=
  if det_parent_id e =? det_id e then
    Err (pool_validation "element parent references itself")
  else if negb (det_parent_id e =? 0xFFFF) then
    match object_kind d (det_parent_id e) with
    | Some TCObjectType.Device | Some TCObjectType.DeviceElement => Ok tt
    | Some _ => Err (pool_validation "element parent references unsupported object type")
    | None => Err (pool_validation "element references non-existent parent")
    end
  else Ok tt.

Definition validate_child (d : DDOP) (e : DeviceElement) (cid : Z) : Result unit Error.t :=
  if cid =? det_id e then
    Err (pool_validation "element child list references itself")
  else match object_kind d cid with
       | Some TCObjectType.DeviceElement | Some TCObjectType.DeviceProcessData
       | Some TCObjectType.DeviceProperty => Ok tt
       | Some _ => Err (pool_validation "element child references unsupported object type")
       | None => Err (pool_validation "element references non-existent child object")
       end.

Definition validate (d : DDOP) : Result unit Error.t :=
  match dd_devices d, dd_elements d with
  | [], _ => Err (Error.invalid_state "DDOP must have at least one device")
  | _, [] => Err (Error.invalid_state "DDOP must have at least one device element")
  | _, _ =>
      let? _ := validate_serializable d in
      let? _ := validate_unique_object_ids d in
      let? _ := validate_object_hierarchy d in
      let? _ := try_each (fun e =>
        let? _ := validate_parent d e in
        try_each (validate_child d e) (det_child_objects e)) (dd_elements d) in
      let? _ := try_each (fun pd =>
        if negb (dpd_presentation_object_id pd =? 0xFFFF)
           && negb (vp_exists d (dpd_presentation_object_id pd)) then
          Err (pool_validation "process data references non-existent presentation object")
        else Ok tt) (dd_process_data d) in
      try_each (fun p =>
        if negb (dpt_presentation_object_id p =? 0xFFFF)
           && negb (dpt_presentation_object_id p =? 0)
           && negb (vp_exists d (dpt_presentation_object_id p)) then
          Err (pool_validation "property references non-existent presentation object")
        else Ok tt) (dd_properties d)
  end.

(** ** Serialisation *)

(** [for x in l { data.extend(f(x)?) }]. *)
Fixpoint extend_each {A} (f : A -> Result (list Z) Error.t) (l : list A)
    : Result (list Z) Error.t :=
  match l with
  | [] => Ok []
  | x :: l => let? bs := f x in let? rest := extend_each f l in Ok (bs ++ rest)
  end.

Definition ddop_serialize_for_version (version : Z) (d : DDOP) : Result (list Z) Error.t :=
  let? _ := validate_serializable d in
  let? b1 := extend_each (device_serialize_for_version version) (dd_devices d) in
  let? b2 := extend_each element_serialize (dd_elements d) in
  let? b3 := extend_each process_data_serialize (dd_process_data d) in
  let? b4 := extend_each property_serialize (dd_properties d) in
  let? b5 := extend_each presentation_serialize (dd_value_presentations d) in
  Ok (b1 ++ b2 ++ b3 ++ b4 ++ b5).

Definition ddop_serialize (d : DDOP) : Result (list Z) Error.t :=
  ddop_serialize_for_version (DDOP_VERSION_EXTENDED_STRUCTURE_LABEL - 1) d.

(** ** Deserialisation *)

(** A parser: the input and [*offset] to a value and the advanced offset. *)
Definition Parser (A : Type) : Type := list Z -> nat -> option (Result (A * nat) Error.t).

Definition p_ret {A} (a : A) : Parser A := fun _ o => Some (Ok (a, o)).
Definition p_err {A} (e : Error.t) : Parser A := fun _ _ => Some (Err e).
Definition p_bind {A B} (p : Parser A) (k : A -> Parser B) : Parser B := fun data o =>
  match p data o with
  | Some (Ok (a, o)) => k a data o
  | Some (Err e) => Some (Err e)
  | None => None
  end.
Notation "'let!' x ':=' m 'in' k" := (p_bind m (fun x => k))
  (at level 200, x pattern, m at level 100, k at level 200, right associativity) : bus_scope.

Definition truncated_error : Error.t :=
  pool_validation "DDOP data truncated during deserialization".

(** [if *offset + n > data.len() { return Err(truncated_error()) }]. *)
Definition need (n : nat) : Parser unit := fun data o =>
  if (length data <? o + n)%nat then Some (Err truncated_error) else Some (Ok (tt, o)).
(** [data[*offset]] and [*offset += 1]. *)
Definition byte : Parser Z := fun data o => b ← data !! o; Some (Ok (b, S o)).
(** [&data[*offset..*offset + n]] and [*offset += n]. *)
Definition slice (n : nat) : Parser (list Z) := fun data o =>
  if (o + n <=? length data)%nat then Some (Ok (take n (drop o data), (o + n)%nat)) else None.
(** [(data[*offset] as u16) | ((data[*offset + 1] as u16) << 8)] and [*offset += 2]. *)
Definition word : Parser Z :=
  let! b0 := byte in let! b1 := byte in p_ret (Z.lor b0 (Z.shiftl b1 8)).
(** [i32::from_le_bytes]. *)
Definition to_i32 (x : Z) : Z := if x <? 2 ^ 31 then x else x - 2 ^ 32.

Definition read_string : Parser (list Z) :=
  let! _ := need 1 in
  let! len := byte in
  let! _ := need (Z.to_nat len) in
  let! bytes := slice (Z.to_nat len) in
  p_ret (if utf8_valid bytes then bytes else latin1_string bytes).

(** The version-4 label, taken when a length of at most 32 and that many bytes follow. *)
Definition read_extended_label : Parser (list Z) := fun data o =>
  if (o <? length data)%nat then
    len ← data !! o;
    let len := Z.to_nat len in
    if (len <=? 32)%nat && (o + 1 + len <=? length data)%nat
    then Some (Ok (take len (drop (o + 1) data), (o + 1 + len)%nat))
    else Some (Ok ([], o))
  else Some (Ok ([], o)).

Definition parse_device (id : Z) : Parser DeviceObject :=
  let! designator := read_string in
  let! software_version := read_string in
  let! _ := need 8 in
  let! name_bytes := slice 8 in
  let client_name := Name.from_le_bytes name_bytes in
  let! serial_number := read_string in
  let! _ := need 14 in
  let! structure_label := slice 7 in
  let! localization_label := slice 7 in
  let! extended_structure_label := read_extended_label in
  p_ret (mkDevice id designator software_version client_name serial_number structure_label
           localization_label extended_structure_label).

Definition element_type (b : Z) : option DeviceElementType.t :=
  match b with
  | 1 => Some DeviceElementType.Device
  | 2 => Some DeviceElementType.Function_
  | 3 => Some DeviceElementType.Bin
  | 4 => Some DeviceElementType.Section_
  | 5 => Some DeviceElementType.Unit_
  | 6 => Some DeviceElementType.Connector
  | 7 => Some DeviceElementType.NavigationReference
  | _ => None
  end.

(** The loop over the child references. *)
Fixpoint parse_children (n : nat) : Parser (list Z) :=
  match n with
  | O => p_ret []
  | S n => let! cid := word in let! children := parse_children n in p_ret (cid :: children)
  end.

Definition parse_element (id : Z) : Parser DeviceElement :=
  let! _ := need 1 in
  let! b := byte in
  match element_type b with
  | None => p_err (pool_validation "unknown device element type in DDOP")
  | Some type =>
      let! designator := read_string in
      let! _ := need 6 in
      let! number := word in
      let! parent_id := word in
      let! num_children := word in
      let! _ := need (Z.to_nat num_children * 2) in
      let! children := parse_children (Z.to_nat num_children) in
      p_ret (mkElement id type number parent_id designator children)
  end.

Definition reserved_ddi (ddi : Z) : bool := (ddi =? 0) || (ddi =? 0xFFFF).

Definition parse_process_data (id : Z) : Parser DeviceProcessData :=
  let! _ := need 5 in
  let! ddi := word in
  if reserved_ddi ddi then
    p_err (pool_validation "DDOP process data DDI 0 and 65535 are reserved NULL DDIs")
  else
    let! properties := byte in
    let! trigger_methods := byte in
    if negb (Z.land trigger_methods 0xE0 =? 0) then
      p_err (pool_validation "DDOP trigger method reserved bits 5..7 must be zero")
    else
      let! designator := read_string in
      let! _ := need 2 in
      let! presentation_object_id := word in
      let process_data := mkProcessData id ddi properties trigger_methods
                            presentation_object_id designator in
      match validate_properties process_data with
      | Err e => p_err e
      | Ok _ => p_ret process_data
      end.

Definition parse_property (id : Z) : Parser DeviceProperty :=
  let! _ := need 8 in
  let! ddi := word in
  if reserved_ddi ddi then
    p_err (pool_validation "DDOP property DDI 0 and 65535 are reserved NULL DDIs")
  else
    let! value := slice 4 in
    let! designator := read_string in
    let! _ := need 2 in
    let! presentation_object_id := word in
    p_ret (mkProperty id ddi (to_i32 (Name.from_le_bytes value)) presentation_object_id
             designator).

Definition parse_value_presentation (id : Z) : Parser DeviceValuePresentation :=
  let! _ := need 9 in
  let! off := slice 4 in
  let! scale := slice 4 in
  let scale := Name.from_le_bytes scale in
  if negb (f32_is_finite scale) then
    p_err (pool_validation "DDOP value presentation scale is not finite")
  else
    let! decimal_digits := byte in
    let! unit_designator := read_string in
    p_ret (mkPresentation id (to_i32 (Name.from_le_bytes off)) scale decimal_digits
             unit_designator).

(** The [match object_type]: one object parsed and pushed. *)
Definition parse_object (type : TCObjectType.t) (id : Z) (d : DDOP) : Parser DDOP :=
  match type with
  | TCObjectType.Device => let! x := parse_device id in p_ret (push_device x d)
  | TCObjectType.DeviceElement => let! x := parse_element id in p_ret (push_element x d)
  | TCObjectType.DeviceProcessData =>
      let! x := parse_process_data id in p_ret (push_process_data x d)
  | TCObjectType.DeviceProperty => let! x := parse_property id in p_ret (push_property x d)
  | TCObjectType.DeviceValuePresentation =>
      let! x := parse_value_presentation id in p_ret (push_presentation x d)
  end.

(** One turn of the loop. *)
Definition parse_record (d : DDOP) : Parser DDOP :=
  let! _ := need 5 in
  let! table_id := slice 3 in
  match TCObjectType.from_table_id table_id with
  | None => p_err (pool_validation "unknown TC object table ID in DDOP")
  | Some type =>
      let! obj_id := word in
      let! d := parse_object type obj_id d in
      p_ret (if dd_next_id d <=? obj_id then dd_with_next_id (wrap 16 (obj_id + 1)) d else d)
  end.

(** [while offset < data.len()]; [None] also when the fuel runs out. *)
Fixpoint deserialize_loop (fuel : nat) (d : DDOP) (data : list Z) (o : nat)
    : option (Result DDOP Error.t) :=
  match fuel with
  | O => None
  | S fuel =>
      if (o <? length data)%nat then
        match parse_record d data o with
        | Some (Ok (d, o)) => deserialize_loop fuel d data o
        | Some (Err e) => Some (Err e)
        | None => None
        end
      else Some (Ok d)
  end.

Definition deserialize (data : list Z) : option (Result DDOP Error.t) :=
  deserialize_loop (S (length data)) DDOP_default data 0.

(** ** Samples *)

Definition sample_text : list Z := [0x53; 0x70; 0x72].
Definition sample_pool : DDOP :=
  mkDdop [mkDevice 0 sample_text [0x31] 0x0123456789ABCDEF [] (replicate 7 1) (replicate 7 2)
            [0x41; 0x42]]
    [mkElement 1 DeviceElementType.Device 0 0 sample_text [2; 3]]
    [mkProcessData 2 67 1 9 4 [0xC2; 0xB5]]
    [mkProperty 3 134 (-42) 0xFFFF []]
    [mkPresentation 4 (-1) 0x3F800000 2 [0x6D; 0xC2; 0xB3]] 5.

Example sample_pool_valid : validate sample_pool = Ok tt.
Proof. vm_compute. reflexivity. Qed.

Example sample_pool_v4 :
  match ddop_serialize_for_version 4 sample_pool with
  | Ok data => deserialize data = Some (Ok sample_pool)
  | Err _ => False
  end.
Proof. vm_compute. reflexivity. Qed.

Example sample_pool_v3 :
  match ddop_serialize sample_pool with
  | Ok data => match deserialize data with
               | Some (Ok d) => dvc_extended_structure_label <$> dd_devices d = [[]]
               | _ => False
               end
  | Err _ => False
  end.
Proof. vm_compute. reflexivity. Qed.
