(* ===== verification/DdopProofs.v ===== *)
(** The device descriptor object pool: theorems.

    The first part is a small logic for the parsers of [Ddop]: [pwp] says that a parser does not
    panic and what holds of its result, [parses] that it reads back given bytes. *)
From S2P Require Export Ddop.

(** ** The parsers do not panic *)

Definition pwp {A} (p : Parser A) (data : list Z) (o : nat) (Q : A -> nat -> Prop) : Prop :=
  match p data o with
  | None => False
  | Some (Err _) => True
  | Some (Ok (a, o')) => Q a o'
  end.

Lemma pwp_ret {A} (a : A) data o Q : Q a o -> pwp (p_ret a) data o Q.
Proof. done. Qed.

Lemma pwp_err {A} e data o (Q : A -> nat -> Prop) : pwp (p_err e) data o Q.
Proof. done. Qed.

Lemma pwp_bind {A B} (p : Parser A) (k : A -> Parser B) data o Q :
  pwp p data o (fun a o' => pwp (k a) data o' Q) -> pwp (p_bind p k) data o Q.
Proof. unfold pwp, p_bind. by destruct (p data o) as [[[a o']|e]|]. Qed.

Lemma pwp_mono {A} (p : Parser A) data o (Q Q' : A -> nat -> Prop) :
  pwp p data o Q -> (forall a o', Q a o' -> Q' a o') -> pwp p data o Q'.
Proof. unfold pwp. destruct (p data o) as [[[a o']|e]|]; auto. Qed.

Lemma pwp_need n data o Q :
  ((o + n <= length data)%nat -> Q tt o) -> pwp (need n) data o Q.
Proof. unfold pwp, need. intros H. destruct (Nat.ltb_spec (length data) (o + n)); [done|]. by apply H. Qed.

Section pwp.
Context (data : list Z) (Hdata : bytes data).

Lemma data_byte o : (o < length data)%nat -> exists b, data !! o = Some b /\ in_u 8 b.
Proof.
  intros Ho. destruct (lookup_lt_is_Some_2 data o Ho) as [b Hb]. exists b. split; [done|].
  by eapply Forall_lookup_1 in Hb.
Qed.

Lemma pwp_byte o Q :
  (o < length data)%nat -> (forall b, in_u 8 b -> Q b (S o)) -> pwp byte data o Q.
Proof.
  intros Ho HQ. unfold pwp, byte. destruct (data_byte o Ho) as (b & -> & Hb). by apply HQ.
Qed.

Lemma pwp_word o Q :
  (o + 2 <= length data)%nat -> (forall x, in_u 16 x -> Q x (o + 2)%nat) -> pwp word data o Q.
Proof.
  intros Ho HQ. unfold word. apply pwp_bind, pwp_byte; [lia|]. intros b0 H0.
  apply pwp_bind, pwp_byte; [lia|]. intros b1 H1. apply pwp_ret.
  replace (S (S o)) with (o + 2)%nat by lia. apply HQ. apply in_u_lor; [lia| |].
  - eapply in_u_mono; [|done]. lia.
  - by apply (in_u_shiftl 8 8).
Qed.

Lemma pwp_slice n o Q :
  (o + n <= length data)%nat ->
  (forall l, bytes l -> length l = n -> Q l (o + n)%nat) -> pwp (slice n) data o Q.
Proof.
  intros Ho HQ. unfold pwp, slice. rewrite (proj2 (Nat.leb_le _ _)) by lia. apply HQ.
  - by apply Forall_take, Forall_drop.
  - rewrite length_take, length_drop. lia.
Qed.
End pwp.

(** ** Types of the objects *)

Definition text_ok (s : list Z) : Prop := bytes s /\ utf8_valid s = true.

Record device_ok (x : DeviceObject) : Prop := {
  dvc_id_ok : in_u 16 (dvc_id x);
  dvc_designator_ok : text_ok (dvc_designator x);
  dvc_version_ok : text_ok (dvc_software_version x);
  dvc_name_ok : in_u 64 (dvc_client_name x);
  dvc_serial_ok : text_ok (dvc_serial_number x);
  dvc_structure_ok : bytes (dvc_structure_label x) /\ length (dvc_structure_label x) = 7%nat;
  dvc_localization_ok : bytes (dvc_localization_label x) /\ length (dvc_localization_label x) = 7%nat;
  dvc_label_ok : bytes (dvc_extended_structure_label x)
}.
Record element_ok (x : DeviceElement) : Prop := {
  det_id_ok : in_u 16 (det_id x);
  det_number_ok : in_u 16 (det_number x);
  det_parent_ok : in_u 16 (det_parent_id x);
  det_designator_ok : text_ok (det_designator x);
  det_children_ok : Forall (in_u 16) (det_child_objects x)
}.
Record process_data_ok (x : DeviceProcessData) : Prop := {
  dpd_id_ok : in_u 16 (dpd_id x);
  dpd_ddi_ok : in_u 16 (dpd_ddi x);
  dpd_properties_ok : in_u 8 (dpd_properties x);
  dpd_triggers_ok : in_u 8 (dpd_trigger_methods x);
  dpd_presentation_ok : in_u 16 (dpd_presentation_object_id x);
  dpd_designator_ok : text_ok (dpd_designator x)
}.
Record property_ok (x : DeviceProperty) : Prop := {
  dpt_id_ok : in_u 16 (dpt_id x);
  dpt_ddi_ok : in_u 16 (dpt_ddi x);
  dpt_value_ok : - 2 ^ 31 <= dpt_value x < 2 ^ 31;
  dpt_presentation_ok : in_u 16 (dpt_presentation_object_id x);
  dpt_designator_ok : text_ok (dpt_designator x)
}.
Record presentation_ok (x : DeviceValuePresentation) : Prop := {
  dvp_id_ok : in_u 16 (dvp_id x);
  dvp_offset_ok : - 2 ^ 31 <= dvp_offset x < 2 ^ 31;
  dvp_scale_ok : in_u 32 (dvp_scale_bits x);
  dvp_digits_ok : in_u 8 (dvp_decimal_digits x);
  dvp_unit_ok : text_ok (dvp_unit_designator x)
}.
Record ddop_ok (d : DDOP) : Prop := {
  dd_devices_ok : Forall device_ok (dd_devices d);
  dd_elements_ok : Forall element_ok (dd_elements d);
  dd_process_data_ok : Forall process_data_ok (dd_process_data d);
  dd_properties_ok : Forall property_ok (dd_properties d);
  dd_presentations_ok : Forall presentation_ok (dd_value_presentations d);
  dd_next_id_ok : in_u 16 (dd_next_id d)
}.

(** ** Text *)

(** What holds of every byte by enumeration. *)
Lemma octet_cases (P : Z -> bool) :
  forallb (fun n => P (Z.of_nat n)) (seq 0 256) = true -> forall b, in_u 8 b -> P b = true.
Proof.
  intros H b Hb. unfold in_u in Hb. apply forallb_forall with (x := Z.to_nat b) in H.
  - by rewrite Z2Nat.id in H by lia.
  - apply in_seq. lia.
Qed.

Definition latin1_check (b : Z) : bool :=
  forallb (fun c => (0 <=? c) && (c <? 256)) (latin1_char b)
  && if b <? 0x80 then true
     else match latin1_char b with
          | [c; c'] => (0xC2 <=? c) && (c <=? 0xC3) && utf8_tail c'
          | _ => false
          end.

Lemma latin1_char_ok b : in_u 8 b ->
  bytes (latin1_char b) /\ forall l, utf8_valid (latin1_char b ++ l) = utf8_valid l.
Proof.
  intros Hb. assert (H : latin1_check b = true) by (revert b Hb; by apply octet_cases).
  unfold latin1_check in H. apply andb_prop in H as [H1 H2]. split.
  - apply (forallb_Forall _ _ _) with (2 := H1). intros c Hc. unfold in_u. lia.
  - intros l. unfold latin1_char in *. destruct (b <? 0x80) eqn:E; [cbn; by rewrite E|].
    set (c := Z.lor 0xC0 _) in *. set (c' := Z.lor 0x80 _) in *. clearbody c c'. cbn.
    rewrite (proj2 (Z.ltb_ge c 0x80)) by lia.
    rewrite (proj2 (andb_true_iff (0xC2 <=? c) (c <=? 0xDF))) by lia.
    by apply andb_prop in H2 as [_ ->].
Qed.

Lemma latin1_string_ok l : bytes l -> text_ok (latin1_string l).
Proof.
  unfold text_ok, latin1_string. induction 1 as [|b l Hb _ [IH1 IH2]]; [done|]. cbn.
  destruct (latin1_char_ok b Hb) as [H1 H2]. split; [by apply Forall_app|]. by rewrite H2.
Qed.

Lemma text_ok_nil : text_ok [].
Proof. done. Qed.

Section parsers.
Context (data : list Z) (Hdata : bytes data).

(** A parser that neither panics nor goes back, and whose results satisfy [P]. *)
Definition parses_safely {A} (p : Parser A) (P : A -> Prop) : Prop :=
  forall o, (o <= length data)%nat ->
    pwp p data o (fun a o' => (o <= o' <= length data)%nat /\ P a).

Lemma read_string_safe : parses_safely read_string text_ok.
Proof.
  intros o Ho. unfold read_string. apply pwp_bind, pwp_need. intros H1.
  apply pwp_bind, pwp_byte; [done|lia|]. intros b Hb. apply pwp_bind, pwp_need. intros H2.
  apply pwp_bind, pwp_slice; [done|lia|]. intros l Hl Hlen. apply pwp_ret.
  split; [lia|]. destruct (utf8_valid l) eqn:E; [done|]. by apply latin1_string_ok.
Qed.

Lemma read_extended_label_safe :
  parses_safely read_extended_label (fun l => bytes l /\ (length l <= 32)%nat).
Proof.
  intros o Ho. unfold pwp, read_extended_label.
  destruct (Nat.ltb_spec o (length data)); [|cbn; split; [lia|split; [constructor|lia]]].
  destruct (data_byte data Hdata o) as (b & -> & Hb); [done|]. cbn.
  destruct ((_ <=? 32)%nat && _) eqn:E; reflect_bools.
  - split; [lia|]. split; [by apply Forall_take, Forall_drop|]. rewrite length_take. lia.
  - split; [lia|]. split; [constructor|cbn; lia].
Qed.

(** Sequencing, for the proofs below: [pwp_seq] runs a parser known to be safe. *)
Lemma pwp_seq {A B} (p : Parser A) P (k : A -> Parser B) o Q :
  parses_safely p P -> (o <= length data)%nat ->
  (forall a o', P a -> (o <= o' <= length data)%nat -> pwp (k a) data o' Q) ->
  pwp (p_bind p k) data o Q.
Proof.
  intros Hp Ho Hk. apply pwp_bind. eapply pwp_mono; [by apply Hp|]. intros a o' [H1 H2]. by apply Hk.
Qed.

Lemma parse_children_safe n o Q :
  (o + n * 2 <= length data)%nat ->
  (forall l, Forall (in_u 16) l -> length l = n -> Q l (o + n * 2)%nat) ->
  pwp (parse_children n) data o Q.
Proof.
  revert o Q. induction n as [|n IH]; intros o Q Ho HQ; cbn [parse_children].
  { apply pwp_ret. rewrite Nat.add_0_r in HQ. by apply HQ. }
  apply pwp_bind, pwp_word; [done|lia|]. intros x Hx.
  apply pwp_bind, IH; [lia|]. intros l Hl Hlen. apply pwp_ret.
  replace (o + 2 + n * 2)%nat with (o + S n * 2)%nat by lia. apply HQ; [by constructor|].
  cbn. lia.
Qed.
End parsers.

(** One step of a parser proof: the next primitive of the parser, with what it reads. *)
Ltac pwp_step :=
  match goal with
  | |- pwp (p_ret _) _ _ _ => apply pwp_ret
  | |- pwp (p_err _) _ _ _ => apply pwp_err
  | |- pwp (p_bind (need _) _) _ _ _ => apply pwp_bind, pwp_need; intros ?
  | |- pwp (p_bind byte _) _ _ _ => apply pwp_bind, pwp_byte; [assumption|lia|intros ? ?]
  | |- pwp (p_bind word _) _ _ _ => apply pwp_bind, pwp_word; [assumption|lia|intros ? ?]
  | |- pwp (p_bind (slice _) _) _ _ _ => apply pwp_bind, pwp_slice; [assumption|lia|intros ? ? ?]
  | |- pwp (p_bind read_string _) _ _ _ =>
      eapply pwp_seq; [by apply read_string_safe|lia|intros ? ? ? ?]
  | |- pwp (p_bind read_extended_label _) _ _ _ =>
      eapply pwp_seq; [by apply read_extended_label_safe|lia|intros ? ? [? ?] ?]
  | |- pwp (match ?x with _ => _ end) _ _ _ => destruct x eqn:?
  end.

Lemma to_i32_range x : in_u 32 x -> - 2 ^ 31 <= to_i32 x < 2 ^ 31.
Proof. unfold to_i32, in_u. intros H. destruct (Z.ltb_spec x (2 ^ 31)); lia. Qed.

Lemma le_bytes_range n l : bytes l -> length l = n -> in_u (8 * Z.of_nat n) (Name.from_le_bytes l).
Proof. intros Hl <-. by apply from_le_bytes_range. Qed.

Section objects.
Context (data : list Z) (Hdata : bytes data).

Lemma parse_device_safe id : in_u 16 id ->
  parses_safely data (parse_device id) device_ok.
Proof.
  intros Hid o Ho. unfold parse_device. repeat pwp_step. split; [lia|].
  split; cbn; try done. by apply (le_bytes_range 8).
Qed.

Lemma parse_element_safe id : in_u 16 id ->
  parses_safely data (parse_element id) element_ok.
Proof.
  intros Hid o Ho. unfold parse_element. repeat pwp_step.
  apply pwp_bind, parse_children_safe; [done|lia|]. intros l Hl Hlen. pwp_step.
  split; [lia|]. by split; cbn.
Qed.

Lemma parse_process_data_safe id : in_u 16 id ->
  parses_safely data (parse_process_data id) (fun x =>
    process_data_ok x /\ reserved_ddi (dpd_ddi x) = false /\
    Z.land (dpd_trigger_methods x) 0xE0 = 0 /\ validate_properties x = Ok tt).
Proof.
  intros Hid o Ho. unfold parse_process_data. repeat pwp_step. split; [lia|].
  split; [by split; cbn|]. split; [done|]. split; [|by destruct a0]. cbn. reflect_bools. done.
Qed.

Lemma parse_property_safe id : in_u 16 id ->
  parses_safely data (parse_property id) (fun x =>
    property_ok x /\ reserved_ddi (dpt_ddi x) = false).
Proof.
  intros Hid o Ho. unfold parse_property. repeat pwp_step. split; [lia|].
  split; [split; cbn; try done|done]. by apply to_i32_range, (le_bytes_range 4).
Qed.

Lemma parse_value_presentation_safe id : in_u 16 id ->
  parses_safely data (parse_value_presentation id) (fun x =>
    presentation_ok x /\ f32_is_finite (dvp_scale_bits x) = true).
Proof.
  intros Hid o Ho. unfold parse_value_presentation. repeat pwp_step. split; [lia|].
  reflect_bools. split; [split; cbn; try done|done].
  - by apply to_i32_range, (le_bytes_range 4).
  - by apply (le_bytes_range 4).
Qed.

(** What a deserialised pool satisfies beyond its types. *)
Record ddop_accepted (d : DDOP) : Prop := {
  da_ok : ddop_ok d;
  da_process_data : Forall (fun x => reserved_ddi (dpd_ddi x) = false /\
    Z.land (dpd_trigger_methods x) 0xE0 = 0 /\ validate_properties x = Ok tt) (dd_process_data d);
  da_properties : Forall (fun x => reserved_ddi (dpt_ddi x) = false) (dd_properties d);
  da_presentations : Forall (fun x => f32_is_finite (dvp_scale_bits x) = true)
    (dd_value_presentations d)
}.

Lemma accepted_next_id x d : in_u 16 x -> ddop_accepted d -> ddop_accepted (dd_with_next_id x d).
Proof. intros Hx [[]]. by split; [split|..]. Qed.

(** A parsed object pushed on an accepted pool keeps it accepted. *)
Lemma accepted_push {A} (p : Parser A) (P : A -> Prop) (push : A -> DDOP -> DDOP) d :
  parses_safely data p P ->
  (forall x, P x -> ddop_accepted (push x d) /\ object_count (push x d) = S (object_count d)) ->
  parses_safely data (let! x := p in p_ret (push x d))
    (fun d' => ddop_accepted d' /\ object_count d' = S (object_count d)).
Proof.
  intros Hp Hpush o Ho. eapply pwp_seq; [done|done|]. intros a o' Ha Ho'. pwp_step. by auto.
Qed.

Ltac push_accepted :=
  intros; cbv beta in *; destruct_and?; split; [split; [split|..]|unfold object_count]; cbn;
    rewrite ?length_app; cbn; try done; try lia;
    (apply Forall_app; split; [assumption|]; by apply Forall_singleton).

Lemma parse_object_safe type id d : in_u 16 id -> ddop_accepted d ->
  parses_safely data (parse_object type id d)
    (fun d' => ddop_accepted d' /\ object_count d' = S (object_count d)).
Proof.
  intros Hid [[H1 H2 H3 H4 H5 Hn] Hpd Hp Hvp].
  destruct type; cbn [parse_object]; eapply accepted_push.
  - by apply parse_device_safe.
  - push_accepted.
  - by apply parse_element_safe.
  - push_accepted.
  - by apply parse_process_data_safe.
  - push_accepted.
  - by apply parse_property_safe.
  - push_accepted.
  - by apply parse_value_presentation_safe.
  - push_accepted.
Qed.

Lemma parse_record_safe d o : ddop_accepted d -> (o < length data)%nat ->
  pwp (parse_record d) data o (fun d' o' =>
    (o + 5 <= o' <= length data)%nat /\ ddop_accepted d' /\
    object_count d' = S (object_count d)).
Proof.
  intros Hd Ho. unfold parse_record. do 2 pwp_step. pwp_step; [|pwp_step]. pwp_step.
  eapply pwp_seq; [by apply parse_object_safe|lia|]. intros d' o' [Hd' Hc] Ho'. pwp_step.
  split; [lia|]. case_match; [|done]. split; [|done].
  apply accepted_next_id; [by apply in_u_wrap|done].
Qed.

Lemma deserialize_loop_safe fuel d o :
  ddop_accepted d -> (o <= length data < o + fuel)%nat ->
  exists r, deserialize_loop fuel d data o = Some r /\
    forall d', r = Ok d' -> ddop_accepted d' /\
      (5 * object_count d' + o <= length data + 5 * object_count d)%nat.
Proof.
  revert d o. induction fuel as [|fuel IH]; intros d o Hd Ho; [lia|]. cbn [deserialize_loop].
  destruct (Nat.ltb_spec o (length data)); [|].
  - pose proof (parse_record_safe d o Hd) as H1. unfold pwp in H1.
    destruct (parse_record d data o) as [[[d1 o1]|e]|]; [|by eexists|by destruct H1].
    destruct H1 as (Ho1 & Hd1 & Hc); [done|].
    destruct (IH d1 o1) as (r & Hr & Hok); [done|lia|]. exists r. split; [done|].
    intros d' Hd'. destruct (Hok d' Hd') as [H2 H3]. split; [done|lia].
  - eexists. split; [done|]. intros d' [= <-]. split; [done|lia].
Qed.
End objects.

(** C26: Deserialisation neither panics nor runs on, whatever the bytes; a pool it accepts has its
    fields in their types with valid UTF-8 text, no reserved number, trigger or property bits,
    finite scales, and no more than one object for every five bytes read. *)
Theorem ddop_deserialize_total data :
  bytes data ->
  exists r, deserialize data = Some r /\
    forall d, r = Ok d -> ddop_accepted d /\ (5 * object_count d <= length data)%nat.
Proof.
  intros Hdata. destruct (deserialize_loop_safe data Hdata (S (length data)) DDOP_default 0)
    as (r & Hr & Hok); [by split; [split|..]; try constructor|cbn; lia|].
  exists r. split; [done|]. intros d Hd. destruct (Hok d Hd) as [H1 H2].
  split; [done|]. cbn in H2. lia.
Qed.

Lemma ddop_deserialize_total_witness : exists r, deserialize [0x44; 0x56; 0x50; 4; 0; 0] = Some r.
Proof.
  destruct (ddop_deserialize_total [0x44; 0x56; 0x50; 4; 0; 0]) as (r & Hr & _).
  - repeat constructor; lia.
  - exists r. exact Hr.
Defined.

(** ** What is written is read back *)

(** [p] reads [bs] as [a] when what follows [bs] satisfies [R]. *)
Definition parses {A} (R : list Z -> Prop) (p : Parser A) (bs : list Z) (a : A) : Prop :=
  forall data o rest, (o <= length data)%nat -> drop o data = bs ++ rest -> R rest ->
    p data o = Some (Ok (a, (o + length bs)%nat)).
Definition anything (rest : list Z) : Prop := True.

Lemma drop_app_bound {A} (data bs rest : list A) o :
  (o <= length data)%nat -> drop o data = bs ++ rest -> (o + length bs <= length data)%nat.
Proof. intros Ho H. apply (f_equal length) in H. rewrite length_drop, length_app in H. lia. Qed.

Lemma parses_ret {A} (R : list Z -> Prop) (a : A) : parses R (p_ret a) [] a.
Proof. intros data o rest _ _ _. unfold p_ret. by rewrite Nat.add_0_r. Qed.

Lemma parses_bind {A B} R (p : Parser A) (k : A -> Parser B) bs1 bs2 a b :
  parses anything p bs1 a -> parses R (k a) bs2 b -> parses R (p_bind p k) (bs1 ++ bs2) b.
Proof.
  intros Hp Hk data o rest Ho Hd HR. unfold p_bind. rewrite <- app_assoc in Hd.
  rewrite (Hp data o (bs2 ++ rest)) by done. rewrite length_app, Nat.add_assoc.
  apply (Hk data _ rest); [by eapply drop_app_bound| |done].
  by rewrite <- drop_drop, Hd, drop_app_length.
Qed.

Lemma parses_last {A B} R (p : Parser A) (k : A -> Parser B) bs a b :
  parses R p bs a -> (forall R, parses R (k a) [] b) -> parses R (p_bind p k) bs b.
Proof.
  intros Hp Hk data o rest Ho Hd HR. unfold p_bind. rewrite (Hp data o rest) by done.
  rewrite (Hk anything data (o + length bs)%nat rest); [by rewrite Nat.add_0_r| | |done].
  - by eapply drop_app_bound.
  - cbn. by rewrite <- drop_drop, Hd, drop_app_length.
Qed.

Lemma parses_need {A} R n (k : unit -> Parser A) bs a :
  (n <= length bs)%nat -> parses R (k tt) bs a -> parses R (p_bind (need n) k) bs a.
Proof.
  intros Hn Hk data o rest Ho Hd HR. unfold p_bind, need.
  pose proof (drop_app_bound data bs rest o Ho Hd).
  rewrite (proj2 (Nat.ltb_ge _ _)) by lia. by apply (Hk data o rest).
Qed.

Lemma parses_byte R b : parses R byte [b] b.
Proof.
  intros data o rest Ho Hd _. unfold byte.
  assert (data !! o = Some b) as -> by (rewrite <- (Nat.add_0_r o), <- lookup_drop, Hd; done).
  cbn. by rewrite Nat.add_1_r.
Qed.

Lemma parses_word R x : in_u 16 x -> parses R word (push_u16_le x) x.
Proof.
  intros Hx. unfold word, push_u16_le. apply (parses_bind _ _ _ [_] [_] _ _ (parses_byte _ _)).
  apply (parses_bind _ _ _ [_] [] _ _ (parses_byte _ _)).
  assert (E : Z.lor (Z.land x 255) (Z.shiftl (Z.land (Z.shiftr x 8) 255) 8) = x).
  { apply Z.bits_inj'. intros n Hn. change 255 with (Z.ones 8).
    destruct (Z_lt_dec n 8); [|destruct (Z_lt_dec n 16)]; bits_norm; bits_done. }
  rewrite E. apply parses_ret.
Qed.

Lemma parses_slice R l : parses R (slice (length l)) l l.
Proof.
  intros data o rest Ho Hd _. unfold slice.
  rewrite (proj2 (Nat.leb_le _ _)) by (by eapply drop_app_bound).
  by rewrite Hd, take_app_length.
Qed.

Lemma parses_string R s bs field :
  text_ok s -> push_str_with_len field s = Ok bs -> parses R read_string bs s.
Proof.
  unfold push_str_with_len. intros [Hb Hu] H.
  destruct (Nat.ltb_spec DDOP_TEXT_MAX_BYTES (length s)) as [|Hl]; [done|]. injection H as <-.
  unfold DDOP_TEXT_MAX_BYTES in Hl. rewrite wrap_small by (unfold in_u; lia).
  unfold read_string. apply parses_need; [cbn; lia|].
  apply (parses_bind _ _ _ [_] s _ _ (parses_byte _ _)). rewrite Nat2Z.id.
  apply parses_need; [lia|]. eapply parses_last; [apply parses_slice|].
  rewrite Hu. intros R'. apply parses_ret.
Qed.

(** [i32::from_le_bytes] inverts [i32::to_le_bytes], and [u64] likewise. *)
Lemma i32_le_to_i32 x : - 2 ^ 31 <= x < 2 ^ 31 -> to_i32 (Name.from_le_bytes (i32_le x)) = x.
Proof.
  intros Hx. unfold i32_le. rewrite from_to_le_bytes. unfold get_field, to_i32.
  change (8 * Z.of_nat 4) with 32. rewrite Z.shiftr_0_r, Z.land_ones by lia.
  destruct (Z_lt_dec x 0).
  - replace (x mod 2 ^ 32) with (x + 2 ^ 32) by (apply (Z.mod_unique _ _ (-1)); lia).
    destruct (Z.ltb_spec (x + 2 ^ 32) (2 ^ 31)); lia.
  - rewrite Z.mod_small by lia. destruct (Z.ltb_spec x (2 ^ 31)); lia.
Qed.

Lemma le_bytes_roundtrip n x : in_u (8 * Z.of_nat n) x ->
  Name.from_le_bytes (Name.to_le_bytes n x) = x.
Proof.
  intros Hx. rewrite from_to_le_bytes. unfold get_field. rewrite Z.shiftr_0_r.
  apply land_ones_small; [lia|done].
Qed.

(** A sized slice read and converted. *)
Lemma parses_le {A} R n x (k : list Z -> Parser A) bs a :
  parses R (k (Name.to_le_bytes n x)) bs a ->
  parses R (p_bind (slice n) k) (Name.to_le_bytes n x ++ bs) a.
Proof.
  intros Hk. eapply parses_bind; [|done].
  rewrite <- (length_to_le_bytes n x) at 1. apply parses_slice.
Qed.

Lemma try_bind_Ok {A B E} (r : Result A E) (k : A -> Result B E) b :
  try_bind r k = Ok b -> exists a, r = Ok a /\ k a = Ok b.
Proof. destruct r as [a|e]; [|done]. by exists a. Qed.

Lemma result_Ok_inj {A E} (a b : A) : @Ok A E a = Ok b -> a = b.
Proof. congruence. Qed.

Ltac inv_try :=
  repeat match goal with
  | H : try_bind _ _ = Ok _ |- _ => apply try_bind_Ok in H as (? & ? & H)
  | H : (if ?b then Err _ else _) = Ok _ |- _ => destruct b eqn:?; [discriminate H|]
  | H : Ok _ = Ok _ |- _ => apply result_Ok_inj in H; subst
  | u : () |- _ => destruct u
  end.

(** The text of a [push_str_with_len] in the context reads back. *)
Ltac read_text := eapply parses_string; [|eassumption]; assumption.

(** The label a receiver of version [v] sees, and what may follow it on the wire. *)
Definition label_for (v : Z) (x : DeviceObject) : list Z :=
  if DDOP_VERSION_EXTENDED_STRUCTURE_LABEL <=? v then dvc_extended_structure_label x else [].
Definition no_label (rest : list Z) : Prop :=
  match rest with [] => True | b :: _ => 32 < b end.
Definition received_device (v : Z) (x : DeviceObject) : DeviceObject :=
  mkDevice (dvc_id x) (dvc_designator x) (dvc_software_version x) (dvc_client_name x)
    (dvc_serial_number x) (dvc_structure_label x) (dvc_localization_label x) (label_for v x).

Lemma parses_label v x :
  (length (dvc_extended_structure_label x) <= 32)%nat ->
  parses no_label read_extended_label
    (if DDOP_VERSION_EXTENDED_STRUCTURE_LABEL <=? v then
       wrap 8 (Z.of_nat (length (dvc_extended_structure_label x)))
         :: dvc_extended_structure_label x
     else []) (label_for v x).
Proof.
  intros Hl data o rest Ho Hd HR. unfold read_extended_label, label_for in *.
  assert (Hlook : forall i, data !! (o + i)%nat = drop o data !! i)
    by (intros i; by rewrite lookup_drop).
  pose proof (Hlook 0%nat) as H0. rewrite Nat.add_0_r in H0.
  pose proof (drop_app_bound _ _ _ _ Ho Hd) as Hb.
  destruct (_ <=? v).
  - rewrite wrap_small in * by (unfold in_u; lia). cbn in Hb.
    rewrite (proj2 (Nat.ltb_lt _ _)) by lia. rewrite H0, Hd. cbn.
    rewrite Nat2Z.id, (proj2 (Nat.leb_le _ _)), (proj2 (Nat.leb_le _ _)) by lia. cbn.
    rewrite <- drop_drop, Hd. cbn. rewrite drop_0, take_app_length. by replace (o + 1 + _)%nat with (o + S (length (dvc_extended_structure_label x)))%nat by lia.
  - cbn [app length] in *. destruct (Nat.ltb_spec o (length data)) as [Hlt|]; [|by rewrite Nat.add_0_r].
    rewrite H0, Hd. destruct rest as [|b rest]; cbn in *.
    { apply (f_equal length) in Hd. rewrite length_drop in Hd. cbn in Hd. lia. }
    rewrite (proj2 (Nat.leb_gt (Z.to_nat b) 32)) by lia. cbn. by rewrite Nat.add_0_r.
Qed.

(** A record: its table identifier, its object identifier and a body that reads back. *)
Definition reads_back {A} (type : TCObjectType.t) (id : Z) (p : Z -> Parser A) (bs : list Z)
    (x : A) : Prop :=
  exists body, bs = TCObjectType.table_id type ++ push_u16_le id ++ body /\
    parses no_label (p id) body x.

Lemma reads_back_intro {A} type id (p : Z -> Parser A) body x :
  parses no_label (p id) body x ->
  reads_back type id p (TCObjectType.table_id type ++ push_u16_le id ++ body) x.
Proof. intros H. by exists body. Qed.

Lemma device_reads_back v x bs :
  device_ok x -> device_serialize_for_version v x = Ok bs ->
  reads_back TCObjectType.Device (dvc_id x) parse_device bs (received_device v x).
Proof.
  intros [Hid Hd Hv Hn Hs [Hst Hst7] [Hlo Hlo7] Hl] H. unfold device_serialize_for_version in H.
  inv_try. reflect_bools. apply reads_back_intro. unfold parse_device.
  eapply parses_bind; [read_text|]. eapply parses_bind; [read_text|].
  apply parses_need; [rewrite !length_app; rewrite length_to_le_bytes; lia|].
  apply parses_le. rewrite le_bytes_roundtrip by done.
  eapply parses_bind; [read_text|].
  apply parses_need; [rewrite !length_app; lia|].
  rewrite <- Hst7 at 1. eapply parses_bind; [apply parses_slice|].
  rewrite <- Hlo7 at 1. eapply parses_bind; [apply parses_slice|].
  eapply parses_last; [by apply parses_label|]. intros R. apply parses_ret.
Qed.

Lemma parses_children R l :
  Forall (in_u 16) l -> parses R (parse_children (length l)) (l ≫= push_u16_le) l.
Proof.
  induction 1 as [|x l Hx _ IH]; cbn [parse_children length mbind list_bind]; [apply parses_ret|].
  eapply parses_bind; [by apply parses_word|]. eapply parses_last; [done|]. intros R'.
  apply parses_ret.
Qed.

Lemma element_reads_back x bs :
  element_ok x -> element_serialize x = Ok bs ->
  reads_back TCObjectType.DeviceElement (det_id x) parse_element bs x.
Proof.
  intros [Hid Hn Hp Hd Hc] H. unfold element_serialize in H. inv_try. reflect_bools.
  apply reads_back_intro. unfold parse_element.
  apply parses_need; [cbn; lia|]. eapply parses_bind; [apply parses_byte|].
  assert (element_type (DeviceElementType.as_u8 (det_type x)) = Some (det_type x)) as ->
    by (by destruct (det_type x)).
  eapply parses_bind; [read_text|].
  apply parses_need; [cbn; lia|].
  do 2 (eapply parses_bind; [by apply parses_word|]).
  rewrite wrap_small by (unfold in_u; lia).
  eapply parses_bind; [apply parses_word; unfold in_u; lia|]. rewrite Nat2Z.id.
  apply parses_need.
  { clear. generalize (det_child_objects x). induction l as [|y l IH]; cbn in *; lia. }
  eapply parses_last; [by apply parses_children|]. intros R. destruct x. apply parses_ret.
Qed.

Lemma trigger_bits x : in_u 8 (dpd_trigger_methods x) -> validate_trigger_methods x = Ok tt ->
  Z.land (dpd_trigger_methods x) 0xE0 = 0.
Proof.
  unfold validate_trigger_methods. intros _ H. inv_try. reflect_bools. exact Heqb.
Qed.

Lemma process_data_reads_back x bs :
  process_data_ok x -> reserved_ddi (dpd_ddi x) = false -> process_data_serialize x = Ok bs ->
  reads_back TCObjectType.DeviceProcessData (dpd_id x) parse_process_data bs x.
Proof.
  intros [Hid Hddi Hpr Htr Hvp Hd] Hr H. unfold process_data_serialize in H. inv_try.
  apply reads_back_intro. unfold parse_process_data.
  apply parses_need.
  { unfold push_u16_le, push_str_with_len in *. inv_try. cbn. lia. }
  eapply parses_bind; [by apply parses_word|]. rewrite Hr.
  apply (parses_bind _ _ _ [_] (_ :: _) _ _ (parses_byte _ _)).
  apply (parses_bind _ _ _ [_] _ _ _ (parses_byte _ _)).
  rewrite trigger_bits by done. cbn [Z.eqb negb].
  eapply parses_bind; [read_text|].
  apply parses_need; [cbn; lia|]. eapply parses_last; [by apply parses_word|]. intros R.
  destruct x. cbn. match goal with H : validate_properties _ = _ |- _ => rewrite H end.
  apply parses_ret.
Qed.

Lemma property_reads_back x bs :
  property_ok x -> reserved_ddi (dpt_ddi x) = false -> property_serialize x = Ok bs ->
  reads_back TCObjectType.DeviceProperty (dpt_id x) parse_property bs x.
Proof.
  intros [Hid Hddi Hval Hvp Hd] Hr H. unfold property_serialize in H. inv_try.
  apply reads_back_intro. unfold parse_property.
  apply parses_need; [cbn; rewrite length_app; cbn; lia|].
  eapply parses_bind; [by apply parses_word|]. rewrite Hr. unfold i32_le. apply parses_le.
  fold (i32_le (dpt_value x)). rewrite i32_le_to_i32 by done.
  eapply parses_bind; [read_text|].
  apply parses_need; [cbn; lia|]. eapply parses_last; [by apply parses_word|]. intros R.
  destruct x. apply parses_ret.
Qed.

Lemma presentation_reads_back x bs :
  presentation_ok x -> presentation_serialize x = Ok bs ->
  reads_back TCObjectType.DeviceValuePresentation (dvp_id x) parse_value_presentation bs x.
Proof.
  intros [Hid Hoff Hs Hdig Hu] H. unfold presentation_serialize in H. inv_try.
  apply reads_back_intro. unfold parse_value_presentation.
  apply parses_need; [cbn; lia|].
  unfold i32_le. apply parses_le. fold (i32_le (dvp_offset x)).
  apply parses_le. rewrite le_bytes_roundtrip by done. rewrite Heqb.
  eapply parses_bind; [apply parses_byte|]. eapply parses_last; [read_text|].
  intros R. rewrite i32_le_to_i32 by done. destruct x. apply parses_ret.
Qed.

(** ** Whole pools *)

(** The identifier bookkeeping of one turn of the loop. *)
Definition next_after (n id : Z) : Z := if n <=? id then wrap 16 (id + 1) else n.
Definition bump (id : Z) (d : DDOP) : DDOP := dd_with_next_id (next_after (dd_next_id d) id) d.

Definition object_ids (d : DDOP) : list Z :=
  (dvc_id <$> dd_devices d) ++ (det_id <$> dd_elements d) ++ (dpd_id <$> dd_process_data d)
  ++ (dpt_id <$> dd_properties d) ++ (dvp_id <$> dd_value_presentations d).

(** The pool a receiver of version [v] reconstructs. *)
Definition received (v : Z) (d : DDOP) : DDOP :=
  mkDdop (received_device v <$> dd_devices d) (dd_elements d) (dd_process_data d)
    (dd_properties d) (dd_value_presentations d) (foldl next_after 0 (object_ids d)).

(** A written record: how it begins, and what reading it does to the pool. *)
Definition record_for (f : DDOP -> DDOP) (bs : list Z) : Prop :=
  (exists tl, bs = 0x44 :: tl) /\ forall d, parses no_label (parse_record d) bs (f d).

Lemma bump_eq id d :
  bump id d = if dd_next_id d <=? id then dd_with_next_id (wrap 16 (id + 1)) d else d.
Proof. unfold bump, next_after. destruct (_ <=? _); [done|]. by destruct d. Qed.

Lemma reads_back_record {A} type id (p : Z -> Parser A) (push : A -> DDOP -> DDOP) bs x :
  in_u 16 id -> reads_back type id p bs x ->
  (forall d, parse_object type id d = (let! y := p id in p_ret (push y d))) ->
  record_for (fun d => bump id (push x d)) bs.
Proof.
  intros Hid (body & -> & Hb) Hobj. split; [by destruct type; eexists|]. intros d.
  unfold parse_record. apply parses_need; [rewrite !length_app; destruct type; cbn; lia|].
  assert (E3 : length (TCObjectType.table_id type) = 3%nat) by by destruct type.
  rewrite <- E3 at 1. eapply parses_bind; [apply parses_slice|].
  assert (TCObjectType.from_table_id (TCObjectType.table_id type) = Some type) as ->
    by by destruct type.
  eapply parses_bind; [by apply parses_word|]. rewrite Hobj.
  eapply parses_last; [eapply parses_last; [done|]; intros R; apply parses_ret|].
  intros R. rewrite bump_eq. apply parses_ret.
Qed.

(** Reading a sequence of records. *)
Lemma deserialize_records fs bss :
  Forall2 record_for fs bss ->
  forall fuel d data o, (o <= length data < o + fuel)%nat -> drop o data = concat bss ->
    deserialize_loop fuel d data o = Some (Ok (foldl (fun d f => f d) d fs)).
Proof.
  induction 1 as [|f bs fs bss [[tl Hbs] Hf] Hrest IH]; intros fuel d data o Ho Hd;
    (destruct fuel as [|fuel]; [lia|]); cbn [deserialize_loop].
  { apply (f_equal length) in Hd. rewrite length_drop in Hd. cbn in Hd.
    by rewrite (proj2 (Nat.ltb_ge _ _)) by lia. }
  cbn [concat] in Hd. pose proof (drop_app_bound _ _ _ _ (proj1 Ho) Hd) as Hb.
  assert (0 < length bs)%nat by (rewrite Hbs; cbn; lia).
  rewrite (proj2 (Nat.ltb_lt _ _)) by lia.
  rewrite (Hf d data o (concat bss)); [|lia|done|].
  - apply IH; [lia|]. by rewrite <- drop_drop, Hd, drop_app_length.
  - destruct Hrest as [|? ? ? ? [[tl' ->] _]]; cbn; [done|lia].
Qed.

Lemma extend_each_records {A} (f : A -> Result (list Z) Error.t) (g : A -> DDOP -> DDOP) l bs :
  (forall x b, x ∈ l -> f x = Ok b -> record_for (g x) b) -> extend_each f l = Ok bs ->
  exists bss, bs = concat bss /\ Forall2 record_for (g <$> l) bss.
Proof.
  revert bs. induction l as [|x l IH]; intros bs Hf H; cbn in H.
  { inv_try. exists []. split; [done|constructor]. }
  inv_try. destruct (IH x1) as (bss & -> & Hbss); [|done|].
  - intros y b Hy. apply Hf. by apply list_elem_of_further.
  - exists (x0 :: bss). split; [done|]. constructor; [|done]. apply Hf; [|done].
    apply list_elem_of_here.
Qed.

(** Folding the pushes of one list of objects. *)
Section fold_pushes.
Context {A : Type} (push : A -> DDOP -> DDOP) (id : A -> Z) (add : list A -> DDOP -> DDOP).
Context (add_nil : forall d, add [] d = d).
Context (add_cons : forall x l d, add l (push x d) = add (x :: l) d).
Context (add_next : forall l n d, add l (dd_with_next_id n d) = dd_with_next_id n (add l d)).
Context (push_next : forall x d, dd_next_id (push x d) = dd_next_id d).

Lemma with_next_twice n n' d : dd_with_next_id n (dd_with_next_id n' d) = dd_with_next_id n d.
Proof. done. Qed.

Lemma fold_pushes l d :
  foldl (fun d f => f d) d ((fun x d => bump (id x) (push x d)) <$> l)
  = dd_with_next_id (foldl next_after (dd_next_id d) (id <$> l)) (add l d).
Proof.
  revert d. induction l as [|x l IH]; intros d; cbn [fmap list_fmap foldl].
  { rewrite add_nil. by destruct d. }
  rewrite IH. unfold bump at 2. rewrite add_next, with_next_twice, add_cons. f_equal.
  unfold bump. cbn. by rewrite push_next.
Qed.
End fold_pushes.

Definition add_devices (l : list DeviceObject) (d : DDOP) : DDOP :=
  mkDdop (dd_devices d ++ l) (dd_elements d) (dd_process_data d) (dd_properties d)
    (dd_value_presentations d) (dd_next_id d).
Definition add_elements (l : list DeviceElement) (d : DDOP) : DDOP :=
  mkDdop (dd_devices d) (dd_elements d ++ l) (dd_process_data d) (dd_properties d)
    (dd_value_presentations d) (dd_next_id d).
Definition add_process_datas (l : list DeviceProcessData) (d : DDOP) : DDOP :=
  mkDdop (dd_devices d) (dd_elements d) (dd_process_data d ++ l) (dd_properties d)
    (dd_value_presentations d) (dd_next_id d).
Definition add_properties (l : list DeviceProperty) (d : DDOP) : DDOP :=
  mkDdop (dd_devices d) (dd_elements d) (dd_process_data d) (dd_properties d ++ l)
    (dd_value_presentations d) (dd_next_id d).
Definition add_presentations (l : list DeviceValuePresentation) (d : DDOP) : DDOP :=
  mkDdop (dd_devices d) (dd_elements d) (dd_process_data d) (dd_properties d)
    (dd_value_presentations d ++ l) (dd_next_id d).

Definition is_reserved (d : DDOP) : Prop :=
  Exists (fun x => reserved_ddi (dpd_ddi x) = true) (dd_process_data d) \/
  Exists (fun x => reserved_ddi (dpt_ddi x) = true) (dd_properties d).

Ltac add_laws :=
  intros; cbn; unfold add_devices, add_elements, add_process_datas, add_properties,
    add_presentations, push_device, push_element, push_process_data, push_property,
    push_presentation, dd_with_next_id; cbn; rewrite ?app_nil_r, <- ?app_assoc;
  try reflexivity; match goal with d : DDOP |- _ => by destruct d end.

(** The records of a serialised pool, in order. *)
Lemma serialized_records v d bs :
  ddop_ok d -> ~ is_reserved d -> ddop_serialize_for_version v d = Ok bs ->
  exists bss, bs = concat bss /\
    Forall2 record_for
      (((fun x d => bump (dvc_id x) (push_device (received_device v x) d)) <$> dd_devices d)
       ++ ((fun x d => bump (det_id x) (push_element x d)) <$> dd_elements d)
       ++ ((fun x d => bump (dpd_id x) (push_process_data x d)) <$> dd_process_data d)
       ++ ((fun x d => bump (dpt_id x) (push_property x d)) <$> dd_properties d)
       ++ ((fun x d => bump (dvp_id x) (push_presentation x d)) <$> dd_value_presentations d))
      bss.
Proof.
  intros [Hdv Hel Hpd Hpr Hvp _] Hr H.
  assert (Hr3 : forall x, x ∈ dd_process_data d -> reserved_ddi (dpd_ddi x) = false).
  { intros x Hx. destruct (reserved_ddi _) eqn:E; [|done]. destruct Hr. left.
    apply Exists_exists. eauto. }
  assert (Hr4 : forall x, x ∈ dd_properties d -> reserved_ddi (dpt_ddi x) = false).
  { intros x Hx. destruct (reserved_ddi _) eqn:E; [|done]. destruct Hr. right.
    apply Exists_exists. eauto. }
  rewrite Forall_forall in Hdv. rewrite Forall_forall in Hel. rewrite Forall_forall in Hpd.
  rewrite Forall_forall in Hpr. rewrite Forall_forall in Hvp.
  unfold ddop_serialize_for_version in H. apply try_bind_Ok in H as (u & _ & H).
  apply try_bind_Ok in H as (b1 & S1 & H). apply try_bind_Ok in H as (b2 & S2 & H).
  apply try_bind_Ok in H as (b3 & S3 & H). apply try_bind_Ok in H as (b4 & S4 & H).
  apply try_bind_Ok in H as (b5 & S5 & H). apply result_Ok_inj in H as <-.
  apply (extend_each_records _ (fun x d => bump (dvc_id x) (push_device (received_device v x) d)))
    in S1 as (bss1 & -> & Hb1).
  2: { intros x b Hx Hb. pose proof (Hdv x Hx) as Ho.
       eapply (reads_back_record _ _ _ push_device);
         [by destruct Ho|by apply device_reads_back|done]. }
  apply (extend_each_records _ (fun x d => bump (det_id x) (push_element x d)))
    in S2 as (bss2 & -> & Hb2).
  2: { intros x b Hx Hb. pose proof (Hel x Hx) as Ho.
       eapply reads_back_record; [by destruct Ho|by apply element_reads_back|done]. }
  apply (extend_each_records _ (fun x d => bump (dpd_id x) (push_process_data x d)))
    in S3 as (bss3 & -> & Hb3).
  2: { intros x b Hx Hb. pose proof (Hpd x Hx) as Ho.
       eapply reads_back_record; [by destruct Ho|apply process_data_reads_back; auto|done]. }
  apply (extend_each_records _ (fun x d => bump (dpt_id x) (push_property x d)))
    in S4 as (bss4 & -> & Hb4).
  2: { intros x b Hx Hb. pose proof (Hpr x Hx) as Ho.
       eapply reads_back_record; [by destruct Ho|apply property_reads_back; auto|done]. }
  apply (extend_each_records _ (fun x d => bump (dvp_id x) (push_presentation x d)))
    in S5 as (bss5 & -> & Hb5).
  2: { intros x b Hx Hb. pose proof (Hvp x Hx) as Ho.
       eapply reads_back_record; [by destruct Ho|by apply presentation_reads_back|done]. }
  exists (bss1 ++ bss2 ++ bss3 ++ bss4 ++ bss5). split; [by rewrite !concat_app|].
  by repeat apply Forall2_app.
Qed.

(** A serialised pool is read back. *)
Lemma deserialize_serialized v d bs :
  ddop_ok d -> ~ is_reserved d -> ddop_serialize_for_version v d = Ok bs ->
  deserialize bs = Some (Ok (received v d)).
Proof.
  intros Hd Hr H. destruct (serialized_records v d bs Hd Hr H) as (bss & -> & Hbss).
  unfold deserialize. rewrite (deserialize_records _ _ Hbss); [|lia|done].
  do 2 f_equal. rewrite !foldl_app.
  rewrite (fold_pushes (fun x d => push_device (received_device v x) d) dvc_id
             (fun l => add_devices (received_device v <$> l))) by add_laws.
  rewrite (fold_pushes push_element det_id add_elements) by add_laws.
  rewrite (fold_pushes push_process_data dpd_id add_process_datas) by add_laws.
  rewrite (fold_pushes push_property dpt_id add_properties) by add_laws.
  rewrite (fold_pushes push_presentation dvp_id add_presentations) by add_laws.
  unfold received, object_ids. by rewrite !foldl_app.
Qed.
