(* ===== verification/DdopProps.v ===== *)
(** The device descriptor object pool: what validation means, fresh identifiers, and the
    behaviours the model shows. *)
From S2P Require Export DdopProofs.

(** ** Validation *)

Lemma try_bind_tt {E} (r : Result unit E) (k : unit -> Result unit E) :
  try_bind r k = Ok tt <-> r = Ok tt /\ k tt = Ok tt.
Proof. destruct r as [[]|e]; cbn; naive_solver. Qed.

Lemma try_each_Ok {A} (f : A -> Result unit Error.t) l :
  try_each f l = Ok tt <-> Forall (fun x => f x = Ok tt) l.
Proof.
  induction l as [|x l IH]; cbn; [split; [constructor|done]|].
  rewrite try_bind_tt, IH, Forall_cons. done.
Qed.

Lemma guard_Ok {E} (b : bool) (e : E) (r : Result unit E) :
  (if b then Err e else r) = Ok tt <-> b = false /\ r = Ok tt.
Proof. destruct b; naive_solver. Qed.

Lemma nonempty_Ok {A E} (l : list A) (e : E) r :
  match l with [] => Err e | _ :: _ => r end = Ok tt <-> l <> [] /\ r = Ok tt.
Proof. destruct l; naive_solver. Qed.

Lemma existsb_elem {A} (f : A -> Z) l id :
  existsb (fun x => f x =? id) l = true <-> id ∈ f <$> l.
Proof.
  rewrite existsb_exists, list_elem_of_fmap. split.
  - intros (x & Hx & E). exists x. split; [lia|by apply list_elem_of_In].
  - intros (x & -> & Hx). exists x. split; [by apply list_elem_of_In|lia].
Qed.

Lemma unique_ids_spec l ids :
  NoDup ids -> forall r,
  unique_ids ids l = Ok r <-> r = ids ++ l /\ NoDup (ids ++ l) /\ NULL_OBJECT_ID ∉ l.
Proof.
  revert ids. induction l as [|id l IH]; intros ids Hids r; cbn [unique_ids].
  { rewrite app_nil_r. split; [intros [= <-]|intros (-> & _)]; [|done].
    split; [done|]. split; [done|]. apply not_elem_of_nil. }
  assert (Hin : existsb (Z.eqb id) ids = true <-> id ∈ ids).
  { rewrite existsb_exists. split.
    - intros (x & Hx & E). assert (id = x) as -> by lia. by apply list_elem_of_In.
    - intros Hx. exists id. split; [by apply list_elem_of_In|lia]. }
  destruct (Z.eqb_spec id NULL_OBJECT_ID) as [->|Hne].
  { split; [done|]. intros (_ & _ & Hn). destruct Hn. apply list_elem_of_here. }
  destruct (existsb (Z.eqb id) ids) eqn:E.
  { split; [done|]. intros (_ & Hnd & _). apply NoDup_app in Hnd as (_ & Hd & _).
    destruct (Hd id); [by apply Hin|apply list_elem_of_here]. }
  assert (Hid : id ∉ ids) by (intros H; apply Hin in H; congruence).
  rewrite IH.
  - rewrite <- app_assoc. cbn. rewrite not_elem_of_cons. naive_solver.
  - apply NoDup_app. split; [done|]. split; [|apply NoDup_singleton].
    intros x Hx ->%list_elem_of_singleton. done.
Qed.

Lemma unique_object_ids d :
  validate_unique_object_ids d = Ok tt <->
  NoDup (object_ids d) /\ NULL_OBJECT_ID ∉ object_ids d.
Proof.
  unfold validate_unique_object_ids, object_ids. set (l1 := _ <$> dd_devices d).
  set (l2 := _ <$> dd_elements d). set (l3 := _ <$> dd_process_data d).
  set (l4 := _ <$> dd_properties d). set (l5 := _ <$> dd_value_presentations d). split.
  - intros H. apply try_bind_Ok in H as (i1 & (-> & N1 & X1)%unique_ids_spec & H); [|constructor].
    apply try_bind_Ok in H as (i2 & (-> & N2 & X2)%unique_ids_spec & H); [|done].
    apply try_bind_Ok in H as (i3 & (-> & N3 & X3)%unique_ids_spec & H); [|done].
    apply try_bind_Ok in H as (i4 & (-> & N4 & X4)%unique_ids_spec & H); [|done].
    apply try_bind_Ok in H as (i5 & (-> & N5 & X5)%unique_ids_spec & _); [|done].
    rewrite <- !app_assoc in N5. split; [done|]. set_solver.
  - intros [N X]. rewrite !not_elem_of_app in X. destruct X as (X1 & X2 & X3 & X4 & X5).
    rewrite 3!app_assoc in N.
    assert (Hpre : forall a b : list Z, NoDup (a ++ b) -> NoDup a)
      by (intros a b Hab; by apply NoDup_app in Hab as (? & _ & _)).
    pose proof (Hpre _ _ N) as N4. pose proof (Hpre _ _ N4) as N3.
    pose proof (Hpre _ _ N3) as N2. pose proof (Hpre _ _ N2) as N1.
    rewrite (proj2 (unique_ids_spec l1 [] (NoDup_nil_2 (A:=Z)) l1)) by done. cbn [try_bind].
    rewrite (proj2 (unique_ids_spec l2 l1 N1 _)) by done. cbn [try_bind].
    rewrite (proj2 (unique_ids_spec l3 _ N2 _)) by done. cbn [try_bind].
    rewrite (proj2 (unique_ids_spec l4 _ N3 _)) by done. cbn [try_bind].
    by rewrite (proj2 (unique_ids_spec l5 _ N4 _)) by done.
Qed.

Definition ids_of (k : TCObjectType.t) (d : DDOP) : list Z :=
  match k with
  | TCObjectType.Device => dvc_id <$> dd_devices d
  | TCObjectType.DeviceElement => det_id <$> dd_elements d
  | TCObjectType.DeviceProcessData => dpd_id <$> dd_process_data d
  | TCObjectType.DeviceProperty => dpt_id <$> dd_properties d
  | TCObjectType.DeviceValuePresentation => dvp_id <$> dd_value_presentations d
  end.

Lemma kind_in d id k : object_kind d id = Some k -> id ∈ ids_of k d.
Proof.
  unfold object_kind, vp_exists. intros H.
  repeat match goal with
  | H : (if ?b then Some ?k else _) = Some _ |- _ => destruct b eqn:?; [injection H as <-|]
  end; [..|done]; by apply existsb_elem.
Qed.

Lemma object_kind_None d id : object_kind d id = None <-> id ∉ object_ids d.
Proof.
  unfold object_ids. rewrite !not_elem_of_app, <- !existsb_elem, !not_true_iff_false.
  unfold object_kind, vp_exists. split.
  - intros H. by repeat case_match.
  - by intros (-> & -> & -> & -> & ->).
Qed.

Lemma ids_of_disjoint d id k k' :
  NoDup (object_ids d) -> id ∈ ids_of k d -> id ∈ ids_of k' d -> k = k'.
Proof.
  unfold object_ids. rewrite !NoDup_app. intros (_ & D1 & _ & D2 & _ & D3 & _ & D4 & _) H H'.
  setoid_rewrite not_elem_of_app in D1. setoid_rewrite not_elem_of_app in D2.
  setoid_rewrite not_elem_of_app in D3. setoid_rewrite not_elem_of_app in D1.
  setoid_rewrite not_elem_of_app in D2. setoid_rewrite not_elem_of_app in D1.
  specialize (D1 id). specialize (D2 id). specialize (D3 id). specialize (D4 id).
  destruct k, k'; try done; exfalso; cbn [ids_of] in H, H'; tauto.
Qed.

(** With distinct identifiers the kind of an object is the list it is in. *)
Lemma object_kind_spec d id k :
  NoDup (object_ids d) -> object_kind d id = Some k <-> id ∈ ids_of k d.
Proof.
  intros N. split; [apply kind_in|]. intros H.
  destruct (object_kind d id) as [k'|] eqn:E.
  - f_equal. by eapply ids_of_disjoint; [done|apply kind_in|].
  - apply object_kind_None in E. destruct E. unfold object_ids. rewrite !elem_of_app.
    destruct k; cbn [ids_of] in H; tauto.
Qed.

(** What Annex A asks of a pool. *)
Definition text_fits (s : list Z) : Prop := (length s <= DDOP_TEXT_MAX_BYTES)%nat.

Record pool_serializable (d : DDOP) : Prop := {
  ps_devices : Forall (fun x => dvc_designator x <> [] /\ text_fits (dvc_designator x) /\
    text_fits (dvc_software_version x) /\ text_fits (dvc_serial_number x)) (dd_devices d);
  ps_elements : Forall (fun x => text_fits (det_designator x) /\
    Z.of_nat (length (det_child_objects x)) <= 0xFFFF) (dd_elements d);
  ps_process_data : Forall (fun x => validate_trigger_methods x = Ok tt /\
    text_fits (dpd_designator x)) (dd_process_data d);
  ps_properties : Forall (fun x => text_fits (dpt_designator x)) (dd_properties d);
  ps_presentations : Forall (fun x => f32_is_finite (dvp_scale_bits x) = true /\
    text_fits (dvp_unit_designator x)) (dd_value_presentations d)
}.

Record pool_valid (d : DDOP) : Prop := {
  pv_serializable : pool_serializable d;
  (** Identifiers are distinct and none is the null identifier. *)
  pv_ids : NoDup (object_ids d) /\ NULL_OBJECT_ID ∉ object_ids d;
  (** One device, numbered 0; one element of type device, with element number 0. *)
  pv_device : exists dev, dd_devices d = [dev] /\ dvc_id dev = 0;
  pv_root : exists root, List.filter is_root (dd_elements d) = [root] /\ det_number root = 0;
  pv_numbers : Forall (fun x => det_number x <= MAX_PROCESS_DATA_ELEMENT_NUMBER) (dd_elements d);
  (** References name objects of a kind they may name. *)
  pv_parents : Forall (fun x => det_parent_id x = 0xFFFF \/
    det_parent_id x <> det_id x /\
    (det_parent_id x ∈ ids_of TCObjectType.Device d \/
     det_parent_id x ∈ ids_of TCObjectType.DeviceElement d)) (dd_elements d);
  pv_children : Forall (fun x => Forall (fun c => c <> det_id x /\
    (c ∈ ids_of TCObjectType.DeviceElement d \/ c ∈ ids_of TCObjectType.DeviceProcessData d \/
     c ∈ ids_of TCObjectType.DeviceProperty d)) (det_child_objects x)) (dd_elements d);
  pv_process_data : Forall (fun x => dpd_presentation_object_id x = 0xFFFF \/
    dpd_presentation_object_id x ∈ ids_of TCObjectType.DeviceValuePresentation d)
    (dd_process_data d);
  pv_properties : Forall (fun x => dpt_presentation_object_id x = 0xFFFF \/
    dpt_presentation_object_id x = 0 \/
    dpt_presentation_object_id x ∈ ids_of TCObjectType.DeviceValuePresentation d)
    (dd_properties d)
}.

Lemma validate_wire_text_Ok field s : validate_wire_text field s = Ok tt <-> text_fits s.
Proof.
  unfold validate_wire_text, text_fits. rewrite guard_Ok.
  destruct (Nat.ltb_spec DDOP_TEXT_MAX_BYTES (length s)); intuition (done || lia).
Qed.

Lemma Forall_iff' {A} (P Q : A -> Prop) l :
  (forall x, x ∈ l -> P x <-> Q x) -> Forall P l <-> Forall Q l.
Proof. rewrite !Forall_forall. naive_solver. Qed.

Lemma validate_serializable_Ok d : validate_serializable d = Ok tt <-> pool_serializable d.
Proof.
  unfold validate_serializable. rewrite !try_bind_tt, !try_each_Ok.
  split.
  - intros (H1 & H2 & H3 & H4 & H5). split.
    + eapply Forall_impl; [exact H1|]. intros x Hx. cbn in Hx.
      by rewrite nonempty_Ok, !try_bind_tt, !validate_wire_text_Ok in Hx.
    + eapply Forall_impl; [exact H2|]. intros x Hx. cbn in Hx.
      rewrite try_bind_tt, validate_wire_text_Ok, guard_Ok in Hx. intuition lia.
    + eapply Forall_impl; [exact H3|]. intros x Hx. cbn in Hx.
      by rewrite try_bind_tt, validate_wire_text_Ok in Hx.
    + eapply Forall_impl; [exact H4|]. intros x Hx. by apply validate_wire_text_Ok in Hx.
    + eapply Forall_impl; [exact H5|]. intros x Hx. cbn in Hx.
      rewrite guard_Ok, validate_wire_text_Ok, negb_false_iff in Hx. done.
  - intros [H1 H2 H3 H4 H5]. split_and!.
    + eapply Forall_impl; [exact H1|]. intros x Hx. cbn.
      by rewrite nonempty_Ok, !try_bind_tt, !validate_wire_text_Ok.
    + eapply Forall_impl; [exact H2|]. intros x [Hx1 Hx2]. cbn.
      rewrite try_bind_tt, validate_wire_text_Ok, guard_Ok. intuition lia.
    + eapply Forall_impl; [exact H3|]. intros x Hx. cbn.
      by rewrite try_bind_tt, validate_wire_text_Ok.
    + eapply Forall_impl; [exact H4|]. intros x Hx. by apply validate_wire_text_Ok.
    + eapply Forall_impl; [exact H5|]. intros x Hx. cbn.
      by rewrite guard_Ok, validate_wire_text_Ok, negb_false_iff.
Qed.

Lemma validate_hierarchy_Ok d :
  validate_object_hierarchy d = Ok tt <->
  (exists dev, dd_devices d = [dev] /\ dvc_id dev = 0) /\
  (exists root, List.filter is_root (dd_elements d) = [root] /\ det_number root = 0) /\
  Forall (fun x => det_number x <= MAX_PROCESS_DATA_ELEMENT_NUMBER) (dd_elements d).
Proof.
  unfold validate_object_hierarchy.
  destruct (dd_devices d) as [|dev [|dev' l]]; [naive_solver| |naive_solver].
  rewrite guard_Ok. destruct (List.filter is_root (dd_elements d)) as [|root [|r l]];
    [naive_solver| |naive_solver].
  rewrite guard_Ok, try_each_Ok, !negb_false_iff, !Z.eqb_eq.
  rewrite (Forall_iff' _ (fun x => det_number x <= MAX_PROCESS_DATA_ELEMENT_NUMBER)).
  - naive_solver.
  - intros x _. rewrite guard_Ok. intuition lia.
Qed.

Lemma validate_parent_Ok d x :
  NoDup (object_ids d) -> det_id x <> NULL_OBJECT_ID ->
  validate_parent d x = Ok tt <->
  det_parent_id x = 0xFFFF \/
  det_parent_id x <> det_id x /\
  (det_parent_id x ∈ ids_of TCObjectType.Device d \/
   det_parent_id x ∈ ids_of TCObjectType.DeviceElement d).
Proof.
  intros N Hn. unfold validate_parent, NULL_OBJECT_ID in *. rewrite guard_Ok, Z.eqb_neq.
  rewrite <- !object_kind_spec by done.
  destruct (Z.eqb_spec (det_parent_id x) 0xFFFF) as [E|E]; cbn [negb]; [intuition lia|].
  destruct (object_kind d (det_parent_id x)) as [[]|]; naive_solver.
Qed.

Lemma validate_child_Ok d x c :
  NoDup (object_ids d) ->
  validate_child d x c = Ok tt <->
  c <> det_id x /\
  (c ∈ ids_of TCObjectType.DeviceElement d \/ c ∈ ids_of TCObjectType.DeviceProcessData d \/
   c ∈ ids_of TCObjectType.DeviceProperty d).
Proof.
  intros N. unfold validate_child. rewrite guard_Ok, Z.eqb_neq.
  rewrite <- !object_kind_spec by done.
  destruct (object_kind d c) as [[]|]; naive_solver.
Qed.

(** Validation accepts exactly the pools of Annex A: one device numbered 0, one root element,
    distinct non-null identifiers, references to existing objects of a kind they may name, and
    fields that can be serialised. *)
Theorem ddop_validate_spec d : validate d = Ok tt <-> pool_valid d.
Proof.
  transitivity (dd_devices d <> [] /\ dd_elements d <> [] /\ validate d = Ok tt).
  { split; [|tauto]. unfold validate. destruct (dd_devices d), (dd_elements d); done. }
  transitivity (dd_devices d <> [] /\ dd_elements d <> [] /\ pool_valid d).
  2: { split; [tauto|]. intros H. split_and!; [| |done].
       - destruct (pv_device d H) as (dev & -> & _). done.
       - intros E. destruct (pv_root d H) as (r & Hr & _). by rewrite E in Hr. }
  unfold validate. destruct (dd_devices d) as [|dv dvs] eqn:Ed; [tauto|].
  destruct (dd_elements d) as [|el els] eqn:Ee; [tauto|]. rewrite <- Ed, <- Ee.
  rewrite !try_bind_tt, validate_serializable_Ok, unique_object_ids, validate_hierarchy_Ok,
    !try_each_Ok.
  assert (Hpres : forall id, vp_exists d id = true <->
    id ∈ ids_of TCObjectType.DeviceValuePresentation d) by (intros id; apply existsb_elem).
  split.
  - intros (H1 & H2 & Hs & [N X] & (Hdev & Hroot & Hnum) & Hel & Hpd & Hpr).
    split_and!; [done|done|].
    assert (Hids : Forall (fun x => det_id x <> NULL_OBJECT_ID) (dd_elements d)).
    { apply Forall_forall. intros x Hx E. destruct X. rewrite <- E. unfold object_ids.
      rewrite !elem_of_app. right. left. by apply list_elem_of_fmap_2. }
    split; try done.
    + rewrite Forall_forall in *. intros x Hx. specialize (Hel x Hx).
      rewrite try_bind_tt in Hel. apply validate_parent_Ok; [done|by apply Hids|tauto].
    + rewrite Forall_forall in *. intros x Hx. specialize (Hel x Hx).
      rewrite try_bind_tt, try_each_Ok in Hel. destruct Hel as [_ Hel].
      eapply Forall_impl; [exact Hel|]. intros c. by apply validate_child_Ok.
    + eapply Forall_impl; [exact Hpd|]. intros x Hx. cbn in Hx. rewrite guard_Ok in Hx.
      rewrite <- Hpres. destruct (vp_exists _ _); intuition lia.
    + eapply Forall_impl; [exact Hpr|]. intros x Hx. cbn in Hx. rewrite guard_Ok in Hx.
      rewrite <- Hpres. destruct (vp_exists _ _); intuition lia.
  - intros (H1 & H2 & [Hs [N X] Hdev Hroot Hnum Hpar Hch Hpd Hpr]).
    split_and!; try done.
    + rewrite Forall_forall in *. intros x Hx. rewrite try_bind_tt, try_each_Ok. split.
      * apply validate_parent_Ok; [done| |by apply Hpar]. intros E. destruct X. rewrite <- E.
        unfold object_ids. rewrite !elem_of_app. right. left. by apply list_elem_of_fmap_2.
      * eapply Forall_impl; [by apply Hch|]. intros c. by apply validate_child_Ok.
    + eapply Forall_impl; [exact Hpd|]. intros x Hx. cbn beta in *. rewrite guard_Ok.
      rewrite <- Hpres in Hx. destruct (vp_exists _ _); intuition lia.
    + eapply Forall_impl; [exact Hpr|]. intros x Hx. cbn beta in *. rewrite guard_Ok.
      rewrite <- Hpres in Hx. destruct (vp_exists _ _); intuition lia.
Qed.

(** ** Fresh identifiers *)

Lemma object_exists_spec d id : object_exists d id = false <-> id ∉ object_ids d.
Proof.
  unfold object_exists. rewrite <- object_kind_None. destruct (object_kind d id); naive_solver.
Qed.

Lemma object_ids_count d : length (object_ids d) = object_count d.
Proof. unfold object_ids, object_count. rewrite !length_app, !length_fmap. lia. Qed.

Definition free (d : DDOP) (id : Z) : Prop := id <> NULL_OBJECT_ID /\ id ∉ object_ids d.

Lemma free_id_Some n c d id :
  in_u 16 c -> free_id n c d = Some id -> in_u 16 id /\ free d id.
Proof.
  revert c. induction n as [|n IH]; intros c Hc; cbn [free_id]; [done|].
  destruct (negb _ && negb _) eqn:E; reflect_bools.
  - intros [= <-]. split; [done|]. split; [done|]. by apply object_exists_spec.
  - intros H. apply (IH _ (in_u_wrap 16 _ ltac:(lia)) H).
Qed.

Lemma free_id_None n c d :
  in_u 16 c -> free_id n c d = None ->
  forall i, (i < n)%nat -> ~ free d (wrap 16 (c + Z.of_nat i)).
Proof.
  revert c. induction n as [|n IH]; intros c Hc; cbn [free_id]; [lia|].
  destruct (negb _ && negb _) eqn:E; [done|]. intros H i Hi.
  destruct i as [|i].
  - rewrite Z.add_0_r, wrap_small by done. intros [H1 H2%object_exists_spec].
    rewrite H2, (proj2 (Z.eqb_neq _ _)) in E by done. done.
  - specialize (IH _ (in_u_wrap 16 _ ltac:(lia)) H i ltac:(lia)).
    replace (wrap 16 (c + Z.of_nat (S i))) with (wrap 16 (wrap 16 (c + 1) + Z.of_nat i)); [done|].
    unfold wrap. rewrite Zplus_mod_idemp_l. f_equal. lia.
Qed.

(** The search visits every identifier, so it only fails on a full pool. *)
Lemma free_id_full c d :
  in_u 16 c -> free_id (Z.to_nat 0x10000) c d = None -> 0xFFFF <= Z.of_nat (object_count d).
Proof.
  intros Hc H. unfold in_u in Hc.
  assert (Hall : forall v, 0 <= v < 0xFFFF -> v ∈ object_ids d).
  { intros v Hv. destruct (decide (v ∈ object_ids d)) as [|Hn]; [done|]. exfalso.
    apply (free_id_None _ c d Hc H (Z.to_nat ((v - c) mod 0x10000))).
    - pose proof (Z.mod_pos_bound (v - c) 0x10000). lia.
    - rewrite Z2Nat.id by (apply Z.mod_pos_bound; lia). unfold wrap.
      change (2 ^ 16) with 0x10000. rewrite Zplus_mod_idemp_r.
      replace (c + (v - c)) with v by lia. rewrite Z.mod_small by lia.
      split; [unfold NULL_OBJECT_ID; lia|done]. }
  rewrite <- object_ids_count.
  assert (Hn : forall k, Z.of_nat k <= 0xFFFF -> (k <= length (object_ids d))%nat).
  2: { specialize (Hn (Z.to_nat 0xFFFF)). lia. }
  intros k Hk.
  replace k with (length (Z.of_nat <$> seq 0 k)) by by rewrite length_fmap, length_seq.
  apply NoDup_incl_length.
  - apply NoDup_ListNoDup, NoDup_fmap; [intros ???; lia|apply NoDup_seq].
  - intros v Hv. apply list_elem_of_In. apply list_elem_of_In, list_elem_of_fmap in Hv.
    destruct Hv as (i & -> & Hi%elem_of_seq). apply Hall. lia.
Qed.

(** An allocated identifier is a non-null one no object has, the search is over after at most
    65536 steps, and it only fails, leaving the pool alone, when the pool holds 65535
    objects. *)
Theorem ddop_allocate_fresh d :
  in_u 16 (dd_next_id d) ->
  match allocate_next_id d with
  | (d', Ok id) => in_u 16 id /\ free d id /\ Z.of_nat (object_count d) < 0xFFFF /\
      exists n, in_u 16 n /\ n <> NULL_OBJECT_ID /\ d' = dd_with_next_id n d
  | (d', Err e) => d' = d /\ 0xFFFF <= Z.of_nat (object_count d) /\ e = no_identifiers
  end.
Proof.
  intros Hn. unfold allocate_next_id.
  destruct (Z.leb_spec 0xFFFF (Z.of_nat (object_count d))) as [Hc|Hc]; [done|].
  destruct (free_id _ _ d) as [id|] eqn:E.
  - apply free_id_Some in E as [Hid Hf]; [|done]. split; [done|]. split; [done|].
    split; [done|]. eexists. split; [|split; [|done]].
    + destruct (_ =? _); [unfold in_u; lia|by apply in_u_wrap].
    + unfold NULL_OBJECT_ID. destruct (Z.eqb_spec (wrap 16 (id + 1)) 0xFFFF); lia.
  - apply free_id_full in E; [lia|done].
Qed.

Lemma ddop_allocate_fresh_witness : free sample_pool 5.
Proof.
  pose proof (ddop_allocate_fresh sample_pool) as H.
  assert (E : allocate_next_id sample_pool = (dd_with_next_id 6 sample_pool, Ok 5)).
  { vm_compute. reflexivity. }
  rewrite E in H. apply H. split; vm_compute; congruence.
Defined.

(** ** Building a pool *)

(** The [with_*] methods: an object added, an error ignored. *)
Inductive DdopOp : Type :=
| OpDevice (x : DeviceObject)
| OpElement (x : DeviceElement)
| OpProcessData (x : DeviceProcessData)
| OpProperty (x : DeviceProperty)
| OpPresentation (x : DeviceValuePresentation).

Definition with_object (op : DdopOp) (d : DDOP) : DDOP :=
  match op with
  | OpDevice x => (add_device x d).1
  | OpElement x => (add_element x d).1
  | OpProcessData x => (add_process_data x d).1
  | OpProperty x => (add_property x d).1
  | OpPresentation x => (add_value_presentation x d).1
  end.
Definition with_objects (ops : list DdopOp) (d : DDOP) : DDOP :=
  foldl (fun d op => with_object op d) d ops.

(** The identifier an object comes with; 0 asks for one. *)
Definition op_id (op : DdopOp) : Z :=
  match op with
  | OpDevice _ => 0
  | OpElement x => det_id x
  | OpProcessData x => dpd_id x
  | OpProperty x => dpt_id x
  | OpPresentation x => dvp_id x
  end.
Definition is_device_op (op : DdopOp) : bool := match op with OpDevice _ => true | _ => false end.

Lemma push_ids id d :
  (forall x, dvc_id x = id -> object_ids (push_device x d) ≡ₚ id :: object_ids d) /\
  (forall x, det_id x = id -> object_ids (push_element x d) ≡ₚ id :: object_ids d) /\
  (forall x, dpd_id x = id -> object_ids (push_process_data x d) ≡ₚ id :: object_ids d) /\
  (forall x, dpt_id x = id -> object_ids (push_property x d) ≡ₚ id :: object_ids d) /\
  (forall x, dvp_id x = id -> object_ids (push_presentation x d) ≡ₚ id :: object_ids d).
Proof.
  unfold object_ids. split_and!; intros x <-; cbn; rewrite fmap_app; cbn; solve_Permutation.
Qed.

Lemma object_ids_next n d : object_ids (dd_with_next_id n d) = object_ids d.
Proof. done. Qed.

(** An object added to a pool: nothing, when no identifier is left or a device has no
    designator, or one more identifier: 0 for a device, the one given, or a free one. *)
Lemma with_object_ids op d : in_u 16 (dd_next_id d) ->
  in_u 16 (dd_next_id (with_object op d)) /\
  (with_object op d = d \/
   exists id, object_ids (with_object op d) ≡ₚ id :: object_ids d /\
     if is_device_op op then id = 0
     else if op_id op =? 0 then free d id else id = op_id op).
Proof.
  intros Hn. pose proof (ddop_allocate_fresh d Hn) as Ha.
  assert (Hauto : forall id, match auto_id id d with
    | (d', Ok id') => in_u 16 (dd_next_id d') /\ object_ids d' = object_ids d /\
        if id =? 0 then free d id' else id' = id
    | (d', Err _) => d' = d
    end).
  { intros id. unfold auto_id. destruct (id =? 0); [|done].
    destruct (allocate_next_id d) as [d' [id'|e]]; [|tauto].
    destruct Ha as (_ & Hf & _ & n & H1 & _ & ->). done. }
  destruct op as [x|x|x|x|x]; cbn [with_object is_device_op op_id];
    [|unfold add_element, add_process_data, add_property, add_value_presentation;
      match goal with |- context [auto_id ?i _] => specialize (Hauto i) end;
      destruct (auto_id _ d) as [d' [id'|e]]; cbn [fst]; [|by subst; split; [|left]];
      destruct Hauto as (H1 & H2 & H3); split; [done|right]; exists id'; split; [|done];
      rewrite <- H2; by apply (push_ids id' d')..].
  unfold add_device. destruct (dvc_designator x); [by split; [|left]|].
  split; [done|]. right. exists 0. split; [|done]. by apply (push_ids 0 d).
Qed.

(** Each object is added under a free identifier, given or asked for. *)
Fixpoint ops_fresh (ops : list DdopOp) (d : DDOP) : Prop :=
  match ops with
  | [] => True
  | op :: ops =>
      is_device_op op = false /\ (op_id op = 0 \/ free d (op_id op)) /\
      ops_fresh ops (with_object op d)
  end.

Definition ids_distinct (d : DDOP) : Prop :=
  NoDup (object_ids d) /\ NULL_OBJECT_ID ∉ object_ids d.

Lemma with_objects_distinct ops d :
  in_u 16 (dd_next_id d) -> ids_distinct d -> ops_fresh ops d ->
  ids_distinct (with_objects ops d).
Proof.
  revert d. induction ops as [|op ops IH]; intros d Hn Hd Hops; [done|].
  destruct Hops as (Hdev & Hid & Hops). destruct (with_object_ids op d Hn) as [Hn' Hadd].
  apply IH; [done| |done]. destruct Hadd as [->|(id & Hp & Hf)]; [done|].
  rewrite Hdev in Hf. assert (Hfree : free d id).
  { destruct (Z.eqb_spec (op_id op) 0); [done|]. subst id. by destruct Hid. }
  destruct Hd as [N X], Hfree as [F1 F2]. split.
  - rewrite Hp. by constructor.
  - rewrite Hp. apply not_elem_of_cons. split; [congruence|done].
Qed.

(** A pool built from its device on, with every other object under a free identifier, given
    or asked for, has distinct non-null identifiers and its device under 0. *)
Theorem ddop_build_distinct dev ops :
  dvc_designator dev <> [] -> ops_fresh ops (with_object (OpDevice dev) DDOP_default) ->
  ids_distinct (with_objects (OpDevice dev :: ops) DDOP_default) /\
  0 ∈ object_ids (with_objects (OpDevice dev :: ops) DDOP_default).
Proof.
  intros Hdev Hops. cbn [with_objects foldl].
  assert (E : object_ids (with_object (OpDevice dev) DDOP_default) = [0]).
  { cbn. unfold add_device. by destruct (dvc_designator dev). }
  assert (Hn : in_u 16 (dd_next_id (with_object (OpDevice dev) DDOP_default))).
  { by apply with_object_ids. }
  split.
  - apply with_objects_distinct; [done| |done]. unfold ids_distinct. rewrite E.
    split; [apply NoDup_singleton|]. intros H%list_elem_of_singleton. done.
  - assert (Hin : 0 ∈ object_ids (with_object (OpDevice dev) DDOP_default))
      by (rewrite E; apply list_elem_of_here).
    clear E Hops. revert Hin Hn. generalize (with_object (OpDevice dev) DDOP_default).
    induction ops as [|op ops IH]; intros d Hin Hn; [done|]. cbn [foldl].
    destruct (with_object_ids op d Hn) as [Hn' Hadd]. apply IH; [|done].
    destruct Hadd as [->|(id & Hp & _)]; [done|]. rewrite Hp. by apply list_elem_of_further.
Qed.

Lemma ddop_build_distinct_witness :
  ids_distinct (with_objects
    [OpDevice (mkDevice 0 sample_text [] 0 [] [] [] []);
     OpElement (mkElement 0 DeviceElementType.Device 0 0 [] []);
     OpPresentation (mkPresentation 7 0 0 0 [])] DDOP_default).
Proof.
  apply (ddop_build_distinct (mkDevice 0 sample_text [] 0 [] [] [] [])
    [OpElement (mkElement 0 DeviceElementType.Device 0 0 [] []);
     OpPresentation (mkPresentation 7 0 0 0 [])]).
  - discriminate.
  - split; [reflexivity|]. split; [left; reflexivity|]. split; [reflexivity|].
    split; [|exact I]. right. split; [discriminate|]. apply object_exists_spec. vm_compute.
    reflexivity.
Defined.

(** An object that asks for an identifier before the device is added takes 0, the one the
    device then takes too: no such pool validates, whatever is added to it. *)
Theorem ddop_device_not_first op dev ops :
  is_device_op op = false -> op_id op = 0 -> dvc_designator dev <> [] ->
  validate (with_objects (op :: OpDevice dev :: ops) DDOP_default) <> Ok tt.
Proof.
  intros Hop Hid Hdev H. apply ddop_validate_spec, pv_ids in H as [H _]. revert H.
  cbn [with_objects foldl]. set (d := with_object (OpDevice dev) _).
  assert (Hd : exists l, object_ids d ≡ₚ 0 :: 0 :: l).
  { exists []. subst d. cbn [with_object]. unfold add_device.
    destruct (dvc_designator dev); [done|]. cbn [fst].
    destruct op; cbn in Hop, Hid; try discriminate Hop; cbn [with_object];
      unfold add_element, add_process_data, add_property, add_value_presentation;
      rewrite Hid; vm_compute; reflexivity. }
  assert (Hn : in_u 16 (dd_next_id d)) by (do 2 apply with_object_ids; done).
  clearbody d. revert d Hd Hn. induction ops as [|op' ops IH]; intros d [l Hl] Hn.
  - cbn [foldl]. rewrite Hl. intros [Hx _]%NoDup_cons. apply Hx, list_elem_of_here.
  - cbn [foldl]. destruct (with_object_ids op' d Hn) as [Hn' Hadd]. apply IH; [|done].
    destruct Hadd as [->|(id & Hp & _)]; [by exists l|]. exists (id :: l). rewrite Hp, Hl.
    solve_Permutation.
Qed.

Lemma ddop_device_not_first_witness :
  validate (with_objects
    [OpPresentation (mkPresentation 0 0 0 0 []);
     OpDevice (mkDevice 0 sample_text [] 0 [] [] [] []);
     OpElement (mkElement 0 DeviceElementType.Device 0 0 [] [])] DDOP_default) <> Ok tt.
Proof.
  apply (ddop_device_not_first (OpPresentation (mkPresentation 0 0 0 0 []))
    (mkDevice 0 sample_text [] 0 [] [] [] [])
    [OpElement (mkElement 0 DeviceElementType.Device 0 0 [] [])]).
  - reflexivity.
  - reflexivity.
  - discriminate.
Defined.

(** ** Reserved dictionary numbers *)

Definition reserved_pool : DDOP :=
  mkDdop (dd_devices sample_pool) (dd_elements sample_pool)
    [mkProcessData 2 0 1 9 4 []] (dd_properties sample_pool)
    (dd_value_presentations sample_pool) 5.

(** Nothing on the sending side rejects a reserved dictionary number, the receiving side
    does: this pool validates and serialises, and its bytes do not deserialise. *)
Theorem ddop_reserved_ddi_unreadable :
  validate reserved_pool = Ok tt /\
  match ddop_serialize_for_version 4 reserved_pool with
  | Ok bs => deserialize bs = Some (Err (pool_validation
      "DDOP process data DDI 0 and 65535 are reserved NULL DDIs"))
  | Err _ => False
  end.
Proof. split; vm_compute; reflexivity. Qed.

Lemma sample_pool_ok : ddop_ok sample_pool.
Proof.
  split; repeat constructor; cbn; try (unfold in_u; lia); try done;
    repeat constructor; unfold in_u; lia.
Qed.

(** C25: A pool that serialises is read back as it was, up to the label a version below 4 does not
    carry and the identifier counter, which restarts after the highest identifier; provided
    it uses no reserved dictionary number. *)
Theorem ddop_roundtrip v d bs :
  ddop_ok d -> ~ is_reserved d -> ddop_serialize_for_version v d = Ok bs ->
  deserialize bs = Some (Ok (received v d)).
Proof. apply deserialize_serialized. Qed.

Lemma ddop_roundtrip_witness :
  match ddop_serialize_for_version 4 sample_pool with
  | Ok bs => deserialize bs = Some (Ok sample_pool)
  | Err _ => False
  end.
Proof.
  destruct (ddop_serialize_for_version 4 sample_pool) as [bs|e] eqn:E.
  - change (Some (Ok sample_pool)) with (Some (@Ok DDOP Error.t (received 4 sample_pool))).
    apply (ddop_roundtrip 4 sample_pool bs); [exact sample_pool_ok| |exact E].
    intros [H|H]; inversion H; subst; try discriminate;
      match goal with H : Exists _ [] |- _ => inversion H end.
  - vm_compute in E. discriminate E.
Defined.
