(* ===== verification/DdopHelpers.v ===== *)
(** Implement geometry and rates from a pool: the model of [src/isobus/tc/ddop_helpers.rs].

    [collect_rates_for_children] recurses along child references; its model takes fuel and
    [None] is the recursion that does not end.  The sum of section widths is a checked [i32]
    sum, [None] its overflow panic. *)
From S2P Require Export DdopProps.

Record SectionInfo : Type := mkSection {
  sec_element_id : Z;
  sec_number : Z;
  sec_designator : list Z;
  sec_offset_x : option Z;
  sec_offset_x_mm : Z;
  sec_offset_y : option Z;
  sec_offset_y_mm : Z;
  sec_offset_z : option Z;
  sec_offset_z_mm : Z;
  sec_width : option Z;
  sec_width_mm : Z
}.
Record RateInfo : Type := mkRate {
  rate_process_data_id : Z;
  rate_ddi : Z;
  rate_designator : list Z;
  rate_trigger_methods : Z;
  rate_presentation_id : Z;
  rate_value : option Z;
  rate_editable : bool
}.
Record SubBoomInfo : Type := mkSubBoom {
  sub_element_id : Z;
  sub_number : Z;
  sub_designator : list Z;
  sub_offset_x : option Z;
  sub_offset_y : option Z;
  sub_offset_z : option Z;
  sub_sections : list SectionInfo;
  sub_rates : list RateInfo
}.
Record ImplementGeometry : Type := mkGeometry {
  geo_connector_x_mm : Z;
  geo_boom_offset_x_mm : Z;
  geo_boom_offset_y_mm : Z;
  geo_total_width_mm : Z;
  geo_sections : list SectionInfo;
  geo_sub_booms : list SubBoomInfo
}.

(** ** Rates and totals *)

Definition rate_info_for_process_data (pd : DeviceProcessData) : RateInfo :=
  mkRate (dpd_id pd) (dpd_ddi pd) (dpd_designator pd) (dpd_trigger_methods pd)
    (dpd_presentation_object_id pd) None true.
Definition rate_info_for_property (p : DeviceProperty) : RateInfo :=
  mkRate (dpt_id p) (dpt_ddi p) (dpt_designator p) 0 (dpt_presentation_object_id p)
    (Some (dpt_value p)) false.

Definition extract_rates (d : DDOP) : list RateInfo :=
  (rate_info_for_process_data <$> List.filter (fun pd => ddi_is_rate (dpd_ddi pd)) (dd_process_data d))
  ++ (rate_info_for_property <$> List.filter (fun p => ddi_is_rate (dpt_ddi p)) (dd_properties d)).

Definition is_total (pd : DeviceProcessData) : bool :=
  negb (Z.land (dpd_trigger_methods pd) (TriggerMethod.as_u8 TriggerMethod.Total) =? 0)
  || ddi_is_total (dpd_ddi pd).
Definition total_info (pd : DeviceProcessData) : RateInfo :=
  let SETTABLE := 0x02 in
  mkRate (dpd_id pd) (dpd_ddi pd) (dpd_designator pd) (dpd_trigger_methods pd)
    (dpd_presentation_object_id pd) None (negb (Z.land (dpd_properties pd) SETTABLE =? 0)).
Definition extract_totals (d : DDOP) : list RateInfo :=
  (total_info <$> List.filter is_total (dd_process_data d))
  ++ (rate_info_for_property
      <$> List.filter (fun p => ddi_is_total (dpt_ddi p)) (dd_properties d)).

Definition has_type (t : DeviceElementType.t) (e : DeviceElement) : bool :=
  bool_decide (det_type e = t).
Definition section_count_usize (d : DDOP) : nat :=
  length (List.filter (has_type DeviceElementType.Section_) (dd_elements d)).
Definition section_count_checked (d : DDOP) : option Z :=
  let n := Z.of_nat (section_count_usize d) in if n <? 2 ^ 16 then Some n else None.
Definition section_count (d : DDOP) : Z := default 0xFFFF (section_count_checked d).

Definition find_parent_element (d : DDOP) (child_id : Z) : option DeviceElement :=
  List.find (fun e => existsb (Z.eqb child_id) (det_child_objects e)) (dd_elements d).

(** ** Geometry *)

(** A property a child reference names. *)
Definition is_child (cid : Z) (p : DeviceProperty) : bool := dpt_id p =? cid.

Record ElementGeometry : Type := mkEg { eg_x : option Z; eg_y : option Z; eg_z : option Z }.
Definition geometry_step (cid : Z) (g : ElementGeometry) (p : DeviceProperty) : ElementGeometry :=
  if is_child cid p then
    if (dpt_ddi p =? ddi.DEVICE_ELEMENT_OFFSET_X) || (dpt_ddi p =? ddi.CONNECTOR_PIVOT_X_OFFSET)
    then mkEg (Some (dpt_value p)) (eg_y g) (eg_z g)
    else if dpt_ddi p =? ddi.DEVICE_ELEMENT_OFFSET_Y
    then mkEg (eg_x g) (Some (dpt_value p)) (eg_z g)
    else if dpt_ddi p =? ddi.DEVICE_ELEMENT_OFFSET_Z
    then mkEg (eg_x g) (eg_y g) (Some (dpt_value p))
    else g
  else g.
Definition element_geometry (d : DDOP) (e : DeviceElement) : ElementGeometry :=
  foldl (fun g cid => foldl (geometry_step cid) g (dd_properties d)) (mkEg None None None)
    (det_child_objects e).

Definition width_step (d : DDOP) (width : option Z) (cid : Z) : option Z :=
  let width := foldl (fun w p =>
    if is_child cid p && (dpt_ddi p =? ddi.ACTUAL_WORKING_WIDTH) then Some (dpt_value p) else w)
    width (dd_properties d) in
  foldl (fun w p =>
    if is_child cid p && (dpt_ddi p =? ddi.MAXIMUM_WORKING_WIDTH)
       && match w with None => true | Some _ => false end
    then Some (dpt_value p) else w)
    width (dd_properties d).
Definition section_info (d : DDOP) (e : DeviceElement) : SectionInfo :=
  let offsets := element_geometry d e in
  let width := foldl (width_step d) None (det_child_objects e) in
  mkSection (det_id e) (det_number e) (det_designator e)
    (eg_x offsets) (default 0 (eg_x offsets)) (eg_y offsets) (default 0 (eg_y offsets))
    (eg_z offsets) (default 0 (eg_z offsets)) width (default 0 width).

(** The recursion over child references, with fuel. *)
Fixpoint collect_rates_for_children (fuel : nat) (d : DDOP) (child_ids : list Z)
    (rates : list RateInfo) {struct fuel} : option (list RateInfo) :=
  match fuel with
  | O => None
  | S fuel =>
      foldl (fun rates child_id =>
        rates ← rates;
        let rates := rates
          ++ (rate_info_for_process_data <$>
              List.filter (fun pd => (dpd_id pd =? child_id) && ddi_is_rate (dpd_ddi pd))
                (dd_process_data d))
          ++ (rate_info_for_property <$>
              List.filter (fun p => (dpt_id p =? child_id) && ddi_is_rate (dpt_ddi p))
                (dd_properties d)) in
        match List.find (fun e => det_id e =? child_id) (dd_elements d) with
        | Some child_elem =>
            collect_rates_for_children fuel d (det_child_objects child_elem) rates
        | None => Some rates
        end) (Some rates) child_ids
  end.
Definition rates_for_element_tree (fuel : nat) (d : DDOP) (e : DeviceElement)
    : option (list RateInfo) :=
  collect_rates_for_children fuel d (det_child_objects e) [].

Definition sub_boom_info (fuel : nat) (d : DDOP) (sub : DeviceElement) : option SubBoomInfo :=
  let offsets := element_geometry d sub in
  rates ← rates_for_element_tree fuel d sub;
  Some (mkSubBoom (det_id sub) (det_number sub) (det_designator sub)
    (eg_x offsets) (eg_y offsets) (eg_z offsets)
    (section_info d <$> List.filter (fun s =>
       has_type DeviceElementType.Section_ s && (det_parent_id s =? det_id sub)) (dd_elements d))
    rates).

(** [Iterator::sum] on [i32]. *)
Fixpoint sum_i32 (acc : Z) (l : list Z) : option Z :=
  match l with
  | [] => Some acc
  | x :: l => if (- 2 ^ 31 <=? acc + x) && (acc + x <? 2 ^ 31) then sum_i32 (acc + x) l else None
  end.

Definition find_type (t : DeviceElementType.t) (d : DDOP) : option DeviceElement :=
  List.find (has_type t) (dd_elements d).

Definition extract_geometry (fuel : nat) (d : DDOP) : option ImplementGeometry :=
  let '(connector_x, offset_y) :=
    match find_type DeviceElementType.Connector d with
    | Some e => let offsets := element_geometry d e in
                (default 0 (eg_x offsets), default 0 (eg_y offsets))
    | None => (0, 0)
    end in
  let boom := find_type DeviceElementType.Function_ d in
  '(offset_x, offset_y, sub_booms) ←
    match boom with
    | Some e =>
        let offsets := element_geometry d e in
        subs ← mapM (sub_boom_info fuel d)
          (List.filter (fun s => has_type DeviceElementType.Function_ s
                                 && (det_parent_id s =? det_id e)) (dd_elements d));
        Some (default 0 (eg_x offsets), default 0 (eg_y offsets), subs)
    | None => Some (0, offset_y, [])
    end;
  let sections := section_info d <$> List.filter (fun e =>
    has_type DeviceElementType.Section_ e
    && match boom with Some b => det_parent_id e =? det_id b | None => true end)
    (dd_elements d) in
  total ← sum_i32 0 (sec_width_mm <$> sections);
  Some (mkGeometry connector_x offset_x offset_y total sections sub_booms).

(** ** What the rate collection returns *)

(** The identifiers a list of child references reaches through elements. *)
Inductive reaches (d : DDOP) : list Z -> Z -> Prop :=
| reaches_here ids c : c ∈ ids -> reaches d ids c
| reaches_below ids c e x :
    c ∈ ids -> List.find (fun e => det_id e =? c) (dd_elements d) = Some e ->
    reaches d (det_child_objects e) x -> reaches d ids x.

(** The rate entries of the objects with one identifier. *)
Definition rate_of (d : DDOP) (x : Z) (r : RateInfo) : Prop :=
  (exists pd, pd ∈ dd_process_data d /\ dpd_id pd = x /\ ddi_is_rate (dpd_ddi pd) = true /\
    r = rate_info_for_process_data pd) \/
  (exists p, p ∈ dd_properties d /\ dpt_id p = x /\ ddi_is_rate (dpt_ddi p) = true /\
    r = rate_info_for_property p).

Section collect.
Context (d : DDOP).

Definition rates_at (c : Z) : list RateInfo :=
  (rate_info_for_process_data <$>
     List.filter (fun pd => (dpd_id pd =? c) && ddi_is_rate (dpd_ddi pd)) (dd_process_data d))
  ++ (rate_info_for_property <$>
     List.filter (fun p => (dpt_id p =? c) && ddi_is_rate (dpt_ddi p)) (dd_properties d)).

Lemma rates_at_spec c r : r ∈ rates_at c <-> rate_of d c r.
Proof.
  unfold rates_at, rate_of. rewrite elem_of_app, !list_elem_of_fmap. f_equiv; split.
  - intros (pd & -> & (Hin & [Hid Hr]%andb_true_iff)%list_elem_of_In%filter_In).
    exists pd. apply Z.eqb_eq in Hid. apply list_elem_of_In in Hin. done.
  - intros (pd & Hin & <- & Hr & ->). exists pd. split; [done|].
    apply list_elem_of_In, filter_In. split; [by apply list_elem_of_In|]. by rewrite Z.eqb_refl.
  - intros (p & -> & (Hin & [Hid Hr]%andb_true_iff)%list_elem_of_In%filter_In).
    exists p. apply Z.eqb_eq in Hid. apply list_elem_of_In in Hin. done.
  - intros (p & Hin & <- & Hr & ->). exists p. split; [done|].
    apply list_elem_of_In, filter_In. split; [by apply list_elem_of_In|]. by rewrite Z.eqb_refl.
Qed.

(** One child: its own entries, then those below it. *)
Definition collect_child (fuel : nat) (c : Z) (rates : list RateInfo) : option (list RateInfo) :=
  match List.find (fun e => det_id e =? c) (dd_elements d) with
  | Some e => collect_rates_for_children fuel d (det_child_objects e) (rates ++ rates_at c)
  | None => Some (rates ++ rates_at c)
  end.

Lemma collect_None fuel ids :
  foldl (fun rates c => rates ← rates; collect_child fuel c rates) None ids = None.
Proof. by induction ids. Qed.

Lemma collect_unfold fuel ids rates :
  collect_rates_for_children (S fuel) d ids rates
  = foldl (fun rates c => rates ← rates; collect_child fuel c rates) (Some rates) ids.
Proof. reflexivity. Qed.

Lemma collect_spec fuel ids rates out :
  collect_rates_for_children fuel d ids rates = Some out ->
  exists more, out = rates ++ more /\
    forall r, r ∈ more <-> exists x, reaches d ids x /\ rate_of d x r.
Proof.
  revert ids rates out. induction fuel as [|fuel IH]; intros ids rates out; [done|].
  rewrite collect_unfold. revert rates. induction ids as [|c ids IHids]; intros rates.
  - intros [= <-]. exists []. rewrite app_nil_r. split; [done|]. intros r. split.
    + by intros ?%not_elem_of_nil.
    + intros (x & Hx & _). inversion Hx; subst; by apply not_elem_of_nil in H.
  - cbn [foldl]. change (Some rates ≫= _) with (collect_child fuel c rates).
    destruct (collect_child fuel c rates) as [rates'|] eqn:E; [|by rewrite collect_None].
    intros H. apply IHids in H as (more & -> & Hmore).
    assert (Hc : exists more', rates' = rates ++ more' /\
      forall r, r ∈ more' <-> exists x, reaches d [c] x /\ rate_of d x r).
    { unfold collect_child in E.
      destruct (List.find _ (dd_elements d)) as [e|] eqn:Ee.
      - apply IH in E as (more' & -> & Hm). exists (rates_at c ++ more').
        split; [by rewrite app_assoc|]. intros r. rewrite elem_of_app, rates_at_spec, Hm. split.
        + intros [Hr|(x & Hx & Hr)].
          * exists c. split; [apply reaches_here, list_elem_of_here|done].
          * exists x. split; [|done]. by eapply reaches_below; [apply list_elem_of_here|..].
        + intros (x & Hx & Hr). inversion Hx as [? ? Hin|? c' e' ? Hin He' Hb]; subst.
          * apply list_elem_of_singleton in Hin as ->. by left.
          * apply list_elem_of_singleton in Hin as ->. right. exists x.
            rewrite Ee in He'. by injection He' as <-.
      - injection E as <-. exists (rates_at c). split; [done|]. intros r.
        rewrite rates_at_spec. split.
        + intros Hr. exists c. split; [apply reaches_here, list_elem_of_here|done].
        + intros (x & Hx & Hr). inversion Hx as [? ? Hin|? c' e' ? Hin He' Hb]; subst.
          * by apply list_elem_of_singleton in Hin as ->.
          * apply list_elem_of_singleton in Hin as ->. congruence. }
    destruct Hc as (more' & -> & Hm). exists (more' ++ more).
    split; [by rewrite app_assoc|]. intros r. rewrite elem_of_app, Hm, Hmore. split.
    + intros [(x & Hx & Hr)|(x & Hx & Hr)]; exists x; (split; [|done]).
      * inversion Hx as [? ? Hin|? c' e' ? Hin He' Hb]; subst;
          apply list_elem_of_singleton in Hin as ->; [apply reaches_here|eapply reaches_below];
          eauto using list_elem_of_here.
      * inversion Hx; subst; [apply reaches_here|eapply reaches_below];
          eauto using list_elem_of_further.
    + intros (x & Hx & Hr). inversion Hx as [? ? Hin|? c' e' ? Hin He' Hb]; subst;
        apply elem_of_cons in Hin as [->|Hin].
      * left. exists c. split; [apply reaches_here, list_elem_of_here|done].
      * right. exists x. split; [by apply reaches_here|done].
      * left. exists x. split; [|done]. eapply reaches_below; eauto using list_elem_of_here.
      * right. exists x. split; [|done]. by eapply reaches_below.
Qed.

(** The child relation goes down in [rank]. *)
Definition ranked (rank : Z -> nat) : Prop :=
  forall e c, e ∈ dd_elements d -> c ∈ det_child_objects e ->
    (rank c < rank (det_id e))%nat.

Lemma collect_terminates rank fuel ids rates :
  ranked rank -> (forall c, c ∈ ids -> (rank c + 2 <= fuel)%nat) -> (0 < fuel)%nat ->
  is_Some (collect_rates_for_children fuel d ids rates).
Proof.
  intros Hrank. revert ids rates. induction fuel as [|fuel IH]; intros ids rates Hids Hf; [lia|].
  rewrite collect_unfold. revert rates.
  induction ids as [|c ids IHids]; intros rates; [by eexists|].
  cbn [foldl]. change (Some rates ≫= _) with (collect_child fuel c rates).
  pose proof (Hids c (list_elem_of_here _ _)) as Hc.
  assert (Hs : is_Some (collect_child fuel c rates)).
  { unfold collect_child. destruct (List.find _ _) as [e|] eqn:E; [|by eexists].
    apply find_some in E as [He%list_elem_of_In Hid]. apply Z.eqb_eq in Hid as <-.
    apply IH; [|lia]. intros c' Hc'. specialize (Hrank e c' He Hc'). lia. }
  destruct Hs as [rates' ->]. apply IHids. intros c' Hc'. apply Hids.
  by apply list_elem_of_further.
Qed.
End collect.

(** On a pool whose child references go down in some rank the collection ends, and it returns
    exactly the rate entries of the objects reached from the element. *)
Theorem rates_tree_spec d rank e :
  ranked d rank -> e ∈ dd_elements d ->
  exists rates, rates_for_element_tree (rank (det_id e) + 1) d e = Some rates /\
    forall r, r ∈ rates <-> exists x, reaches d (det_child_objects e) x /\ rate_of d x r.
Proof.
  intros Hrank He.
  destruct (collect_terminates d rank (rank (det_id e) + 1) (det_child_objects e) [] Hrank)
    as [rates Hrates]; [|lia|].
  - intros c Hc. specialize (Hrank e c He Hc). lia.
  - exists rates. split; [done|]. by apply collect_spec in Hrates as (more & -> & Hmore).
Qed.

Lemma rates_tree_spec_witness : exists rates,
  rates_for_element_tree 2 sample_pool
    (mkElement 1 DeviceElementType.Device 0 0 sample_text [2; 3]) = Some rates.
Proof.
  destruct (rates_tree_spec sample_pool (fun x => if x =? 1 then 1%nat else 0%nat)
    (mkElement 1 DeviceElementType.Device 0 0 sample_text [2; 3])) as (rates & H & _).
  - intros e c He Hc. apply list_elem_of_singleton in He as ->. cbn in Hc |- *.
    apply list_elem_of_In in Hc. destruct Hc as [<-|[<-|[]]]; cbn; lia.
  - apply list_elem_of_here.
  - exists rates. exact H.
Defined.

(** ** A cycle of child references *)

(** Two elements that list each other: element 3 is a sub-boom of the boom 2. *)
Definition cyclic_pool : DDOP :=
  mkDdop (dd_devices sample_pool)
    [mkElement 1 DeviceElementType.Device 0 0 [] [];
     mkElement 2 DeviceElementType.Function_ 1 1 [] [];
     mkElement 3 DeviceElementType.Function_ 2 2 [] [4];
     mkElement 4 DeviceElementType.Unit_ 3 3 [] [3]] [] [] [] 5.

Lemma collect_cyclic fuel rates :
  collect_rates_for_children fuel cyclic_pool [4] rates = None /\
  collect_rates_for_children fuel cyclic_pool [3] rates = None.
Proof.
  revert rates. induction fuel as [|fuel IH]; intros rates; [done|].
  rewrite !collect_unfold. cbn [foldl]. split.
  - change (Some rates ≫= _) with (collect_child cyclic_pool fuel 4 rates).
    unfold collect_child. cbn -[collect_rates_for_children rates_at]. apply IH.
  - change (Some rates ≫= _) with (collect_child cyclic_pool fuel 3 rates).
    unfold collect_child. cbn -[collect_rates_for_children rates_at]. apply IH.
Qed.

(** Validation and the wire format let a cycle of child references through, and extracting the
    geometry of such a pool does not end, whatever the fuel. *)
Theorem ddop_cycle_diverges :
  validate cyclic_pool = Ok tt /\
  (exists bs, ddop_serialize_for_version 4 cyclic_pool = Ok bs /\
     deserialize bs = Some (Ok cyclic_pool)) /\
  forall fuel, extract_geometry fuel cyclic_pool = None.
Proof.
  split; [by vm_compute|]. split; [eexists; split; [reflexivity|]; by vm_compute|].
  intros fuel. unfold extract_geometry.
  assert (find_type DeviceElementType.Connector cyclic_pool = None) as -> by by vm_compute.
  assert (find_type DeviceElementType.Function_ cyclic_pool
    = Some (mkElement 2 DeviceElementType.Function_ 1 1 [] [])) as -> by by vm_compute.
  cbv zeta beta iota.
  assert (List.filter (fun s => has_type DeviceElementType.Function_ s
      && (det_parent_id s =? det_id (mkElement 2 DeviceElementType.Function_ 1 1 [] [])))
      (dd_elements cyclic_pool) = [mkElement 3 DeviceElementType.Function_ 2 2 [] [4]]) as ->
    by by vm_compute.
  cbn [mapM]. unfold sub_boom_info, rates_for_element_tree. cbn [det_child_objects].
  by rewrite (proj1 (collect_cyclic fuel [])).
Qed.

(** ** Section widths *)

(** The values a list of properties gives for one child under one dictionary number. *)
Definition child_values (d : DDOP) (ddi cid : Z) : list Z :=
  dpt_value <$> List.filter (fun p => is_child cid p && (dpt_ddi p =? ddi)) (dd_properties d).

Lemma foldl_last_match {A} (f : A -> bool) (g : A -> Z) l w :
  foldl (fun w p => if f p then Some (g p) else w) w l
  = match last (g <$> List.filter f l) with Some x => Some x | None => w end.
Proof.
  revert w. induction l as [|x l IH]; intros w; [done|]. cbn. rewrite IH.
  destruct (f x); [|done]. cbn [fmap list_fmap]. rewrite last_cons.
  by destruct (last _).
Qed.

Lemma foldl_first_match {A} (f : A -> bool) (g : A -> Z) l w :
  foldl (fun w p => if f p && match w with None => true | Some _ => false end
                    then Some (g p) else w) w l
  = match w with Some x => Some x | None => head (g <$> List.filter f l) end.
Proof.
  revert w. induction l as [|x l IH]; intros w; cbn; [by destruct w|]. rewrite IH.
  destruct w; [by rewrite andb_false_r|]. rewrite andb_true_r. by destruct (f x).
Qed.

Lemma width_step_eq d w cid :
  width_step d w cid =
  match last (child_values d ddi.ACTUAL_WORKING_WIDTH cid), w with
  | Some x, _ => Some x
  | None, Some x => Some x
  | None, None => head (child_values d ddi.MAXIMUM_WORKING_WIDTH cid)
  end.
Proof.
  unfold width_step, child_values.
  rewrite (foldl_last_match (fun p => is_child cid p && (dpt_ddi p =? ddi.ACTUAL_WORKING_WIDTH))
             dpt_value).
  rewrite (foldl_first_match (fun p => is_child cid p && (dpt_ddi p =? ddi.MAXIMUM_WORKING_WIDTH))
             dpt_value).
  destruct (last _); [done|]. by destruct w.
Qed.

(** A section is as wide as its last actual working width; without one, as its first maximum
    working width. *)
Theorem section_width_spec d e :
  sec_width (section_info d e) =
  match last (det_child_objects e ≫= child_values d ddi.ACTUAL_WORKING_WIDTH) with
  | Some w => Some w
  | None => head (det_child_objects e ≫= child_values d ddi.MAXIMUM_WORKING_WIDTH)
  end.
Proof.
  cbn [sec_width section_info].
  assert (H : forall cs w, foldl (width_step d) w cs =
    match last (cs ≫= child_values d ddi.ACTUAL_WORKING_WIDTH), w with
    | Some x, _ => Some x
    | None, Some x => Some x
    | None, None => head (cs ≫= child_values d ddi.MAXIMUM_WORKING_WIDTH)
    end).
  { induction cs as [|c cs IH]; intros w; [by destruct w|].
    cbn [foldl mbind list_bind]. rewrite IH, last_app, width_step_eq.
    destruct (last (mbind _ cs)); [done|].
    destruct (last (child_values d ddi.ACTUAL_WORKING_WIDTH c)); [done|].
    destruct w; [done|]. by destruct (child_values d ddi.MAXIMUM_WORKING_WIDTH c). }
  rewrite H. by destruct (last _).
Qed.
