(* ===== verification/TcTypes.v ===== *)
(** Task controller messages: the model of [src/isobus/tc/server_options.rs],
    [src/isobus/tc/peer_control.rs] and the command codes and payload builders the client and
    the server share. *)
From stdpp Require Import pretty.
From S2P Require Export DdopProps Requests AddressClaim.

Definition PGN_WORKING_SET_MASTER : Pgn := 0xFE0D.
Definition PGN_TC_TO_ECU : Pgn := 0xCB00.
Definition PGN_ECU_TO_TC : Pgn := 0xCC00.

Module tc_cmd.
Definition VERSION_REQUEST : Z := 0x00.
Definition VERSION_RESPONSE : Z := 0x10.
Definition REQUEST_STRUCTURE_LABEL : Z := 0x01.
Definition STRUCTURE_LABEL : Z := 0x11.
Definition REQUEST_LOCALIZATION_LABEL : Z := 0x21.
Definition LOCALIZATION_LABEL : Z := 0x31.
Definition OBJECT_POOL_TRANSFER : Z := 0x61.
Definition OBJECT_POOL_RESPONSE : Z := 0x71.
Definition ACTIVATE_POOL : Z := 0x81.
Definition ACTIVATE_RESPONSE : Z := 0x91.
Definition DELETE_POOL : Z := 0xA1.
Definition DELETE_POOL_RESPONSE : Z := 0xB1.
Definition REQUEST_OBJECT_POOL : Z := 0x41.
Definition REQUEST_OBJECT_POOL_RESPONSE : Z := 0x51.
Definition REQUEST_TC_IDENTIFICATION : Z := 0x20.
Definition TC_STATUS : Z := 0xFE.
End tc_cmd.

Module ObjectPoolActivationError.
Inductive t : Type :=
| NoErrors | ThereAreErrorsInTheDDOP | TaskControllerRanOutOfMemoryDuringActivation
| AnyOtherError | DifferentDDOPExistsWithSameStructureLabel.
#[global] Instance eq_dec : EqDecision t.
Proof. solve_decision. Defined.
Definition as_u8 (x : t) : Z :=
  match x with
  | NoErrors => 0x00 | ThereAreErrorsInTheDDOP => 0x01
  | TaskControllerRanOutOfMemoryDuringActivation => 0x02 | AnyOtherError => 0x04
  | DifferentDDOPExistsWithSameStructureLabel => 0x08
  end.
Definition from_u8 (v : Z) : t :=
  match v with
  | 0x01 => ThereAreErrorsInTheDDOP | 0x02 => TaskControllerRanOutOfMemoryDuringActivation
  | 0x04 => AnyOtherError | 0x08 => DifferentDDOPExistsWithSameStructureLabel
  | _ => NoErrors
  end.
Definition try_from_u8 (v : Z) : option t :=
  match v with
  | 0x00 => Some NoErrors | 0x01 => Some ThereAreErrorsInTheDDOP
  | 0x02 => Some TaskControllerRanOutOfMemoryDuringActivation | 0x04 => Some AnyOtherError
  | 0x08 => Some DifferentDDOPExistsWithSameStructureLabel
  | _ => None
  end.
End ObjectPoolActivationError.

Module ObjectPoolErrorCodes.
Inductive t : Type :=
| NoErrors | MethodOrAttributeNotSupported | UnknownObjectReference | AnyOtherError
| DDOPWasDeletedFromVolatileMemory.
Definition as_u8 (x : t) : Z :=
  match x with
  | NoErrors => 0x00 | MethodOrAttributeNotSupported => 0x01 | UnknownObjectReference => 0x02
  | AnyOtherError => 0x04 | DDOPWasDeletedFromVolatileMemory => 0x08
  end.
Definition from_u8 (v : Z) : t :=
  match v with
  | 0x01 => MethodOrAttributeNotSupported | 0x02 => UnknownObjectReference
  | 0x04 => AnyOtherError | 0x08 => DDOPWasDeletedFromVolatileMemory
  | _ => NoErrors
  end.
Definition try_from_u8 (v : Z) : option t :=
  match v with
  | 0x00 => Some NoErrors | 0x01 => Some MethodOrAttributeNotSupported
  | 0x02 => Some UnknownObjectReference | 0x04 => Some AnyOtherError
  | 0x08 => Some DDOPWasDeletedFromVolatileMemory
  | _ => None
  end.
End ObjectPoolErrorCodes.

Module ObjectPoolDeletionErrors.
Inductive t : Type :=
| ObjectPoolIsReferencedByTaskData | ServerCannotCheckForObjectPoolReferences
| ErrorDetailsNotAvailable.
Definition as_u8 (x : t) : Z :=
  match x with
  | ObjectPoolIsReferencedByTaskData => 0
  | ServerCannotCheckForObjectPoolReferences => 1
  | ErrorDetailsNotAvailable => 0xFF
  end.
Definition from_u8 (v : Z) : t :=
  match v with
  | 1 => ServerCannotCheckForObjectPoolReferences | 0xFF => ErrorDetailsNotAvailable
  | _ => ObjectPoolIsReferencedByTaskData
  end.
Definition try_from_u8 (v : Z) : option t :=
  match v with
  | 0 => Some ObjectPoolIsReferencedByTaskData | 1 => Some
  ServerCannotCheckForObjectPoolReferences | 0xFF => Some ErrorDetailsNotAvailable
  | _ => None
  end.
End ObjectPoolDeletionErrors.

Module ProcessDataCommands.
Inductive t : Type :=
| TechnicalCapabilities | DeviceDescriptor | RequestValue | Value | MeasurementTimeInterval
| MeasurementDistanceInterval | MeasurementMinimumWithinThreshold
| MeasurementMaximumWithinThreshold | MeasurementChangeThreshold | PeerControlAssignment
| SetValueAndAcknowledge | Acknowledge | Status | ClientTask.
#[global] Instance eq_dec : EqDecision t.
Proof. solve_decision. Defined.
Definition as_u8 (x : t) : Z :=
  match x with
  | TechnicalCapabilities => 0x00 | DeviceDescriptor => 0x01 | RequestValue => 0x02
  | Value => 0x03 | MeasurementTimeInterval => 0x04 | MeasurementDistanceInterval => 0x05
  | MeasurementMinimumWithinThreshold => 0x06 | MeasurementMaximumWithinThreshold => 0x07
  | MeasurementChangeThreshold => 0x08 | PeerControlAssignment => 0x09
  | SetValueAndAcknowledge => 0x0A | Acknowledge => 0x0D | Status => 0x0E | ClientTask => 0x0F
  end.
Definition try_from_u8 (v : Z) : option t :=
  match Z.land v 0x0F with
  | 0x00 => Some TechnicalCapabilities | 0x01 => Some DeviceDescriptor
  | 0x02 => Some RequestValue | 0x03 => Some Value | 0x04 => Some MeasurementTimeInterval
  | 0x05 => Some MeasurementDistanceInterval | 0x06 => Some MeasurementMinimumWithinThreshold
  | 0x07 => Some MeasurementMaximumWithinThreshold | 0x08 => Some MeasurementChangeThreshold
  | 0x09 => Some PeerControlAssignment | 0x0A => Some SetValueAndAcknowledge
  | 0x0D => Some Acknowledge | 0x0E => Some Status | 0x0F => Some ClientTask
  | _ => None
  end.
Definition from_u8 (v : Z) : t := default TechnicalCapabilities (try_from_u8 v).
(** [{:?}]. *)
Definition debug (x : t) : string :=
  match x with
  | TechnicalCapabilities => "TechnicalCapabilities" | DeviceDescriptor => "DeviceDescriptor"
  | RequestValue => "RequestValue" | Value => "Value"
  | MeasurementTimeInterval => "MeasurementTimeInterval"
  | MeasurementDistanceInterval => "MeasurementDistanceInterval"
  | MeasurementMinimumWithinThreshold => "MeasurementMinimumWithinThreshold"
  | MeasurementMaximumWithinThreshold => "MeasurementMaximumWithinThreshold"
  | MeasurementChangeThreshold => "MeasurementChangeThreshold"
  | PeerControlAssignment => "PeerControlAssignment"
  | SetValueAndAcknowledge => "SetValueAndAcknowledge" | Acknowledge => "Acknowledge"
  | Status => "Status" | ClientTask => "ClientTask"
  end.
Definition priority (x : t) : Priority.t :=
  match x with
  | Value | SetValueAndAcknowledge | Status | ClientTask => Priority.Normal
  | Acknowledge => Priority.BelowNormal
  | _ => Priority.Low
  end.
Definition priority_for_payload (data : list Z) : Priority.t :=
  match data with
  | first :: _ => match try_from_u8 first with Some c => priority c | None => Priority.Low end
  | [] => Priority.Low
  end.
End ProcessDataCommands.

Module ServerOptions.
Inductive t : Type :=
| SupportsDocumentation | SupportsTCGEOWithoutPositionBasedControl
| SupportsTCGEOWithPositionBasedControl | SupportsPeerControlAssignment
| SupportsImplementSectionControl.
Definition bit (x : t) : Z :=
  match x with
  | SupportsDocumentation => 0x01 | SupportsTCGEOWithoutPositionBasedControl => 0x02
  | SupportsTCGEOWithPositionBasedControl => 0x04 | SupportsPeerControlAssignment => 0x08
  | SupportsImplementSectionControl => 0x10
  end.
End ServerOptions.

Definition TC_SERVER_OPTIONS_KNOWN_MASK : Z :=
  foldr Z.lor 0 (ServerOptions.bit <$>
    [ServerOptions.SupportsDocumentation; ServerOptions.SupportsTCGEOWithoutPositionBasedControl;
     ServerOptions.SupportsTCGEOWithPositionBasedControl;
     ServerOptions.SupportsPeerControlAssignment; ServerOptions.SupportsImplementSectionControl]).
Definition tc_options_byte_is_valid (options : Z) : bool :=
  Z.land options (not_u 8 TC_SERVER_OPTIONS_KNOWN_MASK) =? 0.

Module AckError.
Inductive t : Type :=
| NoError | ElementNotSupportedByThisDevice | ValueIsOutsideValidRange
| NoProcessingResourcesAvailable | DDEXValueNotSupported.
Definition as_u8 (x : t) : Z :=
  match x with
  | NoError => 0x00 | ElementNotSupportedByThisDevice => 0x01 | ValueIsOutsideValidRange => 0x02
  | NoProcessingResourcesAvailable => 0x03 | DDEXValueNotSupported => 0x04
  end.
Definition from_u8 (v : Z) : t :=
  match v with
  | 0x01 => ElementNotSupportedByThisDevice | 0x02 => ValueIsOutsideValidRange
  | 0x03 => NoProcessingResourcesAvailable | 0x04 => DDEXValueNotSupported
  | _ => NoError
  end.
Definition try_from_u8 (v : Z) : option t :=
  match v with
  | 0x00 => Some NoError | 0x01 => Some ElementNotSupportedByThisDevice
  | 0x02 => Some ValueIsOutsideValidRange | 0x03 => Some NoProcessingResourcesAvailable
  | 0x04 => Some DDEXValueNotSupported
  | _ => None
  end.
End AckError.

Module TCServerState.
Inductive t : Type := Disconnected | WaitForClients | Active.
#[global] Instance eq_dec : EqDecision t.
Proof. solve_decision. Defined.
End TCServerState.

(** ** Payload tests *)

Definition has_ff_tail (data : list Z) (used : nat) : bool :=
  forallb (fun b => b =? 0xFF) (drop used data).
Definition is_padded_fixed8 (data : list Z) (used : nat) : bool :=
  (length data =? 8)%nat && has_ff_tail data used.
Definition version_response_is_canonical (data : list Z) : bool :=
  match data with
  | [_; _; _; d3; d4; _; _; _] => tc_options_byte_is_valid d3 && (d4 =? 0x00)
  | _ => false
  end.
Definition fixed_mux_payload (mux : Z) : list Z := mux :: replicate 7 0xFF.

(** ** Process data *)

(** Bytes 1 to 4: the command nibble, the 12-bit element number and the dictionary number. *)
Definition process_data_head (command : ProcessDataCommands.t) (element ddi : Z) : list Z :=
  [Z.lor (Z.land (ProcessDataCommands.as_u8 command) 0x0F)
     (wrap 8 (Z.shiftl (Z.land (wrap 8 element) 0x0F) 4));
   Z.land (Z.shiftr element 4) 0xFF; Z.land ddi 0xFF; Z.land (Z.shiftr ddi 8) 0xFF].

Definition encode_process_data_ack (elem_raw ddi_raw : Z) (error : AckError.t) : list Z :=
  process_data_head ProcessDataCommands.Acknowledge elem_raw ddi_raw
  ++ [AckError.as_u8 error; 0xFF; 0xFF; 0xFF].

Definition element_too_large (element : Z) : Error.t :=
  Error.invalid_data ("TC process-data element " +:+ pretty element
                      +:+ " exceeds 12-bit wire maximum 4095").
Definition encode_process_data_payload_bytes (command : ProcessDataCommands.t)
    (element ddi : Z) (value : option (list Z)) : Result (list Z) Error.t :=
  if MAX_PROCESS_DATA_ELEMENT_NUMBER <? element then Err (element_too_large element)
  else Ok (process_data_head command element ddi ++ default (replicate 4 0xFF) value).
Definition encode_process_data_payload (command : ProcessDataCommands.t)
    (element ddi : Z) (value : option Z) : Result (list Z) Error.t :=
  encode_process_data_payload_bytes command element ddi (i32_le <$> value).
Definition encode_process_data_payload_u32 (command : ProcessDataCommands.t)
    (element ddi value : Z) : Result (list Z) Error.t :=
  encode_process_data_payload_bytes command element ddi (Some (Name.to_le_bytes 4 value)).

(** [elem_raw] and [ddi_raw] of a received frame. *)
Definition element_of (d0 d1 : Z) : Z := Z.lor (Z.land (Z.shiftr d0 4) 0x0F) (Z.shiftl d1 4).
Definition ddi_of (d2 d3 : Z) : Z := Z.lor d2 (Z.shiftl d3 8).

(** ** Peer control *)

Definition MAX_PEER_CONTROL_SOURCE_ELEMENT : Z := 0x0FFF.

Record PeerControlAssignment : Type := mkPeer {
  pc_source_element : Z;
  pc_source_ddi : Z;
  pc_destination_element : Z;
  pc_destination_ddi : Z;
  pc_source_address : Address;
  pc_destination_address : Address;
  pc_active : bool
}.

Definition PeerControlAssignment_default : PeerControlAssignment :=
  mkPeer 0 0 0 0 NULL_ADDRESS NULL_ADDRESS false.
Definition peer_from (elem ddi : Z) (a : PeerControlAssignment) : PeerControlAssignment :=
  mkPeer elem ddi (pc_destination_element a) (pc_destination_ddi a) (pc_source_address a)
    (pc_destination_address a) (pc_active a).
Definition peer_to (elem ddi : Z) (a : PeerControlAssignment) : PeerControlAssignment :=
  mkPeer (pc_source_element a) (pc_source_ddi a) elem ddi (pc_source_address a)
    (pc_destination_address a) (pc_active a).
Definition peer_with_source (addr : Address) (a : PeerControlAssignment) : PeerControlAssignment :=
  mkPeer (pc_source_element a) (pc_source_ddi a) (pc_destination_element a)
    (pc_destination_ddi a) addr (pc_destination_address a) (pc_active a).
Definition peer_with_destination (addr : Address) (a : PeerControlAssignment)
    : PeerControlAssignment :=
  mkPeer (pc_source_element a) (pc_source_ddi a) (pc_destination_element a)
    (pc_destination_ddi a) (pc_source_address a) addr (pc_active a).

Definition source_matches (a : PeerControlAssignment) (addr : Address) (element ddi : Z) : bool :=
  (pc_source_address a =? addr) && (pc_source_element a =? element) && (pc_source_ddi a =? ddi).

Definition validate_assignment (a : PeerControlAssignment) : Result unit Error.t :=
  if MAX_PEER_CONTROL_SOURCE_ELEMENT <? pc_source_element a then
    Err (Error.invalid_data "peer-control source element exceeds 12-bit wire field")
  else if pc_source_address a =? NULL_ADDRESS then
    Err (Error.invalid_address (pc_source_address a))
  else if pc_source_address a =? BROADCAST_ADDRESS then
    Err (Error.invalid_address (pc_source_address a))
  else if pc_destination_address a =? NULL_ADDRESS then
    Err (Error.invalid_address (pc_destination_address a))
  else if pc_destination_address a =? BROADCAST_ADDRESS then
    Err (Error.invalid_address (pc_destination_address a))
  else Ok tt.

Definition peer_encode_unchecked (a : PeerControlAssignment) : list Z :=
  process_data_head ProcessDataCommands.PeerControlAssignment (pc_source_element a)
    (pc_source_ddi a)
  ++ push_u16_le (pc_destination_element a) ++ push_u16_le (pc_destination_ddi a).
Definition peer_try_encode (a : PeerControlAssignment) : Result (list Z) Error.t :=
  let? _ := validate_assignment a in Ok (peer_encode_unchecked a).

Definition peer_decode (data : list Z) (source destination : Address)
    : Result PeerControlAssignment Error.t :=
  match data with
  | [d0; d1; d2; d3; d4; d5; d6; d7] =>
      if negb (Z.land d0 0x0F
               =? ProcessDataCommands.as_u8 ProcessDataCommands.PeerControlAssignment)
      then Err (Error.invalid_data "peer-control assignment command nibble is invalid")
      else
        let assignment :=
          mkPeer (Z.lor (Z.shiftr d0 4) (Z.shiftl d1 4)) (ddi_of d2 d3) (ddi_of d4 d5)
            (ddi_of d6 d7) source destination false in
        let? _ := validate_assignment assignment in
        Ok assignment
  | _ => Err (Error.invalid_data "peer-control assignment payload must be exactly 8 bytes")
  end.

(** The registry: its assignments, and the events its operations fire. *)
Inductive PeerEvent : Type :=
| PeerAdded (a : PeerControlAssignment)
| PeerRemoved (a : PeerControlAssignment)
| PeerStateChanged (a : PeerControlAssignment).
Definition peer_result : Type :=
  list PeerControlAssignment * list PeerEvent * Result unit Error.t.

Definition assignment_not_found : Error.t := Error.invalid_state "assignment not found".

Definition add_assignment (a : PeerControlAssignment) (l : list PeerControlAssignment)
    : peer_result :=
  match validate_assignment a with
  | Err e => (l, [], Err e)
  | Ok _ =>
      if existsb (fun x => source_matches x (pc_source_address a) (pc_source_element a)
                             (pc_source_ddi a)) l
      then (l, [], Err (Error.invalid_state "duplicate peer control assignment"))
      else (l ++ [a], [PeerAdded a], Ok tt)
  end.

(** The positions of the assignments with one source. *)
Fixpoint positions {A} (p : A -> bool) (i : nat) (l : list A) : list nat :=
  match l with
  | [] => []
  | x :: l => if p x then i :: positions p (S i) l else positions p (S i) l
  end.

Definition find_unique_source_position (element ddi : Z) (l : list PeerControlAssignment)
    : Result nat Error.t :=
  match positions (fun a => (pc_source_element a =? element) && (pc_source_ddi a =? ddi)) 0 l with
  | [] => Err assignment_not_found
  | [pos] => Ok pos
  | _ => Err (Error.invalid_state "assignment source is ambiguous; include source address")
  end.
Definition find_source_position (addr : Address) (element ddi : Z)
    (l : list PeerControlAssignment) : Result nat Error.t :=
  match position (fun a => source_matches a addr element ddi) l with
  | Some pos => Ok pos
  | None => Err assignment_not_found
  end.

(** [None] is the panic of an index out of range. *)
Definition remove_assignment_at (pos : nat) (l : list PeerControlAssignment)
    : option peer_result :=
  removed ← l !! pos; Some (take pos l ++ drop (S pos) l, [PeerRemoved removed], Ok tt).
Definition with_active (active : bool) (a : PeerControlAssignment) : PeerControlAssignment :=
  mkPeer (pc_source_element a) (pc_source_ddi a) (pc_destination_element a)
    (pc_destination_ddi a) (pc_source_address a) (pc_destination_address a) active.
Definition set_assignment_active (pos : nat) (active : bool) (l : list PeerControlAssignment)
    : option peer_result :=
  a ← l !! pos;
  Some (if Bool.eqb (pc_active a) active then (l, [], Ok tt)
        else (<[pos := with_active active a]> l, [PeerStateChanged (with_active active a)], Ok tt)).

Definition at_position (r : Result nat Error.t) (l : list PeerControlAssignment)
    (k : nat -> option peer_result) : option peer_result :=
  match r with Ok pos => k pos | Err e => Some (l, [], Err e) end.
Definition remove_assignment (element ddi : Z) (l : list PeerControlAssignment)
    : option peer_result :=
  at_position (find_unique_source_position element ddi l) l (fun pos => remove_assignment_at pos l).
Definition remove_assignment_from (addr : Address) (element ddi : Z)
    (l : list PeerControlAssignment) : option peer_result :=
  at_position (find_source_position addr element ddi l) l (fun pos => remove_assignment_at pos l).
Definition activate_assignment (element ddi : Z) (active : bool)
    (l : list PeerControlAssignment) : option peer_result :=
  at_position (find_unique_source_position element ddi l) l
    (fun pos => set_assignment_active pos active l).
Definition activate_assignment_from (addr : Address) (element ddi : Z) (active : bool)
    (l : list PeerControlAssignment) : option peer_result :=
  at_position (find_source_position addr element ddi l) l
    (fun pos => set_assignment_active pos active l).
Definition clear_assignments (l : list PeerControlAssignment) : peer_result :=
  ([], PeerRemoved <$> l, Ok tt).
