(* ===== verification/TcServer.v ===== *)
(** The task controller server: the model of
    [src/isobus/tc/server/tc_server_runtime.rs].

    The events the server fires are appended to [ts_trace].  The application's callbacks are
    arguments of the handlers, so a theorem about all of them covers callbacks with a state of
    their own.  [None] is a panic, or a loop that does not end. *)
From S2P Require Export TcTypes.

Definition TC_STATUS_INTERVAL_MS : Z := 2000.
Definition TC_CLIENT_TIMEOUT_MS : Z := 3 * TC_STATUS_INTERVAL_MS.
Definition MAX_TC_SERVER_SECTIONS : Z := 254.

Record MeasurementTriggerRuntime : Type := mkTrigger {
  mt_destination : Address;
  mt_element : Z;
  mt_ddi : Z;
  mt_trigger_methods : Z;
  mt_time_interval_ms : option Z;
  mt_distance_interval_mm : option Z;
  mt_minimum_threshold : option Z;
  mt_maximum_threshold : option Z;
  mt_change_threshold : option Z;
  mt_elapsed_ms : Z;
  mt_distance_mm : Z;
  mt_last_value : option Z;
  mt_last_requested_value : option Z
}.

Definition MeasurementTriggerRuntime_new (destination : Address) (element ddi : Z)
    : MeasurementTriggerRuntime :=
  mkTrigger destination element ddi 0 None None None None None 0 0 None None.
(** [NonZeroU32::new(x).map(NonZeroU32::get)]. *)
Definition non_zero (x : Z) : option Z := if x =? 0 then None else Some x.
Definition with_trigger (x : TriggerMethod.t) (t : MeasurementTriggerRuntime) :=
  let 'mkTrigger d e i m ti di mn mx ch el ds lv lr := t in
  mkTrigger d e i (Z.lor m (TriggerMethod.as_u8 x)) ti di mn mx ch el ds lv lr.
Definition with_time_interval_ms (x : Z) (t : MeasurementTriggerRuntime) :=
  let 'mkTrigger d e i m _ di mn mx ch el ds lv lr := t in
  mkTrigger d e i m (non_zero x) di mn mx ch el ds lv lr.
Definition with_distance_interval_mm (x : Z) (t : MeasurementTriggerRuntime) :=
  let 'mkTrigger d e i m ti _ mn mx ch el ds lv lr := t in
  mkTrigger d e i m ti (non_zero x) mn mx ch el ds lv lr.
Definition with_minimum_threshold (x : Z) (t : MeasurementTriggerRuntime) :=
  let 'mkTrigger d e i m ti di _ mx ch el ds lv lr := t in
  mkTrigger d e i m ti di (Some x) mx ch el ds lv lr.
Definition with_maximum_threshold (x : Z) (t : MeasurementTriggerRuntime) :=
  let 'mkTrigger d e i m ti di mn _ ch el ds lv lr := t in
  mkTrigger d e i m ti di mn (Some x) ch el ds lv lr.
Definition with_change_threshold (x : Z) (t : MeasurementTriggerRuntime) :=
  let 'mkTrigger d e i m ti di mn mx _ el ds lv lr := t in
  mkTrigger d e i m ti di mn mx (non_zero x) el ds lv lr.

Record TCClientInfo : Type := mkClientInfo {
  ci_address : Address;
  ci_ddop : DDOP;
  ci_pool_activated : bool;
  ci_last_ddop_transfer : list Z;
  ci_last_status_ms : Z;
  ci_tc_version : Z;
  ci_tc_options : Z;
  ci_tc_booms : Z;
  ci_tc_sections : Z;
  ci_tc_channels : Z;
  ci_task_totals_active : bool
}.
Definition TCClientInfo_new (addr : Address) : TCClientInfo :=
  mkClientInfo addr DDOP_default false [] 0 0 0 0 0 0 false.

Record TCServerConfig : Type := mkServerConfig {
  tsc_tc_number : Z;
  tsc_tc_version : Z;
  tsc_num_booms : Z;
  tsc_num_sections : Z;
  tsc_num_channels : Z;
  tsc_server_options : Z
}.
Definition TCServerConfig_default : TCServerConfig := mkServerConfig 0 4 0 0 0 0.

Record TCOutbound : Type := mkOut { out_pgn : Pgn; out_data : list Z; out_dest : option Address }.
Definition out_broadcast (data : list Z) : TCOutbound := mkOut PGN_TC_TO_ECU data None.
Definition out_to (data : list Z) (dest : Address) : TCOutbound :=
  mkOut PGN_TC_TO_ECU data (Some dest).

Inductive TcsEvent : Type :=
| TcsStateChange (s : TCServerState.t)
| TcsClientConnected (a : Address)
| TcsClientDisconnected (a : Address)
| TcsActivationError (e : ObjectPoolActivationError.t)
| TcsClientVersion (a : Address) (version : Z)
| TcsPeerControl (a : PeerControlAssignment).

(** Byte 5 to 7 of the status message. *)
Record TcsFlags : Type := mkFlags {
  fl_task_totals_active : bool;
  fl_nvm_write_busy : bool;
  fl_nvm_read_busy : bool;
  fl_out_of_memory : bool;
  fl_command_busy : bool;
  fl_command_source : Address;
  fl_command_byte : Z
}.

Record TaskControllerServer : Type := mkServer {
  ts_config : TCServerConfig;
  ts_machine : StateMachine.t TCServerState.t;
  ts_clients : list TCClientInfo;
  ts_status_timer_ms : Z;
  ts_structure_label : list Z;
  ts_localization_label : list Z;
  ts_flags : TcsFlags;
  ts_triggers : list MeasurementTriggerRuntime;
  ts_trace : list TcsEvent
}.

Definition ts_with_machine (x : StateMachine.t TCServerState.t) (s : TaskControllerServer) :=
  let 'mkServer g _ c st sl ll f t tr := s in mkServer g x c st sl ll f t tr.
Definition ts_with_clients (x : list TCClientInfo) (s : TaskControllerServer) :=
  let 'mkServer g m _ st sl ll f t tr := s in mkServer g m x st sl ll f t tr.
Definition ts_with_timer (x : Z) (s : TaskControllerServer) :=
  let 'mkServer g m c _ sl ll f t tr := s in mkServer g m c x sl ll f t tr.
Definition set_structure_label (x : list Z) (s : TaskControllerServer) :=
  let 'mkServer g m c st _ ll f t tr := s in mkServer g m c st x ll f t tr.
Definition set_localization_label (x : list Z) (s : TaskControllerServer) :=
  let 'mkServer g m c st sl _ f t tr := s in mkServer g m c st sl x f t tr.
Definition ts_with_flags (x : TcsFlags) (s : TaskControllerServer) :=
  let 'mkServer g m c st sl ll _ t tr := s in mkServer g m c st sl ll x t tr.
Definition ts_with_triggers (x : list MeasurementTriggerRuntime) (s : TaskControllerServer) :=
  let 'mkServer g m c st sl ll f _ tr := s in mkServer g m c st sl ll f x tr.
Definition ts_emit (e : TcsEvent) (s : TaskControllerServer) :=
  let 'mkServer g m c st sl ll f t tr := s in mkServer g m c st sl ll f t (tr ++ [e]).

Definition ts_state (s : TaskControllerServer) : TCServerState.t :=
  StateMachine.state (ts_machine s).

Definition TaskControllerServer_new (config : TCServerConfig) : TaskControllerServer :=
  mkServer config (StateMachine.mk TCServerState.Disconnected) [] 0 (replicate 7 0xFF)
    (replicate 7 0xFF) (mkFlags false false false false false 0 0) [] [].

(** ** State, clients and flags *)

Definition ts_transition (new_state : TCServerState.t) (s : TaskControllerServer) :=
  if bool_decide (ts_state s = new_state) then s
  else ts_emit (TcsStateChange new_state)
         (ts_with_machine (StateMachine.transition (ts_machine s) new_state).1 s).

Definition server_config_validate (g : TCServerConfig) : Result unit Error.t :=
  if negb (tc_options_byte_is_valid (tsc_server_options g)) then
    Err (Error.invalid_data "TCServerConfig: server_options contains reserved bits")
  else if tsc_num_booms g =? 0 then
    Err (Error.invalid_data "TCServerConfig: num_booms must be greater than zero")
  else if (tsc_num_sections g =? 0) || (MAX_TC_SERVER_SECTIONS <? tsc_num_sections g) then
    Err (Error.invalid_data "TCServerConfig: num_sections must be in 1..=254")
  else Ok tt.

Definition server_start (s : TaskControllerServer) : TaskControllerServer * Result unit Error.t :=
  let g := ts_config s in
  if negb (tc_options_byte_is_valid (tsc_server_options g)) then
    (s, Err (Error.invalid_data "TC server_options contains reserved bits"))
  else if tsc_num_booms g =? 0 then
    (s, Err (Error.invalid_data "TC server num_booms must be greater than zero"))
  else if (tsc_num_sections g =? 0) || (MAX_TC_SERVER_SECTIONS <? tsc_num_sections g) then
    (s, Err (Error.invalid_data "TC server num_sections must be in 1..=254"))
  else (ts_transition TCServerState.WaitForClients s, Ok tt).
Definition server_stop (s : TaskControllerServer) : TaskControllerServer :=
  ts_with_clients [] (ts_transition TCServerState.Disconnected s).

Definition set_command_busy (busy : bool) (s : TaskControllerServer) :=
  let f := ts_flags s in
  ts_with_flags (mkFlags (fl_task_totals_active f) (fl_nvm_write_busy f) (fl_nvm_read_busy f)
    (fl_out_of_memory f) busy (if busy then fl_command_source f else 0)
    (if busy then fl_command_byte f else 0)) s.
Definition set_command_busy_for (source : Address) (command : Z) (s : TaskControllerServer) :=
  let f := ts_flags s in
  ts_with_flags (mkFlags (fl_task_totals_active f) (fl_nvm_write_busy f) (fl_nvm_read_busy f)
    (fl_out_of_memory f) true source command) s.
Definition set_task_totals_active (active : bool) (s : TaskControllerServer) :=
  let f := ts_flags s in
  ts_with_flags (mkFlags active (fl_nvm_write_busy f) (fl_nvm_read_busy f)
    (fl_out_of_memory f) (fl_command_busy f) (fl_command_source f) (fl_command_byte f)) s.
Definition set_nvm_busy (writing reading : bool) (s : TaskControllerServer) :=
  let f := ts_flags s in
  ts_with_flags (mkFlags (fl_task_totals_active f) writing reading
    (fl_out_of_memory f) (fl_command_busy f) (fl_command_source f) (fl_command_byte f)) s.
Definition set_out_of_memory (x : bool) (s : TaskControllerServer) :=
  let f := ts_flags s in
  ts_with_flags (mkFlags (fl_task_totals_active f) (fl_nvm_write_busy f) (fl_nvm_read_busy f)
    x (fl_command_busy f) (fl_command_source f) (fl_command_byte f)) s.

Definition encode_tc_status (s : TaskControllerServer) : list Z :=
  let f := ts_flags s in
  let status := Z.lor (if fl_task_totals_active f then 0x01 else 0)
    (Z.lor (if fl_nvm_write_busy f then 0x02 else 0)
    (Z.lor (if fl_nvm_read_busy f then 0x04 else 0)
    (Z.lor (if fl_command_busy f then 0x08 else 0)
           (if fl_out_of_memory f then 0x80 else 0)))) in
  [Z.lor 0xF0 (ProcessDataCommands.as_u8 ProcessDataCommands.Status); 0xFF; 0xFF; 0xFF; status;
   if fl_command_busy f then fl_command_source f else 0x00;
   if fl_command_busy f then fl_command_byte f else 0x00; 0xFF].

Definition is_client (addr : Address) (c : TCClientInfo) : bool := ci_address c =? addr.
Definition find_client (addr : Address) (s : TaskControllerServer) : option TCClientInfo :=
  List.find (is_client addr) (ts_clients s).

(** [find_client_mut] and an assignment: the first client with that address. *)
Fixpoint update_first (p : TCClientInfo -> bool) (f : TCClientInfo -> TCClientInfo)
    (l : list TCClientInfo) : list TCClientInfo :=
  match l with
  | [] => []
  | c :: l => if p c then f c :: l else c :: update_first p f l
  end.
Definition update_client (addr : Address) (f : TCClientInfo -> TCClientInfo)
    (s : TaskControllerServer) : TaskControllerServer :=
  ts_with_clients (update_first (is_client addr) f (ts_clients s)) s.

Definition ci_with_status (x : Z) (c : TCClientInfo) :=
  let 'mkClientInfo a d p t _ v o b s ch k := c in mkClientInfo a d p t x v o b s ch k.
Definition ci_with_activated (x : bool) (c : TCClientInfo) :=
  let 'mkClientInfo a d _ t st v o b s ch k := c in mkClientInfo a d x t st v o b s ch k.
Definition ci_with_pool (d : DDOP) (t : list Z) (c : TCClientInfo) :=
  let 'mkClientInfo a _ _ _ st v o b s ch k := c in mkClientInfo a d false t st v o b s ch k.
Definition ci_with_version (v o b s ch : Z) (c : TCClientInfo) :=
  let 'mkClientInfo a d p t st _ _ _ _ _ k := c in mkClientInfo a d p t st v o b s ch k.
Definition ci_with_totals (x : bool) (c : TCClientInfo) :=
  let 'mkClientInfo a d p t st v o b s ch _ := c in mkClientInfo a d p t st v o b s ch x.

Definition ensure_client (addr : Address) (s : TaskControllerServer) : TaskControllerServer :=
  match find_client addr s with
  | Some _ => update_client addr (ci_with_status 0) s
  | None =>
      let s := ts_with_clients (ts_clients s ++ [TCClientInfo_new addr]) s in
      let s := ts_emit (TcsClientConnected addr) s in
      if bool_decide (ts_state s = TCServerState.WaitForClients)
      then ts_transition TCServerState.Active s else s
  end.

Definition get_client_version (addr : Address) (s : TaskControllerServer) : Z :=
  match find_client addr s with Some c => ci_tc_version c | None => 0 end.
Definition request_client_version (addr : Address) (s : TaskControllerServer)
    : option TCOutbound :=
  if existsb (is_client addr) (ts_clients s)
  then Some (out_to (tc_cmd.VERSION_REQUEST :: replicate 7 0xFF) addr) else None.

(** ** Measurements *)

Definition build_request_value (element ddi : Z) : Result (list Z) Error.t :=
  encode_process_data_payload ProcessDataCommands.RequestValue element ddi None.
Definition build_set_value (element ddi value : Z) : Result (list Z) Error.t :=
  encode_process_data_payload ProcessDataCommands.Value element ddi (Some value).
Definition build_set_value_and_acknowledge (element ddi value : Z) : Result (list Z) Error.t :=
  encode_process_data_payload ProcessDataCommands.SetValueAndAcknowledge element ddi (Some value).
Definition build_time_interval_measurement_command (element ddi interval_ms : Z) :=
  encode_process_data_payload_u32 ProcessDataCommands.MeasurementTimeInterval element ddi
    interval_ms.
Definition build_distance_interval_measurement_command (element ddi interval_mm : Z) :=
  encode_process_data_payload_u32 ProcessDataCommands.MeasurementDistanceInterval element ddi
    interval_mm.
Definition build_minimum_threshold_measurement_command (element ddi threshold : Z) :=
  encode_process_data_payload_u32 ProcessDataCommands.MeasurementMinimumWithinThreshold element
    ddi threshold.
Definition build_maximum_threshold_measurement_command (element ddi threshold : Z) :=
  encode_process_data_payload_u32 ProcessDataCommands.MeasurementMaximumWithinThreshold element
    ddi threshold.
Definition build_change_threshold_measurement_command (element ddi threshold : Z) :=
  encode_process_data_payload_u32 ProcessDataCommands.MeasurementChangeThreshold element ddi
    threshold.

Definition mt_with_elapsed (x : Z) (t : MeasurementTriggerRuntime) :=
  let 'mkTrigger d e i m ti di mn mx ch _ ds lv lr := t in mkTrigger d e i m ti di mn mx ch x ds lv lr.
Definition mt_with_distance (x : Z) (t : MeasurementTriggerRuntime) :=
  let 'mkTrigger d e i m ti di mn mx ch el _ lv lr := t in mkTrigger d e i m ti di mn mx ch el x lv lr.
Definition mt_with_last (x : option Z) (t : MeasurementTriggerRuntime) :=
  let 'mkTrigger d e i m ti di mn mx ch el ds _ lr := t in mkTrigger d e i m ti di mn mx ch el ds x lr.
Definition mt_with_requested (x : option Z) (t : MeasurementTriggerRuntime) :=
  let 'mkTrigger d e i m ti di mn mx ch el ds lv _ := t in mkTrigger d e i m ti di mn mx ch el ds lv x.

Definition measurement_request (t : MeasurementTriggerRuntime)
    : MeasurementTriggerRuntime * list TCOutbound :=
  match build_request_value (mt_element t) (mt_ddi t) with
  | Ok payload => (mt_with_requested (mt_last_value t) t, [out_to payload (mt_destination t)])
  | Err _ => (t, [])
  end.

Definition same_trigger (destination element ddi : Z) (t : MeasurementTriggerRuntime) : bool :=
  (mt_destination t =? destination) && (mt_element t =? element) && (mt_ddi t =? ddi).

Fixpoint replace_trigger (x : MeasurementTriggerRuntime) (l : list MeasurementTriggerRuntime)
    : option (list MeasurementTriggerRuntime) :=
  match l with
  | [] => None
  | t :: l =>
      if same_trigger (mt_destination x) (mt_element x) (mt_ddi x) t then Some (x :: l)
      else l ← replace_trigger x l; Some (t :: l)
  end.

Definition is_none {A} (x : option A) : bool := match x with None => true | Some _ => false end.

Definition configure_measurement_trigger (t : MeasurementTriggerRuntime)
    (s : TaskControllerServer) : TaskControllerServer * Result unit Error.t :=
  if (mt_destination t =? NULL_ADDRESS) || (mt_destination t =? BROADCAST_ADDRESS) then
    (s, Err (Error.invalid_address (mt_destination t)))
  else if MAX_PROCESS_DATA_ELEMENT_NUMBER <? mt_element t then
    (s, Err (Error.invalid_data
       "measurement trigger element number exceeds 12-bit command field"))
  else match build_request_value (mt_element t) (mt_ddi t) with
  | Err e => (s, Err e)
  | Ok _ =>
      if (mt_trigger_methods t =? 0) && is_none (mt_time_interval_ms t)
         && is_none (mt_distance_interval_mm t) && is_none (mt_minimum_threshold t)
         && is_none (mt_maximum_threshold t) && is_none (mt_change_threshold t)
      then (s, Err (Error.invalid_data
              "measurement trigger must define at least one trigger condition"))
      else (ts_with_triggers (match replace_trigger t (ts_triggers s) with
                              | Some l => l
                              | None => ts_triggers s ++ [t]
                              end) s, Ok tt)
  end.
Definition configure_measurement_trigger_with_initial (t : MeasurementTriggerRuntime)
    (s : TaskControllerServer) : TaskControllerServer * Result TCOutbound Error.t :=
  match configure_measurement_trigger t s with
  | (s, Err e) => (s, Err e)
  | (s, Ok _) =>
      (s, let? payload := build_request_value (mt_element t) (mt_ddi t) in
          Ok (out_to payload (mt_destination t)))
  end.
Definition clear_measurement_trigger (destination element ddi : Z) (s : TaskControllerServer)
    : TaskControllerServer * bool :=
  let l := List.filter (fun t => negb (same_trigger destination element ddi t)) (ts_triggers s) in
  (ts_with_triggers l s, negb (length l =? length (ts_triggers s))%nat).

(** [while elapsed >= interval { elapsed -= interval; request }]. *)
Fixpoint drain_interval (fuel : nat) (interval count : Z) (t : MeasurementTriggerRuntime)
    : option (Z * MeasurementTriggerRuntime * list TCOutbound) :=
  match fuel with
  | O => None
  | S fuel =>
      if interval <=? count then
        let '(t, out) := measurement_request t in
        '(count, t, rest) ← drain_interval fuel interval (count - interval) t;
        Some (count, t, out ++ rest)
      else Some (count, t, [])
  end.

(** One trigger of [update_measurements], and of [record_measurement_distance]. *)
Definition tick_trigger (elapsed_ms : Z) (t : MeasurementTriggerRuntime)
    : option (MeasurementTriggerRuntime * list TCOutbound) :=
  match mt_time_interval_ms t with
  | None => Some (t, [])
  | Some interval =>
      if interval =? 0 then Some (t, [])
      else
        let count := sat_add 32 (mt_elapsed_ms t) elapsed_ms in
        '(count, t, out) ← drain_interval (S (Z.to_nat count)) interval count t;
        Some (mt_with_elapsed count t, out)
  end.
Definition move_trigger (destination distance_mm : Z) (t : MeasurementTriggerRuntime)
    : option (MeasurementTriggerRuntime * list TCOutbound) :=
  if negb (mt_destination t =? destination) then Some (t, [])
  else match mt_distance_interval_mm t with
  | None => Some (t, [])
  | Some interval =>
      if interval =? 0 then Some (t, [])
      else
        let count := sat_add 32 (mt_distance_mm t) distance_mm in
        '(count, t, out) ← drain_interval (S (Z.to_nat count)) interval count t;
        Some (mt_with_distance count t, out)
  end.

(** A loop over the triggers that collects requests. *)
Fixpoint each_trigger
    (f : MeasurementTriggerRuntime -> option (MeasurementTriggerRuntime * list TCOutbound))
    (l : list MeasurementTriggerRuntime)
    : option (list MeasurementTriggerRuntime * list TCOutbound) :=
  match l with
  | [] => Some ([], [])
  | t :: l =>
      '(t, out) ← f t;
      '(l, rest) ← each_trigger f l;
      Some (t :: l, out ++ rest)
  end.
Definition over_triggers f (s : TaskControllerServer)
    : option (TaskControllerServer * list TCOutbound) :=
  '(l, out) ← each_trigger f (ts_triggers s); Some (ts_with_triggers l s, out).

Definition update_measurements (elapsed_ms : Z) := over_triggers (tick_trigger elapsed_ms).
Definition record_measurement_distance (destination distance_mm : Z) :=
  over_triggers (move_trigger destination distance_mm).

(** [i32::abs_diff]. *)
Definition abs_diff (a b : Z) : Z := Z.abs (a - b).

Definition trigger_due (value : Z) (t : MeasurementTriggerRuntime) : bool :=
  let previous := mt_last_value t in
  (negb (Z.land (mt_trigger_methods t) (TriggerMethod.as_u8 TriggerMethod.OnChange) =? 0)
   && match previous with Some old => negb (old =? value) | None => false end)
  || (match mt_change_threshold t, previous with
      | Some delta, Some old => delta <=? abs_diff old value
      | _, _ => false
      end)
  || (match mt_minimum_threshold t with
      | Some minimum => (value <=? minimum)
                        && match previous with Some old => minimum <? old | None => true end
      | None => false
      end)
  || (match mt_maximum_threshold t with
      | Some maximum => (maximum <=? value)
                        && match previous with Some old => old <? maximum | None => true end
      | None => false
      end).
Definition value_trigger (destination element ddi value : Z) (t : MeasurementTriggerRuntime)
    : option (MeasurementTriggerRuntime * list TCOutbound) :=
  if same_trigger destination element ddi t then
    let due := trigger_due value t in
    let t := mt_with_last (Some value) t in
    Some (if due then measurement_request t else (t, []))
  else Some (t, []).
Definition update_measurement_value (destination element ddi value : Z) :=
  over_triggers (value_trigger destination element ddi value).

(** ** Object pools *)

Definition activate_pool (addr : Address) (s : TaskControllerServer)
    : TaskControllerServer * ObjectPoolActivationError.t :=
  let error := ObjectPoolActivationError.ThereAreErrorsInTheDDOP in
  match find_client addr s with
  | Some c =>
      match dd_devices (ci_ddop c) with
      | [] => (ts_emit (TcsActivationError error) s, error)
      | _ :: _ =>
          (update_client addr (ci_with_activated true) s, ObjectPoolActivationError.NoErrors)
      end
  | None => (ts_emit (TcsActivationError error) s, error)
  end.

(** [client.address == msg.source && !client.ddop.devices().is_empty() &&
    client.last_ddop_transfer == payload]. *)
Definition accepted_pool (addr : Address) (payload : list Z) (c : TCClientInfo) : bool :=
  is_client addr c && negb (length (dd_devices (ci_ddop c)) =? 0)%nat
  && bool_decide (ci_last_ddop_transfer c = payload).

(** The code answered to a transferred pool, and the server that keeps the pool. *)
Definition accept_pool (addr : Address) (payload : list Z) (s : TaskControllerServer)
    : option (TaskControllerServer * ObjectPoolErrorCodes.t) :=
  if existsb (accepted_pool addr payload) (ts_clients s) then
    Some (ensure_client addr s, ObjectPoolErrorCodes.NoErrors)
  else
    match deserialize payload with
    | None => None
    | Some (Err _) => Some (s, ObjectPoolErrorCodes.AnyOtherError)
    | Some (Ok pool) =>
        match validate pool with
        | Err _ => Some (s, ObjectPoolErrorCodes.AnyOtherError)
        | Ok _ =>
            let s := ensure_client addr s in
            match find_client addr s with
            | Some _ => Some (update_client addr (ci_with_pool pool payload) s,
                              ObjectPoolErrorCodes.NoErrors)
            | None => Some (s, ObjectPoolErrorCodes.AnyOtherError)
            end
        end
    end.

Definition handle_object_pool_transfer (msg : Message) (s : TaskControllerServer)
    : option (TaskControllerServer * list TCOutbound) :=
  '(s, error) ←
    (if (length (m_data msg) <=? 8)%nat then Some (s, ObjectPoolErrorCodes.AnyOtherError)
     else accept_pool (m_source msg) (drop 1 (m_data msg)) s);
  Some (s, [out_to (tc_cmd.OBJECT_POOL_RESPONSE :: ObjectPoolErrorCodes.as_u8 error
                    :: replicate 6 0xFF) (m_source msg)]).

Definition is_activate_pool_request (data : list Z) : bool :=
  match data with
  | d0 :: d1 :: _ =>
      (d0 =? tc_cmd.ACTIVATE_POOL) && (length data =? 8)%nat && (d1 =? 0xFF)
      && forallb (fun b => b =? 0xFF) (drop 1 data)
  | _ => false
  end.
Definition is_deactivate_pool_request (data : list Z) : bool :=
  match data with
  | d0 :: d1 :: _ =>
      (d0 =? tc_cmd.ACTIVATE_POOL) && (length data =? 8)%nat && (d1 =? 0x00)
      && forallb (fun b => b =? 0xFF) (drop 2 data)
  | _ => false
  end.
Definition is_delete_pool_request (data : list Z) : bool :=
  match data with
  | d0 :: _ =>
      (d0 =? tc_cmd.DELETE_POOL) && (length data =? 8)%nat
      && forallb (fun b => b =? 0xFF) (drop 1 data)
  | _ => false
  end.

Definition handle_activate_deactivate_pool_request (msg : Message) (s : TaskControllerServer)
    : TaskControllerServer * list TCOutbound :=
  let '(s, error) :=
    if is_deactivate_pool_request (m_data msg) then
      match find_client (m_source msg) s with
      | Some _ => (update_client (m_source msg) (ci_with_activated false) s,
                   ObjectPoolActivationError.NoErrors)
      | None => (s, ObjectPoolActivationError.ThereAreErrorsInTheDDOP)
      end
    else activate_pool (m_source msg) s in
  (s, [out_to (tc_cmd.ACTIVATE_RESPONSE :: ObjectPoolActivationError.as_u8 error
               :: replicate 6 0xFF) (m_source msg)]).

Definition handle_delete_pool_request (msg : Message) (s : TaskControllerServer)
    : TaskControllerServer * list TCOutbound :=
  (update_client (m_source msg) (ci_with_pool DDOP_default []) s,
   [out_to (tc_cmd.DELETE_POOL_RESPONSE
            :: ObjectPoolDeletionErrors.as_u8 ObjectPoolDeletionErrors.ErrorDetailsNotAvailable
            :: replicate 6 0xFF) (m_source msg)]).

(** ** Requests of a client *)

Definition tech_capabilities (s : TaskControllerServer) : list Z :=
  let g := ts_config s in
  [tc_cmd.VERSION_RESPONSE; tsc_tc_version g; 0xFF; tsc_server_options g; 0x00; tsc_num_booms g;
   tsc_num_sections g; tsc_num_channels g].

(** The three requests answered with one frame. *)
Definition answer_request (answer : TaskControllerServer -> list Z) (msg : Message)
    (s : TaskControllerServer) : TaskControllerServer * list TCOutbound :=
  if negb (is_padded_fixed8 (m_data msg) 1) then (s, [])
  else let s := ensure_client (m_source msg) s in (s, [out_to (answer s) (m_source msg)]).
Definition handle_tech_capabilities := answer_request tech_capabilities.
Definition handle_structure_label_request :=
  answer_request (fun s => tc_cmd.STRUCTURE_LABEL :: ts_structure_label s).
Definition handle_localization_label_request :=
  answer_request (fun s => tc_cmd.LOCALIZATION_LABEL :: ts_localization_label s).

Definition handle_client_version_response (msg : Message) (s : TaskControllerServer)
    : TaskControllerServer * list TCOutbound :=
  if negb (version_response_is_canonical (m_data msg)) then (s, [])
  else match m_data msg with
  | [_; version; _; options; _; booms; sections; channels] =>
      match find_client (m_source msg) s with
      | None => (s, [])
      | Some _ =>
          (ts_emit (TcsClientVersion (m_source msg) version)
             (update_client (m_source msg)
                (ci_with_version version options booms sections channels) s), [])
      end
  | _ => (s, [])
  end.

(** ** Process data *)

Record Callbacks : Type := mkCallbacks {
  cb_value_request : option (Z -> Z -> Address -> Result Z Error.t);
  cb_value : option (Z -> Z -> Z -> Address -> Result AckError.t Error.t);
  cb_peer_control : option (Z -> Z -> Z -> Z -> Result unit Error.t)
}.

Definition handle_value (cbs : Callbacks) (msg : Message) (acknowledge : bool)
    (s : TaskControllerServer) : option (TaskControllerServer * list TCOutbound) :=
  match m_data msg with
  | [d0; d1; d2; d3; d4; d5; d6; d7] =>
      let s := ensure_client (m_source msg) s in
      let element := element_of d0 d1 in
      let ddi := ddi_of d2 d3 in
      let value := to_i32 (Name.from_le_bytes [d4; d5; d6; d7]) in
      let error :=
        match cb_value cbs with
        | Some cb => match cb element ddi value (m_source msg) with
                     | Ok e => e
                     | Err _ => AckError.NoProcessingResourcesAvailable
                     end
        | None => AckError.ElementNotSupportedByThisDevice
        end in
      '(s, out) ← update_measurement_value (m_source msg) element ddi value s;
      Some (s, (if acknowledge
                then [out_to (encode_process_data_ack element ddi error) (m_source msg)]
                else []) ++ out)
  | _ => Some (s, [])
  end.

Definition handle_request_value (cbs : Callbacks) (msg : Message) (s : TaskControllerServer)
    : TaskControllerServer * list TCOutbound :=
  if negb (is_padded_fixed8 (m_data msg) 4) then (s, [])
  else match m_data msg with
  | d0 :: d1 :: d2 :: d3 :: _ =>
      let s := ensure_client (m_source msg) s in
      let element := element_of d0 d1 in
      let ddi := ddi_of d2 d3 in
      match cb_value_request cbs with
      | None => (s, [])
      | Some cb =>
          match cb element ddi (m_source msg) with
          | Err _ => (s, [])
          | Ok value =>
              (s, [out_to (process_data_head ProcessDataCommands.Value element ddi
                           ++ i32_le value) (m_source msg)])
          end
      end
  | _ => (s, [])
  end.

Definition handle_peer_control (cbs : Callbacks) (msg : Message) (s : TaskControllerServer)
    : TaskControllerServer * list TCOutbound :=
  match peer_decode (m_data msg) (m_source msg) (m_destination msg) with
  | Err _ => (s, [])
  | Ok a =>
      let s := ts_emit (TcsPeerControl a) (ensure_client (m_source msg) s) in
      match cb_peer_control cbs with
      | None => (s, [])
      | Some cb =>
          let error :=
            match cb (pc_source_element a) (pc_source_ddi a) (pc_destination_element a)
                     (pc_destination_ddi a) with
            | Ok _ => AckError.NoError
            | Err _ => AckError.NoProcessingResourcesAvailable
            end in
          (s, [out_to (encode_process_data_ack (pc_source_element a) (pc_source_ddi a) error)
                 (m_source msg)])
      end
  end.

Definition handle_client_task (msg : Message) (s : TaskControllerServer)
    : TaskControllerServer * list TCOutbound :=
  let d4 := default 0 (m_data msg !! 4%nat) in
  (update_client (m_source msg) (ci_with_totals (negb (Z.land d4 0x01 =? 0)))
     (ensure_client (m_source msg) s), []).

(** ** Dispatch *)

Definition ServerResult : Type :=
  option (TaskControllerServer * Result (list TCOutbound) Error.t).
Definition server_ok (r : TaskControllerServer * list TCOutbound) : ServerResult :=
  Some (r.1, Ok r.2).
Definition server_try (r : option (TaskControllerServer * list TCOutbound)) : ServerResult :=
  r ← r; server_ok r.

(** A handler behind the test of its frame. *)
Definition checked (ok : bool) (message : string) (s : TaskControllerServer) (r : ServerResult)
    : ServerResult :=
  if ok then r else Some (s, Err (Error.invalid_data message)).

Definition handle_process_data (cbs : Callbacks) (cmd : ProcessDataCommands.t) (msg : Message)
    (s : TaskControllerServer) : ServerResult :=
  let eight := (length (m_data msg) =? 8)%nat in
  match cmd with
  | ProcessDataCommands.Value =>
      checked eight "TC value process-data frame must be an 8-byte frame" s
        (server_try (handle_value cbs msg false s))
  | ProcessDataCommands.SetValueAndAcknowledge =>
      checked eight "TC set-value-and-acknowledge frame must be an 8-byte frame" s
        (server_try (handle_value cbs msg true s))
  | ProcessDataCommands.RequestValue =>
      checked (is_padded_fixed8 (m_data msg) 4)
        "TC request-value process-data frame must be an 8-byte padded frame" s
        (server_ok (handle_request_value cbs msg s))
  | ProcessDataCommands.PeerControlAssignment =>
      checked eight "TC peer-control process-data frame must be an 8-byte frame" s
        (server_ok (handle_peer_control cbs msg s))
  | ProcessDataCommands.ClientTask =>
      checked eight "TC client-task process-data frame must be an 8-byte frame" s
        (server_ok (handle_client_task msg s))
  | command =>
      Some (s, Err (Error.invalid_state
        ("unsupported ECU-to-TC process-data command " +:+ ProcessDataCommands.debug command)))
  end.

(** The commands told apart by their first byte. *)
Definition dispatch_client (cbs : Callbacks) (first : Z) (msg : Message)
    (s : TaskControllerServer) : ServerResult :=
  let data := m_data msg in
  if first =? tc_cmd.VERSION_RESPONSE then
    checked (version_response_is_canonical data)
      "TC client version response must be an 8-byte canonical frame" s
      (server_ok (handle_client_version_response msg s))
  else if first =? tc_cmd.VERSION_REQUEST then
    checked (is_padded_fixed8 data 1)
      "TC technical-capabilities request must be an 8-byte padded frame" s
      (server_ok (handle_tech_capabilities msg s))
  else if first =? tc_cmd.REQUEST_STRUCTURE_LABEL then
    checked (is_padded_fixed8 data 1)
      "TC structure-label request must be an 8-byte padded frame" s
      (server_ok (handle_structure_label_request msg s))
  else if first =? tc_cmd.REQUEST_LOCALIZATION_LABEL then
    checked (is_padded_fixed8 data 1)
      "TC localization-label request must be an 8-byte padded frame" s
      (server_ok (handle_localization_label_request msg s))
  else if first =? tc_cmd.OBJECT_POOL_TRANSFER then
    server_try (handle_object_pool_transfer msg s)
  else if first =? tc_cmd.ACTIVATE_POOL then
    checked (is_activate_pool_request data || is_deactivate_pool_request data)
      "TC activate/deactivate pool request must be an 8-byte canonical frame" s
      (server_ok (handle_activate_deactivate_pool_request msg s))
  else if first =? tc_cmd.DELETE_POOL then
    checked (is_delete_pool_request data)
      "TC delete-pool request must be an 8-byte canonical frame" s
      (server_ok (handle_delete_pool_request msg s))
  else match ProcessDataCommands.try_from_u8 first with
  | None => Some (s, Err (Error.invalid_data "ECU-to-TC message has reserved command byte"))
  | Some cmd => handle_process_data cbs cmd msg s
  end.

Definition try_handle_client_message (cbs : Callbacks) (msg : Message)
    (s : TaskControllerServer) : ServerResult :=
  if negb (m_pgn msg =? PGN_ECU_TO_TC) then Some (s, Err (Error.invalid_pgn (m_pgn msg)))
  else if negb (has_usable_source msg) then
    Some (s, Err (Error.invalid_address (m_source msg)))
  else if negb (has_valid_destination_for_pgn msg) then
    Some (s, Err (Error.invalid_address (m_destination msg)))
  else match m_data msg with
  | [] => Some (s, Err (Error.invalid_data "ECU-to-TC message must not be empty"))
  | first :: _ => dispatch_client cbs first msg s
  end.

Definition try_handle_working_set_master (msg : Message) (s : TaskControllerServer)
    : TaskControllerServer * Result (list TCOutbound) Error.t :=
  if negb (m_pgn msg =? PGN_WORKING_SET_MASTER) then (s, Err (Error.invalid_pgn (m_pgn msg)))
  else if negb (has_usable_source msg) then (s, Err (Error.invalid_address (m_source msg)))
  else if negb (has_valid_destination_for_pgn msg) then
    (s, Err (Error.invalid_address (m_destination msg)))
  else if negb (is_padded_fixed8 (m_data msg) 1) then
    (s, Err (Error.invalid_data "Working Set Master must be an 8-byte padded frame"))
  else
    let s := ensure_client (m_source msg) s in
    (s, Ok (option_list (request_client_version (m_source msg) s))).

(** ** Time *)

Definition age_client (elapsed_ms : Z) (c : TCClientInfo) : TCClientInfo :=
  ci_with_status (sat_add 32 (ci_last_status_ms c) elapsed_ms) c.
Definition is_lost (c : TCClientInfo) : bool := TC_CLIENT_TIMEOUT_MS <=? ci_last_status_ms c.

(** [clients.retain(|c| !lost.contains(&c.address))], and the events. *)
Definition age_clients (elapsed_ms : Z) (s : TaskControllerServer) : TaskControllerServer :=
  let clients := age_client elapsed_ms <$> ts_clients s in
  let lost := ci_address <$> List.filter is_lost clients in
  foldl (fun s addr => ts_emit (TcsClientDisconnected addr) s)
    (ts_with_clients
       (List.filter (fun c => negb (existsb (Z.eqb (ci_address c)) lost)) clients) s) lost.

Definition server_update (elapsed_ms : Z) (s : TaskControllerServer)
    : TaskControllerServer * option (list Z) :=
  if bool_decide (ts_state s = TCServerState.Disconnected) then (s, None)
  else
    let s := age_clients elapsed_ms s in
    let timer := sat_add 32 (ts_status_timer_ms s) elapsed_ms in
    if TC_STATUS_INTERVAL_MS <=? timer
    then let s := ts_with_timer (timer - TC_STATUS_INTERVAL_MS) s in
         (s, Some (encode_tc_status s))
    else (ts_with_timer timer s, None).
