(* ===== verification/TcServerProofs.v ===== *)
(** What the task controller server guarantees: the pools it keeps, the frames it sends, when
    it gives a client up, and how often it asks for a measurement. *)
From S2P Require Export TcServer.

(** ** The client table *)

Lemma find_update a b f s :
  (forall c, ci_address (f c) = ci_address c) ->
  find_client a (update_client b f s)
  = if a =? b then f <$> find_client a s else find_client a s.
Proof.
  intros Hf. destruct s as [g m l st sl ll fl tr t]. unfold find_client, update_client. cbn.
  induction l as [|c l IH]; cbn; [by destruct (a =? b)|].
  unfold is_client. destruct (Z.eqb_spec (ci_address c) b) as [Eb|Eb]; cbn.
  - rewrite Hf. destruct (Z.eqb_spec a b), (Z.eqb_spec (ci_address c) a); try done; lia.
  - destruct (Z.eqb_spec (ci_address c) a), (Z.eqb_spec a b); cbn; try lia; try done;
      by rewrite IH.
Qed.

Lemma find_transition a st s : find_client a (ts_transition st s) = find_client a s.
Proof. unfold ts_transition. case_bool_decide; [done|]. by destruct s. Qed.
Lemma find_emit a e s : find_client a (ts_emit e s) = find_client a s.
Proof. by destruct s. Qed.
Lemma clients_emit e s : ts_clients (ts_emit e s) = ts_clients s.
Proof. by destruct s. Qed.
Lemma clients_transition st s : ts_clients (ts_transition st s) = ts_clients s.
Proof. unfold ts_transition. case_bool_decide; [done|]. by destruct s. Qed.

(** The clients after [ensure_client]. *)
Lemma clients_ensure a s :
  ts_clients (ensure_client a s)
  = match find_client a s with
    | Some _ => update_first (is_client a) (ci_with_status 0) (ts_clients s)
    | None => ts_clients s ++ [TCClientInfo_new a]
    end.
Proof.
  unfold ensure_client. destruct (find_client a s); [by destruct s|].
  case_bool_decide; rewrite ?clients_transition; by destruct s.
Qed.

Lemma find_app {A} (p : A -> bool) l1 l2 :
  List.find p (l1 ++ l2)
  = match List.find p l1 with Some x => Some x | None => List.find p l2 end.
Proof. induction l1 as [|x l1 IH]; cbn; [done|]. by destruct (p x). Qed.

Lemma find_ensure a b s :
  find_client a (ensure_client b s)
  = if a =? b then Some (ci_with_status 0 (default (TCClientInfo_new b) (find_client b s)))
    else find_client a s.
Proof.
  unfold find_client at 1. rewrite clients_ensure.
  destruct (find_client b s) as [c|] eqn:E.
  - pose proof (find_update a b (ci_with_status 0) s) as H.
    unfold find_client at 1, update_client in H. destruct s; cbn in *. rewrite H.
    + destruct (Z.eqb_spec a b) as [->|]; [|done]. by rewrite E.
    + by intros [].
  - rewrite find_app. fold (find_client a s). cbn. unfold is_client. cbn.
    destruct (Z.eqb_spec a b) as [->|Hn].
    + by rewrite E, Z.eqb_refl.
    + destruct (Z.eqb_spec b a); [lia|]. by destruct (find_client a s).
Qed.

Lemma update_first_app p f l c :
  p c = true -> update_first p f (l ++ [c])
  = if existsb p l then update_first p f l ++ [c] else l ++ [f c].
Proof.
  intros Hc. induction l as [|x l IH]; cbn; [by rewrite Hc|].
  destruct (p x); cbn; [done|]. rewrite IH. by destruct (existsb p l).
Qed.

Lemma Forall_update_first (P : TCClientInfo -> Prop) p f l :
  Forall P l -> (forall c, p c = true -> P c -> P (f c)) -> Forall P (update_first p f l).
Proof.
  intros Hl Hf. induction Hl as [|c l Hc Hl IH]; cbn; [constructor|].
  destruct (p c) eqn:E; constructor; auto.
Qed.
Lemma address_update_first p f l :
  (forall c, ci_address (f c) = ci_address c) ->
  ci_address <$> update_first p f l = ci_address <$> l.
Proof.
  intros Hf. induction l as [|c l IH]; [done|]. cbn. destruct (p c); cbn; by rewrite ?Hf, ?IH.
Qed.

Lemma find_client_None a s :
  find_client a s = None <-> a ∉ (ci_address <$> ts_clients s).
Proof.
  unfold find_client. induction (ts_clients s) as [|c l IH]; cbn.
  - split; [|done]. intros _ H. by apply elem_of_nil in H.
  - rewrite not_elem_of_cons. unfold is_client. destruct (Z.eqb_spec (ci_address c) a); naive_solver.
Qed.
Lemma find_client_Some a s c :
  find_client a s = Some c -> c ∈ ts_clients s /\ ci_address c = a.
Proof.
  intros H. apply find_some in H as [H1 H2]. split; [by apply list_elem_of_In|].
  by apply Z.eqb_eq.
Qed.

Lemma find_client_in s c :
  NoDup (ci_address <$> ts_clients s) -> c ∈ ts_clients s -> find_client (ci_address c) s = Some c.
Proof.
  unfold find_client. induction (ts_clients s) as [|x l IH]; cbn; intros Hd Hc.
  - by apply elem_of_nil in Hc.
  - apply NoDup_cons in Hd as [Hx Hd]. unfold is_client at 1.
    apply elem_of_cons in Hc as [->|Hc]; [by rewrite Z.eqb_refl|].
    destruct (Z.eqb_spec (ci_address x) (ci_address c)) as [E|_]; [|by apply IH].
    destruct Hx. rewrite E. by apply list_elem_of_fmap_2.
Qed.

(** ** The state *)

(** A client's pool is empty, or it validates and is what the last transfer describes; an
    activated pool has a device. *)
Record client_ok (c : TCClientInfo) : Prop := {
  co_address : ci_address c <> NULL_ADDRESS /\ ci_address c <> BROADCAST_ADDRESS;
  co_age : in_u 32 (ci_last_status_ms c);
  co_pool : (ci_ddop c = DDOP_default /\ ci_last_ddop_transfer c = []) \/
            (deserialize (ci_last_ddop_transfer c) = Some (Ok (ci_ddop c)) /\
             validate (ci_ddop c) = Ok tt);
  co_activated : ci_pool_activated c = true -> validate (ci_ddop c) = Ok tt
}.
Record trigger_ok (t : MeasurementTriggerRuntime) : Prop := {
  to_destination : mt_destination t <> NULL_ADDRESS /\ mt_destination t <> BROADCAST_ADDRESS;
  to_element : 0 <= mt_element t <= MAX_PROCESS_DATA_ELEMENT_NUMBER;
  to_ddi : in_u 16 (mt_ddi t);
  to_counters : 0 <= mt_elapsed_ms t /\ 0 <= mt_distance_mm t;
  to_intervals : (forall x, mt_time_interval_ms t = Some x -> 0 <= x) /\
                 (forall x, mt_distance_interval_mm t = Some x -> 0 <= x)
}.
Definition trigger_key (t : MeasurementTriggerRuntime) : Address * Z * Z :=
  (mt_destination t, mt_element t, mt_ddi t).
Record server_inv (s : TaskControllerServer) : Prop := {
  si_addresses : NoDup (ci_address <$> ts_clients s);
  si_clients : Forall client_ok (ts_clients s);
  si_triggers : Forall trigger_ok (ts_triggers s);
  si_keys : NoDup (trigger_key <$> ts_triggers s);
  si_timer : in_u 32 (ts_status_timer_ms s);
  si_labels : length (ts_structure_label s) = 7%nat /\ length (ts_localization_label s) = 7%nat
}.

(** What the server sends: eight bytes to the clients' group, to one client or to all. *)
Definition out_ok (o : TCOutbound) : Prop :=
  out_pgn o = PGN_TC_TO_ECU /\ length (out_data o) = 8%nat /\
  forall a, out_dest o = Some a -> a <> NULL_ADDRESS /\ a <> BROADCAST_ADDRESS.

Lemma out_to_ok data a :
  length data = 8%nat -> a <> NULL_ADDRESS -> a <> BROADCAST_ADDRESS -> out_ok (out_to data a).
Proof. intros. split_and!; [done..|]. intros a' [= <-]. done. Qed.

Lemma client_ok_new a : a <> NULL_ADDRESS -> a <> BROADCAST_ADDRESS -> client_ok (TCClientInfo_new a).
Proof. intros. split; cbn; [done|by unfold in_u|by left|done]. Qed.
Lemma client_ok_status x c : in_u 32 x -> client_ok c -> client_ok (ci_with_status x c).
Proof. destruct c. intros Hx []. by split. Qed.

(** An update of the table that keeps addresses and well-formedness. *)
Lemma inv_clients l s :
  server_inv s -> NoDup (ci_address <$> l) -> Forall client_ok l -> server_inv (ts_with_clients l s).
Proof. destruct s. intros []. by split. Qed.
Lemma inv_emit e s : server_inv s -> server_inv (ts_emit e s).
Proof. destruct s. intros []. by split. Qed.
Lemma inv_transition st s : server_inv s -> server_inv (ts_transition st s).
Proof.
  intros H. unfold ts_transition. case_bool_decide; [done|]. destruct s, H. by split.
Qed.
Lemma inv_update a f s :
  server_inv s -> (forall c, ci_address (f c) = ci_address c) ->
  (forall c, is_client a c = true -> client_ok c -> client_ok (f c)) ->
  server_inv (update_client a f s).
Proof.
  intros H Hf Hok. apply inv_clients; [done|rewrite address_update_first by done; apply H|].
  by apply Forall_update_first; [apply H|].
Qed.
Lemma inv_ensure a s :
  server_inv s -> a <> NULL_ADDRESS -> a <> BROADCAST_ADDRESS -> server_inv (ensure_client a s).
Proof.
  intros H Hn Hb. unfold ensure_client. destruct (find_client a s) eqn:E.
  - apply inv_update; [done|by intros []|]. intros c _ Hc. by apply client_ok_status.
  - set (s1 := ts_emit _ _). enough (server_inv s1).
    { case_bool_decide; [by apply inv_transition|done]. }
    apply inv_emit, inv_clients; [done|..].
    + rewrite fmap_app. apply NoDup_app. split; [apply H|]. split; [|apply NoDup_singleton].
      intros x Hx. cbn. rewrite list_elem_of_singleton. intros ->.
      by apply find_client_None in E.
    + apply Forall_app. split; [apply H|]. constructor; [by apply client_ok_new|constructor].
Qed.


(** ** Process data frames *)

Lemma command_of_nibble d0 cmd :
  Z.land d0 0x0F = ProcessDataCommands.as_u8 cmd -> ProcessDataCommands.try_from_u8 d0 = Some cmd.
Proof. intros H. unfold ProcessDataCommands.try_from_u8. rewrite H. by destruct cmd. Qed.

Lemma wrap_as_land w x : 0 <= w -> wrap w x = Z.land x (Z.ones w).
Proof. intros. unfold wrap. by rewrite Z.land_ones. Qed.

(** Split a bit index at the bounds of the fields it may fall in. *)
Ltac bit_ranges n :=
  destruct (Z.ltb_spec n 4); [|destruct (Z.ltb_spec n 8);
    [|destruct (Z.ltb_spec n 12); [|destruct (Z.ltb_spec n 16)]]].

(** The command, the element and the dictionary number of a frame are read back. *)
Lemma process_data_head_decodes cmd element ddi :
  0 <= element <= MAX_PROCESS_DATA_ELEMENT_NUMBER -> in_u 16 ddi ->
  exists d0 d1 d2 d3, process_data_head cmd element ddi = [d0; d1; d2; d3] /\
    element_of d0 d1 = element /\ ddi_of d2 d3 = ddi /\
    ProcessDataCommands.try_from_u8 d0 = Some cmd.
Proof.
  intros He Hd. do 4 eexists. split; [done|].
  assert (He' : in_u 12 element) by (unfold MAX_PROCESS_DATA_ELEMENT_NUMBER, in_u in *; lia).
  assert (Hk : in_u 4 (ProcessDataCommands.as_u8 cmd)) by (by destruct cmd).
  unfold element_of, ddi_of. rewrite !wrap_as_land by lia.
  change 0xFF with (Z.ones 8). change 0x0F with (Z.ones 4).
  split_and!; [..|apply command_of_nibble; change 0x0F with (Z.ones 4)];
    revert Hk; generalize (ProcessDataCommands.as_u8 cmd); intros k Hk;
    apply Z.bits_inj'; intros n Hn; bit_ranges n; bits_norm; bits_done.
Qed.

Lemma ddi_of_le x : in_u 16 x -> ddi_of (Z.land x 0xFF) (Z.land (Z.shiftr x 8) 0xFF) = x.
Proof.
  intros Hx. unfold ddi_of. change 0xFF with (Z.ones 8).
  apply Z.bits_inj'; intros n Hn; bit_ranges n; bits_norm; bits_done.
Qed.

(** The same for a reader that does not mask the element's low nibble. *)
Lemma head_low_nibble cmd element ddi :
  in_u 12 element -> in_u 16 ddi ->
  exists d0 d1 d2 d3, process_data_head cmd element ddi = [d0; d1; d2; d3] /\
    Z.land d0 0x0F = ProcessDataCommands.as_u8 cmd /\
    Z.lor (Z.shiftr d0 4) (Z.shiftl d1 4) = element /\ ddi_of d2 d3 = ddi.
Proof.
  intros He Hd. do 4 eexists. split; [done|]. split_and!; [..|by apply ddi_of_le].
  all: assert (Hk : in_u 4 (ProcessDataCommands.as_u8 cmd)) by (by destruct cmd).
  all: rewrite !wrap_as_land by lia; change 0xFF with (Z.ones 8); change 0x0F with (Z.ones 4).
  all: revert Hk; generalize (ProcessDataCommands.as_u8 cmd); intros k Hk.
  all: apply Z.bits_inj'; intros n Hn; bit_ranges n; bits_norm; bits_done.
Qed.

(** ** Measurement triggers *)

(** The request a trigger sends, and the trigger that has sent it. *)
Definition request_of (t : MeasurementTriggerRuntime) : TCOutbound :=
  out_to (process_data_head ProcessDataCommands.RequestValue (mt_element t) (mt_ddi t)
          ++ replicate 4 0xFF) (mt_destination t).
Definition requested (t : MeasurementTriggerRuntime) : MeasurementTriggerRuntime :=
  mt_with_requested (mt_last_value t) t.

Lemma measurement_request_ok t :
  trigger_ok t -> measurement_request t = (requested t, [request_of t]).
Proof.
  intros []. unfold measurement_request, build_request_value, encode_process_data_payload,
    encode_process_data_payload_bytes. by destruct (Z.ltb_spec MAX_PROCESS_DATA_ELEMENT_NUMBER (mt_element t)); [lia|].
Qed.
Lemma request_of_requested t : request_of (requested t) = request_of t.
Proof. by destruct t. Qed.
Lemma requested_idem t : requested (requested t) = requested t.
Proof. by destruct t. Qed.
Lemma trigger_ok_requested t : trigger_ok t -> trigger_ok (requested t).
Proof. destruct t. intros []. by split. Qed.
Lemma request_of_ok t : trigger_ok t -> out_ok (request_of t).
Proof. intros [[]]. by apply out_to_ok. Qed.

Lemma drain_interval_spec interval t fuel count :
  trigger_ok t -> 0 < interval -> 0 <= count -> (Z.to_nat count < fuel)%nat ->
  drain_interval fuel interval count t
  = Some (count mod interval, if interval <=? count then requested t else t,
          replicate (Z.to_nat (count / interval)) (request_of t)).
Proof.
  intros Ht Hi. revert t Ht count. induction fuel as [|fuel IH]; intros t Ht count Hc Hf; [lia|].
  cbn [drain_interval]. destruct (Z.leb_spec interval count) as [Hle|Hlt].
  - rewrite measurement_request_ok by done. rewrite (IH (requested t)); [|by apply trigger_ok_requested|lia..].
    cbn. rewrite request_of_requested, requested_idem.
    replace (count - interval) with (count + (-1) * interval) by lia.
    rewrite Z.mod_add, Z.div_add by lia.
    assert (0 < count / interval) by (apply Z.div_str_pos; lia).
    replace (Z.to_nat (count / interval)) with (S (Z.to_nat (count / interval + -1))) by lia.
    cbn. by destruct (_ <=? _).
  - by rewrite Z.mod_small, Z.div_small by lia.
Qed.

Lemma each_trigger_spec f g h l :
  Forall (fun t => f t = Some (g t, h t)) l ->
  each_trigger f l = Some (g <$> l, concat (h <$> l)).
Proof. induction 1 as [|t l Ht Hl IH]; [done|]. cbn. by rewrite Ht, IH. Qed.

(** How many requests a counter owes, and what it keeps. *)
Definition due_requests (interval : option Z) (count : Z) : nat :=
  match interval with
  | Some i => if i =? 0 then 0 else Z.to_nat (count / i)
  | None => 0
  end.
Definition ticked (elapsed_ms : Z) (t : MeasurementTriggerRuntime) : MeasurementTriggerRuntime :=
  match mt_time_interval_ms t with
  | Some i =>
      if i =? 0 then t
      else let count := sat_add 32 (mt_elapsed_ms t) elapsed_ms in
           mt_with_elapsed (count mod i) (if i <=? count then requested t else t)
  | None => t
  end.

Lemma tick_trigger_spec e t :
  trigger_ok t -> 0 <= e ->
  tick_trigger e t
  = Some (ticked e t,
          replicate (due_requests (mt_time_interval_ms t) (sat_add 32 (mt_elapsed_ms t) e))
            (request_of t)).
Proof.
  intros Ht He. unfold tick_trigger, ticked, due_requests.
  destruct (mt_time_interval_ms t) as [i|] eqn:Ei; [|done].
  destruct (Z.eqb_spec i 0); [done|].
  pose proof (proj1 (to_intervals t Ht) i Ei). destruct (to_counters t Ht).
  pose proof (in_u_sat_add 32 (mt_elapsed_ms t) e) as Hs. unfold in_u in Hs.
  rewrite drain_interval_spec by (done || lia). done.
Qed.
Lemma ticked_key e t : trigger_key (ticked e t) = trigger_key t.
Proof.
  unfold ticked. destruct (mt_time_interval_ms t); [|done].
  destruct (_ =? 0); [done|]. destruct t. by destruct (_ <=? _).
Qed.
Lemma ticked_ok e t : trigger_ok t -> 0 <= e -> trigger_ok (ticked e t).
Proof.
  intros Ht He. unfold ticked. destruct (mt_time_interval_ms t) as [i|] eqn:Ei; [|done].
  destruct (Z.eqb_spec i 0); [done|].
  pose proof (proj1 (to_intervals t Ht) i Ei).
  assert (0 <= sat_add 32 (mt_elapsed_ms t) e mod i) by (apply Z.mod_pos_bound; lia).
  destruct t, Ht as [? ? ? []]. cbn in *. by destruct (_ <=? _).
Qed.

Lemma request_of_inj t t' :
  trigger_ok t -> trigger_ok t' -> request_of t = request_of t' -> trigger_key t = trigger_key t'.
Proof.
  intros Ht Ht' H. pose proof (f_equal out_data H) as Hd. apply app_inv_tail in Hd.
  pose proof (f_equal out_dest H) as Hdest. injection Hdest as Hdest.
  destruct (process_data_head_decodes ProcessDataCommands.RequestValue (mt_element t) (mt_ddi t))
    as (a0 & a1 & a2 & a3 & Ha & He & Hdd & _); [apply Ht..|].
  destruct (process_data_head_decodes ProcessDataCommands.RequestValue (mt_element t') (mt_ddi t'))
    as (b0 & b1 & b2 & b3 & Hb & He' & Hdd' & _); [apply Ht'..|].
  rewrite Ha, Hb in Hd. injection Hd as -> -> -> ->. unfold trigger_key. congruence.
Qed.

(** How often a frame occurs. *)
#[global] Instance TCOutbound_eq_dec : EqDecision TCOutbound.
Proof. solve_decision. Defined.
Definition times (o : TCOutbound) (outs : list TCOutbound) : nat :=
  length (List.filter (fun x => bool_decide (x = o)) outs).
Lemma times_app o l1 l2 : times o (l1 ++ l2) = (times o l1 + times o l2)%nat.
Proof. unfold times. by rewrite List.filter_app, length_app. Qed.
Lemma times_replicate o o' n : times o (replicate n o') = if bool_decide (o' = o) then n else 0%nat.
Proof.
  unfold times. induction n as [|n IH]; cbn; [by case_bool_decide|].
  case_bool_decide; cbn; rewrite IH; done.
Qed.
#[global] Arguments times : simpl never.

(** Triggers with distinct keys send distinct requests. *)
Lemma times_concat l t (n : MeasurementTriggerRuntime -> nat) :
  NoDup (trigger_key <$> l) -> Forall trigger_ok l -> t ∈ l ->
  times (request_of t) (concat ((fun t => replicate (n t) (request_of t)) <$> l)) = n t.
Proof.
  intros Hk Hok Ht.
  assert (H0 : forall l, trigger_key t ∉ (trigger_key <$> l) -> Forall trigger_ok l ->
    times (request_of t) (concat ((fun t => replicate (n t) (request_of t)) <$> l)) = 0%nat).
  { clear - Hok Ht. rewrite Forall_forall in Hok. specialize (Hok _ Ht). intros l' Hn Hl'.
    induction Hl' as [|x l' Hx _ IH]; [done|]. cbn. rewrite times_app, times_replicate.
    cbn in Hn. apply not_elem_of_cons in Hn as [Hn1 Hn2]. rewrite IH by done.
    case_bool_decide as E; [|done]. by apply request_of_inj in E. }
  induction l as [|x l IH]; [by apply elem_of_nil in Ht|].
  cbn in *. apply NoDup_cons in Hk as [Hk1 Hk2]. apply Forall_cons in Hok as [Hx Hok].
  rewrite times_app, times_replicate. apply elem_of_cons in Ht as [->|Ht].
  - rewrite H0 by done. rewrite bool_decide_true by done. lia.
  - rewrite (IH Hk2 Hok Ht). case_bool_decide as E; [|done].
    rewrite Forall_forall in Hok. apply request_of_inj in E; [|done|by apply Hok].
    destruct Hk1. rewrite E. by apply list_elem_of_fmap_2.
Qed.

Lemma update_measurements_spec e s :
  Forall trigger_ok (ts_triggers s) -> 0 <= e ->
  update_measurements e s
  = Some (ts_with_triggers (ticked e <$> ts_triggers s) s,
          concat ((fun t => replicate (due_requests (mt_time_interval_ms t)
                                         (sat_add 32 (mt_elapsed_ms t) e)) (request_of t))
                    <$> ts_triggers s)).
Proof.
  intros Ht He. unfold update_measurements, over_triggers.
  rewrite (each_trigger_spec _ (ticked e) (fun t => replicate (due_requests (mt_time_interval_ms t)
    (sat_add 32 (mt_elapsed_ms t) e)) (request_of t))); [done|].
  apply (Forall_impl _ _ _ Ht). intros t Hok. by apply tick_trigger_spec.
Qed.

Lemma triggers_with l s : ts_triggers (ts_with_triggers l s) = l.
Proof. by destruct s. Qed.
Lemma inv_triggers l s :
  server_inv s -> Forall trigger_ok l -> NoDup (trigger_key <$> l) ->
  server_inv (ts_with_triggers l s).
Proof. destruct s. intros []. by split. Qed.
Lemma fmap_key (f : MeasurementTriggerRuntime -> MeasurementTriggerRuntime) (l : list _) :
  (forall t, trigger_key (f t) = trigger_key t) -> trigger_key <$> (f <$> l) = trigger_key <$> l.
Proof. intros Hf. rewrite <- list_fmap_compose. apply list_fmap_ext. intros ? t _. apply Hf. Qed.
Lemma inv_ticked e s :
  server_inv s -> 0 <= e -> server_inv (ts_with_triggers (ticked e <$> ts_triggers s) s).
Proof.
  intros H He. apply inv_triggers; [done|..].
  - apply Forall_fmap. apply (Forall_impl _ _ _ (si_triggers s H)). intros t. cbn.
    intros Ht. by apply ticked_ok.
  - rewrite fmap_key; [apply H|]. apply ticked_key.
Qed.

(** Successive calls of [update_measurements]. *)
Fixpoint measure_run (es : list Z) (s : TaskControllerServer)
    : option (TaskControllerServer * list TCOutbound) :=
  match es with
  | [] => Some (s, [])
  | e :: es =>
      '(s, out) ← update_measurements e s; '(s, rest) ← measure_run es s; Some (s, out ++ rest)
  end.

(** A time trigger asks for its value once per interval whatever the lengths of the ticks:
    after ticks of any lengths it has sent as many requests as whole intervals have passed, and
    the other triggers of the server do not disturb it. *)
Theorem tc_time_trigger_cadence s t i es :
  server_inv s -> t ∈ ts_triggers s -> mt_time_interval_ms t = Some i -> 0 < i ->
  mt_elapsed_ms t < i -> Forall (fun e => 0 <= e /\ i + e <= 2 ^ 32) es ->
  exists s' outs, measure_run es s = Some (s', outs) /\
    times (request_of t) outs = Z.to_nat ((mt_elapsed_ms t + foldr Z.add 0 es) / i).
Proof.
  intros Hs Ht Hti Hi Hel Hes. revert s t Hs Ht Hti Hel.
  induction Hes as [|e es [He Hie] Hes IH]; intros s t Hs Ht Hti Hel; cbn.
  - pose proof (si_triggers s Hs) as Hok. rewrite Forall_forall in Hok.
    destruct (to_counters t (Hok _ Ht)). exists s, []. split; [done|].
    by rewrite Z.add_0_r, Z.div_small by lia.
  - pose proof (si_triggers s Hs) as Hok. rewrite Forall_forall in Hok. specialize (Hok _ Ht).
    destruct (to_counters t Hok) as [H0 _].
    rewrite update_measurements_spec by (done || apply Hs). cbn [mbind option_bind].
    set (s1 := ts_with_triggers _ _).
    assert (Hsat : sat_add 32 (mt_elapsed_ms t) e = mt_elapsed_ms t + e) by (unfold sat_add; lia).
    assert (Hk : ticked e t = mt_with_elapsed ((mt_elapsed_ms t + e) mod i)
                   (if i <=? mt_elapsed_ms t + e then requested t else t)).
    { unfold ticked. rewrite Hti, Hsat. by destruct (Z.eqb_spec i 0); [lia|]. }
    assert (Hk1 : mt_elapsed_ms (ticked e t) = (mt_elapsed_ms t + e) mod i).
    { rewrite Hk. by destruct t, (_ <=? _). }
    assert (Hk2 : request_of (ticked e t) = request_of t).
    { rewrite Hk. by destruct t, (_ <=? _). }
    destruct (IH s1 (ticked e t)) as (s' & outs & -> & Hn).
    + by apply inv_ticked.
    + unfold s1. rewrite triggers_with. by apply list_elem_of_fmap_2.
    + rewrite Hk. by destruct t, (_ <=? _).
    + rewrite Hk1. apply Z.mod_pos_bound. lia.
    + eexists _, _. split; [done|]. rewrite times_app.
      rewrite (times_concat _ t) by (done || apply Hs). rewrite <- Hk2, Hn, Hk1, Hti, Hsat. cbn.
      destruct (Z.eqb_spec i 0); [lia|].
      pose proof (Z.div_mod (mt_elapsed_ms t + e) i) as Hdm.
      assert (Hsum : 0 <= foldr Z.add 0 es).
      { clear - Hes. induction Hes as [|x l [Hx _] _ IHl]; cbn; lia. }
      pose proof (Z.mod_pos_bound (mt_elapsed_ms t + e) i Hi).
      replace (mt_elapsed_ms t + (e + foldr Z.add 0 es))
        with ((mt_elapsed_ms t + e) mod i + foldr Z.add 0 es + (mt_elapsed_ms t + e) / i * i) by lia.
      rewrite Z.div_add by lia. rewrite Z2Nat.inj_add; [lia|apply Z.div_pos; lia|apply Z.div_pos; lia].
Qed.

(** A server with a client that has been heard of, and a trigger every 250 ms. *)
Definition sample_config : TCServerConfig := mkServerConfig 1 4 1 8 2 1.
Definition sample_trigger : MeasurementTriggerRuntime :=
  with_change_threshold 5 (with_time_interval_ms 250 (MeasurementTriggerRuntime_new 0x20 7 0x1234)).
Definition sample_server : TaskControllerServer :=
  (configure_measurement_trigger sample_trigger
     (ensure_client 0x20 (server_start (TaskControllerServer_new sample_config)).1)).1.
Lemma sample_server_inv : server_inv sample_server.
Proof.
  assert (Ht : trigger_ok sample_trigger).
  { split; cbn; [done|done|by unfold in_u|done|]. split; intros x [= <-]; lia. }
  split; cbn.
  - apply NoDup_singleton.
  - constructor; [by apply client_ok_new|constructor].
  - constructor; [exact Ht|constructor].
  - apply NoDup_singleton.
  - by unfold in_u.
  - done.
Qed.

Lemma tc_time_trigger_cadence_witness :
  exists s' outs, measure_run [100; 600; 49; 1] sample_server = Some (s', outs) /\
    times (request_of sample_trigger) outs = 3%nat.
Proof.
  destruct (tc_time_trigger_cadence sample_server sample_trigger 250 [100; 600; 49; 1])
    as (s' & outs & H1 & H2).
  - exact sample_server_inv.
  - apply list_elem_of_here.
  - reflexivity.
  - lia.
  - cbn. lia.
  - repeat constructor; lia.
  - exists s', outs. split; [exact H1|exact H2].
Defined.

(** ** Every operation keeps the invariant *)

Definition good (r : option (TaskControllerServer * list TCOutbound)) : Prop :=
  exists s out, r = Some (s, out) /\ server_inv s /\ Forall out_ok out.
Lemma good_intro s out : server_inv s -> Forall out_ok out -> good (Some (s, out)).
Proof. intros. by exists s, out. Qed.
Lemma good_none s : server_inv s -> good (Some (s, [])).
Proof. intros. by apply good_intro. Qed.
Lemma good_one s o : server_inv s -> out_ok o -> good (Some (s, [o])).
Proof. intros. apply good_intro; [done|by constructor]. Qed.

Lemma over_triggers_good f s :
  server_inv s ->
  (forall t, trigger_ok t -> exists t' out, f t = Some (t', out) /\ trigger_ok t' /\
     trigger_key t' = trigger_key t /\ Forall out_ok out) ->
  good (over_triggers f s).
Proof.
  intros Hs Hf. unfold over_triggers.
  assert (H : forall l, Forall trigger_ok l -> exists l' out, each_trigger f l = Some (l', out) /\
    Forall trigger_ok l' /\ trigger_key <$> l' = trigger_key <$> l /\ Forall out_ok out).
  { induction 1 as [|t l Ht _ (l' & out & IH & H1 & H2 & H3)]; [by exists [], []|].
    destruct (Hf t Ht) as (t' & o & E & Ht' & Hk & Ho). cbn. rewrite E, IH. cbn.
    exists (t' :: l'), (o ++ out). split_and!; [done|by constructor|cbn; by rewrite Hk, H2|].
    by apply Forall_app. }
  destruct (H _ (si_triggers s Hs)) as (l' & out & -> & H1 & H2 & H3).
  apply good_intro; [|done]. apply inv_triggers; [done..|]. rewrite H2. apply Hs.
Qed.

Lemma tick_good e s : server_inv s -> 0 <= e -> good (update_measurements e s).
Proof.
  intros Hs He. apply over_triggers_good; [done|]. intros t Ht.
  rewrite tick_trigger_spec by done. eexists _, _. split; [done|].
  split_and!; [by apply ticked_ok|apply ticked_key|].
  apply Forall_replicate. by apply request_of_ok.
Qed.

Lemma move_good d x s : server_inv s -> 0 <= x -> good (record_measurement_distance d x s).
Proof.
  intros Hs Hx. apply over_triggers_good; [done|]. intros t Ht. unfold move_trigger.
  destruct (negb _); [by exists t, []|].
  destruct (mt_distance_interval_mm t) as [i|] eqn:Ei; [|by exists t, []].
  destruct (Z.eqb_spec i 0); [by exists t, []|].
  pose proof (proj2 (to_intervals t Ht) i Ei). destruct (to_counters t Ht) as [H1 H2].
  pose proof (in_u_sat_add 32 (mt_distance_mm t) x) as Hs32. unfold in_u in Hs32.
  rewrite drain_interval_spec by (done || lia). eexists _, _. split; [done|].
  pose proof (Z.mod_pos_bound (sat_add 32 (mt_distance_mm t) x) i).
  assert (Hk : trigger_ok (if i <=? sat_add 32 (mt_distance_mm t) x then requested t else t)).
  { destruct (_ <=? _); [by apply trigger_ok_requested|done]. }
  split_and!.
  - destruct (if _ : bool then _ else _). destruct Hk as [? ? ? []]. by split; cbn in *; [..|split; [|lia]|].
  - destruct t. by destruct (_ <=? _).
  - apply Forall_replicate. by apply request_of_ok.
Qed.

Lemma value_good d e i v s : server_inv s -> good (update_measurement_value d e i v s).
Proof.
  intros Hs. apply over_triggers_good; [done|]. intros t Ht. unfold value_trigger.
  destruct (same_trigger d e i t); [|by exists t, []].
  assert (Ht' : trigger_ok (mt_with_last (Some v) t)) by (destruct t, Ht; by split).
  destruct (trigger_due v t).
  - rewrite measurement_request_ok by done. eexists _, _. split; [done|].
    split_and!; [by apply trigger_ok_requested|by destruct t|].
    constructor; [by apply request_of_ok|constructor].
  - exists (mt_with_last (Some v) t), []. by destruct t.
Qed.

Lemma configure_good t s :
  server_inv s -> trigger_ok t -> server_inv (configure_measurement_trigger t s).1.
Proof.
  intros Hs Ht. unfold configure_measurement_trigger.
  destruct (_ || _); [done|]. destruct (_ <? _); [done|].
  destruct (build_request_value _ _); [|done]. destruct (_ && _); [done|]. cbn.
  destruct (replace_trigger t (ts_triggers s)) as [l'|] eqn:E.
  - assert (Hl' : Forall trigger_ok l' /\ trigger_key <$> l' = trigger_key <$> ts_triggers s).
    { revert E. pose proof (si_triggers s Hs) as Hl. revert l'.
      induction Hl as [|x l Hx Hl IH]; intros l'; cbn; [done|].
      destruct (same_trigger _ _ _ x) eqn:Es.
      - intros [= <-]. split; [by constructor|]. cbn. f_equal.
        unfold same_trigger in Es. unfold trigger_key. rewrite !andb_true_iff, !Z.eqb_eq in Es.
        destruct Es as [[-> ->] ->]. done.
      - destruct (replace_trigger t l) as [l1|]; [|done]. intros [= <-].
        destruct (IH l1) as [H1 H2]; [done|]. split; [by constructor|]. cbn. by rewrite H2. }
    destruct Hl' as [H1 H2]. apply inv_triggers; [done..|]. rewrite H2. apply Hs.
  - apply inv_triggers; [done|apply Forall_app; split; [apply Hs|by constructor]|].
    rewrite fmap_app. apply NoDup_app. split; [apply Hs|]. split; [|apply NoDup_singleton].
    intros k Hk. cbn. rewrite list_elem_of_singleton. intros ->.
    revert E Hk. induction (ts_triggers s) as [|x l IH]; cbn; intros E Hk; [by apply elem_of_nil in Hk|].
    destruct (same_trigger _ _ _ x) eqn:Es; [done|].
    destruct (replace_trigger t l); [done|]. apply elem_of_cons in Hk as [Hk|Hk]; [|by apply IH].
    unfold trigger_key in Hk. injection Hk as H1 H2 H3.
    unfold same_trigger in Es. by rewrite H1, H2, H3, !Z.eqb_refl in Es.
Qed.

(** ** The handlers *)

Definition usable (a : Address) : Prop := a <> NULL_ADDRESS /\ a <> BROADCAST_ADDRESS.

Lemma client_ok_pool d l c :
  deserialize l = Some (Ok d) -> validate d = Ok tt -> client_ok c -> client_ok (ci_with_pool d l c).
Proof. destruct c. intros Hd Hv []. split; [done..|by right|done]. Qed.

Lemma inv_pool a d l s :
  server_inv s -> deserialize l = Some (Ok d) -> validate d = Ok tt ->
  server_inv (update_client a (ci_with_pool d l) s).
Proof. intros Hs Hd Hv. apply inv_update; [done|by intros []|]. intros c _. by apply client_ok_pool. Qed.

Lemma transfer_good msg s :
  server_inv s -> usable (m_source msg) -> bytes (m_data msg) ->
  good (handle_object_pool_transfer msg s).
Proof.
  intros Hs [Hn Hb] Hd. unfold handle_object_pool_transfer.
  enough (H : exists s' e, (if (length (m_data msg) <=? 8)%nat
      then Some (s, ObjectPoolErrorCodes.AnyOtherError)
      else accept_pool (m_source msg) (drop 1 (m_data msg)) s) = Some (s', e) /\ server_inv s').
  { destruct H as (s' & e & -> & Hs'). apply good_one; [done|]. by apply out_to_ok. }
  destruct (_ <=? _)%nat; [by eexists _, _|]. unfold accept_pool.
  destruct (existsb _ _); [eexists _, _; split; [done|]; by apply inv_ensure|].
  destruct (deserialize_loop_safe (drop 1 (m_data msg))
              ltac:(by apply Forall_drop) (S (length (drop 1 (m_data msg)))) DDOP_default 0)
    as (r & Hr & _); [by split; [split|..]; try constructor|cbn; lia|].
  change (deserialize (drop 1 (m_data msg)) = Some r) in Hr. rewrite Hr.
  destruct r as [d|]; [|by eexists _, _].
  destruct (validate d) as [[]|] eqn:Hv; [|by eexists _, _].
  destruct (find_client _ _); (eexists _, _; split; [done|]); [|by apply inv_ensure].
  apply inv_pool; [by apply inv_ensure|done..].
Qed.

Lemma activate_inv a s : server_inv s -> server_inv (activate_pool a s).1.
Proof.
  intros Hs. unfold activate_pool. destruct (find_client a s) as [c|] eqn:Ec; [|by apply inv_emit].
  destruct (dd_devices (ci_ddop c)) as [|dv dvs] eqn:Ed; [by apply inv_emit|]. cbn.
  pose proof (find_client_Some a s c Ec) as [Hin Ha].
  (* the addressed client is the one found, since addresses are distinct *)
  apply inv_clients; [done|rewrite address_update_first by (by intros []); apply Hs|].
  unfold find_client in Ec. pose proof (si_clients s Hs) as Hl. clear Hin.
  induction Hl as [|x l Hx Hl IH]; cbn in *; [done|].
  destruct (is_client a x) eqn:Ex.
  - injection Ec as ->. constructor; [|done]. destruct c, Hx as [? ? Hp ?]; split; cbn in *; try done.
    intros _. destruct Hp as [[-> _]|[_ Hp]]; [by cbn in Ed|done].
  - constructor; [done|]. by apply IH.
Qed.

Lemma answer_good f msg s :
  server_inv s -> usable (m_source msg) -> (forall s, server_inv s -> length (f s) = 8%nat) ->
  good (Some (answer_request f msg s)).
Proof.
  intros Hs [Hn Hb] Hf. unfold answer_request. destruct (negb _); [by apply good_none|].
  apply good_one; [by apply inv_ensure|]. apply out_to_ok; [|done..]. by apply Hf, inv_ensure.
Qed.

Lemma ack_length e i x : length (encode_process_data_ack e i x) = 8%nat.
Proof. done. Qed.

Lemma i32_le_length v : length (i32_le v) = 4%nat.
Proof. done. Qed.

Lemma handle_value_good cbs msg b s :
  server_inv s -> usable (m_source msg) -> good (handle_value cbs msg b s).
Proof.
  intros Hs [Hn Hb]. unfold handle_value.
  destruct (m_data msg) as [|d0 [|d1 [|d2 [|d3 [|d4 [|d5 [|d6 [|d7 [|]]]]]]]]];
    try by apply good_none.
  destruct (value_good (m_source msg) (element_of d0 d1) (ddi_of d2 d3)
     (to_i32 (Name.from_le_bytes [d4; d5; d6; d7])) (ensure_client (m_source msg) s))
    as (s' & out & -> & Hs' & Ho); [by apply inv_ensure|].
  apply good_intro; [done|]. apply Forall_app. split; [|done].
  destruct b; [constructor; [by apply out_to_ok|constructor]|constructor].
Qed.

Lemma handle_request_value_good cbs msg s :
  server_inv s -> usable (m_source msg) -> good (Some (handle_request_value cbs msg s)).
Proof.
  intros Hs [Hn Hb]. unfold handle_request_value. destruct (negb _); [by apply good_none|].
  destruct (m_data msg) as [|d0 [|d1 [|d2 [|d3 l]]]]; try by apply good_none.
  assert (He : server_inv (ensure_client (m_source msg) s)) by (by apply inv_ensure).
  destruct (cb_value_request cbs) as [cb|]; [|by apply good_none].
  destruct (cb _ _ _); [|by apply good_none]. apply good_one; [done|by apply out_to_ok].
Qed.

Lemma handle_peer_control_good cbs msg s :
  server_inv s -> usable (m_source msg) -> good (Some (handle_peer_control cbs msg s)).
Proof.
  intros Hs [Hn Hb]. unfold handle_peer_control.
  destruct (peer_decode _ _ _) as [a|]; [|by apply good_none].
  assert (He : server_inv (ts_emit (TcsPeerControl a) (ensure_client (m_source msg) s)))
    by (by apply inv_emit, inv_ensure).
  destruct (cb_peer_control cbs); [|by apply good_none]. apply good_one; [done|by apply out_to_ok].
Qed.

Lemma handle_client_task_good msg s :
  server_inv s -> usable (m_source msg) -> good (Some (handle_client_task msg s)).
Proof.
  intros Hs [Hn Hb]. apply good_none. apply inv_update; [by apply inv_ensure|by intros []|].
  intros [] _ []. by split.
Qed.

Lemma handle_version_good msg s : server_inv s -> good (Some (handle_client_version_response msg s)).
Proof.
  intros Hs. unfold handle_client_version_response. destruct (negb _); [by apply good_none|].
  destruct (m_data msg) as [|d0 [|d1 [|d2 [|d3 [|d4 [|d5 [|d6 [|d7 [|]]]]]]]]];
    try by apply good_none.
  destruct (find_client _ _); [|by apply good_none]. apply good_none, inv_emit.
  apply inv_update; [done|by intros []|]. intros [] _ []. by split.
Qed.

Lemma handle_activation_good msg s :
  server_inv s -> usable (m_source msg) ->
  good (Some (handle_activate_deactivate_pool_request msg s)).
Proof.
  intros Hs [Hn Hb]. unfold handle_activate_deactivate_pool_request.
  destruct (is_deactivate_pool_request _).
  - destruct (find_client _ _); (apply good_one; [|by apply out_to_ok]); [|done].
    apply inv_update; [done|by intros []|]. intros [] _ []. by split.
  - pose proof (activate_inv (m_source msg) s Hs) as Ha. destruct (activate_pool _ _) as [s' e].
    apply good_one; [done|by apply out_to_ok].
Qed.

Lemma handle_delete_good msg s :
  server_inv s -> usable (m_source msg) -> good (Some (handle_delete_pool_request msg s)).
Proof.
  intros Hs [Hn Hb]. apply good_one; [|by apply out_to_ok].
  apply inv_update; [done|by intros []|]. intros [] _ []. split; [done..|by left|done].
Qed.

(** A handler's result, or an error that changes nothing. *)
Definition answers (s : TaskControllerServer) (r : ServerResult) : Prop :=
  (exists e, r = Some (s, Err e)) \/
  exists s' out, r = Some (s', Ok out) /\ server_inv s' /\ Forall out_ok out.
Lemma answers_ok s r : good (Some r) -> answers s (server_ok r).
Proof. intros (s' & out & [= ->] & H1 & H2). right. by exists s', out. Qed.
Lemma answers_try s r : good r -> answers s (server_try r).
Proof. intros (s' & out & -> & H1 & H2). right. by exists s', out. Qed.
Lemma answers_checked b e s r : answers s r -> answers s (checked b e s r).
Proof. intros H. unfold checked. destruct b; [done|]. left. by eexists. Qed.

Lemma try_handle_client_message_answers cbs msg s :
  server_inv s -> bytes (m_data msg) -> answers s (try_handle_client_message cbs msg s).
Proof.
  intros Hs Hd. unfold try_handle_client_message.
  destruct (negb (m_pgn msg =? _)); [left; by eexists|].
  destruct (has_usable_source msg) eqn:Hu; cbn [negb]; [|left; by eexists].
  assert (Ha : usable (m_source msg)).
  { unfold has_usable_source in Hu. rewrite andb_true_iff, !negb_true_iff, !Z.eqb_neq in Hu. done. }
  destruct (negb _); [left; by eexists|]. destruct (m_data msg) as [|first data] eqn:Hm; [left; by eexists|].
  rewrite <- Hm in Hd. unfold dispatch_client.
  assert (Hlen : forall s, server_inv s -> length (tech_capabilities s) = 8%nat) by done.
  repeat match goal with
  | |- answers _ (if _ then checked _ _ _ _ else _) => case_match; [apply answers_checked, answers_ok|]
  end.
  - by apply handle_version_good.
  - by apply answer_good.
  - apply answer_good; [done..|]. intros s' Hs'. cbn. by rewrite (proj1 (si_labels s' Hs')).
  - apply answer_good; [done..|]. intros s' Hs'. cbn. by rewrite (proj2 (si_labels s' Hs')).
  - case_match; [by apply answers_try, transfer_good|].
    repeat match goal with
    | |- answers _ (if _ then checked _ _ _ _ else _) =>
        case_match; [apply answers_checked, answers_ok|]
    end; [by apply handle_activation_good|by apply handle_delete_good|].
    destruct (ProcessDataCommands.try_from_u8 first) as [cmd|]; [|left; by eexists].
    destruct cmd; try (left; by eexists); apply answers_checked;
      first [apply answers_try; by apply handle_value_good|apply answers_ok].
    + by apply handle_request_value_good.
    + by apply handle_peer_control_good.
    + by apply handle_client_task_good.
Qed.

Lemma working_set_answers msg s :
  server_inv s -> answers s (Some (try_handle_working_set_master msg s)).
Proof.
  intros Hs. unfold try_handle_working_set_master.
  destruct (negb (m_pgn msg =? _)); [left; by eexists|].
  destruct (has_usable_source msg) eqn:Hu; cbn [negb]; [|left; by eexists].
  unfold has_usable_source in Hu. rewrite andb_true_iff, !negb_true_iff, !Z.eqb_neq in Hu.
  destruct Hu. do 2 (destruct (negb _); [left; by eexists|]). right.
  eexists _, _. split; [done|]. split; [by apply inv_ensure|].
  unfold request_client_version. destruct (existsb _ _); cbn; [|constructor].
  constructor; [by apply out_to_ok|constructor].
Qed.

(** ** Time *)

(** The clients that ageing keeps. *)
Definition kept (e : Z) (c : TCClientInfo) : bool := negb (is_lost (age_client e c)).

Lemma existsb_address_lost (l : list TCClientInfo) c :
  NoDup (ci_address <$> l) -> c ∈ l ->
  existsb (Z.eqb (ci_address c)) (ci_address <$> List.filter is_lost l) = is_lost c.
Proof.
  intros Hd Hc. apply eq_true_iff_eq. rewrite existsb_exists. split.
  - intros (a & Ha & <-%Z.eqb_eq). apply list_elem_of_In, list_elem_of_fmap in Ha as (c' & E & Hc').
    apply list_elem_of_In, filter_In in Hc' as [Hin Hl]. apply list_elem_of_In in Hin.
    assert (c' = c) as ->; [|done]. apply list_elem_of_lookup in Hc as [i Hi].
    apply list_elem_of_lookup in Hin as [j Hj].
    assert (i = j); [|congruence].
    eapply NoDup_lookup; [done|..]; rewrite list_lookup_fmap; [by rewrite Hi|rewrite Hj; cbn; by rewrite <- E].
  - intros Hl. exists (ci_address c). split; [|apply Z.eqb_refl].
    apply list_elem_of_In, list_elem_of_fmap. exists c. split; [done|].
    apply list_elem_of_In, filter_In. split; [by apply list_elem_of_In|done].
Qed.

Lemma emit_all {A} (f : A -> TcsEvent) l s :
  ts_clients (foldl (fun s a => ts_emit (f a) s) s l) = ts_clients s /\
  ts_trace (foldl (fun s a => ts_emit (f a) s) s l) = ts_trace s ++ (f <$> l) /\
  ts_machine (foldl (fun s a => ts_emit (f a) s) s l) = ts_machine s /\
  (server_inv s -> server_inv (foldl (fun s a => ts_emit (f a) s) s l)).
Proof.
  revert s. induction l as [|a l IH]; intros s; cbn; [by rewrite app_nil_r|].
  destruct (IH (ts_emit (f a) s)) as (-> & -> & -> & H). destruct s. cbn.
  rewrite <- app_assoc. split_and!; [done..|]. intros Hs. by apply H, inv_emit.
Qed.

Definition lost_addresses (e : Z) (s : TaskControllerServer) : list Address :=
  ci_address <$> List.filter is_lost (age_client e <$> ts_clients s).

Lemma age_address e c : ci_address (age_client e c) = ci_address c.
Proof. by destruct c. Qed.
Lemma aged_addresses e (l : list TCClientInfo) : ci_address <$> (age_client e <$> l) = ci_address <$> l.
Proof. rewrite <- list_fmap_compose. apply list_fmap_ext. intros ? c _. apply age_address. Qed.

Lemma age_clients_spec e s :
  NoDup (ci_address <$> ts_clients s) ->
  ts_clients (age_clients e s)
    = List.filter (fun c => negb (is_lost c)) (age_client e <$> ts_clients s) /\
  ts_trace (age_clients e s) = ts_trace s ++ (TcsClientDisconnected <$> lost_addresses e s) /\
  ts_machine (age_clients e s) = ts_machine s.
Proof.
  intros Hd. unfold age_clients. fold (lost_addresses e s).
  destruct (emit_all TcsClientDisconnected (lost_addresses e s)
    (ts_with_clients (List.filter (fun c => negb (existsb (Z.eqb (ci_address c))
       (lost_addresses e s))) (age_client e <$> ts_clients s)) s)) as (-> & -> & -> & _).
  split_and!; [|by destruct s..]. trans (List.filter (fun c => negb (existsb (Z.eqb (ci_address c))
       (lost_addresses e s))) (age_client e <$> ts_clients s)); [by destruct s|].
  apply List.filter_ext_in. intros c Hc. unfold lost_addresses.
  by rewrite existsb_address_lost; [|rewrite aged_addresses|apply list_elem_of_In].
Qed.

Lemma client_ok_aged e c : 0 <= e -> client_ok c -> client_ok (age_client e c).
Proof.
  intros He Hc. apply client_ok_status; [|done]. destruct Hc as [_ [? ?] _ _].
  apply in_u_sat_add; lia.
Qed.

Lemma Forall_list_filter {A} (P : A -> Prop) (f : A -> bool) l :
  Forall P l -> Forall P (List.filter f l).
Proof. induction 1 as [|x l Hx _ IH]; cbn; [done|]. destruct (f x); [by constructor|done]. Qed.
Lemma NoDup_list_filter {A B} (g : A -> B) (f : A -> bool) (l : list A) :
  NoDup (g <$> l) -> NoDup (g <$> List.filter f l).
Proof.
  induction l as [|x l IH]; cbn; [done|]. intros [Hx Hl]%NoDup_cons.
  destruct (f x); [|by apply IH]. cbn. apply NoDup_cons. split; [|by apply IH].
  intros (y & Hy & Hin)%list_elem_of_fmap. apply Hx. rewrite Hy. apply list_elem_of_fmap_2.
  apply list_elem_of_In, filter_In in Hin as [Hin _]. by apply list_elem_of_In.
Qed.

Lemma inv_age e s : server_inv s -> 0 <= e -> server_inv (age_clients e s).
Proof.
  intros Hs He. unfold age_clients. apply emit_all. apply inv_clients; [done|..].
  - apply NoDup_list_filter. rewrite aged_addresses. apply Hs.
  - apply Forall_list_filter, Forall_fmap. apply (Forall_impl _ _ _ (si_clients s Hs)).
    intros c. by apply client_ok_aged.
Qed.

Lemma inv_timer x s : server_inv s -> in_u 32 x -> server_inv (ts_with_timer x s).
Proof. destruct s. intros [] ?. by split. Qed.

Lemma status_length s : length (encode_tc_status s) = 8%nat.
Proof. done. Qed.

Lemma server_update_good e s :
  server_inv s -> 0 <= e -> server_inv (server_update e s).1.
Proof.
  intros Hs He. unfold server_update. case_bool_decide; [done|].
  pose proof (inv_age e s Hs He) as Ha. destruct (si_timer _ Ha).
  pose proof (in_u_sat_add 32 (ts_status_timer_ms (age_clients e s)) e) as Ht.
  destruct (Z.leb_spec TC_STATUS_INTERVAL_MS
    (sat_add 32 (ts_status_timer_ms (age_clients e s)) e)) as [Hle|Hlt]; cbn;
    apply inv_timer; try done; [|apply Ht; lia].
  unfold TC_STATUS_INTERVAL_MS, in_u in *. lia.
Qed.

(** The rest of the server after ageing, and the status message when it is due. *)
Lemma age_rest e s :
  ts_config (age_clients e s) = ts_config s /\
  ts_structure_label (age_clients e s) = ts_structure_label s /\
  ts_status_timer_ms (age_clients e s) = ts_status_timer_ms s.
Proof.
  unfold age_clients. generalize (ci_address <$> List.filter is_lost (age_client e <$> ts_clients s)).
  intros lost. assert (H : forall l s, let s' := foldl (fun s addr => ts_emit (TcsClientDisconnected addr) s) s l in
    ts_config s' = ts_config s /\ ts_structure_label s' = ts_structure_label s /\
    ts_status_timer_ms s' = ts_status_timer_ms s).
  { clear. induction l as [|a l IH]; intros s; cbn; [done|].
    destruct (IH (ts_emit (TcsClientDisconnected a) s)) as (-> & -> & ->). by destruct s. }
  destruct (H lost (ts_with_clients (List.filter
    (fun c => negb (existsb (Z.eqb (ci_address c)) lost)) (age_client e <$> ts_clients s)) s))
    as (-> & -> & ->). by destruct s.
Qed.

Lemma update_rest e s :
  ts_config (server_update e s).1 = ts_config s /\
  ts_structure_label (server_update e s).1 = ts_structure_label s /\
  (ts_state s <> TCServerState.Disconnected ->
   let timer := sat_add 32 (ts_status_timer_ms s) e in
   if TC_STATUS_INTERVAL_MS <=? timer
   then ts_status_timer_ms (server_update e s).1 = timer - TC_STATUS_INTERVAL_MS /\
        exists s0, (server_update e s).2 = Some (encode_tc_status s0)
   else ts_status_timer_ms (server_update e s).1 = timer /\ (server_update e s).2 = None).
Proof.
  unfold server_update. destruct (age_rest e s) as (Hg & Hl & Ht).
  case_bool_decide; [done|]. rewrite Ht. destruct (age_clients e s). cbn in *. subst.
  destruct (_ <=? _); cbn; (split; [done|]; split; [done|]; intros _); [|done].
  split; [done|]. by eexists.
Qed.

(** What an update does to one client. *)
Definition aged (e : Z) (c : TCClientInfo) : option TCClientInfo :=
  if is_lost (age_client e c) then None else Some (age_client e c).

Lemma update_core e s :
  ts_state s <> TCServerState.Disconnected ->
  ts_clients (server_update e s).1 = ts_clients (age_clients e s) /\
  ts_trace (server_update e s).1 = ts_trace (age_clients e s) /\
  ts_machine (server_update e s).1 = ts_machine (age_clients e s).
Proof.
  intros Hst. unfold server_update. rewrite bool_decide_false by done.
  by destruct (_ <=? _); destruct (age_clients e s).
Qed.

Lemma find_aged e a (l : list TCClientInfo) :
  NoDup (ci_address <$> l) ->
  List.find (is_client a) (List.filter (fun c => negb (is_lost c)) (age_client e <$> l))
  = List.find (is_client a) l ≫= aged e.
Proof.
  induction l as [|c l IH]; cbn; [done|]. intros [Hc Hl]%NoDup_cons. specialize (IH Hl).
  assert (Hi : is_client a (age_client e c) = is_client a c) by (by destruct c).
  destruct (is_client a c) eqn:Ea; cbn.
  - unfold aged at 1. destruct (is_lost (age_client e c)); cbn; [|by rewrite Hi].
    rewrite IH. unfold is_client in Ea. apply Z.eqb_eq in Ea as <-.
    destruct (List.find _ l) as [c'|] eqn:Ef; [|done]. apply find_some in Ef as [Hin He].
    apply Z.eqb_eq in He. destruct Hc. rewrite <- He. by apply list_elem_of_fmap_2, list_elem_of_In.
  - destruct (is_lost (age_client e c)); cbn; rewrite ?Hi; done.
Qed.

Lemma find_server_update e a s :
  server_inv s -> ts_state s <> TCServerState.Disconnected ->
  find_client a (server_update e s).1 = find_client a s ≫= aged e.
Proof.
  intros Hs Hst. unfold find_client. rewrite (proj1 (update_core e s Hst)).
  rewrite (proj1 (age_clients_spec e s (si_addresses s Hs))). apply find_aged, Hs.
Qed.

(** Successive updates, and how often the loss of a client was reported. *)
Definition server_ticks (es : list Z) (s : TaskControllerServer) : TaskControllerServer :=
  foldl (fun s e => (server_update e s).1) s es.
#[global] Instance TcsEvent_eq_dec : EqDecision TcsEvent.
Proof.
  assert (EqDecision PeerControlAssignment) by solve_decision. solve_decision.
Defined.
Definition losses (a : Address) (s : TaskControllerServer) : nat :=
  length (List.filter (fun x => bool_decide (x = TcsClientDisconnected a)) (ts_trace s)).

Lemma losses_update e a s :
  server_inv s -> ts_state s <> TCServerState.Disconnected ->
  losses a (server_update e s).1
  = (losses a s + if find_client a s is Some c then if is_lost (age_client e c) then 1 else 0 else 0)%nat.
Proof.
  intros Hs Hst. unfold losses. rewrite (proj1 (proj2 (update_core e s Hst))).
  destruct (age_clients_spec e s (si_addresses s Hs)) as (_ & -> & _).
  rewrite List.filter_app, length_app. f_equal. unfold lost_addresses, find_client.
  pose proof (si_addresses s Hs) as Hd. induction (ts_clients s) as [|c l IH]; [done|].
  cbn in Hd. apply NoDup_cons in Hd as [Hc Hl]. specialize (IH Hl). cbn. unfold is_client at 1.
  destruct (Z.eqb_spec (ci_address c) a) as [<-|Hn].
  - assert (H0 : List.find (is_client (ci_address c)) l = None).
    { pose proof (proj2 (find_client_None (ci_address c) (ts_with_clients l s))) as H.
      destruct s. by apply H. }
    rewrite H0 in IH. destruct (is_lost (age_client e c)); cbn; [|done].
    rewrite age_address, bool_decide_true by done. cbn. by rewrite IH.
  - rewrite <- IH. destruct (is_lost (age_client e c)); cbn; [|done].
    rewrite age_address, bool_decide_false by congruence. done.
Qed.

Lemma update_state e s :
  server_inv s -> ts_state s <> TCServerState.Disconnected ->
  ts_state (server_update e s).1 = ts_state s.
Proof.
  intros Hs Hst. unfold ts_state. rewrite (proj2 (proj2 (update_core e s Hst))).
  by rewrite (proj2 (proj2 (age_clients_spec e s (si_addresses s Hs)))).
Qed.

(** An unknown client stays unknown, and its loss is not reported. *)
Lemma gone_stays a es s :
  Forall (fun e => 0 <= e) es -> server_inv s -> ts_state s <> TCServerState.Disconnected ->
  find_client a s = None ->
  find_client a (server_ticks es s) = None /\ losses a (server_ticks es s) = losses a s.
Proof.
  intros Hes. revert s. induction Hes as [|e es He Hes IH]; intros s Hs Hst Hf; [done|].
  change (server_ticks (e :: es) s) with (server_ticks es (server_update e s).1).
  destruct (IH (server_update e s).1) as [-> ->].
  - by apply server_update_good.
  - by rewrite update_state.
  - by rewrite find_server_update, Hf.
  - split; [done|]. rewrite losses_update by done. rewrite Hf. lia.
Qed.

(** The server gives a client up exactly when it has been silent for six seconds: over ticks
    of any lengths without a message, a client is kept, with everything known of it, while the
    time since its last message stays below the limit; once the limit is reached it is gone, and
    its loss has been reported exactly once. *)
Theorem tc_client_silence s a c es :
  server_inv s -> ts_state s <> TCServerState.Disconnected -> find_client a s = Some c ->
  ci_last_status_ms c < TC_CLIENT_TIMEOUT_MS -> Forall (fun e => 0 <= e) es ->
  let silent := ci_last_status_ms c + foldr Z.add 0 es in
  (silent < TC_CLIENT_TIMEOUT_MS ->
     find_client a (server_ticks es s) = Some (ci_with_status silent c) /\
     losses a (server_ticks es s) = losses a s) /\
  (TC_CLIENT_TIMEOUT_MS <= silent ->
     find_client a (server_ticks es s) = None /\
     losses a (server_ticks es s) = S (losses a s)).
Proof.
  intros Hs Hst Hf Hc Hes. revert s c Hs Hst Hf Hc.
  induction Hes as [|e es He Hes IH]; intros s c Hs Hst Hf Hc silent.
  - unfold silent. cbn. rewrite Z.add_0_r. split; [|lia]. intros _. split; [|done]. rewrite Hf. by destruct c.
  - assert (Hin : 0 <= ci_last_status_ms c < 6000).
    { pose proof (si_clients s Hs) as Hl. rewrite Forall_forall in Hl.
      destruct (Hl c) as [_ [? ?] _ _]; [by apply find_client_Some in Hf as [? _]|]. done. }
    assert (Hsum : 0 <= foldr Z.add 0 es).
    { clear - Hes. induction Hes; cbn; lia. }
    pose proof (server_update_good e s Hs He) as Hs'.
    assert (Hst' : ts_state (server_update e s).1 <> TCServerState.Disconnected)
      by (by rewrite update_state).
    pose proof (find_server_update e a s Hs Hst) as Hf'. rewrite Hf in Hf'. cbn in Hf'.
    pose proof (losses_update e a s Hs Hst) as Hl. rewrite Hf in Hl.
    assert (Hage : ci_last_status_ms (age_client e c) = Z.min (ci_last_status_ms c + e) (2 ^ 32 - 1))
      by (by destruct c).
    change (server_ticks (e :: es) s) with (server_ticks es (server_update e s).1).
    unfold silent. cbn [foldr]. unfold aged, is_lost in *. rewrite Hage in *.
    destruct (Z.leb_spec TC_CLIENT_TIMEOUT_MS (Z.min (ci_last_status_ms c + e) (2 ^ 32 - 1))) as [Hle|Hlt].
    + destruct (gone_stays a es (server_update e s).1) as [-> ->]; [done..|]. rewrite Hl.
      unfold TC_CLIENT_TIMEOUT_MS, TC_STATUS_INTERVAL_MS in *. split; [lia|]. split; [done|lia].
    + unfold TC_CLIENT_TIMEOUT_MS, TC_STATUS_INTERVAL_MS in *.
      destruct (IH (server_update e s).1 (age_client e c)) as [IH1 IH2]; [done..|lia|].
      rewrite Hl, Nat.add_0_r, Hage in *.
      replace (Z.min (ci_last_status_ms c + e) (2 ^ 32 - 1) + foldr Z.add 0 es)
        with (ci_last_status_ms c + (e + foldr Z.add 0 es)) in * by lia.
      split; [|exact IH2]. intros Hlt'. destruct (IH1 Hlt') as [-> ->]. by destruct c.
Qed.

Lemma tc_client_silence_witness :
  losses 0x20 (server_ticks [2000; 3999] sample_server) = 0%nat /\
  losses 0x20 (server_ticks [2000; 3999; 1] sample_server) = 1%nat.
Proof.
  assert (Hf : find_client 0x20 sample_server = Some (TCClientInfo_new 0x20)) by reflexivity.
  assert (Hst : ts_state sample_server <> TCServerState.Disconnected) by discriminate.
  split.
  - apply (tc_client_silence sample_server 0x20 _ [2000; 3999] sample_server_inv Hst Hf);
      [by vm_compute|repeat constructor; lia|by vm_compute].
  - apply (tc_client_silence sample_server 0x20 _ [2000; 3999; 1] sample_server_inv Hst Hf);
      [by vm_compute|repeat constructor; lia|by vm_compute].
Defined.

(** ** Every run *)

Inductive TcsOp : Type :=
| OpMessage (cbs : Callbacks) (msg : Message)
| OpWorkingSetMaster (msg : Message)
| OpUpdate (elapsed_ms : Z)
| OpStart
| OpStop
| OpConfigure (t : MeasurementTriggerRuntime)
| OpClear (destination element ddi : Z)
| OpMeasure (elapsed_ms : Z)
| OpDistance (destination distance_mm : Z)
| OpActivate (a : Address)
| OpLabels (structure localization : list Z)
| OpFlags (f : TcsFlags).

Definition sent_of (r : ServerResult) : option (TaskControllerServer * list TCOutbound) :=
  '(s, r) ← r; Some (s, match r with Ok out => out | Err _ => [] end).
Definition tcs_apply (op : TcsOp) (s : TaskControllerServer)
    : option (TaskControllerServer * list TCOutbound) :=
  match op with
  | OpMessage cbs msg => sent_of (try_handle_client_message cbs msg s)
  | OpWorkingSetMaster msg => sent_of (Some (try_handle_working_set_master msg s))
  | OpUpdate e =>
      let '(s, status) := server_update e s in Some (s, out_broadcast <$> option_list status)
  | OpStart => Some ((server_start s).1, [])
  | OpStop => Some (server_stop s, [])
  | OpConfigure t =>
      let '(s, r) := configure_measurement_trigger_with_initial t s in
      Some (s, match r with Ok o => [o] | Err _ => [] end)
  | OpClear d e i => Some ((clear_measurement_trigger d e i s).1, [])
  | OpMeasure e => update_measurements e s
  | OpDistance d x => record_measurement_distance d x s
  | OpActivate a => Some ((activate_pool a s).1, [])
  | OpLabels sl ll => Some (set_localization_label ll (set_structure_label sl s), [])
  | OpFlags f => Some (ts_with_flags f s, [])
  end.
Definition op_typed (op : TcsOp) : Prop :=
  match op with
  | OpMessage _ msg => bytes (m_data msg)
  | OpUpdate e | OpMeasure e | OpDistance _ e => 0 <= e
  | OpConfigure t => 0 <= mt_element t /\ in_u 16 (mt_ddi t) /\
      (0 <= mt_elapsed_ms t /\ 0 <= mt_distance_mm t) /\
      (forall x, mt_time_interval_ms t = Some x -> 0 <= x) /\
      (forall x, mt_distance_interval_mm t = Some x -> 0 <= x)
  | OpLabels sl ll => length sl = 7%nat /\ length ll = 7%nat
  | _ => True
  end.
Fixpoint tcs_run (ops : list TcsOp) (s : TaskControllerServer)
    : option (TaskControllerServer * list TCOutbound) :=
  match ops with
  | [] => Some (s, [])
  | op :: ops => '(s, out) ← tcs_apply op s; '(s, rest) ← tcs_run ops s; Some (s, out ++ rest)
  end.

Lemma sent_of_good s r : server_inv s -> answers s r -> good (sent_of r).
Proof. intros Hs [[e ->]|(s' & out & -> & H1 & H2)]; [by apply good_none|by apply good_intro]. Qed.

Lemma configure_with_initial_good t s :
  server_inv s -> op_typed (OpConfigure t) -> good (tcs_apply (OpConfigure t) s).
Proof.
  intros Hs (He & Hd & Hc & Hi). cbn. unfold configure_measurement_trigger_with_initial.
  destruct ((mt_destination t =? NULL_ADDRESS) || (mt_destination t =? BROADCAST_ADDRESS)
            || (MAX_PROCESS_DATA_ELEMENT_NUMBER <? mt_element t)) eqn:Hv.
  - unfold configure_measurement_trigger. rewrite orb_true_iff in Hv.
    destruct (_ || _); [by apply good_none|]. destruct Hv as [Hv|Hv]; [done|]. rewrite Hv. by apply good_none.
  - rewrite !orb_false_iff, !Z.eqb_neq, Z.ltb_ge in Hv. destruct Hv as [[Hn Hb] Hm].
    assert (Ht : trigger_ok t) by (split; [done|by split|done..]).
    pose proof (configure_good t s Hs Ht) as Hg.
    destruct (configure_measurement_trigger t s) as [s' [u|err] ]; [|by apply good_none].
    unfold build_request_value, encode_process_data_payload, encode_process_data_payload_bytes.
    destruct (_ <? _); [by apply good_none|]. apply good_one; [done|]. by apply out_to_ok.
Qed.

Lemma tcs_apply_good op s : server_inv s -> op_typed op -> good (tcs_apply op s).
Proof.
  intros Hs Hop. destruct op; cbn [tcs_apply op_typed] in *.
  - by apply (sent_of_good s); [|apply try_handle_client_message_answers].
  - by apply (sent_of_good s); [|apply working_set_answers].
  - pose proof (server_update_good elapsed_ms s Hs Hop) as Hu. unfold server_update in *.
    case_bool_decide; [by apply good_none|]. destruct (_ <=? _); [|by apply good_none].
    by apply good_one; [|split].
  - apply good_none. unfold server_start. repeat case_match; try done. by apply inv_transition.
  - apply good_none. unfold server_stop. apply inv_clients; [by apply inv_transition|constructor..].
  - by apply configure_with_initial_good.
  - apply good_none. apply inv_triggers; [done|by apply Forall_list_filter, Hs|].
    by apply NoDup_list_filter, Hs.
  - by apply tick_good.
  - by apply move_good.
  - by apply good_none, activate_inv.
  - apply good_none. destruct s, Hs. by split.
  - apply good_none. destruct s, Hs. by split.
Qed.



(** ** Peer control *)

(** A peer control assignment survives the wire: what validates is encoded into eight bytes
    that decode, at the receiver, to the same assignment, inactive. *)
Theorem tc_peer_control_roundtrip a :
  validate_assignment a = Ok tt -> in_u 16 (pc_source_element a) -> in_u 16 (pc_source_ddi a) ->
  in_u 16 (pc_destination_element a) -> in_u 16 (pc_destination_ddi a) ->
  exists data, peer_try_encode a = Ok data /\ length data = 8%nat /\
    peer_decode data (pc_source_address a) (pc_destination_address a) = Ok (with_active false a).
Proof.
  intros Hv He Hi Hde Hdi. unfold peer_try_encode. rewrite Hv. cbn [try_bind].
  eexists. split; [done|]. split; [done|].
  assert (Hm : 0 <= pc_source_element a <= MAX_PROCESS_DATA_ELEMENT_NUMBER).
  { unfold validate_assignment in Hv. destruct (Z.ltb_spec MAX_PEER_CONTROL_SOURCE_ELEMENT
      (pc_source_element a)) as [|Hle]; [done|]. destruct He. split; [done|exact Hle]. }
  assert (H12 : in_u 12 (pc_source_element a))
    by (unfold MAX_PROCESS_DATA_ELEMENT_NUMBER, in_u in *; lia).
  destruct (head_low_nibble ProcessDataCommands.PeerControlAssignment (pc_source_element a)
              (pc_source_ddi a) H12 Hi) as (d0 & d1 & d2 & d3 & Hh & H1 & H2 & H3).
  unfold peer_encode_unchecked, push_u16_le. rewrite Hh. cbn [app peer_decode].
  rewrite H1, H2, H3, Z.eqb_refl, !ddi_of_le by done. cbn [negb].
  replace (validate_assignment _) with (validate_assignment a) by (by destruct a).
  rewrite Hv. cbn. by destruct a.
Qed.

Lemma tc_peer_control_roundtrip_witness :
  exists data, peer_try_encode (mkPeer 0xABC 0x1234 0x8001 0xFFFE 0x20 0x30 true) = Ok data /\
    peer_decode data 0x20 0x30 = Ok (mkPeer 0xABC 0x1234 0x8001 0xFFFE 0x20 0x30 false).
Proof.
  destruct (tc_peer_control_roundtrip (mkPeer 0xABC 0x1234 0x8001 0xFFFE 0x20 0x30 true))
    as (data & H1 & _ & H2); [reflexivity|by unfold in_u..|].
  exists data. split; [exact H1|exact H2].
Defined.

(** ** No exchange of values without end *)

Lemma value_trigger_settles d e i v t :
  trigger_ok t -> (forall x, mt_change_threshold t = Some x -> 0 < x) ->
  exists t' out, value_trigger d e i v t = Some (t', out) /\ (length out <= 1)%nat /\
    value_trigger d e i v t' = Some (t', []).
Proof.
  intros Ht Hc. unfold value_trigger at 1. destruct (same_trigger d e i t) eqn:Es.
  2: { exists t, []. split_and!; [done|cbn; lia|]. unfold value_trigger. by rewrite Es. }
  assert (Hagain : forall x, value_trigger d e i v (mt_with_requested x (mt_with_last (Some v) t))
                   = Some (mt_with_requested x (mt_with_last (Some v) t), [])).
  { intros x. unfold value_trigger.
    assert (Hd : trigger_due v (mt_with_requested x (mt_with_last (Some v) t)) = false).
    { destruct t as [? ? ? ? ? ? mn mx ch ? ? ? ?]. cbn in *. unfold trigger_due. cbn.
      unfold abs_diff.
      rewrite Z.eqb_refl, Z.sub_diag, andb_false_r. cbn [negb orb Z.abs].
      rewrite !orb_false_iff. split_and!.
      - destruct ch as [x0|]; [|done]. specialize (Hc x0 eq_refl).
        apply Z.leb_gt. lia.
      - destruct mn as [x0|]; [|done].
        destruct (Z.leb_spec v x0), (Z.ltb_spec x0 v); (done || lia).
      - destruct mx as [x0|]; [|done].
        destruct (Z.leb_spec x0 v), (Z.ltb_spec v x0); (done || lia). }
    replace (same_trigger d e i _) with true by (destruct t; by rewrite <- Es).
    rewrite Hd. by destruct t. }
  destruct (trigger_due v t).
  - rewrite measurement_request_ok by (destruct t, Ht; by split).
    eexists _, _. split_and!; [done|done|]. unfold requested. apply Hagain.
  - eexists _, _. split_and!; [done|cbn; lia|].
    pose proof (Hagain (mt_last_requested_value t)) as H. by destruct t.
Qed.

(** Reported values do not feed on themselves: a value makes the server ask for it at most
    once per trigger, and the same value reported again, as the answer to such a request is,
    makes it ask for nothing. *)
Theorem tc_no_request_storm destination element ddi value s :
  server_inv s ->
  Forall (fun t => forall x, mt_change_threshold t = Some x -> 0 < x) (ts_triggers s) ->
  exists s' out,
    update_measurement_value destination element ddi value s = Some (s', out) /\
    (length out <= length (ts_triggers s))%nat /\
    update_measurement_value destination element ddi value s' = Some (s', []).
Proof.
  intros Hs Hc. unfold update_measurement_value, over_triggers.
  assert (H : exists l' out,
    each_trigger (value_trigger destination element ddi value) (ts_triggers s) = Some (l', out) /\
    (length out <= length (ts_triggers s))%nat /\
    each_trigger (value_trigger destination element ddi value) l' = Some (l', [])).
  { pose proof (si_triggers s Hs) as Hok. clear Hs.
    induction (ts_triggers s) as [|t l IH]; [by exists [], []|].
    apply Forall_cons in Hc as [Hct Hc]. apply Forall_cons in Hok as [Ht Hok].
    destruct (IH Hc Hok) as (l' & out & E1 & Hlen & E2).
    destruct (value_trigger_settles destination element ddi value t Ht Hct)
      as (t' & o & E3 & Ho & E4).
    exists (t' :: l'), (o ++ out). cbn. rewrite E3, E1. cbn. rewrite length_app.
    split_and!; [done|lia|]. by rewrite E4, E2. }
  destruct H as (l' & out & -> & Hlen & E). eexists _, _. split_and!; [done|done|].
  rewrite triggers_with, E. by destruct s.
Qed.

Lemma tc_no_request_storm_witness :
  exists s' out,
    update_measurement_value 0x20 7 0x1234 100 sample_server = Some (s', out) /\
    (length out <= 1)%nat /\
    update_measurement_value 0x20 7 0x1234 100 s' = Some (s', []).
Proof.
  apply (tc_no_request_storm 0x20 7 0x1234 100 sample_server sample_server_inv).
  repeat constructor. intros x [= <-]. lia.
Defined.
