(* ===== verification/TcClient.v ===== *)
(** The task controller client: the model of [src/isobus/tc/client.rs].

    The states it enters are appended to [tcc_trace]; the application's callbacks are arguments
    of the handler that calls them. *)
From S2P Require Export TcTypes.

Definition MAX_TC_PROCESS_DATA_ELEMENT_NUMBER : Z := 0x0FFF.
Definition CLIENT_TASK_INTERVAL_MS : Z := 2000.

Module TCClientTaskStatus.
Inductive t : Type := Idle | Active | Paused | Completed.
Definition as_u8 (x : t) : Z :=
  match x with Idle => 0x00 | Active => 0x01 | Paused => 0x02 | Completed => 0x03 end.
End TCClientTaskStatus.

Record TCClientConfig : Type := mkTcConfig { tcc_timeout_ms : Z }.
Definition TCClientConfig_default : TCClientConfig := mkTcConfig 6000.

Record TCClientCapabilities : Type := mkCaps {
  cap_version : Z;
  cap_max_boot_time : Z;
  cap_options : Z;
  cap_booms : Z;
  cap_sections : Z;
  cap_channels : Z
}.
Definition TCClientCapabilities_default : TCClientCapabilities := mkCaps 4 0xFF 0 0 0 0.

Module TCState.
Inductive t : Type :=
| Disconnected | WaitForStartup | WaitForServerStatus | SendWorkingSetMaster | RequestVersion
| WaitForVersion | ProcessDDOP | RequestStructureLabel | WaitForStructureLabel
| RequestLocalizationLabel | WaitForLocalizationLabel | TransferDDOP | WaitForPoolResponse
| ActivatePool | WaitForActivation | Connected | DeactivatePool | WaitForDeactivation
| DeletePool | WaitForDeletePool.
#[global] Instance eq_dec : EqDecision t.
Proof. solve_decision. Defined.
End TCState.

Definition is_object_pool_transfer_response (data : list Z) : bool := is_padded_fixed8 data 6.
Definition is_object_pool_activate_response (data : list Z) : bool := is_padded_fixed8 data 7.

Record TCClientOutbound : Type := mkTcOut {
  tco_pgn : Pgn;
  tco_data : list Z;
  tco_dest : option Address
}.
Definition tco_broadcast (pgn : Pgn) (data : list Z) : TCClientOutbound := mkTcOut pgn data None.
Definition tco_to (pgn : Pgn) (data : list Z) (dest : Address) : TCClientOutbound :=
  mkTcOut pgn data (Some dest).

Record TaskControllerClient : Type := mkTcClient {
  tcc_config : TCClientConfig;
  tcc_machine : StateMachine.t TCState.t;
  tcc_ddop : DDOP;
  tcc_timer_ms : Z;
  tcc_client_task_timer_ms : Z;
  tcc_task_totals_active : bool;
  tcc_tc_address : Address;
  tcc_tc_version : Z;
  tcc_capabilities : TCClientCapabilities;
  tcc_num_booms : Z;
  tcc_num_sections : Z;
  tcc_trace : list TCState.t
}.
Definition tcc_state (c : TaskControllerClient) : TCState.t := StateMachine.state (tcc_machine c).

Definition tcc_with_timer (x : Z) (c : TaskControllerClient) :=
  let 'mkTcClient g m d _ k ta a v cp b s tr := c in mkTcClient g m d x k ta a v cp b s tr.
Definition tcc_with_task_timer (x : Z) (c : TaskControllerClient) :=
  let 'mkTcClient g m d t _ ta a v cp b s tr := c in mkTcClient g m d t x ta a v cp b s tr.
Definition tcc_with_totals (x : bool) (c : TaskControllerClient) :=
  let 'mkTcClient g m d t k _ a v cp b s tr := c in mkTcClient g m d t k x a v cp b s tr.
Definition tcc_with_address (x : Address) (c : TaskControllerClient) :=
  let 'mkTcClient g m d t k ta _ v cp b s tr := c in mkTcClient g m d t k ta x v cp b s tr.
Definition tcc_with_server (v b s : Z) (c : TaskControllerClient) :=
  let 'mkTcClient g m d t k ta a _ cp _ _ tr := c in mkTcClient g m d t k ta a v cp b s tr.
Definition tcc_with_version (v : Z) (c : TaskControllerClient) :=
  let 'mkTcClient g m d t k ta a _ cp b s tr := c in mkTcClient g m d t k ta a v cp b s tr.
Definition set_ddop (x : DDOP) (c : TaskControllerClient) :=
  let 'mkTcClient g m _ t k ta a v cp b s tr := c in mkTcClient g m x t k ta a v cp b s tr.
Definition set_capabilities (x : TCClientCapabilities) (c : TaskControllerClient) :=
  let 'mkTcClient g m d t k ta a v _ b s tr := c in mkTcClient g m d t k ta a v x b s tr.
Definition tcc_enter (new_state : TCState.t) (c : TaskControllerClient) :=
  let 'mkTcClient g m d t k ta a v cp b s tr := c in
  mkTcClient g (StateMachine.transition m new_state).1 d t k ta a v cp b s (tr ++ [new_state]).

Definition tcc_transition (new_state : TCState.t) (c : TaskControllerClient) :=
  if bool_decide (tcc_state c = new_state) then c else tcc_enter new_state c.

Definition TaskControllerClient_new (config : TCClientConfig) : TaskControllerClient :=
  mkTcClient config (StateMachine.mk TCState.Disconnected) DDOP_default 0 0 false NULL_ADDRESS 0
    TCClientCapabilities_default 0 0 [].

Definition capabilities_within_server_limits (caps : TCClientCapabilities)
    (c : TaskControllerClient) : bool :=
  let fits want limit := (limit =? 0xFF) || (want <=? limit) in
  fits (cap_booms caps) (tcc_num_booms c) && fits (cap_sections caps) (tcc_num_sections c).
Definition negotiated_ddop_version (c : TaskControllerClient) : Z :=
  if cap_version (tcc_capabilities c) <? tcc_tc_version c
  then cap_version (tcc_capabilities c) else tcc_tc_version c.

Definition ddop_invalid : Error.t := Error.invalid_state "DDOP validation failed".

Definition tcc_connect (c : TaskControllerClient)
    : TaskControllerClient * Result unit Error.t :=
  match validate (tcc_ddop c) with
  | Err _ => (c, Err ddop_invalid)
  | Ok _ =>
      (tcc_with_timer 0 (tcc_transition TCState.WaitForServerStatus
         (tcc_with_version 0 (tcc_with_address NULL_ADDRESS c))), Ok tt)
  end.
Definition tcc_disconnect (c : TaskControllerClient) : TaskControllerClient :=
  tcc_transition TCState.Disconnected c.
Definition reupload_ddop (pool : DDOP) (c : TaskControllerClient)
    : TaskControllerClient * Result unit Error.t :=
  if negb (bool_decide (tcc_state c = TCState.Connected)) then
    (c, Err (Error.invalid_state "TC client is not connected"))
  else match validate pool with
  | Err _ => (c, Err ddop_invalid)
  | Ok _ =>
      (tcc_with_timer 0 (tcc_transition TCState.DeactivatePool (set_ddop pool c)), Ok tt)
  end.

(** ** Payloads *)

Definition build_working_set_master (member_count : Z) : list Z :=
  member_count :: replicate 7 0xFF.
Definition build_version_request : list Z := fixed_mux_payload tc_cmd.VERSION_REQUEST.
Definition build_client_task (task_totals_active : bool) : list Z :=
  [0xFF; 0xFF; 0xFF; 0xFF; if task_totals_active then 1 else 0; 0x00; 0x00; 0x00].
Definition build_request_version_response (caps : TCClientCapabilities) : list Z :=
  [tc_cmd.VERSION_RESPONSE; cap_version caps; cap_max_boot_time caps; cap_options caps; 0x00;
   cap_booms caps; cap_sections caps; cap_channels caps].
Definition build_request_structure_label : list Z :=
  fixed_mux_payload tc_cmd.REQUEST_STRUCTURE_LABEL.
Definition build_request_localization_label : list Z :=
  fixed_mux_payload tc_cmd.REQUEST_LOCALIZATION_LABEL.
Definition build_delete_object_pool : list Z := fixed_mux_payload tc_cmd.DELETE_POOL.
Definition client_process_data_payload (command : ProcessDataCommands.t) (element ddi : Z)
    (value : option Z) (error : AckError.t) : Result (list Z) Error.t :=
  if MAX_TC_PROCESS_DATA_ELEMENT_NUMBER <? element then Err (element_too_large element)
  else Ok (process_data_head command element ddi ++
    match value with
    | Some value => i32_le value
    | None => if bool_decide (command = ProcessDataCommands.Acknowledge)
              then [AckError.as_u8 error; 0xFF; 0xFF; 0xFF] else replicate 4 0xFF
    end).
Definition build_process_data_ack (element ddi : Z) (error : AckError.t) :=
  client_process_data_payload ProcessDataCommands.Acknowledge element ddi None error.
Definition build_value_command (element ddi value : Z) :=
  client_process_data_payload ProcessDataCommands.Value element ddi (Some value) AckError.NoError.
Definition build_task_controller_identification_request : list Z :=
  fixed_mux_payload tc_cmd.REQUEST_TC_IDENTIFICATION.

(** ** Time *)

(** Send to the task controller, enter the state that waits for its answer. *)
Definition tcc_send (data : list Z) (next : TCState.t) (c : TaskControllerClient)
    : TaskControllerClient * list TCClientOutbound :=
  (tcc_with_timer 0 (tcc_transition next c), [tco_to PGN_ECU_TO_TC data (tcc_tc_address c)]).

Definition transfer_ddop (c : TaskControllerClient)
    : TaskControllerClient * list TCClientOutbound :=
  match ddop_serialize_for_version (Z.min (cap_version (tcc_capabilities c)) (tcc_tc_version c))
          (tcc_ddop c) with
  | Ok pool_data =>
      tcc_send (tc_cmd.OBJECT_POOL_TRANSFER :: pool_data) TCState.WaitForPoolResponse c
  | Err _ => (tcc_transition TCState.Disconnected c, [])
  end.

Definition connected_update (elapsed_ms : Z) (c : TaskControllerClient)
    : TaskControllerClient * list TCClientOutbound :=
  if tcc_timeout_ms (tcc_config c) <=? tcc_timer_ms c then
    (tcc_transition TCState.Disconnected c, [])
  else
    let timer := sat_add 32 (tcc_client_task_timer_ms c) elapsed_ms in
    if CLIENT_TASK_INTERVAL_MS <=? timer then
      (tcc_with_task_timer 0 c,
       [tco_to PGN_ECU_TO_TC (build_client_task (tcc_task_totals_active c)) (tcc_tc_address c)])
    else (tcc_with_task_timer timer c, []).

Definition tcc_update (elapsed_ms : Z) (c : TaskControllerClient)
    : TaskControllerClient * list TCClientOutbound :=
  let c := tcc_with_timer (sat_add 32 (tcc_timer_ms c) elapsed_ms) c in
  match tcc_state c with
  | TCState.WaitForServerStatus | TCState.WaitForVersion | TCState.WaitForStructureLabel
  | TCState.WaitForLocalizationLabel | TCState.WaitForPoolResponse | TCState.WaitForActivation
  | TCState.WaitForDeactivation | TCState.WaitForDeletePool =>
      (if tcc_timeout_ms (tcc_config c) <=? tcc_timer_ms c
       then tcc_transition TCState.Disconnected c else c, [])
  | TCState.SendWorkingSetMaster =>
      (tcc_with_timer 0 (tcc_transition TCState.RequestVersion c),
       [tco_broadcast PGN_WORKING_SET_MASTER (build_working_set_master 1)])
  | TCState.RequestVersion => tcc_send build_version_request TCState.WaitForVersion c
  | TCState.RequestStructureLabel =>
      tcc_send build_request_structure_label TCState.WaitForStructureLabel c
  | TCState.RequestLocalizationLabel =>
      tcc_send build_request_localization_label TCState.WaitForLocalizationLabel c
  | TCState.TransferDDOP => transfer_ddop c
  | TCState.ActivatePool =>
      tcc_send (tc_cmd.ACTIVATE_POOL :: replicate 7 0xFF) TCState.WaitForActivation c
  | TCState.DeactivatePool =>
      tcc_send (tc_cmd.ACTIVATE_POOL :: 0x00 :: replicate 6 0xFF) TCState.WaitForDeactivation c
  | TCState.DeletePool =>
      tcc_send (tc_cmd.DELETE_POOL :: replicate 7 0xFF) TCState.WaitForDeletePool c
  | TCState.Connected => connected_update elapsed_ms c
  | TCState.Disconnected | TCState.WaitForStartup | TCState.ProcessDDOP => (c, [])
  end.

(** ** Responses *)

(** Enter a state and restart the timer. *)
Definition tcc_go (next : TCState.t) (c : TaskControllerClient) : TaskControllerClient :=
  tcc_with_timer 0 (tcc_transition next c).

Definition response_code (data : list Z) : Z := default 0 (data !! 1%nat).

Definition handle_deactivate_response (msg : Message) (c : TaskControllerClient) :=
  if negb (is_object_pool_activate_response (m_data msg)) then c
  else tcc_go (if response_code (m_data msg) =? 0 then TCState.DeletePool
               else TCState.Disconnected) c.
Definition handle_delete_pool_response (msg : Message) (c : TaskControllerClient) :=
  if negb (is_padded_fixed8 (m_data msg) 2) then c else tcc_go TCState.TransferDDOP c.

Definition handle_tc_status (msg : Message) (c : TaskControllerClient) :=
  let c := tcc_with_address (m_source msg) c in
  let c := match m_data msg !! 4%nat with
           | Some status => tcc_with_totals (negb (Z.land status 0x01 =? 0)) c
           | None => c
           end in
  match tcc_state c with
  | TCState.WaitForServerStatus => tcc_go TCState.SendWorkingSetMaster c
  | TCState.Connected => tcc_with_timer 0 c
  | _ => c
  end.

Definition handle_version_response (msg : Message) (c : TaskControllerClient) :=
  if negb (version_response_is_canonical (m_data msg)) then c
  else match m_data msg with
  | [_; version; _; _; _; booms; sections; _] =>
      tcc_go TCState.RequestStructureLabel (tcc_with_server version booms sections c)
  | _ => c
  end.

Definition ddop_structure_label (c : TaskControllerClient) : option (list Z) :=
  dvc_structure_label <$> head (dd_devices (tcc_ddop c)).
Definition ddop_localization_label (c : TaskControllerClient) : option (list Z) :=
  dvc_localization_label <$> head (dd_devices (tcc_ddop c)).

(** Both label responses: no label stored, the label of the pool, another label. *)
Definition label_response (own : option (list Z)) (same : TCState.t) (msg : Message)
    (c : TaskControllerClient) : TaskControllerClient :=
  if negb (length (m_data msg) =? 8)%nat then c
  else
    let label := drop 1 (m_data msg) in
    tcc_go (if bool_decide (label = replicate 7 0xFF) then TCState.TransferDDOP
            else if bool_decide (Some label = own) then same else TCState.DeletePool) c.
Definition handle_structure_label_response (msg : Message) (c : TaskControllerClient) :=
  label_response (ddop_structure_label c) TCState.RequestLocalizationLabel msg c.
Definition handle_localization_label_response (msg : Message) (c : TaskControllerClient) :=
  label_response (ddop_localization_label c) TCState.ActivatePool msg c.

Definition handle_pool_response (msg : Message) (c : TaskControllerClient) :=
  if negb (is_object_pool_transfer_response (m_data msg)) then c
  else tcc_go (if response_code (m_data msg) =? 0 then TCState.ActivatePool
               else TCState.Disconnected) c.
Definition handle_activate_response (msg : Message) (c : TaskControllerClient) :=
  if negb (is_object_pool_activate_response (m_data msg)) then c
  else if response_code (m_data msg) =? 0 then tcc_go TCState.Connected c
  else tcc_transition TCState.Disconnected c.

(** ** Process data *)

Record ClientCallbacks : Type := mkClientCallbacks {
  ccb_value : option (Z -> Z -> Result Z Error.t);
  ccb_command : option (Z -> Z -> Z -> Result unit Error.t)
}.

Definition handle_value_request (cbs : ClientCallbacks) (msg : Message) : list TCClientOutbound :=
  if negb (is_padded_fixed8 (m_data msg) 4) then []
  else match m_data msg, ccb_value cbs with
  | d0 :: d1 :: d2 :: d3 :: _, Some cb =>
      match cb (element_of d0 d1) (ddi_of d2 d3) with
      | Ok value =>
          [tco_to PGN_ECU_TO_TC
             (process_data_head ProcessDataCommands.Value (element_of d0 d1) (ddi_of d2 d3)
              ++ i32_le value) (m_source msg)]
      | Err _ => []
      end
  | _, _ => []
  end.
Definition handle_value_command (cbs : ClientCallbacks) (msg : Message) (acknowledge : bool)
    : list TCClientOutbound :=
  match m_data msg with
  | [d0; d1; d2; d3; d4; d5; d6; d7] =>
      let error :=
        match ccb_command cbs with
        | Some cb =>
            match cb (element_of d0 d1) (ddi_of d2 d3)
                     (to_i32 (Name.from_le_bytes [d4; d5; d6; d7])) with
            | Ok _ => AckError.NoError
            | Err _ => AckError.NoProcessingResourcesAvailable
            end
        | None => AckError.ElementNotSupportedByThisDevice
        end in
      if acknowledge
      then [tco_to PGN_ECU_TO_TC
              (encode_process_data_ack (element_of d0 d1) (ddi_of d2 d3) error) (m_source msg)]
      else []
  | _ => []
  end.

(** ** Dispatch *)

Definition ClientResult : Type :=
  TaskControllerClient * Result (list TCClientOutbound) Error.t.

(** A handler behind the test of its frame. *)
Definition tcc_checked (ok : bool) (message : string) (c : TaskControllerClient)
    (r : ClientResult) : ClientResult :=
  if ok then r else (c, Err (Error.invalid_data message)).

(** The last arm: a process data command. *)
Definition client_process_data (cbs : ClientCallbacks) (first : Z) (msg : Message)
    (c : TaskControllerClient) : ClientResult :=
  let eight := (length (m_data msg) =? 8)%nat in
  match ProcessDataCommands.try_from_u8 first with
  | None => (c, Err (Error.invalid_data
                 "TC-to-ECU message has reserved process-data command nibble"))
  | Some ProcessDataCommands.Status => (handle_tc_status msg c, Ok [])
  | Some ProcessDataCommands.RequestValue =>
      tcc_checked (is_padded_fixed8 (m_data msg) 4)
        "TC request-value process-data frame must be an 8-byte padded frame" c
        (c, Ok (handle_value_request cbs msg))
  | Some ProcessDataCommands.Value =>
      tcc_checked eight "TC value process-data frame must be an 8-byte frame" c
        (c, Ok (handle_value_command cbs msg false))
  | Some ProcessDataCommands.SetValueAndAcknowledge =>
      tcc_checked eight "TC set-value-and-acknowledge frame must be an 8-byte frame" c
        (c, Ok (handle_value_command cbs msg true))
  | Some command =>
      (c, Err (Error.invalid_state
         ("unsupported TC-to-ECU process-data command " +:+ ProcessDataCommands.debug command)))
  end.

(** The [match (self.state(), msg.data[0])]. *)
Definition client_match (cbs : ClientCallbacks) (first : Z) (msg : Message)
    (c : TaskControllerClient) : ClientResult :=
  let data := m_data msg in
  let in_state st code := bool_decide (tcc_state c = st) && (first =? code) in
  if first =? tc_cmd.TC_STATUS then (handle_tc_status msg c, Ok [])
  else if in_state TCState.WaitForVersion tc_cmd.VERSION_RESPONSE then
    tcc_checked (version_response_is_canonical data)
      "TC version response must be an 8-byte canonical frame" c
      (handle_version_response msg c, Ok [])
  else if in_state TCState.WaitForStructureLabel tc_cmd.STRUCTURE_LABEL then
    tcc_checked (length data =? 8)%nat "TC structure-label response must be an 8-byte frame" c
      (handle_structure_label_response msg c, Ok [])
  else if in_state TCState.WaitForLocalizationLabel tc_cmd.LOCALIZATION_LABEL then
    tcc_checked (length data =? 8)%nat
      "TC localization-label response must be an 8-byte frame" c
      (handle_localization_label_response msg c, Ok [])
  else if in_state TCState.WaitForPoolResponse tc_cmd.OBJECT_POOL_RESPONSE then
    tcc_checked (is_object_pool_transfer_response data)
      "TC object-pool response must be an 8-byte padded frame" c
      (handle_pool_response msg c, Ok [])
  else if in_state TCState.WaitForActivation tc_cmd.ACTIVATE_RESPONSE then
    tcc_checked (is_object_pool_activate_response data)
      "TC activate-pool response must be an 8-byte padded frame" c
      (handle_activate_response msg c, Ok [])
  else if in_state TCState.WaitForDeactivation tc_cmd.ACTIVATE_RESPONSE then
    tcc_checked (is_object_pool_activate_response data)
      "TC deactivate-pool response must be an 8-byte padded frame" c
      (handle_deactivate_response msg c, Ok [])
  else if in_state TCState.WaitForDeletePool tc_cmd.DELETE_POOL_RESPONSE then
    tcc_checked (is_padded_fixed8 data 2)
      "TC delete-pool response must be an 8-byte padded frame" c
      (handle_delete_pool_response msg c, Ok [])
  else client_process_data cbs first msg c.

Definition dispatch_server (cbs : ClientCallbacks) (first : Z) (msg : Message)
    (c : TaskControllerClient) : ClientResult :=
  if first =? tc_cmd.VERSION_REQUEST then
    tcc_checked (is_padded_fixed8 (m_data msg) 1)
      "TC version request must be an 8-byte padded frame" c
      (c, Ok [tco_to PGN_ECU_TO_TC (build_request_version_response (tcc_capabilities c))
                (m_source msg)])
  else if bool_decide (ProcessDataCommands.try_from_u8 first = Some ProcessDataCommands.Status)
          && negb (first =? tc_cmd.TC_STATUS) then
    (c, Err (Error.invalid_data "TC status must use the canonical fixed command byte"))
  else if (first =? tc_cmd.TC_STATUS) && negb (length (m_data msg) =? 8)%nat then
    (c, Err (Error.invalid_data "TC status must be an 8-byte fixed frame"))
  else client_match cbs first msg c.

Definition try_handle_tc_message (cbs : ClientCallbacks) (msg : Message)
    (c : TaskControllerClient) : ClientResult :=
  if negb (m_pgn msg =? PGN_TC_TO_ECU) then (c, Err (Error.invalid_pgn (m_pgn msg)))
  else if negb (has_usable_source msg) then (c, Err (Error.invalid_address (m_source msg)))
  else if negb (has_valid_destination_for_pgn msg) then
    (c, Err (Error.invalid_address (m_destination msg)))
  else if negb (tcc_tc_address c =? NULL_ADDRESS) && negb (m_source msg =? tcc_tc_address c) then
    (c, Err (Error.invalid_state
       ("message from unbound task controller source 0x" +:+ format_hex 2 (m_source msg))))
  else match m_data msg with
  | [] => (c, Err (Error.invalid_data "TC-to-ECU message must not be empty"))
  | first :: _ => dispatch_server cbs first msg c
  end.
