(* ===== verification/TcSystem.v ===== *)
(** A task controller and its client on one bus: the handshake that ends with the client's pool
    active at the server, and the connection that lasts while both are serviced. *)
From S2P Require Export TcServerProofs TcClient.

(** ** The pool a server receives validates like the pool sent *)

Lemma try_each_fmap {A B} (g : A -> B) (f : B -> Result unit Error.t) (l : list A) :
  try_each f (g <$> l) = try_each (fun x => f (g x)) l.
Proof. induction l as [|x l IH]; [done|]. cbn. by rewrite IH. Qed.
Lemma try_each_ext {A} (f g : A -> Result unit Error.t) l :
  (forall x, f x = g x) -> try_each f l = try_each g l.
Proof. intros H. induction l as [|x l IH]; [done|]. cbn. by rewrite H, IH. Qed.

Lemma object_kind_received v d id : object_kind (received v d) id = object_kind d id.
Proof.
  unfold object_kind, received, vp_exists. cbn [dd_devices dd_elements dd_process_data
    dd_properties dd_value_presentations].
  replace (existsb (fun x => dvc_id x =? id) (received_device v <$> dd_devices d))
    with (existsb (fun x => dvc_id x =? id) (dd_devices d)); [done|].
  induction (dd_devices d) as [|x l IH]; [done|]. cbn. by rewrite IH.
Qed.

Lemma ids_received v (l : list DeviceObject) : dvc_id <$> (received_device v <$> l) = dvc_id <$> l.
Proof. induction l as [|x l IH]; [done|]. cbn. by rewrite IH. Qed.

Lemma validate_received v d : validate (received v d) = validate d.
Proof.
  assert (Hs : validate_serializable (received v d) = validate_serializable d).
  { unfold validate_serializable, received. cbn [dd_devices dd_elements dd_process_data
      dd_properties dd_value_presentations]. by rewrite try_each_fmap. }
  assert (Hi : validate_unique_object_ids (received v d) = validate_unique_object_ids d).
  { unfold validate_unique_object_ids, received. cbn [dd_devices dd_elements dd_process_data
      dd_properties dd_value_presentations]. by rewrite ids_received. }
  assert (Hh : validate_object_hierarchy (received v d) = validate_object_hierarchy d).
  { unfold validate_object_hierarchy, received. cbn [dd_devices dd_elements].
    by destruct (dd_devices d) as [|dv [|]]. }
  unfold validate. rewrite Hs, Hi, Hh.
  rewrite (try_each_ext (fun e => let? _ := validate_parent (received v d) e in
             try_each (validate_child (received v d) e) (det_child_objects e))
             (fun e => let? _ := validate_parent d e in
             try_each (validate_child d e) (det_child_objects e))).
  2: { intros e. unfold validate_parent. rewrite object_kind_received.
       rewrite (try_each_ext (validate_child (received v d) e) (validate_child d e)); [done|].
       intros c. unfold validate_child. by rewrite object_kind_received. }
  unfold received. cbn [dd_devices dd_elements dd_process_data dd_properties].
  by destruct (dd_devices d).
Qed.

(** A serialised pool with a device does not fit in one frame. *)
Lemma serialized_long v d bs :
  dd_devices d <> [] -> ddop_ok d -> ddop_serialize_for_version v d = Ok bs ->
  (8 <= length bs)%nat.
Proof.
  intros Hd Hok H. unfold ddop_serialize_for_version in H.
  apply try_bind_Ok in H as (u & _ & H). apply try_bind_Ok in H as (b1 & S1 & H).
  assert (Hb : (length b1 <= length bs)%nat).
  { repeat (apply try_bind_Ok in H as (? & _ & H)). apply result_Ok_inj in H as <-.
    rewrite !length_app. lia. }
  destruct (dd_devices d) as [|dv dvs] eqn:E; [done|]. cbn in S1.
  apply try_bind_Ok in S1 as (b & Sb & S1). apply try_bind_Ok in S1 as (rest & _ & S1).
  apply result_Ok_inj in S1 as <-. unfold device_serialize_for_version in Sb.
  destruct (_ <? _)%nat; [done|].
  do 3 (apply try_bind_Ok in Sb as (? & _ & Sb)). apply result_Ok_inj in Sb as <-.
  rewrite !length_app in Hb. cbn in Hb. lia.
Qed.

(** ** The bus *)

Definition for_me (me : Address) (dest : option Address) : bool :=
  match dest with None => true | Some a => a =? me end.
Definition destination_of (dest : option Address) : Address := default BROADCAST_ADDRESS dest.

Section Bus.
Context (ca sa : Address) (ccbs : ClientCallbacks) (scbs : Callbacks).

Definition to_server (o : TCClientOutbound) : Message :=
  mkMessage (tco_pgn o) (tco_data o) ca (destination_of (tco_dest o)) Priority.Default 0.
Definition to_client (o : TCOutbound) : Message :=
  mkMessage (out_pgn o) (out_data o) sa (destination_of (out_dest o)) Priority.Default 0.

(** The client's frame at the server, and the server's frame at the client.  An error is an
    answer without frames. *)
Definition server_hears (o : TCClientOutbound) (s : TaskControllerServer)
    : option (TaskControllerServer * list TCOutbound) :=
  if negb (for_me sa (tco_dest o)) then Some (s, [])
  else sent_of (if tco_pgn o =? PGN_WORKING_SET_MASTER
                then Some (try_handle_working_set_master (to_server o) s)
                else try_handle_client_message scbs (to_server o) s).
Definition client_hears (o : TCOutbound) (c : TaskControllerClient)
    : TaskControllerClient * list TCClientOutbound :=
  if negb (for_me ca (out_dest o)) then (c, [])
  else match try_handle_tc_message ccbs (to_client o) c with
       | (c, Ok out) => (c, out)
       | (c, Err _) => (c, [])
       end.

(** Deliver frames, and the frames they cause, in order. *)
Fixpoint settle (fuel : nat) (q : list (TCClientOutbound + TCOutbound))
    (c : TaskControllerClient) (s : TaskControllerServer)
    : option (TaskControllerClient * TaskControllerServer) :=
  match fuel, q with
  | _, [] => Some (c, s)
  | O, _ => None
  | S fuel, inl o :: q =>
      '(s, out) ← server_hears o s; settle fuel (q ++ (inr <$> out)) c s
  | S fuel, inr o :: q =>
      let '(c, out) := client_hears o c in settle fuel (q ++ (inl <$> out)) c s
  end.

Lemma settle_server n o q c s s' out :
  server_hears o s = Some (s', out) ->
  settle (S n) (inl o :: q) c s = settle n (q ++ (inr <$> out)) c s'.
Proof. intros H. cbn [settle]. by rewrite H. Qed.
Lemma settle_client n o q c s c' out :
  client_hears o c = (c', out) ->
  settle (S n) (inr o :: q) c s = settle n (q ++ (inl <$> out)) c' s.
Proof. intros H. cbn [settle]. by rewrite H. Qed.

(** No tick causes more than four frames. *)
Definition client_turn (e : Z) (cs : TaskControllerClient * TaskControllerServer) :=
  let '(c, out) := tcc_update e cs.1 in settle 4 (inl <$> out) c cs.2.
Definition server_turn (e : Z) (cs : TaskControllerClient * TaskControllerServer) :=
  let '(s, status) := server_update e cs.2 in
  settle 4 (inr ∘ out_broadcast <$> option_list status) cs.1 s.

Fixpoint client_turns (es : list Z) (cs : TaskControllerClient * TaskControllerServer) :=
  match es with
  | [] => Some cs
  | e :: es => cs ← client_turn e cs; client_turns es cs
  end.

Context (Hca : usable ca) (Hsa : usable sa).

(** ** What each side makes of the other's frames *)

Lemma server_dispatches o s first data :
  tco_pgn o = PGN_ECU_TO_TC -> tco_dest o = Some sa -> tco_data o = first :: data ->
  server_hears o s = sent_of (dispatch_client scbs first (to_server o) s).
Proof.
  intros Hp Hd Hf. destruct Hca, Hsa. unfold server_hears. rewrite Hd, Hp. cbn [for_me].
  rewrite Z.eqb_refl. cbn [negb]. change (PGN_ECU_TO_TC =? PGN_WORKING_SET_MASTER) with false.
  unfold try_handle_client_message, has_usable_source, has_valid_destination_for_pgn.
  cbn [m_pgn m_source m_destination m_data to_server]. rewrite Hp, Hd, Hf.
  rewrite Z.eqb_refl. cbn [negb destination_of default].
  rewrite !(proj2 (Z.eqb_neq _ _)) by done. done.
Qed.

Lemma client_dispatches o c first data :
  out_pgn o = PGN_TC_TO_ECU -> for_me ca (out_dest o) = true ->
  tcc_tc_address c = NULL_ADDRESS \/ tcc_tc_address c = sa -> out_data o = first :: data ->
  client_hears o c = match dispatch_server ccbs first (to_client o) c with
                     | (c, Ok out) => (c, out) | (c, Err _) => (c, []) end.
Proof.
  intros Hp Hd Ha Hf. destruct Hca as [Hn Hb], Hsa as [Hn' Hb']. unfold client_hears.
  rewrite Hd. cbn [negb].
  unfold try_handle_tc_message, has_usable_source, has_valid_destination_for_pgn.
  cbn [m_pgn m_source m_destination m_data to_client]. rewrite Hp, Hf, Z.eqb_refl. cbn [negb].
  rewrite !(proj2 (Z.eqb_neq sa _)) by done. cbn [negb andb].
  assert (Hdn : destination_of (out_dest o) <> NULL_ADDRESS).
  { unfold for_me in Hd. destruct (out_dest o) as [a|]; [|done]. apply Z.eqb_eq in Hd as ->. done. }
  rewrite (proj2 (Z.eqb_neq (destination_of _) _)) by done.
  destruct Ha as [-> | ->]; [done|]. by rewrite Z.eqb_refl, andb_false_r.
Qed.

(** ** The handshake *)

Section Handshake.
Context (g : TCServerConfig) (d : DDOP) (cp : TCClientCapabilities).

Definition client_in (st : TCState.t) (v : Z) (c : TaskControllerClient) : Prop :=
  tcc_state c = st /\ tcc_ddop c = d /\ tcc_capabilities c = cp /\ tcc_tc_address c = sa /\
  tcc_tc_version c = v.
(** The server runs and has no label of a stored pool. *)
Definition server_ready (s : TaskControllerServer) : Prop :=
  server_inv s /\ ts_config s = g /\ ts_state s <> TCServerState.Disconnected /\
  ts_structure_label s = replicate 7 0xFF.

Ltac open_client H :=
  destruct H as (H1 & H2 & H3 & H4 & H5);
  match goal with c : TaskControllerClient |- _ =>
    destruct c as [? [] ? ? ? ? ? ? ? ? ? ?]; cbn in H1, H2, H3, H4, H5; subst end.

(** The states that send, the frame, and the state that follows. *)
Lemma client_sends e st v c next o :
  client_in st v c ->
  (st, next, o) ∈
    [(TCState.SendWorkingSetMaster, TCState.RequestVersion,
      tco_broadcast PGN_WORKING_SET_MASTER (build_working_set_master 1));
     (TCState.RequestVersion, TCState.WaitForVersion,
      tco_to PGN_ECU_TO_TC build_version_request sa);
     (TCState.RequestStructureLabel, TCState.WaitForStructureLabel,
      tco_to PGN_ECU_TO_TC build_request_structure_label sa);
     (TCState.ActivatePool, TCState.WaitForActivation,
      tco_to PGN_ECU_TO_TC (tc_cmd.ACTIVATE_POOL :: replicate 7 0xFF) sa)] ->
  exists c', tcc_update e c = (c', [o]) /\ client_in next v c'.
Proof.
  intros H Ho. open_client H.
  repeat (apply elem_of_cons in Ho as [Ho|Ho]); try by apply elem_of_nil in Ho.
  all: injection Ho as -> -> ->; eexists; split; [reflexivity|]; repeat split.
Qed.

Lemma client_transfers e v c bs :
  client_in TCState.TransferDDOP v c ->
  ddop_serialize_for_version (Z.min (cap_version cp) v) d = Ok bs ->
  exists c', tcc_update e c
    = (c', [tco_to PGN_ECU_TO_TC (tc_cmd.OBJECT_POOL_TRANSFER :: bs) sa]) /\
    client_in TCState.WaitForPoolResponse v c'.
Proof.
  intros H Hs. open_client H. unfold tcc_update. cbn [tcc_with_timer tcc_state tcc_machine
    StateMachine.state]. unfold transfer_ddop. cbn [tcc_capabilities tcc_tc_version tcc_ddop].
  rewrite Hs. eexists. split; [reflexivity|]. repeat split.
Qed.

(** The answers, and the state they lead to. *)
Lemma client_hears_status s c :
  tcc_state c = TCState.WaitForServerStatus -> tcc_ddop c = d -> tcc_capabilities c = cp ->
  tcc_tc_address c = NULL_ADDRESS \/ tcc_tc_address c = sa ->
  exists c', client_hears (out_broadcast (encode_tc_status s)) c = (c', []) /\
    client_in TCState.SendWorkingSetMaster (tcc_tc_version c) c'.
Proof.
  intros H1 H2 H3 Ha. erewrite (client_dispatches _ c 0xFE); [|done..|reflexivity].
  destruct c as [? [] ? ? ? ? ? ? ? ? ? ?]; cbn in H1, H2, H3; subst.
  eexists. split; [reflexivity|]. repeat split.
Qed.

Lemma client_hears_version v c :
  client_in TCState.WaitForVersion v c -> tc_options_byte_is_valid (tsc_server_options g) = true ->
  exists c', client_hears (out_to [tc_cmd.VERSION_RESPONSE; tsc_tc_version g; 0xFF;
      tsc_server_options g; 0x00; tsc_num_booms g; tsc_num_sections g; tsc_num_channels g] ca) c
    = (c', []) /\ client_in TCState.RequestStructureLabel (tsc_tc_version g) c'.
Proof.
  intros H Ho. erewrite (client_dispatches _ c 0x10); [|done|apply Z.eqb_refl|right; apply H|reflexivity].
  open_client H. 
  match goal with |- context [dispatch_server ?a ?b ?m ?c] =>
    change (dispatch_server a b m c) with
      (tcc_checked (version_response_is_canonical (m_data m))
         "TC version response must be an 8-byte canonical frame" c
         (handle_version_response m c, Ok [])) end.
  unfold handle_version_response. cbn [m_data to_client out_data out_to version_response_is_canonical].
  rewrite Ho. eexists. split; [reflexivity|]. repeat split.
Qed.

Lemma client_hears_label v c :
  client_in TCState.WaitForStructureLabel v c ->
  exists c', client_hears (out_to (tc_cmd.STRUCTURE_LABEL :: replicate 7 0xFF) ca) c = (c', []) /\
    client_in TCState.TransferDDOP v c'.
Proof.
  intros H. erewrite (client_dispatches _ c 0x11); [|done|apply Z.eqb_refl|right; apply H|reflexivity].
  open_client H. eexists. split; [reflexivity|]. repeat split.
Qed.
Lemma client_hears_pool v c :
  client_in TCState.WaitForPoolResponse v c ->
  exists c', client_hears (out_to (tc_cmd.OBJECT_POOL_RESPONSE :: 0 :: replicate 6 0xFF) ca) c
    = (c', []) /\ client_in TCState.ActivatePool v c'.
Proof.
  intros H. erewrite (client_dispatches _ c 0x71); [|done|apply Z.eqb_refl|right; apply H|reflexivity].
  open_client H. eexists. split; [reflexivity|]. repeat split.
Qed.
Lemma client_hears_activation v c :
  client_in TCState.WaitForActivation v c ->
  exists c', client_hears (out_to (tc_cmd.ACTIVATE_RESPONSE :: 0 :: replicate 6 0xFF) ca) c
    = (c', []) /\ client_in TCState.Connected v c' /\ tcc_timer_ms c' = 0.
Proof.
  intros H. erewrite (client_dispatches _ c 0x91); [|done|apply Z.eqb_refl|right; apply H|reflexivity].
  open_client H. eexists. split; [reflexivity|]. repeat split.
Qed.

Lemma client_hears_version_request st v c :
  client_in st v c ->
  client_hears (out_to (tc_cmd.VERSION_REQUEST :: replicate 7 0xFF) ca) c
  = (c, [tco_to PGN_ECU_TO_TC (build_request_version_response cp) sa]).
Proof.
  intros H. erewrite (client_dispatches _ c 0x00); [|done|apply Z.eqb_refl|right; apply H|reflexivity].
  open_client H. reflexivity.
Qed.

(** The server's answers. *)
Lemma transition_fields st s :
  ts_config (ts_transition st s) = ts_config s /\
  ts_structure_label (ts_transition st s) = ts_structure_label s /\
  ts_state (ts_transition st s) = st.
Proof.
  unfold ts_transition. case_bool_decide as E; [done|]. destruct s. cbn in *.
  unfold StateMachine.transition. rewrite bool_decide_false by done. done.
Qed.
Lemma ready_ensure s : server_ready s -> server_ready (ensure_client ca s).
Proof.
  intros (Hi & Hg & Hst & Hl). destruct Hca as [Hn Hb].
  split; [by apply inv_ensure|]. unfold ensure_client.
  destruct (find_client ca s); [by destruct s|].
  case_bool_decide; [|by destruct s].
  destruct (transition_fields TCServerState.Active
    (ts_emit (TcsClientConnected ca) (ts_with_clients (ts_clients s ++ [TCClientInfo_new ca]) s)))
    as (-> & -> & ->). by destruct s.
Qed.
Lemma ready_update a f s :
  server_ready s -> server_inv (update_client a f s) -> server_ready (update_client a f s).
Proof. intros (_ & Hg & Hst & Hl) Hi. split; [done|]. by destruct s. Qed.
Lemma ready_emit e s : server_ready s -> server_ready (ts_emit e s).
Proof. intros (Hi & Hg & Hst & Hl). split; [by apply inv_emit|]. by destruct s. Qed.

Lemma server_hears_working_set s :
  server_ready s ->
  server_hears (tco_broadcast PGN_WORKING_SET_MASTER (build_working_set_master 1)) s
  = Some (ensure_client ca s, [out_to (tc_cmd.VERSION_REQUEST :: replicate 7 0xFF) ca]).
Proof.
  intros Hs. destruct Hca as [Hn Hb]. unfold server_hears. cbn [tco_dest tco_broadcast for_me negb].
  change (tco_pgn _ =? PGN_WORKING_SET_MASTER) with true.
  unfold try_handle_working_set_master, has_usable_source.
  change (m_source (to_server _)) with ca.
  rewrite !(proj2 (Z.eqb_neq ca _)) by done. cbn [negb andb].
  change (m_pgn (to_server _) =? PGN_WORKING_SET_MASTER) with true.
  change (has_valid_destination_for_pgn (to_server _)) with true.
  change (is_padded_fixed8 (m_data (to_server _)) 1) with true. cbn [negb].
  assert (He : existsb (is_client ca) (ts_clients (ensure_client ca s)) = true).
  { pose proof (find_ensure ca ca s) as H. rewrite Z.eqb_refl in H.
    apply find_client_Some in H as [Hin Ha]. apply existsb_exists. eexists.
    split; [by apply list_elem_of_In|]. unfold is_client. rewrite Ha. apply Z.eqb_refl. }
  unfold request_client_version. rewrite He. reflexivity.
Qed.

Lemma server_hears_request first answer s :
  server_ready s ->
  (first, answer) ∈ [(tc_cmd.VERSION_REQUEST, tech_capabilities);
    (tc_cmd.REQUEST_STRUCTURE_LABEL, fun s => tc_cmd.STRUCTURE_LABEL :: ts_structure_label s)] ->
  server_hears (tco_to PGN_ECU_TO_TC (fixed_mux_payload first) sa) s
  = Some (ensure_client ca s, [out_to (answer (ensure_client ca s)) ca]).
Proof.
  intros Hs Hf. erewrite server_dispatches; [|done..|reflexivity].
  repeat (apply elem_of_cons in Hf as [Hf|Hf]); try by apply elem_of_nil in Hf.
  all: injection Hf as -> ->; reflexivity.
Qed.

Lemma server_hears_version_response s :
  server_ready s ->
  exists s', server_hears (tco_to PGN_ECU_TO_TC (build_request_version_response cp) sa) s
    = Some (s', []) /\ server_ready s'.
Proof.
  intros Hs. erewrite server_dispatches; [|done..|reflexivity].
  match goal with |- context [dispatch_client ?a ?b ?m ?c] =>
    change (dispatch_client a b m c) with
      (checked (version_response_is_canonical (m_data m))
         "TC client version response must be an 8-byte canonical frame" c
         (server_ok (handle_client_version_response m c))) end.
  unfold checked. destruct (version_response_is_canonical _) eqn:Hv; [|by exists s].
  unfold handle_client_version_response. rewrite Hv. cbn [negb to_server m_data tco_data tco_to
    build_request_version_response m_source].
  destruct (find_client ca s); [|by exists s].
  eexists. split; [reflexivity|]. apply ready_emit, ready_update; [done|].
  apply inv_update; [apply Hs|by intros []|]. intros [] _ []. by split.
Qed.

(** The pool the server holds for the client. *)
Definition holds (pool : DDOP) (s : TaskControllerServer) : Prop :=
  exists i, find_client ca s = Some i /\ ci_ddop i = pool.

Lemma server_hears_pool v bs s :
  server_ready s -> ddop_ok d -> ~ is_reserved d -> validate d = Ok tt ->
  ddop_serialize_for_version v d = Ok bs ->
  exists s', server_hears (tco_to PGN_ECU_TO_TC (tc_cmd.OBJECT_POOL_TRANSFER :: bs) sa) s
    = Some (s', [out_to (tc_cmd.OBJECT_POOL_RESPONSE :: 0 :: replicate 6 0xFF) ca]) /\
    server_ready s' /\ holds (received v d) s'.
Proof.
  intros Hs Hok Hr Hv Hbs. erewrite server_dispatches; [|done..|reflexivity].
  match goal with |- context [dispatch_client ?a ?b ?m ?c] =>
    change (dispatch_client a b m c) with (server_try (handle_object_pool_transfer m c)) end.
  unfold handle_object_pool_transfer. cbn [to_server m_data tco_data tco_to length m_source].
  change (drop 1 (tc_cmd.OBJECT_POOL_TRANSFER :: bs)) with bs.
  assert (Hdv : dd_devices d <> []) by (unfold validate in Hv; by destruct (dd_devices d)).
  pose proof (serialized_long v d bs Hdv Hok Hbs) as Hlen.
  destruct (Nat.leb_spec (S (length bs)) 8) as [|_]; [lia|].
  pose proof (deserialize_serialized v d bs Hok Hr Hbs) as Hde.
  pose proof (ready_ensure s Hs) as Hse.
  pose proof (find_ensure ca ca s) as Hf. rewrite Z.eqb_refl in Hf.
  unfold accept_pool. rewrite Hde, validate_received, Hv, Hf.
  destruct (existsb (accepted_pool ca bs) (ts_clients s)) eqn:Hdup.
  - eexists. split; [reflexivity|]. split; [done|].
    apply existsb_exists in Hdup as (c & Hin & Hc).
    unfold accepted_pool in Hc. rewrite !andb_true_iff, bool_decide_eq_true in Hc.
    destruct Hc as [[Ha Hne] Hl]. apply list_elem_of_In in Hin.
    assert (Hc : find_client ca s = Some c).
    { unfold is_client in Ha. apply Z.eqb_eq in Ha as <-. by apply find_client_in; [apply Hs|]. }
    rewrite Hc in Hf. cbn in Hf. eexists. split; [exact Hf|].
    pose proof (si_clients s (proj1 Hs)) as Hcl. rewrite Forall_forall in Hcl.
    destruct (co_pool c (Hcl c Hin)) as [[E _]|[E _]].
    + rewrite E in Hne. done.
    + rewrite Hl, Hde in E. destruct c. cbn in *. congruence.
  - eexists. split; [reflexivity|]. split.
    + apply ready_update; [done|]. apply inv_pool; [apply Hse|done|by rewrite validate_received].
    + eexists. cbn [fst]. rewrite find_update by (by intros []). rewrite Z.eqb_refl, Hf. cbn.
      split; [reflexivity|]. by destruct (default _ _).
Qed.

Lemma server_hears_activation pool s :
  server_ready s -> holds pool s -> dd_devices pool <> [] ->
  exists s' i, server_hears (tco_to PGN_ECU_TO_TC (tc_cmd.ACTIVATE_POOL :: replicate 7 0xFF) sa) s
    = Some (s', [out_to (tc_cmd.ACTIVATE_RESPONSE :: 0 :: replicate 6 0xFF) ca]) /\
    server_ready s' /\ find_client ca s' = Some i /\ ci_ddop i = pool /\ ci_pool_activated i = true.
Proof.
  intros Hs (i & Hi & Hp) Hd. erewrite server_dispatches; [|done..|reflexivity].
  match goal with |- context [dispatch_client ?a ?b ?m ?c] =>
    change (dispatch_client a b m c) with (server_ok (let '(s, error) := activate_pool ca s in
      (s, [out_to (tc_cmd.ACTIVATE_RESPONSE :: ObjectPoolActivationError.as_u8 error
               :: replicate 6 0xFF) ca]))) end.
  pose proof (activate_inv ca s (proj1 Hs)) as Ha. revert Ha.
  unfold activate_pool. rewrite Hi, Hp. destruct (dd_devices pool) as [|dv dvs]; [done|]. cbn [fst].
  intros Ha. eexists _, _. split; [reflexivity|]. split; [by apply ready_update|].
  cbn [fst]. rewrite find_update by (by intros []). rewrite Z.eqb_refl, Hi. cbn.
  split; [reflexivity|]. by destruct i.
Qed.

Ltac frames := cbn [fmap list_fmap app compose].

(** One turn of the client per message of the handshake. *)
Lemma turn_working_set e v c s :
  client_in TCState.SendWorkingSetMaster v c -> server_ready s ->
  exists c' s', client_turn e (c, s) = Some (c', s') /\
    client_in TCState.RequestVersion v c' /\ server_ready s'.
Proof.
  intros Hc Hs.
  destruct (client_sends e _ v c TCState.RequestVersion _ Hc (list_elem_of_here _ _))
    as (c1 & Hu & H1).
  destruct (server_hears_version_response (ensure_client ca s)) as (s2 & Hv & H2);
    [by apply ready_ensure|].
  unfold client_turn. cbn [fst snd]. rewrite Hu. frames.
  rewrite (settle_server _ _ _ _ _ _ _ (server_hears_working_set s Hs)). frames.
  rewrite (settle_client _ _ _ _ _ _ _ (client_hears_version_request _ _ _ H1)). frames.
  rewrite (settle_server _ _ _ _ _ _ _ Hv). frames.
  by exists c1, s2.
Qed.

Lemma turn_version e v c s :
  client_in TCState.RequestVersion v c -> server_ready s ->
  tc_options_byte_is_valid (tsc_server_options g) = true ->
  exists c' s', client_turn e (c, s) = Some (c', s') /\
    client_in TCState.RequestStructureLabel (tsc_tc_version g) c' /\ server_ready s'.
Proof.
  intros Hc Hs Ho.
  destruct (client_sends e _ v c TCState.WaitForVersion _ Hc
              (list_elem_of_further _ _ _ (list_elem_of_here _ _))) as (c1 & Hu & H1).
  pose proof (ready_ensure s Hs) as Hse.
  destruct (client_hears_version v c1 H1 Ho) as (c2 & Hh & H2).
  unfold client_turn. cbn [fst snd]. rewrite Hu. frames.
  erewrite settle_server
    by (by apply (server_hears_request tc_cmd.VERSION_REQUEST tech_capabilities); [|apply list_elem_of_here]).
  frames. unfold tech_capabilities. destruct Hse as (Hi & Hg & Hst & Hl). rewrite Hg.
  rewrite (settle_client _ _ _ _ _ _ _ Hh). frames.
  exists c2, (ensure_client ca s). split_and!; done.
Qed.

Lemma turn_label e v c s :
  client_in TCState.RequestStructureLabel v c -> server_ready s ->
  exists c' s', client_turn e (c, s) = Some (c', s') /\
    client_in TCState.TransferDDOP v c' /\ server_ready s'.
Proof.
  intros Hc Hs.
  destruct (client_sends e _ v c TCState.WaitForStructureLabel _ Hc
    (list_elem_of_further _ _ _ (list_elem_of_further _ _ _ (list_elem_of_here _ _))))
    as (c1 & Hu & H1).
  pose proof (ready_ensure s Hs) as Hse.
  destruct (client_hears_label v c1 H1) as (c2 & Hh & H2).
  unfold client_turn. cbn [fst snd]. rewrite Hu. frames.
  erewrite settle_server
    by (by apply (server_hears_request tc_cmd.REQUEST_STRUCTURE_LABEL
             (fun s => tc_cmd.STRUCTURE_LABEL :: ts_structure_label s));
          [|apply list_elem_of_further, list_elem_of_here]).
  frames. destruct Hse as (Hi & Hg & Hst & Hl). rewrite Hl.
  rewrite (settle_client _ _ _ _ _ _ _ Hh). frames.
  exists c2, (ensure_client ca s). split_and!; done.
Qed.

Lemma turn_pool e v c s bs :
  client_in TCState.TransferDDOP v c -> server_ready s -> ddop_ok d -> ~ is_reserved d ->
  validate d = Ok tt -> ddop_serialize_for_version (Z.min (cap_version cp) v) d = Ok bs ->
  exists c' s', client_turn e (c, s) = Some (c', s') /\ client_in TCState.ActivatePool v c' /\
    server_ready s' /\ holds (received (Z.min (cap_version cp) v) d) s'.
Proof.
  intros Hc Hs Hok Hr Hv Hbs.
  destruct (client_transfers e v c bs Hc Hbs) as (c1 & Hu & H1).
  destruct (client_hears_pool v c1 H1) as (c2 & Hh & H2).
  destruct (server_hears_pool _ bs s Hs Hok Hr Hv Hbs) as (s1 & Hp & Hs1 & Hd).
  unfold client_turn. cbn [fst snd]. rewrite Hu. frames. 
  rewrite (settle_server _ _ _ _ _ _ _ Hp). frames.
  rewrite (settle_client _ _ _ _ _ _ _ Hh). frames.
  by exists c2, s1.
Qed.

Lemma turn_activation e v c s pool :
  client_in TCState.ActivatePool v c -> server_ready s -> holds pool s -> dd_devices pool <> [] ->
  exists c' s' i, client_turn e (c, s) = Some (c', s') /\ client_in TCState.Connected v c' /\
    tcc_timer_ms c' = 0 /\ server_ready s' /\
    find_client ca s' = Some i /\ ci_ddop i = pool /\ ci_pool_activated i = true.
Proof.
  intros Hc Hs Hp Hd.
  destruct (client_sends e _ v c TCState.WaitForActivation _ Hc
    (list_elem_of_further _ _ _ (list_elem_of_further _ _ _
       (list_elem_of_further _ _ _ (list_elem_of_here _ _))))) as (c1 & Hu & H1).
  destruct (client_hears_activation v c1 H1) as (c2 & Hh & H2 & Ht).
  destruct (server_hears_activation pool s Hs Hp Hd) as (s1 & i & Ha & Hs1 & Hf).
  unfold client_turn. cbn [fst snd]. rewrite Hu. frames.
  rewrite (settle_server _ _ _ _ _ _ _ Ha). frames.
  rewrite (settle_client _ _ _ _ _ _ _ Hh). frames.
  by exists c2, s1, i.
Qed.

Lemma turn_status e c s :
  tcc_state c = TCState.WaitForServerStatus -> tcc_ddop c = d -> tcc_capabilities c = cp ->
  tcc_tc_address c = NULL_ADDRESS \/ tcc_tc_address c = sa ->
  server_ready s -> 0 <= e -> TC_STATUS_INTERVAL_MS <= ts_status_timer_ms s + e ->
  exists c' s', server_turn e (c, s) = Some (c', s') /\
    client_in TCState.SendWorkingSetMaster (tcc_tc_version c) c' /\ server_ready s'.
Proof.
  intros H1 H2 H3 H4 (Hi & Hg & Hst & Hl) He Hdue.
  pose proof (server_update_good e s Hi He) as Hgood.
  pose proof (update_state e s Hi Hst) as Hst'.
  assert (Hkeep : ts_config (server_update e s).1 = g /\
                  ts_structure_label (server_update e s).1 = replicate 7 0xFF /\
                  exists s0, (server_update e s).2 = Some (encode_tc_status s0)).
  { destruct (update_rest e s) as (-> & -> & Hu). specialize (Hu Hst).
    pose proof (si_timer s Hi) as [Ht0 Ht1]. revert Hu. unfold sat_add.
    destruct (Z.leb_spec TC_STATUS_INTERVAL_MS (Z.min (ts_status_timer_ms s + e) (2 ^ 32 - 1)))
      as [_|Hlt]; [|unfold TC_STATUS_INTERVAL_MS in *; lia].
    intros [_ Hs0]. done. }
  destruct Hkeep as (Hg' & Hl' & s0 & Hout). unfold server_turn. cbn [fst snd].
  destruct (server_update e s) as [s1 out]. cbn [fst snd] in *. subst out. 
  change (settle 4 _ c s1) with (settle 4 [inr (out_broadcast (encode_tc_status s0))] c s1).
  destruct (client_hears_status s0 c H1 H2 H3 H4) as (c1 & Hh & Hc1).
  rewrite (settle_client _ _ _ _ _ _ _ Hh). frames.
  exists c1, s1. do 4 (split; [done|]). split; [by rewrite Hst'|done].
Qed.

Lemma handshake_turns v0 c s es bs :
  let v := Z.min (cap_version cp) (tsc_tc_version g) in
  client_in TCState.SendWorkingSetMaster v0 c -> server_ready s ->
  tc_options_byte_is_valid (tsc_server_options g) = true ->
  ddop_ok d -> ~ is_reserved d -> validate d = Ok tt ->
  ddop_serialize_for_version v d = Ok bs -> length es = 5%nat ->
  exists c' s' i, client_turns es (c, s) = Some (c', s') /\
    client_in TCState.Connected (tsc_tc_version g) c' /\ tcc_timer_ms c' = 0 /\ server_ready s' /\
    find_client ca s' = Some i /\ ci_ddop i = received v d /\ ci_pool_activated i = true.
Proof.
  intros v Hc Hs Ho Hok Hr Hv Hbs Hlen.
  destruct es as [|e1 [|e2 [|e3 [|e4 [|e5 [|]]]]]]; try done. cbn [client_turns].
  destruct (turn_working_set e1 v0 c s Hc Hs) as (c1 & s1 & -> & Hc1 & Hs1). cbn [mbind option_bind].
  destruct (turn_version e2 v0 c1 s1 Hc1 Hs1 Ho) as (c2 & s2 & -> & Hc2 & Hs2).
  cbn [mbind option_bind].
  destruct (turn_label e3 _ c2 s2 Hc2 Hs2) as (c3 & s3 & -> & Hc3 & Hs3). cbn [mbind option_bind].
  destruct (turn_pool e4 _ c3 s3 bs Hc3 Hs3 Hok Hr Hv Hbs) as (c4 & s4 & -> & Hc4 & Hs4 & Hp).
  cbn [mbind option_bind].
  assert (Hdv : dd_devices (received v d) <> []).
  { unfold validate in Hv. unfold received. by destruct (dd_devices d). }
  destruct (turn_activation e5 _ c4 s4 _ Hc4 Hs4 Hp Hdv)
    as (c5 & s5 & i & -> & Hc5 & Ht & Hs5 & Hf). cbn [mbind option_bind].
  by exists c5, s5, i.
Qed.
End Handshake.
End Bus.


Definition sample_client : TaskControllerClient :=
  set_ddop sample_pool (TaskControllerClient_new TCClientConfig_default).


(** ** A connection that lasts *)

(** What the traffic of others leaves alone: one client, the status timer, the running state. *)
Definition same_view (a : Address) (s s' : TaskControllerServer) : Prop :=
  find_client a s' = find_client a s /\ ts_status_timer_ms s' = ts_status_timer_ms s /\
  (ts_state s <> TCServerState.Disconnected -> ts_state s' <> TCServerState.Disconnected).
#[global] Instance same_view_preorder a : PreOrder (same_view a).
Proof.
  split; [by intros s|]. intros s1 s2 s3 (H1 & H2 & H3) (H4 & H5 & H6).
  split_and!; [congruence..|auto].
Qed.

Lemma view_emit a e s : same_view a s (ts_emit e s).
Proof. by destruct s. Qed.
Lemma view_triggers a l s : same_view a s (ts_with_triggers l s).
Proof. by destruct s. Qed.
Lemma view_update a b f s :
  a <> b -> (forall c, ci_address (f c) = ci_address c) -> same_view a s (update_client b f s).
Proof.
  intros Hab Hf. split; [|by destruct s]. rewrite find_update by done.
  by rewrite (proj2 (Z.eqb_neq a b)).
Qed.
Lemma view_transition a s : same_view a s (ts_transition TCServerState.Active s).
Proof.
  split_and!; [apply find_transition|unfold ts_transition; case_bool_decide; by destruct s|].
  by rewrite (proj2 (proj2 (transition_fields _ _))).
Qed.
Lemma view_ensure a b s : a <> b -> same_view a s (ensure_client b s).
Proof.
  intros Hab. unfold ensure_client. destruct (find_client b s); [by apply view_update; [|intros []]|].
  set (s1 := ts_emit _ _).
  assert (H1 : same_view a s s1).
  { unfold s1. etrans; [|apply view_emit]. split; [|by destruct s]. unfold find_client.
    assert (Hc : ts_clients (ts_with_clients (ts_clients s ++ [TCClientInfo_new b]) s)
                 = ts_clients s ++ [TCClientInfo_new b]) by (by destruct s).
    rewrite Hc, find_app. cbn. unfold is_client. cbn. rewrite (proj2 (Z.eqb_neq b a)) by done.
    by destruct (List.find _ _). }
  case_bool_decide; [|done]. etrans; [exact H1|]. apply view_transition.
Qed.

Lemma view_over_triggers a f s s' out : over_triggers f s = Some (s', out) -> same_view a s s'.
Proof.
  unfold over_triggers. destruct (each_trigger f (ts_triggers s)) as [[l o]|]; [|done].
  cbn. intros [= <- <-]. apply view_triggers.
Qed.

(** Every handler of a message from another address. *)
Definition view_of (a : Address) (s : TaskControllerServer)
    (r : option (TaskControllerServer * list TCOutbound)) : Prop :=
  forall s' out, r = Some (s', out) -> same_view a s s'.
Lemma view_here a s s' out : same_view a s s' -> view_of a s (Some (s', out)).
Proof. intros H ? ? [= <- <-]. done. Qed.

Lemma view_transfer a msg s :
  a <> m_source msg -> view_of a s (handle_object_pool_transfer msg s).
Proof.
  intros Ha. unfold handle_object_pool_transfer.
  enough (H : forall s' e, (if (length (m_data msg) <=? 8)%nat
      then Some (s, ObjectPoolErrorCodes.AnyOtherError)
      else accept_pool (m_source msg) (drop 1 (m_data msg)) s) = Some (s', e) -> same_view a s s').
  { destruct (if _ : bool then _ else _) as [[s1 e]|]; [|done]. apply view_here. by eapply H. }
  intros s' e. destruct (_ <=? _)%nat; [by intros [= <- <-]|]. unfold accept_pool.
  destruct (existsb _ _); [intros [= <- <-]; by apply view_ensure|].
  destruct (deserialize _) as [[pool|]|]; [|by intros [= <- <-]|done].
  destruct (validate pool); [|by intros [= <- <-]].
  destruct (find_client _ _); intros [= <- <-]; [|by apply view_ensure].
  etrans; [by apply view_ensure|]. by apply view_update; [|intros []].
Qed.

Lemma view_value a cbs msg b s : a <> m_source msg -> view_of a s (handle_value cbs msg b s).
Proof.
  intros Ha. unfold handle_value.
  destruct (m_data msg) as [|d0 [|d1 [|d2 [|d3 [|d4 [|d5 [|d6 [|d7 [|]]]]]]]]];
    try by apply view_here.
  destruct (update_measurement_value _ _ _ _ _) as [[s1 out]|] eqn:E; [|done].
  apply view_here. etrans; [by apply view_ensure|]. by eapply view_over_triggers.
Qed.

Lemma view_activate a b s : a <> b -> same_view a s (activate_pool b s).1.
Proof.
  intros Ha. unfold activate_pool. destruct (find_client b s) as [c|]; [|by apply view_emit].
  destruct (dd_devices (ci_ddop c)); [by apply view_emit|]. by apply view_update; [|intros []].
Qed.

Lemma view_answer a f msg s : a <> m_source msg -> view_of a s (Some (answer_request f msg s)).
Proof.
  intros Ha. unfold answer_request. destruct (negb _); apply view_here; [done|]. by apply view_ensure.
Qed.
Lemma view_version a msg s :
  a <> m_source msg -> view_of a s (Some (handle_client_version_response msg s)).
Proof.
  intros Ha. unfold handle_client_version_response. destruct (negb _); [by apply view_here|].
  destruct (m_data msg) as [|d0 [|d1 [|d2 [|d3 [|d4 [|d5 [|d6 [|d7 [|]]]]]]]]];
    try by apply view_here.
  destruct (find_client _ _); apply view_here; [|done].
  etrans; [|apply view_emit]. by apply view_update; [|intros []].
Qed.
Lemma view_activation a msg s :
  a <> m_source msg -> view_of a s (Some (handle_activate_deactivate_pool_request msg s)).
Proof.
  intros Ha. unfold handle_activate_deactivate_pool_request.
  destruct (is_deactivate_pool_request _).
  - destruct (find_client _ _); apply view_here; [|done]. by apply view_update; [|intros []].
  - pose proof (view_activate a (m_source msg) s Ha) as H. destruct (activate_pool _ _).
    by apply view_here.
Qed.
Lemma view_request_value a cbs msg s :
  a <> m_source msg -> view_of a s (Some (handle_request_value cbs msg s)).
Proof.
  intros Ha. unfold handle_request_value. destruct (negb _); [by apply view_here|].
  destruct (m_data msg) as [|d0 [|d1 [|d2 [|d3 l]]]]; try by apply view_here.
  pose proof (view_ensure a (m_source msg) s Ha) as H.
  destruct (cb_value_request cbs) as [cb|]; [|by apply view_here].
  destruct (cb _ _ _); by apply view_here.
Qed.
Lemma view_peer a cbs msg s :
  a <> m_source msg -> view_of a s (Some (handle_peer_control cbs msg s)).
Proof.
  intros Ha. unfold handle_peer_control.
  destruct (peer_decode _ _ _) as [p|]; [|by apply view_here].
  assert (H : same_view a s (ts_emit (TcsPeerControl p) (ensure_client (m_source msg) s))).
  { etrans; [by apply view_ensure|apply view_emit]. }
  destruct (cb_peer_control cbs); by apply view_here.
Qed.

Lemma view_sent a s r : view_of a s (sent_of r) <-> forall s' x, r = Some (s', x) -> same_view a s s'.
Proof.
  unfold view_of, sent_of. destruct r as [[s1 [out|e]]|]; cbn; split; intros H s' x; try done;
    intros [= <- <-]; by eapply H.
Qed.
Lemma view_checked a b e s r : view_of a s (sent_of r) -> view_of a s (sent_of (checked b e s r)).
Proof. unfold checked. destruct b; [done|]. by intros _ s' out [= <- <-]. Qed.
Lemma view_ok a s r : view_of a s (Some r) -> view_of a s (sent_of (server_ok r)).
Proof. by destruct r. Qed.
Lemma view_try a s r : view_of a s r -> view_of a s (sent_of (server_try r)).
Proof. by destruct r as [[]|]. Qed.

Lemma view_message a cbs msg s :
  a <> m_source msg -> view_of a s (sent_of (try_handle_client_message cbs msg s)).
Proof.
  intros Ha. assert (Herr : forall e, view_of a s (sent_of (Some (s, Err e)))) by (by intros e s' out [= <- <-]).
  unfold try_handle_client_message. do 3 (destruct (negb _); [done|]).
  destruct (m_data msg) as [|first data] eqn:Hm; [done|]. unfold dispatch_client.
  repeat match goal with
  | |- view_of _ _ (sent_of (if ?b then checked _ _ _ _ else _)) =>
      destruct b; [apply view_checked, view_ok|]
  end; [by apply view_version|by apply view_answer..|].
  destruct (first =? tc_cmd.OBJECT_POOL_TRANSFER); [by apply view_try, view_transfer|].
  repeat match goal with
  | |- view_of _ _ (sent_of (if ?b then checked _ _ _ _ else _)) =>
      destruct b; [apply view_checked, view_ok|]
  end.
  - by apply view_activation.
  - apply view_here. by apply view_update; [|intros []].
  - destruct (ProcessDataCommands.try_from_u8 first) as [cmd|]; [|done].
    destruct cmd; try (apply Herr); apply view_checked.
    + apply view_ok. by apply view_request_value.
    + apply view_try. by apply view_value.
    + apply view_ok. by apply view_peer.
    + apply view_try. by apply view_value.
    + apply view_ok, view_here. etrans; [by apply view_ensure|]. by apply view_update; [|intros []].
Qed.

(** The traffic of others: what reaches the server from other addresses, what the application
    does there short of stopping it, and what reaches the client from other sources. *)
Definition others_op (ca : Address) (op : TcsOp) : Prop :=
  match op with
  | OpMessage _ msg | OpWorkingSetMaster msg => m_source msg <> ca
  | OpUpdate _ | OpStart | OpStop => False
  | OpActivate a => a <> ca
  | _ => True
  end.

Lemma view_apply a op s s' out :
  others_op a op -> tcs_apply op s = Some (s', out) -> same_view a s s'.
Proof.
  destruct op; cbn [others_op tcs_apply]; intros Ho; try done.
  - by apply view_message.
  - intros H. apply (proj2 (view_sent a s (Some (try_handle_working_set_master msg s)))) in H; [done|].
    intros s1 x. unfold try_handle_working_set_master.
    do 4 (destruct (negb _); [by intros [= <- <-]|]). intros [= <- <-]. by apply view_ensure.
  - destruct (configure_measurement_trigger_with_initial t s) as [s1 r] eqn:E. intros [= <- _].
    unfold configure_measurement_trigger_with_initial, configure_measurement_trigger in E.
    repeat (case_match; [..|]; simplify_eq; try done); apply view_triggers.
  - intros [= <- _]. apply view_triggers.
  - by apply view_over_triggers.
  - by apply view_over_triggers.
  - intros [= <- _]. by apply view_activate.
  - intros [= <- _]. by destruct s.
  - intros [= <- _]. by destruct s.
Qed.

Section Connection.
Context (ca sa : Address) (ccbs : ClientCallbacks) (scbs : Callbacks) (pool : DDOP).
Context (Hca : usable ca) (Hsa : usable sa).

(** The pair of a connected client and its server; [skew] is how much further the client's clock
    has been advanced than the server's. *)
Record linked (skew : Z) (c : TaskControllerClient) (s : TaskControllerServer) : Prop := {
  lk_state : tcc_state c = TCState.Connected;
  lk_address : tcc_tc_address c = sa;
  lk_timeout : 6000 <= tcc_timeout_ms (tcc_config c);
  lk_server : server_inv s /\ ts_state s <> TCServerState.Disconnected;
  lk_timer : 0 <= tcc_timer_ms c <= ts_status_timer_ms s + 2000 + skew;
  lk_status : ts_status_timer_ms s < 2000;
  lk_task : 0 <= tcc_client_task_timer_ms c < 2000;
  lk_client : exists i, find_client ca s = Some i /\ ci_ddop i = pool /\
    ci_pool_activated i = true /\ ci_last_status_ms i <= tcc_client_task_timer_ms c + 2000 - skew
}.

Lemma server_hears_task b s i :
  server_inv s -> ts_state s <> TCServerState.Disconnected -> find_client ca s = Some i ->
  exists s', server_hears ca sa scbs (tco_to PGN_ECU_TO_TC (build_client_task b) sa) s = Some (s', [])
    /\ server_inv s' /\ ts_state s' <> TCServerState.Disconnected /\
    ts_status_timer_ms s' = ts_status_timer_ms s /\
    find_client ca s' = Some (ci_with_totals b (ci_with_status 0 i)).
Proof.
  intros Hs Hst Hi. erewrite (server_dispatches ca sa scbs Hca Hsa); [|done..|reflexivity].
  eexists. split; [by destruct b|]. cbn [fst].
  assert (Hse : server_inv (ensure_client ca s)) by (destruct Hca; by apply inv_ensure).
  assert (Hx : ensure_client ca s = update_client ca (ci_with_status 0) s)
    by (unfold ensure_client; by rewrite Hi).
  change (handle_client_task _ s).1 with (update_client ca
    (ci_with_totals (negb (Z.land (if b then 1 else 0) 0x01 =? 0))) (ensure_client ca s)).
  split; [apply inv_update; [done|by intros []|by intros [] _ []]|].
  rewrite Hx.
  split; [by destruct s|]. split; [by destruct s|].
  rewrite !find_update by (by intros []). rewrite Z.eqb_refl, Hi. cbn. by destruct b.
Qed.

Lemma linked_client_tick skew e c s :
  linked skew c s -> 0 <= e -> -2000 <= skew -> skew + e <= 2000 ->
  exists c' s', client_turn ca sa ccbs scbs e (c, s) = Some (c', s') /\ linked (skew + e) c' s'.
Proof.
  intros [Hc Ha Ht [Hs Hst] Htm Hss Hk (i & Hi & Hp & Hact & Hage)] He Hlo Hhi.
  destruct c as [cfg [st] dd t k tot a v cp b sec tr]. cbn in *. subst st a.
  pose proof (si_timer s Hs) as [Hst0 _].
  unfold client_turn. cbn [fst snd].
  unfold tcc_update. cbn [tcc_with_timer tcc_state tcc_machine StateMachine.state].
  unfold connected_update. cbn [tcc_config tcc_timer_ms tcc_client_task_timer_ms].
  assert (Hsat : sat_add 32 t e = t + e) by (unfold sat_add; lia). rewrite Hsat.
  destruct (Z.leb_spec (tcc_timeout_ms cfg) (t + e)) as [|_]; [lia|].
  assert (Hsk : sat_add 32 k e = k + e) by (unfold sat_add; lia). rewrite Hsk.
  unfold CLIENT_TASK_INTERVAL_MS. destruct (Z.leb_spec 2000 (k + e)) as [Hdue|Hnot].
  - destruct (server_hears_task tot s i Hs Hst Hi) as (s' & Hh & Hs' & Hst' & Htm' & Hf).
    cbn [fmap list_fmap tcc_task_totals_active tcc_tc_address].
    rewrite (settle_server _ _ _ _ _ _ _ _ _ _ _ Hh). eexists _, s'. split; [reflexivity|].
    split; cbn; rewrite ?Htm'; try done; [lia|].
    eexists. split; [exact Hf|]. destruct i. cbn in *. split_and!; [done..|lia].
  - eexists _, s. split; [reflexivity|]. split; cbn; try done; [lia..|].
    exists i. split_and!; [done..|lia].
Qed.

Lemma client_hears_keepalive s c :
  tcc_state c = TCState.Connected -> tcc_tc_address c = sa ->
  exists c', client_hears ca sa ccbs (out_broadcast (encode_tc_status s)) c = (c', []) /\
    tcc_state c' = TCState.Connected /\ tcc_tc_address c' = sa /\ tcc_config c' = tcc_config c /\
    tcc_timer_ms c' = 0 /\ tcc_client_task_timer_ms c' = tcc_client_task_timer_ms c.
Proof.
  intros H1 H2. erewrite (client_dispatches ca sa ccbs Hca Hsa _ c 0xFE); [|done|done|by right|reflexivity].
  destruct c as [? [] ? ? ? ? ? ? ? ? ? ?]. cbn in H1, H2. subst.
  eexists. split; [reflexivity|]. repeat split.
Qed.

Lemma linked_server_tick skew e c s :
  linked skew c s -> 0 <= e <= 2000 -> skew <= 2000 -> -2000 <= skew - e ->
  exists c' s', server_turn ca sa ccbs scbs e (c, s) = Some (c', s') /\ linked (skew - e) c' s'.
Proof.
  intros [Hc Ha Ht [Hs Hst] Htm Hss Hk (i & Hi & Hp & Hact & Hage)] He Hhi Hlo.
  pose proof (server_update_good e s Hs (proj1 He)) as Hgood.
  pose proof (update_state e s Hs Hst) as Hst'.
  destruct (update_rest e s) as (_ & _ & Hu). specialize (Hu Hst). cbv zeta in Hu.
  pose proof (si_timer s Hs) as [Ht0 _].
  assert (Hsat : sat_add 32 (ts_status_timer_ms s) e = ts_status_timer_ms s + e)
    by (unfold sat_add; lia). rewrite Hsat in Hu.
  assert (Hia : 0 <= ci_last_status_ms i).
  { pose proof (si_clients s Hs) as Hl. rewrite Forall_forall in Hl.
    destruct (Hl i) as [_ [? ?] _ _]; [by apply find_client_Some in Hi as [? _]|done]. }
  assert (Hf : find_client ca (server_update e s).1 = Some (age_client e i)).
  { rewrite find_server_update, Hi by done. cbn. unfold aged, is_lost.
    assert (Hag : ci_last_status_ms (age_client e i) = ci_last_status_ms i + e)
      by (destruct i; cbn in *; unfold sat_add; lia).
    rewrite Hag. unfold TC_CLIENT_TIMEOUT_MS, TC_STATUS_INTERVAL_MS.
    by destruct (Z.leb_spec (3 * 2000) (ci_last_status_ms i + e)); [lia|]. }
  assert (Hi' : ci_ddop (age_client e i) = pool /\ ci_pool_activated (age_client e i) = true /\
    ci_last_status_ms (age_client e i) = ci_last_status_ms i + e).
  { destruct i; cbn in *. split_and!; [done..|]. unfold sat_add. lia. }
  destruct Hi' as (Hp' & Hact' & Hage').
  unfold server_turn. cbn [fst snd]. destruct (server_update e s) as [s1 out]. cbn [fst snd] in *.
  unfold TC_STATUS_INTERVAL_MS in Hu.
  destruct (Z.leb_spec 2000 (ts_status_timer_ms s + e)) as [Hdue|Hnot].
  - destruct Hu as (Hts & s0 & ->). 
    change (settle ca sa ccbs scbs 4 _ c s1)
      with (settle ca sa ccbs scbs 4 [inr (out_broadcast (encode_tc_status s0))] c s1).
    destruct (client_hears_keepalive s0 c Hc Ha) as (c' & Hh & H1 & H2 & H3 & H4 & H5).
    rewrite (settle_client _ _ _ _ _ _ _ _ _ _ _ Hh). exists c', s1. split; [reflexivity|].
    split; rewrite ?H3, ?H4, ?H5; try done; [by rewrite Hst'|lia..|].
    exists (age_client e i). split_and!; [done..|lia].
  - destruct Hu as (Hts & ->). exists c, s1. split; [reflexivity|].
    split; try done; [by rewrite Hst'|lia..|].
    exists (age_client e i). split_and!; [done..|lia].
Qed.

Inductive LinkStep : Type :=
| ClientTick (e : Z)
| ServerTick (e : Z)
| OthersDo (op : TcsOp)
| StrayFrame (msg : Message).

Definition link_step (x : LinkStep) (cs : TaskControllerClient * TaskControllerServer)
    : option (TaskControllerClient * TaskControllerServer) :=
  match x with
  | ClientTick e => client_turn ca sa ccbs scbs e cs
  | ServerTick e => server_turn ca sa ccbs scbs e cs
  | OthersDo op => '(s, _) ← tcs_apply op cs.2; Some (cs.1, s)
  | StrayFrame msg => Some ((try_handle_tc_message ccbs msg cs.1).1, cs.2)
  end.
Fixpoint link_run (l : list LinkStep) (cs : TaskControllerClient * TaskControllerServer)
    : option (TaskControllerClient * TaskControllerServer) :=
  match l with
  | [] => Some cs
  | x :: l => cs ← link_step x cs; link_run l cs
  end.

(** Both sides are serviced: neither clock is more than two seconds ahead of the other. *)
Fixpoint serviced (skew : Z) (l : list LinkStep) : Prop :=
  match l with
  | [] => True
  | ClientTick e :: l => 0 <= e /\ skew + e <= 2000 /\ serviced (skew + e) l
  | ServerTick e :: l => 0 <= e <= 2000 /\ -2000 <= skew - e /\ serviced (skew - e) l
  | OthersDo op :: l => others_op ca op /\ op_typed op /\ serviced skew l
  | StrayFrame msg :: l => m_source msg <> sa /\ serviced skew l
  end.

(** A frame of any other source leaves a bound client as it was. *)
Lemma stray_ignored msg c :
  tcc_tc_address c = sa -> m_source msg <> sa -> (try_handle_tc_message ccbs msg c).1 = c.
Proof.
  intros Ha Hm. unfold try_handle_tc_message. do 3 (destruct (negb _); [done|]).
  destruct Hsa. rewrite Ha, !(proj2 (Z.eqb_neq _ _)) by done. done.
Qed.

Lemma linked_others skew c s op s' out :
  linked skew c s -> others_op ca op -> op_typed op -> tcs_apply op s = Some (s', out) ->
  linked skew c s'.
Proof.
  intros [Hc Ha Ht [Hs Hst] Htm Hss Hk Hi] Ho Hty E.
  destruct (view_apply ca op s s' out Ho E) as (Hf & Htm' & Hst').
  destruct (tcs_apply_good op s Hs Hty) as (s2 & out2 & E2 & Hs2 & _).
  rewrite E in E2. injection E2 as <- <-.
  split; rewrite ?Htm', ?Hf; try done. split; [done|by apply Hst'].
Qed.

Lemma linked_run l skew c s :
  linked skew c s -> -2000 <= skew <= 2000 -> serviced skew l ->
  exists c' s' skew', link_run l (c, s) = Some (c', s') /\ linked skew' c' s'.
Proof.
  revert skew c s. induction l as [|x l IH]; intros skew c s Hl Hsk Hx; [by exists c, s, skew|].
  destruct x as [e|e|op|msg]; cbn in Hx |- *.
  - destruct Hx as (He & Hb & Hx).
    destruct (linked_client_tick skew e c s Hl He) as (c1 & s1 & -> & H1); [lia..|].
    cbn. apply (IH (skew + e)); [done|lia|done].
  - destruct Hx as (He & Hb & Hx).
    destruct (linked_server_tick skew e c s Hl He) as (c1 & s1 & -> & H1); [lia..|].
    cbn. apply (IH (skew - e)); [done|lia|done].
  - destruct Hx as (Ho & Hty & Hx).
    destruct (tcs_apply_good op s (proj1 (lk_server _ _ _ Hl)) Hty) as (s1 & out & E & _ & _).
    rewrite E. cbn. apply (IH skew); [|done..]. by eapply linked_others.
  - destruct Hx as (Hm & Hx). rewrite (stray_ignored msg c (lk_address _ _ _ Hl) Hm).
    by apply (IH skew).
Qed.
End Connection.


(** A connected client, and a server that holds its pool. *)
Definition sample_bytes : list Z :=
  match ddop_serialize_for_version 4 sample_pool with Ok bs => bs | Err _ => [] end.
Definition linked_client : TaskControllerClient :=
  tcc_with_address 0x10 (tcc_transition TCState.Connected (tcc_connect sample_client).1).
Definition linked_server : TaskControllerServer :=
  (activate_pool 0x20
     (update_client 0x20 (ci_with_pool (received 4 sample_pool) sample_bytes) sample_server)).1.

Lemma linked_sample : linked 0x20 0x10 (received 4 sample_pool) 0 linked_client linked_server.
Proof.
  assert (Hinv : server_inv linked_server).
  { apply activate_inv, inv_pool; [exact sample_server_inv|by vm_compute|by vm_compute]. }
  split; try (by vm_compute).
  exists (ci_with_activated true (ci_with_pool (received 4 sample_pool) sample_bytes
            (TCClientInfo_new 0x20))). split_and!; [by vm_compute|reflexivity|reflexivity|].
  vm_compute. discriminate.
Qed.


(** The states in which the client depends on the task controller. *)
Definition awaits (st : TCState.t) : bool :=
  match st with
  | TCState.WaitForServerStatus | TCState.WaitForVersion | TCState.WaitForStructureLabel
  | TCState.WaitForLocalizationLabel | TCState.WaitForPoolResponse | TCState.WaitForActivation
  | TCState.WaitForDeactivation | TCState.WaitForDeletePool | TCState.Connected => true
  | _ => false
  end.
Definition client_ticks (es : list Z) (c : TaskControllerClient) : TaskControllerClient :=
  foldl (fun c e => (tcc_update e c).1) c es.

Lemma ticks_disconnected es c :
  tcc_state c = TCState.Disconnected -> tcc_state (client_ticks es c) = TCState.Disconnected.
Proof.
  revert c. induction es as [|e es IH]; intros c Hc; [done|]. apply IH.
  destruct c as [? [st] ? ? ? ? ? ? ? ? ? ?]. cbn in Hc. by subst.
Qed.

(** One tick of a client that awaits something. *)
Lemma awaiting_tick e c :
  awaits (tcc_state c) = true ->
  tcc_config (tcc_update e c).1 = tcc_config c /\
  tcc_timer_ms (tcc_update e c).1 = sat_add 32 (tcc_timer_ms c) e /\
  tcc_state (tcc_update e c).1
  = if tcc_timeout_ms (tcc_config c) <=? sat_add 32 (tcc_timer_ms c) e
    then TCState.Disconnected else tcc_state c.
Proof.
  destruct c as [g [st] dd t k tot a v cp b sec tr]. unfold tcc_update, tcc_state. cbn.
  unfold connected_update, tcc_transition. cbn.
  destruct st; try done; intros _; destruct (_ <=? _); try done; by destruct (_ <=? _).
Qed.

(** A client never waits for ever: in every state that awaits the task controller, and in the
    connected state, a client that hears nothing enters the disconnected state once the time
    since its last step reaches the timeout, and not before. *)
Theorem tc_client_never_waits_forever c es :
  awaits (tcc_state c) = true -> in_u 32 (tcc_timeout_ms (tcc_config c)) ->
  0 <= tcc_timer_ms c < tcc_timeout_ms (tcc_config c) -> Forall (fun e => 0 <= e) es ->
  let silent := tcc_timer_ms c + foldr Z.add 0 es in
  tcc_state (client_ticks es c)
  = if tcc_timeout_ms (tcc_config c) <=? silent then TCState.Disconnected else tcc_state c.
Proof.
  intros Ha Hto Ht Hes. revert c Ha Hto Ht.
  induction Hes as [|e es He Hes IH]; intros c Ha Hto Ht silent.
  - unfold silent. cbn. by destruct (Z.leb_spec (tcc_timeout_ms (tcc_config c)) (tcc_timer_ms c + 0)); [lia|].
  - assert (Hsum : 0 <= foldr Z.add 0 es) by (clear - Hes; induction Hes; cbn; lia).
    destruct (awaiting_tick e c Ha) as (Hg & Htm & Hst).
    change (client_ticks (e :: es) c) with (client_ticks es (tcc_update e c).1).
    unfold silent, sat_add, in_u in *. cbn [foldr].
    destruct (Z.leb_spec (tcc_timeout_ms (tcc_config c)) (Z.min (tcc_timer_ms c + e) (2 ^ 32 - 1)))
      as [Hle|Hlt].
    + rewrite ticks_disconnected by done.
      by destruct (Z.leb_spec (tcc_timeout_ms (tcc_config c)) (tcc_timer_ms c + (e + foldr Z.add 0 es))); [|lia].
    + rewrite IH by (rewrite ?Hst, ?Hg, ?Htm; (done || lia)). rewrite Hst, Hg, Htm.
      by replace (Z.min (tcc_timer_ms c + e) (2 ^ 32 - 1) + foldr Z.add 0 es)
        with (tcc_timer_ms c + (e + foldr Z.add 0 es)) by lia.
Qed.

Lemma tc_client_never_waits_forever_witness :
  tcc_state (client_ticks [2500; 3499] (tcc_connect sample_client).1) = TCState.WaitForServerStatus /\
  tcc_state (client_ticks [2500; 3499; 1] (tcc_connect sample_client).1) = TCState.Disconnected.
Proof.
  assert (Hc : tcc_connect sample_client = ((tcc_connect sample_client).1, Ok tt))
    by (vm_compute; reflexivity).
  assert (Ha : awaits (tcc_state (tcc_connect sample_client).1) = true) by (vm_compute; reflexivity).
  assert (Ht : 0 <= tcc_timer_ms (tcc_connect sample_client).1
                 < tcc_timeout_ms (tcc_config (tcc_connect sample_client).1))
    by (split; vm_compute; [discriminate|reflexivity]).
  assert (Hu : in_u 32 (tcc_timeout_ms (tcc_config (tcc_connect sample_client).1)))
    by (split; vm_compute; [discriminate|reflexivity]).
  split.
  - pose proof (tc_client_never_waits_forever _ [2500; 3499] Ha Hu Ht) as H.
    rewrite H by (repeat constructor; lia). vm_compute. reflexivity.
  - pose proof (tc_client_never_waits_forever _ [2500; 3499; 1] Ha Hu Ht) as H.
    rewrite H by (repeat constructor; lia). vm_compute. reflexivity.
Defined.
