(* ===== verification/FsTypes.v ===== *)
(** File server types: the model of [src/isobus/fs/types.rs] and
    [src/isobus/fs/error_codes.rs].

    A Rust [String] is its list of UTF-8 bytes. *)
From S2P Require Export DdopObjects Requests AddressClaim Clock.

Definition PGN_FILE_CLIENT_TO_SERVER : Pgn := 0xAA00.
Definition PGN_FILE_SERVER_TO_CLIENT : Pgn := 0xAB00.

(** ** [error_codes.rs] *)

Module FSError.
Inductive t : Type :=
| Success | AccessDenied | InvalidAccess | TooManyOpen | NotFound | InvalidHandle
| InvalidSourceName | InvalidDestName | NoSpace | WriteFail | MediaNotPresent | ReadFail
| NotSupported | NotInitialized | InvalidLength | OutOfMemory | OtherError | EndOfFile
| TANError | MalformedRequest.
#[global] Instance eq_dec : EqDecision t.
Proof. solve_decision. Defined.
Definition as_u8 (e : t) : Z :=
  match e with
  | Success => 0 | AccessDenied => 1 | InvalidAccess => 2 | TooManyOpen => 3 | NotFound => 4
  | InvalidHandle => 5 | InvalidSourceName => 6 | InvalidDestName => 7 | NoSpace => 8
  | WriteFail => 9 | MediaNotPresent => 10 | ReadFail => 11 | NotSupported => 12
  | NotInitialized => 13 | InvalidLength => 42 | OutOfMemory => 43 | OtherError => 44
  | EndOfFile => 45 | TANError => 46 | MalformedRequest => 47
  end.
Definition try_from_u8 (v : Z) : option t :=
  match v with
  | 0 => Some Success | 1 => Some AccessDenied | 2 => Some InvalidAccess
  | 3 => Some TooManyOpen | 4 => Some NotFound | 5 => Some InvalidHandle
  | 6 => Some InvalidSourceName | 7 => Some InvalidDestName | 8 => Some NoSpace
  | 9 => Some WriteFail | 10 => Some MediaNotPresent | 11 => Some ReadFail
  | 12 => Some NotSupported | 13 => Some NotInitialized | 42 => Some InvalidLength
  | 43 => Some OutOfMemory | 44 => Some OtherError | 45 => Some EndOfFile
  | 46 => Some TANError | 47 => Some MalformedRequest
  | _ => None
  end.
Definition from_u8 (v : Z) : t :=
  match try_from_u8 v with Some error => error | None => OtherError end.
Definition is_fatal (e : t) : bool :=
  match e with OutOfMemory | NotInitialized | MediaNotPresent => true | _ => false end.
Definition is_retryable (e : t) : bool :=
  match e with TooManyOpen | WriteFail | ReadFail => true | _ => false end.
Definition as_str (e : t) : string :=
  match e with
  | Success => "Success" | AccessDenied => "Access Denied" | InvalidAccess => "Invalid Access"
  | TooManyOpen => "Too Many Open" | NotFound => "Not Found" | InvalidHandle => "Invalid Handle"
  | InvalidSourceName => "Invalid Source Name" | InvalidDestName => "Invalid Dest Name"
  | NoSpace => "No Space" | WriteFail => "Write Fail" | MediaNotPresent => "Media Not Present"
  | ReadFail => "Read Fail" | NotSupported => "Not Supported"
  | NotInitialized => "Not Initialized" | InvalidLength => "Invalid Length"
  | OutOfMemory => "Out Of Memory" | OtherError => "Other Error" | EndOfFile => "End Of File"
  | TANError => "TAN Error" | MalformedRequest => "Malformed Request"
  end.
End FSError.

Definition fs_error_byte_is_valid (v : Z) : bool := bool_decide (is_Some (FSError.try_from_u8 v)).

Module OpenFlags.
Inductive t : Type := Read | Write | ReadWrite | OpenDir | Create | Append | Exclusive.
Definition bit (f : t) : Z :=
  match f with
  | Read => 0x00 | Write => 0x01 | ReadWrite => 0x02 | OpenDir => 0x03 | Create => 0x04
  | Append => 0x08 | Exclusive => 0x10
  end.
End OpenFlags.
Definition has_flag (flags : Z) (flag : OpenFlags.t) : bool :=
  negb (Z.land flags (OpenFlags.bit flag) =? 0).
Definition get_access_mode (flags : Z) : Z := Z.land flags 0x03.
Definition open_flags_have_no_reserved_bits (flags : Z) : bool :=
  Z.land flags
    (not_u 8 (Z.lor (Z.lor (Z.lor (OpenFlags.bit OpenFlags.OpenDir) (OpenFlags.bit OpenFlags.Create))
                           (OpenFlags.bit OpenFlags.Append)) (OpenFlags.bit OpenFlags.Exclusive))) =? 0.

Module FileAttributes.
Inductive t : Type :=
| None_ | ReadOnly | Hidden | VolumeSupportsHidden | IsVolume | Directory
| VolumeSupportsLongFilenames | VolumeNotRemovable | VolumeCaseSensitive.
Definition bit (a : t) : Z :=
  match a with
  | None_ => 0x00 | ReadOnly => 0x01 | Hidden => 0x02 | VolumeSupportsHidden => 0x04
  | IsVolume => 0x08 | Directory => 0x10 | VolumeSupportsLongFilenames => 0x20
  | VolumeNotRemovable => 0x40 | VolumeCaseSensitive => 0x80
  end.
End FileAttributes.
Definition FILE_ATTRIBUTES_CLIENT_SETTABLE : Z :=
  Z.lor (FileAttributes.bit FileAttributes.ReadOnly) (FileAttributes.bit FileAttributes.Hidden).
Definition has_attribute (attrs : Z) (attr : FileAttributes.t) : bool :=
  negb (Z.land attrs (FileAttributes.bit attr) =? 0).

(** ** [types.rs] *)

Definition INVALID_TAN : Z := 0xFF.
Definition INVALID_FILE_HANDLE : Z := 0xFF.
Definition RESERVED_FILE_HANDLE_0 : Z := 0x00.
Definition FS_SUPPORTED_COUNT_MAX : Z := 250.
Definition fs_count_is_supported (count : Z) : bool := count <=? FS_SUPPORTED_COUNT_MAX.

Module FSFunction.
Inductive t : Type :=
| FileServerStatus | GetFileServerProperties | VolumeStatus | GetCurrentDirectory
| ChangeDirectory | OpenFile | SeekFile | ReadFile | WriteFile | CloseFile | MoveFile
| DeleteFile | GetFileAttributes | SetFileAttributes | GetFileDateTime | InitializeVolume.
#[global] Instance eq_dec : EqDecision t.
Proof. solve_decision. Defined.
Definition as_u8 (f : t) : Z :=
  match f with
  | FileServerStatus => 0x00 | GetFileServerProperties => 0x01 | VolumeStatus => 0x02
  | GetCurrentDirectory => 0x10 | ChangeDirectory => 0x11 | OpenFile => 0x20
  | SeekFile => 0x21 | ReadFile => 0x22 | WriteFile => 0x23 | CloseFile => 0x24
  | MoveFile => 0x30 | DeleteFile => 0x31 | GetFileAttributes => 0x32
  | SetFileAttributes => 0x33 | GetFileDateTime => 0x34 | InitializeVolume => 0x40
  end.
Definition try_from_u8 (v : Z) : option t :=
  match v with
  | 0x00 => Some FileServerStatus | 0x01 => Some GetFileServerProperties
  | 0x02 => Some VolumeStatus | 0x10 => Some GetCurrentDirectory
  | 0x11 => Some ChangeDirectory | 0x20 => Some OpenFile | 0x21 => Some SeekFile
  | 0x22 => Some ReadFile | 0x23 => Some WriteFile | 0x24 => Some CloseFile
  | 0x30 => Some MoveFile | 0x31 => Some DeleteFile | 0x32 => Some GetFileAttributes
  | 0x33 => Some SetFileAttributes | 0x34 => Some GetFileDateTime
  | 0x40 => Some InitializeVolume
  | _ => None
  end.
Definition from_u8 (v : Z) : option t := try_from_u8 v.
End FSFunction.
Definition CCM_FUNCTION_CODE : Z := FSFunction.as_u8 FSFunction.FileServerStatus.
Definition FS_VERSION_NUMBER : Z := 4.

Module VolumeState.
Inductive t : Type := Present | InUse | PreparingForRemoval | Removed.
#[global] Instance eq_dec : EqDecision t.
Proof. solve_decision. Defined.
Definition as_u8 (s : t) : Z :=
  match s with Present => 0 | InUse => 1 | PreparingForRemoval => 2 | Removed => 3 end.
Definition from_u8 (v : Z) : t :=
  match v with 1 => InUse | 2 => PreparingForRemoval | 3 => Removed | _ => Present end.
Definition try_from_u8 (v : Z) : option t :=
  match v with
  | 0 => Some Present | 1 => Some InUse | 2 => Some PreparingForRemoval | 3 => Some Removed
  | _ => None
  end.
End VolumeState.

Record FileServerProperties : Type := mkProps {
  version_number : Z;
  max_simultaneous_files : Z;
  supports_multiple_volumes : bool;
  supports_removable_volumes : bool
}.
Definition FS_CAPABILITY_MULTIPLE_VOLUMES : Z := Z.shiftl 1 0.
Definition FS_CAPABILITY_REMOVABLE_VOLUMES : Z := Z.shiftl 1 1.
Definition FileServerProperties_default : FileServerProperties :=
  mkProps FS_VERSION_NUMBER 16 false true.
Definition normalized_for_wire (p : FileServerProperties) : FileServerProperties :=
  if FS_SUPPORTED_COUNT_MAX <? max_simultaneous_files p
  then mkProps (version_number p) FS_SUPPORTED_COUNT_MAX (supports_multiple_volumes p)
         (supports_removable_volumes p)
  else p.
Definition encode_response (p : FileServerProperties) (tan : Z) : list Z :=
  [FSFunction.as_u8 FSFunction.GetFileServerProperties; tan; version_number p;
   Z.min (max_simultaneous_files p) FS_SUPPORTED_COUNT_MAX;
   Z.lor (if supports_multiple_volumes p then FS_CAPABILITY_MULTIPLE_VOLUMES else 0)
         (if supports_removable_volumes p then FS_CAPABILITY_REMOVABLE_VOLUMES else 0);
   0xFF; 0xFF; 0xFF].
Definition decode_response (data : list Z) : option (Z * FileServerProperties) :=
  if (length data <? 5)%nat || (8 <? length data)%nat then None
  else match data with
  | d0 :: d1 :: d2 :: d3 :: d4 :: _ =>
      if negb (d0 =? FSFunction.as_u8 FSFunction.GetFileServerProperties) then None
      else Some (d1, mkProps d2 (Z.min d3 FS_SUPPORTED_COUNT_MAX)
                       (negb (Z.land d4 FS_CAPABILITY_MULTIPLE_VOLUMES =? 0))
                       (negb (Z.land d4 FS_CAPABILITY_REMOVABLE_VOLUMES =? 0)))
  | _ => None
  end.

Record FileEntry : Type := mkEntry {
  fe_name : list Z;
  fe_size : Z;
  fe_attributes : Z;
  fe_date : Z;
  fe_time : Z
}.
Definition is_directory (e : FileEntry) : bool :=
  has_attribute (fe_attributes e) FileAttributes.Directory.
Definition is_read_only (e : FileEntry) : bool :=
  has_attribute (fe_attributes e) FileAttributes.ReadOnly.
Definition is_volume (e : FileEntry) : bool :=
  has_attribute (fe_attributes e) FileAttributes.IsVolume.
Definition is_hidden (e : FileEntry) : bool :=
  has_attribute (fe_attributes e) FileAttributes.Hidden.

Record TANResponse : Type := mkTan {
  tr_tan : Z;
  tr_request_data : list Z;
  tr_response_data : list Z;
  tr_timestamp_ms : Z
}.
Definition is_expired (r : TANResponse) (current_time_ms timeout_ms : Z) : bool :=
  timeout_ms <? sat_sub current_time_ms (tr_timestamp_ms r).

Record FileServerStatus : Type := mkStatus {
  busy_reading : bool;
  busy_writing : bool;
  number_of_open_files : Z
}.
Definition FS_STATUS_BUSY_READING : Z := Z.shiftl 1 0.
Definition FS_STATUS_BUSY_WRITING : Z := Z.shiftl 1 1.
Definition status_is_busy (s : FileServerStatus) : bool := busy_reading s || busy_writing s.
Definition status_encode (s : FileServerStatus) : list Z :=
  [FSFunction.as_u8 FSFunction.FileServerStatus;
   Z.lor (if busy_reading s then FS_STATUS_BUSY_READING else 0)
         (if busy_writing s then FS_STATUS_BUSY_WRITING else 0);
   number_of_open_files s; 0xFF; 0xFF; 0xFF; 0xFF; 0xFF].
Definition status_decode (data : list Z) : option FileServerStatus :=
  if (length data <? 3)%nat || (8 <? length data)%nat then None
  else match data with
  | d0 :: d1 :: d2 :: _ =>
      if negb (d0 =? FSFunction.as_u8 FSFunction.FileServerStatus) then None
      else Some (mkStatus (negb (Z.land d1 FS_STATUS_BUSY_READING =? 0))
                   (negb (Z.land d1 FS_STATUS_BUSY_WRITING =? 0))
                   (Z.min d2 FS_SUPPORTED_COUNT_MAX))
  | _ => None
  end.

Record CCMMessage : Type := mkCcm { ccm_version : Z }.
Definition ccm_encode (m : CCMMessage) : list Z :=
  [CCM_FUNCTION_CODE; ccm_version m; 0xFF; 0xFF; 0xFF; 0xFF; 0xFF; 0xFF].
Definition ccm_decode (data : list Z) : option CCMMessage :=
  if (length data <? 2)%nat || (8 <? length data)%nat then None
  else match data with
  | d0 :: d1 :: _ => if negb (d0 =? CCM_FUNCTION_CODE) then None else Some (mkCcm d1)
  | _ => None
  end.

(** ** Properties of [BTreeMap] *)

#[export] Instance ord_laws_Z : OrdLaws Z.
Proof.
  split; unfold compare, ord_Z.
  - apply Z.compare_eq_iff.
  - intros. apply Z.compare_antisym.
  - intros a b c. rewrite !Z.compare_lt_iff. lia.
Qed.
#[export] Instance ord_laws_bytes : OrdLaws (list Z).
Proof.
  split; unfold compare, ord_bytes.
  - intros a b. split; [|intros ->].
    + revert b. induction a as [|x a IH]; intros [|y b] H; cbn in H; try done.
      destruct (Z.compare_spec x y); try done. f_equal; auto.
    + induction b as [|x b IH]; cbn; [done|]. by rewrite Z.compare_refl.
  - induction a as [|x a IH]; intros [|y b]; cbn; try done.
    rewrite (Z.compare_antisym y x). destruct (y ?= x); cbn; auto.
  - induction a as [|x a IH]; intros [|y b] [|z c] H1 H2; cbn in *; try done.
    destruct (Z.compare_spec x y), (Z.compare_spec y z), (Z.compare_spec x z);
      subst; try done; try lia; eauto.
Qed.

Module BTreeMapFacts.
Import BTreeMap.
Section facts.
Context {K V : Type} `{Ord K, !OrdLaws K}.
Implicit Types (m : BTreeMap.t K V) (k : K) (v : V).

Lemma compare_refl k : compare k k = Eq.
Proof. by apply compare_eq. Qed.
Lemma compare_ne k k' : k <> k' -> compare k k' <> Eq.
Proof. intros Hn He. by apply compare_eq in He. Qed.

Lemma get_insert k k' v m : get k' (insert k v m) = if bool_decide (compare k' k = Eq) then Some v else get k' m.
Proof.
  induction m as [|[j w] m IH]; cbn.
  - by destruct (compare k' k).
  - destruct (compare k j) eqn:E; cbn.
    + apply compare_eq in E as ->. destruct (compare k' j) eqn:E'; cbn; try done.
    + by destruct (compare k' k).
    + rewrite IH. destruct (compare k' j) eqn:E'; try done.
      apply compare_eq in E' as ->. rewrite compare_antisym, E. done.
Qed.
Lemma get_insert_eq k v m : get k (insert k v m) = Some v.
Proof. rewrite get_insert, compare_refl. done. Qed.
Lemma get_insert_ne k k' v m : k' <> k -> get k' (insert k v m) = get k' m.
Proof.
  intros. rewrite get_insert, bool_decide_eq_false_2; [done|by apply compare_ne].
Qed.
Lemma get_remove_eq k m : get k (remove k m) = None.
Proof.
  induction m as [|[j w] m IH]; cbn; [done|].
  destruct (compare k j) eqn:E; cbn; rewrite ?E; done.
Qed.
Lemma get_remove_ne k k' m : k' <> k -> get k' (remove k m) = get k' m.
Proof.
  intros Hn. induction m as [|[j w] m IH]; cbn; [done|].
  destruct (compare k j) eqn:E; cbn; rewrite ?IH; [|done..].
  apply compare_eq in E as ->. destruct (compare k' j) eqn:E'; try done.
  by apply compare_eq in E'.
Qed.
Lemma get_map_values f k m : get k (map_values f m) = f <$> get k m.
Proof.
  induction m as [|[j w] m IH]; cbn; [done|].
  by destruct (compare k j).
Qed.
Lemma get_or_insert_eq k v m : get k (or_insert k v m) = Some (default v (get k m)).
Proof.
  unfold or_insert. destruct (get k m) eqn:E; [done|]. by rewrite get_insert_eq.
Qed.
Lemma get_or_insert_ne k k' v m : k' <> k -> get k' (or_insert k v m) = get k' m.
Proof.
  unfold or_insert. intros. destruct (get k m); [done|]. by apply get_insert_ne.
Qed.
Lemma get_update_eq k f m : get k (update k f m) = f <$> get k m.
Proof. unfold update. destruct (get k m) eqn:E; [by rewrite get_insert_eq|by rewrite E]. Qed.
Lemma get_update_ne k k' f m : k' <> k -> get k' (update k f m) = get k' m.
Proof. unfold update. intros. destruct (get k m); [|done]. by apply get_insert_ne. Qed.

Lemma update_is_Some k k' f m : is_Some (get k' (update k f m)) <-> is_Some (get k' m).
Proof.
  destruct (decide (compare k' k = Eq)) as [->%compare_eq|Hn].
  - by rewrite get_update_eq, fmap_is_Some.
  - rewrite get_update_ne; [done|]. intros ->. by rewrite compare_refl in Hn.
Qed.

Lemma contains_key_spec k m : contains_key k m = true <-> is_Some (get k m).
Proof. apply bool_decide_eq_true. Qed.
Lemma contains_key_false k m : contains_key k m = false <-> get k m = None.
Proof. unfold contains_key. rewrite bool_decide_eq_false, eq_None_not_Some. done. Qed.

(** What holds of every entry. *)
Lemma Forall_insert_entry (P : K * V -> Prop) k v m :
  P (k, v) -> Forall P m -> Forall P (insert k v m).
Proof.
  intros Hp. induction 1 as [|[j w] m Hj Hm IH]; cbn; [by constructor|].
  destruct (compare k j); repeat constructor; done.
Qed.
Lemma Forall_remove_entry (P : K * V -> Prop) k m : Forall P m -> Forall P (remove k m).
Proof.
  induction 1 as [|[j w] m Hj Hm IH]; cbn; [done|].
  destruct (compare k j); try constructor; done.
Qed.
Lemma Forall_update_entry (P : K * V -> Prop) k f m :
  (forall v, P (k, v) -> P (k, f v)) -> Forall P m -> Forall P (update k f m).
Proof.
  unfold update. intros Hf Hm. destruct (get k m) eqn:E; [|done].
  apply Forall_insert_entry; [|done]. apply Hf. clear Hf.
  induction Hm as [|[j w] m Hj Hm IH]; cbn in E; [done|].
  destruct (compare k j) eqn:E'; [|auto..]. apply compare_eq in E' as ->. by simplify_eq.
Qed.
Lemma get_In k v m : get k m = Some v -> (k, v) ∈ m.
Proof.
  induction m as [|[j w] m IH]; cbn; [done|].
  destruct (compare k j) eqn:E; intros; [|right; auto..].
  apply compare_eq in E as ->. simplify_eq. left.
Qed.

Lemma sorted_insert k v m : sorted m -> sorted (insert k v m).
Proof.
  induction 1 as [|j w m Hj Hm IH]; cbn; [by repeat constructor|].
  destruct (compare k j) eqn:E.
  - apply compare_eq in E as ->. by constructor.
  - constructor; [|by constructor]. constructor; [done|].
    eapply Forall_impl; [exact Hj|]. intros e He. by eapply compare_trans.
  - constructor; [|done]. apply Forall_insert_entry; [|done]. cbn.
    rewrite compare_antisym, E. done.
Qed.
Lemma sorted_remove k m : sorted m -> sorted (remove k m).
Proof.
  induction 1 as [|j w m Hj Hm IH]; cbn; [constructor|].
  destruct (compare k j); try constructor; auto using Forall_remove_entry.
Qed.
Lemma sorted_update k f m : sorted m -> sorted (update k f m).
Proof. unfold update. destruct (get k m); [apply sorted_insert|done]. Qed.
Lemma sorted_or_insert k v m : sorted m -> sorted (or_insert k v m).
Proof. unfold or_insert. destruct (get k m); [done|apply sorted_insert]. Qed.
Lemma sorted_map_values f m : sorted m -> sorted (map_values f m).
Proof.
  induction 1 as [|j w m Hj Hm IH]; constructor; [|done]. apply Forall_fmap.
  eapply Forall_impl; [exact Hj|]. by intros [? ?].
Qed.
Lemma sorted_get k v m : sorted m -> (k, v) ∈ m -> get k m = Some v.
Proof.
  induction 1 as [|j w m Hj Hm IH]; [by intros ?%not_elem_of_nil|].
  intros [[= -> ->]|Hi]%elem_of_cons; cbn; [by rewrite compare_refl|].
  rewrite Forall_forall in Hj. specialize (Hj _ Hi). cbn in Hj.
  rewrite compare_antisym, Hj. cbn. auto.
Qed.
End facts.
End BTreeMapFacts.

(** ** The message codecs *)

(** what the file server announces is read back by its clients: properties, status and
    connection messages round-trip whatever their reserved bytes hold; a count above 250 is
    cut to 250, and command bytes, error codes and volume states have distinct codes. *)
Theorem fs_codecs_roundtrip :
  (forall p tan rest, (length rest <= 3)%nat ->
     decode_response (take 5 (encode_response p tan) ++ rest)
     = Some (tan, normalized_for_wire p))
  /\ (forall st rest, (length rest <= 5)%nat ->
     status_decode (take 3 (status_encode st) ++ rest)
     = Some (mkStatus (busy_reading st) (busy_writing st)
               (Z.min (number_of_open_files st) FS_SUPPORTED_COUNT_MAX)))
  /\ (forall m rest, (length rest <= 6)%nat ->
     ccm_decode (take 2 (ccm_encode m) ++ rest) = Some m)
  /\ (forall f, FSFunction.from_u8 (FSFunction.as_u8 f) = Some f)
  /\ (forall e, FSError.try_from_u8 (FSError.as_u8 e) = Some e)
  /\ (forall v, VolumeState.try_from_u8 (VolumeState.as_u8 v) = Some v).
Proof.
  split_and!.
  - intros [v n a b] tan rest Hr. unfold decode_response. cbn [encode_response take app length].
    rewrite (proj2 (Nat.ltb_ge _ _)), (proj2 (Nat.ltb_ge _ _)) by lia.
    assert (E : mkProps v (Z.min (Z.min n FS_SUPPORTED_COUNT_MAX) FS_SUPPORTED_COUNT_MAX) a b
                = normalized_for_wire (mkProps v n a b)).
    { unfold normalized_for_wire. cbn [max_simultaneous_files version_number
        supports_multiple_volumes supports_removable_volumes].
      case_bool; f_equal; unfold FS_SUPPORTED_COUNT_MAX in *; lia. }
    rewrite <- E. by destruct a, b.
  - intros [a b n] rest Hr. unfold status_decode. cbn [status_encode take app length].
    rewrite (proj2 (Nat.ltb_ge _ _)), (proj2 (Nat.ltb_ge _ _)) by lia. by destruct a, b.
  - intros [v] rest Hr. unfold ccm_decode. cbn [ccm_encode take app length].
    by rewrite (proj2 (Nat.ltb_ge _ _)), (proj2 (Nat.ltb_ge _ _)) by lia.
  - by intros [].
  - by intros [].
  - by intros [].
Qed.
