(* ===== verification/FsPath.v ===== *)
(** File server paths and requests: the path functions of [src/isobus/fs/types.rs], and the
    helpers at the end of the server
    ([src/isobus/fs/server/server_wire_helpers_and_tests.rs]). *)
From S2P Require Export FsTypes.

(** The backslash. *)
Definition bs : Z := 0x5C.
Definition root : list Z := [bs].

(** ** What the code uses of [str]

    Every pattern is one ASCII character, which in UTF-8 is one byte that occurs nowhere
    else. *)

Definition replace_slashes (s : list Z) : list Z := (fun c => if c =? 0x2F then bs else c) <$> s.
Fixpoint split (c : Z) (s : list Z) : list (list Z) :=
  match s with
  | [] => [[]]
  | x :: s =>
      if x =? c then [] :: split c s
      else match split c s with [] => [[x]] | h :: t => (x :: h) :: t end
  end.
Fixpoint join (c : Z) (l : list (list Z)) : list Z :=
  match l with [] => [] | [x] => x | x :: l => x ++ c :: join c l end.
Fixpoint trim_start (c : Z) (s : list Z) : list Z :=
  match s with x :: r => if x =? c then trim_start c r else s | [] => [] end.
Definition trim_end (c : Z) (s : list Z) : list Z := reverse (trim_start c (reverse s)).
Definition trim (c : Z) (s : list Z) : list Z := trim_end c (trim_start c s).
Fixpoint strip_prefix (p s : list Z) : option (list Z) :=
  match p, s with
  | [], _ => Some s
  | x :: p, y :: s => if x =? y then strip_prefix p s else None
  | _ :: _, [] => None
  end.
Definition starts_with (p s : list Z) : bool := bool_decide (is_Some (strip_prefix p s)).
Definition ends_with (p s : list Z) : bool := starts_with (reverse p) (reverse s).
Fixpoint find_byte (c : Z) (s : list Z) : option nat :=
  match s with [] => None | x :: s => if x =? c then Some 0%nat else S <$> find_byte c s end.
Fixpoint rfind (c : Z) (s : list Z) : option nat :=
  match s with
  | [] => None
  | x :: s => match rfind c s with
              | Some i => Some (S i)
              | None => if x =? c then Some 0%nat else None
              end
  end.
Definition contains (c : Z) (s : list Z) : bool := existsb (Z.eqb c) s.
Fixpoint contains_double (c : Z) (s : list Z) : bool :=
  match s with
  | x :: ((y :: _) as r) => ((x =? c) && (y =? c)) || contains_double c r
  | _ => false
  end.
(** [char::is_control] is true of U+0000 to U+001F and U+007F to U+009F. *)
Fixpoint has_control (s : list Z) : bool :=
  match s with
  | [] => false
  | c :: r =>
      (c <? 0x20) || (c =? 0x7F) ||
      ((c =? 0xC2) && match r with d :: _ => (0x80 <=? d) && (d <=? 0x9F) | [] => false end)
      || has_control r
  end.
Definition is_ascii (s : list Z) : bool := forallb (fun c => c <? 0x80) s.
Definition one_of (chars : list Z) (c : Z) : bool := existsb (Z.eqb c) chars.
Definition str_eqb (a b : list Z) : bool := bool_decide (a = b).

(** ** [types.rs]: path utilities *)

Definition MAX_VOLUME_NAME_BYTES : Z := 255.
(** Slash, backslash, colon, star, question mark, double quote, angle brackets, bar. *)
Definition name_reserved : Z -> bool :=
  one_of [0x2F; bs; 0x3A; 0x2A; 0x3F; 0x22; 0x3C; 0x3E; 0x7C].
Definition path_reserved : Z -> bool := one_of [0x3A; 0x22; 0x3C; 0x3E; 0x7C].
Definition component_reserved : Z -> bool := one_of [0x2F; bs; 0x3A; 0x22; 0x3C; 0x3E; 0x7C].
Definition wildcard : Z -> bool := one_of [0x2A; 0x3F].
Definition dot : list Z := [0x2E].
Definition dotdot : list Z := [0x2E; 0x2E].

Definition is_valid_path_component (path : list Z) : bool :=
  if str_eqb path [] || str_eqb path dot || str_eqb path dotdot then false
  else negb (has_control path || existsb name_reserved path).
Definition is_valid_volume_name (name : list Z) : bool :=
  if str_eqb name [] || negb (is_ascii name) || (MAX_VOLUME_NAME_BYTES <? Z.of_nat (length name))
  then false
  else negb (has_control name || existsb name_reserved name).
Definition valid_component (allow_wildcards : bool) (component : list Z) : bool :=
  negb (str_eqb component []) && negb (str_eqb component dot)
  && negb (str_eqb component dotdot) && (Z.of_nat (length component) <=? 255)
  && negb (has_control component) && negb (existsb component_reserved component)
  && (allow_wildcards || negb (existsb wildcard component)).
Definition is_valid_fs_path (path : list Z) (allow_root allow_wildcards : bool) : bool :=
  if str_eqb path [] then false
  else
    let normalized := replace_slashes path in
    if str_eqb normalized root || str_eqb normalized [bs; bs] then allow_root
    else if has_control normalized || existsb path_reserved normalized
            || (negb allow_wildcards && existsb wildcard normalized) then false
    else
      let body := trim_end bs (trim_start bs normalized) in
      if str_eqb body [] then allow_root
      else if contains_double bs body then false
      else forallb (valid_component allow_wildcards) (split bs body).
(** Strict DOS 8.3 names. *)
Definition is_dos_8_3_path (path : list Z) : bool :=
  let normalized := replace_slashes path in
  if negb (is_valid_fs_path normalized true false) then false
  else
    let body := trim_end bs (trim_start bs normalized) in
    if str_eqb body [] then true
    else forallb (fun component =>
           match split 0x2E component with
           | [stem] => negb (str_eqb stem []) && (length stem <=? 8)%nat
           | [stem; ext] => negb (str_eqb stem []) && (length stem <=? 8)%nat && (length ext <=? 3)%nat
           | _ => false
           end) (split bs body).
Definition is_absolute_path (path : list Z) : bool := starts_with root path.
Definition has_wildcards (path : list Z) : bool := contains 0x2A path || contains 0x3F path.

(** ** [types.rs]: DOS date and time *)

(** [year - 1980] panics on an earlier year ([None]); the left shift drops the high bits. *)
Definition pack_dos_date (year month day : Z) : option Z :=
  y ← checked_sub year 1980;
  Some (Z.lor (Z.lor (wrap 16 (Z.shiftl y 9)) (Z.shiftl month 5)) day).
Definition pack_dos_time (hour minute second : Z) : Z :=
  Z.lor (Z.lor (wrap 16 (Z.shiftl hour 11)) (Z.shiftl minute 5)) (second / 2).
Definition unpack_dos_date (d : Z) : Z * Z * Z :=
  (Z.land (Z.shiftr d 9) 0x7F + 1980, Z.land (Z.shiftr d 5) 0x0F, Z.land d 0x1F).
Definition unpack_dos_time (t : Z) : Z * Z * Z :=
  (Z.land (Z.shiftr t 11) 0x1F, Z.land (Z.shiftr t 5) 0x3F, Z.land t 0x1F * 2).
Definition dos_date_time_is_supported (date time : Z) : bool :=
  let date_ok :=
    if date =? 0 then true
    else let '(_, month, day) := unpack_dos_date date in
      (1 <=? month) && (month <=? 12) && (1 <=? day) && (day <=? 31) in
  let time_ok :=
    if time =? 0 then true
    else let '(hour, minute, second) := unpack_dos_time time in
      (hour <=? 23) && (minute <=? 59) && (second <=? 58) in
  date_ok && time_ok.

(** ** Server helpers: paths *)

Definition FS_WIRE_STRING_MAX_LEN : Z := 65535.
Definition invalid_fs_path_error (message : string) : Error.t := Error.invalid_data message.

(** The components of a path that is resolved, innermost first. *)
Fixpoint resolve_components (resolved : list (list Z)) (path : list (list Z)) : list (list Z) :=
  match path with
  | [] => resolved
  | component :: path =>
      resolve_components
        (if str_eqb component [] || str_eqb component dot then resolved
         else if str_eqb component dotdot then tail resolved
         else component :: resolved) path
  end.
Definition resolve_dot_segments (path current_directory : list Z) : list Z :=
  if negb (existsb (fun c => str_eqb c dot || str_eqb c dotdot) (split bs path)) then path
  else
    let start :=
      if is_absolute_path path then []
      else filter (fun c => c <> []) (split bs current_directory) in
    let resolved := reverse (resolve_components (reverse start) (split bs path)) in
    let trailing := ends_with root path || ends_with dotdot path || ends_with dot path in
    if bool_decide (resolved = []) then root
    else
      let body := join bs resolved in
      if trailing then bs :: body ++ [bs] else bs :: body.

Definition normalize_directory_base (path : list Z) : Result (list Z) Error.t :=
  let path := replace_slashes path in
  if str_eqb path root || str_eqb path [bs; bs] then Ok root
  else if negb (is_valid_fs_path path true false) then
    Err (invalid_fs_path_error "FileServer: current directory must be a valid ISO 11783-13 path")
  else
    let body := trim bs path in
    if str_eqb body [] then Ok root else Ok (bs :: body ++ [bs]).

Definition normalize_iso_path (path current_directory : list Z) (allow_root allow_wildcards : bool)
    : Result (list Z) Error.t :=
  let path := resolve_dot_segments (replace_slashes path) current_directory in
  if negb (is_valid_fs_path path allow_root allow_wildcards) then
    Err (invalid_fs_path_error "FileServer: path must be a valid ISO 11783-13 backslash path")
  else if str_eqb path root || str_eqb path [bs; bs] then
    if allow_root then Ok root
    else Err (invalid_fs_path_error "FileServer: file path cannot be root")
  else
    let body := trim bs path in
    if str_eqb body [] then
      if allow_root then Ok root
      else Err (invalid_fs_path_error "FileServer: file path cannot be root")
    else if is_absolute_path path then Ok (bs :: body)
    else
      let? base := normalize_directory_base current_directory in
      if str_eqb base root then Ok (bs :: body) else Ok (base ++ body).

Definition ensure_directory_suffix (path : list Z) : list Z :=
  if negb (str_eqb path root) && negb (ends_with root path) then path ++ [bs] else path.

Definition normalize_preloaded_file_path (path : list Z) : Result (list Z) Error.t :=
  let? normalized := normalize_iso_path path root false false in
  if ends_with root normalized then
    Err (invalid_fs_path_error "FileServer: file path must not end with a directory separator")
  else Ok normalized.
Definition normalize_client_path (path current_directory : list Z) (is_directory : bool)
    : Result (list Z) Error.t :=
  let? normalized := normalize_iso_path path current_directory is_directory false in
  if is_directory then Ok (ensure_directory_suffix normalized)
  else if ends_with root normalized then
    Err (invalid_fs_path_error "FileServer: file path must not end with a directory separator")
  else Ok normalized.
Definition normalize_directory_path (path current_directory : list Z) : Result (list Z) Error.t :=
  let? normalized := normalize_iso_path path current_directory true false in
  let normalized := ensure_directory_suffix normalized in
  if FS_WIRE_STRING_MAX_LEN <? Z.of_nat (length normalized) then
    Err (invalid_fs_path_error "FileServer: directory path exceeds one-byte wire length")
  else Ok normalized.

Definition normalize_directory_listing_request (path current_directory : list Z)
    : Result (list Z * list Z) Error.t :=
  if negb (has_wildcards path) then
    let? directory := normalize_directory_path path current_directory in
    Ok (directory, [0x2A])
  else
    let? normalized := normalize_iso_path path current_directory true true in
    match rfind bs normalized with
    | None =>
        Err (invalid_fs_path_error
          "FileServer: wildcard directory listing path must contain a directory base")
    | Some separator_index =>
        let pattern := drop (separator_index + 1) normalized in
        if str_eqb pattern [] || negb (has_wildcards pattern)
           || negb (is_valid_fs_path pattern false true)
           || has_wildcards (take separator_index normalized) then
          Err (invalid_fs_path_error "FileServer: wildcard directory listing may only use wildcards in the final name component")
        else
          let directory :=
            if (separator_index =? 0)%nat then root else take separator_index normalized ++ [bs] in
          if FS_WIRE_STRING_MAX_LEN <? Z.of_nat (length directory) then
            Err (invalid_fs_path_error
              "FileServer: wildcard directory listing base exceeds one-byte wire length")
          else Ok (directory, pattern)
    end.

Definition file_parent_directory_path (path : list Z) : list Z :=
  let trimmed := trim_end bs (replace_slashes path) in
  match rfind bs trimmed with
  | None => root
  | Some index => if (index =? 0)%nat then root else take index trimmed ++ [bs]
  end.

(** ** Server helpers: requests *)

Definition fs_payload_len_is_canonical (data : list Z) (used : nat) : bool :=
  (used <=? length data)%nat
  && ((length data =? used)%nat
      || ((used <=? 8)%nat && (length data =? 8)%nat && forallb (Z.eqb 0xFF) (drop used data))).

(** [&data[start..end]]: [None] is the panic on a range out of bounds. *)
Definition range (start end_ : nat) (data : list Z) : option (list Z) :=
  if (start <=? end_)%nat && (end_ <=? length data)%nat
  then Some (take (end_ - start) (drop start data)) else None.
(** [u16::from_le_bytes([low, high])]. *)
Definition u16_at (i : nat) (data : list Z) : option Z :=
  low ← data !! i; high ← data !! S i; Some (Name.from_le_bytes [low; high]).

Definition counted_path_bytes (request : list Z) (count_index path_start : nat)
    : option (list Z) :=
  path_len ← u16_at count_index request;
  let used := (path_start + Z.to_nat path_len)%nat in
  if negb (fs_payload_len_is_canonical request used) then None
  else range path_start used request.

Definition decode_wire_path (path_bytes : list Z) : option (list Z) :=
  if negb (is_ascii path_bytes) then None else Some path_bytes.

Definition result_ok {A E} (r : Result A E) : option A :=
  match r with Ok a => Some a | Err _ => None end.

Definition parse_counted_file_path_with_count_at (request : list Z) (count_index path_start : nat)
    (current_directory : list Z) : option (list Z) :=
  path_bytes ← counted_path_bytes request count_index path_start;
  requested_path ← decode_wire_path path_bytes;
  result_ok (normalize_client_path requested_path current_directory false).
Definition parse_counted_file_path (request : list Z) (count_index : nat)
    (current_directory : list Z) : option (list Z) :=
  parse_counted_file_path_with_count_at request count_index (count_index + 2) current_directory.
Definition parse_counted_file_or_directory_path (request : list Z) (count_index : nat)
    (current_directory : list Z) : option (list Z) :=
  match parse_counted_file_path request count_index current_directory with
  | Some path => Some path
  | None =>
      path_bytes ← counted_path_bytes request count_index (count_index + 2);
      requested_path ← decode_wire_path path_bytes;
      result_ok (normalize_directory_path requested_path current_directory)
  end.

(** The next three index the request: [None] is a panic, and the result is the option or
    result the function returns. *)
Definition parse_initialize_volume_request (request : list Z)
    : option (Result (option (list Z)) unit) :=
  if fs_payload_len_is_canonical request 2 then Some (Ok None)
  else if (length request <? 9)%nat then Some (Err tt)
  else
    name_len ← u16_at 7 request;
    let used := (9 + Z.to_nat name_len)%nat in
    if negb (fs_payload_len_is_canonical request used) then Some (Err tt)
    else if name_len =? 0 then Some (Ok None)
    else
      name ← range 9 used request;
      if negb (utf8_valid name) then Some (Err tt)
      else if negb (is_valid_volume_name name) then Some (Err tt)
      else Some (Ok (Some name)).
Definition parse_two_counted_file_paths (request current_directory : list Z)
    : option (option (list Z * list Z)) :=
  if (length request <? 6)%nat then Some None
  else
    source_len ← u16_at 2 request;
    dest_len ← u16_at 4 request;
    let dest_start := (6 + Z.to_nat source_len)%nat in
    let used := (dest_start + Z.to_nat dest_len)%nat in
    if negb (fs_payload_len_is_canonical request used) then Some None
    else
      source ← range 6 dest_start request;
      dest ← range dest_start used request;
      Some (source ← decode_wire_path source;
            dest ← decode_wire_path dest;
            source ← result_ok (normalize_client_path source current_directory false);
            dest ← result_ok (normalize_client_path dest current_directory false);
            Some (source, dest)).
Definition parse_counted_file_path_u16 (request current_directory : list Z)
    : option (option (Result (list Z) Error.t)) :=
  if (length request <? 4)%nat then Some None
  else
    path_len ← u16_at 2 request;
    let used := (4 + Z.to_nat path_len)%nat in
    if negb (fs_payload_len_is_canonical request used) then Some None
    else
      path_bytes ← range 4 used request;
      Some (requested_path ← decode_wire_path path_bytes;
            Some (normalize_iso_path requested_path current_directory true false)).

(** ** Server helpers: responses *)

Definition encode_error_response (function tan : Z) (error : FSError.t) : list Z :=
  [function; tan; FSError.as_u8 error; 0xFF; 0xFF; 0xFF; 0xFF; 0xFF].
Definition success_response (function : FSFunction.t) (tan : Z) : list Z :=
  [FSFunction.as_u8 function; tan; FSError.as_u8 FSError.Success; 0xFF; 0xFF; 0xFF; 0xFF; 0xFF].
Definition fs_file_size_to_wire (len : nat) : Z := Z.min (Z.of_nat len) (2 ^ 32 - 1).
Definition fs_space_blocks (bytes : Z) : Z := Z.min (bytes / 512) (2 ^ 32 - 1).
Definition open_mode_writes (flags : Z) : bool :=
  (get_access_mode flags =? OpenFlags.bit OpenFlags.Write)
  || (get_access_mode flags =? OpenFlags.bit OpenFlags.ReadWrite)
  || has_flag flags OpenFlags.Append.
(** [(pack_dos_date(2025, 1, 1), pack_dos_time(12, 0, 0))]. *)
Definition default_file_date_time : Z * Z :=
  (default 0 (pack_dos_date 2025 1 1), pack_dos_time 12 0 0).
Definition encode_directory_entry (entry : FileEntry) : option (list Z) :=
  let name_len := Z.of_nat (length (fe_name entry)) in
  if 255 <? name_len then None
  else if name_len =? 0 then None
  else Some (name_len :: fe_name entry ++ fe_attributes entry :: Name.to_le_bytes 2 (fe_date entry)
             ++ Name.to_le_bytes 2 (fe_time entry) ++ Name.to_le_bytes 4 (fe_size entry)).
Definition encode_ccm (version : Z) : list Z := ccm_encode (mkCcm version).

(** The matcher backtracks to the last star; [None] is an exhausted [fuel]. *)
Record WmState : Type := mkWm { wm_si : nat; wm_pi : nat; wm_star : option nat; wm_match : nat }.
Definition wm_byte (c : Z) (p : list Z) (i : nat) : bool :=
  match p !! i with Some x => x =? c | None => false end.
Fixpoint wildcard_loop (fuel : nat) (s p : list Z) (w : WmState) : option (option nat) :=
  match s !! wm_si w with
  | None => Some (Some (wm_pi w))
  | Some c =>
      match fuel with
      | O => None
      | S fuel =>
          if wm_byte 0x3F p (wm_pi w) || wm_byte c p (wm_pi w) then
            wildcard_loop fuel s p (mkWm (S (wm_si w)) (S (wm_pi w)) (wm_star w) (wm_match w))
          else if wm_byte 0x2A p (wm_pi w) then
            wildcard_loop fuel s p (mkWm (wm_si w) (S (wm_pi w)) (Some (wm_pi w)) (wm_si w))
          else match wm_star w with
          | Some star =>
              wildcard_loop fuel s p (mkWm (S (wm_match w)) (S star) (Some star) (S (wm_match w)))
          | None => Some None
          end
      end
  end.
Definition wildcard_fuel (s p : list Z) : nat := ((S (length s)) * (S (length s + length p)))%nat.
Definition wildcard_match (s p : list Z) : option bool :=
  match wildcard_loop (wildcard_fuel s p) s p (mkWm 0 0 None 0) with
  | None => None
  | Some None => Some false
  | Some (Some pi) => Some (str_eqb (trim_start 0x2A (drop pi p)) [])
  end.
