(* ===== verification/FsPathProofs.v ===== *)
(** Theorems about the file server's paths, and the directory-pattern matcher against a reference
    definition. *)
From S2P Require Export FsPath.

(** ** Splitting and joining *)

Section split.
Context (c : Z).

Lemma split_cons_eq s : split c (c :: s) = [] :: split c s.
Proof. cbn. by rewrite Z.eqb_refl. Qed.
Lemma split_not_nil s : split c s <> [].
Proof. destruct s as [|x s]; cbn; [done|]. case_bool; [done|]. by destruct (split c s). Qed.
Lemma split_cons_ne x s :
  x <> c -> exists h t, split c s = h :: t /\ split c (x :: s) = (x :: h) :: t.
Proof.
  intros Hx. destruct (split c s) as [|h t] eqn:E; [by destruct (split_not_nil s)|].
  exists h, t. split; [done|]. cbn. rewrite (proj2 (Z.eqb_neq _ _)), E by done. done.
Qed.
Lemma split_no_sep s : c ∉ s -> split c s = [s].
Proof.
  induction s as [|x s IH]; [done|]. intros Hn. apply not_elem_of_cons in Hn as [? Hn].
  cbn. rewrite (proj2 (Z.eqb_neq _ _)) by congruence. by rewrite IH.
Qed.
Lemma split_app a b : c ∉ a -> split c (a ++ c :: b) = a :: split c b.
Proof.
  induction a as [|x a IH]; intros Hn; cbn [app]; [apply split_cons_eq|].
  apply not_elem_of_cons in Hn as [? Hn]. cbn [split].
  rewrite (proj2 (Z.eqb_neq _ _)) by congruence. by rewrite IH.
Qed.
Lemma split_parts s : Forall (fun p => c ∉ p) (split c s).
Proof.
  induction s as [|x s IH]; [repeat constructor; apply not_elem_of_nil|].
  destruct (decide (x = c)) as [->|Hx].
  - rewrite split_cons_eq. constructor; [apply not_elem_of_nil|done].
  - destruct (split_cons_ne x s Hx) as (h & t & E & ->). rewrite E in IH. inv IH.
    constructor; [|done]. by apply not_elem_of_cons.
Qed.
Lemma join_split s : join c (split c s) = s.
Proof.
  induction s as [|x s IH]; [done|]. destruct (decide (x = c)) as [->|Hx].
  - rewrite split_cons_eq. cbn. pose proof (split_not_nil s).
    destruct (split c s) eqn:E; [done|]. by rewrite IH.
  - destruct (split_cons_ne x s Hx) as (h & t & E & ->). rewrite E in IH.
    cbn in *. destruct t; cbn; by f_equal.
Qed.
Lemma join_cons p l : l <> [] -> join c (p :: l) = p ++ c :: join c l.
Proof. by destruct l. Qed.
Lemma join_app a b : a <> [] -> b <> [] -> join c (a ++ b) = join c a ++ c :: join c b.
Proof.
  intros Ha Hb. induction a as [|p a IH]; [done|]. destruct a as [|q a]; cbn [app].
  - by rewrite join_cons.
  - rewrite (join_cons p (q :: a ++ b)), (join_cons p (q :: a)) by done.
    cbn [app] in IH. rewrite IH by done. by rewrite <- app_assoc.
Qed.
Lemma split_join l : l <> [] -> Forall (fun p => c ∉ p) l -> split c (join c l) = l.
Proof.
  intros Hn Hl. induction Hl as [|p l Hp Hl IH]; [done|]. destruct l as [|q l].
  - by apply split_no_sep.
  - rewrite join_cons, split_app by done. by rewrite IH.
Qed.

(** The parts that are not empty: unchanged by trimming. *)
Definition parts (s : list Z) : list (list Z) := filter (fun p => p <> []) (split c s).
Lemma parts_cons_sep s : parts (c :: s) = parts s.
Proof. unfold parts. rewrite split_cons_eq, filter_cons_False by (intros Hne; by destruct Hne). done. Qed.
Lemma split_snoc_sep s : split c (s ++ [c]) = split c s ++ [[]].
Proof.
  induction s as [|x s IH]; cbn [app]; [by rewrite split_cons_eq|].
  destruct (decide (x = c)) as [->|Hx]; [by rewrite !split_cons_eq, IH|].
  cbn [split]. rewrite (proj2 (Z.eqb_neq _ _)), IH by done.
  pose proof (split_not_nil s). by destruct (split c s).
Qed.
Lemma parts_snoc_sep s : parts (s ++ [c]) = parts s.
Proof.
  unfold parts. rewrite split_snoc_sep, filter_app.
  rewrite filter_cons_False by (intros Hne; by destruct Hne). by rewrite filter_nil, app_nil_r.
Qed.
Lemma trim_start_spec s : exists n, s = replicate n c ++ trim_start c s.
Proof.
  induction s as [|x s [n IH]]; [by exists 0%nat|]. cbn. destruct (Z.eqb_spec x c) as [->|].
  - exists (S n). cbn. by f_equal.
  - by exists 0%nat.
Qed.
Lemma trim_end_spec s : exists n, s = trim_end c s ++ replicate n c.
Proof.
  destruct (trim_start_spec (reverse s)) as [n E]. exists n. unfold trim_end.
  rewrite <- (reverse_involutive s) at 1. rewrite E at 1. rewrite reverse_app.
  by rewrite reverse_replicate.
Qed.
Lemma parts_trim_start s : parts (trim_start c s) = parts s.
Proof.
  induction s as [|x s IH]; [done|]. cbn [trim_start].
  destruct (Z.eqb_spec x c) as [->|]; [|done]. by rewrite parts_cons_sep.
Qed.
Lemma parts_trim_end s : parts (trim_end c s) = parts s.
Proof.
  destruct (trim_end_spec s) as [n E]. rewrite E at 2. clear E.
  induction n as [|n IH]; [by rewrite app_nil_r|].
  rewrite replicate_S_end, app_assoc, parts_snoc_sep. done.
Qed.
Lemma parts_trim s : parts (trim c s) = parts s.
Proof. unfold trim. by rewrite parts_trim_end, parts_trim_start. Qed.
Lemma trim_start_id s : head s <> Some c -> trim_start c s = s.
Proof. destruct s as [|x s]; [done|]. cbn. case_bool; [by subst|done]. Qed.
Lemma trim_start_cons s : trim_start c (c :: s) = trim_start c s.
Proof. cbn. by rewrite Z.eqb_refl. Qed.
Lemma trim_end_id s : last s <> Some c -> trim_end c s = s.
Proof.
  intros Hl. unfold trim_end. rewrite trim_start_id; [apply reverse_involutive|].
  by rewrite head_reverse.
Qed.
Lemma trim_end_snoc s : trim_end c (s ++ [c]) = trim_end c s.
Proof. unfold trim_end. rewrite reverse_snoc, trim_start_cons. done. Qed.
Lemma trim_end_nil s : trim_end c s = [] -> Forall (eq c) s.
Proof.
  intros E. destruct (trim_end_spec s) as [n Hs]. rewrite E in Hs. rewrite Hs. cbn.
  by apply Forall_replicate.
Qed.
Lemma join_head l : Forall (fun p => p <> [] /\ c ∉ p) l -> head (join c l) <> Some c.
Proof.
  destruct 1 as [|p l [Hp Hn] Hl]; [done|]. destruct p as [|x p]; [done|].
  destruct l; cbn; intros [= ->]; apply Hn; left.
Qed.
Lemma join_last l : Forall (fun p => p <> [] /\ c ∉ p) l -> last (join c l) <> Some c.
Proof.
  induction 1 as [|p l [Hp Hn] Hl IH]; [done|]. destruct l as [|q l].
  - cbn. intros Hc. apply Hn. by apply last_Some_elem_of.
  - rewrite join_cons by done. rewrite last_app, last_cons.
    destruct (last (join c (q :: l))) eqn:E; [done|]. apply last_None in E.
    inv Hl. destruct H1 as [Hq _]. destruct q; [done|]. destruct l; discriminate E.
Qed.
Lemma join_not_nil l : l <> [] -> Forall (fun p => p <> [] /\ c ∉ p) l -> join c l <> [].
Proof.
  intros Hl Hf E. destruct Hf as [|p l [Hp _] Hf]; [done|].
  destruct p; [done|]. destruct l; discriminate E.
Qed.
End split.

(** ** Canonical paths

    A canonical path is the list of its components: [abs_path] is how a file is named,
    [dir_path] how a directory is. *)

Definition abs_path (cs : list (list Z)) : list Z :=
  match cs with [] => root | _ => bs :: join bs cs end.
Definition dir_path (cs : list (list Z)) : list Z :=
  match cs with [] => root | _ => bs :: join bs cs ++ [bs] end.
Abbreviation components_ok aw cs := (Forall (fun c => valid_component aw c = true) cs).

(** The reference resolver: walk from a directory along the components of a path. *)
Fixpoint walk (dir path : list (list Z)) : list (list Z) :=
  match path with
  | [] => dir
  | c :: path =>
      walk (if decide (c = [] \/ c = dot) then dir
            else if decide (c = dotdot) then take (length dir - 1) dir
            else dir ++ [c]) path
  end.

Lemma str_eqb_spec a b : str_eqb a b = true <-> a = b.
Proof. apply bool_decide_eq_true. Qed.
Lemma str_eqb_false a b : str_eqb a b = false <-> a <> b.
Proof. apply bool_decide_eq_false. Qed.
Lemma str_eqb_refl a : str_eqb a a = true.
Proof. by apply str_eqb_spec. Qed.
Ltac case_str :=
  match goal with
  | |- context [str_eqb ?a ?b] =>
      let E := fresh "E" in
      destruct (str_eqb a b) eqn:E; [apply str_eqb_spec in E|apply str_eqb_false in E]
  | H : context [str_eqb ?a ?b] |- _ =>
      let E := fresh "E" in
      destruct (str_eqb a b) eqn:E; [apply str_eqb_spec in E|apply str_eqb_false in E]
  end.

Lemma existsb_never {A} (f : A -> bool) (l : list A) :
  existsb f l = false <-> Forall (fun x => f x = false) l.
Proof.
  induction l as [|x l IH]; cbn; [done|].
  by rewrite orb_false_iff, IH, Forall_cons.
Qed.
Lemma forallb_spec {A} (f : A -> bool) (l : list A) :
  forallb f l = true <-> Forall (fun x => f x = true) l.
Proof.
  induction l as [|x l IH]; cbn; [done|]. by rewrite andb_true_iff, IH, Forall_cons.
Qed.
Lemma one_of_spec chars c : one_of chars c = true <-> c ∈ chars.
Proof.
  unfold one_of. rewrite existsb_exists. setoid_rewrite Z.eqb_eq.
  rewrite list_elem_of_In. split; [by intros (x & ? & ->)|eauto].
Qed.

Lemma valid_component_spec aw c :
  valid_component aw c = true <->
  (c <> [] /\ c <> dot /\ c <> dotdot) /\ Z.of_nat (length c) <= 255
  /\ has_control c = false /\ existsb component_reserved c = false
  /\ (aw = true \/ existsb wildcard c = false).
Proof.
  unfold valid_component. rewrite !andb_true_iff, orb_true_iff, !negb_true_iff, !str_eqb_false,
    Z.leb_le. intuition.
Qed.
Lemma valid_no_sep aw c : valid_component aw c = true -> c <> [] /\ bs ∉ c.
Proof.
  intros (Hn & _ & _ & Hr & _)%valid_component_spec. split; [apply Hn|].
  apply existsb_never in Hr. intros Hi. rewrite Forall_forall in Hr. by specialize (Hr _ Hi).
Qed.
Lemma components_no_sep aw cs : components_ok aw cs -> Forall (fun p => p <> [] /\ bs ∉ p) cs.
Proof. intros Hc. apply (Forall_impl _ _ _ Hc). intros c. apply valid_no_sep. Qed.
Lemma split_components cs :
  cs <> [] -> Forall (fun p => p <> [] /\ bs ∉ p) cs -> split bs (join bs cs) = cs.
Proof. intros Hn Hc. apply split_join; [done|]. eapply Forall_impl; [exact Hc|]. by intros ? []. Qed.
Lemma components_mono aw cs : components_ok false cs -> components_ok aw cs.
Proof.
  intros Hcs. apply (Forall_impl _ _ _ Hcs). intros c Hc.
  apply valid_component_spec in Hc as (? & ? & ? & ? & [|]); [done|].
  apply valid_component_spec. tauto.
Qed.

(** *** Replacing slashes *)

Lemma replace_slashes_id s : 0x2F ∉ s -> replace_slashes s = s.
Proof.
  induction s as [|x s IH]; [done|]. intros [Hx Hs]%not_elem_of_cons. unfold replace_slashes.
  cbn. rewrite (proj2 (Z.eqb_neq _ _)) by congruence. f_equal. by apply IH.
Qed.
Lemma replace_slashes_no_slash s : 0x2F ∉ replace_slashes s.
Proof.
  unfold replace_slashes. intros (x & E & _)%list_elem_of_fmap. revert E. unfold bs. case_bool; lia.
Qed.
Lemma replace_slashes_idemp s : replace_slashes (replace_slashes s) = replace_slashes s.
Proof. apply replace_slashes_id, replace_slashes_no_slash. Qed.
Lemma valid_no_slash aw c : valid_component aw c = true -> 0x2F ∉ c.
Proof.
  intros (_ & _ & _ & Hr & _)%valid_component_spec Hi.
  apply existsb_never in Hr. rewrite Forall_forall in Hr. by specialize (Hr _ Hi).
Qed.
Lemma elem_of_join x l : x ∈ join bs l -> x = bs \/ exists p, p ∈ l /\ x ∈ p.
Proof.
  induction l as [|p l IH]; [by intros ?%not_elem_of_nil|]. destruct l as [|q l].
  - cbn. intros. right. exists p. split; [left|done].
  - rewrite join_cons by done. rewrite elem_of_app, elem_of_cons.
    intros [? | [-> | Hx]]; [right; exists p; split; [left|done]|by left|].
    destruct (IH Hx) as [-> | (r & ? & ?)]; [by left|]. right. exists r. split; [by right|done].
Qed.
Lemma elem_of_join_intro x p l : p ∈ l -> x ∈ p -> x ∈ join bs l.
Proof.
  induction l as [|q l IH]; [by intros ?%not_elem_of_nil|].
  intros [-> | Hp]%elem_of_cons Hx.
  - destruct l as [|r l]; [done|]. rewrite join_cons by done. apply elem_of_app. by left.
  - destruct l as [|r l]; [by apply not_elem_of_nil in Hp|]. rewrite join_cons by done.
    apply elem_of_app. right. right. auto.
Qed.
Lemma join_no_slash aw cs : components_ok aw cs -> 0x2F ∉ join bs cs.
Proof.
  intros Hc [? | (p & Hp & Hx)]%elem_of_join; [done|].
  rewrite Forall_forall in Hc. by apply (valid_no_slash aw p); auto.
Qed.

(** *** Validity *)

Lemma has_control_app_sep a b : has_control (a ++ bs :: b) = has_control a || has_control b.
Proof.
  induction a as [|x a IH]; [done|]. cbn [app has_control]. rewrite IH.
  destruct a as [|y a]; cbn [app]; [|by rewrite !orb_assoc].
  cbn. rewrite ?andb_false_r, ?orb_false_r. by rewrite ?orb_assoc.
Qed.
Lemma has_control_join cs :
  Forall (fun c => has_control c = false) cs -> has_control (join bs cs) = false.
Proof.
  induction 1 as [|c cs Hc Hcs IH]; [done|]. destruct cs as [|d cs]; [done|].
  rewrite join_cons, has_control_app_sep, Hc by done. done.
Qed.
Lemma existsb_join (f : Z -> bool) cs :
  f bs = false -> Forall (fun c => existsb f c = false) cs -> existsb f (join bs cs) = false.
Proof.
  intros Hb Hc. apply existsb_never, Forall_forall. intros x [-> | (p & Hp & Hx)]%elem_of_join; [done|].
  rewrite Forall_forall in Hc. specialize (Hc _ Hp). apply existsb_never in Hc.
  rewrite Forall_forall in Hc. auto.
Qed.
Lemma contains_double_no_sep s : bs ∉ s -> contains_double bs s = false.
Proof.
  induction s as [|x s IH]; [done|]. intros [Hx Hs]%not_elem_of_cons.
  cbn [contains_double]. destruct s as [|y s]; [done|].
  rewrite (proj2 (Z.eqb_neq x bs)) by congruence. cbn [andb orb]. auto.
Qed.
Lemma contains_double_app c r :
  bs ∉ c -> head r <> Some bs -> contains_double bs (c ++ bs :: r) = contains_double bs r.
Proof.
  intros Hc Hr. induction c as [|x c IH]; cbn [app].
  - destruct r as [|y r]; [done|]. cbn [contains_double].
    rewrite (proj2 (Z.eqb_neq y bs)) by (intros ->; by apply Hr). by rewrite andb_false_r.
  - apply not_elem_of_cons in Hc as [Hx Hc]. specialize (IH Hc).
    cbn [contains_double]. destruct (c ++ bs :: r) as [|y l] eqn:E; [by destruct c|].
    rewrite (proj2 (Z.eqb_neq x bs)) by congruence. done.
Qed.
Lemma contains_double_join cs :
  Forall (fun p => p <> [] /\ bs ∉ p) cs -> contains_double bs (join bs cs) = false.
Proof.
  induction 1 as [|c cs [? Hc] Hcs IH]; [done|]. destruct cs as [|d cs].
  - by apply contains_double_no_sep.
  - rewrite join_cons, contains_double_app by (try done; by apply join_head). done.
Qed.

(** *** Canonical paths are valid and normalise to themselves *)

Lemma body_of_abs cs aw :
  components_ok aw cs -> trim bs (bs :: join bs cs) = join bs cs.
Proof.
  intros Hc%components_no_sep. unfold trim. rewrite trim_start_cons, trim_start_id, trim_end_id;
    auto using join_head, join_last.
Qed.
Lemma body_of_dir cs aw :
  components_ok aw cs -> trim bs (bs :: join bs cs ++ [bs]) = join bs cs.
Proof.
  intros Hc%components_no_sep. unfold trim. rewrite trim_start_cons.
  destruct (decide (cs = [])) as [->|Hn]; [done|].
  rewrite trim_start_id, trim_end_snoc, trim_end_id; auto using join_last.
  pose proof (join_not_nil bs cs Hn Hc). pose proof (join_head bs cs Hc).
  by destruct (join bs cs).
Qed.

(** [is_valid_fs_path] of a path with a backslash in front and components behind. *)
Lemma valid_path_spec aw ar s cs :
  s <> [] -> s <> root -> s <> [bs; bs] -> 0x2F ∉ s ->
  has_control s = has_control (join bs cs) ->
  (forall f, f bs = false -> existsb f s = existsb f (join bs cs)) ->
  trim bs s = join bs cs -> cs <> [] -> components_ok aw cs ->
  is_valid_fs_path s ar aw = true.
Proof.
  intros H1 H2 H3 H4 Hctl Hex Hb Hn Hc. unfold is_valid_fs_path.
  rewrite replace_slashes_id by done.
  rewrite !(proj2 (str_eqb_false _ _)) by done. cbn [orb].
  assert (Hs := components_no_sep aw cs Hc).
  change (trim_end bs (trim_start bs s)) with (trim bs s). rewrite Hb.
  rewrite (proj2 (str_eqb_false _ _)) by (by apply join_not_nil).
  rewrite contains_double_join by done.
  rewrite split_components by done.
  replace (has_control s || existsb path_reserved s || negb aw && existsb wildcard s) with false.
  - by apply forallb_spec.
  - symmetry. rewrite Hctl, !Hex by done. rewrite !orb_false_iff, andb_false_iff. split_and!.
    + apply has_control_join. eapply Forall_impl; [exact Hc|]. cbn.
      by intros c (_ & _ & ? & _)%valid_component_spec.
    + apply existsb_join; [done|]. eapply Forall_impl; [exact Hc|]. cbn.
      intros c (_ & _ & _ & Hr & _)%valid_component_spec. apply existsb_never.
      apply existsb_never in Hr. eapply Forall_impl; [exact Hr|]. cbv beta. intros x Hx.
      apply not_true_iff_false. apply not_true_iff_false in Hx. intros Hp. apply Hx.
      apply one_of_spec in Hp. apply one_of_spec. set_solver.
    + destruct aw; [by left|right]. apply existsb_join; [done|]. eapply Forall_impl; [exact Hc|].
      cbn. by intros c (_ & _ & _ & _ & [|])%valid_component_spec.
Qed.
Lemma abs_path_valid ar cs aw :
  cs <> [] -> components_ok aw cs -> is_valid_fs_path (abs_path cs) ar aw = true.
Proof.
  intros Hn Hc. assert (Hs := components_no_sep aw cs Hc).
  destruct cs as [|c0 cs0] eqn:Ecs; [done|]. rewrite <- Ecs in *. 
  replace (abs_path cs) with (bs :: join bs cs) by by subst cs.
  assert (Hj := join_not_nil bs cs Hn Hs).
  apply (valid_path_spec _ _ _ cs); try done.
  - by intros [= E].
  - intros [= E]. apply (join_head bs cs Hs). by rewrite E.
  - apply not_elem_of_cons. split; [done|]. by eapply join_no_slash.
  - intros f Hf. cbn. by rewrite Hf.
  - by eapply body_of_abs.
Qed.
Lemma dir_path_valid ar cs aw :
  cs <> [] -> components_ok aw cs -> is_valid_fs_path (dir_path cs) ar aw = true.
Proof.
  intros Hn Hc. assert (Hs := components_no_sep aw cs Hc).
  destruct cs as [|c0 cs0] eqn:Ecs; [done|]. rewrite <- Ecs in *.
  replace (dir_path cs) with (bs :: join bs cs ++ [bs]) by by subst cs.
  assert (Hj := join_not_nil bs cs Hn Hs). assert (Hh := join_head bs cs Hs).
  apply (valid_path_spec _ _ _ cs); try done.
  - intros [= E]. by apply app_eq_nil in E as [? _].
  - intros [= E]. destruct (join bs cs) as [|x l]; [done|]. injection E as -> E.
    by apply Hh.
  - apply not_elem_of_cons. split; [done|]. rewrite elem_of_app, list_elem_of_singleton.
    intros [?|?]; [|done]. by eapply join_no_slash.
  - etransitivity; [apply (has_control_app_sep [])|]. cbn [has_control orb].
    rewrite has_control_app_sep. apply orb_false_r.
  - intros f Hf. cbn. rewrite Hf, existsb_app. cbn. by rewrite Hf, !orb_false_r.
  - by eapply body_of_dir.
Qed.

Lemma dir_path_no_slash cs aw : components_ok aw cs -> 0x2F ∉ dir_path cs.
Proof.
  intros Hc. destruct cs as [|c cs]; [by intros ?%list_elem_of_singleton|].
  cbn [dir_path]. rewrite not_elem_of_cons, not_elem_of_app, not_elem_of_cons.
  split_and!; [done|by eapply join_no_slash|done|apply not_elem_of_nil].
Qed.
Lemma base_of_dir cs :
  components_ok false cs -> normalize_directory_base (dir_path cs) = Ok (dir_path cs).
Proof.
  intros Hc. unfold normalize_directory_base.
  rewrite replace_slashes_id by (by eapply dir_path_no_slash).
  destruct (decide (cs = [])) as [->|Hn]; [done|].
  rewrite dir_path_valid by done. cbn [negb].
  assert (Hs := components_no_sep _ cs Hc). assert (Hj := join_not_nil bs cs Hn Hs).
  assert (E : dir_path cs = bs :: join bs cs ++ [bs]) by by destruct cs.
  assert (Hh := join_head bs cs Hs).
  rewrite E, (body_of_dir cs false), (proj2 (str_eqb_false (join bs cs) _)) by done.
  destruct (join bs cs) as [|x l]; [done|]. rewrite !(proj2 (str_eqb_false _ _)); [done| |].
  - intros [= -> _]. by destruct Hh.
  - by intros [=].
Qed.

Lemma tail_reverse {A} (l : list A) : tail (reverse l) = reverse (take (length l - 1) l).
Proof.
  destruct l as [|x l _] using rev_ind; [done|].
  rewrite length_app, reverse_snoc. cbn. rewrite Nat.add_sub, take_app_length. done.
Qed.
Lemma resolve_walk path dir :
  resolve_components (reverse dir) path = reverse (walk dir path).
Proof.
  revert dir. induction path as [|c path IH]; intros dir; [done|]. cbn [resolve_components walk].
  rewrite <- IH. f_equal. destruct (decide (c = [] \/ c = dot)) as [[-> | ->]|Hn]; [done..|].
  rewrite (proj2 (str_eqb_false c [])), (proj2 (str_eqb_false c dot)) by naive_solver.
  cbn [orb]. destruct (decide (c = dotdot)) as [->|Hd].
  - rewrite str_eqb_refl. apply tail_reverse.
  - rewrite (proj2 (str_eqb_false c dotdot)) by done. by rewrite reverse_snoc.
Qed.
Lemma walk_no_dots path dir :
  Forall (fun c => c <> dot /\ c <> dotdot) path ->
  walk dir path = dir ++ filter (fun c => c <> []) path.
Proof.
  intros Hp. revert dir. induction Hp as [|c path [H1 H2] Hp IH]; intros dir; cbn [walk].
  - by rewrite filter_nil, app_nil_r.
  - rewrite IH. destruct (decide (c = [])) as [->|Hn].
    + rewrite decide_True by auto. by rewrite filter_cons_False by (intros Hne; by destruct Hne).
    + rewrite decide_False by (by intros [|]). rewrite decide_False by done.
      rewrite filter_cons_True by done. by rewrite <- app_assoc.
Qed.
(** Where a path starts from. *)
Definition walk_start (path : list Z) (cs : list (list Z)) : list (list Z) :=
  if is_absolute_path path then [] else cs.
Lemma walk_Forall (P : list Z -> Prop) path dir :
  Forall (fun p => p <> [] -> P p) path -> Forall P dir -> Forall P (walk dir path).
Proof.
  intros Hp. revert dir. induction Hp as [|c path Hc Hp IH]; intros dir Hd; [done|].
  cbn [walk]. apply IH. destruct (decide (_ \/ _)) as [|Hn]; [done|].
  destruct (decide _); [by apply Forall_take|]. apply Forall_app. split; [done|].
  constructor; [|done]. apply Hc. intros ->. apply Hn. by left.
Qed.
Lemma split_Forall (P : Z -> Prop) c s : Forall P s -> Forall (Forall P) (split c s).
Proof.
  induction 1 as [|x s Hx Hs IH]; [by repeat constructor|].
  destruct (decide (x = c)) as [->|Hn].
  - rewrite split_cons_eq. by constructor.
  - destruct (split_cons_ne c x s Hn) as (h & t & E & ->). rewrite E in IH. inv IH.
    by repeat constructor.
Qed.
(** A component as the resolver builds it. *)
Definition plain (p : list Z) : Prop := (p <> [] /\ bs ∉ p) /\ 0x2F ∉ p.
Lemma plain_no_sep rs : Forall plain rs -> Forall (fun p => p <> [] /\ bs ∉ p) rs.
Proof. intros H. eapply Forall_impl; [exact H|]. by intros ? []. Qed.
Lemma components_plain aw cs : components_ok aw cs -> Forall plain cs.
Proof.
  intros H. apply (Forall_impl _ _ _ H). intros c Hc. split; [by eapply valid_no_sep|].
  by eapply valid_no_slash.
Qed.
Lemma walk_plain raw cs aw :
  0x2F ∉ raw -> components_ok aw cs -> Forall plain (walk (walk_start raw cs) (split bs raw)).
Proof.
  intros Hr Hc. apply walk_Forall.
  - assert (H1 := split_parts bs raw).
    assert (H2 : Forall (fun x => x <> 0x2F) raw)
      by (apply Forall_forall; intros ? ? ->; done).
    apply (split_Forall _ bs) in H2. rewrite Forall_forall in *. intros p Hp Hn.
    split; [split; [done|auto]|]. intros Hi. specialize (H2 _ Hp).
    rewrite Forall_forall in H2. by apply (H2 0x2F).
  - unfold walk_start. destruct (is_absolute_path raw); [done|]. by eapply components_plain.
Qed.
Lemma parts_dir cs : components_ok false cs -> parts bs (dir_path cs) = cs.
Proof.
  intros Hc. assert (Hs := components_no_sep _ cs Hc).
  destruct (decide (cs = [])) as [->|Hn]; [done|].
  replace (dir_path cs) with (bs :: join bs cs ++ [bs]) by by destruct cs.
  rewrite parts_cons_sep, parts_snoc_sep. unfold parts. rewrite split_components by done.
  clear Hn Hc. induction Hs as [|c cs [Hc _] Hs IH]; [done|].
  rewrite filter_cons_True by done. by rewrite IH.
Qed.

Definition walked (path : list Z) (cs : list (list Z)) : list (list Z) :=
  walk (walk_start (replace_slashes path) cs) (split bs (replace_slashes path)).

(** A valid path is the root or canonical up to its outer separators. *)
Lemma valid_path_inv s ar aw :
  is_valid_fs_path s ar aw = true -> 0x2F ∉ s ->
  (trim bs s = [] /\ ar = true /\ is_absolute_path s = true)
  \/ (trim bs s <> [] /\ components_ok aw (split bs (trim bs s))
      /\ trim bs s = join bs (split bs (trim bs s))).
Proof.
  unfold is_valid_fs_path. intros Hv Hn. rewrite replace_slashes_id in Hv by done.
  destruct (str_eqb s []) eqn:E0; [done|]. apply str_eqb_false in E0.
  destruct (str_eqb s root || str_eqb s [bs; bs]) eqn:E1.
  { left. by apply orb_true_iff in E1 as [->%str_eqb_spec | ->%str_eqb_spec]. }
  destruct (has_control s || _ || _); [done|].
  change (trim_end bs (trim_start bs s)) with (trim bs s) in Hv.
  destruct (str_eqb (trim bs s) []) eqn:E2.
  - left. apply str_eqb_spec in E2. split_and!; try done.
    unfold trim in E2. apply trim_end_nil in E2. destruct s as [|x s]; [done|].
    cbn [trim_start] in E2. unfold is_absolute_path, starts_with, root.
    destruct (Z.eqb_spec x bs) as [->|Hx]; [done|]. by inv E2.
  - right. apply str_eqb_false in E2. destruct (contains_double bs (trim bs s)); [done|].
    split_and!; [done|by apply forallb_spec|by rewrite join_split].
Qed.

Lemma resolve_no_dots path d :
  existsb (fun c => str_eqb c dot || str_eqb c dotdot) (split bs path) = false ->
  resolve_dot_segments path d = path
  /\ Forall (fun c => c <> dot /\ c <> dotdot) (split bs path).
Proof.
  intros E. split; [unfold resolve_dot_segments; by rewrite E|].
  apply existsb_never in E. eapply Forall_impl; [exact E|]. cbn.
  by intros c [?%str_eqb_false ?%str_eqb_false]%orb_false_iff.
Qed.
(** A path with dot components becomes the absolute path of what it walks to. *)
Lemma resolve_dots raw cs :
  components_ok false cs -> 0x2F ∉ raw ->
  existsb (fun c => str_eqb c dot || str_eqb c dotdot) (split bs raw) = true ->
  let rs := walk (walk_start raw cs) (split bs raw) in
  rs = [] /\ resolve_dot_segments raw (dir_path cs) = root
  \/ rs <> [] /\ (resolve_dot_segments raw (dir_path cs) = bs :: join bs rs
                  \/ resolve_dot_segments raw (dir_path cs) = bs :: join bs rs ++ [bs]).
Proof.
  intros Hc Hr E rs. unfold resolve_dot_segments. rewrite E. cbn [negb].
  replace (if is_absolute_path raw then [] else filter (fun c => c <> []) (split bs (dir_path cs)))
    with (walk_start raw cs).
  2: { unfold walk_start. destruct (is_absolute_path raw); [done|]. symmetry. by apply parts_dir. }
  rewrite resolve_walk, reverse_involutive. fold rs. case_bool_decide as Hn; [by left|]. right.
  split; [done|]. destruct (_ || _); auto.
Qed.
Lemma trim_resolved rs s :
  Forall (fun p => p <> [] /\ bs ∉ p) rs ->
  s = bs :: join bs rs \/ s = bs :: join bs rs ++ [bs] -> trim bs s = join bs rs.
Proof.
  intros Hs Hc. assert (Hh := join_head bs rs Hs). assert (Hl := join_last bs rs Hs).
  unfold trim. destruct Hc as [-> | ->]; rewrite trim_start_cons.
  - by rewrite trim_start_id, trim_end_id.
  - destruct (join bs rs) as [|x l] eqn:E; [done|]. rewrite trim_start_id by done.
    by rewrite trim_end_snoc, trim_end_id.
Qed.
Lemma resolved_no_slash rs s :
  Forall plain rs -> s = bs :: join bs rs \/ s = bs :: join bs rs ++ [bs] -> 0x2F ∉ s.
Proof.
  intros Hrs Hs. assert (Hj : 0x2F ∉ join bs rs).
  { intros [? | (p & Hp & Hx)]%elem_of_join; [done|]. rewrite Forall_forall in Hrs.
    by destruct (Hrs p Hp) as [_ ?]. }
  destruct Hs as [-> | ->]; rewrite not_elem_of_cons; (split; [done|]); [done|].
  rewrite not_elem_of_app, not_elem_of_cons. split_and!; [done..|apply not_elem_of_nil].
Qed.

(** [normalize_iso_path] on its resolved path. *)
Definition normalize_resolved (path current_directory : list Z) (ar aw : bool)
    : Result (list Z) Error.t :=
  if negb (is_valid_fs_path path ar aw) then
    Err (invalid_fs_path_error "FileServer: path must be a valid ISO 11783-13 backslash path")
  else if str_eqb (trim bs path) [] then Ok root
  else if is_absolute_path path then Ok (bs :: trim bs path)
  else
    let? base := normalize_directory_base current_directory in
    if str_eqb base root then Ok (bs :: trim bs path) else Ok (base ++ trim bs path).
Lemma normalize_resolved_eq path d ar aw :
  normalize_iso_path path d ar aw
  = normalize_resolved (resolve_dot_segments (replace_slashes path) d) d ar aw
  \/ 0x2F ∈ resolve_dot_segments (replace_slashes path) d.
Proof.
  unfold normalize_iso_path, normalize_resolved.
  set (s := resolve_dot_segments _ d). clearbody s.
  destruct (decide (0x2F ∈ s)) as [|Hs]; [by right|left].
  destruct (is_valid_fs_path s ar aw) eqn:Hv; [|done]. cbn [negb].
  assert (Hr : trim bs s = [] -> ar = true).
  { intros Ht. by destruct (valid_path_inv s ar aw Hv Hs) as [(_ & ? & _) | (? & _)]. }
  destruct (str_eqb s root || str_eqb s [bs; bs]) eqn:E.
  - apply orb_true_iff in E as [->%str_eqb_spec | ->%str_eqb_spec];
      by rewrite (Hr eq_refl).
  - destruct (str_eqb (trim bs s) []) eqn:Et; [|done]. apply str_eqb_spec in Et. by rewrite Hr.
Qed.

Lemma abs_path_app cs l :
  cs <> [] -> l <> [] -> dir_path cs ++ join bs l = abs_path (cs ++ l).
Proof.
  intros Hc Hl. destruct cs as [|c cs]; [done|]. cbn [dir_path abs_path app].
  change (c :: cs ++ l) with ((c :: cs) ++ l). rewrite join_app by done.
  cbn [app]. by rewrite <- app_assoc.
Qed.
Lemma normalize_dots raw cs ar aw p :
  components_ok false cs -> 0x2F ∉ raw ->
  existsb (fun c => str_eqb c dot || str_eqb c dotdot) (split bs raw) = true ->
  normalize_resolved (resolve_dot_segments raw (dir_path cs)) (dir_path cs) ar aw = Ok p ->
  let rs := walk (walk_start raw cs) (split bs raw) in
  p = abs_path rs /\ components_ok aw rs /\ (rs = [] -> ar = true).
Proof.
  intros Hc Hns Ed Hok rs. assert (Hp := walk_plain raw cs false Hns Hc). fold rs in Hp.
  destruct (resolve_dots raw cs Hc Hns Ed) as [[E Hr] | [Hn Hr]]; fold rs in E || fold rs in Hn.
  - rewrite Hr in Hok. rewrite E. by destruct ar, aw; inv Hok.
  - fold rs in Hr. set (s := resolve_dot_segments raw (dir_path cs)) in *. clearbody s.
    assert (Hrs := plain_no_sep rs Hp). assert (Hj := join_not_nil bs rs Hn Hrs).
    assert (Ht := trim_resolved rs s Hrs Hr). unfold normalize_resolved in Hok.
    destruct (is_valid_fs_path s ar aw) eqn:Hv; [|done]. cbn [negb] in Hok.
    rewrite Ht, (proj2 (str_eqb_false (join bs rs) [])) in Hok by done.
    assert (Ha : is_absolute_path s = true) by (by destruct Hr as [-> | ->]).
    rewrite Ha in Hok. injection Hok as <-.
    destruct (valid_path_inv s ar aw Hv) as [(Hx & _) | (_ & Hx & _)];
      [by eapply resolved_no_slash|by rewrite Ht in Hx|].
    rewrite Ht, split_components in Hx by done. split_and!; [by destruct rs|done|done].
Qed.
Lemma normalize_plain raw cs ar aw p :
  components_ok false cs -> 0x2F ∉ raw ->
  Forall (fun c => c <> dot /\ c <> dotdot) (split bs raw) ->
  normalize_resolved raw (dir_path cs) ar aw = Ok p ->
  let rs := walk (walk_start raw cs) (split bs raw) in
  p = abs_path rs /\ components_ok aw rs /\ (rs = [] -> ar = true).
Proof.
  intros Hc Hns Hd Hok rs. unfold normalize_resolved in Hok.
  destruct (is_valid_fs_path raw ar aw) eqn:Hv; [|done]. cbn [negb] in Hok.
  assert (Hrs : rs = walk_start raw cs ++ parts bs (trim bs raw))
    by (unfold rs; by rewrite walk_no_dots, parts_trim by done).
  clearbody rs. destruct (valid_path_inv raw ar aw Hv Hns) as [(Ht & Hr & Ha) | (Hn & Hcs & Hj)].
  - rewrite Ht in Hok, Hrs. unfold walk_start in Hrs. rewrite Ha in Hrs. cbn in Hok, Hrs.
    injection Hok as <-. by subst rs.
  - set (l := split bs (trim bs raw)) in *.
    assert (Hl : parts bs (trim bs raw) = l).
    { unfold parts. fold l. clear -Hcs. induction Hcs as [|c l H Hcs IH]; [done|].
      apply valid_no_sep in H as [H _]. by rewrite filter_cons_True, IH. }
    assert (Hln : l <> []) by apply split_not_nil.
    rewrite (proj2 (str_eqb_false (trim bs raw) [])) in Hok by done. rewrite Hl in Hrs.
    unfold walk_start in Hrs. destruct (is_absolute_path raw).
    + injection Hok as <-. subst rs. rewrite Hj. cbn [app]. by destruct l.
    + rewrite base_of_dir in Hok by done. cbn [try_bind] in Hok.
      assert (Hall : components_ok aw rs).
      { rewrite Hrs. apply Forall_app. split; [by apply components_mono|done]. }
      destruct (decide (cs = [])) as [->|Hcn].
      * cbn in Hok. injection Hok as <-. rewrite Hrs, Hj. cbn [app]. rewrite Hrs in Hall.
        by destruct l.
      * assert (Hd' : dir_path cs <> root).
        { destruct cs; [done|]. cbn [dir_path]. intros [= [_ E]%app_eq_nil]. done. }
        rewrite (proj2 (str_eqb_false _ root)) in Hok by done. injection Hok as <-.
        rewrite Hj, abs_path_app, Hrs by done. rewrite Hrs in Hall.
        split_and!; [done|done|]. intros E. by apply app_eq_nil in E as [? _].
Qed.
(** A raw path and what is left of it when it is accepted. *)
Lemma normalize_ok path cs ar aw p :
  components_ok false cs ->
  normalize_iso_path path (dir_path cs) ar aw = Ok p ->
  p = abs_path (walked path cs) /\ components_ok aw (walked path cs)
  /\ (walked path cs = [] -> ar = true).
Proof.
  intros Hc Hok. assert (Hns := replace_slashes_no_slash path). unfold walked.
  destruct (existsb (fun c => str_eqb c dot || str_eqb c dotdot) (split bs (replace_slashes path)))
    eqn:Ed.
  - apply normalize_dots; try done.
    destruct (normalize_resolved_eq path (dir_path cs) ar aw) as [<-|Hs]; [done|]. exfalso. revert Hs.
    assert (Hp := walk_plain _ cs false Hns Hc).
    destruct (resolve_dots _ cs Hc Hns Ed) as [[_ ->] | [_ Hr]].
    + by intros ?%list_elem_of_singleton.
    + by eapply resolved_no_slash.
  - apply resolve_no_dots with (d := dir_path cs) in Ed as [Er Hd].
    apply (normalize_plain _ cs); try done. rewrite <- Er.
    destruct (normalize_resolved_eq path (dir_path cs) ar aw) as [E|Hs];
      [congruence|by rewrite Er in Hs].
Qed.

(** *** Canonical paths are fixed points *)

Lemma ends_with_root s : ends_with root s = bool_decide (last s = Some bs).
Proof.
  unfold ends_with, starts_with, root. destruct s as [|x s _] using rev_ind; [done|].
  rewrite reverse_snoc, last_snoc. cbn [reverse rev_append strip_prefix].
  change (reverse [bs]) with [bs]. cbn [strip_prefix].
  destruct (Z.eqb_spec bs x) as [<-|Hn]; [done|].
  symmetry. apply bool_decide_eq_false_2. congruence.
Qed.
Lemma abs_path_last cs :
  cs <> [] -> components_ok false cs -> ends_with root (abs_path cs) = false.
Proof.
  intros Hn Hc. assert (Hs := components_no_sep _ cs Hc). rewrite ends_with_root.
  apply bool_decide_eq_false. replace (abs_path cs) with ([bs] ++ join bs cs) by by destruct cs.
  rewrite last_app. assert (Hl := join_last bs cs Hs). assert (Hj := join_not_nil bs cs Hn Hs).
  destruct (last (join bs cs)) eqn:E; [congruence|]. by apply last_None in E.
Qed.
Lemma suffix_abs cs : components_ok false cs -> ensure_directory_suffix (abs_path cs) = dir_path cs.
Proof.
  intros Hc. destruct (decide (cs = [])) as [->|Hn]; [done|].
  unfold ensure_directory_suffix. rewrite abs_path_last by done.
  assert (Hs := components_no_sep _ cs Hc). assert (Hj := join_not_nil bs cs Hn Hs).
  replace (abs_path cs) with (bs :: join bs cs) by by destruct cs.
  rewrite (proj2 (str_eqb_false _ root)) by (intros [= E]; done). by destruct cs.
Qed.
Lemma dir_path_last cs : ends_with root (dir_path cs) = true.
Proof.
  rewrite ends_with_root. apply bool_decide_eq_true. destruct cs as [|c cs]; [done|].
  cbn [dir_path]. rewrite app_comm_cons. by rewrite last_snoc.
Qed.
Lemma suffix_dir cs : ensure_directory_suffix (dir_path cs) = dir_path cs.
Proof. unfold ensure_directory_suffix. by rewrite dir_path_last, andb_false_r. Qed.

Lemma split_abs cs :
  cs <> [] -> components_ok false cs -> split bs (bs :: join bs cs) = [] :: cs.
Proof.
  intros Hn Hc. by rewrite split_cons_eq, split_components by eauto using components_no_sep.
Qed.
Lemma no_dot_components cs :
  components_ok false cs -> existsb (fun c => str_eqb c dot || str_eqb c dotdot) cs = false.
Proof.
  intros Hc. apply existsb_never. eapply Forall_impl; [exact Hc|]. cbn.
  intros c ((_ & H1 & H2) & _)%valid_component_spec. by rewrite !(proj2 (str_eqb_false _ _)).
Qed.
Lemma normalize_canonical s cs d ar :
  cs <> [] -> components_ok false cs -> s = abs_path cs \/ s = dir_path cs ->
  normalize_iso_path s d ar false = Ok (abs_path cs).
Proof.
  intros Hn Hc Hs. assert (Hp := components_no_sep _ cs Hc).
  assert (Hj := join_not_nil bs cs Hn Hp).
  assert (Ea : abs_path cs = bs :: join bs cs) by by destruct cs.
  assert (Ed : dir_path cs = bs :: join bs cs ++ [bs]) by by destruct cs.
  assert (Hns : 0x2F ∉ s).
  { destruct Hs as [-> | ->]; [|by eapply dir_path_no_slash]. rewrite Ea, not_elem_of_cons.
    split; [done|by eapply join_no_slash]. }
  assert (Hr : resolve_dot_segments (replace_slashes s) d = s).
  { rewrite replace_slashes_id by done. apply resolve_no_dots.
    destruct Hs as [-> | ->]; [rewrite Ea, split_abs by done|].
    - cbn. by apply no_dot_components.
    - rewrite Ed, split_cons_eq, split_snoc_sep, split_components by done.
      cbn [existsb]. rewrite existsb_app, no_dot_components by done. done. }
  destruct (normalize_resolved_eq s d ar false) as [->|Hx]; [|by rewrite Hr in Hx].
  rewrite Hr. unfold normalize_resolved.
  assert (Ht : trim bs s = join bs cs).
  { apply (trim_resolved cs); [done|]. destruct Hs as [-> | ->]; auto. }
  assert (Hv : is_valid_fs_path s ar false = true).
  { destruct Hs as [-> | ->]; [by apply abs_path_valid|by apply dir_path_valid]. }
  rewrite Hv, Ht, (proj2 (str_eqb_false _ [])) by done. cbn [negb].
  assert (Ha : is_absolute_path s = true) by (destruct Hs as [-> | ->]; by rewrite ?Ea, ?Ed).
  by rewrite Ha, Ea.
Qed.
Lemma normalize_directory_canonical s cs d :
  components_ok false cs -> s = abs_path cs \/ s = dir_path cs ->
  Z.of_nat (length (dir_path cs)) <= FS_WIRE_STRING_MAX_LEN ->
  normalize_directory_path s d = Ok (dir_path cs).
Proof.
  intros Hc Hs Hl. unfold normalize_directory_path.
  assert (normalize_iso_path s d true false = Ok (abs_path cs)) as ->.
  { destruct (decide (cs = [])) as [->|Hn]; [by destruct Hs as [-> | ->]|].
    by apply normalize_canonical. }
  cbn [try_bind]. rewrite suffix_abs by done. by rewrite (proj2 (Z.ltb_ge _ _)).
Qed.

Lemma normalize_client_file_ok path cs p :
  components_ok false cs -> normalize_client_path path (dir_path cs) false = Ok p ->
  p = abs_path (walked path cs) /\ walked path cs <> [] /\ components_ok false (walked path cs).
Proof.
  unfold normalize_client_path. intros Hc Hok.
  destruct (normalize_iso_path path (dir_path cs) false false) as [q|] eqn:E; [|done].
  apply normalize_ok in E as (-> & Hw & Hn); [|done]. cbn [try_bind] in Hok.
  destruct (ends_with root _); [done|]. injection Hok as <-. split_and!; [done| |done].
  intros E. by specialize (Hn E).
Qed.
Lemma normalize_directory_ok path cs p :
  components_ok false cs -> normalize_directory_path path (dir_path cs) = Ok p ->
  p = dir_path (walked path cs) /\ components_ok false (walked path cs)
  /\ Z.of_nat (length p) <= FS_WIRE_STRING_MAX_LEN.
Proof.
  unfold normalize_directory_path. intros Hc Hok.
  destruct (normalize_iso_path path (dir_path cs) true false) as [q|] eqn:E; [|done].
  apply normalize_ok in E as (-> & Hw & _); [|done]. cbn [try_bind] in Hok.
  rewrite suffix_abs in Hok by done. destruct (Z.ltb_spec FS_WIRE_STRING_MAX_LEN
    (Z.of_nat (length (dir_path (walked path cs))))); [done|]. by injection Hok as <-.
Qed.

(** *** Listing requests *)

Lemma rfind_none c s : c ∉ s -> rfind c s = None.
Proof.
  induction s as [|x s IH]; [done|]. intros [Hx Hs]%not_elem_of_cons. cbn.
  rewrite IH by done. by rewrite (proj2 (Z.eqb_neq _ _)) by congruence.
Qed.
Lemma rfind_app c a b : c ∉ b -> rfind c (a ++ c :: b) = Some (length a).
Proof.
  intros Hb. induction a as [|x a IH]; cbn; [by rewrite rfind_none, Z.eqb_refl|]. by rewrite IH.
Qed.
Lemma contains_false c s : contains c s = false <-> c ∉ s.
Proof.
  unfold contains. rewrite existsb_never, Forall_forall. setoid_rewrite Z.eqb_neq.
  split; [by intros H Hi; apply (H c)|]. by intros H x Hx <-.
Qed.
(** The directory part of a path with at least one component. *)
Definition parent_prefix (cs : list (list Z)) : list Z :=
  match cs with [] => [] | _ => bs :: join bs cs end.
Lemma abs_path_snoc cs c : abs_path (cs ++ [c]) = parent_prefix cs ++ bs :: c.
Proof.
  destruct cs as [|d cs]; [done|]. cbn [parent_prefix app abs_path].
  change (d :: cs ++ [c]) with ((d :: cs) ++ [c]). by rewrite join_app.
Qed.
Lemma parent_prefix_dir cs :
  (if (length (parent_prefix cs) =? 0)%nat then root else parent_prefix cs ++ [bs]) = dir_path cs.
Proof. by destruct cs. Qed.
Lemma no_wildcards_components cs :
  components_ok true cs -> has_wildcards (parent_prefix cs) = false -> components_ok false cs.
Proof.
  intros Hc [H1 H2]%orb_false_iff. apply contains_false in H1, H2.
  rewrite Forall_forall in *. intros c Hi. specialize (Hc _ Hi).
  apply valid_component_spec in Hc as (? & ? & ? & ? & _). apply valid_component_spec.
  split_and!; try tauto. right. apply existsb_never, Forall_forall. intros x Hx.
  assert (Hp : x ∈ parent_prefix cs).
  { destruct cs as [|d cs]; [by apply not_elem_of_nil in Hi|]. cbn [parent_prefix]. right.
    apply elem_of_join_intro with c; done. }
  apply not_true_iff_false. rewrite (one_of_spec [0x2A; 0x3F]). intros Hw.
  apply elem_of_cons in Hw as [-> | ->%list_elem_of_singleton]; done.
Qed.
Lemma listing_request_ok path cs dir pattern :
  components_ok false cs ->
  normalize_directory_listing_request path (dir_path cs) = Ok (dir, pattern) ->
  exists rs, components_ok false rs /\ dir = dir_path rs
             /\ Z.of_nat (length dir) <= FS_WIRE_STRING_MAX_LEN.
Proof.
  unfold normalize_directory_listing_request. intros Hc H.
  destruct (has_wildcards path); cbn [negb] in H.
  - destruct (normalize_iso_path path (dir_path cs) true true) as [n|] eqn:E; [|done].
    apply normalize_ok in E as (-> & Hw & _); [|done]. cbn [try_bind] in H.
    set (rs := walked path cs) in *. clearbody rs.
    destruct rs as [|c rs _] using rev_ind; [done|]. apply Forall_app in Hw as [Hw Hcc].
    inv Hcc. rewrite abs_path_snoc, rfind_app in H by (by eapply valid_no_sep).
    rewrite take_app_length, parent_prefix_dir in H.
    destruct (_ || _) eqn:E in H; [done|]. apply orb_false_iff in E as [_ E].
    destruct (Z.ltb_spec FS_WIRE_STRING_MAX_LEN (Z.of_nat (length (dir_path rs)))); [done|].
    injection H as <- <-. exists rs. split_and!; [by apply no_wildcards_components|done|done].
  - destruct (normalize_directory_path path (dir_path cs)) as [d|] eqn:E; [|done].
    injection H as <- <-. apply normalize_directory_ok in E as (-> & ? & ?); [|done]. by eexists.
Qed.

(** C24: whatever path a client sends from whatever directory, the server's name for it is the
    result of walking the path component by component ([walk]: a dot stays, two dots go to the
    parent and stop at the root), so it never leaves the volume and holds no dot component,
    separator or reserved character inside a component; the file's name is not the root, a
    directory's fits the two-byte length; and canonical names are their own normal form. *)
Theorem fs_path_confined cs (Hcs : components_ok false cs) :
  (forall path p, normalize_client_path path (dir_path cs) false = Ok p ->
     p = abs_path (walked path cs) /\ walked path cs <> []
     /\ components_ok false (walked path cs))
  /\ (forall path p, normalize_directory_path path (dir_path cs) = Ok p ->
     p = dir_path (walked path cs) /\ components_ok false (walked path cs)
     /\ Z.of_nat (length p) <= FS_WIRE_STRING_MAX_LEN)
  /\ (forall rs d, rs <> [] -> components_ok false rs ->
     normalize_client_path (abs_path rs) d false = Ok (abs_path rs))
  /\ (forall rs d, components_ok false rs ->
     Z.of_nat (length (dir_path rs)) <= FS_WIRE_STRING_MAX_LEN ->
     normalize_directory_path (dir_path rs) d = Ok (dir_path rs)
     /\ normalize_directory_path (abs_path rs) d = Ok (dir_path rs)).
Proof.
  split_and!.
  - intros. by apply normalize_client_file_ok.
  - intros. by apply normalize_directory_ok.
  - intros rs d Hn Hr. unfold normalize_client_path.
    rewrite (normalize_canonical _ rs) by auto. cbn [try_bind]. by rewrite abs_path_last.
  - intros rs d Hr Hl. split; apply normalize_directory_canonical; auto.
Qed.
(** The standard's example: Vol1\SomeDirectory\..\.\File.txt from the directory A. *)
Definition example_path : list Z :=
  [0x56; 0x5C; 0x53; 0x5C; 0x2E; 0x2E; 0x5C; 0x2E; 0x5C; 0x46; 0x2E; 0x74].
Lemma fs_path_confined_witness :
  normalize_client_path example_path (dir_path [[0x41]]) false
    = Ok (abs_path [[0x41]; [0x56]; [0x46; 0x2E; 0x74]])
  /\ walked example_path [[0x41]] = [[0x41]; [0x56]; [0x46; 0x2E; 0x74]]
  /\ walked example_path [[0x41]] <> [].
Proof.
  destruct (fs_path_confined [[0x41]]) as (H & _); [by repeat constructor|].
  destruct (H example_path (abs_path [[0x41]; [0x56]; [0x46; 0x2E; 0x74]])) as (_ & Hn & _);
    [by vm_compute|].
  split; [by vm_compute|]. split; [by vm_compute|exact Hn].
Defined.

(** What a pattern means: a star stands for any string, a question mark for any byte. *)
Inductive matches : list Z -> list Z -> Prop :=
| matches_nil : matches [] []
| matches_char x c p s :
    x <> 0x2A -> x = 0x3F \/ x = c -> matches p s -> matches (x :: p) (c :: s)
| matches_skip p s : matches p s -> matches (0x2A :: p) s
| matches_take c p s : matches (0x2A :: p) s -> matches (0x2A :: p) (c :: s).

Definition char_match (x c : Z) : Prop := x <> 0x2A /\ (x = 0x3F \/ x = c).

Lemma matches_char_inv x c p s :
  x <> 0x2A -> matches (x :: p) (c :: s) <-> (x = 0x3F \/ x = c) /\ matches p s.
Proof.
  intros Hx. split.
  - intros H. inv H; done.
  - intros [? ?]. by constructor.
Qed.
Lemma matches_star p s : matches (0x2A :: p) s <-> exists n, matches p (drop n s).
Proof.
  split.
  - intros H. remember (0x2A :: p) as q eqn:E. revert p E.
    induction H as [| |q s H IH|c q s H IH]; intros p' E; try done; simplify_eq.
    + exists 0%nat. by rewrite drop_0.
    + destruct (IH p' eq_refl) as [n Hn]. by exists (S n).
  - intros [n Hn]. revert n Hn. induction s as [|c s IH]; intros n Hn.
    + constructor. by rewrite drop_nil in Hn.
    + destruct n as [|n]; [by constructor|]. apply matches_take. by apply (IH n).
Qed.
Lemma matches_segment seg u p s :
  Forall2 char_match seg u -> matches (seg ++ p) (u ++ s) <-> matches p s.
Proof.
  induction 1 as [|x c seg u [Hx Hc] Hf IH]; [done|]. cbn [app].
  rewrite matches_char_inv by done. tauto.
Qed.
Lemma matches_segment_inv seg p s :
  Forall (fun x => x <> 0x2A) seg -> matches (seg ++ p) s ->
  (length seg <= length s)%nat /\ matches p (drop (length seg) s).
Proof.
  intros Hs. revert s. induction Hs as [|x seg Hx Hs IH]; intros s H; cbn [app length] in *.
  - split; [lia|by rewrite drop_0].
  - inv H; try done. destruct (IH s0) as [? ?]; [done|]. cbn. split; [lia|done].
Qed.
Lemma matches_nil_spec p : matches p [] <-> trim_start 0x2A p = [].
Proof.
  induction p as [|x p IH]; [split; [done|constructor]|]. cbn [trim_start].
  destruct (Z.eqb_spec x 0x2A) as [->|Hx].
  - rewrite <- IH. split; [|by constructor]. intros H. by inv H.
  - split; [|done]. intros H. by inv H.
Qed.
Lemma matches_star_drop p s n : matches (0x2A :: p) (drop n s) -> matches (0x2A :: p) s.
Proof.
  rewrite !matches_star. intros [m Hm]. exists (n + m)%nat. by rewrite <- drop_drop.
Qed.

Section matcher.
Context (s p : list Z) (Hs : 0x2A ∉ s).

(** What the matcher knows: either nothing was skipped, or the text from the last star on
    decides, and the pattern behind it matches up to the current position. *)
Definition wm_star_ok (w : WmState) : Prop :=
  match wm_star w with
  | None => wm_match w = 0%nat
            /\ (matches p s <-> matches (drop (wm_pi w) p) (drop (wm_si w) s))
  | Some k => exists seg u,
      drop k p = 0x2A :: seg ++ drop (wm_pi w) p
      /\ drop (wm_match w) s = u ++ drop (wm_si w) s
      /\ Forall2 char_match seg u
      /\ (matches p s <-> matches (drop k p) (drop (wm_match w) s))
  end.
Definition wm_ok (w : WmState) : Prop :=
  (wm_si w <= length s)%nat /\ (wm_pi w <= length p)%nat /\ (wm_match w <= wm_si w)%nat
  /\ wm_star_ok w.
Definition wm_measure (w : WmState) : nat :=
  ((length s - wm_match w) * S (length s + length p) + (length s - wm_si w)
   + (length p - wm_pi w))%nat.

Lemma wm_byte_spec c l i : wm_byte c l i = true <-> l !! i = Some c.
Proof.
  unfold wm_byte. destruct (l !! i); [|done]. rewrite Z.eqb_eq. split; congruence.
Qed.
Lemma no_star_in_segment seg u : Forall2 char_match seg u -> Forall (fun x => x <> 0x2A) seg.
Proof. induction 1 as [|? ? ? ? [] ]; by constructor. Qed.

(** A byte that matches literally. *)
Lemma wm_step_char si pi star mi c x :
  wm_ok (mkWm si pi star mi) -> s !! si = Some c -> p !! pi = Some x -> x = 0x3F \/ x = c ->
  wm_ok (mkWm (S si) (S pi) star mi).
Proof.
  intros (H1 & H2 & H3 & H4) Hc Hx Hm. cbn in *.
  assert (Hx' : x <> 0x2A).
  { intros ->. destruct Hm as [|<-]; [done|]. apply Hs. by eapply list_elem_of_lookup_2. }
  apply lookup_lt_Some in Hc as Hl1. apply lookup_lt_Some in Hx as Hl2.
  split_and!; cbn; try lia. unfold wm_star_ok in *. cbn in *.
  destruct star as [k|].
  - destruct H4 as (seg & u & E1 & E2 & Hf & Hw). exists (seg ++ [x]), (u ++ [c]).
    rewrite (drop_S _ _ _ Hc) in E2. rewrite (drop_S _ _ _ Hx) in E1.
    rewrite <- !app_assoc. split_and!; try done.
    apply Forall2_app; [done|]. constructor; [done|constructor].
  - destruct H4 as [H4 Hw]. split; [done|].
    rewrite Hw, (drop_S _ _ _ Hc), (drop_S _ _ _ Hx), matches_char_inv by done. tauto.
Qed.
(** A star: whatever an earlier star could still absorb, this one can. *)
Lemma wm_step_star si pi star mi :
  wm_ok (mkWm si pi star mi) -> (si < length s)%nat -> p !! pi = Some 0x2A ->
  wm_ok (mkWm si (S pi) (Some pi) si).
Proof.
  intros (H1 & H2 & H3 & H4) Hsi Hx. cbn in *. apply lookup_lt_Some in Hx as Hl2.
  split_and!; cbn; try lia. unfold wm_star_ok in *. cbn in *. exists [], [].
  cbn [app]. split_and!; [by apply drop_S|done|constructor|].
  destruct star as [k|]; [|tauto]. destruct H4 as (seg & u & E1 & E2 & Hf & Hw). rewrite Hw.
  rewrite E1, E2, (drop_S _ _ _ Hx). set (rest := drop (S pi) p).
  assert (Hlen : length seg = length u) by (by eapply Forall2_length). split.
  - intros [n Hn]%matches_star. apply matches_segment_inv in Hn as [Hn1 Hn2];
      [|by eapply no_star_in_segment]. rewrite drop_drop in Hn2.
    destruct (le_dec n 0) as [Hz|Hz].
    + replace (n + length seg)%nat with (length u) in Hn2 by lia. by rewrite drop_app_length in Hn2.
    + rewrite drop_app_ge in Hn2 by lia. by eapply matches_star_drop.
  - intros Hr. apply matches_star. exists 0%nat. rewrite drop_0. by apply matches_segment.
Qed.
(** A mismatch after a star: the star absorbs one more byte. *)
Lemma wm_step_retry si pi k mi c :
  wm_ok (mkWm si pi (Some k) mi) -> s !! si = Some c ->
  wm_byte 0x3F p pi || wm_byte c p pi = false -> wm_byte 0x2A p pi = false ->
  wm_ok (mkWm (S mi) (S k) (Some k) (S mi)).
Proof.
  intros (H1 & H2 & H3 & H4) Hc Hn1 Hn2. cbn in *. apply lookup_lt_Some in Hc as Hl.
  destruct H4 as (seg & u & E1 & E2 & Hf & Hw). cbn in *.
  assert (Hk : (k < length p)%nat).
  { apply (f_equal length) in E1. rewrite length_drop in E1. cbn in E1. lia. }
  assert (Hk2 : p !! k = Some 0x2A) by (by rewrite <- (Nat.add_0_r k), <- lookup_drop, E1).
  destruct (lookup_lt_is_Some_2 s mi) as [d Hd]; [lia|].
  split_and!; cbn; try lia. exists [], []. cbn [wm_pi wm_si wm_match app].
  split_and!; [by apply drop_S|done|constructor|]. rewrite Hw, (drop_S _ _ _ Hd).
  rewrite (drop_S _ _ _ Hk2). split; [|by constructor].
  intros [[|n] Hn]%matches_star; [|apply matches_star; by exists n]. exfalso.
  rewrite drop_0 in Hn. rewrite (drop_S _ _ _ Hk2) in E1. rewrite (drop_S _ _ _ Hd) in E2.
  injection E1 as E1. rewrite E1, E2 in Hn. apply matches_segment in Hn; [|done].
  rewrite (drop_S _ _ _ Hc) in Hn. apply orb_false_iff in Hn1 as [Hq Hcc].
  destruct (p !! pi) as [x|] eqn:Hx.
  - rewrite (drop_S _ _ _ Hx) in Hn. unfold wm_byte in *. rewrite Hx in *.
    apply Z.eqb_neq in Hn2, Hq, Hcc. apply matches_char_inv in Hn; [|done]. tauto.
  - rewrite drop_ge in Hn by (by apply lookup_ge_None). inv Hn.
Qed.
(** A mismatch without a star. *)
Lemma wm_step_fail si pi mi c :
  wm_ok (mkWm si pi None mi) -> s !! si = Some c ->
  wm_byte 0x3F p pi || wm_byte c p pi = false -> wm_byte 0x2A p pi = false -> ~ matches p s.
Proof.
  intros (_ & _ & _ & [_ Hw]) Hc [Hq Hcc]%orb_false_iff Hn2. cbn in *. rewrite Hw.
  rewrite (drop_S _ _ _ Hc). intros Hn. destruct (p !! pi) as [x|] eqn:Hx.
  - rewrite (drop_S _ _ _ Hx) in Hn. unfold wm_byte in *. rewrite Hx in *.
    apply Z.eqb_neq in Hn2, Hq, Hcc. apply matches_char_inv in Hn; [|done]. tauto.
  - rewrite drop_ge in Hn by (by apply lookup_ge_None). inv Hn.
Qed.
(** The text is exhausted: the rest of the pattern must be stars. *)
Lemma wm_finish w :
  wm_ok w -> s !! wm_si w = None ->
  matches p s <-> trim_start 0x2A (drop (wm_pi w) p) = [].
Proof.
  intros (H1 & H2 & H3 & H4) Hn. apply lookup_ge_None in Hn.
  rewrite <- matches_nil_spec. unfold wm_star_ok in H4.
  replace (drop (wm_si w) s) with (@nil Z) in H4 by (by rewrite drop_ge).
  destruct (wm_star w) as [k|]; [|tauto]. destruct H4 as (seg & u & E1 & E2 & Hf & Hw).
  rewrite app_nil_r in E2. rewrite Hw, E1, E2.
  assert (Hlen : length seg = length u) by (by eapply Forall2_length). split.
  - intros [n Hm]%matches_star. apply matches_segment_inv in Hm as [Hm1 Hm2];
      [|by eapply no_star_in_segment]. rewrite length_drop in Hm1.
    rewrite drop_drop in Hm2. by rewrite (drop_ge u) in Hm2 by lia.
  - intros Hr. apply matches_star. exists 0%nat. rewrite drop_0, <- (app_nil_r u).
    by apply matches_segment.
Qed.

Lemma wildcard_loop_ok fuel w :
  wm_ok w -> (wm_measure w < fuel)%nat ->
  exists r, wildcard_loop fuel s p w = Some r /\
    match r with
    | None => ~ matches p s
    | Some pi => matches p s <-> trim_start 0x2A (drop pi p) = []
    end.
Proof.
  revert w. induction fuel as [|fuel IH]; intros w Hw Hm; [lia|].
  cbn [wildcard_loop]. destruct (s !! wm_si w) as [c|] eqn:Hc.
  2: { eexists. split; [done|]. by apply wm_finish. }
  destruct w as [si pi star mi]. cbn [wm_si wm_pi wm_star wm_match] in *.
  assert (Hsi := lookup_lt_Some _ _ _ Hc). assert (Hb := Hw).
  destruct Hb as (Hb1 & Hb2 & Hb3 & _). cbn in Hb1, Hb2, Hb3. unfold wm_measure in *.
  cbn [wm_si wm_pi wm_star wm_match] in *.
  destruct (wm_byte 0x3F p pi || wm_byte c p pi) eqn:E1.
  - assert (Hx : exists x, p !! pi = Some x /\ (x = 0x3F \/ x = c)).
    { apply orb_true_iff in E1 as [E1 | E1]; apply wm_byte_spec in E1; eauto. }
    destruct Hx as (x & Hx & Hxc). apply IH; [by eapply wm_step_char|].
    apply lookup_lt_Some in Hx. cbn [wm_si wm_pi wm_match]. lia.
  - destruct (wm_byte 0x2A p pi) eqn:E2.
    + apply wm_byte_spec in E2. apply IH; [by eapply wm_step_star|].
      apply lookup_lt_Some in E2. cbn [wm_si wm_pi wm_match]. nia.
    + destruct star as [k|].
      * apply IH; [by eapply wm_step_retry|]. cbn [wm_si wm_pi wm_match]. nia.
      * eexists. split; [done|]. by eapply wm_step_fail.
Qed.
End matcher.

Lemma wildcard_match_spec s p :
  0x2A ∉ s -> exists b, wildcard_match s p = Some b /\ (b = true <-> matches p s).
Proof.
  intros Hs.
  destruct (wildcard_loop_ok s p Hs (wildcard_fuel s p) (mkWm 0 0 None 0)) as (r & E & Hr).
  - unfold wm_ok, wm_star_ok. cbn. rewrite !drop_0. split_and!; try lia; done.
  - unfold wm_measure, wildcard_fuel. cbn. lia.
  - unfold wildcard_match. rewrite E. destruct r as [pi|].
    + eexists. split; [done|]. by rewrite str_eqb_spec, Hr.
    + exists false. by split.
Qed.
Lemma wildcard_match_total s p : 0x2A ∉ s -> exists b, wildcard_match s p = Some b.
Proof. intros Hs. destruct (wildcard_match_spec s p Hs) as (b & ? & _). by exists b. Qed.

(** C32: the directory-pattern matcher returns for every name and pattern, and accepts exactly
    the names the pattern stands for (a star any string, a question mark any byte), however
    many stars it has to try again; names on the volume contain no star. *)
Theorem fs_wildcard_spec s p :
  0x2A ∉ s -> exists b, wildcard_match s p = Some b /\ (b = true <-> matches p s).
Proof. apply wildcard_match_spec. Qed.
Lemma fs_wildcard_spec_witness :
  wildcard_match [0x61; 0x62; 0x61; 0x2E; 0x74] [0x2A; 0x61; 0x2E; 0x3F] = Some true
  /\ matches [0x2A; 0x61; 0x2E; 0x3F] [0x61; 0x62; 0x61; 0x2E; 0x74].
Proof.
  split; [by vm_compute|].
  destruct (fs_wildcard_spec [0x61; 0x62; 0x61; 0x2E; 0x74] [0x2A; 0x61; 0x2E; 0x3F])
    as (b & Hb & Hm); [set_solver|].
  apply Hm. by vm_compute in Hb; injection Hb as <-.
Defined.
