(* ===== verification/FsServer.v ===== *)
(** The file server: the model of [FileServer] in
    [src/isobus/fs/server/server_state_and_models.rs] and
    [src/isobus/fs/server/server_file_operations.rs].

    A handler takes the server and returns it with the response; [None] is a panic.  The
    events the server fires are appended to [fs_trace]. *)
From S2P Require Export FsPath.

Definition READ_FILE_REQUEST_LEN : nat := 8.
Definition SEEK_FILE_REQUEST_LEN : nat := 8.
Definition SEEK_MODE_FROM_START : Z := 0.
Definition SEEK_MODE_FROM_CURRENT : Z := 1.
Definition SEEK_MODE_FROM_END : Z := 2.
Definition VOLUME_MODE_MAINTAIN : Z := 0x01.
Definition VOLUME_MODE_PREPARE_REMOVAL : Z := 0x02.
Definition VOLUME_MODE_RESERVED_MASK : Z := not_u 8 0x03.
Definition VOLUME_STATUS_ERROR : Z := 0xFF.

(** ** State *)

Record ServerClientConnection : Type := mkConn {
  sc_client_address : Address;
  sc_ccm_seen : bool;
  sc_last_ccm_timestamp_ms : Z;
  sc_current_directory : list Z;
  sc_open_handles : list Z;
  sc_tan_cache : BTreeMap.t Z TANResponse
}.
Definition ServerClientConnection_new (addr : Address) : ServerClientConnection :=
  mkConn addr false 0 root [] [].
Definition is_connected (c : ServerClientConnection) (current_time_ms timeout_ms : Z) : bool :=
  sat_sub current_time_ms (sc_last_ccm_timestamp_ms c) <=? timeout_ms.
Definition has_active_ccm_connection (c : ServerClientConnection) (current_time_ms timeout_ms : Z)
    : bool :=
  sc_ccm_seen c && is_connected c current_time_ms timeout_ms.
Definition update_ccm (current_time_ms : Z) (c : ServerClientConnection) :=
  mkConn (sc_client_address c) true current_time_ms (sc_current_directory c) (sc_open_handles c)
    (sc_tan_cache c).
Definition with_current_directory (x : list Z) (c : ServerClientConnection) :=
  mkConn (sc_client_address c) (sc_ccm_seen c) (sc_last_ccm_timestamp_ms c) x (sc_open_handles c)
    (sc_tan_cache c).
Definition with_open_handles (x : list Z) (c : ServerClientConnection) :=
  mkConn (sc_client_address c) (sc_ccm_seen c) (sc_last_ccm_timestamp_ms c)
    (sc_current_directory c) x (sc_tan_cache c).
Definition with_tan_cache (x : BTreeMap.t Z TANResponse) (c : ServerClientConnection) :=
  mkConn (sc_client_address c) (sc_ccm_seen c) (sc_last_ccm_timestamp_ms c)
    (sc_current_directory c) (sc_open_handles c) x.

Record OpenFile : Type := mkOpen {
  of_handle : Z;
  of_owner : Address;
  of_path : list Z;
  of_position : Z;
  of_flags : Z;
  of_is_directory : bool;
  of_directory_pattern : list Z
}.
Definition of_with_position (x : Z) (f : OpenFile) : OpenFile :=
  mkOpen (of_handle f) (of_owner f) (of_path f) x (of_flags f) (of_is_directory f)
    (of_directory_pattern f).

Record FileServerConfig : Type := mkFsConfig {
  fsc_status_broadcast_interval_ms : Z;
  fsc_busy_status_interval_ms : Z;
  fsc_ccm_timeout_ms : Z;
  fsc_tan_cache_timeout_ms : Z;
  fsc_max_open_files_per_client : Z;
  fsc_max_open_files_total : Z;
  fsc_supports_directories : bool;
  fsc_supports_file_attributes : bool;
  fsc_supports_move_file : bool;
  fsc_supports_delete_file : bool;
  fsc_supports_volume_management : bool
}.
Definition FileServerConfig_default : FileServerConfig :=
  mkFsConfig 2000 200 6000 10000 8 32 true true true true true.

Record FSOutbound : Type := mkFsOut {
  fso_pgn : Pgn;
  fso_data : list Z;
  fso_dest : option Address
}.
Definition broadcast (data : list Z) : FSOutbound := mkFsOut PGN_FILE_SERVER_TO_CLIENT data None.
Definition to (data : list Z) (dest : Address) : FSOutbound :=
  mkFsOut PGN_FILE_SERVER_TO_CLIENT data (Some dest).

Inductive FsEvent : Type :=
| FsClientConnected (a : Address)
| FsClientDisconnected (a : Address)
| FsFileOpened (a : Address) (path : list Z)
| FsFileClosed (a : Address) (handle : Z)
| FsVolumePreparingForRemoval
| FsVolumeRemoved
| FsVolumePresent.

Record FileServer : Type := mkFs {
  fs_config : FileServerConfig;
  fs_files : BTreeMap.t (list Z) (list Z);
  fs_file_attrs : BTreeMap.t (list Z) Z;
  fs_file_date_times : BTreeMap.t (list Z) (Z * Z);
  fs_directories : list (list Z);
  fs_open_files : list OpenFile;
  fs_next_handle : Z;
  fs_clients : BTreeMap.t Z ServerClientConnection;
  fs_busy_reading : bool;
  fs_busy_writing : bool;
  fs_status_timer_ms : Z;
  fs_current_time_ms : Z;
  fs_volume_state : StateMachine.t VolumeState.t;
  fs_volume_name : list Z;
  fs_volume_removal_timer_ms : Z;
  fs_volume_max_removal_time_ms : Z;
  fs_volume_maintain_requests : list Address;
  fs_volume_capacity_bytes : Z;
  fs_properties : FileServerProperties;
  fs_trace : list FsEvent
}.
Definition with_files (x : BTreeMap.t (list Z) (list Z)) (s : FileServer) : FileServer :=
  mkFs (fs_config s) x (fs_file_attrs s) (fs_file_date_times s) (fs_directories s)
    (fs_open_files s) (fs_next_handle s) (fs_clients s) (fs_busy_reading s) (fs_busy_writing s)
    (fs_status_timer_ms s) (fs_current_time_ms s) (fs_volume_state s) (fs_volume_name s)
    (fs_volume_removal_timer_ms s) (fs_volume_max_removal_time_ms s)
    (fs_volume_maintain_requests s) (fs_volume_capacity_bytes s) (fs_properties s) (fs_trace s).
Definition with_file_attrs (x : BTreeMap.t (list Z) Z) (s : FileServer) : FileServer :=
  mkFs (fs_config s) (fs_files s) x (fs_file_date_times s) (fs_directories s) (fs_open_files s)
    (fs_next_handle s) (fs_clients s) (fs_busy_reading s) (fs_busy_writing s)
    (fs_status_timer_ms s) (fs_current_time_ms s) (fs_volume_state s) (fs_volume_name s)
    (fs_volume_removal_timer_ms s) (fs_volume_max_removal_time_ms s)
    (fs_volume_maintain_requests s) (fs_volume_capacity_bytes s) (fs_properties s) (fs_trace s).
Definition with_file_date_times (x : BTreeMap.t (list Z) (Z * Z)) (s : FileServer) : FileServer :=
  mkFs (fs_config s) (fs_files s) (fs_file_attrs s) x (fs_directories s) (fs_open_files s)
    (fs_next_handle s) (fs_clients s) (fs_busy_reading s) (fs_busy_writing s)
    (fs_status_timer_ms s) (fs_current_time_ms s) (fs_volume_state s) (fs_volume_name s)
    (fs_volume_removal_timer_ms s) (fs_volume_max_removal_time_ms s)
    (fs_volume_maintain_requests s) (fs_volume_capacity_bytes s) (fs_properties s) (fs_trace s).
Definition with_directories (x : list (list Z)) (s : FileServer) : FileServer :=
  mkFs (fs_config s) (fs_files s) (fs_file_attrs s) (fs_file_date_times s) x (fs_open_files s)
    (fs_next_handle s) (fs_clients s) (fs_busy_reading s) (fs_busy_writing s)
    (fs_status_timer_ms s) (fs_current_time_ms s) (fs_volume_state s) (fs_volume_name s)
    (fs_volume_removal_timer_ms s) (fs_volume_max_removal_time_ms s)
    (fs_volume_maintain_requests s) (fs_volume_capacity_bytes s) (fs_properties s) (fs_trace s).
Definition with_open_files (x : list OpenFile) (s : FileServer) : FileServer :=
  mkFs (fs_config s) (fs_files s) (fs_file_attrs s) (fs_file_date_times s) (fs_directories s) x
    (fs_next_handle s) (fs_clients s) (fs_busy_reading s) (fs_busy_writing s)
    (fs_status_timer_ms s) (fs_current_time_ms s) (fs_volume_state s) (fs_volume_name s)
    (fs_volume_removal_timer_ms s) (fs_volume_max_removal_time_ms s)
    (fs_volume_maintain_requests s) (fs_volume_capacity_bytes s) (fs_properties s) (fs_trace s).
Definition with_next_handle (x : Z) (s : FileServer) : FileServer :=
  mkFs (fs_config s) (fs_files s) (fs_file_attrs s) (fs_file_date_times s) (fs_directories s)
    (fs_open_files s) x (fs_clients s) (fs_busy_reading s) (fs_busy_writing s)
    (fs_status_timer_ms s) (fs_current_time_ms s) (fs_volume_state s) (fs_volume_name s)
    (fs_volume_removal_timer_ms s) (fs_volume_max_removal_time_ms s)
    (fs_volume_maintain_requests s) (fs_volume_capacity_bytes s) (fs_properties s) (fs_trace s).
Definition with_clients (x : BTreeMap.t Z ServerClientConnection) (s : FileServer) : FileServer :=
  mkFs (fs_config s) (fs_files s) (fs_file_attrs s) (fs_file_date_times s) (fs_directories s)
    (fs_open_files s) (fs_next_handle s) x (fs_busy_reading s) (fs_busy_writing s)
    (fs_status_timer_ms s) (fs_current_time_ms s) (fs_volume_state s) (fs_volume_name s)
    (fs_volume_removal_timer_ms s) (fs_volume_max_removal_time_ms s)
    (fs_volume_maintain_requests s) (fs_volume_capacity_bytes s) (fs_properties s) (fs_trace s).
Definition with_busy_reading (x : bool) (s : FileServer) : FileServer :=
  mkFs (fs_config s) (fs_files s) (fs_file_attrs s) (fs_file_date_times s) (fs_directories s)
    (fs_open_files s) (fs_next_handle s) (fs_clients s) x (fs_busy_writing s)
    (fs_status_timer_ms s) (fs_current_time_ms s) (fs_volume_state s) (fs_volume_name s)
    (fs_volume_removal_timer_ms s) (fs_volume_max_removal_time_ms s)
    (fs_volume_maintain_requests s) (fs_volume_capacity_bytes s) (fs_properties s) (fs_trace s).
Definition with_busy_writing (x : bool) (s : FileServer) : FileServer :=
  mkFs (fs_config s) (fs_files s) (fs_file_attrs s) (fs_file_date_times s) (fs_directories s)
    (fs_open_files s) (fs_next_handle s) (fs_clients s) (fs_busy_reading s) x
    (fs_status_timer_ms s) (fs_current_time_ms s) (fs_volume_state s) (fs_volume_name s)
    (fs_volume_removal_timer_ms s) (fs_volume_max_removal_time_ms s)
    (fs_volume_maintain_requests s) (fs_volume_capacity_bytes s) (fs_properties s) (fs_trace s).
Definition with_status_timer_ms (x : Z) (s : FileServer) : FileServer :=
  mkFs (fs_config s) (fs_files s) (fs_file_attrs s) (fs_file_date_times s) (fs_directories s)
    (fs_open_files s) (fs_next_handle s) (fs_clients s) (fs_busy_reading s) (fs_busy_writing s)
    x (fs_current_time_ms s) (fs_volume_state s) (fs_volume_name s)
    (fs_volume_removal_timer_ms s) (fs_volume_max_removal_time_ms s)
    (fs_volume_maintain_requests s) (fs_volume_capacity_bytes s) (fs_properties s) (fs_trace s).
Definition with_current_time_ms (x : Z) (s : FileServer) : FileServer :=
  mkFs (fs_config s) (fs_files s) (fs_file_attrs s) (fs_file_date_times s) (fs_directories s)
    (fs_open_files s) (fs_next_handle s) (fs_clients s) (fs_busy_reading s) (fs_busy_writing s)
    (fs_status_timer_ms s) x (fs_volume_state s) (fs_volume_name s)
    (fs_volume_removal_timer_ms s) (fs_volume_max_removal_time_ms s)
    (fs_volume_maintain_requests s) (fs_volume_capacity_bytes s) (fs_properties s) (fs_trace s).
Definition with_volume_state (x : StateMachine.t VolumeState.t) (s : FileServer) : FileServer :=
  mkFs (fs_config s) (fs_files s) (fs_file_attrs s) (fs_file_date_times s) (fs_directories s)
    (fs_open_files s) (fs_next_handle s) (fs_clients s) (fs_busy_reading s) (fs_busy_writing s)
    (fs_status_timer_ms s) (fs_current_time_ms s) x (fs_volume_name s)
    (fs_volume_removal_timer_ms s) (fs_volume_max_removal_time_ms s)
    (fs_volume_maintain_requests s) (fs_volume_capacity_bytes s) (fs_properties s) (fs_trace s).
Definition with_volume_name (x : list Z) (s : FileServer) : FileServer :=
  mkFs (fs_config s) (fs_files s) (fs_file_attrs s) (fs_file_date_times s) (fs_directories s)
    (fs_open_files s) (fs_next_handle s) (fs_clients s) (fs_busy_reading s) (fs_busy_writing s)
    (fs_status_timer_ms s) (fs_current_time_ms s) (fs_volume_state s) x
    (fs_volume_removal_timer_ms s) (fs_volume_max_removal_time_ms s)
    (fs_volume_maintain_requests s) (fs_volume_capacity_bytes s) (fs_properties s) (fs_trace s).
Definition with_volume_removal_timer_ms (x : Z) (s : FileServer) : FileServer :=
  mkFs (fs_config s) (fs_files s) (fs_file_attrs s) (fs_file_date_times s) (fs_directories s)
    (fs_open_files s) (fs_next_handle s) (fs_clients s) (fs_busy_reading s) (fs_busy_writing s)
    (fs_status_timer_ms s) (fs_current_time_ms s) (fs_volume_state s) (fs_volume_name s) x
    (fs_volume_max_removal_time_ms s) (fs_volume_maintain_requests s)
    (fs_volume_capacity_bytes s) (fs_properties s) (fs_trace s).
Definition with_volume_maintain_requests (x : list Address) (s : FileServer) : FileServer :=
  mkFs (fs_config s) (fs_files s) (fs_file_attrs s) (fs_file_date_times s) (fs_directories s)
    (fs_open_files s) (fs_next_handle s) (fs_clients s) (fs_busy_reading s) (fs_busy_writing s)
    (fs_status_timer_ms s) (fs_current_time_ms s) (fs_volume_state s) (fs_volume_name s)
    (fs_volume_removal_timer_ms s) (fs_volume_max_removal_time_ms s) x
    (fs_volume_capacity_bytes s) (fs_properties s) (fs_trace s).
Definition with_volume_capacity_bytes (x : Z) (s : FileServer) : FileServer :=
  mkFs (fs_config s) (fs_files s) (fs_file_attrs s) (fs_file_date_times s) (fs_directories s)
    (fs_open_files s) (fs_next_handle s) (fs_clients s) (fs_busy_reading s) (fs_busy_writing s)
    (fs_status_timer_ms s) (fs_current_time_ms s) (fs_volume_state s) (fs_volume_name s)
    (fs_volume_removal_timer_ms s) (fs_volume_max_removal_time_ms s)
    (fs_volume_maintain_requests s) x (fs_properties s) (fs_trace s).
Definition with_properties (x : FileServerProperties) (s : FileServer) : FileServer :=
  mkFs (fs_config s) (fs_files s) (fs_file_attrs s) (fs_file_date_times s) (fs_directories s)
    (fs_open_files s) (fs_next_handle s) (fs_clients s) (fs_busy_reading s) (fs_busy_writing s)
    (fs_status_timer_ms s) (fs_current_time_ms s) (fs_volume_state s) (fs_volume_name s)
    (fs_volume_removal_timer_ms s) (fs_volume_max_removal_time_ms s)
    (fs_volume_maintain_requests s) (fs_volume_capacity_bytes s) x (fs_trace s).
Definition with_trace (x : list FsEvent) (s : FileServer) : FileServer :=
  mkFs (fs_config s) (fs_files s) (fs_file_attrs s) (fs_file_date_times s) (fs_directories s)
    (fs_open_files s) (fs_next_handle s) (fs_clients s) (fs_busy_reading s) (fs_busy_writing s)
    (fs_status_timer_ms s) (fs_current_time_ms s) (fs_volume_state s) (fs_volume_name s)
    (fs_volume_removal_timer_ms s) (fs_volume_max_removal_time_ms s)
    (fs_volume_maintain_requests s) (fs_volume_capacity_bytes s) (fs_properties s) x.
Definition fs_emit (e : FsEvent) (s : FileServer) : FileServer := with_trace (fs_trace s ++ [e]) s.

(** "ISOBUS". *)
Definition default_volume_name : list Z := [0x49; 0x53; 0x4F; 0x42; 0x55; 0x53].
Definition clamped (c : FileServerConfig) : FileServerConfig :=
  mkFsConfig (fsc_status_broadcast_interval_ms c) (fsc_busy_status_interval_ms c)
    (fsc_ccm_timeout_ms c) (fsc_tan_cache_timeout_ms c)
    (Z.min (fsc_max_open_files_per_client c) FS_SUPPORTED_COUNT_MAX)
    (Z.min (fsc_max_open_files_total c) FS_SUPPORTED_COUNT_MAX) (fsc_supports_directories c)
    (fsc_supports_file_attributes c) (fsc_supports_move_file c) (fsc_supports_delete_file c)
    (fsc_supports_volume_management c).
Definition FileServer_new (config : FileServerConfig) : FileServer :=
  let config := clamped config in
  let d := FileServerProperties_default in
  let props :=
    normalized_for_wire
      (mkProps (version_number d) (fsc_max_open_files_total config) (supports_multiple_volumes d)
         (supports_removable_volumes d)) in
  mkFs config [] [] [] [root] [] 1 [] false false 0 0 (StateMachine.mk VolumeState.Present)
    default_volume_name 0 10000 [] (64 * 1024 * 1024) props [].

Definition get_volume_state (s : FileServer) : VolumeState.t := StateMachine.state (fs_volume_state s).
Definition volume_transition (x : VolumeState.t) (s : FileServer) : FileServer :=
  with_volume_state (StateMachine.transition (fs_volume_state s) x).1 s.
Definition update_client (a : Address) (f : ServerClientConnection -> ServerClientConnection)
    (s : FileServer) : FileServer :=
  with_clients (BTreeMap.update a f (fs_clients s)) s.
(** [clients.entry(a).or_insert_with(|| ServerClientConnection::new(a))]. *)
Definition ensure_client (a : Address) (s : FileServer) : FileServer :=
  with_clients (BTreeMap.or_insert a (ServerClientConnection_new a) (fs_clients s)) s.

(** ** Files and directories *)

Definition add_file (path data : list Z) (attrs : Z) (s : FileServer)
    : FileServer * Result unit Error.t :=
  match normalize_preloaded_file_path path with
  | Err e => (s, Err e)
  | Ok path =>
      let s := with_files (BTreeMap.insert path data (fs_files s)) s in
      let s := with_file_attrs (BTreeMap.insert path attrs (fs_file_attrs s)) s in
      let s := with_file_date_times
                 (BTreeMap.insert path default_file_date_time (fs_file_date_times s)) s in
      (s, Ok tt)
  end.
Definition used_bytes (s : FileServer) : Z :=
  foldr (fun d n => Z.of_nat (length d) + n) 0 (BTreeMap.values (fs_files s)).
Definition free_bytes (s : FileServer) : Z := sat_sub (fs_volume_capacity_bytes s) (used_bytes s).
Definition remove_file (path : list Z) (s : FileServer) : FileServer * bool :=
  match normalize_preloaded_file_path path with
  | Err _ => (s, false)
  | Ok path =>
      let removed := BTreeMap.contains_key path (fs_files s) in
      let s := with_files (BTreeMap.remove path (fs_files s)) s in
      let s := with_file_attrs (BTreeMap.remove path (fs_file_attrs s)) s in
      let s := with_file_date_times (BTreeMap.remove path (fs_file_date_times s)) s in
      (s, removed)
  end.
Definition has_directory (d : list Z) (s : FileServer) : bool :=
  existsb (str_eqb d) (fs_directories s).
Definition add_directory (path : list Z) (s : FileServer) : FileServer * Result unit Error.t :=
  match normalize_directory_path path root with
  | Err e => (s, Err e)
  | Ok p =>
      let s := if has_directory p s then s else with_directories (fs_directories s ++ [p]) s in
      (with_file_date_times
         (BTreeMap.or_insert p default_file_date_time (fs_file_date_times s)) s, Ok tt)
  end.
Definition set_file_date_time (path : list Z) (date time : Z) (s : FileServer)
    : FileServer * Result unit Error.t :=
  if negb (dos_date_time_is_supported date time) then
    (s, Err (Error.invalid_data "FileServer: DOS file date/time contains out-of-range fields"))
  else
    let set p := with_file_date_times (BTreeMap.insert p (date, time) (fs_file_date_times s)) s in
    let file :=
      p ← result_ok (normalize_preloaded_file_path path);
      if BTreeMap.contains_key p (fs_files s) then Some p else None in
    let directory :=
      p ← result_ok (normalize_directory_path path root);
      if has_directory p s then Some p else None in
    match file, directory with
    | Some p, _ => (set p, Ok tt)
    | None, Some p => (set p, Ok tt)
    | None, None =>
        (s, Err (Error.invalid_data
                   "FileServer: date/time path must name an existing file or directory"))
    end.
Definition directory_exists (path : list Z) (s : FileServer) : bool :=
  match normalize_directory_path path root with
  | Err _ => false
  | Ok path => has_directory path s
  end.
Definition file_date_time (path : list Z) (s : FileServer) : Z * Z :=
  default default_file_date_time (BTreeMap.get path (fs_file_date_times s)).
Definition touch_file_date_time (path : list Z) (s : FileServer) : FileServer :=
  with_file_date_times (BTreeMap.insert path default_file_date_time (fs_file_date_times s)) s.

(** [pattern != "*" && !wildcard_match(name, pattern)]; [None] is an exhausted fuel. *)
Definition pattern_skips (name pattern : list Z) : option bool :=
  if str_eqb pattern [0x2A] then Some false else negb <$> wildcard_match name pattern.
Definition list_file (path pattern : list Z) (s : FileServer) (file : list Z * list Z)
    : option (list FileEntry) :=
  match strip_prefix path file.1 with
  | None => Some []
  | Some filename =>
      if str_eqb filename [] || contains bs filename then Some []
      else
        skip ← pattern_skips filename pattern;
        if (skip : bool) then Some []
        else Some [mkEntry filename (fs_file_size_to_wire (length file.2))
                     (default 0 (BTreeMap.get file.1 (fs_file_attrs s)))
                     (file_date_time file.1 s).1 (file_date_time file.1 s).2]
  end.
Definition list_subdirectory (path pattern : list Z) (s : FileServer) (dir : list Z)
    : option (list FileEntry) :=
  if str_eqb dir path then Some []
  else
    match strip_prefix path dir with
    | None => Some []
    | Some subdir =>
        if str_eqb subdir [] then Some []
        else if match find_byte bs subdir with
                | Some idx => (idx <? length subdir - 1)%nat
                | None => false
                end then Some []
        else
          skip ← pattern_skips subdir pattern;
          if (skip : bool) then Some []
          else Some [mkEntry subdir 0 (FileAttributes.bit FileAttributes.Directory)
                       (file_date_time dir s).1 (file_date_time dir s).2]
    end.
Definition list_directory (path pattern : list Z) (s : FileServer) : option (list FileEntry) :=
  match normalize_directory_path path root with
  | Err _ => Some []
  | Ok path =>
      files ← mapM (list_file path pattern s) (fs_files s);
      directories ← mapM (list_subdirectory path pattern s) (fs_directories s);
      Some (concat files ++ concat directories)
  end.

Definition is_path_open (path : list Z) (s : FileServer) : bool :=
  existsb (fun f => str_eqb (of_path f) path) (fs_open_files s).
Definition open_file_access_conflicts (path : list Z) (requested_flags : Z) (s : FileServer) : bool :=
  let requested_writes := open_mode_writes requested_flags in
  existsb (fun f => negb (of_is_directory f) && str_eqb (of_path f) path
                    && (requested_writes || open_mode_writes (of_flags f))) (fs_open_files s).
Definition is_file_path_directory (path : list Z) (s : FileServer) : bool :=
  str_eqb path root || has_directory (ensure_directory_suffix path) s.
Definition file_exists_at_directory_path (directory_path : list Z) (s : FileServer) : bool :=
  if str_eqb directory_path root then false
  else BTreeMap.contains_key (trim_end bs directory_path) (fs_files s).

(** ** Volume, properties, status *)

Definition set_properties (p : FileServerProperties) (s : FileServer) : FileServer :=
  with_properties (normalized_for_wire p) s.
Definition set_volume_capacity_bytes (bytes : Z) (s : FileServer) : FileServer :=
  with_volume_capacity_bytes bytes s.
Definition set_busy_reading (b : bool) (s : FileServer) : FileServer := with_busy_reading b s.
Definition set_busy_writing (b : bool) (s : FileServer) : FileServer := with_busy_writing b s.
Definition is_busy (s : FileServer) : bool := fs_busy_reading s || fs_busy_writing s.
Definition set_volume_name (name : list Z) (s : FileServer) : FileServer * Result unit Error.t :=
  if negb (is_valid_volume_name name) then
    (s, Err (Error.invalid_data "FileServer: volume_name must be 1..=255 bytes and contain no path separators, wildcards, quotes, control characters, or reserved DOS punctuation"))
  else (with_volume_name name s, Ok tt).

Definition clear_all_open_handles (s : FileServer) : FileServer :=
  with_clients (BTreeMap.map_values (with_open_handles []) (fs_clients s)) (with_open_files [] s).
Definition clear_media_dependent_client_state (s : FileServer) : FileServer :=
  with_clients
    (BTreeMap.map_values (fun c => with_current_directory root (with_open_handles [] c))
       (fs_clients s)) (with_open_files [] s).

Definition effective_volume_state (s : FileServer) : VolumeState.t :=
  match get_volume_state s with
  | VolumeState.Removed => VolumeState.Removed
  | VolumeState.PreparingForRemoval => VolumeState.PreparingForRemoval
  | _ =>
      if bool_decide (fs_open_files s <> []) || bool_decide (fs_volume_maintain_requests s <> [])
      then VolumeState.InUse else VolumeState.Present
  end.
Definition volume_status_path_matches (path : list Z) (s : FileServer) : bool :=
  str_eqb path [] || str_eqb path root || str_eqb path (fs_volume_name s).
Definition volume_max_removal_time_minutes (s : FileServer) : Z :=
  Z.min (div_ceil (fs_volume_max_removal_time_ms s) 60000) 250.
Definition encode_volume_status_response (tan : Z) (state : VolumeState.t) (s : FileServer)
    : list Z :=
  FSFunction.as_u8 FSFunction.VolumeStatus :: tan :: VolumeState.as_u8 state
  :: volume_max_removal_time_minutes s
  :: Name.to_le_bytes 2 (wrap 16 (Z.of_nat (length (fs_volume_name s)))) ++ fs_volume_name s.
Definition encode_volume_status_error_response (tan : Z) (s : FileServer) : list Z :=
  <[2%nat := VOLUME_STATUS_ERROR]> (encode_volume_status_response tan (effective_volume_state s) s).
Definition broadcast_status (s : FileServer) : FSOutbound :=
  broadcast (status_encode (mkStatus (fs_busy_reading s) (fs_busy_writing s)
                              (wrap 8 (Z.of_nat (length (fs_open_files s)))))).
Definition broadcast_volume_status (s : FileServer) : FSOutbound :=
  broadcast (encode_volume_status_response INVALID_TAN (effective_volume_state s) s).

Definition prepare_volume_for_removal (s : FileServer) : FileServer * list FSOutbound :=
  match get_volume_state s with
  | VolumeState.Present | VolumeState.InUse =>
      let s := volume_transition VolumeState.PreparingForRemoval s in
      let s := with_volume_removal_timer_ms 0 s in
      let s := with_volume_maintain_requests [] s in
      let s := fs_emit FsVolumePreparingForRemoval s in
      (s, [broadcast_volume_status s])
  | _ => (s, [])
  end.
Definition receive_volume_maintain_request (client : Address) (s : FileServer) : FileServer :=
  if bool_decide (get_volume_state s <> VolumeState.PreparingForRemoval) then s
  else if bool_decide (client ∈ fs_volume_maintain_requests s) then s
  else with_volume_maintain_requests (fs_volume_maintain_requests s ++ [client]) s.
Definition clear_volume_maintain_request (client : Address) (s : FileServer) : FileServer :=
  with_volume_maintain_requests
    (filter (fun a => a <> client) (fs_volume_maintain_requests s)) s.
(** The volume is gone: the transition, the cleared clients and the event. *)
Definition volume_removed (s : FileServer) : FileServer :=
  fs_emit FsVolumeRemoved
    (clear_media_dependent_client_state (volume_transition VolumeState.Removed s)).
Definition set_volume_removed (s : FileServer) : FileServer * list FSOutbound :=
  let s := volume_removed s in (s, [broadcast_volume_status s]).
Definition reinsert_volume (s : FileServer) : FileServer * option FSOutbound :=
  if bool_decide (get_volume_state s <> VolumeState.Removed) then (s, None)
  else
    let s := fs_emit FsVolumePresent (volume_transition VolumeState.Present s) in
    (s, Some (broadcast_volume_status s)).

(** ** Update *)

Definition update_volume_state_machine (elapsed_ms : Z) (s : FileServer)
    : FileServer * option FSOutbound :=
  match get_volume_state s with
  | VolumeState.Present =>
      (if bool_decide (fs_open_files s <> []) then volume_transition VolumeState.InUse s else s, None)
  | VolumeState.InUse =>
      (if bool_decide (fs_open_files s = []) then volume_transition VolumeState.Present s else s, None)
  | VolumeState.PreparingForRemoval =>
      let s := with_volume_removal_timer_ms
                 (sat_add 32 (fs_volume_removal_timer_ms s) elapsed_ms) s in
      let all_closed := bool_decide (fs_open_files s = []) in
      let no_maintain := bool_decide (fs_volume_maintain_requests s = []) in
      let timeout := fs_volume_max_removal_time_ms s <=? fs_volume_removal_timer_ms s in
      if (all_closed && no_maintain) || timeout then
        let s := volume_removed s in (s, Some (broadcast_volume_status s))
      else (s, None)
  | VolumeState.Removed => (s, None)
  end.
Definition cleanup_expired_tan_cache (s : FileServer) : FileServer :=
  let now := fs_current_time_ms s in
  let timeout := fsc_tan_cache_timeout_ms (fs_config s) in
  with_clients
    (BTreeMap.map_values
       (fun c => with_tan_cache
                   (BTreeMap.retain (fun _ v => negb (is_expired v now timeout)) (sc_tan_cache c)) c)
       (fs_clients s)) s.
Definition remove_client (s : FileServer) (addr : Address) : FileServer :=
  let s := with_open_files (filter (fun f => of_owner f <> addr) (fs_open_files s)) s in
  let was_connected :=
    match BTreeMap.get addr (fs_clients s) with Some c => sc_ccm_seen c | None => false end in
  let s := with_clients (BTreeMap.remove addr (fs_clients s)) s in
  if was_connected then fs_emit (FsClientDisconnected addr) s else s.
Definition cleanup_disconnected_clients (s : FileServer) : FileServer :=
  let now := fs_current_time_ms s in
  let timeout := fsc_ccm_timeout_ms (fs_config s) in
  let to_remove :=
    BTreeMap.keys (BTreeMap.retain (fun _ c => negb (is_connected c now timeout)) (fs_clients s)) in
  foldl remove_client s to_remove.
Definition update (elapsed_ms : Z) (s : FileServer) : FileServer * list FSOutbound :=
  let s := with_current_time_ms (sat_add 32 (fs_current_time_ms s) elapsed_ms) s in
  let '(s, frame) := update_volume_state_machine elapsed_ms s in
  let out := match frame with Some frame => [frame] | None => [] end in
  let s := cleanup_expired_tan_cache s in
  let s := cleanup_disconnected_clients s in
  let s := with_status_timer_ms (sat_add 32 (fs_status_timer_ms s) elapsed_ms) s in
  let interval :=
    if is_busy s then fsc_busy_status_interval_ms (fs_config s)
    else fsc_status_broadcast_interval_ms (fs_config s) in
  if interval <=? fs_status_timer_ms s then
    let s := with_status_timer_ms 0 s in (s, out ++ [broadcast_status s])
  else (s, out).

(** ** Requests *)

(** [return encode_error_response(function.as_u8(), tan, error)]. *)
Definition refuse (function : FSFunction.t) (tan : Z) (error : FSError.t) (s : FileServer)
    : option (FileServer * list Z) :=
  Some (s, encode_error_response (FSFunction.as_u8 function) tan error).
Definition succeed (function : FSFunction.t) (tan : Z) (s : FileServer)
    : option (FileServer * list Z) := Some (s, success_response function tan).
(** [reject_if_volume_removed]. *)
Definition media_present (function : FSFunction.t) (tan : Z) (s : FileServer)
    (k : option (FileServer * list Z)) : option (FileServer * list Z) :=
  if bool_decide (get_volume_state s = VolumeState.Removed)
  then refuse function tan FSError.MediaNotPresent s else k.
Definition cwd (client : Address) (s : FileServer) : list Z :=
  match BTreeMap.get client (fs_clients s) with
  | Some conn => sc_current_directory conn
  | None => root
  end.
Definition owns (handle : Z) (client : Address) (f : OpenFile) : bool :=
  (of_handle f =? handle) && (of_owner f =? client).

Fixpoint allocate_handle_loop (n : nat) (s : FileServer) : FileServer * Z :=
  match n with
  | O => (s, INVALID_FILE_HANDLE)
  | S n =>
      let candidate := fs_next_handle s in
      let next := wrap 8 (fs_next_handle s + 1) in
      let next := if (next =? 0) || (next =? INVALID_FILE_HANDLE) then 1 else next in
      let s := with_next_handle next s in
      if negb (candidate =? INVALID_FILE_HANDLE) && negb (candidate =? RESERVED_FILE_HANDLE_0)
         && negb (existsb (fun f => of_handle f =? candidate) (fs_open_files s))
      then (s, candidate)
      else allocate_handle_loop n s
  end.
Definition allocate_handle (s : FileServer) : FileServer * Z := allocate_handle_loop 255 s.

(** The end of [handle_open_file]: position, handle, and the open file. *)
Definition open_handle (client : Address) (tan flags : Z) (is_dir_listing : bool)
    (path directory_pattern : list Z) (s : FileServer) : option (FileServer * list Z) :=
  let initial_position :=
    if negb is_dir_listing && has_flag flags OpenFlags.Append then
      (fun data : list Z => fs_file_size_to_wire (length data)) <$> BTreeMap.get path (fs_files s)
    else Some 0 in
  match initial_position with
  | None => refuse FSFunction.OpenFile tan FSError.NotFound s
  | Some initial_position =>
      let '(s, handle) := allocate_handle s in
      if handle =? INVALID_FILE_HANDLE then refuse FSFunction.OpenFile tan FSError.TooManyOpen s
      else
        let f := mkOpen handle client path initial_position flags is_dir_listing
                   directory_pattern in
        let s := with_open_files (fs_open_files s ++ [f]) s in
        let s := update_client client
                   (fun conn => with_open_handles (sc_open_handles conn ++ [handle]) conn) s in
        let s := fs_emit (FsFileOpened client path) s in
        Some (s, [FSFunction.as_u8 FSFunction.OpenFile; tan; FSError.as_u8 FSError.Success; handle;
                  0xFF; 0xFF; 0xFF; 0xFF])
  end.
(** A directory that does not exist is created when the flags ask for it. *)
Definition open_directory (client : Address) (tan flags : Z) (path directory_pattern : list Z)
    (s : FileServer) : option (FileServer * list Z) :=
  let dir_path :=
    if negb (str_eqb path []) && negb (ends_with root path) then path ++ [bs] else path in
  let continue := open_handle client tan flags true path directory_pattern in
  if directory_exists dir_path s then continue s
  else if file_exists_at_directory_path dir_path s then
    refuse FSFunction.OpenFile tan FSError.InvalidAccess s
  else if negb (has_flag flags OpenFlags.Create) then
    refuse FSFunction.OpenFile tan FSError.NotFound s
  else if negb (directory_exists (file_parent_directory_path dir_path) s) then
    refuse FSFunction.OpenFile tan FSError.NotFound s
  else
    let s := with_directories (fs_directories s ++ [dir_path]) s in
    continue (with_file_date_times
                (BTreeMap.insert dir_path default_file_date_time (fs_file_date_times s)) s).
Definition open_file (client : Address) (tan flags : Z) (path : list Z) (s : FileServer)
    : option (FileServer * list Z) :=
  let continue := open_handle client tan flags false path [0x2A] in
  if is_file_path_directory path s then refuse FSFunction.OpenFile tan FSError.InvalidAccess s
  else
    let exists_ := BTreeMap.contains_key path (fs_files s) in
    if exists_ && has_flag flags OpenFlags.Create && has_flag flags OpenFlags.Exclusive then
      refuse FSFunction.OpenFile tan FSError.AccessDenied s
    else if exists_ && open_file_access_conflicts path flags s then
      refuse FSFunction.OpenFile tan FSError.AccessDenied s
    else if exists_ then continue s
    else if negb (has_flag flags OpenFlags.Create) then
      refuse FSFunction.OpenFile tan FSError.NotFound s
    else
      let parent := file_parent_directory_path path in
      if negb (directory_exists parent s) then
        if file_exists_at_directory_path parent s then
          refuse FSFunction.OpenFile tan FSError.InvalidAccess s
        else refuse FSFunction.OpenFile tan FSError.NotFound s
      else
        let s := with_files (BTreeMap.insert path [] (fs_files s)) s in
        let s := with_file_attrs (BTreeMap.insert path 0 (fs_file_attrs s)) s in
        continue (with_file_date_times
                    (BTreeMap.insert path default_file_date_time (fs_file_date_times s)) s).
(** The per-client cap and the server cap. *)
Definition open_caps_reached (client : Address) (s : FileServer) : bool :=
  match BTreeMap.get client (fs_clients s) with
  | Some conn =>
      fsc_max_open_files_per_client (fs_config s) <=? Z.of_nat (length (sc_open_handles conn))
  | None => false
  end
  || (Z.min (fsc_max_open_files_total (fs_config s)) (max_simultaneous_files (fs_properties s))
      <=? Z.of_nat (length (fs_open_files s))).
Definition handle_open_file (client : Address) (tan : Z) (request : list Z) (s : FileServer)
    : option (FileServer * list Z) :=
  let error e := refuse FSFunction.OpenFile tan e s in
  media_present FSFunction.OpenFile tan s (
  if (length request <? 5)%nat then error FSError.MalformedRequest
  else
    flags ← request !! 2%nat;
    match counted_path_bytes request 3 5 with
    | None => error FSError.MalformedRequest
    | Some path_bytes =>
    match decode_wire_path path_bytes with
    | None => error FSError.InvalidSourceName
    | Some requested_path =>
      if negb (open_flags_have_no_reserved_bits flags) then error FSError.InvalidAccess
      else
        let access_mode := get_access_mode flags in
        let is_dir_listing := access_mode =? OpenFlags.bit OpenFlags.OpenDir in
        if is_dir_listing && negb (fsc_supports_directories (fs_config s)) then
          error FSError.NotSupported
        else if has_flag flags OpenFlags.Append
                && ((access_mode =? OpenFlags.bit OpenFlags.Read) || is_dir_listing) then
          error FSError.InvalidAccess
        else
          let target :=
            if is_dir_listing then
              result_ok (normalize_directory_listing_request requested_path (cwd client s))
            else
              path ← result_ok (normalize_client_path requested_path (cwd client s) false);
              Some (path, [0x2A]) in
          match target with
          | None => error FSError.InvalidSourceName
          | Some (path, directory_pattern) =>
              if open_caps_reached client s then error FSError.TooManyOpen
              else if is_dir_listing then open_directory client tan flags path directory_pattern s
              else open_file client tan flags path s
          end
    end
    end).

Definition handle_close_file (client : Address) (tan : Z) (request : list Z) (s : FileServer)
    : option (FileServer * list Z) :=
  let error e := refuse FSFunction.CloseFile tan e s in
  if (length request <? 3)%nat then error FSError.MalformedRequest
  else if negb (fs_payload_len_is_canonical request 3) then error FSError.MalformedRequest
  else
    handle ← request !! 2%nat;
    match position (owns handle client) (fs_open_files s) with
    | None => error FSError.InvalidHandle
    | Some idx =>
        let s := with_open_files (delete idx (fs_open_files s)) s in
        let s := update_client client
                   (fun conn => with_open_handles (filter (fun h => h <> handle) (sc_open_handles conn))
                                  conn) s in
        succeed FSFunction.CloseFile tan (fs_emit (FsFileClosed client handle) s)
    end.

Definition set_position (idx : nat) (x : Z) (s : FileServer) : FileServer :=
  with_open_files (alter (of_with_position x) idx (fs_open_files s)) s.
Definition handle_read_directory (idx : nat) (f : OpenFile) (tan count : Z) (report_hidden : bool)
    (s : FileServer) : option (FileServer * list Z) :=
  entries ← list_directory (of_path f) (of_directory_pattern f) s;
  let entries := if report_hidden then entries else filter (fun e => ~ Is_true (is_hidden e)) entries in
  let position := Z.to_nat (of_position f) in
  if (length entries <=? position)%nat then refuse FSFunction.ReadFile tan FSError.EndOfFile s
  else
    let to_read := Nat.min (Z.to_nat count) (length entries - position) in
    match mapM encode_directory_entry (take to_read (drop position entries)) with
    | None => refuse FSFunction.ReadFile tan FSError.InvalidLength s
    | Some encoded =>
        let response :=
          FSFunction.as_u8 FSFunction.ReadFile :: tan :: FSError.as_u8 FSError.Success
          :: Name.to_le_bytes 2 (wrap 16 (Z.of_nat to_read)) ++ concat encoded in
        Some (set_position idx (sat_add 32 (of_position f) (Z.of_nat to_read)) s, response)
    end.
Definition handle_read_file (client : Address) (tan : Z) (request : list Z) (s : FileServer)
    : option (FileServer * list Z) :=
  let error e := refuse FSFunction.ReadFile tan e s in
  media_present FSFunction.ReadFile tan s (
  if (length request <? READ_FILE_REQUEST_LEN)%nat then error FSError.MalformedRequest
  else if negb (fs_payload_len_is_canonical request READ_FILE_REQUEST_LEN) then
    error FSError.MalformedRequest
  else
    r6 ← request !! 6%nat;
    r7 ← request !! 7%nat;
    if negb (r6 =? 0xFF) || negb (r7 =? 0xFF) then error FSError.MalformedRequest
    else
      handle ← request !! 2%nat;
      count ← u16_at 3 request;
      r5 ← request !! 5%nat;
      let report_hidden :=
        if (r5 =? 0) || (r5 =? 0xFF) then Some false else if r5 =? 1 then Some true else None in
      match report_hidden with
      | None => error FSError.InvalidAccess
      | Some report_hidden =>
      match position (owns handle client) (fs_open_files s) with
      | None => error FSError.InvalidHandle
      | Some idx =>
        f ← fs_open_files s !! idx;
        if of_is_directory f then handle_read_directory idx f tan count report_hidden s
        else
          let mode := get_access_mode (of_flags f) in
          if negb (mode =? OpenFlags.bit OpenFlags.Read)
             && negb (mode =? OpenFlags.bit OpenFlags.ReadWrite) then
            error FSError.InvalidAccess
          else
          match BTreeMap.get (of_path f) (fs_files s) with
          | None => error FSError.NotFound
          | Some data =>
              let file_len := fs_file_size_to_wire (length data) in
              if file_len <=? of_position f then error FSError.EndOfFile
              else
                available ← checked_sub file_len (of_position f);
                let to_read := Z.min count available in
                body ← range (Z.to_nat (of_position f)) (Z.to_nat (of_position f + to_read)) data;
                next ← checked_add 32 (of_position f) to_read;
                Some (set_position idx next s,
                      FSFunction.as_u8 FSFunction.ReadFile :: tan :: FSError.as_u8 FSError.Success
                      :: Name.to_le_bytes 2 (wrap 16 to_read) ++ body)
          end
      end
      end).

Definition path_is_read_only (path : list Z) (s : FileServer) : bool :=
  match BTreeMap.get path (fs_file_attrs s) with
  | Some attrs => has_attribute attrs FileAttributes.ReadOnly
  | None => false
  end.
(** [data.resize(end, 0)] when the write ends past the file, and the copy. *)
Definition write_data (position : nat) (payload data : list Z) : option (list Z) :=
  let end_ := (position + length payload)%nat in
  let data := data ++ replicate (end_ - length data) 0 in
  if (position <=? end_)%nat && (end_ <=? length data)%nat
  then Some (take position data ++ payload ++ drop end_ data) else None.
Definition handle_write_file (client : Address) (tan : Z) (request : list Z) (s : FileServer)
    : option (FileServer * list Z) :=
  let error e := refuse FSFunction.WriteFile tan e s in
  media_present FSFunction.WriteFile tan s (
  if (length request <? 5)%nat then error FSError.MalformedRequest
  else
    handle ← request !! 2%nat;
    count ← u16_at 3 request;
    let used := (5 + Z.to_nat count)%nat in
    if negb (fs_payload_len_is_canonical request used) then error FSError.MalformedRequest
    else
      match position (owns handle client) (fs_open_files s) with
      | None => error FSError.InvalidHandle
      | Some idx =>
        f ← fs_open_files s !! idx;
        if of_is_directory f then error FSError.InvalidHandle
        else
          let mode := get_access_mode (of_flags f) in
          if negb (mode =? OpenFlags.bit OpenFlags.Write)
             && negb (mode =? OpenFlags.bit OpenFlags.ReadWrite) then
            error FSError.InvalidAccess
          else if path_is_read_only (of_path f) s then error FSError.AccessDenied
          else
          match BTreeMap.get (of_path f) (fs_files s) with
          | None => error FSError.NotFound
          | Some data =>
              match checked_add 32 (of_position f) count,
                    checked_add 64 (of_position f) count with
              | Some new_position, Some _ =>
                  payload ← range 5 used request;
                  data ← write_data (Z.to_nat (of_position f)) payload data;
                  let s := with_files (BTreeMap.insert (of_path f) data (fs_files s)) s in
                  let s := set_position idx new_position s in
                  let s := touch_file_date_time (of_path f) s in
                  Some (s, FSFunction.as_u8 FSFunction.WriteFile :: tan
                           :: FSError.as_u8 FSError.Success
                           :: Name.to_le_bytes 2 count ++ [0xFF; 0xFF; 0xFF])
              | _, _ => error FSError.NoSpace
              end
          end
      end).

(** [i32::from_le_bytes]. *)
Definition i32_from_le (l : list Z) : Z :=
  let x := Name.from_le_bytes l in if x <? 2 ^ 31 then x else x - 2 ^ 32.
Definition handle_seek_file (client : Address) (tan : Z) (request : list Z) (s : FileServer)
    : option (FileServer * list Z) :=
  let error e := refuse FSFunction.SeekFile tan e s in
  media_present FSFunction.SeekFile tan s (
  if negb (fs_payload_len_is_canonical request SEEK_FILE_REQUEST_LEN) then
    error FSError.MalformedRequest
  else
    handle ← request !! 2%nat;
    mode ← request !! 3%nat;
    offset ← i32_from_le <$> range 4 8 request;
    match position (owns handle client) (fs_open_files s) with
    | None => error FSError.InvalidHandle
    | Some idx =>
      file ← fs_open_files s !! idx;
      if of_is_directory file then error FSError.InvalidHandle
      else
        let position := of_position file in
        let end_ :=
          match BTreeMap.get (of_path file) (fs_files s) with
          | Some d => fs_file_size_to_wire (length d)
          | None => 0
          end in
        let base :=
          if mode =? SEEK_MODE_FROM_START then Some 0
          else if mode =? SEEK_MODE_FROM_CURRENT then Some position
          else if mode =? SEEK_MODE_FROM_END then Some end_ else None in
        match base with
        | None => error FSError.InvalidAccess
        | Some base =>
            let target := base + offset in
            if (target <? 0) || (end_ <? target) then
              error (if (position =? end_) && (end_ <? target) then FSError.EndOfFile
                     else FSError.InvalidLength)
            else
              Some (set_position idx target s,
                    [FSFunction.as_u8 FSFunction.SeekFile; tan; FSError.as_u8 FSError.Success; 0xFF]
                    ++ Name.to_le_bytes 4 target)
        end
    end).

Definition handle_get_properties (tan : Z) (request : list Z) (s : FileServer)
    : option (FileServer * list Z) :=
  if negb (fs_payload_len_is_canonical request 2) then
    refuse FSFunction.GetFileServerProperties tan FSError.MalformedRequest s
  else Some (s, encode_response (fs_properties s) tan).
Definition handle_get_current_directory (client : Address) (tan : Z) (request : list Z)
    (s : FileServer) : option (FileServer * list Z) :=
  let error e := refuse FSFunction.GetCurrentDirectory tan e s in
  media_present FSFunction.GetCurrentDirectory tan s (
  if negb (fs_payload_len_is_canonical request 2) then error FSError.MalformedRequest
  else if negb (fsc_supports_directories (fs_config s)) then error FSError.NotSupported
  else
    let dir := cwd client s in
    if FS_WIRE_STRING_MAX_LEN <? Z.of_nat (length dir) then error FSError.InvalidLength
    else
      Some (s, FSFunction.as_u8 FSFunction.GetCurrentDirectory :: tan
               :: FSError.as_u8 FSError.Success
               :: Name.to_le_bytes 4 (fs_space_blocks (fs_volume_capacity_bytes s))
               ++ Name.to_le_bytes 4 (fs_space_blocks (free_bytes s))
               ++ Name.to_le_bytes 2 (wrap 16 (Z.of_nat (length dir))) ++ dir)).

(** [..]: the parent of the current directory; [&cwd[..cwd.len() - 1]] panics on an empty
    string. *)
Definition parent_directory (dir : list Z) : option (list Z) :=
  if str_eqb dir root then Some dir
  else
    n ← checked_sub (Z.of_nat (length dir)) 1;
    let trimmed := take (Z.to_nat n) dir in
    Some (match rfind bs trimmed with Some idx => take (idx + 1) dir | None => root end).
Definition handle_change_directory (client : Address) (tan : Z) (request : list Z) (s : FileServer)
    : option (FileServer * list Z) :=
  let error e := refuse FSFunction.ChangeDirectory tan e s in
  let change dir s :=
    succeed FSFunction.ChangeDirectory tan
      (update_client client (with_current_directory dir) (ensure_client client s)) in
  media_present FSFunction.ChangeDirectory tan s (
  match counted_path_bytes request 2 4 with
  | None => error FSError.MalformedRequest
  | Some path_bytes =>
    if negb (fsc_supports_directories (fs_config s)) then error FSError.NotSupported
    else
    match decode_wire_path path_bytes with
    | None => error FSError.InvalidSourceName
    | Some requested_path =>
      if str_eqb requested_path dotdot then
        dir ← parent_directory (cwd client (ensure_client client s));
        change dir s
      else if str_eqb requested_path dot then succeed FSFunction.ChangeDirectory tan s
      else if str_eqb requested_path [] || str_eqb requested_path root then change root s
      else
        match normalize_directory_path requested_path (cwd client s) with
        | Err _ => error FSError.InvalidSourceName
        | Ok target_path =>
            if negb (has_directory target_path s) then
              if file_exists_at_directory_path target_path s then error FSError.InvalidAccess
              else error FSError.NotFound
            else change target_path s
        end
    end
  end).

Definition move_entry (source_path destination_path data : list Z) (s : FileServer) : FileServer :=
  let s := with_files (BTreeMap.remove source_path (fs_files s)) s in
  let attrs := default 0 (BTreeMap.get source_path (fs_file_attrs s)) in
  let s := with_file_attrs (BTreeMap.remove source_path (fs_file_attrs s)) s in
  let date_time := file_date_time source_path s in
  let s := with_file_date_times (BTreeMap.remove source_path (fs_file_date_times s)) s in
  let s := with_files (BTreeMap.insert destination_path data (fs_files s)) s in
  let s := with_file_attrs (BTreeMap.insert destination_path attrs (fs_file_attrs s)) s in
  with_file_date_times (BTreeMap.insert destination_path date_time (fs_file_date_times s)) s.
Definition handle_move_file (client : Address) (tan : Z) (request : list Z) (s : FileServer)
    : option (FileServer * list Z) :=
  let error e := refuse FSFunction.MoveFile tan e s in
  media_present FSFunction.MoveFile tan s (
  if negb (fsc_supports_move_file (fs_config s)) then error FSError.NotSupported
  else
    paths ← parse_two_counted_file_paths request (cwd client s);
    match paths with
    | None => error FSError.MalformedRequest
    | Some (source_path, destination_path) =>
      if str_eqb source_path destination_path then error FSError.InvalidDestName
      else if is_file_path_directory source_path s then error FSError.InvalidAccess
      else if is_path_open source_path s || is_path_open destination_path s then
        error FSError.AccessDenied
      else if BTreeMap.contains_key destination_path (fs_files s)
              || directory_exists destination_path s then
        error FSError.AccessDenied
      else
        let destination_parent := file_parent_directory_path destination_path in
        if negb (directory_exists destination_parent s) then
          if file_exists_at_directory_path destination_parent s then error FSError.InvalidAccess
          else error FSError.InvalidDestName
        else if path_is_read_only source_path s then error FSError.AccessDenied
        else
          match BTreeMap.get source_path (fs_files s) with
          | None => error FSError.NotFound
          | Some data =>
              succeed FSFunction.MoveFile tan (move_entry source_path destination_path data s)
          end
    end).

Definition delete_directory (directory : list Z) (tan : Z) (s : FileServer)
    : option (FileServer * list Z) :=
  let error e := refuse FSFunction.DeleteFile tan e s in
  if str_eqb directory root then error FSError.AccessDenied
  else
    let non_empty :=
      existsb (starts_with directory) (BTreeMap.keys (fs_files s))
      || existsb (fun d => negb (str_eqb d directory) && starts_with directory d)
           (fs_directories s) in
    if non_empty then error FSError.AccessDenied
    else
      let s := with_directories (filter (fun d => d <> directory) (fs_directories s)) s in
      succeed FSFunction.DeleteFile tan
        (with_file_date_times (BTreeMap.remove directory (fs_file_date_times s)) s).
Definition handle_delete_file (client : Address) (tan : Z) (request : list Z) (s : FileServer)
    : option (FileServer * list Z) :=
  let error e := refuse FSFunction.DeleteFile tan e s in
  media_present FSFunction.DeleteFile tan s (
  if negb (fsc_supports_delete_file (fs_config s)) then error FSError.NotSupported
  else
    match parse_counted_file_or_directory_path request 2 (cwd client s) with
    | None => error FSError.MalformedRequest
    | Some path =>
      if is_file_path_directory path s then delete_directory (ensure_directory_suffix path) tan s
      else if is_path_open path s then error FSError.AccessDenied
      else if path_is_read_only path s then error FSError.AccessDenied
      else if BTreeMap.contains_key path (fs_files s) then
        let s := with_files (BTreeMap.remove path (fs_files s)) s in
        let s := with_file_attrs (BTreeMap.remove path (fs_file_attrs s)) s in
        succeed FSFunction.DeleteFile tan
          (with_file_date_times (BTreeMap.remove path (fs_file_date_times s)) s)
      else error FSError.NotFound
    end).

Definition handle_get_file_attributes (client : Address) (tan : Z) (request : list Z)
    (s : FileServer) : option (FileServer * list Z) :=
  let error e := refuse FSFunction.GetFileAttributes tan e s in
  media_present FSFunction.GetFileAttributes tan s (
  if negb (fsc_supports_file_attributes (fs_config s)) then error FSError.NotSupported
  else
    match parse_counted_file_path request 2 (cwd client s) with
    | None => error FSError.MalformedRequest
    | Some path =>
      let attrs :=
        match BTreeMap.get path (fs_file_attrs s) with
        | Some attrs => Some attrs
        | None =>
            if directory_exists path s then Some (FileAttributes.bit FileAttributes.Directory)
            else None
        end in
      match attrs with
      | None => error FSError.NotFound
      | Some attrs =>
          Some (s, <[3%nat := attrs]> (success_response FSFunction.GetFileAttributes tan))
      end
    end).
Definition handle_set_file_attributes (client : Address) (tan : Z) (request : list Z)
    (s : FileServer) : option (FileServer * list Z) :=
  let error e := refuse FSFunction.SetFileAttributes tan e s in
  media_present FSFunction.SetFileAttributes tan s (
  if negb (fsc_supports_file_attributes (fs_config s)) then error FSError.NotSupported
  else if (length request <? 5)%nat then error FSError.MalformedRequest
  else
    new_attrs ← request !! 2%nat;
    if negb (Z.land new_attrs (not_u 8 FILE_ATTRIBUTES_CLIENT_SETTABLE) =? 0) then
      error FSError.InvalidAccess
    else
      match parse_counted_file_path_with_count_at request 3 5 (cwd client s) with
      | None => error FSError.MalformedRequest
      | Some path =>
        if is_file_path_directory path s then error FSError.InvalidAccess
        else if negb (BTreeMap.contains_key path (fs_files s)) then error FSError.NotFound
        else if is_path_open path s then error FSError.AccessDenied
        else
          succeed FSFunction.SetFileAttributes tan
            (with_file_attrs (BTreeMap.insert path new_attrs (fs_file_attrs s)) s)
      end).
Definition handle_get_file_date_time (client : Address) (tan : Z) (request : list Z)
    (s : FileServer) : option (FileServer * list Z) :=
  let error e := refuse FSFunction.GetFileDateTime tan e s in
  media_present FSFunction.GetFileDateTime tan s (
  parsed ← parse_counted_file_path_u16 request (cwd client s);
  match parsed with
  | None => error FSError.MalformedRequest
  | Some (Err _) => error FSError.InvalidSourceName
  | Some (Ok path) =>
    if str_eqb path root then error FSError.AccessDenied
    else
      let directory_path := ensure_directory_suffix path in
      let date_time_path :=
        if BTreeMap.contains_key path (fs_files s) then Some path
        else if directory_exists directory_path s then Some directory_path else None in
      match date_time_path with
      | None => error FSError.NotFound
      | Some date_time_path =>
          let '(date, time) := file_date_time date_time_path s in
          Some (s, FSFunction.as_u8 FSFunction.GetFileDateTime :: tan
                   :: FSError.as_u8 FSError.Success
                   :: Name.to_le_bytes 2 date ++ Name.to_le_bytes 2 time ++ [0xFF])
      end
  end).

Definition handle_volume_status (client : Address) (tan : Z) (request : list Z) (s : FileServer)
    : option (FileServer * list FSOutbound) :=
  let error := Some (s, [to (encode_volume_status_error_response tan s) client]) in
  let answer s :=
    Some (s, [to (encode_volume_status_response tan (effective_volume_state s) s) client]) in
  if (length request <? 5)%nat then error
  else
    r2 ← request !! 2%nat;
    let mode := Z.land r2 (not_u 8 VOLUME_MODE_RESERVED_MASK) in
    path_len ← u16_at 3 request;
    let used := (5 + Z.to_nat path_len)%nat in
    if negb (fs_payload_len_is_canonical request used) then error
    else
      volume_name ← range 5 used request;
      if negb (utf8_valid volume_name) then error
      else if negb (volume_status_path_matches volume_name s) then error
      else if mode =? VOLUME_MODE_PREPARE_REMOVAL then
        let '(s, frames) := prepare_volume_for_removal s in
        match frames with [] => answer s | _ => Some (s, frames) end
      else if mode =? VOLUME_MODE_MAINTAIN then answer (receive_volume_maintain_request client s)
      else if mode =? 0 then
        let s := clear_volume_maintain_request client s in
        if bool_decide (get_volume_state s = VolumeState.PreparingForRemoval)
           && bool_decide (fs_open_files s = [])
           && bool_decide (fs_volume_maintain_requests s = []) then
          let s := volume_removed s in Some (s, [broadcast_volume_status s])
        else answer s
      else error.

Definition initialize_volume (new_volume_name : option (list Z)) (s : FileServer) : FileServer :=
  let s := with_files [] s in
  let s := with_file_attrs [] s in
  let s := with_file_date_times [] s in
  let s := with_directories [root] s in
  let s := clear_all_open_handles s in
  let s := with_clients (BTreeMap.map_values (with_current_directory root) (fs_clients s)) s in
  let s := match new_volume_name with Some name => with_volume_name name s | None => s end in
  if bool_decide (get_volume_state s = VolumeState.Removed)
  then volume_transition VolumeState.Present s else s.
Definition handle_initialize_volume (tan : Z) (request : list Z) (s : FileServer)
    : option (FileServer * list Z) :=
  let error e := refuse FSFunction.InitializeVolume tan e s in
  if negb (fsc_supports_volume_management (fs_config s)) then error FSError.NotSupported
  else media_present FSFunction.InitializeVolume tan s (
    parsed ← parse_initialize_volume_request request;
    match parsed with
    | Err _ => error FSError.MalformedRequest
    | Ok new_volume_name =>
        if bool_decide (fs_open_files s <> []) then error FSError.AccessDenied
        else succeed FSFunction.InitializeVolume tan (initialize_volume new_volume_name s)
    end).

(** ** Dispatch *)

Definition execute_function (client : Address) (function_code tan : Z) (request : list Z)
    (s : FileServer) : option (FileServer * list Z) :=
  match FSFunction.from_u8 function_code with
  | None => Some (s, encode_error_response function_code tan FSError.NotSupported)
  | Some function =>
      match function with
      | FSFunction.OpenFile => handle_open_file client tan request s
      | FSFunction.CloseFile => handle_close_file client tan request s
      | FSFunction.ReadFile => handle_read_file client tan request s
      | FSFunction.WriteFile => handle_write_file client tan request s
      | FSFunction.SeekFile => handle_seek_file client tan request s
      | FSFunction.GetFileServerProperties => handle_get_properties tan request s
      | FSFunction.GetCurrentDirectory => handle_get_current_directory client tan request s
      | FSFunction.ChangeDirectory => handle_change_directory client tan request s
      | FSFunction.MoveFile => handle_move_file client tan request s
      | FSFunction.DeleteFile => handle_delete_file client tan request s
      | FSFunction.GetFileAttributes => handle_get_file_attributes client tan request s
      | FSFunction.SetFileAttributes => handle_set_file_attributes client tan request s
      | FSFunction.GetFileDateTime => handle_get_file_date_time client tan request s
      | FSFunction.InitializeVolume => handle_initialize_volume tan request s
      | FSFunction.FileServerStatus | FSFunction.VolumeStatus =>
          Some (s, encode_error_response function_code tan FSError.NotSupported)
      end
  end.

Definition handle_ccm (client : Address) (s : FileServer) : FileServer :=
  let timeout := fsc_ccm_timeout_ms (fs_config s) in
  let now := fs_current_time_ms s in
  let was_connected :=
    match BTreeMap.get client (fs_clients s) with
    | Some c => has_active_ccm_connection c now timeout
    | None => false
    end in
  let s := update_client client (update_ccm now) s in
  if negb was_connected then fs_emit (FsClientConnected client) s else s.
(** The response is remembered under the request's TAN. *)
Definition cache_response (client : Address) (tan : Z) (request response : list Z)
    (s : FileServer) : FileServer :=
  let entry := mkTan tan request response (fs_current_time_ms s) in
  update_client client
    (fun c => with_tan_cache (BTreeMap.insert tan entry (sc_tan_cache c)) c) s.
Definition cached_response (client : Address) (tan : Z) (request : list Z) (s : FileServer)
    : option TANResponse :=
  c ← BTreeMap.get client (fs_clients s);
  cached ← BTreeMap.get tan (sc_tan_cache c);
  if str_eqb (tr_request_data cached) request then Some cached else None.
(** A request with a TAN that is not a retransmission. *)
Definition new_request (client : Address) (function tan : Z) (request : list Z) (s : FileServer)
    : option (FileServer * list FSOutbound) :=
  if function =? FSFunction.as_u8 FSFunction.VolumeStatus then
    '(s, responses) ← handle_volume_status client tan request s;
    match responses with
    | first :: _ => Some (cache_response client tan request (fso_data first) s, responses)
    | [] => Some (s, responses)
    end
  else
    '(s, response) ← execute_function client function tan request s;
    Some (cache_response client tan request response s, [to response client]).
Definition handle_client_message (msg : Message) (s : FileServer)
    : option (FileServer * list FSOutbound) :=
  if negb (m_pgn msg =? PGN_FILE_CLIENT_TO_SERVER) || negb (has_usable_source msg)
     || negb (has_valid_destination_for_pgn msg) || (length (m_data msg) <? 2)%nat then Some (s, [])
  else
    function ← m_data msg !! 0%nat;
    if function =? CCM_FUNCTION_CODE then
      match ccm_decode (m_data msg) with
      | None => Some (s, [])
      | Some _ => Some (handle_ccm (m_source msg) (ensure_client (m_source msg) s), [])
      end
    else
      tan ← m_data msg !! 1%nat;
      if tan =? INVALID_TAN then
        Some (s, [to (encode_error_response function tan FSError.TANError) (m_source msg)])
      else
        let s := ensure_client (m_source msg) s in
        match cached_response (m_source msg) tan (m_data msg) s with
        | Some cached => Some (s, [to (tr_response_data cached) (m_source msg)])
        | None => new_request (m_source msg) function tan (m_data msg) s
        end.
