(* ===== verification/FsProofs.v ===== *)
(** The file server keeps its bookkeeping: no call panics, handles are distinct and owned by
    known clients, limits hold, every name is a canonical path, and two handles share a file
    only when neither may write. *)
From S2P Require Export FsServer FsPathProofs.
Import BTreeMapFacts.

(** ** The invariant *)

Definition file_name_ok (p : list Z) : Prop :=
  exists cs, cs <> [] /\ components_ok false cs /\ p = abs_path cs.
Definition dir_name_ok (d : list Z) : Prop :=
  exists cs, components_ok false cs /\ d = dir_path cs
             /\ Z.of_nat (length d) <= FS_WIRE_STRING_MAX_LEN.

Record open_file_ok (f : OpenFile) : Prop := {
  oo_handle : 1 <= of_handle f <= 254;
  oo_position : u32 (of_position f);
  oo_path : if of_is_directory f then dir_name_ok (of_path f) else file_name_ok (of_path f)
}.
Definition owned_by (a : Address) (ofs : list OpenFile) : list OpenFile :=
  filter (fun f => of_owner f = a) ofs.
Record client_ok (cfg : FileServerConfig) (ofs : list OpenFile) (a : Address)
    (c : ServerClientConnection) : Prop := {
  co_handles : sc_open_handles c = of_handle <$> owned_by a ofs;
  co_cap : Z.of_nat (length (sc_open_handles c)) <= fsc_max_open_files_per_client cfg;
  co_cwd : dir_name_ok (sc_current_directory c)
}.
(** Two handles on one file: neither writes, and the file exists. *)
Record sharing_ok (files : BTreeMap.t (list Z) (list Z)) (ofs : list OpenFile) : Prop := {
  sh_alone : forall f g, f ∈ ofs -> g ∈ ofs -> of_handle f <> of_handle g ->
    of_is_directory f = false -> of_is_directory g = false -> of_path f = of_path g ->
    open_mode_writes (of_flags f) = false;
  sh_exists : forall f, f ∈ ofs -> of_is_directory f = false ->
    is_Some (BTreeMap.get (of_path f) files)
}.
Record config_ok (cfg : FileServerConfig) : Prop := {
  cfg_client : 0 <= fsc_max_open_files_per_client cfg <= FS_SUPPORTED_COUNT_MAX;
  cfg_total : 0 <= fsc_max_open_files_total cfg <= FS_SUPPORTED_COUNT_MAX
}.
(** The invariant reads these components of the state only; [strict] asks for [sharing_ok]. *)
Record fs_parts (strict : bool) (cfg : FileServerConfig) (files : BTreeMap.t (list Z) (list Z))
    (dirs : list (list Z)) (ofs : list OpenFile) (next : Z)
    (clients : BTreeMap.t Z ServerClientConnection) (vol : VolumeState.t) (name : list Z) : Prop := {
  fp_config : config_ok cfg;
  fp_next : 1 <= next <= 254;
  fp_files : Forall (fun e : list Z * list Z => file_name_ok e.1) files;
  fp_dirs : Forall dir_name_ok dirs;
  fp_open : Forall open_file_ok ofs;
  fp_distinct : NoDup (of_handle <$> ofs);
  fp_total : Z.of_nat (length ofs) <= fsc_max_open_files_total cfg;
  fp_clients : forall a c, BTreeMap.get a clients = Some c -> client_ok cfg ofs a c;
  fp_owners : Forall (fun f => is_Some (BTreeMap.get (of_owner f) clients)) ofs;
  fp_removed : vol = VolumeState.Removed -> ofs = [];
  fp_name : is_valid_volume_name name = true;
  fp_sharing : strict = true -> sharing_ok files ofs;
  fp_sorted : BTreeMap.sorted clients
}.
Definition fs_inv (strict : bool) (s : FileServer) : Prop :=
  fs_parts strict (fs_config s) (fs_files s) (fs_directories s) (fs_open_files s)
    (fs_next_handle s) (fs_clients s) (get_volume_state s) (fs_volume_name s).

(** What a call returns: no panic, and the invariant. *)
Definition fs_good {A} (strict : bool) (r : option (FileServer * A)) : Prop :=
  exists s out, r = Some (s, out) /\ fs_inv strict s.

Lemma fs_good_intro {A} strict s (out : A) : fs_inv strict s -> fs_good strict (Some (s, out)).
Proof. intros H. by exists s, out. Qed.
Lemma good_refuse strict f tan e s : fs_inv strict s -> fs_good strict (refuse f tan e s).
Proof. apply fs_good_intro. Qed.
Lemma good_succeed strict f tan s : fs_inv strict s -> fs_good strict (succeed f tan s).
Proof. apply fs_good_intro. Qed.
Lemma good_media strict f tan s k :
  fs_inv strict s -> (get_volume_state s <> VolumeState.Removed -> fs_good strict k) ->
  fs_good strict (media_present f tan s k).
Proof.
  intros Hi Hk. unfold media_present. case_bool_decide; [by apply good_refuse|auto].
Qed.
Create HintDb fs.
#[export] Hint Resolve good_refuse good_succeed fs_good_intro : fs.

Lemma dir_name_root : dir_name_ok root.
Proof. exists []. split_and!; [done|done|by vm_compute]. Qed.
#[export] Hint Resolve dir_name_root : fs.

Lemma client_path_ok path d p :
  dir_name_ok d -> normalize_client_path path d false = Ok p -> file_name_ok p.
Proof.
  intros (cs & Hc & -> & _) (-> & ? & ?)%normalize_client_file_ok; [|done]. by eexists.
Qed.
Lemma directory_path_ok path d p :
  dir_name_ok d -> normalize_directory_path path d = Ok p -> dir_name_ok p.
Proof.
  intros (cs & Hc & -> & _) (-> & ? & ?)%normalize_directory_ok; [|done]. by eexists.
Qed.

(** ** Clients *)

Lemma filter_none {A} (P : A -> Prop) `{forall x, Decision (P x)} (l : list A) :
  Forall (fun x => ~ P x) l -> filter P l = [].
Proof. induction 1 as [|x l Hx Hl IH]; [done|]. by rewrite filter_cons_False. Qed.
Lemma filter_every {A} (P : A -> Prop) `{forall x, Decision (P x)} (l : list A) :
  Forall P l -> filter P l = l.
Proof. induction 1 as [|x l Hx Hl IH]; [done|]. by rewrite filter_cons_True, IH. Qed.

Section steps.
Context (strict : bool).
Local Abbreviation inv := (fs_inv strict).
Local Abbreviation good := (fs_good strict).

Lemma cwd_ok a s : inv s -> dir_name_ok (cwd a s).
Proof.
  intros Hi. unfold cwd. destruct (BTreeMap.get a (fs_clients s)) as [c|] eqn:E.
  - by apply (co_cwd _ _ _ _ (fp_clients _ _ _ _ _ _ _ _ _ Hi _ _ E)).
  - apply dir_name_root.
Qed.

(** A change of the client table that keeps what the invariant says of each client. *)
Lemma inv_with_clients m s :
  inv s -> BTreeMap.sorted m ->
  (forall a c, BTreeMap.get a m = Some c -> client_ok (fs_config s) (fs_open_files s) a c) ->
  (forall a, is_Some (BTreeMap.get a (fs_clients s)) -> is_Some (BTreeMap.get a m)) ->
  inv (with_clients m s).
Proof.
  intros [] Hsm Hm Hd. split; cbn; try done.
  eapply Forall_impl; [done|]. cbn. auto.
Qed.
Lemma inv_ensure_client a s : inv s -> inv (ensure_client a s).
Proof.
  intros Hi. apply inv_with_clients; [done|by apply sorted_or_insert, Hi| |].
  - intros b c Hb. destruct (decide (b = a)) as [->|Hn].
    2: { rewrite get_or_insert_ne in Hb by done. by apply (fp_clients _ _ _ _ _ _ _ _ _ Hi). }
    rewrite get_or_insert_eq in Hb. injection Hb as <-.
    destruct (BTreeMap.get a (fs_clients s)) as [c|] eqn:E; cbn;
      [by apply (fp_clients _ _ _ _ _ _ _ _ _ Hi)|].
    split; cbn; [|apply (cfg_client _ (fp_config _ _ _ _ _ _ _ _ _ Hi))|apply dir_name_root].
    unfold owned_by. rewrite filter_none; [done|]. eapply Forall_impl;
      [apply (fp_owners _ _ _ _ _ _ _ _ _ Hi)|]. cbn. intros f Hf Ho. rewrite Ho, E in Hf. by destruct Hf.
  - intros b Hb. destruct (decide (b = a)) as [->|Hn];
      [by rewrite get_or_insert_eq|by rewrite get_or_insert_ne].
Qed.
Lemma inv_update_client a f s :
  (forall c, sc_open_handles (f c) = sc_open_handles c) ->
  (forall c, dir_name_ok (sc_current_directory c) -> dir_name_ok (sc_current_directory (f c))) ->
  inv s -> inv (update_client a f s).
Proof.
  intros Hf Hd Hi. apply inv_with_clients; [done|by apply sorted_update, Hi| |].
  - intros b c Hb. destruct (decide (b = a)) as [->|Hn].
    2: { rewrite get_update_ne in Hb by done. by apply (fp_clients _ _ _ _ _ _ _ _ _ Hi). }
    rewrite get_update_eq in Hb. apply fmap_Some in Hb as (c' & Hc' & ->).
    destruct (fp_clients _ _ _ _ _ _ _ _ _ Hi _ _ Hc') as [H1 H2 H3].
    split; rewrite ?Hf; auto.
  - intros b Hb. by apply update_is_Some.
Qed.
Lemma inv_change_directory a d s :
  dir_name_ok d -> inv s -> inv (update_client a (with_current_directory d) (ensure_client a s)).
Proof. intros Hd Hi. apply inv_update_client; try done. by apply inv_ensure_client. Qed.
Lemma inv_map_clients f s :
  (forall c, sc_open_handles (f c) = sc_open_handles c) ->
  (forall c, dir_name_ok (sc_current_directory c) -> dir_name_ok (sc_current_directory (f c))) ->
  inv s -> inv (with_clients (BTreeMap.map_values f (fs_clients s)) s).
Proof.
  intros Hf Hd Hi. apply inv_with_clients; [done|by apply sorted_map_values, Hi| |].
  - intros b c Hb. rewrite get_map_values in Hb. apply fmap_Some in Hb as (c' & Hc' & ->).
    destruct (fp_clients _ _ _ _ _ _ _ _ _ Hi _ _ Hc') as [H1 H2 H3].
    split; rewrite ?Hf; auto.
  - intros b Hb. by rewrite get_map_values, fmap_is_Some.
Qed.

(** ** Open files *)

Lemma allocate_handle_ok s :
  inv s ->
  exists n, (allocate_handle s).1 = with_next_handle n s /\ 1 <= n <= 254
    /\ ((allocate_handle s).2 = INVALID_FILE_HANDLE
        \/ 1 <= (allocate_handle s).2 <= 254
           /\ (allocate_handle s).2 ∉ of_handle <$> fs_open_files s).
Proof.
  intros Hi. assert (Hn := fp_next _ _ _ _ _ _ _ _ _ Hi). unfold allocate_handle.
  assert (H : forall k s', (exists n, s' = with_next_handle n s /\ 1 <= n <= 254) ->
    exists n, (allocate_handle_loop k s').1 = with_next_handle n s /\ 1 <= n <= 254
    /\ ((allocate_handle_loop k s').2 = INVALID_FILE_HANDLE
        \/ 1 <= (allocate_handle_loop k s').2 <= 254
           /\ (allocate_handle_loop k s').2 ∉ of_handle <$> fs_open_files s)).
  2: { apply H. exists (fs_next_handle s). by destruct s. }
  induction k as [|k IH]; intros s' (n & -> & Hr); cbn [allocate_handle_loop fst snd].
  - exists n. auto.
  - set (next := if _ || _ then 1 else _).
    assert (Hx : 1 <= next <= 254).
    { subst next. cbn. unfold wrap, INVALID_FILE_HANDLE. rewrite Z.mod_small by lia.
      repeat case_bool; cbn; lia. }
    destruct (_ && _ && _) eqn:E; cbn [fst snd]; [|apply IH; by exists next].
    exists next. split_and!; [done|lia..|]. right. cbn. split; [lia|].
    apply andb_true_iff in E as [_ E]. apply negb_true_iff, existsb_never in E. cbn in E.
    intros (f & Hf & Hin)%list_elem_of_fmap. rewrite Forall_forall in E. specialize (E _ Hin).
    apply Z.eqb_neq in E. done.
Qed.
Lemma inv_next_handle n s : 1 <= n <= 254 -> inv s -> inv (with_next_handle n s).
Proof. intros Hn []. by split. Qed.

Lemma owned_by_app a l f :
  owned_by a (l ++ [f]) = owned_by a l ++ (if decide (of_owner f = a) then [f] else []).
Proof.
  unfold owned_by. rewrite filter_app. f_equal.
Qed.

(** Opening a file: the new handle joins the table. *)
Lemma inv_open_file f s c :
  inv s -> open_file_ok f -> of_handle f ∉ of_handle <$> fs_open_files s ->
  Z.of_nat (length (fs_open_files s)) < fsc_max_open_files_total (fs_config s) ->
  BTreeMap.get (of_owner f) (fs_clients s) = Some c ->
  Z.of_nat (length (sc_open_handles c)) < fsc_max_open_files_per_client (fs_config s) ->
  get_volume_state s <> VolumeState.Removed ->
  (strict = true -> of_is_directory f = false ->
    is_Some (BTreeMap.get (of_path f) (fs_files s))
    /\ forall g, g ∈ fs_open_files s -> of_is_directory g = false -> of_path g = of_path f ->
       open_mode_writes (of_flags f) = false /\ open_mode_writes (of_flags g) = false) ->
  inv (update_client (of_owner f)
         (fun conn => with_open_handles (sc_open_handles conn ++ [of_handle f]) conn)
         (with_open_files (fs_open_files s ++ [f]) s)).
Proof.
  intros [] Hf Hh Ht Hc Hl Hv Hs. split; cbn; try done.
  - by apply Forall_app_2; [|constructor].
  - rewrite fmap_app. apply NoDup_app. split_and!; [done| |apply NoDup_singleton].
    intros x Hx ->%list_elem_of_singleton. done.
  - rewrite length_app. cbn. lia.
  - intros a d Ha. destruct (decide (a = of_owner f)) as [->|Hn].
    + rewrite get_update_eq, Hc in Ha. injection Ha as <-.
      destruct (fp_clients0 _ _ Hc) as [H1 H2 H3]. split; cbn; [|rewrite length_app; cbn; lia|done].
      rewrite owned_by_app, decide_True, fmap_app, H1 by done. done.
    + rewrite get_update_ne in Ha by done. destruct (fp_clients0 _ _ Ha) as [H1 H2 H3].
      split; [|done..]. by rewrite owned_by_app, decide_False, app_nil_r.
  - apply Forall_app. split; [|constructor; [apply update_is_Some; by rewrite Hc|done]].
    eapply Forall_impl; [exact fp_owners0|]. intros g Hg. by apply update_is_Some.
  - intros Hst. specialize (Hs Hst). destruct (fp_sharing0 Hst) as [A B]. split.
    + intros g h Hg Hh' Hij Dg Dh Ep.
      apply elem_of_app in Hg as [Hg | ->%list_elem_of_singleton],
        Hh' as [Hh' | ->%list_elem_of_singleton].
      * by apply (A g h).
      * destruct (Hs Dh) as [_ Hx]. by apply (Hx g).
      * destruct (Hs Dg) as [_ Hx]. by apply (Hx h).
      * done.
    + intros g [Hg | ->%list_elem_of_singleton]%elem_of_app Dg; [by apply B|]. by apply Hs.
  - by apply sorted_update.
Qed.

(** Fewer open files. *)
Lemma inv_fewer ofs m s :
  inv s -> BTreeMap.sorted m -> sublist ofs (fs_open_files s) ->
  (forall a c, BTreeMap.get a m = Some c -> client_ok (fs_config s) ofs a c) ->
  Forall (fun f => is_Some (BTreeMap.get (of_owner f) m)) ofs ->
  inv (with_clients m (with_open_files ofs s)).
Proof.
  intros [] Hsm Hs Hm Ho. assert (Hin : forall f, f ∈ ofs -> f ∈ fs_open_files s)
    by (intros f Hf; by eapply elem_of_sublist). split; cbn; try done.
  - rewrite Forall_forall in *. auto.
  - eapply sublist_NoDup; [done|]. clear -Hs. by induction Hs; constructor.
  - apply sublist_length in Hs. lia.
  - intros Hv. specialize (fp_removed0 Hv). rewrite fp_removed0 in Hs. by apply sublist_nil_r in Hs.
  - intros Hst. destruct (fp_sharing0 Hst) as [A B]. split; eauto.
Qed.
Lemma delete_by_handle (l : list OpenFile) i f :
  NoDup (of_handle <$> l) -> l !! i = Some f ->
  delete i l = filter (fun g => of_handle g <> of_handle f) l.
Proof.
  revert i. induction l as [|g l IH]; intros i Hn Hi; [done|]. cbn in Hn.
  apply NoDup_cons in Hn as [Hg Hn]. destruct i as [|i].
  - injection Hi as ->. change (delete 0%nat (f :: l)) with l. rewrite filter_cons_False by (intros Hne; by apply Hne).
    symmetry. apply filter_every, Forall_forall. intros h Hh E. apply Hg. rewrite <- E.
    by apply list_elem_of_fmap_2.
  - change (delete (S i) (g :: l)) with (g :: delete i l).
    change (l !! i = Some f) in Hi.
    rewrite filter_cons_True; [by rewrite (IH i)|]. intros E. apply Hg. rewrite E.
    apply list_elem_of_fmap_2. by eapply list_elem_of_lookup_2.
Qed.
Lemma owned_by_fewer a (P : OpenFile -> Prop) (Q : Z -> Prop) `{forall f, Decision (P f)}
    `{forall h, Decision (Q h)} (l : list OpenFile) :
  Forall (fun f => of_owner f = a -> P f <-> Q (of_handle f)) l ->
  of_handle <$> owned_by a (filter P l) = filter Q (of_handle <$> owned_by a l).
Proof.
  unfold owned_by. induction 1 as [|f l Hf Hl IH]; [done|]. rewrite !filter_cons.
  destruct (decide (of_owner f = a)) as [Ho|Ho].
  - rewrite fmap_cons, filter_cons. specialize (Hf Ho).
    destruct (decide (P f)), (decide (Q (of_handle f))); try tauto.
    rewrite filter_cons_True by done. by rewrite fmap_cons, IH.
  - destruct (decide (P f)); [by rewrite filter_cons_False|done].
Qed.
Lemma inv_close idx f s :
  inv s -> fs_open_files s !! idx = Some f ->
  inv (update_client (of_owner f)
         (fun conn => with_open_handles (filter (fun h => h <> of_handle f) (sc_open_handles conn)) conn)
         (with_open_files (delete idx (fs_open_files s)) s)).
Proof.
  intros Hi Hf. assert (Hn := fp_distinct _ _ _ _ _ _ _ _ _ Hi). 
  apply inv_fewer; [done|by apply sorted_update, Hi|by apply sublist_delete| |].
  - cbn. intros a c Ha. rewrite (delete_by_handle _ _ f) by done.
    assert (Hx : forall c', BTreeMap.get a (fs_clients s) = Some c' ->
      of_handle <$> owned_by a (filter (fun g => of_handle g <> of_handle f) (fs_open_files s))
      = filter (fun h => h <> of_handle f) (sc_open_handles c')).
    { intros c' Hc'. destruct (fp_clients _ _ _ _ _ _ _ _ _ Hi _ _ Hc') as [-> _ _].
      apply owned_by_fewer. by apply Forall_forall. }
    destruct (decide (a = of_owner f)) as [->|Ha'].
    + rewrite get_update_eq in Ha. apply fmap_Some in Ha as (c' & Hc' & ->).
      destruct (fp_clients _ _ _ _ _ _ _ _ _ Hi _ _ Hc') as [H1 H2 H3].
      split; cbn; [by rewrite (Hx c')| |done]. pose proof (length_filter (fun h => h <> of_handle f) (sc_open_handles c')). lia.
    + rewrite get_update_ne in Ha by done. specialize (Hx _ Ha).
      destruct (fp_clients _ _ _ _ _ _ _ _ _ Hi _ _ Ha) as [H1 H2 H3]. split; [|done..].
      rewrite Hx, H1. symmetry. apply filter_every, Forall_forall. intros h Hh ->.
      apply list_elem_of_fmap in Hh as (g & E & Hg). unfold owned_by in Hg.
      apply list_elem_of_filter in Hg as [Ho Hg]. apply list_elem_of_lookup in Hg as [j Hj].
      assert (j = idx).
      { eapply (NoDup_lookup (of_handle <$> fs_open_files s)); [done| |];
          rewrite list_lookup_fmap; [by rewrite Hj|by rewrite Hf; cbn; rewrite E]. }
      subst j. congruence.
  - apply Forall_delete. eapply Forall_impl; [apply (fp_owners _ _ _ _ _ _ _ _ _ Hi)|].
    intros g Hg. by apply update_is_Some.
Qed.

(** Moving the position of an open file. *)
Lemma moved_fmap {A} (g : OpenFile -> A) idx x (l : list OpenFile) :
  (forall f, g (of_with_position x f) = g f) ->
  g <$> alter (of_with_position x) idx l = g <$> l.
Proof.
  intros Hg. revert idx. induction l as [|f l IH]; intros [|idx]; [done..| |].
  - cbn. by rewrite Hg.
  - cbn. f_equal. apply IH.
Qed.
Lemma moved_owned a idx x (l : list OpenFile) :
  of_handle <$> owned_by a (alter (of_with_position x) idx l) = of_handle <$> owned_by a l.
Proof.
  revert idx. induction l as [|f l IH]; intros idx; [done|]. destruct idx as [|idx].
  - change (alter (of_with_position x) 0%nat (f :: l)) with (of_with_position x f :: l).
    unfold owned_by. rewrite !filter_cons.
    change (of_owner (of_with_position x f)) with (of_owner f).
    by destruct (decide (of_owner f = a)).
  - change (alter (of_with_position x) (S idx) (f :: l)) with (f :: alter (of_with_position x) idx l).
    unfold owned_by in *. rewrite !filter_cons. specialize (IH idx).
    destruct (decide (of_owner f = a)); [|done]. by rewrite !fmap_cons, IH.
Qed.
Lemma moved_elem f idx x (l : list OpenFile) :
  f ∈ alter (of_with_position x) idx l -> exists g, g ∈ l /\ (f = g \/ f = of_with_position x g).
Proof.
  revert idx. induction l as [|h l IH]; intros idx Hf; [destruct idx; by apply not_elem_of_nil in Hf|].
  destruct idx as [|idx]; apply elem_of_cons in Hf as [-> | Hf].
  - exists h. split; [left|auto].
  - exists f. split; [by right|auto].
  - exists h. split; [left|auto].
  - destruct (IH _ Hf) as (g & ? & ?). exists g. split; [by right|done].
Qed.
Lemma inv_set_position idx x s : u32 x -> inv s -> inv (set_position idx x s).
Proof.
  intros Hx []. set (l := fs_open_files s) in *.
  assert (Hin : forall f, f ∈ alter (of_with_position x) idx l ->
    exists g, g ∈ l /\ (f = g \/ f = of_with_position x g)) by (intros f; apply moved_elem).
  split; cbn; fold l; try done.
  - rewrite Forall_forall in *. intros f (g & Hg & [-> | ->])%Hin; [auto|].
    destruct (fp_open0 _ Hg) as [H1 H2 H3]. by split.
  - by rewrite moved_fmap.
  - by rewrite length_alter.
  - intros a c Ha. destruct (fp_clients0 _ _ Ha) as [H1 H2 H3]. split; [|done..].
    by rewrite moved_owned.
  - rewrite Forall_forall in *. intros f (g & Hg & [-> | ->])%Hin; by apply (fp_owners0 g).
  - intros Hv. by rewrite fp_removed0.
  - intros Hst. destruct (fp_sharing0 Hst) as [A B]. split.
    + intros f g (f' & Hf & Ef)%Hin (g' & Hg & Eg)%Hin. specialize (A f' g' Hf Hg).
      by destruct Ef as [-> | ->], Eg as [-> | ->].
    + intros f (f' & Hf & Ef)%Hin. specialize (B f' Hf). by destruct Ef as [-> | ->].
Qed.

(** *** Files and directories *)

Lemma inv_insert_file p d s :
  file_name_ok p -> inv s -> inv (with_files (BTreeMap.insert p d (fs_files s)) s).
Proof.
  intros Hp []. split; cbn; try done.
  - by apply Forall_insert_entry.
  - intros Hst. destruct (fp_sharing0 Hst) as [A B]. split; [done|]. intros f Hf Hd.
    destruct (decide (of_path f = p)) as [->|Hn]; [by rewrite get_insert_eq|].
    rewrite get_insert_ne by done. auto.
Qed.
Lemma inv_remove_file p s :
  (strict = true -> is_path_open p s = false) ->
  inv s -> inv (with_files (BTreeMap.remove p (fs_files s)) s).
Proof.
  intros Ho []. split; cbn; try done.
  - by apply Forall_remove_entry.
  - intros Hst. destruct (fp_sharing0 Hst) as [A B]. split; [done|]. intros f Hf Hd.
    rewrite get_remove_ne; [by apply B|]. intros E. specialize (Ho Hst).
    unfold is_path_open in Ho. apply existsb_never in Ho. rewrite Forall_forall in Ho.
    specialize (Ho _ Hf). cbn in Ho. by rewrite E, str_eqb_refl in Ho.
Qed.
Lemma inv_with_directories l s :
  Forall dir_name_ok l -> inv s -> inv (with_directories l s).
Proof. by intros Hl []. Qed.
Lemma inv_add_directory d s :
  dir_name_ok d -> inv s -> inv (with_directories (fs_directories s ++ [d]) s).
Proof.
  intros Hd Hi. apply inv_with_directories; [|done]. apply Forall_app. split; [apply Hi|].
  by constructor.
Qed.

(** ** Requests *)

Lemma u16_at_ok i r :
  bytes r -> (S i < length r)%nat -> exists v, u16_at i r = Some v /\ 0 <= v < 2 ^ 16.
Proof.
  intros Hb Hl. unfold u16_at. destruct (lookup_lt_is_Some_2 r i) as [a Ha]; [lia|].
  destruct (lookup_lt_is_Some_2 r (S i)) as [b Hb']; [lia|]. rewrite Ha, Hb'. cbn.
  eexists. split; [done|]. rewrite Forall_forall in Hb.
  apply (from_le_bytes_range [a; b]). constructor; [|constructor; [|done]];
    apply Hb; by eapply list_elem_of_lookup_2.
Qed.
Lemma canonical_le d u : fs_payload_len_is_canonical d u = true -> (u <= length d)%nat.
Proof. unfold fs_payload_len_is_canonical. intros [?%Nat.leb_le _]%andb_true_iff. done. Qed.
Lemma range_ok a b (d : list Z) :
  (a <= b)%nat -> (b <= length d)%nat ->
  range a b d = Some (take (b - a) (drop a d)) /\ length (take (b - a) (drop a d)) = (b - a)%nat.
Proof.
  intros H1 H2. unfold range. rewrite !(proj2 (Nat.leb_le _ _)) by done. split; [done|].
  rewrite length_take, length_drop. lia.
Qed.
Lemma lookup_ok i (d : list Z) : (i < length d)%nat -> exists x, d !! i = Some x.
Proof. intros. by apply lookup_lt_is_Some_2. Qed.
Lemma file_size_u32 n : u32 (fs_file_size_to_wire n).
Proof. unfold in_u, fs_file_size_to_wire. lia. Qed.
Lemma counted_file_ok r i j d p :
  dir_name_ok d -> parse_counted_file_path_with_count_at r i j d = Some p -> file_name_ok p.
Proof.
  unfold parse_counted_file_path_with_count_at. intros Hd H. inv_option.
  destruct (normalize_client_path x0 d false) as [q|] eqn:E; [|done]. cbn in H.
  injection H as <-. by eapply client_path_ok.
Qed.
Lemma conflict_free path flags s g :
  open_file_access_conflicts path flags s = false -> g ∈ fs_open_files s ->
  of_is_directory g = false -> of_path g = path ->
  open_mode_writes flags = false /\ open_mode_writes (of_flags g) = false.
Proof.
  unfold open_file_access_conflicts. intros Hc Hg Hd <-. apply existsb_never in Hc.
  rewrite Forall_forall in Hc. specialize (Hc _ Hg). cbn in Hc.
  rewrite Hd, str_eqb_refl in Hc. by apply orb_false_iff.
Qed.

(** ** Handlers *)

Definition known (a : Address) (s : FileServer) : Prop :=
  is_Some (BTreeMap.get a (fs_clients s)).

Lemma good_open_handle client tan flags (isdir : bool) path pattern s :
  inv s -> known client s -> get_volume_state s <> VolumeState.Removed ->
  open_caps_reached client s = false ->
  (if isdir then dir_name_ok path else file_name_ok path) ->
  (strict = true -> isdir = false ->
    is_Some (BTreeMap.get path (fs_files s)) /\
    forall g, g ∈ fs_open_files s -> of_is_directory g = false -> of_path g = path ->
      open_mode_writes flags = false /\ open_mode_writes (of_flags g) = false) ->
  good (open_handle client tan flags isdir path pattern s).
Proof.
  intros Hi [c Hc] Hv Hcap Hp Hs. unfold open_handle.
  set (pos := if negb isdir && has_flag flags OpenFlags.Append then _ else Some 0).
  assert (Hpos : forall x, pos = Some x -> u32 x).
  { subst pos. intros x. destruct (_ && _); [|by intros [= <-]].
    intros (d & _ & ->)%fmap_Some. apply file_size_u32. }
  clearbody pos. destruct pos as [x|]; [|by apply good_refuse]. specialize (Hpos x eq_refl).
  destruct (allocate_handle_ok s Hi) as (n & E & Hn & Hh).
  destruct (allocate_handle s) as [s' h]. cbn [fst snd] in *. subst s'.
  destruct (Z.eqb_spec h INVALID_FILE_HANDLE) as [->|Hne].
  - apply good_refuse. by apply inv_next_handle.
  - destruct Hh as [|[Hr Hnew]]; [done|]. apply fs_good_intro.
    unfold open_caps_reached in Hcap. rewrite Hc in Hcap.
    apply orb_false_iff in Hcap as [H1%Z.leb_gt H2%Z.leb_gt].
    assert (Hi' := inv_next_handle n s Hn Hi).
    apply (inv_open_file (mkOpen h client path x flags isdir pattern) (with_next_handle n s) c
              Hi'); cbn; first [done | lia | by split].
Qed.
Lemma good_open_directory client tan flags path pattern s :
  inv s -> known client s -> get_volume_state s <> VolumeState.Removed ->
  open_caps_reached client s = false -> dir_name_ok path ->
  good (open_directory client tan flags path pattern s).
Proof.
  intros Hi Hk Hv Hcap Hp. unfold open_directory.
  assert (E : (if negb (str_eqb path []) && negb (ends_with root path) then path ++ [bs] else path)
              = path).
  { destruct Hp as (cs & _ & -> & _). by rewrite dir_path_last, andb_false_r. }
  rewrite E. destruct (directory_exists path s); [by apply good_open_handle|].
  destruct (file_exists_at_directory_path path s); [by apply good_refuse|].
  destruct (has_flag flags OpenFlags.Create); [|by apply good_refuse].
  destruct (directory_exists (file_parent_directory_path path) s); [|by apply good_refuse].
  apply good_open_handle; try done. by apply (inv_add_directory path s).
Qed.
Lemma good_open_file client tan flags path s :
  inv s -> known client s -> get_volume_state s <> VolumeState.Removed ->
  open_caps_reached client s = false -> file_name_ok path ->
  good (open_file client tan flags path s).
Proof.
  intros Hi Hk Hv Hcap Hp. unfold open_file.
  destruct (is_file_path_directory path s); [by apply good_refuse|].
  destruct (BTreeMap.contains_key path (fs_files s)) eqn:Ex; cbn [andb].
  - apply contains_key_spec in Ex. destruct (_ && _); [by apply good_refuse|].
    destruct (open_file_access_conflicts path flags s) eqn:Ec; [by apply good_refuse|].
    apply good_open_handle; try done. intros _ _. split; [done|]. intros g.
    by apply conflict_free with (s := s).
  - apply contains_key_false in Ex. destruct (negb (has_flag _ _)); [by apply good_refuse|].
    destruct (negb (directory_exists _ s)).
    { destruct (file_exists_at_directory_path _ s); by apply good_refuse. }
    apply good_open_handle; try done; [by apply inv_insert_file|].
    intros Hst _. cbn. split; [by rewrite get_insert_eq|]. intros g Hg Hd E.
    destruct (sh_exists _ _ (fp_sharing _ _ _ _ _ _ _ _ _ Hi Hst) g Hg Hd) as [d Hx].
    by rewrite E, Ex in Hx.
Qed.
Lemma good_handle_open_file client tan r s :
  bytes r -> inv s -> known client s -> good (handle_open_file client tan r s).
Proof.
  intros Hb Hi Hk. unfold handle_open_file. apply good_media; [done|]. intros Hv.
  destruct (Nat.ltb_spec (length r) 5); [by apply good_refuse|].
  destruct (lookup_ok 2 r) as [flags ->]; [lia|]. cbn [mbind option_bind].
  destruct (counted_path_bytes r 3 5) as [pb|]; [|by apply good_refuse].
  destruct (decode_wire_path pb) as [rp|]; [|by apply good_refuse].
  destruct (negb (open_flags_have_no_reserved_bits flags)); [by apply good_refuse|].
  set (isdir := get_access_mode flags =? OpenFlags.bit OpenFlags.OpenDir). destruct (_ && _); [by apply good_refuse|].
  destruct (_ && _); [by apply good_refuse|]. assert (Hc := cwd_ok client s Hi).
  destruct isdir.
  - destruct (normalize_directory_listing_request rp (cwd client s)) as [[path pat]|] eqn:E;
      cbn [result_ok]; [|by apply good_refuse].
    destruct (open_caps_reached client s) eqn:Ecap; [by apply good_refuse|].
    apply good_open_directory; try done. destruct Hc as (cs & Hcs & Ecs & _).
    rewrite Ecs in E. apply listing_request_ok in E as (rs & ? & ? & ?); [by exists rs|done].
  - destruct (normalize_client_path rp (cwd client s) false) as [path|] eqn:E;
      cbn [result_ok mbind option_bind]; [|by apply good_refuse].
    destruct (open_caps_reached client s) eqn:Ecap; [by apply good_refuse|].
    apply good_open_file; try done. by eapply client_path_ok.
Qed.
Lemma owns_spec h a f : owns h a f = true <-> of_handle f = h /\ of_owner f = a.
Proof. unfold owns. by rewrite andb_true_iff, !Z.eqb_eq. Qed.
Lemma good_handle_close_file client tan r s :
  inv s -> good (handle_close_file client tan r s).
Proof.
  intros Hi. unfold handle_close_file.
  destruct (Nat.ltb_spec (length r) 3); [by apply good_refuse|].
  destruct (negb _); [by apply good_refuse|].
  destruct (lookup_ok 2 r) as [h ->]; [lia|]. cbn [mbind option_bind].
  destruct (position _ _) as [idx|] eqn:E; [|by apply good_refuse].
  apply position_Some in E as (f & Hf & [Hh Ho]%owns_spec & _). apply good_succeed.
  subst. by apply (inv_close idx f s).
Qed.

(** *** Listing *)

Lemma strip_prefix_Some a b r : strip_prefix a b = Some r -> b = a ++ r.
Proof.
  revert b. induction a as [|x a IH]; intros b H; [by injection H as <-|].
  destruct b as [|y b]; [done|]. cbn in H. destruct (Z.eqb_spec x y) as [->|]; [|done]. cbn. f_equal. auto.
Qed.
Lemma components_no_star cs : components_ok false cs -> 0x2A ∉ join bs cs.
Proof.
  intros Hc [? | (p & Hp & Hx)]%elem_of_join; [done|]. rewrite Forall_forall in Hc.
  specialize (Hc _ Hp). apply valid_component_spec in Hc as (_ & _ & _ & _ & [|Hw]); [done|].
  apply existsb_never in Hw. rewrite Forall_forall in Hw. by specialize (Hw _ Hx).
Qed.
Lemma file_name_no_star p : file_name_ok p -> 0x2A ∉ p.
Proof.
  intros (cs & Hn & Hc & ->). destruct cs as [|c cs]; [done|]. cbn [abs_path].
  rewrite not_elem_of_cons. split; [done|by apply components_no_star].
Qed.
Lemma dir_name_no_star p : dir_name_ok p -> 0x2A ∉ p.
Proof.
  intros (cs & Hc & -> & _). destruct cs as [|c cs]; [by intros ?%list_elem_of_singleton|].
  cbn [dir_path]. rewrite not_elem_of_cons, not_elem_of_app, not_elem_of_cons.
  split_and!; [done|by apply components_no_star|done|apply not_elem_of_nil].
Qed.
Lemma pattern_skips_total name pattern :
  0x2A ∉ name -> exists b, pattern_skips name pattern = Some b.
Proof.
  intros Hn. unfold pattern_skips. destruct (str_eqb _ _); [by eexists|].
  destruct (wildcard_match_total name pattern Hn) as [b ->]. by eexists.
Qed.
Lemma mapM_total {A B} (f : A -> option B) (l : list A) :
  Forall (fun x => is_Some (f x)) l -> is_Some (mapM f l).
Proof. apply mapM_is_Some_2. Qed.
Lemma list_directory_total path pattern s :
  inv s -> exists entries, list_directory path pattern s = Some entries.
Proof.
  intros Hi. unfold list_directory.
  destruct (normalize_directory_path path root) as [d|]; [|by eexists].
  destruct (mapM_total (list_file d pattern s) (fs_files s)) as [l1 ->].
  { eapply Forall_impl; [apply Hi|]. intros [p data] Hp. unfold list_file. cbn [fst] in *.
    destruct (strip_prefix d p) as [r|] eqn:E; [|done]. apply strip_prefix_Some in E as ->.
    destruct (_ || _); [done|]. apply file_name_no_star in Hp.
    destruct (pattern_skips_total r pattern) as [b ->]; [set_solver|]. by destruct b. }
  destruct (mapM_total (list_subdirectory d pattern s) (fs_directories s)) as [l2 ->].
  { eapply Forall_impl; [apply (fp_dirs _ _ _ _ _ _ _ _ _ Hi)|]. intros p Hp.
    unfold list_subdirectory. destruct (str_eqb p d); [done|].
    destruct (strip_prefix d p) as [r|] eqn:E; [|done]. apply strip_prefix_Some in E as ->.
    destruct (str_eqb r []); [done|]. set (nested := match find_byte bs r with Some i => _ | None => _ end).
    destruct nested; [done|].
    apply dir_name_no_star in Hp.
    destruct (pattern_skips_total r pattern) as [b ->]; [set_solver|]. by destruct b. }
  cbn. by eexists.
Qed.

Lemma good_read_directory idx f tan count hidden s :
  u32 (of_position f) -> inv s -> good (handle_read_directory idx f tan count hidden s).
Proof.
  intros Hp Hi. unfold handle_read_directory.
  destruct (list_directory_total (of_path f) (of_directory_pattern f) s Hi) as [entries ->].
  cbn [mbind option_bind]. set (l := if hidden then entries else _). clearbody l.
  destruct (_ <=? _)%nat; [by apply good_refuse|].
  destruct (mapM encode_directory_entry _); [|by apply good_refuse].
  apply fs_good_intro. apply inv_set_position; [|done]. destruct Hp. by apply in_u_sat_add; lia.
Qed.
Lemma open_position idx f s : inv s -> fs_open_files s !! idx = Some f -> open_file_ok f.
Proof.
  intros Hi Hf. apply (Forall_lookup_1 _ _ idx f (fp_open _ _ _ _ _ _ _ _ _ Hi) Hf).
Qed.
Lemma position_lookup (p : OpenFile -> bool) l idx :
  position p l = Some idx -> exists f, l !! idx = Some f /\ p f = true.
Proof. intros (f & Hf & Hp & _)%position_Some. eauto. Qed.
Lemma good_handle_read_file client tan r s :
  bytes r -> inv s -> good (handle_read_file client tan r s).
Proof.
  intros Hb Hi. unfold handle_read_file, READ_FILE_REQUEST_LEN. apply good_media; [done|]. intros _.
  destruct (Nat.ltb_spec (length r) 8); [by apply good_refuse|].
  destruct (fs_payload_len_is_canonical r 8); [|by apply good_refuse]. cbn [negb].
  destruct (lookup_ok 6 r) as [r6 ->]; [lia|]. destruct (lookup_ok 7 r) as [r7 ->]; [lia|].
  cbn [mbind option_bind]. destruct (_ || _); [by apply good_refuse|].
  destruct (lookup_ok 2 r) as [h ->]; [lia|].
  destruct (u16_at_ok 3 r Hb) as (count & -> & Hcount); [lia|].
  destruct (lookup_ok 5 r) as [r5 ->]; [lia|]. cbn [mbind option_bind].
  set (hidden := if _ || _ then Some false else _). clearbody hidden.
  destruct hidden as [hidden|]; [|by apply good_refuse].
  destruct (position _ _) as [idx|] eqn:E; [|by apply good_refuse].
  apply position_lookup in E as (f & Hf & _). rewrite Hf. cbn [mbind option_bind].
  destruct (open_position idx f s Hi Hf) as [_ Hp _]. destruct Hp as [Hp1 Hp2].
  destruct (of_is_directory f); [by apply good_read_directory|].
  destruct (_ && _); [by apply good_refuse|].
  destruct (BTreeMap.get (of_path f) (fs_files s)) as [data|]; [|by apply good_refuse].
  assert (Hlen := file_size_u32 (length data)).
  assert (Hle : fs_file_size_to_wire (length data) <= Z.of_nat (length data))
    by (unfold fs_file_size_to_wire; lia).
  destruct (Z.leb_spec (fs_file_size_to_wire (length data)) (of_position f)); [by apply good_refuse|].
  rewrite checked_sub_Some by lia. cbn [mbind option_bind].
  destruct Hlen as [Hl1 Hl2].
  destruct (range_ok (Z.to_nat (of_position f)) (Z.to_nat (of_position f + Z.min count
    (fs_file_size_to_wire (length data) - of_position f))) data) as [-> _]; [lia..|].
  cbn [mbind option_bind]. rewrite checked_add_Some by lia. cbn [mbind option_bind].
  apply fs_good_intro, inv_set_position; [split; lia|done].
Qed.

Lemma write_data_ok position payload data :
  exists out, write_data position payload data = Some out
    /\ out = take position (data ++ replicate (position + length payload - length data) 0)
              ++ payload ++ drop (position + length payload) data.
Proof.
  unfold write_data. rewrite !(proj2 (Nat.leb_le _ _)).
  - eexists. split; [done|]. do 2 f_equal. rewrite drop_app.
    f_equal. rewrite (drop_ge (replicate _ _)); [by rewrite app_nil_r|]. rewrite length_replicate. lia.
  - rewrite length_app, length_replicate. lia.
  - lia.
Qed.
Lemma good_handle_write_file client tan r s :
  bytes r -> inv s -> good (handle_write_file client tan r s).
Proof.
  intros Hb Hi. unfold handle_write_file. apply good_media; [done|]. intros _.
  destruct (Nat.ltb_spec (length r) 5); [by apply good_refuse|].
  destruct (lookup_ok 2 r) as [h ->]; [lia|].
  destruct (u16_at_ok 3 r Hb) as (count & -> & Hcount); [lia|]. cbn [mbind option_bind].
  destruct (fs_payload_len_is_canonical r (5 + Z.to_nat count)) eqn:Ecan; [|by apply good_refuse].
  apply canonical_le in Ecan. cbn [negb].
  destruct (position _ _) as [idx|] eqn:E; [|by apply good_refuse].
  apply position_lookup in E as (f & Hf & _). rewrite Hf. cbn [mbind option_bind].
  destruct (open_position idx f s Hi Hf) as [_ Hp Hname].
  destruct (of_is_directory f); [by apply good_refuse|].
  destruct (_ && _); [by apply good_refuse|].
  destruct (path_is_read_only _ _); [by apply good_refuse|].
  destruct (BTreeMap.get (of_path f) (fs_files s)) as [data|]; [|by apply good_refuse].
  destruct (checked_add 32 (of_position f) count) as [np|] eqn:Enp; [|by apply good_refuse].
  assert (Hnp : u32 np).
  { destruct Hp. unfold checked_add in Enp. destruct (Z.ltb_spec (of_position f + count) (2 ^ 32));
      [|done]. injection Enp as <-. split; lia. }
  destruct (checked_add 64 (of_position f) count); [|by apply good_refuse].
  destruct (range_ok 5 (5 + Z.to_nat count) r) as [-> Hl]; [lia..|]. cbn [mbind option_bind].
  destruct (write_data_ok (Z.to_nat (of_position f))
    (take (5 + Z.to_nat count - 5) (drop 5 r)) data) as (out & -> & _). cbn [mbind option_bind].
  apply fs_good_intro. apply (inv_set_position idx np (with_files _ s)); [done|].
  by apply inv_insert_file.
Qed.
Lemma good_handle_seek_file client tan r s :
  bytes r -> inv s -> good (handle_seek_file client tan r s).
Proof.
  intros Hb Hi. unfold handle_seek_file, SEEK_FILE_REQUEST_LEN. apply good_media; [done|]. intros _.
  destruct (fs_payload_len_is_canonical r 8) eqn:Ecan; [|by apply good_refuse].
  apply canonical_le in Ecan. cbn [negb].
  destruct (lookup_ok 2 r) as [h ->]; [lia|]. destruct (lookup_ok 3 r) as [mode ->]; [lia|].
  destruct (range_ok 4 8 r) as [-> _]; [lia..|]. cbn [mbind option_bind fmap option_fmap option_map].
  destruct (position _ _) as [idx|] eqn:E; [|by apply good_refuse].
  apply position_lookup in E as (f & Hf & _). rewrite Hf. cbn [mbind option_bind].
  destruct (of_is_directory f); [by apply good_refuse|].
  set (end_ := match BTreeMap.get (of_path f) (fs_files s) with Some d => _ | None => 0 end).
  assert (Hend : u32 end_).
  { subst end_. destruct (BTreeMap.get _ _); [apply file_size_u32|done]. }
  clearbody end_. set (base := if _ =? _ then Some 0 else _). clearbody base.
  destruct base as [base|]; [|by apply good_refuse].
  match goal with |- context [if (?t <? 0) || _ then _ else _] =>
    destruct (Z.ltb_spec t 0); [by apply good_refuse|]; destruct (Z.ltb_spec end_ t);
      [by apply good_refuse|] end.
  apply fs_good_intro, inv_set_position; [|done]. destruct Hend. split; lia.
Qed.

(** *** Directories and metadata *)

Lemma dir_snoc cs c : dir_path (cs ++ [c]) = parent_prefix cs ++ bs :: c ++ [bs].
Proof.
  replace (dir_path (cs ++ [c])) with (abs_path (cs ++ [c]) ++ [bs]) by (by destruct cs).
  rewrite abs_path_snoc, <- app_assoc. done.
Qed.
Lemma dir_snoc_not_root cs c : c <> [] -> dir_path (cs ++ [c]) <> root.
Proof.
  intros Hc. rewrite dir_snoc. intros Ec. apply (f_equal length) in Ec. rewrite length_app in Ec.
  cbn in Ec. rewrite length_app in Ec. cbn in Ec. destruct c; [done|]. cbn in Ec. lia.
Qed.
Lemma parent_take cs c :
  take (length (parent_prefix cs) + 1) (dir_path (cs ++ [c])) = dir_path cs.
Proof.
  rewrite dir_snoc. change (bs :: c ++ [bs]) with ([bs] ++ c ++ [bs]). rewrite app_assoc.
  rewrite take_app_length' by (rewrite length_app; done). by destruct cs.
Qed.
Lemma parent_directory_snoc cs c :
  valid_component false c = true -> parent_directory (dir_path (cs ++ [c])) = Some (dir_path cs).
Proof.
  intros Hv. apply valid_no_sep in Hv as [Hne Hns]. unfold parent_directory.
  rewrite (proj2 (str_eqb_false _ root)) by by apply dir_snoc_not_root.
  rewrite checked_sub_Some by (rewrite dir_snoc, length_app; cbn; lia). cbn [mbind option_bind].
  assert (Et : take (Z.to_nat (Z.of_nat (length (dir_path (cs ++ [c]))) - 1)) (dir_path (cs ++ [c]))
               = parent_prefix cs ++ bs :: c).
  { rewrite dir_snoc. replace (parent_prefix cs ++ bs :: c ++ [bs])
      with ((parent_prefix cs ++ bs :: c) ++ [bs]) by (by rewrite <- app_assoc).
    apply take_app_length'. rewrite !length_app. cbn. lia. }
  rewrite Et, rfind_app by done. by rewrite parent_take.
Qed.
Lemma parent_directory_ok d :
  dir_name_ok d -> exists p, parent_directory d = Some p /\ dir_name_ok p.
Proof.
  intros (cs & Hc & -> & Hl).
  destruct cs as [|c0 cs0 _] using rev_ind; [exists root; split; [done|apply dir_name_root]|].
  apply Forall_app in Hc as [Hc Hc0]. inv Hc0.
  exists (dir_path cs0). split; [by apply parent_directory_snoc|]. exists cs0. split_and!; [done..|].
  rewrite <- (parent_take cs0 c0), length_take. lia.
Qed.
Lemma good_handle_change_directory client tan r s :
  inv s -> good (handle_change_directory client tan r s).
Proof.
  intros Hi. unfold handle_change_directory. apply good_media; [done|]. intros _.
  destruct (counted_path_bytes r 2 4) as [pb|]; [|by apply good_refuse].
  destruct (negb _); [by apply good_refuse|].
  destruct (decode_wire_path pb) as [rp|]; [|by apply good_refuse].
  destruct (str_eqb rp dotdot).
  { destruct (parent_directory_ok (cwd client (ensure_client client s))) as (p & -> & Hp);
      [by apply cwd_ok, inv_ensure_client|].
    by apply good_succeed, inv_change_directory. }
  destruct (str_eqb rp dot); [by apply good_succeed|].
  destruct (_ || _); [apply good_succeed, inv_change_directory; [apply dir_name_root|done]|].
  destruct (normalize_directory_path rp (cwd client s)) as [d|] eqn:E; [|by apply good_refuse].
  destruct (has_directory d s); cbn [negb].
  - apply good_succeed, inv_change_directory; [|done]. eapply directory_path_ok; [|exact E].
    by apply cwd_ok.
  - destruct (file_exists_at_directory_path d s); by apply good_refuse.
Qed.
Lemma good_handle_get_current_directory client tan r s :
  inv s -> good (handle_get_current_directory client tan r s).
Proof.
  intros Hi. unfold handle_get_current_directory. apply good_media; [done|]. intros _.
  destruct (negb _); [by apply good_refuse|]. destruct (negb _); [by apply good_refuse|].
  destruct (_ <? _); [by apply good_refuse|by apply fs_good_intro].
Qed.

Lemma two_paths_ok r d :
  bytes r -> dir_name_ok d -> exists paths, parse_two_counted_file_paths r d = Some paths /\
    forall a b, paths = Some (a, b) -> file_name_ok a /\ file_name_ok b.
Proof.
  intros Hb Hd. unfold parse_two_counted_file_paths.
  destruct (Nat.ltb_spec (length r) 6); [by eexists|].
  destruct (u16_at_ok 2 r Hb) as (sl & -> & Hs); [lia|].
  destruct (u16_at_ok 4 r Hb) as (dl & -> & Hdl); [lia|]. cbn [mbind option_bind].
  destruct (fs_payload_len_is_canonical r _) eqn:Ec; [|by eexists]. apply canonical_le in Ec.
  cbn [negb]. destruct (range_ok 6 (6 + Z.to_nat sl) r) as [-> _]; [lia..|].
  destruct (range_ok (6 + Z.to_nat sl) (6 + Z.to_nat sl + Z.to_nat dl) r) as [-> _]; [lia..|].
  cbn [mbind option_bind]. eexists. split; [done|]. intros a b H'. inv_option.
  destruct (normalize_client_path x d false) as [q|] eqn:E1; [|done].
  destruct (normalize_client_path x0 d false) as [q'|] eqn:E2; [|done].
  cbn in *. simplify_eq. split; by eapply client_path_ok.
Qed.
Lemma inv_move a b data s :
  file_name_ok b -> is_path_open a s = false -> inv s -> inv (move_entry a b data s).
Proof.
  intros Hb Ho Hi. unfold move_entry.
  apply (inv_insert_file b data (with_files (BTreeMap.remove a (fs_files s)) s)); [done|].
  by apply inv_remove_file.
Qed.
Lemma good_handle_move_file client tan r s :
  bytes r -> inv s -> good (handle_move_file client tan r s).
Proof.
  intros Hb Hi. unfold handle_move_file. apply good_media; [done|]. intros _.
  destruct (negb _); [by apply good_refuse|].
  destruct (two_paths_ok r (cwd client s) Hb) as (paths & -> & Hp); [by apply cwd_ok|].
  cbn [mbind option_bind]. destruct paths as [[a b]|]; [|by apply good_refuse].
  destruct (Hp a b eq_refl) as [_ Hpb].
  destruct (str_eqb a b); [by apply good_refuse|].
  destruct (is_file_path_directory a s); [by apply good_refuse|].
  destruct (is_path_open a s) eqn:Eo; cbn [orb]; [by apply good_refuse|].
  destruct (is_path_open b s); [by apply good_refuse|].
  destruct (_ || _); [by apply good_refuse|].
  destruct (directory_exists _ s); cbn [negb].
  2: { destruct (file_exists_at_directory_path _ s); by apply good_refuse. }
  destruct (path_is_read_only a s); [by apply good_refuse|].
  destruct (BTreeMap.get a (fs_files s)) as [data|]; [|by apply good_refuse].
  by apply good_succeed, inv_move.
Qed.
Lemma good_handle_delete_file client tan r s :
  inv s -> good (handle_delete_file client tan r s).
Proof.
  intros Hi. unfold handle_delete_file. apply good_media; [done|]. intros _.
  destruct (negb _); [by apply good_refuse|].
  destruct (parse_counted_file_or_directory_path r 2 (cwd client s)) as [p|];
    [|by apply good_refuse].
  destruct (is_file_path_directory p s).
  - unfold delete_directory. destruct (str_eqb _ root); [by apply good_refuse|].
    destruct (_ || _); [by apply good_refuse|]. apply good_succeed.
    apply (inv_with_directories (filter (fun d => d <> ensure_directory_suffix p)
      (fs_directories s)) s); [|done]. apply Forall_filter_P, Hi.
  - destruct (is_path_open p s) eqn:Eo; [by apply good_refuse|].
    destruct (path_is_read_only p s); [by apply good_refuse|].
    destruct (BTreeMap.contains_key p (fs_files s)); [|by apply good_refuse].
    apply good_succeed. by apply (inv_remove_file p s).
Qed.
Lemma good_handle_get_file_attributes client tan r s :
  inv s -> good (handle_get_file_attributes client tan r s).
Proof.
  intros Hi. unfold handle_get_file_attributes. apply good_media; [done|]. intros _.
  destruct (negb _); [by apply good_refuse|].
  destruct (parse_counted_file_path r 2 (cwd client s)) as [p|]; [|by apply good_refuse].
  destruct (match BTreeMap.get p (fs_file_attrs s) with Some _ => _ | None => _ end);
    [by apply fs_good_intro|by apply good_refuse].
Qed.
Lemma good_handle_set_file_attributes client tan r s :
  inv s -> good (handle_set_file_attributes client tan r s).
Proof.
  intros Hi. unfold handle_set_file_attributes. apply good_media; [done|]. intros _.
  destruct (negb _); [by apply good_refuse|].
  destruct (Nat.ltb_spec (length r) 5); [by apply good_refuse|].
  destruct (lookup_ok 2 r) as [a ->]; [lia|]. cbn [mbind option_bind].
  destruct (negb _); [by apply good_refuse|].
  destruct (parse_counted_file_path_with_count_at r 3 5 (cwd client s)) as [p|];
    [|by apply good_refuse].
  destruct (is_file_path_directory p s); [by apply good_refuse|].
  destruct (negb _); [by apply good_refuse|].
  destruct (is_path_open p s); [by apply good_refuse|by apply good_succeed].
Qed.
Lemma good_handle_get_file_date_time client tan r s :
  bytes r -> inv s -> good (handle_get_file_date_time client tan r s).
Proof.
  intros Hb Hi. unfold handle_get_file_date_time. apply good_media; [done|]. intros _.
  assert (Hp : exists parsed, parse_counted_file_path_u16 r (cwd client s) = Some parsed).
  { unfold parse_counted_file_path_u16. destruct (Nat.ltb_spec (length r) 4); [by eexists|].
    destruct (u16_at_ok 2 r Hb) as (n & -> & Hn); [lia|]. cbn [mbind option_bind].
    destruct (fs_payload_len_is_canonical r _) eqn:Ec; [|by eexists]. apply canonical_le in Ec.
    destruct (range_ok 4 (4 + Z.to_nat n) r) as [-> _]; [lia..|]. by eexists. }
  destruct Hp as [parsed ->]. cbn [mbind option_bind].
  destruct parsed as [[p|e]|]; [|by apply good_refuse..].
  destruct (str_eqb p root); [by apply good_refuse|].
  destruct (if BTreeMap.contains_key p (fs_files s) then _ else _); [|by apply good_refuse].
  destruct (file_date_time _ s). by apply fs_good_intro.
Qed.

(** *** The volume *)

Lemma fs_inv_transition v s :
  (v = VolumeState.Removed -> fs_open_files s = []) -> inv s -> inv (volume_transition v s).
Proof.
  intros Hv []. split; cbn; try done. unfold get_volume_state, volume_transition. cbn.
  unfold StateMachine.transition. case_bool_decide as E; cbn; [|done].
  intros Hr. apply Hv. by rewrite E.
Qed.
Lemma inv_clear g s :
  (forall c, sc_open_handles (g c) = []) ->
  (forall c, dir_name_ok (sc_current_directory c) -> dir_name_ok (sc_current_directory (g c))) ->
  inv s -> inv (with_clients (BTreeMap.map_values g (fs_clients s)) (with_open_files [] s)).
Proof.
  intros Hg Hd Hi. apply inv_fewer; [done|by apply sorted_map_values, Hi|apply sublist_nil_l| |done].
  intros a c Ha. rewrite get_map_values in Ha. apply fmap_Some in Ha as (c' & Hc' & ->).
  destruct (fp_clients _ _ _ _ _ _ _ _ _ Hi _ _ Hc') as [_ _ H3].
  split; rewrite ?Hg; [done| |auto]. apply (cfg_client _ (fp_config _ _ _ _ _ _ _ _ _ Hi)).
Qed.
Lemma inv_volume_removed s : inv s -> inv (volume_removed s).
Proof.
  intros Hi. apply (fs_inv_transition VolumeState.Removed (clear_media_dependent_client_state s)); [done|].
  apply inv_clear; [done| |done]. intros c _. apply dir_name_root.
Qed.
Lemma inv_prepare s : inv s -> inv (prepare_volume_for_removal s).1.
Proof.
  intros Hi. unfold prepare_volume_for_removal. destruct (get_volume_state s); try done;
    by apply (fs_inv_transition VolumeState.PreparingForRemoval s).
Qed.
Lemma inv_maintain a s : inv s -> inv (receive_volume_maintain_request a s).
Proof. unfold receive_volume_maintain_request. by repeat case_bool_decide. Qed.
Lemma good_handle_volume_status client tan r s :
  bytes r -> inv s -> good (handle_volume_status client tan r s).
Proof.
  intros Hb Hi. unfold handle_volume_status.
  destruct (Nat.ltb_spec (length r) 5); [by apply fs_good_intro|].
  destruct (lookup_ok 2 r) as [m ->]; [lia|].
  destruct (u16_at_ok 3 r Hb) as (n & -> & Hn); [lia|]. cbn [mbind option_bind].
  destruct (fs_payload_len_is_canonical r _) eqn:Ec; [|by apply fs_good_intro].
  apply canonical_le in Ec. cbn [negb].
  destruct (range_ok 5 (5 + Z.to_nat n) r) as [-> _]; [lia..|]. cbn [mbind option_bind].
  destruct (utf8_valid _); [|by apply fs_good_intro]. cbn [negb].
  destruct (volume_status_path_matches _ s); [|by apply fs_good_intro]. cbn [negb].
  destruct (_ =? VOLUME_MODE_PREPARE_REMOVAL).
  { assert (Hp := inv_prepare s Hi). destruct (prepare_volume_for_removal s) as [s' frames].
    destruct frames; by apply fs_good_intro. }
  destruct (_ =? VOLUME_MODE_MAINTAIN); [by apply fs_good_intro, inv_maintain|].
  destruct (_ =? 0); [|by apply fs_good_intro].
  destruct (_ && _); [|by apply fs_good_intro].
  by apply fs_good_intro, (inv_volume_removed (clear_volume_maintain_request client s)).
Qed.
Lemma init_request_ok r :
  bytes r -> exists p, parse_initialize_volume_request r = Some p /\
    forall n, p = Ok (Some n) -> is_valid_volume_name n = true.
Proof.
  intros Hb. unfold parse_initialize_volume_request.
  destruct (fs_payload_len_is_canonical r 2); [by eexists|].
  destruct (Nat.ltb_spec (length r) 9); [by eexists|].
  destruct (u16_at_ok 7 r Hb) as (n & -> & Hn); [lia|]. cbn [mbind option_bind].
  destruct (fs_payload_len_is_canonical r _) eqn:Ec; [|by eexists]. apply canonical_le in Ec.
  cbn [negb]. destruct (n =? 0); [by eexists|].
  destruct (range_ok 9 (9 + Z.to_nat n) r) as [-> _]; [lia..|]. cbn [mbind option_bind].
  destruct (utf8_valid _); [|by eexists]. cbn [negb].
  destruct (is_valid_volume_name _) eqn:E; [|by eexists]. eexists. split; [done|].
  cbn [negb]. by intros m [= <-].
Qed.
Lemma inv_initialize name s :
  (forall n, name = Some n -> is_valid_volume_name n = true) ->
  get_volume_state s <> VolumeState.Removed ->
  inv s -> inv (initialize_volume name s).
Proof.
  intros Hn Hv Hi.
  assert (H1 : inv (with_directories [root] (with_files [] (clear_all_open_handles s)))).
  { destruct (inv_clear (with_open_handles []) s) as []; [done..|]. split; cbn; try done.
    - constructor; [apply dir_name_root|done].
    - intros _. split; [intros f g Hf|intros f Hf]; by apply not_elem_of_nil in Hf. }
  apply (inv_map_clients (with_current_directory root)) in H1; [|done|intros; apply dir_name_root].
  unfold initialize_volume. cbv zeta.
  match goal with |- inv (if bool_decide (get_volume_state ?t = _) then _ else _) =>
    assert (H2 : inv t); [|assert (H3 : get_volume_state t = get_volume_state s)] end.
  - destruct name as [n|]; [|exact H1]. destruct H1. split; cbn; try done. by apply Hn.
  - by destruct name.
  - rewrite H3. by rewrite bool_decide_eq_false_2.
Qed.
Lemma good_handle_initialize_volume tan r s :
  bytes r -> inv s -> good (handle_initialize_volume tan r s).
Proof.
  intros Hb Hi. unfold handle_initialize_volume. destruct (negb _); [by apply good_refuse|].
  apply good_media; [done|]. intros Hv. destruct (init_request_ok r Hb) as (p & -> & Hp).
  cbn [mbind option_bind]. destruct p as [name|]; [|by apply good_refuse].
  case_bool_decide; [by apply good_refuse|]. apply good_succeed, inv_initialize; [|done..].
  intros n ->. by apply Hp.
Qed.

(** ** Dispatch and time *)

Lemma good_execute client f tan r s :
  bytes r -> inv s -> known client s -> good (execute_function client f tan r s).
Proof.
  intros Hb Hi Hk. unfold execute_function. destruct (FSFunction.from_u8 f) as [fn|];
    [|by apply fs_good_intro].
  destruct fn; try by apply fs_good_intro.
  - unfold handle_get_properties. destruct (negb _); [by apply good_refuse|by apply fs_good_intro].
  - by apply good_handle_get_current_directory.
  - by apply good_handle_change_directory.
  - by apply good_handle_open_file.
  - by apply good_handle_seek_file.
  - by apply good_handle_read_file.
  - by apply good_handle_write_file.
  - by apply good_handle_close_file.
  - by apply good_handle_move_file.
  - by apply good_handle_delete_file.
  - by apply good_handle_get_file_attributes.
  - by apply good_handle_set_file_attributes.
  - by apply good_handle_get_file_date_time.
  - by apply good_handle_initialize_volume.
Qed.
Lemma inv_cache a tan r out s : inv s -> inv (cache_response a tan r out s).
Proof. intros Hi. by apply inv_update_client. Qed.
Lemma good_new_request client f tan r s :
  bytes r -> inv s -> known client s -> good (new_request client f tan r s).
Proof.
  intros Hb Hi Hk. unfold new_request. destruct (f =? _).
  - destruct (good_handle_volume_status client tan r s Hb Hi) as (s' & out & -> & Hi').
    cbn [mbind option_bind]. destruct out as [|o out]; [by apply fs_good_intro|].
    by apply fs_good_intro, inv_cache.
  - destruct (good_execute client f tan r s Hb Hi Hk) as (s' & out & -> & Hi').
    cbn [mbind option_bind]. by apply fs_good_intro, inv_cache.
Qed.
Lemma known_ensure a s : known a (ensure_client a s).
Proof. unfold known. cbn. by rewrite get_or_insert_eq. Qed.
Lemma inv_handle_ccm a s : inv s -> inv (handle_ccm a s).
Proof.
  intros Hi. unfold handle_ccm. cbv zeta. destruct (negb _); by apply inv_update_client.
Qed.
Lemma good_handle_client_message msg s :
  bytes (m_data msg) -> inv s -> good (handle_client_message msg s).
Proof.
  intros Hb Hi. unfold handle_client_message.
  destruct (_ || _ || _ || _) eqn:Eg; [by apply fs_good_intro|].
  apply orb_false_iff in Eg as [_ Eg%Nat.ltb_ge].
  destruct (lookup_ok 0 (m_data msg)) as [f ->]; [lia|]. cbn [mbind option_bind].
  destruct (f =? CCM_FUNCTION_CODE).
  { destruct (ccm_decode _); [|by apply fs_good_intro].
    by apply fs_good_intro, inv_handle_ccm, inv_ensure_client. }
  destruct (lookup_ok 1 (m_data msg)) as [tan ->]; [lia|]. cbn [mbind option_bind].
  destruct (tan =? INVALID_TAN); [by apply fs_good_intro|].
  assert (Hi' := inv_ensure_client (m_source msg) s Hi).
  destruct (cached_response _ _ _ _); [by apply fs_good_intro|].
  apply good_new_request; [done..|apply known_ensure].
Qed.

Lemma inv_update_volume ms s : inv s -> inv (update_volume_state_machine ms s).1.
Proof.
  intros Hi. unfold update_volume_state_machine. destruct (get_volume_state s); cbn [fst]; try done.
  - case_bool_decide; [by apply fs_inv_transition|done].
  - case_bool_decide; [by apply fs_inv_transition|done].
  - destruct (_ || _); cbn [fst]; [|done].
    by apply (inv_volume_removed (with_volume_removal_timer_ms _ s)).
Qed.
Lemma inv_remove_client s a : inv s -> inv (remove_client s a).
Proof.
  intros Hi. set (l := filter (fun f => of_owner f <> a) (fs_open_files s)).
  assert (H : inv (with_clients (BTreeMap.remove a (fs_clients s)) (with_open_files l s))).
  { apply inv_fewer; [done|by apply sorted_remove, Hi|by apply sublist_filter| |].
    - intros b c Hb. destruct (decide (b = a)) as [->|Hn]; [by rewrite get_remove_eq in Hb|].
      rewrite get_remove_ne in Hb by done.
      destruct (fp_clients _ _ _ _ _ _ _ _ _ Hi _ _ Hb) as [H1 H2 H3]. split; [|done..].
      unfold l. rewrite (owned_by_fewer b _ (fun _ => True)).
      + rewrite H1. symmetry. by apply filter_every, Forall_true.
      + apply Forall_forall. intros f _ <-. tauto.
    - unfold l. apply Forall_forall. intros f [Hf Hin]%list_elem_of_filter.
      rewrite get_remove_ne by done.
      assert (Ho := fp_owners _ _ _ _ _ _ _ _ _ Hi). rewrite Forall_forall in Ho. by apply Ho. }
  unfold remove_client. cbv zeta. by destruct (match BTreeMap.get a _ with Some _ => _ | None => _ end).
Qed.
Lemma fs_inv_update ms s : inv s -> inv (update ms s).1.
Proof.
  intros Hi. unfold update. cbv zeta.
  set (s0 := with_current_time_ms _ s). assert (H0 : inv s0) by exact Hi. clearbody s0.
  assert (H1 := inv_update_volume ms s0 H0).
  destruct (update_volume_state_machine ms s0) as [s1 frame]. cbn [fst] in H1.
  assert (H2 : inv (cleanup_expired_tan_cache s1)) by (by apply inv_map_clients).
  set (s2 := cleanup_expired_tan_cache s1) in *. clearbody s2.
  assert (H3 : inv (cleanup_disconnected_clients s2)).
  { unfold cleanup_disconnected_clients. cbv zeta. generalize (BTreeMap.keys
      (BTreeMap.retain (fun _ c => negb (is_connected c (fs_current_time_ms s2)
         (fsc_ccm_timeout_ms (fs_config s2)))) (fs_clients s2))).
    intros l. clear -H2. revert s2 H2. induction l as [|a l IH]; intros s2 H2; cbn; [done|].
    by apply IH, inv_remove_client. }
  destruct (_ <=? _); exact H3.
Qed.
End steps.

(** ** Every call of the server *)

Inductive FsCall : Type :=
| CMessage (msg : Message)
| CUpdate (elapsed_ms : Z)
| CAddFile (path data : list Z) (attrs : Z)
| CRemoveFile (path : list Z)
| CAddDirectory (path : list Z)
| CSetFileDateTime (path : list Z) (date time : Z)
| CSetProperties (p : FileServerProperties)
| CSetCapacity (bytes : Z)
| CPrepareRemoval
| CMaintain (a : Address)
| CClearMaintain (a : Address)
| CSetRemoved
| CReinsert
| CBusyReading (b : bool)
| CBusyWriting (b : bool)
| CSetVolumeName (name : list Z).
Definition run_call (c : FsCall) (s : FileServer) : option (FileServer * list FSOutbound) :=
  match c with
  | CMessage msg => handle_client_message msg s
  | CUpdate ms => Some (update ms s)
  | CAddFile path data attrs => Some ((add_file path data attrs s).1, [])
  | CRemoveFile path => Some ((remove_file path s).1, [])
  | CAddDirectory path => Some ((add_directory path s).1, [])
  | CSetFileDateTime path date time => Some ((set_file_date_time path date time s).1, [])
  | CSetProperties p => Some (set_properties p s, [])
  | CSetCapacity n => Some (set_volume_capacity_bytes n s, [])
  | CPrepareRemoval => Some (prepare_volume_for_removal s)
  | CMaintain a => Some (receive_volume_maintain_request a s, [])
  | CClearMaintain a => Some (clear_volume_maintain_request a s, [])
  | CSetRemoved => Some (set_volume_removed s)
  | CReinsert => let '(s, out) := reinsert_volume s in Some (s, match out with Some o => [o] | None => [] end)
  | CBusyReading b => Some (set_busy_reading b s, [])
  | CBusyWriting b => Some (set_busy_writing b s, [])
  | CSetVolumeName name => Some ((set_volume_name name s).1, [])
  end.
(** A message holds bytes; with [strict] the host does not remove a file that is open. *)
Definition call_ok (strict : bool) (c : FsCall) (s : FileServer) : Prop :=
  match c with
  | CMessage msg => bytes (m_data msg)
  | CRemoveFile path =>
      strict = true -> forall p, normalize_preloaded_file_path path = Ok p -> is_path_open p s = false
  | _ => True
  end.
Inductive fs_reachable (strict : bool) (config : FileServerConfig) : FileServer -> Prop :=
| reach_new : fs_reachable strict config (FileServer_new config)
| reach_call c s s' out :
    fs_reachable strict config s -> call_ok strict c s -> run_call c s = Some (s', out) ->
    fs_reachable strict config s'.

Lemma inv_new strict config :
  0 <= fsc_max_open_files_per_client config -> 0 <= fsc_max_open_files_total config ->
  fs_inv strict (FileServer_new config).
Proof.
  intros H1 H2. split; cbn; try done.
  - split; cbn; unfold FS_SUPPORTED_COUNT_MAX; lia.
  - constructor; [apply dir_name_root|done].
  - constructor.
  - unfold FS_SUPPORTED_COUNT_MAX. lia.
  - intros _. split; [intros f g Hf|intros f Hf]; by apply not_elem_of_nil in Hf.
  - constructor.
Qed.
Lemma preloaded_ok path p : normalize_preloaded_file_path path = Ok p -> file_name_ok p.
Proof.
  intros H. apply (client_path_ok path root); [apply dir_name_root|]. exact H.
Qed.
Lemma inv_call strict c s :
  call_ok strict c s -> fs_inv strict s -> fs_good strict (run_call c s).
Proof.
  intros Hc Hi. destruct c; cbn [run_call call_ok] in *; try by apply fs_good_intro.
  - by apply good_handle_client_message.
  - assert (H := fs_inv_update strict elapsed_ms s Hi). destruct (update elapsed_ms s).
    by apply fs_good_intro.
  - apply fs_good_intro. unfold add_file. destruct (normalize_preloaded_file_path path) as [p|] eqn:E;
      [|done]. cbn [fst]. apply (inv_insert_file strict p data s); [by eapply preloaded_ok|done].
  - apply fs_good_intro. unfold remove_file.
    destruct (normalize_preloaded_file_path path) as [p|] eqn:E; [|done]. cbn [fst].
    apply (inv_remove_file strict p s); [|done]. intros Hst. by apply Hc.
  - apply fs_good_intro. unfold add_directory. destruct (normalize_directory_path path root) as [d|] eqn:E;
      [|done]. cbv zeta. cbn [fst]. destruct (has_directory d s); [exact Hi|].
    apply (inv_add_directory strict d s); [|done].
    by apply (directory_path_ok path root); [apply dir_name_root|].
  - apply fs_good_intro. unfold set_file_date_time. destruct (negb _); [done|]. cbv zeta.
    destruct (p ← result_ok (normalize_preloaded_file_path path); _); [done|].
    by destruct (p ← result_ok (normalize_directory_path path root); _).
  - assert (H := inv_prepare strict s Hi). destruct (prepare_volume_for_removal s).
    by apply fs_good_intro.
  - by apply fs_good_intro, inv_maintain.
  - by apply fs_good_intro, inv_volume_removed.
  - unfold reinsert_volume. case_bool_decide; apply fs_good_intro; [done|].
    by apply (fs_inv_transition strict VolumeState.Present s).
  - apply fs_good_intro. unfold set_volume_name. destruct (is_valid_volume_name name) eqn:E; [|done].
    cbn [negb fst]. destruct Hi. by split.
Qed.
Lemma fs_reachable_inv strict config s :
  0 <= fsc_max_open_files_per_client config -> 0 <= fsc_max_open_files_total config ->
  fs_reachable strict config s -> fs_inv strict s.
Proof.
  intros H1 H2. induction 1 as [|c s s' out Hr IH Hc Hs]; [by apply inv_new|].
  destruct (inv_call strict c s Hc IH) as (s2 & out2 & E & Hi). rewrite Hs in E. by simplify_eq.
Qed.
