(* ===== verification/FsProps.v ===== *)
(** Theorems about the file server: what holds in every state it reaches, retransmissions,
    what reads and writes do, which requests change what is stored. *)
From S2P Require Export FsProofs.
Import BTreeMapFacts.

(** ** Every run *)

(** C20: whatever calls are made in whatever order, from a new server on, with messages of any
    bytes, the next call returns without a panic; and in every state reached handles are
    distinct and never 0 or 255, the limits per client and in total hold, every handle belongs
    to a known client whose list of handles is exactly those it opened, positions fit 32 bits,
    file, directory and current-directory names are canonical paths inside the volume, and
    nothing is open when the volume is removed. *)
Theorem fs_server_run config s :
  0 <= fsc_max_open_files_per_client config -> 0 <= fsc_max_open_files_total config ->
  fs_reachable false config s ->
  (forall c, call_ok false c s -> exists s' out, run_call c s = Some (s', out))
  /\ NoDup (of_handle <$> fs_open_files s)
  /\ Forall (fun f => 1 <= of_handle f <= 254 /\ u32 (of_position f)
               /\ is_Some (BTreeMap.get (of_owner f) (fs_clients s))) (fs_open_files s)
  /\ Z.of_nat (length (fs_open_files s)) <= fsc_max_open_files_total (fs_config s) <= 250
  /\ (forall a c, BTreeMap.get a (fs_clients s) = Some c ->
        sc_open_handles c = of_handle <$> owned_by a (fs_open_files s)
        /\ Z.of_nat (length (sc_open_handles c)) <= fsc_max_open_files_per_client (fs_config s)
        /\ dir_name_ok (sc_current_directory c))
  /\ Forall (fun e : list Z * list Z => file_name_ok e.1) (fs_files s)
  /\ Forall dir_name_ok (fs_directories s)
  /\ (get_volume_state s = VolumeState.Removed -> fs_open_files s = []).
Proof.
  intros H1 H2 Hr. assert (Hi := fs_reachable_inv false config s H1 H2 Hr). split.
  { intros c Hc. destruct (inv_call false c s Hc Hi) as (s' & out & ? & _). eauto. }
  destruct Hi as [Hcfg _ Hf Hd Ho Hn Ht Hc Hw Hv _ _]. split_and!; try done.
  - rewrite Forall_forall in *. intros f Hin. destruct (Ho f Hin). auto.
  - apply (cfg_total _ Hcfg).
  - intros a c Ha. by destruct (Hc a c Ha).
Qed.
Definition open_request (tan flags : Z) (name : list Z) : list Z :=
  [0x20; tan; flags] ++ Name.to_le_bytes 2 (Z.of_nat (length name)) ++ name.
Definition fs_message (src : Address) (data : list Z) : Message :=
  mkMessage PGN_FILE_CLIENT_TO_SERVER data src BROADCAST_ADDRESS Priority.Default 0.
(** Client 0x42 creates a file for reading and writing. *)
Definition example_server : FileServer :=
  match handle_client_message (fs_message 0x42 (open_request 1 6 [0x46])) (FileServer_new FileServerConfig_default) with
  | Some (s, _) => s
  | None => FileServer_new FileServerConfig_default
  end.
Lemma example_reachable strict : fs_reachable strict FileServerConfig_default example_server.
Proof.
  unfold example_server. destruct (handle_client_message _ _) as [[s out]|] eqn:E;
    [|by vm_compute in E].
  apply (reach_call _ _ (CMessage (fs_message 0x42 (open_request 1 6 [0x46])))
           (FileServer_new FileServerConfig_default) _ out); [constructor| |exact E].
  cbn. by repeat constructor.
Qed.
Lemma fs_server_run_witness :
  (of_handle <$> fs_open_files example_server) = [1]
  /\ exists s' out, run_call (CUpdate 7000) example_server = Some (s', out).
Proof.
  destruct (fs_server_run FileServerConfig_default example_server) as (H & _);
    [by vm_compute|by vm_compute|apply example_reachable|].
  split; [by vm_compute|]. by apply (H (CUpdate 7000)).
Defined.

(** C21: as long as the host does not remove a file somebody holds open, a file open under two
    handles is written through neither: a handle that may write (or append) is alone on its
    file, over every sequence of calls, crossing opens, moves, deletions and clients that
    disappear; and the file of every open handle exists. *)
Theorem fs_no_two_writers config s f g :
  0 <= fsc_max_open_files_per_client config -> 0 <= fsc_max_open_files_total config ->
  fs_reachable true config s ->
  f ∈ fs_open_files s -> of_is_directory f = false ->
  is_Some (BTreeMap.get (of_path f) (fs_files s))
  /\ (g ∈ fs_open_files s -> of_is_directory g = false -> of_path g = of_path f ->
      open_mode_writes (of_flags f) = true -> g = f).
Proof.
  intros H1 H2 Hr Hf Hd. assert (Hi := fs_reachable_inv true config s H1 H2 Hr).
  destruct (fp_sharing _ _ _ _ _ _ _ _ _ Hi eq_refl) as [A B]. split; [by apply B|].
  intros Hg Hdg Hp Hw. destruct (decide (of_handle f = of_handle g)) as [E|E].
  - apply list_elem_of_lookup in Hf as [i Hi1], Hg as [j Hj1].
    assert (j = i).
    { eapply (NoDup_lookup (of_handle <$> fs_open_files s)); [apply Hi| |];
        rewrite list_lookup_fmap; [by rewrite Hj1|by rewrite Hi1; cbn; rewrite E]. }
    congruence.
  - by rewrite (A f g) in Hw.
Qed.
Lemma fs_no_two_writers_witness :
  exists f, f ∈ fs_open_files example_server /\ open_mode_writes (of_flags f) = true
    /\ is_Some (BTreeMap.get (of_path f) (fs_files example_server)).
Proof.
  exists (mkOpen 1 0x42 [0x5C; 0x46] 0 6 false [0x2A]).
  assert (Hf : mkOpen 1 0x42 [0x5C; 0x46] 0 6 false [0x2A] ∈ fs_open_files example_server)
    by (vm_compute; left).
  split; [exact Hf|]. split; [by vm_compute|].
  apply (fs_no_two_writers FileServerConfig_default example_server _
           (mkOpen 1 0x42 [0x5C; 0x46] 0 6 false [0x2A]));
    [by vm_compute|by vm_compute|apply example_reachable|exact Hf|done].
Defined.

(** ** Retransmissions *)

(** What a request of one client leaves alone: the clock, the configuration, and of every
    client the response cache and the time it was last heard. *)
Definition keeps (s0 s : FileServer) : Prop :=
  fs_config s = fs_config s0 /\ fs_current_time_ms s = fs_current_time_ms s0
  /\ forall b c0, BTreeMap.get b (fs_clients s0) = Some c0 ->
       exists c, BTreeMap.get b (fs_clients s) = Some c
         /\ sc_tan_cache c = sc_tan_cache c0
         /\ sc_last_ccm_timestamp_ms c = sc_last_ccm_timestamp_ms c0.
Definition kept {A} (s0 : FileServer) (r : option (FileServer * A)) : Prop :=
  forall s out, r = Some (s, out) -> keeps s0 s.

Lemma fs_keeps_refl s : keeps s s.
Proof. split_and!; try done. eauto. Qed.
Lemma keeps_update_client a f s0 s :
  (forall c, sc_tan_cache (f c) = sc_tan_cache c
             /\ sc_last_ccm_timestamp_ms (f c) = sc_last_ccm_timestamp_ms c) ->
  keeps s0 s -> keeps s0 (update_client a f s).
Proof.
  intros Hf (H1 & H2 & H3). split_and!; [done|done|]. intros b c0 Hb.
  destruct (H3 b c0 Hb) as (c & Hc & E1 & E2). cbn.
  destruct (decide (b = a)) as [->|Hn].
  - rewrite get_update_eq, Hc. cbn. eexists. split; [done|]. destruct (Hf c). by split; etransitivity.
  - rewrite get_update_ne by done. eauto.
Qed.
Lemma keeps_ensure_client a s0 s : keeps s0 s -> keeps s0 (ensure_client a s).
Proof.
  intros (H1 & H2 & H3). split_and!; [done|done|]. intros b c0 Hb.
  destruct (H3 b c0 Hb) as (c & Hc & E). cbn. exists c. split; [|done].
  destruct (decide (b = a)) as [->|Hn]; [by rewrite get_or_insert_eq, Hc|by rewrite get_or_insert_ne].
Qed.
Lemma keeps_map_clients f s0 s :
  (forall c, sc_tan_cache (f c) = sc_tan_cache c
             /\ sc_last_ccm_timestamp_ms (f c) = sc_last_ccm_timestamp_ms c) ->
  keeps s0 s -> keeps s0 (with_clients (BTreeMap.map_values f (fs_clients s)) s).
Proof.
  intros Hf (H1 & H2 & H3). split_and!; [done|done|]. intros b c0 Hb.
  destruct (H3 b c0 Hb) as (c & Hc & E1 & E2). cbn. rewrite get_map_values, Hc. cbn.
  eexists. split; [done|]. destruct (Hf c). by split; etransitivity.
Qed.
Lemma kept_some {A} s0 s (out : A) : keeps s0 s -> kept s0 (Some (s, out)).
Proof. by intros Hk s' out' [= <- _]. Qed.
Lemma kept_bind {A B} s0 (m : option B) (k : B -> option (FileServer * A)) :
  (forall x, kept s0 (k x)) -> kept s0 (m ≫= k).
Proof. intros Hk s out H. apply bind_Some in H as (x & _ & H). by eapply Hk. Qed.
Lemma kept_refuse f tan e s0 s : keeps s0 s -> kept s0 (refuse f tan e s).
Proof. apply kept_some. Qed.
Lemma kept_succeed f tan s0 s : keeps s0 s -> kept s0 (succeed f tan s).
Proof. apply kept_some. Qed.
Lemma kept_media f tan s0 s k : keeps s0 s -> kept s0 k -> kept s0 (media_present f tan s k).
Proof. unfold media_present. intros. case_bool_decide; [by apply kept_refuse|done]. Qed.

Lemma keeps_transition v s0 s : keeps s0 s -> keeps s0 (volume_transition v s).
Proof. done. Qed.
Lemma keeps_next n s0 s : keeps s0 s -> keeps s0 (with_next_handle n s).
Proof. done. Qed.
Lemma keeps_emit e s0 s : keeps s0 s -> keeps s0 (fs_emit e s).
Proof. done. Qed.
Lemma allocate_handle_next s : exists n, (allocate_handle s).1 = with_next_handle n s.
Proof.
  unfold allocate_handle.
  assert (H : forall k s', (exists n, s' = with_next_handle n s) ->
            exists n, (allocate_handle_loop k s').1 = with_next_handle n s).
  2: { apply H. exists (fs_next_handle s). by destruct s. }
  induction k as [|k IH]; intros s' (n & ->); cbn [allocate_handle_loop]; [by exists n|].
  cbv zeta. match goal with |- context [with_next_handle ?x (with_next_handle n s)] =>
    set (next := x) end.
  destruct (_ && _ && _); [by exists next|]. apply IH. by exists next.
Qed.
Lemma kept_open_handle client tan flags isdir path pattern s0 s :
  keeps s0 s -> kept s0 (open_handle client tan flags isdir path pattern s).
Proof.
  intros Hk. unfold open_handle.
  destruct (if negb isdir && has_flag flags OpenFlags.Append then _ else Some 0);
    [|by apply kept_refuse].
  destruct (allocate_handle_next s) as [n E]. destruct (allocate_handle s) as [s' h].
  cbn [fst] in E. subst s'. destruct (h =? _); [by apply kept_refuse|].
  by apply kept_some, keeps_emit, keeps_update_client.
Qed.
(** Walk a handler to its results. *)
Ltac keep_step :=
  match goal with
  | |- kept _ (refuse _ _ _ _) => apply kept_refuse
  | |- kept _ (succeed _ _ _) => apply kept_succeed
  | |- kept _ (media_present _ _ _ _) => apply kept_media
  | |- kept _ (open_handle _ _ _ _ _ _ _) => apply kept_open_handle
  | |- kept _ (Some _) => apply kept_some
  | |- kept _ (_ ≫= _) => apply kept_bind; intros ?
  | |- kept _ (match ?x with _ => _ end) => destruct x
  | |- keeps _ (update_client _ _ _) => apply keeps_update_client; [done|]
  | |- keeps _ (fs_emit _ _) => apply keeps_emit
  | |- keeps _ (ensure_client _ _) => apply keeps_ensure_client
  | H : keeps _ ?s |- keeps _ _ => exact H
  end.
Ltac keep := repeat (cbv zeta; keep_step).

Lemma kept_execute client f tan r s : kept s (execute_function client f tan r s).
Proof.
  assert (Hk := fs_keeps_refl s). unfold execute_function.
  destruct (FSFunction.from_u8 f) as [fn|]; [|keep]. destruct fn; try by keep.
  - unfold handle_get_properties. keep.
  - unfold handle_get_current_directory. keep.
  - unfold handle_change_directory. keep.
  - unfold handle_open_file, open_directory, open_file. keep.
  - unfold handle_seek_file. keep.
  - unfold handle_read_file, handle_read_directory. keep.
  - unfold handle_write_file. keep.
  - unfold handle_close_file. keep.
  - unfold handle_move_file. keep.
  - unfold handle_delete_file, delete_directory. keep.
  - unfold handle_get_file_attributes. keep.
  - unfold handle_set_file_attributes. keep.
  - unfold handle_get_file_date_time. keep.
  - unfold handle_initialize_volume. keep. unfold initialize_volume. cbv zeta.
    set (s1 := with_clients _ (clear_all_open_handles _)).
    assert (H1 : keeps s s1).
    { apply keeps_map_clients; [done|].
      by apply (keeps_map_clients (with_open_handles []) s (with_open_files []
        (with_directories [root] (with_file_date_times [] (with_file_attrs [] (with_files [] s)))))). }
    clearbody s1. match goal with |- keeps s (if bool_decide (get_volume_state (match ?o with _ => _ end) = _) then _ else _) =>
      destruct o end; case_bool_decide; exact H1.
Qed.
Lemma keeps_volume_removed s0 s : keeps s0 s -> keeps s0 (volume_removed s).
Proof.
  intros Hk. unfold volume_removed, clear_media_dependent_client_state.
  by apply keeps_emit, (keeps_map_clients
    (fun c => with_current_directory root (with_open_handles [] c)) s0
    (volume_transition VolumeState.Removed s)).
Qed.
Lemma keeps_prepare s : keeps s (prepare_volume_for_removal s).1.
Proof. unfold prepare_volume_for_removal. assert (Hk := fs_keeps_refl s). by destruct (get_volume_state s). Qed.
Lemma keeps_maintain a s : keeps s (receive_volume_maintain_request a s).
Proof. unfold receive_volume_maintain_request. assert (Hk := fs_keeps_refl s). by repeat case_bool_decide. Qed.
Lemma kept_volume_status client tan r s : kept s (handle_volume_status client tan r s).
Proof.
  assert (Hk := fs_keeps_refl s). unfold handle_volume_status. cbv zeta.
  destruct (_ <? _)%nat; [by apply kept_some|]. apply kept_bind; intros m. apply kept_bind; intros n.
  destruct (negb _); [by apply kept_some|]. apply kept_bind; intros name.
  destruct (negb _); [by apply kept_some|]. destruct (negb _); [by apply kept_some|].
  destruct (_ =? VOLUME_MODE_PREPARE_REMOVAL).
  { assert (Hp := keeps_prepare s). destruct (prepare_volume_for_removal s) as [s' frames].
    destruct frames; by apply kept_some. }
  destruct (_ =? VOLUME_MODE_MAINTAIN); [apply kept_some, keeps_maintain|].
  destruct (_ =? 0); [|by apply kept_some].
  destruct (_ && _ && _); apply kept_some; [|done].
  by apply (keeps_volume_removed s (clear_volume_maintain_request client s)).
Qed.
Lemma volume_status_answers client tan r s s' out :
  handle_volume_status client tan r s = Some (s', out) -> out <> [].
Proof.
  unfold handle_volume_status. cbv zeta. intros H.
  destruct (_ <? _)%nat; [by simplify_eq|]. inv_option.
  destruct (negb _); [by simplify_eq|]. inv_option.
  destruct (negb _); [by simplify_eq|]. destruct (negb _); [by simplify_eq|].
  destruct (_ =? VOLUME_MODE_PREPARE_REMOVAL).
  { destruct (prepare_volume_for_removal s) as [s1 frames]. destruct frames; by simplify_eq. }
  destruct (_ =? VOLUME_MODE_MAINTAIN); [by simplify_eq|].
  destruct (_ =? 0); [|by simplify_eq]. destruct (_ && _ && _); by simplify_eq.
Qed.

(** The remembered answer: client [a], TAN [t], request, response, time; heard since [l]. *)
Definition remembers (a t : Z) (e : TANResponse) (l : Z) (s : FileServer) : Prop :=
  exists c, BTreeMap.get a (fs_clients s) = Some c
    /\ BTreeMap.get t (sc_tan_cache c) = Some e /\ l <= sc_last_ccm_timestamp_ms c.
Lemma remembers_keeps a t e l s0 s : keeps s0 s -> remembers a t e l s0 -> remembers a t e l s.
Proof.
  intros (_ & _ & H) (c0 & Hc & He & Hl). destruct (H a c0 Hc) as (c & Hc' & E1 & E2).
  exists c. by rewrite E1, E2.
Qed.
Lemma remembers_update_client a t e l b f s :
  (forall c, b = a -> BTreeMap.get t (sc_tan_cache c) = Some e -> l <= sc_last_ccm_timestamp_ms c ->
     BTreeMap.get t (sc_tan_cache (f c)) = Some e /\ l <= sc_last_ccm_timestamp_ms (f c)) ->
  remembers a t e l s -> remembers a t e l (update_client b f s).
Proof.
  intros Hf (c & Hc & He & Hl). unfold remembers. cbn. destruct (decide (a = b)) as [->|Hn].
  - rewrite get_update_eq, Hc. cbn. eexists. split; [done|]. by apply Hf.
  - rewrite get_update_ne by done. eauto.
Qed.
(** Any call but another request of [a] with the TAN [t]. *)
Definition other_call (a t : Z) (c : FsCall) : Prop :=
  match c with
  | CMessage msg =>
      m_source msg <> a \/ m_data msg !! 0%nat = Some CCM_FUNCTION_CODE
      \/ m_data msg !! 1%nat <> Some t
  | CUpdate ms => 0 <= ms
  | _ => True
  end.

Lemma message_time msg s s' out :
  handle_client_message msg s = Some (s', out) ->
  fs_current_time_ms s' = fs_current_time_ms s /\ fs_config s' = fs_config s.
Proof.
  unfold handle_client_message. intros H. destruct (_ || _ || _ || _); [by simplify_eq|]. inv_option.
  destruct (x =? CCM_FUNCTION_CODE).
  { destruct (ccm_decode _); simplify_eq; [|done]. unfold handle_ccm. cbv zeta. by destruct (negb _). }
  inv_option. destruct (x0 =? INVALID_TAN); [by simplify_eq|].
  destruct (cached_response _ _ _ _); [by simplify_eq|]. unfold new_request in H.
  destruct (x =? _); apply bind_Some in H as ([s2 r] & E & H).
  - destruct (kept_volume_status _ _ _ _ _ _ E) as (? & ? & _). by destruct r; simplify_eq.
  - destruct (kept_execute _ _ _ _ _ _ _ E) as (? & ? & _). by simplify_eq.
Qed.
Lemma remembers_message a t e l msg s s' out :
  other_call a t (CMessage msg) -> handle_client_message msg s = Some (s', out) ->
  l <= fs_current_time_ms s -> remembers a t e l s -> remembers a t e l s'.
Proof.
  intros Ho H Hl Hr. unfold handle_client_message in H.
  destruct (_ || _ || _ || _); [by simplify_eq|].
  assert (Hr1 : remembers a t e l (ensure_client (m_source msg) s))
    by (eapply remembers_keeps; [apply keeps_ensure_client, fs_keeps_refl|done]).
  inv_option. destruct (Z.eqb_spec x CCM_FUNCTION_CODE) as [->|Hx].
  { destruct (ccm_decode _); simplify_eq; [|done]. unfold handle_ccm. cbv zeta.
    destruct (negb _); by apply remembers_update_client. }
  inv_option. destruct (x0 =? INVALID_TAN); [by simplify_eq|].
  destruct (cached_response _ _ _ _); [by simplify_eq|]. cbn [other_call] in Ho.
  set (s1 := ensure_client (m_source msg) s) in *.
  clearbody s1.
  assert (Hcache : forall s2 r, keeps s1 s2 ->
    remembers a t e l (cache_response (m_source msg) x0 (m_data msg) r s2)).
  { intros s2 r Hk. apply remembers_update_client; [|by eapply remembers_keeps].
    intros c Ha He Hlc. split; [|done]. cbn. rewrite get_insert_ne; [done|]. intros <-.
    destruct Ho as [? | [? | ?]]; congruence. }
  unfold new_request in H. destruct (x =? _).
  - apply bind_Some in H as ([s2 frames] & E & H).
    assert (Hk := kept_volume_status _ _ _ _ _ _ E).
    destruct frames as [|o frames]; simplify_eq; [by eapply remembers_keeps|by apply Hcache].
  - apply bind_Some in H as ([s2 r] & E & H). simplify_eq.
    apply Hcache. by apply (kept_execute _ _ _ _ _ _ _ E).
Qed.

Lemma get_retain {K V} `{Ord K, !OrdLaws K} (p : K -> V -> bool) k v (m : BTreeMap.t K V) :
  BTreeMap.get k m = Some v -> p k v = true -> BTreeMap.get k (BTreeMap.retain p m) = Some v.
Proof.
  unfold BTreeMap.retain. induction m as [|[j w] m IH]; intros Hg Hp; [done|]. cbn in Hg |- *.
  destruct (compare k j) eqn:E.
  - apply compare_eq in E as ->. simplify_eq. rewrite Hp. cbn. by rewrite compare_refl.
  - destruct (p j w); cbn; rewrite ?E; auto.
  - destruct (p j w); cbn; rewrite ?E; auto.
Qed.
Lemma foldl_remove a l s :
  a ∉ l -> let s' := foldl remove_client s l in
  BTreeMap.get a (fs_clients s') = BTreeMap.get a (fs_clients s)
  /\ fs_current_time_ms s' = fs_current_time_ms s /\ fs_config s' = fs_config s.
Proof.
  revert s. induction l as [|b l IH]; intros s Ha; [done|].
  apply not_elem_of_cons in Ha as [Hb Ha]. cbn [foldl].
  destruct (IH (remove_client s b) Ha) as (E1 & E2 & E3). cbv zeta. rewrite E1, E2, E3.
  unfold remove_client. cbv zeta.
  destruct (match BTreeMap.get b _ with Some _ => _ | None => _ end); cbn;
    (split_and!; [by apply get_remove_ne|done|done]).
Qed.
Lemma kept_update_volume ms s : keeps s (update_volume_state_machine ms s).1.
Proof.
  assert (Hk := fs_keeps_refl s). unfold update_volume_state_machine.
  destruct (get_volume_state s); cbn [fst]; try done; [by case_bool_decide..|].
  destruct (_ || _); [|done].
  by apply (keeps_volume_removed s (with_volume_removal_timer_ms
    (sat_add 32 (fs_volume_removal_timer_ms s) ms) s)).
Qed.
Lemma remembers_tan_cleanup a t e l s :
  is_expired e (fs_current_time_ms s) (fsc_tan_cache_timeout_ms (fs_config s)) = false ->
  remembers a t e l s -> remembers a t e l (cleanup_expired_tan_cache s).
Proof.
  intros He (c & Hc & Ht & Hl). unfold remembers. cbn. rewrite get_map_values, Hc. cbn.
  eexists. split; [done|]. cbn. split; [|done]. apply get_retain; [done|]. by rewrite He.
Qed.
Lemma remembers_client_cleanup a t e l s :
  BTreeMap.sorted (fs_clients s) -> 0 <= fsc_ccm_timeout_ms (fs_config s) ->
  fs_current_time_ms s - l <= fsc_ccm_timeout_ms (fs_config s) ->
  remembers a t e l s ->
  remembers a t e l (cleanup_disconnected_clients s)
  /\ fs_current_time_ms (cleanup_disconnected_clients s) = fs_current_time_ms s
  /\ fs_config (cleanup_disconnected_clients s) = fs_config s.
Proof.
  intros Hs H0 Hl (c & Hc & Ht & Hlc). unfold cleanup_disconnected_clients. cbv zeta.
  match goal with |- context [foldl remove_client s ?k] =>
    destruct (foldl_remove a k s) as (E1 & E2 & E3) end.
  - unfold BTreeMap.keys, BTreeMap.retain. intros ([b c'] & -> & Hin)%list_elem_of_fmap.
    apply list_elem_of_In, filter_In in Hin as [Hin Hp]. apply list_elem_of_In in Hin.
    cbn [fst snd] in *.
    rewrite (sorted_get _ _ _ Hs Hin) in Hc. simplify_eq. revert Hp. unfold is_connected, sat_sub.
    rewrite (proj2 (Z.leb_le _ _)) by lia. done.
  - split; [|done]. exists c. by rewrite E1.
Qed.
Lemma cleanup_sorted s :
  BTreeMap.sorted (fs_clients s) -> BTreeMap.sorted (fs_clients (cleanup_expired_tan_cache s)).
Proof. apply sorted_map_values. Qed.
Lemma remembers_update strict a t e l ms s :
  let now := sat_add 32 (fs_current_time_ms s) ms in
  fs_inv strict s -> 0 <= fsc_ccm_timeout_ms (fs_config s) ->
  0 <= fsc_tan_cache_timeout_ms (fs_config s) ->
  now - tr_timestamp_ms e <= fsc_tan_cache_timeout_ms (fs_config s) ->
  now - l <= fsc_ccm_timeout_ms (fs_config s) ->
  remembers a t e l s ->
  remembers a t e l (update ms s).1 /\ fs_current_time_ms (update ms s).1 = now
  /\ fs_config (update ms s).1 = fs_config s.
Proof.
  intros now Hi Hc0 Ht0 Ht Hl Hr. unfold update. cbv zeta.
  set (s0 := with_current_time_ms _ s).
  assert (H0 : fs_inv strict s0 /\ remembers a t e l s0 /\ fs_current_time_ms s0 = now
               /\ fs_config s0 = fs_config s) by done.
  clearbody s0. destruct H0 as (Hi0 & Hr0 & E0 & C0).
  assert (Hi1 := inv_update_volume strict ms s0 Hi0). assert (Hk := kept_update_volume ms s0).
  destruct (update_volume_state_machine ms s0) as [s1 frame]. cbn [fst] in *.
  assert (Hr1 := remembers_keeps _ _ _ _ _ _ Hk Hr0). destruct Hk as (C1 & E1 & _).
  rewrite E0 in E1. rewrite C0 in C1. clear s0 Hi0 Hr0 E0 C0.
  assert (Hr2 : remembers a t e l (cleanup_expired_tan_cache s1)).
  { apply remembers_tan_cleanup; [|done]. unfold is_expired, sat_sub. rewrite E1, C1.
    apply Z.ltb_ge. lia. }
  destruct (remembers_client_cleanup a t e l (cleanup_expired_tan_cache s1)) as (Hr3 & E3 & C3);
    [apply cleanup_sorted, Hi1|by rewrite <- C1 in Hc0|by rewrite <- C1, <- E1 in Hl|done|].
  change (fs_current_time_ms (cleanup_expired_tan_cache s1)) with (fs_current_time_ms s1) in E3.
  change (fs_config (cleanup_expired_tan_cache s1)) with (fs_config s1) in C3.
  rewrite E1 in E3. rewrite C1 in C3. destruct (_ <=? _); done.
Qed.

(** A list of calls. *)
Fixpoint run_calls (cs : list FsCall) (s : FileServer) : option FileServer :=
  match cs with
  | [] => Some s
  | c :: cs => '(s, _) ← run_call c s; run_calls cs s
  end.
Lemma update_time ms s :
  fs_current_time_ms (update ms s).1 = sat_add 32 (fs_current_time_ms s) ms
  /\ fs_config (update ms s).1 = fs_config s.
Proof.
  unfold update. cbv zeta. set (s0 := with_current_time_ms _ s).
  assert (E : fs_current_time_ms s0 = sat_add 32 (fs_current_time_ms s) ms
              /\ fs_config s0 = fs_config s) by done.
  clearbody s0. destruct E as [E C]. destruct (kept_update_volume ms s0) as (C1 & E1 & _).
  destruct (update_volume_state_machine ms s0) as [s1 frame]. cbn [fst] in *.
  assert (H : forall l s, fs_current_time_ms (foldl remove_client s l) = fs_current_time_ms s
                          /\ fs_config (foldl remove_client s l) = fs_config s).
  { clear. induction l as [|b l IH]; intros s; cbn; [done|]. destruct (IH (remove_client s b)) as [-> ->].
    unfold remove_client. cbv zeta. by destruct (match BTreeMap.get b _ with Some _ => _ | None => _ end). }
  rewrite <- E, <- E1, <- C, <- C1.
  change (fs_current_time_ms s1) with (fs_current_time_ms (cleanup_expired_tan_cache s1)).
  change (fs_config s1) with (fs_config (cleanup_expired_tan_cache s1)).
  unfold cleanup_disconnected_clients. cbv zeta. destruct (_ <=? _); apply H.
Qed.
(** What one call other than a request with the remembered TAN does. *)
Lemma remembers_call a t e l c s s' out :
  fs_inv false s -> call_ok false c s -> other_call a t c -> run_call c s = Some (s', out) ->
  u32 (fs_current_time_ms s) -> l <= fs_current_time_ms s ->
  0 <= fsc_ccm_timeout_ms (fs_config s) -> 0 <= fsc_tan_cache_timeout_ms (fs_config s) ->
  fs_config s' = fs_config s /\ fs_current_time_ms s <= fs_current_time_ms s' < 2 ^ 32
  /\ (fs_current_time_ms s' - tr_timestamp_ms e <= fsc_tan_cache_timeout_ms (fs_config s) ->
      fs_current_time_ms s' - l <= fsc_ccm_timeout_ms (fs_config s) ->
      remembers a t e l s -> remembers a t e l s').
Proof.
  intros Hi Hc Ho H [Ht1 Ht2] Hl Hc0 Ht0.
  assert (Hdef : keeps s s' ->
    fs_config s' = fs_config s /\ fs_current_time_ms s <= fs_current_time_ms s' < 2 ^ 32
    /\ (fs_current_time_ms s' - tr_timestamp_ms e <= fsc_tan_cache_timeout_ms (fs_config s) ->
        fs_current_time_ms s' - l <= fsc_ccm_timeout_ms (fs_config s) ->
        remembers a t e l s -> remembers a t e l s')).
  { intros Hk. destruct (Hk) as (C & E & _). rewrite E. split_and!; [done|lia..|]. intros _ _ Hr.
    by eapply remembers_keeps. }
  assert (Hk := fs_keeps_refl s).
  destruct c; cbn [run_call] in H; try (apply Hdef; simplify_eq; exact Hk).
  - destruct (message_time _ _ _ _ H) as [E C]. rewrite E. split_and!; [done|lia..|]. intros _ _ Hr.
    by eapply remembers_message.
  - destruct (update_time elapsed_ms s) as [E C]. injection H as H. rewrite H in E, C.
    cbn [fst] in E, C. cbn in Ho. rewrite E. split_and!; [done|unfold sat_add; lia..|].
    intros H1 H2 Hr. assert (R := remembers_update false a t e l elapsed_ms s Hi Hc0 Ht0 H1 H2 Hr).
    destruct R as [R _]. by rewrite H in R.
  - apply Hdef. simplify_eq. unfold add_file. by destruct (normalize_preloaded_file_path path).
  - apply Hdef. simplify_eq. unfold remove_file. by destruct (normalize_preloaded_file_path path).
  - apply Hdef. simplify_eq. unfold add_directory.
    destruct (normalize_directory_path path root); [|done]. cbv zeta. by destruct (has_directory _ s).
  - apply Hdef. simplify_eq. unfold set_file_date_time. destruct (negb _); [done|]. cbv zeta.
    destruct (p ← result_ok (normalize_preloaded_file_path path); _); [done|].
    by destruct (p ← result_ok (normalize_directory_path path root); _).
  - apply Hdef. injection H as H. assert (K := keeps_prepare s). by rewrite H in K.
  - apply Hdef. simplify_eq. apply keeps_maintain.
  - apply Hdef. unfold set_volume_removed in H. simplify_eq. by apply keeps_volume_removed.
  - apply Hdef. unfold reinsert_volume in H. case_bool_decide; by simplify_eq.
  - apply Hdef. simplify_eq. unfold set_volume_name. by destruct (negb _).
Qed.
Definition call_bytes (c : FsCall) : Prop :=
  match c with CMessage msg => bytes (m_data msg) | _ => True end.
Lemma call_bytes_ok c s : call_bytes c -> call_ok false c s.
Proof. by destruct c. Qed.
Lemma remembers_run a t e l cs s s2 :
  fs_inv false s -> Forall call_bytes cs -> Forall (other_call a t) cs ->
  run_calls cs s = Some s2 ->
  u32 (fs_current_time_ms s) -> l <= fs_current_time_ms s ->
  0 <= fsc_ccm_timeout_ms (fs_config s) -> 0 <= fsc_tan_cache_timeout_ms (fs_config s) ->
  fs_current_time_ms s <= fs_current_time_ms s2
  /\ (fs_current_time_ms s2 - tr_timestamp_ms e <= fsc_tan_cache_timeout_ms (fs_config s) ->
      fs_current_time_ms s2 - l <= fsc_ccm_timeout_ms (fs_config s) ->
      remembers a t e l s -> remembers a t e l s2).
Proof.
  intros Hi Hb Ho. revert s Hi. induction Hb as [|c cs Hb Hbs IH]; intros s Hi H Ht Hl Hc0 Ht0.
  - cbn in H. simplify_eq. split; [lia|done].
  - inv Ho. cbn in H. apply bind_Some in H as ([s1 out] & Hc & H).
    assert (Hok := call_bytes_ok c s Hb).
    destruct (remembers_call a t e l c s s1 out) as (Hcfg & Hm & Hr); try done.
    destruct (inv_call false c s Hok Hi) as (s1' & out' & E & Hi1). rewrite Hc in E. simplify_eq.
    destruct (IH H3 s1' Hi1 H) as [Hm2 Hr2]; [destruct Ht; split; lia|lia|by rewrite Hcfg..|].
    rewrite Hcfg in Hr2. split; [lia|]. intros T1 T2 R. apply Hr2; [lia|lia|]. apply Hr; [lia|lia|done].
Qed.

(** A request the server acts on: addressed to it, with a command and a TAN. *)
Definition request_msg (msg : Message) (f t : Z) : Prop :=
  m_pgn msg = PGN_FILE_CLIENT_TO_SERVER /\ has_usable_source msg = true
  /\ has_valid_destination_for_pgn msg = true /\ bytes (m_data msg)
  /\ m_data msg !! 0%nat = Some f /\ f <> CCM_FUNCTION_CODE
  /\ m_data msg !! 1%nat = Some t /\ t <> INVALID_TAN.
Definition last_heard (a : Address) (s : FileServer) : Z :=
  match BTreeMap.get a (fs_clients s) with
  | Some c => sc_last_ccm_timestamp_ms c | None => 0
  end.
Lemma handle_request msg f t s :
  request_msg msg f t ->
  handle_client_message msg s
  = let s := ensure_client (m_source msg) s in
    match cached_response (m_source msg) t (m_data msg) s with
    | Some cached => Some (s, [to (tr_response_data cached) (m_source msg)])
    | None => new_request (m_source msg) f t (m_data msg) s
    end.
Proof.
  intros (Hp & Hs & Hd & _ & H0 & Hf & H1 & Ht). unfold handle_client_message.
  rewrite Hp, Hs, Hd, H0, H1. apply lookup_lt_Some in H1.
  rewrite (proj2 (Nat.ltb_ge _ _)) by lia. cbn [mbind option_bind].
  rewrite (proj2 (Z.eqb_neq f _)), (proj2 (Z.eqb_neq t _)) by done. done.
Qed.
Lemma ensure_known a s : known a s -> ensure_client a s = s.
Proof.
  intros [c Hc]. unfold ensure_client, BTreeMap.or_insert. rewrite Hc. by destruct s.
Qed.
Lemma new_request_remembers msg f t s s1 out :
  known (m_source msg) s -> new_request (m_source msg) f t (m_data msg) s = Some (s1, out) ->
  exists o rest, out = o :: rest
    /\ remembers (m_source msg) t (mkTan t (m_data msg) (fso_data o) (fs_current_time_ms s))
         (last_heard (m_source msg) s) s1
    /\ fs_current_time_ms s1 = fs_current_time_ms s /\ fs_config s1 = fs_config s.
Proof.
  intros [c Hc] H. assert (Hrem : forall s2 r, keeps s s2 ->
    remembers (m_source msg) t (mkTan t (m_data msg) r (fs_current_time_ms s))
      (last_heard (m_source msg) s) (cache_response (m_source msg) t (m_data msg) r s2)).
  { intros s2 r (_ & Et & Hk). destruct (Hk _ _ Hc) as (c2 & Hc2 & _ & El).
    unfold remembers, cache_response. cbn. rewrite get_update_eq, Hc2, <- Et. cbn.
    eexists. split; [done|]. cbn. rewrite get_insert_eq. split; [done|].
    unfold last_heard. rewrite Hc, El. lia. }
  unfold new_request in H. destruct (f =? _).
  - apply bind_Some in H as ([s2 frames] & E & H).
    assert (Hk := kept_volume_status _ _ _ _ _ _ E). assert (Hn := volume_status_answers _ _ _ _ _ _ E).
    destruct frames as [|o frames]; [done|]. simplify_eq. exists o, frames.
    destruct (Hk) as (? & ? & _). split_and!; [done|by apply Hrem|done|done].
  - apply bind_Some in H as ([s2 r] & E & H). simplify_eq.
    assert (Hk := kept_execute _ _ _ _ _ _ _ E). eexists _, []. destruct (Hk) as (? & ? & _).
    split_and!; [done|by apply Hrem|done|done].
Qed.

(** Another client opens a file, half a second passes, the first client sends a connection
    message. *)
Definition example_traffic : list FsCall :=
  [CMessage (fs_message 0x43 (open_request 1 6 [0x47])); CUpdate 500;
   CMessage (fs_message 0x42 [CCM_FUNCTION_CODE; 2; 0xFF; 0xFF; 0xFF; 0xFF; 0xFF; 0xFF])].
