(* ===== verification/FsStorage.v ===== *)
(** The file server's stored data: the operation registry (operations.rs) and which requests
    change what is stored; what a write stores and what reading it back returns. *)
From S2P Require Export FsProofs.
Import BTreeMapFacts.

(** ** The operation registry *)

Module FSCategory.
Inductive t : Type := Directory | File | Volume | Server.
End FSCategory.
Record FSOperationInfo : Type := mkInfo {
  oi_function : FSFunction.t;
  oi_category : FSCategory.t;
  oi_mutates_storage : bool;
  oi_requires_open_file : bool
}.
Definition operation_info (function : FSFunction.t) : FSOperationInfo :=
  let '(category, mutates_storage, requires_open_file) :=
    match function with
    | FSFunction.GetCurrentDirectory => (FSCategory.Directory, false, false)
    | FSFunction.ChangeDirectory => (FSCategory.Directory, false, false)
    | FSFunction.OpenFile => (FSCategory.File, false, false)
    | FSFunction.SeekFile => (FSCategory.File, false, true)
    | FSFunction.ReadFile => (FSCategory.File, false, true)
    | FSFunction.WriteFile => (FSCategory.File, true, true)
    | FSFunction.CloseFile => (FSCategory.File, false, true)
    | FSFunction.MoveFile => (FSCategory.File, true, false)
    | FSFunction.DeleteFile => (FSCategory.File, true, false)
    | FSFunction.GetFileAttributes => (FSCategory.File, false, false)
    | FSFunction.SetFileAttributes => (FSCategory.File, true, false)
    | FSFunction.GetFileDateTime => (FSCategory.File, false, false)
    | FSFunction.InitializeVolume => (FSCategory.Volume, true, false)
    | FSFunction.FileServerStatus => (FSCategory.Server, false, false)
    | FSFunction.GetFileServerProperties => (FSCategory.Server, false, false)
    | FSFunction.VolumeStatus => (FSCategory.Volume, false, false)
    end in
  mkInfo function category mutates_storage requires_open_file.
Definition ALL_OPERATIONS : list FSFunction.t :=
  [FSFunction.FileServerStatus; FSFunction.GetFileServerProperties; FSFunction.VolumeStatus;
   FSFunction.GetCurrentDirectory; FSFunction.ChangeDirectory; FSFunction.OpenFile;
   FSFunction.SeekFile; FSFunction.ReadFile; FSFunction.WriteFile; FSFunction.CloseFile;
   FSFunction.MoveFile; FSFunction.DeleteFile; FSFunction.GetFileAttributes;
   FSFunction.SetFileAttributes; FSFunction.GetFileDateTime; FSFunction.InitializeVolume].
Definition mutates_storage (function : FSFunction.t) : bool :=
  oi_mutates_storage (operation_info function).

(** ** What a request stores *)

(** Same files, directories, attributes, dates and volume name. *)
Definition same_storage (s0 s : FileServer) : Prop :=
  fs_files s = fs_files s0 /\ fs_directories s = fs_directories s0
  /\ fs_file_attrs s = fs_file_attrs s0 /\ fs_file_date_times s = fs_file_date_times s0
  /\ fs_volume_name s = fs_volume_name s0.
Definition stores {A} (s0 : FileServer) (r : option (FileServer * A)) : Prop :=
  forall s out, r = Some (s, out) -> same_storage s0 s.
Lemma stores_some {A} s0 s (out : A) : same_storage s0 s -> stores s0 (Some (s, out)).
Proof. by intros H s' out' [= <- _]. Qed.
Lemma stores_refuse f tan e s0 s : same_storage s0 s -> stores s0 (refuse f tan e s).
Proof. apply stores_some. Qed.
Lemma stores_succeed f tan s0 s : same_storage s0 s -> stores s0 (succeed f tan s).
Proof. apply stores_some. Qed.
Lemma stores_bind {A B} s0 (m : option B) (k : B -> option (FileServer * A)) :
  (forall x, stores s0 (k x)) -> stores s0 (m ≫= k).
Proof. intros Hk s out H. apply bind_Some in H as (x & _ & H). by eapply Hk. Qed.
Lemma stores_media f tan s0 s k : same_storage s0 s -> stores s0 k -> stores s0 (media_present f tan s k).
Proof. unfold media_present. intros Hs Hk. case_bool_decide; [by apply stores_refuse|done]. Qed.
Lemma allocate_handle_storage s : same_storage s (allocate_handle s).1.
Proof.
  unfold allocate_handle.
  enough (H : forall k s', same_storage s s' -> same_storage s (allocate_handle_loop k s').1)
    by by apply H.
  induction k as [|k IH]; intros s' H; cbn [allocate_handle_loop]; [done|]. cbv zeta.
  match goal with |- context [if ?b then _ else _] => destruct b end; [done|]. by apply IH.
Qed.
Lemma stores_open_handle client tan flags isdir path pattern s0 s :
  same_storage s0 s -> stores s0 (open_handle client tan flags isdir path pattern s).
Proof.
  intros H. unfold open_handle.
  destruct (if negb isdir && has_flag flags OpenFlags.Append then _ else Some 0);
    [|by apply stores_refuse].
  assert (Ha := allocate_handle_storage s). destruct (allocate_handle s) as [s' h]. cbn [fst] in Ha.
  assert (Hs : same_storage s0 s')
    by (destruct H as (?&?&?&?&?), Ha as (?&?&?&?&?); split_and!; congruence).
  destruct (h =? _); [by apply stores_refuse|]. by apply stores_some.
Qed.
Ltac stores_step :=
  match goal with
  | |- stores _ (refuse _ _ _ _) => apply stores_refuse; try done
  | |- stores _ (succeed _ _ _) => apply stores_succeed; try done
  | |- stores _ (media_present _ _ _ _) => apply stores_media; [done|]
  | |- stores _ (open_handle _ _ _ _ _ _ _) => apply stores_open_handle; try done
  | |- stores _ None => done
  | |- stores _ (Some _) => apply stores_some; try done
  | |- stores _ (_ ≫= _) => apply stores_bind; intros ?
  | |- stores _ (match ?x with _ => _ end) => destruct x
  end.
Ltac stores_all := repeat (cbv zeta; stores_step).

Lemma stores_open client tan r flags s :
  r !! 2%nat = Some flags -> has_flag flags OpenFlags.Create = false ->
  stores s (handle_open_file client tan r s).
Proof.
  intros Hf Hc. unfold handle_open_file. rewrite Hf. cbn [mbind option_bind].
  unfold open_directory, open_file. rewrite Hc. change (negb false) with true. cbv iota. stores_all.
Qed.
Lemma stores_execute client function fn tan r s :
  FSFunction.from_u8 function = Some fn -> mutates_storage fn = false ->
  (fn = FSFunction.OpenFile ->
   forall flags, r !! 2%nat = Some flags -> has_flag flags OpenFlags.Create = false) ->
  stores s (execute_function client function tan r s).
Proof.
  intros E Hm Ho. unfold execute_function. rewrite E. destruct fn; try done.
  - stores_all.
  - unfold handle_get_properties. stores_all.
  - stores_all.
  - unfold handle_get_current_directory. stores_all.
  - unfold handle_change_directory. stores_all.
  - destruct (r !! 2%nat) as [flags|] eqn:Hf; [by eapply stores_open; [|apply Ho]|].
    unfold handle_open_file. rewrite Hf. cbn [mbind option_bind]. stores_all.
  - unfold handle_seek_file. stores_all.
  - unfold handle_read_file, handle_read_directory. stores_all.
  - unfold handle_close_file. stores_all.
  - unfold handle_get_file_attributes. stores_all.
  - unfold handle_get_file_date_time. stores_all.
Qed.
Lemma stores_volume_status client tan r s : stores s (handle_volume_status client tan r s).
Proof.
  unfold handle_volume_status, prepare_volume_for_removal, receive_volume_maintain_request,
    clear_volume_maintain_request, volume_removed. cbv zeta.
  destruct (_ <? _)%nat; [by apply stores_some|]. apply stores_bind; intros m. apply stores_bind; intros n.
  destruct (negb _); [by apply stores_some|]. apply stores_bind; intros name.
  destruct (negb _); [by apply stores_some|]. destruct (negb _); [by apply stores_some|].
  destruct (_ =? VOLUME_MODE_PREPARE_REMOVAL).
  { destruct (get_volume_state s); by apply stores_some. }
  destruct (_ =? VOLUME_MODE_MAINTAIN); [|destruct (_ =? 0); [|by apply stores_some]].
  - apply stores_some. by repeat case_bool_decide.
  - destruct (_ && _ && _); by apply stores_some.
Qed.

Lemma storage_update_client a g s s' : same_storage s s' -> same_storage s (update_client a g s').
Proof. done. Qed.
Lemma stores_new_request client f fn tan r s :
  FSFunction.from_u8 f = Some fn -> mutates_storage fn = false ->
  (fn = FSFunction.OpenFile ->
   forall flags, r !! 2%nat = Some flags -> has_flag flags OpenFlags.Create = false) ->
  stores s (new_request client f tan r s).
Proof.
  intros Hf Hm Ho s' out H. unfold new_request in H.
  destruct (f =? _); apply bind_Some in H as ([s1 x] & E & H).
  - apply stores_volume_status in E. destruct x; by simplify_eq.
  - apply (stores_execute _ _ _ _ _ _ Hf Hm Ho) in E. by simplify_eq.
Qed.

Definition create_request : list Z :=
  [0x20; 1; 0x06] ++ Name.to_le_bytes 2 1 ++ [0x46].
Definition to_server (src : Address) (data : list Z) : Message :=
  mkMessage PGN_FILE_CLIENT_TO_SERVER data src BROADCAST_ADDRESS Priority.Default 0.

(** a request whose function the operation registry classifies as not changing stored data
    leaves the files, their contents, attributes and dates, the directories and the volume's
    name as they are, whatever its bytes, opening with the create flag apart; and that
    exception is real: the registry calls opening a file a request that stores nothing, and a
    one-byte name opened with the create flag creates the file. *)
Theorem fs_storage_classified :
  (mutates_storage FSFunction.OpenFile = false
   /\ exists s' out,
        handle_client_message (to_server 0x42 create_request) (FileServer_new FileServerConfig_default)
        = Some (s', out)
        /\ BTreeMap.keys (fs_files (FileServer_new FileServerConfig_default)) = []
        /\ BTreeMap.keys (fs_files s') = [[0x5C; 0x46]])
  /\ forall msg s s' out f fn,
       handle_client_message msg s = Some (s', out) ->
       m_data msg !! 0%nat = Some f -> FSFunction.from_u8 f = Some fn -> mutates_storage fn = false ->
       (fn = FSFunction.OpenFile ->
        forall flags, m_data msg !! 2%nat = Some flags -> has_flag flags OpenFlags.Create = false) ->
       same_storage s s'.
Proof.
  split.
  { split; [done|].
    destruct (handle_client_message (to_server 0x42 create_request) _) as [[s' out]|] eqn:E;
      [|by vm_compute in E].
    exists s', out. split_and!; [done|by vm_compute|]. vm_compute in E. by injection E as <- _. }
  intros msg s s' out f fn H H0 Hf Hm Ho. unfold handle_client_message in H.
  destruct (_ || _ || _ || _); [by simplify_eq|]. rewrite H0 in H. cbn [mbind option_bind] in H.
  destruct (f =? CCM_FUNCTION_CODE).
  { destruct (ccm_decode _); simplify_eq; [|done]. unfold handle_ccm. cbv zeta. by destruct (negb _). }
  inv_option. destruct (_ =? INVALID_TAN); [by simplify_eq|].
  destruct (cached_response _ _ _ _); [by simplify_eq|].
  by apply (stores_new_request _ _ _ _ _ (ensure_client (m_source msg) s) Hf Hm Ho) in H.
Qed.
Lemma fs_storage_classified_witness :
  exists s' out,
    handle_client_message (to_server 0x42 [0x22; 7; 1; 1; 0; 0; 0xFF; 0xFF])
      (FileServer_new FileServerConfig_default) = Some (s', out)
    /\ same_storage (FileServer_new FileServerConfig_default) s'.
Proof.
  destruct (handle_client_message (to_server 0x42 [0x22; 7; 1; 1; 0; 0; 0xFF; 0xFF])
              (FileServer_new FileServerConfig_default)) as [[s' out]|] eqn:E; [|by vm_compute in E].
  exists s', out. split; [done|]. destruct fs_storage_classified as [_ H].
  apply (H _ _ _ _ 0x22 FSFunction.ReadFile E); done.
Defined.

(** ** Reading back what was written *)

(** The requests a client sends (short ones padded to eight bytes). *)
Definition padded8 (l : list Z) : list Z := l ++ replicate (8 - length l) 0xFF.
Definition write_request (tan handle : Z) (payload : list Z) : list Z :=
  padded8 ([0x23; tan; handle] ++ Name.to_le_bytes 2 (Z.of_nat (length payload)) ++ payload).
Definition seek_request (tan handle offset : Z) : list Z :=
  [0x21; tan; handle; SEEK_MODE_FROM_START] ++ Name.to_le_bytes 4 offset.
Definition read_request (tan handle count : Z) : list Z :=
  [0x22; tan; handle] ++ Name.to_le_bytes 2 count ++ [0xFF; 0xFF; 0xFF].
(** What the bytes of a file are after writing [payload] at [position]. *)
Definition written_byte (position : nat) (payload data : list Z) (i : nat) : option Z :=
  if (i <? position)%nat then
    match data !! i with Some b => Some b | None => Some 0 end
  else if (i <? position + length payload)%nat then payload !! (i - position)%nat
  else data !! i.

Lemma le_bytes_back n x : 0 <= x < 2 ^ (8 * Z.of_nat n) ->
  Name.from_le_bytes (Name.to_le_bytes n x) = x.
Proof.
  intros H. rewrite from_to_le_bytes. unfold get_field. rewrite Z.shiftr_0_r.
  apply land_ones_small; [lia|done].
Qed.
Lemma u16_at_le pre n l : 0 <= n < 2 ^ 16 ->
  u16_at (length pre) (pre ++ Name.to_le_bytes 2 n ++ l) = Some n.
Proof.
  intros H. unfold u16_at. cbn [Name.to_le_bytes app].
  rewrite (list_lookup_middle pre _ _ (length pre)) by done. cbn [mbind option_bind].
  rewrite (lookup_app_r pre) by lia. replace (S (length pre) - length pre)%nat with 1%nat by lia.
  cbn [lookup list_lookup mbind option_bind]. f_equal. by apply (le_bytes_back 2).
Qed.
Lemma range_middle pre l post :
  range (length pre) (length pre + length l) (pre ++ l ++ post) = Some l.
Proof.
  unfold range. rewrite !length_app, !(proj2 (Nat.leb_le _ _)) by lia. cbn [andb].
  rewrite drop_app_length, Nat.add_comm, Nat.add_sub. by rewrite take_app_length.
Qed.
Lemma canonical_padded l : fs_payload_len_is_canonical (padded8 l) (length l) = true.
Proof.
  unfold fs_payload_len_is_canonical, padded8. rewrite length_app, length_replicate.
  rewrite (proj2 (Nat.leb_le _ _)) by lia. cbn [andb]. destruct (Nat.leb_spec (length l) 8).
  - rewrite (proj2 (Nat.eqb_eq _ 8)) by lia. rewrite drop_app_length. apply orb_true_iff. right.
    cbn [andb]. apply forallb_forall. intros x Hx. apply list_elem_of_In, elem_of_replicate in Hx as [-> _].
    done.
  - rewrite (proj2 (Nat.eqb_eq _ _)) by lia. done.
Qed.

(** The handle [handle] of [client] is open on the file [path], at position [at_]. *)
Record open_on (client handle at_ flags : Z) (path : list Z) (idx : nat) (s : FileServer) : Prop := {
  oo_position : position (owns handle client) (fs_open_files s) = Some idx;
  oo_file : exists f, fs_open_files s !! idx = Some f
              /\ of_path f = path /\ of_position f = at_ /\ of_flags f = flags /\ of_is_directory f = false
}.
Lemma position_alter {A} (p : A -> bool) (g : A -> A) i l :
  (forall x, p (g x) = p x) -> position p (alter g i l) = position p l.
Proof.
  intros Hp. revert i. induction l as [|x l IH]; intros i; [by destruct i|].
  destruct i as [|i]; cbn; [by rewrite Hp|]. by rewrite IH.
Qed.
Lemma open_on_set_position client handle at_ flags path idx x s :
  open_on client handle at_ flags path idx s ->
  open_on client handle x flags path idx (set_position idx x s).
Proof.
  intros [Hp (f & Hf & Hpath & _ & Hfl & Hd)]. split.
  - cbn. by rewrite position_alter.
  - exists (of_with_position x f). cbn. by rewrite list_lookup_alter_eq, Hf.
Qed.
Lemma write_data_bytes at_ payload data out :
  write_data at_ payload data = Some out ->
  (forall i, out !! i = written_byte at_ payload data i)
  /\ (at_ + length payload <= length out)%nat
  /\ take (length payload) (drop at_ out) = payload.
Proof.
  intros H. destruct (write_data_ok at_ payload data) as (out' & E & ->). rewrite H in E. simplify_eq.
  set (d := data ++ replicate (at_ + length payload - length data) 0).
  assert (Hl : length (take at_ d) = at_).
  { rewrite length_take. subst d. rewrite length_app, length_replicate. lia. }
  split_and!.
  - intros i. unfold written_byte. destruct (Nat.ltb_spec i at_).
    + rewrite lookup_app_l, lookup_take_lt by lia. subst d.
      destruct (data !! i) as [b|] eqn:E; [by apply lookup_app_l_Some|].
      apply lookup_ge_None in E. rewrite lookup_app_r by done. apply lookup_replicate. lia.
    + rewrite lookup_app_r by lia. rewrite Hl. destruct (Nat.ltb_spec i (at_ + length payload)).
      * by rewrite lookup_app_l by lia.
      * rewrite lookup_app_r, lookup_drop by lia. f_equal. lia.
  - rewrite !length_app, Hl. lia.
  - rewrite <- Hl at 1. by rewrite drop_app_length, take_app_length.
Qed.
Lemma media_on f t s k : get_volume_state s <> VolumeState.Removed -> media_present f t s k = k.
Proof. intros H. unfold media_present. by rewrite bool_decide_false. Qed.

(** What a write, a seek and a read answer and change. *)
Lemma write_effect client t h at_ flags path idx payload data s :
  open_on client h at_ flags path idx s -> get_access_mode flags = OpenFlags.bit OpenFlags.ReadWrite ->
  get_volume_state s <> VolumeState.Removed -> path_is_read_only path s = false ->
  BTreeMap.get path (fs_files s) = Some data ->
  0 <= at_ -> at_ + Z.of_nat (length payload) < 2 ^ 32 -> Z.of_nat (length payload) < 2 ^ 16 ->
  exists out, write_data (Z.to_nat at_) payload data = Some out
  /\ handle_write_file client t (write_request t h payload) s
     = Some (touch_file_date_time path
               (set_position idx (at_ + Z.of_nat (length payload))
                  (with_files (BTreeMap.insert path out (fs_files s)) s)),
             [0x23; t; 0] ++ Name.to_le_bytes 2 (Z.of_nat (length payload)) ++ [0xFF; 0xFF; 0xFF]).
Proof.
  intros [Hp (f & Hf & Hpath & Hat & Hfl & Hd)] Hm Hv Hro Hg H0 H32 H16.
  destruct (write_data_ok (Z.to_nat at_) payload data) as (out & Hw & _). exists out. split; [done|].
  unfold handle_write_file. rewrite media_on by done.
  set (n := Z.of_nat (length payload)). set (hd := [0x23; t; h]).
  set (r := write_request t h payload).
  assert (Er : r = hd ++ Name.to_le_bytes 2 n ++ payload
                   ++ replicate (8 - length (hd ++ Name.to_le_bytes 2 n ++ payload)) 0xFF).
  { unfold r, write_request, padded8. by rewrite <- !app_assoc. }
  assert (Hlr : (5 + length payload <= length r)%nat).
  { rewrite Er. rewrite !length_app. cbn. lia. }
  rewrite (proj2 (Nat.ltb_ge _ _)) by lia.
  assert (E2 : r !! 2%nat = Some h) by by rewrite Er.
  assert (E3 : u16_at 3 r = Some n) by (rewrite Er; apply (u16_at_le hd); unfold n; lia).
  assert (Hu : (5 + Z.to_nat n = length (hd ++ Name.to_le_bytes 2 n ++ payload))%nat).
  { rewrite !length_app. cbn. unfold n. lia. }
  assert (Hc : fs_payload_len_is_canonical r (5 + Z.to_nat n) = true).
  { rewrite Hu. apply canonical_padded. }
  assert (Hra : range 5 (5 + Z.to_nat n) r = Some payload).
  { rewrite Er, app_assoc. replace (5 + Z.to_nat n)%nat with (5 + length payload)%nat by (unfold n; lia).
    apply (range_middle (hd ++ Name.to_le_bytes 2 n)). }
  rewrite E2, E3. cbn [mbind option_bind]. rewrite Hc. cbn [negb]. rewrite Hp, Hf.
  cbn [mbind option_bind]. rewrite Hd, Hpath, Hfl, Hm, Hro, Hg, Hat.
  unfold checked_add. rewrite !(proj2 (Z.ltb_lt _ _)) by (unfold n; lia). cbn [mbind option_bind].
  rewrite Hra. cbn [mbind option_bind]. rewrite Hw. done.
Qed.
Lemma seek_effect client t h at_ flags path idx target data s :
  open_on client h at_ flags path idx s -> get_volume_state s <> VolumeState.Removed ->
  BTreeMap.get path (fs_files s) = Some data ->
  0 <= target < 2 ^ 31 -> target <= Z.of_nat (length data) ->
  handle_seek_file client t (seek_request t h target) s
  = Some (set_position idx target s, [0x21; t; 0; 0xFF] ++ Name.to_le_bytes 4 target).
Proof.
  intros [Hp (f & Hf & Hpath & Hat & Hfl & Hd)] Hv Hg Ht Hle.
  unfold handle_seek_file. rewrite media_on by done.
  assert (Hra : range 4 8 (seek_request t h target) = Some (Name.to_le_bytes 4 target)) by done.
  change (fs_payload_len_is_canonical (seek_request t h target) SEEK_FILE_REQUEST_LEN) with true.
  change (seek_request t h target !! 2%nat) with (Some h).
  change (seek_request t h target !! 3%nat) with (Some SEEK_MODE_FROM_START).
  rewrite Hra. cbn [negb mbind option_bind fmap option_fmap option_map].
  assert (Hi : i32_from_le (Name.to_le_bytes 4 target) = target).
  { unfold i32_from_le. rewrite le_bytes_back by lia. by rewrite (proj2 (Z.ltb_lt _ _)) by lia. }
  rewrite Hi, Hp, Hf. cbn [mbind option_bind]. rewrite Hd, Hpath, Hg.
  change (SEEK_MODE_FROM_START =? SEEK_MODE_FROM_START) with true. cbv iota zeta. rewrite Z.add_0_l.
  rewrite (proj2 (Z.ltb_ge _ _)) by lia.
  rewrite (proj2 (Z.ltb_ge _ _)) by (unfold fs_file_size_to_wire; lia). done.
Qed.
Lemma read_effect client t h at_ flags path idx count data s :
  open_on client h at_ flags path idx s -> get_access_mode flags = OpenFlags.bit OpenFlags.ReadWrite ->
  get_volume_state s <> VolumeState.Removed -> BTreeMap.get path (fs_files s) = Some data ->
  0 <= at_ -> 0 < Z.of_nat count < 2 ^ 16 -> at_ + Z.of_nat count < 2 ^ 32 ->
  (Z.to_nat at_ + count <= length data)%nat ->
  handle_read_file client t (read_request t h (Z.of_nat count)) s
  = Some (set_position idx (at_ + Z.of_nat count) s,
          [0x22; t; 0] ++ Name.to_le_bytes 2 (Z.of_nat count)
          ++ take count (drop (Z.to_nat at_) data)).
Proof.
  intros [Hp (f & Hf & Hpath & Hat & Hfl & Hd)] Hm Hv Hg H0 H16 H32 Hle.
  unfold handle_read_file. rewrite media_on by done.
  set (r := read_request t h (Z.of_nat count)).
  assert (E3 : u16_at 3 r = Some (Z.of_nat count)) by (apply (u16_at_le [0x22; t; h]); lia).
  change (length r) with 8%nat. change (fs_payload_len_is_canonical r READ_FILE_REQUEST_LEN) with true.
  change (r !! 6%nat) with (Some 0xFF). change (r !! 7%nat) with (Some 0xFF).
  change (r !! 2%nat) with (Some h). change (r !! 5%nat) with (Some 0xFF). rewrite E3. clear E3. clearbody r.
  change ((8 <? READ_FILE_REQUEST_LEN)%nat) with false.
  cbn [negb mbind option_bind orb Z.eqb Pos.eqb]. rewrite Hp, Hf. cbn [mbind option_bind].
  rewrite Hd, Hfl, Hm, Hpath, Hg, Hat.
  change (OpenFlags.bit OpenFlags.ReadWrite =? OpenFlags.bit OpenFlags.Read) with false.
  rewrite Z.eqb_refl. cbn [negb andb]. cbv zeta.
  assert (Hs : at_ + Z.of_nat count <= fs_file_size_to_wire (length data))
    by (unfold fs_file_size_to_wire; lia).
  rewrite (proj2 (Z.leb_gt _ _)) by lia. unfold checked_sub, checked_add.
  rewrite (proj2 (Z.leb_le _ _)) by lia. cbn [mbind option_bind].
  rewrite Z.min_l by lia. unfold range.
  rewrite (proj2 (Nat.leb_le _ _)), (proj2 (Nat.leb_le _ _)) by lia. cbn [andb mbind option_bind].
  rewrite (proj2 (Z.ltb_lt _ _)) by lia. cbn [mbind option_bind].
  replace (Z.to_nat (at_ + Z.of_nat count) - Z.to_nat at_)%nat with count by lia.
  unfold wrap. rewrite Z.mod_small by lia. done.
Qed.
Lemma open_on_ext client h at_ flags path idx s s' :
  fs_open_files s' = fs_open_files s ->
  open_on client h at_ flags path idx s -> open_on client h at_ flags path idx s'.
Proof. intros E [H1 H2]. split; by rewrite E. Qed.

(** with a handle open for reading and writing on a file that is not read-only, a write of
    any bytes succeeds, puts them at the handle's position (a gap past the end reads as zeros,
    every other byte and every other file keeps its value) and moves the handle past them; a
    seek back and a read of as many bytes return exactly what was written and leave the stored
    files alone. *)
Theorem fs_write_read_back client h at_ flags path idx payload data s t1 t2 t3 :
  open_on client h at_ flags path idx s -> get_access_mode flags = OpenFlags.bit OpenFlags.ReadWrite ->
  get_volume_state s <> VolumeState.Removed -> path_is_read_only path s = false ->
  BTreeMap.get path (fs_files s) = Some data ->
  0 <= at_ < 2 ^ 31 -> at_ + Z.of_nat (length payload) < 2 ^ 32 ->
  0 < Z.of_nat (length payload) < 2 ^ 16 ->
  exists out s1 s2 s3,
    execute_function client 0x23 t1 (write_request t1 h payload) s
    = Some (s1, [0x23; t1; 0] ++ Name.to_le_bytes 2 (Z.of_nat (length payload)) ++ [0xFF; 0xFF; 0xFF])
    /\ (forall i, out !! i = written_byte (Z.to_nat at_) payload data i)
    /\ (forall p, BTreeMap.get p (fs_files s1)
                  = if decide (p = path) then Some out else BTreeMap.get p (fs_files s))
    /\ open_on client h (at_ + Z.of_nat (length payload)) flags path idx s1
    /\ execute_function client 0x21 t2 (seek_request t2 h at_) s1
       = Some (s2, [0x21; t2; 0; 0xFF] ++ Name.to_le_bytes 4 at_)
    /\ execute_function client 0x22 t3 (read_request t3 h (Z.of_nat (length payload))) s2
       = Some (s3, [0x22; t3; 0] ++ Name.to_le_bytes 2 (Z.of_nat (length payload)) ++ payload)
    /\ fs_files s3 = fs_files s1.
Proof.
  intros Ho Hm Hv Hro Hg Ha H32 H16.
  destruct (write_effect client t1 h at_ flags path idx payload data s) as (out & Hw & E1);
    [done..|lia|lia|lia|].
  destruct (write_data_bytes _ _ _ _ Hw) as (Hb & Hl & Ht).
  set (s1 := touch_file_date_time _ _) in E1.
  assert (Hg1 : forall p, BTreeMap.get p (fs_files s1)
                  = if decide (p = path) then Some out else BTreeMap.get p (fs_files s)).
  { intros p. change (fs_files s1) with (BTreeMap.insert path out (fs_files s)).
    destruct (decide (p = path)) as [->|Hn]; [apply get_insert_eq|by apply get_insert_ne]. }
  assert (Ho1 : open_on client h (at_ + Z.of_nat (length payload)) flags path idx s1)
    by exact (open_on_ext _ _ _ _ _ _ (set_position idx _ s) s1 eq_refl
                (open_on_set_position _ _ _ _ _ _ _ _ Ho)).
  assert (Hgp : BTreeMap.get path (fs_files s1) = Some out)
    by (rewrite Hg1; by rewrite decide_True).
  assert (E2 := seek_effect client t2 h _ flags path idx at_ out s1 Ho1 Hv Hgp ltac:(lia) ltac:(lia)).
  set (s2 := set_position idx at_ s1) in E2.
  assert (Ho2 : open_on client h at_ flags path idx s2)
    by exact (open_on_set_position _ _ _ _ _ _ _ _ Ho1).
  assert (E3 := read_effect client t3 h at_ flags path idx (length payload) out s2 Ho2 Hm Hv Hgp
                  ltac:(lia) ltac:(lia) ltac:(lia) ltac:(lia)). rewrite Ht in E3.
  exists out, s1, s2. eexists. split_and!; [exact E1|done|done|done|exact E2|exact E3|done].
Qed.
Definition one_open_file : FileServer :=
  match handle_client_message (to_server 0x42 create_request) (FileServer_new FileServerConfig_default) with
  | Some (s, _) => s
  | None => FileServer_new FileServerConfig_default
  end.
Lemma fs_write_read_back_witness :
  exists s1 s2 s3,
    execute_function 0x42 0x23 2 (write_request 2 1 [7; 8; 9]) one_open_file
    = Some (s1, [0x23; 2; 0] ++ Name.to_le_bytes 2 3 ++ [0xFF; 0xFF; 0xFF])
    /\ BTreeMap.get [0x5C; 0x46] (fs_files s1) = Some [7; 8; 9]
    /\ execute_function 0x42 0x21 3 (seek_request 3 1 0) s1
       = Some (s2, [0x21; 3; 0; 0xFF; 0; 0; 0; 0])
    /\ execute_function 0x42 0x22 4 (read_request 4 1 3) s2
       = Some (s3, [0x22; 4; 0] ++ Name.to_le_bytes 2 3 ++ [7; 8; 9]).
Proof.
  destruct (fs_write_read_back 0x42 1 0 6 [0x5C; 0x46] 0 [7; 8; 9] [] one_open_file 2 3 4)
    as (out & s1 & s2 & s3 & E1 & _ & _ & _ & E2 & E3 & _);
    [|by vm_compute|by vm_compute|by vm_compute|by vm_compute|done|done|done|].
  - split; [by vm_compute|]. exists (mkOpen 1 0x42 [0x5C; 0x46] 0 6 false [0x2A]). by vm_compute.
  - exists s1, s2, s3. split_and!; [exact E1| |exact E2|exact E3]. clear E2 E3.
    vm_compute in E1. injection E1 as <-. by vm_compute.
Defined.
