(* ===== verification/FsClient.v ===== *)
(** The file server's client ([isobus/fs/client]): requests with their transaction numbers,
    the answers they are matched with, what the client learns of its open files and of its
    current directory.  Paths are their UTF-8 bytes. *)
From S2P Require Export FsServer.

Definition SEEK_FILE_RESPONSE_LEN : nat := 8.
Definition READ_FILE_RESPONSE_HEADER_LEN : nat := 5.
Definition WRITE_FILE_RESPONSE_LEN : nat := 8.
Definition FILE_ATTRIBUTES_SET_ALLOWED_MASK : Z := FILE_ATTRIBUTES_CLIENT_SETTABLE.
Definition INITIALIZE_VOLUME_FLAGS_RESERVED_MASK : Z := not_u 8 0x03.
Definition FS_MAX_PATH_LEN : Z := 65535.

(** Past the [count] directory entries that start at [offset]. *)
Fixpoint directory_entries_end (count : nat) (offset : nat) (payload : list Z) : option nat :=
  match count with
  | O => Some offset
  | S count =>
      name_len ← payload !! offset;
      if name_len =? 0 then None
      else
        let offset := (offset + (1 + Z.to_nat name_len + 9))%nat in
        if (length payload <? offset)%nat then None
        else directory_entries_end count offset payload
  end.

Module SeekMode.
Inductive t : Type := Start | Current | End_.
Definition as_u8 (m : t) : Z := match m with Start => 0 | Current => 1 | End_ => 2 end.
Definition try_from_u8 (v : Z) : option t :=
  match v with 0 => Some Start | 1 => Some Current | 2 => Some End_ | _ => None end.
End SeekMode.
Module ClientState.
Inductive t : Type := Disconnected | WaitingForStatus | Connected | Error.
#[global] Instance eq_dec : EqDecision t.
Proof. solve_decision. Defined.
End ClientState.

Record OpenFileInfo : Type := mkInfo {
  oi_handle : Z;
  oi_path : list Z;
  oi_flags : Z;
  oi_position : Z;
  oi_size : Z
}.
Definition oi_with_position (x : Z) (i : OpenFileInfo) : OpenFileInfo :=
  mkInfo (oi_handle i) (oi_path i) (oi_flags i) x (oi_size i).
Record PendingRequest : Type := mkPending {
  pr_tan : Z;
  pr_function : FSFunction.t;
  pr_timestamp_ms : Z;
  pr_request_data : list Z
}.
Definition pr_with_timestamp (x : Z) (p : PendingRequest) : PendingRequest :=
  mkPending (pr_tan p) (pr_function p) x (pr_request_data p).
Definition pending_is_expired (p : PendingRequest) (current_time_ms timeout_ms : Z) : bool :=
  timeout_ms <? sat_sub current_time_ms (pr_timestamp_ms p).
Record FileClientConfig : Type := mkFcConfig {
  fcc_ccm_interval_ms : Z;
  fcc_request_timeout_ms : Z;
  fcc_server_status_timeout_ms : Z;
  fcc_retry_delay_ms : Z;
  fcc_max_retries : Z
}.
Definition FileClientConfig_default : FileClientConfig := mkFcConfig 2000 6000 6000 500 3.
Definition with_ccm_interval (ms : Z) (c : FileClientConfig) : FileClientConfig :=
  mkFcConfig ms (fcc_request_timeout_ms c) (fcc_server_status_timeout_ms c)
    (fcc_retry_delay_ms c) (fcc_max_retries c).
Definition with_request_timeout (ms : Z) (c : FileClientConfig) : FileClientConfig :=
  mkFcConfig (fcc_ccm_interval_ms c) ms (fcc_server_status_timeout_ms c)
    (fcc_retry_delay_ms c) (fcc_max_retries c).
Definition with_max_retries (n : Z) (c : FileClientConfig) : FileClientConfig :=
  mkFcConfig (fcc_ccm_interval_ms c) (fcc_request_timeout_ms c)
    (fcc_server_status_timeout_ms c) (fcc_retry_delay_ms c) n.

Record FSClientOutbound : Type := mkFcOut {
  fco_pgn : Pgn;
  fco_data : list Z;
  fco_dest : option Address
}.
Definition client_out (data : list Z) (dest : Address) : FSClientOutbound :=
  mkFcOut PGN_FILE_CLIENT_TO_SERVER data (Some dest).
Definition client_broadcast (data : list Z) : FSClientOutbound :=
  mkFcOut PGN_FILE_CLIENT_TO_SERVER data None.

(** The client's events. *)
Inductive FcEvent : Type :=
| FcConnected
| FcDisconnected
| FcError (e : FSError.t)
| FcFileOpened (handle : Z) (path : list Z)
| FcFileClosed (handle : Z)
| FcOpenResponse (tan : Z) (r : Result Z FSError.t)
| FcPropertiesResponse (tan : Z) (r : Result FileServerProperties FSError.t)
| FcCloseResponse (tan : Z) (r : Result Z FSError.t)
| FcReadResponse (tan : Z) (r : Result (list Z) FSError.t)
| FcWriteResponse (tan : Z) (r : Result Z FSError.t)
| FcSeekResponse (tan : Z) (r : Result Z FSError.t)
| FcCurrentDirectoryResponse (tan : Z) (r : Result (list Z) FSError.t)
| FcChangeDirectoryResponse (tan : Z) (r : Result (list Z) FSError.t)
| FcMoveResponse (tan : Z) (r : Result unit FSError.t)
| FcDeleteResponse (tan : Z) (r : Result unit FSError.t)
| FcFileAttributesResponse (tan : Z) (r : Result Z FSError.t)
| FcSetFileAttributesResponse (tan : Z) (r : Result unit FSError.t)
| FcFileDateTimeResponse (tan : Z) (r : Result (Z * Z) FSError.t)
| FcInitializeVolumeResponse (tan : Z) (r : Result unit FSError.t)
| FcVolumeStatus (v : VolumeState.t).

Record FileClient : Type := mkFc {
  fc_server_address : Address;
  fc_config : FileClientConfig;
  fc_state : ClientState.t;
  fc_ccm_timer_ms : Z;
  fc_server_status_timer_ms : Z;
  fc_current_time_ms : Z;
  fc_next_tan : Z;
  fc_pending_requests : BTreeMap.t Z PendingRequest;
  fc_server_properties : option FileServerProperties;
  fc_server_version : option Z;
  fc_server_status : option FileServerStatus;
  fc_open_files : BTreeMap.t Z OpenFileInfo;
  fc_current_directory : list Z;
  fc_volume_total_blocks : Z;
  fc_volume_free_blocks : Z;
  fc_trace : list FcEvent
}.
Definition fc_with_server_address (x : Address) (c : FileClient) : FileClient :=
  mkFc x (fc_config c) (fc_state c) (fc_ccm_timer_ms c) (fc_server_status_timer_ms c)
    (fc_current_time_ms c) (fc_next_tan c) (fc_pending_requests c) (fc_server_properties c)
    (fc_server_version c) (fc_server_status c) (fc_open_files c) (fc_current_directory c)
    (fc_volume_total_blocks c) (fc_volume_free_blocks c) (fc_trace c).
Definition fc_with_state (x : ClientState.t) (c : FileClient) : FileClient :=
  mkFc (fc_server_address c) (fc_config c) x (fc_ccm_timer_ms c) (fc_server_status_timer_ms c)
    (fc_current_time_ms c) (fc_next_tan c) (fc_pending_requests c) (fc_server_properties c)
    (fc_server_version c) (fc_server_status c) (fc_open_files c) (fc_current_directory c)
    (fc_volume_total_blocks c) (fc_volume_free_blocks c) (fc_trace c).
Definition fc_with_ccm_timer_ms (x : Z) (c : FileClient) : FileClient :=
  mkFc (fc_server_address c) (fc_config c) (fc_state c) x (fc_server_status_timer_ms c)
    (fc_current_time_ms c) (fc_next_tan c) (fc_pending_requests c) (fc_server_properties c)
    (fc_server_version c) (fc_server_status c) (fc_open_files c) (fc_current_directory c)
    (fc_volume_total_blocks c) (fc_volume_free_blocks c) (fc_trace c).
Definition fc_with_server_status_timer_ms (x : Z) (c : FileClient) : FileClient :=
  mkFc (fc_server_address c) (fc_config c) (fc_state c) (fc_ccm_timer_ms c) x
    (fc_current_time_ms c) (fc_next_tan c) (fc_pending_requests c) (fc_server_properties c)
    (fc_server_version c) (fc_server_status c) (fc_open_files c) (fc_current_directory c)
    (fc_volume_total_blocks c) (fc_volume_free_blocks c) (fc_trace c).
Definition fc_with_current_time_ms (x : Z) (c : FileClient) : FileClient :=
  mkFc (fc_server_address c) (fc_config c) (fc_state c) (fc_ccm_timer_ms c)
    (fc_server_status_timer_ms c) x (fc_next_tan c) (fc_pending_requests c)
    (fc_server_properties c) (fc_server_version c) (fc_server_status c) (fc_open_files c)
    (fc_current_directory c) (fc_volume_total_blocks c) (fc_volume_free_blocks c) (fc_trace c).
Definition fc_with_next_tan (x : Z) (c : FileClient) : FileClient :=
  mkFc (fc_server_address c) (fc_config c) (fc_state c) (fc_ccm_timer_ms c)
    (fc_server_status_timer_ms c) (fc_current_time_ms c) x (fc_pending_requests c)
    (fc_server_properties c) (fc_server_version c) (fc_server_status c) (fc_open_files c)
    (fc_current_directory c) (fc_volume_total_blocks c) (fc_volume_free_blocks c) (fc_trace c).
Definition fc_with_pending_requests (x : BTreeMap.t Z PendingRequest) (c : FileClient) : FileClient :=
  mkFc (fc_server_address c) (fc_config c) (fc_state c) (fc_ccm_timer_ms c)
    (fc_server_status_timer_ms c) (fc_current_time_ms c) (fc_next_tan c) x
    (fc_server_properties c) (fc_server_version c) (fc_server_status c) (fc_open_files c)
    (fc_current_directory c) (fc_volume_total_blocks c) (fc_volume_free_blocks c) (fc_trace c).
Definition fc_with_server_properties (x : option FileServerProperties) (c : FileClient) : FileClient :=
  mkFc (fc_server_address c) (fc_config c) (fc_state c) (fc_ccm_timer_ms c)
    (fc_server_status_timer_ms c) (fc_current_time_ms c) (fc_next_tan c) (fc_pending_requests c)
    x (fc_server_version c) (fc_server_status c) (fc_open_files c) (fc_current_directory c)
    (fc_volume_total_blocks c) (fc_volume_free_blocks c) (fc_trace c).
Definition fc_with_server_version (x : option Z) (c : FileClient) : FileClient :=
  mkFc (fc_server_address c) (fc_config c) (fc_state c) (fc_ccm_timer_ms c)
    (fc_server_status_timer_ms c) (fc_current_time_ms c) (fc_next_tan c) (fc_pending_requests c)
    (fc_server_properties c) x (fc_server_status c) (fc_open_files c) (fc_current_directory c)
    (fc_volume_total_blocks c) (fc_volume_free_blocks c) (fc_trace c).
Definition fc_with_server_status (x : option FileServerStatus) (c : FileClient) : FileClient :=
  mkFc (fc_server_address c) (fc_config c) (fc_state c) (fc_ccm_timer_ms c)
    (fc_server_status_timer_ms c) (fc_current_time_ms c) (fc_next_tan c) (fc_pending_requests c)
    (fc_server_properties c) (fc_server_version c) x (fc_open_files c) (fc_current_directory c)
    (fc_volume_total_blocks c) (fc_volume_free_blocks c) (fc_trace c).
Definition fc_with_open_files (x : BTreeMap.t Z OpenFileInfo) (c : FileClient) : FileClient :=
  mkFc (fc_server_address c) (fc_config c) (fc_state c) (fc_ccm_timer_ms c)
    (fc_server_status_timer_ms c) (fc_current_time_ms c) (fc_next_tan c) (fc_pending_requests c)
    (fc_server_properties c) (fc_server_version c) (fc_server_status c) x
    (fc_current_directory c) (fc_volume_total_blocks c) (fc_volume_free_blocks c) (fc_trace c).
Definition fc_with_current_directory (x : list Z) (c : FileClient) : FileClient :=
  mkFc (fc_server_address c) (fc_config c) (fc_state c) (fc_ccm_timer_ms c)
    (fc_server_status_timer_ms c) (fc_current_time_ms c) (fc_next_tan c) (fc_pending_requests c)
    (fc_server_properties c) (fc_server_version c) (fc_server_status c) (fc_open_files c) x
    (fc_volume_total_blocks c) (fc_volume_free_blocks c) (fc_trace c).
Definition fc_with_volume_total_blocks (x : Z) (c : FileClient) : FileClient :=
  mkFc (fc_server_address c) (fc_config c) (fc_state c) (fc_ccm_timer_ms c)
    (fc_server_status_timer_ms c) (fc_current_time_ms c) (fc_next_tan c) (fc_pending_requests c)
    (fc_server_properties c) (fc_server_version c) (fc_server_status c) (fc_open_files c)
    (fc_current_directory c) x (fc_volume_free_blocks c) (fc_trace c).
Definition fc_with_volume_free_blocks (x : Z) (c : FileClient) : FileClient :=
  mkFc (fc_server_address c) (fc_config c) (fc_state c) (fc_ccm_timer_ms c)
    (fc_server_status_timer_ms c) (fc_current_time_ms c) (fc_next_tan c) (fc_pending_requests c)
    (fc_server_properties c) (fc_server_version c) (fc_server_status c) (fc_open_files c)
    (fc_current_directory c) (fc_volume_total_blocks c) x (fc_trace c).
Definition fc_with_trace (x : list FcEvent) (c : FileClient) : FileClient :=
  mkFc (fc_server_address c) (fc_config c) (fc_state c) (fc_ccm_timer_ms c)
    (fc_server_status_timer_ms c) (fc_current_time_ms c) (fc_next_tan c) (fc_pending_requests c)
    (fc_server_properties c) (fc_server_version c) (fc_server_status c) (fc_open_files c)
    (fc_current_directory c) (fc_volume_total_blocks c) (fc_volume_free_blocks c) x.
Definition fc_emit (e : FcEvent) (c : FileClient) : FileClient :=
  fc_with_trace (fc_trace c ++ [e]) c.
Definition FileClient_new (config : FileClientConfig) : FileClient :=
  mkFc NULL_ADDRESS config ClientState.Disconnected 0 0 0 0 [] None None None [] root 0 0 [].

(** ** Requests *)

Definition client_is_connected (c : FileClient) : bool :=
  bool_decide (fc_state c = ClientState.Connected).
Definition server_supports_version (minimum : Z) (c : FileClient) : bool :=
  match fc_server_version c with Some v => minimum <=? v | None => false end.
Definition ensure_connected_for_request (c : FileClient) : Result unit Error.t :=
  if client_is_connected c then Ok tt else Err Error.not_connected.
Definition unusable_server (a : Address) : bool := (a =? NULL_ADDRESS) || (a =? BROADCAST_ADDRESS).
Definition ensure_server_address_for_request (c : FileClient) : Result unit Error.t :=
  if unusable_server (fc_server_address c) then
    Err (Error.invalid_state "FS client request has no usable destination server address")
  else Ok tt.
Definition allocate_tan (c : FileClient) : FileClient * Z :=
  let next := wrap 8 (fc_next_tan c + 1) in
  (fc_with_next_tan (if next =? INVALID_TAN then 0 else next) c, fc_next_tan c).
Definition track_request (tan : Z) (function : FSFunction.t) (request : list Z) (c : FileClient)
    : FileClient :=
  fc_with_pending_requests
    (BTreeMap.insert tan (mkPending tan function (fc_current_time_ms c) request)
       (fc_pending_requests c)) c.
(** A request: a fresh transaction number, the payload after it, the entry that waits for the
    answer. *)
Definition client_request (function : FSFunction.t) (body : list Z) (c : FileClient)
    : FileClient * Result FSClientOutbound Error.t :=
  let '(c, tan) := allocate_tan c in
  let data := FSFunction.as_u8 function :: tan :: body in
  (track_request tan function data c, Ok (client_out data (fc_server_address c))).
Definition build_fixed_server_request (function : FSFunction.t) (c : FileClient)
    : FileClient * Result FSClientOutbound Error.t :=
  client_request function [0xFF; 0xFF; 0xFF; 0xFF; 0xFF; 0xFF] c.
Definition request_server_properties := build_fixed_server_request FSFunction.GetFileServerProperties.
Definition try_request_server_properties (c : FileClient)
    : FileClient * Result FSClientOutbound Error.t :=
  match ensure_server_address_for_request c with
  | Err e => (c, Err e)
  | Ok _ =>
      match fc_state c with
      | ClientState.WaitingForStatus | ClientState.Connected =>
          build_fixed_server_request FSFunction.GetFileServerProperties c
      | _ => (c, Err Error.not_connected)
      end
  end.
Definition try_connect_to_server (server : Address) (c : FileClient)
    : FileClient * Result FSClientOutbound Error.t :=
  if unusable_server server then
    (c, Err (Error.invalid_data "FS client connect requested with an unusable server address"))
  else if bool_decide (fc_state c <> ClientState.Disconnected) then
    (c, Err (Error.invalid_state "FS client connect requested while not disconnected"))
  else
    let c := fc_with_server_address server c in
    let c := fc_with_state ClientState.WaitingForStatus c in
    let c := fc_with_ccm_timer_ms 0 c in
    let c := fc_with_server_status_timer_ms 0 c in
    try_request_server_properties c.
(** The closing requests of [disconnect] are not tracked. *)
Definition close_untracked (acc : FileClient * list FSClientOutbound) (handle : Z)
    : FileClient * list FSClientOutbound :=
  let '(c, out) := acc in
  let '(c, tan) := allocate_tan c in
  (c, out ++ [client_out [FSFunction.as_u8 FSFunction.CloseFile; tan; handle; 0xFF; 0xFF; 0xFF;
                          0xFF; 0xFF] (fc_server_address c)]).
Definition disconnect (c : FileClient) : FileClient * list FSClientOutbound :=
  let '(c, out) := foldl close_untracked (c, []) (BTreeMap.keys (fc_open_files c)) in
  let c := fc_with_state ClientState.Disconnected c in
  let c := fc_with_server_address NULL_ADDRESS c in
  let c := fc_with_pending_requests [] c in
  let c := fc_with_open_files [] c in
  let c := fc_with_current_directory root c in
  (fc_emit FcDisconnected c, out).

(** A two-byte count and the bytes. *)
Definition counted (s : list Z) : list Z :=
  Name.to_le_bytes 2 (wrap 16 (Z.of_nat (length s))) ++ s.
Definition path_len_text (what : string) (path : list Z) : Error.t :=
  Error.invalid_data (what +:+ pretty (Z.of_nat (length path))).
Definition try_open_file (path : list Z) (flags : Z) (c : FileClient)
    : FileClient * Result FSClientOutbound Error.t :=
  if negb (client_is_connected c) then (c, Err Error.not_connected)
  else
    let open_dir := get_access_mode flags =? OpenFlags.bit OpenFlags.OpenDir in
    if negb (is_ascii path) || (FS_MAX_PATH_LEN <? Z.of_nat (length path))
       || negb (open_flags_have_no_reserved_bits flags)
       || negb (is_valid_fs_path path open_dir false) then
      (c, Err (path_len_text "invalid FS path or OpenFile path length " path))
    else client_request FSFunction.OpenFile (flags :: counted path) c.
Definition unknown_handle (handle : Z) : Error.t :=
  Error.invalid_data ("unknown FS file handle " +:+ pretty handle).
Definition for_open_handle (handle : Z) (c : FileClient)
    (k : FileClient * Result FSClientOutbound Error.t) : FileClient * Result FSClientOutbound Error.t :=
  if negb (BTreeMap.contains_key handle (fc_open_files c)) then (c, Err (unknown_handle handle)) else k.
Definition try_close_file (handle : Z) (c : FileClient)
    : FileClient * Result FSClientOutbound Error.t :=
  for_open_handle handle c
    (client_request FSFunction.CloseFile [handle; 0xFF; 0xFF; 0xFF; 0xFF; 0xFF] c).
Definition try_read_file (handle count : Z) (c : FileClient)
    : FileClient * Result FSClientOutbound Error.t :=
  for_open_handle handle c
    (client_request FSFunction.ReadFile
       (handle :: Name.to_le_bytes 2 count ++ [0xFF; 0xFF; 0xFF]) c).
Definition try_write_file (handle : Z) (data_payload : list Z) (c : FileClient)
    : FileClient * Result FSClientOutbound Error.t :=
  for_open_handle handle c (
    if 65535 <? Z.of_nat (length data_payload) then
      (c, Err (Error.invalid_data ("FS WriteFile payload length "
                 +:+ pretty (Z.of_nat (length data_payload)) +:+ " exceeds 65535 bytes")))
    else
      client_request FSFunction.WriteFile
        (handle :: counted data_payload ++ replicate (3 - length data_payload) 0xFF) c).
(** [i32::to_le_bytes]. *)
Definition i32_to_le (x : Z) : list Z := Name.to_le_bytes 4 (wrap 32 x).
Definition try_seek_file (handle : Z) (mode : SeekMode.t) (offset : Z) (c : FileClient)
    : FileClient * Result FSClientOutbound Error.t :=
  for_open_handle handle c
    (client_request FSFunction.SeekFile (handle :: SeekMode.as_u8 mode :: i32_to_le offset) c).
Definition try_get_current_directory (c : FileClient) : FileClient * Result FSClientOutbound Error.t :=
  if negb (client_is_connected c) then (c, Err Error.not_connected)
  else client_request FSFunction.GetCurrentDirectory [0xFF; 0xFF; 0xFF; 0xFF; 0xFF; 0xFF] c.
Definition try_change_directory (path : list Z) (c : FileClient)
    : FileClient * Result FSClientOutbound Error.t :=
  if negb (client_is_connected c) then (c, Err Error.not_connected)
  else if negb (is_ascii path) || (FS_MAX_PATH_LEN <? Z.of_nat (length path))
          || (negb (str_eqb path dot) && negb (str_eqb path dotdot)
              && negb (is_valid_fs_path path true false)) then
    (c, Err (path_len_text "invalid FS directory path or ChangeDirectory path length " path))
  else client_request FSFunction.ChangeDirectory (counted path) c.
Definition is_valid_counted_file_path (path : list Z) : bool :=
  is_ascii path && (Z.of_nat (length path) <=? FS_MAX_PATH_LEN) && is_valid_fs_path path true false.
Definition for_connection (c : FileClient) (k : FileClient * Result FSClientOutbound Error.t)
    : FileClient * Result FSClientOutbound Error.t :=
  match ensure_connected_for_request c with Err e => (c, Err e) | Ok _ => k end.
Definition try_move_file (source_path destination_path : list Z) (c : FileClient)
    : FileClient * Result FSClientOutbound Error.t :=
  for_connection c (
    if negb (is_valid_counted_file_path source_path)
       || negb (is_valid_counted_file_path destination_path)
       || str_eqb source_path destination_path then
      (c, Err (Error.invalid_data ("invalid FS MoveFile source/destination lengths "
                 +:+ pretty (Z.of_nat (length source_path)) +:+ " -> "
                 +:+ pretty (Z.of_nat (length destination_path)))))
    else
      client_request FSFunction.MoveFile
        (Name.to_le_bytes 2 (wrap 16 (Z.of_nat (length source_path)))
         ++ Name.to_le_bytes 2 (wrap 16 (Z.of_nat (length destination_path)))
         ++ source_path ++ destination_path) c).
Definition try_delete_file (path : list Z) (c : FileClient)
    : FileClient * Result FSClientOutbound Error.t :=
  for_connection c (
    if negb (is_valid_counted_file_path path) then
      (c, Err (path_len_text "invalid FS DeleteFile path length " path))
    else client_request FSFunction.DeleteFile (counted path) c).
Definition try_make_directory (path : list Z) : FileClient -> FileClient * Result FSClientOutbound Error.t :=
  try_open_file path (Z.lor (OpenFlags.bit OpenFlags.OpenDir) (OpenFlags.bit OpenFlags.Create)).
Definition try_remove_directory (path : list Z) : FileClient -> FileClient * Result FSClientOutbound Error.t :=
  try_delete_file path.
Definition try_get_file_attributes (path : list Z) (c : FileClient)
    : FileClient * Result FSClientOutbound Error.t :=
  for_connection c (
    if negb (is_valid_counted_file_path path) then
      (c, Err (path_len_text "invalid FS GetFileAttributes path length " path))
    else client_request FSFunction.GetFileAttributes (counted path) c).
Definition try_set_file_attributes (path : list Z) (attrs : Z) (c : FileClient)
    : FileClient * Result FSClientOutbound Error.t :=
  for_connection c (
    if negb (is_valid_counted_file_path path)
       || negb (Z.land attrs (not_u 8 FILE_ATTRIBUTES_SET_ALLOWED_MASK) =? 0) then
      (c, Err (Error.invalid_data ("invalid FS SetFileAttributes path length "
                 +:+ pretty (Z.of_nat (length path)) +:+ " or attributes 0x"
                 +:+ format_hex 2 attrs)))
    else client_request FSFunction.SetFileAttributes (attrs :: counted path) c).
Definition try_get_file_date_time (path : list Z) (c : FileClient)
    : FileClient * Result FSClientOutbound Error.t :=
  if negb (client_is_connected c) then (c, Err Error.not_connected)
  else if negb (is_ascii path) || (65535 <? Z.of_nat (length path))
          || negb (is_valid_fs_path path true false) then
    (c, Err (path_len_text "invalid FS path or GetFileDateTime path length " path))
  else client_request FSFunction.GetFileDateTime (counted path) c.
Definition try_volume_status_request (path : list Z) (volume_mode : Z) (c : FileClient)
    : FileClient * Result FSClientOutbound Error.t :=
  if unusable_server (fc_server_address c) then (c, Err Error.not_connected)
  else if negb (Z.land volume_mode VOLUME_MODE_RESERVED_MASK =? 0)
          || (volume_mode =? Z.lor VOLUME_MODE_MAINTAIN VOLUME_MODE_PREPARE_REMOVAL) then
    (c, Err (Error.invalid_data "invalid FS VolumeStatus request mode bits"))
  else if (65535 <? Z.of_nat (length path))
          || (negb (str_eqb path []) && negb (is_valid_volume_name path)) then
    (c, Err (path_len_text "invalid FS volume name or VolumeStatus name length " path))
  else client_request FSFunction.VolumeStatus (volume_mode :: counted path) c.
Definition try_request_volume_status (path : list Z) := try_volume_status_request path 0.
Definition try_prepare_volume_for_removal (path : list Z) :=
  try_volume_status_request path VOLUME_MODE_PREPARE_REMOVAL.
Definition try_maintain_volume (path : list Z) :=
  try_volume_status_request path VOLUME_MODE_MAINTAIN.
Definition try_initialize_volume (volume_name : list Z) (available_space flags : Z) (c : FileClient)
    : FileClient * Result FSClientOutbound Error.t :=
  for_connection c (
    if negb (Z.land flags INITIALIZE_VOLUME_FLAGS_RESERVED_MASK =? 0)
       || (65535 <? Z.of_nat (length volume_name))
       || (negb (str_eqb volume_name []) && negb (is_valid_volume_name volume_name)) then
      (c, Err (Error.invalid_data ("invalid FS InitializeVolume name length "
                 +:+ pretty (Z.of_nat (length volume_name)) +:+ " or flags 0x"
                 +:+ format_hex 2 flags)))
    else
      client_request FSFunction.InitializeVolume
        (Name.to_le_bytes 4 available_space ++ flags :: counted volume_name) c).

(** ** Time *)

Definition send_ccm (c : FileClient) : FSClientOutbound :=
  client_out (ccm_encode (mkCcm FS_VERSION_NUMBER)) (fc_server_address c).
Definition client_update (elapsed_ms : Z) (c : FileClient) : FileClient * list FSClientOutbound :=
  let c := fc_with_current_time_ms (sat_add 32 (fc_current_time_ms c) elapsed_ms) c in
  let '(c, out) :=
    if client_is_connected c then
      let timer := sat_add 32 (fc_ccm_timer_ms c) elapsed_ms in
      if fcc_ccm_interval_ms (fc_config c) <=? timer
      then let c := fc_with_ccm_timer_ms 0 c in (c, [send_ccm c])
      else (fc_with_ccm_timer_ms timer c, [])
    else (c, []) in
  let c :=
    match fc_state c with
    | ClientState.WaitingForStatus | ClientState.Connected =>
        let c := fc_with_server_status_timer_ms
                   (sat_add 32 (fc_server_status_timer_ms c) elapsed_ms) c in
        if fcc_server_status_timeout_ms (fc_config c) <=? fc_server_status_timer_ms c
        then (disconnect c).1 else c
    | _ => c
    end in
  let timeout := fcc_request_timeout_ms (fc_config c) in
  let now := fc_current_time_ms c in
  (fc_with_pending_requests
     (BTreeMap.retain (fun _ req => negb (pending_is_expired req now timeout))
        (fc_pending_requests c)) c, out).

(** ** Responses *)

Definition decode_response_error (response : list Z) : Result FSError.t FSError.t :=
  match response !! 2%nat with
  | None => Err FSError.MalformedRequest
  | Some raw_error =>
      if negb (fs_error_byte_is_valid raw_error) then Err FSError.MalformedRequest
      else Ok (FSError.from_u8 raw_error)
  end.
(** What the handlers check first: the length, the error byte, success.  The flag says
    whether the error is also reported as such. *)
Definition response_check (min_len : nat) (response : list Z) : Result unit (FSError.t * bool) :=
  if (length response <? min_len)%nat then Err (FSError.MalformedRequest, false)
  else match decode_response_error response with
       | Err e => Err (e, false)
       | Ok e => if bool_decide (e = FSError.Success) then Ok tt else Err (e, true)
       end.
Definition fail_response (mk : FSError.t -> FcEvent) (e : FSError.t * bool) (c : FileClient)
    : FileClient :=
  fc_emit (mk e.1) (if e.2 then fc_emit (FcError e.1) c else c).
(** [request[2]], or the invalid handle. *)
Definition request_handle (request : list Z) : Z :=
  if (3 <=? length request)%nat then default INVALID_FILE_HANDLE (request !! 2%nat)
  else INVALID_FILE_HANDLE.
(** [request.get(3..5)] as a number, or 0. *)
Definition requested_count (request : list Z) : Z := default 0 (u16_at 3 request).
Definition move_handle (handle : Z) (f : Z -> Z) (c : FileClient) : FileClient :=
  fc_with_open_files
    (BTreeMap.update handle (fun i => oi_with_position (f (oi_position i)) i) (fc_open_files c)) c.

Definition handle_properties_response (tan : Z) (response : list Z) (c : FileClient) : FileClient :=
  match decode_response response with
  | None => fc_emit (FcPropertiesResponse tan (Err FSError.MalformedRequest)) c
  | Some (_, properties) =>
      let c := fc_with_server_version (Some (version_number properties)) c in
      let c := fc_with_server_properties (Some properties) c in
      let c := fc_emit (FcPropertiesResponse tan (Ok properties)) c in
      if bool_decide (fc_state c = ClientState.WaitingForStatus)
      then fc_emit FcConnected (fc_with_state ClientState.Connected c) else c
  end.
Definition handle_open_response (tan : Z) (request response : list Z) (c : FileClient)
    : option FileClient :=
  let error e := fc_emit (FcOpenResponse tan (Err e)) c in
  match response_check 4 response with
  | Err e => Some (fail_response (fun e => FcOpenResponse tan (Err e)) e c)
  | Ok _ =>
    if negb (fs_payload_len_is_canonical response 4) then Some (error FSError.MalformedRequest)
    else
      handle ← response !! 3%nat;
      if (handle =? RESERVED_FILE_HANDLE_0) || (handle =? INVALID_FILE_HANDLE) then
        Some (error FSError.InvalidHandle)
      else if (5 <=? length request)%nat then
        flags ← request !! 2%nat;
        path_len ← u16_at 3 request;
        let used := (5 + Z.to_nat path_len)%nat in
        if (used <=? length request)%nat then
          path ← range 5 used request;
          if negb (is_ascii path) then Some (error FSError.InvalidSourceName)
          else
            let c := fc_with_open_files
                       (BTreeMap.insert handle (mkInfo handle path flags 0 0) (fc_open_files c)) c in
            Some (fc_emit (FcOpenResponse tan (Ok handle)) (fc_emit (FcFileOpened handle path) c))
        else Some (fc_emit (FcOpenResponse tan (Ok handle)) c)
      else Some (fc_emit (FcOpenResponse tan (Ok handle)) c)
  end.
Definition handle_close_response (tan : Z) (request response : list Z) (c : FileClient) : FileClient :=
  let handle := request_handle request in
  match response_check 3 response with
  | Err e => fail_response (fun e => FcCloseResponse tan (Err e)) e c
  | Ok _ =>
      if negb (fs_payload_len_is_canonical response 3) then
        fc_emit (FcCloseResponse tan (Err FSError.MalformedRequest)) c
      else
        let c := fc_with_open_files (BTreeMap.remove handle (fc_open_files c)) c in
        fc_emit (FcCloseResponse tan (Ok handle)) (fc_emit (FcFileClosed handle) c)
  end.
Definition opened_as_directory (handle : Z) (c : FileClient) : bool :=
  match BTreeMap.get handle (fc_open_files c) with
  | Some info => get_access_mode (oi_flags info) =? OpenFlags.bit OpenFlags.OpenDir
  | None => false
  end.
Definition handle_read_response (tan : Z) (request response : list Z) (c : FileClient)
    : option FileClient :=
  let handle := request_handle request in
  let malformed := fc_emit (FcReadResponse tan (Err FSError.MalformedRequest)) c in
  match response_check READ_FILE_RESPONSE_HEADER_LEN response with
  | Err (FSError.EndOfFile, true) => Some (fc_emit (FcReadResponse tan (Ok [])) c)
  | Err e => Some (fail_response (fun e => FcReadResponse tan (Err e)) e c)
  | Ok _ =>
      count ← u16_at 3 response;
      if requested_count request <? count then Some malformed
      else
        let end_ :=
          if opened_as_directory handle c then
            Nat.add READ_FILE_RESPONSE_HEADER_LEN
            <$> directory_entries_end (Z.to_nat count) 0 (drop READ_FILE_RESPONSE_HEADER_LEN response)
          else Some (READ_FILE_RESPONSE_HEADER_LEN + Z.to_nat count)%nat in
        match end_ with
        | None => Some malformed
        | Some end_ =>
            if negb (fs_payload_len_is_canonical response end_) then Some malformed
            else
              data ← range READ_FILE_RESPONSE_HEADER_LEN end_ response;
              Some (fc_emit (FcReadResponse tan (Ok data))
                      (move_handle handle (fun p => sat_add 32 p count) c))
        end
  end.
Definition handle_write_response (tan : Z) (request response : list Z) (c : FileClient)
    : option FileClient :=
  let handle := request_handle request in
  let malformed := fc_emit (FcWriteResponse tan (Err FSError.MalformedRequest)) c in
  match response_check WRITE_FILE_RESPONSE_LEN response with
  | Err e => Some (fail_response (fun e => FcWriteResponse tan (Err e)) e c)
  | Ok _ =>
      if negb (fs_payload_len_is_canonical response WRITE_FILE_RESPONSE_LEN) then Some malformed
      else
        written ← u16_at 3 response;
        if requested_count request <? written then Some malformed
        else Some (fc_emit (FcWriteResponse tan (Ok written))
                     (move_handle handle (fun p => sat_add 32 p written) c))
  end.
Definition handle_seek_response (tan : Z) (request response : list Z) (c : FileClient)
    : option FileClient :=
  let handle := request_handle request in
  match response_check 3 response with
  | Err e => Some (fail_response (fun e => FcSeekResponse tan (Err e)) e c)
  | Ok _ =>
      if negb (fs_payload_len_is_canonical response SEEK_FILE_RESPONSE_LEN) then
        Some (fc_emit (FcSeekResponse tan (Err FSError.MalformedRequest)) c)
      else
        bytes ← range 4 8 response;
        let position := Name.from_le_bytes bytes in
        Some (fc_emit (FcSeekResponse tan (Ok position)) (move_handle handle (fun _ => position) c))
  end.
Definition handle_get_directory_response (tan : Z) (response : list Z) (c : FileClient)
    : option FileClient :=
  let answer r := fc_emit (FcCurrentDirectoryResponse tan r) in
  match response_check 0 response with
  | Err (e, _) => Some (answer (Err e) c)
  | Ok _ =>
      if (length response <? 13)%nat then Some (answer (Err FSError.MalformedRequest) c)
      else
        total ← range 3 7 response;
        free ← range 7 11 response;
        let c := fc_with_volume_total_blocks (Name.from_le_bytes total) c in
        let c := fc_with_volume_free_blocks (Name.from_le_bytes free) c in
        path_len ← u16_at 11 response;
        let end_ := (13 + Z.to_nat path_len)%nat in
        if negb (fs_payload_len_is_canonical response end_) then
          Some (answer (Err FSError.MalformedRequest) c)
        else
          path ← range 13 end_ response;
          if negb (is_ascii path) then Some (answer (Err FSError.InvalidSourceName) c)
          else if str_eqb path [] || negb (is_valid_fs_path path true false) then
            Some (answer (Err FSError.InvalidSourceName) c)
          else Some (answer (Ok path) (fc_with_current_directory path c))
  end.
(** [&current_directory[..idx + 1]]. *)
Definition client_parent_directory (current_directory : list Z) : list Z :=
  if str_eqb current_directory root then root
  else match rfind bs (trim_end bs current_directory) with
       | Some idx => take (idx + 1) current_directory
       | None => root
       end.
Definition resolve_client_directory_response_path (current_directory requested_path : list Z)
    : option (list Z) :=
  if str_eqb requested_path dot then Some current_directory
  else if str_eqb requested_path dotdot then Some (client_parent_directory current_directory)
  else if str_eqb requested_path root then Some root
  else if str_eqb requested_path [] || negb (is_valid_fs_path requested_path true false) then None
  else
    let body := trim bs requested_path in
    if str_eqb body [] then Some root
    else if starts_with root requested_path then Some (bs :: body ++ [bs])
    else if str_eqb current_directory root then Some (bs :: body ++ [bs])
    else Some (current_directory ++ body ++ [bs]).
Definition handle_change_directory_response (tan : Z) (request response : list Z) (c : FileClient)
    : option FileClient :=
  let answer r := fc_emit (FcChangeDirectoryResponse tan r) in
  match response_check 3 response with
  | Err e => Some (fail_response (fun e => FcChangeDirectoryResponse tan (Err e)) e c)
  | Ok _ =>
      if negb (fs_payload_len_is_canonical response 3) then
        Some (answer (Err FSError.MalformedRequest) c)
      else if (length request <? 4)%nat then Some (answer (Err FSError.MalformedRequest) c)
      else
        path_len ← u16_at 2 request;
        let end_ := (4 + Z.to_nat path_len)%nat in
        if (length request <? end_)%nat then Some (answer (Err FSError.MalformedRequest) c)
        else
          requested_path ← range 4 end_ request;
          if negb (is_ascii requested_path) then Some (answer (Err FSError.InvalidSourceName) c)
          else
            match resolve_client_directory_response_path (fc_current_directory c) requested_path with
            | None => Some (answer (Err FSError.InvalidSourceName) c)
            | Some path => Some (answer (Ok path) (fc_with_current_directory path c))
            end
  end.
Definition parse_simple_operation_response (response : list Z) (clears_media_state : bool)
    (c : FileClient) : FileClient * Result unit FSError.t :=
  match response_check 3 response with
  | Err (e, report) => (if report : bool then fc_emit (FcError e) c else c, Err e)
  | Ok _ =>
      if negb (fs_payload_len_is_canonical response 3) then (c, Err FSError.MalformedRequest)
      else if clears_media_state
           then (fc_with_current_directory root (fc_with_open_files [] c), Ok tt)
           else (c, Ok tt)
  end.
Definition simple_response (mk : Result unit FSError.t -> FcEvent) (response : list Z)
    (clears_media_state : bool) (c : FileClient) : FileClient :=
  let '(c, result) := parse_simple_operation_response response clears_media_state c in
  fc_emit (mk result) c.
Definition handle_file_attributes_response (tan : Z) (response : list Z) (c : FileClient)
    : option FileClient :=
  match response_check 4 response with
  | Err e => Some (fail_response (fun e => FcFileAttributesResponse tan (Err e)) e c)
  | Ok _ =>
      if negb (fs_payload_len_is_canonical response 4) then
        Some (fc_emit (FcFileAttributesResponse tan (Err FSError.MalformedRequest)) c)
      else
        attrs ← response !! 3%nat;
        Some (fc_emit (FcFileAttributesResponse tan (Ok attrs)) c)
  end.
Definition handle_file_date_time_response (tan : Z) (response : list Z) (c : FileClient)
    : option FileClient :=
  let malformed := fc_emit (FcFileDateTimeResponse tan (Err FSError.MalformedRequest)) c in
  match response_check 3 response with
  | Err e => Some (fail_response (fun e => FcFileDateTimeResponse tan (Err e)) e c)
  | Ok _ =>
      if negb (length response =? 8)%nat then Some malformed
      else
        r7 ← response !! 7%nat;
        if negb (r7 =? 0xFF) then Some malformed
        else
          date ← u16_at 3 response;
          time ← u16_at 5 response;
          if negb (dos_date_time_is_supported date time) then Some malformed
          else Some (fc_emit (FcFileDateTimeResponse tan (Ok (date, time))) c)
  end.

(** ** Volume and server status *)

Definition parse_volume_status_request_name (data : list Z) : option (list Z) :=
  match data with
  | d0 :: _ :: _ :: d3 :: d4 :: _ =>
      if bool_decide (FSFunction.from_u8 d0 <> Some FSFunction.VolumeStatus) then None
      else
        let end_ := (5 + Z.to_nat (Name.from_le_bytes [d3; d4]))%nat in
        if negb (fs_payload_len_is_canonical data end_) then None
        else
          name ← range 5 end_ data;
          if negb (is_ascii name) then None
          else if negb (str_eqb name []) && negb (is_valid_volume_name name) then None
          else Some name
  | _ => None
  end.
Definition parse_volume_status_fields (data : list Z) : option (VolumeState.t * option (list Z)) :=
  match data with
  | d0 :: _ :: d2 :: d3 :: r =>
      if bool_decide (FSFunction.from_u8 d0 <> Some FSFunction.VolumeStatus) then None
      else
        state ← VolumeState.try_from_u8 d2;
        if 250 <? d3 then None
        else if fs_payload_len_is_canonical data 4 then Some (state, None)
        else match r with
        | d4 :: d5 :: name =>
            if (length data =? 6 + Z.to_nat (Name.from_le_bytes [d4; d5]))%nat then
              if negb (is_ascii name) then None
              else if negb (str_eqb name []) && negb (is_valid_volume_name name) then None
              else Some (state, Some name)
            else None
        | _ => None
        end
  | _ => None
  end.
Definition handle_volume_status_response (data : list Z) (tan : option Z)
    (requested_name : option (list Z)) (c : FileClient) : FileClient * bool :=
  match parse_volume_status_fields data with
  | None => (c, false)
  | Some (vol_state, response_name) =>
      let other_name :=
        match requested_name with
        | Some name => negb (str_eqb name []) && bool_decide (response_name <> Some name)
        | None => false
        end in
      if other_name then (c, false)
      else
        let pending := fc_pending_requests c in
        let c := fc_with_pending_requests
          (match tan with
           | Some tan => BTreeMap.remove tan pending
           | None =>
               BTreeMap.retain (fun _ p => bool_decide (pr_function p <> FSFunction.VolumeStatus)) pending
           end) c in
        let c := if bool_decide (vol_state = VolumeState.Removed)
                 then fc_with_current_directory root (fc_with_open_files [] c) else c in
        (fc_emit (FcVolumeStatus vol_state) c, true)
  end.
Definition handle_status_broadcast (data : list Z) (c : FileClient) : FileClient * bool :=
  match data with
  | _ :: d1 :: _ =>
      match status_decode data with
      | Some status =>
          let c := if status_is_busy status
                   then fc_with_pending_requests
                          (BTreeMap.map_values (pr_with_timestamp (fc_current_time_ms c))
                             (fc_pending_requests c)) c
                   else c in
          (fc_with_server_status (Some status) c, true)
      | None =>
          if (length data <? 3)%nat then (c, false)
          else if d1 =? INVALID_TAN then handle_volume_status_response data None None c
          else (c, false)
      end
  | _ => (c, false)
  end.

(** ** Dispatch *)

Definition heard (r : FileClient * bool) : FileClient :=
  if r.2 then fc_with_server_status_timer_ms 0 r.1 else r.1.
(** A response to the request [p]; [None] is a panic. *)
Definition handle_response (p : PendingRequest) (tan : Z) (data : list Z) (c : FileClient)
    : option FileClient :=
  let request := pr_request_data p in
  match pr_function p with
  | FSFunction.FileServerStatus => Some c
  | FSFunction.GetFileServerProperties => Some (handle_properties_response tan data c)
  | FSFunction.OpenFile => handle_open_response tan request data c
  | FSFunction.CloseFile => Some (handle_close_response tan request data c)
  | FSFunction.ReadFile => handle_read_response tan request data c
  | FSFunction.WriteFile => handle_write_response tan request data c
  | FSFunction.SeekFile => handle_seek_response tan request data c
  | FSFunction.GetCurrentDirectory => handle_get_directory_response tan data c
  | FSFunction.ChangeDirectory => handle_change_directory_response tan request data c
  | FSFunction.MoveFile => Some (simple_response (FcMoveResponse tan) data false c)
  | FSFunction.DeleteFile => Some (simple_response (FcDeleteResponse tan) data false c)
  | FSFunction.GetFileAttributes => handle_file_attributes_response tan data c
  | FSFunction.SetFileAttributes =>
      Some (simple_response (FcSetFileAttributesResponse tan) data false c)
  | FSFunction.GetFileDateTime => handle_file_date_time_response tan data c
  | FSFunction.InitializeVolume =>
      Some (simple_response (FcInitializeVolumeResponse tan) data true c)
  | FSFunction.VolumeStatus => None
  end.
Definition handle_server_response (msg : Message) (c : FileClient) : option FileClient :=
  if negb (m_pgn msg =? PGN_FILE_SERVER_TO_CLIENT) || negb (has_usable_source msg)
     || negb (has_valid_destination_for_pgn msg) then Some c
  else if negb (fc_server_address c =? NULL_ADDRESS)
          && negb (m_source msg =? fc_server_address c) then Some c
  else if (length (m_data msg) <? 2)%nat then Some c
  else
    let data := m_data msg in
    function ← data !! 0%nat;
    tan ← data !! 1%nat;
    if (function =? FSFunction.as_u8 FSFunction.FileServerStatus) || (tan =? 0xFF) then
      Some (heard (handle_status_broadcast data c))
    else
      match BTreeMap.get tan (fc_pending_requests c) with
      | None => Some (heard (handle_status_broadcast data c))
      | Some pending =>
          if negb (function =? FSFunction.as_u8 (pr_function pending)) then
            Some (heard (handle_status_broadcast data c))
          else if bool_decide (pr_function pending = FSFunction.VolumeStatus) then
            Some (heard (handle_volume_status_response data (Some tan)
                           (parse_volume_status_request_name (pr_request_data pending)) c))
          else
            let c := fc_with_pending_requests (BTreeMap.remove tan (fc_pending_requests c)) c in
            handle_response pending tan data (fc_with_server_status_timer_ms 0 c)
      end.
