(* ===== verification/FsClientProofs.v ===== *)
(** The file server's client: what holds in every state it reaches. *)
From S2P Require Export FsClient FsProofs.
Import BTreeMapFacts.

(** ** The invariant *)

(** A request waiting for its answer: the frame that was sent carries its function and its
    number. *)
Record pending_ok (now t : Z) (p : PendingRequest) : Prop := {
  po_tan : pr_tan p = t;
  po_range : 0 <= t <= 254;
  po_time : pr_timestamp_ms p <= now;
  po_data : exists body, pr_request_data p = FSFunction.as_u8 (pr_function p) :: t :: body
}.
Record handle_ok (h : Z) (i : OpenFileInfo) : Prop := {
  ho_handle : oi_handle i = h;
  ho_range : 1 <= h <= 254;
  ho_position : u32 (oi_position i)
}.
Record fc_parts (server : Address) (state : ClientState.t) (now tan : Z)
    (pending : BTreeMap.t Z PendingRequest) (open : BTreeMap.t Z OpenFileInfo) (dir : list Z) : Prop := {
  fi_tan : 0 <= tan <= 254;
  fi_pending_sorted : BTreeMap.sorted pending;
  fi_pending : forall t p, BTreeMap.get t pending = Some p -> pending_ok now t p;
  fi_open_sorted : BTreeMap.sorted open;
  fi_open : forall h i, BTreeMap.get h open = Some i -> handle_ok h i;
  fi_dir : dir <> [];
  fi_state : state <> ClientState.Error;
  fi_server : state <> ClientState.Disconnected -> unusable_server server = false;
  fi_disconnected : state = ClientState.Disconnected ->
    server = NULL_ADDRESS /\ open = [] /\
    forall t p, BTreeMap.get t pending = Some p -> pr_function p = FSFunction.GetFileServerProperties;
  fi_time : u32 now
}.
Definition fc_inv (c : FileClient) : Prop :=
  fc_parts (fc_server_address c) (fc_state c) (fc_current_time_ms c) (fc_next_tan c)
    (fc_pending_requests c) (fc_open_files c) (fc_current_directory c).
Definition fc_good (r : option FileClient) : Prop := exists c, r = Some c /\ fc_inv c.

Lemma fc_good_intro c : fc_inv c -> fc_good (Some c).
Proof. intros. by exists c. Qed.
Lemma sorted_retain {K V} `{OrdLaws K} (p : K -> V -> bool) (m : BTreeMap.t K V) :
  BTreeMap.sorted m -> BTreeMap.sorted (BTreeMap.retain p m).
Proof.
  induction 1 as [|k v m Hm Hs IH]; [constructor|]. cbn. destruct (p k v); [|done]. constructor; [|done].
  rewrite Forall_forall in *. intros e He. apply Hm. apply list_elem_of_In, filter_In in He as [He _].
  by apply list_elem_of_In.
Qed.
Lemma get_retain_inv {K V} `{OrdLaws K} (p : K -> V -> bool) (m : BTreeMap.t K V) k v :
  BTreeMap.sorted m -> BTreeMap.get k (BTreeMap.retain p m) = Some v ->
  BTreeMap.get k m = Some v /\ p k v = true.
Proof.
  intros Hs Hg. apply get_In in Hg. apply list_elem_of_In, filter_In in Hg as [Hin Hp].
  split; [|done]. apply sorted_get; [done|]. by apply list_elem_of_In.
Qed.

Section steps.
Implicit Types c : FileClient.
Local Notation inv := fc_inv.
Local Notation good := fc_good.

Lemma fc_inv_new config : inv (FileClient_new config).
Proof. split; cbn; try done; constructor. Qed.
Lemma fc_inv_emit e c : inv c -> inv (fc_emit e c).
Proof. done. Qed.
Lemma fc_inv_fail mk e c : inv c -> inv (fail_response mk e c).
Proof. by destruct e as [e []]. Qed.

Lemma fc_inv_allocate c : inv c -> inv (allocate_tan c).1.
Proof.
  intros [Ht ? ? ? ? ? ? ? ? ?]. unfold allocate_tan. split; cbn; try done.
  unfold wrap, INVALID_TAN. assert (H := Z.mod_pos_bound (fc_next_tan c + 1) (2 ^ 8)).
  destruct (Z.eqb_spec ((fc_next_tan c + 1) mod 2 ^ 8) 0xFF); lia.
Qed.
Lemma fc_inv_track function body c t :
  (fc_state c <> ClientState.Disconnected \/ function = FSFunction.GetFileServerProperties) ->
  0 <= t <= 254 -> inv c ->
  inv (track_request t function (FSFunction.as_u8 function :: t :: body) c).
Proof.
  intros Hf Ht [H1 H2 H3 H4 H5 H6 H7 H8 H9 H10]. split; cbn; try done.
  - by apply sorted_insert.
  - intros k p. destruct (decide (k = t)) as [->|Hn].
    + rewrite get_insert_eq. intros [= <-]. split; [done|done|cbn; lia|by exists body].
    + rewrite get_insert_ne by done. apply H3.
  - intros Hd. destruct (H9 Hd) as (? & ? & Hp). split_and!; [done..|].
    intros k p. destruct (decide (k = t)) as [->|Hn].
    + rewrite get_insert_eq. intros [= <-]. by destruct Hf.
    + rewrite get_insert_ne by done. apply Hp.
Qed.
Lemma fc_inv_request function body c :
  (fc_state c <> ClientState.Disconnected \/ function = FSFunction.GetFileServerProperties) ->
  inv c -> inv (client_request function body c).1.
Proof.
  intros Hf Hi. unfold client_request. assert (Ha := fc_inv_allocate c Hi).
  assert (Ht := fi_tan _ _ _ _ _ _ _ Hi). unfold allocate_tan in *. cbn [fst] in *.
  by apply fc_inv_track.
Qed.
Lemma open_not_disconnected c h :
  inv c -> BTreeMap.contains_key h (fc_open_files c) = true -> fc_state c <> ClientState.Disconnected.
Proof.
  intros Hi Hk Hd. destruct (fi_disconnected _ _ _ _ _ _ _ Hi Hd) as (_ & Ho & _).
  by rewrite Ho in Hk.
Qed.
Lemma fc_inv_open_handle h c function body :
  inv c -> inv (for_open_handle h c (client_request function body c)).1.
Proof.
  intros Hi. unfold for_open_handle. destruct (BTreeMap.contains_key h _) eqn:E; [|done].
  apply fc_inv_request; [left|done]. by eapply open_not_disconnected.
Qed.
Lemma connected_not_disconnected c :
  client_is_connected c = true -> fc_state c <> ClientState.Disconnected.
Proof. unfold client_is_connected. intros H%bool_decide_eq_true. by rewrite H. Qed.
Lemma fc_inv_connection c k :
  inv c -> (fc_state c <> ClientState.Disconnected -> inv k.1) -> inv (for_connection c k).1.
Proof.
  intros Hi Hk. unfold for_connection, ensure_connected_for_request.
  destruct (client_is_connected c) eqn:E; [|done]. by apply Hk, connected_not_disconnected.
Qed.

(** ** Sending *)

Lemma fc_inv_try_properties c : inv c -> inv (try_request_server_properties c).1.
Proof.
  intros Hi. unfold try_request_server_properties. destruct (ensure_server_address_for_request c); [|done].
  destruct (fc_state c) eqn:E; try done; apply fc_inv_request; auto.
Qed.
Lemma fc_inv_connect server c : inv c -> inv (try_connect_to_server server c).1.
Proof.
  intros Hi. unfold try_connect_to_server. destruct (unusable_server server) eqn:Eu; [done|].
  case_bool_decide as Hd; [done|]. cbv zeta. apply fc_inv_try_properties.
  destruct Hi as [H1 H2 H3 H4 H5 H6 H7 H8 H9 H10]. by split.
Qed.
Lemma close_untracked_inv hs acc :
  inv acc.1 -> inv (foldl close_untracked acc hs).1
    /\ fc_state (foldl close_untracked acc hs).1 = fc_state acc.1.
Proof.
  revert acc. induction hs as [|h hs IH]; intros acc Hi; [done|]. cbn [foldl].
  destruct (IH (close_untracked acc h)) as [H1 H2].
  - destruct acc as [c out]. exact (fc_inv_allocate c Hi).
  - split; [done|]. rewrite H2. by destruct acc.
Qed.
Lemma fc_inv_disconnect c : inv c -> inv (disconnect c).1.
Proof.
  intros Hi. unfold disconnect.
  destruct (close_untracked_inv (BTreeMap.keys (fc_open_files c)) (c, []) Hi) as [H _].
  destruct (foldl _ _ _) as [c' out]. cbn [fst] in H. cbn. destruct H. split; cbn; try done; constructor.
Qed.
Lemma fc_inv_update ms c : inv c -> 0 <= ms -> inv (client_update ms c).1.
Proof.
  intros Hi Hms. unfold client_update. assert (Ht := fi_time _ _ _ _ _ _ _ Hi).
  set (c0 := fc_with_current_time_ms _ c).
  assert (H0 : inv c0).
  { destruct Hi as [H1 H2 H3 H4 H5 H6 H7 H8 H9 H10]. split; cbn; try done.
    - intros t p Hp. destruct (H3 t p Hp). split; [done|done| |done]. destruct Ht. unfold sat_add. lia.
    - destruct Ht. unfold in_u, sat_add. lia. }
  clearbody c0.
  set (r := if client_is_connected c0 then _ else (c0, [])).
  assert (H1 : inv r.1).
  { subst r. destruct (client_is_connected c0); [|done]. cbv zeta. by destruct (_ <=? _). }
  destruct r as [c1 out]. cbn [fst] in H1.
  assert (H2 : inv (match fc_state c1 with
      | ClientState.WaitingForStatus | ClientState.Connected =>
        let c := fc_with_server_status_timer_ms (sat_add 32 (fc_server_status_timer_ms c1) ms) c1 in
        if fcc_server_status_timeout_ms (fc_config c) <=? fc_server_status_timer_ms c
        then (disconnect c).1 else c
      | _ => c1 end)).
  { destruct (fc_state c1); try done; cbv zeta; destruct (_ <=? _); try done;
      by apply fc_inv_disconnect. }
  cbv beta iota zeta in H2 |- *. match type of H2 with inv ?x => set (c2 := x) in * end. clearbody c2.
  destruct H2 as [I1 I2 I3 I4 I5 I6 I7 I8 I9 I10]. split; cbn; try done.
  - by apply sorted_retain.
  - intros t p Hp. apply get_retain_inv in Hp as [Hp _]; [|done]. by apply I3.
  - intros Hd. destruct (I9 Hd) as (? & ? & H). split_and!; [done..|]. intros t p Hp.
    apply get_retain_inv in Hp as [Hp _]; [|done]. by eapply H.
Qed.

(** ** Receiving *)

Lemma fc_inv_open_file h i c :
  handle_ok h i -> fc_state c <> ClientState.Disconnected -> inv c ->
  inv (fc_with_open_files (BTreeMap.insert h i (fc_open_files c)) c).
Proof.
  intros Hh Hs [H1 H2 H3 H4 H5 H6 H7 H8 H9 H10]. split; cbn; try done.
  - by apply sorted_insert.
  - intros k j. destruct (decide (k = h)) as [->|Hn].
    + rewrite get_insert_eq. by intros [= <-].
    + rewrite get_insert_ne by done. apply H5.
Qed.
Lemma fc_inv_move h f c : (forall p, u32 p -> u32 (f p)) -> inv c -> inv (move_handle h f c).
Proof.
  intros Hf [H1 H2 H3 H4 H5 H6 H7 H8 H9 H10]. split; cbn; try done.
  - by apply sorted_update.
  - intros k j. destruct (decide (k = h)) as [->|Hn].
    + rewrite get_update_eq. destruct (BTreeMap.get h (fc_open_files c)) as [i|] eqn:E; [|done].
      intros [= <-]. destruct (H5 h i E). split; [done|done|]. by apply Hf.
    + rewrite get_update_ne by done. apply H5.
  - intros Hd. destruct (H9 Hd) as (? & Ho & ?). split_and!; [done| |done]. by rewrite Ho.
Qed.
Lemma fc_inv_dir d c : d <> [] -> inv c -> inv (fc_with_current_directory d c).
Proof. intros Hd [H1 H2 H3 H4 H5 H6 H7 H8 H9 H10]. by split. Qed.
Lemma fc_inv_clear c : inv c -> inv (fc_with_current_directory root (fc_with_open_files [] c)).
Proof. intros [H1 H2 H3 H4 H5 H6 H7 H8 H9 H10]. split; cbn; try done; [constructor|naive_solver]. Qed.
Lemma check_long n r : response_check n r = Ok tt -> (Nat.max n 3 <= length r)%nat.
Proof.
  unfold response_check, decode_response_error. destruct (Nat.ltb_spec (length r) n); [done|].
  destruct (r !! 2%nat) eqn:E; [|done]. apply lookup_lt_Some in E. intros _. lia.
Qed.
Lemma byte_at i d x : bytes d -> d !! i = Some x -> 0 <= x < 2 ^ 8.
Proof. intros Hb Hx. by apply (Forall_lookup_1 _ _ _ _ Hb Hx). Qed.

Lemma good_properties t r c : inv c -> inv (handle_properties_response t r c).
Proof.
  intros Hi. unfold handle_properties_response. destruct (decode_response r) as [[t' p]|]; [|done].
  cbv zeta. case_bool_decide as Hs; [|done]. cbn in Hs.
  destruct Hi as [H1 H2 H3 H4 H5 H6 H7 H8 H9 H10]. split; cbn; try done.
  intros _. apply H8. by rewrite Hs.
Qed.
Lemma good_open t q r c :
  bytes r -> fc_state c <> ClientState.Disconnected -> inv c -> good (handle_open_response t q r c).
Proof.
  intros Hb Hs Hi. unfold handle_open_response. cbv zeta.
  destruct (response_check 4 r) as [[]|e] eqn:Ec; [|by apply fc_good_intro, fc_inv_fail].
  apply check_long in Ec. destruct (negb _); [by apply fc_good_intro|].
  destruct (lookup_ok 3 r) as [h Hh]; [lia|]. rewrite Hh. cbn [mbind option_bind].
  assert (Hr := byte_at 3 r h Hb Hh). unfold RESERVED_FILE_HANDLE_0, INVALID_FILE_HANDLE.
  destruct (Z.eqb_spec h 0); [by apply fc_good_intro|].
  destruct (Z.eqb_spec h 0xFF); [by apply fc_good_intro|]. cbn [orb].
  destruct (Nat.leb_spec 5 (length q)); [|by apply fc_good_intro].
  destruct (lookup_ok 2 q) as [fl ->]; [lia|]. cbn [mbind option_bind].
  unfold u16_at. destruct (lookup_ok 3 q) as [a ->]; [lia|].
  destruct (lookup_ok 4 q) as [b ->]; [lia|]. cbn [mbind option_bind].
  set (used := (5 + Z.to_nat (Name.from_le_bytes [a; b]))%nat).
  destruct (Nat.leb_spec used (length q)); [|by apply fc_good_intro].
  destruct (range_ok 5 used q) as [-> _]; [lia..|]. cbn [mbind option_bind].
  destruct (negb _); [by apply fc_good_intro|]. apply fc_good_intro.
  apply (fc_inv_open_file h _ c); [|done|done]. split; cbn; [done|lia|done].
Qed.
Lemma good_close t q r c : inv c -> inv (handle_close_response t q r c).
Proof.
  intros Hi. unfold handle_close_response. destruct (response_check 3 r) as [[]|e]; [|by apply fc_inv_fail].
  destruct (negb _); [done|]. destruct Hi as [H1 H2 H3 H4 H5 H6 H7 H8 H9 H10]. split; cbn; try done.
  - by apply sorted_remove.
  - intros k i Hk. destruct (decide (k = request_handle q)) as [->|Hn].
    + rewrite get_remove_eq in Hk by done. done.
    + rewrite get_remove_ne in Hk by done. by apply H5.
  - intros Hd. destruct (H9 Hd) as (? & Ho & ?). split_and!; [done| |done]. by rewrite Ho.
Qed.
Lemma good_read t q r c : bytes r -> inv c -> good (handle_read_response t q r c).
Proof.
  intros Hb Hi. unfold handle_read_response. cbv zeta.
  destruct (response_check READ_FILE_RESPONSE_HEADER_LEN r) as [[]|[e b]] eqn:Ec.
  2: { assert (H : good (Some (fail_response (fun e => FcReadResponse t (Err e)) (e, b) c)))
         by by apply fc_good_intro, fc_inv_fail.
       destruct e; try exact H. destruct b; [by apply fc_good_intro|exact H]. }
  apply check_long in Ec. unfold READ_FILE_RESPONSE_HEADER_LEN in *.
  destruct (u16_at_ok 3 r Hb) as (n & -> & Hn); [lia|]. cbn [mbind option_bind].
  destruct (_ <? n); [by apply fc_good_intro|].
  match goal with |- context [match ?o with Some _ => _ | None => _ end] => destruct o as [e|] eqn:Ee end;
    [|by apply fc_good_intro].
  destruct (fs_payload_len_is_canonical r e) eqn:Ecan; [|by apply fc_good_intro]. cbn [negb].
  apply canonical_le in Ecan.
  assert ((5 <= e)%nat).
  { destruct (opened_as_directory _ c); [|injection Ee as <-; lia].
    apply fmap_Some in Ee as (k & _ & ->). lia. }
  destruct (range_ok 5 e r) as [-> _]; [lia..|]. cbn [mbind option_bind]. apply fc_good_intro.
  apply (fc_inv_move (request_handle q) _ c); [|done]. intros p [? ?]. unfold in_u, sat_add. lia.
Qed.
Lemma good_write t q r c : bytes r -> inv c -> good (handle_write_response t q r c).
Proof.
  intros Hb Hi. unfold handle_write_response. cbv zeta.
  destruct (response_check WRITE_FILE_RESPONSE_LEN r) as [[]|e] eqn:Ec; [|by apply fc_good_intro, fc_inv_fail].
  apply check_long in Ec. unfold WRITE_FILE_RESPONSE_LEN in *. destruct (negb _); [by apply fc_good_intro|].
  destruct (u16_at_ok 3 r Hb) as (n & -> & Hn); [lia|]. cbn [mbind option_bind].
  destruct (_ <? n); [by apply fc_good_intro|]. apply fc_good_intro.
  apply (fc_inv_move (request_handle q) _ c); [|done]. intros p [? ?]. unfold in_u, sat_add. lia.
Qed.
Lemma bytes_range a b d l : bytes d -> range a b d = Some l -> bytes l.
Proof.
  unfold range. destruct (_ && _); [|done]. intros Hb [= <-]. by apply Forall_take, Forall_drop.
Qed.
Lemma good_seek t q r c : bytes r -> inv c -> good (handle_seek_response t q r c).
Proof.
  intros Hb Hi. unfold handle_seek_response. cbv zeta.
  destruct (response_check 3 r) as [[]|e] eqn:Ec; [|by apply fc_good_intro, fc_inv_fail].
  destruct (fs_payload_len_is_canonical r SEEK_FILE_RESPONSE_LEN) eqn:Ecan; [|by apply fc_good_intro].
  apply canonical_le in Ecan. unfold SEEK_FILE_RESPONSE_LEN in *. cbn [negb].
  destruct (range_ok 4 8 r) as [E Hl]; [lia..|]. rewrite E. cbn [mbind option_bind].
  apply fc_good_intro. apply (fc_inv_move (request_handle q) _ c); [|done]. intros p _.
  assert (Hb' := bytes_range _ _ _ _ Hb E). assert (H := from_le_bytes_range _ Hb').
  rewrite Hl in H. exact H.
Qed.

Lemma good_get_directory t r c : bytes r -> inv c -> good (handle_get_directory_response t r c).
Proof.
  intros Hb Hi. unfold handle_get_directory_response. cbv zeta.
  destruct (response_check 0 r) as [[]|[e b]] eqn:Ec; [|by apply fc_good_intro].
  destruct (Nat.ltb_spec (length r) 13); [by apply fc_good_intro|].
  destruct (range_ok 3 7 r) as [-> _]; [lia..|]. destruct (range_ok 7 11 r) as [-> _]; [lia..|].
  destruct (u16_at_ok 11 r Hb) as (n & -> & Hn); [lia|]. cbn [mbind option_bind].
  destruct (fs_payload_len_is_canonical r (13 + Z.to_nat n)) eqn:Ecan; [|by apply fc_good_intro].
  apply canonical_le in Ecan. cbn [negb].
  destruct (range_ok 13 (13 + Z.to_nat n) r) as [-> _]; [lia..|]. cbn [mbind option_bind].
  match goal with |- context [is_ascii ?p] => set (path := p) end. clearbody path.
  destruct (negb (is_ascii path)); [by apply fc_good_intro|].
  destruct (str_eqb path []) eqn:Ep; [by apply fc_good_intro|]. apply str_eqb_false in Ep. cbn [orb].
  destruct (negb _); [by apply fc_good_intro|]. apply fc_good_intro.
  by apply (fc_inv_dir path c).
Qed.
Lemma resolve_not_nil d p q : d <> [] -> resolve_client_directory_response_path d p = Some q -> q <> [].
Proof.
  intros Hd. unfold resolve_client_directory_response_path, client_parent_directory. cbv zeta.
  destruct (str_eqb p dot); [by intros [= <-]|]. destruct (str_eqb p dotdot).
  { intros [= <-]. destruct (str_eqb d root); [done|]. destruct (rfind _ _); [|done].
    destruct d; [done|]. by rewrite Nat.add_1_r. }
  destruct (str_eqb p root); [by intros [= <-]|]. destruct (_ || _); [done|].
  destruct (str_eqb (trim bs p) []); [by intros [= <-]|].
  destruct (starts_with root p); [by intros [= <-]|].
  destruct (str_eqb d root); intros [= <-]; [done|]. by destruct d.
Qed.
Lemma good_change_directory t q r c :
  bytes r -> inv c -> good (handle_change_directory_response t q r c).
Proof.
  intros Hb Hi. unfold handle_change_directory_response. cbv zeta.
  destruct (response_check 3 r) as [[]|e]; [|by apply fc_good_intro, fc_inv_fail].
  destruct (negb _); [by apply fc_good_intro|].
  destruct (Nat.ltb_spec (length q) 4); [by apply fc_good_intro|].
  unfold u16_at. destruct (lookup_ok 2 q) as [a ->]; [lia|].
  destruct (lookup_ok 3 q) as [b ->]; [lia|]. cbn [mbind option_bind].
  set (used := (4 + Z.to_nat (Name.from_le_bytes [a; b]))%nat).
  destruct (Nat.ltb_spec (length q) used); [by apply fc_good_intro|].
  destruct (range_ok 4 used q) as [-> _]; [lia..|]. cbn [mbind option_bind].
  destruct (negb _); [by apply fc_good_intro|].
  destruct (resolve_client_directory_response_path _ _) as [path|] eqn:E; [|by apply fc_good_intro].
  apply fc_good_intro. apply (fc_inv_dir path c); [|done].
  eapply resolve_not_nil; [|exact E]. apply Hi.
Qed.
Lemma good_simple mk r b c : inv c -> inv (simple_response mk r b c).
Proof.
  intros Hi. unfold simple_response, parse_simple_operation_response.
  destruct (response_check 3 r) as [[]|[e rep]]; [|by destruct rep].
  destruct (negb _); [done|]. destruct b; [by apply fc_inv_clear|done].
Qed.
Lemma good_attributes t r c : inv c -> good (handle_file_attributes_response t r c).
Proof.
  intros Hi. unfold handle_file_attributes_response.
  destruct (response_check 4 r) as [[]|e] eqn:Ec; [|by apply fc_good_intro, fc_inv_fail].
  apply check_long in Ec. destruct (negb _); [by apply fc_good_intro|].
  destruct (lookup_ok 3 r) as [h ->]; [lia|]. by apply fc_good_intro.
Qed.
Lemma good_date_time t r c : bytes r -> inv c -> good (handle_file_date_time_response t r c).
Proof.
  intros Hb Hi. unfold handle_file_date_time_response. cbv zeta.
  destruct (response_check 3 r) as [[]|e] eqn:Ec; [|by apply fc_good_intro, fc_inv_fail].
  destruct (Nat.eqb_spec (length r) 8); [|by apply fc_good_intro]. cbn [negb].
  destruct (lookup_ok 7 r) as [h ->]; [lia|]. cbn [mbind option_bind].
  destruct (negb _); [by apply fc_good_intro|].
  destruct (u16_at_ok 3 r Hb) as (d & -> & _); [lia|].
  destruct (u16_at_ok 5 r Hb) as (t' & -> & _); [lia|]. cbn [mbind option_bind].
  destruct (negb _); by apply fc_good_intro.
Qed.

Lemma fc_inv_pending m c :
  BTreeMap.sorted m ->
  (forall t p, BTreeMap.get t m = Some p -> BTreeMap.get t (fc_pending_requests c) = Some p) ->
  inv c -> inv (fc_with_pending_requests m c).
Proof. intros Hs Hm [H1 H2 H3 H4 H5 H6 H7 H8 H9 H10]. split; cbn; try done; naive_solver. Qed.
Lemma get_remove_sub {V} k t (m : BTreeMap.t Z V) v :
  BTreeMap.get t (BTreeMap.remove k m) = Some v -> BTreeMap.get t m = Some v.
Proof.
  destruct (decide (t = k)) as [->|Hn]; [by rewrite get_remove_eq|by rewrite get_remove_ne].
Qed.
Lemma fc_inv_removed t c :
  inv c -> inv (fc_with_pending_requests (BTreeMap.remove t (fc_pending_requests c)) c).
Proof.
  intros Hi. apply fc_inv_pending; [by apply sorted_remove, Hi| |done].
  intros k p. apply get_remove_sub.
Qed.
Lemma fc_inv_volume_status data t name c : inv c -> inv (handle_volume_status_response data t name c).1.
Proof.
  intros Hi. unfold handle_volume_status_response.
  destruct (parse_volume_status_fields data) as [[v rn]|]; [|done]. cbv zeta.
  destruct (match name with Some _ => _ | None => _ end); [done|].
  match goal with |- context [if bool_decide (v = VolumeState.Removed) then ?a else ?b] =>
    set (c1 := b) end.
  assert (H1 : inv c1).
  { subst c1. destruct t as [t|]; [by apply fc_inv_removed|]. apply fc_inv_pending; [|..|done].
    - apply sorted_retain, Hi.
    - intros t p Hp. apply get_retain_inv in Hp as [Hp _]; [done|apply Hi]. }
  clearbody c1. case_bool_decide; [by apply fc_inv_clear|done].
Qed.
Lemma fc_inv_broadcast data c : inv c -> inv (handle_status_broadcast data c).1.
Proof.
  intros Hi. unfold handle_status_broadcast. destruct data as [|x [|d1 l]]; [done..|].
  destruct (status_decode _) as [st|].
  2: { destruct (_ <? _)%nat; [done|]. destruct (_ =? _); [|done]. by apply fc_inv_volume_status. }
  destruct (status_is_busy st); [|done]. destruct Hi as [H1 H2 H3 H4 H5 H6 H7 H8 H9 H10].
  split; cbn; try done.
  - by apply sorted_map_values.
  - intros t p. rewrite get_map_values. destruct (BTreeMap.get t _) as [q|] eqn:E; [|done].
    intros [= <-]. destruct (H3 t q E). split; [done|done|cbn; lia|done].
  - intros Hd. destruct (H9 Hd) as (? & ? & H). split_and!; [done..|]. intros t p.
    rewrite get_map_values. destruct (BTreeMap.get t _) as [q|] eqn:E; [|done]. intros [= <-].
    exact (H t q E).
Qed.
Lemma fc_inv_heard r : inv r.1 -> inv (heard r).
Proof. intros Hi. unfold heard. by destruct r.2. Qed.
Lemma good_response p t data c :
  bytes data -> pr_function p <> FSFunction.VolumeStatus ->
  (fc_state c = ClientState.Disconnected -> pr_function p = FSFunction.GetFileServerProperties) ->
  inv c -> good (handle_response p t data c).
Proof.
  intros Hb Hv Hd Hi. unfold handle_response. destruct (pr_function p) eqn:Ef; try done;
    try by apply fc_good_intro.
  - by apply fc_good_intro, good_properties.
  - by apply good_get_directory.
  - by apply good_change_directory.
  - apply good_open; [done| |done]. by intros Hs; apply Hd in Hs.
  - by apply good_seek.
  - by apply good_read.
  - by apply good_write.
  - by apply fc_good_intro, good_close.
  - by apply fc_good_intro, good_simple.
  - by apply fc_good_intro, good_simple.
  - by apply good_attributes.
  - by apply fc_good_intro, good_simple.
  - by apply good_date_time.
  - by apply fc_good_intro, good_simple.
Qed.
Lemma good_server_response msg c :
  bytes (m_data msg) -> inv c -> good (handle_server_response msg c).
Proof.
  intros Hb Hi. unfold handle_server_response. destruct (_ || _ || _); [by apply fc_good_intro|].
  destruct (_ && _); [by apply fc_good_intro|].
  destruct (Nat.ltb_spec (length (m_data msg)) 2); [by apply fc_good_intro|]. cbv zeta.
  destruct (lookup_ok 0 (m_data msg)) as [f ->]; [lia|].
  destruct (lookup_ok 1 (m_data msg)) as [t ->]; [lia|]. cbn [mbind option_bind].
  assert (Hbc : good (Some (heard (handle_status_broadcast (m_data msg) c))))
    by by apply fc_good_intro, fc_inv_heard, fc_inv_broadcast.
  destruct (_ || _); [done|]. destruct (BTreeMap.get t _) as [p|] eqn:Ep; [|done].
  destruct (negb _); [done|]. case_bool_decide as Hf.
  { by apply fc_good_intro, fc_inv_heard, fc_inv_volume_status. }
  apply good_response; [done|done| |].
  - intros Hs. destruct (fi_disconnected _ _ _ _ _ _ _ Hi Hs) as (_ & _ & H'). by eapply H'.
  - by apply (fc_inv_removed t c).
Qed.
End steps.

(** ** Every call *)

Inductive FcCall : Type :=
| KMessage (msg : Message)
| KUpdate (elapsed_ms : Z)
| KConnect (server : Address)
| KDisconnect
| KProperties
| KTryProperties
| KOpen (path : list Z) (flags : Z)
| KClose (handle : Z)
| KRead (handle count : Z)
| KWrite (handle : Z) (payload : list Z)
| KSeek (handle : Z) (mode : SeekMode.t) (offset : Z)
| KGetDirectory
| KChangeDirectory (path : list Z)
| KMakeDirectory (path : list Z)
| KRemoveDirectory (path : list Z)
| KMove (source destination : list Z)
| KDelete (path : list Z)
| KGetAttributes (path : list Z)
| KSetAttributes (path : list Z) (attrs : Z)
| KGetDateTime (path : list Z)
| KVolumeStatus (path : list Z) (mode : Z)
| KInitialize (name : list Z) (space flags : Z).
Definition client_call (k : FcCall) (c : FileClient) : option FileClient :=
  match k with
  | KMessage msg => handle_server_response msg c
  | KUpdate ms => Some (client_update ms c).1
  | KConnect server => Some (try_connect_to_server server c).1
  | KDisconnect => Some (disconnect c).1
  | KProperties => Some (request_server_properties c).1
  | KTryProperties => Some (try_request_server_properties c).1
  | KOpen path flags => Some (try_open_file path flags c).1
  | KClose h => Some (try_close_file h c).1
  | KRead h n => Some (try_read_file h n c).1
  | KWrite h d => Some (try_write_file h d c).1
  | KSeek h m o => Some (try_seek_file h m o c).1
  | KGetDirectory => Some (try_get_current_directory c).1
  | KChangeDirectory path => Some (try_change_directory path c).1
  | KMakeDirectory path => Some (try_make_directory path c).1
  | KRemoveDirectory path => Some (try_remove_directory path c).1
  | KMove a b => Some (try_move_file a b c).1
  | KDelete path => Some (try_delete_file path c).1
  | KGetAttributes path => Some (try_get_file_attributes path c).1
  | KSetAttributes path a => Some (try_set_file_attributes path a c).1
  | KGetDateTime path => Some (try_get_file_date_time path c).1
  | KVolumeStatus path mode => Some (try_volume_status_request path mode c).1
  | KInitialize name space flags => Some (try_initialize_volume name space flags c).1
  end.
Definition client_call_ok (k : FcCall) : Prop :=
  match k with
  | KMessage msg => bytes (m_data msg)
  | KUpdate ms => 0 <= ms
  | _ => True
  end.
Inductive fc_reachable (config : FileClientConfig) : FileClient -> Prop :=
| fc_reach_new : fc_reachable config (FileClient_new config)
| fc_reach_call k c c' :
    fc_reachable config c -> client_call_ok k -> client_call k c = Some c' ->
    fc_reachable config c'.

Section calls.
Lemma fc_inv_counted_path what function path c :
  fc_inv c ->
  fc_inv (for_connection c (if negb (is_valid_counted_file_path path)
                            then (c, Err (path_len_text what path))
                            else client_request function (counted path) c)).1.
Proof.
  intros Hi. apply fc_inv_connection; [done|]. intros Hd. destruct (negb _); [done|].
  by apply fc_inv_request; [left|].
Qed.
Lemma fc_inv_if_connected c (b : bool) e function body :
  fc_inv c ->
  fc_inv (if negb (client_is_connected c) then (c, Err Error.not_connected)
          else if b then (c, Err e) else client_request function body c).1.
Proof.
  intros Hi. destruct (client_is_connected c) eqn:E; [|done]. destruct b; [done|].
  apply fc_inv_request; [left; by apply connected_not_disconnected|done].
Qed.
Lemma fc_inv_open path flags c : fc_inv c -> fc_inv (try_open_file path flags c).1.
Proof. apply fc_inv_if_connected. Qed.
Lemma fc_inv_delete path c : fc_inv c -> fc_inv (try_delete_file path c).1.
Proof. apply fc_inv_counted_path. Qed.
Lemma fc_inv_volume path mode c : fc_inv c -> fc_inv (try_volume_status_request path mode c).1.
Proof.
  intros Hi. unfold try_volume_status_request. destruct (unusable_server _) eqn:Eu; [done|].
  destruct (_ || _); [done|]. destruct (_ || _); [done|]. apply fc_inv_request; [left|done].
  intros Hd. destruct (fi_disconnected _ _ _ _ _ _ _ Hi Hd) as (Hs & _). by rewrite Hs in Eu.
Qed.
Lemma fc_inv_call k c :
  client_call_ok k -> fc_inv c -> fc_good (client_call k c).
Proof.
  intros Hk Hi. destruct k; cbn [client_call client_call_ok] in *; try apply fc_good_intro.
  - by apply good_server_response.
  - by apply fc_inv_update.
  - by apply fc_inv_connect.
  - by apply fc_inv_disconnect.
  - apply fc_inv_request; [by right|done].
  - by apply fc_inv_try_properties.
  - by apply fc_inv_open.
  - by apply fc_inv_open_handle.
  - by apply fc_inv_open_handle.
  - unfold try_write_file, for_open_handle. destruct (negb _) eqn:E; [done|].
    destruct (_ <? _); [done|]. apply fc_inv_request; [left|done].
    apply negb_false_iff in E. by eapply open_not_disconnected.
  - by apply fc_inv_open_handle.
  - unfold try_get_current_directory. destruct (client_is_connected c) eqn:E; [|done].
    apply fc_inv_request; [left; by apply connected_not_disconnected|done].
  - by apply fc_inv_if_connected.
  - by apply fc_inv_open.
  - by apply fc_inv_delete.
  - apply fc_inv_connection; [done|]. intros Hd. destruct (_ || _); [done|].
    by apply fc_inv_request; [left|].
  - by apply fc_inv_delete.
  - by apply fc_inv_counted_path.
  - apply fc_inv_connection; [done|]. intros Hd. destruct (_ || _); [done|].
    by apply fc_inv_request; [left|].
  - by apply fc_inv_if_connected.
  - by apply fc_inv_volume.
  - apply fc_inv_connection; [done|]. intros Hd. destruct (_ || _); [done|].
    by apply fc_inv_request; [left|].
Qed.
End calls.
Lemma fc_reachable_inv config c : fc_reachable config c -> fc_inv c.
Proof.
  induction 1 as [|k c c' Hr IH Hk Hc]; [apply fc_inv_new|].
  destruct (fc_inv_call k c Hk IH) as (c2 & E & Hi). rewrite Hc in E. by simplify_eq.
Qed.

(** whatever the application asks and whatever arrives from the bus, in any order, from a
    new client on, the next call returns without a panic (the arm marked unreachable is); and
    in every state reached the transaction number is never the invalid one, a request waits
    under the number and function its frame carries, handles are those of a server (1 to 254)
    with positions of 32 bits, and a client that is not connected holds no handle, waits for
    properties only and, when it is connecting or connected, has a server to send to. *)
Theorem fs_client_run config c :
  fc_reachable config c ->
  (forall k, client_call_ok k -> exists c', client_call k c = Some c')
  /\ 0 <= fc_next_tan c <= 254
  /\ (forall t p, BTreeMap.get t (fc_pending_requests c) = Some p ->
        0 <= t <= 254 /\ pr_tan p = t /\ pr_timestamp_ms p <= fc_current_time_ms c
        /\ exists body, pr_request_data p = FSFunction.as_u8 (pr_function p) :: t :: body)
  /\ (forall h i, BTreeMap.get h (fc_open_files c) = Some i ->
        1 <= h <= 254 /\ oi_handle i = h /\ u32 (oi_position i))
  /\ fc_state c <> ClientState.Error
  /\ (fc_state c <> ClientState.Disconnected -> unusable_server (fc_server_address c) = false)
  /\ (fc_state c = ClientState.Disconnected ->
        fc_open_files c = []
        /\ forall t p, BTreeMap.get t (fc_pending_requests c) = Some p ->
             pr_function p = FSFunction.GetFileServerProperties).
Proof.
  intros Hr. assert (Hi := fc_reachable_inv config c Hr). split.
  { intros k Hk. destruct (fc_inv_call k c Hk Hi) as (c' & E & _). by exists c'. }
  destruct Hi as [H1 H2 H3 H4 H5 H6 H7 H8 H9 H10]. split_and!; try done; [lia|lia|..].
  - intros t p Hp. by destruct (H3 t p Hp).
  - intros h i Hh. by destruct (H5 h i Hh).
  - intros Hd. by destruct (H9 Hd) as (? & ? & ?).
Qed.
(** A client that asked for its server's properties. *)
Definition connecting_client : FileClient :=
  (try_connect_to_server 0x80 (FileClient_new FileClientConfig_default)).1.
Definition from_server (data : list Z) : Message :=
  mkMessage PGN_FILE_SERVER_TO_CLIENT data 0x80 0x42 Priority.Default 0.
Lemma fs_client_run_witness :
  exists c', handle_server_response (from_server (encode_response FileServerProperties_default 0))
               connecting_client = Some c'
    /\ client_is_connected c' = true.
Proof.
  destruct (fs_client_run FileClientConfig_default connecting_client) as (H & _).
  { apply (fc_reach_call _ (KConnect 0x80) (FileClient_new FileClientConfig_default));
      [constructor|done|done]. }
  destruct (H (KMessage (from_server (encode_response FileServerProperties_default 0))))
    as [c' E]; [by repeat constructor|].
  exists c'. split; [exact E|]. vm_compute in E. by injection E as <-.
Defined.
