(* ===== verification/FsSystem.v ===== *)
(** The file server and its clients on one bus: one exchange is a request of the client, what
    the server does with it and what the client does with the answers.

    A file transfer: the client writes, seeks and reads through the server, and what it gets back
    is what it wrote. *)
From S2P Require Export FsProps FsStorage FsClientProofs.

Import BTreeMapFacts.

(** ** An exchange *)

Definition request_message (a : Address) (out : FSClientOutbound) : Message :=
  mkMessage (fco_pgn out) (fco_data out) a (default BROADCAST_ADDRESS (fco_dest out))
    Priority.Default 0.
Definition answer_message (sa : Address) (out : FSOutbound) : Message :=
  mkMessage (fso_pgn out) (fso_data out) sa (default BROADCAST_ADDRESS (fso_dest out))
    Priority.Default 0.
Fixpoint deliver (sa : Address) (outs : list FSOutbound) (c : FileClient) : option FileClient :=
  match outs with
  | [] => Some c
  | out :: outs => c ← handle_server_response (answer_message sa out) c; deliver sa outs c
  end.
(** The client at [a]; its server answers from the address it is asked at. *)
Definition exchange (a : Address) (request : FileClient -> FileClient * Result FSClientOutbound Error.t)
    (cs : FileClient * FileServer) : option (FileClient * FileServer) :=
  let '(c, s) := cs in
  let '(c, r) := request c in
  match r with
  | Err _ => None
  | Ok out =>
      '(s, outs) ← handle_client_message (request_message a out) s;
      c ← deliver (fc_server_address c) outs c;
      Some (c, s)
  end.

(** ** A client nobody has heard a connection message from *)

Lemma foldl_removed a l s :
  a ∈ l -> BTreeMap.get a (fs_clients (foldl remove_client s l)) = None.
Proof.
  assert (Hone : forall b s, BTreeMap.get b (fs_clients (remove_client s b)) = None).
  { intros b s0. unfold remove_client. cbv zeta.
    destruct (match BTreeMap.get b _ with Some _ => _ | None => _ end); cbn; apply get_remove_eq. }
  assert (Hstay : forall l s, BTreeMap.get a (fs_clients s) = None ->
            BTreeMap.get a (fs_clients (foldl remove_client s l)) = None).
  { clear l s. induction l as [|b l IH]; intros s H; [done|]. cbn [foldl]. apply IH.
    destruct (decide (a = b)) as [->|Hn]; [apply Hone|].
    unfold remove_client. cbv zeta. destruct (match BTreeMap.get b _ with Some _ => _ | None => _ end);
      cbn; by rewrite get_remove_ne. }
  revert s. induction l as [|b l IH]; intros s Ha; [by apply not_elem_of_nil in Ha|].
  cbn [foldl]. apply elem_of_cons in Ha as [->|Ha]; [by apply Hstay, Hone|by apply IH].
Qed.
Lemma elem_of_retain_keys {V} (p : Z -> V -> bool) k v (m : BTreeMap.t Z V) :
  BTreeMap.get k m = Some v -> p k v = true -> k ∈ BTreeMap.keys (BTreeMap.retain p m).
Proof.
  intros Hg Hp. apply list_elem_of_fmap. exists (k, v). split; [done|].
  apply list_elem_of_In, filter_In. split; [|done]. by apply list_elem_of_In, get_In.
Qed.
Lemma update_removes_silent a e ms s :
  BTreeMap.get a (fs_clients s) = Some e ->
  is_connected e (sat_add 32 (fs_current_time_ms s) ms) (fsc_ccm_timeout_ms (fs_config s)) = false ->
  BTreeMap.get a (fs_clients (update ms s).1) = None.
Proof.
  intros He Hc. unfold update. cbv zeta.
  set (s0 := with_current_time_ms _ s).
  assert (H0 : BTreeMap.get a (fs_clients s0) = Some e
    /\ fs_current_time_ms s0 = sat_add 32 (fs_current_time_ms s) ms /\ fs_config s0 = fs_config s) by done.
  clearbody s0. destruct H0 as (H0 & T0 & C0).
  destruct (kept_update_volume ms s0) as (C1 & T1 & K1).
  destruct (update_volume_state_machine ms s0) as [s1 frame]. cbn [fst] in *.
  destruct (K1 _ _ H0) as (e1 & H1 & _ & L1).
  assert (H2 : BTreeMap.get a (fs_clients (cleanup_expired_tan_cache s1))
    = Some (with_tan_cache (BTreeMap.retain (fun _ v => negb (is_expired v (fs_current_time_ms s1)
                (fsc_tan_cache_timeout_ms (fs_config s1)))) (sc_tan_cache e1)) e1))
    by by cbn; rewrite get_map_values, H1.
  assert (H3 : BTreeMap.get a (fs_clients (cleanup_disconnected_clients (cleanup_expired_tan_cache s1))) = None).
  { unfold cleanup_disconnected_clients. cbv zeta. apply foldl_removed.
    eapply elem_of_retain_keys; [exact H2|].
    change (fs_current_time_ms (cleanup_expired_tan_cache s1)) with (fs_current_time_ms s1).
    change (fs_config (cleanup_expired_tan_cache s1)) with (fs_config s1).
    rewrite C1, T1, T0, C0. unfold is_connected in *. cbn. by rewrite L1, Hc. }
  destruct (_ <=? _); exact H3.
Qed.
Lemma new_request_keeps client f t r s s1 out :
  new_request client f t r s = Some (s1, out) ->
  fs_config s1 = fs_config s /\ fs_current_time_ms s1 = fs_current_time_ms s
  /\ forall b c0, BTreeMap.get b (fs_clients s) = Some c0 ->
       exists c, BTreeMap.get b (fs_clients s1) = Some c
         /\ sc_last_ccm_timestamp_ms c = sc_last_ccm_timestamp_ms c0.
Proof.
  intros H.
  assert (Hc : forall s2 resp, keeps s s2 ->
    fs_config (cache_response client t r resp s2) = fs_config s
    /\ fs_current_time_ms (cache_response client t r resp s2) = fs_current_time_ms s
    /\ forall b c0, BTreeMap.get b (fs_clients s) = Some c0 ->
         exists c, BTreeMap.get b (fs_clients (cache_response client t r resp s2)) = Some c
           /\ sc_last_ccm_timestamp_ms c = sc_last_ccm_timestamp_ms c0).
  { intros s2 resp (H1 & H2 & H3). split_and!; [done|done|]. intros b c0 Hb.
    destruct (H3 b c0 Hb) as (c & Hg & _ & Hl). unfold cache_response. cbn.
    destruct (decide (b = client)) as [->|Hn].
    - rewrite get_update_eq, Hg. cbn. by eexists.
    - rewrite get_update_ne by done. by exists c. }
  unfold new_request in H. destruct (f =? _); apply bind_Some in H as ([s2 x] & E & H).
  - assert (K := kept_volume_status _ _ _ _ _ _ E). destruct x as [|o x]; simplify_eq; [|by apply Hc].
    by apply volume_status_answers in E.
  - assert (K := kept_execute _ _ _ _ _ _ _ E). simplify_eq. by apply Hc.
Qed.

(** a client that starts with requests, before its first connection message, on a server
    that has been up for longer than the connection timeout, is forgotten at the server's next
    time step, whatever it was answered: its handles are closed and it is unknown. *)
Theorem fs_first_requests_forgotten config s msg f t s1 out ms :
  0 <= fsc_max_open_files_per_client config -> 0 <= fsc_max_open_files_total config ->
  fs_reachable false config s -> BTreeMap.get (m_source msg) (fs_clients s) = None ->
  0 <= ms -> fsc_ccm_timeout_ms (fs_config s) < sat_add 32 (fs_current_time_ms s) ms ->
  request_msg msg f t -> handle_client_message msg s = Some (s1, out) ->
  BTreeMap.get (m_source msg) (fs_clients (update ms s1).1) = None
  /\ Forall (fun o => of_owner o <> m_source msg) (fs_open_files (update ms s1).1).
Proof.
  intros L1 L2 Hr Hnew Hms Hlate Hm H.
  assert (H' := H). rewrite (handle_request msg f t) in H' by done. cbv zeta in H'.
  set (se := ensure_client (m_source msg) s) in *.
  assert (He : BTreeMap.get (m_source msg) (fs_clients se)
               = Some (ServerClientConnection_new (m_source msg)))
    by (subst se; cbn; by rewrite get_or_insert_eq, Hnew).
  unfold cached_response in H'. rewrite He in H'. cbn [mbind option_bind] in H'.
  cbn [sc_tan_cache ServerClientConnection_new BTreeMap.get mbind option_bind] in H'.
  destruct (new_request_keeps _ _ _ _ _ _ _ H') as (C & T & K).
  destruct (K _ _ He) as (e & Hg & Hl).
  assert (Hgone : BTreeMap.get (m_source msg) (fs_clients (update ms s1).1) = None).
  { eapply update_removes_silent; [exact Hg|]. unfold is_connected. rewrite Hl, T, C.
    change (fs_current_time_ms se) with (fs_current_time_ms s). change (fs_config se) with (fs_config s).
    cbn [sc_last_ccm_timestamp_ms ServerClientConnection_new]. apply Z.leb_gt. unfold sat_sub. lia. }
  split; [done|].
  assert (Hi : fs_inv false (update ms s1).1).
  { apply fs_inv_update. destruct (good_handle_client_message false msg s) as (x & y & E & ?);
      [apply Hm|by eapply fs_reachable_inv|]. rewrite H in E. by simplify_eq. }
  apply Forall_forall. intros o Ho E.
  assert (Hk := fp_owners _ _ _ _ _ _ _ _ _ Hi). rewrite Forall_forall in Hk.
  specialize (Hk o Ho). rewrite E, Hgone in Hk. by destruct Hk.
Qed.
(** Ten seconds after start, client 0x42 opens a file: the handle it is given is closed by the
    next time step of a tenth of a second. *)
Definition late_server : FileServer := (update 10000 (FileServer_new FileServerConfig_default)).1.
Lemma fs_first_requests_forgotten_witness :
  exists s1 out, handle_client_message (fs_message 0x42 (open_request 1 6 [0x46])) late_server = Some (s1, out)
    /\ (of_handle <$> fs_open_files s1) = [1]
    /\ BTreeMap.get 0x42 (fs_clients (update 100 s1).1) = None.
Proof.
  set (msg := fs_message 0x42 (open_request 1 6 [0x46])).
  destruct (handle_client_message msg late_server) as [[s1 out]|] eqn:E; [|by vm_compute in E].
  destruct (fs_first_requests_forgotten FileServerConfig_default late_server msg 0x20 1 s1 out 100)
    as [H _]; [by vm_compute|by vm_compute| |by vm_compute|done|by vm_compute| |exact E|].
  - apply (reach_call _ _ (CUpdate 10000) (FileServer_new FileServerConfig_default) _
             (update 10000 (FileServer_new FileServerConfig_default)).2); [constructor|done|].
    cbn [run_call]. unfold late_server. by destruct (update _ _).
  - split_and!; try done. by repeat constructor.
  - exists s1, out. split_and!; [done| |exact H]. vm_compute in E. by injection E as <- _.
Defined.

(** ** The current directory on both sides *)

Lemma client_parent_dir cs :
  components_ok false cs ->
  client_parent_directory (dir_path cs) = dir_path (take (length cs - 1) cs).
Proof.
  intros Hc. destruct cs as [|c cs _] using rev_ind; [done|].
  apply Forall_app in Hc as [_ Hc]. inv Hc.
  destruct (valid_no_sep _ _ H1) as [Hne Hns]. unfold client_parent_directory.
  rewrite (proj2 (str_eqb_false _ root)) by by apply dir_snoc_not_root.
  assert (Et : trim_end bs (dir_path (cs ++ [c])) = parent_prefix cs ++ bs :: c).
  { rewrite dir_snoc. replace (parent_prefix cs ++ bs :: c ++ [bs])
      with ((parent_prefix cs ++ bs :: c) ++ [bs]) by (by rewrite <- app_assoc).
    rewrite trim_end_snoc. apply trim_end_id. rewrite last_app. cbn. destruct c as [|x c]; [done|].
    rewrite last_cons_cons. destruct (last (x :: c)) eqn:E; [|by apply last_None in E].
    intros [= ->]. apply Hns. apply last_Some in E as [l ->]. apply elem_of_app. right. by left. }
  rewrite Et, rfind_app by done. rewrite parent_take. f_equal.
  rewrite length_app. cbn [length]. replace (length cs + 1 - 1)%nat with (length cs) by lia.
  by rewrite take_app_length.
Qed.
Lemma split_no_dots path rs :
  filter (fun c => c <> []) (split bs path) = rs -> components_ok false rs ->
  Forall (fun c => c <> dot /\ c <> dotdot) (split bs path).
Proof.
  intros E Hc. apply Forall_forall. intros c Hin. destruct (decide (c = [])) as [->|Hn]; [done|].
  assert (Hr : c ∈ rs) by (rewrite <- E; by apply list_elem_of_filter).
  rewrite Forall_forall in Hc. by destruct (proj1 (valid_component_spec _ _) (Hc c Hr)) as ((_ & ? & ?) & _).
Qed.
(** What the client takes for its directory after the server changed to [path]. *)
Lemma client_resolves path cs p :
  components_ok false cs -> 0x2F ∉ path -> is_valid_fs_path path true false = true ->
  path <> dot -> path <> dotdot ->
  normalize_directory_path path (dir_path cs) = Ok p ->
  resolve_client_directory_response_path (dir_path cs) path = Some p.
Proof.
  intros Hc Hn Hv Hd Hdd Hok. apply normalize_directory_ok in Hok as (-> & _ & _); [|done].
  unfold walked. rewrite replace_slashes_id by done.
  unfold resolve_client_directory_response_path.
  rewrite (proj2 (str_eqb_false path dot)), (proj2 (str_eqb_false path dotdot)) by done.
  rewrite Hv. destruct (str_eqb path []) eqn:E0; [apply str_eqb_spec in E0 as ->; by vm_compute in Hv|].
  cbn [negb orb]. cbv zeta.
  assert (Hps : filter (fun c => c <> []) (split bs path) = parts bs (trim bs path))
    by (symmetry; apply parts_trim).
  destruct (valid_path_inv path true false Hv Hn) as [(Ht & _ & Ha)|(Ht & Hcs & Hj)].
  - rewrite walk_no_dots, Hps, Ht by (by apply (split_no_dots path []); rewrite ?Hps, ?Ht).
    unfold walk_start. rewrite Ha. by destruct (str_eqb path root).
  - set (rs := split bs (trim bs path)) in *.
    assert (Hrs : parts bs (trim bs path) = rs).
    { unfold parts. fold rs. clear Hj Hps. clearbody rs. induction Hcs as [|c l Hvc Hcs IH]; [done|].
      destruct (valid_no_sep _ _ Hvc). rewrite filter_cons_True by done. by rewrite IH. }
    rewrite walk_no_dots, Hps, Hrs by (apply (split_no_dots path rs); by rewrite ?Hps, ?Hrs).
    rewrite (proj2 (str_eqb_false (trim bs path) [])) by done.
    destruct (str_eqb path root) eqn:Er; [by apply str_eqb_spec in Er as ->|].
    assert (Hn0 : rs <> []) by (intros E; rewrite E in Hj; by rewrite Hj in Ht).
    assert (Habs : Some (bs :: trim bs path ++ [bs]) = Some (dir_path ([] ++ rs)))
      by (rewrite Hj; by destruct rs).
    unfold walk_start, is_absolute_path. destruct (starts_with root path); [done|].
    destruct (str_eqb (dir_path cs) root) eqn:Ed.
    + destruct cs as [|c cs _] using rev_ind; [done|]. apply str_eqb_spec in Ed.
      apply Forall_app in Hc as [_ Hc]. inv Hc. destruct (valid_no_sep _ _ H1).
      by apply dir_snoc_not_root in Ed.
    + rewrite Hj. f_equal. assert (cs <> []) by by intros ->.
      replace (dir_path cs) with (bs :: join bs cs ++ [bs]) by by destruct cs.
      replace (dir_path (cs ++ rs)) with (bs :: join bs (cs ++ rs) ++ [bs]) by by destruct cs.
      rewrite join_app by done. cbn. f_equal. by rewrite <- !app_assoc.
Qed.

(** ** What an exchange does *)

Section exchange.
Context (a : Address) (c : FileClient) (s : FileServer).
Context (function : FSFunction.t) (body : list Z).
Context (Ha : unusable_server a = false) (Hsa : unusable_server (fc_server_address c) = false).
Context (Ht : 0 <= fc_next_tan c <= 254).
Context (Hf : function <> FSFunction.VolumeStatus) (Hf' : function <> FSFunction.FileServerStatus).
Let t := fc_next_tan c.
Let data := FSFunction.as_u8 function :: t :: body.
(** The client once it has sent the request, and once the answer is off its list. *)
Definition sent : FileClient := (client_request function body c).1.
Definition waiting : FileClient :=
  fc_with_server_status_timer_ms 0
    (fc_with_pending_requests (BTreeMap.remove t (fc_pending_requests sent)) sent).

Lemma function_code : FSFunction.as_u8 function <> 0 /\ FSFunction.as_u8 function <> 2.
Proof. by destruct function. Qed.
Lemma usable_address x : unusable_server x = false -> x <> NULL_ADDRESS /\ x <> BROADCAST_ADDRESS.
Proof. unfold unusable_server. by intros [?%Z.eqb_neq ?%Z.eqb_neq]%orb_false_iff. Qed.
Lemma usable_as_source pgn l dst x : unusable_server x = false ->
  has_usable_source (mkMessage pgn l x dst Priority.Default 0) = true.
Proof.
  intros [H1 H2]%usable_address. unfold has_usable_source. cbn.
  by rewrite !(proj2 (Z.eqb_neq _ _)).
Qed.
Lemma served (request : FileClient -> FileClient * Result FSClientOutbound Error.t) :
  request c = client_request function body c ->
  (forall r, cached_response a t r s = None) ->
  exchange a request (c, s)
  = '(s1, response) ← execute_function a (FSFunction.as_u8 function) t data (ensure_client a s);
    c1 ← handle_server_response (answer_message (fc_server_address c) (to response a)) sent;
    Some (c1, cache_response a t data response s1).
Proof.
  intros Hr Hc. unfold exchange. rewrite Hr.
  change (client_request function body c)
    with (sent, @Ok FSClientOutbound Error.t (client_out data (fc_server_address c))).
  cbv beta iota. unfold handle_client_message.
  destruct (usable_address _ Hsa) as [Hs1 Hs2]. destruct function_code as [Hf0 Hf2].
  change (m_pgn (request_message a (client_out data (fc_server_address c))))
    with PGN_FILE_CLIENT_TO_SERVER.
  change (m_data (request_message a (client_out data (fc_server_address c)))) with data.
  change (m_source (request_message a (client_out data (fc_server_address c)))) with a.
  unfold request_message at 1. rewrite usable_as_source by done.
  assert (Hd : has_valid_destination_for_pgn
    (request_message a (client_out data (fc_server_address c))) = true).
  { unfold has_valid_destination_for_pgn. cbn. by rewrite (proj2 (Z.eqb_neq _ NULL_ADDRESS)). }
  rewrite Hd. rewrite Z.eqb_refl. cbn [negb orb].
  change ((length data <? 2)%nat) with false. cbv iota.
  change (data !! 0%nat) with (Some (FSFunction.as_u8 function)).
  change (data !! 1%nat) with (Some t). cbn [mbind option_bind].
  rewrite (proj2 (Z.eqb_neq _ CCM_FUNCTION_CODE)) by done.
  rewrite (proj2 (Z.eqb_neq t INVALID_TAN)) by (unfold t, INVALID_TAN; lia). cbv zeta.
  assert (Hce : cached_response a t data (ensure_client a s) = None).
  { specialize (Hc data). unfold cached_response in *. cbn. rewrite get_or_insert_eq.
    destruct (BTreeMap.get a (fs_clients s)); [exact Hc|done]. }
  rewrite Hce. unfold new_request. rewrite (proj2 (Z.eqb_neq _ (FSFunction.as_u8 FSFunction.VolumeStatus))) by done.
  destruct (execute_function _ _ _ _ _) as [[s1 response]|]; [|done]. cbn [mbind option_bind deliver].
  change (fc_server_address sent) with (fc_server_address c).
  by destruct (handle_server_response _ sent).
Qed.
Lemma answered rest :
  let response := FSFunction.as_u8 function :: t :: rest in
  handle_server_response (answer_message (fc_server_address c) (to response a)) sent
  = handle_response (mkPending t function (fc_current_time_ms c) data) t response waiting.
Proof.
  intros response. unfold handle_server_response. destruct function_code as [Hf0 Hf2].
  change (m_pgn (answer_message _ _)) with PGN_FILE_SERVER_TO_CLIENT.
  change (m_data (answer_message _ (to response a))) with response.
  change (m_source (answer_message _ _)) with (fc_server_address c).
  unfold answer_message. rewrite usable_as_source by done.
  destruct (usable_address _ Ha) as [Ha1 Ha2]. destruct (usable_address _ Hsa) as [Hs1 Hs2].
  assert (Hd : has_valid_destination_for_pgn
    (mkMessage (fso_pgn (to response a)) (fso_data (to response a)) (fc_server_address c)
       (default BROADCAST_ADDRESS (fso_dest (to response a))) Priority.Default 0) = true).
  { unfold has_valid_destination_for_pgn. cbn. by rewrite (proj2 (Z.eqb_neq _ NULL_ADDRESS)). }
  rewrite Hd. change (fc_server_address sent) with (fc_server_address c).
  rewrite !Z.eqb_refl, (proj2 (Z.eqb_neq _ NULL_ADDRESS)) by done. cbn [negb orb andb].
  change ((length response <? 2)%nat) with false. cbv iota zeta.
  change (response !! 0%nat) with (Some (FSFunction.as_u8 function)).
  change (response !! 1%nat) with (Some t). cbn [mbind option_bind].
  rewrite (proj2 (Z.eqb_neq _ (FSFunction.as_u8 FSFunction.FileServerStatus))) by done.
  rewrite (proj2 (Z.eqb_neq t 0xFF)) by (unfold t; lia). cbn [orb].
  assert (Hg : BTreeMap.get t (fc_pending_requests sent)
               = Some (mkPending t function (fc_current_time_ms c) data))
    by (cbn; apply get_insert_eq).
  rewrite Hg. cbn [pr_function]. rewrite Z.eqb_refl. cbn [negb].
  by rewrite bool_decide_false.
Qed.
End exchange.

Lemma refused f tan e s s1 r :
  refuse f tan e s = Some (s1, r) ->
  s1 = s /\ r = [FSFunction.as_u8 f; tan; FSError.as_u8 e; 0xFF; 0xFF; 0xFF; 0xFF; 0xFF].
Proof. by intros [= <- <-]. Qed.
Lemma cwd_changed a d s :
  known a s -> cwd a (update_client a (with_current_directory d) s) = d.
Proof. intros [e He]. unfold cwd. cbn. by rewrite get_update_eq, He. Qed.
Lemma canonical_full d : fs_payload_len_is_canonical d (length d) = true.
Proof. unfold fs_payload_len_is_canonical. by rewrite Nat.leb_refl, Nat.eqb_refl. Qed.
Lemma counted_path_at x y path :
  Z.of_nat (length path) <= 65535 -> counted_path_bytes (x :: y :: counted path) 2 4 = Some path.
Proof.
  intros Hl. set (n := Z.of_nat (length path)) in *.
  assert (Hw : counted path = Name.to_le_bytes 2 n ++ path)
    by (unfold counted, wrap; rewrite Z.mod_small by lia; done).
  unfold counted_path_bytes. rewrite Hw.
  assert (E := u16_at_le [x; y] n path ltac:(lia)). change (u16_at 2 (x :: y :: Name.to_le_bytes 2 n ++ path) = Some n) in E.
  rewrite E. cbn [mbind option_bind].
  assert (Hlen : (4 + Z.to_nat n)%nat = length (x :: y :: Name.to_le_bytes 2 n ++ path))
    by (cbn; unfold n; lia).
  rewrite Hlen, canonical_full, <- Hlen. cbn [negb].
  assert (R := range_middle (x :: y :: Name.to_le_bytes 2 n) path []). rewrite app_nil_r in R.
  unfold n. rewrite Nat2Z.id. exact R.
Qed.
(** The server's answer to a change of directory, and what the client makes of it. *)
Lemma change_directory_outcome a t path cs s s1 response :
  known a s -> cwd a s = dir_path cs -> components_ok false cs ->
  is_ascii path = true -> Z.of_nat (length path) <= 65535 -> 0x2F ∉ path ->
  path = dot \/ path = dotdot \/ is_valid_fs_path path true false = true ->
  handle_change_directory a t (0x11 :: t :: counted path) s = Some (s1, response) ->
  (response = [0x11; t; 0; 0xFF; 0xFF; 0xFF; 0xFF; 0xFF]
   /\ resolve_client_directory_response_path (dir_path cs) path = Some (cwd a s1))
  \/ (exists e, e <> FSError.Success /\ cwd a s1 = cwd a s
        /\ response = [0x11; t; FSError.as_u8 e; 0xFF; 0xFF; 0xFF; 0xFF; 0xFF]).
Proof.
  intros Hk Hcwd Hc Has Hl Hn Hp H. unfold handle_change_directory in H.
  assert (Hrefuse : forall e, e <> FSError.Success ->
    refuse FSFunction.ChangeDirectory t e s = Some (s1, response) ->
    exists e, e <> FSError.Success /\ cwd a s1 = cwd a s
        /\ response = [0x11; t; FSError.as_u8 e; 0xFF; 0xFF; 0xFF; 0xFF; 0xFF]).
  { intros e He [-> ->]%refused. by exists e. }
  unfold media_present in H. case_bool_decide; [right; (eapply Hrefuse; [|exact H]; done)|].
  rewrite counted_path_at in H by done. destruct (negb _); [right; (eapply Hrefuse; [|exact H]; done)|].
  unfold decode_wire_path in H. rewrite Has in H. cbn [negb] in H. cbv zeta in H.
  rewrite ensure_known in H by done. rewrite Hcwd in H.
  assert (Hchange : forall d,
    resolve_client_directory_response_path (dir_path cs) path = Some d ->
    succeed FSFunction.ChangeDirectory t (update_client a (with_current_directory d) s)
    = Some (s1, response) ->
    response = [0x11; t; 0; 0xFF; 0xFF; 0xFF; 0xFF; 0xFF]
    /\ resolve_client_directory_response_path (dir_path cs) path = Some (cwd a s1)).
  { intros d Hd [= <- <-]. by rewrite cwd_changed. }
  destruct (str_eqb path dotdot) eqn:Edd.
  { apply str_eqb_spec in Edd as ->. left. revert H.
    assert (Hpar : parent_directory (dir_path cs) = Some (dir_path (take (length cs - 1) cs))).
    { destruct cs as [|x l _] using rev_ind; [done|]. apply Forall_app in Hc as [_ Hx]. inv Hx.
      rewrite parent_directory_snoc by done. rewrite length_app. cbn [length].
      replace (length l + 1 - 1)%nat with (length l) by lia. by rewrite take_app_length. }
    rewrite Hpar. cbn [mbind option_bind]. apply Hchange.
    rewrite <- client_parent_dir by done. done. }
  apply str_eqb_false in Edd. destruct (str_eqb path dot) eqn:Ed.
  { apply str_eqb_spec in Ed as ->. left. injection H as <- <-. split; [done|]. by rewrite Hcwd. }
  apply str_eqb_false in Ed. destruct Hp as [?|[?|Hv]]; [done..|].
  destruct (str_eqb path []) eqn:E0; [apply str_eqb_spec in E0 as ->; by vm_compute in Hv|].
  destruct (str_eqb path root) eqn:Er.
  { apply str_eqb_spec in Er as ->. left. by apply (Hchange root). }
  cbn [orb] in H. destruct (normalize_directory_path path (dir_path cs)) as [d|] eqn:E;
    [|right; (eapply Hrefuse; [|exact H]; done)].
  destruct (has_directory d s); cbn [negb] in H.
  - left. apply (Hchange d); [by apply client_resolves|done].
  - right. destruct (file_exists_at_directory_path d s); (eapply Hrefuse; [|exact H]; done).
Qed.
Lemma cwd_ensure a s : cwd a (ensure_client a s) = cwd a s.
Proof.
  unfold cwd. cbn. rewrite get_or_insert_eq. by destruct (BTreeMap.get a (fs_clients s)).
Qed.
Lemma cwd_cached a t data r s : cwd a (cache_response a t data r s) = cwd a s.
Proof.
  unfold cwd, cache_response. cbn. rewrite get_update_eq. by destruct (BTreeMap.get a (fs_clients s)).
Qed.
Lemma error_byte e :
  fs_error_byte_is_valid (FSError.as_u8 e) = true /\ FSError.from_u8 (FSError.as_u8 e) = e.
Proof. by destruct e. Qed.
Lemma client_refused p t e c :
  pr_function p = FSFunction.ChangeDirectory -> e <> FSError.Success ->
  handle_response p t [0x11; t; FSError.as_u8 e; 0xFF; 0xFF; 0xFF; 0xFF; 0xFF] c
  = Some (fc_emit (FcChangeDirectoryResponse t (Err e)) (fc_emit (FcError e) c)).
Proof.
  intros Hp He. unfold handle_response, handle_change_directory_response. rewrite Hp.
  unfold response_check, decode_response_error. destruct (error_byte e) as [E1 E2].
  cbn [length lookup list_lookup]. change ((8 <? 3)%nat) with false. cbv iota.
  rewrite E1, E2. cbn [negb]. by rewrite bool_decide_false.
Qed.
Lemma client_changes p t path d c :
  pr_function p = FSFunction.ChangeDirectory -> pr_request_data p = 0x11 :: t :: counted path ->
  is_ascii path = true -> Z.of_nat (length path) <= 65535 ->
  resolve_client_directory_response_path (fc_current_directory c) path = Some d ->
  handle_response p t [0x11; t; 0; 0xFF; 0xFF; 0xFF; 0xFF; 0xFF] c
  = Some (fc_emit (FcChangeDirectoryResponse t (Ok d)) (fc_with_current_directory d c)).
Proof.
  intros Hp Hq Has Hl Hr. unfold handle_response, handle_change_directory_response. rewrite Hp, Hq.
  change (response_check 3 [17; t; 0; 255; 255; 255; 255; 255]) with (@Ok unit (FSError.t * bool) tt).
  change (fs_payload_len_is_canonical [17; t; 0; 255; 255; 255; 255; 255] 3) with true.
  cbv iota zeta. cbn [negb]. set (n := Z.of_nat (length path)) in *.
  assert (Hw : counted path = Name.to_le_bytes 2 n ++ path)
    by (unfold counted, wrap; rewrite Z.mod_small by lia; done).
  assert (Hlen : length (17 :: t :: counted path) = (4 + Z.to_nat n)%nat)
    by (rewrite Hw; cbn; unfold n; lia).
  assert (E := u16_at_le [17; t] n path ltac:(lia)).
  change (u16_at 2 (17 :: t :: Name.to_le_bytes 2 n ++ path) = Some n) in E.
  assert (R := range_middle (17 :: t :: Name.to_le_bytes 2 n) path []). rewrite app_nil_r in R.
  change (range 4 (4 + length path) (17 :: t :: Name.to_le_bytes 2 n ++ path) = Some path) in R.
  rewrite (proj2 (Nat.ltb_ge _ _)) by lia. rewrite <- Hw in E, R. rewrite E. cbn [mbind option_bind].
  rewrite (proj2 (Nat.ltb_ge _ _)) by lia. unfold n. rewrite Nat2Z.id, R. cbn [mbind option_bind].
  by rewrite Has, Hr.
Qed.
(** A client connected to the server at 0x80, and a server with the directories A and A\B. *)
Definition connected_client : FileClient :=
  default connecting_client
    (handle_server_response (from_server (encode_response FileServerProperties_default 0))
       connecting_client).
Definition server_with_directories : FileServer :=
  (add_directory [bs; 0x41; bs; 0x42] (add_directory [bs; 0x41] (FileServer_new FileServerConfig_default)).1).1.

(** a client and its server agree on the client's current directory: if they agree before
    the client changes directory, by any path without a forward slash, they agree after, whether
    the server accepts or refuses.  The exception is real: the client passes on a path with a
    forward slash and keeps it as it is, where the server reads a backslash. *)
Theorem fs_directory_agrees :
  (exists c s, exchange 0x42 (try_change_directory [0x41; 0x2F; 0x42])
                 (connected_client, server_with_directories) = Some (c, s)
     /\ fc_current_directory c = [bs; 0x41; 0x2F; 0x42; bs]
     /\ cwd 0x42 s = [bs; 0x41; bs; 0x42; bs])
  /\ forall config cconfig a c s c' s' path,
     0 <= fsc_max_open_files_per_client config -> 0 <= fsc_max_open_files_total config ->
     fs_reachable false config s -> fc_reachable cconfig c -> unusable_server a = false ->
     0x2F ∉ path -> fc_current_directory c = cwd a s ->
     (forall r, cached_response a (fc_next_tan c) r s = None) ->
     exchange a (try_change_directory path) (c, s) = Some (c', s') ->
     fc_current_directory c' = cwd a s'.
Proof.
  split.
  { destruct (exchange 0x42 _ _) as [[c s]|] eqn:E; [|by vm_compute in E].
    exists c, s. vm_compute in E. injection E as <- <-. by split_and!. }
  intros config cconfig a c s c' s' path L1 L2 Hs Hc Ha Hn Hd Hcache H.
  assert (Hi := fs_reachable_inv false config s L1 L2 Hs). assert (Hci := fc_reachable_inv _ _ Hc).
  destruct (client_is_connected c) eqn:Econ; [|unfold exchange, try_change_directory in H; by rewrite Econ in H].
  assert (Hsa := fi_server _ _ _ _ _ _ _ Hci (connected_not_disconnected _ Econ)).
  assert (Ht := fi_tan _ _ _ _ _ _ _ Hci).
  assert (Hreq : try_change_directory path c = client_request FSFunction.ChangeDirectory (counted path) c
    /\ is_ascii path = true /\ Z.of_nat (length path) <= 65535
    /\ (path = dot \/ path = dotdot \/ is_valid_fs_path path true false = true)).
  { unfold exchange in H. clear -Econ H. unfold try_change_directory in H |- *. rewrite Econ in H |- *.
    cbn [negb] in *. destruct (is_ascii path); [|done].
    destruct (Z.ltb_spec FS_MAX_PATH_LEN (Z.of_nat (length path))); [done|].
    unfold FS_MAX_PATH_LEN in *. cbn [negb orb] in *.
    destruct (str_eqb path dot) eqn:E1; [apply str_eqb_spec in E1; split_and!; auto|].
    destruct (str_eqb path dotdot) eqn:E2; [apply str_eqb_spec in E2; split_and!; auto|].
    cbn [negb andb] in *. destruct (is_valid_fs_path path true false); [|done]. split_and!; auto. }
  destruct Hreq as (Hreq & Has & Hl & Hp).
  rewrite (served a c s FSFunction.ChangeDirectory (counted path)) in H by done.
  apply bind_Some in H as ([s1 response] & H1 & H). cbn beta iota in H.
  apply bind_Some in H as (c1 & H2 & H). injection H as -> <-. rewrite cwd_cached.
  assert (Hok : dir_name_ok (cwd a s)) by by eapply cwd_ok. destruct Hok as (cs & Hcs & Ecs & _).
  apply (change_directory_outcome a (fc_next_tan c) path cs) in H1; try done;
    [|apply known_ensure|by rewrite cwd_ensure].
  rewrite cwd_ensure in H1.
  destruct H1 as [[-> Hres]|(e & He & Hsame & ->)].
  - rewrite (answered a c FSFunction.ChangeDirectory (counted path)) in H2 by done.
    rewrite <- Ecs, <- Hd in Hres.
    match type of H2 with handle_response ?p _ _ _ = _ =>
      assert (E := client_changes p (fc_next_tan c) path (cwd a s1)
        (waiting c FSFunction.ChangeDirectory (counted path)) eq_refl eq_refl Has Hl Hres) end.
    assert (X := eq_trans (eq_sym H2) E). injection X as ->. reflexivity.
  - rewrite (answered a c FSFunction.ChangeDirectory (counted path)) in H2 by done.
    match type of H2 with handle_response ?p _ _ ?w = _ =>
      assert (E := client_refused p (fc_next_tan c) e w eq_refl He) end.
    assert (X := eq_trans (eq_sym H2) E). injection X as ->. by rewrite Hsame, <- Hd.
Qed.
(** From the root of both, the connected client moves into A, and the server moves it there. *)
Lemma connected_client_reachable : fc_reachable FileClientConfig_default connected_client.
Proof.
  apply (fc_reach_call _ (KMessage (from_server (encode_response FileServerProperties_default 0)))
           connecting_client); [|by repeat constructor|by vm_compute].
  apply (fc_reach_call _ (KConnect 0x80) (FileClient_new FileClientConfig_default));
    [constructor|done|done].
Qed.
Lemma server_with_directories_reachable :
  fs_reachable false FileServerConfig_default server_with_directories.
Proof.
  apply (reach_call _ _ (CAddDirectory [bs; 0x41; bs; 0x42])
           (add_directory [bs; 0x41] (FileServer_new FileServerConfig_default)).1 _ []);
    [|done|by vm_compute].
  apply (reach_call _ _ (CAddDirectory [bs; 0x41]) (FileServer_new FileServerConfig_default) _ []);
    [constructor|done|by vm_compute].
Qed.
Lemma fs_directory_agrees_witness :
  exists c s, exchange 0x42 (try_change_directory [0x41])
                (connected_client, server_with_directories) = Some (c, s)
    /\ fc_current_directory c = [bs; 0x41; bs] /\ cwd 0x42 s = [bs; 0x41; bs].
Proof.
  destruct (exchange 0x42 (try_change_directory [0x41])
              (connected_client, server_with_directories)) as [[c s]|] eqn:E; [|by vm_compute in E].
  assert (H : fc_current_directory c = cwd 0x42 s).
  { apply (proj2 fs_directory_agrees FileServerConfig_default FileClientConfig_default 0x42
             connected_client server_with_directories c s [0x41]);
      [done|done|apply server_with_directories_reachable|apply connected_client_reachable|done
      |by apply (bool_decide_unpack _)|by vm_compute|by intros r|exact E]. }
  exists c, s. split; [done|]. rewrite <- H. vm_compute in E. by injection E as <- <-.
Defined.

Import BTreeMapFacts.

(** The transaction number after [t]. *)
Definition tan_after (t : Z) : Z :=
  let next := wrap 8 (t + 1) in if next =? INVALID_TAN then 0 else next.
Lemma tan_after_range t : 0 <= t <= 254 -> 0 <= tan_after t <= 254.
Proof.
  intros H. unfold tan_after, wrap, INVALID_TAN. assert (Hm := Z.mod_pos_bound (t + 1) (2 ^ 8) eq_refl).
  destruct (Z.eqb_spec ((t + 1) mod 2 ^ 8) 255); lia.
Qed.
Lemma tan_after_ne t : 0 <= t <= 254 -> tan_after t <> t /\ tan_after (tan_after t) <> t.
Proof.
  intros H. assert (Hs : forall x, 0 <= x <= 254 -> tan_after x = if x =? 254 then 0 else x + 1).
  { intros x Hx. unfold tan_after, wrap, INVALID_TAN. rewrite Z.mod_small by lia.
    destruct (Z.eqb_spec (x + 1) 255), (Z.eqb_spec x 254); lia. }
  rewrite (Hs (tan_after t)) by by apply tan_after_range. rewrite (Hs t) by done.
  destruct (Z.eqb_spec t 254) as [->|]; [done|]. destruct (Z.eqb_spec (t + 1) 254); lia.
Qed.

(** The server has no answer to the client's transaction [t] in its cache. *)
Definition uncached (a t : Z) (s : FileServer) : Prop := forall r, cached_response a t r s = None.
(** The client has [h] open, not as a directory, and takes [at_] for its position. *)
Definition tracks (h at_ : Z) (c : FileClient) : Prop :=
  exists i, BTreeMap.get h (fc_open_files c) = Some i /\ oi_position i = at_
    /\ get_access_mode (oi_flags i) <> OpenFlags.bit OpenFlags.OpenDir.

(** A client and a server that agree on an open handle and on its position. *)
Record linked (a h at_ flags : Z) (path : list Z) (idx : nat) (c : FileClient) (s : FileServer)
    : Prop := {
  l_tracks : tracks h at_ c;
  l_tan : 0 <= fc_next_tan c <= 254;
  l_server : unusable_server (fc_server_address c) = false;
  l_open : open_on a h at_ flags path idx s;
  l_volume : get_volume_state s <> VolumeState.Removed;
  l_writable : path_is_read_only path s = false;
}.

(** What the client makes of the answers to a write, a seek and a read. *)
Lemma client_wrote t h n now data c :
  request_handle data = h -> requested_count data = n -> 0 <= n < 2 ^ 16 ->
  handle_response (mkPending t FSFunction.WriteFile now data) t
    (0x23 :: t :: 0 :: Name.to_le_bytes 2 n ++ [0xFF; 0xFF; 0xFF]) c
  = Some (fc_emit (FcWriteResponse t (Ok n)) (move_handle h (fun p => sat_add 32 p n) c)).
Proof.
  intros Hh Hc Hn. unfold handle_response, handle_write_response. cbn [pr_function pr_request_data].
  set (r := 0x23 :: _). change (response_check _ r) with (@Ok unit (FSError.t * bool) tt).
  change (fs_payload_len_is_canonical r _) with true. cbv zeta. cbn [negb].
  assert (E : u16_at 3 r = Some n) by (apply (u16_at_le [0x23; t; 0]); lia).
  rewrite E. cbn [mbind option_bind].
  by rewrite Hc, Z.ltb_irrefl, Hh.
Qed.
Lemma client_sought t h x now data c :
  request_handle data = h -> 0 <= x < 2 ^ 32 ->
  handle_response (mkPending t FSFunction.SeekFile now data) t
    (0x21 :: t :: 0 :: 0xFF :: Name.to_le_bytes 4 x) c
  = Some (fc_emit (FcSeekResponse t (Ok x)) (move_handle h (fun _ => x) c)).
Proof.
  intros Hh Hx. unfold handle_response, handle_seek_response. cbn [pr_function pr_request_data].
  set (r := 0x21 :: _). change (response_check _ r) with (@Ok unit (FSError.t * bool) tt).
  change (fs_payload_len_is_canonical r _) with true. cbv zeta. cbn [negb].
  change (range 4 8 r) with (Some (Name.to_le_bytes 4 x)). cbn [mbind option_bind].
  by rewrite le_bytes_back, Hh by lia.
Qed.
Lemma client_got t h payload now data c :
  request_handle data = h -> requested_count data = Z.of_nat (length payload) ->
  Z.of_nat (length payload) < 2 ^ 16 -> opened_as_directory h c = false ->
  handle_response (mkPending t FSFunction.ReadFile now data) t
    (0x22 :: t :: 0 :: Name.to_le_bytes 2 (Z.of_nat (length payload)) ++ payload) c
  = Some (fc_emit (FcReadResponse t (Ok payload))
            (move_handle h (fun p => sat_add 32 p (Z.of_nat (length payload))) c)).
Proof.
  intros Hh Hc Hn Hd. unfold handle_response, handle_read_response. cbn [pr_function pr_request_data].
  set (n := Z.of_nat (length payload)) in *.
  assert (Hl : length (0x22 :: t :: 0 :: Name.to_le_bytes 2 n ++ payload) = (5 + Z.to_nat n)%nat)
    by (cbn; unfold n; lia).
  assert (E := u16_at_le [0x22; t; 0] n payload ltac:(lia)).
  assert (F := canonical_full (0x22 :: t :: 0 :: Name.to_le_bytes 2 n ++ payload)).
  assert (R := range_middle (0x22 :: t :: 0 :: Name.to_le_bytes 2 n) payload []).
  rewrite app_nil_r in R. cbn [app] in E, R. rewrite Hl in F.
  set (r := 0x22 :: _) in *. assert (K : response_check READ_FILE_RESPONSE_HEADER_LEN r = Ok tt).
  { unfold response_check. rewrite Hl. by rewrite (proj2 (Nat.ltb_ge _ _)) by (unfold READ_FILE_RESPONSE_HEADER_LEN; lia). }
  rewrite K. change (length [34; t; 0]) with 3%nat in E. rewrite E. cbn [mbind option_bind].
  rewrite Hc, Z.ltb_irrefl, Hh, Hd. cbv zeta.
  change READ_FILE_RESPONSE_HEADER_LEN with 5%nat. rewrite F. cbn [negb].
  change (length (34 :: t :: 0 :: Name.to_le_bytes 2 n)) with 5%nat in R.
  replace (5 + Z.to_nat n)%nat with (5 + length payload)%nat by (unfold n; lia). by rewrite R.
Qed.

Section transfer.
Context (a : Address) (h flags : Z) (path : list Z) (idx : nat).
Context (Ha : unusable_server a = false).
Context (Hm : get_access_mode flags = OpenFlags.bit OpenFlags.ReadWrite).

Lemma uncached_later t t' data r s s1 :
  keeps (ensure_client a s) s1 -> t' <> t -> uncached a t' s ->
  uncached a t' (cache_response a t data r s1).
Proof.
  intros (_ & _ & K) Hn Hu q. specialize (Hu q). unfold cached_response in *.
  unfold cache_response. cbn. rewrite get_update_eq.
  destruct (BTreeMap.get a (fs_clients s)) as [e|] eqn:E.
  - destruct (K a e) as (e1 & -> & Hc & _); [by cbn; rewrite get_or_insert_eq, E|].
    cbn. rewrite get_insert_ne by done. by rewrite Hc.
  - destruct (K a (ServerClientConnection_new a)) as (e1 & -> & Hc & _);
      [by cbn; rewrite get_or_insert_eq, E|].
    cbn. rewrite get_insert_ne by done. by rewrite Hc.
Qed.
Lemma exchanged c s function body rest s1 c1 request :
  function <> FSFunction.VolumeStatus -> function <> FSFunction.FileServerStatus ->
  unusable_server (fc_server_address c) = false -> 0 <= fc_next_tan c <= 254 ->
  uncached a (fc_next_tan c) s -> request c = client_request function body c ->
  let t := fc_next_tan c in
  let data := FSFunction.as_u8 function :: t :: body in
  let response := FSFunction.as_u8 function :: t :: rest in
  execute_function a (FSFunction.as_u8 function) t data (ensure_client a s) = Some (s1, response) ->
  handle_response (mkPending t function (fc_current_time_ms c) data) t response
    (waiting c function body) = Some c1 ->
  exists s2, exchange a request (c, s) = Some (c1, s2)
    /\ fs_files s2 = fs_files s1 /\ fs_open_files s2 = fs_open_files s1
    /\ get_volume_state s2 = get_volume_state s1 /\ fs_file_attrs s2 = fs_file_attrs s1
    /\ forall t', t' <> t -> uncached a t' s -> uncached a t' s2.
Proof.
  intros Hf Hf' Hs Ht Hu Hr t data response He Hc.
  exists (cache_response a t data response s1). split_and!; try done.
  - rewrite (served a c s function body) by done. subst t data response.
    rewrite He. cbn [mbind option_bind]. rewrite answered by done. by rewrite Hc.
  - intros t' Hn. apply uncached_later; [|done]. by eapply kept_execute.
Qed.
(** What the client is after an answer that moves its handle. *)
Lemma client_moved c function body h' at_ f e :
  tracks h' at_ c -> 0 <= fc_next_tan c <= 254 ->
  let c1 := fc_emit e (move_handle h' f (waiting c function body)) in
  tracks h' (f at_) c1 /\ fc_next_tan c1 = tan_after (fc_next_tan c)
  /\ fc_server_address c1 = fc_server_address c /\ fc_trace c1 = fc_trace c ++ [e].
Proof.
  intros (i & Hi & <- & Hd) Ht c1. split_and!; [|done..].
  exists (oi_with_position (f (oi_position i)) i). cbn. by rewrite get_update_eq, Hi.
Qed.

(** An exchange after which both sides have moved the handle to the same position. *)
Definition moves (request : FileClient -> FileClient * Result FSClientOutbound Error.t)
    (at_ : Z) (e : FcEvent) (c : FileClient) (s : FileServer) (files : BTreeMap.t (list Z) (list Z))
    : Prop :=
  exists c1 s1, exchange a request (c, s) = Some (c1, s1)
    /\ linked a h at_ flags path idx c1 s1 /\ fs_files s1 = files
    /\ fc_next_tan c1 = tan_after (fc_next_tan c) /\ fc_trace c1 = fc_trace c ++ [e]
    /\ forall t', t' <> fc_next_tan c -> uncached a t' s -> uncached a t' s1.
Lemma moves_intro c s at_ at_' function body rest s1 request f e :
  function <> FSFunction.VolumeStatus -> function <> FSFunction.FileServerStatus ->
  linked a h at_ flags path idx c s -> uncached a (fc_next_tan c) s ->
  request c = client_request function body c -> f at_ = at_' ->
  let t := fc_next_tan c in
  let data := FSFunction.as_u8 function :: t :: body in
  let response := FSFunction.as_u8 function :: t :: rest in
  execute_function a (FSFunction.as_u8 function) t data (ensure_client a s) = Some (s1, response) ->
  handle_response (mkPending t function (fc_current_time_ms c) data) t response
    (waiting c function body)
  = Some (fc_emit e (move_handle h f (waiting c function body))) ->
  open_on a h at_' flags path idx s1 -> get_volume_state s1 = get_volume_state s ->
  fs_file_attrs s1 = fs_file_attrs s ->
  moves request at_' e c s (fs_files s1).
Proof.
  intros Hf Hf' [Htr Ht Hs Ho Hv Hw] Hu Hr <- t data response He Hc Ho1 Hv1 Hw1.
  destruct (exchanged c s function body rest s1 _ request Hf Hf' Hs Ht Hu Hr He Hc)
    as (s2 & E & Efiles & Eopen & Evol & Eattr & Hlater).
  destruct (client_moved c function body h at_ f e Htr Ht) as (Htr1 & Hn1 & Hs1 & Htrace).
  do 2 eexists. split_and!; [exact E| |done..]. split.
  - done.
  - rewrite Hn1. by apply tan_after_range.
  - by rewrite Hs1.
  - by apply (open_on_ext _ _ _ _ _ _ s1).
  - by rewrite Evol, Hv1.
  - unfold path_is_read_only in *. by rewrite Eattr, Hw1.
Qed.
Lemma for_open c at_ k : tracks h at_ c -> for_open_handle h c k = k.
Proof.
  intros (i & Hi & _). unfold for_open_handle.
  assert (Hc : BTreeMap.contains_key h (fc_open_files c) = true)
    by (apply contains_key_spec; by eexists).
  by rewrite Hc.
Qed.
Lemma sat_add_fits x n : 0 <= x -> 0 <= n -> x + n < 2 ^ 32 -> sat_add 32 x n = x + n.
Proof. intros ???. unfold sat_add. lia. Qed.

Lemma write_exchange c s at_ payload data :
  linked a h at_ flags path idx c s -> uncached a (fc_next_tan c) s ->
  BTreeMap.get path (fs_files s) = Some data ->
  0 <= at_ -> at_ + Z.of_nat (length payload) < 2 ^ 32 -> Z.of_nat (length payload) < 2 ^ 16 ->
  exists out, write_data (Z.to_nat at_) payload data = Some out
    /\ moves (try_write_file h payload) (at_ + Z.of_nat (length payload))
         (FcWriteResponse (fc_next_tan c) (Ok (Z.of_nat (length payload)))) c s
         (BTreeMap.insert path out (fs_files s)).
Proof.
  intros Hl Hu Hg H0 H32 H16. assert (Hl' := Hl). destruct Hl' as [Htr Ht Hs Ho Hv Hw].
  set (t := fc_next_tan c) in *.
  assert (Hoe : open_on a h at_ flags path idx (ensure_client a s)) by exact (open_on_ext _ _ _ _ _ _ s (ensure_client a s) eq_refl Ho).
  destruct (write_effect a t h at_ flags path idx payload data (ensure_client a s))
    as (out & Eo & E); [exact Hoe|exact Hm|exact Hv|exact Hw|exact Hg|exact H0|exact H32|exact H16|].
  exists out. split; [done|].
  set (n := Z.of_nat (length payload)) in *.
  assert (Hdata : 0x23 :: t :: h :: counted payload ++ replicate (3 - length payload) 0xFF
                  = write_request t h payload).
  { unfold write_request, padded8, counted. fold n. unfold wrap. rewrite Z.mod_small by lia.
    done. }
  set (s1 := touch_file_date_time _ _) in E.
  apply (moves_intro c s at_ _ FSFunction.WriteFile
           (h :: counted payload ++ replicate (3 - length payload) 0xFF)
           (0 :: Name.to_le_bytes 2 n ++ [0xFF; 0xFF; 0xFF]) s1 _ (fun p => sat_add 32 p n));
    [done|done|done|done| | | | | |done|done].
  - unfold try_write_file. rewrite (for_open _ at_) by done.
    by rewrite (proj2 (Z.ltb_ge _ _)) by (unfold n in *; lia).
  - apply sat_add_fits; unfold n; lia.
  - change (FSFunction.as_u8 FSFunction.WriteFile) with 0x23. fold t. rewrite Hdata. exact E.
  - change (FSFunction.as_u8 FSFunction.WriteFile) with 0x23. fold t. rewrite Hdata.
    apply client_wrote; [done| |unfold n in *; lia].
    unfold requested_count. rewrite <- Hdata. unfold counted. fold n. unfold wrap.
    rewrite Z.mod_small by lia. rewrite <- app_assoc.
    assert (U := u16_at_le [0x23; t; h] n (payload ++ replicate (3 - length payload) 0xFF) ltac:(lia)).
    change (length [0x23; t; h]) with 3%nat in U. cbn [app] in U. by rewrite U.
  - apply (open_on_ext _ _ _ _ _ _ (set_position idx (at_ + n) (ensure_client a s))); [done|].
    by apply (open_on_set_position _ _ at_).
Qed.
Lemma seek_exchange c s at_ target data :
  linked a h at_ flags path idx c s -> uncached a (fc_next_tan c) s ->
  BTreeMap.get path (fs_files s) = Some data ->
  0 <= target < 2 ^ 31 -> target <= Z.of_nat (length data) ->
  moves (try_seek_file h SeekMode.Start target) target
    (FcSeekResponse (fc_next_tan c) (Ok target)) c s (fs_files s).
Proof.
  intros Hl Hu Hg Hx Hle. assert (Hl' := Hl). destruct Hl' as [Htr Ht Hs Ho Hv Hw].
  set (t := fc_next_tan c) in *.
  assert (Hoe : open_on a h at_ flags path idx (ensure_client a s)) by exact (open_on_ext _ _ _ _ _ _ s (ensure_client a s) eq_refl Ho).
  assert (E := seek_effect a t h at_ flags path idx target data (ensure_client a s) Hoe Hv Hg Hx Hle).
  assert (Hle32 : i32_to_le target = Name.to_le_bytes 4 target)
    by (unfold i32_to_le, wrap; by rewrite Z.mod_small by lia).
  apply (moves_intro c s at_ _ FSFunction.SeekFile
           (h :: SEEK_MODE_FROM_START :: Name.to_le_bytes 4 target)
           (0 :: 0xFF :: Name.to_le_bytes 4 target)
           (set_position idx target (ensure_client a s)) _ (fun _ => target));
    [done|done|done|done| |done|exact E| | |done|done].
  - unfold try_seek_file. rewrite (for_open _ at_) by done. by rewrite Hle32.
  - apply client_sought; [done|lia].
  - by apply (open_on_set_position _ _ at_).
Qed.
Lemma read_exchange c s at_ payload data :
  linked a h at_ flags path idx c s -> uncached a (fc_next_tan c) s ->
  BTreeMap.get path (fs_files s) = Some data ->
  0 <= at_ -> 0 < Z.of_nat (length payload) < 2 ^ 16 -> at_ + Z.of_nat (length payload) < 2 ^ 32 ->
  (Z.to_nat at_ + length payload <= length data)%nat ->
  take (length payload) (drop (Z.to_nat at_) data) = payload ->
  moves (try_read_file h (Z.of_nat (length payload))) (at_ + Z.of_nat (length payload))
    (FcReadResponse (fc_next_tan c) (Ok payload)) c s (fs_files s).
Proof.
  intros Hl Hu Hg H0 H16 H32 Hle Hp. assert (Hl' := Hl). destruct Hl' as [Htr Ht Hs Ho Hv Hw].
  set (t := fc_next_tan c) in *. set (n := Z.of_nat (length payload)) in *.
  assert (Hoe : open_on a h at_ flags path idx (ensure_client a s)) by exact (open_on_ext _ _ _ _ _ _ s (ensure_client a s) eq_refl Ho).
  assert (E := read_effect a t h at_ flags path idx (length payload) data (ensure_client a s)
                 Hoe Hm Hv Hg H0 H16 H32 Hle). fold n in E. rewrite Hp in E.
  apply (moves_intro c s at_ _ FSFunction.ReadFile
           (h :: Name.to_le_bytes 2 n ++ [0xFF; 0xFF; 0xFF])
           (0 :: Name.to_le_bytes 2 n ++ payload)
           (set_position idx (at_ + n) (ensure_client a s)) _ (fun p => sat_add 32 p n));
    [done|done|done|done| | |exact E| | |done|done].
  - unfold try_read_file. by rewrite (for_open _ at_).
  - apply sat_add_fits; unfold n in *; lia.
  - apply client_got; [done| |unfold n in *; lia|].
    + unfold requested_count. fold t. fold n. change (FSFunction.as_u8 FSFunction.ReadFile) with 0x22.
      assert (U := u16_at_le [0x22; t; h] n [0xFF; 0xFF; 0xFF] ltac:(lia)).
      change (length [0x22; t; h]) with 3%nat in U. cbn [app] in U. by rewrite U.
    + destruct Htr as (i & Hi & _ & Hd). unfold opened_as_directory. cbn. rewrite Hi.
      by apply Z.eqb_neq.
  - by apply (open_on_set_position _ _ at_).
Qed.
End transfer.

(** Client 0x42 has created the file F at the server, over the bus. *)
Definition opened_pair : FileClient * FileServer :=
  default (connected_client, FileServer_new FileServerConfig_default)
    (exchange 0x42 (try_open_file [0x46] 6) (connected_client, FileServer_new FileServerConfig_default)).
