(* ===== verification/TimTypes.v ===== *)
(** Tractor implement management, the wire types: the model of
    [src/isobus/tim/functions.rs], [automation.rs], [messages.rs], [facilities.rs] and of the
    messages of [assignment.rs].

    Who may command what is in [TimAssignment] and [TimAuthority], how the two sides
    authenticate in [TimAuth]. *)
From S2P Require Export Types AddressClaim.

(** ** [functions.rs] *)

Module TimFunctionId.
Inductive t : Type :=
| AuxValveSuperset | AuxValve (n : Z) | FrontPto | RearPto | FrontHitch | RearHitch
| VehicleSpeed | ExternalGuidance.
#[global] Instance eq_dec : EqDecision t.
Proof. solve_decision. Defined.
Definition from_u8 (raw : Z) : option t :=
  match raw with
  | 0x00 => Some AuxValveSuperset
  | 0x40 => Some FrontPto | 0x41 => Some RearPto
  | 0x42 => Some FrontHitch | 0x43 => Some RearHitch
  | 0x44 => Some VehicleSpeed | 0x46 => Some ExternalGuidance
  | _ => if (0x01 <=? raw) && (raw <=? 0x20) then Some (AuxValve raw) else None
  end.
Definition as_u8 (f : t) : Z :=
  match f with
  | AuxValveSuperset => 0x00 | AuxValve n => n
  | FrontPto => 0x40 | RearPto => 0x41 | FrontHitch => 0x42 | RearHitch => 0x43
  | VehicleSpeed => 0x44 | ExternalGuidance => 0x46
  end.
Definition is_driving_function (f : t) : bool :=
  match f with ExternalGuidance | VehicleSpeed => true | _ => false end.
(** The valves the wire can name. *)
Definition valid (f : t) : Prop := match f with AuxValve n => 0x01 <= n <= 0x20 | _ => True end.
End TimFunctionId.

Module TimExitReason.
Inductive t : Type :=
| AllClear | OperatorPresenceNotDetected | ImplementReleasedControl | OperatorOverride
| OperatorControlNotInValidPosition | RemoteCommandTimeout | RemoteCommandOutOfRange
| FunctionNotCalibrated | OperatorControlFault | FunctionFault | ControlUnitInDiagnosticMode
| AlternateGuidanceSystemActive | VehicleSpeedTooHigh | VehicleSpeedTooLow
| TransmissionGearDisallows | HydraulicOilTemperatureTooLow | HydraulicOilLevelTooLow
| ManufacturerSpecific | Error.
#[global] Instance eq_dec : EqDecision t.
Proof. solve_decision. Defined.
Definition from_u8 (raw : Z) : option t :=
  match Z.land raw 0x1F with
  | 0x00 => Some AllClear | 0x01 => Some OperatorPresenceNotDetected
  | 0x02 => Some ImplementReleasedControl | 0x03 => Some OperatorOverride
  | 0x04 => Some OperatorControlNotInValidPosition | 0x05 => Some RemoteCommandTimeout
  | 0x06 => Some RemoteCommandOutOfRange | 0x07 => Some FunctionNotCalibrated
  | 0x08 => Some OperatorControlFault | 0x09 => Some FunctionFault
  | 0x0F => Some ControlUnitInDiagnosticMode | 0x10 => Some AlternateGuidanceSystemActive
  | 0x11 => Some VehicleSpeedTooHigh | 0x12 => Some VehicleSpeedTooLow
  | 0x13 => Some TransmissionGearDisallows | 0x14 => Some HydraulicOilTemperatureTooLow
  | 0x15 => Some HydraulicOilLevelTooLow | 0x1E => Some ManufacturerSpecific
  | 0x1F => Some Error
  | _ => None
  end.
Definition as_u8 (r : t) : Z :=
  match r with
  | AllClear => 0x00 | OperatorPresenceNotDetected => 0x01 | ImplementReleasedControl => 0x02
  | OperatorOverride => 0x03 | OperatorControlNotInValidPosition => 0x04
  | RemoteCommandTimeout => 0x05 | RemoteCommandOutOfRange => 0x06
  | FunctionNotCalibrated => 0x07 | OperatorControlFault => 0x08 | FunctionFault => 0x09
  | ControlUnitInDiagnosticMode => 0x0F | AlternateGuidanceSystemActive => 0x10
  | VehicleSpeedTooHigh => 0x11 | VehicleSpeedTooLow => 0x12 | TransmissionGearDisallows => 0x13
  | HydraulicOilTemperatureTooLow => 0x14 | HydraulicOilLevelTooLow => 0x15
  | ManufacturerSpecific => 0x1E | Error => 0x1F
  end.
Definition is_operator_initiated (r : t) : bool :=
  match r with
  | OperatorPresenceNotDetected | OperatorOverride | OperatorControlNotInValidPosition => true
  | _ => false
  end.
Definition is_client_fault (r : t) : bool :=
  match r with RemoteCommandTimeout | RemoteCommandOutOfRange => true | _ => false end.
End TimExitReason.

(** ** [automation.rs] *)

Module AutomationState.
Inductive t : Type :=
| Unavailable | NotReady | ReadyToEnable | Enabled | Pending | ActiveNotLimited
| ActiveLimitedHigh | ActiveLimitedLow | Fault | Error | NotAvailable.
#[global] Instance eq_dec : EqDecision t.
Proof. solve_decision. Defined.
Definition from_u8 (raw : Z) : option t :=
  match Z.land raw 0x0F with
  | 0x0 => Some Unavailable | 0x1 => Some NotReady | 0x2 => Some ReadyToEnable
  | 0x3 => Some Enabled | 0x4 => Some Pending | 0x5 => Some ActiveNotLimited
  | 0x6 => Some ActiveLimitedHigh | 0x7 => Some ActiveLimitedLow
  | 0xD => Some Fault | 0xE => Some Error | 0xF => Some NotAvailable
  | _ => None
  end.
Definition as_u8 (s : t) : Z :=
  match s with
  | Unavailable => 0x0 | NotReady => 0x1 | ReadyToEnable => 0x2 | Enabled => 0x3
  | Pending => 0x4 | ActiveNotLimited => 0x5 | ActiveLimitedHigh => 0x6
  | ActiveLimitedLow => 0x7 | Fault => 0xD | Error => 0xE | NotAvailable => 0xF
  end.
Definition is_active (s : t) : bool :=
  match s with ActiveNotLimited | ActiveLimitedHigh | ActiveLimitedLow => true | _ => false end.
Definition rank (s : t) : Z :=
  match s with
  | NotAvailable => 0 | Unavailable => 1 | NotReady => 2 | ReadyToEnable => 3 | Enabled => 4
  | Pending => 5 | ActiveNotLimited => 6 | ActiveLimitedHigh | ActiveLimitedLow => 7
  | Error => 8 | Fault => 9
  end.
(** [max_by_key]: the last of the greatest. *)
Definition highest (states : list t) : t :=
  match states with
  | [] => NotAvailable
  | s :: states => foldl (fun m s => if rank m <=? rank s then s else m) s states
  end.
End AutomationState.

Record FunctionState : Type := mkFunctionState {
  fn_function : TimFunctionId.t;
  fn_state : AutomationState.t;
  fn_exit_reason : TimExitReason.t
}.
Definition FunctionState_new (function : TimFunctionId.t) : FunctionState :=
  mkFunctionState function AutomationState.NotAvailable TimExitReason.AllClear.
(** The functions of [AutomationStates], in the order they were first set. *)
Definition AutomationStates : Type := list FunctionState.

Definition tracked (function : TimFunctionId.t) (l : AutomationStates) : option FunctionState :=
  List.find (fun f => bool_decide (fn_function f = function)) l.
Definition automation_state (function : TimFunctionId.t) (l : AutomationStates) : AutomationState.t :=
  match tracked function l with Some f => fn_state f | None => AutomationState.NotAvailable end.
Definition exit_reason (function : TimFunctionId.t) (l : AutomationStates) : TimExitReason.t :=
  match tracked function l with Some f => fn_exit_reason f | None => TimExitReason.AllClear end.
(** [iter_mut().find(..)] and an assignment to what it found. *)
Fixpoint update_tracked (function : TimFunctionId.t) (g : FunctionState -> FunctionState)
    (l : AutomationStates) : AutomationStates :=
  match l with
  | [] => []
  | f :: l => if bool_decide (fn_function f = function) then g f :: l
              else f :: update_tracked function g l
  end.
Definition set_automation (function : TimFunctionId.t) (state : AutomationState.t)
    (l : AutomationStates) : AutomationStates * bool :=
  match tracked function l with
  | Some entry =>
      (update_tracked function
         (fun f => mkFunctionState (fn_function f) state
                     (if AutomationState.is_active state then TimExitReason.AllClear
                      else fn_exit_reason f)) l,
       bool_decide (fn_state entry <> state))
  | None => (l ++ [mkFunctionState function state TimExitReason.AllClear], true)
  end.
Definition exit_automation (function : TimFunctionId.t) (reason : TimExitReason.t)
    (l : AutomationStates) : AutomationStates :=
  let target := if bool_decide (reason = TimExitReason.AllClear)
                then AutomationState.ReadyToEnable else AutomationState.NotReady in
  let l := (set_automation function target l).1 in
  update_tracked function (fun f => mkFunctionState (fn_function f) (fn_state f) reason) l.
Definition highest_state (l : AutomationStates) : AutomationState.t :=
  AutomationState.highest (fn_state <$> l).
Definition any_active (l : AutomationStates) : bool :=
  existsb (fun f => AutomationState.is_active (fn_state f)) l.

Record TimVersion : Type := mkTimVersion { minimum : Z; implemented : Z }.
Definition negotiate (v peer : TimVersion) : option Z :=
  let highest_common := if implemented v <? implemented peer then implemented v
                        else implemented peer in
  if (minimum v <=? highest_common) && (minimum peer <=? highest_common)
  then Some highest_common else None.

(** ** [messages.rs] *)

Definition PGN_TIM_SERVER_TO_CLIENT : Pgn := 0x2300.
Definition PGN_TIM_CLIENT_TO_SERVER : Pgn := 0x2400.
Definition TIM_STATUS_PRIORITY : Z := 4.
Definition TIM_STATUS_INTERVAL_MS : Z := 100.
Definition TIM_STATUS_TIMEOUT_MS : Z := 300.
Definition MSG_CODE_SERVER_STATUS : Z := 0xFA.
Definition MSG_CODE_CLIENT_STATUS : Z := 0xF9.
Definition HEARTBEAT_ROLLOVER : Z := 0xFA.

Module HeartbeatCounter.
Inductive t : Type := Count (n : Z) | Reset | SenderError | GracefulShutdown.
#[global] Instance eq_dec : EqDecision t.
Proof. solve_decision. Defined.
Definition from_u8 (raw : Z) : option t :=
  if raw <=? HEARTBEAT_ROLLOVER then Some (Count raw)
  else match raw with
       | 0xFB => Some Reset | 0xFE => Some SenderError | 0xFF => Some GracefulShutdown
       | _ => None
       end.
Definition as_u8 (c : t) : Z :=
  match c with Count n => n | Reset => 0xFB | SenderError => 0xFE | GracefulShutdown => 0xFF end.
Definition next (c : t) : t :=
  match c with
  | Count n => if n <? HEARTBEAT_ROLLOVER then Count (n + 1) else Count 0
  | _ => Count 0
  end.
Definition follows (c previous : t) : bool :=
  match c, previous with
  | Count now, Count before =>
      let span := HEARTBEAT_ROLLOVER + 1 in
      let delta := (now + span - before) mod span in
      (1 <=? delta) && (delta <=? 3)
  | _, _ => true
  end.
Definition is_severe_comms_error (c : t) : bool :=
  match c with SenderError => true | _ => false end.
Definition is_graceful_shutdown_edge (c previous : t) : bool :=
  match c, previous with
  | GracefulShutdown, GracefulShutdown => false
  | GracefulShutdown, _ => true
  | _, _ => false
  end.
(** What [from_u8] makes. *)
Definition valid (c : t) : Prop := match c with Count n => 0 <= n <= HEARTBEAT_ROLLOVER | _ => True end.
End HeartbeatCounter.

Module TimServerMaster.
Inductive t : Type := ActingAutomationNotAllowed | ActingAutomationAllowed | Error | NotAvailable.
Definition from_u8 (raw : Z) : option t :=
  match Z.land raw 0x0F with
  | 0x0 => Some ActingAutomationNotAllowed | 0x1 => Some ActingAutomationAllowed
  | 0xE => Some Error | 0xF => Some NotAvailable | _ => None
  end.
Definition as_u8 (m : t) : Z :=
  match m with
  | ActingAutomationNotAllowed => 0x0 | ActingAutomationAllowed => 0x1
  | Error => 0xE | NotAvailable => 0xF
  end.
Definition is_acting_master (m : t) : bool :=
  match m with ActingAutomationNotAllowed | ActingAutomationAllowed => true | _ => false end.
End TimServerMaster.

Module TimSystemState.
Inductive t : Type := NoAutomationActive | AutomationActive | Error | NotAvailable.
Definition from_u8 (raw : Z) : option t :=
  match Z.land raw 0x0F with
  | 0x1 => Some NoAutomationActive | 0x5 => Some AutomationActive
  | 0xE => Some Error | 0xF => Some NotAvailable | _ => None
  end.
Definition as_u8 (s : t) : Z :=
  match s with
  | NoAutomationActive => 0x1 | AutomationActive => 0x5 | Error => 0xE | NotAvailable => 0xF
  end.
End TimSystemState.

Module TimSystemOperationState.
Inductive t : Type :=
| NotFulfilled | NormalOperation | StandstillOperation | StationaryOperation | Error
| NotAvailable.
Definition from_u8 (raw : Z) : option t :=
  match Z.land raw 0x0F with
  | 0x0 => Some NotFulfilled | 0x1 => Some NormalOperation | 0x2 => Some StandstillOperation
  | 0x3 => Some StationaryOperation | 0xE => Some Error | 0xF => Some NotAvailable
  | _ => None
  end.
Definition as_u8 (s : t) : Z :=
  match s with
  | NotFulfilled => 0x0 | NormalOperation => 0x1 | StandstillOperation => 0x2
  | StationaryOperation => 0x3 | Error => 0xE | NotAvailable => 0xF
  end.
Definition permits_automation (s : t) : bool :=
  match s with
  | NormalOperation | StandstillOperation | StationaryOperation => true | _ => false
  end.
End TimSystemOperationState.

Module TimClientState.
Inductive t : Type :=
| AutomationUnavailable | AutomationNotReady | AutomationReadyToEnable | AutomationEnabled
| AutomationActive | AutomationFault | Error | NotAvailable.
Definition from_u8 (raw : Z) : option t :=
  match Z.land raw 0x0F with
  | 0x0 => Some AutomationUnavailable | 0x1 => Some AutomationNotReady
  | 0x2 => Some AutomationReadyToEnable | 0x3 => Some AutomationEnabled
  | 0x5 => Some AutomationActive | 0xD => Some AutomationFault
  | 0xE => Some Error | 0xF => Some NotAvailable | _ => None
  end.
Definition as_u8 (s : t) : Z :=
  match s with
  | AutomationUnavailable => 0x0 | AutomationNotReady => 0x1 | AutomationReadyToEnable => 0x2
  | AutomationEnabled => 0x3 | AutomationActive => 0x5 | AutomationFault => 0xD
  | Error => 0xE | NotAvailable => 0xF
  end.
End TimClientState.

Record TimServerStatus : Type := mkServerStatus {
  ts_counter : HeartbeatCounter.t;
  ts_master : TimServerMaster.t;
  ts_system_state : TimSystemState.t;
  ts_server_state : AutomationState.t;
  ts_operation_state : TimSystemOperationState.t
}.
Definition TimServerStatus_default : TimServerStatus :=
  mkServerStatus HeartbeatCounter.Reset TimServerMaster.NotAvailable TimSystemState.NotAvailable
    AutomationState.NotAvailable TimSystemOperationState.NotAvailable.
(** [(hi & 0x0F) << 4 | (lo & 0x0F)] in a byte. *)
Definition nibbles (hi lo : Z) : Z :=
  Z.lor (wrap 8 (Z.shiftl (Z.land hi 0x0F) 4)) (Z.land lo 0x0F).
Definition server_status_encode (s : TimServerStatus) : list Z :=
  [MSG_CODE_SERVER_STATUS; HeartbeatCounter.as_u8 (ts_counter s);
   nibbles (TimServerMaster.as_u8 (ts_master s)) (TimSystemState.as_u8 (ts_system_state s));
   nibbles (AutomationState.as_u8 (ts_server_state s))
     (TimSystemOperationState.as_u8 (ts_operation_state s));
   0xFF; 0xFF; 0xFF; 0xFF].
Definition server_status_decode (data : list Z) : option TimServerStatus :=
  match data with
  | d0 :: d1 :: d2 :: d3 :: _ =>
      if negb (d0 =? MSG_CODE_SERVER_STATUS) then None
      else
        counter ← HeartbeatCounter.from_u8 d1;
        master ← TimServerMaster.from_u8 (Z.shiftr d2 4);
        system_state ← TimSystemState.from_u8 (Z.land d2 0x0F);
        server_state ← AutomationState.from_u8 (Z.shiftr d3 4);
        operation_state ← TimSystemOperationState.from_u8 (Z.land d3 0x0F);
        Some (mkServerStatus counter master system_state server_state operation_state)
  | _ => None
  end.

Record TimClientStatus : Type := mkClientStatus {
  tcs_counter : HeartbeatCounter.t;
  tcs_state : TimClientState.t
}.
Definition TimClientStatus_default : TimClientStatus :=
  mkClientStatus HeartbeatCounter.Reset TimClientState.NotAvailable.
Definition tim_client_status_encode (s : TimClientStatus) : list Z :=
  [MSG_CODE_CLIENT_STATUS; HeartbeatCounter.as_u8 (tcs_counter s);
   Z.lor (wrap 8 (Z.shiftl (Z.land (TimClientState.as_u8 (tcs_state s)) 0x0F) 4)) 0x0F;
   0xFF; 0xFF; 0xFF; 0xFF; 0xFF].
Definition tim_client_status_decode (data : list Z) : option TimClientStatus :=
  match data with
  | d0 :: d1 :: d2 :: _ =>
      if negb (d0 =? MSG_CODE_CLIENT_STATUS) then None
      else
        counter ← HeartbeatCounter.from_u8 d1;
        state ← TimClientState.from_u8 (Z.shiftr d2 4);
        Some (mkClientStatus counter state)
  | _ => None
  end.

(** ** [facilities.rs] *)

Definition MSG_CODE_SUPPORT : Z := 0xF4.
Definition SUPPORT_TIMEOUT_MS : Z := 1500.

Module Facility.
Inductive t : Type := NotSupported | Supported | Reserved | NotDefinedAtBuild.
#[global] Instance eq_dec : EqDecision t.
Proof. solve_decision. Defined.
Definition from_u8 (raw : Z) : t :=
  match Z.land raw 3 with
  | 0 => NotSupported | 1 => Supported | 2 => Reserved | _ => NotDefinedAtBuild
  end.
Definition as_u8 (f : t) : Z :=
  match f with NotSupported => 0 | Supported => 1 | Reserved => 2 | NotDefinedAtBuild => 3 end.
Definition is_supported (f : t) : bool := match f with Supported => true | _ => false end.
End Facility.

(** [f.as_u8() << n] in a byte. *)
Definition at_bit (n : Z) (f : Facility.t) : Z := wrap 8 (Z.shiftl (Facility.as_u8 f) n).

Record AuxValveFacilities : Type := mkAuxFac { valve_state : Facility.t; valve_flow : Facility.t }.
Definition aux_fac_encode (f : AuxValveFacilities) : Z :=
  Z.lor (Z.lor (at_bit 6 (valve_state f)) (at_bit 4 (valve_flow f))) 0x0F.
Definition aux_fac_decode (raw : Z) : AuxValveFacilities :=
  mkAuxFac (Facility.from_u8 (Z.shiftr raw 6)) (Facility.from_u8 (Z.shiftr raw 4)).
Definition aux_fac_meets_minimum (f : AuxValveFacilities) : bool :=
  Facility.is_supported (valve_state f) && Facility.is_supported (valve_flow f).

Record ExternalGuidanceFacilities : Type := mkGuidanceFac { curvature : Facility.t }.
Definition guidance_fac_encode (f : ExternalGuidanceFacilities) : Z :=
  Z.lor (at_bit 6 (curvature f)) 0x3F.
Definition guidance_fac_decode (raw : Z) : ExternalGuidanceFacilities :=
  mkGuidanceFac (Facility.from_u8 (Z.shiftr raw 6)).
Definition guidance_fac_meets_minimum (f : ExternalGuidanceFacilities) : bool :=
  Facility.is_supported (curvature f).

Record VehicleSpeedFacilities : Type := mkSpeedFac {
  forward_speed : Facility.t;
  reverse_speed : Facility.t;
  start_motion : Facility.t;
  stop_motion : Facility.t;
  forward_speed_set_by_server : Facility.t;
  reverse_speed_set_by_server : Facility.t;
  change_of_direction : Facility.t
}.
Definition speed_fac_encode (f : VehicleSpeedFacilities) : Z * Z :=
  (Z.lor (Z.lor (Z.lor (at_bit 6 (forward_speed f)) (at_bit 4 (reverse_speed f)))
            (at_bit 2 (start_motion f))) (Facility.as_u8 (stop_motion f)),
   Z.lor (Z.lor (Z.lor (at_bit 6 (forward_speed_set_by_server f))
                   (at_bit 4 (reverse_speed_set_by_server f)))
            (at_bit 2 (change_of_direction f))) 0x03).
Definition speed_fac_decode (raw : Z * Z) : VehicleSpeedFacilities :=
  mkSpeedFac (Facility.from_u8 (Z.shiftr raw.1 6)) (Facility.from_u8 (Z.shiftr raw.1 4))
    (Facility.from_u8 (Z.shiftr raw.1 2)) (Facility.from_u8 raw.1)
    (Facility.from_u8 (Z.shiftr raw.2 6)) (Facility.from_u8 (Z.shiftr raw.2 4))
    (Facility.from_u8 (Z.shiftr raw.2 2)).
Definition speed_fac_meets_minimum (f : VehicleSpeedFacilities) : bool :=
  Facility.is_supported (forward_speed f).

Record FunctionFacilities : Type := mkFunctionFac {
  ff_function : TimFunctionId.t;
  ff_facilities : list Z
}.
Definition facility (index : nat) (f : FunctionFacilities) : option Facility.t :=
  byte ← ff_facilities f !! (index / 4)%nat;
  Some (Facility.from_u8 (Z.shiftr byte (6 - 2 * Z.of_nat (index mod 4)))).
Definition as_aux_valve (f : FunctionFacilities) : option AuxValveFacilities :=
  aux_fac_decode <$> head (ff_facilities f).
Definition as_external_guidance (f : FunctionFacilities) : option ExternalGuidanceFacilities :=
  guidance_fac_decode <$> head (ff_facilities f).
Definition as_vehicle_speed (f : FunctionFacilities) : option VehicleSpeedFacilities :=
  match ff_facilities f with
  | first :: second :: _ => Some (speed_fac_decode (first, second))
  | _ => None
  end.

(** [FunctionsSupportResponse]: its list of functions. *)
Definition FunctionsSupportResponse : Type := list FunctionFacilities.
Definition support_encode (l : FunctionsSupportResponse) : list Z :=
  MSG_CODE_SUPPORT :: wrap 8 (Z.of_nat (length l))
  :: concat ((fun e => TimFunctionId.as_u8 (ff_function e)
                       :: wrap 8 (Z.of_nat (length (ff_facilities e))) :: ff_facilities e) <$> l).
(** The loop of [decode], on the bytes from the cursor on. *)
Fixpoint support_entries (count : nat) (data : list Z) : option FunctionsSupportResponse :=
  match count with
  | O => Some []
  | S count =>
      match data with
      | id :: len :: data =>
          function ← TimFunctionId.from_u8 id;
          if (length data <? Z.to_nat len)%nat then None
          else
            rest ← support_entries count (drop (Z.to_nat len) data);
            Some (mkFunctionFac function (take (Z.to_nat len) data) :: rest)
      | _ => None
      end
  end.
Definition support_decode (data : list Z) : option FunctionsSupportResponse :=
  match data with
  | d0 :: count :: data =>
      if negb (d0 =? MSG_CODE_SUPPORT) then None else support_entries (Z.to_nat count) data
  | _ => None
  end.
Definition support_get (function : TimFunctionId.t) (l : FunctionsSupportResponse)
    : option FunctionFacilities :=
  List.find (fun f => bool_decide (ff_function f = function)) l.
Fixpoint is_ascending (l : FunctionsSupportResponse) : bool :=
  match l with
  | a :: (b :: _) as r =>
      (TimFunctionId.as_u8 (ff_function a) <? TimFunctionId.as_u8 (ff_function b)) && is_ascending r
  | _ => true
  end.

(** ** The messages of [assignment.rs] *)

Definition MSG_CODE_ASSIGNMENT : Z := 0xF5.
Definition ASSIGNMENT_TIMEOUT_MS : Z := 1500.
Definition ASSIGNMENT_MIN_INTERVAL_MS : Z := 100.
Definition CLIENT_STATUS_TIMEOUT_MS : Z := 300.

Module RequestType.
Inductive t : Type := Release | Assign | Error | DontCare.
#[global] Instance eq_dec : EqDecision t.
Proof. solve_decision. Defined.
Definition from_u8 (raw : Z) : option t :=
  match Z.land raw 0x07 with
  | 0x0 => Some Release | 0x1 => Some Assign | 0x6 => Some Error | 0x7 => Some DontCare
  | _ => None
  end.
Definition as_u8 (r : t) : Z :=
  match r with Release => 0x0 | Assign => 0x1 | Error => 0x6 | DontCare => 0x7 end.
End RequestType.

Module AssignmentStatus.
Inductive t : Type :=
| NotAssignedToRequester | AssignedToRequester | NotSuccessful | Error | NotAvailable.
#[global] Instance eq_dec : EqDecision t.
Proof. solve_decision. Defined.
Definition from_u8 (raw : Z) : option t :=
  match Z.land raw 0x07 with
  | 0x0 => Some NotAssignedToRequester | 0x1 => Some AssignedToRequester
  | 0x5 => Some NotSuccessful | 0x6 => Some Error | 0x7 => Some NotAvailable
  | _ => None
  end.
Definition as_u8 (s : t) : Z :=
  match s with
  | NotAssignedToRequester => 0x0 | AssignedToRequester => 0x1 | NotSuccessful => 0x5
  | Error => 0x6 | NotAvailable => 0x7
  end.
End AssignmentStatus.

Module AssignmentReason.
Inductive t : Type :=
| AllClear | FunctionNotSupported | FunctionNotAvailable | UnknownRequestType
| ErrorInRequestMessage | ClientNotCertified | ServerBusy | NoMatchingFacility
| AnyOtherError | NotAvailable.
#[global] Instance eq_dec : EqDecision t.
Proof. solve_decision. Defined.
Definition from_u8 (raw : Z) : option t :=
  match Z.land raw 0x1F with
  | 0x00 => Some AllClear | 0x01 => Some FunctionNotSupported
  | 0x02 => Some FunctionNotAvailable | 0x03 => Some UnknownRequestType
  | 0x04 => Some ErrorInRequestMessage | 0x05 => Some ClientNotCertified
  | 0x06 => Some ServerBusy | 0x07 => Some NoMatchingFacility
  | 0x1E => Some AnyOtherError | 0x1F => Some NotAvailable
  | _ => None
  end.
Definition as_u8 (r : t) : Z :=
  match r with
  | AllClear => 0x00 | FunctionNotSupported => 0x01 | FunctionNotAvailable => 0x02
  | UnknownRequestType => 0x03 | ErrorInRequestMessage => 0x04 | ClientNotCertified => 0x05
  | ServerBusy => 0x06 | NoMatchingFacility => 0x07 | AnyOtherError => 0x1E
  | NotAvailable => 0x1F
  end.
End AssignmentReason.

(** [AssignmentRequest] and [AssignmentResponse]: their entries. *)
Definition AssignmentRequest : Type := list (TimFunctionId.t * RequestType.t).
Definition AssignmentResponse : Type :=
  list (TimFunctionId.t * AssignmentStatus.t * AssignmentReason.t).

Definition assignment_request_encode (l : AssignmentRequest) : list Z :=
  MSG_CODE_ASSIGNMENT :: wrap 8 (Z.of_nat (length l))
  :: concat ((fun '(id, request) =>
        [TimFunctionId.as_u8 id;
         Z.lor (wrap 8 (Z.shiftl (RequestType.as_u8 request) 5)) 0x1F]) <$> l).
Definition assignment_response_encode (l : AssignmentResponse) : list Z :=
  MSG_CODE_ASSIGNMENT :: wrap 8 (Z.of_nat (length l))
  :: concat ((fun '(id, status, reason) =>
        [TimFunctionId.as_u8 id;
         Z.lor (wrap 8 (Z.shiftl (AssignmentStatus.as_u8 status) 5))
           (Z.land (AssignmentReason.as_u8 reason) 0x1F)]) <$> l).
(** The loops of the two [decode]s, on the bytes from [data[2]] on; the length has been
    checked, so [None] there is an index out of range. *)
Section entries.
Context {A : Type} (entry : Z -> Z -> option A).
Fixpoint assignment_entries (count : nat) (data : list Z) : option (list A) :=
  match count with
  | O => Some []
  | S count =>
      match data with
      | id :: packed :: data =>
          e ← entry id packed; rest ← assignment_entries count data; Some (e :: rest)
      | _ => None
      end
  end.
Definition assignment_decode (data : list Z) : option (list A) :=
  match data with
  | d0 :: d1 :: rest =>
      let count := Z.to_nat d1 in
      if negb (d0 =? MSG_CODE_ASSIGNMENT) then None
      else if (length data <? 2 + count * 2)%nat then None
      else assignment_entries count rest
  | _ => None
  end.
End entries.
Definition request_entry (id packed : Z) : option (TimFunctionId.t * RequestType.t) :=
  id ← TimFunctionId.from_u8 id; request ← RequestType.from_u8 (Z.shiftr packed 5);
  Some (id, request).
Definition response_entry (id packed : Z)
    : option (TimFunctionId.t * AssignmentStatus.t * AssignmentReason.t) :=
  id ← TimFunctionId.from_u8 id; id ← TimFunctionId.from_u8 (TimFunctionId.as_u8 id);
  status ← AssignmentStatus.from_u8 (Z.shiftr packed 5);
  reason ← AssignmentReason.from_u8 (Z.land packed 0x1F);
  Some (id, status, reason).
Definition assignment_request_decode : list Z -> option AssignmentRequest :=
  assignment_decode request_entry.
Definition assignment_response_decode : list Z -> option AssignmentResponse :=
  assignment_decode response_entry.

(** ** The wire formats *)

Lemma function_id_back f :
  TimFunctionId.valid f -> TimFunctionId.from_u8 (TimFunctionId.as_u8 f) = Some f.
Proof.
  destruct f as [|n| | | | | |]; try done. cbn [TimFunctionId.valid TimFunctionId.as_u8]. intros Hn.
  assert (H : Forall (fun n => TimFunctionId.from_u8 n = Some (TimFunctionId.AuxValve n)) (seqZ 1 32))
    by (apply (bool_decide_unpack _); by vm_compute).
  rewrite Forall_forall in H. apply H, elem_of_seqZ. lia.
Qed.
Lemma counter_back c :
  HeartbeatCounter.valid c -> HeartbeatCounter.from_u8 (HeartbeatCounter.as_u8 c) = Some c.
Proof.
  destruct c as [n| | |]; try done. cbn. intros Hn. unfold HeartbeatCounter.from_u8.
  by rewrite (proj2 (Z.leb_le _ _)) by lia.
Qed.
Lemma request_entry_back id r :
  TimFunctionId.valid id ->
  request_entry (TimFunctionId.as_u8 id) (Z.lor (wrap 8 (Z.shiftl (RequestType.as_u8 r) 5)) 0x1F)
  = Some (id, r).
Proof. intros H. unfold request_entry. rewrite function_id_back by done. by destruct r. Qed.
Lemma response_entry_back id s r :
  TimFunctionId.valid id ->
  response_entry (TimFunctionId.as_u8 id)
    (Z.lor (wrap 8 (Z.shiftl (AssignmentStatus.as_u8 s) 5)) (Z.land (AssignmentReason.as_u8 r) 0x1F))
  = Some (id, s, r).
Proof.
  intros H. unfold response_entry. rewrite function_id_back by done. cbn [mbind option_bind].
  rewrite function_id_back by done. by destruct s, r.
Qed.
Lemma assignment_back {A} (entry : Z -> Z -> option A) (enc : A -> list Z) (l : list A) :
  (forall x, x ∈ l -> exists a b, enc x = [a; b] /\ entry a b = Some x) ->
  (length l <= 255)%nat ->
  assignment_decode entry
    (MSG_CODE_ASSIGNMENT :: wrap 8 (Z.of_nat (length l)) :: concat (enc <$> l)) = Some l.
Proof.
  intros He Hl. unfold assignment_decode. rewrite Z.eqb_refl. cbn [negb]. cbv zeta.
  unfold wrap. rewrite Z.mod_small, Nat2Z.id by lia.
  assert (Hc : length (concat (enc <$> l)) = (length l * 2)%nat).
  { clear Hl. induction l as [|x l IH]; [done|]. destruct (He x) as (a & b & Ee & _); [by left|].
    cbn. rewrite length_app, Ee, IH; [cbn; lia|]. intros y Hy. apply He. by right. }
  cbn [length]. rewrite Hc, (proj2 (Nat.ltb_ge _ _)) by lia. clear Hl Hc.
  induction l as [|x l IH]; [done|]. destruct (He x) as (a & b & Ee & En); [by left|].
  cbn. rewrite Ee. cbn. rewrite En. cbn. rewrite IH; [done|]. intros y Hy. apply He. by right.
Qed.
Lemma support_back l :
  Forall (fun f => TimFunctionId.valid (ff_function f) /\ (length (ff_facilities f) <= 255)%nat) l ->
  support_entries (length l)
    (concat ((fun e => TimFunctionId.as_u8 (ff_function e)
        :: wrap 8 (Z.of_nat (length (ff_facilities e))) :: ff_facilities e) <$> l)) = Some l.
Proof.
  induction 1 as [|[f b] l [Hf Hb] _ IH]; [done|]. cbn [ff_function ff_facilities] in Hf, Hb.
  cbn [length fmap list_fmap concat app ff_function ff_facilities support_entries].
  rewrite function_id_back by done. cbn [mbind option_bind].
  assert (E : Z.to_nat (wrap 8 (Z.of_nat (length b))) = length b)
    by (unfold wrap; rewrite Z.mod_small; lia). rewrite !E.
  rewrite (proj2 (Nat.ltb_ge _ _)) by (rewrite length_app; lia).
  rewrite drop_app_length, take_app_length, IH. done.
Qed.
Lemma speed_fac_back f : speed_fac_decode (speed_fac_encode f) = f.
Proof.
  assert (H : forall a b c d,
    let x := Z.lor (Z.lor (Z.lor (at_bit 6 a) (at_bit 4 b)) (at_bit 2 c)) (Facility.as_u8 d) in
    Facility.from_u8 (Z.shiftr x 6) = a /\ Facility.from_u8 (Z.shiftr x 4) = b
    /\ Facility.from_u8 (Z.shiftr x 2) = c /\ Facility.from_u8 x = d) by (by intros [] [] [] []).
  destruct f as [a b c d e f g]. unfold speed_fac_decode, speed_fac_encode. cbn [fst snd].
  destruct (H a b c d) as (H1 & H2 & H3 & H4).
  destruct (H e f g Facility.NotDefinedAtBuild) as (H5 & H6 & H7 & _).
  cbv zeta in *. change (Facility.as_u8 Facility.NotDefinedAtBuild) with 0x03 in H5, H6, H7.
  cbn [forward_speed reverse_speed start_motion stop_motion forward_speed_set_by_server
    reverse_speed_set_by_server change_of_direction].
  by rewrite H1, H2, H3, H4, H5, H6, H7.
Qed.
(** what either side of a TIM couple sends is read back as it was: server and client status
    with every heartbeat counter, assignment requests and responses of up to 255 functions,
    support responses with their facility blocks, and each kind of facility block. *)
Theorem tim_codecs_roundtrip :
  (forall s, HeartbeatCounter.valid (ts_counter s) ->
     server_status_decode (server_status_encode s) = Some s)
  /\ (forall s, HeartbeatCounter.valid (tcs_counter s) ->
     tim_client_status_decode (tim_client_status_encode s) = Some s)
  /\ (forall l, Forall (fun e => TimFunctionId.valid e.1) l -> (length l <= 255)%nat ->
     assignment_request_decode (assignment_request_encode l) = Some l)
  /\ (forall l, Forall (fun e => TimFunctionId.valid e.1.1) l -> (length l <= 255)%nat ->
     assignment_response_decode (assignment_response_encode l) = Some l)
  /\ (forall l, Forall (fun f => TimFunctionId.valid (ff_function f)
                                 /\ (length (ff_facilities f) <= 255)%nat) l ->
     (length l <= 255)%nat -> support_decode (support_encode l) = Some l)
  /\ (forall f, aux_fac_decode (aux_fac_encode f) = f)
  /\ (forall f, guidance_fac_decode (guidance_fac_encode f) = f)
  /\ (forall f, speed_fac_decode (speed_fac_encode f) = f).
Proof.
  split_and!.
  - intros [c m s a o] H. cbn in H. unfold server_status_decode, server_status_encode. cbn [ts_counter].
    change (MSG_CODE_SERVER_STATUS =? MSG_CODE_SERVER_STATUS) with true. cbn [negb].
    rewrite counter_back by done. cbn [mbind option_bind]. destruct m, s; destruct a, o; done.
  - intros [c s] H. cbn in H. unfold tim_client_status_decode, tim_client_status_encode.
    cbn [tcs_counter]. rewrite Z.eqb_refl. cbn [negb]. rewrite counter_back by done. by destruct s.
  - intros l H Hl. rewrite Forall_forall in H. apply assignment_back; [|done]. intros [id r] Hx.
    do 2 eexists. split; [done|]. apply request_entry_back. by apply (H (id, r)).
  - intros l H Hl. rewrite Forall_forall in H. apply assignment_back; [|done]. intros [[id s] r] Hx.
    do 2 eexists. split; [done|]. apply response_entry_back. by apply (H (id, s, r)).
  - intros l H Hl. unfold support_decode, support_encode. rewrite Z.eqb_refl. cbn [negb].
    unfold wrap at 1. rewrite Z.mod_small, Nat2Z.id by lia. by apply support_back.
  - intros [[] []]; done.
  - intros [[]]; done.
  - apply speed_fac_back.
Qed.
Lemma tim_codecs_roundtrip_witness :
  assignment_request_decode (assignment_request_encode
    [(TimFunctionId.AuxValve 7, RequestType.Assign); (TimFunctionId.RearHitch, RequestType.Release)])
  = Some [(TimFunctionId.AuxValve 7, RequestType.Assign); (TimFunctionId.RearHitch, RequestType.Release)].
Proof.
  destruct tim_codecs_roundtrip as (_ & _ & H & _). apply H; [|cbn; lia].
  repeat constructor; cbn; lia.
Defined.
