(* ===== verification/TimAssignment.v ===== *)
(** Tractor implement management, function assignment: the model of the [AssignmentTable] of
    [src/isobus/tim/assignment.rs], and that it hands every function to one live, authenticated
    client at a time. *)
From S2P Require Export TimTypes.

Record AssignmentTable : Type := mkTable {
  at_owners : list (TimFunctionId.t * Z);
  at_supported : list TimFunctionId.t;
  at_busy : bool;
  at_liveness : list (Z * Z);
  at_authenticated : list Z
}.
Definition at_with_owners (x : list (TimFunctionId.t * Z)) (t : AssignmentTable) : AssignmentTable :=
  mkTable x (at_supported t) (at_busy t) (at_liveness t) (at_authenticated t).
Definition at_with_busy (x : bool) (t : AssignmentTable) : AssignmentTable :=
  mkTable (at_owners t) (at_supported t) x (at_liveness t) (at_authenticated t).
Definition at_with_liveness (x : list (Z * Z)) (t : AssignmentTable) : AssignmentTable :=
  mkTable (at_owners t) (at_supported t) (at_busy t) x (at_authenticated t).
Definition at_with_authenticated (x : list Z) (t : AssignmentTable) : AssignmentTable :=
  mkTable (at_owners t) (at_supported t) (at_busy t) (at_liveness t) x.

Definition AssignmentTable_new (supported : list TimFunctionId.t) : AssignmentTable :=
  mkTable [] supported false [] [].

(** [retain(|(_, a)| *a != client)] on the owners and on the watchdogs. *)
Definition release_all (client : Z) (t : AssignmentTable) : AssignmentTable :=
  at_with_owners (filter (fun e => e.2 <> client) (at_owners t)) t.
Definition forget_client (client : Z) (t : AssignmentTable) : AssignmentTable :=
  at_with_liveness (filter (fun e => e.1 <> client) (at_liveness t)) t.
Fixpoint reset_age (client : Z) (l : list (Z * Z)) : list (Z * Z) :=
  match l with
  | [] => [(client, 0)]
  | e :: l => if e.1 =? client then (e.1, 0) :: l else e :: reset_age client l
  end.
Definition note_client_status (client : Z) (t : AssignmentTable) : AssignmentTable :=
  at_with_liveness (reset_age client (at_liveness t)) t.
Definition note_client_heartbeat_error (client : Z) (t : AssignmentTable) : AssignmentTable :=
  forget_client client (release_all client t).
Definition note_client_heartbeat (client : Z) (counter previous : HeartbeatCounter.t)
    (t : AssignmentTable) : AssignmentTable * bool :=
  if HeartbeatCounter.is_severe_comms_error counter || negb (HeartbeatCounter.follows counter previous)
  then (note_client_heartbeat_error client t, true)
  else if HeartbeatCounter.is_graceful_shutdown_edge counter previous
  then (forget_client client (release_all client t), true)
  else (note_client_status client t, false).
(** The clients whose watchdog ran out, and the loop that drops them. *)
Definition timed_out (l : list (Z * Z)) : list Z :=
  (filter (fun e => CLIENT_STATUS_TIMEOUT_MS <= e.2) l).*1.
Definition table_tick (elapsed_ms : Z) (t : AssignmentTable) : AssignmentTable * list Z :=
  let t := at_with_liveness ((fun e => (e.1, sat_add 32 e.2 elapsed_ms)) <$> at_liveness t) t in
  let released := timed_out (at_liveness t) in
  (foldl (fun t client => forget_client client (release_all client t)) t released, released).
Definition is_authenticated (client : Z) (t : AssignmentTable) : bool :=
  bool_decide (client ∈ at_authenticated t).
Definition set_authenticated (client : Z) (authenticated : bool) (t : AssignmentTable)
    : AssignmentTable :=
  if authenticated then
    if is_authenticated client t then t
    else at_with_authenticated (at_authenticated t ++ [client]) t
  else
    release_all client
      (at_with_authenticated (filter (fun a => a <> client) (at_authenticated t)) t).
Definition owner (function : TimFunctionId.t) (t : AssignmentTable) : option Z :=
  snd <$> List.find (fun e => bool_decide (e.1 = function)) (at_owners t).
Definition is_assigned_to (function : TimFunctionId.t) (client : Z) (t : AssignmentTable) : bool :=
  bool_decide (owner function t = Some client).
(** One entry of a request. *)
Definition apply_entry (client : Z) (function : TimFunctionId.t) (request : RequestType.t)
    (t : AssignmentTable) : AssignmentTable * (AssignmentStatus.t * AssignmentReason.t) :=
  if at_busy t then (t, (AssignmentStatus.NotSuccessful, AssignmentReason.ServerBusy))
  else if negb (bool_decide (function ∈ at_supported t)) then
    (t, (AssignmentStatus.NotSuccessful, AssignmentReason.FunctionNotSupported))
  else if negb (is_authenticated client t) && negb (bool_decide (request = RequestType.Release)) then
    (t, (AssignmentStatus.NotSuccessful, AssignmentReason.ClientNotCertified))
  else
    match request with
    | RequestType.Assign =>
        match owner function t with
        | Some a =>
            if a =? client then (t, (AssignmentStatus.AssignedToRequester, AssignmentReason.AllClear))
            else (t, (AssignmentStatus.NotSuccessful, AssignmentReason.FunctionNotAvailable))
        | None =>
            (note_client_status client (at_with_owners (at_owners t ++ [(function, client)]) t),
             (AssignmentStatus.AssignedToRequester, AssignmentReason.AllClear))
        end
    | RequestType.Release =>
        (if is_assigned_to function client t
         then at_with_owners (filter (fun e => e.1 <> function) (at_owners t)) t
         else t,
         (AssignmentStatus.NotAssignedToRequester, AssignmentReason.AllClear))
    | RequestType.DontCare =>
        (t, (if is_assigned_to function client t then AssignmentStatus.AssignedToRequester
             else AssignmentStatus.NotAssignedToRequester, AssignmentReason.AllClear))
    | RequestType.Error =>
        (t, (AssignmentStatus.NotSuccessful, AssignmentReason.UnknownRequestType))
    end.
Fixpoint apply_request (request : AssignmentRequest) (client : Z) (t : AssignmentTable)
    : AssignmentTable * AssignmentResponse :=
  match request with
  | [] => (t, [])
  | (function, request_type) :: request =>
      let '(t, (status, reason)) := apply_entry client function request_type t in
      let '(t, entries) := apply_request request client t in
      (t, (function, status, reason) :: entries)
  end.

(** ** Every call *)

Inductive TableCall : Type :=
| TRequest (client : Z) (request : AssignmentRequest)
| TStatus (client : Z)
| THeartbeat (client : Z) (counter previous : HeartbeatCounter.t)
| THeartbeatError (client : Z)
| TTick (elapsed_ms : Z)
| TAuthenticated (client : Z) (authenticated : bool)
| TBusy (busy : bool)
| TReleaseAll (client : Z).
Definition table_call (k : TableCall) (t : AssignmentTable) : AssignmentTable :=
  match k with
  | TRequest client request => (apply_request request client t).1
  | TStatus client => note_client_status client t
  | THeartbeat client counter previous => (note_client_heartbeat client counter previous t).1
  | THeartbeatError client => note_client_heartbeat_error client t
  | TTick elapsed_ms => (table_tick elapsed_ms t).1
  | TAuthenticated client authenticated => set_authenticated client authenticated t
  | TBusy busy => at_with_busy busy t
  | TReleaseAll client => release_all client t
  end.
(** Time is measured in a [u32]. *)
Definition table_call_ok (k : TableCall) : Prop :=
  match k with TTick elapsed_ms => 0 <= elapsed_ms | _ => True end.

(** What holds of the table between calls. *)
Record table_inv (t : AssignmentTable) : Prop := {
  ti_functions : NoDup (at_owners t).*1;
  ti_clients : NoDup (at_liveness t).*1;
  ti_ages : Forall (fun e => 0 <= e.2 < CLIENT_STATUS_TIMEOUT_MS) (at_liveness t);
  ti_owners : Forall (fun e => e.1 ∈ at_supported t /\ e.2 ∈ at_authenticated t
                               /\ e.2 ∈ (at_liveness t).*1) (at_owners t)
}.

(** ** The owner of a function *)

Lemma owner_spec f c t : NoDup (at_owners t).*1 -> owner f t = Some c <-> (f, c) ∈ at_owners t.
Proof.
  unfold owner. induction (at_owners t) as [|[g a] l IH]; intros Hn; [by split; [|intros H; inv H]|].
  apply NoDup_cons in Hn as [Hg Hn]. cbn. case_bool_decide as E; cbn in E.
  - subst g. cbn. rewrite elem_of_cons. split; [intros [= ->]; by left|].
    intros [[= ->]|H]; [done|]. exfalso. apply Hg, list_elem_of_fmap. by exists (f, c).
  - rewrite IH by done. rewrite elem_of_cons. split; [by right|]. by intros [[= -> ->]|H].
Qed.
Lemma owner_None f t : owner f t = None <-> f ∉ (at_owners t).*1.
Proof.
  unfold owner. induction (at_owners t) as [|[g a] l IH]; [split; [intros _; apply not_elem_of_nil|done]|].
  cbn. rewrite not_elem_of_cons. case_bool_decide as E; cbn in E.
  - subst g. split; [done|]. by intros [].
  - rewrite IH. naive_solver.
Qed.
Lemma elem_of_keys {A B} (l : list (A * B)) k : k ∈ l.*1 <-> exists v, (k, v) ∈ l.
Proof.
  rewrite list_elem_of_fmap. split.
  - intros ([k' v] & -> & H). by exists v.
  - intros (v & H). by exists (k, v).
Qed.

(** Dropping a list of clients from the table, at once. *)
Definition drop_clients (l : list Z) (t : AssignmentTable) : AssignmentTable :=
  mkTable (filter (fun e => e.2 ∉ l) (at_owners t)) (at_supported t) (at_busy t)
    (filter (fun e => e.1 ∉ l) (at_liveness t)) (at_authenticated t).
Lemma filter_all {A} (P : A -> Prop) `{forall x, Decision (P x)} (l : list A) : (forall x, P x) -> filter P l = l.
Proof. intros HP. induction l as [|x l IH]; [done|]. rewrite filter_cons_True by done. by rewrite IH. Qed.
Lemma drop_clients_fold l t :
  foldl (fun t client => forget_client client (release_all client t)) t l = drop_clients l t.
Proof.
  revert t. induction l as [|c l IH]; intros t.
  - unfold drop_clients. rewrite !filter_all by (intros; apply not_elem_of_nil). by destruct t.
  - cbn [foldl]. rewrite IH. unfold drop_clients. cbn. f_equal; rewrite list_filter_filter;
      apply list_filter_iff; intros e; rewrite not_elem_of_cons; tauto.
Qed.
Lemma drop_one c t : forget_client c (release_all c t) = drop_clients [c] t.
Proof. apply (drop_clients_fold [c]). Qed.
Lemma tick_drops ms t :
  (table_tick ms t).1
  = drop_clients (table_tick ms t).2
      (at_with_liveness ((fun e => (e.1, sat_add 32 e.2 ms)) <$> at_liveness t) t).
Proof. apply drop_clients_fold. Qed.

Lemma reset_age_keys c l : (reset_age c l).*1 = l.*1 ++ (if bool_decide (c ∈ l.*1) then [] else [c]).
Proof.
  induction l as [|[a n] l IH]; [done|]. cbn. destruct (Z.eqb_spec a c) as [->|Hn].
  - rewrite bool_decide_true by by left. by rewrite app_nil_r.
  - cbn. rewrite IH. f_equal. f_equal. case_bool_decide; case_bool_decide as E; try done.
    + exfalso. apply E. by right.
    + apply elem_of_cons in E as [->|?]; done.
Qed.
Lemma reset_age_elem c l a n : (a, n) ∈ reset_age c l -> (a, n) ∈ l \/ (a = c /\ n = 0).
Proof.
  induction l as [|[b m] l IH]; cbn.
  - intros [[= -> ->]|H]%elem_of_cons; [by right|by apply not_elem_of_nil in H].
  - destruct (Z.eqb_spec b c) as [->|Hn]; cbn; rewrite !elem_of_cons.
    + intros [[= -> ->]|H]; [by right|by left; right].
    + intros [[= -> ->]|H]; [by left; left|]. apply IH in H as [H|H]; [by left; right|by right].
Qed.
Lemma reset_age_other c l a n : a <> c -> (a, n) ∈ l -> (a, n) ∈ reset_age c l.
Proof.
  intros Ha. induction l as [|[b m] l IH]; cbn; [by intros H%not_elem_of_nil|].
  destruct (Z.eqb_spec b c) as [->|Hn]; cbn; rewrite !elem_of_cons; [|naive_solver].
  intros [[= -> ->]|H]; [done|by right].
Qed.

(** ** Every call keeps the invariant *)

Lemma inv_status c t : table_inv t -> table_inv (note_client_status c t).
Proof.
  intros [H1 H2 H3 H4]. split; cbn.
  - done.
  - rewrite reset_age_keys. case_bool_decide as E; [by rewrite app_nil_r|].
    apply NoDup_app. split_and!; [done| |apply NoDup_singleton].
    intros x Hx ->%list_elem_of_singleton. done.
  - apply Forall_forall. intros [a n] [H|[-> ->]]%reset_age_elem; [|by cbn; unfold CLIENT_STATUS_TIMEOUT_MS].
    rewrite Forall_forall in H3. by apply (H3 (a, n)).
  - eapply Forall_impl; [exact H4|]. intros e (Ha & Hb & Hc). split_and!; [done..|].
    rewrite reset_age_keys. apply elem_of_app. by left.
Qed.
Lemma inv_drop l t :
  (forall e, e ∈ at_liveness t -> e.1 ∉ l -> 0 <= e.2 < CLIENT_STATUS_TIMEOUT_MS) ->
  NoDup (at_owners t).*1 -> NoDup (at_liveness t).*1 ->
  Forall (fun e => e.1 ∈ at_supported t /\ e.2 ∈ at_authenticated t
                   /\ e.2 ∈ (at_liveness t).*1) (at_owners t) ->
  table_inv (drop_clients l t).
Proof.
  intros H3 H1 H2 H4. split; cbn.
  - by apply NoDup_fmap_filter.
  - by apply NoDup_fmap_filter.
  - apply Forall_forall. intros e [Hn He]%list_elem_of_filter. by apply H3.
  - apply Forall_forall. intros e [Hn He]%list_elem_of_filter. rewrite Forall_forall in H4.
    destruct (H4 e He) as (Ha & Hb & (n & Hc)%elem_of_keys). split_and!; [done..|].
    apply elem_of_keys. exists n. by apply list_elem_of_filter.
Qed.
Lemma inv_drop_one c t : table_inv t -> table_inv (drop_clients [c] t).
Proof.
  intros [H1 H2 H3 H4]. apply inv_drop; [|done..]. intros e He _. rewrite Forall_forall in H3. by apply H3.
Qed.
Lemma inv_owners P `{forall e, Decision (P e)} t :
  table_inv t -> table_inv (at_with_owners (filter P (at_owners t)) t).
Proof.
  intros [H1 H2 H3 H4]. split; cbn; [by apply NoDup_fmap_filter|done|done|].
  apply Forall_forall. intros e [_ He]%list_elem_of_filter. rewrite Forall_forall in H4. by apply H4.
Qed.
Lemma inv_tick ms t : 0 <= ms -> table_inv t -> table_inv (table_tick ms t).1.
Proof.
  intros Hms [H1 H2 H3 H4]. rewrite tick_drops. apply inv_drop.
  - cbn. intros e He Hn. apply list_elem_of_fmap in He as ([a n] & -> & Ha). cbn in *.
    rewrite Forall_forall in H3. specialize (H3 _ Ha). cbn in H3. split; [unfold sat_add; lia|].
    apply Z.nle_gt. intros Hge. apply Hn. apply elem_of_keys. eexists. apply list_elem_of_filter.
    split; [exact Hge|]. apply list_elem_of_fmap. by exists (a, n).
  - done.
  - cbn. rewrite <- list_fmap_compose. exact H2.
  - cbn. rewrite <- list_fmap_compose. exact H4.
Qed.
Lemma inv_authenticated c b t : table_inv t -> table_inv (set_authenticated c b t).
Proof.
  intros Hi. unfold set_authenticated. destruct b.
  - destruct (is_authenticated c t); [done|]. destruct Hi as [H1 H2 H3 H4]. split; cbn; [done..|].
    eapply Forall_impl; [exact H4|]. intros e (Ha & Hb & Hc). split_and!; [done| |done].
    apply elem_of_app. by left.
  - destruct Hi as [H1 H2 H3 H4]. split; cbn; [by apply NoDup_fmap_filter|done|done|].
    apply Forall_forall. intros e [Hn He]%list_elem_of_filter. rewrite Forall_forall in H4.
    destruct (H4 e He) as (Ha & Hb & Hc). split_and!; [done| |done]. by apply list_elem_of_filter.
Qed.
Lemma inv_apply_entry c f r t : table_inv t -> table_inv (apply_entry c f r t).1.
Proof.
  intros Hi. unfold apply_entry. destruct (at_busy t); [done|].
  case_bool_decide as Hs; cbn [negb]; [|done].
  destruct (negb (is_authenticated c t) && _) eqn:Ea; [done|].
  destruct r; cbn [fst]; [|destruct (owner f t) as [a|] eqn:Eo|done|done].
  - destruct (is_assigned_to f c t); [by apply inv_owners|done].
  - by destruct (a =? c).
  - rewrite andb_true_r in Ea. apply negb_false_iff, bool_decide_eq_true in Ea.
    apply owner_None in Eo. destruct Hi as [H1 H2 H3 H4].
    assert (Hk : forall x, x ∈ (at_liveness t).*1 -> x ∈ (reset_age c (at_liveness t)).*1)
      by (intros x Hx; rewrite reset_age_keys; apply elem_of_app; by left).
    destruct (inv_status c t) as [_ J2 J3 _]; [done|]. split; cbn; [| exact J2 | exact J3 |].
    + rewrite fmap_app. apply NoDup_app. split_and!; [done| |apply NoDup_singleton].
      intros x Hx ->%list_elem_of_singleton. done.
    + apply Forall_app. split.
      * eapply Forall_impl; [exact H4|]. intros e (? & ? & ?). split_and!; auto.
      * apply Forall_singleton. cbn. split_and!; [done..|]. rewrite reset_age_keys. apply elem_of_app.
        case_bool_decide; [by left|right; by left].
Qed.
Lemma inv_apply r c t : table_inv t -> table_inv (apply_request r c t).1.
Proof.
  revert t. induction r as [|[f q] r IH]; intros t Hi; [done|]. cbn.
  assert (H := inv_apply_entry c f q t Hi). destruct (apply_entry c f q t) as [t' [s e]]. cbn in H.
  specialize (IH t' H). by destruct (apply_request r c t').
Qed.
Lemma inv_heartbeat c n p t : table_inv t -> table_inv (note_client_heartbeat c n p t).1.
Proof.
  intros Hi. unfold note_client_heartbeat, note_client_heartbeat_error.
  destruct (_ || _); [cbn [fst]; rewrite drop_one; by apply inv_drop_one|].
  destruct (HeartbeatCounter.is_graceful_shutdown_edge n p); cbn [fst];
    [rewrite drop_one; by apply inv_drop_one|by apply inv_status].
Qed.
Lemma table_inv_call k t : table_call_ok k -> table_inv t -> table_inv (table_call k t).
Proof.
  intros Hk Hi. destruct k; cbn [table_call].
  - by apply inv_apply.
  - by apply inv_status.
  - by apply inv_heartbeat.
  - unfold note_client_heartbeat_error. rewrite drop_one. by apply inv_drop_one.
  - by apply inv_tick.
  - by apply inv_authenticated.
  - by destruct Hi.
  - by apply inv_owners.
Qed.

Inductive table_reachable (supported : list TimFunctionId.t) : AssignmentTable -> Prop :=
| table_reach_new : table_reachable supported (AssignmentTable_new supported)
| table_reach_call k t :
    table_reachable supported t -> table_call_ok k -> table_reachable supported (table_call k t).
Lemma table_reachable_inv supported t : table_reachable supported t -> table_inv t.
Proof.
  induction 1; [|by apply table_inv_call]. split; cbn; by constructor.
Qed.

(** ** What a call does to the owner of a function *)

(** How [client], the owner of [f], can lose it. *)
Definition gives_up (client : Z) (f : TimFunctionId.t) (k : TableCall) (t : AssignmentTable) : Prop :=
  match k with
  | TRequest c r => c = client /\ (f, RequestType.Release) ∈ r
  | THeartbeat c counter previous =>
      c = client /\ (note_client_heartbeat c counter previous t).2 = true
  | THeartbeatError c | TReleaseAll c => c = client
  | TAuthenticated c b => c = client /\ b = false
  | TTick ms => exists age, (client, age) ∈ at_liveness t /\ CLIENT_STATUS_TIMEOUT_MS <= age + ms
  | TStatus _ | TBusy _ => False
  end.
(** How [client] can get it. *)
Definition acquires (client : Z) (f : TimFunctionId.t) (k : TableCall) (t : AssignmentTable) : Prop :=
  exists r, k = TRequest client r /\ (f, RequestType.Assign) ∈ r /\ at_busy t = false
    /\ is_authenticated client t = true /\ f ∈ at_supported t.
Lemma owner_filter P `{forall e, Decision (P e)} f c t t' :
  at_owners t' = filter P (at_owners t) -> NoDup (at_owners t).*1 ->
  owner f t' = Some c <-> owner f t = Some c /\ P (f, c).
Proof.
  intros E Hn. rewrite (owner_spec f c t'), (owner_spec f c t); [|done|].
  - rewrite E, list_elem_of_filter. tauto.
  - rewrite E. by apply NoDup_fmap_filter.
Qed.
Lemma owner_filtered P `{forall e, Decision (P e)} f c t t' :
  at_owners t' = filter P (at_owners t) -> NoDup (at_owners t).*1 -> owner f t = Some c ->
  owner f t' = if decide (P (f, c)) then Some c else None.
Proof.
  intros E Hn Ho. destruct (decide _) as [HP|HP].
  - by apply (owner_filter P f c t).
  - destruct (owner f t') as [a|] eqn:E'; [|done].
    apply (owner_filter P f a t t' E Hn) in E' as [E' HPa]. rewrite Ho in E'. by simplify_eq.
Qed.
Lemma owner_retain P `{forall e, Decision (P e)} f c t :
  NoDup (at_owners t).*1 -> owner f t = Some c ->
  owner f (at_with_owners (filter P (at_owners t)) t) = if decide (P (f, c)) then Some c else None.
Proof. intros Hn Ho. by apply (owner_filtered P f c t). Qed.
Lemma owner_retain_back P `{forall e, Decision (P e)} f c t :
  NoDup (at_owners t).*1 -> owner f (at_with_owners (filter P (at_owners t)) t) = Some c ->
  owner f t = Some c.
Proof. intros Hn Ho. by apply (owner_filter P f c t) in Ho as [? _]. Qed.
Lemma apply_entry_rest c f r t :
  at_busy (apply_entry c f r t).1 = at_busy t /\ at_supported (apply_entry c f r t).1 = at_supported t
  /\ at_authenticated (apply_entry c f r t).1 = at_authenticated t.
Proof.
  unfold apply_entry. destruct (at_busy t) eqn:Eb; [done|].
  case_bool_decide; cbn [negb]; [|done]. destruct (_ && _); [done|].
  destruct r; cbn [fst]; [destruct (is_assigned_to f c t)|destruct (owner f t) as [a|]; [destruct (a =? c)|]
    |..]; done.
Qed.
Lemma owner_push f g c a t t' :
  at_owners t' = at_owners t ++ [(g, a)] -> owner f t' = Some c ->
  owner f t = Some c \/ (owner f t = None /\ f = g /\ c = a).
Proof.
  unfold owner. intros ->. induction (at_owners t) as [|[h x] l IH]; cbn in *; intros H.
  - case_bool_decide as E; cbn in *; [|done]. right. by simplify_eq.
  - case_bool_decide as E; cbn in *; [by left|by apply IH].
Qed.
Lemma owner_push_keeps f g c a t t' :
  at_owners t' = at_owners t ++ [(g, a)] -> owner f t = Some c -> owner f t' = Some c.
Proof.
  unfold owner. intros ->. induction (at_owners t) as [|[h x] l IH]; cbn in *; intros H; [done|].
  case_bool_decide as E; cbn in *; [done|by apply IH].
Qed.
(** One entry of a request of [c]. *)
Lemma entry_keeps c f a g r t :
  table_inv t -> owner f t = Some a ->
  owner f (apply_entry c g r t).1 = Some a
  \/ (c = a /\ g = f /\ r = RequestType.Release /\ owner f (apply_entry c g r t).1 = None).
Proof.
  intros Hi Ho. unfold apply_entry. destruct (at_busy t); [by left|].
  case_bool_decide as Hs; cbn [negb]; [|by left]. destruct (_ && _); [by left|].
  destruct r; cbn [fst]; [|destruct (owner g t) as [b|]; [destruct (b =? c)|]; try by left|by left|by left].
  - unfold is_assigned_to. case_bool_decide as Ea; [|by left].
    rewrite (owner_retain (fun e => e.1 <> g) f a t (ti_functions _ Hi) Ho). cbn [fst].
    destruct (decide _) as [Hn|Hn]; [by left|]. apply dec_stable in Hn as <-.
    right. rewrite Ho in Ea. by simplify_eq.
  - left. by apply (owner_push_keeps f g a c t).
Qed.
Lemma entry_gives c f a g r t :
  table_inv t -> owner f t <> Some a -> owner f (apply_entry c g r t).1 = Some a ->
  c = a /\ g = f /\ r = RequestType.Assign /\ at_busy t = false /\ is_authenticated a t = true
  /\ f ∈ at_supported t.
Proof.
  intros Hi Hno H. unfold apply_entry in H. destruct (at_busy t) eqn:Eb; [done|].
  case_bool_decide as Hs; cbn [negb] in H; [|done].
  destruct (negb (is_authenticated c t) && _) eqn:Ea; [done|].
  destruct r; cbn [fst] in H; [|destruct (owner g t) as [b|] eqn:Eo; [by destruct (b =? c)|]|done|done].
  - destruct (is_assigned_to g c t); [|done].
    by apply (owner_retain_back (fun e => e.1 <> g)) in H; [|apply Hi].
  - rewrite andb_true_r in Ea. apply negb_false_iff in Ea.
    cbn [fst] in H. eapply (owner_push f g a c t) in H as [H|(_ & -> & ->)]; [done| |done].
    by split_and!.
Qed.
Lemma request_cons c f q r t :
  (apply_request ((f, q) :: r) c t).1 = (apply_request r c (apply_entry c f q t).1).1.
Proof.
  cbn. destruct (apply_entry c f q t) as [t' [s e]]. cbn. by destruct (apply_request r c t').
Qed.
Lemma request_gives c f a r t :
  table_inv t -> owner f t <> Some a -> owner f (apply_request r c t).1 = Some a ->
  c = a /\ (f, RequestType.Assign) ∈ r /\ at_busy t = false /\ is_authenticated a t = true
  /\ f ∈ at_supported t.
Proof.
  revert t. induction r as [|[g q] r IH]; intros t Hi Hno H; [done|]. rewrite request_cons in H.
  destruct (apply_entry_rest c g q t) as (Eb & Es & Ea).
  destruct (decide (owner f (apply_entry c g q t).1 = Some a)) as [E|E].
  - destruct (entry_gives c f a g q t Hi Hno E) as (-> & -> & -> & ? & ? & ?). split_and!; try done. by left.
  - destruct (IH _ (inv_apply_entry c g q t Hi) E H) as (-> & Hin & Hb & Hau & Hs).
    unfold is_authenticated in Hau |- *. rewrite Eb in Hb. rewrite Ea in Hau. rewrite Es in Hs.
    split_and!; try done. by right.
Qed.
Lemma request_keeps c f a r t :
  table_inv t -> owner f t = Some a ->
  owner f (apply_request r c t).1 = Some a
  \/ (c = a /\ (f, RequestType.Release) ∈ r /\ owner f (apply_request r c t).1 = None).
Proof.
  revert t. induction r as [|[g q] r IH]; intros t Hi Ho; [by left|]. rewrite request_cons.
  assert (Hi' := inv_apply_entry c g q t Hi).
  destruct (entry_keeps c f a g q t Hi Ho) as [E|(-> & -> & -> & E)].
  - destruct (IH _ Hi' E) as [?|(-> & ? & ?)]; [by left|]. right. split_and!; try done. by right.
  - destruct (owner f (apply_request r a _).1) as [b|] eqn:E2; [|right; split_and!; try done; by left].
    left. destruct (decide (b = a)) as [->|Hb]; [done|]. exfalso.
    assert (Hno : owner f (apply_entry a f RequestType.Release t).1 <> Some b) by by rewrite E.
    destruct (request_gives a f b r _ Hi' Hno E2) as (-> & _). done.
Qed.
(** Any call. *)
Lemma owner_drop f l t c :
  NoDup (at_owners t).*1 -> owner f t = Some c ->
  owner f (drop_clients l t) = if decide (c ∉ l) then Some c else None.
Proof. intros Hn Ho. by rewrite (owner_filtered (fun e => e.2 ∉ l) f c t). Qed.
Lemma owner_drop_back f l t c :
  NoDup (at_owners t).*1 -> owner f (drop_clients l t) = Some c -> owner f t = Some c.
Proof. intros Hn Ho. by apply (owner_filter (fun e => e.2 ∉ l) f c t) in Ho as [? _]. Qed.
Lemma heartbeat_owner c n p t :
  (note_client_heartbeat c n p t).1 = drop_clients [c] t /\ (note_client_heartbeat c n p t).2 = true
  \/ (note_client_heartbeat c n p t).1 = note_client_status c t.
Proof.
  unfold note_client_heartbeat, note_client_heartbeat_error. rewrite !drop_one.
  destruct (_ || _); [by left|]. destruct (HeartbeatCounter.is_graceful_shutdown_edge n p); auto.
Qed.
Lemma call_keeps k f c t :
  table_call_ok k -> table_inv t -> owner f t = Some c ->
  owner f (table_call k t) = Some c \/ (gives_up c f k t /\ owner f (table_call k t) = None).
Proof.
  intros Hk Hi Ho. assert (Hn := ti_functions _ Hi). assert (Hd := fun l => owner_drop f l t c Hn Ho).
  destruct k as [a r|a|a n p|a|ms|a b|b|a]; cbn [table_call gives_up].
  - destruct (request_keeps a f c r t Hi Ho) as [?|(-> & ? & ?)]; auto.
  - by left.
  - destruct (heartbeat_owner a n p t) as [[E1 E2]|E]; [|rewrite E; by left].
    rewrite E1, Hd. destruct (decide _) as [H|H]; [by left|right]. apply dec_stable in H.
    by apply list_elem_of_singleton in H as ->.
  - unfold note_client_heartbeat_error. rewrite drop_one, Hd.
    destruct (decide _) as [H|H]; [by left|right]. apply dec_stable in H.
    by apply list_elem_of_singleton in H as ->.
  - rewrite tick_drops. rewrite (owner_drop f _ _ c) by done.
    destruct (decide _) as [H|H]; [by left|right]. apply dec_stable in H. split; [|done].
    apply elem_of_keys in H as (age & [Hge Hin]%list_elem_of_filter). cbn [snd] in Hge.
    apply list_elem_of_fmap in Hin as ([x y] & [= -> ->] & Hin). exists y. split; [done|].
    unfold sat_add in Hge. cbn [snd] in Hge. lia.
  - unfold set_authenticated. destruct b; [by destruct (is_authenticated a t); left|].
    unfold release_all. rewrite (owner_retain (fun e => e.2 <> a) f c) by done. cbn [snd].
    destruct (decide _) as [H|H]; [by left|right]. by apply dec_stable in H.
  - by left.
  - unfold release_all. rewrite (owner_retain (fun e => e.2 <> a) f c) by done. cbn [snd].
    destruct (decide _) as [H|H]; [by left|right]. by apply dec_stable in H.
Qed.
Lemma call_gives k f c t :
  table_inv t -> owner f t <> Some c -> owner f (table_call k t) = Some c -> acquires c f k t.
Proof.
  intros Hi Hno H. assert (Hn := ti_functions _ Hi).
  destruct k as [a r|a|a n p|a|ms|a b|b|a]; cbn [table_call] in H.
  - destruct (request_gives a f c r t Hi Hno H) as (-> & ? & ? & ? & ?). by exists r.
  - done.
  - destruct (heartbeat_owner a n p t) as [[E1 E2]|E]; [|by rewrite E in H].
    rewrite E1 in H. by apply owner_drop_back in H.
  - unfold note_client_heartbeat_error in H. rewrite drop_one in H. by apply owner_drop_back in H.
  - rewrite tick_drops in H. by apply owner_drop_back in H.
  - unfold set_authenticated in H. destruct b; [by destruct (is_authenticated a t)|].
    unfold release_all in H. by apply (owner_retain_back (fun e => e.2 <> a)) in H.
  - done.
  - unfold release_all in H. by apply (owner_retain_back (fun e => e.2 <> a)) in H.
Qed.

(** C29: whatever requests, statuses, heartbeats and time pass through the server, in any order,
    a function belongs to a client only while the server supports it, the client is
    authenticated and its status is less than 300 ms old; it never passes from one client to
    another in one call: its owner loses it only by its own release, heartbeat, silence or
    de-authentication, and a client gets it only by its own request, authenticated, when the
    server is not busy and nobody has it. *)
Theorem tim_assignment_exclusive supported t :
  table_reachable supported t ->
  (forall f c, owner f t = Some c ->
     f ∈ at_supported t /\ is_authenticated c t = true
     /\ exists age, (c, age) ∈ at_liveness t /\ 0 <= age < CLIENT_STATUS_TIMEOUT_MS)
  /\ (forall k f c, table_call_ok k -> owner f t = Some c ->
        owner f (table_call k t) = Some c \/ (gives_up c f k t /\ owner f (table_call k t) = None))
  /\ (forall k f c, table_call_ok k -> owner f t <> Some c -> owner f (table_call k t) = Some c ->
        acquires c f k t /\ owner f t = None).
Proof.
  intros Hr. assert (Hi := table_reachable_inv _ _ Hr). split_and!.
  - intros f c Ho. apply (owner_spec f c t (ti_functions _ Hi)) in Ho.
    assert (H4 := ti_owners _ Hi). rewrite Forall_forall in H4.
    destruct (H4 _ Ho) as (Hs & Ha & (age & Hl)%elem_of_keys). cbn in *.
    split_and!; [done|by apply bool_decide_eq_true|]. exists age. split; [done|].
    assert (H3 := ti_ages _ Hi). rewrite Forall_forall in H3. by apply (H3 (c, age)).
  - intros k f c Hk Ho. by apply call_keeps.
  - intros k f c Hk Hno H. split; [by apply call_gives|].
    destruct (owner f t) as [b|] eqn:Eb; [|done]. exfalso.
    destruct (call_keeps k f b t Hk Hi Eb) as [E|[_ E]]; rewrite E in H; [|done]. congruence.
Qed.
(** Client 0x30 has the rear hitch; 0x31, authenticated too, does not get it. *)
Definition hitch_table : AssignmentTable :=
  table_call (TRequest 0x30 [(TimFunctionId.RearHitch, RequestType.Assign)])
    (table_call (TAuthenticated 0x30 true)
       (table_call (TAuthenticated 0x31 true) (AssignmentTable_new [TimFunctionId.RearHitch]))).
Lemma tim_assignment_exclusive_witness :
  owner TimFunctionId.RearHitch hitch_table = Some 0x30
  /\ is_authenticated 0x30 hitch_table = true
  /\ owner TimFunctionId.RearHitch
       (table_call (TRequest 0x31 [(TimFunctionId.RearHitch, RequestType.Assign)]) hitch_table)
     = Some 0x30.
Proof.
  destruct (tim_assignment_exclusive [TimFunctionId.RearHitch] hitch_table) as (H1 & H2 & _).
  { repeat (apply table_reach_call; [|done]). apply table_reach_new. }
  destruct (H1 TimFunctionId.RearHitch 0x30) as (_ & Ha & _); [by vm_compute|].
  split_and!; [by vm_compute|exact Ha|].
  destruct (H2 (TRequest 0x31 [(TimFunctionId.RearHitch, RequestType.Assign)])
              TimFunctionId.RearHitch 0x30) as [E|[[E _] _]]; [done|by vm_compute|exact E|done].
Defined.

(** ** Silence *)

(** A call that is not a sign of life of [c]. *)
Definition silent (c : Z) (k : TableCall) : Prop :=
  match k with TRequest a _ | TStatus a | THeartbeat a _ _ => a <> c | _ => True end.
Definition passes (k : TableCall) : Z := match k with TTick ms => ms | _ => 0 end.
Definition table_run (ks : list TableCall) (t : AssignmentTable) : AssignmentTable :=
  foldl (fun t k => table_call k t) t ks.
(** The watchdog of [c] only grows. *)
Lemma status_age a c t age :
  a <> c -> (c, age) ∈ at_liveness (note_client_status a t) -> (c, age) ∈ at_liveness t.
Proof. intros Hn [H|[-> _]]%reset_age_elem; done. Qed.
Lemma drop_age l c t age : (c, age) ∈ at_liveness (drop_clients l t) -> (c, age) ∈ at_liveness t.
Proof. by intros [_ H]%list_elem_of_filter. Qed.
Lemma entry_age a c f q t age :
  a <> c -> (c, age) ∈ at_liveness (apply_entry a f q t).1 -> (c, age) ∈ at_liveness t.
Proof.
  intros Hn. unfold apply_entry. destruct (at_busy t); [done|].
  case_bool_decide; cbn [negb]; [|done]. destruct (_ && _); [done|].
  destruct q; cbn [fst]; [by destruct (is_assigned_to f a t)| |done|done].
  destruct (owner f t) as [b|]; [by destruct (b =? a)|]. cbn [fst]. intros Hl. by apply status_age in Hl.
Qed.
Lemma request_age a c r t age :
  a <> c -> (c, age) ∈ at_liveness (apply_request r a t).1 -> (c, age) ∈ at_liveness t.
Proof.
  intros Hn. revert t. induction r as [|[f q] r IH]; intros t; [done|]. rewrite request_cons.
  intros H%IH. by apply entry_age in H.
Qed.
Lemma silent_age c k t age :
  silent c k -> (c, age) ∈ at_liveness (table_call k t) ->
  exists age0, (c, age0) ∈ at_liveness t /\ age = sat_add 32 age0 (passes k) \/
  (passes k = 0 /\ (c, age) ∈ at_liveness t).
Proof.
  intros Hs H. destruct k as [a r|a|a n p|a|ms|a b|b|a]; cbn [table_call silent passes] in *.
  - exists 0. right. split; [done|]. by eapply request_age.
  - exists 0. right. split; [done|]. by eapply status_age.
  - exists 0. right. split; [done|]. destruct (heartbeat_owner a n p t) as [[E _]|E]; rewrite E in H;
      [by eapply drop_age|by eapply status_age].
  - exists 0. right. split; [done|]. unfold note_client_heartbeat_error in H. rewrite drop_one in H.
    by eapply drop_age.
  - rewrite tick_drops in H. apply drop_age in H. cbn in H.
    apply list_elem_of_fmap in H as ([x y] & [= -> ->] & H). exists y. by left.
  - exists 0. right. split; [done|]. unfold set_authenticated in H.
    destruct b; [by destruct (is_authenticated a t)|done].
  - exists 0. by right.
  - exists 0. by right.
Qed.
(** The milliseconds that pass. *)
Definition total (ks : list TableCall) : Z := foldr (fun k n => passes k + n) 0 ks.
Lemma table_total_nonneg ks : Forall table_call_ok ks -> 0 <= total ks.
Proof. induction 1 as [|k ks Hk _ IH]; [done|].
  change (total (k :: ks)) with (passes k + total ks).
  destruct k; cbn [table_call_ok passes] in *; lia.
Qed.
Lemma silent_run c ks f t :
  table_inv t -> Forall table_call_ok ks -> Forall (silent c) ks ->
  (forall age, (c, age) ∈ at_liveness t -> CLIENT_STATUS_TIMEOUT_MS <= age + total ks) ->
  owner f (table_run ks t) <> Some c.
Proof.
  intros Hi Hk. revert t Hi. induction Hk as [|k ks Hk Hks IH]; intros t Hi Hs Hage.
  - intros Ho. apply (owner_spec f c t (ti_functions _ Hi)) in Ho.
    assert (H4 := ti_owners _ Hi). rewrite Forall_forall in H4.
    destruct (H4 _ Ho) as (_ & _ & (age & Hl)%elem_of_keys). specialize (Hage age Hl). cbn in Hage.
    assert (H3 := ti_ages _ Hi). rewrite Forall_forall in H3. specialize (H3 _ Hl). cbn in H3. lia.
  - apply Forall_cons in Hs as [Hs1 Hs]. apply IH; [by apply table_inv_call|done|].
    intros age Hl. assert (Ht := table_total_nonneg ks Hks).
    destruct (silent_age c k t age Hs1 Hl) as (age0 & [[H ->]|[H0 H]]); specialize (Hage _ H);
      change (total (k :: ks)) with (passes k + total ks) in Hage;
      unfold sat_add, CLIENT_STATUS_TIMEOUT_MS in *; lia.
Qed.
(** a client that has shown no sign of life for 300 ms owns nothing, whatever else the
    server did meanwhile: so no function is left with a client that died. *)
Theorem tim_assignment_silence supported t c ks f :
  table_reachable supported t -> Forall table_call_ok ks -> Forall (silent c) ks ->
  CLIENT_STATUS_TIMEOUT_MS <= total ks -> owner f (table_run ks t) <> Some c.
Proof.
  intros Hr Hk Hs Ht. assert (Hi := table_reachable_inv _ _ Hr). apply silent_run; [done..|].
  intros age Hl. assert (H3 := ti_ages _ Hi). rewrite Forall_forall in H3. specialize (H3 _ Hl).
  cbn in H3. lia.
Qed.
(** Three ticks of 100 ms after its request, 0x30 has lost the hitch, and 0x31 can have it. *)
Lemma tim_assignment_silence_witness :
  owner TimFunctionId.RearHitch (table_run [TTick 100; TStatus 0x31; TTick 100; TTick 100] hitch_table)
  <> Some 0x30.
Proof.
  apply (tim_assignment_silence [TimFunctionId.RearHitch]);
    [repeat (apply table_reach_call; [|done]); apply table_reach_new|by repeat constructor
    |by repeat constructor|by vm_compute].
Defined.
