(* ===== verification/TimAuthority.v ===== *)
(** Tractor implement management, the local guard: the model of [src/isobus/tim.rs] and of the
    safe mode of [src/safety.rs].

    A command is allowed only while its option was requested and granted, the interlocks are
    clear, the operator consents and the other side has been heard from. *)
From S2P Require Export Clock TimTypes.

Definition MAX_AUX_VALVES : Z := 32.
Definition MAX_HITCH_POSITION : Z := 10000.
Definition TIM_OPTION_BYTES : nat := 3.
Definition TIM_OPTION_DEFINED_MASK : list Z := [0xFF; 0xFF; 0x3F].
Definition TIM_UPDATE_INTERVAL_MS : Z := 100.
Definition DEFAULT_COMMS_TIMEOUT_MS : Z := 300.

(** ** Options *)

Module TimOption.
Inductive t : Type :=
| FrontPtoDisengagementIsSupported | FrontPtoEngagementCcwIsSupported
| FrontPtoEngagementCwIsSupported | FrontPtoSpeedCcwIsSupported | FrontPtoSpeedCwIsSupported
| RearPtoDisengagementIsSupported | RearPtoEngagementCcwIsSupported
| RearPtoEngagementCwIsSupported | RearPtoSpeedCcwIsSupported | RearPtoSpeedCwIsSupported
| FrontHitchMotionIsSupported | FrontHitchPositionIsSupported | RearHitchMotionIsSupported
| RearHitchPositionIsSupported | VehicleSpeedInForwardDirectionIsSupported
| VehicleSpeedInReverseDirectionIsSupported | VehicleSpeedStartMotionIsSupported
| VehicleSpeedStopMotionIsSupported | VehicleSpeedForwardSetByServerIsSupported
| VehicleSpeedReverseSetByServerIsSupported | VehicleSpeedChangeDirectionIsSupported
| GuidanceCurvatureIsSupported.
#[global] Instance eq_dec : EqDecision t.
Proof. solve_decision. Defined.
Definition bit (o : t) : Z :=
  match o with
  | FrontPtoDisengagementIsSupported => 0 | FrontPtoEngagementCcwIsSupported => 1
  | FrontPtoEngagementCwIsSupported => 2 | FrontPtoSpeedCcwIsSupported => 3
  | FrontPtoSpeedCwIsSupported => 4 | RearPtoDisengagementIsSupported => 5
  | RearPtoEngagementCcwIsSupported => 6 | RearPtoEngagementCwIsSupported => 7
  | RearPtoSpeedCcwIsSupported => 8 | RearPtoSpeedCwIsSupported => 9
  | FrontHitchMotionIsSupported => 10 | FrontHitchPositionIsSupported => 11
  | RearHitchMotionIsSupported => 12 | RearHitchPositionIsSupported => 13
  | VehicleSpeedInForwardDirectionIsSupported => 14
  | VehicleSpeedInReverseDirectionIsSupported => 15 | VehicleSpeedStartMotionIsSupported => 16
  | VehicleSpeedStopMotionIsSupported => 17 | VehicleSpeedForwardSetByServerIsSupported => 18
  | VehicleSpeedReverseSetByServerIsSupported => 19 | VehicleSpeedChangeDirectionIsSupported => 20
  | GuidanceCurvatureIsSupported => 21
  end.
End TimOption.

(** [TimOptionSet]: its three bytes. *)
Definition TimOptionSet : Type := list Z.
Definition option_mask (o : TimOption.t) : nat * Z :=
  let bit := TimOption.bit o in (Z.to_nat (bit / 8), wrap 8 (Z.shiftl 1 (bit mod 8))).
Definition set_empty : TimOptionSet := [0; 0; 0].
Definition set_option (o : TimOption.t) (enabled : bool) (s : TimOptionSet) : TimOptionSet :=
  let '(byte_idx, mask) := option_mask o in
  alter (fun b => if enabled then Z.lor b mask else Z.land b (not_u 8 mask)) byte_idx s.
Definition set_contains (o : TimOption.t) (s : TimOptionSet) : bool :=
  let '(byte_idx, mask) := option_mask o in
  match s !! byte_idx with Some b => negb (Z.land b mask =? 0) | None => false end.
Definition from_options (options : list TimOption.t) : TimOptionSet :=
  foldl (fun s o => set_option o true s) set_empty options.
Definition is_subset_of (s available : TimOptionSet) : bool :=
  forallb (fun e => Z.land e.1 (not_u 8 e.2) =? 0) (zip s available).
Definition missing_from (s available : TimOptionSet) : TimOptionSet :=
  zip_with (fun a b => Z.land a (not_u 8 b)) s available.
Definition set_is_empty (s : TimOptionSet) : bool := forallb (fun b => b =? 0) s.
Definition has_reserved_bits (s : TimOptionSet) : bool :=
  existsb (fun e => negb (Z.land e.1 (not_u 8 e.2) =? 0)) (zip s TIM_OPTION_DEFINED_MASK).

(** ** Safe mode and commands *)

Module SafeModeTrigger.
Inductive t : Type :=
| None_ | PowerLoss | EcuPowerLoss | CanBusFail | TecuCommLoss | ManualTrigger.
End SafeModeTrigger.
Module TecuCommandKind.
Inductive t : Type := Engage | Disengage | Query.
End TecuCommandKind.
Record TecuSafeMode : Type := mkSafeMode {
  sf_active : bool;
  sf_trigger : SafeModeTrigger.t
}.
Definition TecuSafeMode_new : TecuSafeMode := mkSafeMode false SafeModeTrigger.None_.
Definition safe_mode_enter (trigger : SafeModeTrigger.t) (s : TecuSafeMode) : TecuSafeMode :=
  mkSafeMode true trigger.
Definition safe_mode_clear (s : TecuSafeMode) : TecuSafeMode :=
  mkSafeMode false SafeModeTrigger.None_.
Definition safe_mode_allows (kind : TecuCommandKind.t) (s : TecuSafeMode) : bool :=
  negb (sf_active s)
  || match kind with TecuCommandKind.Disengage | TecuCommandKind.Query => true | _ => false end.

Module TimCommand.
Inductive t : Type :=
| FrontPtoDisengage | FrontPtoEngageCcw | FrontPtoEngageCw | FrontPtoSpeedCcw | FrontPtoSpeedCw
| RearPtoDisengage | RearPtoEngageCcw | RearPtoEngageCw | RearPtoSpeedCcw | RearPtoSpeedCw
| FrontHitchMotion | FrontHitchPosition | RearHitchMotion | RearHitchPosition
| VehicleSpeedForward | VehicleSpeedReverse | VehicleSpeedStartMotion | VehicleSpeedStopMotion
| VehicleSpeedForwardSetByServer | VehicleSpeedReverseSetByServer | VehicleSpeedChangeDirection
| GuidanceCurvature.
#[global] Instance eq_dec : EqDecision t.
Proof. solve_decision. Defined.
Definition safe_mode_kind (c : t) : TecuCommandKind.t :=
  match c with
  | FrontPtoDisengage | RearPtoDisengage | VehicleSpeedStopMotion => TecuCommandKind.Disengage
  | _ => TecuCommandKind.Engage
  end.
Definition required_option (c : t) : TimOption.t :=
  match c with
  | FrontPtoDisengage => TimOption.FrontPtoDisengagementIsSupported
  | FrontPtoEngageCcw => TimOption.FrontPtoEngagementCcwIsSupported
  | FrontPtoEngageCw => TimOption.FrontPtoEngagementCwIsSupported
  | FrontPtoSpeedCcw => TimOption.FrontPtoSpeedCcwIsSupported
  | FrontPtoSpeedCw => TimOption.FrontPtoSpeedCwIsSupported
  | RearPtoDisengage => TimOption.RearPtoDisengagementIsSupported
  | RearPtoEngageCcw => TimOption.RearPtoEngagementCcwIsSupported
  | RearPtoEngageCw => TimOption.RearPtoEngagementCwIsSupported
  | RearPtoSpeedCcw => TimOption.RearPtoSpeedCcwIsSupported
  | RearPtoSpeedCw => TimOption.RearPtoSpeedCwIsSupported
  | FrontHitchMotion => TimOption.FrontHitchMotionIsSupported
  | FrontHitchPosition => TimOption.FrontHitchPositionIsSupported
  | RearHitchMotion => TimOption.RearHitchMotionIsSupported
  | RearHitchPosition => TimOption.RearHitchPositionIsSupported
  | VehicleSpeedForward => TimOption.VehicleSpeedInForwardDirectionIsSupported
  | VehicleSpeedReverse => TimOption.VehicleSpeedInReverseDirectionIsSupported
  | VehicleSpeedStartMotion => TimOption.VehicleSpeedStartMotionIsSupported
  | VehicleSpeedStopMotion => TimOption.VehicleSpeedStopMotionIsSupported
  | VehicleSpeedForwardSetByServer => TimOption.VehicleSpeedForwardSetByServerIsSupported
  | VehicleSpeedReverseSetByServer => TimOption.VehicleSpeedReverseSetByServerIsSupported
  | VehicleSpeedChangeDirection => TimOption.VehicleSpeedChangeDirectionIsSupported
  | GuidanceCurvature => TimOption.GuidanceCurvatureIsSupported
  end.
End TimCommand.

(** ** Interlocks *)

Module TimAuthorityState.
Inductive t : Type := Idle | Requested | Granted | Denied | Revoked.
#[global] Instance eq_dec : EqDecision t.
Proof. solve_decision. Defined.
End TimAuthorityState.
Module TimInterlock.
Inductive t : Type :=
| OperatorNotPresent | RoadTransportMode | ExternalStop | ImplementNotReady
| OperatorPresenceTimeout | RequestInvalid | UnsupportedParameters | RequestTimeout
| OperatorOverride.
End TimInterlock.
Module TimRole.
Inductive t : Type := Client | Server | Function_.
End TimRole.

Record TimInterlocks : Type := mkInterlocks {
  operator_present : bool;
  road_transport_mode : bool;
  external_stop : bool;
  implement_ready : bool;
  operator_presence_timeout : bool;
  operator_override : bool
}.
Definition all_clear : TimInterlocks := mkInterlocks true false false true false false.
Definition TimInterlocks_default : TimInterlocks := mkInterlocks false false false true false false.
Definition blocking_reason_for (role : TimRole.t) (i : TimInterlocks) : option TimInterlock.t :=
  if negb (operator_present i) then Some TimInterlock.OperatorNotPresent
  else if operator_presence_timeout i then Some TimInterlock.OperatorPresenceTimeout
  else if operator_override i then Some TimInterlock.OperatorOverride
  else if road_transport_mode i then Some TimInterlock.RoadTransportMode
  else if external_stop i && match role with TimRole.Client => true | _ => false end
  then Some TimInterlock.ExternalStop
  else if negb (implement_ready i) then Some TimInterlock.ImplementNotReady
  else None.
Definition blocking_reason : TimInterlocks -> option TimInterlock.t :=
  blocking_reason_for TimRole.Client.

(** ** The authority *)

Module TimValidationError.
Inductive t : Type :=
| SafeModeActive
| AuxValveIndexOutOfRange (index : Z)
| HitchPositionOutOfRange (position : Z)
| UnsupportedOption (option : TimOption.t)
| UnsupportedOptions (requested available : TimOptionSet)
| ReservedOptionBits (bytes : list Z)
| EmptyOptionRequest
| OptionNotRequested (option : TimOption.t)
| AuthorityNotRequested (state : TimAuthorityState.t)
| AuthorityNotGranted (state : TimAuthorityState.t)
| InterlockActive (interlock : TimInterlock.t)
| OperatorConsentRequired.
End TimValidationError.
Import TimValidationError.

Definition set_try_from_bytes (b : list Z) : Result TimOptionSet TimValidationError.t :=
  if has_reserved_bits b then Err (ReservedOptionBits b) else Ok b.

Record TimAuthority : Type := mkAuthority {
  ta_available : TimOptionSet;
  ta_requested : TimOptionSet;
  ta_state : TimAuthorityState.t;
  ta_interlocks : TimInterlocks;
  ta_operator_consent : bool;
  ta_comms_timeout_ms : Z;
  ta_since_keepalive_ms : Z
}.
Definition ta_with_requested (x : TimOptionSet) (a : TimAuthority) : TimAuthority :=
  mkAuthority (ta_available a) x (ta_state a) (ta_interlocks a) (ta_operator_consent a)
    (ta_comms_timeout_ms a) (ta_since_keepalive_ms a).
Definition ta_with_state (x : TimAuthorityState.t) (a : TimAuthority) : TimAuthority :=
  mkAuthority (ta_available a) (ta_requested a) x (ta_interlocks a) (ta_operator_consent a)
    (ta_comms_timeout_ms a) (ta_since_keepalive_ms a).
Definition ta_with_interlocks (x : TimInterlocks) (a : TimAuthority) : TimAuthority :=
  mkAuthority (ta_available a) (ta_requested a) (ta_state a) x (ta_operator_consent a)
    (ta_comms_timeout_ms a) (ta_since_keepalive_ms a).
Definition ta_with_operator_consent (x : bool) (a : TimAuthority) : TimAuthority :=
  mkAuthority (ta_available a) (ta_requested a) (ta_state a) (ta_interlocks a) x
    (ta_comms_timeout_ms a) (ta_since_keepalive_ms a).
Definition ta_with_since (x : Z) (a : TimAuthority) : TimAuthority :=
  mkAuthority (ta_available a) (ta_requested a) (ta_state a) (ta_interlocks a)
    (ta_operator_consent a) (ta_comms_timeout_ms a) x.

Definition TimAuthority_new (available : TimOptionSet) : TimAuthority :=
  mkAuthority available set_empty TimAuthorityState.Idle all_clear true DEFAULT_COMMS_TIMEOUT_MS 0.
Definition with_comms_timeout (timeout_ms : Z) (a : TimAuthority) : TimAuthority :=
  mkAuthority (ta_available a) (ta_requested a) (ta_state a) (ta_interlocks a)
    (ta_operator_consent a) timeout_ms (ta_since_keepalive_ms a).
Definition authority_keepalive : TimAuthority -> TimAuthority := ta_with_since 0.
Definition authority_tick (elapsed_ms : Z) (a : TimAuthority) : TimAuthority * bool :=
  if ta_comms_timeout_ms a =? 0 then (a, false)
  else
    let a := ta_with_since (sat_add 32 (ta_since_keepalive_ms a) elapsed_ms) a in
    if (ta_comms_timeout_ms a <=? ta_since_keepalive_ms a)
       && bool_decide (ta_state a = TimAuthorityState.Granted)
    then (ta_with_since 0 (ta_with_state TimAuthorityState.Revoked a), true)
    else (a, false).
Definition authority_request (requested : TimOptionSet) (a : TimAuthority)
    : TimAuthority * Result unit TimValidationError.t :=
  if has_reserved_bits (ta_available a) then (a, Err (ReservedOptionBits (ta_available a)))
  else if has_reserved_bits requested then (a, Err (ReservedOptionBits requested))
  else if set_is_empty requested then (a, Err EmptyOptionRequest)
  else if negb (is_subset_of requested (ta_available a)) then
    (a, Err (UnsupportedOptions requested (ta_available a)))
  else (ta_with_state TimAuthorityState.Requested (ta_with_requested requested a), Ok tt).
Definition authority_grant (a : TimAuthority) : TimAuthority * Result unit TimValidationError.t :=
  if negb (bool_decide (ta_state a = TimAuthorityState.Requested)) then
    (a, Err (AuthorityNotRequested (ta_state a)))
  else
    match blocking_reason (ta_interlocks a) with
    | Some interlock => (a, Err (InterlockActive interlock))
    | None =>
        if negb (ta_operator_consent a) then (a, Err OperatorConsentRequired)
        else (ta_with_since 0 (ta_with_state TimAuthorityState.Granted a), Ok tt)
    end.
Definition set_operator_consent (consented : bool) (a : TimAuthority) : TimAuthority :=
  let a := ta_with_operator_consent consented a in
  if negb consented && bool_decide (ta_state a = TimAuthorityState.Granted)
  then ta_with_state TimAuthorityState.Revoked a else a.
Definition authority_deny : TimAuthority -> TimAuthority := ta_with_state TimAuthorityState.Denied.
Definition authority_revoke : TimAuthority -> TimAuthority := ta_with_state TimAuthorityState.Revoked.
Definition set_interlocks (interlocks : TimInterlocks) (a : TimAuthority) : TimAuthority :=
  let a := ta_with_interlocks interlocks a in
  if bool_decide (ta_state a = TimAuthorityState.Granted)
     && bool_decide (is_Some (blocking_reason interlocks))
  then ta_with_state TimAuthorityState.Revoked a else a.
Definition ensure_option (o : TimOption.t) (a : TimAuthority) : Result unit TimValidationError.t :=
  if negb (set_contains o (ta_available a)) then Err (UnsupportedOption o)
  else if negb (set_contains o (ta_requested a)) then Err (OptionNotRequested o)
  else match blocking_reason (ta_interlocks a) with
       | Some interlock => Err (InterlockActive interlock)
       | None =>
           if negb (ta_operator_consent a) then Err OperatorConsentRequired
           else if negb (bool_decide (ta_state a = TimAuthorityState.Granted)) then
             Err (AuthorityNotGranted (ta_state a))
           else Ok tt
       end.
Definition ensure_command (c : TimCommand.t) (a : TimAuthority) : Result unit TimValidationError.t :=
  ensure_option (TimCommand.required_option c) a.

(** ** Status and command payloads *)

Definition fixed_payload_with_ff_tail (data : list Z) (used : nat) : bool :=
  (length data =? 8)%nat && forallb (fun b => b =? 0xFF) (drop used data).
Definition PGN_FRONT_PTO : Pgn := 0xFE54.
Definition PGN_REAR_PTO : Pgn := 0xFE55.
Definition PGN_FRONT_HITCH : Pgn := 0xFE08.
Definition PGN_REAR_HITCH : Pgn := 0xFE03.
Definition PGN_AUX_VALVE_0_7 : Pgn := 0xFE20.
Definition PGN_AUX_VALVE_8_15 : Pgn := 0xFE21.
Definition PGN_AUX_VALVE_16_23 : Pgn := 0xFE22.
Definition PGN_AUX_VALVE_24_31 : Pgn := 0xFE23.
Definition aux_valve_pgn_matches_index (pgn : Pgn) (index : Z) : bool :=
  if pgn =? PGN_AUX_VALVE_0_7 then index <? 8
  else if pgn =? PGN_AUX_VALVE_8_15 then (8 <=? index) && (index <? 16)
  else if pgn =? PGN_AUX_VALVE_16_23 then (16 <=? index) && (index <? 24)
  else if pgn =? PGN_AUX_VALVE_24_31 then (24 <=? index) && (index <? 32)
  else false.
Definition decode_bool_byte (byte : Z) : option bool :=
  match byte with 0 => Some false | 1 => Some true | _ => None end.
(** [(x & 0xFF) as u8] and [((x >> 8) & 0xFF) as u8]; [u16] from two bytes. *)
Definition lo8 (x : Z) : Z := Z.land x 0xFF.
Definition hi8 (x : Z) : Z := Z.land (Z.shiftr x 8) 0xFF.
Definition of_bytes (lo hi : Z) : Z := Z.lor lo (Z.shiftl hi 8).

Record PtoState : Type := mkPto { pto_engaged : bool; pto_cw_direction : bool; pto_speed : Z }.
Definition pto_encode (p : PtoState) : list Z :=
  [Z.b2z (pto_engaged p); Z.b2z (pto_cw_direction p); lo8 (pto_speed p); hi8 (pto_speed p);
   0xFF; 0xFF; 0xFF; 0xFF].
Definition pto_decode (msg : Message) : option PtoState :=
  if negb (m_pgn msg =? PGN_FRONT_PTO) && negb (m_pgn msg =? PGN_REAR_PTO) then None
  else if negb (has_usable_envelope_for_pgn msg (m_pgn msg)) then None
  else if negb (fixed_payload_with_ff_tail (m_data msg) 4) then None
  else
    match m_data msg with
    | d0 :: d1 :: d2 :: d3 :: _ =>
        engaged ← decode_bool_byte d0; cw_direction ← decode_bool_byte d1;
        Some (mkPto engaged cw_direction (of_bytes d2 d3))
    | _ => None
    end.

Record HitchState : Type := mkHitch { hitch_motion_enabled : bool; hitch_position : Z }.
Definition hitch_validate (h : HitchState) : Result unit TimValidationError.t :=
  if MAX_HITCH_POSITION <? hitch_position h then Err (HitchPositionOutOfRange (hitch_position h))
  else Ok tt.
Definition hitch_encode (h : HitchState) : list Z :=
  [Z.b2z (hitch_motion_enabled h); lo8 (hitch_position h); hi8 (hitch_position h);
   0xFF; 0xFF; 0xFF; 0xFF; 0xFF].
Definition hitch_try_encode (h : HitchState) : Result (list Z) TimValidationError.t :=
  match hitch_validate h with Err e => Err e | Ok _ => Ok (hitch_encode h) end.
Definition hitch_decode (msg : Message) : option HitchState :=
  if negb (m_pgn msg =? PGN_FRONT_HITCH) && negb (m_pgn msg =? PGN_REAR_HITCH) then None
  else if negb (has_usable_envelope_for_pgn msg (m_pgn msg)) then None
  else if negb (fixed_payload_with_ff_tail (m_data msg) 3) then None
  else
    match m_data msg with
    | d0 :: d1 :: d2 :: _ =>
        motion_enabled ← decode_bool_byte d0;
        let position := of_bytes d1 d2 in
        if MAX_HITCH_POSITION <? position then None else Some (mkHitch motion_enabled position)
    | _ => None
    end.

Record AuxValveCommand : Type := mkAuxCommand { av_index : Z; av_state : bool; av_flow : Z }.
Definition aux_validate (c : AuxValveCommand) : Result unit TimValidationError.t :=
  if MAX_AUX_VALVES <=? av_index c then Err (AuxValveIndexOutOfRange (av_index c)) else Ok tt.
Definition aux_encode (c : AuxValveCommand) : list Z :=
  [av_index c; Z.b2z (av_state c); lo8 (av_flow c); hi8 (av_flow c); 0xFF; 0xFF; 0xFF; 0xFF].
Definition aux_try_encode (c : AuxValveCommand) : Result (list Z) TimValidationError.t :=
  match aux_validate c with Err e => Err e | Ok _ => Ok (aux_encode c) end.
Definition aux_decode (msg : Message) : option AuxValveCommand :=
  if negb (has_usable_envelope_for_pgn msg (m_pgn msg)) then None
  else if negb (fixed_payload_with_ff_tail (m_data msg) 4) then None
  else
    match m_data msg with
    | d0 :: d1 :: d2 :: d3 :: _ =>
        if MAX_AUX_VALVES <=? d0 then None
        else if negb (aux_valve_pgn_matches_index (m_pgn msg) d0) then None
        else state ← decode_bool_byte d1; Some (mkAuxCommand d0 state (of_bytes d2 d3))
    | _ => None
    end.

(** [TimAuthorityArbiter]: the holder, if any. *)
Definition TimAuthorityArbiter : Type := option Address.
Inductive TimArbitration : Type := ArbGranted | ArbDenied (held_by : Address).
Definition arbiter_request (client : Address) (holder : TimAuthorityArbiter)
    : TimAuthorityArbiter * TimArbitration :=
  match holder with
  | None => (Some client, ArbGranted)
  | Some h => if h =? client then (holder, ArbGranted) else (holder, ArbDenied h)
  end.
Definition arbiter_release (client : Address) (holder : TimAuthorityArbiter)
    : TimAuthorityArbiter * bool :=
  if bool_decide (holder = Some client) then (None, true) else (holder, false).

(** ** Options as sets *)

Lemma option_bit_range o : 0 <= TimOption.bit o < 22.
Proof. destruct o; cbn; lia. Qed.
Lemma land_pow2 b k : 0 <= k -> (Z.land b (2 ^ k) =? 0) = negb (Z.testbit b k).
Proof.
  intros Hk. destruct (Z.testbit b k) eqn:E; cbn.
  - apply Z.eqb_neq. intros H. apply (f_equal (fun x => Z.testbit x k)) in H.
    rewrite Z.land_spec, E, Z.pow2_bits_true, Z.testbit_0_l in H by done. done.
  - apply Z.eqb_eq. apply Z.bits_inj'. intros n Hn. rewrite Z.land_spec, Z.testbit_0_l.
    destruct (Z.eqb_spec k n) as [->|Hne]; [by rewrite E|].
    by rewrite Z.pow2_bits_false, andb_false_r by done.
Qed.
Lemma set_contains_spec o s :
  set_contains o s = true <->
  exists b, s !! Z.to_nat (TimOption.bit o / 8) = Some b /\ Z.testbit b (TimOption.bit o mod 8) = true.
Proof.
  assert (Hm := Z.mod_pos_bound (TimOption.bit o) 8 eq_refl).
  unfold set_contains, option_mask. cbv zeta.
  assert (E : wrap 8 (Z.shiftl 1 (TimOption.bit o mod 8)) = 2 ^ (TimOption.bit o mod 8)).
  { unfold wrap. rewrite Z.shiftl_mul_pow2, Z.mul_1_l by lia. apply Z.mod_small.
    split; [lia|]. apply Z.pow_lt_mono_r; lia. }
  rewrite E. destruct (s !! _) as [b|]; [|split; [done|by intros (? & ? & _)]].
  rewrite land_pow2 by lia. rewrite negb_involutive. split; [by exists b|]. by intros (? & [= <-] & ?).
Qed.
Lemma subset_contains r v o :
  length v = length r -> is_subset_of r v = true -> set_contains o r = true -> set_contains o v = true.
Proof.
  intros Hl Hs. rewrite !set_contains_spec. intros (b & Hb & Hbit).
  destruct (lookup_lt_is_Some_2 v (Z.to_nat (TimOption.bit o / 8))) as [x Hx].
  { rewrite Hl. by apply lookup_lt_Some in Hb. }
  exists x. split; [done|]. unfold is_subset_of in Hs. rewrite forallb_forall in Hs.
  assert (Hin : (b, x) ∈ zip r v).
  { apply list_elem_of_lookup. exists (Z.to_nat (TimOption.bit o / 8)).
    apply lookup_zip_with_Some. by exists b, x. }
  apply list_elem_of_In, Hs in Hin. apply Z.eqb_eq in Hin. cbn in Hin.
  assert (Hm := Z.mod_pos_bound (TimOption.bit o) 8 eq_refl).
  apply (f_equal (fun n => Z.testbit n (TimOption.bit o mod 8))) in Hin.
  rewrite Z.land_spec, Hbit, Z.testbit_0_l in Hin. unfold not_u in Hin.
  rewrite Z.ldiff_spec, Z.ones_spec_low in Hin by lia. cbn in Hin.
  by destruct (Z.testbit x _).
Qed.

(** ** Every call *)

Inductive AuthorityCall : Type :=
| ARequest (requested : TimOptionSet)
| AGrant | ADeny | ARevoke | AKeepalive
| ATick (elapsed_ms : Z)
| AConsent (consented : bool)
| AInterlocks (interlocks : TimInterlocks).
Definition authority_call (k : AuthorityCall) (a : TimAuthority) : TimAuthority :=
  match k with
  | ARequest requested => (authority_request requested a).1
  | AGrant => (authority_grant a).1
  | ADeny => authority_deny a
  | ARevoke => authority_revoke a
  | AKeepalive => authority_keepalive a
  | ATick elapsed_ms => (authority_tick elapsed_ms a).1
  | AConsent consented => set_operator_consent consented a
  | AInterlocks interlocks => set_interlocks interlocks a
  end.
(** An option set is three bytes; time is measured in a [u32]. *)
Definition authority_call_ok (k : AuthorityCall) : Prop :=
  match k with
  | ARequest requested => length requested = TIM_OPTION_BYTES
  | ATick elapsed_ms => 0 <= elapsed_ms
  | _ => True
  end.
Definition authority_run (ks : list AuthorityCall) (a : TimAuthority) : TimAuthority :=
  foldl (fun a k => authority_call k a) a ks.

Record authority_inv (a : TimAuthority) : Prop := {
  ai_available : length (ta_available a) = TIM_OPTION_BYTES;
  ai_requested : length (ta_requested a) = TIM_OPTION_BYTES;
  ai_subset : is_subset_of (ta_requested a) (ta_available a) = true;
  ai_timer : 0 <= ta_since_keepalive_ms a;
  ai_granted : ta_state a = TimAuthorityState.Granted ->
    blocking_reason (ta_interlocks a) = None /\ ta_operator_consent a = true
    /\ set_is_empty (ta_requested a) = false
    /\ (ta_comms_timeout_ms a = 0 \/ ta_since_keepalive_ms a < ta_comms_timeout_ms a);
  ai_asked : ta_state a = TimAuthorityState.Requested -> set_is_empty (ta_requested a) = false;
  ai_timeout : 0 <= ta_comms_timeout_ms a < 2 ^ 32
}.
Lemma authority_inv_new available timeout :
  length available = TIM_OPTION_BYTES -> 0 <= timeout < 2 ^ 32 ->
  authority_inv (with_comms_timeout timeout (TimAuthority_new available)).
Proof. intros Hl Ht. split; cbn; try done. by destruct available as [|? [|? [|? []]]]. Qed.
(** Leaving the granted state, or any other change that keeps the rest. *)
Lemma authority_inv_state x a :
  x <> TimAuthorityState.Granted -> x <> TimAuthorityState.Requested -> authority_inv a ->
  authority_inv (ta_with_state x a).
Proof. intros Hx Hx' [? ? ? ? ? ? ?]. by split. Qed.
Lemma authority_inv_call k a :
  authority_call_ok k -> authority_inv a -> authority_inv (authority_call k a).
Proof.
  intros Hk Hi. assert (Hi' := Hi). destruct Hi' as [H1 H2 H3 H4 H5 H6 H7].
  destruct k as [r| | | | |ms|b|i]; cbn [authority_call authority_call_ok] in *.
  - unfold authority_request. destruct (has_reserved_bits _); [done|].
    destruct (has_reserved_bits r); [done|]. destruct (set_is_empty r) eqn:Ee; [done|].
    destruct (is_subset_of r _) eqn:Es; [|done]. by split.
  - unfold authority_grant. case_bool_decide as Hs; [|done].
    destruct (blocking_reason _) eqn:Eb; [done|]. destruct (ta_operator_consent a) eqn:Ec; [|done].
    split; cbn; try done. intros _. split_and!; [done|done|by apply H6|lia].
  - by apply authority_inv_state.
  - by apply authority_inv_state.
  - split; cbn; try done. intros Hg. destruct (H5 Hg) as (? & ? & ? & ?). split_and!; try done. lia.
  - unfold authority_tick. destruct (Z.eqb_spec (ta_comms_timeout_ms a) 0) as [|Hz]; [done|].
    assert (Hp : 0 <= sat_add 32 (ta_since_keepalive_ms a) ms) by (unfold sat_add; lia).
    cbv zeta. cbn [ta_comms_timeout_ms ta_since_keepalive_ms ta_with_since ta_state].
    destruct (Z.leb_spec (ta_comms_timeout_ms a) (sat_add 32 (ta_since_keepalive_ms a) ms)) as [Hle|Hlt];
      cbn [andb].
    + case_bool_decide as Hg; cbn [fst]; split; cbn; done.
    + cbn [fst]. split; cbn; try done. intros Hg. destruct (H5 Hg) as (? & ? & ? & ?).
      split_and!; try done. by right.
  - unfold set_operator_consent. destruct b; cbn [negb andb].
    + split; cbn; try done. intros Hg. destruct (H5 Hg) as (? & ? & ? & ?). done.
    + case_bool_decide as Hg; split; cbn in *; done.
  - unfold set_interlocks. case_bool_decide as Hg; cbn [andb ta_state ta_with_interlocks] in *.
    + case_bool_decide as Hb; [by split|]. split; cbn; try done. intros _.
      destruct (H5 Hg) as (? & ? & ? & ?). split_and!; try done.
      destruct (blocking_reason i); [by destruct Hb|done].
    + by split.
Qed.
Inductive authority_reachable (available : TimOptionSet) (timeout : Z) : TimAuthority -> Prop :=
| authority_reach_new :
    authority_reachable available timeout (with_comms_timeout timeout (TimAuthority_new available))
| authority_reach_call k a :
    authority_reachable available timeout a -> authority_call_ok k ->
    authority_reachable available timeout (authority_call k a).
Lemma authority_reachable_inv available timeout a :
  length available = TIM_OPTION_BYTES -> 0 <= timeout < 2 ^ 32 ->
  authority_reachable available timeout a -> authority_inv a.
Proof. intros Hl Ht. induction 1; [by apply authority_inv_new|by apply authority_inv_call]. Qed.

Lemma ensure_command_spec c a :
  authority_inv a ->
  ensure_command c a = Ok tt <->
  ta_state a = TimAuthorityState.Granted
  /\ set_contains (TimCommand.required_option c) (ta_requested a) = true.
Proof.
  intros [H1 H2 H3 _ H5 _ _]. unfold ensure_command, ensure_option. split.
  - destruct (set_contains _ (ta_available a)); [|done].
    destruct (set_contains _ (ta_requested a)); [|done].
    destruct (blocking_reason _); [done|]. destruct (ta_operator_consent a); [|done].
    cbn [negb]. by case_bool_decide.
  - intros [Hg Hc]. assert (Hav := subset_contains _ _ _ ltac:(by rewrite H1, H2) H3 Hc).
    destruct (H5 Hg) as (Hb & Hk & _). rewrite Hav, Hc, Hb, Hk. cbn [negb]. by rewrite bool_decide_true.
Qed.
(** Only [grant] grants. *)
Lemma stays_ungranted ks a :
  AGrant ∉ ks -> ta_state a <> TimAuthorityState.Granted ->
  ta_state (authority_run ks a) <> TimAuthorityState.Granted.
Proof.
  revert a. induction ks as [|k ks IH]; intros a Hn Ha; [done|].
  apply not_elem_of_cons in Hn as [Hk Hn]. apply (IH (authority_call k a)); [done|]. clear IH Hn.
  destruct k as [r| | | | |ms|b|i]; cbn [authority_call]; try done.
  - unfold authority_request. by repeat case_match.
  - unfold authority_tick. destruct (_ =? 0); [done|]. cbv zeta.
    cbn [ta_comms_timeout_ms ta_since_keepalive_ms ta_with_since ta_state].
    rewrite bool_decide_false by done. by rewrite andb_false_r.
  - unfold set_operator_consent. cbn. rewrite bool_decide_false by done. by rewrite andb_false_r.
  - unfold set_interlocks. cbn. by rewrite bool_decide_false by done.
Qed.
Definition authority_passes (k : AuthorityCall) : Z := match k with ATick ms => ms | _ => 0 end.
Definition authority_total (ks : list AuthorityCall) : Z :=
  foldr (fun k n => authority_passes k + n) 0 ks.
Lemma authority_total_nonneg ks : Forall authority_call_ok ks -> 0 <= authority_total ks.
Proof.
  induction 1 as [|k ks Hk _ IH]; [done|].
  change (authority_total (k :: ks)) with (authority_passes k + authority_total ks).
  destruct k; cbn [authority_call_ok authority_passes] in *; lia.
Qed.
(** Without a sign of the other side the timer grows until it revokes the grant. *)
Lemma silent_call k a :
  authority_inv a -> k <> AGrant -> k <> AKeepalive -> authority_call_ok k ->
  ta_comms_timeout_ms (authority_call k a) = ta_comms_timeout_ms a
  /\ (0 < ta_comms_timeout_ms a -> ta_state (authority_call k a) = TimAuthorityState.Granted ->
      ta_since_keepalive_ms (authority_call k a)
      = sat_add 32 (ta_since_keepalive_ms a) (authority_passes k)).
Proof.
  intros Hi Hg Hk Hok. assert (H4 := ai_timer _ Hi). assert (H7 := ai_timeout _ Hi).
  assert (Hz : ta_state a = TimAuthorityState.Granted -> 0 < ta_comms_timeout_ms a ->
               sat_add 32 (ta_since_keepalive_ms a) 0 = ta_since_keepalive_ms a).
  { intros Hs Hp. destruct (ai_granted _ Hi Hs) as (_ & _ & _ & [?|?]); unfold sat_add; lia. }
  destruct k as [r| | | | |ms|b|i]; try done;
    cbn [authority_call authority_passes authority_call_ok] in *.
  - unfold authority_request. repeat case_match; split; try done; intros Hp Hs; by rewrite Hz.
  - unfold authority_tick. destruct (Z.eqb_spec (ta_comms_timeout_ms a) 0); [split; [done|lia]|].
    cbv zeta. cbn [ta_comms_timeout_ms ta_since_keepalive_ms ta_with_since ta_state]. by case_match.
  - unfold set_operator_consent. cbn. case_match; split; try done. intros Hp Hs. by rewrite Hz.
  - unfold set_interlocks. cbn. case_match; split; try done. intros Hp Hs. by rewrite Hz.
Qed.
Lemma silence_revokes ks a :
  authority_inv a -> Forall authority_call_ok ks -> AGrant ∉ ks -> AKeepalive ∉ ks ->
  0 < ta_comms_timeout_ms a ->
  ta_comms_timeout_ms a <= ta_since_keepalive_ms a + authority_total ks ->
  ta_state (authority_run ks a) <> TimAuthorityState.Granted.
Proof.
  intros Hi Hk. revert a Hi. induction Hk as [|k ks Hk Hks IH]; intros a Hi Hg Hka Hp Ht.
  - intros Hs. destruct (ai_granted _ Hi Hs) as (_ & _ & _ & [?|?]); cbn in Ht; lia.
  - apply not_elem_of_cons in Hg as [Hg Hgs]. apply not_elem_of_cons in Hka as [Hka Hkas].
    assert (Hi' := authority_inv_call k a Hk Hi).
    destruct (silent_call k a Hi (not_eq_sym Hg) (not_eq_sym Hka) Hk) as [Et Es].
    destruct (decide (ta_state (authority_call k a) = TimAuthorityState.Granted)) as [Hs|Hs];
      [|by apply (stays_ungranted ks (authority_call k a))].
    apply (IH (authority_call k a)); [done..|by rewrite Et|]. rewrite Et, Es by done.
    change (authority_total (k :: ks)) with (authority_passes k + authority_total ks) in Ht.
    assert (H0 := authority_total_nonneg ks Hks). assert (H7 := ai_timeout _ Hi). unfold sat_add. lia.
Qed.
Lemma not_granted a : authority_inv a -> ta_state a <> TimAuthorityState.Granted ->
  forall c, ensure_command c a <> Ok tt.
Proof. intros Hi Hn c Hc. by apply (ensure_command_spec c a Hi) in Hc as [? _]. Qed.

(** C30: whatever is requested, granted, denied, revoked, reported and ticked, in any order, a
    command passes exactly while the authority is granted and the command's option was part of
    the request; then the tractor supports it, no interlock blocks, the operator consents and the
    other side was heard within the timeout.  An interlock, a withdrawn consent, a denial, a
    revocation, or silence for the timeout stops every command at once, and only a new grant
    allows one again. *)
Theorem tim_authority_gate available timeout a :
  length available = TIM_OPTION_BYTES -> 0 <= timeout < 2 ^ 32 ->
  authority_reachable available timeout a ->
  (forall c, ensure_command c a = Ok tt <->
     ta_state a = TimAuthorityState.Granted
     /\ set_contains (TimCommand.required_option c) (ta_requested a) = true)
  /\ (forall c, ensure_command c a = Ok tt ->
        set_contains (TimCommand.required_option c) (ta_available a) = true
        /\ blocking_reason (ta_interlocks a) = None /\ ta_operator_consent a = true
        /\ (ta_comms_timeout_ms a = 0 \/ ta_since_keepalive_ms a < ta_comms_timeout_ms a))
  /\ (forall k ks c,
        match k with
        | AInterlocks i => blocking_reason i <> None
        | AConsent b => b = false
        | ADeny | ARevoke => True
        | _ => False
        end -> Forall authority_call_ok ks -> AGrant ∉ ks ->
        ensure_command c (authority_run (k :: ks) a) <> Ok tt)
  /\ (forall ks c, Forall authority_call_ok ks -> AGrant ∉ ks -> AKeepalive ∉ ks ->
        0 < ta_comms_timeout_ms a -> ta_comms_timeout_ms a <= authority_total ks ->
        ensure_command c (authority_run ks a) <> Ok tt).
Proof.
  intros Hl Hto Hr. assert (Hi := authority_reachable_inv _ _ _ Hl Hto Hr).
  assert (Hruns : forall ks a, Forall authority_call_ok ks -> authority_inv a ->
                    authority_inv (authority_run ks a)).
  { intros ks b Hks. revert b. induction Hks as [|k ks Hk _ IH]; intros b Hb; [done|].
    apply IH. by apply authority_inv_call. }
  split_and!.
  - intros c. by apply ensure_command_spec.
  - intros c Hc. assert (Hc' := Hc). apply (ensure_command_spec c a Hi) in Hc' as [Hs Hreq].
    destruct (ai_granted _ Hi Hs) as (? & ? & _ & ?). split_and!; [|done..].
    eapply subset_contains; [|apply Hi|done]. by rewrite (ai_available _ Hi), (ai_requested _ Hi).
  - intros k ks c Hk Hks Hg.
    assert (Hn : ta_state (authority_call k a) <> TimAuthorityState.Granted).
    { destruct k as [r| | | | |ms|b|i]; try done; cbn [authority_call].
      - subst b. unfold set_operator_consent. cbn. by case_bool_decide.
      - unfold set_interlocks. cbn. case_bool_decide; cbn; [|done].
        rewrite bool_decide_true; [done|]. destruct (blocking_reason i); [by eexists|done]. }
    apply not_granted; [|by apply (stays_ungranted ks (authority_call k a))].
    apply (Hruns (k :: ks)); [|done]. constructor; [by destruct k|done].
  - intros ks c Hks Hg Hka Hp Ht. apply not_granted; [by apply Hruns|].
    apply silence_revokes; try done. assert (H4 := ai_timer _ Hi). lia.
Qed.
(** A tractor that offers rear hitch control: granted, it may be positioned; 300 ms later not. *)
Definition hitch_options : TimOptionSet := from_options [TimOption.RearHitchPositionIsSupported].
Definition granted_authority : TimAuthority :=
  authority_run [ARequest hitch_options; AGrant]
    (with_comms_timeout 300 (TimAuthority_new hitch_options)).
Lemma tim_authority_gate_witness :
  ensure_command TimCommand.RearHitchPosition granted_authority = Ok tt
  /\ ensure_command TimCommand.RearHitchPosition
       (authority_run [ATick 100; ATick 100; ATick 100] granted_authority) <> Ok tt.
Proof.
  destruct (tim_authority_gate hitch_options 300 granted_authority) as (H1 & _ & _ & H4);
    [by vm_compute|done| |].
  - apply (authority_reach_call _ _ AGrant); [|done].
    apply (authority_reach_call _ _ (ARequest hitch_options)); [|by vm_compute]. apply authority_reach_new.
  - split; [apply H1; by vm_compute|].
    apply H4; [repeat (apply Forall_cons_2; [done|]); apply Forall_nil_2| | |by vm_compute|by vm_compute];
      rewrite !not_elem_of_cons; split_and!; try done; apply not_elem_of_nil.
Defined.

(** ** The payloads *)

Lemma of_bytes_back x : in_u 16 x -> of_bytes (lo8 x) (hi8 x) = x.
Proof.
  intros Hx. unfold of_bytes, lo8, hi8. change 0xFF with (Z.ones 8). apply Z.bits_inj'. intros n Hn.
  destruct (Z_lt_dec n 8); [|destruct (Z_lt_dec n 16)]; bits_norm; bits_done.
Qed.
(** A status or a command of the right PGN, from a node to everyone or to another. *)
Definition tim_message (pgn : Pgn) (data : list Z) (src dst : Address) : Message :=
  mkMessage pgn data src dst Priority.Default 0.
(** Statuses and commands survive the wire; one out of range is refused by both sides. *)
Theorem tim_payloads_roundtrip pgn src dst :
  has_usable_envelope_for_pgn (tim_message pgn [] src dst) pgn = true ->
  (forall p, pgn = PGN_FRONT_PTO \/ pgn = PGN_REAR_PTO -> in_u 16 (pto_speed p) ->
     pto_decode (tim_message pgn (pto_encode p) src dst) = Some p)
  /\ (forall h, pgn = PGN_FRONT_HITCH \/ pgn = PGN_REAR_HITCH -> in_u 16 (hitch_position h) ->
     match hitch_try_encode h with
     | Ok data => hitch_decode (tim_message pgn data src dst) = Some h
     | Err _ => hitch_decode (tim_message pgn (hitch_encode h) src dst) = None
     end)
  /\ (forall c, aux_valve_pgn_matches_index pgn (av_index c) = true -> 0 <= av_index c ->
     in_u 16 (av_flow c) -> av_index c < MAX_AUX_VALVES ->
     aux_try_encode c = Ok (aux_encode c)
     /\ aux_decode (tim_message pgn (aux_encode c) src dst) = Some c).
Proof.
  intros He. assert (Hd : forall data, has_usable_envelope_for_pgn (tim_message pgn data src dst) pgn = true)
    by done. split_and!.
  - intros [e c v] Hp Hv. unfold pto_decode. cbn [m_pgn tim_message]. rewrite Hd.
    destruct Hp as [-> | ->]; cbn [m_data tim_message pto_encode pto_speed pto_engaged pto_cw_direction];
      rewrite of_bytes_back by done; by destruct e, c.
  - intros [m p] Hp Hv. unfold hitch_try_encode, hitch_validate, hitch_decode.
    cbn [m_pgn tim_message hitch_position]. rewrite !Hd.
    destruct (Z.ltb_spec MAX_HITCH_POSITION p); destruct Hp as [-> | ->];
      cbn [m_data tim_message hitch_encode hitch_position hitch_motion_enabled];
      rewrite of_bytes_back by done;
      [rewrite (proj2 (Z.ltb_lt _ _)) by done|rewrite (proj2 (Z.ltb_lt _ _)) by done
      |rewrite (proj2 (Z.ltb_ge _ _)) by done|rewrite (proj2 (Z.ltb_ge _ _)) by done]; rewrite ?Hd; by destruct m.
  - intros [i s f] Hm Hi Hf Hx. cbn [av_index av_flow] in *.
    unfold aux_try_encode, aux_validate, aux_decode. cbn [m_pgn tim_message av_index]. rewrite Hd.
    cbn [m_data tim_message aux_encode av_index av_state av_flow]. rewrite (proj2 (Z.leb_gt _ _)) by done.
    split; [done|]. rewrite Hm, of_bytes_back by done. by destruct s.
Qed.
