(* ===== verification/TimPlugin.v ===== *)
(** Tractor implement management in a session: the model of the [Tim] plugin of
    [src/session/plugins/tim.rs] and of the commands of
    [src/isobus/implement/tractor_commands.rs].

    The plugin puts a command on the bus only through the guard of [TimAuthority] and the safe
    mode; what it queues is sent by its next tick or frame. *)
From S2P Require Export TimAuthority.

(** ** [tractor_commands.rs] *)

Module HitchCommand.
Inductive t : Type := NoAction | Lower | Raise | Position.
Definition try_from_u8 (v : Z) : option t :=
  match v with
  | 0 => Some NoAction | 1 => Some Lower | 2 => Some Raise | 3 => Some Position | _ => None
  end.
Definition from_u8 (v : Z) : t :=
  match Z.land v 0x03 with 0 => NoAction | 1 => Lower | 2 => Raise | _ => Position end.
Definition as_u8 (c : t) : Z :=
  match c with NoAction => 0 | Lower => 1 | Raise => 2 | Position => 3 end.
End HitchCommand.
Module PtoCommand.
Inductive t : Type := NoAction | Engage | Disengage | SetSpeed.
Definition try_from_u8 (v : Z) : option t :=
  match v with
  | 0 => Some NoAction | 1 => Some Engage | 2 => Some Disengage | 3 => Some SetSpeed | _ => None
  end.
Definition from_u8 (v : Z) : t :=
  match Z.land v 0x03 with 0 => NoAction | 1 => Engage | 2 => Disengage | _ => SetSpeed end.
Definition as_u8 (c : t) : Z :=
  match c with NoAction => 0 | Engage => 1 | Disengage => 2 | SetSpeed => 3 end.
End PtoCommand.
Module ValveCommand.
Inductive t : Type := NoAction | Extend | Retract | Float | Block.
Definition try_from_u8 (v : Z) : option t :=
  match v with
  | 0 => Some NoAction | 1 => Some Extend | 2 => Some Retract | 3 => Some Float | 4 => Some Block
  | _ => None
  end.
Definition from_u8 (v : Z) : t :=
  match Z.land v 0x07 with
  | 0 => NoAction | 1 => Extend | 2 => Retract | 3 => Float | 4 => Block | _ => NoAction
  end.
Definition as_u8 (c : t) : Z :=
  match c with NoAction => 0 | Extend => 1 | Retract => 2 | Float => 3 | Block => 4 end.
End ValveCommand.
Module TractorMode.
Inductive t : Type := Manual | Automatic | Reserved2 | NotAvailable.
Definition try_from_u8 (v : Z) : option t :=
  match v with 0 => Some Manual | 1 => Some Automatic | 3 => Some NotAvailable | _ => None end.
Definition from_u8 (v : Z) : t :=
  match Z.land v 0x03 with 0 => Manual | 1 => Automatic | 2 => Reserved2 | _ => NotAvailable end.
Definition as_u8 (m : t) : Z :=
  match m with Manual => 0 | Automatic => 1 | Reserved2 => 2 | NotAvailable => 3 end.
End TractorMode.

Definition command_payload_len_is_canonical (data : list Z) : bool := (length data =? 8)%nat.

Record HitchCommandMsg : Type := mkHitchCmd {
  hc_command : HitchCommand.t;
  hc_target_position : Z;
  hc_rate : Z
}.
Definition HitchCommandMsg_default : HitchCommandMsg := mkHitchCmd HitchCommand.NoAction 0xFFFF 0xFF.
Definition hitch_cmd_encode (m : HitchCommandMsg) : list Z :=
  [lo8 (hc_target_position m); hi8 (hc_target_position m); 0xFF; hc_rate m;
   HitchCommand.as_u8 (hc_command m); 0xFF; 0xFF; 0xFF].
Definition hitch_cmd_decode (data : list Z) : option HitchCommandMsg :=
  if negb (command_payload_len_is_canonical data) then None
  else
    match data with
    | d0 :: d1 :: _ :: d3 :: d4 :: _ =>
        command ← HitchCommand.try_from_u8 d4; Some (mkHitchCmd command (of_bytes d0 d1) d3)
    | _ => None
    end.
Record PtoCommandMsg : Type := mkPtoCmd {
  pc_command : PtoCommand.t;
  pc_target_speed_rpm : Z;
  pc_ramp_rate : Z
}.
Definition PtoCommandMsg_default : PtoCommandMsg := mkPtoCmd PtoCommand.NoAction 0xFFFF 0xFF.
Definition pto_cmd_encode (m : PtoCommandMsg) : list Z :=
  [lo8 (pc_target_speed_rpm m); hi8 (pc_target_speed_rpm m); 0xFF; pc_ramp_rate m;
   PtoCommand.as_u8 (pc_command m); 0xFF; 0xFF; 0xFF].
Definition pto_cmd_decode (data : list Z) : option PtoCommandMsg :=
  if negb (command_payload_len_is_canonical data) then None
  else
    match data with
    | d0 :: d1 :: _ :: d3 :: d4 :: _ =>
        command ← PtoCommand.try_from_u8 d4; Some (mkPtoCmd command (of_bytes d0 d1) d3)
    | _ => None
    end.
(** The valves [tractor_commands.rs] commands: 16, where [tim.rs] counts 32. *)
Definition MAX_AUX_VALVE_COMMANDS : Z := 16.
Definition PGN_AUX_VALVE_CMD : Pgn := 0xFE30.
Record AuxValveCommandMsg : Type := mkValveCmd {
  vc_valve_index : Z;
  vc_command : ValveCommand.t;
  vc_flow_rate : Z
}.
Definition AuxValveCommandMsg_default : AuxValveCommandMsg := mkValveCmd 0 ValveCommand.NoAction 0xFFFF.
Definition has_valid_valve_index (m : AuxValveCommandMsg) : bool :=
  vc_valve_index m <? MAX_AUX_VALVE_COMMANDS.
Definition valve_cmd_encode (m : AuxValveCommandMsg) : list Z :=
  [vc_valve_index m; lo8 (vc_flow_rate m); hi8 (vc_flow_rate m); ValveCommand.as_u8 (vc_command m);
   0xFF; 0xFF; 0xFF; 0xFF].
Definition valve_cmd_decode (data : list Z) : option AuxValveCommandMsg :=
  if negb (command_payload_len_is_canonical data) then None
  else
    match data with
    | d0 :: d1 :: d2 :: d3 :: _ =>
        if MAX_AUX_VALVE_COMMANDS <=? d0 then None
        else command ← ValveCommand.try_from_u8 d3; Some (mkValveCmd d0 command (of_bytes d1 d2))
    | _ => None
    end.
Definition valve_cmd_pgn (m : AuxValveCommandMsg) : Pgn := PGN_AUX_VALVE_CMD + vc_valve_index m.
Definition valve_cmd_try_pgn (m : AuxValveCommandMsg) : option Pgn :=
  if has_valid_valve_index m then Some (valve_cmd_pgn m) else None.
Record TractorControlModeMsg : Type := mkControlMode {
  cm_hitch_mode : TractorMode.t;
  cm_pto_mode : TractorMode.t;
  cm_front_hitch_mode : TractorMode.t;
  cm_front_pto_mode : TractorMode.t;
  cm_speed_control_state : Z
}.
Definition TractorControlModeMsg_default : TractorControlModeMsg :=
  mkControlMode TractorMode.NotAvailable TractorMode.NotAvailable TractorMode.NotAvailable
    TractorMode.NotAvailable 0xFF.
Definition control_mode_encode (m : TractorControlModeMsg) : list Z :=
  let at_ n x := wrap 8 (Z.shiftl (Z.land (TractorMode.as_u8 x) 0x03) n) in
  [Z.lor (Z.lor (Z.lor (Z.land (TractorMode.as_u8 (cm_hitch_mode m)) 0x03) (at_ 2 (cm_pto_mode m)))
            (at_ 4 (cm_front_hitch_mode m))) (at_ 6 (cm_front_pto_mode m));
   cm_speed_control_state m; 0xFF; 0xFF; 0xFF; 0xFF; 0xFF; 0xFF].
Definition control_mode_decode (data : list Z) : option TractorControlModeMsg :=
  if negb (command_payload_len_is_canonical data) then None
  else
    match data with
    | d0 :: d1 :: _ =>
        hitch ← TractorMode.try_from_u8 (Z.land d0 0x03);
        pto ← TractorMode.try_from_u8 (Z.land (Z.shiftr d0 2) 0x03);
        front_hitch ← TractorMode.try_from_u8 (Z.land (Z.shiftr d0 4) 0x03);
        front_pto ← TractorMode.try_from_u8 (Z.shiftr d0 6);
        Some (mkControlMode hitch pto front_hitch front_pto d1)
    | _ => None
    end.

(** ** The plugin *)

Definition PGN_REAR_HITCH_CMD : Pgn := 0xFE50.
Definition PGN_FRONT_HITCH_CMD : Pgn := 0xFE51.
Definition PGN_REAR_PTO_CMD : Pgn := 0xFE52.
Definition PGN_FRONT_PTO_CMD : Pgn := 0xFE53.

Module Hitch.
Inductive t : Type := Front | Rear.
Definition cmd_pgn (h : t) : Pgn :=
  match h with Front => PGN_FRONT_HITCH_CMD | Rear => PGN_REAR_HITCH_CMD end.
End Hitch.
Module Pto.
Inductive t : Type := Front | Rear.
Definition cmd_pgn (p : t) : Pgn :=
  match p with Front => PGN_FRONT_PTO_CMD | Rear => PGN_REAR_PTO_CMD end.
End Pto.
Definition pto_status_pgn (p : Pto.t) : Pgn :=
  match p with Pto.Front => PGN_FRONT_PTO | Pto.Rear => PGN_REAR_PTO end.
Definition hitch_status_pgn (h : Hitch.t) : Pgn :=
  match h with Hitch.Front => PGN_FRONT_HITCH | Hitch.Rear => PGN_REAR_HITCH end.

Inductive TimEvent : Type :=
| AuthorityStateChanged (s : TimAuthorityState.t)
| SafeModeEntered (trigger : SafeModeTrigger.t)
| CommandBlocked (command : TimCommand.t) (error : TimValidationError.t)
| PtoStatusEvent (pto : Pto.t) (source : Address) (state : PtoState)
| HitchStatusEvent (hitch : Hitch.t) (source : Address) (state : HitchState)
| PtoCommandEvent (pto : Pto.t) (source : Address) (msg : PtoCommandMsg)
| HitchCommandEvent (hitch : Hitch.t) (source : Address) (msg : HitchCommandMsg)
| AuxValveCommandEvent (source : Address) (command : AuxValveCommand).
(** PGN, payload and destination of a frame the plugin wants sent. *)
Abbreviation TimFrame := (Pgn * list Z * Address)%type.

Record Tim : Type := mkTim {
  tm_authority : TimAuthority;
  tm_front_pto : option PtoState;
  tm_rear_pto : option PtoState;
  tm_front_hitch : option HitchState;
  tm_rear_hitch : option HitchState;
  tm_last_aux : option AuxValveCommand;
  tm_pending_events : list TimEvent;
  tm_pending_tx : list TimFrame;
  tm_last_tick : option Instant.t;
  tm_safe_mode : TecuSafeMode
}.
Definition tm_with_authority (x : TimAuthority) (t : Tim) : Tim :=
  mkTim x (tm_front_pto t) (tm_rear_pto t) (tm_front_hitch t) (tm_rear_hitch t) (tm_last_aux t)
    (tm_pending_events t) (tm_pending_tx t) (tm_last_tick t) (tm_safe_mode t).
Definition tm_with_pto (p : Pto.t) (x : PtoState) (t : Tim) : Tim :=
  mkTim (tm_authority t)
    (match p with Pto.Front => Some x | Pto.Rear => tm_front_pto t end)
    (match p with Pto.Front => tm_rear_pto t | Pto.Rear => Some x end)
    (tm_front_hitch t) (tm_rear_hitch t) (tm_last_aux t)
    (tm_pending_events t) (tm_pending_tx t) (tm_last_tick t) (tm_safe_mode t).
Definition tm_with_hitch (h : Hitch.t) (x : HitchState) (t : Tim) : Tim :=
  mkTim (tm_authority t) (tm_front_pto t) (tm_rear_pto t)
    (match h with Hitch.Front => Some x | Hitch.Rear => tm_front_hitch t end)
    (match h with Hitch.Front => tm_rear_hitch t | Hitch.Rear => Some x end)
    (tm_last_aux t) (tm_pending_events t) (tm_pending_tx t) (tm_last_tick t) (tm_safe_mode t).
Definition tm_with_last_aux (x : AuxValveCommand) (t : Tim) : Tim :=
  mkTim (tm_authority t) (tm_front_pto t) (tm_rear_pto t) (tm_front_hitch t) (tm_rear_hitch t)
    (Some x) (tm_pending_events t) (tm_pending_tx t) (tm_last_tick t) (tm_safe_mode t).
Definition tm_with_pending (events : list TimEvent) (tx : list TimFrame) (t : Tim) : Tim :=
  mkTim (tm_authority t) (tm_front_pto t) (tm_rear_pto t) (tm_front_hitch t) (tm_rear_hitch t)
    (tm_last_aux t) events tx (tm_last_tick t) (tm_safe_mode t).
Definition tm_with_last_tick (x : option Instant.t) (t : Tim) : Tim :=
  mkTim (tm_authority t) (tm_front_pto t) (tm_rear_pto t) (tm_front_hitch t) (tm_rear_hitch t)
    (tm_last_aux t) (tm_pending_events t) (tm_pending_tx t) x (tm_safe_mode t).
Definition tm_with_safe_mode (x : TecuSafeMode) (t : Tim) : Tim :=
  mkTim (tm_authority t) (tm_front_pto t) (tm_rear_pto t) (tm_front_hitch t) (tm_rear_hitch t)
    (tm_last_aux t) (tm_pending_events t) (tm_pending_tx t) (tm_last_tick t) x.
Definition Tim_new (authority : TimAuthority) : Tim :=
  mkTim authority None None None None None [] [] None TecuSafeMode_new.

Definition push_event (e : TimEvent) (t : Tim) : Tim :=
  tm_with_pending (tm_pending_events t ++ [e]) (tm_pending_tx t) t.
Definition push_tx (f : TimFrame) (t : Tim) : Tim :=
  tm_with_pending (tm_pending_events t) (tm_pending_tx t ++ [f]) t.
Definition push_state (t : Tim) : Tim :=
  push_event (AuthorityStateChanged (ta_state (tm_authority t))) t.
(** What a callback hands to its context: events and frames. *)
Abbreviation TimOut := (list TimEvent * list TimFrame)%type.
Definition drain_pending (t : Tim) : Tim * TimOut :=
  (tm_with_pending [] [] t, (tm_pending_events t, tm_pending_tx t)).

Definition enter_safe_mode (trigger : SafeModeTrigger.t) (t : Tim) : Tim :=
  tm_with_safe_mode (safe_mode_enter trigger (tm_safe_mode t)) t.
Definition clear_safe_mode (t : Tim) : Tim :=
  tm_with_safe_mode (safe_mode_clear (tm_safe_mode t)) t.
Definition request_authority (requested : TimOptionSet) (t : Tim)
    : Tim * Result unit TimValidationError.t :=
  let '(a, r) := authority_request requested (tm_authority t) in
  let t := tm_with_authority a t in
  match r with Err e => (t, Err e) | Ok _ => (push_state t, Ok tt) end.
Definition grant_authority (t : Tim) : Tim * Result unit TimValidationError.t :=
  let '(a, r) := authority_grant (tm_authority t) in
  let t := tm_with_authority a t in
  match r with Err e => (t, Err e) | Ok _ => (push_state t, Ok tt) end.
Definition deny_authority (t : Tim) : Tim :=
  push_state (tm_with_authority (authority_deny (tm_authority t)) t).
Definition revoke_authority (t : Tim) : Tim :=
  push_state (tm_with_authority (authority_revoke (tm_authority t)) t).
Definition tim_set_interlocks (interlocks : TimInterlocks) (t : Tim) : Tim :=
  let before := ta_state (tm_authority t) in
  let t := tm_with_authority (set_interlocks interlocks (tm_authority t)) t in
  if bool_decide (ta_state (tm_authority t) <> before) then push_state t else t.
Definition guarded (guard : TimCommand.t) (pgn : Pgn) (data : list Z) (t : Tim)
    : Tim * Result unit TimValidationError.t :=
  if negb (safe_mode_allows (TimCommand.safe_mode_kind guard) (tm_safe_mode t)) then
    (push_event (CommandBlocked guard TimValidationError.SafeModeActive) t,
     Err TimValidationError.SafeModeActive)
  else
    match ensure_command guard (tm_authority t) with
    | Ok _ => (push_tx (pgn, data, BROADCAST_ADDRESS) t, Ok tt)
    | Err error => (push_event (CommandBlocked guard error) t, Err error)
    end.
Definition command_hitch_position (hitch : Hitch.t) (target_position rate : Z) : Tim -> _ :=
  guarded (match hitch with
           | Hitch.Front => TimCommand.FrontHitchPosition | Hitch.Rear => TimCommand.RearHitchPosition
           end) (Hitch.cmd_pgn hitch)
    (hitch_cmd_encode (mkHitchCmd HitchCommand.Position target_position rate)).
Definition command_pto_engage (pto : Pto.t) (cw_direction : bool) : Tim -> _ :=
  guarded (match pto, cw_direction with
           | Pto.Front, false => TimCommand.FrontPtoEngageCcw
           | Pto.Front, true => TimCommand.FrontPtoEngageCw
           | Pto.Rear, false => TimCommand.RearPtoEngageCcw
           | Pto.Rear, true => TimCommand.RearPtoEngageCw
           end) (Pto.cmd_pgn pto) (pto_cmd_encode (mkPtoCmd PtoCommand.Engage 0xFFFF 0xFF)).
Definition command_pto_disengage (pto : Pto.t) : Tim -> _ :=
  guarded (match pto with
           | Pto.Front => TimCommand.FrontPtoDisengage | Pto.Rear => TimCommand.RearPtoDisengage
           end) (Pto.cmd_pgn pto) (pto_cmd_encode (mkPtoCmd PtoCommand.Disengage 0xFFFF 0xFF)).
Definition broadcast_pto_status (pto : Pto.t) (status : PtoState) : Tim -> Tim :=
  push_tx (pto_status_pgn pto, pto_encode status, BROADCAST_ADDRESS).
Definition broadcast_hitch_status (hitch : Hitch.t) (status : HitchState) (t : Tim)
    : Tim * Result unit TimValidationError.t :=
  match hitch_try_encode status with
  | Err e => (t, Err e)
  | Ok data => (push_tx (hitch_status_pgn hitch, data, BROADCAST_ADDRESS) t, Ok tt)
  end.

(** ** Callbacks *)

(** What a frame reports: the event, and the plugin with the status kept. *)
Definition observe (msg : Message) (t : Tim) : Tim * list TimEvent :=
  let pgn := m_pgn msg in
  if (pgn =? PGN_FRONT_PTO) || (pgn =? PGN_REAR_PTO) then
    match pto_decode msg with
    | Some state =>
        let pto := if pgn =? PGN_FRONT_PTO then Pto.Front else Pto.Rear in
        (tm_with_pto pto state t, [PtoStatusEvent pto (m_source msg) state])
    | None => (t, [])
    end
  else if (pgn =? PGN_FRONT_HITCH) || (pgn =? PGN_REAR_HITCH) then
    match hitch_decode msg with
    | Some state =>
        let hitch := if pgn =? PGN_FRONT_HITCH then Hitch.Front else Hitch.Rear in
        (tm_with_hitch hitch state t, [HitchStatusEvent hitch (m_source msg) state])
    | None => (t, [])
    end
  else if (pgn =? PGN_FRONT_PTO_CMD) || (pgn =? PGN_REAR_PTO_CMD) then
    match pto_cmd_decode (m_data msg) with
    | Some decoded =>
        let pto := if pgn =? PGN_FRONT_PTO_CMD then Pto.Front else Pto.Rear in
        (t, [PtoCommandEvent pto (m_source msg) decoded])
    | None => (t, [])
    end
  else if (pgn =? PGN_FRONT_HITCH_CMD) || (pgn =? PGN_REAR_HITCH_CMD) then
    match hitch_cmd_decode (m_data msg) with
    | Some decoded =>
        let hitch := if pgn =? PGN_FRONT_HITCH_CMD then Hitch.Front else Hitch.Rear in
        (t, [HitchCommandEvent hitch (m_source msg) decoded])
    | None => (t, [])
    end
  else if (pgn =? PGN_AUX_VALVE_0_7) || (pgn =? PGN_AUX_VALVE_8_15)
          || (pgn =? PGN_AUX_VALVE_16_23) || (pgn =? PGN_AUX_VALVE_24_31) then
    match aux_decode msg with
    | Some command => (tm_with_last_aux command t, [AuxValveCommandEvent (m_source msg) command])
    | None => (t, [])
    end
  else (t, []).
Definition plugin_on_frame (msg : Message) (t : Tim) : Tim * TimOut :=
  if negb (has_usable_envelope_for_pgn msg (m_pgn msg)) then (t, ([], []))
  else
    let t := tm_with_authority (authority_keepalive (tm_authority t)) t in
    let '(t, emitted) := observe msg t in
    let '(t, (events, frames)) := drain_pending t in (t, (emitted ++ events, frames)).
(** What the plugin reads of a session event: whether [MaintainPower] reports the power off, and
    otherwise the stop trigger [SafeStopTrigger::from_event] gives it. *)
Inductive SessionEvent : Type :=
| EvPowerOff
| EvStop (trigger : option SafeStopTrigger.t).
Definition safe_mode_trigger (event : SessionEvent) : option SafeModeTrigger.t :=
  match event with
  | EvPowerOff => Some SafeModeTrigger.EcuPowerLoss
  | EvStop (Some SafeStopTrigger.BusOff) => Some SafeModeTrigger.CanBusFail
  | EvStop (Some (SafeStopTrigger.AddressClaimLost | SafeStopTrigger.HeartbeatError)) =>
      Some SafeModeTrigger.TecuCommLoss
  | EvStop (Some SafeStopTrigger.KeySwitchOff) => Some SafeModeTrigger.PowerLoss
  | EvStop _ => None
  end.
Definition plugin_on_event (event : SessionEvent) (t : Tim) : Tim * TimOut :=
  match safe_mode_trigger event with
  | None => (t, ([], []))
  | Some trigger =>
      if sf_active (tm_safe_mode t) then (t, ([], []))
      else drain_pending (push_event (SafeModeEntered trigger) (enter_safe_mode trigger t))
  end.
(** The plugin, what it hands out, and when it wants the next tick. *)
Definition plugin_on_tick (now : Instant.t) (t : Tim) : Tim * TimOut * Instant.t :=
  let '(last_tick, elapsed) := advance_millis (tm_last_tick t) now in
  let t := tm_with_last_tick last_tick t in
  let t :=
    if 0 <? elapsed then
      let '(a, revoked) := authority_tick elapsed (tm_authority t) in
      let t := tm_with_authority a t in if revoked then push_state t else t
    else t in
  let '(t, out) := drain_pending t in (t, out, Instant.add_millis now TIM_UPDATE_INTERVAL_MS).

(** ** Every call *)

Inductive PluginCall : Type :=
| CRequest (requested : TimOptionSet) | CGrant | CDeny | CRevoke
| CInterlocks (interlocks : TimInterlocks)
| CEnterSafeMode (trigger : SafeModeTrigger.t) | CClearSafeMode
| CHitchPosition (hitch : Hitch.t) (target_position rate : Z)
| CPtoEngage (pto : Pto.t) (cw_direction : bool)
| CPtoDisengage (pto : Pto.t)
| CPtoStatus (pto : Pto.t) (status : PtoState)
| CHitchStatus (hitch : Hitch.t) (status : HitchState)
| CFrame (msg : Message)
| CEvent (event : SessionEvent)
| CTick (now : Instant.t).
Definition no_out : TimOut := ([], []).
Definition plugin_call (k : PluginCall) (t : Tim) : Tim * TimOut :=
  match k with
  | CRequest requested => ((request_authority requested t).1, no_out)
  | CGrant => ((grant_authority t).1, no_out)
  | CDeny => (deny_authority t, no_out)
  | CRevoke => (revoke_authority t, no_out)
  | CInterlocks interlocks => (tim_set_interlocks interlocks t, no_out)
  | CEnterSafeMode trigger => (enter_safe_mode trigger t, no_out)
  | CClearSafeMode => (clear_safe_mode t, no_out)
  | CHitchPosition hitch p r => ((command_hitch_position hitch p r t).1, no_out)
  | CPtoEngage pto cw => ((command_pto_engage pto cw t).1, no_out)
  | CPtoDisengage pto => ((command_pto_disengage pto t).1, no_out)
  | CPtoStatus pto status => (broadcast_pto_status pto status t, no_out)
  | CHitchStatus hitch status => ((broadcast_hitch_status hitch status t).1, no_out)
  | CFrame msg => plugin_on_frame msg t
  | CEvent event => plugin_on_event event t
  | CTick now => (plugin_on_tick now t).1
  end.
(** The plugin after the calls, and the frames it sent. *)
Fixpoint plugin_run (ks : list PluginCall) (t : Tim) : Tim * list TimFrame :=
  match ks with
  | [] => (t, [])
  | k :: ks =>
      let '(t, (_, frames)) := plugin_call k t in
      let '(t, rest) := plugin_run ks t in (t, frames ++ rest)
  end.

(** ** What may reach the bus *)

(** The command a call asks for, with its frame. *)
Definition command_of (k : PluginCall) : option (TimCommand.t * TimFrame) :=
  match k with
  | CHitchPosition h p r =>
      Some (match h with
            | Hitch.Front => TimCommand.FrontHitchPosition
            | Hitch.Rear => TimCommand.RearHitchPosition
            end,
            (Hitch.cmd_pgn h, hitch_cmd_encode (mkHitchCmd HitchCommand.Position p r),
             BROADCAST_ADDRESS))
  | CPtoEngage p cw =>
      Some (match p, cw with
            | Pto.Front, false => TimCommand.FrontPtoEngageCcw
            | Pto.Front, true => TimCommand.FrontPtoEngageCw
            | Pto.Rear, false => TimCommand.RearPtoEngageCcw
            | Pto.Rear, true => TimCommand.RearPtoEngageCw
            end,
            (Pto.cmd_pgn p, pto_cmd_encode (mkPtoCmd PtoCommand.Engage 0xFFFF 0xFF),
             BROADCAST_ADDRESS))
  | CPtoDisengage p =>
      Some (match p with
            | Pto.Front => TimCommand.FrontPtoDisengage
            | Pto.Rear => TimCommand.RearPtoDisengage
            end,
            (Pto.cmd_pgn p, pto_cmd_encode (mkPtoCmd PtoCommand.Disengage 0xFFFF 0xFF),
             BROADCAST_ADDRESS))
  | _ => None
  end.
(** The gate of the specification: authority granted over the command's option, and in safe mode
    only a stop. *)
Definition permitted (c : TimCommand.t) (t : Tim) : Prop :=
  ta_state (tm_authority t) = TimAuthorityState.Granted
  /\ set_contains (TimCommand.required_option c) (ta_requested (tm_authority t)) = true
  /\ (sf_active (tm_safe_mode t) = true -> TimCommand.safe_mode_kind c = TecuCommandKind.Disengage).
#[export] Instance permitted_dec c t : Decision (permitted c t).
Proof.
  unfold permitted.
  destruct (decide (ta_state (tm_authority t) = TimAuthorityState.Granted)); [|right; tauto].
  destruct (set_contains _ _); [|right; intros (_ & ? & _); done].
  destruct (sf_active _), (TimCommand.safe_mode_kind c); first [left; done|right; intros (_ & _ & H); by specialize (H eq_refl)].
Defined.
(** The frames a call may put on the bus. *)
Definition admitted (k : PluginCall) (t : Tim) : list TimFrame :=
  match command_of k with
  | Some (c, f) => if decide (permitted c t) then [f] else []
  | None =>
      match k with
      | CPtoStatus pto status => [(pto_status_pgn pto, pto_encode status, BROADCAST_ADDRESS)]
      | CHitchStatus hitch status =>
          if hitch_position status <=? MAX_HITCH_POSITION
          then [(hitch_status_pgn hitch, hitch_encode status, BROADCAST_ADDRESS)] else []
      | _ => []
      end
  end.
Fixpoint admitted_run (ks : list PluginCall) (t : Tim) : list TimFrame :=
  match ks with
  | [] => []
  | k :: ks => admitted k t ++ admitted_run ks (plugin_call k t).1
  end.
Definition plugin_call_ok (k : PluginCall) : Prop :=
  match k with CRequest requested => length requested = TIM_OPTION_BYTES | _ => True end.

(** ** The calls keep the authority's invariant *)

Lemma observe_keeps msg t t' es :
  observe msg t = (t', es) ->
  tm_authority t' = tm_authority t /\ tm_safe_mode t' = tm_safe_mode t
  /\ tm_pending_tx t' = tm_pending_tx t /\ tm_pending_events t' = tm_pending_events t.
Proof. unfold observe. repeat case_match; by intros [= <- _]. Qed.
Lemma guarded_keeps c pgn data t :
  tm_authority (guarded c pgn data t).1 = tm_authority t
  /\ tm_safe_mode (guarded c pgn data t).1 = tm_safe_mode t.
Proof. unfold guarded. by repeat case_match. Qed.
Lemma plugin_authority k t :
  exists ka, authority_inv (tm_authority t) -> plugin_call_ok k ->
    authority_call_ok ka
    /\ (tm_authority (plugin_call k t).1 = tm_authority t
        \/ tm_authority (plugin_call k t).1 = authority_call ka (tm_authority t)).
Proof.
  destruct k as [r| | | |i|tr| |h p v|p cw|p|p s|h s|msg|e|now]; cbn [plugin_call plugin_call_ok fst].
  - exists (ARequest r). intros _ Hk. split; [done|]. right. unfold request_authority. cbn.
    by destruct (authority_request r _) as [a []].
  - exists AGrant. intros _ _. split; [done|]. right. unfold grant_authority. cbn.
    by destruct (authority_grant _) as [a []].
  - exists ADeny. by auto.
  - exists ARevoke. by auto.
  - exists (AInterlocks i). intros _ _. split; [done|]. right. unfold tim_set_interlocks. cbv zeta.
    by case_bool_decide.
  - exists ADeny. by auto.
  - exists ADeny. by auto.
  - exists ADeny. intros _ _. split; [done|]. left. by apply guarded_keeps.
  - exists ADeny. intros _ _. split; [done|]. left. by apply guarded_keeps.
  - exists ADeny. intros _ _. split; [done|]. left. by apply guarded_keeps.
  - exists ADeny. by auto.
  - exists ADeny. intros _ _. split; [done|]. left. unfold broadcast_hitch_status. by case_match.
  - exists AKeepalive. intros _ _. split; [done|]. unfold plugin_on_frame.
    case_match; [by left|]. right. destruct (observe _ _) as [t' es] eqn:E.
    apply observe_keeps in E as (E & _). exact E.
  - exists ADeny. intros _ _. split; [done|]. left. unfold plugin_on_event. by repeat case_match.
  - destruct (advance_millis (tm_last_tick t) now) as [l e] eqn:El. exists (ATick (Z.max 0 e)).
    intros _ _. split; [cbn; lia|]. unfold plugin_on_tick. rewrite El.
    destruct (Z.ltb_spec 0 e); [right|by left].
    rewrite Z.max_r by lia. cbn. by destruct (authority_tick e _) as [a []].
Qed.
Lemma plugin_inv k t :
  plugin_call_ok k -> authority_inv (tm_authority t) -> authority_inv (tm_authority (plugin_call k t).1).
Proof.
  intros Hk Hi. destruct (plugin_authority k t) as (ka & H). destruct (H Hi Hk) as (Ho & [-> | ->]); [done|].
  by apply authority_inv_call.
Qed.

(** ** The guard *)

Lemma guarded_spec c pgn data t :
  authority_inv (tm_authority t) ->
  if decide (permitted c t)
  then guarded c pgn data t = (push_tx (pgn, data, BROADCAST_ADDRESS) t, Ok tt)
  else exists e, guarded c pgn data t = (push_event (CommandBlocked c e) t, Err e).
Proof.
  intros Hi. assert (He := ensure_command_spec c _ Hi). unfold guarded, safe_mode_allows, permitted.
  case_decide as Hp.
  - destruct Hp as (H1 & H2 & H3). rewrite (proj2 He) by done.
    destruct (sf_active _); [|done]. by rewrite H3.
  - destruct (sf_active (tm_safe_mode t)) eqn:Ea; cbn [negb orb].
    + destruct (TimCommand.safe_mode_kind c) eqn:Ek; cbn [negb]; [by eexists| |by destruct c].
      destruct (ensure_command _ _) as [[]|e]; [|by eexists]. destruct (proj1 He eq_refl). tauto.
    + destruct (ensure_command _ _) as [[]|e]; [|by eexists]. destruct (proj1 He eq_refl).
      destruct Hp. by split_and!.
Qed.
Lemma command_call k c f t :
  command_of k = Some (c, f) -> plugin_call k t = ((guarded c f.1.1 f.1.2 t).1, no_out)
                                /\ f.2 = BROADCAST_ADDRESS.
Proof. destruct k; cbn; try done; by intros [= <- <-]. Qed.
Lemma drained t : forall out, drain_pending t = out ->
  tm_pending_tx out.1 = [] /\ out.2.2 = tm_pending_tx t /\ out.2.1 = tm_pending_events t.
Proof. by intros out <-. Qed.
Lemma plugin_call_frames k t :
  authority_inv (tm_authority t) ->
  (plugin_call k t).2.2 ++ tm_pending_tx (plugin_call k t).1 = tm_pending_tx t ++ admitted k t.
Proof.
  intros Hi. unfold admitted. destruct (command_of k) as [[c f]|] eqn:Ec.
  - destruct (command_call _ _ _ t Ec) as [-> Eb]. assert (H := guarded_spec c f.1.1 f.1.2 t Hi).
    case_decide; [|destruct H as [e ->]; by rewrite app_nil_r].
    rewrite H. destruct f as [[pgn data] dst]. cbn in *. by subst.
  - destruct k as [r| | | |i|tr| | | | |p s|h s|msg|e|now]; try done; cbn [plugin_call fst snd no_out app];
      rewrite ?app_nil_r; try done.
    + unfold request_authority. by repeat case_match.
    + unfold grant_authority. by repeat case_match.
    + unfold tim_set_interlocks. cbv zeta. by case_bool_decide.
    + unfold broadcast_hitch_status, hitch_try_encode, hitch_validate.
      destruct (Z.ltb_spec MAX_HITCH_POSITION (hitch_position s)).
      * rewrite (proj2 (Z.leb_gt _ _)) by done. by rewrite app_nil_r.
      * by rewrite (proj2 (Z.leb_le _ _)) by done.
    + unfold plugin_on_frame. case_match; [done|]. destruct (observe _ _) as [t' es] eqn:E.
      apply observe_keeps in E as (_ & _ & E & _). cbn. by rewrite app_nil_r.
    + unfold plugin_on_event. repeat case_match; try done. cbn. by rewrite app_nil_r.
    + unfold plugin_on_tick. destruct (advance_millis _ _) as [l e]. cbv zeta.
      destruct (0 <? e); [destruct (authority_tick _ _) as [a []]|]; cbn; by rewrite app_nil_r.
Qed.
Lemma plugin_run_frames ks t t' sent :
  Forall plugin_call_ok ks -> authority_inv (tm_authority t) -> plugin_run ks t = (t', sent) ->
  sent ++ tm_pending_tx t' = tm_pending_tx t ++ admitted_run ks t /\ authority_inv (tm_authority t').
Proof.
  intros Hk. revert t t' sent. induction Hk as [|k ks Hk _ IH]; intros t t' sent Hi; cbn [plugin_run admitted_run].
  { intros [= <- <-]. by rewrite app_nil_r. }
  assert (Hf := plugin_call_frames k t Hi). assert (Hi' := plugin_inv k t Hk Hi).
  destruct (plugin_call k t) as [t1 [es fs]]. cbn [fst snd] in *.
  destruct (plugin_run ks t1) as [t2 rest] eqn:E. intros [= <- <-].
  destruct (IH _ _ _ Hi' E) as [H1 H2]. split; [|done]. by rewrite <-app_assoc, H1, app_assoc, Hf, app_assoc.
Qed.
(** Safe mode ends only when it is cleared. *)
Lemma safe_mode_stays k t :
  k <> CClearSafeMode -> sf_active (tm_safe_mode t) = true ->
  sf_active (tm_safe_mode (plugin_call k t).1) = true.
Proof.
  intros Hk Ha. destruct k as [r| | | |i|tr| |h p v|p cw|p|p s|h s|msg|e|now]; try done; cbn [plugin_call fst].
  - unfold request_authority. by repeat case_match.
  - unfold grant_authority. by repeat case_match.
  - unfold tim_set_interlocks. cbv zeta. by case_bool_decide.
  - unfold command_hitch_position. by rewrite (proj2 (guarded_keeps _ _ _ _)).
  - unfold command_pto_engage. by rewrite (proj2 (guarded_keeps _ _ _ _)).
  - unfold command_pto_disengage. by rewrite (proj2 (guarded_keeps _ _ _ _)).
  - unfold broadcast_hitch_status. by repeat case_match.
  - unfold plugin_on_frame. case_match; [done|]. destruct (observe _ _) as [t' es] eqn:E.
    apply observe_keeps in E as (_ & E & _). cbn. by rewrite E.
  - unfold plugin_on_event. by repeat case_match.
  - unfold plugin_on_tick. destruct (advance_millis _ _) as [l e]. cbv zeta.
    by destruct (0 <? e); [destruct (authority_tick _ _) as [a []]|].
Qed.
Lemma safe_mode_run ks t :
  CClearSafeMode ∉ ks -> sf_active (tm_safe_mode t) = true ->
  sf_active (tm_safe_mode (plugin_run ks t).1) = true.
Proof.
  revert t. induction ks as [|k ks IH]; intros t Hn Ha; [done|]. apply not_elem_of_cons in Hn as [Hk Hn].
  assert (H := safe_mode_stays k t (not_eq_sym Hk) Ha). cbn [plugin_run].
  destruct (plugin_call k t) as [t1 [es fs]]. specialize (IH t1 Hn H). by destruct (plugin_run ks t1).
Qed.

(** Rear hitch control: the position is sent by the next tick; without power it is refused. *)
Definition hitch_calls : list PluginCall :=
  [CRequest hitch_options; CGrant; CHitchPosition Hitch.Rear 5000 10; CTick 1000000].

(** ** What modelling showed *)

Definition pto_options : TimOptionSet :=
  from_options [TimOption.FrontPtoEngagementCwIsSupported; TimOption.FrontPtoDisengagementIsSupported].
Definition pto_granted : list PluginCall := [CRequest pto_options; CGrant].
(** An engagement let through and not yet sent is sent by the very event that enters safe mode,
    and by the next tick after a revocation. *)
Lemma tim_queued_command_sent :
  let engage := (PGN_FRONT_PTO_CMD, pto_cmd_encode (mkPtoCmd PtoCommand.Engage 0xFFFF 0xFF), BROADCAST_ADDRESS) in
  let run ks := plugin_run (pto_granted ++ CPtoEngage Pto.Front true :: ks)
                  (Tim_new (TimAuthority_new pto_options)) in
  (run [CEvent (EvStop (Some SafeStopTrigger.BusOff))]).2 = [engage]
  /\ (run [CRevoke; CTick 0]).2 = [engage]
  /\ ta_state (tm_authority (run [CRevoke; CTick 0]).1) = TimAuthorityState.Revoked.
Proof. by vm_compute. Qed.
(** After a revocation a stop is refused as any command is. *)
Lemma tim_stop_refused :
  let run ks := plugin_run (pto_granted ++ CPtoEngage Pto.Front true :: CTick 0 :: ks)
                  (Tim_new (TimAuthority_new pto_options)) in
  (command_pto_disengage Pto.Front (run [CRevoke]).1).2
  = Err (TimValidationError.AuthorityNotGranted TimAuthorityState.Revoked).
Proof. by vm_compute. Qed.
