(* ===== verification/TimAuth.v ===== *)
(** Tractor implement management, authentication: the model of [src/isobus/tim/auth.rs].

    The certificate parser and the cryptography are the packages [x509-cert], [rsa],
    [x25519-dalek], [sha2] and [cmac]: they are the parameters of class [Crypto], and what the
    handshake relies on is class [CryptoLaws].  The theorems are about the handshake itself: two
    honest sides authenticate each other, and a side is authenticated only over a verified chain,
    an agreed key and a right answer. *)
From S2P Require Export Types.

Definition RANDOM_CHALLENGE_LEN : nat := 32.
Definition SIGNED_CHALLENGE_LEN : nat := 16.
Definition CMAC_LEN : nat := 16.
Definition MIN_CRL_ENTRIES : nat := 1000.
Definition OID_X25519 : list Z := [0x2B; 0x65; 0x6E].

(** ** Error codes and roles *)

Module AuthError.
Inductive t : Type :=
| ParticipantBusy | CertificateFormatNotSupported | RootCertificateSignatureInvalid
| ManufacturerCertificateSignatureInvalid | DeviceCertificateSignatureInvalid
| ChallengesDoNotMatch | InternalError | RootCertificateDataCorrupt
| ManufacturerCertificateDataCorrupt | DeviceCertificateDataCorrupt | AuthenticationStatusLost
| AuthenticationStatusInvalid | CertificateChainInvalid | EccPublicKeyValidationFailed
| RootCertificateRevoked | LabCertificateRevoked | ManufacturerCertificateRevoked
| ManufacturerSeriesCertificateRevoked | DeviceCertificateRevoked | ChallengeLengthInvalid
| ChallengeDataCorrupt.
Definition as_u8 (e : t) : Z :=
  match e with
  | ParticipantBusy => 0x01 | CertificateFormatNotSupported => 0x02
  | RootCertificateSignatureInvalid => 0x04 | ManufacturerCertificateSignatureInvalid => 0x06
  | DeviceCertificateSignatureInvalid => 0x08 | ChallengesDoNotMatch => 0x09
  | InternalError => 0x0A | RootCertificateDataCorrupt => 0x0B
  | ManufacturerCertificateDataCorrupt => 0x0D | DeviceCertificateDataCorrupt => 0x0F
  | AuthenticationStatusLost => 0x10 | AuthenticationStatusInvalid => 0x12
  | CertificateChainInvalid => 0x17 | EccPublicKeyValidationFailed => 0x14
  | RootCertificateRevoked => 0x19 | LabCertificateRevoked => 0x1A
  | ManufacturerCertificateRevoked => 0x1B | ManufacturerSeriesCertificateRevoked => 0x1C
  | DeviceCertificateRevoked => 0x1D | ChallengeLengthInvalid => 0x23
  | ChallengeDataCorrupt => 0x24
  end.
End AuthError.
Import AuthError.

Module CertificateRole.
Inductive t : Type := Root | TestLab | Manufacturer | ManufacturerSeries | Device.
Definition CHAIN : list t := [Root; TestLab; Manufacturer; ManufacturerSeries; Device].
Definition corrupt_error (r : t) : AuthError.t :=
  match r with
  | Root | TestLab => RootCertificateDataCorrupt
  | Manufacturer | ManufacturerSeries => ManufacturerCertificateDataCorrupt
  | Device => DeviceCertificateDataCorrupt
  end.
Definition signature_error (r : t) : AuthError.t :=
  match r with
  | Root | TestLab => RootCertificateSignatureInvalid
  | Manufacturer | ManufacturerSeries => ManufacturerCertificateSignatureInvalid
  | Device => DeviceCertificateSignatureInvalid
  end.
Definition revoked_error (r : t) : AuthError.t :=
  match r with
  | Root => RootCertificateRevoked | TestLab => LabCertificateRevoked
  | Manufacturer => ManufacturerCertificateRevoked
  | ManufacturerSeries => ManufacturerSeriesCertificateRevoked
  | Device => DeviceCertificateRevoked
  end.
(** [CHAIN.get(index).copied().unwrap_or(Device)] *)
Definition at_index (index : nat) : t := default Device (CHAIN !! index).
End CertificateRole.

(** ** The packages *)

Class Crypto : Type := {
  (** [x509_cert::Certificate] with the parts the code reads. *)
  Certificate : Type;
  DistinguishedName : Type;
  dn_eq_dec :: EqDecision DistinguishedName;
  from_der : list Z -> option Certificate;
  subject : Certificate -> DistinguishedName;
  issuer : Certificate -> DistinguishedName;
  dn_to_der : DistinguishedName -> option (list Z);
  serial_number : Certificate -> list Z;
  spki_to_der : Certificate -> option (list Z);
  spki_oid : Certificate -> list Z;
  spki_key : Certificate -> option (list Z);
  tbs_to_der : Certificate -> option (list Z);
  raw_signature : Certificate -> list Z;
  (** [rsa]: the public key, the size of its modulus, PSS signatures with SHA-256. *)
  RsaPublicKey : Type;
  PssSignature : Type;
  from_public_key_der : list Z -> option RsaPublicKey;
  modulus_bits : RsaPublicKey -> Z;
  signature_try_from : list Z -> option PssSignature;
  pss_verify : RsaPublicKey -> list Z -> PssSignature -> bool;
  (** [x25519_dalek] *)
  x25519_public : list Z -> list Z;
  diffie_hellman : list Z -> list Z -> list Z;
  was_contributory : list Z -> bool;
  (** [sha2] and [cmac] over AES-128 *)
  sha256 : list Z -> list Z;
  cmac_aes128 : list Z -> list Z -> list Z
}.
(** The key exchange is symmetric and a CMAC tag has sixteen bytes. *)
Class CryptoLaws (C : Crypto) : Prop := {
  diffie_hellman_comm a b : diffie_hellman a (x25519_public b) = diffie_hellman b (x25519_public a);
  cmac_length key data : length (cmac_aes128 key data) = CMAC_LEN
}.

(** [CertificateRevocationList]: issuer and serial number of every entry. *)
Definition CertificateRevocationList : Type := list (list Z * list Z).
Definition crl_revoke (i s : list Z) (l : CertificateRevocationList) : CertificateRevocationList :=
  l ++ [(i, s)].
Definition crl_contains (i s : list Z) (l : CertificateRevocationList) : bool :=
  existsb (fun e => bool_decide (e.1 = i) && bool_decide (e.2 = s)) l.

Module AuthState.
Inductive t : Type :=
| Unauthenticated | CertificatesExchanged | KeyAgreed | ChallengeIssued | Authenticated
| Failed (error : AuthError.t).
End AuthState.
Module TimRole.
Inductive t : Type := Client | Server.
End TimRole.

(** [a < b] on slices *)
Fixpoint slice_ltb (a b : list Z) : bool :=
  match a, b with
  | _, [] => false
  | [], _ :: _ => true
  | x :: a, y :: b => if x <? y then true else if y <? x then false else slice_ltb a b
  end.
(** [(len as u16).to_be_bytes()] *)
Definition len_be (l : list Z) : list Z :=
  let n := wrap 16 (Z.of_nat (length l)) in [Z.shiftr n 8; Z.land n 0xFF].
Definition constant_time_eq (a b : list Z) : bool :=
  if negb (length a =? length b)%nat then false
  else foldl (fun diff xy => Z.lor diff (Z.lxor xy.1 xy.2)) 0 (zip a b) =? 0.

Section crypto.
Context {C : Crypto}.

(** ** Certificate chains *)

Definition CertificateChain : Type := list Certificate.
Fixpoint parse_links (index : nat) (links : list (list Z)) : Result CertificateChain AuthError.t :=
  match links with
  | [] => Ok []
  | der :: links =>
      match from_der der with
      | None => Err (CertificateRole.corrupt_error (CertificateRole.at_index index))
      | Some certificate =>
          match parse_links (S index) links with
          | Err e => Err e
          | Ok certificates => Ok (certificate :: certificates)
          end
      end
  end.
Definition parse_der : list (list Z) -> Result CertificateChain AuthError.t := parse_links 0.
(** [windows(2)] *)
Definition windows2 (chain : CertificateChain) : list (Certificate * Certificate) :=
  zip chain (tail chain).
Definition check_issuer_linkage (chain : CertificateChain) : Result unit AuthError.t :=
  if forallb (fun pair => bool_decide (subject pair.1 = issuer pair.2)) (windows2 chain)
  then Ok tt else Err CertificateChainInvalid.
Definition verify_link (parent child : Certificate) : bool :=
  match spki_to_der parent with
  | None => false
  | Some spki =>
      match from_public_key_der spki with
      | None => false
      | Some public =>
          if modulus_bits public <? 2048 then false
          else
            match tbs_to_der child, signature_try_from (raw_signature child) with
            | Some tbs, Some signature => pss_verify public tbs signature
            | _, _ => false
            end
      end
  end.
Fixpoint verify_pairs (index : nat) (pairs : list (Certificate * Certificate))
    : Result unit AuthError.t :=
  match pairs with
  | [] => Ok tt
  | (parent, child) :: pairs =>
      if verify_link parent child then verify_pairs (S index) pairs
      else Err (CertificateRole.signature_error (CertificateRole.at_index (index + 1)))
  end.
Definition verify_signatures (trust_anchor : list Z) (chain : CertificateChain)
    : Result unit AuthError.t :=
  match chain with
  | [] => Err DeviceCertificateDataCorrupt
  | root :: _ =>
      match spki_to_der root with
      | None => Err (CertificateRole.signature_error CertificateRole.Root)
      | Some root_spki =>
          if bool_decide (root_spki <> trust_anchor)
          then Err (CertificateRole.signature_error CertificateRole.Root)
          else verify_pairs 0 (windows2 chain)
      end
  end.
Definition certificate_revoked (revoked : CertificateRevocationList) (c : Certificate) : bool :=
  crl_contains (default [] (dn_to_der (issuer c))) (serial_number c) revoked.
Fixpoint revoked_from (index : nat) (revoked : CertificateRevocationList) (chain : CertificateChain)
    : option CertificateRole.t :=
  match chain with
  | [] => None
  | c :: chain =>
      if certificate_revoked revoked c then Some (CertificateRole.at_index index)
      else revoked_from (S index) revoked chain
  end.
Definition revoked_role : CertificateRevocationList -> CertificateChain -> option CertificateRole.t :=
  revoked_from 0.
Definition is_revoked (revoked : CertificateRevocationList) (chain : CertificateChain) : bool :=
  bool_decide (is_Some (revoked_role revoked chain)).
Definition device_x25519_public_key (chain : CertificateChain) : Result (list Z) AuthError.t :=
  match last chain with
  | None => Err DeviceCertificateDataCorrupt
  | Some device =>
      if bool_decide (spki_oid device <> OID_X25519) then Err EccPublicKeyValidationFailed
      else
        match spki_key device with
        | None => Err EccPublicKeyValidationFailed
        | Some key => if (length key =? 32)%nat then Ok key else Err EccPublicKeyValidationFailed
        end
  end.

(** ** The handshake *)

Record TimAuthentication : Type := mkAuth {
  au_role : TimRole.t;
  au_state : AuthState.t;
  au_secret : option (list Z);
  au_shared : option (list Z);
  au_own_challenge : list Z;
  au_peer_challenge : list Z;
  au_peer_ecdh_public : option (list Z)
}.
Definition au_with_state (x : AuthState.t) (s : TimAuthentication) : TimAuthentication :=
  mkAuth (au_role s) x (au_secret s) (au_shared s) (au_own_challenge s) (au_peer_challenge s)
    (au_peer_ecdh_public s).
Definition au_with_secret (x : option (list Z)) (s : TimAuthentication) : TimAuthentication :=
  mkAuth (au_role s) (au_state s) x (au_shared s) (au_own_challenge s) (au_peer_challenge s)
    (au_peer_ecdh_public s).
Definition au_with_shared (x : option (list Z)) (s : TimAuthentication) : TimAuthentication :=
  mkAuth (au_role s) (au_state s) (au_secret s) x (au_own_challenge s) (au_peer_challenge s)
    (au_peer_ecdh_public s).
Definition au_with_own_challenge (x : list Z) (s : TimAuthentication) : TimAuthentication :=
  mkAuth (au_role s) (au_state s) (au_secret s) (au_shared s) x (au_peer_challenge s)
    (au_peer_ecdh_public s).
Definition au_with_peer_challenge (x : list Z) (s : TimAuthentication) : TimAuthentication :=
  mkAuth (au_role s) (au_state s) (au_secret s) (au_shared s) (au_own_challenge s) x
    (au_peer_ecdh_public s).
Definition au_with_peer_ecdh_public (x : option (list Z)) (s : TimAuthentication)
    : TimAuthentication :=
  mkAuth (au_role s) (au_state s) (au_secret s) (au_shared s) (au_own_challenge s)
    (au_peer_challenge s) x.

Definition with_role (role : TimRole.t) : TimAuthentication :=
  mkAuth role AuthState.Unauthenticated None None [] [] None.
Definition fail (error : AuthError.t) (s : TimAuthentication)
    : TimAuthentication * Result unit AuthError.t :=
  (au_with_state (AuthState.Failed error) s, Err error).
Definition accept_chain (chain : CertificateChain) (trust_anchor : list Z)
    (revoked : CertificateRevocationList) (s : TimAuthentication)
    : TimAuthentication * Result unit AuthError.t :=
  if (length chain =? 0)%nat then fail DeviceCertificateDataCorrupt s
  else
    match check_issuer_linkage chain with
    | Err e => fail e s
    | Ok _ =>
        match verify_signatures trust_anchor chain with
        | Err e => fail e s
        | Ok _ =>
            match revoked_role revoked chain with
            | Some role => fail (CertificateRole.revoked_error role) s
            | None =>
                match device_x25519_public_key chain with
                | Err e => fail e s
                | Ok key =>
                    (au_with_state AuthState.CertificatesExchanged
                       (au_with_peer_ecdh_public (Some key) s), Ok tt)
                end
            end
        end
    end.
Definition begin_key_agreement (private_bytes : list Z) (s : TimAuthentication)
    : TimAuthentication * list Z :=
  (au_with_secret (Some private_bytes) s, x25519_public private_bytes).
Definition complete_key_agreement (s : TimAuthentication)
    : TimAuthentication * Result unit AuthError.t :=
  match au_state s with
  | AuthState.CertificatesExchanged | AuthState.KeyAgreed =>
      match au_secret s with
      | None => fail InternalError s
      | Some secret =>
          match au_peer_ecdh_public s with
          | None => fail EccPublicKeyValidationFailed s
          | Some peer_public =>
              let shared := diffie_hellman secret peer_public in
              if negb (was_contributory shared) then fail EccPublicKeyValidationFailed s
              else (au_with_state AuthState.KeyAgreed (au_with_shared (Some shared) s), Ok tt)
          end
      end
  | _ => fail InternalError s
  end.
(** The label [machbus-tim-lwa]. *)
Definition kdf_label : list Z :=
  [0x6D; 0x61; 0x63; 0x68; 0x62; 0x75; 0x73; 0x2D; 0x74; 0x69; 0x6D; 0x2D; 0x6C; 0x77; 0x61].
(** The outbound key and the inbound key. *)
Definition directional_keys (s : TimAuthentication) : Result (list Z * list Z) AuthError.t :=
  match au_shared s with
  | None => Err InternalError
  | Some shared =>
      let own := au_own_challenge s in
      let peer := au_peer_challenge s in
      if (length own =? 0)%nat || (length peer =? 0)%nat then Err InternalError
      else if bool_decide (own = peer) then Err ChallengesDoNotMatch
      else
        let '(first, second) := if slice_ltb own peer then (own, peer) else (peer, own) in
        let derived :=
          sha256 ([0; 0; 0; 1] ++ shared ++ kdf_label ++ len_be first ++ first
                  ++ len_be second ++ second) in
        let low := take 16 derived in
        let high := drop 16 derived in
        match au_role s with TimRole.Client => Ok (low, high) | TimRole.Server => Ok (high, low) end
  end.
Definition challenge_length_ok (challenge : list Z) : bool :=
  (length challenge =? RANDOM_CHALLENGE_LEN)%nat || (length challenge =? SIGNED_CHALLENGE_LEN)%nat.
Definition issue_challenge (challenge : list Z) (s : TimAuthentication)
    : TimAuthentication * Result unit AuthError.t :=
  if negb (challenge_length_ok challenge) then fail ChallengeLengthInvalid s
  else
    match au_shared s with
    | None => fail InternalError s
    | Some _ =>
        (au_with_state AuthState.ChallengeIssued (au_with_own_challenge challenge s), Ok tt)
    end.
Definition accept_peer_challenge (challenge : list Z) (s : TimAuthentication)
    : TimAuthentication * Result unit AuthError.t :=
  if negb (challenge_length_ok challenge) then fail ChallengeLengthInvalid s
  else
    match au_shared s with
    | None => fail InternalError s
    | Some _ => (au_with_peer_challenge challenge s, Ok tt)
    end.
Definition compute_response (s : TimAuthentication) : Result (list Z) AuthError.t :=
  match directional_keys s with
  | Err e => Err e
  | Ok (outbound, _) => Ok (cmac_aes128 outbound (au_peer_challenge s))
  end.
Definition expected_peer_response (s : TimAuthentication) : Result (list Z) AuthError.t :=
  match directional_keys s with
  | Err e => Err e
  | Ok (_, inbound) => Ok (cmac_aes128 inbound (au_own_challenge s))
  end.
Definition verify_response (peer_response : list Z) (s : TimAuthentication)
    : TimAuthentication * Result unit AuthError.t :=
  match au_state s with
  | AuthState.ChallengeIssued =>
      match expected_peer_response s with
      | Err e => fail e s
      | Ok expected =>
          if negb (length peer_response =? CMAC_LEN)%nat || negb (constant_time_eq expected peer_response)
          then fail ChallengesDoNotMatch s
          else (au_with_state AuthState.Authenticated s, Ok tt)
      end
  | _ => fail InternalError s
  end.
(** [reset] keeps the peer's public key. *)
Definition auth_reset (s : TimAuthentication) : TimAuthentication :=
  mkAuth (au_role s) AuthState.Unauthenticated None None [] [] (au_peer_ecdh_public s).

(** ** Every call *)

Inductive AuthCall : Type :=
| AcceptChain (chain : CertificateChain) (trust_anchor : list Z) (revoked : CertificateRevocationList)
| BeginKey (private_bytes : list Z)
| CompleteKey
| IssueChallenge (challenge : list Z)
| AcceptPeerChallenge (challenge : list Z)
| VerifyResponse (peer_response : list Z)
| ResetAuth.
Definition auth_call (k : AuthCall) (s : TimAuthentication) : TimAuthentication :=
  match k with
  | AcceptChain chain anchor revoked => (accept_chain chain anchor revoked s).1
  | BeginKey private_bytes => (begin_key_agreement private_bytes s).1
  | CompleteKey => (complete_key_agreement s).1
  | IssueChallenge challenge => (issue_challenge challenge s).1
  | AcceptPeerChallenge challenge => (accept_peer_challenge challenge s).1
  | VerifyResponse response => (verify_response response s).1
  | ResetAuth => auth_reset s
  end.
Definition auth_run (ks : list AuthCall) (s : TimAuthentication) : TimAuthentication :=
  foldl (fun s k => auth_call k s) s ks.
End crypto.

(** ** A tag is right or wrong *)

Lemma foldl_lor_zero (l : list (Z * Z)) d :
  foldl (fun diff xy => Z.lor diff (Z.lxor xy.1 xy.2)) d l = 0 <->
  d = 0 /\ Forall (fun xy => xy.1 = xy.2) l.
Proof.
  revert d. induction l as [|[x y] l IH]; intros d; cbn.
  { split; [done|by intros []]. }
  rewrite IH, Z.lor_eq_0_iff, Forall_cons, Z.lxor_eq_0_iff. cbn. tauto.
Qed.
Lemma constant_time_eq_spec a b : constant_time_eq a b = true <-> a = b.
Proof.
  unfold constant_time_eq. destruct (Nat.eqb_spec (length a) (length b)) as [Hl|Hl]; cbn [negb].
  - rewrite Z.eqb_eq, foldl_lor_zero. split; [intros [_ H]|intros ->; split; [done|]].
    + revert b Hl H. induction a as [|x a IH]; intros [|y b] Hl H; try done.
      cbn in H. apply Forall_cons in H as [H1 H2]. cbn in H1. subst. f_equal. by apply IH; [injection Hl|].
    + clear Hl. induction b; cbn; constructor; done.
  - split; [done|]. by intros ->.
Qed.
Lemma slice_ltb_total a b : a <> b -> slice_ltb a b = negb (slice_ltb b a).
Proof.
  revert b. induction a as [|x a IH]; intros [|y b] H; cbn; try done.
  destruct (Z.ltb_spec x y), (Z.ltb_spec y x); try done; try lia.
  assert (x = y) as -> by lia. apply IH. congruence.
Qed.

Section chains.
Context {C : Crypto}.

(** ** What a valid chain is *)

(** [child] carries a PSS signature that the certified RSA key of [parent], of 2048 bits or more,
    verifies. *)
Definition signed_by (parent child : Certificate) : Prop :=
  exists spki key tbs signature,
    spki_to_der parent = Some spki /\ from_public_key_der spki = Some key
    /\ 2048 <= modulus_bits key /\ tbs_to_der child = Some tbs
    /\ signature_try_from (raw_signature child) = Some signature
    /\ pss_verify key tbs signature = true.
Record chain_valid (chain : CertificateChain) (anchor : list Z)
    (revoked : CertificateRevocationList) (p : list Z) : Prop := {
  cv_root : exists root, head chain = Some root /\ spki_to_der root = Some anchor;
  cv_links : forall i parent child, chain !! i = Some parent -> chain !! S i = Some child ->
    subject parent = issuer child /\ signed_by parent child;
  cv_revoked : forall c, c ∈ chain ->
    (default [] (dn_to_der (issuer c)), serial_number c) ∉ revoked;
  cv_device : exists device, last chain = Some device /\ spki_oid device = OID_X25519
    /\ spki_key device = Some p /\ length p = 32%nat
}.
Lemma verify_link_spec parent child : verify_link parent child = true <-> signed_by parent child.
Proof.
  unfold verify_link, signed_by. split.
  - destruct (spki_to_der parent) as [spki|]; [|done].
    destruct (from_public_key_der spki) as [key|] eqn:Ek; [|done].
    destruct (Z.ltb_spec (modulus_bits key) 2048); [done|].
    destruct (tbs_to_der child) as [tbs|]; [|done].
    destruct (signature_try_from _) as [sg|]; [|done]. intros Hv.
    by exists spki, key, tbs, sg.
  - intros (spki & key & tbs & sg & -> & -> & Hb & -> & -> & Hv).
    by rewrite (proj2 (Z.ltb_ge _ _)).
Qed.
Lemma windows2_lookup chain i parent child :
  windows2 chain !! i = Some (parent, child) <->
  chain !! i = Some parent /\ chain !! S i = Some child.
Proof.
  unfold windows2. rewrite lookup_zip_with_Some. split.
  - intros (x & y & [= -> ->] & Hx & Hy). split; [done|]. by destruct chain.
  - intros [Hx Hy]. exists parent, child. split_and!; [done..|]. by destruct chain.
Qed.
Lemma windows2_forall (P : Certificate -> Certificate -> Prop) chain :
  Forall (fun pair => P pair.1 pair.2) (windows2 chain) <->
  forall i parent child, chain !! i = Some parent -> chain !! S i = Some child -> P parent child.
Proof.
  rewrite Forall_lookup. split.
  - intros H i parent child Hp Hc. apply (H i (parent, child)). by apply windows2_lookup.
  - intros H i [parent child] Hi. apply windows2_lookup in Hi as [Hp Hc]. by apply (H i).
Qed.
Lemma verify_pairs_spec index pairs :
  (exists e, verify_pairs index pairs = Err e)
  \/ verify_pairs index pairs = Ok tt /\ Forall (fun pair => signed_by pair.1 pair.2) pairs.
Proof.
  revert index. induction pairs as [|[parent child] pairs IH]; intros index; cbn [verify_pairs].
  { right. by split; [|constructor]. }
  destruct (verify_link parent child) eqn:E; [|left; by eexists].
  apply verify_link_spec in E. destruct (IH (S index)) as [[e He]|[H1 H2]]; [left; by exists e|].
  right. split; [done|]. by constructor.
Qed.
Lemma verify_pairs_ok index pairs :
  Forall (fun pair => signed_by pair.1 pair.2) pairs -> verify_pairs index pairs = Ok tt.
Proof.
  intros H. revert index. induction H as [|[parent child] pairs Hp _ IH]; intros index; [done|]. cbn.
  by rewrite (proj2 (verify_link_spec parent child) Hp).
Qed.
Lemma crl_contains_spec i s l : crl_contains i s l = true <-> (i, s) ∈ l.
Proof.
  unfold crl_contains. rewrite existsb_exists. split.
  - intros ([x y] & Hin & H). apply andb_true_iff in H as [H1 H2].
    apply bool_decide_eq_true in H1, H2. cbn in *. subst. by apply list_elem_of_In.
  - intros H. exists (i, s). split; [by apply list_elem_of_In|]. cbn. by rewrite !bool_decide_true.
Qed.
Lemma revoked_from_none index revoked chain :
  revoked_from index revoked chain = None <->
  (forall c, c ∈ chain -> (default [] (dn_to_der (issuer c)), serial_number c) ∉ revoked).
Proof.
  revert index. induction chain as [|c chain IH]; intros index; cbn [revoked_from].
  { split; [|done]. intros _ c Hc. by apply not_elem_of_nil in Hc. }
  unfold certificate_revoked. destruct (crl_contains _ _ _) eqn:E.
  - split; [done|]. intros H. apply crl_contains_spec in E. exfalso. apply (H c); [by left|done].
  - rewrite (IH (S index)). split; intros H.
    + intros c' Hc. apply elem_of_cons in Hc as [->|Hc]; [|by apply H].
      intros Hin. apply crl_contains_spec in Hin. by rewrite Hin in E.
    + intros c' Hc. apply H. by right.
Qed.
Lemma device_key_spec chain p :
  device_x25519_public_key chain = Ok p <->
  exists device, last chain = Some device /\ spki_oid device = OID_X25519
    /\ spki_key device = Some p /\ length p = 32%nat.
Proof.
  unfold device_x25519_public_key. split.
  - destruct (last chain) as [device|]; [|done]. case_bool_decide as Ho; [done|].
    destruct (spki_key device) as [key|] eqn:Ek; [|done]. destruct (Nat.eqb_spec (length key) 32); [|done].
    intros [= <-]. exists device. by split_and!.
  - intros (device & -> & -> & -> & ->). rewrite bool_decide_false by tauto. done.
Qed.
(** A chain is accepted exactly when it is valid, and then its device key is the peer's. *)
Lemma accept_chain_spec chain anchor revoked s :
  (exists e, accept_chain chain anchor revoked s = fail e s
             /\ forall p, ~ chain_valid chain anchor revoked p)
  \/ (exists p, chain_valid chain anchor revoked p
        /\ accept_chain chain anchor revoked s
           = (au_with_state AuthState.CertificatesExchanged (au_with_peer_ecdh_public (Some p) s), Ok tt)).
Proof.
  unfold accept_chain. destruct chain as [|root chain'] eqn:Ec; cbn [length Nat.eqb].
  { left. eexists. split; [done|]. intros p [(r & ? & _) _ _ _]. done. }
  rewrite <-Ec. assert (Hh : head chain = Some root) by by subst.
  assert (Hvs : verify_signatures anchor chain =
    match spki_to_der root with
    | None => Err (CertificateRole.signature_error CertificateRole.Root)
    | Some spki => if bool_decide (spki <> anchor)
                   then Err (CertificateRole.signature_error CertificateRole.Root)
                   else verify_pairs 0 (windows2 chain)
    end) by by rewrite Ec.
  unfold check_issuer_linkage. destruct (forallb _ _) eqn:El.
  2:{ left. eexists. split; [done|]. intros p [_ Hl _ _]. apply not_true_iff_false in El. apply El.
      apply forallb_forall. intros [x y] Hin. apply list_elem_of_In, list_elem_of_lookup in Hin as [i Hi].
      apply windows2_lookup in Hi as [H1 H2]. apply bool_decide_eq_true. by apply (Hl i). }
  assert (Hs : Forall (fun pair => subject pair.1 = issuer pair.2) (windows2 chain)).
  { apply Forall_forall. intros x Hx. rewrite forallb_forall in El.
    apply list_elem_of_In, El in Hx. by apply bool_decide_eq_true in Hx. }
  clear El. rewrite Hvs. clear Hvs Ec. destruct (spki_to_der root) as [spki|] eqn:Er.
  2:{ left. eexists. split; [done|]. intros p [(r & Hr & Hd) _ _ _]. rewrite Hh in Hr.
      injection Hr as <-. by rewrite Er in Hd. }
  case_bool_decide as Ea.
  { left. eexists. split; [done|]. intros p [(r & Hr & Hd) _ _ _]. rewrite Hh in Hr.
    injection Hr as <-. rewrite Er in Hd. by injection Hd. }
  destruct (verify_pairs_spec 0 (windows2 chain)) as [[e He]|[He Hv]]; rewrite He.
  { left. eexists. split; [done|]. intros p [_ Hl _ _]. rewrite verify_pairs_ok in He; [done|].
    apply (windows2_forall signed_by). intros i x y Hx Hy. by apply (Hl i). }
  unfold revoked_role. destruct (revoked_from 0 revoked chain) as [r|] eqn:Ev.
  { left. eexists. split; [done|]. intros p [_ _ Hr _]. apply (revoked_from_none 0) in Hr. by rewrite Hr in Ev. }
  destruct (device_x25519_public_key chain) as [p|e] eqn:Ed.
  - right. exists p. split; [|done]. split.
    + exists root. split; [done|]. rewrite Er. by f_equal.
    + intros i x y Hx Hy. split; [by apply (proj1 (windows2_forall (fun a b => subject a = issuer b) _) Hs i)|].
      by apply (proj1 (windows2_forall signed_by _) Hv i).
    + by apply (revoked_from_none 0).
    + by apply device_key_spec.
  - left. eexists. split; [done|]. intros p [_ _ _ Hd]. apply device_key_spec in Hd. by rewrite Hd in Ed.
Qed.
Lemma accept_chain_valid chain anchor revoked p s :
  chain_valid chain anchor revoked p ->
  accept_chain chain anchor revoked s
  = (au_with_state AuthState.CertificatesExchanged (au_with_peer_ecdh_public (Some p) s), Ok tt).
Proof.
  intros Hv. destruct (accept_chain_spec chain anchor revoked s) as [(e & _ & Hn)|(p' & Hv' & ->)].
  - by destruct (Hn p).
  - destruct Hv as [_ _ _ (d & Hd & _ & Hk & _)]. destruct Hv' as [_ _ _ (d' & Hd' & _ & Hk' & _)].
    rewrite Hd in Hd'. injection Hd' as <-. rewrite Hk in Hk'. by injection Hk' as <-.
Qed.

(** ** Two honest sides *)

Lemma challenge_length_ok_pos c : challenge_length_ok c = true -> (0 < length c)%nat.
Proof.
  unfold challenge_length_ok, RANDOM_CHALLENGE_LEN, SIGNED_CHALLENGE_LEN.
  destruct (Nat.eqb_spec (length c) 32), (Nat.eqb_spec (length c) 16); cbn; lia || done.
Qed.
(** The keys of the two directions, for a secret and the two challenges in their canonical
    order. *)
Definition handshake_keys (shared a b : list Z) : list Z * list Z :=
  let '(first, second) := if slice_ltb a b then (a, b) else (b, a) in
  let derived := sha256 ([0; 0; 0; 1] ++ shared ++ kdf_label ++ len_be first ++ first
                         ++ len_be second ++ second) in
  (take 16 derived, drop 16 derived).
Lemma handshake_keys_comm shared a b : handshake_keys shared a b = handshake_keys shared b a.
Proof.
  destruct (decide (a = b)) as [->|Hn]; [done|]. unfold handshake_keys.
  rewrite (slice_ltb_total a b) by done. by destruct (slice_ltb b a).
Qed.
Lemma directional_keys_spec s shared :
  au_shared s = Some shared -> challenge_length_ok (au_own_challenge s) = true ->
  challenge_length_ok (au_peer_challenge s) = true -> au_own_challenge s <> au_peer_challenge s ->
  directional_keys s =
  Ok (match au_role s with
      | TimRole.Client => handshake_keys shared (au_own_challenge s) (au_peer_challenge s)
      | TimRole.Server => let '(low, high) := handshake_keys shared (au_own_challenge s) (au_peer_challenge s)
                          in (high, low)
      end).
Proof.
  intros Hs Ho Hp Hn. unfold directional_keys. rewrite Hs. cbv zeta.
  apply challenge_length_ok_pos in Ho, Hp.
  destruct (Nat.eqb_spec (length (au_own_challenge s)) 0); [lia|].
  destruct (Nat.eqb_spec (length (au_peer_challenge s)) 0); [lia|]. cbn [orb].
  rewrite bool_decide_false by done. unfold handshake_keys. destruct (slice_ltb _ _); by destruct (au_role s).
Qed.
(** The calls of one side: accept the peer's chain, agree the key, exchange challenges. *)
Definition handshake_calls (chain : CertificateChain) (anchor : list Z)
    (revoked : CertificateRevocationList) (d own peer : list Z) : list AuthCall :=
  [AcceptChain chain anchor revoked; BeginKey d; CompleteKey; IssueChallenge own;
   AcceptPeerChallenge peer].
Lemma handshake_calls_run chain anchor revoked d own peer p s :
  chain_valid chain anchor revoked p -> was_contributory (diffie_hellman d p) = true ->
  challenge_length_ok own = true -> challenge_length_ok peer = true ->
  auth_run (handshake_calls chain anchor revoked d own peer) s =
  mkAuth (au_role s) AuthState.ChallengeIssued (Some d) (Some (diffie_hellman d p)) own peer (Some p).
Proof.
  intros Hv Hc Ho Hp. unfold auth_run, handshake_calls. cbn [foldl auth_call].
  rewrite (accept_chain_valid _ _ _ p) by done. cbn. unfold complete_key_agreement. cbn.
  rewrite Hc. cbn. unfold issue_challenge. rewrite Ho. cbn. unfold accept_peer_challenge. rewrite Hp. done.
Qed.
Lemma verify_response_spec r s expected :
  au_state s = AuthState.ChallengeIssued -> expected_peer_response s = Ok expected ->
  length expected = CMAC_LEN ->
  verify_response r s =
  if decide (r = expected) then (au_with_state AuthState.Authenticated s, Ok tt)
  else fail ChallengesDoNotMatch s.
Proof.
  intros Hs He Hl. unfold verify_response. rewrite Hs, He. case_decide as Hr.
  - subst. rewrite Hl, Nat.eqb_refl. cbn [negb orb].
    by rewrite (proj2 (constant_time_eq_spec expected expected) eq_refl).
  - destruct (constant_time_eq expected r) eqn:E; [|by rewrite orb_true_r].
    by apply constant_time_eq_spec in E.
Qed.

(** ** Where an authentication comes from *)

(** The key of a certified peer and of a secret of this side. *)
Definition agreed_key (ks : list AuthCall) (shared : list Z) : Prop :=
  exists chain anchor revoked p d,
    AcceptChain chain anchor revoked ∈ ks /\ chain_valid chain anchor revoked p
    /\ BeginKey d ∈ ks /\ CompleteKey ∈ ks
    /\ shared = diffie_hellman d p /\ was_contributory shared = true.
Record auth_inv (ks : list AuthCall) (role : TimRole.t) (s : TimAuthentication) : Prop := {
  av_role : au_role s = role;
  av_peer : forall p, au_peer_ecdh_public s = Some p ->
    exists chain anchor revoked, AcceptChain chain anchor revoked ∈ ks
                                 /\ chain_valid chain anchor revoked p;
  av_secret : forall d, au_secret s = Some d -> BeginKey d ∈ ks;
  av_shared : forall x, au_shared s = Some x -> agreed_key ks x;
  av_own : au_own_challenge s <> [] ->
    IssueChallenge (au_own_challenge s) ∈ ks /\ challenge_length_ok (au_own_challenge s) = true;
  av_peer_challenge : au_peer_challenge s <> [] ->
    AcceptPeerChallenge (au_peer_challenge s) ∈ ks /\ challenge_length_ok (au_peer_challenge s) = true;
  av_authenticated : au_state s = AuthState.Authenticated ->
    exists shared own peer r, agreed_key ks shared /\ IssueChallenge own ∈ ks
      /\ AcceptPeerChallenge peer ∈ ks /\ VerifyResponse r ∈ ks /\ own <> peer
      /\ challenge_length_ok own = true /\ challenge_length_ok peer = true
      /\ let '(low, high) := handshake_keys shared own peer in
         r = cmac_aes128 (match role with TimRole.Client => high | TimRole.Server => low end) own
}.
Lemma agreed_key_app ks k x : agreed_key ks x -> agreed_key (ks ++ [k]) x.
Proof.
  intros (c & a & r & p & d & H1 & H2 & H3 & H4 & H5). exists c, a, r, p, d.
  rewrite !elem_of_app. tauto.
Qed.
(** Everything but the state is what it was before the call, or less. *)
Lemma auth_inv_mono ks k role s s' :
  auth_inv ks role s -> au_role s' = au_role s ->
  (au_peer_ecdh_public s' = au_peer_ecdh_public s) ->
  (au_secret s' = au_secret s \/ au_secret s' = None) ->
  (au_shared s' = au_shared s \/ au_shared s' = None) ->
  (au_own_challenge s' = au_own_challenge s \/ au_own_challenge s' = []) ->
  (au_peer_challenge s' = au_peer_challenge s \/ au_peer_challenge s' = []) ->
  (au_state s' = au_state s \/ au_state s' <> AuthState.Authenticated) ->
  auth_inv (ks ++ [k]) role s'.
Proof.
  intros [R P S Sh O Pc A] Hr Hp Hs Hsh Ho Hpc Hst. split.
  - by rewrite Hr.
  - intros p Hq. rewrite Hp in Hq. destruct (P p Hq) as (c & a & r & H1 & H2).
    exists c, a, r. rewrite elem_of_app. tauto.
  - intros d Hd. destruct Hs as [E|E]; rewrite E in Hd; [|done]. rewrite elem_of_app. left. by apply S.
  - intros x Hx. destruct Hsh as [E|E]; rewrite E in Hx; [|done]. by apply agreed_key_app, Sh.
  - intros Hx. destruct Ho as [E|E]; rewrite E in Hx |- *; [|done]. rewrite elem_of_app. tauto.
  - intros Hx. destruct Hpc as [E|E]; rewrite E in Hx |- *; [|done]. rewrite elem_of_app. tauto.
  - intros Hx. destruct Hst as [E|E]; [|done]. rewrite E in Hx.
    destruct (A Hx) as (x & o & p & r & H1 & H2 & H3 & H4 & H5). exists x, o, p, r.
    split; [by apply agreed_key_app|]. rewrite !elem_of_app. tauto.
Qed.
Ltac auth_keeps s := apply (auth_inv_mono _ _ _ s); first [assumption|by cbn; auto|idtac].
Lemma auth_inv_fail ks k role s e : auth_inv ks role s -> auth_inv (ks ++ [k]) role (fail e s).1.
Proof. intros Hi. auth_keeps s. Qed.
(** A field that the call sets, over what it keeps. *)
Lemma auth_inv_call ks k role s :
  auth_inv ks role s -> auth_inv (ks ++ [k]) role (auth_call k s).
Proof.
  intros Hi. assert (Hlast : forall k', k' = k -> k' ∈ ks ++ [k])
    by (intros k' ->; rewrite elem_of_app; right; by left).
  destruct k as [chain anchor revoked|d| |c|c|r|]; cbn [auth_call].
  - destruct (accept_chain_spec chain anchor revoked s) as [(e & -> & _)|(p & Hv & ->)];
      [by apply auth_inv_fail|]. cbn [fst].
    assert (Hi' : auth_inv (ks ++ [AcceptChain chain anchor revoked]) role
                    (au_with_state AuthState.CertificatesExchanged s)) by auth_keeps s.
    destruct Hi' as [R _ S Sh O Pc A]. split; cbn in *; try done.
    intros q [= <-]. exists chain, anchor, revoked. by split; [apply Hlast|].
  - assert (Hi' : auth_inv (ks ++ [BeginKey d]) role s) by auth_keeps s.
    destruct Hi' as [R P _ Sh O Pc A]. split; cbn in *; try done.
    intros q [= <-]. by apply Hlast.
  - unfold complete_key_agreement.
    assert (Hi' : auth_inv (ks ++ [CompleteKey]) role (au_with_state AuthState.KeyAgreed s)) by auth_keeps s.
    destruct (au_state s); try by apply auth_inv_fail.
    all: destruct (au_secret s) as [d|] eqn:Ed; [|by apply auth_inv_fail].
    all: destruct (au_peer_ecdh_public s) as [p|] eqn:Ep; [|by apply auth_inv_fail].
    all: cbv zeta; destruct (was_contributory _) eqn:Ec; cbn [negb]; [|by apply auth_inv_fail].
    all: cbn [fst]; destruct Hi' as [R P S Sh O Pc A]; split; cbn in *; try done.
    all: intros x [= <-]; destruct (P p Ep) as (c & a & r & H1 & H2).
    all: exists c, a, r, p, d; split_and!; auto.
  - unfold issue_challenge. destruct (challenge_length_ok c) eqn:Ec; cbn [negb]; [|by apply auth_inv_fail].
    destruct (au_shared s) as [x|] eqn:Ex; [|by apply auth_inv_fail]. cbn [fst].
    assert (Hi' : auth_inv (ks ++ [IssueChallenge c]) role (au_with_state AuthState.ChallengeIssued s))
      by auth_keeps s.
    destruct Hi' as [R P S Sh O Pc A]. split; cbn in *; try done. intros _. by split; [apply Hlast|].
  - unfold accept_peer_challenge. destruct (challenge_length_ok c) eqn:Ec; cbn [negb]; [|by apply auth_inv_fail].
    destruct (au_shared s) as [x|] eqn:Ex; [|by apply auth_inv_fail]. cbn [fst].
    assert (Hi' : auth_inv (ks ++ [AcceptPeerChallenge c]) role s) by auth_keeps s.
    destruct Hi' as [R P S Sh O Pc A]. split; cbn in *; try done. intros _. by split; [apply Hlast|].
  - unfold verify_response. destruct (au_state s) eqn:Es; try by apply auth_inv_fail.
    unfold expected_peer_response. destruct (directional_keys s) as [[ob ib]|e] eqn:Ek; [|by apply auth_inv_fail].
    destruct (negb _ || _) eqn:Er; [by apply auth_inv_fail|]. cbn [fst].
    apply orb_false_iff in Er as [_ Er]. apply negb_false_iff, constant_time_eq_spec in Er.
    destruct (au_shared s) as [x|] eqn:Ex; [|by unfold directional_keys in Ek; rewrite Ex in Ek].
    assert (Hd : au_own_challenge s <> [] /\ au_peer_challenge s <> []
                 /\ au_own_challenge s <> au_peer_challenge s).
    { unfold directional_keys in Ek. rewrite Ex in Ek. cbv zeta in Ek.
      destruct (au_own_challenge s), (au_peer_challenge s); cbn in Ek; try done.
      case_bool_decide as Hb; [done|]. done. }
    destruct Hd as (Ho & Hp & Hn). destruct (av_own _ _ _ Hi Ho) as [Hio Hlo].
    destruct (av_peer_challenge _ _ _ Hi Hp) as [Hip Hlp].
    rewrite (directional_keys_spec s x) in Ek by done. rewrite (av_role _ _ _ Hi) in Ek.
    assert (Hi' : auth_inv (ks ++ [VerifyResponse r]) role s) by auth_keeps s.
    assert (Hi'' := Hi'). destruct Hi'' as [R P S Sh O Pc _]. split; cbn in *; try done.
    intros _. exists x, (au_own_challenge s), (au_peer_challenge s), r.
    split_and!; [by apply Sh|by apply O|by apply Pc|by apply Hlast|done..|].
    destruct (handshake_keys _ _ _) as [low high]. subst r. by destruct role; injection Ek as <- <-.
  - unfold auth_reset. auth_keeps s.
Qed.
Lemma auth_inv_run ks role : auth_inv ks role (auth_run ks (with_role role)).
Proof.
  induction ks as [|k ks IH] using rev_ind; [by split|].
  unfold auth_run. rewrite foldl_app. cbn. by apply auth_inv_call.
Qed.
End chains.

(** C28: whatever a side is told, in any order, it counts its peer as authenticated only when it
    accepted a chain that is anchored in its trust anchor, linked by names and by RSA-PSS
    signatures of keys of at least 2048 bits, free of revoked certificates and ending in a device
    key, agreed a contributory secret with that key, issued and took challenges of the right
    length, and was given the tag of its own challenge under the peer's half of the derived
    key. *)
Theorem tim_auth_sound `{C : Crypto} role ks :
  au_state (auth_run ks (with_role role)) = AuthState.Authenticated ->
  exists chain anchor revoked p d own peer r,
    AcceptChain chain anchor revoked ∈ ks /\ chain_valid chain anchor revoked p
    /\ BeginKey d ∈ ks /\ CompleteKey ∈ ks /\ was_contributory (diffie_hellman d p) = true
    /\ IssueChallenge own ∈ ks /\ AcceptPeerChallenge peer ∈ ks /\ own <> peer
    /\ challenge_length_ok own = true /\ challenge_length_ok peer = true
    /\ VerifyResponse r ∈ ks
    /\ let '(low, high) := handshake_keys (diffie_hellman d p) own peer in
       r = cmac_aes128 (match role with TimRole.Client => high | TimRole.Server => low end) own.
Proof.
  intros Hs. destruct (auth_inv_run ks role) as [_ _ _ _ _ _ A].
  destruct (A Hs) as (x & own & peer & r & (c & a & rv & p & d & H1 & H2 & H3 & H4 & -> & H5) & H6).
  exists c, a, rv, p, d, own, peer, r. tauto.
Qed.
(** C27: a client and a server that hold certified keys authenticate each other: whatever state
    they start from, once each has accepted the other's chain, agreed the key and exchanged
    challenges, both have the same secret, each computes a response, and each verifies the
    other's; any other answer is refused. *)
Theorem tim_auth_mutual `{CryptoLaws} chain_c chain_s anchor_c anchor_s revoked_c revoked_s
    d_c d_s own_c own_s client server :
  au_role client = TimRole.Client -> au_role server = TimRole.Server ->
  chain_valid chain_s anchor_c revoked_c (x25519_public d_s) ->
  chain_valid chain_c anchor_s revoked_s (x25519_public d_c) ->
  was_contributory (diffie_hellman d_c (x25519_public d_s)) = true ->
  challenge_length_ok own_c = true -> challenge_length_ok own_s = true -> own_c <> own_s ->
  let client' := auth_run (handshake_calls chain_s anchor_c revoked_c d_c own_c own_s) client in
  let server' := auth_run (handshake_calls chain_c anchor_s revoked_s d_s own_s own_c) server in
  au_shared client' = au_shared server'
  /\ exists r_c r_s, compute_response client' = Ok r_c /\ compute_response server' = Ok r_s
     /\ verify_response r_s client' = (au_with_state AuthState.Authenticated client', Ok tt)
     /\ verify_response r_c server' = (au_with_state AuthState.Authenticated server', Ok tt)
     /\ forall r, (r <> r_s -> verify_response r client' = fail ChallengesDoNotMatch client')
                  /\ (r <> r_c -> verify_response r server' = fail ChallengesDoNotMatch server').
Proof.
  intros Hrc Hrs Hvs Hvc Hco Hc Hs Hn client' server'.
  assert (Ec := handshake_calls_run _ _ _ _ _ _ _ client Hvs Hco Hc Hs).
  assert (Hco' := Hco). rewrite diffie_hellman_comm in Hco'.
  assert (Es := handshake_calls_run _ _ _ _ _ _ _ server Hvc Hco' Hs Hc).
  fold client' in Ec. fold server' in Es. clearbody client' server'.
  rewrite Hrc in Ec. rewrite Hrs in Es. rewrite diffie_hellman_comm in Es. subst client' server'.
  split; [done|]. set (x := diffie_hellman d_c (x25519_public d_s)).
  set (cl := mkAuth TimRole.Client _ _ _ _ _ _). set (sv := mkAuth TimRole.Server _ _ _ _ _ _).
  assert (Kc := directional_keys_spec cl x eq_refl Hc Hs Hn).
  assert (Ks := directional_keys_spec sv x eq_refl Hs Hc (not_eq_sym Hn)).
  cbn [au_role cl sv au_own_challenge au_peer_challenge] in Kc, Ks.
  rewrite handshake_keys_comm in Ks. destruct (handshake_keys x own_c own_s) as [low high].
  exists (cmac_aes128 low own_s), (cmac_aes128 high own_c).
  assert (Vc := fun r => verify_response_spec r cl (cmac_aes128 high own_c) eq_refl
                  ltac:(by unfold expected_peer_response; rewrite Kc) (cmac_length _ _)).
  assert (Vs := fun r => verify_response_spec r sv (cmac_aes128 low own_s) eq_refl
                  ltac:(by unfold expected_peer_response; rewrite Ks) (cmac_length _ _)).
  split_and!.
  - unfold compute_response. by rewrite Kc.
  - unfold compute_response. by rewrite Ks.
  - rewrite Vc. by rewrite decide_True.
  - rewrite Vs. by rewrite decide_True.
  - intros r. split; intros Hr; [rewrite Vc|rewrite Vs]; by rewrite decide_False.
Qed.

(** ** A concrete handshake *)

(** A certificate: subject, issuer, algorithm, key and signature; a signature names the key and
    what it signs. *)
Record ToyCertificate : Type := mkToy {
  ty_subject : Z;
  ty_issuer : Z;
  ty_oid : list Z;
  ty_key : list Z;
  ty_signature : list Z
}.
Definition toy_tag (n : nat) (data : list Z) : list Z :=
  imap (fun i _ => Z.lxor (foldr Z.lxor 0 data) (Z.of_nat i)) (replicate n 0).
Definition toy_crypto : Crypto := {|
  Certificate := ToyCertificate;
  DistinguishedName := Z;
  from_der der :=
    match der with
    | s :: i :: rest => Some (mkToy s i OID_X25519 (take 32 rest) (drop 32 rest))
    | _ => None
    end;
  subject := ty_subject;
  issuer := ty_issuer;
  dn_to_der n := Some [n];
  serial_number c := [ty_subject c];
  spki_to_der c := Some (ty_oid c ++ ty_key c);
  spki_oid := ty_oid;
  spki_key c := Some (ty_key c);
  tbs_to_der c := Some (ty_subject c :: ty_issuer c :: ty_oid c ++ ty_key c);
  raw_signature := ty_signature;
  RsaPublicKey := list Z;
  PssSignature := list Z;
  from_public_key_der := Some;
  modulus_bits _ := 2048;
  signature_try_from := Some;
  pss_verify key tbs signature := bool_decide (signature = key ++ tbs);
  x25519_public d := d;
  diffie_hellman := zip_with Z.lxor;
  was_contributory shared := existsb (fun b => negb (b =? 0)) shared;
  sha256 := toy_tag 32;
  cmac_aes128 key data := toy_tag 16 (key ++ data)
|}.
#[local] Instance toy_laws : CryptoLaws toy_crypto.
Proof.
  split.
  - intros a b. cbn. revert b. induction a as [|x a IH]; intros [|y b]; cbn; try done.
    by rewrite Z.lxor_comm, IH.
  - intros key data. change (length (toy_tag 16 (key ++ data)) = 16%nat). unfold toy_tag.
    by rewrite length_imap, length_replicate.
Qed.
Definition toy_root : @Certificate toy_crypto := mkToy 1 1 [9] [7] [].
Definition toy_anchor : list Z := [9; 7].
Definition toy_device (name : Z) (key : list Z) : @Certificate toy_crypto :=
  mkToy name 1 OID_X25519 key (toy_anchor ++ name :: 1 :: OID_X25519 ++ key).
Definition toy_chain (name : Z) (key : list Z) : @CertificateChain toy_crypto :=
  [toy_root; toy_device name key].
Lemma toy_chain_valid name key :
  name <> 5 -> length key = 32%nat -> @chain_valid toy_crypto (toy_chain name key) toy_anchor [([1], [5])] key.
Proof.
  intros Hn Hk. split.
  - by exists toy_root.
  - intros [|[|i]] parent child Hp Hc; cbn in Hp, Hc; try done. injection Hp as <-. injection Hc as <-.
    split; [done|]. by exists toy_anchor, toy_anchor, (name :: 1 :: OID_X25519 ++ key), (toy_anchor ++ name :: 1 :: OID_X25519 ++ key);
      split_and!; try done; apply bool_decide_eq_true.
  - intros c Hc Hin. apply list_elem_of_singleton in Hin.
    repeat (apply elem_of_cons in Hc as [->|Hc]; [cbn in Hin; congruence|]). by apply not_elem_of_nil in Hc.
  - by exists (toy_device name key).
Qed.
Definition key_of (n : Z) : list Z := replicate 32 n.
Definition client_calls : list (@AuthCall toy_crypto) :=
  @handshake_calls toy_crypto (toy_chain 2 (key_of 11)) toy_anchor [([1], [5])] (key_of 7) (key_of 1) (key_of 2).
Definition server_calls : list (@AuthCall toy_crypto) :=
  @handshake_calls toy_crypto (toy_chain 3 (key_of 7)) toy_anchor [([1], [5])] (key_of 11) (key_of 2) (key_of 1).
(** Client 3 with key 7 and server 2 with key 11. *)
Lemma tim_auth_mutual_witness :
  let client := @auth_run toy_crypto client_calls (with_role TimRole.Client) in
  let server := @auth_run toy_crypto server_calls (with_role TimRole.Server) in
  exists r_c r_s, @compute_response toy_crypto client = Ok r_c /\ @compute_response toy_crypto server = Ok r_s
  /\ (@verify_response toy_crypto r_s client).2 = Ok tt /\ (@verify_response toy_crypto r_c server).2 = Ok tt.
Proof.
  destruct (@tim_auth_mutual toy_crypto toy_laws (toy_chain 3 (key_of 7)) (toy_chain 2 (key_of 11))
              toy_anchor toy_anchor [([1], [5])] [([1], [5])] (key_of 7) (key_of 11) (key_of 1) (key_of 2)
              (with_role TimRole.Client) (with_role TimRole.Server))
    as (_ & r_c & r_s & H1 & H2 & H3 & H4 & _);
    [done|done|by apply toy_chain_valid|by apply toy_chain_valid|by vm_compute|by vm_compute|by vm_compute|done|].
  exists r_c, r_s. split; [exact H1|]. split; [exact H2|]. split.
  - exact (f_equal snd H3).
  - exact (f_equal snd H4).
Defined.
Definition server_answer : list Z :=
  match @compute_response toy_crypto (@auth_run toy_crypto server_calls (with_role TimRole.Server)) with
  | Ok r => r | Err _ => []
  end.
Lemma tim_auth_sound_witness :
  exists chain anchor revoked p, @AcceptChain toy_crypto chain anchor revoked ∈ client_calls ++ [@VerifyResponse toy_crypto server_answer]
                                 /\ @chain_valid toy_crypto chain anchor revoked p.
Proof.
  destruct (@tim_auth_sound toy_crypto TimRole.Client (client_calls ++ [@VerifyResponse toy_crypto server_answer])
              ltac:(by vm_compute)) as (c & a & r & p & _ & _ & _ & _ & H1 & H2 & _).
  by exists c, a, r, p.
Defined.

(** ** What modelling showed *)

(** The secret outlives its chain: whether a second chain is accepted or refused, the holder of
    the first key is authenticated after it. *)
Lemma auth_stale_key `{CryptoLaws} chain anchor revoked own r s shared :
  au_shared s = Some shared -> challenge_length_ok own = true ->
  challenge_length_ok (au_peer_challenge s) = true -> own <> au_peer_challenge s ->
  let s' := auth_run [AcceptChain chain anchor revoked; IssueChallenge own] s in
  expected_peer_response s' = Ok r ->
  au_state (auth_run [AcceptChain chain anchor revoked; IssueChallenge own; VerifyResponse r] s)
  = AuthState.Authenticated.
Proof.
  intros Hs Ho Hp Hn s' Hr.
  assert (Hs' : au_state s' = AuthState.ChallengeIssued /\ au_shared s' = Some shared).
  { unfold s', auth_run. cbn [foldl auth_call]. unfold issue_challenge. rewrite Ho. cbn [negb].
    destruct (accept_chain_spec chain anchor revoked s) as [(e & -> & _)|(p & _ & ->)]; cbn; by rewrite Hs. }
  change (au_state (verify_response r s').1 = AuthState.Authenticated).
  rewrite (verify_response_spec r s' r); [by rewrite decide_True|by apply Hs'|done|].
  unfold expected_peer_response in Hr. destruct (directional_keys s') as [[]|]; [|done].
  injection Hr as <-. apply cmac_length.
Qed.
(** Certificate 5 is revoked: its chain is refused, and the peer is authenticated all the same.
    (The second link of a chain counts as the test laboratory's.) *)
Lemma auth_survives_refused_chain :
  let s := @auth_run toy_crypto client_calls (with_role TimRole.Client) in
  au_state (@auth_run toy_crypto [@AcceptChain toy_crypto (toy_chain 5 (key_of 11)) toy_anchor [([1], [5])]] s)
  = AuthState.Failed LabCertificateRevoked
  /\ au_state (@auth_run toy_crypto
                 [@AcceptChain toy_crypto (toy_chain 5 (key_of 11)) toy_anchor [([1], [5])];
                  @IssueChallenge toy_crypto (key_of 1); @VerifyResponse toy_crypto server_answer] s)
     = AuthState.Authenticated.
Proof. by vm_compute. Qed.
