(* ===== verification/Heartbeat.v ===== *)
(** The heartbeat: the model of [src/j1939/heartbeat.rs] and of its session plugin
    [src/session/plugins/heartbeat.rs], and what is proved of it.

    A sender counts, a receiver judges what it hears and how long it hears nothing; the plugin
    runs one sender and a receiver per peer, and its error events are what stops the machine.
    Proved: what the receiver accepts, how long it waits, and what its plugin reports. *)
From S2P Require Export Clock.

Module hb_seq.
Definition INIT : Z := 251.
Definition RESERVED_LOW : Z := 252.
Definition RESERVED_HIGH : Z := 253.
Definition SENDER_ERROR : Z := 254.
Definition SHUTDOWN : Z := 255.
Definition MAX_NORMAL : Z := 250.
End hb_seq.
Definition HB_INTERVAL_MS : Z := 100.
Definition HB_COMM_ERROR_TIMEOUT_MS : Z := 300.
Definition HB_RECOVERY_COUNT : Z := 8.
Definition HB_MAX_JUMP : Z := 3.
Definition HB_MAX_MISS_EVENTS_PER_UPDATE : Z := 64.
Definition PGN_HEARTBEAT : Pgn := 0xF0E4.
Definition PGN_HEARTBEAT_REQUEST : Pgn := 0xCC00.

(** ** Requests *)

Record HeartbeatRequest : Type := mkHbRequest { hq_requested_pgn : Pgn; hq_interval_ms : Z }.
Definition for_heartbeat (interval_ms : Z) : HeartbeatRequest :=
  mkHbRequest PGN_HEARTBEAT interval_ms.
(** The text of the error leaves the number out. *)
Definition hb_request_encode (r : HeartbeatRequest) : Result' (list Z) :=
  if negb (pgn_is_valid (hq_requested_pgn r)) then
    Err (Error.invalid_data "heartbeat requested PGN exceeds the 18-bit J1939/ISOBUS PGN range")
  else
    Ok [Z.land (hq_requested_pgn r) 0xFF; Z.land (Z.shiftr (hq_requested_pgn r) 8) 0xFF;
        Z.land (Z.shiftr (hq_requested_pgn r) 16) 0xFF; Z.land (hq_interval_ms r) 0xFF;
        Z.shiftr (hq_interval_ms r) 8; 0xFF; 0xFF; 0xFF].
Definition hb_request_decode (data : list Z) : option HeartbeatRequest :=
  match data with
  | [d0; d1; d2; d3; d4; d5; d6; d7] =>
      if negb ((d5 =? 0xFF) && (d6 =? 0xFF) && (d7 =? 0xFF)) then None
      else
        let requested_pgn := Z.lor (Z.lor d0 (Z.shiftl d1 8)) (Z.shiftl d2 16) in
        if negb (pgn_is_valid requested_pgn) then None
        else Some (mkHbRequest requested_pgn (Z.lor d3 (Z.shiftl d4 8)))
  | _ => None
  end.
Definition hb_request_from_message (msg : Message) : option HeartbeatRequest :=
  if negb (m_pgn msg =? PGN_HEARTBEAT_REQUEST) || (m_source msg =? NULL_ADDRESS)
     || (m_source msg =? BROADCAST_ADDRESS) || (m_destination msg =? NULL_ADDRESS)
     || (m_destination msg =? BROADCAST_ADDRESS)
  then None else hb_request_decode (m_data msg).

(** ** The sender *)

Record HeartbeatSender : Type := mkHbSender {
  hs_sequence : Z;
  hs_init_sent : bool;
  hs_special_pending : bool;
  hs_timer_ms : Z;
  hs_interval_ms : Z
}.
Definition HeartbeatSender_new (interval_ms : Z) : HeartbeatSender :=
  mkHbSender hb_seq.INIT false false 0 interval_ms.
Definition next_sequence (s : HeartbeatSender) : HeartbeatSender * Z :=
  if negb (hs_init_sent s) then
    (mkHbSender hb_seq.INIT true (hs_special_pending s) (hs_timer_ms s) (hs_interval_ms s), hb_seq.INIT)
  else if hs_special_pending s then
    (mkHbSender (hs_sequence s) true false (hs_timer_ms s) (hs_interval_ms s), hs_sequence s)
  else
    let sequence :=
      if hb_seq.INIT <=? hs_sequence s then 0
      else if hb_seq.MAX_NORMAL <=? hs_sequence s then 0
      else hs_sequence s + 1 in
    (mkHbSender sequence true false (hs_timer_ms s) (hs_interval_ms s), sequence).
Definition signal_error (s : HeartbeatSender) : HeartbeatSender :=
  mkHbSender hb_seq.SENDER_ERROR (hs_init_sent s) true (hs_timer_ms s) (hs_interval_ms s).
Definition signal_shutdown (s : HeartbeatSender) : HeartbeatSender :=
  mkHbSender hb_seq.SHUTDOWN (hs_init_sent s) true (hs_timer_ms s) (hs_interval_ms s).
Definition hs_with_timer (x : Z) (s : HeartbeatSender) : HeartbeatSender :=
  mkHbSender (hs_sequence s) (hs_init_sent s) (hs_special_pending s) x (hs_interval_ms s).
Definition sender_update (elapsed_ms : Z) (s : HeartbeatSender) : HeartbeatSender * bool :=
  if hs_interval_ms s =? 0 then (hs_with_timer 0 s, false)
  else
    let timer_ms := sat_add 32 (hs_timer_ms s) elapsed_ms in
    if hs_interval_ms s <=? timer_ms then (hs_with_timer (timer_ms mod hs_interval_ms s) s, true)
    else (hs_with_timer timer_ms s, false).
Definition sender_reset (s : HeartbeatSender) : HeartbeatSender :=
  mkHbSender hb_seq.INIT false false 0 (hs_interval_ms s).
Definition set_interval (ms : Z) (s : HeartbeatSender) : HeartbeatSender :=
  mkHbSender (hs_sequence s) (hs_init_sent s) (hs_special_pending s) (hs_timer_ms s) ms.

(** ** The receiver *)

Module HbReceiverState.
Inductive t : Type := Normal | SequenceError | CommError | TransmissionError | GracefulShutdown.
#[global] Instance eq_dec : EqDecision t.
Proof. solve_decision. Defined.
End HbReceiverState.
Import HbReceiverState.

(** The receiver's events, in the order they are emitted. *)
Inductive HbEvent : Type :=
| OnStateChange (old new : HbReceiverState.t)
| OnShutdownReceived
| OnSenderError
| OnResetReceived.
Record HeartbeatReceiver : Type := mkHbReceiver {
  hr_state : HbReceiverState.t;
  hr_last_sequence : Z;
  hr_recovery_counter : Z;
  hr_time_since_last_ms : Z;
  hr_first_received : bool;
  hr_last_was_shutdown : bool
}.
Definition HeartbeatReceiver_new : HeartbeatReceiver :=
  mkHbReceiver Normal 0xFF 0 0 false false.
Definition hr_with_time (x : Z) (r : HeartbeatReceiver) : HeartbeatReceiver :=
  mkHbReceiver (hr_state r) (hr_last_sequence r) (hr_recovery_counter r) x (hr_first_received r)
    (hr_last_was_shutdown r).
Definition hr_with_last (x : Z) (r : HeartbeatReceiver) : HeartbeatReceiver :=
  mkHbReceiver (hr_state r) x (hr_recovery_counter r) (hr_time_since_last_ms r) (hr_first_received r)
    (hr_last_was_shutdown r).
Definition hr_with_shutdown (x : bool) (r : HeartbeatReceiver) : HeartbeatReceiver :=
  mkHbReceiver (hr_state r) (hr_last_sequence r) (hr_recovery_counter r) (hr_time_since_last_ms r)
    (hr_first_received r) x.
Definition hr_with_recovery (x : Z) (r : HeartbeatReceiver) : HeartbeatReceiver :=
  mkHbReceiver (hr_state r) (hr_last_sequence r) x (hr_time_since_last_ms r) (hr_first_received r)
    (hr_last_was_shutdown r).
(** The state is changed and the recovery counter starts again. *)
Definition hr_change (new : HbReceiverState.t) (r : HeartbeatReceiver)
    : HeartbeatReceiver * list HbEvent :=
  (mkHbReceiver new (hr_last_sequence r) 0 (hr_time_since_last_ms r) (hr_first_received r)
     (hr_last_was_shutdown r), [OnStateChange (hr_state r) new]).
Definition compute_jump (from to : Z) : Z :=
  if from =? hb_seq.INIT then if to =? 0 then 1 else sat_add 8 to 1
  else if from <? to then to - from
  else Z.min (sat_add 16 (sat_sub (hb_seq.MAX_NORMAL + 1) from) to) 255.
Definition enter_fault (next : HbReceiverState.t) (r : HeartbeatReceiver)
    : HeartbeatReceiver * list HbEvent :=
  let r := mkHbReceiver (hr_state r) (hr_last_sequence r) 0 (hr_time_since_last_ms r) true
             (hr_last_was_shutdown r) in
  if bool_decide (hr_state r = next) then (r, []) else hr_change next r.
(** The judgement of a byte of the band 0..=250; [None] is the [unreachable!] of the code. *)
Definition judge (sequence : Z) (r : HeartbeatReceiver) : option (HeartbeatReceiver * list HbEvent) :=
  let is_error :=
    if sequence =? hr_last_sequence r then true
    else HB_MAX_JUMP <? compute_jump (hr_last_sequence r) sequence in
  match hr_state r with
  | Normal => Some (if is_error then hr_change SequenceError r else (r, []))
  | SequenceError | TransmissionError | GracefulShutdown =>
      Some (if is_error then (hr_with_recovery 0 r, [])
            else
              let r := hr_with_recovery (sat_add 8 (hr_recovery_counter r) 1) r in
              if HB_RECOVERY_COUNT <=? hr_recovery_counter r then hr_change Normal r else (r, []))
  | CommError => None
  end.
Definition process (sequence : Z) (r : HeartbeatReceiver) : option (HeartbeatReceiver * list HbEvent) :=
  if (sequence =? hb_seq.RESERVED_LOW) || (sequence =? hb_seq.RESERVED_HIGH) then Some (r, [])
  else
    let r := hr_with_time 0 r in
    if sequence =? hb_seq.SENDER_ERROR then
      let '(r, es) := enter_fault TransmissionError r in Some (r, es ++ [OnSenderError])
    else if sequence =? hb_seq.SHUTDOWN then
      let '(r, es) :=
        if hr_last_was_shutdown r then (r, [])
        else let '(r, es) := enter_fault GracefulShutdown r in (r, es ++ [OnShutdownReceived]) in
      Some (hr_with_shutdown true r, es)
    else
      let r := hr_with_shutdown false r in
      if bool_decide (hr_state r = CommError) then
        let '(r, es) := hr_change Normal r in Some (hr_with_last sequence r, es)
      else if negb (hr_first_received r) then
        Some (mkHbReceiver (hr_state r) sequence (hr_recovery_counter r) (hr_time_since_last_ms r) true
                (hr_last_was_shutdown r), [])
      else if sequence =? hb_seq.INIT then Some (hr_with_last hb_seq.INIT r, [OnResetReceived])
      else '(r, es) ← judge sequence r; Some (hr_with_last sequence r, es).
Definition receiver_update (elapsed_ms : Z) (r : HeartbeatReceiver) : HeartbeatReceiver * list HbEvent :=
  if negb (hr_first_received r) then (r, [])
  else
    let r := hr_with_time (sat_add 32 (hr_time_since_last_ms r) elapsed_ms) r in
    if (HB_COMM_ERROR_TIMEOUT_MS <? hr_time_since_last_ms r)
       && negb (bool_decide (hr_state r = CommError))
    then hr_change CommError r else (r, []).
Definition receiver_last_sequence (r : HeartbeatReceiver) : option Z :=
  if hr_first_received r then Some (hr_last_sequence r) else None.
Definition is_healthy (r : HeartbeatReceiver) : bool := bool_decide (hr_state r = Normal).

(** ** The tracker *)

Record RemotePeer : Type := mkPeer { rp_last_sequence : Z; rp_missed_count : Z; rp_timer_ms : Z }.
Inductive TrackerEvent : Type :=
| OnHeartbeatReceived (address : Address) (sequence : Z)
| OnHeartbeatMissed (address : Address) (missed_count : Z).
Record HeartbeatTracker : Type := mkTracker {
  tr_interval_ms : Z;
  tr_peers : BTreeMap.t Address RemotePeer
}.
Definition HeartbeatTracker_new (interval_ms : Z) : HeartbeatTracker := mkTracker interval_ms [].
Definition tracker_track (address : Address) (t : HeartbeatTracker) : HeartbeatTracker :=
  mkTracker (tr_interval_ms t) (BTreeMap.or_insert address (mkPeer 0 0 0) (tr_peers t)).
Definition tracker_untrack (address : Address) (t : HeartbeatTracker) : HeartbeatTracker :=
  mkTracker (tr_interval_ms t) (BTreeMap.remove address (tr_peers t)).
Definition tracker_handle_message (msg : Message) (t : HeartbeatTracker)
    : HeartbeatTracker * list TrackerEvent :=
  if negb (has_usable_envelope_for_pgn msg PGN_HEARTBEAT) then (t, [])
  else
    match m_data msg with
    | [] => (t, [])
    | seq :: tail =>
        let valid_width :=
          (length (m_data msg) =? 1)%nat
          || ((length (m_data msg) =? 8)%nat && forallb (fun b => b =? 0xFF) tail) in
        if negb valid_width || (seq =? hb_seq.RESERVED_LOW) || (seq =? hb_seq.RESERVED_HIGH) then (t, [])
        else
          (mkTracker (tr_interval_ms t)
             (BTreeMap.update (m_source msg) (fun _ => mkPeer seq 0 0) (tr_peers t)),
           [OnHeartbeatReceived (m_source msg) seq])
    end.
(** One peer over [elapsed_ms], and the misses to report. *)
Definition peer_tick (threshold elapsed_ms : Z) (address : Address) (p : RemotePeer)
    : RemotePeer * list TrackerEvent :=
  if threshold =? 0 then (mkPeer (rp_last_sequence p) (rp_missed_count p) 0, [])
  else
    let timer_ms := sat_add 32 (rp_timer_ms p) elapsed_ms in
    let missed_this_tick := timer_ms / threshold in
    if missed_this_tick =? 0 then (mkPeer (rp_last_sequence p) (rp_missed_count p) timer_ms, [])
    else
      let previous_missed := rp_missed_count p in
      let missed_count := sat_add 32 previous_missed missed_this_tick in
      (mkPeer (rp_last_sequence p) missed_count (timer_ms mod threshold),
       if missed_this_tick <=? HB_MAX_MISS_EVENTS_PER_UPDATE
       then (fun i => OnHeartbeatMissed address (sat_add 32 previous_missed (Z.of_nat i)))
              <$> seq 1 (Z.to_nat missed_this_tick)
       else [OnHeartbeatMissed address missed_count]).
Definition sat_mul_u32 (a b : Z) : Z := Z.min (a * b) (2 ^ 32 - 1).
Definition tracker_update (elapsed_ms : Z) (t : HeartbeatTracker) : HeartbeatTracker * list TrackerEvent :=
  let threshold := sat_mul_u32 (tr_interval_ms t) 3 in
  let ticked := (fun '(a, p) => (a, peer_tick threshold elapsed_ms a p)) <$> tr_peers t in
  (mkTracker (tr_interval_ms t) ((fun '(a, (p, _)) => (a, p)) <$> ticked),
   concat ((fun '(_, (_, es)) => es) <$> ticked)).
Definition tracker_last_sequence (address : Address) (t : HeartbeatTracker) : option Z :=
  rp_last_sequence <$> BTreeMap.get address (tr_peers t).
Definition tracker_missed_count (address : Address) (t : HeartbeatTracker) : Z :=
  match BTreeMap.get address (tr_peers t) with Some p => rp_missed_count p | None => 0 end.

(** ** The plugin *)

Inductive HeartbeatEvent : Type :=
| HbReceived (source : Address) (sequence : Z)
| HbMissed (source : Address) (missed_count : Z)
| HbSent (sequence : Z)
| HbSequenceError (source : Address) (sequence : Z)
| HbCommError (source : Address)
| HbSenderError (source : Address)
| HbGracefulShutdown (source : Address)
| HbRecovered (source : Address).
(** A peer's address, its receiver and the state last seen. *)
Abbreviation HbPeer := (Address * HeartbeatReceiver * HbReceiverState.t)%type.
Record Heartbeat : Type := mkHeartbeat {
  hb_sender : HeartbeatSender;
  hb_receivers : list HbPeer;
  hb_last : option Instant.t
}.
Definition every (interval_ms : Z) : Heartbeat := mkHeartbeat (HeartbeatSender_new interval_ms) [] None.
Definition find_receiver (address : Address) (l : list HbPeer) : option HbPeer :=
  List.find (fun e => e.1.1 =? address) l.
(** [receiver_for]: the peer is there afterwards. *)
Definition receiver_for (address : Address) (l : list HbPeer) : list HbPeer :=
  if existsb (fun e : HbPeer => e.1.1 =? address) l then l
  else l ++ [(address, HeartbeatReceiver_new, Normal)].
(** An assignment through the reference [receiver_for] returns. *)
Fixpoint set_receiver (address : Address) (r : HeartbeatReceiver) (l : list HbPeer) : list HbPeer :=
  match l with
  | [] => []
  | e :: l => if e.1.1 =? address then (address, r, hr_state r) :: l else e :: set_receiver address r l
  end.
Definition hb_track (address : Address) (h : Heartbeat) : Heartbeat :=
  mkHeartbeat (hb_sender h) (receiver_for address (hb_receivers h)) (hb_last h).
Definition hb_untrack (address : Address) (h : Heartbeat) : Heartbeat :=
  mkHeartbeat (hb_sender h) (filter (fun e : HbPeer => e.1.1 <> address) (hb_receivers h)) (hb_last h).
Definition hb_last_sequence (address : Address) (h : Heartbeat) : option Z :=
  e ← find_receiver address (hb_receivers h); receiver_last_sequence e.1.2.
Definition hb_missed_count (address : Address) (h : Heartbeat) : Z :=
  match find_receiver address (hb_receivers h) with
  | Some e => Z.b2z (bool_decide (hr_state e.1.2 = CommError))
  | None => 0
  end.
Definition peer_state (address : Address) (h : Heartbeat) : option HbReceiverState.t :=
  (fun e => hr_state e.1.2) <$> find_receiver address (hb_receivers h).
Definition any_peer_faulted (h : Heartbeat) : bool :=
  existsb (fun e : HbPeer => negb (bool_decide (hr_state e.1.2 = Normal))) (hb_receivers h).
Definition hb_signal_error (h : Heartbeat) : Heartbeat :=
  mkHeartbeat (signal_error (hb_sender h)) (hb_receivers h) (hb_last h).
Definition hb_signal_shutdown (h : Heartbeat) : Heartbeat :=
  mkHeartbeat (signal_shutdown (hb_sender h)) (hb_receivers h) (hb_last h).
(** The event of a changed state. *)
Definition change_event (source : Address) (sequence : Z) (after : HbReceiverState.t)
    : list HeartbeatEvent :=
  match after with
  | SequenceError => [HbSequenceError source sequence]
  | CommError => [HbCommError source]
  | Normal => [HbRecovered source]
  | TransmissionError | GracefulShutdown => []
  end.
Definition hb_on_frame (msg : Message) (h : Heartbeat) : option (Heartbeat * list HeartbeatEvent) :=
  if negb (has_usable_envelope_for_pgn msg PGN_HEARTBEAT) then Some (h, [])
  else
    match m_data msg with
    | [] => Some (h, [])
    | sequence :: _ =>
        if (sequence =? hb_seq.RESERVED_LOW) || (sequence =? hb_seq.RESERVED_HIGH) then Some (h, [])
        else
          let source := m_source msg in
          let reported :=
            if sequence =? hb_seq.SENDER_ERROR then [HbSenderError source]
            else if sequence =? hb_seq.SHUTDOWN then [HbGracefulShutdown source] else [] in
          let receivers := receiver_for source (hb_receivers h) in
          entry ← find_receiver source receivers;
          '(r, _) ← process sequence entry.1.2;
          let before := hr_state entry.1.2 in
          let after := hr_state r in
          Some (mkHeartbeat (hb_sender h) (set_receiver source r receivers) (hb_last h),
                reported
                ++ (if bool_decide (before <> after) then change_event source sequence after else [])
                ++ [HbReceived source sequence])
    end.
Definition tick_peer (elapsed : Z) (e : HbPeer) : HbPeer * list HeartbeatEvent :=
  let '(source, receiver, _) := e in
  let '(r, _) := receiver_update elapsed receiver in
  ((source, r, hr_state r),
   if bool_decide (hr_state receiver <> hr_state r) && bool_decide (hr_state r = CommError)
   then [HbCommError source; HbMissed source 1] else []).
(** The events, and the sequence byte to broadcast if one is due. *)
Definition hb_on_tick (now : Instant.t) (h : Heartbeat) : Heartbeat * list HeartbeatEvent * option Z :=
  let '(last, elapsed) := advance_millis (hb_last h) now in
  let ticked := tick_peer elapsed <$> hb_receivers h in
  let events := concat ticked.*2 in
  let '(sender, due) := sender_update elapsed (hb_sender h) in
  if due then
    let '(sender, sequence) := next_sequence sender in
    (mkHeartbeat sender ticked.*1 last, events ++ [HbSent sequence], Some sequence)
  else (mkHeartbeat sender ticked.*1 last, events, None).

Import HbReceiverState.

(** ** The receiver never reaches its [unreachable!] *)

Lemma judge_some s r : hr_state r <> CommError -> exists p, judge s r = Some p.
Proof. intros H. unfold judge. destruct (hr_state r); try done; by eexists. Qed.
Lemma process_some s r : exists p, process s r = Some p.
Proof.
  unfold process. destruct (_ || _); [by eexists|]. cbv zeta.
  destruct (s =? hb_seq.SENDER_ERROR); [destruct (enter_fault _ _); by eexists|].
  destruct (s =? hb_seq.SHUTDOWN).
  { destruct (hr_last_was_shutdown _); [|destruct (enter_fault _ _)]; by eexists. }
  case_bool_decide as Hc; [by eexists|]. destruct (negb _); [by eexists|].
  destruct (s =? hb_seq.INIT); [by eexists|].
  destruct (judge_some s (hr_with_shutdown false (hr_with_time 0 r))) as [[r' es] ->]; [done|].
  by eexists.
Qed.

(** ** The sequence rule *)

(** How far [s] is ahead of [last], modulo the 251 values of the band; the initial value 251
    counts as the one before 0. *)
Definition ahead (last s : Z) : Z := if last =? hb_seq.INIT then s + 1 else (s - last) mod 251.
Lemma compute_jump_ahead last s :
  0 <= last <= hb_seq.INIT -> 0 <= s <= hb_seq.MAX_NORMAL -> s <> last ->
  compute_jump last s = ahead last s.
Proof.
  unfold compute_jump, ahead, hb_seq.INIT, hb_seq.MAX_NORMAL, sat_add, sat_sub. intros Hl Hs Hn.
  destruct (Z.eqb_spec last 251).
  { destruct (Z.eqb_spec s 0); lia. }
  destruct (Z.ltb_spec last s).
  - symmetry. apply Z.mod_small. lia.
  - rewrite <-(Z_mod_plus_full (s - last) 1 251), Z.mod_small by lia. lia.
Qed.
(** In order: one to three ahead, so at most two bytes were lost. *)
Definition in_order (last s : Z) : bool := (1 <=? ahead last s) && (ahead last s <=? HB_MAX_JUMP).
Lemma judge_spec s r :
  0 <= hr_last_sequence r <= hb_seq.INIT -> 0 <= s <= hb_seq.MAX_NORMAL ->
  judge s r =
  match hr_state r with
  | Normal => Some (if in_order (hr_last_sequence r) s then (r, []) else hr_change SequenceError r)
  | CommError => None
  | _ => Some (if in_order (hr_last_sequence r) s then
                 let r := hr_with_recovery (sat_add 8 (hr_recovery_counter r) 1) r in
                 if HB_RECOVERY_COUNT <=? hr_recovery_counter r then hr_change Normal r else (r, [])
               else (hr_with_recovery 0 r, []))
  end.
Proof.
  intros Hl Hs. unfold judge.
  assert (E : (if s =? hr_last_sequence r then true
               else HB_MAX_JUMP <? compute_jump (hr_last_sequence r) s)
              = negb (in_order (hr_last_sequence r) s)).
  { unfold in_order. destruct (Z.eqb_spec s (hr_last_sequence r)) as [He|Hn].
    - unfold ahead. unfold hb_seq.INIT, hb_seq.MAX_NORMAL in *.
      destruct (Z.eqb_spec (hr_last_sequence r) 251); [lia|]. by rewrite He, Z.sub_diag.
    - rewrite compute_jump_ahead by done.
      assert (1 <= ahead (hr_last_sequence r) s).
      { unfold ahead, hb_seq.INIT, hb_seq.MAX_NORMAL in *. destruct (Z.eqb_spec (hr_last_sequence r) 251); [lia|].
        assert (Hb := Z.mod_pos_bound (s - hr_last_sequence r) 251 eq_refl).
        destruct (decide ((s - hr_last_sequence r) mod 251 = 0)) as [Hz|]; [|lia].
        apply Z.mod_divide in Hz as [k Hk]; [|done]. lia. }
      rewrite (proj2 (Z.leb_le 1 _)) by done. cbn [andb]. by rewrite Z.ltb_antisym. }
  rewrite E. destruct (hr_state r); by destruct (in_order _ _).
Qed.

(** ** Calls on one receiver *)

Inductive RcvCall : Type := RProcess (sequence : Z) | RUpdate (elapsed_ms : Z).
Definition rcv_call (k : RcvCall) (r : HeartbeatReceiver) : HeartbeatReceiver * list HbEvent :=
  match k with
  | RProcess s => match process s r with Some p => p | None => (r, []) end
  | RUpdate ms => receiver_update ms r
  end.
Definition rcv_run (ks : list RcvCall) (r : HeartbeatReceiver) : HeartbeatReceiver :=
  foldl (fun r k => (rcv_call k r).1) r ks.
(** What every receiver satisfies: the byte last accepted is in the band once one was heard, and
    a fault counts fewer than eight bytes. *)
Record rcv_inv (r : HeartbeatReceiver) : Prop := {
  ri_last : 0 <= hr_last_sequence r <= 255;
  ri_time : 0 <= hr_time_since_last_ms r;
  ri_counter : 0 <= hr_recovery_counter r < HB_RECOVERY_COUNT;
  ri_fresh : hr_first_received r = false -> hr_state r = Normal
}.
Lemma rcv_inv_new : rcv_inv HeartbeatReceiver_new.
Proof. by split. Qed.
(** A byte of the band, or the initial value. *)
Definition band (s : Z) : Prop := 0 <= s <= hb_seq.INIT.

Lemma update_silent ms r :
  hr_first_received r = true -> hr_time_since_last_ms r + ms <= HB_COMM_ERROR_TIMEOUT_MS ->
  0 <= hr_time_since_last_ms r + ms ->
  receiver_update ms r = (hr_with_time (hr_time_since_last_ms r + ms) r, []).
Proof.
  intros Hf Ht H0. unfold receiver_update. rewrite Hf. cbn [negb]. cbv zeta.
  assert (E : sat_add 32 (hr_time_since_last_ms r) ms = hr_time_since_last_ms r + ms)
    by (unfold sat_add, HB_COMM_ERROR_TIMEOUT_MS in *; lia).
  rewrite E. cbn [hr_with_time hr_time_since_last_ms hr_state].
  by rewrite (proj2 (Z.ltb_ge _ _)) by done.
Qed.
Lemma update_timeout ms r :
  hr_first_received r = true -> HB_COMM_ERROR_TIMEOUT_MS < hr_time_since_last_ms r + ms ->
  0 <= hr_time_since_last_ms r ->
  hr_state (receiver_update ms r).1 = CommError.
Proof.
  intros Hf Ht H0. unfold receiver_update. rewrite Hf. cbn [negb]. cbv zeta.
  cbn [hr_with_time hr_time_since_last_ms hr_state].
  rewrite (proj2 (Z.ltb_lt HB_COMM_ERROR_TIMEOUT_MS _)) by (unfold sat_add, HB_COMM_ERROR_TIMEOUT_MS in *; lia).
  cbn [andb]. by case_bool_decide.
Qed.
Lemma update_keeps ms r :
  hr_first_received (receiver_update ms r).1 = hr_first_received r
  /\ hr_last_sequence (receiver_update ms r).1 = hr_last_sequence r
  /\ (hr_state (receiver_update ms r).1 = hr_state r \/ hr_state (receiver_update ms r).1 = CommError)
  /\ (0 <= ms -> 0 <= hr_time_since_last_ms r ->
      hr_time_since_last_ms (receiver_update ms r).1
      = if hr_first_received r then sat_add 32 (hr_time_since_last_ms r) ms else hr_time_since_last_ms r).
Proof.
  unfold receiver_update. destruct (hr_first_received r) eqn:Ef; cbn [negb].
  - cbv zeta. destruct (_ && _); cbn; rewrite ?Ef; split_and!; auto.
  - cbn. rewrite ?Ef. split_and!; auto.
Qed.

(** ** A sender that keeps the protocol *)

(** No error or shutdown was signalled, and the sequence is in the band. *)
Definition steady (s : HeartbeatSender) : Prop :=
  hs_special_pending s = false /\ band (hs_sequence s)
  /\ (hs_init_sent s = false -> hs_sequence s = hb_seq.INIT).
Lemma next_steady s s' q :
  steady s -> next_sequence s = (s', q) ->
  steady s' /\ hs_init_sent s' = true /\ q = hs_sequence s'
  /\ (hs_init_sent s = true -> 0 <= q <= hb_seq.MAX_NORMAL
      /\ q = if hb_seq.MAX_NORMAL <=? hs_sequence s then 0 else hs_sequence s + 1).
Proof.
  unfold steady, next_sequence, band, hb_seq.INIT, hb_seq.MAX_NORMAL. intros (Hp & Hb & Hi).
  destruct (hs_init_sent s) eqn:Ei; cbn [negb].
  - rewrite Hp. cbv zeta. intros [= <- <-]. cbn.
    destruct (Z.leb_spec 251 (hs_sequence s)), (Z.leb_spec 250 (hs_sequence s)); split_and!; try done; lia.
  - intros [= <- <-]. cbn. rewrite Hp. split_and!; try done; lia.
Qed.
(** The [n]-th next byte. *)
Fixpoint emit_n (n : nat) (s : HeartbeatSender) : HeartbeatSender * Z :=
  match n with
  | O => next_sequence s
  | S n => emit_n n (next_sequence s).1
  end.
Lemma emit_n_steady n s s' q :
  steady s -> emit_n n s = (s', q) ->
  steady s' /\ hs_init_sent s' = true /\ q = hs_sequence s'.
Proof.
  revert s. induction n as [|n IH]; intros s Hs; cbn [emit_n].
  - intros E. destruct (next_steady _ _ _ Hs E) as (? & ? & ? & _). done.
  - destruct (next_sequence s) as [s1 q1] eqn:E. destruct (next_steady _ _ _ Hs E) as (? & ? & ? & _).
    by apply IH.
Qed.
(** The successor of a byte, for the sender. *)
Lemma band_step x :
  x = hb_seq.INIT \/ 0 <= x <= hb_seq.MAX_NORMAL ->
  (if hb_seq.MAX_NORMAL <=? x then 0 else x + 1) = (if x =? hb_seq.INIT then 0 else (x + 1) mod 251).
Proof.
  unfold hb_seq.INIT, hb_seq.MAX_NORMAL. intros Hx.
  destruct (Z.leb_spec 250 x), (Z.eqb_spec x 251); try lia.
  - replace x with 250 by lia. done.
  - symmetry. apply Z.mod_small. lia.
Qed.
Lemma in_order_step x k : 0 <= x <= 250 -> 1 <= k <= 3 -> in_order x ((x + k) mod 251) = true.
Proof.
  intros Hx Hk. unfold in_order, ahead, hb_seq.INIT, HB_MAX_JUMP. rewrite (proj2 (Z.eqb_neq x 251)) by lia.
  replace (((x + k) mod 251 - x) mod 251) with k; [rewrite andb_true_iff, !Z.leb_le; lia|].
  rewrite Zminus_mod_idemp_l. replace (x + k - x) with k by lia. symmetry. apply Z.mod_small. lia.
Qed.
Lemma emit_n_last n s s' q :
  emit_n (S n) s = (s', q) -> exists s1 q1, emit_n n s = (s1, q1) /\ next_sequence s1 = (s', q).
Proof.
  revert s. induction n as [|n IH]; intros s E; cbn [emit_n] in *.
  - destruct (next_sequence s) as [s1 q1]. by exists s1, q1.
  - by apply IH.
Qed.
Lemma steady_band s : steady s -> hs_sequence s = hb_seq.INIT \/ 0 <= hs_sequence s <= hb_seq.MAX_NORMAL.
Proof. intros (_ & Hb & _). unfold band, hb_seq.INIT, hb_seq.MAX_NORMAL in *. lia. Qed.
Lemma emit_n_value n s s' q :
  steady s -> hs_init_sent s = true -> (n <= 250)%nat -> emit_n n s = (s', q) ->
  0 <= q <= hb_seq.MAX_NORMAL
  /\ q = if hs_sequence s =? hb_seq.INIT then Z.of_nat n else (hs_sequence s + Z.of_nat n + 1) mod 251.
Proof.
  intros Hs Hi. revert s' q. induction n as [|n IH]; intros s' q Hn E.
  - cbn [emit_n] in E. destruct (next_steady _ _ _ Hs E) as (_ & _ & _ & H).
    destruct (H Hi) as [H1 H2]. split; [done|]. rewrite H2, band_step by by apply steady_band.
    destruct (hs_sequence s =? hb_seq.INIT); [done|]. f_equal. lia.
  - apply emit_n_last in E as (s1 & q1 & E1 & E2). destruct (IH s1 q1 ltac:(lia) E1) as [Hq1 Hq1'].
    destruct (emit_n_steady _ _ _ _ Hs E1) as (Hs1 & Hi1 & Hqs).
    destruct (next_steady _ _ _ Hs1 E2) as (_ & _ & _ & H). destruct (H Hi1) as [H1 H2].
    split; [done|]. rewrite H2, <-Hqs, band_step by by right.
    rewrite (proj2 (Z.eqb_neq q1 _)) by (unfold hb_seq.INIT, hb_seq.MAX_NORMAL in *; lia).
    rewrite Hq1'. unfold hb_seq.INIT. destruct (Z.eqb_spec (hs_sequence s) 251).
    + rewrite Z.mod_small by lia. lia.
    + rewrite Zplus_mod_idemp_l. f_equal. lia.
Qed.
(** With at most two bytes lost, the next one heard is in order. *)
Lemma emit_n_ahead n s s' q :
  (n <= 2)%nat -> steady s -> hs_init_sent s = true -> emit_n n s = (s', q) ->
  0 <= q <= hb_seq.MAX_NORMAL /\ in_order (hs_sequence s) q = true.
Proof.
  intros Hn Hs Hi E. destruct (emit_n_value n s s' q Hs Hi ltac:(lia) E) as [H1 H2]. split; [done|].
  rewrite H2. destruct (steady_band s Hs) as [He|Hb].
  - rewrite He. cbn. unfold in_order, ahead, HB_MAX_JUMP. cbn. rewrite andb_true_iff, !Z.leb_le. lia.
  - unfold hb_seq.INIT, hb_seq.MAX_NORMAL in *. rewrite (proj2 (Z.eqb_neq _ 251)) by lia.
    replace (hs_sequence s + Z.of_nat n + 1) with (hs_sequence s + (Z.of_nat n + 1)) by lia.
    apply in_order_step; lia.
Qed.

(** ** A sender and a receiver *)

(** One heartbeat heard: how many before it were lost, and the receiver's updates since the last
    one. *)
Record Hearing : Type := mkHearing { hg_lost : nat; hg_updates : list Z }.
Definition hearing_ok (g : Hearing) : Prop :=
  (hg_lost g <= 2)%nat /\ Forall (fun ms => 0 <= ms) (hg_updates g)
  /\ sum (hg_updates g) <= HB_COMM_ERROR_TIMEOUT_MS.
Definition hear (g : Hearing) (p : HeartbeatSender * HeartbeatReceiver)
    : HeartbeatSender * HeartbeatReceiver :=
  let '(s, r) := p in
  let '(s, q) := emit_n (hg_lost g) s in
  (s, rcv_run ((RUpdate <$> hg_updates g) ++ [RProcess q]) r).
Definition hear_all (gs : list Hearing) (p : HeartbeatSender * HeartbeatReceiver)
    : HeartbeatSender * HeartbeatReceiver := foldl (fun p g => hear g p) p gs.
Lemma sum_nonneg l : Forall (fun ms => 0 <= ms) l -> 0 <= sum l.
Proof. induction 1 as [|x l Hx _ IH]; [done|]. change (sum (x :: l)) with (x + sum l). lia. Qed.
(** Updates within the window only move the clock. *)
Lemma updates_within mss r :
  Forall (fun ms => 0 <= ms) mss -> 0 <= hr_time_since_last_ms r ->
  hr_time_since_last_ms r + sum mss <= HB_COMM_ERROR_TIMEOUT_MS ->
  exists t, rcv_run (RUpdate <$> mss) r = hr_with_time t r.
Proof.
  intros Hm. revert r. induction Hm as [|ms mss Hms Hm IH]; intros r H0 Ht; cbn.
  { exists (hr_time_since_last_ms r). by destruct r. }
  change (sum (ms :: mss)) with (ms + sum mss) in Ht. assert (Hs := sum_nonneg mss Hm).
  destruct (hr_first_received r) eqn:Ef.
  - rewrite update_silent by (done || lia). cbn [fst].
    destruct (IH (hr_with_time (hr_time_since_last_ms r + ms) r)) as [t Hr]; [cbn; lia..|].
    unfold rcv_run in Hr. rewrite Hr. by exists t.
  - unfold receiver_update. rewrite Ef. cbn. apply IH; lia.
Qed.
(** The receiver's last byte is the sender's, and the sender was heard in time. *)
Definition synced (s : HeartbeatSender) (r : HeartbeatReceiver) : Prop :=
  steady s /\ hs_init_sent s = true /\ hr_first_received r = true
  /\ hr_last_sequence r = hs_sequence s /\ hr_time_since_last_ms r = 0.
(** A byte of the band, heard in any state but a lost connection. *)
Lemma process_band q r :
  0 <= q <= hb_seq.MAX_NORMAL -> hr_first_received r = true -> hr_state r <> CommError ->
  process q r =
  '(r', es) ← judge q (hr_with_shutdown false (hr_with_time 0 r)); Some (hr_with_last q r', es).
Proof.
  intros Hq Hf Hs. unfold process, hb_seq.RESERVED_LOW, hb_seq.RESERVED_HIGH, hb_seq.SENDER_ERROR,
    hb_seq.SHUTDOWN, hb_seq.INIT, hb_seq.MAX_NORMAL in *. cbv zeta.
  do 5 rewrite (proj2 (Z.eqb_neq q _)) by lia. cbn [orb hr_state hr_with_shutdown hr_with_time hr_first_received].
  by rewrite bool_decide_false, Hf by done.
Qed.
Definition faulted (st : HbReceiverState.t) : Prop :=
  st = SequenceError \/ st = TransmissionError \/ st = GracefulShutdown.
Lemma rcv_run_app ks ks' r : rcv_run (ks ++ ks') r = rcv_run ks' (rcv_run ks r).
Proof. unfold rcv_run. by rewrite foldl_app. Qed.
Lemma hear_synced g s r :
  hearing_ok g -> synced s r -> hr_state r <> CommError -> 0 <= hr_recovery_counter r < HB_RECOVERY_COUNT ->
  let '(s', r') := hear g (s, r) in
  synced s' r'
  /\ (hr_state r = Normal -> hr_state r' = Normal /\ hr_recovery_counter r' = hr_recovery_counter r)
  /\ (faulted (hr_state r) ->
      if decide (hr_recovery_counter r + 1 < HB_RECOVERY_COUNT)
      then hr_state r' = hr_state r /\ hr_recovery_counter r' = hr_recovery_counter r + 1
      else hr_state r' = Normal /\ hr_recovery_counter r' = 0).
Proof.
  intros (Hl & Hm & Ht) (Hst & Hi & Hf & Hq & H0) Hc Hrc. unfold hear.
  destruct (emit_n (hg_lost g) s) as [s' q] eqn:E.
  destruct (emit_n_steady _ _ _ _ Hst E) as (Hst' & Hi' & Hqs).
  destruct (emit_n_ahead _ _ _ _ Hl Hst Hi E) as [Hqb Hord].
  rewrite rcv_run_app. destruct (updates_within (hg_updates g) r Hm ltac:(lia) ltac:(lia)) as [t ->].
  unfold rcv_run. cbn [foldl rcv_call]. rewrite process_band by done.
  rewrite judge_spec;
    [|cbn; destruct (steady_band s Hst); unfold hb_seq.INIT, hb_seq.MAX_NORMAL in *; lia|done].
  cbn [hr_state hr_last_sequence hr_recovery_counter hr_with_shutdown hr_with_time]. rewrite Hq, Hord.
  assert (Es : sat_add 8 (hr_recovery_counter r) 1 = hr_recovery_counter r + 1)
    by (unfold sat_add, HB_RECOVERY_COUNT in *; lia).
  rewrite Es. unfold synced. destruct (hr_state r) eqn:Er; try done; cbn zeta.
  1: split; [by split_and!|split; [done|by intros [?|[?|?]]]].
  all: destruct (Z.leb_spec HB_RECOVERY_COUNT
                   (hr_recovery_counter (hr_with_recovery (hr_recovery_counter r + 1)
                      (hr_with_shutdown false (hr_with_time 0 (hr_with_time t r)))))) as [H8|H8];
    cbn in H8 |- *; (split; [by split_and!|split; [done|intros _]]);
    [rewrite decide_False by lia|rewrite decide_True by lia]; done.
Qed.
Lemma hear_first g s r :
  hearing_ok g -> steady s -> hr_first_received r = false -> hr_state r = Normal ->
  let '(s', r') := hear g (s, r) in
  synced s' r' /\ hr_state r' = Normal /\ hr_recovery_counter r' = hr_recovery_counter r.
Proof.
  intros (Hl & Hm & Ht) Hst Hf Hn. unfold hear.
  destruct (emit_n (hg_lost g) s) as [s' q] eqn:E.
  destruct (emit_n_steady _ _ _ _ Hst E) as (Hst' & Hi' & Hqs).
  rewrite rcv_run_app.
  assert (Eu : rcv_run (RUpdate <$> hg_updates g) r = r).
  { clear -Hf. induction (hg_updates g) as [|ms l IH]; [done|]. cbn. unfold receiver_update. by rewrite Hf. }
  rewrite Eu. unfold rcv_run. cbn [foldl rcv_call].
  assert (Hb := steady_band s' Hst'). unfold process, hb_seq.RESERVED_LOW, hb_seq.RESERVED_HIGH,
    hb_seq.SENDER_ERROR, hb_seq.SHUTDOWN, hb_seq.INIT, hb_seq.MAX_NORMAL in *. cbv zeta.
  do 4 rewrite (proj2 (Z.eqb_neq q _)) by lia. cbn [orb hr_state hr_with_shutdown hr_with_time hr_first_received].
  rewrite bool_decide_false, Hf by (by rewrite Hn). cbn. by split_and!.
Qed.
Lemma hear_all_synced gs s r :
  Forall hearing_ok gs -> synced s r -> hr_state r = Normal -> hr_recovery_counter r = 0 ->
  let '(s', r') := hear_all gs (s, r) in synced s' r' /\ hr_state r' = Normal /\ hr_recovery_counter r' = 0.
Proof.
  intros Hg. revert s r. induction Hg as [|g gs Hg _ IH]; intros s r Hs Hn Hc; [done|].
  unfold hear_all. cbn [foldl].
  assert (H := hear_synced g s r Hg Hs ltac:(by rewrite Hn) ltac:(by rewrite Hc)).
  destruct (hear g (s, r)) as [s' r']. destruct H as (Hs' & Hk & _). destruct (Hk Hn) as [Hn' Hc'].
  apply IH; [done|done|congruence].
Qed.
Lemma hear_all_faulted gs s r :
  Forall hearing_ok gs -> synced s r -> faulted (hr_state r) ->
  0 <= hr_recovery_counter r < HB_RECOVERY_COUNT ->
  let '(s', r') := hear_all gs (s, r) in
  synced s' r'
  /\ hr_state r' = if decide (hr_recovery_counter r + Z.of_nat (length gs) < HB_RECOVERY_COUNT)
                   then hr_state r else Normal.
Proof.
  intros Hg. revert s r. induction Hg as [|g gs Hg Hgs IH]; intros s r Hs Hf Hc.
  { cbn. rewrite decide_True by lia. done. }
  unfold hear_all. cbn [foldl].
  assert (H := hear_synced g s r Hg Hs ltac:(by destruct Hf as [-> | [-> | ->]]) Hc).
  destruct (hear g (s, r)) as [s' r']. destruct H as (Hs' & _ & Hk). specialize (Hk Hf).
  assert (El : Z.of_nat (length (g :: gs)) = Z.of_nat (length gs) + 1) by (cbn [length]; lia). rewrite El.
  case_decide as Hd; destruct Hk as [Hst Hct].
  - specialize (IH s' r' Hs' ltac:(by rewrite Hst) ltac:(lia)). unfold hear_all in IH.
    destruct (foldl _ _ _) as [s2 r2]. destruct IH as [? ->]. split; [done|].
    rewrite Hst, Hct. repeat case_decide; try done; lia.
  - assert (IH' := hear_all_synced gs s' r' Hgs Hs' Hst Hct). unfold hear_all in IH'.
    destruct (foldl _ _ _) as [s2 r2]. destruct IH' as (? & -> & _). split; [done|].
    case_decide; [lia|done].
Qed.

(** A lost connection stays lost while nothing is heard. *)
Lemma lost_stays mss r :
  hr_state r = CommError -> hr_state (rcv_run (RUpdate <$> mss) r) = CommError.
Proof.
  revert r. induction mss as [|ms mss IH]; intros r Hs; [done|]. cbn. apply IH.
  destruct (update_keeps ms r) as (_ & _ & [E|E] & _); [by rewrite E|done].
Qed.
Lemma silence_lost mss r :
  hr_first_received r = true -> 0 <= hr_time_since_last_ms r <= HB_COMM_ERROR_TIMEOUT_MS ->
  Forall (fun ms => 0 <= ms) mss -> HB_COMM_ERROR_TIMEOUT_MS < hr_time_since_last_ms r + sum mss ->
  hr_state (rcv_run (RUpdate <$> mss) r) = CommError.
Proof.
  intros Hf H0 Hm. revert r Hf H0. induction Hm as [|ms mss Hms Hm IH]; intros r Hf H0 Ht.
  { cbn in Ht. lia. }
  change (sum (ms :: mss)) with (ms + sum mss) in Ht. cbn.
  destruct (Z_lt_dec HB_COMM_ERROR_TIMEOUT_MS (hr_time_since_last_ms r + ms)).
  - apply lost_stays. apply update_timeout; done || lia.
  - rewrite update_silent by (done || lia). apply IH; cbn; [done|lia..].
Qed.

(** C14: a receiver that hears a sender in time, never more than 300 ms apart and never more than
    two heartbeats lost in a row, stays healthy for ever, from the first byte and through every
    roll-over; one that was told of a fault, or saw the sequence break, is healthy again with the
    eighth heartbeat in a row and not before; and once the sender was heard, silence for more
    than 300 ms is a lost connection. *)
Theorem heartbeat_supervision gs s r :
  Forall hearing_ok gs -> steady s ->
  (hr_first_received r = false -> hr_state r = Normal -> hr_recovery_counter r = 0 ->
   hr_state (hear_all gs (s, r)).2 = Normal)
  /\ (synced s r -> faulted (hr_state r) -> 0 <= hr_recovery_counter r < HB_RECOVERY_COUNT ->
      hr_state (hear_all gs (s, r)).2
      = if decide (hr_recovery_counter r + Z.of_nat (length gs) < HB_RECOVERY_COUNT)
        then hr_state r else Normal)
  /\ (forall mss, hr_first_received r = true ->
      0 <= hr_time_since_last_ms r <= HB_COMM_ERROR_TIMEOUT_MS -> Forall (fun ms => 0 <= ms) mss ->
      HB_COMM_ERROR_TIMEOUT_MS < hr_time_since_last_ms r + sum mss ->
      hr_state (rcv_run (RUpdate <$> mss) r) = CommError).
Proof.
  intros Hg Hs. split_and!.
  - intros Hf Hn Hc. destruct gs as [|g gs]; [done|]. apply Forall_cons in Hg as [Hg Hgs].
    unfold hear_all. cbn [foldl]. assert (H := hear_first g s r Hg Hs Hf Hn).
    destruct (hear g (s, r)) as [s' r']. destruct H as (Hs' & Hn' & Hc').
    assert (H := hear_all_synced gs s' r' Hgs Hs' Hn' ltac:(congruence)). unfold hear_all in H.
    destruct (foldl _ _ _) as [s2 r2]. by destruct H as (_ & ? & _).
  - intros Hsy Hf Hc. assert (H := hear_all_faulted gs s r Hg Hsy Hf Hc).
    destruct (hear_all gs (s, r)) as [s2 r2]. by destruct H as [_ ?].
  - intros mss Hf H0 Hm Ht. by apply silence_lost.
Qed.
Lemma steady_new ms : steady (HeartbeatSender_new ms).
Proof. split_and!; [done|change (0 <= 251 <= 251); lia|done]. Qed.
(** Eight heartbeats of a sender that starts, 100 ms apart, the second and third lost. *)
Definition heartbeats : list Hearing :=
  mkHearing 0 [100] :: mkHearing 2 [100; 100; 100] :: replicate 6 (mkHearing 0 [100]).
Lemma heartbeat_supervision_witness :
  hr_state (hear_all heartbeats (HeartbeatSender_new 100, HeartbeatReceiver_new)).2 = Normal
  /\ hr_state (rcv_run (RUpdate <$> [100; 100; 101])
                 (hear_all heartbeats (HeartbeatSender_new 100, HeartbeatReceiver_new)).2) = CommError.
Proof.
  destruct (heartbeat_supervision heartbeats (HeartbeatSender_new 100) HeartbeatReceiver_new) as (H1 & _ & _).
  { repeat (apply Forall_cons_2; [split; [cbn; lia|]; split;
      [repeat (apply Forall_cons_2; [done|]); apply Forall_nil_2|by cbn]|]). apply Forall_nil_2. }
  { apply steady_new. }
  split; [apply H1; reflexivity|]. clear H1.
  destruct (heartbeat_supervision [] (HeartbeatSender_new 100)
              (hear_all heartbeats (HeartbeatSender_new 100, HeartbeatReceiver_new)).2) as (_ & _ & H3).
  { apply Forall_nil_2. }
  { apply (steady_new 100). }
  assert (E : hr_first_received (hear_all heartbeats (HeartbeatSender_new 100, HeartbeatReceiver_new)).2 = true
              /\ hr_time_since_last_ms (hear_all heartbeats (HeartbeatSender_new 100, HeartbeatReceiver_new)).2 = 0)
    by (vm_compute; split; reflexivity).
  destruct E as [E1 E2]. specialize (H3 [100; 100; 101] E1). rewrite E2 in H3.
  apply H3; [split; discriminate| |vm_compute; reflexivity].
  repeat (apply Forall_cons_2; [discriminate|]); apply Forall_nil_2.
Defined.

(** ** The plugin *)

Inductive HbCall : Type :=
| HbTrack (address : Address) | HbUntrack (address : Address)
| HbSignalError | HbSignalShutdown
| HbFrame (msg : Message)
| HbTick (now : Instant.t).
Definition hb_call (k : HbCall) (h : Heartbeat) : Heartbeat * list HeartbeatEvent :=
  match k with
  | HbTrack a => (hb_track a h, [])
  | HbUntrack a => (hb_untrack a h, [])
  | HbSignalError => (hb_signal_error h, [])
  | HbSignalShutdown => (hb_signal_shutdown h, [])
  | HbFrame msg => default (h, []) (hb_on_frame msg h)
  | HbTick now => (hb_on_tick now h).1
  end.
Fixpoint hb_run (ks : list HbCall) (h : Heartbeat) : Heartbeat * list HeartbeatEvent :=
  match ks with
  | [] => (h, [])
  | k :: ks => let '(h, es) := hb_call k h in let '(h, rest) := hb_run ks h in (h, es ++ rest)
  end.
(** A call that does not concern peer [a]. *)
Definition silent_for (a : Address) (k : HbCall) : Prop :=
  match k with HbUntrack b => b <> a | HbFrame msg => m_source msg <> a | _ => True end.
Definition tick_instants (ks : list HbCall) : list Instant.t :=
  omap (fun k => match k with HbTick now => Some now | _ => None end) ks.

Lemma find_receiver_some a l e : find_receiver a l = Some e -> e ∈ l /\ e.1.1 = a.
Proof.
  intros H. apply List.find_some in H as [H1 H2]. split; [by apply list_elem_of_In|]. by apply Z.eqb_eq.
Qed.
Lemma find_receiver_ticked a elapsed l :
  find_receiver a (tick_peer elapsed <$> l).*1 = (fun e => (tick_peer elapsed e).1) <$> find_receiver a l.
Proof.
  induction l as [|[[b r] c] l IH]; [done|]. unfold find_receiver in *. cbn.
  destruct (receiver_update elapsed r) as [r' es] eqn:E. cbn.
  destruct (b =? a); cbn; by rewrite ?E.
Qed.
Lemma find_receiver_app a l l' :
  find_receiver a (l ++ l') = match find_receiver a l with Some e => Some e | None => find_receiver a l' end.
Proof. induction l as [|e l IH]; [done|]. unfold find_receiver in *. cbn. by destruct (e.1.1 =? a). Qed.
Lemma find_receiver_for a b l :
  find_receiver a (receiver_for b l)
  = match find_receiver a l with
    | Some e => Some e
    | None => if b =? a then Some (b, HeartbeatReceiver_new, Normal) else None
    end.
Proof.
  unfold receiver_for. destruct (existsb _ l) eqn:E.
  - destruct (find_receiver a l) eqn:Ef; [done|]. destruct (Z.eqb_spec b a) as [->|]; [|done].
    apply existsb_exists in E as (e & Hin & He). by rewrite (List.find_none _ _ Ef e Hin) in He.
  - rewrite find_receiver_app. destruct (find_receiver a l); [done|]. unfold find_receiver. cbn. done.
Qed.
Lemma find_set_receiver a b r l :
  find_receiver a (set_receiver b r l)
  = if a =? b then (fun _ => (b, r, hr_state r)) <$> find_receiver b l else find_receiver a l.
Proof.
  induction l as [|e l IH]; cbn [set_receiver]; [by destruct (a =? b)|].
  unfold find_receiver in *. destruct (Z.eqb_spec e.1.1 b) as [Hb|Hb]; cbn.
  - destruct (Z.eqb_spec a b) as [->|Hn].
    + rewrite Z.eqb_refl, (proj2 (Z.eqb_eq e.1.1 b)) by done. done.
    + rewrite (proj2 (Z.eqb_neq b a)), (proj2 (Z.eqb_neq e.1.1 a)) by congruence. done.
  - rewrite IH. destruct (Z.eqb_spec a b) as [->|Hn]; [|done].
    by rewrite (proj2 (Z.eqb_neq e.1.1 b)) by done.
Qed.
Lemma find_filtered a b l :
  b <> a -> find_receiver a (filter (fun e : HbPeer => e.1.1 <> b) l) = find_receiver a l.
Proof.
  intros Hn. induction l as [|e l IH]; [done|]. rewrite filter_cons. unfold find_receiver in *.
  case_decide as Hd; cbn; [by rewrite IH|].
  rewrite IH. by rewrite (proj2 (Z.eqb_neq e.1.1 a)) by congruence.
Qed.
(** A frame is always handled. *)
Lemma hb_on_frame_some msg h : exists p, hb_on_frame msg h = Some p.
Proof.
  unfold hb_on_frame. destruct (negb _); [by eexists|]. destruct (m_data msg) as [|q tl]; [by eexists|].
  destruct (_ || _); [by eexists|]. cbv zeta. rewrite find_receiver_for, Z.eqb_refl.
  destruct (find_receiver (m_source msg) (hb_receivers h)) as [e|]; cbn [mbind option_bind].
  - destruct (process_some q e.1.2) as [[r es] ->]. by eexists.
  - destruct (process_some q HeartbeatReceiver_new) as [[r es] E]. cbn [fst snd]. rewrite E. by eexists.
Qed.
(** Calls that do not concern a peer leave its receiver, but for the ticks. *)
Lemma silent_call_receiver a k h :
  silent_for a k -> (forall now, k <> HbTick now) ->
  (forall e, find_receiver a (hb_receivers h) = Some e ->
   find_receiver a (hb_receivers (hb_call k h).1) = Some e)
  /\ hb_last (hb_call k h).1 = hb_last h.
Proof.
  intros Hk Ht. destruct k as [b|b| | |msg|now];
    cbn [silent_for hb_call fst hb_track hb_untrack hb_signal_error hb_signal_shutdown hb_receivers hb_last] in *.
  - split; [|done]. intros e He. by rewrite find_receiver_for, He.
  - split; [|done]. intros e He. by rewrite find_filtered, He.
  - by split.
  - by split.
  - destruct (hb_on_frame msg h) as [[h' es]|] eqn:E; [|by split]. cbn [from_option id fst].
    unfold hb_on_frame in E. destruct (negb _); [by injection E as <- _|].
    destruct (m_data msg) as [|q tl]; [by injection E as <- _|].
    destruct (_ || _); [by injection E as <- _|]. cbv zeta in E.
    destruct (find_receiver (m_source msg) _) as [e0|]; cbn [mbind option_bind] in E; [|done].
    destruct (process _ _) as [[r es']|]; cbn [mbind option_bind] in E; [|done].
    injection E as <- _. split; [|done]. intros e He. cbn [hb_receivers].
    rewrite find_set_receiver, (proj2 (Z.eqb_neq a _)) by congruence. by rewrite find_receiver_for, He.
  - by destruct (Ht now).
Qed.
Lemma hb_on_tick_split now h :
  exists rest sender sent,
    hb_on_tick now h =
    (mkHeartbeat sender (tick_peer (advance_millis (hb_last h) now).2 <$> hb_receivers h).*1
       (advance_millis (hb_last h) now).1,
     concat (tick_peer (advance_millis (hb_last h) now).2 <$> hb_receivers h).*2 ++ rest, sent).
Proof.
  unfold hb_on_tick. destruct (advance_millis (hb_last h) now) as [last elapsed]. cbv zeta. cbn [fst snd].
  destruct (sender_update elapsed (hb_sender h)) as [sender due].
  destruct due; [destruct (next_sequence sender) as [sender' q]; by exists [HbSent q], sender', (Some q)|].
  exists [], sender, None. by rewrite app_nil_r.
Qed.
Lemma tick_event elapsed e x l :
  e ∈ l -> x ∈ (tick_peer elapsed e).2 -> x ∈ concat (tick_peer elapsed <$> l).*2.
Proof.
  intros He Hx. apply list_elem_of_In, List.in_concat. exists (tick_peer elapsed e).2.
  split; apply list_elem_of_In; [|done]. apply list_elem_of_fmap_2. by apply list_elem_of_fmap_2.
Qed.
Lemma tick_receiver a now h :
  (forall e, find_receiver a (hb_receivers h) = Some e ->
   exists e', find_receiver a (hb_receivers (hb_call (HbTick now) h).1) = Some e'
     /\ e'.1.2 = (receiver_update (advance_millis (hb_last h) now).2 e.1.2).1
     /\ (hr_state e.1.2 <> hr_state e'.1.2 -> hr_state e'.1.2 = CommError ->
         HbCommError a ∈ (hb_call (HbTick now) h).2))
  /\ hb_last (hb_call (HbTick now) h).1 = (advance_millis (hb_last h) now).1.
Proof.
  cbn [hb_call]. destruct (hb_on_tick_split now h) as (rest & sender & sent & ->).
  cbn [fst snd hb_receivers hb_last]. split; [|done]. intros e He.
  rewrite find_receiver_ticked, He. eexists. split; [reflexivity|].
  apply find_receiver_some in He as [Hin Ha]. destruct e as [[b r] c]. cbn in Ha. subst b.
  assert (Ht := tick_event (advance_millis (hb_last h) now).2 _ (HbCommError a) _ Hin).
  cbn [fst snd] in *. set (ms := (advance_millis (hb_last h) now).2) in *. clearbody ms.
  assert (Et : tick_peer ms (a, r, c) =
    let r' := (receiver_update ms r).1 in
    ((a, r', hr_state r'), if bool_decide (hr_state r <> hr_state r') && bool_decide (hr_state r' = CommError)
                           then [HbCommError a; HbMissed a 1] else []))
    by (unfold tick_peer; by destruct (receiver_update ms r)).
  rewrite Et in Ht |- *. cbn [fst snd] in *. split; [done|]. intros Hne Hce. apply elem_of_app. left. apply Ht.
  rewrite !bool_decide_true by done. by left.
Qed.
(** Over calls that do not concern a peer, its receiver sees the milliseconds of the ticks. *)
Lemma silent_run_receiver a ks h e :
  Forall (silent_for a) ks -> find_receiver a (hb_receivers h) = Some e ->
  exists e', find_receiver a (hb_receivers (hb_run ks h).1) = Some e'
    /\ e'.1.2 = rcv_run (RUpdate <$> (poll (hb_last h) (tick_instants ks)).2) e.1.2
    /\ (hr_state e.1.2 <> CommError -> hr_state e'.1.2 = CommError -> HbCommError a ∈ (hb_run ks h).2).
Proof.
  intros Hk. revert h e. induction Hk as [|k ks Hk _ IH]; intros h e He.
  { cbn. by exists e. }
  cbn [hb_run]. destruct (hb_call k h) as [h1 es1] eqn:E1. destruct (hb_run ks h1) as [h2 es2] eqn:E2.
  assert (Hcase : (exists now, k = HbTick now) \/ forall now, k <> HbTick now)
    by (destruct k; eauto).
  destruct Hcase as [[now ->]|Hnt].
  - destruct (tick_receiver a now h) as [Hr Hl]. destruct (Hr e He) as (e1 & He1 & Hu & Hev).
    rewrite E1 in He1, Hl, Hev. cbn [fst snd] in *. destruct (IH h1 e1 He1) as (e' & He' & Hrun & Hev').
    rewrite E2 in He', Hev'. cbn [fst snd] in *. exists e'. split; [done|].
    change (tick_instants (HbTick now :: ks)) with (now :: tick_instants ks). cbn [poll].
    destruct (advance_millis (hb_last h) now) as [l el]. cbn [fst snd] in *. subst l.
    destruct (poll (hb_last h1) (tick_instants ks)) as [l' els]. cbn [fst snd] in *. split.
    + rewrite Hrun, Hu. done.
    + intros Hn Hc. apply elem_of_app.
      destruct (decide (hr_state e1.1.2 = CommError)) as [Hc1|Hc1]; [left|right; by apply Hev'].
      apply Hev; [congruence|done].
  - destruct (silent_call_receiver a k h Hk Hnt) as [Hr Hl]. rewrite E1 in Hr, Hl. cbn [fst] in *.
    destruct (IH h1 e (Hr e He)) as (e' & He' & Hrun & Hev). rewrite E2 in He', Hev. cbn [fst snd] in *.
    exists e'. rewrite Hl in Hrun.
    replace (tick_instants (k :: ks)) with (tick_instants ks) by (destruct k; try done; by destruct (Hnt now)).
    split_and!; [done|done|]. intros Hn Hc. apply elem_of_app. right. by apply Hev.
Qed.

(** C13: once a peer was heard, 301 ms without a frame from it, however often the plugin is
    ticked and whatever other peers send, puts the peer in the lost state, reports the loss and
    counts as a fault; and no frame of any peer makes the plugin panic. *)
Theorem heartbeat_watchdog a ks h e t0 :
  find_receiver a (hb_receivers h) = Some e -> hr_first_received e.1.2 = true ->
  0 <= hr_time_since_last_ms e.1.2 <= HB_COMM_ERROR_TIMEOUT_MS -> hr_state e.1.2 <> CommError ->
  hb_last h = Some t0 -> 0 <= t0 < 2 ^ 64 -> monotone t0 (tick_instants ks) -> Forall (silent_for a) ks ->
  t0 + 1000 * (HB_COMM_ERROR_TIMEOUT_MS + 1) <= List.last (tick_instants ks) t0 ->
  let '(h', es) := hb_run ks h in
  peer_state a h' = Some CommError /\ HbCommError a ∈ es /\ any_peer_faulted h' = true
  /\ forall msg, exists p, hb_on_frame msg h' = Some p.
Proof.
  intros He Hf Ht Hs Hl H0 Hm Hk Hlast.
  destruct (silent_run_receiver a ks h e Hk He) as (e' & He' & Hrun & Hev).
  destruct (hb_run ks h) as [h' es]. cbn [fst snd] in *.
  rewrite Hl in Hrun. destruct (poll_no_drift (tick_instants ks) t0 t0) as (l & _ & Hsum & _); [lia..|done|].
  assert (Hge : HB_COMM_ERROR_TIMEOUT_MS + 1 <= sum (poll (Some t0) (tick_instants ks)).2).
  { rewrite Hsum. apply Z.div_le_lower_bound; lia. }
  assert (Hlost : hr_state e'.1.2 = CommError).
  { rewrite Hrun. apply silence_lost; [done|done|apply poll_nonneg|lia]. }
  unfold peer_state. rewrite He'. cbn. split_and!.
  - by rewrite Hlost.
  - by apply Hev.
  - apply find_receiver_some in He' as [Hin _]. apply existsb_exists. exists e'.
    split; [by apply list_elem_of_In|]. by rewrite Hlost.
  - intros msg. apply hb_on_frame_some.
Qed.
(** Peer 7 sends one heartbeat; ticks every 100 ms report it lost with the fourth. *)
Definition heard_seven : Heartbeat :=
  (hb_run [HbTick 1000000;
           HbFrame (mkMessage PGN_HEARTBEAT [5] 7 BROADCAST_ADDRESS Priority.Default 0)] (every 100)).1.
Definition four_ticks : list HbCall := [HbTick 1100000; HbTick 1200000; HbTick 1300000; HbTick 1400000].
Lemma heartbeat_watchdog_witness : HbCommError 7 ∈ (hb_run four_ticks heard_seven).2.
Proof.
  assert (H := heartbeat_watchdog 7 four_ticks heard_seven
                 (7, mkHbReceiver Normal 5 0 0 true false, Normal) 1000000).
  assert (E : find_receiver 7 (hb_receivers heard_seven)
              = Some (7, mkHbReceiver Normal 5 0 0 true false, Normal)) by (vm_compute; reflexivity).
  specialize (H E eq_refl ltac:(split; discriminate) ltac:(discriminate) eq_refl ltac:(split; [discriminate|reflexivity])).
  destruct (hb_run four_ticks heard_seven) as [h' es].
  apply H.
  - vm_compute. repeat split; discriminate || reflexivity.
  - repeat (apply Forall_cons_2; [exact I|]); apply Forall_nil_2.
  - discriminate.
Defined.

(** ** What modelling showed *)

(** A declared fault is held to eight good bytes, but a loss of the connection forgets it: after
    301 ms of silence a single byte makes the faulty sender healthy. *)
Lemma hb_fault_laundered :
  let after ks := hr_state (rcv_run ([RProcess 0; RProcess hb_seq.SENDER_ERROR] ++ ks) HeartbeatReceiver_new) in
  after [RProcess 1; RProcess 2] = TransmissionError /\ after [RUpdate 301; RProcess 1] = Normal.
Proof. by vm_compute. Qed.
(** A peer that is tracked and never speaks is never reported. *)
Lemma hb_silent_peer_unnoticed now :
  let '(h, es) := hb_run [HbTrack 7; HbTick 0; HbTick now] (every 0) in
  es = [] /\ peer_state 7 h = Some Normal /\ any_peer_faulted h = false.
Proof. cbn. by case_match. Qed.
(** An error signalled before the first heartbeat is not sent. *)
Lemma hb_early_error_lost :
  let '(s, q1) := next_sequence (signal_error (HeartbeatSender_new 100)) in
  let '(s, q2) := next_sequence s in
  let '(_, q3) := next_sequence s in [q1; q2; q3] = [251; 251; 0].
Proof. by vm_compute. Qed.
