(* ===== verification/MaintainPower.v ===== *)
(** Maintain Power: the model of [src/j1939/maintain_power.rs] and of its session plugin
    [src/session/plugins/maintain_power.rs], and what is proved of it.

    After key-off the tractor keeps the power on for two seconds, longer while implements ask for
    it, and for three minutes at most; an implement that asks keeps it. *)
From S2P Require Export Clock.

Definition PGN_MAINTAIN_POWER : Pgn := 0xFE47.
Definition POWER_SHUTDOWN_MIN_MS : Z := 2000.
Definition POWER_MAINTAIN_REPEAT_MS : Z := 1000.
Definition POWER_MAX_EXTENSION_MS : Z := 180000.

(** ** The message *)

Module KeySwitchState.
Inductive t : Type := Off | NotOff | Error | NotAvailable.
Definition from_u8 (v : Z) : t :=
  match Z.land v 0x03 with 0 => Off | 1 => NotOff | 2 => Error | _ => NotAvailable end.
Definition try_from_u8 (v : Z) : option t :=
  match v with
  | 0 => Some Off | 1 => Some NotOff | 2 => Some Error | 3 => Some NotAvailable | _ => None
  end.
Definition as_u8 (s : t) : Z := match s with Off => 0 | NotOff => 1 | Error => 2 | NotAvailable => 3 end.
End KeySwitchState.
Module MaintainPowerRequest.
Inductive t : Type := NoRequest | EcuRequest | Error | NotAvailable.
Definition from_u8 (v : Z) : t :=
  match Z.land v 0x03 with 1 => EcuRequest | 2 => Error | 3 => NotAvailable | _ => NoRequest end.
Definition try_from_u8 (v : Z) : option t :=
  match v with
  | 0 => Some NoRequest | 1 => Some EcuRequest | 2 => Some Error | 3 => Some NotAvailable | _ => None
  end.
Definition as_u8 (r : t) : Z :=
  match r with NoRequest => 0 | EcuRequest => 1 | Error => 2 | NotAvailable => 3 end.
End MaintainPowerRequest.
Module MaintainPowerState.
Inductive t : Type := Inactive | Active | Error | NotAvailable.
Definition from_u8 (v : Z) : t :=
  match Z.land v 0x03 with 0 => Inactive | 1 => Active | 2 => Error | _ => NotAvailable end.
Definition try_from_u8 (v : Z) : option t :=
  match v with
  | 0 => Some Inactive | 1 => Some Active | 2 => Some Error | 3 => Some NotAvailable | _ => None
  end.
Definition as_u8 (s : t) : Z :=
  match s with Inactive => 0 | Active => 1 | Error => 2 | NotAvailable => 3 end.
End MaintainPowerState.
Module MaintainPowerRequirement.
Inductive t : Type := NoFurtherRequirement | RequirementFor2SecondsMore | Error | DontCare.
#[global] Instance eq_dec : EqDecision t.
Proof. solve_decision. Defined.
Definition from_u8 (v : Z) : t :=
  match Z.land v 0x03 with
  | 0 => NoFurtherRequirement | 1 => RequirementFor2SecondsMore | 2 => Error | _ => DontCare
  end.
Definition try_from_u8 (v : Z) : option t :=
  match v with
  | 0 => Some NoFurtherRequirement | 1 => Some RequirementFor2SecondsMore | 2 => Some Error
  | 3 => Some DontCare | _ => None
  end.
Definition as_u8 (r : t) : Z :=
  match r with NoFurtherRequirement => 0 | RequirementFor2SecondsMore => 1 | Error => 2 | DontCare => 3 end.
End MaintainPowerRequirement.

Record MaintainPowerData : Type := mkPower {
  implement_in_work_state : MaintainPowerState.t;
  implement_park_state : MaintainPowerState.t;
  implement_ready_to_work_state : MaintainPowerState.t;
  implement_transport_state : MaintainPowerState.t;
  maintain_actuator_power : MaintainPowerRequirement.t;
  maintain_ecu_power : MaintainPowerRequirement.t;
  mp_timestamp_us : Z
}.
Definition MaintainPowerData_default : MaintainPowerData :=
  mkPower MaintainPowerState.NotAvailable MaintainPowerState.NotAvailable
    MaintainPowerState.NotAvailable MaintainPowerState.NotAvailable MaintainPowerRequirement.DontCare
    MaintainPowerRequirement.DontCare 0.
Definition power_encode (d : MaintainPowerData) : list Z :=
  let st x := Z.land (MaintainPowerState.as_u8 x) 0x03 in
  let rq x := Z.land (MaintainPowerRequirement.as_u8 x) 0x03 in
  let shl x n := wrap 8 (Z.shiftl x n) in
  [Z.lor (Z.lor 0x0F (shl (st (implement_in_work_state d)) 4)) (shl (st (implement_park_state d)) 6);
   Z.lor (Z.lor (Z.lor (st (implement_ready_to_work_state d))
                   (shl (st (implement_transport_state d)) 2))
            (shl (rq (maintain_actuator_power d)) 4))
     (shl (rq (maintain_ecu_power d)) 6);
   0xFF; 0xFF; 0xFF; 0xFF; 0xFF; 0xFF].
Definition power_decode (data : list Z) : option MaintainPowerData :=
  if negb (length data =? 8)%nat then None
  else
    match data with
    | d0 :: d1 :: _ =>
        work ← MaintainPowerState.try_from_u8 (Z.land (Z.shiftr d0 4) 0x03);
        park ← MaintainPowerState.try_from_u8 (Z.shiftr d0 6);
        ready ← MaintainPowerState.try_from_u8 (Z.land d1 0x03);
        transport ← MaintainPowerState.try_from_u8 (Z.land (Z.shiftr d1 2) 0x03);
        actuator ← MaintainPowerRequirement.try_from_u8 (Z.land (Z.shiftr d1 4) 0x03);
        ecu ← MaintainPowerRequirement.try_from_u8 (Z.shiftr d1 6);
        Some (mkPower work park ready transport actuator ecu 0)
    | _ => None
    end.
Definition power_from_message (msg : Message) : option MaintainPowerData :=
  if negb (has_usable_envelope_for_pgn msg PGN_MAINTAIN_POWER) then None
  else
    d ← power_decode (m_data msg);
    Some (mkPower (implement_in_work_state d) (implement_park_state d) (implement_ready_to_work_state d)
            (implement_transport_state d) (maintain_actuator_power d) (maintain_ecu_power d)
            (m_timestamp_us msg)).

(** ** The manager *)

Module PowerState.
Inductive t : Type := Running | ShutdownPending | Maintaining | PowerOff.
#[global] Instance eq_dec : EqDecision t.
Proof. solve_decision. Defined.
End PowerState.
Import PowerState.
Module PowerRole.
Inductive t : Type := Tecu | Cf.
End PowerRole.

Inductive PowerEvent : Type := OnPowerStateChange (new : PowerState.t) | OnPowerOff.
(** [BTreeSet<Address>]: the keys of a map to nothing. *)
Record PowerManager : Type := mkManager {
  pm_role : PowerRole.t;
  pm_state : PowerState.t;
  pm_shutdown_timer_ms : Z;
  pm_maintain_timer_ms : Z;
  pm_request_timer_ms : Z;
  pm_requesting_power : bool;
  pm_requesting_clients : BTreeMap.t Address unit
}.
Definition PowerManager_new (role : PowerRole.t) : PowerManager := mkManager role Running 0 0 0 false [].
Definition pm_with_state (x : PowerState.t) (p : PowerManager) : PowerManager :=
  mkManager (pm_role p) x (pm_shutdown_timer_ms p) (pm_maintain_timer_ms p) (pm_request_timer_ms p)
    (pm_requesting_power p) (pm_requesting_clients p).
Definition pm_with_timers (shutdown maintain : Z) (p : PowerManager) : PowerManager :=
  mkManager (pm_role p) (pm_state p) shutdown maintain (pm_request_timer_ms p) (pm_requesting_power p)
    (pm_requesting_clients p).
Definition pm_with_request (timer : Z) (requesting : bool) (p : PowerManager) : PowerManager :=
  mkManager (pm_role p) (pm_state p) (pm_shutdown_timer_ms p) (pm_maintain_timer_ms p) timer requesting
    (pm_requesting_clients p).
Definition pm_with_clients (x : BTreeMap.t Address unit) (p : PowerManager) : PowerManager :=
  mkManager (pm_role p) (pm_state p) (pm_shutdown_timer_ms p) (pm_maintain_timer_ms p)
    (pm_request_timer_ms p) (pm_requesting_power p) x.
Definition power_transition (new_state : PowerState.t) (p : PowerManager)
    : PowerManager * list PowerEvent :=
  if bool_decide (pm_state p <> new_state) then (pm_with_state new_state p, [OnPowerStateChange new_state])
  else (p, []).
Definition requesting_clients (p : PowerManager) : list Address := BTreeMap.keys (pm_requesting_clients p).
Definition key_off (p : PowerManager) : PowerManager * list PowerEvent :=
  if bool_decide (pm_state p = Running) then
    let '(p, es) := power_transition ShutdownPending p in (pm_with_timers 0 0 p, es)
  else (p, []).
Definition key_on (p : PowerManager) : PowerManager * list PowerEvent :=
  if bool_decide (pm_state p <> Running) then
    let '(p, es) := power_transition Running p in
    (pm_with_clients [] (pm_with_timers 0 (pm_maintain_timer_ms p) p), es)
  else (p, []).
Definition request_power (need_power : bool) (p : PowerManager) : PowerManager :=
  pm_with_request (if need_power then POWER_MAINTAIN_REPEAT_MS else pm_request_timer_ms p) need_power p.
Definition power_off (p : PowerManager) : PowerManager * list PowerEvent :=
  let '(p, es) := power_transition PowerOff p in (p, es ++ [OnPowerOff]).
Definition update_tecu (elapsed_ms : Z) (p : PowerManager) : PowerManager * list PowerEvent :=
  match pm_state p with
  | ShutdownPending =>
      let p := pm_with_timers (sat_add 32 (pm_shutdown_timer_ms p) elapsed_ms)
                 (sat_add 32 (pm_maintain_timer_ms p) elapsed_ms) p in
      if POWER_SHUTDOWN_MIN_MS <=? pm_shutdown_timer_ms p then
        if POWER_MAINTAIN_REPEAT_MS * 2 <=? pm_maintain_timer_ms p then power_off p
        else power_transition Maintaining p
      else (p, [])
  | Maintaining =>
      let p := pm_with_timers (sat_add 32 (pm_shutdown_timer_ms p) elapsed_ms)
                 (sat_add 32 (pm_maintain_timer_ms p) elapsed_ms) p in
      if POWER_MAX_EXTENSION_MS <=? pm_shutdown_timer_ms p then power_off p
      else if POWER_MAINTAIN_REPEAT_MS * 2 <=? pm_maintain_timer_ms p then power_off p
      else (p, [])
  | _ => (p, [])
  end.
(** The request a consumer sends. *)
Definition power_request : MaintainPowerData :=
  mkPower MaintainPowerState.Active MaintainPowerState.Active MaintainPowerState.Active
    MaintainPowerState.Active MaintainPowerRequirement.RequirementFor2SecondsMore
    MaintainPowerRequirement.RequirementFor2SecondsMore 0.
Definition update_cf (elapsed_ms : Z) (p : PowerManager) : PowerManager * list MaintainPowerData :=
  if negb (pm_requesting_power p) then (p, [])
  else
    let timer := sat_add 32 (pm_request_timer_ms p) elapsed_ms in
    if POWER_MAINTAIN_REPEAT_MS <=? timer
    then (pm_with_request 0 (pm_requesting_power p) p, [power_request])
    else (pm_with_request timer (pm_requesting_power p) p, []).
(** The manager, what it broadcasts, and its events. *)
Definition power_update (elapsed_ms : Z) (p : PowerManager)
    : PowerManager * list MaintainPowerData * list PowerEvent :=
  match pm_role p with
  | PowerRole.Tecu => let '(p, es) := update_tecu elapsed_ms p in (p, [], es)
  | PowerRole.Cf => let '(p, out) := update_cf elapsed_ms p in (p, out, [])
  end.
Definition requires_power (d : MaintainPowerData) : bool :=
  bool_decide (maintain_ecu_power d = MaintainPowerRequirement.RequirementFor2SecondsMore)
  || bool_decide (maintain_actuator_power d = MaintainPowerRequirement.RequirementFor2SecondsMore).
Definition power_handle_message (msg : Message) (p : PowerManager) : PowerManager :=
  if negb (has_usable_envelope_for_pgn msg PGN_MAINTAIN_POWER) then p
  else
    match power_from_message msg with
    | None => p
    | Some mpd =>
        match pm_role p with
        | PowerRole.Tecu =>
            if requires_power mpd then
              pm_with_clients (BTreeMap.insert (m_source msg) tt (pm_requesting_clients p))
                (pm_with_timers (pm_shutdown_timer_ms p) 0 p)
            else p
        | PowerRole.Cf => p
        end
    end.

(** ** The plugin *)

Inductive MaintainPowerEvent : Type :=
| PowerStatus (source : Address) (data : MaintainPowerData)
| PowerStateChanged (s : PowerState.t)
| PowerOffReported.
Record MaintainPower : Type := mkMaintainPower {
  mp_manager : PowerManager;
  mp_last : option (Address * MaintainPowerData);
  mp_last_state : PowerState.t;
  mp_last_tick : option Instant.t
}.
Definition MaintainPower_new (role : PowerRole.t) : MaintainPower :=
  mkMaintainPower (PowerManager_new role) None (pm_state (PowerManager_new role)) None.
Definition mp_with_manager (x : PowerManager) (m : MaintainPower) : MaintainPower :=
  mkMaintainPower x (mp_last m) (mp_last_state m) (mp_last_tick m).
Definition mp_key_off (m : MaintainPower) : MaintainPower :=
  mp_with_manager (key_off (mp_manager m)).1 m.
Definition mp_key_on (m : MaintainPower) : MaintainPower := mp_with_manager (key_on (mp_manager m)).1 m.
Definition mp_request_power (need_power : bool) (m : MaintainPower) : MaintainPower :=
  mp_with_manager (request_power need_power (mp_manager m)) m.
Definition emit_state_changes (m : MaintainPower) : MaintainPower * list MaintainPowerEvent :=
  let after := pm_state (mp_manager m) in
  if bool_decide (after <> mp_last_state m) then
    (mkMaintainPower (mp_manager m) (mp_last m) after (mp_last_tick m),
     PowerStateChanged after :: (if bool_decide (after = PowerOff) then [PowerOffReported] else []))
  else (m, []).
Definition power_on_frame (msg : Message) (m : MaintainPower) : MaintainPower * list MaintainPowerEvent :=
  if negb (has_usable_envelope_for_pgn msg PGN_MAINTAIN_POWER) then (m, [])
  else
    match power_from_message msg with
    | None => (m, [])
    | Some data =>
        let m := mkMaintainPower (power_handle_message msg (mp_manager m)) (Some (m_source msg, data))
                   (mp_last_state m) (mp_last_tick m) in
        let '(m, es) := emit_state_changes m in (m, PowerStatus (m_source msg) data :: es)
    end.
(** The plugin, its events, and the payloads it broadcasts. *)
Definition power_on_tick (now : Instant.t) (m : MaintainPower)
    : MaintainPower * list MaintainPowerEvent * list (list Z) :=
  let '(last_tick, elapsed) := advance_millis (mp_last_tick m) now in
  let '(manager, out, _) := power_update elapsed (mp_manager m) in
  let '(m, es) := emit_state_changes (mkMaintainPower manager (mp_last m) (mp_last_state m) last_tick) in
  (m, es, power_encode <$> out).

Import PowerState.

(** ** The message survives the wire *)

Lemma power_byte0 w p :
  let b := Z.lor (Z.lor 0x0F (wrap 8 (Z.shiftl (Z.land (MaintainPowerState.as_u8 w) 0x03) 4)))
             (wrap 8 (Z.shiftl (Z.land (MaintainPowerState.as_u8 p) 0x03) 6)) in
  MaintainPowerState.try_from_u8 (Z.land (Z.shiftr b 4) 0x03) = Some w
  /\ MaintainPowerState.try_from_u8 (Z.shiftr b 6) = Some p.
Proof. by destruct w, p. Qed.
Lemma power_byte1 r t a e :
  let b := Z.lor (Z.lor (Z.lor (Z.land (MaintainPowerState.as_u8 r) 0x03)
                           (wrap 8 (Z.shiftl (Z.land (MaintainPowerState.as_u8 t) 0x03) 2)))
                    (wrap 8 (Z.shiftl (Z.land (MaintainPowerRequirement.as_u8 a) 0x03) 4)))
             (wrap 8 (Z.shiftl (Z.land (MaintainPowerRequirement.as_u8 e) 0x03) 6)) in
  MaintainPowerState.try_from_u8 (Z.land b 0x03) = Some r
  /\ MaintainPowerState.try_from_u8 (Z.land (Z.shiftr b 2) 0x03) = Some t
  /\ MaintainPowerRequirement.try_from_u8 (Z.land (Z.shiftr b 4) 0x03) = Some a
  /\ MaintainPowerRequirement.try_from_u8 (Z.shiftr b 6) = Some e.
Proof. by destruct r, t, a, e. Qed.
Lemma power_roundtrip d : mp_timestamp_us d = 0 -> power_decode (power_encode d) = Some d.
Proof.
  destruct d as [w p r t a e ts]. cbn [mp_timestamp_us]. intros ->.
  unfold power_decode, power_encode. cbn [length Nat.eqb negb implement_in_work_state implement_park_state
    implement_ready_to_work_state implement_transport_state maintain_actuator_power maintain_ecu_power].
  destruct (power_byte0 w p) as [-> ->]. destruct (power_byte1 r t a e) as (-> & -> & -> & ->). done.
Qed.

(** ** The tractor against its specification *)

(** The specification: time since key-off, time since the last request, and whether the power is
    still on. *)
Record PowerSpec : Type := mkSpec { sp_total : Z; sp_since : Z; sp_on : bool }.
Definition spec_off (total since : Z) : bool :=
  (POWER_SHUTDOWN_MIN_MS <=? total)
  && ((POWER_MAINTAIN_REPEAT_MS * 2 <=? since) || (POWER_MAX_EXTENSION_MS <=? total)).
Inductive TecuCall : Type := TMessage (msg : Message) | TUpdate (elapsed_ms : Z).
(** A message that asks for power. *)
Definition asks (msg : Message) : bool :=
  match power_from_message msg with Some d => requires_power d | None => false end.
Definition spec_call (k : TecuCall) (s : PowerSpec) : PowerSpec :=
  match k with
  | TMessage msg => mkSpec (sp_total s) (if asks msg then 0 else sp_since s) (sp_on s)
  | TUpdate ms =>
      if sp_on s then
        mkSpec (sp_total s + ms) (sp_since s + ms) (negb (spec_off (sp_total s + ms) (sp_since s + ms)))
      else s
  end.
Definition tecu_call (k : TecuCall) (p : PowerManager) : PowerManager :=
  match k with TMessage msg => power_handle_message msg p | TUpdate ms => (power_update ms p).1.1 end.
Definition tecu_run (ks : list TecuCall) (p : PowerManager) : PowerManager :=
  foldl (fun p k => tecu_call k p) p ks.
Definition spec_run (ks : list TecuCall) (s : PowerSpec) : PowerSpec :=
  foldl (fun s k => spec_call k s) s ks.
Definition spec_start : PowerSpec := mkSpec 0 0 true.
Definition tecu_call_ok (k : TecuCall) : Prop := match k with TUpdate ms => 0 <= ms | _ => True end.
Definition refines (p : PowerManager) (s : PowerSpec) : Prop :=
  pm_role p = PowerRole.Tecu
  /\ (if sp_on s then
        pm_shutdown_timer_ms p = sp_total s /\ pm_maintain_timer_ms p = sp_since s
        /\ 0 <= sp_since s <= sp_total s /\ spec_off (sp_total s) (sp_since s) = false
        /\ pm_state p = if POWER_SHUTDOWN_MIN_MS <=? sp_total s then Maintaining else ShutdownPending
      else pm_state p = PowerOff).

Lemma message_refines msg p s : refines p s -> refines (power_handle_message msg p) (spec_call (TMessage msg) s).
Proof.
  intros [Hr Hs]. unfold power_handle_message, asks. cbn [spec_call]. unfold asks.
  destruct (negb (has_usable_envelope_for_pgn msg PGN_MAINTAIN_POWER)) eqn:Ee.
  { unfold power_from_message. rewrite Ee. by split. }
  destruct (power_from_message msg) as [d|]; [|by split]. rewrite Hr.
  destruct (requires_power d); [|by split]. split; [done|]. cbn [sp_on sp_total sp_since].
  destruct (sp_on s); [|done]. destruct Hs as (H1 & H2 & H3 & H4 & H5). cbn. split_and!; try done; try lia.
  unfold spec_off in *. destruct (POWER_SHUTDOWN_MIN_MS <=? sp_total s); [|done]. cbn [andb] in *.
  apply orb_false_iff in H4 as [_ ->]. done.
Qed.
Lemma power_off_refines p t u : pm_role p = PowerRole.Tecu -> refines (power_off p).1 (mkSpec t u false).
Proof. intros Hr. unfold power_off, power_transition, refines. by case_bool_decide. Qed.
Lemma power_update_tecu ms p : pm_role p = PowerRole.Tecu -> (power_update ms p).1.1 = (update_tecu ms p).1.
Proof. intros Hr. unfold power_update. rewrite Hr. by destruct (update_tecu ms p). Qed.
Ltac thresholds :=
  unfold spec_off, POWER_SHUTDOWN_MIN_MS, POWER_MAINTAIN_REPEAT_MS, POWER_MAX_EXTENSION_MS, sat_add in *;
  change (1000 * 2) with 2000 in *.
(** The specification says off exactly where the manager does. *)
Lemma spec_off_cases total since ms :
  0 <= ms -> 0 <= since <= total -> spec_off total since = false ->
  let t := sat_add 32 total ms in let u := sat_add 32 since ms in
  (if POWER_SHUTDOWN_MIN_MS <=? total
   then spec_off (total + ms) (since + ms)
        = (POWER_MAX_EXTENSION_MS <=? t) || (POWER_MAINTAIN_REPEAT_MS * 2 <=? u)
   else spec_off (total + ms) (since + ms)
        = (POWER_SHUTDOWN_MIN_MS <=? t) && (POWER_MAINTAIN_REPEAT_MS * 2 <=? u))
  /\ (spec_off (total + ms) (since + ms) = false ->
      t = total + ms /\ u = since + ms
      /\ (POWER_SHUTDOWN_MIN_MS <=? t) = (POWER_SHUTDOWN_MIN_MS <=? total + ms)).
Proof.
  intros Hms Hb Hoff t u. subst t u. thresholds.
  destruct (Z.leb_spec 2000 total), (Z.leb_spec 2000 since), (Z.leb_spec 180000 total),
    (Z.leb_spec 2000 (total + ms)), (Z.leb_spec 2000 (since + ms)), (Z.leb_spec 180000 (total + ms));
    cbn in Hoff |- *; try done; try lia;
    (split; [|intros Hf; try done]); rewrite ?(proj2 (Z.leb_le 180000 _)), ?(proj2 (Z.leb_le 2000 _)),
      ?(proj2 (Z.leb_gt 180000 _)), ?(proj2 (Z.leb_gt 2000 _)) by lia; cbn; split_and!; try done; lia.
Qed.
Lemma update_refines ms p s :
  0 <= ms -> refines p s -> refines (tecu_call (TUpdate ms) p) (spec_call (TUpdate ms) s).
Proof.
  intros Hms [Hr Hs]. cbn [tecu_call spec_call]. rewrite power_update_tecu by done. unfold update_tecu.
  destruct (sp_on s) eqn:Eon; [|rewrite Hs; split; [done|by rewrite Eon]].
  destruct Hs as (H1 & H2 & H3 & H4 & H5). rewrite H5.
  destruct (spec_off_cases (sp_total s) (sp_since s) ms Hms H3 H4) as [Hc Hon].
  set (t := sat_add 32 (sp_total s) ms) in *. set (u := sat_add 32 (sp_since s) ms) in *.
  destruct (POWER_SHUTDOWN_MIN_MS <=? sp_total s) eqn:Eb; rewrite ?Eb in H5; cbv zeta;
    cbn [pm_with_timers pm_shutdown_timer_ms pm_maintain_timer_ms]; rewrite H1, H2; fold t u; rewrite Hc;
    clearbody t u.
  - destruct (POWER_MAX_EXTENSION_MS <=? t) eqn:Ea; [by apply power_off_refines|].
    destruct (_ <=? u) eqn:Ed; [by apply power_off_refines|]. cbn [orb negb] in *.
    destruct (Hon Hc) as (Et & Eu & Eb'). split; [done|]. cbn. rewrite Hc, <-Eb'.
    assert (Hb : (POWER_SHUTDOWN_MIN_MS <=? t) = true) by (apply Z.leb_le in Eb; apply Z.leb_le; lia).
    rewrite Hb. split_and!; done || lia.
  - destruct (POWER_SHUTDOWN_MIN_MS <=? t) eqn:Ea; cbn [andb] in Hc.
    + destruct (_ <=? u) eqn:Ed; [by apply power_off_refines|]. cbn [negb andb] in *.
      destruct (Hon Hc) as (Et & Eu & Eb'). unfold power_transition.
      rewrite bool_decide_true by (cbn; by rewrite H5). split; [done|]. cbn. rewrite Hc, <-Eb'. split_and!; done || lia.
    + cbn [negb andb] in *. destruct (Hon Hc) as (Et & Eu & Eb'). split; [done|]. cbn. rewrite Hc, <-Eb'.
      split_and!; done || lia.
Qed.
Lemma key_off_refines p :
  pm_role p = PowerRole.Tecu -> pm_state p = Running -> refines (key_off p).1 spec_start.
Proof.
  intros Hr Hs. unfold key_off, power_transition. rewrite Hs, bool_decide_true by done.
  rewrite bool_decide_true by done. split; [done|]. cbn. split_and!; done || lia.
Qed.
Lemma tecu_run_refines ks p s : Forall tecu_call_ok ks -> refines p s -> refines (tecu_run ks p) (spec_run ks s).
Proof.
  intros Hk. revert p s. induction Hk as [|k ks Hk _ IH]; intros p s H; [done|]. apply IH.
  destruct k as [msg|ms]; [by apply message_refines|by apply update_refines].
Qed.
Lemma spec_off_stays ks s : sp_on s = false -> sp_on (spec_run ks s) = false.
Proof.
  revert s. induction ks as [|k ks IH]; intros s H; [done|]. apply IH.
  destruct k; cbn; [done|by rewrite H].
Qed.

(** C35: after key-off the tractor's power state is that of its specification whatever messages
    and times follow: the power is on for two seconds, then as long as no request is two seconds
    old and three minutes have not passed, it is off at the first update where that fails, and
    once off it stays off until the key is turned on. *)
Theorem power_tecu_refines p ks :
  pm_role p = PowerRole.Tecu -> pm_state p = Running -> Forall tecu_call_ok ks ->
  let p' := tecu_run ks (key_off p).1 in
  let s := spec_run ks spec_start in
  (pm_state p' = PowerOff <-> sp_on s = false)
  /\ (sp_on s = true ->
      pm_state p' = (if POWER_SHUTDOWN_MIN_MS <=? sp_total s then Maintaining else ShutdownPending)
      /\ (sp_total s < POWER_SHUTDOWN_MIN_MS
          \/ sp_since s < POWER_MAINTAIN_REPEAT_MS * 2 /\ sp_total s < POWER_MAX_EXTENSION_MS))
  /\ (sp_on s = false -> forall ks', Forall tecu_call_ok ks' -> pm_state (tecu_run ks' p') = PowerOff).
Proof.
  intros Hr Hs Hk p' s. assert (H : refines p' s) by (by apply tecu_run_refines, key_off_refines).
  clearbody p' s. destruct (sp_on s) eqn:Eon.
  - destruct H as [_ H]. rewrite Eon in H. destruct H as (_ & _ & _ & Ho & ->). split_and!.
    + split; [by case_match|done].
    + intros _. split; [done|]. unfold spec_off in Ho. apply andb_false_iff in Ho as [Ho|Ho].
      * left. by apply Z.leb_gt.
      * right. apply orb_false_iff in Ho as [H1 H2]. by rewrite Z.leb_gt in H1, H2.
    + done.
  - assert (H' := H). destruct H' as [_ H']. rewrite Eon in H'. split_and!; [done|done|].
    intros _ ks' Hk'. apply (tecu_run_refines ks' p' s Hk') in H as [_ H].
    by rewrite (spec_off_stays ks' s Eon) in H.
Qed.

(** ** An implement and the tractor *)

(** A payload as the message the tractor receives. *)
Definition power_message (src : Address) (d : MaintainPowerData) : Message :=
  mkMessage PGN_MAINTAIN_POWER (power_encode d) src BROADCAST_ADDRESS Priority.Default 0.
(** One step of time on a bus with an implement at [src] and a tractor. *)
Definition power_step (src : Address) (ms : Z) (sys : PowerManager * PowerManager)
    : PowerManager * PowerManager :=
  let '(cf, tecu) := sys in
  let '(cf, out, _) := power_update ms cf in
  (cf, tecu_run ((TMessage ∘ power_message src <$> out) ++ [TUpdate ms]) tecu).
Definition power_steps (src : Address) (mss : list Z) (sys : PowerManager * PowerManager)
    : PowerManager * PowerManager := foldl (fun sys ms => power_step src ms sys) sys mss.
Lemma power_request_asks src : has_usable_source (power_message src power_request) = true ->
  asks (power_message src power_request) = true.
Proof.
  intros H. unfold asks, power_from_message, has_usable_envelope_for_pgn. rewrite H.
  cbn [m_data power_message]. rewrite (power_roundtrip power_request eq_refl). by vm_compute.
Qed.
(** The implement asks again before the tractor's two seconds are over. *)
Definition kept (cf tecu : PowerManager) (total : Z) : Prop :=
  pm_role cf = PowerRole.Cf /\ pm_requesting_power cf = true
  /\ 0 <= pm_request_timer_ms cf <= POWER_MAINTAIN_REPEAT_MS
  /\ exists s, refines tecu s /\ sp_on s = true /\ sp_total s = total
     /\ 0 <= sp_since s <= pm_request_timer_ms cf + POWER_MAINTAIN_REPEAT_MS
     /\ (pm_request_timer_ms cf < POWER_MAINTAIN_REPEAT_MS \/ sp_since s = 0).
Lemma kept_step src ms cf tecu total :
  has_usable_source (power_message src power_request) = true ->
  0 <= ms <= POWER_MAINTAIN_REPEAT_MS -> 0 <= total -> total + ms < POWER_MAX_EXTENSION_MS -> kept cf tecu total ->
  let '(cf', tecu') := power_step src ms (cf, tecu) in kept cf' tecu' (total + ms).
Proof.
  intros Hsrc Hms H0 Ht (Hr & Hq & Htm & s & Href & Hon & Htot & Hsi & Hor).
  unfold power_step, power_update. rewrite Hr. unfold update_cf. rewrite Hq. cbn [negb]. cbv zeta.
  unfold POWER_MAINTAIN_REPEAT_MS, POWER_MAX_EXTENSION_MS in *.
  assert (Es : sat_add 32 (pm_request_timer_ms cf) ms = pm_request_timer_ms cf + ms) by (unfold sat_add; lia).
  rewrite Es. clear Es. assert (Hoff : forall a, 0 <= a < 2000 -> spec_off (total + ms) a = false).
  { intros a Ha. thresholds. rewrite (proj2 (Z.leb_gt 2000 a)), (proj2 (Z.leb_gt 180000 _)) by lia.
    by rewrite andb_false_r. }
  destruct (Z.leb_spec 1000 (pm_request_timer_ms cf + ms)) as [He|He].
  - split; [done|]. split; [done|]. split; [cbn; unfold POWER_MAINTAIN_REPEAT_MS; lia|].
    exists (spec_run [TMessage (power_message src power_request); TUpdate ms] s).
    split; [apply tecu_run_refines; [repeat (apply Forall_cons_2; [cbn; done || lia|]); apply Forall_nil_2|done]|].
    cbn. rewrite power_request_asks, Hon by done. cbn. rewrite Htot, Hoff by lia.
    unfold POWER_MAINTAIN_REPEAT_MS. split_and!; try done; try lia.
  - split; [done|]. split; [done|]. split; [cbn; unfold POWER_MAINTAIN_REPEAT_MS; lia|].
    exists (spec_run [TUpdate ms] s).
    split; [apply tecu_run_refines; [repeat (apply Forall_cons_2; [cbn; done || lia|]); apply Forall_nil_2|done]|].
    cbn. rewrite Hon. cbn. rewrite Htot, Hoff by lia.
    unfold POWER_MAINTAIN_REPEAT_MS. split_and!; try done; try lia.
Qed.
Lemma kept_steps src mss cf tecu total :
  has_usable_source (power_message src power_request) = true ->
  Forall (fun ms => 0 <= ms <= POWER_MAINTAIN_REPEAT_MS) mss -> 0 <= total ->
  total + sum mss < POWER_MAX_EXTENSION_MS -> kept cf tecu total ->
  let '(cf', tecu') := power_steps src mss (cf, tecu) in kept cf' tecu' (total + sum mss).
Proof.
  intros Hsrc Hm. revert cf tecu total. induction Hm as [|ms mss Hms Hm IH]; intros cf tecu total H0 Ht Hk.
  { cbn in *. by rewrite Z.add_0_r. }
  change (sum (ms :: mss)) with (ms + sum mss) in *.
  assert (Hs : 0 <= sum mss).
  { clear -Hm. induction Hm as [|x l Hx _ IH]; [done|]. change (sum (x :: l)) with (x + sum l). lia. }
  assert (H := kept_step src ms cf tecu total Hsrc Hms H0 ltac:(lia) Hk).
  unfold power_steps in *. cbn [foldl]. destruct (power_step src ms (cf, tecu)) as [cf' tecu'].
  replace (total + (ms + sum mss)) with (total + ms + sum mss) by lia. apply IH; [lia|lia|done].
Qed.
(** Without a request the tractor's times only grow. *)
Lemma spec_quiet mss s :
  Forall (fun ms => 0 <= ms) mss -> sp_since s = sp_total s -> 0 <= sp_total s -> sp_on s = true ->
  POWER_SHUTDOWN_MIN_MS <= sp_total s + sum mss -> sp_total s < POWER_SHUTDOWN_MIN_MS ->
  sp_on (spec_run (TUpdate <$> mss) s) = false.
Proof.
  intros Hm. revert s. induction Hm as [|ms mss Hms Hm IH]; intros s Heq H0 Hon Ht Hlt.
  { cbn in Ht. lia. }
  change (sum (ms :: mss)) with (ms + sum mss) in Ht. unfold spec_run. cbn [fmap list_fmap foldl spec_call].
  rewrite Hon, Heq. destruct (spec_off _ _) eqn:Eo; cbn [negb].
  - by apply (spec_off_stays (TUpdate <$> mss)).
  - apply (IH (mkSpec (sp_total s + ms) (sp_total s + ms) true)); cbn; try done; try lia.
    thresholds. destruct (Z.leb_spec 2000 (sp_total s + ms)); [done|lia].
Qed.
(** an implement that asks for power, serviced at least once a second, keeps the tractor's
    power on after key-off for three minutes, however the time is cut into steps; without it the
    tractor is off two seconds after the key. *)
Theorem power_kept src mss cf tecu :
  has_usable_source (power_message src power_request) = true ->
  pm_role cf = PowerRole.Cf -> pm_role tecu = PowerRole.Tecu -> pm_state tecu = Running ->
  Forall (fun ms => 0 <= ms <= POWER_MAINTAIN_REPEAT_MS) mss -> sum mss < POWER_MAX_EXTENSION_MS ->
  pm_state (power_steps src mss (request_power true cf, (key_off tecu).1)).2 <> PowerOff
  /\ (POWER_SHUTDOWN_MIN_MS <= sum mss ->
      pm_state (tecu_run (TUpdate <$> mss) (key_off tecu).1) = PowerOff).
Proof.
  intros Hsrc Hcf Hte Hrun Hmss Hsum.
  assert (Hk : kept (request_power true cf) (key_off tecu).1 0).
  { unfold kept, POWER_MAINTAIN_REPEAT_MS. cbn. unfold POWER_MAINTAIN_REPEAT_MS.
    split_and!; [done|done|lia|lia|]. exists spec_start. split; [by apply key_off_refines|].
    cbn. split_and!; try done; try lia. }
  split.
  - assert (H := kept_steps src mss _ _ 0 Hsrc Hmss ltac:(lia) Hsum Hk).
    destruct (power_steps _ _ _) as [c t]. destruct H as (_ & _ & _ & s & [_ Hs] & Hon & _). cbn.
    rewrite Hon in Hs. destruct Hs as (_ & _ & _ & _ & ->). by case_match.
  - intros Hge. assert (Hm : Forall (fun ms => 0 <= ms) mss) by (eapply Forall_impl; [done|]; cbn; lia).
    assert (H := tecu_run_refines (TUpdate <$> mss) _ _ ltac:(by apply Forall_fmap)
                   (key_off_refines tecu Hte Hrun)).
    destruct H as [_ H]. by rewrite spec_quiet in H.
Qed.
Lemma power_kept_witness :
  let mss := replicate 50 1000 in
  pm_state (power_steps 0x26 mss (request_power true (PowerManager_new PowerRole.Cf),
                                  (key_off (PowerManager_new PowerRole.Tecu)).1)).2 <> PowerOff.
Proof.
  apply (power_kept 0x26 (replicate 50 1000) (PowerManager_new PowerRole.Cf) (PowerManager_new PowerRole.Tecu));
    [reflexivity..| |reflexivity].
  apply Forall_replicate. split; discriminate.
Defined.
Lemma power_tecu_refines_witness :
  pm_state (tecu_run [TUpdate 1500; TMessage (power_message 0x26 power_request); TUpdate 1500]
              (key_off (PowerManager_new PowerRole.Tecu)).1) = Maintaining.
Proof.
  destruct (power_tecu_refines (PowerManager_new PowerRole.Tecu)
              [TUpdate 1500; TMessage (power_message 0x26 power_request); TUpdate 1500])
    as (_ & H & _); [reflexivity|reflexivity| |].
  { apply Forall_cons_2; [discriminate|]. apply Forall_cons_2; [exact I|].
    apply Forall_cons_2; [discriminate|apply Forall_nil_2]. }
  destruct (H eq_refl) as [E _]. exact E.
Defined.

(** ** What modelling showed *)

(** A request made while the key is on counts among those of the next shutdown. *)
Lemma power_early_client :
  requesting_clients
    (tecu_run [TUpdate 3000]
       (key_off (power_handle_message (power_message 0x26 power_request) (PowerManager_new PowerRole.Tecu))).1)
  = [0x26].
Proof. by vm_compute. Qed.
