(* ===== verification/Guidance.v ===== *)
(** The messages of automatic guidance: the model of the codecs of
    [src/isobus/implement/guidance.rs], [drive_strategy.rs], [machine_speed_cmd.rs] and
    [tractor_facilities.rs] that the driving controller uses, and of
    [src/j1939/shortcut_button.rs].

    Physical values are [f64]: an executable function of the IEEE 754 value, [spec_float] at
    precision 53 and exponent bound 1024, every operation rounded to nearest even.  Only the
    operations the code calls are named. *)
From Stdlib Require Import SpecFloat.
From S2P Require Export Types Requests.

Abbreviation f64 := spec_float (only parsing).
(** The value of an integer literal, in canonical form. *)
Definition f64_of_Z (z : Z) : f64 := binary_normalize 53 1024 z 0 false.
Definition f64_add : f64 -> f64 -> f64 := SFadd 53 1024.
Definition f64_sub : f64 -> f64 -> f64 := SFsub 53 1024.
Definition f64_mul : f64 -> f64 -> f64 := SFmul 53 1024.
Definition f64_div : f64 -> f64 -> f64 := SFdiv 53 1024.
Definition f64_abs : f64 -> f64 := SFabs.
(** [==], [<] and [<=]: all false on a NaN. *)
Definition f64_eqb : f64 -> f64 -> bool := SFeqb.
Definition f64_ltb : f64 -> f64 -> bool := SFltb.
Definition f64_leb : f64 -> f64 -> bool := SFleb.
Definition f64_is_finite (x : f64) : bool :=
  match x with S754_zero _ | S754_finite _ _ _ => true | S754_infinity _ | S754_nan => false end.
(** [clamp]; a NaN stays one. *)
Definition f64_clamp (x low high : f64) : f64 :=
  if f64_ltb x low then low else if f64_ltb high x then high else x.
(** The integer part, towards zero, of a finite value. *)
Definition f64_trunc (x : f64) : Z :=
  match x with
  | S754_finite s m e =>
      let n := if e <? 0 then Z.shiftr (Zpos m) (- e) else Z.shiftl (Zpos m) e in
      if s then - n else n
  | _ => 0
  end.
(** [as u16]: saturating, a NaN gives 0. *)
Definition f64_as_u16 (x : f64) : Z :=
  match x with
  | S754_infinity false => 2 ^ 16 - 1
  | S754_infinity true | S754_nan => 0
  | _ => Z.max 0 (Z.min (f64_trunc x) (2 ^ 16 - 1))
  end.

Lemma f64_as_u16_bounds x : in_u 16 (f64_as_u16 x).
Proof. unfold f64_as_u16, in_u. destruct x as [s|s| |s m e]; try destruct s; lia. Qed.

(** A comparison that succeeded had numbers on both sides. *)
Lemma f64_leb_number x y : f64_leb x y = true -> x <> S754_nan /\ y <> S754_nan.
Proof. by destruct x, y. Qed.
(** Between two finite bounds a value is finite. *)
Lemma f64_between_finite x low high :
  f64_is_finite low = true -> f64_is_finite high = true ->
  f64_leb low x = true -> f64_leb x high = true -> f64_is_finite x = true.
Proof.
  destruct low as [| | |], high as [| | |]; try done; intros _ _; destruct x as [|[]| |]; try done.
Qed.

Definition PGN_GUIDANCE_MACHINE_INFO : Pgn := 0xAC00.
Definition PGN_GUIDANCE_SYSTEM_CMD : Pgn := 0xAD00.
Definition PGN_MACHINE_SELECTED_SPEED_CMD : Pgn := 0xFD43.
Definition PGN_TRACTOR_FACILITIES_RESPONSE : Pgn := 0xFE09.
Definition PGN_REQUIRED_TRACTOR_FACILITIES : Pgn := 0xFE0A.
Definition PGN_SHORTCUT_BUTTON : Pgn := 0xFD02.

Inductive Signal (T : Type) : Type := Value (v : T) | SignalError | SignalNotAvailable.
Arguments Value {T} v.
Arguments SignalError {T}.
Arguments SignalNotAvailable {T}.

(** ** [guidance.rs] *)

Module MechanicalLockout.
Inductive t : Type := NotActive | Active | Error | NotAvailable.
Definition try_from_u8 (v : Z) : option t :=
  match v with
  | 0 => Some NotActive | 1 => Some Active | 2 => Some Error | 3 => Some NotAvailable | _ => None
  end.
Definition as_u8 (x : t) : Z :=
  match x with NotActive => 0 | Active => 1 | Error => 2 | NotAvailable => 3 end.
End MechanicalLockout.
Module RequestResetCommandStatus.
Inductive t : Type := ResetNotRequired | ResetRequired | Error | NotAvailable.
Definition try_from_u8 (v : Z) : option t :=
  match v with
  | 0 => Some ResetNotRequired | 1 => Some ResetRequired | 2 => Some Error
  | 3 => Some NotAvailable | _ => None
  end.
Definition as_u8 (x : t) : Z :=
  match x with ResetNotRequired => 0 | ResetRequired => 1 | Error => 2 | NotAvailable => 3 end.
End RequestResetCommandStatus.
Module GenericSaeBs02SlotValue.
Inductive t : Type :=
| DisabledOffPassive | EnabledOnActive | ErrorIndication | NotAvailableTakeNoAction.
Definition try_from_u8 (v : Z) : option t :=
  match v with
  | 0 => Some DisabledOffPassive | 1 => Some EnabledOnActive | 2 => Some ErrorIndication
  | 3 => Some NotAvailableTakeNoAction | _ => None
  end.
Definition as_u8 (x : t) : Z :=
  match x with
  | DisabledOffPassive => 0 | EnabledOnActive => 1 | ErrorIndication => 2
  | NotAvailableTakeNoAction => 3
  end.
End GenericSaeBs02SlotValue.
Module GuidanceLimitStatus.
Inductive t : Type :=
| NotLimited | OperatorLimitedControlled | LimitedHigh | LimitedLow | Reserved1 | Reserved2
| NonRecoverableFault | NotAvailable.
Definition try_from_u8 (v : Z) : option t :=
  match v with
  | 0 => Some NotLimited | 1 => Some OperatorLimitedControlled | 2 => Some LimitedHigh
  | 3 => Some LimitedLow | 6 => Some NonRecoverableFault | 7 => Some NotAvailable | _ => None
  end.
Definition as_u8 (x : t) : Z :=
  match x with
  | NotLimited => 0 | OperatorLimitedControlled => 1 | LimitedHigh => 2 | LimitedLow => 3
  | Reserved1 => 4 | Reserved2 => 5 | NonRecoverableFault => 6 | NotAvailable => 7
  end.
End GuidanceLimitStatus.

Definition CURVATURE_MIN_PER_KM : f64 := f64_of_Z (-8032).
(** 8031.75 *)
Definition CURVATURE_MAX_PER_KM : f64 := f64_div (f64_of_Z 32127) (f64_of_Z 4).
Definition CURVATURE_OFFSET_PER_KM : f64 := f64_of_Z 8032.
Definition CURVATURE_RESOLUTION_PER_KM : f64 := f64_div (f64_of_Z 1) (f64_of_Z 4).
Definition CURVATURE_NOT_AVAILABLE_RAW : Z := 0xFFFF.
Definition CURVATURE_MAX_RAW : Z := 0xFAFF.
Definition curvature_within_range (curvature_per_km : f64) : bool :=
  f64_is_finite curvature_per_km
  && (f64_leb CURVATURE_MIN_PER_KM curvature_per_km && f64_leb curvature_per_km CURVATURE_MAX_PER_KM).
Definition encode_curvature (curvature_per_km : f64) : Z :=
  if negb (f64_is_finite curvature_per_km) then CURVATURE_NOT_AVAILABLE_RAW
  else
    let clamped := f64_clamp curvature_per_km CURVATURE_MIN_PER_KM CURVATURE_MAX_PER_KM in
    f64_as_u16 (f64_div (f64_add clamped CURVATURE_OFFSET_PER_KM) CURVATURE_RESOLUTION_PER_KM).
Definition decode_curvature (raw : Z) : Signal f64 :=
  if raw <=? CURVATURE_MAX_RAW
  then Value (f64_sub (f64_mul (f64_of_Z raw) CURVATURE_RESOLUTION_PER_KM) CURVATURE_OFFSET_PER_KM)
  else if (0xFE00 <=? raw) && (raw <=? 0xFEFF) then SignalError
  else SignalNotAvailable.

Record GuidanceMachineInfo : Type := mkMachineInfo {
  estimated_curvature : Signal f64;
  lockout : MechanicalLockout.t;
  steering_system_readiness_state : GenericSaeBs02SlotValue.t;
  steering_input_position_status : GenericSaeBs02SlotValue.t;
  request_reset_status : RequestResetCommandStatus.t;
  guidance_limit_status : GuidanceLimitStatus.t;
  guidance_system_command_exit_reason_code : Z;
  remote_engage_switch_status : GenericSaeBs02SlotValue.t
}.
Definition machine_info_encode (m : GuidanceMachineInfo) : list Z :=
  let raw := match estimated_curvature m with
             | Value v => encode_curvature v
             | SignalError => 0xFEFF
             | SignalNotAvailable => CURVATURE_NOT_AVAILABLE_RAW
             end in
  [Z.land raw 0xFF; Z.land (Z.shiftr raw 8) 0xFF;
   Z.lor (Z.lor (Z.lor (Z.land (MechanicalLockout.as_u8 (lockout m)) 0x03)
     (Z.shiftl (Z.land (GenericSaeBs02SlotValue.as_u8 (steering_system_readiness_state m)) 0x03) 2))
     (Z.shiftl (Z.land (GenericSaeBs02SlotValue.as_u8 (steering_input_position_status m)) 0x03) 4))
     (Z.shiftl (Z.land (RequestResetCommandStatus.as_u8 (request_reset_status m)) 0x03) 6);
   Z.lor 0x1F (Z.shiftl (Z.land (GuidanceLimitStatus.as_u8 (guidance_limit_status m)) 0x07) 5);
   Z.lor (Z.land (guidance_system_command_exit_reason_code m) 0x3F)
     (Z.shiftl (Z.land (GenericSaeBs02SlotValue.as_u8 (remote_engage_switch_status m)) 0x03) 6);
   0xFF; 0xFF; 0xFF].
Definition machine_info_decode (data : list Z) : option GuidanceMachineInfo :=
  match data with
  | [d0; d1; d2; d3; d4; _; _; _] =>
      lockout ← MechanicalLockout.try_from_u8 (Z.land d2 0x03);
      readiness ← GenericSaeBs02SlotValue.try_from_u8 (Z.land (Z.shiftr d2 2) 0x03);
      input ← GenericSaeBs02SlotValue.try_from_u8 (Z.land (Z.shiftr d2 4) 0x03);
      reset ← RequestResetCommandStatus.try_from_u8 (Z.shiftr d2 6);
      limit ← GuidanceLimitStatus.try_from_u8 (Z.shiftr d3 5);
      engage ← GenericSaeBs02SlotValue.try_from_u8 (Z.shiftr d4 6);
      Some (mkMachineInfo (decode_curvature (Z.lor d0 (Z.shiftl d1 8))) lockout readiness input reset
              limit (Z.land d4 0x3F) engage)
  | _ => None
  end.

(** ** [drive_strategy.rs]: the guidance system command *)

Definition GUIDANCE_SYSTEM_CURVATURE_MIN_PER_KM : f64 := f64_of_Z (-8032).
Definition GUIDANCE_SYSTEM_CURVATURE_MAX_PER_KM : f64 := f64_div (f64_of_Z 32127) (f64_of_Z 4).
Definition GUIDANCE_SYSTEM_CURVATURE_OFFSET_PER_KM : f64 := f64_of_Z 8032.
Definition GUIDANCE_SYSTEM_CURVATURE_RESOLUTION_PER_KM : f64 := f64_div (f64_of_Z 1) (f64_of_Z 4).
Definition GUIDANCE_SYSTEM_CURVATURE_MAX_RAW : Z := 0xFAFF.
Definition encode_guidance_system_curvature (curvature_per_km : f64) : Z :=
  if negb (f64_is_finite curvature_per_km) then 0xFFFF
  else
    let clamped := f64_clamp curvature_per_km GUIDANCE_SYSTEM_CURVATURE_MIN_PER_KM
                     GUIDANCE_SYSTEM_CURVATURE_MAX_PER_KM in
    f64_as_u16 (f64_div (f64_add clamped GUIDANCE_SYSTEM_CURVATURE_OFFSET_PER_KM)
                  GUIDANCE_SYSTEM_CURVATURE_RESOLUTION_PER_KM).
Module CurvatureCommandStatus.
Inductive t : Type := NotIntendedToSteer | IntendedToSteer | ErrorIndication | NotAvailable.
Definition try_from_u8 (v : Z) : option t :=
  match v with
  | 0 => Some NotIntendedToSteer | 1 => Some IntendedToSteer | 2 => Some ErrorIndication
  | 3 => Some NotAvailable | _ => None
  end.
Definition as_u8 (x : t) : Z :=
  match x with NotIntendedToSteer => 0 | IntendedToSteer => 1 | ErrorIndication => 2 | NotAvailable => 3 end.
End CurvatureCommandStatus.
Record GuidanceSystemCmd : Type := mkGuidanceCmd {
  commanded_curvature : Signal f64;
  gc_status : CurvatureCommandStatus.t
}.
Definition guidance_cmd_encode (c : GuidanceSystemCmd) : list Z :=
  let raw := match commanded_curvature c with
             | Value v => encode_guidance_system_curvature v
             | SignalError => 0xFE00
             | SignalNotAvailable => 0xFFFF
             end in
  [Z.land raw 0xFF; Z.land (Z.shiftr raw 8) 0xFF;
   Z.lor 0xFC (CurvatureCommandStatus.as_u8 (gc_status c)); 0xFF; 0xFF; 0xFF; 0xFF; 0xFF].
Definition guidance_cmd_decode (data : list Z) : option GuidanceSystemCmd :=
  match data with
  | [d0; d1; d2; _; _; _; _; _] =>
      let raw := Z.lor d0 (Z.shiftl d1 8) in
      curvature ← (if raw <=? GUIDANCE_SYSTEM_CURVATURE_MAX_RAW
                   then Some (Value (f64_sub (f64_mul (f64_of_Z raw) (f64_div (f64_of_Z 1) (f64_of_Z 4)))
                                       (f64_of_Z 8032)))
                   else if (0xFE00 <=? raw) && (raw <=? 0xFEFF) then Some SignalError
                   else if 0xFF00 <=? raw then Some SignalNotAvailable else None);
      status ← CurvatureCommandStatus.try_from_u8 (Z.land d2 0x03);
      Some (mkGuidanceCmd curvature status)
  | _ => None
  end.

(** ** [machine_speed_cmd.rs]: the speed command *)

Module MachineDirection.
Inductive t : Type := Reverse | Forward | Error | NotAvailable.
Definition try_from_u8 (v : Z) : option t :=
  match v with
  | 0 => Some Reverse | 1 => Some Forward | 2 => Some Error | 3 => Some NotAvailable | _ => None
  end.
Definition as_u8 (x : t) : Z :=
  match x with Reverse => 0 | Forward => 1 | Error => 2 | NotAvailable => 3 end.
End MachineDirection.
Definition VALID_MAX_U16_SIGNAL_RAW : Z := 0xFAFF.
Definition scaled_u16_non_na (value resolution : f64) : Z :=
  if negb (f64_is_finite value) then 0
  else
    let raw := f64_div value resolution in
    if f64_leb raw (f64_of_Z 0) then 0
    else if f64_leb (f64_of_Z VALID_MAX_U16_SIGNAL_RAW) raw then VALID_MAX_U16_SIGNAL_RAW
    else f64_as_u16 raw.
(** The literal [0.001]. *)
Definition f64_milli : f64 := f64_div (f64_of_Z 1) (f64_of_Z 1000).
Definition encode_speed_mps_non_na (mps : f64) : Z := scaled_u16_non_na mps f64_milli.
Record MachineSpeedCommandMsg : Type := mkSpeedCmd {
  target_speed_raw : Z;
  direction_cmd : MachineDirection.t
}.
Definition MachineSpeedCommandMsg_default : MachineSpeedCommandMsg :=
  mkSpeedCmd 0xFFFF MachineDirection.NotAvailable.
Definition with_speed_mps (mps : f64) (m : MachineSpeedCommandMsg) : MachineSpeedCommandMsg :=
  mkSpeedCmd (encode_speed_mps_non_na mps) (direction_cmd m).
Definition with_direction (d : MachineDirection.t) (m : MachineSpeedCommandMsg) : MachineSpeedCommandMsg :=
  mkSpeedCmd (target_speed_raw m) d.
Definition speed_cmd_encode (m : MachineSpeedCommandMsg) : list Z :=
  [Z.land (target_speed_raw m) 0xFF; Z.land (Z.shiftr (target_speed_raw m) 8) 0xFF;
   Z.lor (Z.land (MachineDirection.as_u8 (direction_cmd m)) 0x03) 0xFC; 0xFF; 0xFF; 0xFF; 0xFF; 0xFF].
Definition speed_cmd_decode (data : list Z) : option MachineSpeedCommandMsg :=
  match data with
  | [d0; d1; d2; _; _; _; _; _] =>
      direction ← MachineDirection.try_from_u8 (Z.land d2 0x03);
      Some (mkSpeedCmd (Z.lor d0 (Z.shiftl d1 8)) direction)
  | _ => None
  end.


(** ** [tractor_facilities.rs] *)

Record TractorFacilities : Type := mkFacilities {
  tf_rear_hitch_position : bool;
  tf_rear_hitch_in_work : bool;
  tf_rear_pto_speed : bool;
  tf_rear_pto_engagement : bool;
  tf_wheel_based_speed : bool;
  tf_ground_based_speed : bool;
  tf_ground_based_distance : bool;
  tf_ground_based_direction : bool;
  tf_wheel_based_distance : bool;
  tf_wheel_based_direction : bool;
  tf_rear_draft : bool;
  tf_lighting : bool;
  tf_aux_valve_flow : bool;
  tf_rear_hitch_command : bool;
  tf_rear_pto_command : bool;
  tf_aux_valve_command : bool;
  tf_front_hitch_position : bool;
  tf_front_hitch_in_work : bool;
  tf_front_pto_speed : bool;
  tf_front_pto_engagement : bool;
  tf_front_hitch_command : bool;
  tf_front_pto_command : bool;
  tf_navigation : bool;
  tf_guidance : bool;
  tf_machine_selected_speed : bool;
  tf_machine_selected_speed_command : bool;
  tf_rear_hitch_limit_status : bool;
  tf_rear_hitch_exit_code : bool;
  tf_rear_pto_engagement_request : bool;
  tf_rear_pto_speed_limit_status : bool;
  tf_rear_pto_exit_code : bool;
  tf_aux_valve_limit_status : bool;
  tf_aux_valve_exit_code : bool;
  tf_front_hitch_limit_status : bool;
  tf_front_hitch_exit_code : bool;
  tf_front_pto_engagement_request : bool;
  tf_front_pto_speed_limit_status : bool;
  tf_front_pto_exit_code : bool
}.
Definition TractorFacilities_default : TractorFacilities :=
  mkFacilities false false false false false false false false false false false false false false
    false false false false false false false false false false false false false false false
    false false false false false false false false false.
(** A left-to-right chain of [|]. *)
Definition lor_all (l : list Z) : Z := foldl Z.lor 0 l.
(** A flag at bit [n]. *)
Definition flag (b : bool) (n : Z) : Z := Z.shiftl (Z.b2z b) n.
Definition facilities_encode (f : TractorFacilities) : list Z :=
  [lor_all [flag (tf_rear_hitch_position f) 0; flag (tf_rear_hitch_in_work f) 1; flag
      (tf_rear_pto_speed f) 2; flag (tf_rear_pto_engagement f) 3; flag (tf_wheel_based_speed
      f) 4; flag (tf_ground_based_speed f) 5; flag (tf_ground_based_distance f) 6; flag
      (tf_ground_based_direction f) 7];
   lor_all [flag (tf_wheel_based_distance f) 0; flag (tf_wheel_based_direction f) 1; flag
      (tf_rear_draft f) 2; flag (tf_lighting f) 3; flag (tf_aux_valve_flow f) 4; flag
      (tf_rear_hitch_command f) 5; flag (tf_rear_pto_command f) 6; flag (tf_aux_valve_command
      f) 7];
   lor_all [flag (tf_front_hitch_position f) 0; flag (tf_front_hitch_in_work f) 1; flag
      (tf_front_pto_speed f) 2; flag (tf_front_pto_engagement f) 3; flag
      (tf_front_hitch_command f) 4; flag (tf_front_pto_command f) 5; flag (tf_navigation f) 6;
      flag (tf_guidance f) 7];
   lor_all [flag (tf_machine_selected_speed f) 0; flag (tf_machine_selected_speed_command f) 1;
      flag (tf_rear_hitch_limit_status f) 2; flag (tf_rear_hitch_exit_code f) 3; flag
      (tf_rear_pto_engagement_request f) 4; flag (tf_rear_pto_speed_limit_status f) 5; flag
      (tf_rear_pto_exit_code f) 6; flag (tf_aux_valve_limit_status f) 7];
   lor_all [0xC0; flag (tf_aux_valve_exit_code f) 0; flag (tf_front_hitch_limit_status f) 1; flag
      (tf_front_hitch_exit_code f) 2; flag (tf_front_pto_engagement_request f) 3; flag
      (tf_front_pto_speed_limit_status f) 4; flag (tf_front_pto_exit_code f) 5];
   0xFF; 0xFF; 0xFF].
Definition encode_required (f : TractorFacilities) : list Z :=
  match facilities_encode f with
  | [d0; d1; d2; d3; d4; _; _; _] => [d0; d1; d2; d3; Z.land d4 0x3F; 0; 0; 0]
  | data => data
  end.
Definition bit (b n : Z) : bool := negb (Z.land (Z.shiftr b n) 0x01 =? 0).
Definition facilities_decode (data : list Z) : option TractorFacilities :=
  match data with
  | [d0; d1; d2; d3; d4; _; _; _] =>
      Some (mkFacilities (bit d0 0) (bit d0 1) (bit d0 2) (bit d0 3) (bit d0 4) (bit d0 5) (bit d0 6)
        (bit d0 7) (bit d1 0) (bit d1 1) (bit d1 2) (bit d1 3) (bit d1 4) (bit d1 5) (bit d1 6)
        (bit d1 7) (bit d2 0) (bit d2 1) (bit d2 2) (bit d2 3) (bit d2 4) (bit d2 5) (bit d2 6)
        (bit d2 7) (bit d3 0) (bit d3 1) (bit d3 2) (bit d3 3) (bit d3 4) (bit d3 5) (bit d3 6)
        (bit d3 7) (bit d4 0) (bit d4 1) (bit d4 2) (bit d4 3) (bit d4 4) (bit d4 5))
  | _ => None
  end.

(** ** [shortcut_button.rs] *)

Module ShortcutButtonState.
Inductive t : Type :=
| StopImplementOperations | PermitAllImplementsToOperate | Error | NotAvailable.
#[global] Instance eq_dec : EqDecision t.
Proof. solve_decision. Defined.
Definition from_u8 (v : Z) : t :=
  match Z.land v 0x03 with
  | 0 => StopImplementOperations | 1 => PermitAllImplementsToOperate | 2 => Error | _ => NotAvailable
  end.
Definition try_from_u8 (v : Z) : option t :=
  match v with
  | 0 => Some StopImplementOperations | 1 => Some PermitAllImplementsToOperate | 2 => Some Error
  | 3 => Some NotAvailable | _ => None
  end.
Definition as_u8 (x : t) : Z :=
  match x with
  | StopImplementOperations => 0 | PermitAllImplementsToOperate => 1 | Error => 2 | NotAvailable => 3
  end.
Definition is_stop_requested (x : t) : bool := bool_decide (x = StopImplementOperations).
End ShortcutButtonState.
Record ShortcutButtonMessage : Type := mkButton {
  sb_state : ShortcutButtonState.t;
  sb_transition_count : Z
}.
Definition encode_with_transition_count (state : ShortcutButtonState.t) (transition_count : Z) : list Z :=
  [0xFF; 0xFF; 0xFF; 0xFF; 0xFF; 0xFF; transition_count;
   Z.lor 0xFC (Z.land (ShortcutButtonState.as_u8 state) 0x03)].
Definition button_encode (state : ShortcutButtonState.t) : list Z := encode_with_transition_count state 0.
Definition decode_message (msg : Message) : option ShortcutButtonMessage :=
  if negb (has_usable_envelope_for_pgn msg PGN_SHORTCUT_BUTTON) then None
  else
    match m_data msg with
    | [_; _; _; _; _; _; d6; d7] =>
        state ← ShortcutButtonState.try_from_u8 (Z.land d7 0x03); Some (mkButton state d6)
    | _ => None
    end.
Definition button_decode (msg : Message) : option ShortcutButtonState.t := sb_state <$> decode_message msg.

(** ** Round trips *)

(** Each flag comes back out of its byte. *)
Lemma byte_bits b0 b1 b2 b3 b4 b5 b6 b7 :
  (fun n => bit (lor_all [flag b0 0; flag b1 1; flag b2 2; flag b3 3; flag b4 4; flag b5 5; flag b6 6;
                          flag b7 7]) n) <$> [0; 1; 2; 3; 4; 5; 6; 7]
  = [b0; b1; b2; b3; b4; b5; b6; b7].
Proof. by destruct b0, b1, b2, b3, b4, b5, b6, b7. Qed.
Lemma byte_bits_reserved b0 b1 b2 b3 b4 b5 :
  let d := lor_all [0xC0; flag b0 0; flag b1 1; flag b2 2; flag b3 3; flag b4 4; flag b5 5] in
  (bit d <$> [0; 1; 2; 3; 4; 5]) = [b0; b1; b2; b3; b4; b5]
  /\ (bit (Z.land d 0x3F) <$> [0; 1; 2; 3; 4; 5]) = [b0; b1; b2; b3; b4; b5].
Proof. by destruct b0, b1, b2, b3, b4, b5. Qed.
Lemma facilities_roundtrip f :
  facilities_decode (facilities_encode f) = Some f /\ facilities_decode (encode_required f) = Some f.
Proof.
  destruct f. unfold encode_required, facilities_encode, facilities_decode. cbn -[lor_all bit flag Z.land].
  repeat match goal with
  | |- context [lor_all [flag ?a 0; flag ?b 1; flag ?c 2; flag ?d 3; flag ?e 4; flag ?f 5; flag ?g 6; flag ?h 7]] =>
      generalize (byte_bits a b c d e f g h);
      generalize (lor_all [flag a 0; flag b 1; flag c 2; flag d 3; flag e 4; flag f 5; flag g 6; flag h 7]);
      intros ? [= -> -> -> -> -> -> -> ->]
  | |- context [lor_all [0xC0; flag ?a 0; flag ?b 1; flag ?c 2; flag ?d 3; flag ?e 4; flag ?f 5]] =>
      generalize (byte_bits_reserved a b c d e f);
      generalize (lor_all [0xC0; flag a 0; flag b 1; flag c 2; flag d 3; flag e 4; flag f 5]);
      intros ? [[= -> -> -> -> -> ->] [= -> -> -> -> -> ->]]
  end. done.
Qed.
