(* ===== verification/SessionEvents.v ===== *)
(** The session's event stream: the model of [src/session/sys/events.rs], of the classification of
    [src/session/sys/safety.rs], of [src/net/fault_confinement.rs] and of the types of
    [src/session/sys/autodrive.rs] and [guidance.rs].

    Every subsystem's events are constructors of one [Event]; what a subsystem that is not
    modelled carries is left out. *)
From S2P Require Export Heartbeat MaintainPower TimPlugin Guidance.

(** ** [fault_confinement.rs] *)

(** [BusState] of the driver crate. *)
Inductive BusState : Type := ErrorActive | ErrorPassive | BusOff.
Module FaultConfinementAction.
Inductive t : Type := Normal | Degrade | FailSafe.
#[global] Instance eq_dec : EqDecision t.
Proof. solve_decision. Defined.
End FaultConfinementAction.
Definition fault_confinement_action (state : BusState) : FaultConfinementAction.t :=
  match state with
  | ErrorActive => FaultConfinementAction.Normal
  | ErrorPassive => FaultConfinementAction.Degrade
  | BusOff => FaultConfinementAction.FailSafe
  end.
Record FaultConfinementMonitor : Type := mkMonitor { fm_action : FaultConfinementAction.t }.
Definition FaultConfinementMonitor_new : FaultConfinementMonitor := mkMonitor FaultConfinementAction.Normal.
Definition is_fail_safe (m : FaultConfinementMonitor) : bool :=
  bool_decide (fm_action m = FaultConfinementAction.FailSafe).
Definition monitor_observe (state : BusState) (m : FaultConfinementMonitor)
    : FaultConfinementMonitor * option FaultConfinementAction.t :=
  let next := fault_confinement_action state in
  if bool_decide (next = fm_action m) then (m, None) else (mkMonitor next, Some next).

(** ** [sys/autodrive.rs] *)

Module AutomationStatus.
Inductive t : Type :=
| Unavailable | NotReady | ReadyToEnable | Enabled | Pending | ActiveNotLimited | ActiveLimitedHigh
| ActiveLimitedLow | Fault | Error | NotAvailable.
#[global] Instance eq_dec : EqDecision t.
Proof. solve_decision. Defined.
Definition from_u8 (v : Z) : t :=
  match Z.land v 0x0F with
  | 0 => Unavailable | 1 => NotReady | 2 => ReadyToEnable | 3 => Enabled | 4 => Pending
  | 5 => ActiveNotLimited | 6 => ActiveLimitedHigh | 7 => ActiveLimitedLow
  | 0xD => Fault | 0xE => Error | _ => NotAvailable
  end.
Definition try_from_u8 (v : Z) : option t :=
  if ((0 <=? v) && (v <=? 7)) || (v =? 0xD) || (v =? 0xE) || (v =? 0xF) then Some (from_u8 v) else None.
Definition as_u8 (s : t) : Z :=
  match s with
  | Unavailable => 0 | NotReady => 1 | ReadyToEnable => 2 | Enabled => 3 | Pending => 4
  | ActiveNotLimited => 5 | ActiveLimitedHigh => 6 | ActiveLimitedLow => 7
  | Fault => 0xD | Error => 0xE | NotAvailable => 0xF
  end.
Definition is_active (s : t) : bool :=
  match s with ActiveNotLimited | ActiveLimitedHigh | ActiveLimitedLow => true | _ => false end.
Definition is_limited (s : t) : bool :=
  match s with ActiveLimitedHigh | ActiveLimitedLow => true | _ => false end.
End AutomationStatus.
Record DriveCommand : Type := mkDrive { speed_mps : option f64; curvature_km_inv : option f64 }.
Definition DriveCommand_default : DriveCommand := mkDrive None None.
Definition steer (curvature : f64) : DriveCommand := mkDrive None (Some curvature).
Definition drive (speed : f64) : DriveCommand := mkDrive (Some speed) (Some (f64_of_Z 0)).
Definition halt : DriveCommand := mkDrive (Some (f64_of_Z 0)) (Some (f64_of_Z 0)).
Module AutodriveRefusal.
Inductive t : Type :=
| NoAuthority | FacilityNotAdvertised | LinkDown | MechanicalLockout | OperatorNotEngaged
| SpeedBelowMinimum | StopLatched | NotClaimed | StatusNotActive | CurvatureOutOfRange
| SpeedNotFinite | StopConditionLive.
Definition as_str (r : t) : string :=
  match r with
  | NoAuthority => "no_authority" | FacilityNotAdvertised => "facility_not_advertised"
  | LinkDown => "link_down" | MechanicalLockout => "mechanical_lockout"
  | OperatorNotEngaged => "operator_not_engaged" | SpeedBelowMinimum => "speed_below_minimum"
  | StopLatched => "stop_latched" | NotClaimed => "not_claimed"
  | StatusNotActive => "status_not_active" | CurvatureOutOfRange => "curvature_out_of_range"
  | SpeedNotFinite => "speed_not_finite" | StopConditionLive => "stop_condition_live"
  end.
End AutodriveRefusal.
Inductive AutodriveEvent : Type :=
| StateChanged (status : AutomationStatus.t)
| Engaged
| Disengaged
| Refused (refusal : AutodriveRefusal.t)
| SafeStop (trigger : SafeStopTrigger.t).
Inductive GuidanceEvent : Type :=
| MachineInfo (source : Address) (curvature : Signal f64) (steering_ready : bool) (limit_status : Z)
| LinkLost (silent_for_ms : Z) (was_engaged : bool)
| LinkRestored (source : Address).

(** ** [sys/events.rs] *)

(** The claim's outcomes as the session reports them. *)
Inductive SessionClaim : Type :=
| SClaimed (address : Address)
| SLost (previous_address : Address)
| SDisconnected.
Inductive BusEvent : Type :=
| BusError (port : Z)
| DroppedFrame (port : Z)
| ConfinementChanged (port : Z) (action : FaultConfinementAction.t)
| SendFailed (pgn : Pgn) (dst : Address)
| ClockWentBackwards (by_micros : Z).
(** A position, a fix quality or another reading; what it carries is not modelled. *)
Inductive GnssEvent : Type :=
| GnssPosition
| PositionStale (silent_for_ms : Z)
| FixDegraded
| FixRestored
| GnssReading.
(** The wheel speed's key switch; the rest of the implement messages is not modelled. *)
Inductive ImplementEvent : Type := WheelSpeed (key_switch_state : Z) | ImplementOther.
Definition is_key_off (key_switch_state : Z) : bool := key_switch_state =? 0.
Record Dtc : Type := mkDtc {
  dtc_spn : Z; dtc_fmi : Z; dtc_occurrence_count : Z; dtc_conversion_method : bool
}.
Definition ADDRESS_VIOLATION_SPN_BASE : Z := 2000.
(** [Fmi::ConditionExists] is 31. *)
Definition address_violation (source_address : Address) : Dtc :=
  mkDtc (ADDRESS_VIOLATION_SPN_BASE + source_address) 31 1 false.
(** The subsystems whose events nothing modelled reads. *)
Inductive Subsystem : Type :=
| SubVt | SubTc | SubFs | SubSc | SubAuxiliary | SubLanguageCommand | SubPowertrain | SubDmMemory
| SubVtServer | SubFsServer | SubTcServer | SubDiag.
Inductive Event : Type :=
| EvAddressClaim (e : SessionClaim)
| EvBus (e : BusEvent)
| EvDiagRaised (dtc : Dtc)
| EvGnss (e : GnssEvent)
| EvGuidance (e : GuidanceEvent)
| EvImp (e : ImplementEvent)
| EvTim (e : TimEvent)
| EvShortcutButton (source : Address) (message : ShortcutButtonMessage)
| EvMaintainPower (e : MaintainPowerEvent)
| EvHeartbeat (e : HeartbeatEvent)
| EvAutodrive (e : AutodriveEvent)
| EvSubsystem (s : Subsystem)
| EvCustom (pgn : Pgn) (source : Address) (data : list Z).

(** [SafeStopTrigger::from_event]. *)
Definition from_event (event : Event) : option SafeStopTrigger.t :=
  match event with
  | EvBus (ConfinementChanged _ FaultConfinementAction.FailSafe) => Some SafeStopTrigger.BusOff
  | EvBus (ClockWentBackwards _) => Some SafeStopTrigger.ClockWentBackwards
  | EvAddressClaim (SLost _ | SDisconnected) => Some SafeStopTrigger.AddressClaimLost
  | EvHeartbeat (HbCommError _ | HbSequenceError _ _ | HbSenderError _ | HbGracefulShutdown _) =>
      Some SafeStopTrigger.HeartbeatError
  | EvImp (WheelSpeed key) => if is_key_off key then Some SafeStopTrigger.KeySwitchOff else None
  | EvGnss (PositionStale _) => Some SafeStopTrigger.PositionStale
  | EvGnss FixDegraded => Some SafeStopTrigger.FixDegraded
  | _ => None
  end.
(** What [Tim] reads of an event. *)
Definition tim_reads (event : Event) : SessionEvent :=
  match event with
  | EvMaintainPower PowerOffReported => EvPowerOff
  | _ => EvStop (from_event event)
  end.

(** ** The bounded queue of [sys/events.rs] *)

Module OverflowPolicy.
Inductive t : Type := DropOldest | DropNewest.
End OverflowPolicy.
(** The waker is left out: nothing in the tree registers one. *)
Record EventQueue : Type := mkQueue {
  eq_inner : list Event;
  eq_capacity : Z;
  eq_overflow : OverflowPolicy.t;
  eq_dropped : Z
}.
Definition with_capacity (capacity : Z) : EventQueue := mkQueue [] capacity OverflowPolicy.DropOldest 0.
Definition EventQueue_default : EventQueue := with_capacity 256.
Definition with_policy (policy : OverflowPolicy.t) (q : EventQueue) : EventQueue :=
  mkQueue (eq_inner q) (eq_capacity q) policy (eq_dropped q).
(** [None]: the count of dropped events overflows. *)
Definition queue_push (ev : Event) (q : EventQueue) : option EventQueue :=
  let with_ inner dropped := mkQueue inner (eq_capacity q) (eq_overflow q) dropped in
  if eq_capacity q =? 0 then
    dropped ← checked_add 64 (eq_dropped q) 1; Some (with_ (eq_inner q) dropped)
  else if eq_capacity q <=? Z.of_nat (length (eq_inner q)) then
    dropped ← checked_add 64 (eq_dropped q) 1;
    Some (match eq_overflow q with
          | OverflowPolicy.DropOldest => with_ (tail (eq_inner q) ++ [ev]) dropped
          | OverflowPolicy.DropNewest => with_ (eq_inner q) dropped
          end)
  else Some (with_ (eq_inner q ++ [ev]) (eq_dropped q)).
Definition queue_pop (q : EventQueue) : EventQueue * option Event :=
  (mkQueue (tail (eq_inner q)) (eq_capacity q) (eq_overflow q) (eq_dropped q), head (eq_inner q)).
Definition queue_clear (q : EventQueue) : EventQueue :=
  mkQueue [] (eq_capacity q) (eq_overflow q) (eq_dropped q).
