(* ===== verification/AutoDrive.v ===== *)
(** The driving controller: the model of [src/session/plugins/autodrive.rs], of the [IsbGuard] of
    [plugins/shortcut_button.rs] and of the [GnssHazards] of [plugins/gnss.rs].

    One controller steers and sets the speed.  It commands the machine only between [engage] and
    the first fault, which it latches until [clear_stop]. *)
From S2P Require Export SessionEvents.
Import AutomationStatus.

Definition REQUIRED_FACILITIES_INTERVAL_MS : Z := 1000.
Definition LINK_TIMEOUT_MS : Z := 300.
Definition MIN_TX_INTERVAL_MS : Z := 100.
Definition MAX_TX_INTERVAL_MS : Z := 2000.
(** The literal [0.05]. *)
Definition DEFAULT_MIN_SPEED_MPS : f64 := f64_div (f64_of_Z 1) (f64_of_Z 20).
Definition COMMAND_STALE_MS : Z := 300.
Definition COMMAND_PGNS : list Pgn := [PGN_GUIDANCE_SYSTEM_CMD; PGN_MACHINE_SELECTED_SPEED_CMD].
Definition autodrive_interests : list Pgn :=
  [PGN_GUIDANCE_MACHINE_INFO; PGN_SHORTCUT_BUTTON; PGN_TRACTOR_FACILITIES_RESPONSE].
Definition autodrive_transmits : list Pgn :=
  [PGN_GUIDANCE_SYSTEM_CMD; PGN_MACHINE_SELECTED_SPEED_CMD; PGN_REQUIRED_TRACTOR_FACILITIES].

(** ** [IsbGuard] *)

Definition ISB_TIMEOUT_MS : Z := 300.
Record IsbGuard : Type := mkIsb { isb_last_seen_at : option Instant.t; isb_asserted : bool }.
Definition IsbGuard_new : IsbGuard := mkIsb None false.
Definition isb_observe (state : ShortcutButtonState.t) (now : Instant.t) (g : IsbGuard) : IsbGuard :=
  mkIsb (Some now) (negb (bool_decide (state = ShortcutButtonState.PermitAllImplementsToOperate))).
Definition isb_tick (now : Instant.t) (g : IsbGuard) : IsbGuard :=
  match isb_last_seen_at g with
  | Some seen =>
      if ISB_TIMEOUT_MS <=? Instant.millis_since now seen then mkIsb (Some seen) true else g
  | None => g
  end.

(** ** [GnssHazards] *)

Record GnssHazards : Type := mkHazards { gh_position_stale : bool; gh_fix_degraded : bool }.
Definition GnssHazards_default : GnssHazards := mkHazards false false.
Definition hazards_observe (event : Event) (g : GnssHazards) : GnssHazards :=
  match event with
  | EvGnss (PositionStale _) => mkHazards true (gh_fix_degraded g)
  | EvGnss FixDegraded => mkHazards (gh_position_stale g) true
  | EvGnss FixRestored => mkHazards (gh_position_stale g) false
  | EvGnss GnssPosition => mkHazards false (gh_fix_degraded g)
  | _ => g
  end.
Definition is_live (g : GnssHazards) : bool := gh_position_stale g || gh_fix_degraded g.

(** ** The controller *)

Record AutoDrive : Type := mkAuto {
  ad_status : AutomationStatus.t;
  ad_setpoint : DriveCommand;
  ad_latest : option GuidanceMachineInfo;
  ad_last_info_at : option Instant.t;
  ad_link_alive : bool;
  ad_last_tx_at : option Instant.t;
  ad_dirty : bool;
  ad_stop : StopLatch;
  ad_min_speed_mps : f64;
  ad_min_tx_ms : Z;
  ad_max_tx_ms : Z;
  ad_command_seq : Z;
  ad_seen_seq : Z;
  ad_seq_changed_at : option Instant.t;
  ad_stale_ms : Z;
  ad_isb : IsbGuard;
  ad_gnss : GnssHazards;
  ad_facilities : option TractorFacilities;
  ad_last_required_at : option Instant.t
}.
(** Field updates. *)
Definition set_status (v : AutomationStatus.t) (a : AutoDrive) : AutoDrive :=
  mkAuto v (ad_setpoint a) (ad_latest a) (ad_last_info_at a) (ad_link_alive a) (ad_last_tx_at a)
    (ad_dirty a) (ad_stop a) (ad_min_speed_mps a) (ad_min_tx_ms a) (ad_max_tx_ms a)
    (ad_command_seq a) (ad_seen_seq a) (ad_seq_changed_at a) (ad_stale_ms a) (ad_isb a)
    (ad_gnss a) (ad_facilities a) (ad_last_required_at a).
Definition set_setpoint (v : DriveCommand) (a : AutoDrive) : AutoDrive :=
  mkAuto (ad_status a) v (ad_latest a) (ad_last_info_at a) (ad_link_alive a) (ad_last_tx_at a)
    (ad_dirty a) (ad_stop a) (ad_min_speed_mps a) (ad_min_tx_ms a) (ad_max_tx_ms a)
    (ad_command_seq a) (ad_seen_seq a) (ad_seq_changed_at a) (ad_stale_ms a) (ad_isb a)
    (ad_gnss a) (ad_facilities a) (ad_last_required_at a).
Definition set_latest (v : option GuidanceMachineInfo) (a : AutoDrive) : AutoDrive :=
  mkAuto (ad_status a) (ad_setpoint a) v (ad_last_info_at a) (ad_link_alive a) (ad_last_tx_at a)
    (ad_dirty a) (ad_stop a) (ad_min_speed_mps a) (ad_min_tx_ms a) (ad_max_tx_ms a)
    (ad_command_seq a) (ad_seen_seq a) (ad_seq_changed_at a) (ad_stale_ms a) (ad_isb a)
    (ad_gnss a) (ad_facilities a) (ad_last_required_at a).
Definition set_last_info_at (v : option Instant.t) (a : AutoDrive) : AutoDrive :=
  mkAuto (ad_status a) (ad_setpoint a) (ad_latest a) v (ad_link_alive a) (ad_last_tx_at a)
    (ad_dirty a) (ad_stop a) (ad_min_speed_mps a) (ad_min_tx_ms a) (ad_max_tx_ms a)
    (ad_command_seq a) (ad_seen_seq a) (ad_seq_changed_at a) (ad_stale_ms a) (ad_isb a)
    (ad_gnss a) (ad_facilities a) (ad_last_required_at a).
Definition set_link_alive (v : bool) (a : AutoDrive) : AutoDrive :=
  mkAuto (ad_status a) (ad_setpoint a) (ad_latest a) (ad_last_info_at a) v (ad_last_tx_at a)
    (ad_dirty a) (ad_stop a) (ad_min_speed_mps a) (ad_min_tx_ms a) (ad_max_tx_ms a)
    (ad_command_seq a) (ad_seen_seq a) (ad_seq_changed_at a) (ad_stale_ms a) (ad_isb a)
    (ad_gnss a) (ad_facilities a) (ad_last_required_at a).
Definition set_last_tx_at (v : option Instant.t) (a : AutoDrive) : AutoDrive :=
  mkAuto (ad_status a) (ad_setpoint a) (ad_latest a) (ad_last_info_at a) (ad_link_alive a) v
    (ad_dirty a) (ad_stop a) (ad_min_speed_mps a) (ad_min_tx_ms a) (ad_max_tx_ms a)
    (ad_command_seq a) (ad_seen_seq a) (ad_seq_changed_at a) (ad_stale_ms a) (ad_isb a)
    (ad_gnss a) (ad_facilities a) (ad_last_required_at a).
Definition set_dirty (v : bool) (a : AutoDrive) : AutoDrive :=
  mkAuto (ad_status a) (ad_setpoint a) (ad_latest a) (ad_last_info_at a) (ad_link_alive a)
    (ad_last_tx_at a) v (ad_stop a) (ad_min_speed_mps a) (ad_min_tx_ms a) (ad_max_tx_ms a)
    (ad_command_seq a) (ad_seen_seq a) (ad_seq_changed_at a) (ad_stale_ms a) (ad_isb a)
    (ad_gnss a) (ad_facilities a) (ad_last_required_at a).
Definition set_stop (v : StopLatch) (a : AutoDrive) : AutoDrive :=
  mkAuto (ad_status a) (ad_setpoint a) (ad_latest a) (ad_last_info_at a) (ad_link_alive a)
    (ad_last_tx_at a) (ad_dirty a) v (ad_min_speed_mps a) (ad_min_tx_ms a) (ad_max_tx_ms a)
    (ad_command_seq a) (ad_seen_seq a) (ad_seq_changed_at a) (ad_stale_ms a) (ad_isb a)
    (ad_gnss a) (ad_facilities a) (ad_last_required_at a).
Definition set_min_speed_mps (v : f64) (a : AutoDrive) : AutoDrive :=
  mkAuto (ad_status a) (ad_setpoint a) (ad_latest a) (ad_last_info_at a) (ad_link_alive a)
    (ad_last_tx_at a) (ad_dirty a) (ad_stop a) v (ad_min_tx_ms a) (ad_max_tx_ms a)
    (ad_command_seq a) (ad_seen_seq a) (ad_seq_changed_at a) (ad_stale_ms a) (ad_isb a)
    (ad_gnss a) (ad_facilities a) (ad_last_required_at a).
Definition set_min_tx_ms (v : Z) (a : AutoDrive) : AutoDrive :=
  mkAuto (ad_status a) (ad_setpoint a) (ad_latest a) (ad_last_info_at a) (ad_link_alive a)
    (ad_last_tx_at a) (ad_dirty a) (ad_stop a) (ad_min_speed_mps a) v (ad_max_tx_ms a)
    (ad_command_seq a) (ad_seen_seq a) (ad_seq_changed_at a) (ad_stale_ms a) (ad_isb a)
    (ad_gnss a) (ad_facilities a) (ad_last_required_at a).
Definition set_max_tx_ms (v : Z) (a : AutoDrive) : AutoDrive :=
  mkAuto (ad_status a) (ad_setpoint a) (ad_latest a) (ad_last_info_at a) (ad_link_alive a)
    (ad_last_tx_at a) (ad_dirty a) (ad_stop a) (ad_min_speed_mps a) (ad_min_tx_ms a) v
    (ad_command_seq a) (ad_seen_seq a) (ad_seq_changed_at a) (ad_stale_ms a) (ad_isb a)
    (ad_gnss a) (ad_facilities a) (ad_last_required_at a).
Definition set_command_seq (v : Z) (a : AutoDrive) : AutoDrive :=
  mkAuto (ad_status a) (ad_setpoint a) (ad_latest a) (ad_last_info_at a) (ad_link_alive a)
    (ad_last_tx_at a) (ad_dirty a) (ad_stop a) (ad_min_speed_mps a) (ad_min_tx_ms a)
    (ad_max_tx_ms a) v (ad_seen_seq a) (ad_seq_changed_at a) (ad_stale_ms a) (ad_isb a)
    (ad_gnss a) (ad_facilities a) (ad_last_required_at a).
Definition set_seen_seq (v : Z) (a : AutoDrive) : AutoDrive :=
  mkAuto (ad_status a) (ad_setpoint a) (ad_latest a) (ad_last_info_at a) (ad_link_alive a)
    (ad_last_tx_at a) (ad_dirty a) (ad_stop a) (ad_min_speed_mps a) (ad_min_tx_ms a)
    (ad_max_tx_ms a) (ad_command_seq a) v (ad_seq_changed_at a) (ad_stale_ms a) (ad_isb a)
    (ad_gnss a) (ad_facilities a) (ad_last_required_at a).
Definition set_seq_changed_at (v : option Instant.t) (a : AutoDrive) : AutoDrive :=
  mkAuto (ad_status a) (ad_setpoint a) (ad_latest a) (ad_last_info_at a) (ad_link_alive a)
    (ad_last_tx_at a) (ad_dirty a) (ad_stop a) (ad_min_speed_mps a) (ad_min_tx_ms a)
    (ad_max_tx_ms a) (ad_command_seq a) (ad_seen_seq a) v (ad_stale_ms a) (ad_isb a) (ad_gnss a)
    (ad_facilities a) (ad_last_required_at a).
Definition set_stale_ms (v : Z) (a : AutoDrive) : AutoDrive :=
  mkAuto (ad_status a) (ad_setpoint a) (ad_latest a) (ad_last_info_at a) (ad_link_alive a)
    (ad_last_tx_at a) (ad_dirty a) (ad_stop a) (ad_min_speed_mps a) (ad_min_tx_ms a)
    (ad_max_tx_ms a) (ad_command_seq a) (ad_seen_seq a) (ad_seq_changed_at a) v (ad_isb a)
    (ad_gnss a) (ad_facilities a) (ad_last_required_at a).
Definition set_isb (v : IsbGuard) (a : AutoDrive) : AutoDrive :=
  mkAuto (ad_status a) (ad_setpoint a) (ad_latest a) (ad_last_info_at a) (ad_link_alive a)
    (ad_last_tx_at a) (ad_dirty a) (ad_stop a) (ad_min_speed_mps a) (ad_min_tx_ms a)
    (ad_max_tx_ms a) (ad_command_seq a) (ad_seen_seq a) (ad_seq_changed_at a) (ad_stale_ms a) v
    (ad_gnss a) (ad_facilities a) (ad_last_required_at a).
Definition set_gnss (v : GnssHazards) (a : AutoDrive) : AutoDrive :=
  mkAuto (ad_status a) (ad_setpoint a) (ad_latest a) (ad_last_info_at a) (ad_link_alive a)
    (ad_last_tx_at a) (ad_dirty a) (ad_stop a) (ad_min_speed_mps a) (ad_min_tx_ms a)
    (ad_max_tx_ms a) (ad_command_seq a) (ad_seen_seq a) (ad_seq_changed_at a) (ad_stale_ms a)
    (ad_isb a) v (ad_facilities a) (ad_last_required_at a).
Definition set_facilities (v : option TractorFacilities) (a : AutoDrive) : AutoDrive :=
  mkAuto (ad_status a) (ad_setpoint a) (ad_latest a) (ad_last_info_at a) (ad_link_alive a)
    (ad_last_tx_at a) (ad_dirty a) (ad_stop a) (ad_min_speed_mps a) (ad_min_tx_ms a)
    (ad_max_tx_ms a) (ad_command_seq a) (ad_seen_seq a) (ad_seq_changed_at a) (ad_stale_ms a)
    (ad_isb a) (ad_gnss a) v (ad_last_required_at a).
Definition set_last_required_at (v : option Instant.t) (a : AutoDrive) : AutoDrive :=
  mkAuto (ad_status a) (ad_setpoint a) (ad_latest a) (ad_last_info_at a) (ad_link_alive a)
    (ad_last_tx_at a) (ad_dirty a) (ad_stop a) (ad_min_speed_mps a) (ad_min_tx_ms a)
    (ad_max_tx_ms a) (ad_command_seq a) (ad_seen_seq a) (ad_seq_changed_at a) (ad_stale_ms a)
    (ad_isb a) (ad_gnss a) (ad_facilities a) v.
Definition AutoDrive_new : AutoDrive :=
  mkAuto NotReady DriveCommand_default None None false None false StopLatch_new DEFAULT_MIN_SPEED_MPS
    MIN_TX_INTERVAL_MS MAX_TX_INTERVAL_MS 0 0 None COMMAND_STALE_MS IsbGuard_new GnssHazards_default
    None None.
Definition required_facilities : TractorFacilities :=
  mkFacilities false false false false false false false false false false false false false false
    false false false false false false false false false true true true false false false false false
    false false false false false false false.
Definition with_command_stale_ms (ms : Z) (a : AutoDrive) : AutoDrive := set_stale_ms ms a.
Definition with_cadence (min_ms max_ms : Z) (a : AutoDrive) : AutoDrive :=
  let min_tx_ms := Z.max min_ms MIN_TX_INTERVAL_MS in
  set_max_tx_ms (Z.max max_ms min_tx_ms) (set_min_tx_ms min_tx_ms a).
Definition with_min_speed (mps : f64) (a : AutoDrive) : AutoDrive := set_min_speed_mps (f64_abs mps) a.
Definition is_engaged (a : AutoDrive) : bool := is_active (ad_status a).

(** The machine's conditions that forbid steering. *)
Definition machine_violation (info : GuidanceMachineInfo) : option AutodriveRefusal.t :=
  match lockout info with
  | MechanicalLockout.Active => Some AutodriveRefusal.MechanicalLockout
  | _ =>
      match remote_engage_switch_status info with
      | GenericSaeBs02SlotValue.DisabledOffPassive => Some AutodriveRefusal.OperatorNotEngaged
      | _ => None
      end
  end.
Definition check_preconditions (a : AutoDrive) : Result unit AutodriveRefusal.t :=
  if is_latched (ad_stop a) || isb_asserted (ad_isb a) || is_live (ad_gnss a)
  then Err AutodriveRefusal.StopLatched
  else if match ad_facilities a with Some f => negb (tf_guidance f) | None => false end
  then Err AutodriveRefusal.FacilityNotAdvertised
  else if negb (ad_link_alive a) then Err AutodriveRefusal.LinkDown
  else
    match ad_latest a with
    | None => Err AutodriveRefusal.LinkDown
    | Some info => match machine_violation info with Some r => Err r | None => Ok tt end
    end.
Definition auto_set_status (status : AutomationStatus.t) (a : AutoDrive) : AutoDrive :=
  if bool_decide (ad_status a <> status) then set_dirty true (set_status status a) else a.
Definition enter_safe_state (a : AutoDrive) : AutoDrive :=
  set_dirty true (set_setpoint halt (set_status Fault a)).
(** [self.stop.trip(trigger)] and whether it latched. *)
Definition trip_stop (trigger : SafeStopTrigger.t) (a : AutoDrive) : AutoDrive * bool :=
  let '(l, newly) := trip trigger (ad_stop a) in (set_stop l a, newly).
(** [if self.stop.trip(trigger) { self.enter_safe_state(); ctx.emit(SafeStop) }]. *)
Definition stop_on (trigger : SafeStopTrigger.t) (a : AutoDrive) : AutoDrive * list Event :=
  let '(a, newly) := trip_stop trigger a in
  if newly then (enter_safe_state a, [EvAutodrive (SafeStop trigger)]) else (a, []).
Definition bump_command_seq (a : AutoDrive) : AutoDrive :=
  set_command_seq (wrap 64 (ad_command_seq a + 1)) a.

(** ** Its calls *)

Definition arm (a : AutoDrive) : AutoDrive * Result unit AutodriveRefusal.t :=
  match check_preconditions a with
  | Err e => (a, Err e)
  | Ok _ => (auto_set_status ReadyToEnable a, Ok tt)
  end.
Definition engage (a : AutoDrive) : AutoDrive * Result unit AutodriveRefusal.t :=
  match check_preconditions a with
  | Err e => (a, Err e)
  | Ok _ => (bump_command_seq (set_dirty true (auto_set_status ActiveNotLimited a)), Ok tt)
  end.
Definition disengage (reason : SafeStopTrigger.t) (a : AutoDrive) : AutoDrive :=
  enter_safe_state (trip_stop reason a).1.
(** [PartialEq] of an axis: a NaN differs from itself. *)
Definition axis_eqb (x y : option f64) : bool :=
  match x, y with Some x, Some y => f64_eqb x y | None, None => true | _, _ => false end.
Definition drive_eqb (x y : DriveCommand) : bool :=
  axis_eqb (speed_mps x) (speed_mps y) && axis_eqb (curvature_km_inv x) (curvature_km_inv y).
Definition command (cmd : DriveCommand) (a : AutoDrive) : AutoDrive * Result unit AutodriveRefusal.t :=
  if is_latched (ad_stop a) then (a, Err AutodriveRefusal.StopLatched)
  else if negb (is_active (ad_status a)) then (a, Err AutodriveRefusal.StatusNotActive)
  else if match curvature_km_inv cmd with Some c => negb (curvature_within_range c) | None => false end
  then (a, Err AutodriveRefusal.CurvatureOutOfRange)
  else if match speed_mps cmd with Some s => negb (f64_is_finite s) | None => false end
  then (a, Err AutodriveRefusal.SpeedNotFinite)
  else if match speed_mps cmd with Some _ => true | None => false end
          && match ad_facilities a with Some f => negb (tf_machine_selected_speed_command f) | None => false end
  then (a, Err AutodriveRefusal.FacilityNotAdvertised)
  else if match speed_mps cmd, curvature_km_inv cmd with
          | Some speed, Some curvature =>
              negb (f64_eqb curvature (f64_of_Z 0)) && f64_leb (f64_abs speed) (ad_min_speed_mps a)
          | _, _ => false
          end
  then (a, Err AutodriveRefusal.SpeedBelowMinimum)
  else
    let a := if negb (drive_eqb (ad_setpoint a) cmd) then set_dirty true a else a in
    (bump_command_seq (set_setpoint cmd a), Ok tt).
Definition clear_stop (a : AutoDrive) : AutoDrive * Result unit AutodriveRefusal.t :=
  if isb_asserted (ad_isb a) || is_live (ad_gnss a) then (a, Err AutodriveRefusal.StopConditionLive)
  else
    let a := set_stop (latch_clear (ad_stop a)) a in
    (if bool_decide (ad_status a = Fault) then set_status NotReady a else a, Ok tt).
Definition system_command (a : AutoDrive) : GuidanceSystemCmd :=
  mkGuidanceCmd (match curvature_km_inv (ad_setpoint a) with Some c => Value c | None => SignalNotAvailable end)
    (if is_active (ad_status a) then CurvatureCommandStatus.IntendedToSteer
     else CurvatureCommandStatus.NotIntendedToSteer).

(** ** Its callbacks *)

(** The status a limit of the machine stands for; [None] when it is a stop. *)
Definition limit_status (l : GuidanceLimitStatus.t) : option AutomationStatus.t :=
  match l with
  | GuidanceLimitStatus.LimitedHigh => Some ActiveLimitedHigh
  | GuidanceLimitStatus.LimitedLow => Some ActiveLimitedLow
  | GuidanceLimitStatus.NotLimited => Some ActiveNotLimited
  | _ => None
  end.
Definition on_machine_info (source : Address) (info : GuidanceMachineInfo) (now : Instant.t) (a : AutoDrive)
    : AutoDrive * list Event :=
  let was_alive := ad_link_alive a in
  let a := set_link_alive true (set_last_info_at (Some now) (set_latest (Some info) a)) in
  let report :=
    (if was_alive then [] else [EvGuidance (LinkRestored source)])
    ++ [EvGuidance (MachineInfo source (estimated_curvature info)
          match steering_system_readiness_state info with
          | GenericSaeBs02SlotValue.EnabledOnActive => true | _ => false
          end
          (GuidanceLimitStatus.as_u8 (guidance_limit_status info)))] in
  if negb (is_active (ad_status a)) then (a, report)
  else
    match machine_violation info with
    | Some refusal =>
        let '(a, es) := stop_on match refusal with
                                | AutodriveRefusal.MechanicalLockout => SafeStopTrigger.IsbStop
                                | _ => SafeStopTrigger.OperatorOverride
                                end a in
        (a, report ++ es)
    | None =>
        match guidance_limit_status info with
        | GuidanceLimitStatus.OperatorLimitedControlled | GuidanceLimitStatus.NonRecoverableFault =>
            let '(a, es) := stop_on SafeStopTrigger.OperatorOverride a in (a, report ++ es)
        | limit =>
            match limit_status limit with
            | Some next =>
                if bool_decide (next <> ad_status a)
                then (set_status next a, report ++ [EvAutodrive (StateChanged next)])
                else (a, report)
            | None => (a, report)
            end
        end
    end.
Definition on_facilities (facilities : TractorFacilities) (a : AutoDrive) : AutoDrive * list Event :=
  let a := set_facilities (Some facilities) a in
  if negb (tf_guidance facilities) && is_active (ad_status a)
  then stop_on SafeStopTrigger.GuidanceLinkTimeout a else (a, []).
Definition on_button (state : ShortcutButtonState.t) (now : Instant.t) (a : AutoDrive)
    : AutoDrive * list Event :=
  let a := set_isb (isb_observe state now (ad_isb a)) a in
  if isb_asserted (ad_isb a) then stop_on SafeStopTrigger.IsbStop a else (a, []).
Definition auto_on_frame (msg : Message) (now : Instant.t) (a : AutoDrive) : AutoDrive * list Event :=
  match (if m_pgn msg =? PGN_SHORTCUT_BUTTON then decode_message msg else None) with
  | Some decoded => on_button (sb_state decoded) now a
  | None =>
      match (if m_pgn msg =? PGN_TRACTOR_FACILITIES_RESPONSE then facilities_decode (m_data msg) else None) with
      | Some facilities => on_facilities facilities a
      | None =>
          match (if m_pgn msg =? PGN_GUIDANCE_MACHINE_INFO then machine_info_decode (m_data msg) else None) with
          | Some info => on_machine_info (m_source msg) info now a
          | None => (a, [])
          end
      end
  end.
Definition auto_trigger (event : Event) : option SafeStopTrigger.t :=
  match from_event event with
  | Some trigger => Some trigger
  | None =>
      match event with
      | EvBus (SendFailed pgn _) =>
          if existsb (Z.eqb pgn) COMMAND_PGNS then Some (SafeStopTrigger.SendFailed pgn) else None
      | _ => None
      end
  end.
Definition auto_on_event (event : Event) (a : AutoDrive) : AutoDrive * list Event :=
  let a := set_gnss (hazards_observe event (ad_gnss a)) a in
  match auto_trigger event with
  | None => (a, [])
  | Some trigger => stop_on trigger a
  end.

(** [on_tick], in the order it is written: the link, the button, the application, the frames. *)
Definition tick_link (now : Instant.t) (a : AutoDrive) : AutoDrive * list Event :=
  let alive := match ad_last_info_at a with
               | Some t => Instant.millis_since now t <? LINK_TIMEOUT_MS
               | None => false
               end in
  let '(a, es) :=
    if ad_link_alive a && negb alive then
      let was_engaged := is_active (ad_status a) in
      (enter_safe_state (trip_stop SafeStopTrigger.GuidanceLinkTimeout a).1,
       [EvGuidance (LinkLost match ad_last_info_at a with
                             | Some t => Instant.millis_since now t
                             | None => 2 ^ 32 - 1
                             end was_engaged);
        EvAutodrive (SafeStop SafeStopTrigger.GuidanceLinkTimeout)])
    else (a, []) in
  (set_link_alive alive a, es).
Definition tick_button (now : Instant.t) (a : AutoDrive) : AutoDrive * list Event :=
  let a := set_isb (isb_tick now (ad_isb a)) a in
  if isb_asserted (ad_isb a) then stop_on SafeStopTrigger.IsbStop a else (a, []).
Definition tick_application (now : Instant.t) (a : AutoDrive) : AutoDrive * list Event :=
  let a := if negb (ad_command_seq a =? ad_seen_seq a)
           then set_seq_changed_at (Some now) (set_seen_seq (ad_command_seq a) a) else a in
  if (0 <? ad_stale_ms a) && is_active (ad_status a)
     && match ad_seq_changed_at a with
        | Some t => ad_stale_ms a <=? Instant.millis_since now t
        | None => false
        end
  then stop_on SafeStopTrigger.CommandStale a else (a, []).
(** A frame: PGN and payload; every one is broadcast at priority [Normal]. *)
Abbreviation AutoFrame := (Pgn * list Z)%type.
Definition send_required (now : Instant.t) (a : AutoDrive) : AutoDrive * list AutoFrame :=
  if match ad_last_required_at a with
     | None => true
     | Some t => REQUIRED_FACILITIES_INTERVAL_MS <=? Instant.millis_since now t
     end
  then (set_last_required_at (Some now) a, [(PGN_REQUIRED_TRACTOR_FACILITIES, encode_required required_facilities)])
  else (a, []).
Definition command_due (now : Instant.t) (a : AutoDrive) : bool :=
  match ad_last_tx_at a with
  | None => true
  | Some last =>
      let since := Instant.millis_since now last in
      if is_active (ad_status a) then ad_min_tx_ms a <=? since
      else (ad_max_tx_ms a <=? since) || (ad_dirty a && (ad_min_tx_ms a <=? since))
  end.
Definition speed_command (speed : f64) : MachineSpeedCommandMsg :=
  let direction := if f64_ltb speed (f64_of_Z 0) then MachineDirection.Reverse else MachineDirection.Forward in
  with_direction direction (with_speed_mps (f64_abs speed) MachineSpeedCommandMsg_default).
(** The frames of one command: the steering, and the speed when the setpoint has one. *)
Definition command_frames (a : AutoDrive) : list AutoFrame :=
  (PGN_GUIDANCE_SYSTEM_CMD, guidance_cmd_encode (system_command a))
  :: match speed_mps (ad_setpoint a) with
     | Some speed => [(PGN_MACHINE_SELECTED_SPEED_CMD, speed_cmd_encode (speed_command speed))]
     | None => []
     end.
Definition send_command (now : Instant.t) (a : AutoDrive) : AutoDrive * list AutoFrame :=
  if command_due now a then (set_dirty false (set_last_tx_at (Some now) a), command_frames a) else (a, []).
(** The controller, its events, its frames, and when it wants the next tick. *)
Definition auto_on_tick (now : Instant.t) (claimed : bool) (a : AutoDrive)
    : AutoDrive * list Event * list AutoFrame * Instant.t :=
  let '(a, e1) := tick_link now a in
  let '(a, e2) := tick_button now a in
  let '(a, e3) := tick_application now a in
  let events := e1 ++ e2 ++ e3 in
  if negb claimed then (a, events, [], Instant.add_millis now (ad_min_tx_ms a))
  else
    let '(a, f1) := send_required now a in
    let '(a, f2) := send_command now a in
    (a, events, f1 ++ f2,
     match ad_last_tx_at a with Some last => Instant.add_millis last (ad_min_tx_ms a) | None => now end).
