(* ===== verification/AutoDriveProofs.v ===== *)
(** The driving controller, proved: when it may ask for the wheel, what stops it, and how often it
    speaks. *)
From S2P Require Export AutoDrive.
Import AutomationStatus.

(** ** Every call *)

Inductive AutoCall : Type :=
| DArm | DEngage
| DDisengage (reason : SafeStopTrigger.t)
| DCommand (cmd : DriveCommand)
| DClearStop
| DFrame (msg : Message) (now : Instant.t)
| DEvent (event : Event)
| DTick (now : Instant.t) (claimed : bool).
(** The controller after a call, and the frames it sent. *)
Definition auto_call (k : AutoCall) (a : AutoDrive) : AutoDrive * list AutoFrame :=
  match k with
  | DArm => ((arm a).1, [])
  | DEngage => ((engage a).1, [])
  | DDisengage reason => (disengage reason a, [])
  | DCommand cmd => ((command cmd a).1, [])
  | DClearStop => ((clear_stop a).1, [])
  | DFrame msg now => ((auto_on_frame msg now a).1, [])
  | DEvent event => ((auto_on_event event a).1, [])
  | DTick now claimed => let '(a, _, frames, _) := auto_on_tick now claimed a in (a, frames)
  end.
Fixpoint auto_run (ks : list AutoCall) (a : AutoDrive) : AutoDrive * list AutoFrame :=
  match ks with
  | [] => (a, [])
  | k :: ks =>
      let '(a, f) := auto_call k a in let '(a, fs) := auto_run ks a in (a, f ++ fs)
  end.
(** A controller with its options. *)
Definition auto_config (stale_ms min_ms max_ms : Z) (min_speed : f64) : AutoDrive :=
  with_command_stale_ms stale_ms (with_cadence min_ms max_ms (with_min_speed min_speed AutoDrive_new)).

(** ** The invariant *)

Definition ready (a : AutoDrive) : Prop :=
  latch_reason (ad_stop a) = None
  /\ isb_asserted (ad_isb a) = false
  /\ is_live (ad_gnss a) = false
  /\ ad_link_alive a = true
  /\ match ad_facilities a with Some f => tf_guidance f = true | None => True end
  /\ exists info, ad_latest a = Some info /\ machine_violation info = None.
Record auto_inv (a : AutoDrive) : Prop := {
  av_active : is_active (ad_status a) = true -> ready a;
  av_latched : latch_reason (ad_stop a) <> None -> ad_status a = Fault /\ ad_setpoint a = halt;
  av_heard : ad_link_alive a = true -> exists t, ad_last_info_at a = Some t;
  av_range : match curvature_km_inv (ad_setpoint a) with
             | Some c => curvature_within_range c = true
             | None => True
             end
}.
Lemma auto_inv_config stale min max mps : auto_inv (auto_config stale min max mps).
Proof. by split. Qed.
Lemma halt_in_range : curvature_within_range (f64_of_Z 0) = true.
Proof. by vm_compute. Qed.

Lemma latched_reason l : is_latched l = false <-> latch_reason l = None.
Proof. unfold is_latched. by case_match. Qed.
Lemma trip_latches trigger l : latch_reason (trip trigger l).1 <> None.
Proof. unfold trip. destruct (latch_reason l) eqn:E; cbn; congruence. Qed.

(** A controller in the safe state with its latch set satisfies the invariant, whatever the rest. *)
Lemma safe_state_inv a :
  (ad_link_alive a = true -> exists t, ad_last_info_at a = Some t) -> auto_inv (enter_safe_state a).
Proof. intros H. split; [done|by auto|done|]. cbn. apply halt_in_range. Qed.
(** A stop ends in the latch set, the status a fault and the setpoint a halt, newly tripped or not. *)
Definition stopped (a : AutoDrive) : Prop :=
  latch_reason (ad_stop a) <> None /\ ad_status a = Fault /\ ad_setpoint a = halt.
Lemma stop_on_stops trigger a a' es :
  stop_on trigger a = (a', es) ->
  (latch_reason (ad_stop a) <> None -> ad_status a = Fault /\ ad_setpoint a = halt) ->
  (ad_link_alive a = true -> exists t, ad_last_info_at a = Some t) ->
  auto_inv a' /\ stopped a' /\ ad_link_alive a' = ad_link_alive a /\ ad_last_info_at a' = ad_last_info_at a
  /\ ad_isb a' = ad_isb a /\ ad_gnss a' = ad_gnss a.
Proof.
  unfold stop_on, trip_stop, trip. intros E Hl Hh.
  destruct (latch_reason (ad_stop a)) as [r|] eqn:Er; injection E as <- <-.
  - destruct Hl as [H1 H2]; [done|]. split_and!; try done.
    + by split; cbn; rewrite ?H1, ?H2.
    + unfold stopped. cbn. by rewrite Er, H1, H2.
  - split_and!; try done; by apply safe_state_inv.
Qed.
Lemma check_preconditions_ready a :
  check_preconditions a = Ok tt <-> ready a.
Proof.
  unfold check_preconditions, ready. rewrite <-latched_reason.
  destruct (is_latched _), (isb_asserted _), (is_live _); cbn [orb]; try (split; [done|intuition done]).
  destruct (ad_facilities a) as [f|]; [destruct (tf_guidance f)|]; cbn [negb]; try (split; [done|intuition done]).
  all: destruct (ad_link_alive a); cbn [negb]; [|split; [done|intuition done]].
  all: destruct (ad_latest a) as [info|]; [|by split; [done|intros (_ & _ & _ & _ & _ & ? & ? & _)]].
  all: destruct (machine_violation info) as [r|] eqn:E.
  all: try (split; [done|intros (_ & _ & _ & _ & _ & ? & [= <-] & ?); congruence]).
  all: split; [|done]; intros _; split_and!; eauto.
Qed.
Lemma check_preconditions_cases a : (exists e, check_preconditions a = Err e) \/ ready a /\ check_preconditions a = Ok tt.
Proof.
  destruct (check_preconditions a) as [[]|e] eqn:E; [right|left; by eexists].
  by apply check_preconditions_ready in E.
Qed.

(** ** Every call keeps it *)

Ltac same_inv H := destruct H; by split.
Lemma auto_inv_set_status st a :
  auto_inv a -> ready a -> auto_inv (auto_set_status st a).
Proof.
  intros Ha Hr. unfold auto_set_status. case_bool_decide; [|done].
  split; cbn; [done| |apply Ha|apply Ha]. by destruct Hr as [-> _].
Qed.
Lemma auto_inv_arm a : auto_inv a -> auto_inv (arm a).1.
Proof.
  intros Ha. unfold arm. destruct (check_preconditions_cases a) as [[e ->]|[Hr ->]]; [done|].
  by apply auto_inv_set_status.
Qed.
Lemma auto_inv_engage a : auto_inv a -> auto_inv (engage a).1.
Proof.
  intros Ha. unfold engage. destruct (check_preconditions_cases a) as [[e ->]|[Hr ->]]; [done|].
  cbn. apply (auto_inv_set_status ActiveNotLimited a Ha) in Hr. same_inv Hr.
Qed.
Lemma disengage_stops reason a : auto_inv a -> auto_inv (disengage reason a) /\ stopped (disengage reason a).
Proof.
  intros Ha. split.
  - apply safe_state_inv. unfold trip_stop. destruct (trip _ _). apply Ha.
  - unfold disengage, trip_stop. assert (H := trip_latches reason (ad_stop a)). by destruct (trip _ _).
Qed.
Lemma command_accepted cmd a a' :
  command cmd a = (a', Ok tt) ->
  latch_reason (ad_stop a) = None /\ is_active (ad_status a) = true
  /\ match curvature_km_inv cmd with Some c => curvature_within_range c = true | None => True end
  /\ ad_setpoint a' = cmd /\ ad_status a' = ad_status a /\ ad_stop a' = ad_stop a
  /\ (ready a -> ready a') /\ ad_link_alive a' = ad_link_alive a /\ ad_last_info_at a' = ad_last_info_at a.
Proof.
  unfold command. destruct (is_latched _) eqn:El; [done|]. apply latched_reason in El.
  destruct (is_active _) eqn:Ea; [|done]. cbn [negb].
  destruct (match curvature_km_inv cmd with Some c => _ | None => false end) eqn:Ec; [done|].
  do 3 (match goal with |- (if ?b then _ else _) = _ -> _ => destruct b; [done|] end). intros [= <-].
  split_and!; try done; [|by destruct (negb (drive_eqb _ _))..].
  destruct (curvature_km_inv cmd); [|done]. by destruct (curvature_within_range _).
Qed.
Lemma auto_inv_command cmd a : auto_inv a -> auto_inv (command cmd a).1.
Proof.
  intros Ha. destruct (command cmd a) as [a' [[]|e]] eqn:E; cbn.
  - apply command_accepted in E as (Hl & Hs & Hc & E1 & E2 & E3 & Hr & E4 & E5).
    split; rewrite ?E1, ?E2, ?E3, ?E4, ?E5; try apply Ha; try done. intros _. by apply Hr, Ha.
  - unfold command in E. by repeat (case_match; [by injection E as <- _|]).
Qed.
Lemma auto_inv_clear a : auto_inv a -> auto_inv (clear_stop a).1.
Proof.
  intros Ha. unfold clear_stop. destruct (isb_asserted _ || is_live _); [done|]. cbn.
  case_bool_decide as Hs; cbn in *; split; cbn; try apply Ha; try done.
  intros Hac. destruct Ha as [Hr _ _ _]. destruct (Hr Hac) as (_ & ?). by split.
Qed.
(** A stop applied to a state that differs from one of the invariant by less than the latch. *)
Lemma stop_on_inv trigger a0 a a' es :
  auto_inv a0 -> ad_stop a = ad_stop a0 -> ad_status a = ad_status a0 -> ad_setpoint a = ad_setpoint a0 ->
  (ad_link_alive a = true -> exists t, ad_last_info_at a = Some t) ->
  stop_on trigger a = (a', es) ->
  auto_inv a' /\ stopped a' /\ ad_link_alive a' = ad_link_alive a /\ ad_last_info_at a' = ad_last_info_at a
  /\ ad_isb a' = ad_isb a /\ ad_gnss a' = ad_gnss a.
Proof.
  intros Ha E1 E2 E3 Hh E. eapply stop_on_stops; [done| |done]. rewrite E1, E2, E3. apply Ha.
Qed.
Lemma hazards_need_trigger event g :
  auto_trigger event = None -> is_live g = false -> is_live (hazards_observe event g) = false.
Proof.
  unfold auto_trigger. destruct event as [|e| |e| | | | | | | | |]; try done.
  destruct e; try done; destruct g as [[] []]; done.
Qed.
Lemma auto_on_event_spec event a :
  auto_inv a ->
  auto_inv (auto_on_event event a).1
  /\ (auto_trigger event <> None -> stopped (auto_on_event event a).1).
Proof.
  intros Ha. unfold auto_on_event. destruct (auto_trigger event) as [t|] eqn:Et; cbn zeta.
  - destruct (stop_on _ _) as [a' es] eqn:E. apply (stop_on_inv _ a) in E; [|done..|apply Ha].
    split; [apply E|]. intros _. apply E.
  - split; [|done]. destruct Ha as [Hr Hl Hh Hc]. split; try done.
    intros Hac. destruct (Hr Hac) as (H1 & H2 & H3 & H4). split_and!; try apply H4; try done.
    by apply hazards_need_trigger.
Qed.
Lemma on_button_spec state now a :
  auto_inv a ->
  auto_inv (on_button state now a).1
  /\ (state <> ShortcutButtonState.PermitAllImplementsToOperate -> stopped (on_button state now a).1).
Proof.
  intros Ha. unfold on_button. cbn. destruct (bool_decide _) eqn:Eb; cbn.
  - apply bool_decide_eq_true in Eb. split; [|by intros ?]. destruct Ha as [Hr Hl Hh Hc]. split; try done.
    intros Hac. destruct (Hr Hac) as (H1 & H2 & H4). split_and!; try apply H4; try done.
    cbn. by rewrite bool_decide_true.
  - destruct (stop_on _ _) as [a' es] eqn:E. apply (stop_on_inv _ a) in E; [|done..|apply Ha].
    split; [apply E|]. intros _. apply E.
Qed.
Lemma on_facilities_spec f a :
  auto_inv a ->
  auto_inv (on_facilities f a).1
  /\ (tf_guidance f = false -> is_active (ad_status a) = true -> stopped (on_facilities f a).1).
Proof.
  intros Ha. unfold on_facilities. cbn. destruct (negb (tf_guidance f) && is_active (ad_status a)) eqn:Eb.
  - destruct (stop_on _ _) as [a' es] eqn:E. apply (stop_on_inv _ a) in E; [|done..|apply Ha].
    split; [apply E|]. intros _ _. apply E.
  - cbn. split; [|intros Hf Hac; by rewrite Hf, Hac in Eb]. destruct Ha as [Hr Hl Hh Hc]. split; try done.
    cbn. intros Hac. rewrite Hac, andb_true_r in Eb. destruct (Hr Hac) as (H1 & H2 & H3 & H4 & H5 & H6).
    split_and!; try done. cbn. by destruct (tf_guidance f).
Qed.
(** What the machine's report says of itself that must stop the controller. *)
Definition forbids (info : GuidanceMachineInfo) : bool :=
  match machine_violation info with
  | Some _ => true
  | None =>
      match guidance_limit_status info with
      | GuidanceLimitStatus.OperatorLimitedControlled | GuidanceLimitStatus.NonRecoverableFault => true
      | _ => false
      end
  end.
Lemma on_machine_info_spec source info now a :
  auto_inv a ->
  auto_inv (on_machine_info source info now a).1
  /\ (forbids info = true -> is_active (ad_status a) = true -> stopped (on_machine_info source info now a).1).
Proof.
  intros Ha. unfold on_machine_info. cbv zeta. cbn [ad_status set_link_alive set_last_info_at set_latest].
  set (a1 := set_link_alive true _).
  assert (Hh : ad_link_alive a1 = true -> exists t, ad_last_info_at a1 = Some t) by (intros _; by eexists).
  destruct (is_active (ad_status a)) eqn:Eac; cbn [negb].
  2:{ split; [|done]. destruct Ha as [Hr Hl _ Hc]. split; try done.
      intros H. cbn in H. congruence. }
  unfold forbids. destruct (machine_violation info) as [r|] eqn:Ev.
  { destruct (stop_on _ a1) as [a' es] eqn:E. apply (stop_on_inv _ a) in E; [|done..].
    split; [apply E|]. intros _ _. apply E. }
  assert (Ha1 : ready a1).
  { destruct (av_active _ Ha Eac) as (H1 & H2 & H3 & H4 & H5 & H6). split_and!; try done. by exists info. }
  assert (Hi1 : auto_inv a1) by (destruct Ha; by split).
  assert (Hi2 : forall next, auto_inv (set_status next a1)).
  { intros next. split; try done; try apply Hi1. intros []. exact (proj1 Ha1). }
  assert (Hstop : forall t l, let p := (let '(a2, es) := stop_on t a1 in (a2, l ++ es)) in
            auto_inv p.1 /\ stopped p.1).
  { intros t l. destruct (stop_on t a1) as [a' es] eqn:E. apply (stop_on_inv _ a) in E; [|done..].
    split; apply E. }
  destruct (guidance_limit_status info); try (split; [apply Hstop|intros _ _; apply Hstop]);
    cbn [limit_status]; try case_bool_decide; cbn [fst]; by split.
Qed.
(** A frame that must stop the controller. *)
Definition frame_hazard (msg : Message) (a : AutoDrive) : bool :=
  match (if m_pgn msg =? PGN_SHORTCUT_BUTTON then decode_message msg else None) with
  | Some decoded => negb (bool_decide (sb_state decoded = ShortcutButtonState.PermitAllImplementsToOperate))
  | None =>
      is_active (ad_status a)
      && match (if m_pgn msg =? PGN_TRACTOR_FACILITIES_RESPONSE then facilities_decode (m_data msg) else None) with
         | Some facilities => negb (tf_guidance facilities)
         | None =>
             match (if m_pgn msg =? PGN_GUIDANCE_MACHINE_INFO then machine_info_decode (m_data msg) else None) with
             | Some info => forbids info
             | None => false
             end
         end
  end.
Lemma auto_on_frame_spec msg now a :
  auto_inv a ->
  auto_inv (auto_on_frame msg now a).1
  /\ (frame_hazard msg a = true -> stopped (auto_on_frame msg now a).1).
Proof.
  intros Ha. unfold auto_on_frame, frame_hazard.
  destruct (if m_pgn msg =? PGN_SHORTCUT_BUTTON then _ else None) as [d|].
  { destruct (on_button_spec (sb_state d) now a Ha) as [H1 H2]. split; [done|].
    case_bool_decide; [done|]. auto. }
  destruct (if m_pgn msg =? PGN_TRACTOR_FACILITIES_RESPONSE then _ else None) as [f|].
  { destruct (on_facilities_spec f a Ha) as [H1 H2]. split; [done|].
    rewrite andb_true_iff, negb_true_iff. intros [? ?]. auto. }
  destruct (if m_pgn msg =? PGN_GUIDANCE_MACHINE_INFO then _ else None) as [info|].
  { destruct (on_machine_info_spec (m_source msg) info now a Ha) as [H1 H2]. split; [done|].
    rewrite andb_true_iff. intros [? ?]. auto. }
  split; [done|]. by rewrite andb_false_r.
Qed.

(** ** The tick *)

Definition link_fresh (now : Instant.t) (a : AutoDrive) : bool :=
  match ad_last_info_at a with Some t => Instant.millis_since now t <? LINK_TIMEOUT_MS | None => false end.
Definition button_fresh (now : Instant.t) (a : AutoDrive) : bool :=
  match isb_last_seen_at (ad_isb a) with
  | Some seen => Instant.millis_since now seen <? ISB_TIMEOUT_MS
  | None => true
  end.
(** The setpoint is taken to be current: refreshed since the last tick, or within the window. *)
Definition setpoint_fresh (now : Instant.t) (a : AutoDrive) : bool :=
  negb (0 <? ad_stale_ms a) || negb (ad_command_seq a =? ad_seen_seq a)
  || match ad_seq_changed_at a with
     | Some t => Instant.millis_since now t <? ad_stale_ms a
     | None => true
     end.
Definition tick_hazard (now : Instant.t) (a : AutoDrive) : bool :=
  (ad_link_alive a && negb (link_fresh now a))
  || isb_asserted (ad_isb a) || negb (button_fresh now a)
  || (is_active (ad_status a) && negb (setpoint_fresh now a)).
(** What a stage of the tick leaves alone. *)
Record same_inputs (a a' : AutoDrive) : Prop := {
  si_info : ad_last_info_at a' = ad_last_info_at a;
  si_seen : isb_last_seen_at (ad_isb a') = isb_last_seen_at (ad_isb a);
  si_stale : ad_stale_ms a' = ad_stale_ms a;
  si_command : ad_command_seq a' = ad_command_seq a;
  si_tx : ad_last_tx_at a' = ad_last_tx_at a;
  si_required : ad_last_required_at a' = ad_last_required_at a;
  si_min : ad_min_tx_ms a' = ad_min_tx_ms a;
  si_max : ad_max_tx_ms a' = ad_max_tx_ms a
}.
Lemma stop_on_same trigger a : same_inputs a (stop_on trigger a).1.
Proof. unfold stop_on, trip_stop. destruct (trip _ _) as [l []]; by split. Qed.
Lemma same_inputs_trans a a' a'' : same_inputs a a' -> same_inputs a' a'' -> same_inputs a a''.
Proof. intros [] []. split; congruence. Qed.
Lemma tick_link_spec now a a' es :
  tick_link now a = (a', es) -> auto_inv a ->
  auto_inv a' /\ ad_link_alive a' = link_fresh now a /\ same_inputs a a' /\ ad_isb a' = ad_isb a
  /\ ad_seen_seq a' = ad_seen_seq a /\ ad_seq_changed_at a' = ad_seq_changed_at a
  /\ (stopped a -> stopped a') /\ (ad_link_alive a && negb (link_fresh now a) = true -> stopped a')
  /\ (ad_status a' = ad_status a \/ stopped a').
Proof.
  unfold tick_link. cbv zeta. change (match ad_last_info_at a with Some t => _ | None => false end)
    with (link_fresh now a).
  intros E Ha. destruct (link_fresh now a) eqn:Ef; rewrite ?andb_false_r, ?andb_true_r in *; cbn [negb] in *.
  - injection E as <- _. unfold link_fresh in Ef. destruct (ad_last_info_at a) as [t|] eqn:Et; [|done].
    split_and!; try done; [|by left]. destruct Ha as [Hr Hl _ Hc]. split; try done; [|by exists t].
    intros Hac. destruct (Hr Hac) as (H1 & H2 & H3 & _ & H4 & H5). by split_and!.
  - destruct (ad_link_alive a) eqn:Ell; injection E as <- _.
    + set (a1 := (trip_stop _ a).1). assert (Hs : stopped (set_link_alive false (enter_safe_state a1))).
      { unfold a1, trip_stop. assert (H := trip_latches SafeStopTrigger.GuidanceLinkTimeout (ad_stop a)).
        destruct (trip _ _). split_and!; done. }
      assert (Hsame : same_inputs a a1) by (unfold a1, trip_stop; destruct (trip _ _); by split).
      split_and!; try done; try (by right); try (unfold a1, trip_stop; by destruct (trip _ _)).
    + split_and!; try done; [|by left]. destruct Ha as [Hr Hl _ Hc]. split; try done.
      intros Hac. destruct (Hr Hac) as (_ & _ & _ & H & _). congruence.
Qed.
Lemma tick_button_spec now a a' es :
  tick_button now a = (a', es) -> auto_inv a ->
  auto_inv a' /\ ad_link_alive a' = ad_link_alive a /\ same_inputs a a'
  /\ ad_seen_seq a' = ad_seen_seq a /\ ad_seq_changed_at a' = ad_seq_changed_at a
  /\ (stopped a -> stopped a')
  /\ (isb_asserted (ad_isb a) || negb (button_fresh now a) = true -> stopped a')
  /\ (isb_asserted (ad_isb a') = false -> button_fresh now a' = true)
  /\ (ad_status a' = ad_status a \/ stopped a').
Proof.
  unfold tick_button. cbv zeta. set (a1 := set_isb _ a). intros E Ha.
  assert (Hf : isb_asserted (ad_isb a1) = isb_asserted (ad_isb a) || negb (button_fresh now a)
               /\ isb_last_seen_at (ad_isb a1) = isb_last_seen_at (ad_isb a)).
  { unfold button_fresh. cbn. unfold isb_tick.
    destruct (isb_last_seen_at (ad_isb a)) eqn:El; [rewrite Z.leb_antisym|by rewrite orb_false_r].
    destruct (_ <? _); cbn; [by rewrite orb_false_r|by rewrite orb_true_r]. }
  destruct Hf as [Hf Hseen]. assert (Hs1 : same_inputs a a1) by by split.
  destruct (isb_asserted (ad_isb a1)) eqn:Eb.
  - assert (Hs := stop_on_same SafeStopTrigger.IsbStop a1). assert (E' := E).
    apply (stop_on_inv _ a) in E as (H1 & H2 & H3 & H4 & H5 & H6); [|done..|apply Ha].
    rewrite E' in Hs. split_and!; try done; [by eapply same_inputs_trans| | | |by right].
    + unfold stop_on, trip_stop in E'. destruct (trip _ _) as [l []]; by injection E' as <- _.
    + unfold stop_on, trip_stop in E'. destruct (trip _ _) as [l []]; by injection E' as <- _.
    + rewrite H5, Eb. done.
  - injection E as <- _. rewrite <-Hf. split_and!; try done; [|intros _|by left].
    + destruct Ha as [Hr Hl Hh Hc]. split; try done. intros Hac.
      destruct (Hr Hac) as (H1 & _ & H3 & H4 & H5 & H6). by split_and!.
    + symmetry in Hf. apply orb_false_iff in Hf as [_ Hf]. apply negb_false_iff in Hf.
      unfold button_fresh in *. by rewrite Hseen.
Qed.
Lemma tick_application_spec now a a' es :
  tick_application now a = (a', es) -> auto_inv a ->
  auto_inv a' /\ ad_link_alive a' = ad_link_alive a /\ same_inputs a a' /\ ad_isb a' = ad_isb a
  /\ (stopped a -> stopped a')
  /\ (is_active (ad_status a) && negb (setpoint_fresh now a) = true -> stopped a')
  /\ (is_active (ad_status a') = true -> setpoint_fresh now a' = true /\ ad_seen_seq a' = ad_command_seq a')
  /\ (ad_status a' = ad_status a \/ stopped a').
Proof.
  unfold tick_application. cbv zeta. set (a1 := if negb _ then _ else a). intros E Ha.
  assert (Hi : auto_inv a1) by (unfold a1; destruct (negb _); [destruct Ha; by split|done]).
  assert (Hs1 : same_inputs a a1) by (unfold a1; destruct (negb _); by split).
  assert (Hsame : ad_status a1 = ad_status a /\ ad_link_alive a1 = ad_link_alive a /\ ad_isb a1 = ad_isb a
                  /\ ad_stop a1 = ad_stop a /\ ad_setpoint a1 = ad_setpoint a
                  /\ ad_seen_seq a1 = ad_command_seq a1).
  { unfold a1. destruct (Z.eqb_spec (ad_command_seq a) (ad_seen_seq a)); by cbn. }
  destruct Hsame as (Est & Elink & Eisb & Estop & Eset & Eseen).
  assert (Hfresh : 0 < ad_stale_ms a ->
            match ad_seq_changed_at a1 with Some t => ad_stale_ms a <=? Instant.millis_since now t | None => false end
            = negb (setpoint_fresh now a)).
  { intros Hst. unfold setpoint_fresh, a1. rewrite (proj2 (Z.ltb_lt _ _) Hst).
    destruct (_ =? _); cbn; [by destruct (ad_seq_changed_at a); [apply Z.leb_antisym|]|].
    unfold Instant.millis_since, sat_sub. rewrite Z.sub_diag.
    change (if _ <? Z.max 0 0 / 1000 then _ else _) with 0. by apply Z.leb_gt. }
  destruct ((0 <? ad_stale_ms a1) && is_active (ad_status a1) && _) eqn:Eb.
  - apply andb_true_iff in Eb as [Eb _]. assert (Hs := stop_on_same SafeStopTrigger.CommandStale a1).
    assert (E' := E). rewrite E in Hs.
    apply (stop_on_inv _ a1) in E as (H1 & H2 & H3 & H4 & H5 & H6); [|done..|apply Hi].
    split_and!; try done; [congruence|by eapply same_inputs_trans|congruence| |by right].
    destruct H2 as (_ & -> & _). done.
  - injection E as <- _. rewrite (si_stale _ _ Hs1), Est in Eb.
    assert (Hst : is_active (ad_status a) = true -> setpoint_fresh now a = true).
    { intros Hac. destruct (setpoint_fresh now a) eqn:Ef; [done|]. rewrite Hac, andb_true_r in Eb.
      destruct (Z.ltb_spec 0 (ad_stale_ms a)) as [Hpos|Hneg].
      - rewrite Hfresh in Eb by done. done.
      - unfold setpoint_fresh in Ef. by rewrite (proj2 (Z.ltb_ge _ _) Hneg) in Ef. }
    split_and!; try done.
    + intros (H1 & H2 & H3). unfold stopped. by rewrite Estop, Est, Eset.
    + rewrite andb_true_iff, negb_true_iff. intros [Hac Hf]. by rewrite Hst in Hf.
    + intros Hac. rewrite Est in Hac. split; [|done]. assert (Hf := Hst Hac).
      unfold setpoint_fresh. rewrite Eseen, Z.eqb_refl, (si_stale _ _ Hs1). cbn [negb].
      rewrite orb_false_r. destruct (Z.ltb_spec 0 (ad_stale_ms a)) as [Hpos|]; [|done].
      specialize (Hfresh Hpos). rewrite Hf in Hfresh. destruct (ad_seq_changed_at a1); [|done].
      cbn in *. apply Z.leb_gt in Hfresh. by apply Z.ltb_lt.
    + by left.
Qed.
(** A tick: what holds after it, and the frames it sends. *)
Record ticked (now : Instant.t) (claimed : bool) (a a' : AutoDrive) (frames : list AutoFrame) : Prop := {
  tk_inv : auto_inv a';
  tk_link : ad_link_alive a' = true -> link_fresh now a' = true;
  tk_button : isb_asserted (ad_isb a') = false -> button_fresh now a' = true;
  tk_fresh : is_active (ad_status a') = true -> setpoint_fresh now a' = true /\ ad_seen_seq a' = ad_command_seq a';
  tk_hazard : tick_hazard now a = true -> stopped a';
  tk_stopped : stopped a -> stopped a';
  tk_status : ad_status a' = ad_status a \/ stopped a';
  tk_min : ad_min_tx_ms a' = ad_min_tx_ms a;
  tk_max : ad_max_tx_ms a' = ad_max_tx_ms a;
  tk_commands : exists b f,
    same_inputs a b /\ ad_status b = ad_status a' /\ ad_setpoint b = ad_setpoint a'
    /\ frames = f ++ (if claimed && command_due now b then command_frames a' else [])
    /\ Forall (fun x => x.1 = PGN_REQUIRED_TRACTOR_FACILITIES) f
    /\ ad_last_tx_at a' = (if claimed && command_due now b then Some now else ad_last_tx_at a)
}.
(** The three stages that look for a fault. *)
Lemma stages_spec now a a1 e1 a2 e2 a3 e3 :
  auto_inv a -> tick_link now a = (a1, e1) -> tick_button now a1 = (a2, e2) -> tick_application now a2 = (a3, e3) ->
  auto_inv a3 /\ same_inputs a a3
  /\ (ad_link_alive a3 = true -> link_fresh now a3 = true)
  /\ (isb_asserted (ad_isb a3) = false -> button_fresh now a3 = true)
  /\ (is_active (ad_status a3) = true -> setpoint_fresh now a3 = true /\ ad_seen_seq a3 = ad_command_seq a3)
  /\ (tick_hazard now a = true -> stopped a3) /\ (stopped a -> stopped a3)
  /\ (ad_status a3 = ad_status a \/ stopped a3).
Proof.
  intros Ha E1 E2 E3.
  destruct (tick_link_spec _ _ _ _ E1 Ha) as (I1 & L1 & S1 & B1 & Q1 & T1 & K1 & H1 & R1).
  destruct (tick_button_spec _ _ _ _ E2 I1) as (I2 & L2 & S2 & Q2 & T2 & K2 & H2 & F2 & R2).
  destruct (tick_application_spec _ _ _ _ E3 I2) as (I3 & L3 & S3 & B3 & K3 & H3 & F3 & R3).
  assert (S12 := same_inputs_trans _ _ _ S1 S2). assert (S := same_inputs_trans _ _ _ S12 S3).
  split_and!; try done.
  - intros Hl. unfold link_fresh in *. rewrite (si_info _ _ S). congruence.
  - intros Hb. rewrite B3 in Hb. unfold button_fresh in *. rewrite B3. by apply F2.
  - unfold tick_hazard. rewrite !orb_true_iff. intros [[[H|H]|H]|H].
    + by apply K3, K2, H1.
    + apply K3, H2. by rewrite B1, H.
    + apply K3, H2. unfold button_fresh in *. rewrite B1, H. apply orb_true_r.
    + destruct R1 as [R1|R1]; [|by apply K3, K2]. destruct R2 as [R2|R2]; [|by apply K3].
      apply H3. rewrite R2, R1. unfold setpoint_fresh in *.
      by rewrite (si_stale _ _ S12), (si_command _ _ S12), Q2, T2, Q1, T1.
  - auto.
  - destruct R3 as [R3|R3]; [|by right]. destruct R2 as [R2|R2]; [|right; by apply K3].
    destruct R1 as [R1|R1]; [left; congruence|right; by apply K3, K2].
Qed.
Lemma auto_on_tick_spec now claimed a a' es frames at_ :
  auto_inv a -> auto_on_tick now claimed a = (a', es, frames, at_) -> ticked now claimed a a' frames.
Proof.
  intros Ha. unfold auto_on_tick.
  destruct (tick_link now a) as [a1 e1] eqn:E1. destruct (tick_button now a1) as [a2 e2] eqn:E2.
  destruct (tick_application now a2) as [a3 e3] eqn:E3. cbv zeta.
  destruct (stages_spec _ _ _ _ _ _ _ _ Ha E1 E2 E3) as (I & S & L & B & F & H & K & R).
  destruct claimed; cbn [negb].
  2:{ intros [= <- _ <- _]. split; try done; try apply S. exists a3, []. split_and!; try done. apply S. }
  unfold send_required, send_command.
  set (req := match ad_last_required_at a3 with Some t => _ | None => true end).
  set (b := if req then set_last_required_at (Some now) a3 else a3).
  set (f := if req then [(PGN_REQUIRED_TRACTOR_FACILITIES, encode_required required_facilities)] else []).
  replace (if req then _ else (a3, [])) with (b, f) by (unfold b, f; by destruct req).
  assert (Hb : command_due now b = command_due now a3 /\ command_frames b = command_frames a3
               /\ ad_last_tx_at b = ad_last_tx_at a3) by (unfold b; by destruct req).
  destruct Hb as (-> & -> & Etx).
  assert (Hc : exists c, ((if command_due now a3
                          then (set_dirty false (set_last_tx_at (Some now) b), command_frames a3) else (b, []))
               = (c, if command_due now a3 then command_frames a3 else []))
             /\ ad_last_tx_at c = (if command_due now a3 then Some now else ad_last_tx_at a)
             /\ (forall P : AutoDrive -> Prop,
                   (forall x, P x -> P (set_last_required_at (Some now) x)) ->
                   (forall x, P x -> P (set_dirty false (set_last_tx_at (Some now) x))) -> P a3 -> P c)).
  { assert (Htx : ad_last_tx_at b = ad_last_tx_at a) by (rewrite Etx; apply S).
    destruct (command_due now a3); eexists; (split_and!; [done|done|]); intros P P1 P2 P3.
    - apply P2. unfold b. destruct req; auto.
    - unfold b. destruct req; auto. }
  destruct Hc as (c & -> & Ec & Hc). intros [= <- _ <- _].
  assert (Hsame : ad_status a3 = ad_status c /\ ad_setpoint a3 = ad_setpoint c).
  { apply Hc; [| |done]; intros x [? ?]; by split. }
  split.
  - apply Hc; [| |done]; intros x Hx; same_inv Hx.
  - apply Hc; [done..|]. exact L.
  - apply Hc; [done..|]. exact B.
  - apply Hc; [done..|]. exact F.
  - apply Hc; [done..|]. exact H.
  - apply Hc; [done..|]. exact K.
  - apply Hc; [done..|]. exact R.
  - apply Hc; [done..|]. apply S.
  - apply Hc; [done..|]. apply S.
  - exists a3, f. destruct Hsame as [E4 E5]. split_and!; try done.
    + unfold command_frames, system_command. by rewrite E4, E5.
    + unfold f. destruct req; by repeat constructor.
Qed.

(** ** Runs *)

(** A call that must stop the controller. *)
Definition hazard (k : AutoCall) (a : AutoDrive) : bool :=
  match k with
  | DDisengage _ => true
  | DFrame msg _ => frame_hazard msg a
  | DEvent event => match auto_trigger event with Some _ => true | None => false end
  | DTick now _ => tick_hazard now a
  | _ => false
  end.
Lemma auto_call_inv k a : auto_inv a -> auto_inv (auto_call k a).1.
Proof.
  intros Ha. destruct k as [| |r|cmd| |msg now|event|now claimed]; cbn [auto_call fst].
  - by apply auto_inv_arm.
  - by apply auto_inv_engage.
  - by apply disengage_stops.
  - by apply auto_inv_command.
  - by apply auto_inv_clear.
  - by apply auto_on_frame_spec.
  - by apply auto_on_event_spec.
  - destruct (auto_on_tick now claimed a) as [[[a' es] fs] at_] eqn:E.
    by apply (auto_on_tick_spec _ _ _ _ _ _ _ Ha) in E as [].
Qed.
Lemma auto_run_inv ks a : auto_inv a -> auto_inv (auto_run ks a).1.
Proof.
  revert a. induction ks as [|k ks IH]; intros a Ha; [done|]. cbn. apply (auto_call_inv k) in Ha.
  destruct (auto_call k a) as [a1 f]. specialize (IH a1 Ha). by destruct (auto_run ks a1).
Qed.
Lemma auto_run_app ks ks' a :
  auto_run (ks ++ ks') a
  = ((auto_run ks' (auto_run ks a).1).1, (auto_run ks a).2 ++ (auto_run ks' (auto_run ks a).1).2).
Proof.
  revert a. induction ks as [|k ks IH]; intros a; cbn; [by destruct (auto_run ks' a)|].
  destruct (auto_call k a) as [a1 f]. rewrite IH. destruct (auto_run ks a1) as [a2 fs]. cbn.
  by rewrite app_assoc.
Qed.
Lemma hazard_stops k a : auto_inv a -> hazard k a = true -> stopped (auto_call k a).1.
Proof.
  intros Ha. destruct k as [| |r|cmd| |msg now|event|now claimed]; cbn [auto_call hazard fst]; try done.
  - intros _. by apply disengage_stops.
  - by apply auto_on_frame_spec.
  - intros H. apply auto_on_event_spec; [done|]. by destruct (auto_trigger event).
  - destruct (auto_on_tick now claimed a) as [[[a' es] fs] at_] eqn:E.
    by apply (auto_on_tick_spec _ _ _ _ _ _ _ Ha) in E as [].
Qed.
Lemma stopped_inactive a : stopped a -> is_active (ad_status a) = false.
Proof. by intros (_ & -> & _). Qed.
Lemma stopped_latched a : stopped a -> is_latched (ad_stop a) = true.
Proof. intros (H & _). unfold is_latched. by destruct (latch_reason _). Qed.
Lemma stop_on_stopped trigger a : stopped a -> stopped (stop_on trigger a).1.
Proof.
  intros (H1 & H2 & H3). unfold stop_on, trip_stop, trip. destruct (latch_reason (ad_stop a)) eqn:E; [|done].
  split_and!; cbn; congruence.
Qed.
(** Only [clear_stop] ends a stop. *)
Lemma stopped_stays k a : k <> DClearStop -> auto_inv a -> stopped a -> stopped (auto_call k a).1.
Proof.
  intros Hk Ha Hs. assert (Hl := stopped_latched _ Hs). assert (Hn := stopped_inactive _ Hs).
  destruct k as [| |r|cmd| |msg now|event|now claimed]; try done; cbn [auto_call fst].
  - unfold arm, check_preconditions. by rewrite Hl.
  - unfold engage, check_preconditions. by rewrite Hl.
  - by apply disengage_stops.
  - unfold command. by rewrite Hl.
  - unfold auto_on_frame.
    destruct (if m_pgn msg =? PGN_SHORTCUT_BUTTON then _ else None) as [d|].
    { unfold on_button. cbv zeta. case_match; [by apply stop_on_stopped|done]. }
    destruct (if m_pgn msg =? PGN_TRACTOR_FACILITIES_RESPONSE then _ else None) as [f|].
    { unfold on_facilities. cbv zeta. case_match; [by apply stop_on_stopped|done]. }
    destruct (if m_pgn msg =? PGN_GUIDANCE_MACHINE_INFO then _ else None) as [info|]; [|done].
    unfold on_machine_info. cbv zeta. cbn [ad_status set_link_alive set_last_info_at set_latest]. by rewrite Hn.
  - unfold auto_on_event. cbv zeta. case_match; [by apply stop_on_stopped|done].
  - destruct (auto_on_tick now claimed a) as [[[a' es] fs] at_] eqn:E.
    apply (auto_on_tick_spec _ _ _ _ _ _ _ Ha) in E. by apply (tk_stopped _ _ _ _ _ E).
Qed.
(** Only [engage] starts the steering. *)
Lemma inactive_stays k a :
  k <> DEngage -> auto_inv a -> is_active (ad_status a) = false -> is_active (ad_status (auto_call k a).1) = false.
Proof.
  intros Hk Ha Hn. destruct k as [| |r|cmd| |msg now|event|now claimed]; try done; cbn [auto_call fst].
  - unfold arm. case_match; [|done]. unfold auto_set_status. by case_bool_decide.
  - unfold command. rewrite Hn. by case_match.
  - unfold clear_stop. case_match; [done|]. cbn. by case_bool_decide.
  - assert (Hstop : forall t x, ad_status x = ad_status a -> is_active (ad_status (stop_on t x).1) = false).
    { intros t x Ex. unfold stop_on, trip_stop. destruct (trip _ _) as [l []]; cbn; [done|]. by rewrite Ex. }
    unfold auto_on_frame.
    destruct (if m_pgn msg =? PGN_SHORTCUT_BUTTON then _ else None) as [d|].
    { unfold on_button. cbv zeta. case_match; [by apply Hstop|done]. }
    destruct (if m_pgn msg =? PGN_TRACTOR_FACILITIES_RESPONSE then _ else None) as [f|].
    { unfold on_facilities. cbv zeta. case_match; [by apply Hstop|done]. }
    destruct (if m_pgn msg =? PGN_GUIDANCE_MACHINE_INFO then _ else None) as [info|]; [|done].
    unfold on_machine_info. cbv zeta. cbn [ad_status set_link_alive set_last_info_at set_latest]. by rewrite Hn.
  - unfold auto_on_event. cbv zeta. case_match; [|done]. unfold stop_on, trip_stop. by destruct (trip _ _) as [l []].
  - destruct (auto_on_tick now claimed a) as [[[a' es] fs] at_] eqn:E.
    apply (auto_on_tick_spec _ _ _ _ _ _ _ Ha) in E. cbn.
    destruct (tk_status _ _ _ _ _ E) as [->|H]; [done|by apply stopped_inactive].
Qed.

(** ** What it sends *)

(** The status bits of a guidance command say that it intends to steer. *)
Definition steers (data : list Z) : bool :=
  match data with _ :: _ :: d2 :: _ => Z.land d2 0x03 =? 1 | _ => false end.
Lemma steers_system_command a : steers (guidance_cmd_encode (system_command a)) = is_active (ad_status a).
Proof. unfold system_command. cbn. by destruct (is_active _). Qed.
(** The command a stop falls back to: straight, not intended to steer, standing still. *)
Definition halt_frames : list AutoFrame :=
  [(PGN_GUIDANCE_SYSTEM_CMD, [0x80; 0x7D; 0xFC; 0xFF; 0xFF; 0xFF; 0xFF; 0xFF]);
   (PGN_MACHINE_SELECTED_SPEED_CMD, [0; 0; 0xFD; 0xFF; 0xFF; 0xFF; 0xFF; 0xFF])].
Lemma stopped_frames a : stopped a -> command_frames a = halt_frames.
Proof.
  intros (_ & Hs & Hp). unfold command_frames, system_command. rewrite Hp, Hs. by vm_compute.
Qed.
Definition halted (f : AutoFrame) : Prop := f.1 = PGN_REQUIRED_TRACTOR_FACILITIES \/ f ∈ halt_frames.
Lemma auto_call_frames k a :
  auto_inv a ->
  exists b f, (auto_call k a).2 = f ++ (if b : bool then command_frames (auto_call k a).1 else [])
    /\ Forall (fun x => x.1 = PGN_REQUIRED_TRACTOR_FACILITIES) f.
Proof.
  intros Ha. destruct k as [| |r|cmd| |msg now|event|now claimed]; try (by exists false, []).
  cbn. destruct (auto_on_tick now claimed a) as [[[a' es] fs] at_] eqn:E.
  apply (auto_on_tick_spec _ _ _ _ _ _ _ Ha) in E as []. destruct tk_commands0 as (b & f & _ & _ & _ & -> & Hf & _).
  by exists (claimed && command_due now b), f.
Qed.
Lemma stopped_call_halted k a :
  auto_inv a -> stopped (auto_call k a).1 -> Forall halted (auto_call k a).2.
Proof.
  intros Ha Hs. destruct (auto_call_frames k a Ha) as (b & f & -> & Hf). apply Forall_app. split.
  - eapply Forall_impl; [exact Hf|]. intros x Hx. by left.
  - destruct b; [|done]. rewrite (stopped_frames _ Hs). repeat constructor; right; unfold halt_frames; set_solver.
Qed.
Lemma stopped_run ks a :
  DClearStop ∉ ks -> auto_inv a -> stopped a ->
  stopped (auto_run ks a).1 /\ Forall halted (auto_run ks a).2.
Proof.
  revert a. induction ks as [|k ks IH]; intros a Hn Ha Hs; [by split|]. apply not_elem_of_cons in Hn as [Hk Hn].
  assert (Hs1 := stopped_stays k a (not_eq_sym Hk) Ha Hs). assert (Hf := stopped_call_halted k a Ha Hs1).
  assert (Ha1 := auto_call_inv k a Ha). cbn. destruct (auto_call k a) as [a1 f].
  destruct (IH a1 Hn Ha1 Hs1) as [H1 H2]. destruct (auto_run ks a1). split; [done|]. cbn. by apply Forall_app.
Qed.
(** A steering frame in a call's output is the command of the state the call leaves. *)
Lemma guidance_frame k a data :
  auto_inv a -> (PGN_GUIDANCE_SYSTEM_CMD, data) ∈ (auto_call k a).2 ->
  data = guidance_cmd_encode (system_command (auto_call k a).1).
Proof.
  intros Ha. destruct (auto_call_frames k a Ha) as (b & f & -> & Hf). rewrite elem_of_app. intros [H|H].
  - by apply (proj1 (Forall_forall _ _) Hf) in H.
  - destruct b; [|by apply elem_of_nil in H]. unfold command_frames in H. apply elem_of_cons in H as [H|H].
    + by injection H as ->.
    + destruct (speed_mps _); [|by apply elem_of_nil in H]. apply list_elem_of_singleton in H. by injection H.
Qed.
Lemma inactive_run ks a :
  DEngage ∉ ks -> auto_inv a -> is_active (ad_status a) = false ->
  is_active (ad_status (auto_run ks a).1) = false
  /\ forall data, (PGN_GUIDANCE_SYSTEM_CMD, data) ∈ (auto_run ks a).2 -> steers data = false.
Proof.
  revert a. induction ks as [|k ks IH]; intros a Hn Ha Hs.
  { split; [done|]. intros data H. by apply elem_of_nil in H. }
  apply not_elem_of_cons in Hn as [Hk Hn].
  assert (Hs1 := inactive_stays k a (not_eq_sym Hk) Ha Hs). assert (Hf := guidance_frame k a).
  assert (Ha1 := auto_call_inv k a Ha). cbn. destruct (auto_call k a) as [a1 f]. cbn [fst snd] in *.
  destruct (IH a1 Hn Ha1 Hs1) as [H1 H2]. destruct (auto_run ks a1). split; [done|]. cbn. intros data.
  rewrite elem_of_app. intros [H|H]; [|by apply H2]. rewrite (Hf _ Ha H), steers_system_command. done.
Qed.

(** A run that steers: a report, an engagement and a command. *)
Definition machine_ok : Message :=
  mkMessage PGN_GUIDANCE_MACHINE_INFO [0x64; 0x7D; 0x3C; 0xFF; 0xC0; 0xFF; 0xFF; 0xFF] 0x13 0xFF
    Priority.Default 0.
Definition driving : list AutoCall :=
  [DFrame machine_ok 1000000; DEngage; DCommand (steer (f64_of_Z 20)); DTick 1100000 true].
Definition fresh_auto : AutoDrive := auto_config 300 100 2000 DEFAULT_MIN_SPEED_MPS.

(** ** A stop stays *)

Lemma clear_stop_spec a :
  match (clear_stop a).2 with
  | Ok _ => isb_asserted (ad_isb a) = false /\ is_live (ad_gnss a) = false
            /\ is_latched (ad_stop (clear_stop a).1) = false
            /\ (stopped a -> ad_status (clear_stop a).1 = NotReady)
  | Err e => (isb_asserted (ad_isb a) = true \/ is_live (ad_gnss a) = true) /\ (clear_stop a).1 = a
             /\ e = AutodriveRefusal.StopConditionLive
  end.
Proof.
  unfold clear_stop. destruct (isb_asserted _) eqn:Ei; [by split; [left|]|].
  destruct (is_live _) eqn:El; [by split; [right|]|]. cbn. split_and!; try done.
  - by case_bool_decide.
  - intros (_ & Hs & _). rewrite bool_decide_true by done. done.
Qed.
Lemma engage_spec a :
  match (engage a).2 with
  | Ok _ => ready a /\ is_active (ad_status (engage a).1) = true
  | Err _ => ~ ready a /\ (engage a).1 = a
  end.
Proof.
  unfold engage. assert (H := check_preconditions_ready a). destruct (check_preconditions a) as [[]|e]; cbn.
  - split; [by apply H|]. unfold auto_set_status. case_bool_decide as Hs; cbn; [done|].
    destruct (decide (ad_status a = ActiveNotLimited)) as [->|]; [done|by destruct Hs].
  - split; [|done]. intros Hr. by apply H in Hr.
Qed.

(** The bus goes off while driving; cleared, it takes a new engagement to steer. *)
Definition bus_off : Event := EvBus (ConfinementChanged 0 FaultConfinementAction.FailSafe).

(** ** How often it speaks *)

Definition commands (frames : list AutoFrame) : bool := existsb (fun f => f.1 =? PGN_GUIDANCE_SYSTEM_CMD) frames.
(** The instants of the ticks that sent a command. *)
Fixpoint command_times (ks : list AutoCall) (a : AutoDrive) : list Instant.t :=
  match ks with
  | [] => []
  | k :: ks =>
      let '(a, frames) := auto_call k a in
      match k with DTick now _ => if commands frames then [now] else [] | _ => [] end ++ command_times ks a
  end.
Lemma not_tick_times k a :
  match k with DTick _ _ => False | _ => True end ->
  (auto_call k a).2 = [] /\ ad_last_tx_at (auto_call k a).1 = ad_last_tx_at a
  /\ ad_min_tx_ms (auto_call k a).1 = ad_min_tx_ms a /\ ad_max_tx_ms (auto_call k a).1 = ad_max_tx_ms a.
Proof.
  set (same x := ad_last_tx_at x = ad_last_tx_at a /\ ad_min_tx_ms x = ad_min_tx_ms a /\ ad_max_tx_ms x = ad_max_tx_ms a).
  assert (Hstop : forall t x, same x -> same (stop_on t x).1).
  { intros t x (? & ? & ?). destruct (stop_on_same t x). split_and!; congruence. }
  destruct k as [| |r|cmd| |msg now|event|now claimed]; try done; intros _; (split; [done|]); cbn [auto_call fst].
  - unfold arm. case_match; [|done]. unfold auto_set_status. by case_bool_decide.
  - unfold engage. case_match; [|done]. unfold auto_set_status. by case_bool_decide.
  - unfold disengage, trip_stop. by destruct (trip _ _).
  - unfold command. repeat (case_match; try done).
  - unfold clear_stop. case_match; [done|]. cbn. by case_bool_decide.
  - unfold auto_on_frame.
    destruct (if m_pgn msg =? PGN_SHORTCUT_BUTTON then _ else None) as [d|].
    { unfold on_button. cbv zeta. case_match; [by apply Hstop|done]. }
    destruct (if m_pgn msg =? PGN_TRACTOR_FACILITIES_RESPONSE then _ else None) as [f|].
    { unfold on_facilities. cbv zeta. case_match; [by apply Hstop|done]. }
    destruct (if m_pgn msg =? PGN_GUIDANCE_MACHINE_INFO then _ else None) as [info|]; [|done].
    unfold on_machine_info. cbv zeta. cbn [ad_status set_link_alive set_last_info_at set_latest].
    set (a1 := set_link_alive true _). destruct (negb _); [done|].
    assert (H : forall t l, same (let '(x, es) := stop_on t a1 in (x, l ++ es)).1).
    { intros t l. assert (H := Hstop t a1 ltac:(done)). by destruct (stop_on t a1). }
    destruct (machine_violation info); [apply H|].
    destruct (guidance_limit_status info); try apply H; cbn; try case_bool_decide; done.
  - unfold auto_on_event. cbv zeta. case_match; [by apply Hstop|done].
Qed.
Lemma commands_app f g : commands (f ++ g) = commands f || commands g.
Proof. apply existsb_app. Qed.
Lemma commands_required f :
  Forall (fun x : AutoFrame => x.1 = PGN_REQUIRED_TRACTOR_FACILITIES) f -> commands f = false.
Proof. induction 1 as [|x f Hx _ IH]; [done|]. unfold commands in *. cbn. by rewrite Hx, IH. Qed.
(** A tick: whether it commands, and the cadence it keeps. *)
Lemma tick_cadence now claimed a :
  auto_inv a -> ad_min_tx_ms a <= ad_max_tx_ms a ->
  let p := auto_call (DTick now claimed) a in
  ad_min_tx_ms p.1 = ad_min_tx_ms a /\ ad_max_tx_ms p.1 = ad_max_tx_ms a
  /\ ad_last_tx_at p.1 = (if commands p.2 then Some now else ad_last_tx_at a)
  /\ (commands p.2 = true -> forall last, ad_last_tx_at a = Some last ->
        ad_min_tx_ms a <= Instant.millis_since now last)
  /\ (commands p.2 = false -> claimed = true -> exists last, ad_last_tx_at a = Some last
        /\ Instant.millis_since now last
           < (if is_active (ad_status p.1) then ad_min_tx_ms a else ad_max_tx_ms a)).
Proof.
  intros Ha Hmm. cbn. destruct (auto_on_tick now claimed a) as [[[a' es] fs] at_] eqn:E.
  apply (auto_on_tick_spec _ _ _ _ _ _ _ Ha) in E. cbn [fst snd].
  destruct (tk_commands _ _ _ _ _ E) as (b & f & S & Est & _ & -> & Hf & Htx).
  assert (Hc : commands (f ++ (if claimed && command_due now b then command_frames a' else []))
               = claimed && command_due now b).
  { rewrite commands_app, (commands_required _ Hf). by destruct (claimed && _). }
  rewrite Hc, Htx. split_and!; try done; try apply E.
  - intros Hd last Hlast. apply andb_true_iff in Hd as [_ Hd]. unfold command_due in Hd.
    rewrite (si_tx _ _ S), Hlast, (si_min _ _ S), (si_max _ _ S) in Hd. destruct (is_active _); lia.
  - intros Hd ->. cbn in Hd. unfold command_due in Hd. rewrite (si_tx _ _ S), (si_min _ _ S), (si_max _ _ S), Est in Hd.
    destruct (ad_last_tx_at a) as [last|]; [|done]. exists last. split; [done|].
    destruct (is_active _); lia.
Qed.
(** Each instant at least [gap] milliseconds after the one before. *)
Fixpoint spaced (gap : Z) (last : option Instant.t) (ts : list Instant.t) : Prop :=
  match ts with
  | [] => True
  | t :: ts =>
      match last with Some l => gap <= Instant.millis_since t l | None => True end /\ spaced gap (Some t) ts
  end.
Lemma command_times_spec ks a :
  auto_inv a -> ad_min_tx_ms a <= ad_max_tx_ms a ->
  spaced (ad_min_tx_ms a) (ad_last_tx_at a) (command_times ks a)
  /\ ad_last_tx_at (auto_run ks a).1 = match last (command_times ks a) with Some t => Some t | None => ad_last_tx_at a end
  /\ ad_min_tx_ms (auto_run ks a).1 = ad_min_tx_ms a /\ ad_max_tx_ms (auto_run ks a).1 = ad_max_tx_ms a.
Proof.
  revert a. induction ks as [|k ks IH]; intros a Ha Hmm; [done|]. cbn [command_times auto_run].
  assert (Ha1 := auto_call_inv k a Ha).
  assert (Hk : match k with DTick _ _ => False | _ => True end \/ exists now claimed, k = DTick now claimed)
    by (destruct k; eauto).
  destruct Hk as [Hk|(now & claimed & ->)].
  - destruct (not_tick_times k a Hk) as (_ & Etx & Emin & Emax).
    destruct (auto_call k a) as [a1 f]. cbn [fst snd] in *. specialize (IH a1 Ha1 ltac:(lia)).
    rewrite Emin, Emax, Etx in IH. replace (match k with DTick now _ => _ | _ => [] end) with (@nil Instant.t) by by destruct k.
    cbn [app]. by destruct (auto_run ks a1).
  - destruct (tick_cadence now claimed a Ha Hmm) as (Emin & Emax & Etx & Hgap & _).
    destruct (auto_call (DTick now claimed) a) as [a1 f]. cbn [fst snd] in *. specialize (IH a1 Ha1 ltac:(lia)).
    rewrite Emin, Emax, Etx in IH. destruct (auto_run ks a1) as [a2 fs]. cbn [fst snd] in *.
    destruct IH as (H1 & H2 & H3 & H4). destruct (commands f); cbn [app]; [|done].
    split_and!; try done.
    + cbn [spaced]. split; [|done]. destruct (ad_last_tx_at a); [|done]. by apply Hgap.
    + rewrite H2, last_cons. by destruct (last _).
Qed.
(** C34: the command is a heartbeat and never a flood.  Whatever the cadence asked for, over any
    calls two commands are at least the minimum interval apart, and that is never below 100 ms; and
    a tick with an address that sends no command comes after one sent less than the maximum
    interval before, while steering less than the minimum. *)
Theorem autodrive_cadence stale min_ms max_ms min_speed ks :
  let a0 := auto_config stale min_ms max_ms min_speed in
  let min_tx := Z.max min_ms MIN_TX_INTERVAL_MS in
  let a := (auto_run ks a0).1 in
  MIN_TX_INTERVAL_MS <= min_tx
  /\ spaced min_tx None (command_times ks a0)
  /\ forall now, let '(a', frames) := auto_call (DTick now true) a in
       commands frames = false ->
       exists t, last (command_times ks a0) = Some t
         /\ Instant.millis_since now t
            < (if is_active (ad_status a') then min_tx else Z.max max_ms min_tx).
Proof.
  cbv zeta. assert (Ha := auto_inv_config stale min_ms max_ms min_speed).
  assert (Hmm : ad_min_tx_ms (auto_config stale min_ms max_ms min_speed)
                <= ad_max_tx_ms (auto_config stale min_ms max_ms min_speed)) by (cbn; lia).
  destruct (command_times_spec ks _ Ha Hmm) as (H1 & H2 & H3 & H4). apply (auto_run_inv ks) in Ha.
  destruct (auto_run ks _) as [a sent]. cbn [fst] in *. split_and!; [lia|exact H1|].
  intros now. destruct (tick_cadence now true a Ha ltac:(lia)) as (_ & _ & _ & _ & Hd).
  destruct (auto_call (DTick now true) a) as [a' frames]. cbn [fst snd] in *. intros Hc.
  destruct (Hd Hc eq_refl) as (l & El & Hl). rewrite El in H2. rewrite H3, H4 in Hl.
  destruct (last (command_times ks _)) as [t|]; [|done]. injection H2 as ->. by exists t.
Qed.

(** ** What modelling showed *)

(** Disarmed while driving: the guidance command withdraws, and the speed command goes on. *)
Lemma autodrive_armed_keeps_driving :
  let a := (auto_run [DFrame machine_ok 1000000; DEngage; DCommand (drive (f64_of_Z 5)); DTick 1100000 true; DArm]
              fresh_auto).1 in
  ad_status a = ReadyToEnable
  /\ (auto_call (DTick 1250000 true) a).2
     = [(PGN_GUIDANCE_SYSTEM_CMD, [0x80; 0x7D; 0xFC; 0xFF; 0xFF; 0xFF; 0xFF; 0xFF]);
        (PGN_MACHINE_SELECTED_SPEED_CMD, [0x88; 0x13; 0xFD; 0xFF; 0xFF; 0xFF; 0xFF; 0xFF])].
Proof. by vm_compute. Qed.
(** A limit of "non-recoverable fault" stops a controller that steers and not one about to. *)
Definition machine_faulted : Message :=
  mkMessage PGN_GUIDANCE_MACHINE_INFO [0x64; 0x7D; 0x3C; 0xDF; 0xC0; 0xFF; 0xFF; 0xFF] 0x13 0xFF
    Priority.Default 0.
Lemma autodrive_engages_under_fault :
  let a := (auto_run [DFrame machine_faulted 1000000; DEngage; DCommand (steer (f64_of_Z 20))] fresh_auto).1 in
  is_active (ad_status a) = true /\ existsb (fun f => steers f.2) (auto_call (DTick 1100000 true) a).2 = true
  /\ hazard (DFrame machine_faulted 1100000) a = true.
Proof. by vm_compute. Qed.
(** A reserved limit loses the whole report. *)
Lemma machine_info_reserved_limit :
  machine_info_decode [0x64; 0x7D; 0x3C; 0x9F; 0xC0; 0xFF; 0xFF; 0xFF] = None
  /\ machine_info_decode [0x64; 0x7D; 0x3C; 0xFF; 0xC0; 0xFF; 0xFF; 0xFF] <> None.
Proof. by vm_compute. Qed.
(** A second transmitter's permit hides a button still held. *)
Lemma autodrive_second_button :
  let button state source now :=
    DFrame (mkMessage PGN_SHORTCUT_BUTTON (button_encode state) source 0xFF Priority.Default 0) now in
  let a := (auto_run [button ShortcutButtonState.StopImplementOperations 0x10 1000000;
                      button ShortcutButtonState.PermitAllImplementsToOperate 0x20 1010000] fresh_auto).1 in
  is_latched (ad_stop a) = true /\ (clear_stop a).2 = Ok tt.
Proof. by vm_compute. Qed.
