(* ===== verification/SessionCore.v ===== *)
(** The session: the model of [src/session/mod.rs] and of the [Plugin] trait of
    [src/session/plugin.rs], proved against the interface of its plugins.

    A session owns the network manager and a list of plugins.  It routes received messages to the
    plugins that asked for them, ticks them, sends what they queue, and shows every event to every
    plugin before the application gets it.  What a plugin is, is the interface [Plugin]; what the
    session needs of one is [PluginLaws].  From the laws: every call returns, an event chain always
    ends before the round limit, and what the application sees every plugin has seen. *)
From stdpp Require Import gmap.
From S2P Require Export NetworkProps SessionEvents.
#[local] Open Scope Z_scope.

(** ** [plugin.rs] *)

Record SendCmd : Type := mkSend { sd_pgn : Pgn; sd_data : list Z; sd_dst : Address; sd_prio : Priority.t }.
Inductive CtxAction : Type := SetName (name : Name.t) | RestartAddressClaim | SendAddressClaimResponses.
(** What a callback reads of its [PluginCtx]. *)
Record PluginCtx : Type := mkCtx {
  cx_address : Address;
  cx_name : Name.t;
  cx_now : Instant.t;
  cx_claimed : bool
}.
(** What a callback leaves in it: frames, events and actions, in order. *)
Record PluginOut : Type := mkPluginOut {
  po_sends : list SendCmd;
  po_events : list Event;
  po_actions : list CtxAction
}.
Definition out_none : PluginOut := mkPluginOut [] [] [].
Definition out_app (x y : PluginOut) : PluginOut :=
  mkPluginOut (po_sends x ++ po_sends y) (po_events x ++ po_events y) (po_actions x ++ po_actions y).
(** A callback that panics gives [None].  [plugin_type] stands for the [TypeId], [raise_dtc] for
    the downcast to [Diagnostics] and its [raise]. *)
Class Plugin (P : Type) : Type := {
  plugin_type : P -> nat;
  plugin_name : P -> string;
  interests : P -> list Pgn;
  fast_packet_interests : P -> list Pgn;
  transmits : P -> list Pgn;
  on_frame : Message -> PluginCtx -> P -> option (P * PluginOut);
  on_tick : PluginCtx -> P -> option (P * PluginOut * option Instant.t);
  on_event : Event -> PluginCtx -> P -> option (P * PluginOut);
  raise_dtc : Dtc -> P -> option P
}.

(** [NullLink]: the link of a session's network, which has no endpoints. *)
Inductive NullLink : Type := null_link.
#[global, refine] Instance null_endpoint : CanEndpoint NullLink := {
  ep_send e _ := (e, Ok tt);
  ep_recv e := (e, None);
  ep_waiting _ := 0%nat
}.
Proof. all: done. Defined.

Definition MAX_EVENT_DISPATCH_ROUNDS : nat := 8.

Section session.
Context `{!Allocator} {P : Type} `{!Plugin P}.
Abbreviation IsoNet := (IsoNet (E:=NullLink)).

Record Session : Type := mkSession {
  ses_net : IsoNet;
  ses_cf : nat;
  ses_plugins : list P;
  ses_inbox : list Message;
  ses_violations : list Address;
  ses_events : list Event;
  ses_pending : list Event;
  ses_last_tick : option Instant.t;
  ses_last_claim : ClaimState.t;
  ses_last_claimed_address : Address;
  ses_next_deadline : option Instant.t
}.
(** Field updates. *)
Definition ses_with_net (v : IsoNet) (s : Session) : Session :=
  mkSession v (ses_cf s) (ses_plugins s) (ses_inbox s) (ses_violations s) (ses_events s)
    (ses_pending s) (ses_last_tick s) (ses_last_claim s) (ses_last_claimed_address s)
    (ses_next_deadline s).
Definition ses_with_plugins (v : list P) (s : Session) : Session :=
  mkSession (ses_net s) (ses_cf s) v (ses_inbox s) (ses_violations s) (ses_events s)
    (ses_pending s) (ses_last_tick s) (ses_last_claim s) (ses_last_claimed_address s)
    (ses_next_deadline s).
Definition ses_with_inbox (v : list Message) (s : Session) : Session :=
  mkSession (ses_net s) (ses_cf s) (ses_plugins s) v (ses_violations s) (ses_events s)
    (ses_pending s) (ses_last_tick s) (ses_last_claim s) (ses_last_claimed_address s)
    (ses_next_deadline s).
Definition ses_with_violations (v : list Address) (s : Session) : Session :=
  mkSession (ses_net s) (ses_cf s) (ses_plugins s) (ses_inbox s) v (ses_events s) (ses_pending s)
    (ses_last_tick s) (ses_last_claim s) (ses_last_claimed_address s) (ses_next_deadline s).
Definition ses_with_events (v : list Event) (s : Session) : Session :=
  mkSession (ses_net s) (ses_cf s) (ses_plugins s) (ses_inbox s) (ses_violations s) v
    (ses_pending s) (ses_last_tick s) (ses_last_claim s) (ses_last_claimed_address s)
    (ses_next_deadline s).
Definition ses_with_pending (v : list Event) (s : Session) : Session :=
  mkSession (ses_net s) (ses_cf s) (ses_plugins s) (ses_inbox s) (ses_violations s) (ses_events s)
    v (ses_last_tick s) (ses_last_claim s) (ses_last_claimed_address s) (ses_next_deadline s).
Definition ses_with_last_tick (v : option Instant.t) (s : Session) : Session :=
  mkSession (ses_net s) (ses_cf s) (ses_plugins s) (ses_inbox s) (ses_violations s) (ses_events s)
    (ses_pending s) v (ses_last_claim s) (ses_last_claimed_address s) (ses_next_deadline s).
Definition ses_with_last_claim (v : ClaimState.t) (s : Session) : Session :=
  mkSession (ses_net s) (ses_cf s) (ses_plugins s) (ses_inbox s) (ses_violations s) (ses_events s)
    (ses_pending s) (ses_last_tick s) v (ses_last_claimed_address s) (ses_next_deadline s).
Definition ses_with_last_claimed_address (v : Address) (s : Session) : Session :=
  mkSession (ses_net s) (ses_cf s) (ses_plugins s) (ses_inbox s) (ses_violations s) (ses_events s)
    (ses_pending s) (ses_last_tick s) (ses_last_claim s) v (ses_next_deadline s).
Definition ses_with_next_deadline (v : option Instant.t) (s : Session) : Session :=
  mkSession (ses_net s) (ses_cf s) (ses_plugins s) (ses_inbox s) (ses_violations s) (ses_events s)
    (ses_pending s) (ses_last_tick s) (ses_last_claim s) (ses_last_claimed_address s) v.

(** ** The monad *)

Inductive SessionFault : Type := NetFault (f : Fault (E:=NullLink)) | PluginPanic.
Definition S (A : Type) : Type := Session -> Result (A * Session) SessionFault.
#[global] Instance ses_ret : MRet S := fun A a s => Ok (a, s).
#[global] Instance ses_bind : MBind S := fun A B k m s =>
  match m s with Ok (a, s) => k a s | Err e => Err e end.
Definition get_session : S Session := fun s => Ok (s, s).
Definition ses_modify (f : Session -> Session) : S unit := fun s => Ok (tt, f s).
Definition of_plugins {A} (o : option A) : S A := fun s =>
  match o with Some a => Ok (a, s) | None => Err PluginPanic end.
(** A call into the network; the subscribers of [on_message] and [on_address_violation] fill the
    inbox and the violations as it runs. *)
Definition message_of (e : NetEvent) : option Message := match e with NetMessage m => Some m | _ => None end.
Definition violation_of (e : NetEvent) : option Address := match e with NetAddressViolation a => Some a | _ => None end.
Definition absorb (n : IsoNet) (s : Session) : Session :=
  ses_with_violations (ses_violations s ++ omap violation_of (net_trace n))
    (ses_with_inbox (ses_inbox s ++ omap message_of (net_trace n)) (ses_with_net (set_trace [] n) s)).
Definition net_call {A} (m : M (E:=NullLink) A) : S A := fun s =>
  match m (ses_net s) with
  | Err f => Err (NetFault f)
  | Ok (a, n) => Ok (a, absorb n s)
  end.
Fixpoint ses_each {A} (f : A -> S unit) (l : list A) : S unit :=
  match l with [] => mret tt | x :: l => _ ← f x; ses_each f l end.

(** ** Reading *)

Definition ses_icf (s : Session) : option InternalCf := internal_cfs (ses_net s) !! ses_cf s.
Definition ses_address (s : Session) : Address :=
  match ses_icf s with Some cf => icf_address cf | None => NULL_ADDRESS end.
Definition ses_claim_state (s : Session) : ClaimState.t :=
  match ses_icf s with Some cf => claim_state cf | None => ClaimState.None_ end.
Definition ses_is_claimed (s : Session) : bool := bool_decide (ses_claim_state s = ClaimState.Claimed).
Definition local_name (s : Session) : Name.t :=
  match ses_icf s with Some cf => icf_name cf | None => Name.from_raw 0 end.
Definition ctx_at (now : Instant.t) (s : Session) : PluginCtx :=
  mkCtx (ses_address s) (local_name s) now (ses_is_claimed s).

(** ** Inside *)

Definition push_pending (es : list Event) : S unit :=
  ses_modify (fun s => ses_with_pending (ses_pending s ++ es) s).
Definition flush_one (cmd : SendCmd) : S unit :=
  s ← get_session;
  r ← net_call (net_send (sd_pgn cmd) (sd_data cmd) (ses_cf s) (sd_dst cmd) (sd_prio cmd));
  match r with
  | Ok _ => mret tt
  | Err _ => push_pending [EvBus (SendFailed (sd_pgn cmd) (sd_dst cmd))]
  end.
Definition flush (sends : list SendCmd) : S unit := ses_each flush_one sends.
(** [cf.set_name(name)]: the control function of the session takes a new NAME. *)
Definition set_own_name (name : Name.t) (s : Session) : Session :=
  ses_with_net (set_internal_cfs (alter (set_name name) (ses_cf s) (internal_cfs (ses_net s))) (ses_net s)) s.
Definition apply_action (a : CtxAction) : S unit :=
  match a with
  | SetName name => _ ← ses_modify (set_own_name name); _ ← net_call start_address_claiming; mret tt
  | RestartAddressClaim => _ ← net_call start_address_claiming; mret tt
  | SendAddressClaimResponses => _ ← net_call send_address_claim_responses; mret tt
  end.
Definition apply_actions (l : list CtxAction) : S unit := ses_each apply_action l.
(** One callback of every plugin, in order: the plugins and what they put out. *)
Fixpoint each_plugin (f : P -> option (P * PluginOut)) (ps : list P) : option (list P * PluginOut) :=
  match ps with
  | [] => Some ([], out_none)
  | p :: ps =>
      '(p, o) ← f p; '(ps, os) ← each_plugin f ps; Some (p :: ps, out_app o os)
  end.
(** The callback runs on the session's plugins; its events are pending at once. *)
Definition call_plugins (f : P -> option (P * PluginOut)) : S PluginOut :=
  s ← get_session;
  '(ps, o) ← of_plugins (each_plugin f (ses_plugins s));
  _ ← ses_modify (ses_with_plugins ps);
  _ ← push_pending (po_events o);
  mret o.
(** [advance_time]. *)
Definition advance_time (now : Instant.t) : S unit :=
  s ← get_session;
  match ses_last_tick s with
  | None =>
      _ ← net_call (net_update 0);
      ses_modify (ses_with_last_tick (Some now))
  | Some last =>
      if Instant.as_micros now <? Instant.as_micros last then
        _ ← push_pending [EvBus (ClockWentBackwards (Instant.as_micros last - Instant.as_micros now))];
        ses_modify (ses_with_last_tick (Some now))
      else
        let elapsed := Instant.millis_since now last in
        if 0 <? elapsed then
          _ ← net_call (net_update elapsed);
          ses_modify (ses_with_last_tick (Some (Instant.add_millis last elapsed)))
        else mret tt
  end.
(** One message to the plugins that asked for its PGN. *)
Definition wants (msg : Message) (p : P) : bool := existsb (Z.eqb (m_pgn msg)) (interests p).
Definition route_message (now : Instant.t) (msg : Message) : S unit :=
  s ← get_session;
  let ctx := ctx_at now s in
  o ← call_plugins (fun p => if wants msg p then on_frame msg ctx p else Some (p, out_none));
  _ ← flush (po_sends o);
  apply_actions (po_actions o).
(** [route_inbox]: until the inbox is empty; the fuel is the number of messages in it. *)
Fixpoint route_loop (fuel : nat) (now : Instant.t) : S unit :=
  s ← get_session;
  match ses_inbox s with
  | [] => mret tt
  | msg :: inbox =>
      match fuel with
      | O => of_plugins None
      | Datatypes.S fuel =>
          _ ← ses_modify (ses_with_inbox inbox);
          _ ← route_message now msg;
          route_loop fuel now
      end
  end.
Definition route_inbox (now : Instant.t) : S unit :=
  s ← get_session; route_loop (length (ses_inbox s)) now.
Definition detect_claim : S unit :=
  s ← get_session;
  let state := ses_claim_state s in
  if bool_decide (state = ses_last_claim s) then mret tt
  else
    _ ← push_pending
          (if bool_decide (state = ClaimState.Claimed) then [EvAddressClaim (SClaimed (ses_address s))]
           else if bool_decide (ses_last_claim s = ClaimState.Claimed) then
             [EvAddressClaim (if bool_decide (state = ClaimState.None_) then SDisconnected
                              else SLost (ses_last_claimed_address s))]
           else []);
    _ ← (if bool_decide (state = ClaimState.Claimed)
         then ses_modify (ses_with_last_claimed_address (ses_address s)) else mret tt);
    ses_modify (ses_with_last_claim state).
(** ** Violations *)

Fixpoint raise_first (dtc : Dtc) (ps : list P) : option (list P) :=
  match ps with
  | [] => None
  | p :: ps => match raise_dtc dtc p with Some p => Some (p :: ps) | None => cons p <$> raise_first dtc ps end
  end.
Definition raise_violation (source : Address) : S unit :=
  let dtc := address_violation source in
  s ← get_session;
  match raise_first dtc (ses_plugins s) with
  | Some ps => ses_modify (ses_with_plugins ps)
  | None => push_pending [EvDiagRaised dtc]
  end.
Definition raise_address_violation_dtcs : S unit :=
  s ← get_session;
  _ ← ses_modify (ses_with_violations []);
  ses_each raise_violation (ses_violations s).

(** ** Dispatch *)

(** An event to every plugin and then to the application. *)
Definition show_event (ctx : PluginCtx) (event : Event) : S PluginOut :=
  o ← call_plugins (on_event event ctx);
  _ ← ses_modify (fun s => ses_with_events (ses_events s ++ [event]) s);
  mret o.
Fixpoint show_events (ctx : PluginCtx) (round : list Event) : S PluginOut :=
  match round with
  | [] => mret out_none
  | event :: round => o ← show_event ctx event; os ← show_events ctx round; mret (out_app o os)
  end.
Fixpoint dispatch_rounds (rounds : nat) (ctx : PluginCtx) : S unit :=
  match rounds with
  | O => mret tt
  | Datatypes.S rounds =>
      s ← get_session;
      match ses_pending s with
      | [] => mret tt
      | round =>
          _ ← ses_modify (ses_with_pending []);
          o ← show_events ctx round;
          _ ← flush (po_sends o);
          _ ← apply_actions (po_actions o);
          dispatch_rounds rounds ctx
      end
  end.
Definition dispatch_events (now : Instant.t) : S unit :=
  s ← get_session;
  _ ← dispatch_rounds MAX_EVENT_DISPATCH_ROUNDS (ctx_at now s);
  ses_modify (fun s => ses_with_pending [] (ses_with_events (ses_events s ++ ses_pending s) s)).

(** ** The calls *)

Definition ses_start : S (Result unit Error.t) := net_call start_address_claiming.
Definition ses_feed (port : Z) (frame : Frame) (now : Instant.t) : S unit :=
  _ ← advance_time now;
  _ ← net_call (feed frame port);
  _ ← route_inbox now;
  _ ← detect_claim;
  dispatch_events now.
(** [deadline.map_or(at, |cur| cur.min(at))]. *)
Definition earlier (cur : option Instant.t) (at_ : option Instant.t) : option Instant.t :=
  match at_ with
  | Some at_ => Some (match cur with Some cur => Z.min cur at_ | None => at_ end)
  | None => cur
  end.
Fixpoint tick_plugins (ctx : PluginCtx) (ps : list P) (deadline : option Instant.t)
    : option (list P * PluginOut * option Instant.t) :=
  match ps with
  | [] => Some ([], out_none, deadline)
  | p :: ps =>
      '(p, o, at_) ← on_tick ctx p;
      '(ps, os, deadline) ← tick_plugins ctx ps (earlier deadline at_);
      Some (p :: ps, out_app o os, deadline)
  end.
Definition ses_tick (now : Instant.t) : S unit :=
  _ ← advance_time now;
  _ ← route_inbox now;
  s ← get_session;
  '(ps, o, deadline) ← of_plugins (tick_plugins (ctx_at now s) (ses_plugins s) None);
  _ ← ses_modify (fun s => ses_with_next_deadline deadline (ses_with_plugins ps s));
  _ ← push_pending (po_events o);
  _ ← flush (po_sends o);
  _ ← apply_actions (po_actions o);
  _ ← raise_address_violation_dtcs;
  _ ← detect_claim;
  dispatch_events now.
Definition poll_transmit : S (option (Z * Frame)) := net_call take_outbound.
Definition ses_push_event (event : Event) : S unit := push_pending [event].
Definition poll_event : S (option Event) :=
  s ← get_session;
  match ses_events s with
  | [] => mret None
  | event :: events => _ ← ses_modify (ses_with_events events); mret (Some event)
  end.
(** [drain::<E>]: [try_ref] picks the events of one subsystem. *)
Definition ses_drain {A} (try_ref : Event -> option A) : S (list A) :=
  s ← get_session;
  _ ← ses_modify (ses_with_events (filter (fun e => try_ref e = None) (ses_events s)));
  mret (omap try_ref (ses_events s)).
Definition send_raw (pgn : Pgn) (data : list Z) (dst : Address) (priority : Priority.t)
    : S (Result unit Error.t) :=
  s ← get_session; net_call (net_send pgn data (ses_cf s) dst priority).
(** [get_mut::<P>]: the first plugin of the type, changed by [f]. *)
Fixpoint alter_first (type : nat) (f : P -> P) (ps : list P) : list P :=
  match ps with
  | [] => []
  | p :: ps => if (plugin_type p =? type)%nat then f p :: ps else p :: alter_first type f ps
  end.
Definition get_mut (type : nat) (f : P -> P) : S unit :=
  ses_modify (fun s => ses_with_plugins (alter_first type f (ses_plugins s)) s).

(** ** The builder *)

(** Two plugins of one type; the text of the error is the source's. *)
Definition duplicate_type (ps : list P) : bool := negb (bool_decide (NoDup (plugin_type <$> ps))).
(** The first PGN with two authors: the PGN, who claimed it first and who claims it again. *)
Fixpoint find_conflict (claimed : list (Pgn * string)) (wanted : list (Pgn * string)) : option (Pgn * string * string) :=
  match wanted with
  | [] => None
  | (pgn, name) :: wanted =>
      match List.find (fun c => c.1 =? pgn) claimed with
      | Some (_, other) => Some (pgn, other, name)
      | None => find_conflict (claimed ++ [(pgn, name)]) wanted
      end
  end.
Definition authored (ps : list P) : list (Pgn * string) :=
  ps ≫= fun p => (fun pgn => (pgn, plugin_name p)) <$> transmits p.
Definition conflict_text (c : Pgn * string * string) : string :=
  let '(pgn, other, name) := c in
  "plugins '" +:+ other +:+ "' and '" +:+ name +:+ "' both transmit PGN 0x" +:+ format_hex 4 pgn
  +:+ ": one command PGN may have only one author".
Fixpoint register_all (pgns : list Pgn) : M (E:=NullLink) (Result unit Error.t) :=
  match pgns with
  | [] => mret (Ok tt)
  | pgn :: pgns =>
      r ← register_fast_packet_pgn pgn;
      match r with Ok _ => register_all pgns | Err e => mret (Err e) end
  end.
Definition session_build (name : Name.t) (preferred : Address) (ps : list P) (config : NetworkConfig)
    : Result (Result Session Error.t) SessionFault :=
  if duplicate_type ps then
    Ok (Err (Error.invalid_state "duplicate plugin type: one instance per plugin type is allowed"))
  else
    match find_conflict [] (authored ps) with
    | Some c => Ok (Err (Error.invalid_state (conflict_text c)))
    | None =>
        match (_ ← set_capture_outbound_mode true;
               r ← create_internal name 0 preferred;
               match r with
               | Err e => mret (Err e)
               | Ok cf => r ← register_all (ps ≫= fast_packet_interests);
                          mret (match r with Ok _ => Ok cf | Err e => Err e end)
               end) (IsoNet_new config) with
        | Err f => Err (NetFault f)
        | Ok (Err e, _) => Ok (Err e)
        | Ok (Ok cf, n) =>
            Ok (Ok (mkSession (set_trace [] n) cf ps [] [] [] [] None ClaimState.None_ NULL_ADDRESS None))
        end
    end.
End session.

(** ** What the session needs of a plugin *)

(** A frame the network can take. *)
Definition send_ok (c : SendCmd) : Prop :=
  in_u 32 (sd_pgn c) /\ in_u 8 (sd_dst c) /\ bytes (sd_data c) /\ in_u 32 (Z.of_nat (length (sd_data c))).
Definition a_send_failed (e : Event) : Prop := exists pgn dst, e = EvBus (SendFailed pgn dst).
(** No callback panics; frames are well typed and no plugin restarts the claim; [hops] bounds how
    long a chain of reactions an event can set off; [reacted] is what showing it an event does to
    a plugin for good; and a plugin that comes to be in [condition] announces it. *)
Class PluginLaws (P : Type) `{!Plugin P} : Type := {
  plugin_ok : P -> Prop;
  hops : Event -> nat;
  reacted : Event -> P -> Prop;
  condition : P -> Prop;
  announces : Event -> Prop;
  hops_bound e : (hops e < MAX_EVENT_DISPATCH_ROUNDS)%nat;
  on_frame_law msg ctx p : plugin_ok p ->
    exists p' o, on_frame msg ctx p = Some (p', o) /\ plugin_ok p' /\ Forall send_ok (po_sends o)
      /\ po_actions o = [] /\ (condition p' -> condition p \/ Exists announces (po_events o));
  on_tick_law ctx p : plugin_ok p ->
    exists p' o d, on_tick ctx p = Some (p', o, d) /\ plugin_ok p' /\ Forall send_ok (po_sends o)
      /\ po_actions o = [] /\ (condition p' -> condition p \/ Exists announces (po_events o));
  on_event_law e ctx p : plugin_ok p ->
    exists p' o, on_event e ctx p = Some (p', o) /\ plugin_ok p' /\ Forall send_ok (po_sends o)
      /\ po_actions o = [] /\ (condition p' -> condition p \/ Exists announces (po_events o))
      /\ reacted e p' /\ (forall e', reacted e' p -> reacted e' p')
      /\ Forall (fun e' => hops e' < hops e)%nat (po_events o)
      /\ (po_sends o <> [] -> forall e', a_send_failed e' -> (hops e' < hops e)%nat);
  raise_dtc_law dtc p p' : plugin_ok p -> raise_dtc dtc p = Some p' -> plugin_ok p' /\ (condition p' -> condition p)
}.

(** ** A send emits nothing *)

Section trace.
Context {E : Type} `{!CanEndpoint E} `{!Allocator}.
Definition untraced {A} (m : M (E:=E) A) : Prop :=
  forall n a n', m n = Ok (a, n') -> net_trace n' = net_trace n.
Lemma untraced_ret {A} (a : A) : untraced (mret a).
Proof. by intros n a' n' [= <- <-]. Qed.
Lemma untraced_bind {A B} (m : M A) (k : A -> M B) :
  untraced m -> (forall a, untraced (k a)) -> untraced (m ≫= k).
Proof.
  intros Hm Hk n b n'. unfold mbind, net_bind. destruct (m n) as [[a n1]|] eqn:E1; [|done].
  intros E2. rewrite (Hk _ _ _ _ E2). by eapply Hm.
Qed.
Lemma untraced_get {A} (k : IsoNet (E:=E) -> M A) :
  (forall n, untraced (k n)) -> untraced (n ← get_net; k n).
Proof. intros Hk n. by apply (Hk n). Qed.
Lemma untraced_modify f : (forall n : IsoNet (E:=E), net_trace (f n) = net_trace n) -> untraced (modify f).
Proof. by intros Hf n a n' [= <- <-]. Qed.
Lemma untraced_lift {A} (o : option A) : untraced (lift_option o).
Proof. intros n a n'. unfold lift_option. destruct o; [|done]. by intros [= <- <-]. Qed.
Lemma untraced_count_sent : untraced count_sent.
Proof. intros n a n'. unfold count_sent. case_match; [|done]. by intros [= <- <-]. Qed.
Lemma untraced_bus_load port len : untraced (modify (bus_load_add (E:=E) port len)).
Proof. apply untraced_modify. intros n. unfold bus_load_add. by repeat case_match. Qed.
Lemma untraced_send_frame f port : untraced (send_frame (E:=E) f port).
Proof.
  apply untraced_get. intros n. destruct (capture_outbound n).
  - apply untraced_bind; [by apply untraced_modify|]. intros _.
    apply untraced_bind; [apply untraced_count_sent|]. intros _.
    apply untraced_bind; [apply untraced_bus_load|]. intros _. apply untraced_ret.
  - destruct (endpoints n !! port) as [ep|]; [|apply untraced_ret]. destruct (ep_send _ _) as [ep' r].
    apply untraced_bind; [by apply untraced_modify|]. intros _. destruct r; [|apply untraced_ret].
    apply untraced_bind; [apply untraced_count_sent|]. intros _.
    apply untraced_bind; [apply untraced_bus_load|]. intros _. apply untraced_ret.
Qed.
Lemma untraced_send_frames fs port : untraced (send_frames (E:=E) fs port).
Proof.
  induction fs as [|f fs IH]; cbn [send_frames]; [apply untraced_ret|].
  apply untraced_bind; [apply untraced_send_frame|]. intros [u|e]; [done|apply untraced_ret].
Qed.
Lemma untraced_send_or_queue kind pgn data src dst port prio :
  untraced (send_or_queue (E:=E) kind pgn data src dst port prio).
Proof.
  apply untraced_bind.
  - apply untraced_get. intros n. destruct kind; destruct (te_send _ _ _ _ _ _ _) as [t r];
      (apply untraced_bind; [by apply untraced_modify|intros _; apply untraced_ret]).
  - intros [fs|e]; [apply untraced_send_frames|]. case_bool_decide; [|apply untraced_ret].
    apply untraced_get. intros n. case_match; [apply untraced_ret|].
    apply untraced_bind; [by apply untraced_modify|intros _; apply untraced_ret].
Qed.
Lemma untraced_send pgn data src dst prio : untraced (net_send (E:=E) pgn data src dst prio).
Proof.
  unfold net_send. destruct (negb _); [apply untraced_ret|]. apply untraced_get. intros n.
  destruct (internal_cfs n !! src); [|apply untraced_ret]. destruct (negb _ || _); [apply untraced_ret|].
  destruct (negb _); [apply untraced_ret|]. cbv zeta.
  destruct (_ <=? CAN_DATA_LENGTH); [unfold send_single_frame; cbv zeta; apply untraced_send_frame|].
  destruct (_ && _).
  - apply untraced_bind; [apply untraced_lift|]. intros [fp [fs|e]];
      (apply untraced_bind; [by apply untraced_modify|intros _]); [apply untraced_send_frames|apply untraced_ret].
  - destruct (_ <=? TP_MAX_DATA_LENGTH); [apply untraced_send_or_queue|].
    destruct (_ =? _); [apply untraced_ret|apply untraced_send_or_queue].
Qed.
Lemma untraced_take : untraced (take_outbound (E:=E)).
Proof.
  apply untraced_get. intros n. case_match; [apply untraced_ret|].
  apply untraced_bind; [by apply untraced_modify|intros _; apply untraced_ret].
Qed.
End trace.

Section session.
Context `{!Allocator} {P : Type} `{!Plugin P} `{!PluginLaws P}.
Abbreviation Session := (Session (P:=P)).
Abbreviation S := (S (P:=P)).

(** ** Weakest preconditions *)

(** The call returns, or a frame counter of the network is at its maximum. *)
Definition swp {A} (m : S A) (Q : A -> Session -> Prop) (s : Session) : Prop :=
  match m s with
  | Ok (a, s') => Q a s'
  | Err (NetFault (CounterExhausted n)) => exhausted n
  | Err _ => False
  end.
Lemma swp_ret {A} (a : A) (Q : A -> Session -> Prop) s : Q a s -> swp (mret a) Q s.
Proof. done. Qed.
Lemma swp_bind {A B} (m : S A) (k : A -> S B) Q s :
  swp m (fun a => swp (k a) Q) s -> swp (m ≫= k) Q s.
Proof. unfold swp, mbind, ses_bind. by destruct (m s) as [[a s']|[[|]|]]. Qed.
Lemma swp_mono {A} (m : S A) (Q R : A -> Session -> Prop) s :
  (forall a s', Q a s' -> R a s') -> swp m Q s -> swp m R s.
Proof. unfold swp. destruct (m s) as [[a s']|[[|]|]]; auto. Qed.
Lemma swp_get Q s : Q s s -> swp get_session Q s.
Proof. done. Qed.
Lemma swp_modify f (Q : unit -> Session -> Prop) s : Q tt (f s) -> swp (ses_modify f) Q s.
Proof. done. Qed.
(** [m ;; k] with [m] known by its postcondition. *)
Lemma swp_seq {A B} (m : S A) (k : A -> S B) R Q s :
  swp m R s -> (forall a s', R a s' -> swp (k a) Q s') -> swp (m ≫= k) Q s.
Proof. intros Hm Hk. apply swp_bind. eapply swp_mono; [exact Hk|done]. Qed.

(** ** The invariant *)

Record ses_inv (s : Session) : Prop := {
  sv_net : net_inv (ses_net s);
  sv_trace : net_trace (ses_net s) = [];
  sv_plugins : Forall plugin_ok (ses_plugins s)
}.
Definition at_condition (s : Session) : Prop := Exists condition (ses_plugins s).
(** A stage of a call before the dispatch: it adds to what is pending, and a condition that
    arises is announced there. *)
Record stage (s s' : Session) : Prop := {
  sg_inv : ses_inv s';
  sg_events : ses_events s' = ses_events s;
  sg_pending : exists more, ses_pending s' = ses_pending s ++ more
    /\ (at_condition s' -> at_condition s \/ Exists announces more)
}.
Lemma stage_refl s : ses_inv s -> stage s s.
Proof. intros Hs. split; [done..|]. exists []. rewrite app_nil_r. split; [done|]. by left. Qed.
Lemma stage_trans s1 s2 s3 : stage s1 s2 -> stage s2 s3 -> stage s1 s3.
Proof.
  intros [_ E1 (m1 & P1 & C1)] [I E2 (m2 & P2 & C2)]. split; [done|congruence|].
  exists (m1 ++ m2). rewrite P2, P1, app_assoc. split; [done|]. intros Hc. rewrite Exists_app.
  destruct (C2 Hc) as [H2|]; [|tauto]. destruct (C1 H2); tauto.
Qed.
(** The stages follow one another. *)
Lemma stage_seq {A B} (m : S A) (k : A -> S B) s0 s :
  swp m (fun _ s' => stage s s') s -> stage s0 s ->
  (forall a s', stage s0 s' -> swp (k a) (fun _ s'' => stage s0 s'') s') ->
  swp (m ≫= k) (fun _ s'' => stage s0 s'') s.
Proof.
  intros Hm H0 Hk. eapply swp_seq; [exact Hm|]. intros a s' Hs'. apply Hk. by eapply stage_trans.
Qed.
Lemma net_inv_trace v (n : IsoNet (E:=NullLink)) : net_inv n -> net_inv (set_trace v n).
Proof. intros []. by split. Qed.
(** A stage that changes neither the plugins nor what is pending. *)
Lemma stage_same s s' :
  ses_inv s -> net_inv (ses_net s') -> net_trace (ses_net s') = [] -> ses_plugins s' = ses_plugins s ->
  ses_events s' = ses_events s -> ses_pending s' = ses_pending s -> stage s s'.
Proof.
  intros Hs Hn Ht Hp He Hq. split; [|done|].
  - split; [done..|]. rewrite Hp. apply Hs.
  - exists []. rewrite app_nil_r. split; [done|]. unfold at_condition. rewrite Hp. by left.
Qed.
Lemma stage_push es s : ses_inv s -> stage s (ses_with_pending (ses_pending s ++ es) s).
Proof.
  intros []. split; [by split|done|]. exists es. split; [done|]. by left.
Qed.

(** ** Calls into the network *)

Lemma swp_net_call {A} (m : M (E:=NullLink) A) (Q : A -> Session -> Prop) s :
  wp m (fun a n => Q a (absorb n s)) (ses_net s) -> swp (net_call m) Q s.
Proof. unfold swp, net_call, wp. by destruct (m (ses_net s)) as [[a n]|[|]]. Qed.
Lemma net_call_stage {A} (m : M (E:=NullLink) A) s :
  wp m (fun _ => net_inv) (ses_net s) -> ses_inv s -> swp (net_call m) (fun _ s' => stage s s') s.
Proof.
  intros Hm Hs. apply swp_net_call. eapply wp_mono; [|exact Hm]. intros a n Hn.
  apply stage_same; try done. by apply net_inv_trace.
Qed.
Lemma keeps_wp {A} (m : M (E:=NullLink) A) n : keeps m -> net_inv n -> wp m (fun _ => net_inv) n.
Proof. intros Hm Hn. by apply Hm. Qed.
(** Sending: the failures become pending, nothing else of the session changes. *)
Record flushed (sends : list SendCmd) (s s' : Session) : Prop := {
  fl_inv : ses_inv s';
  fl_plugins : ses_plugins s' = ses_plugins s;
  fl_events : ses_events s' = ses_events s;
  fl_inbox : ses_inbox s' = ses_inbox s;
  fl_pending : exists failed, ses_pending s' = ses_pending s ++ failed /\ Forall a_send_failed failed
    /\ (sends = [] -> failed = [])
}.
Lemma send_call_spec pgn data cf dst prio s :
  ses_inv s -> in_u 32 pgn -> in_u 8 dst -> bytes data -> in_u 32 (Z.of_nat (length data)) ->
  swp (net_call (net_send pgn data cf dst prio)) (fun _ s' => flushed [] s s') s.
Proof.
  intros Hs H1 H2 H3 H4. apply swp_net_call.
  assert (Hk := keeps_wp _ _ (keeps_send pgn data cf dst prio H1 H2 H3 H4) (sv_net _ Hs)).
  unfold wp in *. destruct (net_send _ _ _ _ _ _) as [[a n]|[|]] eqn:E; try done.
  apply untraced_send in E. rewrite (sv_trace _ Hs) in E. split; try done.
  - split; [by apply net_inv_trace|done|apply Hs].
  - cbn. by rewrite E, app_nil_r.
  - exists []. by rewrite app_nil_r.
Qed.
Lemma flush_one_spec c s :
  ses_inv s -> send_ok c -> swp (flush_one c) (fun _ s' => flushed [c] s s') s.
Proof.
  intros Hs (H1 & H2 & H3 & H4). apply swp_bind, swp_get. eapply swp_seq; [by apply send_call_spec|].
  intros r s' [Hi Hp He Hb (failed & Hq & _ & Hf)]. rewrite Hf, app_nil_r in Hq by done. destruct r as [u|e].
  - apply swp_ret. split; try done. exists []. by rewrite app_nil_r.
  - apply swp_modify. split; try done; [by destruct Hi; split|].
    exists [EvBus (SendFailed (sd_pgn c) (sd_dst c))]. cbn. rewrite Hq. split_and!; [done| |done].
    constructor; [|constructor]. by eexists _, _.
Qed.
Lemma flush_spec sends s :
  ses_inv s -> Forall send_ok sends -> swp (flush sends) (fun _ s' => flushed sends s s') s.
Proof.
  intros Hs Hok. revert s Hs. induction Hok as [|c sends Hc Hok IH]; intros s Hs.
  { apply swp_ret. split; try done. exists []. by rewrite app_nil_r. }
  eapply swp_seq; [by apply flush_one_spec|]. intros [] s1 [I1 P1 E1 B1 (f1 & Q1 & F1 & _)].
  eapply swp_mono; [|by apply IH]. intros [] s2 [I2 P2 E2 B2 (f2 & Q2 & F2 & _)].
  split; [done|congruence..|]. exists (f1 ++ f2). split_and!; [by rewrite Q2, Q1, app_assoc|by apply Forall_app|done].
Qed.
Lemma flushed_stage sends s s' : flushed sends s s' -> stage s s'.
Proof.
  intros [Hi Hp He _ (f & Hq & _)]. split; [done..|]. exists f. split; [done|].
  unfold at_condition. rewrite Hp. by left.
Qed.

(** ** Callbacks *)

(** A callback the plugin laws describe. *)
Definition good_callback (f : P -> option (P * PluginOut)) : Prop :=
  forall p, plugin_ok p -> exists p' o, f p = Some (p', o) /\ plugin_ok p' /\ Forall send_ok (po_sends o)
    /\ po_actions o = [] /\ (condition p' -> condition p \/ Exists announces (po_events o)).
Lemma each_plugin_spec f ps :
  good_callback f -> Forall plugin_ok ps ->
  exists ps' o, each_plugin f ps = Some (ps', o) /\ Forall plugin_ok ps' /\ Forall send_ok (po_sends o)
    /\ po_actions o = [] /\ (Exists condition ps' -> Exists condition ps \/ Exists announces (po_events o)).
Proof.
  intros Hf. induction 1 as [|p ps Hp _ (ps' & os & E & I & T & A & C)].
  { exists [], out_none. by split_and!; auto. }
  destruct (Hf p Hp) as (p' & o & Ep & Ip & Tp & Ap & Cp). exists (p' :: ps'), (out_app o os).
  cbn. rewrite Ep. cbn. rewrite E. cbn. rewrite Ap, A. split_and!; try done; [by constructor|by apply Forall_app|].
  rewrite !Exists_cons, Exists_app. tauto.
Qed.
Lemma call_plugins_spec f s :
  good_callback f -> ses_inv s ->
  swp (call_plugins f) (fun o s' => stage s s' /\ Forall send_ok (po_sends o) /\ po_actions o = []
                          /\ ses_inbox s' = ses_inbox s) s.
Proof.
  intros Hf Hs. apply swp_bind, swp_get.
  destruct (each_plugin_spec f (ses_plugins s) Hf (sv_plugins _ Hs)) as (ps & o & E & I & T & A & C).
  unfold of_plugins. rewrite E. apply swp_bind. cbn. split_and!; try done. split; [|done|].
  - destruct Hs. by split.
  - exists (po_events o). split; [done|exact C].
Qed.
Lemma frame_callback msg ctx :
  good_callback (fun p => if wants msg p then on_frame msg ctx p else Some (p, out_none)).
Proof.
  intros p Hp. destruct (wants msg p); [by apply on_frame_law|]. exists p, out_none. split_and!; auto.
Qed.
Lemma apply_nothing s Q : Q tt s -> swp (apply_actions []) Q s.
Proof. done. Qed.

(** ** Routing *)

Lemma route_message_spec now msg s :
  ses_inv s ->
  swp (route_message now msg) (fun _ s' => stage s s' /\ ses_inbox s' = ses_inbox s) s.
Proof.
  intros Hs. apply swp_bind, swp_get. cbv zeta.
  eapply swp_seq; [apply call_plugins_spec; [apply frame_callback|done]|].
  intros o s1 (G1 & T1 & A1 & B1). eapply swp_seq; [apply flush_spec; [apply G1|done]|].
  intros [] s2 F2. rewrite A1. apply apply_nothing. split.
  - eapply stage_trans; [done|by eapply flushed_stage].
  - by rewrite (fl_inbox _ _ _ F2).
Qed.
Lemma route_loop_spec fuel now s :
  ses_inv s -> (length (ses_inbox s) <= fuel)%nat -> swp (route_loop fuel now) (fun _ s' => stage s s') s.
Proof.
  revert s. induction fuel as [|fuel IH]; intros s Hs Hf; cbn [route_loop]; apply swp_bind, swp_get.
  { destruct (ses_inbox s) eqn:E; [by apply stage_refl|]. cbn in Hf. lia. }
  destruct (ses_inbox s) as [|msg inbox] eqn:E; [by apply stage_refl|]. apply swp_bind, swp_modify.
  assert (G : stage s (ses_with_inbox inbox s)) by (apply stage_same; try done; apply Hs).
  eapply swp_seq; [apply route_message_spec, G|]. intros [] s2 [G2 B2]. cbn in B2.
  eapply swp_mono; [|apply IH; [apply G2|rewrite B2; cbn in Hf; lia]].
  intros [] s3 G3. eapply stage_trans; [done|]. by eapply stage_trans.
Qed.
Lemma route_inbox_spec now s : ses_inv s -> swp (route_inbox now) (fun _ s' => stage s s') s.
Proof. intros Hs. apply swp_bind, swp_get. by apply route_loop_spec. Qed.
(** ** Time and the claim *)

Lemma millis_since_u32 now last : in_u 32 (Instant.millis_since now last).
Proof.
  unfold Instant.millis_since. destruct (_ <? _); [done|]. by apply in_u_wrap.
Qed.
Lemma update_stage e s :
  ses_inv s -> in_u 32 e -> swp (net_call (net_update e)) (fun _ s' => stage s s') s.
Proof. intros Hs He. apply net_call_stage; [|done]. apply keeps_wp; [by apply keeps_update|apply Hs]. Qed.
Lemma with_last_tick_stage v s : ses_inv s -> stage s (ses_with_last_tick v s).
Proof. intros Hs. apply stage_same; try done; apply Hs. Qed.
Lemma advance_time_spec now s : ses_inv s -> swp (advance_time now) (fun _ s' => stage s s') s.
Proof.
  intros Hs. apply swp_bind, swp_get. destruct (ses_last_tick s) as [last|].
  2:{ apply (stage_seq _ _ s); [by apply update_stage|by apply stage_refl|]. intros [] s1 G1. apply swp_modify.
      eapply stage_trans; [done|]. apply with_last_tick_stage, G1. }
  destruct (_ <? _).
  - apply swp_bind, swp_modify, swp_modify. eapply stage_trans; [by apply stage_push|].
    apply with_last_tick_stage. by destruct Hs; split.
  - cbv zeta. destruct (_ <? _); [|by apply stage_refl].
    apply (stage_seq _ _ s); [apply update_stage; [done|apply millis_since_u32]|by apply stage_refl|].
    intros [] s1 G1. apply swp_modify. eapply stage_trans; [done|]. apply with_last_tick_stage, G1.
Qed.
Lemma detect_claim_spec s : ses_inv s -> swp detect_claim (fun _ s' => stage s s') s.
Proof.
  intros Hs. apply swp_bind, swp_get. cbv zeta. case_bool_decide; [by apply stage_refl|].
  apply swp_bind, swp_modify. set (s1 := ses_with_pending _ s).
  assert (G1 : stage s s1) by by apply stage_push. apply swp_bind.
  assert (Hrest : forall s2, stage s s2 -> swp (ses_modify (ses_with_last_claim (ses_claim_state s)))
                    (fun _ s' => stage s s') s2).
  { intros s2 G2. apply swp_modify. eapply stage_trans; [done|]. apply stage_same; try done; apply G2. }
  case_bool_decide; [|by apply Hrest]. apply swp_modify, Hrest. eapply stage_trans; [done|].
  apply stage_same; try done; apply G1.
Qed.
Lemma raise_first_spec dtc ps ps' :
  Forall plugin_ok ps -> raise_first dtc ps = Some ps' ->
  Forall plugin_ok ps' /\ (Exists condition ps' -> Exists condition ps).
Proof.
  revert ps'. induction ps as [|p ps IH]; intros ps' Hok; [done|]. apply Forall_cons in Hok as [Hp Hok]. cbn.
  destruct (raise_dtc dtc p) as [p'|] eqn:E.
  - intros [= <-]. destruct (raise_dtc_law _ _ _ Hp E) as [Hp' Hc]. split; [by constructor|].
    rewrite !Exists_cons. tauto.
  - destruct (raise_first dtc ps) as [qs|]; [|done]. intros [= <-]. destruct (IH qs Hok eq_refl) as [Hq Hc].
    split; [by constructor|]. rewrite !Exists_cons. tauto.
Qed.
Lemma raise_violation_spec a s : ses_inv s -> swp (raise_violation a) (fun _ s' => stage s s') s.
Proof.
  intros Hs. apply swp_bind, swp_get. destruct (raise_first _ _) as [ps|] eqn:E; apply swp_modify; [|by apply stage_push].
  destruct (raise_first_spec _ _ _ (sv_plugins _ Hs) E) as [Hok Hc]. split; [|done|].
  - destruct Hs. by split.
  - exists []. rewrite app_nil_r. split; [done|]. left. by apply Hc.
Qed.
Lemma ses_each_stage {A} (f : A -> S unit) l s :
  (forall x s, ses_inv s -> swp (f x) (fun _ s' => stage s s') s) -> ses_inv s ->
  swp (ses_each f l) (fun _ s' => stage s s') s.
Proof.
  intros Hf. revert s. induction l as [|x l IH]; intros s Hs; [by apply stage_refl|].
  apply (stage_seq _ _ s); [by apply Hf|by apply stage_refl|]. intros [] s1 G1.
  eapply swp_mono; [|apply IH, G1]. intros [] s2 G2. by eapply stage_trans.
Qed.
Lemma raise_violations_spec s : ses_inv s -> swp raise_address_violation_dtcs (fun _ s' => stage s s') s.
Proof.
  intros Hs. apply swp_bind, swp_get, swp_bind, swp_modify.
  assert (G : stage s (ses_with_violations [] s)) by (apply stage_same; try done; apply Hs).
  eapply swp_mono; [|apply ses_each_stage; [apply raise_violation_spec|apply G]].
  intros [] s' G'. by eapply stage_trans.
Qed.

(** ** Dispatch *)

(** Showing events: each plugin has reacted to each, and what they emit is shorter-lived. *)
Record shown (round : list Event) (bound : nat) (s : Session) (o : PluginOut) (s' : Session) : Prop := {
  sh_inv : ses_inv s';
  sh_events : ses_events s' = ses_events s ++ round;
  sh_sends : Forall send_ok (po_sends o);
  sh_actions : po_actions o = [];
  sh_pending : exists more, ses_pending s' = ses_pending s ++ more
    /\ Forall (fun e => hops e < bound)%nat more
    /\ (at_condition s' -> at_condition s \/ Exists announces more);
  sh_bound : po_sends o <> [] -> forall e, a_send_failed e -> (hops e < bound)%nat;
  sh_reacted : Forall (fun e => Forall (reacted e) (ses_plugins s')) round;
  sh_keeps : forall e, Forall (reacted e) (ses_plugins s) -> Forall (reacted e) (ses_plugins s')
}.
Lemma each_event_spec e ctx ps :
  Forall plugin_ok ps ->
  exists ps' o, each_plugin (on_event e ctx) ps = Some (ps', o) /\ Forall plugin_ok ps'
    /\ Forall send_ok (po_sends o) /\ po_actions o = []
    /\ (Exists condition ps' -> Exists condition ps \/ Exists announces (po_events o))
    /\ Forall (reacted e) ps' /\ (forall e', Forall (reacted e') ps -> Forall (reacted e') ps')
    /\ Forall (fun e' => hops e' < hops e)%nat (po_events o)
    /\ (po_sends o <> [] -> forall e', a_send_failed e' -> (hops e' < hops e)%nat).
Proof.
  induction 1 as [|p ps Hp _ (ps' & os & E & I & T & A & C & R & K & B & F)].
  { exists [], out_none. by split_and!; auto. }
  destruct (on_event_law e ctx p Hp) as (p' & o & Ep & Ip & Tp & Ap & Cp & Rp & Kp & Bp & Fp).
  exists (p' :: ps'), (out_app o os). cbn. rewrite Ep. cbn. rewrite E. cbn. rewrite Ap, A.
  split_and!; try done; [by constructor|by apply Forall_app| |by constructor| |by apply Forall_app|].
  - rewrite !Exists_cons, Exists_app. tauto.
  - intros e' Hr. apply Forall_cons in Hr as [H1 H2]. constructor; auto.
  - intros Hne. destruct (po_sends o) as [|c l] eqn:Eo; [apply F; by rewrite app_nil_l in Hne|by apply Fp].
Qed.
Lemma show_event_spec ctx e bound s :
  ses_inv s -> (hops e <= bound)%nat -> swp (show_event ctx e) (fun o s' => shown [e] bound s o s') s.
Proof.
  intros Hs Hb. apply swp_bind, swp_bind, swp_get.
  destruct (each_event_spec e ctx (ses_plugins s) (sv_plugins _ Hs)) as (ps & o & E & I & T & A & C & R & K & B & F).
  unfold of_plugins. rewrite E. apply swp_bind. cbn. split; cbn; try done.
  - destruct Hs. by split.
  - exists (po_events o). split_and!; [done| |done]. eapply Forall_impl; [exact B|]. cbn. lia.
  - intros Hne e' He'. specialize (F Hne e' He'). lia.
  - by constructor.
Qed.
Lemma show_events_spec ctx round bound s :
  ses_inv s -> Forall (fun e => hops e <= bound)%nat round ->
  swp (show_events ctx round) (fun o s' => shown round bound s o s') s.
Proof.
  intros Hs Hb. revert s Hs. induction Hb as [|e round He Hb IH]; intros s Hs; cbn [show_events].
  { apply swp_ret. split; cbn; try done; [by rewrite app_nil_r|]. exists [].
    split_and!; [by rewrite app_nil_r|done|by left]. }
  eapply swp_seq; [by apply show_event_spec|]. intros o1 s1 H1. eapply swp_seq; [by apply IH, H1|].
  intros o2 s2 H2. apply swp_ret.
  destruct H1 as [I1 E1 S1 A1 (m1 & P1 & B1 & C1) F1 R1 K1], H2 as [I2 E2 S2 A2 (m2 & P2 & B2 & C2) F2 R2 K2].
  split; cbn; try done.
  - by rewrite E2, E1, <-app_assoc.
  - by apply Forall_app.
  - by rewrite A1, A2.
  - exists (m1 ++ m2). rewrite P2, P1, app_assoc. split_and!; [done|by apply Forall_app|].
    rewrite Exists_app. tauto.
  - intros Hne. destruct (po_sends o1) as [|c l] eqn:Eo; [by apply F2|by apply F1].
  - constructor; [|done]. apply K2. by apply Forall_cons in R1 as [? _].
  - auto.
Qed.
(** What a dispatch leaves: nothing pending, and the application's queue longer by everything that
    was pending and what followed, all of it seen by every plugin. *)
Record delivered (s s' : Session) : Prop := {
  dl_inv : ses_inv s';
  dl_pending : ses_pending s' = [];
  dl_events : exists new, ses_events s' = ses_events s ++ new /\ ses_pending s `prefix_of` new
    /\ Forall (fun e => Forall (reacted e) (ses_plugins s')) new
    /\ (at_condition s' -> at_condition s \/ Exists announces new);
  dl_keeps : forall e, Forall (reacted e) (ses_plugins s) -> Forall (reacted e) (ses_plugins s')
}.
Lemma dispatch_rounds_spec rounds ctx s :
  ses_inv s -> Forall (fun e => hops e < rounds)%nat (ses_pending s) ->
  swp (dispatch_rounds rounds ctx) (fun _ s' => delivered s s') s.
Proof.
  revert s. induction rounds as [|rounds IH]; intros s Hs Hb; cbn [dispatch_rounds].
  { assert (E : ses_pending s = []) by (destruct Hb; [done|lia]). apply swp_ret. split; try done.
    exists []. rewrite app_nil_r, E. split_and!; try done. by left. }
  apply swp_bind, swp_get. destruct (ses_pending s) as [|e0 l0] eqn:E.
  { apply swp_ret. split; try done. exists []. rewrite app_nil_r, E. split_and!; try done. by left. }
  rewrite <-E in *. clear e0 l0 E. apply swp_bind, swp_modify.
  eapply swp_seq.
  { apply (show_events_spec _ _ rounds); [by destruct Hs; split|]. eapply Forall_impl; [exact Hb|]. cbn. lia. }
  intros o s1 [I1 E1 T1 A1 (m1 & P1 & B1 & C1) F1 R1 K1]. eapply swp_seq; [by apply flush_spec|].
  intros [] s2 [I2 Q2 E2 _ (f & P2 & F2 & N2)]. rewrite A1. apply swp_bind, apply_nothing. cbn in P1, E1.
  rewrite P1 in P2. eapply swp_mono; [|apply IH; [done|]].
  - intros [] s3 [I3 P3 (new & E3 & X3 & R3 & C3) K3]. split; [done|done| |].
    + exists (ses_pending s ++ new). rewrite E3, E2, E1, app_assoc. split_and!; [done|by eexists| |].
      * apply Forall_app. split; [|done]. eapply Forall_impl; [exact R1|]. intros e He.
        apply K3. by rewrite Q2.
      * intros Hc. rewrite Exists_app. destruct (C3 Hc) as [Hc'|?]; [|tauto].
        unfold at_condition in Hc'. rewrite Q2 in Hc'. destruct (C1 Hc') as [?|Ha]; [by left|].
        right. right. destruct X3 as [k ->]. rewrite P2. rewrite !Exists_app. tauto.
    + intros e He. apply K3. rewrite Q2. by apply K1.
  - rewrite P2. apply Forall_app. split; [done|]. destruct (po_sends o) as [|c l] eqn:Eo; [by rewrite N2|].
    eapply Forall_impl; [exact F2|]. intros e He. by apply F1.
Qed.
Lemma dispatch_spec now s : ses_inv s -> swp (dispatch_events now) (fun _ s' => delivered s s') s.
Proof.
  intros Hs. apply swp_bind, swp_get. eapply swp_seq.
  { apply dispatch_rounds_spec; [done|]. apply Forall_forall. intros e _. apply hops_bound. }
  intros [] s1 [I1 P1 (new & E1 & X1 & R1 & C1) K1]. apply swp_modify.
  split; cbn; [by destruct I1; split|done| |done].
  exists new. rewrite P1, app_nil_r. by split_and!.
Qed.
(** ** Feed and tick *)

(** What a feed or a tick leaves. *)
Record served (s s' : Session) : Prop := {
  vd_inv : ses_inv s';
  vd_pending : ses_pending s' = [];
  vd_events : exists new, ses_events s' = ses_events s ++ new /\ ses_pending s `prefix_of` new
    /\ Forall (fun e => Forall (reacted e) (ses_plugins s')) new
    /\ (at_condition s' -> at_condition s \/ Exists announces new)
}.
Lemma stage_delivered s s1 s2 : stage s s1 -> delivered s1 s2 -> served s s2.
Proof.
  intros [_ E1 (more & P1 & C1)] [I2 P2 (new & E2 & X2 & R2 & C2) _]. split; [done|done|].
  exists new. rewrite E2, E1. split_and!; [done| |done|].
  - destruct X2 as [k ->]. rewrite P1, <-app_assoc. by eexists.
  - intros Hc. destruct (C2 Hc) as [H1|]; [|tauto]. destruct (C1 H1) as [|H2]; [tauto|]. right.
    destruct X2 as [k ->]. rewrite P1. rewrite !Exists_app. tauto.
Qed.
Lemma ses_feed_spec port frame now s :
  ses_inv s -> FrameOps.wf frame -> swp (ses_feed port frame now) (fun _ s' => served s s') s.
Proof.
  intros Hs Hf. eapply swp_seq; [by apply advance_time_spec|]. intros [] s1 G1. eapply swp_seq.
  { apply net_call_stage; [|apply G1]. apply keeps_wp; [by apply keeps_feed|apply G1]. }
  intros [] s2 G2. eapply swp_seq; [apply route_inbox_spec, G2|]. intros [] s3 G3.
  eapply swp_seq; [apply detect_claim_spec, G3|]. intros [] s4 G4.
  eapply swp_mono; [|apply dispatch_spec, G4]. intros [] s5. apply stage_delivered.
  eapply stage_trans; [done|]. eapply stage_trans; [done|]. by eapply stage_trans.
Qed.
Lemma tick_plugins_spec ctx ps d :
  Forall plugin_ok ps ->
  exists ps' o d', tick_plugins ctx ps d = Some (ps', o, d') /\ Forall plugin_ok ps'
    /\ Forall send_ok (po_sends o) /\ po_actions o = []
    /\ (Exists condition ps' -> Exists condition ps \/ Exists announces (po_events o)).
Proof.
  intros Hok. revert d. induction Hok as [|p ps Hp _ IH]; intros d.
  { exists [], out_none, d. by split_and!; auto. }
  destruct (on_tick_law ctx p Hp) as (p' & o & at_ & Ep & Ip & Tp & Ap & Cp).
  destruct (IH (earlier d at_)) as (ps' & os & d' & E & I & T & A & C).
  exists (p' :: ps'), (out_app o os), d'. cbn. rewrite Ep. cbn. rewrite E. cbn. rewrite Ap, A.
  split_and!; try done; [by constructor|by apply Forall_app|]. rewrite !Exists_cons, Exists_app. tauto.
Qed.
Lemma ses_tick_spec now s : ses_inv s -> swp (ses_tick now) (fun _ s' => served s s') s.
Proof.
  intros Hs. eapply swp_seq; [by apply advance_time_spec|]. intros [] s1 G1.
  eapply swp_seq; [apply route_inbox_spec, G1|]. intros [] s2 G2. apply swp_bind, swp_get.
  destruct (tick_plugins_spec (ctx_at now s2) (ses_plugins s2) None (sv_plugins _ (sg_inv _ _ G2)))
    as (ps & o & d & E & I & T & A & C).
  unfold of_plugins. rewrite E. apply swp_bind. cbn. apply swp_bind, swp_modify, swp_bind, swp_modify.
  set (s3 := ses_with_pending _ _).
  assert (G3 : stage s2 s3).
  { split; [|done|]. - destruct (sg_inv _ _ G2). by split. - by exists (po_events o). }
  eapply swp_seq; [apply flush_spec; [apply G3|done]|]. intros [] s4 F4. apply flushed_stage in F4 as G4.
  rewrite A. apply swp_bind, apply_nothing. eapply swp_seq; [apply raise_violations_spec, G4|]. intros [] s5 G5.
  eapply swp_seq; [apply detect_claim_spec, G5|]. intros [] s6 G6.
  eapply swp_mono; [|apply dispatch_spec, G6]. intros [] s7. apply stage_delivered.
  do 4 (eapply stage_trans; [done|]). by eapply stage_trans.
Qed.

(** ** Every call *)

Inductive SessCall : Type :=
| KStart
| KFeed (port : Z) (frame : Frame) (now : Instant.t)
| KTick (now : Instant.t)
| KPushEvent (event : Event)
| KPollTransmit | KPollEvent
| KDrain (try_ref : Event -> option Event)
| KSendRaw (pgn : Pgn) (data : list Z) (dst : Address) (priority : Priority.t)
| KPlugin (type : nat) (f : P -> P).
Definition ses_discard {A} (m : S A) : S unit := _ ← m; mret tt.
Definition ses_call (k : SessCall) : S unit :=
  match k with
  | KStart => ses_discard ses_start
  | KFeed port frame now => ses_feed port frame now
  | KTick now => ses_tick now
  | KPushEvent event => ses_push_event event
  | KPollTransmit => ses_discard poll_transmit
  | KPollEvent => ses_discard poll_event
  | KDrain try_ref => ses_discard (ses_drain try_ref)
  | KSendRaw pgn data dst priority => ses_discard (send_raw pgn data dst priority)
  | KPlugin type f => get_mut type f
  end.
Definition ses_call_ok (k : SessCall) (s : Session) : Prop :=
  match k with
  | KStart => restartable (ses_net s)
  | KFeed _ frame _ => FrameOps.wf frame
  | KSendRaw pgn data dst _ => send_ok (mkSend pgn data dst Priority.Default)
  | KPlugin _ f => forall p, plugin_ok p -> plugin_ok (f p)
  | _ => True
  end.
Inductive ses_reach (s0 : Session) : Session -> Prop :=
| reach_start : ses_reach s0 s0
| reach_call s k s' : ses_reach s0 s -> ses_call_ok k s -> ses_call k s = Ok (tt, s') -> ses_reach s0 s'.
Lemma swp_discard {A} (m : S A) Q s : swp m (fun _ => Q) s -> swp (ses_discard m) (fun _ => Q) s.
Proof. intros Hm. eapply swp_seq; [exact Hm|]. intros a s' H'. by apply swp_ret. Qed.
Lemma take_outbound_safe (n : IsoNet (E:=NullLink)) : net_inv n -> wp take_outbound (fun _ => net_inv) n.
Proof.
  intros Hn. unfold wp, take_outbound, mbind, net_bind, get_net. destruct (outbound n); [done|].
  cbn. destruct Hn. by split.
Qed.
Lemma alter_first_ok type f ps :
  (forall p, plugin_ok p -> plugin_ok (f p)) -> Forall plugin_ok ps -> Forall plugin_ok (alter_first type f ps).
Proof.
  intros Hf. induction 1 as [|p ps Hp Hps IH]; cbn; [done|]. case_match; constructor; auto.
Qed.
Lemma ses_call_spec k s :
  ses_inv s -> ses_call_ok k s ->
  swp (ses_call k) (fun _ s' => ses_inv s' /\ match k with KFeed _ _ _ | KTick _ => served s s' | _ => True end) s.
Proof.
  intros Hs Hk. destruct k as [|port frame now|now|e| | |r|pgn data dst prio|type f]; cbn [ses_call ses_call_ok] in *.
  - apply swp_discard. eapply swp_mono; [|apply net_call_stage; [|done]].
    + intros a s' G. split; [apply G|done].
    + apply wp_start_claiming; [apply Hs|done].
  - eapply swp_mono; [|by apply ses_feed_spec]. intros [] s' V. split; [apply V|done].
  - eapply swp_mono; [|by apply ses_tick_spec]. intros [] s' V. split; [apply V|done].
  - apply swp_modify. split; [|done]. by destruct Hs; split.
  - apply swp_discard. eapply swp_mono; [|apply net_call_stage; [apply take_outbound_safe, Hs|done]].
    intros a s' G. split; [apply G|done].
  - apply swp_discard, swp_bind, swp_get. destruct (ses_events s); [by apply swp_ret|].
    apply swp_bind, swp_modify, swp_ret. split; [|done]. by destruct Hs; split.
  - apply swp_discard, swp_bind, swp_get, swp_bind, swp_modify, swp_ret. split; [|done]. by destruct Hs; split.
  - destruct Hk as (H1 & H2 & H3 & H4). apply swp_discard, swp_bind, swp_get.
    eapply swp_mono; [|by apply send_call_spec]. intros a s' F. split; [apply F|done].
  - apply swp_modify. split; [|done]. destruct Hs as [H1 H2 H3]. split; [done..|]. by apply alter_first_ok.
Qed.

(** ** Building *)

Lemma register_all_keeps pgns : keeps (register_all pgns).
Proof.
  induction pgns as [|pgn pgns IH]; cbn [register_all]; [apply keeps_ret|].
  apply keeps_bind; [|intros [u|e]; [done|apply keeps_ret]].
  unfold register_fast_packet_pgn. case_match; [apply keeps_ret|].
  apply keeps_bind; [|intros _; apply keeps_ret]. apply keeps_modify.
  intros lost n Hn. case_match; [done|]. destruct Hn. by split.
Qed.
Lemma session_build_spec name preferred ps config :
  config_ok config -> Name.wf name -> in_u 8 preferred -> Forall plugin_ok ps ->
  match session_build name preferred ps config with
  | Ok (Ok s) => ses_inv s /\ ses_plugins s = ps /\ ses_events s = [] /\ ses_pending s = []
                 /\ NoDup (plugin_type <$> ps)
  | Ok (Err _) => True
  | Err (NetFault (CounterExhausted n)) => exhausted n
  | Err _ => False
  end.
Proof.
  intros Hc Hn Hp Hok. unfold session_build. destruct (duplicate_type ps) eqn:Ed; [done|].
  apply negb_false_iff, bool_decide_eq_true in Ed. destruct (find_conflict _ _); [done|].
  match goal with |- match match ?m ?n with _ => _ end with _ => _ end =>
    assert (Hw : wp m (fun _ => net_inv) n)
  end.
  { apply keeps_wp; [|destruct Hc; by apply net_inv_new].
    apply keeps_bind; [apply keeps_modify; intros lost n []; by split|]. intros _.
    apply keeps_bind; [by apply keeps_create_internal|]. intros [cf|e]; [|apply keeps_ret].
    apply keeps_bind; [apply register_all_keeps|]. intros [u|e]; apply keeps_ret. }
  revert Hw. unfold wp. match goal with |- context [match ?x with Ok _ => _ | Err _ => _ end] => destruct x as [[[cf|e] n]|[|n]] eqn:E end; try done.
  intros Hi. split_and!; try done. split; [by apply net_inv_trace|done|done].
Qed.
Lemma reach_session_inv s0 s : ses_inv s0 -> ses_reach s0 s -> ses_inv s.
Proof.
  intros H0. induction 1 as [|s k s' _ IH Hk E]; [done|]. assert (Hs := ses_call_spec k s IH Hk).
  unfold swp in Hs. rewrite E in Hs. apply Hs.
Qed.
End session.
