(* ===== verification/SessionPlugins.v ===== *)
(** The modelled plugins in a session: the model of [src/session/plugins/shortcut_button.rs] and of
    the [Plugin] implementations of [heartbeat.rs], [maintain_power.rs], [tim.rs], [autodrive.rs]
    and [shortcut_button.rs], with the proof that they are what the session needs.

    An event that must stop the machine stops all of it in the call that shows it, and what the
    application calls between the feeds keeps the plugins fit for the session. *)
From stdpp Require Import gmap.
From S2P Require Export SessionCore AutoDriveProofs Heartbeat.
#[local] Open Scope Z_scope.

(** ** [shortcut_button.rs] *)

Definition ISB_REBROADCAST_MS : Z := 100.
Record ShortcutButton : Type := mkShortcut {
  bt_last : option (Address * ShortcutButtonMessage);
  bt_last_at : option Instant.t;
  bt_transition_count : Z;
  bt_local_state : option ShortcutButtonState.t;
  bt_last_tx_at : option Instant.t;
  bt_pending : list (list Z)
}.
Definition ShortcutButton_new : ShortcutButton := mkShortcut None None 0 None None [].
Definition button_broadcast (state : ShortcutButtonState.t) (b : ShortcutButton) : ShortcutButton :=
  if bool_decide (bt_local_state b <> Some state) then
    mkShortcut (bt_last b) (bt_last_at b)
      (match bt_local_state b with
       | Some _ => wrap 8 (bt_transition_count b + 1) | None => bt_transition_count b
       end) (Some state) None (bt_pending b)
  else b.
Definition button_current (now : Instant.t) (b : ShortcutButton) : option (Address * ShortcutButtonMessage) :=
  match bt_last b, bt_last_at b with
  | Some e, Some t => if Instant.millis_since now t <? ISB_TIMEOUT_MS then Some e else None
  | _, _ => None
  end.
Definition is_stop_active (now : Instant.t) (b : ShortcutButton) : bool :=
  match button_current now b with
  | Some e => bool_decide (sb_state e.2 = ShortcutButtonState.StopImplementOperations)
  | None => match bt_last b with Some _ => true | None => false end
  end.
Definition broadcast_with_transition_count (state : ShortcutButtonState.t) (count : Z) (b : ShortcutButton)
    : ShortcutButton :=
  mkShortcut (bt_last b) (bt_last_at b) (bt_transition_count b) (bt_local_state b) (bt_last_tx_at b)
    (bt_pending b ++ [encode_with_transition_count state count]).
Definition button_on_frame (msg : Message) (now : Instant.t) (b : ShortcutButton) : ShortcutButton * list Event :=
  if negb (has_usable_envelope_for_pgn msg PGN_SHORTCUT_BUTTON) then (b, [])
  else
    match decode_message msg with
    | None => (b, [])
    | Some decoded =>
        (mkShortcut (Some (m_source msg, decoded)) (Some now) (bt_transition_count b) (bt_local_state b)
           (bt_last_tx_at b) (bt_pending b),
         [EvShortcutButton (m_source msg) decoded])
    end.
(** The plugin and the payloads it broadcasts. *)
Definition button_on_tick (now : Instant.t) (b : ShortcutButton) : ShortcutButton * list (list Z) :=
  let queued := bt_pending b in
  let with_tx at_ := mkShortcut (bt_last b) (bt_last_at b) (bt_transition_count b) (bt_local_state b) at_ [] in
  match bt_local_state b with
  | Some state =>
      if match bt_last_tx_at b with
         | None => true
         | Some t => ISB_REBROADCAST_MS <=? Instant.millis_since now t
         end
      then (with_tx (Some now), queued ++ [encode_with_transition_count state (bt_transition_count b)])
      else (with_tx (bt_last_tx_at b), queued)
  | None => (with_tx (bt_last_tx_at b), queued)
  end.

(** ** One type for the plugins of a session *)

Inductive AnyPlugin : Type :=
| PHeartbeat (h : Heartbeat)
| PMaintainPower (m : MaintainPower)
| PTim (t : Tim)
| PAutoDrive (a : AutoDrive)
| PShortcutButton (b : ShortcutButton).
Definition broadcast (pgn : Pgn) (prio : Priority.t) (data : list Z) : SendCmd :=
  mkSend pgn data BROADCAST_ADDRESS prio.
Definition tim_out (o : TimOut) : PluginOut :=
  mkPluginOut ((fun f : TimFrame => mkSend f.1.1 f.1.2 f.2 Priority.Default) <$> o.2) (EvTim <$> o.1) [].
Definition tim_interests : list Pgn :=
  [PGN_FRONT_PTO; PGN_REAR_PTO; PGN_FRONT_HITCH; PGN_REAR_HITCH; PGN_FRONT_PTO_CMD; PGN_REAR_PTO_CMD;
   PGN_FRONT_HITCH_CMD; PGN_REAR_HITCH_CMD; PGN_AUX_VALVE_0_7; PGN_AUX_VALVE_8_15; PGN_AUX_VALVE_16_23;
   PGN_AUX_VALVE_24_31].
Definition any_on_frame (msg : Message) (ctx : PluginCtx) (p : AnyPlugin) : option (AnyPlugin * PluginOut) :=
  match p with
  | PHeartbeat h => '(h, es) ← hb_on_frame msg h; Some (PHeartbeat h, mkPluginOut [] (EvHeartbeat <$> es) [])
  | PMaintainPower m =>
      let '(m, es) := power_on_frame msg m in Some (PMaintainPower m, mkPluginOut [] (EvMaintainPower <$> es) [])
  | PTim t => let '(t, o) := plugin_on_frame msg t in Some (PTim t, tim_out o)
  | PAutoDrive a => let '(a, es) := auto_on_frame msg (cx_now ctx) a in Some (PAutoDrive a, mkPluginOut [] es [])
  | PShortcutButton b =>
      let '(b, es) := button_on_frame msg (cx_now ctx) b in Some (PShortcutButton b, mkPluginOut [] es [])
  end.
Definition any_on_tick (ctx : PluginCtx) (p : AnyPlugin) : option (AnyPlugin * PluginOut * option Instant.t) :=
  let now := cx_now ctx in
  match p with
  | PHeartbeat h =>
      let '(h, es, due) := hb_on_tick now h in
      Some (PHeartbeat h,
            mkPluginOut match due with
                        | Some sequence => [broadcast PGN_HEARTBEAT Priority.BelowNormal [sequence]]
                        | None => []
                        end (EvHeartbeat <$> es) [],
            Some (Instant.add_millis now HB_COMM_ERROR_TIMEOUT_MS))
  | PMaintainPower m =>
      let '(m, es, out) := power_on_tick now m in
      Some (PMaintainPower m,
            mkPluginOut (broadcast PGN_MAINTAIN_POWER Priority.Default <$> out) (EvMaintainPower <$> es) [], None)
  | PTim t => let '(t, o, at_) := plugin_on_tick now t in Some (PTim t, tim_out o, Some at_)
  | PAutoDrive a =>
      let '(a, es, frames, at_) := auto_on_tick now (cx_claimed ctx) a in
      Some (PAutoDrive a,
            mkPluginOut ((fun f : AutoFrame => broadcast f.1 Priority.Normal f.2) <$> frames) es [], Some at_)
  | PShortcutButton b =>
      let '(b, payloads) := button_on_tick now b in
      Some (PShortcutButton b,
            mkPluginOut (broadcast PGN_SHORTCUT_BUTTON Priority.BelowNormal <$> payloads) [] [],
            Some (Instant.add_millis now ISB_REBROADCAST_MS))
  end.
(** Only [Tim] and [AutoDrive] react to events. *)
Definition any_on_event (event : Event) (ctx : PluginCtx) (p : AnyPlugin) : option (AnyPlugin * PluginOut) :=
  match p with
  | PTim t => let '(t, o) := plugin_on_event (tim_reads event) t in Some (PTim t, tim_out o)
  | PAutoDrive a => let '(a, es) := auto_on_event event a in Some (PAutoDrive a, mkPluginOut [] es [])
  | _ => Some (p, out_none)
  end.
#[global] Instance any_plugin : Plugin AnyPlugin := {
  plugin_type p :=
    match p with
    | PHeartbeat _ => 0 | PMaintainPower _ => 1 | PTim _ => 2 | PAutoDrive _ => 3 | PShortcutButton _ => 4
    end%nat;
  plugin_name p :=
    match p with
    | PHeartbeat _ => "heartbeat" | PMaintainPower _ => "maintain_power" | PTim _ => "tim"
    | PAutoDrive _ => "autodrive" | PShortcutButton _ => "shortcut_button"
    end;
  interests p :=
    match p with
    | PHeartbeat _ => [PGN_HEARTBEAT] | PMaintainPower _ => [PGN_MAINTAIN_POWER] | PTim _ => tim_interests
    | PAutoDrive _ => autodrive_interests | PShortcutButton _ => [PGN_SHORTCUT_BUTTON]
    end;
  fast_packet_interests _ := [];
  transmits p := match p with PAutoDrive _ => autodrive_transmits | _ => [] end;
  on_frame := any_on_frame;
  on_tick := any_on_tick;
  on_event := any_on_event;
  raise_dtc _ _ := None
}.

(** ** A peer's fault is announced *)

Definition peer_faulted (e : HbPeer) : Prop := hr_state e.1.2 <> HbReceiverState.Normal.
Lemma any_peer_faulted_spec h : any_peer_faulted h = true <-> exists e, e ∈ hb_receivers h /\ peer_faulted e.
Proof.
  unfold any_peer_faulted. rewrite existsb_exists. split; intros (e & H1 & H2); exists e.
  - split; [by apply list_elem_of_In|]. by apply negb_true_iff, bool_decide_eq_false in H2.
  - split; [by apply list_elem_of_In|]. by apply negb_true_iff, bool_decide_eq_false.
Qed.
(** The states a receiver changes to without an event of the change, it takes with the byte that is
    reported for itself. *)
Lemma process_state s r r' es :
  process s r = Some (r', es) -> hr_state r' <> HbReceiverState.Normal -> hr_state r' <> hr_state r ->
  s = hb_seq.SENDER_ERROR \/ s = hb_seq.SHUTDOWN \/ hr_state r' = HbReceiverState.SequenceError
  \/ hr_state r' = HbReceiverState.CommError.
Proof.
  unfold process. destruct (_ || _); [by intros [= <- _]|]. cbv zeta.
  destruct (Z.eqb_spec s hb_seq.SENDER_ERROR); [by left|]. destruct (Z.eqb_spec s hb_seq.SHUTDOWN); [by right; left|].
  case_bool_decide; [by intros [= <- _]|]. destruct (negb _); [by intros [= <- _]|].
  destruct (s =? hb_seq.INIT); [by intros [= <- _]|].
  destruct (judge s _) as [[r1 es1]|] eqn:E; [|done]. cbn [mbind option_bind]. intros [= <- _] Hn Hc.
  revert E Hn Hc. unfold judge. cbv zeta. cbn [hr_state hr_with_last hr_with_time hr_with_shutdown].
  destruct (if _ =? _ then true else _); destruct (hr_state r) eqn:Er; try done; cbn;
    try case_match; intros [= <- _]; cbn; rewrite ?Er; intros; first [tauto|congruence].
Qed.
Lemma set_receiver_elem a r l e :
  e ∈ set_receiver a r l -> e ∈ l \/ e = (a, r, hr_state r).
Proof.
  induction l as [|x l IH]; cbn [set_receiver]; [by intros ?%elem_of_nil|].
  destruct (_ =? _); rewrite !elem_of_cons; naive_solver.
Qed.
Lemma receiver_for_elem a l e :
  e ∈ receiver_for a l -> e ∈ l \/ e = (a, HeartbeatReceiver_new, HbReceiverState.Normal).
Proof. unfold receiver_for. case_match; [tauto|]. rewrite elem_of_app, list_elem_of_singleton. tauto. Qed.
Definition hb_error (e : Event) : Prop := from_event e = Some SafeStopTrigger.HeartbeatError.
Lemma error_among e es : e ∈ es -> hb_error (EvHeartbeat e) -> Exists hb_error (EvHeartbeat <$> es).
Proof. intros He Hx. apply Exists_exists. exists (EvHeartbeat e). split; [by apply list_elem_of_fmap_2|done]. Qed.
Lemma frame_announces msg h h' es :
  hb_on_frame msg h = Some (h', es) -> any_peer_faulted h' = true ->
  any_peer_faulted h = true \/ Exists hb_error (EvHeartbeat <$> es).
Proof.
  unfold hb_on_frame. destruct (negb _); [intros [= <- _]; tauto|].
  destruct (m_data msg) as [|s tl]; [intros [= <- _]; tauto|]. destruct (_ || _); [intros [= <- _]; tauto|]. cbv zeta.
  destruct (find_receiver _ _) as [e0|] eqn:Ef; [|done]. cbn [mbind option_bind].
  destruct (process s e0.1.2) as [[r es']|] eqn:Ep; [|done]. cbn [mbind option_bind]. intros [= <- <-].
  rewrite !any_peer_faulted_spec. cbn [hb_receivers].
  apply find_receiver_some in Ef as [Hin _].
  assert (Hold : forall e, e ∈ receiver_for (m_source msg) (hb_receivers h) -> peer_faulted e ->
                   exists e, e ∈ hb_receivers h /\ peer_faulted e).
  { intros e He Hf. apply receiver_for_elem in He as [He| ->]; [by exists e|done]. }
  intros (e & He & Hf). apply set_receiver_elem in He as [He| ->]; [left; eauto|].
  destruct (decide (hr_state r = hr_state e0.1.2)) as [Hs|Hs].
  { left. apply (Hold e0); [done|]. unfold peer_faulted in *. cbn in Hf. congruence. }
  right. destruct (process_state _ _ _ _ Ep Hf Hs) as [->|[->|[E|E]]].
  - apply (error_among (HbSenderError (m_source msg))); [|done]. apply elem_of_app. left. by constructor.
  - apply (error_among (HbGracefulShutdown (m_source msg))); [|done]. apply elem_of_app. left. by constructor.
  - rewrite E. apply (error_among (HbSequenceError (m_source msg) s)); [|done].
    rewrite bool_decide_true by congruence. rewrite !elem_of_app. right. left. by constructor.
  - rewrite E. apply (error_among (HbCommError (m_source msg))); [|done].
    rewrite bool_decide_true by congruence. rewrite !elem_of_app. right. left. by constructor.
Qed.
Lemma tick_peer_announces elapsed e :
  peer_faulted (tick_peer elapsed e).1 -> peer_faulted e \/ HbCommError e.1.1 ∈ (tick_peer elapsed e).2.
Proof.
  destruct e as [[a r] c]. unfold tick_peer, peer_faulted, receiver_update. cbn.
  destruct (negb _); [tauto|]. destruct (_ && _); [|tauto]. cbn. intros _.
  destruct (decide (hr_state r = HbReceiverState.CommError)) as [->|Hn]; [by left|]. right.
  rewrite bool_decide_true by done. cbn. by constructor.
Qed.
Lemma tick_announces now h h' es due :
  hb_on_tick now h = (h', es, due) -> any_peer_faulted h' = true ->
  any_peer_faulted h = true \/ Exists hb_error (EvHeartbeat <$> es).
Proof.
  destruct (hb_on_tick_split now h) as (rest & sender & sent & ->). intros [= <- <- _].
  rewrite !any_peer_faulted_spec. cbn [hb_receivers]. intros (e & He & Hf).
  apply list_elem_of_fmap in He as (x & -> & Hx). apply list_elem_of_fmap in Hx as (e0 & -> & H0).
  destruct (tick_peer_announces _ _ Hf) as [H|H]; [left; by exists e0|]. right.
  apply (error_among (HbCommError e0.1.1)); [|done]. apply elem_of_app. left. by eapply tick_event.
Qed.

(** ** The frames are well typed *)

Lemma sender_byte elapsed s : in_u 8 (hs_sequence s) -> in_u 8 (hs_sequence (sender_update elapsed s).1).
Proof. intros Hs. unfold sender_update. by repeat case_match. Qed.
Lemma next_byte s : in_u 8 (hs_sequence s) -> in_u 8 (hs_sequence (next_sequence s).1) /\ in_u 8 (next_sequence s).2.
Proof.
  intros Hs. unfold next_sequence. destruct (negb _); [done|]. destruct (hs_special_pending s); [done|].
  assert (in_u 8 (if hb_seq.INIT <=? hs_sequence s then 0 else if hb_seq.MAX_NORMAL <=? hs_sequence s then 0
                  else hs_sequence s + 1)); [|done].
  unfold in_u, hb_seq.INIT, hb_seq.MAX_NORMAL in *. destruct (Z.leb_spec 251 (hs_sequence s)); [done|].
  destruct (Z.leb_spec 250 (hs_sequence s)); [done|]. lia.
Qed.
Lemma hb_tick_byte now h h' es due :
  in_u 8 (hs_sequence (hb_sender h)) -> hb_on_tick now h = (h', es, due) ->
  in_u 8 (hs_sequence (hb_sender h')) /\ match due with Some q => in_u 8 q | None => True end.
Proof.
  intros Hs. unfold hb_on_tick. destruct (advance_millis _ _) as [l e]. cbv zeta.
  destruct (sender_update e (hb_sender h)) as [s d] eqn:Es. assert (H1 := sender_byte e _ Hs). rewrite Es in H1.
  destruct d; [|by intros [= <- <- <-]]. destruct (next_sequence s) as [s' q] eqn:En.
  assert (H2 := next_byte s H1). rewrite En in H2. by intros [= <- <- <-].
Qed.
Lemma byte_u32 n : in_u 8 n -> in_u 32 n.
Proof. intros [? ?]. split; lia. Qed.
Lemma broadcast_ok pgn prio data :
  in_u 32 pgn -> bytes data -> (length data <= 8)%nat -> send_ok (broadcast pgn prio data).
Proof. intros Hp Hd Hl. split_and!; [done|done|done|]. unfold in_u. cbn [sd_data broadcast]. lia. Qed.
Lemma low_byte x : in_u 8 (Z.land x 0xFF).
Proof. by apply (in_u_land_ones 8). Qed.
(** A command's frames: whatever the setpoint, their bytes are bytes. *)
Definition auto_send (f : AutoFrame) : SendCmd := broadcast f.1 Priority.Normal f.2.
Lemma command_frames_ok a : Forall (fun f => send_ok (auto_send f)) (command_frames a).
Proof.
  unfold command_frames. constructor.
  - apply broadcast_ok; [done| |cbn; lia]. unfold guidance_cmd_encode.
    repeat (apply Forall_cons_2; [first [apply low_byte|by destruct (gc_status _)|done]|]). apply Forall_nil_2.
  - destruct (speed_mps _) as [v|]; [|constructor]. constructor; [|constructor].
    apply broadcast_ok; [done| |cbn; lia]. unfold speed_cmd_encode.
    repeat (apply Forall_cons_2; [first [apply low_byte|by destruct (direction_cmd _)|done]|]). apply Forall_nil_2.
Qed.
Lemma auto_tick_frames_ok now claimed a a' es fs at_ :
  auto_on_tick now claimed a = (a', es, fs, at_) -> Forall (fun f => send_ok (auto_send f)) fs.
Proof.
  unfold auto_on_tick. destruct (tick_link now a) as [a1 e1], (tick_button now a1) as [a2 e2],
    (tick_application now a2) as [a3 e3]. destruct (negb claimed); [intros [= _ _ <- _]; constructor|].
  destruct (send_required now a3) as [a4 f1] eqn:E1, (send_command now a4) as [a5 f2] eqn:E2.
  intros [= _ _ <- _]. apply Forall_app. split.
  - unfold send_required in E1. destruct (match ad_last_required_at a3 with Some _ => _ | None => _ end);
      injection E1 as _ <-; [|constructor]. constructor; [|constructor]. apply broadcast_ok; [done| |by cbn; lia].
    cbn. repeat (apply Forall_cons_2; [done|]). apply Forall_nil_2.
  - unfold send_command in E2. destruct (command_due now a4); injection E2 as _ <-; [apply command_frames_ok|constructor].
Qed.
Lemma power_tick_frames now m m' es out :
  power_on_tick now m = (m', es, out) -> Forall (fun d => d = power_encode power_request) out.
Proof.
  unfold power_on_tick. destruct (advance_millis _ _) as [l e].
  destruct (power_update e (mp_manager m)) as [[p ds] pes] eqn:E. destruct (emit_state_changes _) as [m1 es1].
  intros [= _ _ <-]. assert (Hd : Forall (fun d => d = power_request) ds).
  { unfold power_update in E. destruct (pm_role _).
    - destruct (update_tecu _ _) as [p1 es2]. injection E as _ <- _. constructor.
    - unfold update_cf in E. destruct (negb _); [injection E as _ <- _; constructor|]. cbv zeta in E.
      destruct (_ <=? _); injection E as _ <- _; by repeat constructor. }
  rewrite Forall_fmap. eapply Forall_impl; [exact Hd|]. by intros d ->.
Qed.
Lemma power_frame_ok : send_ok (broadcast PGN_MAINTAIN_POWER Priority.Default (power_encode power_request)).
Proof.
  apply broadcast_ok; [done| |by cbn; lia]. cbn. repeat (apply Forall_cons_2; [done|]). apply Forall_nil_2.
Qed.
Definition payload_ok (data : list Z) : Prop := bytes data /\ (length data <= 8)%nat.
Lemma button_payload_ok state count : in_u 8 count -> payload_ok (encode_with_transition_count state count).
Proof.
  intros Hc. split; [|cbn; lia]. unfold encode_with_transition_count.
  repeat (apply Forall_cons_2; [first [done|by destruct state]|]). apply Forall_nil_2.
Qed.
Definition button_ok (b : ShortcutButton) : Prop := in_u 8 (bt_transition_count b) /\ Forall payload_ok (bt_pending b).
Lemma button_tick_ok now b b' out :
  button_on_tick now b = (b', out) -> button_ok b -> button_ok b' /\ Forall payload_ok out.
Proof.
  unfold button_on_tick. intros E [H1 H2].
  destruct (bt_local_state b) as [state|]; [destruct (match bt_last_tx_at b with Some _ => _ | None => _ end)|];
    injection E as <- <-; (split; [by split|]); try done.
  apply Forall_app. split; [done|]. constructor; [by apply button_payload_ok|constructor].
Qed.
(** The frames [Tim] has queued. *)
Definition tim_send (f : TimFrame) : SendCmd := mkSend f.1.1 f.1.2 f.2 Priority.Default.
Definition tim_ok (t : Tim) : Prop := Forall (fun f => send_ok (tim_send f)) (tm_pending_tx t).
Lemma tim_drained t t' es fs :
  drain_pending t = (t', (es, fs)) -> tim_ok t -> tim_ok t' /\ Forall (fun f => send_ok (tim_send f)) fs.
Proof. intros [= <- <- <-] Ht. split; [constructor|done]. Qed.
Lemma tim_frame_ok msg t t' es fs :
  plugin_on_frame msg t = (t', (es, fs)) -> tim_ok t -> tim_ok t' /\ Forall (fun f => send_ok (tim_send f)) fs.
Proof.
  unfold plugin_on_frame. intros E Ht. destruct (negb _); [injection E as <- <- <-; split; [done|constructor]|].
  destruct (observe _ _) as [t1 es1] eqn:Eo. apply observe_keeps in Eo as (_ & _ & Ep & _).
  destruct (drain_pending t1) as [t2 [es2 fs2]] eqn:Ed. injection E as <- <- <-.
  eapply tim_drained; [done|]. unfold tim_ok. by rewrite Ep.
Qed.
Lemma tim_tick_ok now t t' es fs at_ :
  plugin_on_tick now t = (t', (es, fs), at_) -> tim_ok t -> tim_ok t' /\ Forall (fun f => send_ok (tim_send f)) fs.
Proof.
  unfold plugin_on_tick. destruct (advance_millis _ _) as [l e]. intros E Ht.
  match type of E with context [drain_pending ?x] => set (t1 := x) in E; assert (H1 : tim_ok t1) end.
  { unfold t1. destruct (0 <? e); [|done]. by destruct (authority_tick _ _) as [au []]. }
  destruct (drain_pending t1) as [t2 [es2 fs2]] eqn:Ed. injection E as <- <- <- _. by eapply tim_drained.
Qed.
Lemma tim_event_ok e t t' es fs :
  plugin_on_event e t = (t', (es, fs)) -> tim_ok t ->
  tim_ok t' /\ Forall (fun f => send_ok (tim_send f)) fs
  /\ (safe_mode_trigger e <> None -> sf_active (tm_safe_mode t') = true)
  /\ (sf_active (tm_safe_mode t) = true -> sf_active (tm_safe_mode t') = true)
  /\ (safe_mode_trigger e = None -> es = [] /\ fs = []).
Proof.
  unfold plugin_on_event. intros E Ht. destruct (safe_mode_trigger e) as [tr|].
  - destruct (sf_active (tm_safe_mode t)) eqn:Ea; injection E as <- <- <-; split_and!; try done; constructor.
  - injection E as <- <- <-. split_and!; try done; constructor.
Qed.

(** ** They are what the session needs *)

Definition any_ok (p : AnyPlugin) : Prop :=
  match p with
  | PHeartbeat h => in_u 8 (hs_sequence (hb_sender h))
  | PMaintainPower _ => True
  | PTim t => tim_ok t
  | PAutoDrive a => auto_inv a
  | PShortcutButton b => button_ok b
  end.
(** How long a chain an event can set off: a stop makes [Tim] send what it has queued, a failed send
    can stop the driving, and that stops nothing more. *)
Definition any_hops (e : Event) : nat :=
  match e with
  | EvBus (SendFailed _ _) => 1
  | EvMaintainPower PowerOffReported => 2
  | _ => match from_event e with Some _ => 2 | None => 0 end
  end.
(** An event that stops the driving finds it stopped for good, and one that is a safe mode trigger
    finds [Tim] in its safe mode. *)
Definition any_reacted (e : Event) (p : AnyPlugin) : Prop :=
  match p with
  | PAutoDrive a => auto_trigger e <> None -> stopped a
  | PTim t => safe_mode_trigger (tim_reads e) <> None -> sf_active (tm_safe_mode t) = true
  | _ => True
  end.
Definition any_condition (p : AnyPlugin) : Prop :=
  match p with PHeartbeat h => any_peer_faulted h = true | _ => False end.
Lemma stop_on_events trigger a : Forall (fun e => any_hops e = 0%nat) (stop_on trigger a).2.
Proof. unfold stop_on, trip_stop. destruct (trip _ _) as [l []]; by repeat constructor. Qed.
Lemma hops_of_trigger e : auto_trigger e <> None -> (0 < any_hops e)%nat.
Proof.
  destruct e as [|[]| | | | | | |[]| | | |]; unfold auto_trigger, any_hops; cbn;
    repeat case_match; try done; lia.
Qed.
Lemma hops_of_safe_mode e : safe_mode_trigger (tim_reads e) <> None -> any_hops e = 2%nat.
Proof.
  unfold tim_reads, any_hops. destruct e as [|[]| | | | | | |[]| | | |]; cbn; repeat case_match; done.
Qed.
#[global, refine] Instance any_laws : PluginLaws AnyPlugin := {
  plugin_ok := any_ok;
  hops := any_hops;
  reacted := any_reacted;
  condition := any_condition;
  announces := hb_error
}.
Proof.
  - intros e. unfold any_hops, MAX_EVENT_DISPATCH_ROUNDS. repeat case_match; lia.
  - intros msg ctx p Hp. destruct p as [h|m|t|a|b]; cbn [any_ok on_frame any_plugin any_on_frame] in *.
    + destruct (hb_on_frame_some msg h) as [[h' es] E]. rewrite E. eexists _, _. split; [done|].
      split_and!; try done; [|intros Hc; by eapply frame_announces].
      cbn. unfold hb_on_frame in E. repeat (case_match; simplify_option_eq; try done).
    + destruct (power_on_frame msg m) as [m' es]. eexists _, _. by split_and!.
    + destruct (plugin_on_frame msg t) as [t' [es fs]] eqn:E. apply tim_frame_ok in E as [H1 H2]; [|done].
      eexists _, _. split; [done|]. split_and!; try done. cbn. by rewrite Forall_fmap.
    + destruct (auto_on_frame msg (cx_now ctx) a) as [a' es] eqn:E. eexists _, _. split; [done|].
      split_and!; try done. destruct (auto_on_frame_spec msg (cx_now ctx) a Hp) as [I _]. by rewrite E in I.
    + destruct (button_on_frame msg (cx_now ctx) b) as [b' es] eqn:E. eexists _, _. split; [done|].
      split_and!; try done. revert E. unfold button_on_frame. destruct (negb _); [by intros [= <- _]|].
      destruct (decode_message msg); by intros [= <- _].
  - intros ctx p Hp. destruct p as [h|m|t|a|b]; cbn [any_ok on_tick any_plugin any_on_tick] in *.
    + destruct (hb_on_tick (cx_now ctx) h) as [[h' es] due] eqn:E.
      assert (Hd := hb_tick_byte _ _ _ _ _ Hp E). eexists _, _, _. split; [done|]. split_and!; try done.
      * apply Hd.
      * cbn. destruct due as [q|]; [|constructor]. constructor; [|constructor].
        apply broadcast_ok; [done| |cbn; lia]. constructor; [apply Hd|constructor].
      * intros Hc. by eapply tick_announces.
    + destruct (power_on_tick (cx_now ctx) m) as [[m' es] out] eqn:E. apply power_tick_frames in E.
      eexists _, _, _. split; [done|]. split_and!; try done. cbn. rewrite Forall_fmap.
      eapply Forall_impl; [exact E|]. intros d ->. apply power_frame_ok.
    + destruct (plugin_on_tick (cx_now ctx) t) as [[t' [es fs]] at_] eqn:E. apply tim_tick_ok in E as [H1 H2]; [|done].
      eexists _, _, _. split; [done|]. split_and!; try done. cbn. by rewrite Forall_fmap.
    + destruct (auto_on_tick (cx_now ctx) (cx_claimed ctx) a) as [[[a' es] fs] at_] eqn:E.
      assert (Hf := auto_tick_frames_ok _ _ _ _ _ _ _ E). apply auto_on_tick_spec in E; [|done].
      eexists _, _, _. split; [done|]. split_and!; try done; [apply E|]. cbn. by rewrite Forall_fmap.
    + destruct (button_on_tick (cx_now ctx) b) as [b' out] eqn:E. apply button_tick_ok in E as [H1 H2]; [|done].
      eexists _, _, _. split; [done|]. split_and!; try done. cbn. rewrite Forall_fmap.
      eapply Forall_impl; [exact H2|]. intros d [? ?]. by apply broadcast_ok.
  - intros e ctx p Hp. destruct p as [h|m|t|a|b]; cbn [any_ok on_event any_plugin any_on_event any_reacted] in *.
    + eexists _, _. split; [done|]. by split_and!; try left.
    + eexists _, _. split; [done|]. by split_and!.
    + destruct (plugin_on_event (tim_reads e) t) as [t' [es fs]] eqn:E.
      apply tim_event_ok in E as (H1 & H2 & H3 & H4 & H5); [|done]. eexists _, _. split; [done|].
      split_and!; try done; cbn.
      * by rewrite Forall_fmap.
      * intros e' He Ht. auto.
      * destruct (decide (safe_mode_trigger (tim_reads e) = None)) as [Hn|Hn].
        { destruct (H5 Hn) as [-> _]. constructor. }
        rewrite (hops_of_safe_mode _ Hn). apply Forall_fmap, Forall_true. intros x. cbn. lia.
      * intros Hne e' (pgn & dst & ->). rewrite (hops_of_safe_mode e); [cbn; lia|].
        intros Hn. destruct (H5 Hn) as [_ ->]. by apply Hne.
    + destruct (auto_on_event e a) as [a' es] eqn:E. destruct (auto_on_event_spec e a Hp) as [I S].
      assert (K := stopped_stays (DEvent e) a). cbn in K. rewrite E in I, S, K. eexists _, _. split; [done|].
      split_and!; try done; cbn in *; [by auto|]. unfold auto_on_event in E. cbv zeta in E.
      destruct (auto_trigger e) as [t|] eqn:Et; [|injection E as _ <-; constructor].
      assert (Hs := stop_on_events t (set_gnss (hazards_observe e (ad_gnss a)) a)). rewrite E in Hs.
      assert (Hh := hops_of_trigger e). rewrite Et in Hh. eapply Forall_impl; [exact Hs|]. cbn.
      intros x ->. by apply Hh.
    + eexists _, _. split; [done|]. by split_and!.
  - done.
Defined.

(** ** The application's calls on its plugins *)

(** What the application may call through [Session::get_mut]. *)
Inductive AppCall : Type :=
| AHbTrack (address : Address) | AHbUntrack (address : Address) | AHbError | AHbShutdown
| APowerKeyOff | APowerKeyOn | APowerRequest (need_power : bool)
| ATim (k : PluginCall)
| AAuto (k : AutoCall)
| AButton (state : ShortcutButtonState.t)
| AButtonCount (state : ShortcutButtonState.t) (count : Z).
Definition app_type (k : AppCall) : nat :=
  match k with
  | AHbTrack _ | AHbUntrack _ | AHbError | AHbShutdown => 0
  | APowerKeyOff | APowerKeyOn | APowerRequest _ => 1
  | ATim _ => 2
  | AAuto _ => 3
  | AButton _ | AButtonCount _ _ => 4
  end.
Definition app_apply (k : AppCall) (p : AnyPlugin) : AnyPlugin :=
  match k, p with
  | AHbTrack a, PHeartbeat h => PHeartbeat (hb_track a h)
  | AHbUntrack a, PHeartbeat h => PHeartbeat (hb_untrack a h)
  | AHbError, PHeartbeat h => PHeartbeat (hb_signal_error h)
  | AHbShutdown, PHeartbeat h => PHeartbeat (hb_signal_shutdown h)
  | APowerKeyOff, PMaintainPower m => PMaintainPower (mp_key_off m)
  | APowerKeyOn, PMaintainPower m => PMaintainPower (mp_key_on m)
  | APowerRequest need, PMaintainPower m => PMaintainPower (mp_request_power need m)
  | ATim k, PTim t => PTim (plugin_call k t).1
  | AAuto k, PAutoDrive a => PAutoDrive (auto_call k a).1
  | AButton state, PShortcutButton b => PShortcutButton (button_broadcast state b)
  | AButtonCount state n, PShortcutButton b => PShortcutButton (broadcast_with_transition_count state n b)
  | _, p => p
  end.
(** The callbacks of a plugin are the session's to call; a rate and a count are bytes. *)
Definition app_ok (k : AppCall) : Prop :=
  match k with
  | ATim (CHitchPosition _ _ rate) => in_u 8 rate
  | ATim (CFrame _ | CEvent _ | CTick _) => False
  | AAuto (DFrame _ _ | DEvent _ | DTick _ _) => False
  | AButtonCount _ count => in_u 8 count
  | _ => True
  end.
Lemma tim_push f t : tim_ok t -> send_ok (tim_send f) -> tim_ok (push_tx f t).
Proof. intros Ht Hf. apply Forall_app. split; [done|]. by constructor. Qed.
Lemma tim_send_ok pgn data : in_u 32 pgn -> bytes data -> (length data <= 8)%nat -> send_ok (tim_send (pgn, data, BROADCAST_ADDRESS)).
Proof. intros ? ? ?. by apply (broadcast_ok pgn Priority.Default data). Qed.
Ltac eight_bytes :=
  repeat (apply Forall_cons_2; [first [apply low_byte|done]|]); apply Forall_nil_2.
Lemma tim_guarded c pgn data t :
  in_u 32 pgn -> bytes data -> (length data <= 8)%nat -> tim_ok t -> tim_ok (guarded c pgn data t).1.
Proof.
  intros H1 H2 H3 Ht. unfold guarded. destruct (negb _); [done|]. destruct (ensure_command _ _); [|done].
  by apply tim_push, tim_send_ok.
Qed.
Lemma tim_keeps k t : app_ok (ATim k) -> tim_ok t -> tim_ok (plugin_call k t).1.
Proof.
  intros Hk Ht. destruct k as [r| | | |i|tr| |h p v|p cw|p|p s|h s|msg|e|now]; cbn [app_ok plugin_call fst] in *; try done.
  - unfold request_authority. by destruct (authority_request _ _) as [a []].
  - unfold grant_authority. by destruct (authority_grant _) as [a []].
  - unfold tim_set_interlocks. cbv zeta. by case_bool_decide.
  - apply tim_guarded; [by destruct h| |cbn; lia|done]. unfold hitch_cmd_encode. cbn. eight_bytes.
  - apply tim_guarded; [by destruct p| |cbn; lia|done]. eight_bytes.
  - apply tim_guarded; [by destruct p| |cbn; lia|done]. eight_bytes.
  - apply tim_push; [done|]. apply tim_send_ok; [by destruct p| |cbn; lia].
    unfold pto_encode. destruct (pto_engaged s), (pto_cw_direction s); eight_bytes.
  - unfold broadcast_hitch_status, hitch_try_encode. destruct (hitch_validate s); [|done].
    apply tim_push; [done|]. apply tim_send_ok; [by destruct h| |cbn; lia].
    unfold hitch_encode. destruct (hitch_motion_enabled s); eight_bytes.
Qed.
(** Every call keeps its plugin fit for the session. *)
Lemma app_keeps k p : app_ok k -> plugin_ok p -> plugin_ok (app_apply k p).
Proof.
  intros Hk Hp. destruct k as [a|a| | | | |n|k|k|st|st n], p as [h|m|t|d|b]; try done; cbn in *.
  - by apply tim_keeps.
  - by apply auto_call_inv.
  - unfold button_broadcast. case_bool_decide; [|done]. destruct Hp as [H1 H2]. split; [|done]. cbn.
    destruct (bt_local_state b); [by apply in_u_wrap|done].
  - destruct Hp as [H1 H2]. split; [done|]. apply Forall_app. split; [done|]. constructor; [|constructor].
    by apply button_payload_ok.
Qed.

(** ** A stop reaches everything *)

Definition all_stopped (ps : list AnyPlugin) : Prop := forall a, PAutoDrive a ∈ ps -> stopped a.
Definition all_safe (ps : list AnyPlugin) : Prop :=
  forall t, PTim t ∈ ps -> sf_active (tm_safe_mode t) = true.
Definition peer_lost (ps : list AnyPlugin) : Prop := exists h, PHeartbeat h ∈ ps /\ any_peer_faulted h = true.
Section safety.
Context `{!Allocator}.
Abbreviation Session := (SessionCore.Session (P:=AnyPlugin)).
Lemma reacted_stopped e ps : Forall (reacted e) ps -> auto_trigger e <> None -> all_stopped ps.
Proof. intros Hr Ht a Ha. rewrite Forall_forall in Hr. exact (Hr _ Ha Ht). Qed.
Lemma reacted_safe e ps : Forall (reacted e) ps -> safe_mode_trigger (tim_reads e) <> None -> all_safe ps.
Proof. intros Hr Ht t Hin. rewrite Forall_forall in Hr. exact (Hr _ Hin Ht). Qed.
Lemma lost_condition (s : Session) : peer_lost (ses_plugins s) <-> at_condition s.
Proof.
  unfold at_condition, peer_lost. rewrite Exists_exists. split.
  - intros (h & Hin & Hf). by exists (PHeartbeat h).
  - intros ([h| | | |] & Hin & Hf); try done. by exists h.
Qed.
(** What a feed or a tick leaves, for these plugins. *)
Lemma served_stops (s s' : Session) :
  served s s' ->
  ses_pending s' = []
  /\ exists new, ses_events s' = ses_events s ++ new /\ ses_pending s `prefix_of` new
     /\ (forall e, e ∈ new -> auto_trigger e <> None -> all_stopped (ses_plugins s'))
     /\ (forall e, e ∈ new -> safe_mode_trigger (tim_reads e) <> None -> all_safe (ses_plugins s'))
     /\ (peer_lost (ses_plugins s') -> peer_lost (ses_plugins s)
         \/ all_stopped (ses_plugins s') /\ all_safe (ses_plugins s')).
Proof.
  intros [_ Hp (new & He & Hx & Hr & Hc)]. split; [done|]. exists new. rewrite Forall_forall in Hr.
  split_and!; [done..| | |].
  - intros e Hin. by eapply reacted_stopped, Hr.
  - intros e Hin. by eapply reacted_safe, Hr.
  - rewrite !lost_condition. intros Hl. destruct (Hc Hl) as [|Ha]; [by left|right].
    apply Exists_exists in Ha as (e & Hin & Ha). cbn in Ha. unfold hb_error in Ha. split.
    + eapply reacted_stopped; [by apply Hr|]. unfold auto_trigger. by rewrite Ha.
    + eapply reacted_safe; [by apply Hr|]. destruct e as [|[]| | | | | | |[]| | | |]; cbn in *; try done; by rewrite Ha.
Qed.
End safety.

(** ** A session that stops *)

Fixpoint ses_run `{!Allocator} (ks : list (SessCall (P:=AnyPlugin))) (s : SessionCore.Session (P:=AnyPlugin))
    : option (SessionCore.Session (P:=AnyPlugin)) :=
  match ks with
  | [] => Some s
  | k :: ks => match ses_call k s with Ok (_, s) => ses_run ks s | Err _ => None end
  end.
Lemma ses_run_reach `{!Allocator} ks s0 s s' :
  ses_reach s0 s -> Forall (fun k => forall s, ses_call_ok k s) ks -> ses_run ks s = Some s' -> ses_reach s0 s'.
Proof.
  intros Hr Hok. revert s Hr. induction Hok as [|k ks Hk _ IH]; intros s Hr E; cbn in *; [by simplify_eq|].
  destruct (ses_call k s) as [[[] s1]|] eqn:Ec; [|done]. eapply IH; [|done]. by eapply reach_call.
Qed.
(** Peer 7 sends one heartbeat, and ticks every 100 ms hear no other. *)
Definition watched : list AnyPlugin :=
  [PHeartbeat (every 100); PTim (Tim_new (TimAuthority_new [])); PAutoDrive fresh_auto].
Definition heartbeat_frame : Frame :=
  FrameOps.new8 (Identifier.encode Priority.Default PGN_HEARTBEAT 7 BROADCAST_ADDRESS)
    [5; 0xFF; 0xFF; 0xFF; 0xFF; 0xFF; 0xFF; 0xFF].
Definition watch_calls : list (SessCall (P:=AnyPlugin)) :=
  [KTick 1000000; KFeed 0 heartbeat_frame 1000000; KTick 1100000; KTick 1200000; KTick 1300000].
Definition some_peer_lost (ps : list AnyPlugin) : bool :=
  existsb (fun p => match p with PHeartbeat h => any_peer_faulted h | _ => false end) ps.
Lemma some_peer_lost_spec ps : some_peer_lost ps = true -> peer_lost ps.
Proof.
  unfold some_peer_lost. rewrite existsb_exists. intros ([h| | | |] & Hin & Hf); try done.
  exists h. split; [by apply list_elem_of_In|done].
Qed.
Lemma watched_ok : Forall any_ok watched.
Proof.
  unfold watched. apply Forall_cons_2; [|apply Forall_cons_2; [|apply Forall_cons_2; [|apply Forall_nil_2]]].
  - cbn. unfold in_u, hb_seq.INIT. lia.
  - apply Forall_nil_2.
  - apply auto_inv_config.
Qed.
Lemma sample_name_ok : Name.wf sample_name.
Proof. by vm_compute. Qed.
Lemma in_u_80 : in_u 8 0x80.
Proof. done. Qed.
Lemma watch_calls_ok : Forall (fun k => forall s, ses_call_ok k s) watch_calls.
Proof.
  assert (Hf : FrameOps.wf heartbeat_frame).
  { apply wf_new8; [by unfold in_u..|done|]. by (repeat (apply Forall_cons; split; [by unfold in_u|])). }
  repeat (apply Forall_cons_2; [done|]). apply Forall_nil_2.
Qed.
(** The build, the calls and a last tick, and whether a peer is then lost. *)
Definition watch_check (built : Result (Result (SessionCore.Session (P:=AnyPlugin)) Error.t) SessionFault) : bool :=
  match built with
  | Ok (Ok s0) =>
      match ses_run (H := granting) watch_calls s0 with
      | Some s =>
          match ses_call (H := granting) (KTick 1400000) s with
          | Ok (_, s') => some_peer_lost (ses_plugins s')
          | Err _ => false
          end
      | None => false
      end
  | _ => false
  end.
Lemma watch_check_split built :
  watch_check built = true ->
  exists s0 s s', built = Ok (Ok s0) /\ ses_reach (H := granting) s0 s
    /\ ses_call (H := granting) (KTick 1400000) s = Ok (tt, s') /\ peer_lost (ses_plugins s').
Proof.
  unfold watch_check. destruct built as [[s0|]|]; [|done..]. destruct (ses_run watch_calls s0) as [s|] eqn:Er; [|done].
  destruct (ses_call (KTick 1400000) s) as [[[] s']|] eqn:Ek; [|done]. intros Hl. exists s0, s, s'.
  split_and!; [done| |done|by apply some_peer_lost_spec].
  eapply ses_run_reach; [apply reach_start|apply watch_calls_ok|exact Er].
Qed.
Lemma watch_checked : watch_check (session_build sample_name 0x80 watched NetworkConfig_default) = true.
Proof. vm_compute. reflexivity. Qed.
