(* ===== verification/SessionDriver.v ===== *)
(** The driver: the model of [src/session/driver.rs] and of the trait [CanTransport] of
    [src/net/can_transport.rs].

    A pump feeds the session what the transport received, reports the bus state, ticks, sends what
    the session queued and hands the events to the application. *)
From stdpp Require Import gmap.
From S2P Require Export SessionPlugins.
#[local] Open Scope Z_scope.

(** [CanTransport], whose error becomes an [Error].  A transport has a finite number of frames
    waiting, and the frames are values of their type. *)
Class Transport (T : Type) : Type := {
  tr_recv : T -> T * option (Z * Frame);
  tr_send : T -> Z -> Frame -> T * Result unit Error.t;
  tr_bus_state : T -> Z -> option BusState;
  tr_waiting : T -> nat;
  tr_recv_waiting t t' x : tr_recv t = (t', Some x) -> (tr_waiting t' < tr_waiting t)%nat;
  tr_recv_typed t t' port f : tr_recv t = (t', Some (port, f)) -> FrameOps.wf f
}.
(** [EndpointTransport]: an endpoint of the driver crate, which tells its bus state, on one port. *)
Class BusStateEndpoint (E : Type) : Type := ep_bus_state : E -> BusState.
Record EndpointTransport (E : Type) : Type := mkEndpointTransport { et_port : Z; et_endpoint : E }.
Arguments mkEndpointTransport {E}.
Arguments et_port {E}.
Arguments et_endpoint {E}.
Section endpoint.
Context {E : Type} `{!CanEndpoint E} `{!BusStateEndpoint E}.
(** Frames that are no frames of the network are skipped; the fuel is what waits. *)
Fixpoint et_recv_loop (fuel : nat) (ep : E) : E * option Frame :=
  match fuel with
  | O => (ep, None)
  | Datatypes.S fuel =>
      match ep_recv ep with
      | (ep, None) => (ep, None)
      | (ep, Some can) =>
          match FrameOps.from_can_frame can with
          | Some frame => (ep, Some frame)
          | None => et_recv_loop fuel ep
          end
      end
  end.
Definition et_recv (t : EndpointTransport E) : EndpointTransport E * option (Z * Frame) :=
  let '(ep, f) := et_recv_loop (Datatypes.S (ep_waiting (et_endpoint t))) (et_endpoint t) in
  (mkEndpointTransport (et_port t) ep, pair (et_port t) <$> f).
Definition et_send (t : EndpointTransport E) (port : Z) (f : Frame) : EndpointTransport E * Result unit Error.t :=
  let '(ep, r) := ep_send (et_endpoint t) (FrameOps.to_can_frame f) in
  (mkEndpointTransport (et_port t) ep,
   match r with Ok u => Ok u | Err e => Err (Error.with_message ErrorCode.DriverError e) end).
Definition et_bus_state (t : EndpointTransport E) (port : Z) : option BusState :=
  if port =? et_port t then Some (ep_bus_state (et_endpoint t)) else None.
Lemma et_recv_loop_spec fuel (ep ep' : E) f :
  et_recv_loop fuel ep = (ep', Some f) -> (ep_waiting ep' < ep_waiting ep)%nat /\ FrameOps.wf f.
Proof.
  revert ep. induction fuel as [|fuel IH]; intros ep; cbn [et_recv_loop]; [done|].
  destruct (ep_recv ep) as [ep1 [can|]] eqn:Er; [|done]. assert (Hw := ep_recv_waiting _ _ _ Er).
  destruct (FrameOps.from_can_frame can) as [g|] eqn:Ef.
  - intros [= <- <-]. split; [done|by eapply received_wf].
  - intros H1. destruct (IH _ H1) as [H2 H3]. split; [lia|done].
Qed.
#[global, refine] Instance endpoint_transport : Transport (EndpointTransport E) := {
  tr_recv := et_recv;
  tr_send := et_send;
  tr_bus_state := et_bus_state;
  tr_waiting t := ep_waiting (et_endpoint t)
}.
Proof.
  - intros t t' x. unfold et_recv. destruct (et_recv_loop _ _) as [ep [f|]] eqn:El; intros [= <- <-].
    by apply et_recv_loop_spec in El as [? _].
  - intros t t' port f. unfold et_recv. destruct (et_recv_loop _ _) as [ep [g|]] eqn:El; intros [= <- <- <-].
    by apply et_recv_loop_spec in El as [_ ?].
Defined.
End endpoint.

Definition MAX_POLLED_PORTS : list Z := [0; 1; 2; 3].
Section driver.
Context `{!Allocator} {P : Type} `{!Plugin P} {T : Type} `{!Transport T}.
Abbreviation Session := (SessionCore.Session (P:=P)).

(** The callbacks by their ids; a callback observes. *)
Record CallbackRegistry : Type := mkRegistry { cr_next_id : Z; cr_callbacks : list Z }.
Definition CallbackRegistry_default : CallbackRegistry := mkRegistry 0 [].
(** [None]: the ids overflow. *)
Definition registry_add (r : CallbackRegistry) : option (CallbackRegistry * Z) :=
  next_id ← checked_add 64 (cr_next_id r) 1;
  Some (mkRegistry next_id (cr_callbacks r ++ [cr_next_id r]), cr_next_id r).
Definition registry_remove (id : Z) (r : CallbackRegistry) : CallbackRegistry :=
  mkRegistry (cr_next_id r) (filter (fun cid => cid <> id) (cr_callbacks r)).
(** Which callbacks are called with the event, in order. *)
Definition registry_dispatch (event : Event) (r : CallbackRegistry) : list (Z * Event) :=
  (fun id => (id, event)) <$> cr_callbacks r.
Record Driver : Type := mkDriver {
  dr_session : Session;
  dr_transport : T;
  dr_callbacks : CallbackRegistry;
  dr_confinement : list (Z * FaultConfinementMonitor);
  dr_log : list (Z * Event)
}.
Definition dr_with_session (v : Session) (d : Driver) : Driver :=
  mkDriver v (dr_transport d) (dr_callbacks d) (dr_confinement d) (dr_log d).
Definition dr_with_transport (v : T) (d : Driver) : Driver :=
  mkDriver (dr_session d) v (dr_callbacks d) (dr_confinement d) (dr_log d).
Definition dr_with_callbacks (v : CallbackRegistry) (d : Driver) : Driver :=
  mkDriver (dr_session d) (dr_transport d) v (dr_confinement d) (dr_log d).
Definition dr_with_confinement (v : list (Z * FaultConfinementMonitor)) (d : Driver) : Driver :=
  mkDriver (dr_session d) (dr_transport d) (dr_callbacks d) v (dr_log d).
Definition dr_with_log (v : list (Z * Event)) (d : Driver) : Driver :=
  mkDriver (dr_session d) (dr_transport d) (dr_callbacks d) (dr_confinement d) v.
Definition Driver_new (session : Session) (transport : T) : Driver :=
  mkDriver session transport CallbackRegistry_default [] [].
(** [spawn]. *)
Definition spawn (name : Name.t) (preferred : Address) (ps : list P) (config : NetworkConfig) (transport : T)
    : Result (Result Driver Error.t) SessionFault :=
  match session_build name preferred ps config with
  | Err f => Err f
  | Ok (Err e) => Ok (Err e)
  | Ok (Ok s) => Ok (Ok (Driver_new s transport))
  end.

Definition D (A : Type) : Type := Driver -> Result (A * Driver) SessionFault.
#[global] Instance drv_ret : MRet D := fun A a d => Ok (a, d).
#[global] Instance drv_bind : MBind D := fun A B k m d =>
  match m d with Ok (a, d) => k a d | Err e => Err e end.
Definition get_driver : D Driver := fun d => Ok (d, d).
Definition drv_modify (f : Driver -> Driver) : D unit := fun d => Ok (tt, f d).
(** A call on the session the driver shares with its [Controls]. *)
Definition on_session {A} (m : S (P:=P) A) : D A := fun d =>
  match m (dr_session d) with
  | Ok (a, s) => Ok (a, dr_with_session s d)
  | Err f => Err f
  end.

(** ** [poll_bus_state] *)

Definition monitor_of (port : Z) (l : list (Z * FaultConfinementMonitor)) : option FaultConfinementMonitor :=
  snd <$> List.find (fun e => e.1 =? port) l.
Definition ensure_monitor (port : Z) (l : list (Z * FaultConfinementMonitor)) : list (Z * FaultConfinementMonitor) :=
  if existsb (fun e : Z * FaultConfinementMonitor => e.1 =? port) l then l
  else l ++ [(port, FaultConfinementMonitor_new)].
Fixpoint set_monitor (port : Z) (m : FaultConfinementMonitor) (l : list (Z * FaultConfinementMonitor))
    : list (Z * FaultConfinementMonitor) :=
  match l with
  | [] => []
  | e :: l => if e.1 =? port then (port, m) :: l else e :: set_monitor port m l
  end.
(** [None] is the [expect] of the code. *)
Definition observe_port (port : Z) (state : BusState) (l : list (Z * FaultConfinementMonitor))
    : option (list (Z * FaultConfinementMonitor) * option FaultConfinementAction.t) :=
  let l := ensure_monitor port l in
  m ← monitor_of port l;
  let '(m, action) := monitor_observe state m in Some (set_monitor port m l, action).
Definition poll_port (port : Z) : D unit :=
  d ← get_driver;
  match tr_bus_state (dr_transport d) port with
  | None => mret tt
  | Some state =>
      '(l, action) ← on_session (of_plugins (observe_port port state (dr_confinement d)));
      _ ← drv_modify (dr_with_confinement l);
      match action with
      | Some action => on_session (ses_push_event (EvBus (ConfinementChanged port action)))
      | None => mret tt
      end
  end.
Fixpoint poll_ports (ports : list Z) : D unit :=
  match ports with [] => mret tt | port :: ports => _ ← poll_port port; poll_ports ports end.
Definition poll_bus_state : D unit := poll_ports MAX_POLLED_PORTS.

(** ** The pump *)

(** What is received, to the session; the fuel is the number of frames waiting. *)
Fixpoint feed_received (fuel : nat) (now : Instant.t) : D unit :=
  d ← get_driver;
  match tr_recv (dr_transport d) with
  | (t, None) => drv_modify (dr_with_transport t)
  | (t, Some (port, frame)) =>
      match fuel with
      | O => on_session (of_plugins None)
      | Datatypes.S fuel =>
          _ ← drv_modify (dr_with_transport t);
          _ ← on_session (ses_feed port frame now);
          feed_received fuel now
      end
  end.
(** What is queued, to the transport; the fuel is the number of frames queued. *)
Fixpoint send_queued (fuel : nat) : D (Result unit Error.t) :=
  x ← on_session poll_transmit;
  match x with
  | None => mret (Ok tt)
  | Some (port, frame) =>
      match fuel with
      | O => on_session (of_plugins None)
      | Datatypes.S fuel =>
          d ← get_driver;
          let '(t, r) := tr_send (dr_transport d) port frame in
          _ ← drv_modify (dr_with_transport t);
          match r with Err e => mret (Err e) | Ok _ => send_queued fuel end
      end
  end.
Definition cycle (now : Instant.t) : D (Result unit Error.t) :=
  d ← get_driver;
  _ ← feed_received (tr_waiting (dr_transport d)) now;
  _ ← poll_bus_state;
  _ ← on_session (ses_tick now);
  d ← get_driver;
  send_queued (length (outbound (ses_net (dr_session d)))).
(** The events to the callbacks; the fuel is the number of events queued. *)
Fixpoint surface (fuel : nat) (count : Z) : D Z :=
  x ← on_session poll_event;
  match x with
  | None => mret count
  | Some event =>
      match fuel with
      | O => on_session (of_plugins None)
      | Datatypes.S fuel =>
          _ ← drv_modify (fun d => dr_with_log (dr_log d ++ registry_dispatch event (dr_callbacks d)) d);
          surface fuel (count + 1)
      end
  end.
Definition pump_at (now : Instant.t) : D (Result Z Error.t) :=
  r ← cycle now;
  match r with
  | Err e => mret (Err e)
  | Ok _ =>
      d ← get_driver;
      count ← surface (length (ses_events (dr_session d))) 0;
      mret (Ok count)
  end.
Definition poll_at (now : Instant.t) : D (Result (option Event) Error.t) :=
  r ← cycle now;
  match r with
  | Err e => mret (Err e)
  | Ok _ => event ← on_session poll_event; mret (Ok event)
  end.
Definition drv_on_event : D Z :=
  d ← get_driver;
  '(r, id) ← on_session (of_plugins (registry_add (dr_callbacks d)));
  _ ← drv_modify (dr_with_callbacks r); mret id.
(** A [Subscription] is dropped. *)
Definition unsubscribe (id : Z) : D unit :=
  drv_modify (fun d => dr_with_callbacks (registry_remove id (dr_callbacks d)) d).
End driver.

(** ** The pump, proved *)

Section proofs.
Context `{!Allocator} {P : Type} `{!Plugin P} `{!PluginLaws P} {T : Type} `{!Transport T}.
Abbreviation Driver := (Driver (P:=P) (T:=T)).
Abbreviation D := (D (P:=P) (T:=T)).

(** The call returns, or a frame counter of the network is at its maximum. *)
Definition dwp {A} (m : D A) (Q : A -> Driver -> Prop) (d : Driver) : Prop :=
  match m d with
  | Ok (a, d') => Q a d'
  | Err (NetFault (CounterExhausted n)) => exhausted n
  | Err _ => False
  end.
Lemma dwp_seq {A B} (m : D A) (k : A -> D B) R Q d :
  dwp m R d -> (forall a d', R a d' -> dwp (k a) Q d') -> dwp (m ≫= k) Q d.
Proof. unfold dwp, mbind, drv_bind. intros Hm Hk. destruct (m d) as [[a d']|[[|]|]]; try done. by apply Hk. Qed.
Lemma dwp_bind {A B} (m : D A) (k : A -> D B) Q d : dwp m (fun a => dwp (k a) Q) d -> dwp (m ≫= k) Q d.
Proof. intros Hm. by eapply dwp_seq. Qed.
Lemma dwp_mono {A} (m : D A) (Q R : A -> Driver -> Prop) d :
  (forall a d', Q a d' -> R a d') -> dwp m Q d -> dwp m R d.
Proof. unfold dwp. destruct (m d) as [[a d']|[[|]|]]; auto. Qed.
Lemma dwp_ret {A} (a : A) (Q : A -> Driver -> Prop) d : Q a d -> dwp (mret a) Q d.
Proof. done. Qed.
Lemma dwp_get Q d : Q d d -> dwp get_driver Q d.
Proof. done. Qed.
Lemma dwp_modify f (Q : unit -> Driver -> Prop) d : Q tt (f d) -> dwp (drv_modify f) Q d.
Proof. done. Qed.
Lemma dwp_session {A} (m : S (P:=P) A) (Q : A -> Driver -> Prop) d :
  swp m (fun a s => Q a (dr_with_session s d)) (dr_session d) -> dwp (on_session m) Q d.
Proof. unfold swp, dwp, on_session. by destruct (m (dr_session d)) as [[a s]|[[|]|]]. Qed.

(** *** Receiving *)

(** The transport once everything waiting is received. *)
Fixpoint received_from (fuel : nat) (t : T) : T :=
  match tr_recv t with
  | (t, None) => t
  | (t, Some _) => match fuel with O => t | Datatypes.S fuel => received_from fuel t end
  end.
Definition received (t : T) : T := received_from (tr_waiting t) t.
(** The same driver but for its session and transport, with events added at most. *)
Record drv_same (d d' : Driver) : Prop := {
  ds_inv : ses_inv (dr_session d');
  ds_callbacks : dr_callbacks d' = dr_callbacks d;
  ds_log : dr_log d' = dr_log d;
  ds_events : ses_events (dr_session d) `prefix_of` ses_events (dr_session d')
}.
Lemma feed_received_spec fuel now d :
  ses_inv (dr_session d) -> (tr_waiting (dr_transport d) <= fuel)%nat ->
  dwp (feed_received fuel now) (fun _ d' => drv_same d d' /\ dr_confinement d' = dr_confinement d
                                  /\ dr_transport d' = received_from fuel (dr_transport d)) d.
Proof.
  revert d. induction fuel as [|fuel IH]; intros d Hs Hf; cbn [feed_received received_from];
    apply dwp_bind, dwp_get; destruct (tr_recv (dr_transport d)) as [t [[port f]|]] eqn:Er;
    try (by apply dwp_modify).
  - apply tr_recv_waiting in Er. lia.
  - assert (Hw := tr_recv_waiting _ _ _ Er). assert (Ht := tr_recv_typed _ _ _ _ Er).
    apply dwp_bind, dwp_modify. apply dwp_bind, dwp_session.
    eapply swp_mono; [|apply (ses_feed_spec port f now); [exact Hs|done]]. intros [] s1 [I1 _ (new & E1 & _)].
    eapply dwp_mono; [|apply IH; [exact I1|cbn; lia]]. intros [] d' ([I2 C2 L2 E2] & F2 & T2). cbn in *.
    split; [|by split]. split; [done..|]. etrans; [|exact E2]. rewrite E1. by eexists.
Qed.

(** *** The bus state *)

Definition action_of (port : Z) (l : list (Z * FaultConfinementMonitor)) : FaultConfinementAction.t :=
  match monitor_of port l with Some m => fm_action m | None => FaultConfinementAction.Normal end.
Lemma ensure_monitor_spec port l :
  exists m, monitor_of port (ensure_monitor port l) = Some m /\ fm_action m = action_of port l
    /\ forall q, q <> port -> monitor_of q (ensure_monitor port l) = monitor_of q l.
Proof.
  unfold action_of, ensure_monitor, monitor_of. induction l as [|e l IH]; cbn.
  - rewrite Z.eqb_refl. eexists. split_and!; [done..|]. intros q Hq. by rewrite (proj2 (Z.eqb_neq port q)) by congruence.
  - destruct (Z.eqb_spec e.1 port) as [He|Hn]; cbn.
    + rewrite (proj2 (Z.eqb_eq e.1 port)) by done. by exists e.2.
    + destruct IH as (m & H1 & H2 & H3). destruct (existsb _ l) eqn:Ex.
      * cbn. rewrite (proj2 (Z.eqb_neq e.1 port)) by done. exists m. split_and!; [done..|].
        intros q Hq. by destruct (e.1 =? q).
      * cbn. rewrite (proj2 (Z.eqb_neq e.1 port)) by done. exists m. split_and!; [done..|].
        intros q Hq. cbn. destruct (e.1 =? q); [done|]. by apply H3.
Qed.
Lemma monitor_of_set port m q l :
  monitor_of q (set_monitor port m l)
  = if q =? port then (fun _ => m) <$> monitor_of port l else monitor_of q l.
Proof.
  unfold monitor_of. induction l as [|e l IH]; cbn [set_monitor]; [by destruct (q =? port)|].
  cbn. destruct (Z.eqb_spec e.1 port) as [He|He]; cbn.
  - rewrite (Z.eqb_sym port q). destruct (Z.eqb_spec q port) as [->|Hq]; [done|].
    rewrite (proj2 (Z.eqb_neq e.1 q)) by congruence. done.
  - destruct (Z.eqb_spec e.1 q) as [<-|Hq]; [by rewrite (proj2 (Z.eqb_neq e.1 port))|]. exact IH.
Qed.
Lemma observe_port_spec port state l :
  exists l', observe_port port state l
             = Some (l', if bool_decide (fault_confinement_action state = action_of port l) then None
                         else Some (fault_confinement_action state))
    /\ action_of port l' = fault_confinement_action state
    /\ forall q, q <> port -> action_of q l' = action_of q l.
Proof.
  unfold observe_port. cbv zeta. destruct (ensure_monitor_spec port l) as (m & H1 & H2 & H3). rewrite H1.
  cbn [mbind option_bind]. unfold monitor_observe. rewrite H2.
  assert (Hset : forall m' q, action_of q (set_monitor port m' (ensure_monitor port l))
                              = if q =? port then fm_action m' else action_of q l).
  { intros m' q. unfold action_of. rewrite monitor_of_set. destruct (Z.eqb_spec q port) as [->|Hq]; [by rewrite H1|].
    by rewrite H3. }
  case_bool_decide as Hd; eexists; (split; [done|]); rewrite Hset, Z.eqb_refl;
    (split; [cbn; congruence|]); intros q Hq; by rewrite Hset, (proj2 (Z.eqb_neq q port)).
Qed.
(** A poll of ports: what changed is pending, and the monitors hold what the transport says. *)
Record polled (ports : list Z) (d d' : Driver) : Prop := {
  po_same : drv_same d d';
  po_plugins : ses_plugins (dr_session d') = ses_plugins (dr_session d);
  po_transport : dr_transport d' = dr_transport d;
  po_pending : ses_pending (dr_session d) `prefix_of` ses_pending (dr_session d');
  po_action port state : port ∈ ports -> tr_bus_state (dr_transport d) port = Some state ->
    action_of port (dr_confinement d') = fault_confinement_action state
    /\ (fault_confinement_action state <> action_of port (dr_confinement d) ->
        EvBus (ConfinementChanged port (fault_confinement_action state)) ∈ ses_pending (dr_session d'));
  po_other port : port ∉ ports -> action_of port (dr_confinement d') = action_of port (dr_confinement d)
}.
Lemma poll_port_spec port d : ses_inv (dr_session d) -> dwp (poll_port port) (fun _ d' => polled [port] d d') d.
Proof.
  intros Hs. apply dwp_bind, dwp_get. destruct (tr_bus_state _ port) as [state|] eqn:Et.
  2:{ apply dwp_ret. split; try done. intros q st ->%list_elem_of_singleton. congruence. }
  destruct (observe_port_spec port state (dr_confinement d)) as (l & E & H1 & H2). unfold of_plugins. rewrite E.
  apply dwp_bind, dwp_session. unfold swp. apply dwp_bind, dwp_modify.
  assert (Hin : forall q st, q ∈ [port] -> tr_bus_state (dr_transport d) q = Some st -> q = port /\ st = state).
  { intros q st ->%list_elem_of_singleton ?. split; congruence. }
  case_bool_decide as Hd; [apply dwp_ret|apply dwp_session, swp_modify]; split; cbn; try done.
  - intros q st Hq Hst. destruct (Hin q st Hq Hst) as [-> ->]. by split.
  - intros q Hq. apply H2. intros ->. by apply Hq, list_elem_of_singleton.
  - split; try done. by destruct Hs; split.
  - by eexists.
  - intros q st Hq Hst. destruct (Hin q st Hq Hst) as [-> ->]. split; [done|]. intros _.
    apply elem_of_app. right. by apply list_elem_of_singleton.
  - intros q Hq. apply H2. intros ->. by apply Hq, list_elem_of_singleton.
Qed.
Lemma prefix_elem {A} (x : A) l l' : l `prefix_of` l' -> x ∈ l -> x ∈ l'.
Proof. intros [k ->] Hx. apply elem_of_app. by left. Qed.
Lemma drv_same_trans d1 d2 d3 : drv_same d1 d2 -> drv_same d2 d3 -> drv_same d1 d3.
Proof. intros [_ C1 L1 E1] [I C2 L2 E2]. split; [done|congruence..|by etrans]. Qed.
Lemma poll_ports_spec ports d :
  NoDup ports -> ses_inv (dr_session d) -> dwp (poll_ports ports) (fun _ d' => polled ports d d') d.
Proof.
  intros Hnd. revert d. induction Hnd as [|port ports Hnot Hnd IH]; intros d Hs; cbn [poll_ports].
  { apply dwp_ret. split; try done. by intros q st ?%elem_of_nil. }
  eapply dwp_seq; [by apply poll_port_spec|]. intros [] d1 H1. eapply dwp_mono; [|apply IH, H1].
  intros [] d2 H2. destruct H1 as [S1 G1 T1 P1 A1 O1], H2 as [S2 G2 T2 P2 A2 O2].
  split; [by eapply drv_same_trans|congruence|congruence|by etrans| |].
  - intros q st [->|Hq]%elem_of_cons Hst.
    + destruct (A1 port st) as [H3 H4]; [by apply list_elem_of_singleton|done|]. rewrite O2 by done.
      split; [done|]. intros Hd. eapply prefix_elem; [exact P2|auto].
    + rewrite <-T1 in Hst. destruct (A2 q st Hq Hst) as [H3 H4]. split; [done|]. rewrite O1 in H4; [done|].
      intros ->%list_elem_of_singleton. done.
  - intros q [Hq1 Hq2]%not_elem_of_cons. rewrite O2 by done. apply O1. by rewrite list_elem_of_singleton.
Qed.

(** *** Sending *)

Lemma poll_transmit_spec (s : Session (P:=P)) :
  ses_inv s ->
  swp poll_transmit
    (fun x s' => ses_inv s' /\ ses_plugins s' = ses_plugins s /\ ses_events s' = ses_events s
       /\ match x with
          | Some y => outbound (ses_net s) = y :: outbound (ses_net s')
          | None => outbound (ses_net s') = []
          end) s.
Proof.
  intros Hs. destruct Hs as [Hn Ht Hp].
  assert (Ht' : forall n : IsoNet, net_inv n -> net_inv (set_trace [] n)) by (intros; by apply net_inv_trace).
  unfold swp, poll_transmit, net_call, take_outbound, mbind, net_bind, get_net.
  destruct (outbound (ses_net s)) as [|x l] eqn:Eo; cbn.
  - split_and!; try done. split; [by apply Ht'|done..].
  - split_and!; try done. split; [|done..]. cbn. apply Ht'. destruct Hn. by split.
Qed.
Record drv_sent (d d' : Driver) : Prop := {
  dn_same : drv_same d d';
  dn_plugins : ses_plugins (dr_session d') = ses_plugins (dr_session d);
  dn_events : ses_events (dr_session d') = ses_events (dr_session d);
  dn_confinement : dr_confinement d' = dr_confinement d
}.
Lemma send_queued_spec fuel d :
  ses_inv (dr_session d) -> (length (outbound (ses_net (dr_session d))) <= fuel)%nat ->
  dwp (send_queued fuel)
    (fun r d' => drv_sent d d' /\ (r = Ok tt -> outbound (ses_net (dr_session d')) = [])) d.
Proof.
  revert d. induction fuel as [|fuel IH]; intros d Hs Hf; cbn [send_queued];
    apply dwp_bind, dwp_session; (eapply swp_mono; [|by apply poll_transmit_spec]);
    intros [[port f]|] s1 (I1 & P1 & E1 & O1);
    (assert (S1 : drv_sent d (dr_with_session s1 d)) by (split; try done; split; try done; cbn; by rewrite E1));
    try (by apply dwp_ret); rewrite O1 in Hf; cbn in Hf; [lia|].
  apply dwp_bind, dwp_get. destruct (tr_send _ port f) as [t r]. apply dwp_bind, dwp_modify.
  assert (S2 : drv_sent d (dr_with_transport t (dr_with_session s1 d))).
  { destruct S1 as [[] ? ? ?]. by split. }
  destruct r as [u|e]; [|by apply dwp_ret].
  eapply dwp_mono; [|apply IH; [exact I1|cbn; lia]]. intros r d' [[S3 P3 E3 F3] O3]. split; [|done].
  destruct S2 as [S2 P2 E2 F2]. split; [by eapply drv_same_trans|congruence..].
Qed.
(** What one cycle does: the bus states are observed, every change of them is an event that every
    plugin has seen when it ends, and unless the transport refuses a frame nothing stays queued. *)
Record cycled (d : Driver) (r : Result unit Error.t) (d' : Driver) : Prop := {
  cy_same : drv_same d d';
  cy_ports port state : port ∈ MAX_POLLED_PORTS -> tr_bus_state (received (dr_transport d)) port = Some state ->
    action_of port (dr_confinement d') = fault_confinement_action state
    /\ (fault_confinement_action state <> action_of port (dr_confinement d) ->
        EvBus (ConfinementChanged port (fault_confinement_action state)) ∈ ses_events (dr_session d')
        /\ Forall (reacted (EvBus (ConfinementChanged port (fault_confinement_action state))))
             (ses_plugins (dr_session d')));
  cy_sent : r = Ok tt -> outbound (ses_net (dr_session d')) = []
}.
Lemma cycle_spec now d : ses_inv (dr_session d) -> dwp (cycle now) (cycled d) d.
Proof.
  intros Hs. apply dwp_bind, dwp_get. eapply dwp_seq; [by apply feed_received_spec|].
  intros [] d1 (S1 & F1 & T1). eapply dwp_seq.
  { apply poll_ports_spec; [|apply S1]. by apply (bool_decide_unpack _). }
  intros [] d2 [S2 _ T2 _ A2 _]. apply dwp_bind, dwp_session.
  eapply swp_mono; [|apply ses_tick_spec, S2]. intros [] s3 [I3 _ (new & E3 & X3 & R3 & _)].
  apply dwp_bind, dwp_get. eapply dwp_mono; [|by apply send_queued_spec].
  intros r d4 [[S4 P4 E4 F4] O4].
  assert (S3 : drv_same d2 (dr_with_session s3 d2)) by (split; try done; cbn; rewrite E3; by eexists).
  split; [|  |exact O4].
  - do 3 (eapply drv_same_trans; [done|]). done.
  - intros port state Hin Hst. destruct (A2 port state Hin) as [H1 H2]; [by rewrite T1|].
    rewrite F4. split; [exact H1|]. intros Hd. rewrite F1 in H2. apply H2 in Hd.
    apply (prefix_elem _ _ _ X3) in Hd. rewrite E4, P4. cbn. split; [|rewrite Forall_forall in R3; by apply R3].
    rewrite E3. apply elem_of_app. by right.
Qed.

(** *** Surfacing *)

Lemma poll_event_spec (s : Session (P:=P)) :
  ses_inv s ->
  swp poll_event
    (fun x s' => ses_inv s' /\ ses_plugins s' = ses_plugins s /\ ses_net s' = ses_net s
       /\ match x with
          | Some e => ses_events s = e :: ses_events s'
          | None => ses_events s = [] /\ ses_events s' = []
          end) s.
Proof.
  intros Hs. apply swp_bind, swp_get. destruct (ses_events s) as [|e l] eqn:E; [by apply swp_ret|].
  apply swp_bind, swp_modify, swp_ret. split_and!; try done. by destruct Hs; split.
Qed.
Definition dispatched (events : list Event) (r : CallbackRegistry) : list (Z * Event) :=
  events ≫= fun e => registry_dispatch e r.
Lemma surface_spec fuel count d :
  ses_inv (dr_session d) -> (length (ses_events (dr_session d)) <= fuel)%nat ->
  dwp (surface fuel count)
    (fun n d' => ses_inv (dr_session d') /\ ses_plugins (dr_session d') = ses_plugins (dr_session d)
       /\ ses_events (dr_session d') = [] /\ ses_net (dr_session d') = ses_net (dr_session d)
       /\ dr_confinement d' = dr_confinement d
       /\ dr_log d' = dr_log d ++ dispatched (ses_events (dr_session d)) (dr_callbacks d)
       /\ n = count + Z.of_nat (length (ses_events (dr_session d)))) d.
Proof.
  revert count d. induction fuel as [|fuel IH]; intros count d Hs Hf; cbn [surface];
    apply dwp_bind, dwp_session; (eapply swp_mono; [|by apply poll_event_spec]);
    intros [e|] s1 (I1 & P1 & N1 & E1);
    try (destruct E1 as [E1 E2]; apply dwp_ret; rewrite E1; cbn; rewrite app_nil_r; split_and!; try done; lia);
    rewrite E1 in *; cbn in Hf; [lia|].
  apply dwp_bind, dwp_modify. eapply dwp_mono; [|apply IH; [exact I1|cbn; lia]].
  intros n d' (I2 & P2 & E2 & N2 & F2 & L2 & ->). cbn in *. split_and!; try done; [congruence|congruence| |lia].
  rewrite L2, <-app_assoc. done.
Qed.

(** *** Every call *)

(** The calls of a driver and of its [Controls]; a call of [Controls] is one on the session. *)
Inductive DriverCall : Type :=
| VPump (now : Instant.t) | VPoll (now : Instant.t)
| VControl (k : SessCall (P:=P))
| VOnEvent
| VUnsubscribe (id : Z).
Definition drv_discard {A} (m : D A) : D unit := _ ← m; mret tt.
Definition drv_call (k : DriverCall) : D unit :=
  match k with
  | VPump now => drv_discard (pump_at now)
  | VPoll now => drv_discard (poll_at now)
  | VControl k => on_session (ses_call k)
  | VOnEvent => drv_discard drv_on_event
  | VUnsubscribe id => unsubscribe id
  end.
Definition drv_call_ok (k : DriverCall) (d : Driver) : Prop :=
  match k with VControl k => ses_call_ok k (dr_session d) | _ => True end.
Inductive drv_reach (d0 : Driver) : Driver -> Prop :=
| drv_reach_start : drv_reach d0 d0
| drv_reach_call d k d' : drv_reach d0 d -> drv_call_ok k d -> drv_call k d = Ok (tt, d') -> drv_reach d0 d'.
(** A pump: the cycle, and then everything queued goes to the callbacks. *)
Record pumped (d : Driver) (r : Result Z Error.t) (d' : Driver) : Prop := {
  pu_inv : ses_inv (dr_session d');
  pu_ports port state : port ∈ MAX_POLLED_PORTS -> tr_bus_state (received (dr_transport d)) port = Some state ->
    action_of port (dr_confinement d') = fault_confinement_action state
    /\ (fault_confinement_action state <> action_of port (dr_confinement d) ->
        Forall (reacted (EvBus (ConfinementChanged port (fault_confinement_action state))))
          (ses_plugins (dr_session d')));
  pu_events count : r = Ok count ->
    ses_events (dr_session d') = [] /\ outbound (ses_net (dr_session d')) = []
    /\ exists es, ses_events (dr_session d) `prefix_of` es /\ count = Z.of_nat (length es)
         /\ dr_log d' = dr_log d ++ dispatched es (dr_callbacks d)
         /\ forall port state, port ∈ MAX_POLLED_PORTS ->
              tr_bus_state (received (dr_transport d)) port = Some state ->
              fault_confinement_action state <> action_of port (dr_confinement d) ->
              EvBus (ConfinementChanged port (fault_confinement_action state)) ∈ es
}.
Lemma pump_spec now d : ses_inv (dr_session d) -> dwp (pump_at now) (pumped d) d.
Proof.
  intros Hs. eapply dwp_seq; [by apply cycle_spec|]. intros [u|e] d1 [[I1 C1 L1 X1] A1 O1].
  - apply dwp_bind, dwp_get. eapply dwp_seq; [by apply surface_spec|].
    intros n d2 (I2 & P2 & E2 & N2 & F2 & L2 & ->). apply dwp_ret. split; [done| |].
    + intros port state Hin Hst. destruct (A1 port state Hin Hst) as [H1 H2]. rewrite F2, P2. split; [done|].
      intros Hd. by apply H2.
    + intros count [= <-]. destruct u. split_and!; [done|rewrite N2; by apply O1|].
      exists (ses_events (dr_session d1)). rewrite L2, L1, C1. split_and!; try done.
      intros port state Hin Hst Hd. by apply A1.
  - apply dwp_ret. split; [done| |done]. intros port state Hin Hst.
    destruct (A1 port state Hin Hst) as [H1 H2]. split; [done|]. intros Hd. by apply H2.
Qed.
Lemma dwp_discard {A} (m : D A) (Q : Driver -> Prop) d : dwp m (fun _ => Q) d -> dwp (drv_discard m) (fun _ => Q) d.
Proof. intros Hm. eapply dwp_seq; [exact Hm|]. intros a d' H'. by apply dwp_ret. Qed.
Lemma reach_driver_inv d0 d : ses_inv (dr_session d0) -> drv_reach d0 d -> ses_inv (dr_session d).
Proof.
  intros H0. induction 1 as [|d k d' _ IH Hk E]; [done|].
  destruct k as [now|now|k| |id]; cbn [drv_call drv_call_ok] in *.
  - assert (H1 := dwp_discard _ _ _ (dwp_mono _ _ (fun _ d => ses_inv (dr_session d)) _ (fun r d' H => pu_inv _ r d' H) (pump_spec now d IH))).
    unfold dwp in H1. by rewrite E in H1.
  - assert (H1 : dwp (drv_discard (poll_at now)) (fun _ d => ses_inv (dr_session d)) d).
    { apply dwp_discard. eapply dwp_seq; [by apply cycle_spec|]. intros [u|e] d1 [S1 _ _]; [|apply dwp_ret, S1].
      apply dwp_bind, dwp_session. eapply swp_mono; [|apply poll_event_spec, S1].
      intros x s (I & _). by apply dwp_ret. }
    unfold dwp in H1. by rewrite E in H1.
  - assert (H1 := ses_call_spec k (dr_session d) IH Hk). unfold swp, on_session in *.
    destruct (ses_call k (dr_session d)) as [[[] s]|]; [|done]. injection E as <-. apply H1.
  - unfold drv_discard, drv_on_event, on_session, of_plugins, mbind, drv_bind, get_driver in E.
    destruct (registry_add _) as [[r id]|]; [|done]. by injection E as <-.
  - by injection E as <-.
Qed.
End proofs.

(** ** Bus off stops the machine *)

Section stops.
Context `{!Allocator} {T : Type} `{!Transport T}.
Abbreviation Driver := (Driver (P:=AnyPlugin) (T:=T)).
End stops.

(** A controller that is off the bus: nothing comes in, nothing goes out. *)
Inductive OffTheBus : Type := off_the_bus.
#[global, refine] Instance off_the_bus_transport : Transport OffTheBus := {
  tr_recv t := (t, None);
  tr_send t _ _ := (t, Err (Error.with_message ErrorCode.DriverError "bus off"));
  tr_bus_state _ port := if port =? 0 then Some BusOff else None;
  tr_waiting _ := 0%nat
}.
Proof. all: done. Defined.
Definition off_check (built : Result (Result (Driver (P:=AnyPlugin) (T:=OffTheBus)) Error.t) SessionFault) : bool :=
  match built with
  | Ok (Ok d) => match pump_at (H := granting) 1000000 d with Ok _ => true | _ => false end
                 && bool_decide (action_of 0 (dr_confinement d) = FaultConfinementAction.Normal)
  | _ => false
  end.
Lemma off_check_split built :
  off_check built = true ->
  exists d r d', built = Ok (Ok d) /\ pump_at (H := granting) 1000000 d = Ok (r, d')
    /\ action_of 0 (dr_confinement d) = FaultConfinementAction.Normal.
Proof.
  unfold off_check. destruct built as [[d|]|]; [|done..]. destruct (pump_at 1000000 d) as [[r d']|] eqn:E; [|done].
  intros Hb%bool_decide_eq_true. by exists d, r, d'.
Qed.
Lemma off_checked : off_check (spawn sample_name 0x80 watched NetworkConfig_default off_the_bus) = true.
Proof. vm_compute. reflexivity. Qed.
